(* ===== verification/_CoqProject ===== *)
-Q . S2P
Prelude.v
CString.v
SdkVersion.v
ListApi.v
LinkList.v
Queue.v
HashTable.v
PrimitiveType.v
EsifData.v
Base64.v
ShaStd.v
Sha.v
Ids.v
AuthMgr.v
AuthRoles.v
ShellLine.v
IBinary.v
WsFrame.v
WsConn.v
IrpcCodec.v
IrpcMsg.v
IrpcServer.v
IrpcClient.v
IrpcCall.v
AppClient.v
AppServer.v
AppCall.v
Xform.v
PrimExec.v
ArbEntry.v
ArbLife.v
ArbCtx.v
ArbMgr.v
Timer.v
TimerApi.v
Upsm.v
TrxMgr.v
DataCache.v
HandleMgr.v
HandleApi.v
Participant.v
PartMgr.v
PartInv.v
PartOps.v
PartLife.v
EventCache.v
EventReg.v
Machine.v
EventRace.v
EventSignal.v
EventAdmin.v
EventSoc.v
Domain.v
DomainTemp.v
