(* ===== verification/Prelude.v ===== *)
(** * The core of the DPTF/ESIF framework

    ESIF is the C framework on which Intel's thermal and power policies (DPTF)
    run.  Applications register for events with the event manager, execute
    primitives on participants (the processor, the fan, the battery, ...), and
    the arbitrator decides between applications that ask for different values of
    one primitive.  IPF lets the applications live in other processes.  This
    library models the framework's own logic - its managers, what they share and
    how their threads interleave - and leaves aside what talks to files, sysfs,
    sockets and shared objects.

    ** The parts, the files and the code

    Paths are below src/.  Each file has the data and the operations of its part
    first, under the names of the C code, and its theorems after them.

    - Building blocks of Common/ and ESIF_CM.  LinkList.v is esif_link_list.c at
      the level of pointers; ListApi.v is the contract ([ListLaws]) that Queue.v
      (esif_queue.c) and HashTable.v (ESIF_CM esif_hash_table.c) use it by.
      Timer.v is esif_ccb_timer.c and esif_ccb_timer_lin_user.h; TimerApi.v is
      its contract ([TimerLaws]), used by Upsm.v.  HandleMgr.v is
      esif_uf_handlemgr.c, DataCache.v ESIF_LIB esif_lib_datacache.c, EsifData.v
      the part of esif_lib_esifdata.c that the others need, PrimitiveType.v the
      tables of esif_uf_primitive_type.h.  Xform.v has the units of ESIF_CM
      (esif_temp.h, esif_power.h, esif_time.h, esif_percent.h) and
      esif_uf_xform.c, which converts what a primitive reads or writes.  Base64.v
      and Sha.v are esif_sdk_base64_enc.c, esif_sdk_base64_dec.c and esif_sdk_sha.c
      of Common/; ShaStd.v is the standard FIPS 180-4 that Sha.v is compared with.
    - Arbitration, esif_uf_arbmgr.c.  ArbEntry.v: the requests for one primitive
      and their winner ([EsifArbEntry_...]).  ArbLife.v: the reference counting
      that destroys an entry.  ArbCtx.v: the entries of a participant
      ([EsifArbCtx_...]).  ArbMgr.v: the manager's calls and the thread that
      executes the queued requests ([EsifArbMgr_...]).
    - Events, esif_uf_eventmgr.c.  EventReg.v: the observers, registered,
      unregistered and called.  EventRace.v: the same while the event thread is
      in a callback.  EventCache.v: esif_uf_event_cache.c.  EventSignal.v: the
      filters, the queue, synchronous events and the event thread, which updates
      the cache and calls the observers.  EventAdmin.v: the iterator, delayed
      unregistration, packaged events.  EventSoc.v: the interrupts of the
      processor that registrations enable.
    - Domains of a participant, esif_uf_domain.c.  Domain.v: their state and the
      detection of what the device can do.  DomainTemp.v: trip points, readings,
      the events they cause and the polling, with the delegated actions of
      esif_uf_action_delegate.c on them.
    - Participants.  Participant.v: an object of esif_uf_participant.c, from its
      creation to its destruction.  PartMgr.v: the manager of their table,
      esif_uf_pm.c; PartInv.v and PartOps.v have the invariant of the table,
      PartLife.v what follows from it.  The manager gets its handles through
      HandleApi.v ([HandleLaws]), which HandleMgr.v implements.  PrimExec.v: the
      execution of a primitive, esif_uf_primitive.c and its part of
      esif_uf_participant.c.
    - User presence, Upsm.v: esif_uf_upsm.c, a state machine driven by events
      and timers.
    - Remote calls, IPF.  IBinary.v: the growing buffers of Common/ipf_ibinary.c.
      IrpcCodec.v and IrpcMsg.v: the messages, Common/ipf_ipc_codec.c - buffers,
      arrays and structures in the first, each function's message in the second.
      IrpcServer.v: ipfsrv/ipfsrv_irpc.c, which answers the calls of ESIF, with the
      frames of esif_sdk_message.h and what ipfsrv_ws_socket.c and ipfsrv_ws_server.c
      do with them; IrpcClient.v: ipfipc/ipfipc_irpc.c, ESIF's functions in the
      process of the application; IrpcCall.v puts the two together.  The calls that
      ESIF makes to an application: AppServer.v has the table of the sessions,
      ipfsrv/ipfsrv_appmgr.c, the functions that ESIF calls, ipfsrv_iface_cli.c, and
      their requests, ipfsrv_irpc.c; AppClient.v the handlers of ipfipc_irpc.c in the
      process of the application; AppCall.v puts these two together.  SdkVersion.v:
      Common/ipf_sdk_version.h and ipf_sdk_version_check.h.
      WsFrame.v: the WebSocket frames of ipfsrv_ws_socket.c and ipfipc_ws.c; WsConn.v:
      a client's connection and its send buffer, ipfsrv_ws_server.c.
      TrxMgr.v: Common/ipf_ipc_trxmgr.c and the code of its callers that sends,
      answers and closes.  AuthMgr.v: what a client may call, ipfsrv/ipfsrv_authmgr.c;
      AuthRoles.v has the lists of the roles, Ids.v the constants in them.
    - Command lines, ShellLine.v: how esif_shell_exec_command of esif_uf_shell.c
      takes a line apart.  CString.v has the functions on strings that these use,
      with [esif_ccb_strmatch] of Common/esif_ccb_string.h.

    This file has the result codes, machine integers, the state monad and the
    lemmas and tactics that the parts share; Machine.v the notion of a machine of
    steps in which several threads interleave.

    ** How the code is modelled

    A w-bit integer is a [Z] kept in range by [wrap].  A block of memory is the
    list of its bytes.  An operation on a shared object is a function in the
    state monad [SM]: it gives a result and a new state, or has no outcome
    ([None]) where the behaviour of the C code is undefined - NULL, freed memory,
    the end of a block or of an array.  That an operation has an outcome is thus
    part of what the theorems show.  The outcome of an allocation or of a system
    call is an argument ([mem...], [os], an environment); result codes are
    returned as the code returns them.  The code under one lock is one atomic
    step.  Where threads interleave between critical sections - the timer's
    callbacks, the arbitrator's worker, the event thread, the callers of a
    transaction - each section is a step, and the theorems quantify over all
    sequences of steps (an inductive step relation, or [run_steps] of Machine.v)
    that keep the stated rules of the clients.

    ** What the theorems show

    - Refinements of abstract specifications, over every sequence of calls: the
      list is a sequence ([link_list_script_refines]), the queue a bounded FIFO
      ([queue_refines_bounded_fifo]), the hash table an association list, the
      data cache a map, the filter a set, the observers a registry
      ([event_reg_refines], [left_apps_unregistered]), a growing buffer a sequence of
      bytes ([ibinary_refines_bytes]), an arbitrated primitive
      and a participant's context their specifications ([arb_entry_refines],
      [arb_ctx_refines]), the presence machine its abstract machine.  A call from
      another process, encoded, sent, decoded and answered, is the call that the server
      makes for it ([remote_call_is_local]), a call that ESIF makes to an application
      in another process is the call of the application's function
      ([app_call_is_local]), and the server's sessions are a map from their handles
      ([sessions_refine_map]).
    - What is in force: the winner is the best request and the last one executed
      ([arb_winner_best], [arb_winner_in_effect]); a primitive does not overtake
      the SET that delays it, though the queue is walked while the worker may pull;
      presence subscribers have the current value and
      filtering does not lose the last value, unless an expiry crosses an event or the
      last client disables within a window; events are handled once each, in order, with
      the data they had when signalled, or with the last cached data
      ([signals_handled_in_order], [event_cache_returns_last]); an interrupt is
      on exactly while it has an observer; a domain signals exactly the
      temperatures that are due ([temp_events_refine]) and has the capabilities
      that its device answers ([domain_caps_detected]); a primitive tries its
      actions in order until one succeeds ([primitive_tries_actions_in_order]); a
      description of a participant resumes, replaces or adds one, or does nothing
      ([registration_decides]), and its handle then leads to it
      ([registered_is_found]).
    - Memory and lifetime under concurrency: arbitration entries, observers,
      transactions and the contexts of synchronous events are freed when the last
      user has left and not before; an application that has been unregistered
      is not called again; handles in use are never given out again; every
      participant is in one entry of the table, with its own handle and one
      reference between events ([participants_stay_wellformed]), and the walks over
      the table give their references back ([walk_visits_available]).
    - Access: a call of a client has an effect only if the rules of its role permit
      it ([calls_need_permission]) and its handle is that of its connection
      ([foreign_handle_refused]), no role's rules permit what the role is not meant
      to do ([roles_are_limited]), and of a line that was checked only permitted
      commands are run ([checked_commands_run]).
    - Frames: what one side of a connection makes the other takes apart, and of a part of a
      frame it waits for the rest ([server_gets_frame], [server_waits],
      [client_gets_frame], [client_waits]); what is written to a connection is what is sent
      and buffered, in order, until an error closes it ([writes_keep_stream]).
    - Progress: no wake-up is lost, killing a timer and waiting ends with its
      callback, every caller of a transaction is woken, synchronous signals are
      released, the polling of a temperature goes on as long as the participant is
      available ([polling_goes_on]), closing a session ends its calls
      ([trx_close_session]), loops end.
    - Round trips and equivalences: SET and GET primitives, values through a
      transform and back ([transform_roundtrip]), temperatures to the nearest unit
      ([temp_convert_nearest]), bytes through Base64 with white space
      ([base64_roundtrip]), a hash in parts and the standard's hash of the whole
      ([sha_streams]), backing up the offsets of the data cache, packaged events, the
      description of a participant in a message ([participant_arrives]),
      the bitmap search of handles
      against a search one by one, suspending a participant and resuming it
      ([suspend_then_resume]).
    - Where the code fails: theorems without a rule for the clients, or with a
      failing allocation, show the cases in which it does not do what it means
      to (for example [reregister_in_callback_fails], [create_insert_hangs],
      [trx_dropped_waits_forever], [missing_participant_counts],
      [newline_escapes_check], [app_name_runs_commands],
      [null_response_reports_error], [version_numbers_wrap]).

    ** Bounds and fuel

    Loops over lists and arrays are structural recursions over their contents.
    Where a loop reads its data anew in each turn it has a counter that its
    caller starts from the length of the data (the pointer walks of LinkList.v,
    [dump_loop], [removed_loop], [bisect_loop]); each is proved to
    end before the counter does, on every state of the invariant.  32-bit counters
    and ids carry their bound as a hypothesis where they could turn over: the
    id of a transaction, the handles of timers ([trx_response_routed],
    [handles_unique]).

    ** Conditions

    A theorem that holds only under a condition says so, and where the code does something
    else without it, a theorem or a comment next to it says what.  The ones that matter most:
    a transaction's caller can send its request (else it leaves the transaction in the pool,
    [trx_send_failed_dangles]); the clients of the event manager keep [client_rules], and no
    event fails to be enabled in the callback of its observer ([has_withdrawal]); the presence
    machine's expiry and callback are one event; the lower framework is not unloaded while
    there is no primary participant ([primary_is_there], [lf_unload_loses_entry_0]); a call of
    an application finds a session that is connected and in the right state ([may_call]).

    ** What is not modelled, and why

    Creating and joining threads; initialisation and shutdown where they only
    call the initialisers of locks; formatting and tracing.  The actions that primitives
    run, device support packages, the operating system's part of the
    events and the action plug-ins are arguments of the definitions that use
    them: they interpret binary tables, or read and write files, sysfs and
    devices.  The commands of the shell, the loggers, HTTP, REST, the loops over
    select and the sockets of IPC are input and output; a frame that is sent arrives, and
    the worker takes it at once.  ESIF's functions, which the server calls for a client, are an
    interface ([IpfSrv]) and may do anything.  An
    application is one too ([IpfApp]).  Of a session the reference count and the times
    are left out: one that was taken out of the table is not seen again.  The
    application manager loads shared objects and calls them; to the participant
    manager it is a call.  A description of a participant
    has the fields that decisions depend on, and its strings fit their buffers.
    The policies under DPTF/ are C++ and use the framework from
    outside; ThirdParty/ and the LZMA code are not the project's own. *)

From Stdlib Require Import ZArith Lia.
From stdpp Require Import base tactics numbers list gmap.


(* ------------------------------------------------------------------ *)
(** ** Return codes: [enum esif_rc] of Common/esif_ccb_rc.h, as C integers *)

Definition ESIF_OK : Z := 0.
Definition ESIF_E_NOT_IMPLEMENTED : Z := 1000.
Definition ESIF_E_NOT_SUPPORTED : Z := 1002.
Definition ESIF_E_UNSPECIFIED : Z := 1003.
Definition ESIF_E_INVALID_HANDLE : Z := 1004.
Definition ESIF_E_ITERATION_DONE : Z := 1005.
Definition ESIF_E_ORDERED_INSERT : Z := 1007.
Definition ESIF_E_MAXIMUM_CAPACITY_REACHED : Z := 1009.
Definition ESIF_E_NOT_INITIALIZED : Z := 1011.
Definition ESIF_E_UNSUPPORTED_CLIENT_SDK : Z := 1012.
Definition ESIF_E_OVERFLOWED_RESULT_TYPE : Z := 1201.
Definition ESIF_E_INVALID_REQUEST_TYPE : Z := 1205.
Definition ESIF_E_REQUEST_DATA_OUT_OF_BOUNDS : Z := 1207.
Definition ESIF_E_APP_ALREADY_STARTED : Z := 1209.
Definition ESIF_E_NEED_LARGER_BUFFER : Z := 1300.
Definition ESIF_E_CALLBACK_IS_NULL : Z := 1400.
Definition ESIF_E_COMMAND_DATA_INVALID : Z := 1500.
Definition ESIF_E_NO_MEMORY : Z := 1800.
Definition ESIF_E_NO_CREATE : Z := 1801.
Definition ESIF_E_PARTICIPANT_NOT_FOUND : Z := 2200.
Definition ESIF_E_PARAMETER_IS_NULL : Z := 2300.
Definition ESIF_E_PARAMETER_IS_OUT_OF_BOUNDS : Z := 2301.
Definition ESIF_E_NEED_DSP : Z := 2401.
Definition ESIF_E_PRIMITIVE_NOT_FOUND_IN_DSP : Z := 2404.
Definition ESIF_E_UNSUPPORTED_REQUEST_TEMP_TYPE : Z := 2500.
Definition ESIF_E_UNSUPPORTED_REQUEST_POWER_TYPE : Z := 2800.
Definition ESIF_E_UNSUPPORTED_RESULT_POWER_TYPE : Z := 2801.
Definition ESIF_E_NEED_ALGORITHM : Z := 2900.
Definition ESIF_E_UNSUPPORTED_ALGORITHM : Z := 2901.
Definition ESIF_E_NOT_FOUND : Z := 3000.
Definition ESIF_E_UNSUPPORTED_REQUEST_TIME_TYPE : Z := 3200.
Definition ESIF_E_UNSUPPORTED_RESULT_TIME_TYPE : Z := 3201.
Definition ESIF_E_UNSUPPORTED_REQUEST_PERCENT_TYPE : Z := 3300.
Definition ESIF_E_UNSUPPORTED_RESULT_PERCENT_TYPE : Z := 3301.
Definition ESIF_E_EVENT_NOT_FOUND : Z := 3500.
Definition ESIF_E_EVENT_FILTERED : Z := 3501.
Definition ESIF_E_SESSION_DISCONNECTED : Z := 3700.
Definition ESIF_E_SESSION_REQUEST_FAILED : Z := 3701.
Definition ESIF_E_SESSION_ALREADY_STARTED : Z := 3702.
Definition ESIF_E_SESSION_PERMISSION_DENIED : Z := 3703.

(** The reserved handles; the first names nothing. *)
Definition ESIF_INVALID_HANDLE : Z := 18446744073709551615.
Definition ESIF_HANDLE_DEFAULT : Z := 0.
Definition ESIF_HANDLE_PRIMARY_PARTICIPANT : Z := 1.
Definition ESIF_HANDLE_MATCH_ANY_EVENT : Z := 18446744073709551614.

(* ------------------------------------------------------------------ *)
(** ** Machine integers

    A w-bit unsigned C integer is a [Z] kept in range by reducing modulo
    2^w after every operation that can leave the range. *)

Definition wrap (w x : Z) : Z := x mod 2 ^ w.
Abbreviation u8 := (wrap 8).
Abbreviation u16 := (wrap 16).
Abbreviation u32 := (wrap 32).
Abbreviation u64 := (wrap 64).

(** Two's complement reading of a 32-bit pattern, [(int)x] in the code. *)
Definition s32 (x : Z) : Z :=
  let y := wrap 32 x in if (y <? 2 ^ 31)%Z then y else (y - 2 ^ 32)%Z.

Definition in_range (w x : Z) : Prop := (0 <= x < 2 ^ w)%Z.

Section Words.
Local Open Scope Z_scope.

Lemma wrap_in_range w x : 0 <= w -> in_range w (wrap w x).
Proof. intros Hw. apply Z.mod_pos_bound, Z.pow_pos_nonneg; lia. Qed.

Lemma wrap_small w x : in_range w x -> wrap w x = x.
Proof. apply Z.mod_small. Qed.

Lemma wrap_wrap w x : wrap w (wrap w x) = wrap w x.
Proof. unfold wrap. destruct (decide (2 ^ w = 0)) as [E|E];
  [rewrite E, !Z.mod_0_r; done | by apply Z.mod_mod]. Qed.

Lemma wrap_add_l w x y : wrap w (wrap w x + y) = wrap w (x + y).
Proof. apply Zplus_mod_idemp_l. Qed.

Lemma wrap_add_r w x y : wrap w (x + wrap w y) = wrap w (x + y).
Proof. apply Zplus_mod_idemp_r. Qed.

Lemma wrap_sub_l w x y : wrap w (wrap w x - y) = wrap w (x - y).
Proof. apply Zminus_mod_idemp_l. Qed.

Lemma wrap_mul_l w x y : wrap w (wrap w x * y) = wrap w (x * y).
Proof. apply Zmult_mod_idemp_l. Qed.

Lemma wrap_testbit w x i : 0 <= w -> 0 <= i ->
  Z.testbit (wrap w x) i = (i <? w) && Z.testbit x i.
Proof.
  intros Hw Hi. unfold wrap. destruct (Z.ltb_spec i w).
  - by rewrite Z.mod_pow2_bits_low.
  - by rewrite Z.mod_pow2_bits_high by lia.
Qed.

Lemma in_range_testbit w x i : 0 <= w <= i -> in_range w x -> Z.testbit x i = false.
Proof.
  intros Hw Hx. rewrite <- (wrap_small w x Hx), wrap_testbit by lia.
  by rewrite (proj2 (Z.ltb_ge i w)) by lia.
Qed.
(** A mask of one bit of a 64-bit word, and the test of the bit. *)
Lemma bit_mask pos : 0 <= pos < 64 -> u64 (Z.shiftl 1 pos) = 2 ^ pos.
Proof. intros Hp. rewrite Z.shiftl_1_l. apply wrap_small. split; [apply Z.pow_nonneg; lia|apply Z.pow_lt_mono_r; lia]. Qed.

Lemma pos_bit line pos : 0 <= pos < 64 -> (Z.land line (u64 (Z.shiftl 1 pos)) =? 0) = negb (Z.testbit line pos).
Proof.
  intros Hp. rewrite (bit_mask pos Hp). destruct (Z.testbit line pos) eqn:E; cbn.
  - apply Z.eqb_neq. intros H. assert (Z.testbit (Z.land line (2 ^ pos)) pos = false) as H1 by (rewrite H; apply Z.bits_0).
    rewrite Z.land_spec, E, Z.pow2_bits_true in H1 by lia. done.
  - apply Z.eqb_eq. apply Z.bits_inj'. intros n Hn. rewrite Z.land_spec, Z.bits_0, Z.pow2_bits_eqb by lia.
    destruct (Z.eqb_spec pos n) as [<-|]; [by rewrite E|by rewrite andb_false_r].
Qed.
End Words.

Create HintDb dptf.
Create Rewrite HintDb dptf.
#[export] Hint Resolve wrap_in_range wrap_small : dptf.
#[export] Hint Rewrite wrap_wrap wrap_add_l wrap_add_r wrap_sub_l wrap_mul_l : dptf.

(* ------------------------------------------------------------------ *)
(** ** Pointers, objects and the state monad

    [ptr] is a C pointer to a heap cell: [None] is NULL.  [obj S] is what a
    pointer parameter [self] designates: nothing (NULL), a freed object, or
    a live object holding an [S].  A computation on such an object either
    yields a result and the new object, or has no outcome at all ([None])
    when the C code has undefined behaviour: it dereferences NULL, a freed
    object, or an address that is not allocated. *)

Abbreviation ptr := (option positive).

Inductive obj (S : Type) : Type :=
  | Null
  | Freed
  | Live (s : S).
Arguments Null {S}.
Arguments Freed {S}.
Arguments Live {S} s.

Definition SM (S T : Type) : Type := S -> option (T * S).

Section Monad.
Context {S : Type}.

Definition sret {T} (x : T) : SM S T := fun s => Some (x, s).
Definition sbind {T U} (m : SM S T) (f : T -> SM S U) : SM S U :=
  fun s => match m s with Some (x, s') => f x s' | None => None end.
Definition ub {T} : SM S T := fun _ => None.
Definition sget : SM S S := fun s => Some (s, s).
Definition sput (s : S) : SM S unit := fun _ => Some (tt, s).
Definition smodify (f : S -> S) : SM S unit := fun s => Some (tt, f s).
Definition of_option {T} (o : option T) : SM S T :=
  match o with Some x => sret x | None => ub end.
End Monad.

Declare Scope dptf_scope.
Delimit Scope dptf_scope with dptf.
Notation "'let!' x ':=' m 'in' k" := (sbind m (fun x => k))
  (at level 10, x binder, m at level 100, k at level 200) : dptf_scope.
Notation "m ';!' k" := (sbind m (fun _ => k))
  (at level 100, k at level 200, right associativity) : dptf_scope.

Section ObjMonad.
Context {S : Type}.
Local Open Scope dptf_scope.

(** The test [NULL == self]. *)
Definition is_null : SM (obj S) bool :=
  fun o => Some (match o with Null => true | _ => false end, o).
(** Reading through [self]. *)
Definition get_self : SM (obj S) S :=
  fun o => match o with Live s => Some (s, o) | _ => None end.
(** Writing through [self]. *)
Definition mod_self (f : S -> S) : SM (obj S) unit :=
  fun o => match o with Live s => Some (tt, Live (f s)) | _ => None end.
(** [esif_ccb_free(self)]. *)
Definition free_self : SM (obj S) unit :=
  fun o => match o with Live _ => Some (tt, Freed) | Null => Some (tt, Null) | Freed => None end.

(** Run a computation on a component of the object. *)
Definition zoom {S' T} (get : S -> S') (set : S' -> S -> S) (m : SM S' T) : SM (obj S) T :=
  fun o => match o with
           | Live s => match m (get s) with
                       | Some (x, c) => Some (x, Live (set c s))
                       | None => None
                       end
           | _ => None
           end.

Lemma zoom_some {S' T} get set (m : SM S' T) s x c :
  m (get s) = Some (x, c) -> zoom get set m (Live s) = Some (x, Live (set c s)).
Proof. unfold zoom. by intros ->. Qed.
End ObjMonad.

(** Unfold the monad's plumbing around a computation on a known object. *)
Ltac run_monad :=
  cbn [sbind sret ub sget sput smodify of_option is_null get_self mod_self free_self].

(** Reduce a chain of binds one call at a time, given the calls' equations. *)
Lemma sbind_some {S T U} (m : SM S T) (f : T -> SM S U) s x s' :
  m s = Some (x, s') -> sbind m f s = f x s'.
Proof. unfold sbind. by intros ->. Qed.

(** The backward form, which lets a proof run a computation forwards. *)
Lemma sbind_intro {S T U} (m : SM S T) (f : T -> SM S U) s x s' r :
  m s = Some (x, s') -> f x s' = Some r -> sbind m f s = Some r.
Proof. unfold sbind. by intros ->. Qed.

Lemma sbind_inv {S T U} (m : SM S T) (f : T -> SM S U) s y s'' :
  sbind m f s = Some (y, s'') -> exists x s', m s = Some (x, s') /\ f x s' = Some (y, s'').
Proof. unfold sbind. destruct (m s) as [[x s']|] eqn:E; [eauto | done]. Qed.

Lemma smodify_bind {S U} (f : S -> S) (k : SM S U) s : (smodify f ;! k)%dptf s = k (f s).
Proof. done. Qed.

#[export] Hint Resolve sbind_some : dptf.

(* ------------------------------------------------------------------ *)
(** ** Shared list lemmas *)

Section Lists.
Context {A : Type}.
Implicit Types l : list A.

Lemma NoDup_app_cons_swap (l1 l2 : list A) x :
  NoDup (l1 ++ x :: l2) -> x ∉ l1 /\ x ∉ l2 /\ NoDup (l1 ++ l2).
Proof.
  intros H. rewrite NoDup_app in H. destruct H as (H1 & H2 & H3).
  apply NoDup_cons in H3 as [H3 H4]. repeat split; try done.
  - intros Hx. apply (H2 x Hx). left.
  - apply NoDup_app. repeat split; try done. intros y Hy Hy2. apply (H2 y Hy). by right.
Qed.
End Lists.

(* ------------------------------------------------------------------ *)
(** ** Integers in memory, the lowest byte first *)

Section LittleEndian.
Local Open Scope Z_scope.

(** The number that [n] bytes stand for, and the bytes of a number. *)
Fixpoint le_value (n : nat) (b : list Z) : option Z :=
  match n with
  | O => Some 0
  | S n => match b with x :: b => (fun v => x + 256 * v) <$> le_value n b | [] => None end
  end.
Fixpoint le_bytes (n : nat) (v : Z) : list Z :=
  match n with O => [] | S n => v mod 256 :: le_bytes n (v / 256) end.

Lemma le_bytes_length n : forall v, length (le_bytes n v) = n.
Proof. induction n as [|n IH]; intros v; [done|]. cbn. by rewrite IH. Qed.

Lemma le_roundtrip n : forall v rest, 0 <= v < 256 ^ Z.of_nat n -> le_value n (le_bytes n v ++ rest) = Some v.
Proof.
  induction n as [|n IH]; intros v rest Hv; cbn [le_bytes le_value app].
  - f_equal. change (256 ^ Z.of_nat 0) with 1 in Hv. lia.
  - rewrite Nat2Z.inj_succ, Z.pow_succ_r in Hv by lia. rewrite IH.
    + cbn. f_equal. pose proof (Z.div_mod v 256). lia.
    + split; [apply Z.div_pos; lia|apply Z.div_lt_upper_bound; lia].
Qed.

Lemma le_value_some n : forall b, (n <= length b)%nat -> is_Some (le_value n b).
Proof.
  induction n as [|n IH]; intros b Hb; [by exists 0|]. destruct b as [|x b]; [cbn in Hb; lia|]. cbn [le_value].
  destruct (IH b) as [v E]; [cbn in Hb; lia|]. rewrite E. by eexists.
Qed.

(** Reading needs the first bytes only. *)
Lemma le_value_take n : forall k b, (n <= k)%nat -> le_value n (take k b) = le_value n b.
Proof.
  induction n as [|n IH]; intros k b Hk; [done|]. destruct k as [|k]; [lia|]. destruct b as [|x b]; [done|]. cbn [take le_value]. by rewrite IH by lia.
Qed.

(** Only the low bytes count. *)
Lemma le_bytes_wrap n : forall v, le_bytes n (v mod 256 ^ Z.of_nat n) = le_bytes n v.
Proof.
  induction n as [|n IH]; intros v; [done|]. cbn [le_bytes]. rewrite Nat2Z.inj_succ, Z.pow_succ_r by lia.
  assert (Hp : 0 < 256 ^ Z.of_nat n) by (apply Z.pow_pos_nonneg; lia). rewrite Z.rem_mul_r by lia. f_equal.
  - rewrite Z.mul_comm, Z_mod_plus_full. by rewrite Z.mod_mod by lia.
  - rewrite <- (IH (v / 256)). f_equal. rewrite Z.mul_comm, Z.div_add by lia. rewrite (Z.div_small (v mod 256)); [done|]. by apply Z.mod_pos_bound.
Qed.
Lemma le_roundtrip_wrap n v rest : le_value n (le_bytes n v ++ rest) = Some (v mod 256 ^ Z.of_nat n).
Proof. rewrite <- le_bytes_wrap. apply le_roundtrip. apply Z.mod_pos_bound, Z.pow_pos_nonneg; lia. Qed.
End LittleEndian.

(** Turn boolean tests in hypotheses and goal into facts. *)
Ltac bool_to_prop :=
  repeat match goal with
  | H : (_ && _)%bool = true |- _ => apply andb_true_iff in H as [? ?]
  | H : (_ || _)%bool = false |- _ => apply orb_false_iff in H as [? ?]
  | H : (_ <? _)%Z = true |- _ => apply Z.ltb_lt in H
  | H : (_ <? _)%Z = false |- _ => apply Z.ltb_ge in H
  | H : (_ <=? _)%Z = true |- _ => apply Z.leb_le in H
  | H : (_ <=? _)%Z = false |- _ => apply Z.leb_gt in H
  | H : (_ =? _)%Z = true |- _ => apply Z.eqb_eq in H
  | H : (_ =? _)%Z = false |- _ => apply Z.eqb_neq in H
  end.
