(* ===== verification/CString.v ===== *)
(** * Strings in memory: Common/esif_ccb_string.h and the C library's functions on strings

    A string is read from a block of bytes at a pointer: a list, up to the first NUL in
    it.  A function that has to read past the end of the block has no outcome.
    Characters are numbers below 256; upper and lower case are those of ASCII. *)

From S2P Require Import Prelude.
From stdpp Require Import list strings.
Local Open Scope Z_scope.

(* ------------------------------------------------------------------ *)
(** ** Characters *)

(** The bytes of a string literal. *)
Definition chars_of (s : string) : list Z := map (fun c => Z.of_N (Ascii.N_of_ascii c)) (String.list_ascii_of_string s).
Definition tolower (c : Z) : Z := if (65 <=? c) && (c <=? 90) then c + 32 else c.
Definition isspace (c : Z) : bool := (9 <=? c) && (c <=? 13) || (c =? 32).
Definition isdigit (c : Z) : bool := (48 <=? c) && (c <=? 57).

(** What is at a pointer: the characters of a literal or of a variable, with the NUL
    that ends them. *)
Definition literal (s : string) : list Z := chars_of s ++ [0].

(* ------------------------------------------------------------------ *)
(** ** The functions *)

(** The characters of the string at a pointer. *)
Fixpoint str (m : list Z) : option (list Z) :=
  match m with [] => None | c :: m => if c =? 0 then Some [] else cons c <$> str m end.

(** [strcasecmp(a, b) == 0]. *)
Fixpoint stricmp_eq (a b : list Z) : option bool :=
  match a, b with
  | x :: a, y :: b => if tolower x =? tolower y then if x =? 0 then Some true else stricmp_eq a b else Some false
  | _, _ => None
  end.

(** [strncasecmp(p, m, strlen(p)) == 0]; [p] are characters without NUL. *)
Fixpoint strnicmp_eq (p m : list Z) : option bool :=
  match p with
  | [] => Some true
  | c :: p => match m with [] => None | x :: m => if tolower c =? tolower x then strnicmp_eq p m else Some false end
  end.

(** Whether the string at [m] begins with the characters [p]. *)
Fixpoint starts (p m : list Z) : option bool :=
  match p with
  | [] => Some true
  | c :: p => match m with [] => None | x :: m => if c =? x then starts p m else Some false end
  end.
(** [strstr(m, p)]: what is at the pointer returned, or [None] inside for NULL. *)
Fixpoint strstr (m p : list Z) : option (option (list Z)) :=
  match starts p m with
  | Some true => Some (Some m)
  | Some false => match m with [] => None | x :: m => if x =? 0 then Some None else strstr m p end
  | None => None
  end.
(** [strchr(m, c)] for a character that is not NUL. *)
Fixpoint strchr (m : list Z) (c : Z) : option (option (list Z)) :=
  match m with [] => None | x :: m' => if x =? c then Some (Some m) else if x =? 0 then Some None else strchr m' c end.

(** [while (isspace( *m)) m++]. *)
Fixpoint skip_spaces (m : list Z) : option (list Z) :=
  match m with [] => None | x :: m' => if isspace x then skip_spaces m' else Some m end.

(** [esif_ccb_strmatch]; the pattern is given without its NUL.  At a star the rest of
    the pattern is tried at each character in turn. *)
Definition STAR : Z := 42.
Definition QUESTION : Z := 63.
Fixpoint esif_ccb_strmatch (m p : list Z) : option bool :=
  match p with
  | [] => match m with [] => None | x :: _ => Some (x =? 0) end
  | c :: p =>
      if c =? STAR then
        (fix star (m : list Z) : option bool :=
           match esif_ccb_strmatch m p with
           | Some false => match m with [] => None | x :: m => if x =? 0 then Some false else star m end
           | r => r
           end) m
      else
        match m with
        | [] => None
        | x :: m => if negb (x =? 0) && ((c =? QUESTION) || (tolower x =? tolower c)) then esif_ccb_strmatch m p else Some false
        end
  end.

(* ------------------------------------------------------------------ *)
(** ** What they compute on a string that has an end *)

(** The characters of a string. *)
Definition text (t : list Z) : Prop := Forall (fun c => c <> 0) t.
(** The string [t] at the start of a block. *)
Definition string_at (m t : list Z) : Prop := text t /\ exists rest, m = t ++ 0 :: rest.

Lemma string_at_nil rest : string_at (0 :: rest) [].
Proof. split; [constructor|]. by exists rest. Qed.
Lemma string_at_cons x m t : x <> 0 -> string_at m t -> string_at (x :: m) (x :: t).
Proof. intros Hx [Ht [rest ->]]. split; [by constructor|]. by exists rest. Qed.
(** The two shapes of a string. *)
Lemma string_at_inv m t : string_at m t -> (t = [] /\ exists rest, m = 0 :: rest) \/ exists x t' m', t = x :: t' /\ m = x :: m' /\ x <> 0 /\ string_at m' t'.
Proof.
  intros [Ht [rest ->]]. destruct Ht as [|x t Hx Ht]; [left; split; [done|]; by exists rest|]. right. exists x, t, (t ++ 0 :: rest). repeat split; try done. by exists rest.
Qed.
Lemma string_at_app a b m : string_at m (a ++ b) -> exists m', m = a ++ m' /\ string_at m' b.
Proof. intros [Ht [rest ->]]. apply Forall_app in Ht as [Ha Hb]. exists (b ++ 0 :: rest). split; [by rewrite app_assoc|]. split; [done|]. by exists rest. Qed.
Lemma string_at_fun m t t' : string_at m t -> string_at m t' -> t = t'.
Proof.
  revert m t'. induction t as [|x t IH]; intros m t' H H'; apply string_at_inv in H as [[E [r Hm]]|(y & u & m' & E & Hm & Hy & H)], H' as [[E' [r' Hm']]|(y' & u' & m'' & E' & Hm' & Hy' & H')]; simplify_eq; try done. f_equal. by eapply IH.
Qed.
Lemma string_at_literal s : text (chars_of s) -> string_at (literal s) (chars_of s).
Proof. intros H. split; [done|]. by exists []. Qed.

Lemma str_ok m t : string_at m t -> str m = Some t.
Proof. revert m. induction t as [|x t IH]; intros m H; apply string_at_inv in H as [[E [r ->]]|(y & u & m' & E & -> & Hy & H)]; simplify_eq; [done|]. cbn [str]. rewrite (proj2 (Z.eqb_neq _ _)) by done. by rewrite (IH _ H). Qed.

(** Equal up to case. *)
Definition same_letters (a b : list Z) : Prop := map tolower a = map tolower b.
#[export] Instance same_letters_dec a b : Decision (same_letters a b) := decide (map tolower a = map tolower b).
Lemma tolower_zero c : tolower c = 0 -> c = 0.
Proof. unfold tolower. destruct (_ && _) eqn:E; [|done]. bool_to_prop. intros; lia. Qed.
Lemma stricmp_ok a b t u : string_at a t -> string_at b u -> stricmp_eq a b = Some (bool_decide (same_letters t u)).
Proof.
  revert a b u. induction t as [|x t IH]; intros a b u Ha Hb; apply string_at_inv in Ha as [[E [r ->]]|(y & t' & a' & E & -> & Hy & Ha)], Hb as [[E' [r' ->]]|(y' & u' & b' & E' & -> & Hy' & Hb)]; simplify_eq; cbn [stricmp_eq].
  - done.
  - change (tolower 0) with 0. rewrite (proj2 (Z.eqb_neq 0 (tolower y'))) by (intros Ez; symmetry in Ez; by apply tolower_zero in Ez). by rewrite bool_decide_false.
  - change (tolower 0) with 0. rewrite (proj2 (Z.eqb_neq _ 0)) by (intros Ez; by apply tolower_zero in Ez). by rewrite bool_decide_false.
  - destruct (Z.eqb_spec (tolower y) (tolower y')) as [Eq|Hne].
    + rewrite (proj2 (Z.eqb_neq y 0)) by done. rewrite (IH _ _ _ Ha Hb). f_equal. apply bool_decide_ext. unfold same_letters. cbn. split; [intros E; by rewrite Eq, E|by intros [= _ E]].
    + rewrite bool_decide_false; [done|]. by intros [= E _].
Qed.

Lemma strnicmp_ok p m t : text p -> string_at m t -> strnicmp_eq p m = Some (bool_decide (same_letters p (take (length p) t))).
Proof.
  intros Hp. revert m t. induction Hp as [|c p Hc Hp IH]; intros m t Hm; [done|]. cbn [strnicmp_eq]. apply string_at_inv in Hm as [[-> [r ->]]|(y & t' & m' & -> & -> & Hy & Hm)].
  - change (tolower 0) with 0. rewrite (proj2 (Z.eqb_neq _ 0)) by (intros Ez; by apply tolower_zero in Ez). by rewrite bool_decide_false.
  - cbn [length take]. destruct (Z.eqb_spec (tolower c) (tolower y)) as [Eq|Hne].
    + rewrite (IH _ _ Hm). f_equal. apply bool_decide_ext. unfold same_letters. cbn. split; [intros E; by rewrite Eq, E|by intros [= _ E]].
    + rewrite bool_decide_false; [done|]. by intros [= E _].
Qed.

Lemma starts_ok p m t : text p -> string_at m t -> starts p m = Some (bool_decide (p `prefix_of` t)).
Proof.
  intros Hp. revert m t. induction Hp as [|c p Hc Hp IH]; intros m t Hm; [by rewrite bool_decide_true by apply prefix_nil|]. cbn [starts]. apply string_at_inv in Hm as [[-> [r ->]]|(y & t' & m' & -> & -> & Hy & Hm)].
  - rewrite (proj2 (Z.eqb_neq _ _)) by done. rewrite bool_decide_false; [done|]. apply prefix_nil_not.
  - destruct (Z.eqb_spec c y) as [->|Hne].
    + rewrite (IH _ _ Hm). f_equal. apply bool_decide_ext. split; [apply prefix_cons|apply prefix_cons_inv_2].
    + rewrite bool_decide_false; [done|]. intros H. by apply prefix_cons_inv_1 in H.
Qed.
(** The first occurrence. *)
Lemma strstr_ok p m t : text p -> p <> [] -> string_at m t ->
  exists r, strstr m p = Some r /\
    match r with
    | Some m' => exists a b, t = a ++ p ++ b /\ m = a ++ m' /\ string_at m' (p ++ b) /\ forall i, (i < length a)%nat -> ~ p `prefix_of` drop i t
    | None => forall i, ~ p `prefix_of` drop i t
    end.
Proof.
  intros Hp Hne. revert m. induction t as [|x t IH]; intros m Hm.
  - assert (Hnil : forall i, ~ p `prefix_of` drop i []) by (intros i H; rewrite drop_nil in H; by apply prefix_nil_inv in H).
    pose proof (starts_ok p m [] Hp Hm) as Hs. rewrite bool_decide_false in Hs by apply (Hnil O). apply string_at_inv in Hm as [[_ [r ->]]|(? & ? & ? & ? & _)]; [|done]. cbn [strstr]. rewrite Hs. by exists None.
  - pose proof (starts_ok p m (x :: t) Hp Hm) as Hs. pose proof Hm as Hm0. apply string_at_inv in Hm as [[? _]|(y & t' & m' & E & -> & Hy & Hm)]; [done|]. simplify_eq. cbn [strstr]. rewrite Hs. case_bool_decide as Hpre.
    + exists (Some (y :: m')). split; [done|]. destruct Hpre as [b Hb]. exists [], b. cbn [app length]. repeat split; [done| | |lia]; rewrite <- Hb; apply Hm0.
    + rewrite (proj2 (Z.eqb_neq _ _)) by done. destruct (IH _ Hm) as ([m''|] & E & H); (rewrite E; eexists; split; [reflexivity|]).
      * destruct H as (a & b & -> & -> & Hs' & Hi). exists (y :: a), b. repeat split; [apply Hs'|apply Hs'|]. intros [|i] Hlt; [exact Hpre|]. cbn. apply Hi. cbn in Hlt. lia.
      * intros [|i]; [exact Hpre|]. apply H.
Qed.

(** The characters from the first one that is no white space. *)
Fixpoint trim (t : list Z) : list Z := match t with x :: t' => if isspace x then trim t' else t | [] => [] end.
Lemma trim_length t : (length (trim t) <= length t)%nat.
Proof. induction t as [|x t IH]; cbn; [done|]. destruct (isspace x); cbn; lia. Qed.
Lemma skip_spaces_ok m t : string_at m t -> exists m', skip_spaces m = Some m' /\ string_at m' (trim t) /\ (length m' <= length m)%nat.
Proof.
  revert m. induction t as [|x t IH]; intros m Hm; pose proof Hm as Hm0; apply string_at_inv in Hm as [[E [r ->]]|(y & t' & m' & E & -> & Hy & Hm)]; simplify_eq; cbn [skip_spaces trim].
  - exists (0 :: r). split_and!; [done|apply string_at_nil|done].
  - destruct (isspace y); [|exists (y :: m'); split_and!; [done|by apply string_at_cons|done]]. destruct (IH _ Hm) as (m2 & E & H & Hl). exists m2. cbn. split; [done|]. split; [done|]. lia.
Qed.

(* ------------------------------------------------------------------ *)
(** ** Patterns *)

(** What a pattern matches. *)
Inductive glob : list Z -> list Z -> Prop :=
  | glob_nil : glob [] []
  | glob_char c x p t : c <> STAR -> c = QUESTION \/ tolower x = tolower c -> glob p t -> glob (c :: p) (x :: t)
  | glob_none p t : glob p t -> glob (STAR :: p) t
  | glob_more x p t : glob (STAR :: p) t -> glob (STAR :: p) (x :: t).

(** The matcher has an outcome at every string that ends, and it is right. *)
Theorem strmatch_matches (m p t : list Z) (Hm : string_at m t) : exists b, esif_ccb_strmatch m p = Some b /\ (b = true <-> glob p t).
Proof.
  revert m t Hm. induction p as [|c p IH]; intros m t Hm.
  - cbn [esif_ccb_strmatch]. apply string_at_inv in Hm as [[-> [r ->]]|(y & t' & m' & -> & -> & Hy & Hm)].
    + exists true. split; [done|]. split; [constructor|done].
    + exists false. rewrite (proj2 (Z.eqb_neq _ _)) by done. split; [done|]. split; [done|]. intros H. inversion H.
  - cbn [esif_ccb_strmatch]. destruct (Z.eqb_spec c STAR) as [->|Hc].
    + revert m Hm. induction t as [|x t IHt]; intros m Hm; destruct (IH m _ Hm) as (b & E & Hb); apply string_at_inv in Hm as [[E' [r ->]]|(y & t' & m' & E' & -> & Hy & Hm)]; simplify_eq; rewrite E; (destruct b; [exists true; split; [done|]; split; [intros _; constructor; by apply Hb|done]|]).
      * exists false. split; [done|]. split; [done|]. intros H. inversion H; subst. by apply Hb.
      * rewrite (proj2 (Z.eqb_neq _ _)) by done. destruct (IHt _ Hm) as (b & E2 & Hb2). exists b. split; [exact E2|]. rewrite Hb2. split; [by constructor|]. intros H. inversion H; subst; [done| |done]. exfalso. by apply Bool.diff_false_true, Hb.
    + apply string_at_inv in Hm as [[-> [r ->]]|(y & t' & m' & -> & -> & Hy & Hm)].
      * exists false. split; [done|]. split; [done|]. intros H. inversion H; by subst.
      * rewrite (proj2 (Z.eqb_neq y 0)) by done. cbn [negb andb]. destruct ((c =? QUESTION) || (tolower y =? tolower c)) eqn:Eok.
        -- destruct (IH _ _ Hm) as (b & E & Hb). exists b. split; [done|]. rewrite Hb. split; [|by inversion 1; subst]. intros H. constructor; [done| |done]. apply orb_true_iff in Eok as [E1|E1]; apply Z.eqb_eq in E1; tauto.
        -- exists false. split; [done|]. split; [done|]. intros H. inversion H; subst; [|done|done]. apply orb_false_iff in Eok as [E1 E2]. apply Z.eqb_neq in E1, E2. tauto.
Qed.
