(* ===== verification/SdkVersion.v ===== *)
(** * Versions of the SDK: Common/ipf_sdk_version.h and ipf_sdk_version_check.h

    A version is text such as 1.0.11402; its three numbers are packed into one of 48
    bits.  A server takes clients by their release, the first two numbers. *)

From S2P Require Import Prelude CString.
From stdpp Require Import list strings.
Local Open Scope Z_scope.

(* ------------------------------------------------------------------ *)
(** ** The code *)

Definition IPF_SDK_VERSION : list Z := chars_of "1.0.11402".
Definition IPF_SDK_MAJOR : Z := 1.
Definition IPF_SDK_MINOR : Z := 0.

Definition IPFSDK_VERSION (major minor revision : Z) : Z :=
  Z.lor (Z.lor (Z.shiftl (Z.land major 0xffff) 32) (Z.shiftl (Z.land minor 0xffff) 16)) (Z.land revision 0xffff).
Definition IPFSDK_GETRELEASE (ver : Z) : Z := u32 (Z.shiftr (Z.land ver 0x0000ffffffff0000) 16).

(** [atoi] of the C library: white space, a sign, digits.  A number that is not an [int]
    has no outcome. *)
Definition in_int (n : Z) : option Z := if (- 2 ^ 31 <=? n) && (n <? 2 ^ 31) then Some n else None.
Fixpoint digits (m : list Z) (acc : Z) : option Z :=
  match m with
  | [] => None
  | c :: m => if isdigit c then digits m (acc * 10 + (c - 48)) else Some acc
  end.
Definition atoi (m : list Z) : option Z :=
  m ← skip_spaces m;
  match m with
  | 45 :: m => n ← digits m 0; in_int (- n)
  | 43 :: m => n ← digits m 0; in_int n
  | _ => n ← digits m 0; in_int n
  end.

(** The number behind a dot, if there is one; converted to [u32]. *)
Definition number_at (dot : option (list Z)) : option Z :=
  match dot with Some p => (fun n => u32 n) <$> atoi (drop 1 p) | None => Some 0 end.
Definition IpfSdk_VersionFromString (s : option (list Z)) : option Z :=
  match s with
  | None => Some 0
  | Some m =>
      dot ← strchr m 46;
      dotdot ← match dot with Some p => strchr (drop 1 p) 46 | None => Some None end;
      major ← atoi m;
      minor ← number_at dot;
      revision ← number_at dotdot;
      Some (IPFSDK_VERSION (u32 major) minor revision)
  end.

(** The releases that an older client may have; the list ends with [{0}]. *)
Definition supported_releases : list (Z * Z) :=
  [(IPFSDK_VERSION IPF_SDK_MAJOR IPF_SDK_MINOR 0, IPFSDK_VERSION IPF_SDK_MAJOR IPF_SDK_MINOR 0xffff); (0, 0)].
Fixpoint supports (l : list (Z * Z)) (client : Z) : bool :=
  match l with
  | [] => false
  | (minver, maxver) :: l => if minver =? 0 then false else if (minver <=? client) && (client <=? maxver) then true else supports l client
  end.
(** The versions are given by what is at the pointers, [None] for NULL. *)
Definition IpfSdk_VersionCheck (serverSdkVersion clientSdkVersion : option (list Z)) : option Z :=
  match serverSdkVersion with
  | None => Some ESIF_E_PARAMETER_IS_NULL
  | Some _ =>
      let clientSdkVersion := match clientSdkVersion with Some c => c | None => IPF_SDK_VERSION ++ [0] end in
      server ← IpfSdk_VersionFromString serverSdkVersion;
      client ← IpfSdk_VersionFromString (Some clientSdkVersion);
      Some (if client =? server then ESIF_OK
            else if client <? server then if supports supported_releases client then ESIF_OK else ESIF_E_UNSUPPORTED_CLIENT_SDK
            else if (server <? client) && (IPFSDK_GETRELEASE client =? IPFSDK_GETRELEASE server) then ESIF_OK
            else ESIF_E_UNSUPPORTED_CLIENT_SDK)
  end.

Example check_same : IpfSdk_VersionCheck (Some (IPF_SDK_VERSION ++ [0])) (Some (literal "1.0.20000")) = Some ESIF_OK.
Proof. reflexivity. Qed.
Example check_other : IpfSdk_VersionCheck (Some (IPF_SDK_VERSION ++ [0])) (Some (literal "1.1.0")) = Some ESIF_E_UNSUPPORTED_CLIENT_SDK.
Proof. reflexivity. Qed.

(* ------------------------------------------------------------------ *)
(** ** A server takes the clients of its release *)

(** The packed numbers. *)
Lemma version_value a b c : IPFSDK_VERSION a b c = (a mod 2 ^ 16) * 2 ^ 32 + (b mod 2 ^ 16) * 2 ^ 16 + c mod 2 ^ 16.
Proof.
  unfold IPFSDK_VERSION. change 0xffff with (Z.ones 16). rewrite !Z.land_ones, !Z.shiftl_mul_pow2 by lia.
  pose proof (Z.mod_pos_bound a (2 ^ 16) ltac:(lia)). pose proof (Z.mod_pos_bound b (2 ^ 16) ltac:(lia)). pose proof (Z.mod_pos_bound c (2 ^ 16) ltac:(lia)).
  assert (Hor : forall n x y, 0 <= n -> 0 <= y < 2 ^ n -> Z.lor (x * 2 ^ n) y = x * 2 ^ n + y).
  { intros n x y Hn Hy. assert (Hland : Z.land (x * 2 ^ n) y = 0).
    { rewrite <- (Z.mod_small y (2 ^ n)) by done. rewrite <- Z.land_ones by done. rewrite (Z.land_comm y), Z.land_assoc, Z.land_ones by done. by rewrite Z_mod_mult. }
    rewrite <- Z.lxor_lor by done. symmetry. by apply Z.add_nocarry_lxor. }
  rewrite (Hor 32) by lia. replace (a mod 2 ^ 16 * 2 ^ 32 + b mod 2 ^ 16 * 2 ^ 16) with ((a mod 2 ^ 16 * 2 ^ 16 + b mod 2 ^ 16) * 2 ^ 16) by lia. rewrite (Hor 16) by lia. lia.
Qed.
Lemma version_range a b c : 0 <= IPFSDK_VERSION a b c < 2 ^ 48.
Proof. rewrite version_value. pose proof (Z.mod_pos_bound a (2 ^ 16) ltac:(lia)). pose proof (Z.mod_pos_bound b (2 ^ 16) ltac:(lia)). pose proof (Z.mod_pos_bound c (2 ^ 16) ltac:(lia)). lia. Qed.
Lemma release_value v : 0 <= v < 2 ^ 48 -> IPFSDK_GETRELEASE v = v / 2 ^ 16.
Proof.
  intros Hv. unfold IPFSDK_GETRELEASE. rewrite <- Z.shiftr_div_pow2 by lia.
  assert (E : Z.shiftr (Z.land v 0x0000ffffffff0000) 16 = Z.shiftr v 16).
  { rewrite Z.shiftr_land. change (Z.shiftr 0x0000ffffffff0000 16) with (Z.ones 32). rewrite Z.land_ones, Z.shiftr_div_pow2 by lia. apply Z.mod_small. split; [apply Z.div_pos; lia|apply Z.div_lt_upper_bound; lia]. }
  rewrite E. apply wrap_small. rewrite Z.shiftr_div_pow2 by lia. split; [apply Z.div_pos; lia|apply Z.div_lt_upper_bound; lia].
Qed.

(** A decimal number, and the text of a version at a pointer. *)
Definition number (l : list Z) (n : Z) : Prop := l <> [] /\ Forall (fun c => isdigit c = true) l /\ fold_left (fun acc c => acc * 10 + (c - 48)) l 0 = n.
Definition version_at (m : list Z) (a b c : Z) : Prop :=
  exists la lb lc rest, m = la ++ 46 :: lb ++ 46 :: lc ++ 0 :: rest /\ number la a /\ number lb b /\ number lc c.

Lemma digits_ok l x r acc : Forall (fun c => isdigit c = true) l -> isdigit x = false -> digits (l ++ x :: r) acc = Some (fold_left (fun acc c => acc * 10 + (c - 48)) l acc).
Proof. intros Hl Hx. revert acc. induction Hl as [|c l Hc Hl IH]; intros acc; cbn [app digits fold_left]; [by rewrite Hx|]. by rewrite Hc, IH. Qed.
Lemma digit_range c : isdigit c = true -> 48 <= c <= 57.
Proof. unfold isdigit. intros H. apply andb_prop in H as [H1 H2]. apply Z.leb_le in H1, H2. lia. Qed.
Lemma atoi_ok l n x r : number l n -> isdigit x = false -> 0 <= n < 2 ^ 31 -> atoi (l ++ x :: r) = Some n.
Proof.
  intros (Hne & Hl & Hv) Hx Hn. assert (E : digits (l ++ x :: r) 0 = Some n) by (by rewrite (digits_ok l x r 0 Hl Hx), Hv). destruct l as [|c l]; [done|].
  assert (Hc : 48 <= c <= 57) by (apply digit_range; by apply Forall_cons in Hl as [? _]). unfold atoi. cbn [app skip_spaces].
  assert (Hsp : isspace c = false) by (unfold isspace; rewrite (proj2 (Z.leb_gt c 13)), (proj2 (Z.eqb_neq c 32)) by lia; by rewrite andb_false_r). rewrite Hsp. cbn [mbind option_bind].
  assert (Hin : in_int n = Some n) by (unfold in_int; by rewrite (proj2 (Z.leb_le (- 2 ^ 31) n)), (proj2 (Z.ltb_lt n (2 ^ 31))) by lia).
  cbn [app] in E. assert (Hgo : match digits (c :: l ++ x :: r) 0 with Some n => in_int n | None => None end = Some n) by (by rewrite E).
  assert (c <> 45 /\ c <> 43) as [H1 H2] by lia. repeat case_match; subst; try lia; exact Hgo.
Qed.
Lemma strchr_ok l r c : Forall (fun x => isdigit x = true) l -> ~ 48 <= c <= 57 -> strchr (l ++ c :: r) c = Some (Some (c :: r)).
Proof.
  intros Hl Hc. induction Hl as [|x l Hx Hl IH]; cbn [app strchr]; [by rewrite Z.eqb_refl|]. apply digit_range in Hx. by rewrite (proj2 (Z.eqb_neq x c)), (proj2 (Z.eqb_neq x 0)) by lia.
Qed.
Lemma version_from_string m a b c : version_at m a b c -> 0 <= a < 2 ^ 31 -> 0 <= b < 2 ^ 31 -> 0 <= c < 2 ^ 31 ->
  IpfSdk_VersionFromString (Some m) = Some (IPFSDK_VERSION a b c).
Proof.
  intros (la & lb & lc & rest & -> & Ha & Hb & Hc) Hra Hrb Hrc. unfold IpfSdk_VersionFromString.
  rewrite (strchr_ok la _ 46) by (first [apply Ha|lia]). cbn [mbind option_bind skipn]. rewrite ?drop_0. rewrite (strchr_ok lb _ 46) by (first [apply Hb|lia]). cbn [mbind option_bind skipn]. rewrite ?drop_0.
  rewrite (atoi_ok la a 46 _ Ha) by (done || lia). cbn [mbind option_bind number_at skipn]. rewrite ?drop_0. rewrite (atoi_ok lb b 46 _ Hb) by (done || lia). cbn [fmap option_fmap option_map mbind option_bind].
  rewrite (atoi_ok lc c 0 _ Hc) by (done || lia). cbn [fmap option_fmap option_map mbind option_bind]. by rewrite !wrap_small by (unfold in_range; lia).
Qed.

(** The server takes a client exactly if its SDK is of the server's own release: the
    first two numbers decide, and the revision does not matter, be it older or newer.
    Every text of three numbers below 65536 gives an answer. *)
Theorem version_check_by_release (m : list Z) (a b c : Z) (Hm : version_at m a b c) (Ha : 0 <= a < 2 ^ 16) (Hb : 0 <= b < 2 ^ 16) (Hc : 0 <= c < 2 ^ 16) :
  IpfSdk_VersionCheck (Some (IPF_SDK_VERSION ++ [0])) (Some m) =
  Some (if (a =? IPF_SDK_MAJOR) && (b =? IPF_SDK_MINOR) then ESIF_OK else ESIF_E_UNSUPPORTED_CLIENT_SDK).
Proof.
  unfold IpfSdk_VersionCheck. assert (E : IpfSdk_VersionFromString (Some (IPF_SDK_VERSION ++ [0])) = Some (IPFSDK_VERSION 1 0 11402)) by reflexivity.
  rewrite E, (version_from_string m a b c Hm) by lia. cbn [mbind option_bind]. rewrite !release_value by apply version_range.
  assert (Es : forall v, supports supported_releases v = ((2 ^ 32 <=? v) && (v <=? 2 ^ 32 + 65535))) by (intros v; unfold supports; cbn -[Z.pow Z.leb]; by destruct (_ && _)). rewrite Es, !version_value, !(Z.mod_small _ (2 ^ 16)) by lia.
  set (v := a * 2 ^ 32 + b * 2 ^ 16 + c). change (1 * 2 ^ 32 + 0 * 2 ^ 16 + 11402) with 4294978698. change (4294978698 / 2 ^ 16) with 65536. unfold IPF_SDK_MAJOR, IPF_SDK_MINOR.
  assert (Hdiv : v / 2 ^ 16 = a * 2 ^ 16 + b) by (unfold v; symmetry; apply (Z.div_unique _ _ _ c); lia). rewrite Hdiv. f_equal.
  destruct (Z.eqb_spec a 1), (Z.eqb_spec b 0), (Z.eqb_spec v 4294978698), (Z.ltb_spec v 4294978698), (Z.ltb_spec 4294978698 v), (Z.leb_spec (2 ^ 32) v), (Z.leb_spec v (2 ^ 32 + 65535)), (Z.eqb_spec (a * 2 ^ 16 + b) 65536); cbn [andb]; (done || (exfalso; unfold v in *; lia)).
Qed.

Lemma version_check_by_release_witness :
  IpfSdk_VersionCheck (Some (IPF_SDK_VERSION ++ [0])) (Some (literal "1.0.65000")) = Some ESIF_OK.
Proof.
  assert (Hn : forall t n, forallb isdigit t = true -> t <> [] -> fold_left (fun acc c => acc * 10 + (c - 48)) t 0 = n -> number t n).
  { intros t n Hd Hne Hv. split; [done|]. split; [|done]. apply Forall_forall. intros x Hx. by apply (proj1 (forallb_forall _ _) Hd), list_elem_of_In. }
  assert (Hv : version_at (literal "1.0.65000") 1 0 65000) by (exists (chars_of "1"), (chars_of "0"), (chars_of "65000"), []; split; [done|]; split; [by apply Hn|]; split; by apply Hn).
  exact (version_check_by_release (literal "1.0.65000") 1 0 65000 Hv ltac:(lia) ltac:(lia) ltac:(lia)).
Defined.

(** The numbers are cut to 16 bits: a client of release 65537.0 is taken for one of 1.0. *)
Theorem version_numbers_wrap : IpfSdk_VersionCheck (Some (IPF_SDK_VERSION ++ [0])) (Some (literal "65537.65536.1")) = Some ESIF_OK.
Proof. reflexivity. Qed.
