(* ===== verification/ListApi.v ===== *)
(** * The list interface its clients rely on

    [ListApi] names the operations of Common/esif_link_list.c that the queue
    and the hash table call, together with the field accesses they make
    through the public structs (the list's [head_ptr], a node's [next_ptr] and
    [data_ptr]).  [ListLaws] is the contract: a list object denotes a sequence
    of nodes (address and payload), and every operation acts on that sequence.
    LinkList.v discharges the contract; the clients' theorems use nothing
    else. *)

From S2P Require Import Prelude.
From stdpp Require Import list.

Definition first {A} (xs : list (positive * option A)) (nx : ptr) : ptr :=
  match xs with [] => nx | (a, _) :: _ => Some a end.

Class ListApi (A L : Type) := {
  api_create : bool -> obj L;
  api_add_at_back : bool -> option A -> SM (obj L) Z;
  api_create_node : bool -> option A -> SM (obj L) ptr;
  api_add_node_at_front : ptr -> SM (obj L) unit;
  api_head : SM (obj L) ptr;
  api_next : ptr -> SM (obj L) ptr;
  api_data : ptr -> SM (obj L) (option A);
  api_set_data : ptr -> option A -> SM (obj L) unit;
  api_node_remove : ptr -> SM (obj L) unit;
  api_destroy : SM (obj L) unit;
  (** Not a call of the C code: a bound on the rounds of a client's loop over
      the nodes, read off the list object. *)
  api_fuel : obj L -> nat
}.

Class ListLaws (A L : Type) {api : ListApi A L} := {
  denotes : obj L -> list (positive * option A) -> Prop;
  denotes_live : forall o xs, denotes o xs -> exists l, o = Live l;
  denotes_nodup : forall o xs, denotes o xs -> NoDup xs.*1;
  denotes_create : denotes (api_create true) [];
  create_fails : api_create false = Null;
  add_at_back_law : forall o xs d, denotes o xs ->
    exists a o', api_add_at_back true d o = Some (ESIF_OK, o') /\
      a ∉ xs.*1 /\ denotes o' (xs ++ [(a, d)]);
  add_at_back_no_memory : forall o xs d, denotes o xs ->
    api_add_at_back false d o = Some (ESIF_E_NO_MEMORY, o);
  push_front_law : forall o xs d, denotes o xs ->
    exists a o1 o2, api_create_node true d o = Some (Some a, o1) /\
      api_add_node_at_front (Some a) o1 = Some (tt, o2) /\
      a ∉ xs.*1 /\ denotes o2 ((a, d) :: xs);
  create_node_no_memory : forall o d, api_create_node false d o = Some (None, o);
  head_law : forall o xs, denotes o xs -> api_head o = Some (first xs None, o);
  next_law : forall o xs a d ys, denotes o (xs ++ (a, d) :: ys) ->
    api_next (Some a) o = Some (first ys None, o);
  data_law : forall o xs a d ys, denotes o (xs ++ (a, d) :: ys) ->
    api_data (Some a) o = Some (d, o);
  set_data_law : forall o xs a d ys d', denotes o (xs ++ (a, d) :: ys) ->
    exists o', api_set_data (Some a) d' o = Some (tt, o') /\ denotes o' (xs ++ (a, d') :: ys);
  node_remove_law : forall o xs a d ys, denotes o (xs ++ (a, d) :: ys) ->
    exists o', api_node_remove (Some a) o = Some (tt, o') /\ denotes o' (xs ++ ys);
  destroy_law : forall o xs, denotes o xs -> api_destroy o = Some (tt, Freed);
  fuel_law : forall o xs, denotes o xs -> length xs < api_fuel o
}.
