(* ===== verification/LinkList.v ===== *)
(** * Doubly linked lists: Common/esif_link_list.c

    A list object [llist] holds the C struct's [head_ptr], [tail_ptr] and
    [nodes], together with the memory its nodes live in: [arena] maps the
    address of every allocated node to its contents.  Addresses are opaque; an
    allocation returns any address that is not in use, or NULL when the
    [mem] argument says that memory is exhausted.  Dereferencing NULL or an
    address outside the arena has no outcome (see [SM] in Prelude).

    The payload type [A] stands for what [data_ptr] points at; a NULL
    [data_ptr] is [None]. *)

From S2P Require Import Prelude ListApi.
From stdpp Require Import gmap list.
Local Open Scope dptf_scope.

Section LinkList.
Context {A : Type}.

(* ------------------------------------------------------------------ *)
(** ** Data *)

Record node : Type := mk_node {
  data_ptr : option A;
  next_ptr : ptr;
  prev_ptr : ptr
}.

Record llist : Type := mk_llist {
  head_ptr : ptr;
  tail_ptr : ptr;
  nodes : Z;
  arena : gmap positive node
}.

Abbreviation M T := (SM (obj llist) T).

Definition upd_data (d : option A) (n : node) : node := mk_node d (next_ptr n) (prev_ptr n).
Definition upd_next (p : ptr) (n : node) : node := mk_node (data_ptr n) p (prev_ptr n).
Definition upd_prev (p : ptr) (n : node) : node := mk_node (data_ptr n) (next_ptr n) p.
Definition with_arena (f : gmap positive node -> gmap positive node) (l : llist) : llist :=
  mk_llist (head_ptr l) (tail_ptr l) (nodes l) (f (arena l)).
Definition with_head (p : ptr) (l : llist) : llist := mk_llist p (tail_ptr l) (nodes l) (arena l).
Definition with_tail (p : ptr) (l : llist) : llist := mk_llist (head_ptr l) p (nodes l) (arena l).
Definition with_nodes (f : Z -> Z) (l : llist) : llist :=
  mk_llist (head_ptr l) (tail_ptr l) (f (nodes l)) (arena l).

(** Loads and stores through a node pointer. *)
Definition get_node (p : ptr) : M node :=
  let! self := get_self in
  match p with
  | None => ub
  | Some a => of_option (arena self !! a)
  end.

Definition alter_node (f : node -> node) (p : ptr) : M unit :=
  match p with
  | None => ub
  | Some a => get_node (Some a) ;! mod_self (with_arena (alter f a))
  end.

Definition set_data (p : ptr) (d : option A) : M unit := alter_node (upd_data d) p.
Definition set_next (p : ptr) (v : ptr) : M unit := alter_node (upd_next v) p.
Definition set_prev (p : ptr) (v : ptr) : M unit := alter_node (upd_prev v) p.

(* ------------------------------------------------------------------ *)
(** ** Operations *)

Definition ll_empty : llist := mk_llist None None 0 ∅.

(** Creation allocates the list object itself. *)
Definition esif_link_list_create (mem : bool) : obj llist :=
  if mem then Live ll_empty else Null.

Definition esif_link_list_create_node (mem : bool) (d : option A) : M ptr :=
  if mem then
    let! self := get_self in
    let a := fresh (dom (arena self)) in
    mod_self (with_arena (insert a (mk_node d None None))) ;!
    sret (Some a)
  else sret None.

Definition esif_link_list_destroy_node (node_ptr : ptr) : M unit :=
  match node_ptr with
  | None => sret tt
  | Some a => get_node (Some a) ;! mod_self (with_arena (delete a))
  end.

Definition esif_link_list_add_node_at_front (new_node_ptr : ptr) : M unit :=
  let! null := is_null in
  if null || bool_decide (new_node_ptr = None) then sret tt else
  let! self := get_self in
  (match head_ptr self with
   | None =>
       set_prev new_node_ptr None ;!
       set_next new_node_ptr None ;!
       mod_self (with_head new_node_ptr) ;!
       mod_self (with_tail new_node_ptr)
   | Some h =>
       set_prev new_node_ptr None ;!
       set_next new_node_ptr (Some h) ;!
       set_prev (Some h) new_node_ptr ;!
       mod_self (with_head new_node_ptr)
   end) ;!
  mod_self (with_nodes (fun n => u32 (n + 1))).

Definition esif_link_list_add_at_front (mem : bool) (d : option A) : M Z :=
  let! null := is_null in
  if null then sret ESIF_E_PARAMETER_IS_NULL else
  let! node_ptr := esif_link_list_create_node mem d in
  match node_ptr with
  | None => sret ESIF_E_NO_MEMORY
  | Some _ => esif_link_list_add_node_at_front node_ptr ;! sret ESIF_OK
  end.

Definition esif_link_list_get_node_count : M Z :=
  let! null := is_null in
  if null then sret 0%Z else
  let! self := get_self in sret (nodes self).

Definition esif_link_list_add_node_at_back (new_node_ptr : ptr) : M unit :=
  let! null := is_null in
  if null || bool_decide (new_node_ptr = None) then sret tt else
  let! self := get_self in
  match head_ptr self with
  | None => esif_link_list_add_node_at_front new_node_ptr
  | Some _ =>
      set_prev new_node_ptr (tail_ptr self) ;!
      set_next new_node_ptr None ;!
      set_next (tail_ptr self) new_node_ptr ;!
      mod_self (with_tail new_node_ptr) ;!
      mod_self (with_nodes (fun n => u32 (n + 1)))
  end.

Definition esif_link_list_add_at_back (mem : bool) (d : option A) : M Z :=
  let! null := is_null in
  if null then sret ESIF_E_PARAMETER_IS_NULL else
  let! node_ptr := esif_link_list_create_node mem d in
  match node_ptr with
  | None => sret ESIF_E_NO_MEMORY
  | Some _ => esif_link_list_add_node_at_back node_ptr ;! sret ESIF_OK
  end.

Definition esif_link_list_add_after (mem : bool) (node_ptr : ptr) (d : option A) : M Z :=
  let! null := is_null in
  if null then sret ESIF_E_PARAMETER_IS_NULL else
  match node_ptr with
  | None => esif_link_list_add_at_front mem d
  | Some _ =>
      let! new_node_ptr := esif_link_list_create_node mem d in
      match new_node_ptr with
      | None => sret ESIF_E_NO_MEMORY
      | Some _ =>
          let! nd := get_node node_ptr in
          set_next new_node_ptr (next_ptr nd) ;!
          set_next node_ptr new_node_ptr ;!
          set_prev new_node_ptr node_ptr ;!
          let! new_nd := get_node new_node_ptr in
          (match next_ptr new_nd with
           | Some n => set_prev (Some n) new_node_ptr
           | None => mod_self (with_tail new_node_ptr)
           end) ;!
          mod_self (with_nodes (fun n => u32 (n + 1))) ;!
          sret ESIF_OK
      end
  end.

(** The ordering callback: given the data before and after a position and the
    new data, it returns a status and whether to insert there. *)
Definition sort_cb : Type := option A -> option A -> option A -> Z * Z.

Definition node_data (p : ptr) : M (option A) :=
  match p with
  | None => sret None
  | Some _ => let! nd := get_node p in sret (data_ptr nd)
  end.

Fixpoint insert_ordered_loop (fuel : nat) (mem : bool) (cb : sort_cb) (d : option A)
    (prev_node_ptr next_node_ptr : ptr) : M Z :=
  match fuel with
  | O => ub
  | S fuel' =>
      let! prev_data := node_data prev_node_ptr in
      let! next_data := node_data next_node_ptr in
      let '(rc, sort_value) := cb prev_data next_data d in
      if negb (rc =? ESIF_OK)%Z then sret rc else
      if negb (sort_value =? 0)%Z then esif_link_list_add_after mem prev_node_ptr d else
      let! prev' := (match prev_node_ptr with
                     | Some _ => let! nd := get_node prev_node_ptr in sret (next_ptr nd)
                     | None => let! self := get_self in sret (head_ptr self)
                     end) in
      let! next' := (match next_node_ptr with
                     | Some _ => let! nd := get_node next_node_ptr in sret (next_ptr nd)
                     | None => sret None
                     end) in
      if bool_decide (prev' = None) && bool_decide (next' = None)
      then sret ESIF_E_ORDERED_INSERT
      else insert_ordered_loop fuel' mem cb d prev' next'
  end.

(** One more round than there are nodes. *)
Definition loop_fuel (self : llist) : nat := S (S (size (arena self))).

Definition esif_link_list_insert_ordered (mem : bool) (d : option A)
    (callback_ptr : option sort_cb) : M Z :=
  let! null := is_null in
  if null then sret ESIF_E_PARAMETER_IS_NULL else
  match callback_ptr with
  | None => sret ESIF_E_CALLBACK_IS_NULL
  | Some cb =>
      let! self := get_self in
      insert_ordered_loop (loop_fuel self) mem cb d None (head_ptr self)
  end.

Fixpoint node_remove_loop (fuel : nat) (cur node_ptr : ptr) : M unit :=
  match fuel with
  | O => ub
  | S fuel' =>
      match cur with
      | None => sret tt
      | Some _ =>
          if decide (cur = node_ptr) then
            let! nd := get_node cur in
            (match prev_ptr nd with
             | None => mod_self (with_head (next_ptr nd))
             | Some p => set_next (Some p) (next_ptr nd)
             end) ;!
            let! nd := get_node cur in
            (match next_ptr nd with
             | None => mod_self (with_tail (prev_ptr nd))
             | Some n => set_prev (Some n) (prev_ptr nd)
             end) ;!
            esif_link_list_destroy_node cur ;!
            mod_self (with_nodes (fun n => u32 (n - 1)))
          else
            let! nd := get_node cur in
            node_remove_loop fuel' (next_ptr nd) node_ptr
      end
  end.

Definition esif_link_list_node_remove (node_ptr : ptr) : M unit :=
  let! null := is_null in
  if null || bool_decide (node_ptr = None) then sret tt else
  let! self := get_self in
  node_remove_loop (loop_fuel self) (head_ptr self) node_ptr.

(** Releasing the payloads: the result lists, in order, each payload handed to
    [destroy_func] ([true]) or to [esif_ccb_free] ([false]). *)
Definition freed : Type := list (bool * option A).

Fixpoint free_data_loop (fuel : nat) (destroy_func : bool) (curr_ptr : ptr) : M freed :=
  match fuel with
  | O => ub
  | S fuel' =>
      match curr_ptr with
      | None => sret []
      | Some _ =>
          let! nd := get_node curr_ptr in
          set_data curr_ptr None ;!
          esif_link_list_node_remove curr_ptr ;!
          let! self := get_self in
          let! rest := free_data_loop fuel' destroy_func (head_ptr self) in
          sret ((destroy_func, data_ptr nd) :: rest)
      end
  end.

Definition esif_link_list_free_data (destroy_func : bool) : M freed :=
  let! null := is_null in
  if null then sret [] else
  let! self := get_self in
  free_data_loop (loop_fuel self) destroy_func (head_ptr self).

Definition esif_link_list_free_data_and_destroy (destroy_func : bool) : M freed :=
  let! null := is_null in
  if null then sret [] else
  let! out := esif_link_list_free_data destroy_func in
  free_self ;! sret out.

Fixpoint destroy_loop (fuel : nat) (curr_ptr : ptr) : M unit :=
  match fuel with
  | O => ub
  | S fuel' =>
      match curr_ptr with
      | None => sret tt
      | Some _ =>
          esif_link_list_node_remove curr_ptr ;!
          let! self := get_self in
          destroy_loop fuel' (head_ptr self)
      end
  end.

Definition esif_link_list_destroy : M unit :=
  let! null := is_null in
  if null then sret tt else
  let! self := get_self in
  destroy_loop (loop_fuel self) (head_ptr self) ;!
  free_self.

End LinkList.

Arguments node A : clear implicits.
Arguments llist A : clear implicits.
Arguments sort_cb A : clear implicits.
Arguments freed A : clear implicits.


(* ------------------------------------------------------------------ *)
(** ** Representation: the chain of nodes a list denotes

    [xs] lists, in order, each node's address and payload. *)

Section Repr.
Context {A : Type}.
Implicit Types (h : gmap positive (node A)) (xs ys : list (positive * option A)).

Fixpoint lastp (xs : list (positive * option A)) (pv : ptr) : ptr :=
  match xs with [] => pv | (a, _) :: xs' => lastp xs' (Some a) end.

Fixpoint seg (h : gmap positive (node A)) (pv : ptr) (xs : list (positive * option A))
    (nx : ptr) : Prop :=
  match xs with
  | [] => True
  | (a, d) :: xs' => h !! a = Some (mk_node d (first xs' nx) pv) /\ seg h (Some a) xs' nx
  end.

Record ll_repr (l : llist A) (xs : list (positive * option A)) : Prop := {
  repr_head : head_ptr l = first xs None;
  repr_tail : tail_ptr l = lastp xs None;
  repr_nodes : nodes l = u32 (Z.of_nat (length xs));
  repr_seg : seg (arena l) None xs None;
  repr_nodup : NoDup xs.*1
}.

(** No allocated node is outside the chain. *)
Definition no_leak (l : llist A) (xs : list (positive * option A)) : Prop :=
  forall a, is_Some (arena l !! a) -> a ∈ xs.*1.

Lemma first_app xs ys nx : first (xs ++ ys) nx = first xs (first ys nx).
Proof. by destruct xs as [|[a d] xs]. Qed.

Lemma lastp_app xs ys pv : lastp (xs ++ ys) pv = lastp ys (lastp xs pv).
Proof. revert pv. induction xs as [|[a d] xs IH]; simpl; auto. Qed.

Lemma seg_app h xs ys pv nx :
  seg h pv (xs ++ ys) nx <-> seg h pv xs (first ys nx) /\ seg h (lastp xs pv) ys nx.
Proof.
  revert pv. induction xs as [|[a d] xs IH]; intros pv; simpl; [tauto|].
  rewrite IH, first_app. tauto.
Qed.

Lemma seg_lookup h pv xs nx a : seg h pv xs nx -> a ∈ xs.*1 -> is_Some (h !! a).
Proof.
  revert pv. induction xs as [|[b d] xs IH]; simpl; intros pv Hs Ha; [by apply elem_of_nil in Ha|].
  destruct Hs as [Hb Hs]. apply elem_of_cons in Ha as [->|Ha]; [by rewrite Hb | eauto].
Qed.

(** A chain does not depend on cells outside it. *)
Lemma seg_ext h h' pv xs nx :
  (forall a, a ∈ xs.*1 -> h' !! a = h !! a) -> seg h pv xs nx -> seg h' pv xs nx.
Proof.
  revert pv. induction xs as [|[b d] xs IH]; simpl; intros pv He; [done|].
  intros [Hb Hs]. split; [rewrite He; [done | by left] |].
  apply IH; [|done]. intros a Ha. apply He. by right.
Qed.

Lemma seg_insert_ne h pv xs nx a n :
  a ∉ xs.*1 -> seg h pv xs nx -> seg (<[a:=n]> h) pv xs nx.
Proof. intros Ha. apply seg_ext. intros b Hb. rewrite lookup_insert_ne; set_solver. Qed.

Lemma seg_alter_ne h pv xs nx a f :
  a ∉ xs.*1 -> seg h pv xs nx -> seg (alter f a h) pv xs nx.
Proof. intros Ha. apply seg_ext. intros b Hb. rewrite lookup_alter_ne; set_solver. Qed.

Lemma seg_delete_ne h pv xs nx a :
  a ∉ xs.*1 -> seg h pv xs nx -> seg (delete a h) pv xs nx.
Proof. intros Ha. apply seg_ext. intros b Hb. rewrite lookup_delete_ne; set_solver. Qed.

(** Writing through a possibly NULL pointer. *)
Definition alter_ptr (f : node A -> node A) (p : ptr) h : gmap positive (node A) :=
  match p with Some a => alter f a h | None => h end.

Lemma lastp_cases xs pv :
  (xs = [] /\ lastp xs pv = pv) \/
  (exists xs' a d, xs = xs' ++ [(a, d)] /\ lastp xs pv = Some a).
Proof.
  destruct xs as [|[a d] xs _] using rev_ind; [by left|].
  right. exists xs, a, d. by rewrite lastp_app.
Qed.

(** Redirecting the last [next_ptr], or the first [prev_ptr], of a chain. *)
Lemma seg_relink_next h pv xs nx nx' :
  NoDup xs.*1 -> seg h pv xs nx ->
  seg (alter_ptr (upd_next nx') (lastp xs None) h) pv xs nx'.
Proof.
  intros Hnd Hs. destruct (lastp_cases xs None) as [[-> _]|(ys & a & d & -> & ->)]; [done|].
  rewrite fmap_app in Hnd. apply NoDup_app_cons_swap in Hnd as (Hn & _ & _).
  apply seg_app in Hs as [Hs1 Hs2]. simpl in Hs1, Hs2. destruct Hs2 as [Hs2 _].
  apply seg_app. simpl. split; [by apply seg_alter_ne|]. split; [|done].
  by rewrite lookup_alter_eq, Hs2.
Qed.

Lemma seg_relink_prev h pv pv' xs nx :
  NoDup xs.*1 -> seg h pv xs nx ->
  seg (alter_ptr (upd_prev pv') (first xs None) h) pv' xs nx.
Proof.
  destruct xs as [|[a d] xs]; simpl; [done|].
  intros Hnd [Ha Hs]. apply NoDup_cons in Hnd as [Hn _].
  split; [by rewrite lookup_alter_eq, Ha | by apply seg_alter_ne].
Qed.

Lemma seg_alter_ptr_ne h pv xs nx p f :
  (forall a, p = Some a -> a ∉ xs.*1) -> seg h pv xs nx -> seg (alter_ptr f p h) pv xs nx.
Proof. intros Hp. destruct p as [a|]; simpl; [apply seg_alter_ne; auto | done]. Qed.

Lemma lastp_in xs pv a : lastp xs pv = Some a -> pv <> Some a -> a ∈ xs.*1.
Proof.
  destruct (lastp_cases xs pv) as [[-> ->]|(ys & b & d & -> & ->)]; intros E N; [done|].
  injection E as ->. rewrite fmap_app. set_solver.
Qed.

Lemma first_in xs a : first xs None = Some a -> a ∈ xs.*1.
Proof. destruct xs as [|[b d] xs]; simpl; [done | intros [= ->]; by left]. Qed.

(** Unlinking a node from the middle of a chain. *)
Lemma seg_unlink h xs a d ys :
  NoDup (xs ++ (a, d) :: ys).*1 ->
  seg h None (xs ++ (a, d) :: ys) None ->
  seg (delete a (alter_ptr (upd_prev (lastp xs None)) (first ys None)
         (alter_ptr (upd_next (first ys None)) (lastp xs None) h))) None (xs ++ ys) None.
Proof.
  rewrite fmap_app, fmap_cons. simpl. intros Hnd Hs.
  pose proof (NoDup_app_cons_swap _ _ _ Hnd) as (Hax & Hay & Hxy).
  apply NoDup_app in Hxy as (Hx & Hdis & Hy).
  apply seg_app in Hs as [Hs1 Hs2]. simpl in Hs1, Hs2. destruct Hs2 as [_ Hs2].
  apply seg_app. split; (apply seg_delete_ne; [done|]).
  - apply seg_alter_ptr_ne.
    + intros b Hb%first_in Hbx. by apply (Hdis b).
    + by apply (seg_relink_next _ _ _ (Some a)).
  - apply (seg_relink_prev _ (Some a)); [done|].
    apply seg_alter_ptr_ne; [|done].
    intros b Hb Hby. apply lastp_in in Hb; [|done]. by apply (Hdis b).
Qed.

(** Every chain fits in the arena, so a traversal needs at most that many rounds. *)
Lemma seg_size h pv xs nx : NoDup xs.*1 -> seg h pv xs nx -> length xs <= size h.
Proof.
  intros Hnd Hs. rewrite <- size_dom, <- (length_fmap fst).
  transitivity (size (list_to_set xs.*1 : gset positive)).
  - rewrite size_list_to_set; done.
  - apply subseteq_size. intros a Ha. apply elem_of_list_to_set in Ha.
    apply elem_of_dom. by eapply seg_lookup.
Qed.

End Repr.

(* ------------------------------------------------------------------ *)
(** ** Running the operations on a represented list *)

Section Run.
Context {A : Type}.
Implicit Types (l : llist A) (xs ys : list (positive * option A)) (d : option A).

(** What a live list object denotes, with every allocated node accounted for. *)
Definition obj_repr (o : obj (llist A)) xs : Prop :=
  exists l, o = Live l /\ ll_repr l xs /\ no_leak l xs.

Lemma get_node_live a l n : arena l !! a = Some n -> get_node (Some a) (Live l) = Some (n, Live l).
Proof. intros H. unfold get_node. run_monad. by rewrite H. Qed.

Lemma alter_node_live f a l n :
  arena l !! a = Some n ->
  alter_node f (Some a) (Live l) = Some (tt, Live (with_arena (alter f a) l)).
Proof. intros H. unfold alter_node. by rewrite (sbind_some _ _ _ _ _ (get_node_live _ _ _ H)). Qed.

Lemma destroy_node_live a l n :
  arena l !! a = Some n ->
  esif_link_list_destroy_node (Some a) (Live l) = Some (tt, Live (with_arena (delete a) l)).
Proof.
  intros H. unfold esif_link_list_destroy_node.
  by rewrite (sbind_some _ _ _ _ _ (get_node_live _ _ _ H)).
Qed.

Lemma create_node_live l d :
  exists a, arena l !! a = None /\
    esif_link_list_create_node true d (Live l) =
      Some (Some a, Live (with_arena (insert a (mk_node d None None)) l)).
Proof.
  exists (fresh (dom (arena l))). split; [|done].
  apply not_elem_of_dom, is_fresh.
Qed.
End Run.

(** Lookups in an arena after a few stores. *)
Ltac arena_lookup :=
  cbn [arena with_arena with_head with_tail with_nodes alter_ptr];
  repeat first
    [ rewrite lookup_insert_eq | rewrite lookup_alter_eq
    | rewrite lookup_insert_ne by congruence | rewrite lookup_alter_ne by congruence
    | rewrite lookup_delete_ne by congruence
    | match goal with H : _ !! _ = _ |- _ => rewrite H end ];
  reflexivity.

Ltac ll_step :=
  eapply sbind_intro;
  [ first [ eapply alter_node_live; arena_lookup
          | eapply get_node_live; arena_lookup
          | eapply destroy_node_live; arena_lookup
          | reflexivity ]
  | cbn beta iota ].
(** Pass the NULL tests at the head of an operation on a live list. *)
Ltac ll_guard :=
  eapply sbind_intro; [reflexivity | cbn beta];
  rewrite ?bool_decide_eq_false_2 by done; cbn [orb].

Section Ops.
Context {A : Type}.
Implicit Types (l : llist A) (xs ys : list (positive * option A)) (d : option A).

Lemma nodes_succ n k : n = u32 (Z.of_nat k) -> u32 (n + 1) = u32 (Z.of_nat (S k)).
Proof. intros ->. rewrite wrap_add_l. f_equal. lia. Qed.

Lemma nodes_pred n k : n = u32 (Z.of_nat (S k)) -> u32 (n - 1) = u32 (Z.of_nat k).
Proof. intros ->. rewrite wrap_sub_l. f_equal. lia. Qed.

(** Linking an allocated, detached node in front. *)
Lemma add_node_at_front_live l xs a n :
  ll_repr l xs -> arena l !! a = Some n -> a ∉ xs.*1 ->
  exists l', esif_link_list_add_node_at_front (Some a) (Live l) = Some (tt, Live l') /\
    ll_repr l' ((a, data_ptr n) :: xs) /\ dom (arena l') = dom (arena l).
Proof.
  intros [Hh Ht Hn Hs Hd] Ha Hax.
  assert (NoDup (a :: xs.*1)) by by apply NoDup_cons.
  unfold esif_link_list_add_node_at_front. destruct xs as [|[b e] ys]; simpl in *.
  - eexists. split.
    + ll_guard. ll_step. rewrite Hh. eapply sbind_intro; [do 3 ll_step; reflexivity | reflexivity].
    + split; [split; simpl; try done; [by apply nodes_succ |] | simpl; by rewrite !dom_alter_L].
      cbn. by rewrite !lookup_alter_eq, Ha.
  - destruct Hs as [Hb Hs]. assert (a <> b) by set_solver.
    eexists. split.
    + ll_guard. ll_step. rewrite Hh. eapply sbind_intro; [do 3 ll_step; reflexivity | reflexivity].
    + split; [split; simpl; try done; [by apply nodes_succ |] | simpl; by rewrite !dom_alter_L].
      cbn. rewrite lookup_alter_ne, !lookup_alter_eq, Ha by congruence.
      repeat split.
      * by rewrite !lookup_alter_ne, Hb by congruence.
      * apply NoDup_cons in Hd as [Hd _].
        repeat (apply seg_alter_ne; [set_solver|]). done.
Qed.

Lemma add_node_at_back_live l xs a n :
  ll_repr l xs -> arena l !! a = Some n -> a ∉ xs.*1 ->
  exists l', esif_link_list_add_node_at_back (Some a) (Live l) = Some (tt, Live l') /\
    ll_repr l' (xs ++ [(a, data_ptr n)]) /\ dom (arena l') = dom (arena l).
Proof.
  intros Hr Ha Hax. pose proof Hr as [Hh Ht Hn Hs Hd].
  destruct (lastp_cases xs None) as [[-> _]|(ys & b & e & -> & Hl)].
  { destruct (add_node_at_front_live l [] a n Hr Ha Hax) as (l' & E & Hr' & Hd').
    exists l'. split; [|done]. unfold esif_link_list_add_node_at_back.
    ll_guard. ll_step. simpl in Hh. by rewrite Hh. }
  rewrite Hl in Ht.
  assert (a <> b) by (rewrite fmap_app in Hax; set_solver).
  pose proof Hs as Hs'. apply seg_app in Hs' as [_ [Hb _]].
  assert (exists c, head_ptr l = Some c) as [c Hc].
  { rewrite Hh, first_app. destruct ys as [|[]]; simpl; eauto. }
  eexists. split.
  - unfold esif_link_list_add_node_at_back. ll_guard. ll_step. rewrite Hc, Ht.
    do 4 ll_step. reflexivity.
  - split; [split; simpl|simpl; by rewrite !dom_alter_L].
    + by rewrite Hh, !first_app.
    + by rewrite lastp_app.
    + rewrite (length_app (ys ++ _)). simpl. rewrite Nat.add_1_r. by apply nodes_succ.
    + apply seg_app. simpl. rewrite Hl. split; [|split; [|done]].
      * pose proof (seg_relink_next (alter (upd_next None) a (alter (upd_prev (Some b)) a (arena l)))
          None (ys ++ [(b, e)]) None (Some a) Hd) as Hrel.
        rewrite Hl in Hrel. apply Hrel. by do 2 (apply seg_alter_ne; [done|]).
      * by rewrite lookup_alter_ne, !lookup_alter_eq, Ha by congruence.
    + rewrite (fmap_app _ (_ ++ _)). apply NoDup_app. repeat split; [done| |apply NoDup_singleton].
      set_solver.
Qed.

(** The body of the removal loop, at the node to remove. *)
Lemma node_remove_here l xs a d ys fuel :
  ll_repr l (xs ++ (a, d) :: ys) ->
  exists l', node_remove_loop (S fuel) (Some a) (Some a) (Live l) = Some (tt, Live l') /\
    ll_repr l' (xs ++ ys) /\ dom (arena l') = dom (arena l) ∖ {[a]}.
Proof.
  intros [Hh Ht Hn Hs Hd]. pose proof Hs as Hs'. apply seg_app in Hs' as [Hsx [Ha Hsy]].
  pose proof Hd as Hnd. rewrite fmap_app, fmap_cons in Hnd. simpl in Hnd.
  apply NoDup_app_cons_swap in Hnd as (Hax & Hay & Hxy).
  assert (Hlp : forall b, lastp xs None = Some b -> b <> a /\ is_Some (arena l !! b)).
  { intros b Hb%lastp_in; [|done]. split; [congruence | eauto using seg_lookup]. }
  assert (Hfp : forall b, first ys None = Some b -> b <> a /\ is_Some (arena l !! b)).
  { intros b Hb%first_in. split; [congruence | eauto using seg_lookup]. }
  set (h1 := alter_ptr (upd_next (first ys None)) (lastp xs None) (arena l)).
  set (h2 := alter_ptr (upd_prev (lastp xs None)) (first ys None) h1).
  exists (mk_llist (first (xs ++ ys) None) (lastp (xs ++ ys) None) (u32 (nodes l - 1)) (delete a h2)).
  split; [|split].
  - cbn [node_remove_loop]. rewrite decide_True by done. ll_step. cbn [next_ptr prev_ptr].
    assert (Hstep1 : (match lastp xs None with
        | None => mod_self (with_head (first ys None))
        | Some p => set_next (Some p) (first ys None) end) (Live l) =
        Some (tt, Live (mk_llist (first (xs ++ ys) None) (tail_ptr l) (nodes l) h1))).
    { destruct (lastp_cases xs None) as [[-> HE]|(zs & b & e & -> & HE)].
      - by subst h1.
      - subst h1. rewrite HE in Hlp |- *. destruct (Hlp b eq_refl) as [_ [nb Hb]].
        unfold set_next. rewrite (alter_node_live _ _ _ _ Hb). unfold with_arena.
        rewrite Hh, !first_app. destruct zs as [|[]]; done. }
    eapply sbind_intro; [exact Hstep1|]. cbn beta.
    assert (Ha1 : h1 !! a = arena l !! a).
    { subst h1. destruct (lastp xs None) as [b|]; simpl; [|done].
      rewrite lookup_alter_ne; [done|]. by apply Hlp. }
    eapply sbind_intro; [eapply get_node_live; simpl; rewrite Ha1; exact Ha|]. cbn beta. cbn [next_ptr prev_ptr].
    assert (Hstep2 : (match first ys None with
        | None => mod_self (with_tail (lastp xs None))
        | Some p => set_prev (Some p) (lastp xs None) end)
         (Live (mk_llist (first (xs ++ ys) None) (tail_ptr l) (nodes l) h1)) =
        Some (tt, Live (mk_llist (first (xs ++ ys) None) (lastp (xs ++ ys) None) (nodes l) h2))).
    { subst h2. destruct ys as [|[b e] ys']; cbn [first] in Hfp |- *.
      - by rewrite app_nil_r.
      - destruct (Hfp b eq_refl) as [_ Hb].
        assert (is_Some (h1 !! b)) as [nb Hb1].
        { subst h1. destruct (lastp xs None); simpl; [|done]. by rewrite lookup_alter_is_Some. }
        unfold set_prev. rewrite (alter_node_live _ _ _ nb); [|done].
        unfold with_arena. cbn [head_ptr tail_ptr nodes arena]. by rewrite Ht, !lastp_app. }
    eapply sbind_intro; [exact Hstep2|]. cbn beta.
    assert (Ha2 : h2 !! a = arena l !! a).
    { subst h2. destruct (first ys None) as [b|] eqn:Ef; simpl; [|done].
      rewrite lookup_alter_ne; [done|]. by apply Hfp. }
    eapply sbind_intro; [eapply destroy_node_live; simpl; rewrite Ha2; exact Ha|]. reflexivity.
  - split; simpl; try done.
    + rewrite (length_app xs ((a, d) :: ys)) in Hn. simpl in Hn. rewrite Nat.add_succ_r in Hn.
      rewrite length_app. by apply nodes_pred.
    + by apply seg_unlink with (d := d).
    + by rewrite fmap_app.
  - simpl. subst h2 h1. rewrite dom_delete_L. f_equal.
    destruct (lastp xs None), (first ys None); simpl; by rewrite ?dom_alter_L.
Qed.

Lemma node_remove_loop_found l xs ys a d zs fuel :
  ll_repr l (xs ++ ys ++ (a, d) :: zs) -> length ys < fuel ->
  exists l', node_remove_loop fuel (first (ys ++ (a, d) :: zs) None) (Some a) (Live l) =
      Some (tt, Live l') /\
    ll_repr l' (xs ++ ys ++ zs) /\ dom (arena l') = dom (arena l) ∖ {[a]}.
Proof.
  revert xs fuel. induction ys as [|[b e] ys IH]; intros xs [|fuel] Hr Hf; simpl in Hf; try lia.
  { by apply node_remove_here with (d := d). }
  cbn [app] in Hr. pose proof Hr as [_ _ _ Hs Hd]. apply seg_app in Hs as [_ [Hb _]].
  assert (b <> a).
  { rewrite fmap_app, fmap_cons, fmap_app in Hd. simpl in Hd.
    apply NoDup_app in Hd as (_ & _ & Hd). apply NoDup_cons in Hd as [Hd _]. set_solver. }
  rewrite cons_middle, app_assoc in Hr.
  destruct (IH _ fuel Hr) as (l' & E & Hr' & Hdom); [lia|].
  exists l'. split; [|split; [by rewrite <- app_assoc in Hr'|done]].
  cbn [app first node_remove_loop]. rewrite decide_False by congruence. ll_step. exact E.
Qed.

Lemma node_remove_loop_absent l xs ys a fuel :
  ll_repr l (xs ++ ys) -> a ∉ ys.*1 -> length ys < fuel ->
  node_remove_loop fuel (first ys None) (Some a) (Live l) = Some (tt, Live l).
Proof.
  revert xs fuel. induction ys as [|[b e] ys IH]; intros xs [|fuel] Hr Ha Hf; simpl in Hf; try lia.
  { done. }
  rewrite fmap_cons in Ha. simpl in Ha. apply not_elem_of_cons in Ha as [Hab Ha].
  pose proof Hr as [_ _ _ Hs _]. apply seg_app in Hs as [_ [Hb _]].
  rewrite cons_middle, app_assoc in Hr.
  cbn [first node_remove_loop]. rewrite decide_False by congruence. ll_step.
  apply (IH _ fuel Hr); [done|lia].
Qed.

Lemma repr_fuel l xs : ll_repr l xs -> length xs < loop_fuel l.
Proof. intros Hr. apply le_n_S, Nat.le_le_succ_r. eapply seg_size; apply Hr. Qed.

Lemma node_remove_live l xs a d ys :
  ll_repr l (xs ++ (a, d) :: ys) ->
  exists l', esif_link_list_node_remove (Some a) (Live l) = Some (tt, Live l') /\
    ll_repr l' (xs ++ ys) /\ dom (arena l') = dom (arena l) ∖ {[a]}.
Proof.
  intros Hr. destruct (node_remove_loop_found l [] xs a d ys (loop_fuel l)) as (l' & E & H); [done| |].
  { apply repr_fuel in Hr. rewrite length_app in Hr. lia. }
  exists l'. split; [|done]. unfold esif_link_list_node_remove. ll_guard. ll_step.
  by rewrite (repr_head _ _ Hr).
Qed.

(** The stores that splice a fresh node [a] in after [b]. *)
Lemma add_after_link l xs b e ys d a :
  ll_repr l (xs ++ (b, e) :: ys) -> a ∉ (xs ++ (b, e) :: ys).*1 ->
  exists h', (match first ys None with
      | Some n => set_prev (Some n) (Some a) | None => mod_self (with_tail (Some a)) end)
     (Live (with_arena (alter (upd_prev (Some b)) a) (with_arena (alter (upd_next (Some a)) b)
        (with_arena (alter (upd_next (first ys None)) a)
          (with_arena (insert a (mk_node d None None)) l))))) =
     Some (tt, Live (mk_llist (head_ptr l) (lastp (xs ++ (b, e) :: (a, d) :: ys) None) (nodes l) h')) /\
     seg h' None (xs ++ (b, e) :: (a, d) :: ys) None /\ dom h' = {[a]} ∪ dom (arena l).
Proof.
  intros [Hh Ht Hn Hs Hd] Ha. apply seg_app in Hs as [Hsx [Hb Hsy]].
  rewrite fmap_app, fmap_cons in Hd, Ha. simpl in Hd, Ha.
  apply NoDup_app_cons_swap in Hd as (Hbx & Hby & Hxy).
  assert (Hab : a <> b) by set_solver.
  set (h0 := alter (upd_prev (Some b)) a (alter (upd_next (Some a)) b
        (alter (upd_next (first ys None)) a (insert a (mk_node d None None) (arena l))))).
  assert (Hseg0 : forall pv zs nx, a ∉ zs.*1 -> b ∉ zs.*1 -> seg (arena l) pv zs nx -> seg h0 pv zs nx).
  { intros. by repeat (apply seg_alter_ne; [done|]); apply seg_insert_ne. }
  assert (Ha0 : h0 !! a = Some (mk_node d (first ys None) (Some b))).
  { subst h0. rewrite lookup_alter_eq, lookup_alter_ne, lookup_alter_eq, lookup_insert_eq by done. done. }
  assert (Hb0 : h0 !! b = Some (mk_node e (Some a) (lastp xs None))).
  { subst h0. rewrite lookup_alter_ne, lookup_alter_eq, lookup_alter_ne, lookup_insert_ne, Hb by done. done. }
  exists (alter_ptr (upd_prev (Some a)) (first ys None) h0). split; [|split].
  - destruct ys as [|[c f] ys']; cbn [first alter_ptr].
    + by rewrite lastp_app.
    + destruct Hsy as [Hc _]. assert (c <> a /\ c <> b) as [Hca Hcb] by set_solver.
      unfold set_prev. erewrite alter_node_live; [|unfold with_arena; arena_lookup].
      unfold with_arena. cbn [head_ptr tail_ptr nodes arena]. rewrite Ht, !lastp_app. done.
  - assert (Hfb : forall c, first ys None = Some c -> c ∈ ys.*1) by (intros c; apply first_in).
    apply NoDup_app in Hxy as (Hx & Hdis & Hy).
    apply seg_app. split; [|split; [|split]].
    + apply seg_alter_ptr_ne; [|apply Hseg0; [set_solver..|done]].
      intros c Hc%Hfb Hcx. by apply (Hdis c).
    + destruct (first ys None) as [c|] eqn:Ef; simpl; [|done]. rewrite lookup_alter_ne; [done|set_solver].
    + destruct (first ys None) as [c|] eqn:Ef; simpl; [|done]. rewrite lookup_alter_ne; [done|set_solver].
    + eapply (seg_relink_prev _ (Some b)); [done|]. apply Hseg0; [set_solver..|done].
  - subst h0. destruct (first ys None); simpl; by rewrite ?dom_alter_L, dom_insert_L.
Qed.

(** Linking an allocated, detached node after [b]: the body of [add_after]. *)
Lemma add_after_live l xs b e ys d :
  ll_repr l (xs ++ (b, e) :: ys) ->
  exists a l', esif_link_list_add_after true (Some b) d (Live l) = Some (ESIF_OK, Live l') /\
    arena l !! a = None /\
    ll_repr l' (xs ++ (b, e) :: (a, d) :: ys) /\ dom (arena l') = {[a]} ∪ dom (arena l).
Proof.
  intros [Hh Ht Hn Hs Hd]. destruct (create_node_live l d) as (a & Hfr & Hcreate).
  pose proof Hs as Hs'. apply seg_app in Hs' as [_ [Hb _]].
  assert (Ha : a ∉ (xs ++ (b, e) :: ys).*1).
  { intros Ha. eapply seg_lookup in Ha as [? Ha]; [|done]. by rewrite Hfr in Ha. }
  destruct (add_after_link l xs b e ys d a) as (h' & Hlink & Hseg & Hdom); [by split|done|].
  exists a, (mk_llist (head_ptr l) (lastp (xs ++ (b, e) :: (a, d) :: ys) None) (u32 (nodes l + 1)) h').
  split; [|split; [done|split; [|exact Hdom]]].
  - assert (Hab : a <> b) by (intros ->; rewrite fmap_app in Ha; set_solver).
    unfold esif_link_list_add_after. ll_guard. eapply sbind_intro; [exact Hcreate|]. cbn beta iota.
    do 5 ll_step. cbn [next_ptr upd_next upd_prev data_ptr prev_ptr].
    eapply sbind_intro; [exact Hlink|]. cbn beta. ll_step. reflexivity.
  - split; simpl; try done.
    + by rewrite Hh, !first_app.
    + rewrite length_app. simpl. rewrite Nat.add_succ_r. apply nodes_succ.
      by rewrite Hn, length_app.
    + rewrite fmap_app, !fmap_cons. simpl. rewrite fmap_app, fmap_cons in Hd, Ha. simpl in Hd, Ha.
      apply NoDup_app in Hd as (H1 & H2 & H3). apply NoDup_app. split; [done|]. split.
      * set_solver.
      * apply NoDup_cons in H3 as [H3 H4]. apply NoDup_cons. split; [set_solver|].
        apply NoDup_cons. split; [set_solver|done].
Qed.

Lemma repr_nil : ll_repr (@ll_empty A) [].
Proof. split; try done. apply NoDup_nil_2. Qed.

Lemma no_leak_dom l xs : ll_repr l xs -> no_leak l xs <-> dom (arena l) = list_to_set xs.*1.
Proof.
  intros Hr. split; intros H.
  - apply set_eq. intros a. rewrite elem_of_dom, elem_of_list_to_set. split; [apply H|].
    intros Ha. eapply seg_lookup; [apply Hr|done].
  - intros a Ha%elem_of_dom. rewrite H in Ha. by apply elem_of_list_to_set in Ha.
Qed.

(** A fresh node, then linked by [link]: [add_at_front] and [add_at_back]. *)
Lemma fresh_not_in l xs a : ll_repr l xs -> arena l !! a = None -> a ∉ xs.*1.
Proof. intros Hr Hn Ha. eapply seg_lookup in Ha as [? Ha]; [|apply Hr]. by rewrite Hn in Ha. Qed.

Lemma repr_insert_fresh l xs a n :
  ll_repr l xs -> arena l !! a = None -> ll_repr (with_arena (insert a n) l) xs.
Proof.
  intros Hr Ha. pose proof (fresh_not_in _ _ _ Hr Ha). destruct Hr. split; try done.
  by apply seg_insert_ne.
Qed.

Lemma create_then_link (link : ptr -> SM (obj (llist A)) unit) (place : positive * option A -> list (positive * option A))
    o xs d :
  (forall l a n, ll_repr l xs -> arena l !! a = Some n -> a ∉ xs.*1 ->
     exists l', link (Some a) (Live l) = Some (tt, Live l') /\
       ll_repr l' (place (a, data_ptr n)) /\ dom (arena l') = dom (arena l)) ->
  (forall x : positive * option A, (place x).*1 ≡ₚ x.1 :: xs.*1) ->
  obj_repr o xs ->
  exists a o1 o2, esif_link_list_create_node true d o = Some (Some a, o1) /\
    link (Some a) o1 = Some (tt, o2) /\ a ∉ xs.*1 /\ obj_repr o2 (place (a, d)).
Proof.
  intros Hlink Hplace (l & -> & Hr & Hl).
  destruct (create_node_live l d) as (a & Ha & E).
  pose proof (fresh_not_in _ _ _ Hr Ha) as Hax.
  destruct (Hlink (with_arena (insert a (mk_node d None None)) l) a (mk_node d None None))
    as (l' & E' & Hr' & Hdom); [by apply repr_insert_fresh|apply lookup_insert_eq|done|].
  exists a, (Live (with_arena (insert a (mk_node d None None)) l)), (Live l').
  split; [done|split; [done|split; [done|]]]. exists l'. split; [done|split; [done|]].
  apply no_leak_dom; [done|]. rewrite Hdom. simpl. rewrite dom_insert_L.
  rewrite (proj1 (no_leak_dom _ _ Hr) Hl), <- list_to_set_cons.
  by apply list_to_set_perm_L, symmetry, (Hplace (a, d)).
Qed.

(** [ESIF_OK] and the new payload at the end; or, out of memory, no change. *)
Lemma add_at_back_spec (mem : bool) o xs d :
  obj_repr o xs ->
  if mem then
    exists a o', esif_link_list_add_at_back true d o = Some (ESIF_OK, o') /\
      a ∉ xs.*1 /\ obj_repr o' (xs ++ [(a, d)])
  else esif_link_list_add_at_back false d o = Some (ESIF_E_NO_MEMORY, o).
Proof.
  intros Ho. destruct mem; [|by destruct Ho as (l & -> & _)].
  destruct (create_then_link esif_link_list_add_node_at_back (fun x => xs ++ [x]) o xs d)
    as (a & o1 & o2 & E1 & E2 & Ha & Hr); [ |intros x; rewrite fmap_app; simpl; by rewrite Permutation_app_comm|done|].
  { intros. by apply add_node_at_back_live. }
  exists a, o2. split; [|done]. destruct Ho as (l & -> & _).
  unfold esif_link_list_add_at_back. ll_guard.
  eapply sbind_intro; [exact E1|]. eapply sbind_intro; [exact E2|]. done.
Qed.

Lemma create_add_front_spec o xs d :
  obj_repr o xs ->
  exists a o1 o2, esif_link_list_create_node true d o = Some (Some a, o1) /\
    esif_link_list_add_node_at_front (Some a) o1 = Some (tt, o2) /\
    a ∉ xs.*1 /\ obj_repr o2 ((a, d) :: xs).
Proof.
  apply (create_then_link _ (fun x => x :: xs)); [|done].
  intros. by apply add_node_at_front_live.
Qed.

Lemma add_at_front_spec (mem : bool) o xs d :
  obj_repr o xs ->
  if mem then
    exists a o', esif_link_list_add_at_front true d o = Some (ESIF_OK, o') /\
      a ∉ xs.*1 /\ obj_repr o' ((a, d) :: xs)
  else esif_link_list_add_at_front false d o = Some (ESIF_E_NO_MEMORY, o).
Proof.
  intros Ho. destruct mem; [|by destruct Ho as (l & -> & _)].
  destruct (create_add_front_spec o xs d Ho) as (a & o1 & o2 & E1 & E2 & Ha & Hr).
  exists a, o2. split; [|done]. destruct Ho as (l & -> & _).
  unfold esif_link_list_add_at_front. ll_guard.
  eapply sbind_intro; [exact E1|]. eapply sbind_intro; [exact E2|]. done.
Qed.

Lemma add_after_spec o xs b e ys d :
  obj_repr o (xs ++ (b, e) :: ys) ->
  exists a o', esif_link_list_add_after true (Some b) d o = Some (ESIF_OK, o') /\
    obj_repr o' (xs ++ (b, e) :: (a, d) :: ys).
Proof.
  intros (l & -> & Hr & Hl). destruct (add_after_live l xs b e ys d Hr) as (a & l' & E & Ha & Hr' & Hd).
  exists a, (Live l'). split; [done|]. exists l'. split; [done|split; [done|]].
  apply no_leak_dom; [done|]. rewrite Hd, (proj1 (no_leak_dom _ _ Hr) Hl).
  rewrite !fmap_app, !list_to_set_app_L, !fmap_cons, !list_to_set_cons. set_solver.
Qed.

Lemma node_remove_spec o xs a d ys :
  obj_repr o (xs ++ (a, d) :: ys) ->
  exists o', esif_link_list_node_remove (Some a) o = Some (tt, o') /\ obj_repr o' (xs ++ ys).
Proof.
  intros (l & -> & Hr & Hl). destruct (node_remove_live l xs a d ys Hr) as (l' & E & Hr' & Hd).
  exists (Live l'). split; [done|]. exists l'. split; [done|split; [done|]].
  apply no_leak_dom; [done|]. rewrite Hd, (proj1 (no_leak_dom _ _ Hr) Hl).
  pose proof (repr_nodup _ _ Hr) as Hnd. rewrite fmap_app, fmap_cons in Hnd.
  apply NoDup_app_cons_swap in Hnd as (H1 & H2 & _).
  rewrite !fmap_app, !list_to_set_app_L, !fmap_cons, !list_to_set_cons. simpl in *. set_solver.
Qed.

(** A node that is not in the list, or NULL: nothing happens. *)
Lemma node_remove_absent_spec o xs p :
  obj_repr o xs -> (forall a, p = Some a -> a ∉ xs.*1) ->
  esif_link_list_node_remove p o = Some (tt, o).
Proof.
  intros (l & -> & Hr & _) Hp. destruct p as [a|]; [|done].
  unfold esif_link_list_node_remove. ll_guard. ll_step. rewrite (repr_head _ _ Hr).
  apply (node_remove_loop_absent l [] xs); [done|by apply Hp|by apply repr_fuel].
Qed.

(** *** Ordered insertion *)

(** What the loop looks for: the first position at which the callback either
    fails or asks for the insertion. *)
Fixpoint scan (cb : sort_cb A) d (prev_data : option A) (ds : list (option A)) : Z * option nat :=
  let '(rc, sort_value) := cb prev_data (match ds with [] => None | x :: _ => x end) d in
  if negb (rc =? ESIF_OK)%Z then (rc, None) else
  if negb (sort_value =? 0)%Z then (ESIF_OK, Some 0) else
  match ds with
  | [] => (ESIF_E_ORDERED_INSERT, None)
  | x :: ds' => let '(r, k) := scan cb d x ds' in (r, S <$> k)
  end.

Definition last_data xs : option A := default None (last xs.*2).

Lemma node_data_last l xs ys :
  ll_repr l (xs ++ ys) -> node_data (lastp xs None) (Live l) = Some (last_data xs, Live l).
Proof.
  intros [_ _ _ Hs _]. apply seg_app in Hs as [Hs _]. unfold last_data.
  destruct (lastp_cases xs None) as [[-> ->]|(zs & a & e & -> & ->)]; [done|].
  apply seg_app in Hs as [_ [Ha _]]. unfold node_data. ll_step.
  rewrite fmap_app. simpl. by rewrite last_snoc.
Qed.

Lemma node_data_first l xs ys :
  ll_repr l (xs ++ ys) ->
  node_data (first ys None) (Live l) = Some (match ys.*2 with [] => None | x :: _ => x end, Live l).
Proof.
  intros [_ _ _ Hs _]. apply seg_app in Hs as [_ Hs].
  destruct ys as [|[a e] ys]; [done|]. destruct Hs as [Ha _]. cbn [first]. unfold node_data. by ll_step.
Qed.

(** One round that does not insert moves both cursors one node on. *)
Lemma cursor_step l xs ys :
  ll_repr l (xs ++ ys) ->
  (match lastp xs None with
   | Some _ => let! nd := get_node (lastp xs None) in sret (next_ptr nd)
   | None => let! self := get_self in sret (head_ptr self)
   end) (Live l) = Some (first ys None, Live l).
Proof.
  intros [Hh _ _ Hs _]. apply seg_app in Hs as [Hs _].
  destruct (lastp_cases xs None) as [[-> ->]|(zs & a & e & -> & ->)].
  - simpl in Hh. ll_step. by rewrite Hh.
  - apply seg_app in Hs as [_ [Ha _]]. by ll_step.
Qed.

Lemma cursor_next l xs a e ys :
  ll_repr l (xs ++ (a, e) :: ys) ->
  (let! nd := get_node (Some a) in sret (next_ptr nd)) (Live l) = Some (first ys None, Live l).
Proof. intros [_ _ _ Hs _]. apply seg_app in Hs as [_ [Ha _]]. by ll_step. Qed.

Lemma insert_at l xs ys d :
  ll_repr l (xs ++ ys) -> no_leak l (xs ++ ys) ->
  exists a o', esif_link_list_add_after true (lastp xs None) d (Live l) = Some (ESIF_OK, o') /\
    obj_repr o' (xs ++ (a, d) :: ys).
Proof.
  intros Hr Hl. assert (Ho : obj_repr (Live l) (xs ++ ys)) by (exists l; done).
  destruct (lastp_cases xs None) as [[-> ->]|(zs & b & e & -> & ->)].
  - destruct (add_at_front_spec true _ _ d Ho) as (a & o' & E & _ & Hr').
    exists a, o'. split; [|done]. unfold esif_link_list_add_after. by ll_guard.
  - rewrite <- app_assoc in Ho. destruct (add_after_spec _ _ _ _ _ d Ho) as (a & o' & E & Hr').
    exists a, o'. by rewrite <- app_assoc.
Qed.

(** One round of the search, on a represented list. *)
Lemma insert_ordered_loop_step cb d l xs ys fuel :
  ll_repr l (xs ++ ys) ->
  insert_ordered_loop (S fuel) true cb d (lastp xs None) (first ys None) (Live l) =
  let '(rc, sv) := cb (last_data xs) (match ys.*2 with [] => None | x :: _ => x end) d in
  if negb (rc =? ESIF_OK)%Z then Some (rc, Live l) else
  if negb (sv =? 0)%Z then esif_link_list_add_after true (lastp xs None) d (Live l) else
  match ys with
  | [] => Some (ESIF_E_ORDERED_INSERT, Live l)
  | y :: ys' => insert_ordered_loop fuel true cb d (lastp (xs ++ [y]) None) (first ys' None) (Live l)
  end.
Proof.
  intros Hr. cbn [insert_ordered_loop].
  rewrite (sbind_some _ _ _ _ _ (node_data_last _ _ _ Hr)).
  rewrite (sbind_some _ _ _ _ _ (node_data_first _ _ _ Hr)). cbn beta.
  destruct (cb _ _ _) as [rc sv]. destruct (negb (rc =? ESIF_OK)%Z); [done|].
  destruct (negb (sv =? 0)%Z); [done|].
  rewrite (sbind_some _ _ _ _ _ (cursor_step _ _ _ Hr)).
  destruct ys as [|[a e] ys']; [done|].
  cbn [first]. rewrite (sbind_some _ _ _ _ _ (cursor_next _ _ _ _ _ Hr)).
  rewrite bool_decide_eq_false_2 by done. by rewrite lastp_app.
Qed.

Lemma insert_ordered_loop_spec cb d l xs ys fuel :
  ll_repr l (xs ++ ys) -> no_leak l (xs ++ ys) -> length ys < fuel ->
  match scan cb d (last_data xs) ys.*2 with
  | (rc, None) =>
      insert_ordered_loop fuel true cb d (lastp xs None) (first ys None) (Live l) = Some (rc, Live l)
  | (_, Some k) => exists a o',
      insert_ordered_loop fuel true cb d (lastp xs None) (first ys None) (Live l) = Some (ESIF_OK, o') /\
      obj_repr o' (xs ++ take k ys ++ (a, d) :: drop k ys)
  end.
Proof.
  revert xs fuel. induction ys as [|[b e] ys IH]; intros xs [|fuel] Hr Hl Hf; simpl in Hf; try lia;
    rewrite (insert_ordered_loop_step _ _ _ _ _ _ Hr);
    pose proof (insert_at l xs _ d Hr Hl) as (a & o' & E & Ho); cbn [scan fmap list_fmap snd];
    destruct (cb _ _ _) as [rc sv]; (destruct (negb (rc =? ESIF_OK)%Z); [done|]);
    (destruct (negb (sv =? 0)%Z); [by exists a, o'|]); [done|].
  rewrite cons_middle, app_assoc in Hr, Hl.
  specialize (IH (xs ++ [(b, e)]) fuel Hr Hl ltac:(lia)).
  assert (El : last_data (xs ++ [(b, e)]) = e).
  { unfold last_data. rewrite fmap_app. simpl. by rewrite last_snoc. }
  rewrite El in IH.
  destruct (scan cb d e ys.*2) as [r [k|]]; simpl; [|done].
  destruct IH as (a' & o'' & E' & Ho'). exists a', o''. split; [done|].
  by rewrite <- app_assoc in Ho'.
Qed.

Lemma insert_ordered_spec cb o xs d :
  obj_repr o xs ->
  match scan cb d None xs.*2 with
  | (rc, None) => esif_link_list_insert_ordered true d (Some cb) o = Some (rc, o)
  | (_, Some k) => exists a o',
      esif_link_list_insert_ordered true d (Some cb) o = Some (ESIF_OK, o') /\
      obj_repr o' (take k xs ++ (a, d) :: drop k xs)
  end.
Proof.
  intros (l & -> & Hr & Hl).
  pose proof (insert_ordered_loop_spec cb d l [] xs (loop_fuel l) Hr Hl (repr_fuel _ _ Hr)) as H.
  replace (esif_link_list_insert_ordered true d (Some cb) (Live l)) with
    (insert_ordered_loop (loop_fuel l) true cb d None (first xs None) (Live l)); [exact H|].
  unfold esif_link_list_insert_ordered. rewrite <- (repr_head _ _ Hr). done.
Qed.

(** With a callback that compares keys, insertion keeps a sorted list sorted. *)
Section Sorted.
Variable le : A -> A -> bool.
Hypothesis le_total : forall x y, le x y = false -> le y x = true.

Definition le_cb : sort_cb A := fun _ next_data d =>
  match next_data, d with
  | Some y, Some x => (ESIF_OK, if le x y then 1%Z else 0%Z)
  | _, _ => (ESIF_OK, 1%Z)
  end.

Fixpoint sorted (ds : list A) : Prop :=
  match ds with
  | x :: ((y :: _) as ds') => le x y = true /\ sorted ds'
  | _ => True
  end.

Lemma scan_sorted x ds pv :
  sorted ds ->
  exists k, scan le_cb (Some x) pv (Some <$> ds) = (ESIF_OK, Some k) /\
    sorted (take k ds ++ x :: drop k ds).
Proof.
  revert pv. induction ds as [|y ds IH]; intros pv Hs; simpl; [by exists 0|].
  destruct (le x y) eqn:E; simpl.
  - exists 0. simpl. split; [done|]. split; done.
  - destruct (IH (Some y)) as (k & Ek & Hk); [by destruct ds; simpl in Hs; [|destruct Hs]|].
    change (list_fmap A (option A) Some ds) with (Some <$> ds). rewrite Ek. exists (S k). split; [done|]. simpl. destruct ds as [|z ds]; simpl.
    + rewrite take_nil, drop_nil. simpl. auto.
    + destruct Hs as [Hyz _]. destruct k; simpl; simpl in Hk; auto.
Qed.
End Sorted.

(** *** Emptying and destroying *)

Lemma set_data_live l xs a d ys d' :
  ll_repr l (xs ++ (a, d) :: ys) ->
  exists l', set_data (Some a) d' (Live l) = Some (tt, Live l') /\ ll_repr l' (xs ++ (a, d') :: ys) /\
    dom (arena l') = dom (arena l).
Proof.
  intros [Hh Ht Hn Hs Hd]. pose proof Hs as Hs'. apply seg_app in Hs' as [Hsx [Ha Hsy]].
  pose proof Hd as Hnd. rewrite fmap_app, fmap_cons in Hnd.
  apply NoDup_app_cons_swap in Hnd as (Hax & Hay & _).
  eexists. split; [by eapply alter_node_live|]. split; [split; simpl|simpl; by rewrite dom_alter_L].
  - by rewrite Hh, !first_app.
  - by rewrite Ht, !lastp_app.
  - by rewrite Hn, !length_app.
  - apply seg_app. split; [by apply seg_alter_ne|]. simpl.
    rewrite lookup_alter_eq, Ha. split; [done|by apply seg_alter_ne].
  - rewrite fmap_app, fmap_cons in Hd |- *. done.
Qed.

Lemma set_data_spec o xs a d ys d' :
  obj_repr o (xs ++ (a, d) :: ys) ->
  exists o', set_data (Some a) d' o = Some (tt, o') /\ obj_repr o' (xs ++ (a, d') :: ys).
Proof.
  intros (l & -> & Hr & Hl). destruct (set_data_live l xs a d ys d' Hr) as (l' & E & Hr' & Hd).
  exists (Live l'). split; [done|]. exists l'. split; [done|split; [done|]].
  apply no_leak_dom; [done|]. rewrite Hd, (proj1 (no_leak_dom _ _ Hr) Hl).
  by rewrite !fmap_app, !fmap_cons.
Qed.

Lemma get_node_spec l xs a d ys :
  ll_repr l (xs ++ (a, d) :: ys) ->
  get_node (Some a) (Live l) = Some (mk_node d (first ys None) (lastp xs None), Live l).
Proof. intros [_ _ _ Hs _]. apply seg_app in Hs as [_ [Ha _]]. by apply get_node_live. Qed.

Lemma free_data_loop_spec b l xs fuel :
  ll_repr l xs -> no_leak l xs -> length xs < fuel ->
  exists l', free_data_loop fuel b (first xs None) (Live l) = Some ((fun d => (b, d)) <$> xs.*2, Live l') /\
    ll_repr l' [] /\ arena l' = ∅.
Proof.
  revert l fuel. induction xs as [|[a d] xs IH]; intros l [|fuel] Hr Hl Hf; simpl in Hf; try lia.
  - exists l. split; [done|split; [done|]]. apply map_eq. intros a. rewrite lookup_empty.
    apply eq_None_not_Some. intros Ha. by apply Hl, elem_of_nil in Ha.
  - destruct (set_data_spec (Live l) [] a d xs None) as (o1 & E1 & Ho1); [by exists l|].
    destruct (node_remove_spec _ _ _ _ _ Ho1) as (o' & E2 & (l2 & -> & Hr2 & Hl2)).
    destruct (IH l2 fuel Hr2 Hl2) as (l' & E3 & H3); [lia|].
    exists l'. split; [|done]. cbn [free_data_loop first].
    eapply sbind_intro; [exact (get_node_spec l [] a d xs Hr)|]. eapply sbind_intro; [exact E1|].
    eapply sbind_intro; [exact E2|]. ll_step. rewrite (repr_head _ _ Hr2).
    eapply sbind_intro; [exact E3|]. done.
Qed.

Lemma free_data_spec b o xs :
  obj_repr o xs ->
  exists l', esif_link_list_free_data b o = Some ((fun d => (b, d)) <$> xs.*2, Live l') /\
    ll_repr l' [] /\ arena l' = ∅.
Proof.
  intros (l & -> & Hr & Hl).
  destruct (free_data_loop_spec b l xs _ Hr Hl (repr_fuel _ _ Hr)) as (l' & E & H).
  exists l'. split; [|done]. unfold esif_link_list_free_data. ll_guard. ll_step.
  by rewrite (repr_head _ _ Hr).
Qed.

Lemma destroy_loop_spec l xs fuel :
  ll_repr l xs -> no_leak l xs -> length xs < fuel ->
  exists l', destroy_loop fuel (first xs None) (Live l) = Some (tt, Live l').
Proof.
  revert l fuel. induction xs as [|[a d] xs IH]; intros l [|fuel] Hr Hl Hf; simpl in Hf; try lia.
  { by exists l. }
  destruct (node_remove_spec (Live l) [] a d xs) as (o' & E2 & (l2 & -> & Hr2 & Hl2)); [by exists l|].
  destruct (IH l2 fuel Hr2 Hl2) as (l' & E3); [lia|].
  exists l'. cbn [destroy_loop first]. eapply sbind_intro; [exact E2|]. ll_step.
  by rewrite (repr_head _ _ Hr2).
Qed.

Lemma destroy_spec o xs : obj_repr o xs -> esif_link_list_destroy o = Some (tt, Freed).
Proof.
  intros (l & -> & Hr & Hl).
  destruct (destroy_loop_spec l xs _ Hr Hl (repr_fuel _ _ Hr)) as (l' & E).
  unfold esif_link_list_destroy. ll_guard. ll_step. rewrite (repr_head _ _ Hr).
  eapply sbind_intro; [exact E|]. done.
Qed.

Lemma free_data_and_destroy_spec b o xs :
  obj_repr o xs ->
  esif_link_list_free_data_and_destroy b o = Some ((fun d => (b, d)) <$> xs.*2, Freed).
Proof.
  intros Ho. destruct (free_data_spec b o xs Ho) as (l' & E & _). destruct Ho as (l & -> & _).
  unfold esif_link_list_free_data_and_destroy. ll_guard. eapply sbind_intro; [exact E|]. done.
Qed.

End Ops.

(* ------------------------------------------------------------------ *)
(** ** The implementation of the list interface *)

#[export] Instance link_list_api (A : Type) : ListApi A (llist A) := {
  api_create := esif_link_list_create;
  api_add_at_back := esif_link_list_add_at_back;
  api_create_node := esif_link_list_create_node;
  api_add_node_at_front := esif_link_list_add_node_at_front;
  api_head := (let! self := get_self in sret (head_ptr self))%dptf;
  api_next := fun p => (let! nd := get_node p in sret (next_ptr nd))%dptf;
  api_data := fun p => (let! nd := get_node p in sret (data_ptr nd))%dptf;
  api_set_data := set_data;
  api_node_remove := esif_link_list_node_remove;
  api_destroy := esif_link_list_destroy;
  api_fuel := fun o => match o with Live l => loop_fuel l | _ => 0 end
}.

#[export] Program Instance link_list_laws (A : Type) : ListLaws A (llist A) := {
  denotes := obj_repr
}.
Next Obligation. intros A o xs (l & -> & _). by exists l. Qed.
Next Obligation. intros A o xs (l & _ & [] & _). done. Qed.
Next Obligation.
  intros A. exists ll_empty. split; [done|split; [apply repr_nil|]]. intros a [n Hn]. done.
Qed.
Next Obligation. done. Qed.
Next Obligation. intros A o xs d Ho. exact (add_at_back_spec true o xs d Ho). Qed.
Next Obligation. intros A o xs d Ho. exact (add_at_back_spec false o xs d Ho). Qed.
Next Obligation. intros A. apply create_add_front_spec. Qed.
Next Obligation. done. Qed.
Next Obligation. intros A o xs (l & -> & Hr & _). cbn. by rewrite (repr_head _ _ Hr). Qed.
Next Obligation.
  intros A o xs a d ys (l & -> & Hr & _). unfold api_next. cbn.
  by rewrite (sbind_some _ _ _ _ _ (get_node_spec _ _ _ _ _ Hr)).
Qed.
Next Obligation.
  intros A o xs a d ys (l & -> & Hr & _). unfold api_data. cbn.
  by rewrite (sbind_some _ _ _ _ _ (get_node_spec _ _ _ _ _ Hr)).
Qed.
Next Obligation. intros A. apply set_data_spec. Qed.
Next Obligation. intros A. apply node_remove_spec. Qed.
Next Obligation. intros A. apply destroy_spec. Qed.
Next Obligation. intros A o xs (l & -> & Hr & _). by apply repr_fuel. Qed.

(* ------------------------------------------------------------------ *)
(** ** Client scripts and the theorems about the component *)

Section Scripts.
Context {A : Type}.
Implicit Types (xs ys : list (positive * option A)) (d : option A) (ds : list (option A)).

(** A client call; positions count nodes from the head, and a position past
    the end is passed as NULL. *)
Inductive ll_op : Type :=
  | AddFront (d : option A)
  | AddBack (d : option A)
  | AddAfter (k : nat) (d : option A)
  | Remove (k : nat).

Fixpoint nth_ptr (k : nat) (p : ptr) : SM (obj (llist A)) ptr :=
  match k, p with
  | _, None => sret None
  | O, _ => sret p
  | S k', _ => let! nd := get_node p in nth_ptr k' (next_ptr nd)
  end.

Definition run_op (op : ll_op) : SM (obj (llist A)) Z :=
  let! self := get_self in
  match op with
  | AddFront d => esif_link_list_add_at_front true d
  | AddBack d => esif_link_list_add_at_back true d
  | AddAfter k d => let! p := nth_ptr k (head_ptr self) in esif_link_list_add_after true p d
  | Remove k => let! p := nth_ptr k (head_ptr self) in
      esif_link_list_node_remove p ;! sret ESIF_OK
  end.

Fixpoint run_script (ops : list ll_op) : SM (obj (llist A)) (list Z) :=
  match ops with
  | [] => sret []
  | op :: ops' => let! rc := run_op op in let! rcs := run_script ops' in sret (rc :: rcs)
  end.

(** The abstract specification: the list of payloads. *)
Definition spec_op ds (op : ll_op) : list (option A) :=
  match op with
  | AddFront d => d :: ds
  | AddBack d => ds ++ [d]
  | AddAfter k d => if decide (k < length ds) then take (S k) ds ++ d :: drop (S k) ds else d :: ds
  | Remove k => delete k ds
  end.

Lemma nth_ptr_spec l xs ys k :
  ll_repr l (xs ++ ys) ->
  nth_ptr k (first ys None) (Live l) = Some (fst <$> ys !! k, Live l).
Proof.
  revert xs k. induction ys as [|[a d] ys IH]; intros xs [|k] Hr; try done.
  cbn [nth_ptr first]. eapply sbind_intro; [apply (get_node_spec _ _ _ _ _ Hr)|].
  cbn [next_ptr lookup list_lookup]. rewrite cons_middle, app_assoc in Hr. by apply (IH _ _ Hr).
Qed.

Lemma run_op_spec op o xs :
  obj_repr o xs ->
  exists o' xs', run_op op o = Some (ESIF_OK, o') /\ obj_repr o' xs' /\ xs'.*2 = spec_op xs.*2 op.
Proof.
  intros Ho. pose proof Ho as (l & -> & Hr & Hl). unfold run_op.
  assert (Hn : forall k, nth_ptr k (head_ptr l) (Live l) = Some (fst <$> xs !! k, Live l)).
  { intros k. rewrite (repr_head _ _ Hr). by apply (nth_ptr_spec l []). }
  destruct op as [d|d|k d|k]; cbn [spec_op].
  - destruct (add_at_front_spec true _ _ d Ho) as (a & o' & E & _ & Ho').
    exists o', ((a, d) :: xs). split; [by ll_step|done].
  - destruct (add_at_back_spec true _ _ d Ho) as (a & o' & E & _ & Ho').
    exists o', (xs ++ [(a, d)]). split; [by ll_step|split; [done|by rewrite fmap_app]].
  - rewrite length_fmap. destruct (xs !! k) as [[b e]|] eqn:Ek.
    + rewrite decide_True by by eapply lookup_lt_Some. pose proof Ek as Ex.
      apply take_drop_middle in Ex. rewrite <- Ex in Ho.
      destruct (add_after_spec _ _ _ _ _ d Ho) as (a & o' & E & Ho').
      exists o', (take k xs ++ (b, e) :: (a, d) :: drop (S k) xs).
      split; [ll_step; eapply sbind_intro; [apply Hn|]; by rewrite Ek|split; [done|]].
      rewrite <- fmap_take, <- fmap_drop, (take_S_r _ _ _ Ek), !fmap_app. simpl.
      by rewrite <- app_assoc.
    + rewrite decide_False by (apply lookup_ge_None in Ek; lia).
      destruct (add_at_front_spec true _ _ d Ho) as (a & o' & E & _ & Ho').
      exists o', ((a, d) :: xs). split; [|done].
      ll_step. eapply sbind_intro; [apply Hn|]. rewrite Ek. unfold esif_link_list_add_after. by ll_guard.
  - rewrite delete_take_drop. destruct (xs !! k) as [[b e]|] eqn:Ek.
    + pose proof Ek as Ex. apply take_drop_middle in Ex. rewrite <- Ex in Ho.
      destruct (node_remove_spec _ _ _ _ _ Ho) as (o' & E & Ho').
      exists o', (take k xs ++ drop (S k) xs). split.
      { ll_step. eapply sbind_intro; [apply Hn|]. rewrite Ek. by eapply sbind_intro; [exact E|]. }
      split; [done|]. by rewrite fmap_app, fmap_take, fmap_drop.
    + exists (Live l), xs. split; [ll_step; eapply sbind_intro; [apply Hn|]; by rewrite Ek|].
      apply lookup_ge_None in Ek. split; [done|].
      rewrite take_ge, drop_ge, app_nil_r by (rewrite length_fmap; lia). done.
Qed.

Lemma run_script_spec ops o xs :
  obj_repr o xs ->
  exists o' xs', run_script ops o = Some (replicate (length ops) ESIF_OK, o') /\ obj_repr o' xs' /\
    xs'.*2 = foldl spec_op xs.*2 ops.
Proof.
  revert o xs. induction ops as [|op ops IH]; intros o xs Ho; [by exists o, xs|].
  destruct (run_op_spec op o xs Ho) as (o1 & xs1 & E1 & Ho1 & H1).
  destruct (IH o1 xs1 Ho1) as (o2 & xs2 & E2 & Ho2 & H2).
  exists o2, xs2. split; [|split; [done|by rewrite H2, H1]]. cbn [run_script].
  eapply sbind_intro; [exact E1|]. eapply sbind_intro; [exact E2|]. done.
Qed.

Lemma repr_create : obj_repr (@esif_link_list_create A true) [].
Proof. exists ll_empty. split; [done|split; [apply repr_nil|]]. intros a [n Hn]. done. Qed.
End Scripts.
Arguments ll_op A : clear implicits.

(** Every sequence of list calls a client makes on a freshly created list
    has an outcome (no NULL, dangling or freed node is ever dereferenced and
    every loop ends), each call returns ESIF_OK, and the list then denotes
    exactly the payload sequence of the abstract specification, with a
    matching head, tail, links in both directions and node count, and no
    allocated node outside the list. *)
Theorem link_list_script_refines (A : Type) (ops : list (ll_op A)) :
  exists l xs,
    run_script ops (esif_link_list_create true) = Some (replicate (length ops) ESIF_OK, Live l) /\
    ll_repr l xs /\ no_leak l xs /\ xs.*2 = foldl spec_op [] ops /\
    esif_link_list_get_node_count (Live l) = Some (u32 (Z.of_nat (length xs)), Live l).
Proof.
  destruct (run_script_spec ops _ _ (repr_create (A := A))) as (o & xs & E & (l & -> & Hr & Hl) & Hd).
  exists l, xs. split; [done|split; [done|split; [done|split; [done|]]]].
  unfold esif_link_list_get_node_count. do 2 ll_step. by rewrite (repr_nodes _ _ Hr).
Qed.

(** Destroying a list after any sequence of calls releases every payload it
    holds exactly once, from head to tail, each through the callback when one
    is given and through [esif_ccb_free] otherwise, and then frees the list
    object; the variant without data frees the object too. *)
Theorem link_list_destroy_releases_all (A : Type) (ops : list (ll_op A)) (destroy_func : bool) :
  exists rcs o, run_script ops (esif_link_list_create true) = Some (rcs, o) /\
    esif_link_list_free_data_and_destroy destroy_func o =
      Some ((fun d => (destroy_func, d)) <$> foldl spec_op [] ops, Freed) /\
    esif_link_list_destroy o = Some (tt, Freed).
Proof.
  destruct (run_script_spec ops _ _ (repr_create (A := A))) as (o & xs & E & Ho & Hd).
  change ([].*2) with (@nil (option A)) in Hd. eexists _, o. split; [exact E|]. rewrite <- Hd. split.
  - by apply free_data_and_destroy_spec.
  - by eapply destroy_spec.
Qed.

(** With a callback that compares keys by a total order, ordered insertion
    into a sorted list succeeds, keeps every element, adds the new one and
    leaves the list sorted. *)
Theorem insert_ordered_sorted (A : Type) (le : A -> A -> bool)
    (Htotal : forall x y, le x y = false -> le y x = true)
    (o : obj (llist A)) (xs : list (positive * option A)) (ds : list A) (x : A)
    (Hrepr : obj_repr o xs) (Hdata : xs.*2 = Some <$> ds) (Hsorted : sorted le ds) :
  exists o' xs' ds', esif_link_list_insert_ordered true (Some x) (Some (le_cb le)) o = Some (ESIF_OK, o') /\
    obj_repr o' xs' /\ xs'.*2 = Some <$> ds' /\ sorted le ds' /\ ds' ≡ₚ x :: ds.
Proof.
  pose proof (insert_ordered_spec (le_cb le) o xs (Some x) Hrepr) as H. rewrite Hdata in H.
  destruct (scan_sorted le Htotal x ds None Hsorted) as (k & E & Hs). rewrite E in H.
  destruct H as (a & o' & E' & Ho').
  exists o', (take k xs ++ (a, Some x) :: drop k xs), (take k ds ++ x :: drop k ds).
  split; [exact E'|split; [exact Ho'|split; [|split; [exact Hs|]]]].
  - rewrite fmap_app, fmap_cons, fmap_take, fmap_drop, Hdata.
    by rewrite fmap_app, fmap_cons, fmap_take, fmap_drop.
  - by rewrite <- Permutation_middle, take_drop.
Qed.

Definition demo_list : llist nat :=
  mk_llist (Some 1%positive) (Some 2%positive) 2
    {[ 1%positive := mk_node (Some 3) (Some 2%positive) None;
       2%positive := mk_node (Some 7) None (Some 1%positive) ]}.

Lemma demo_list_repr : obj_repr (Live demo_list) [(1%positive, Some 3); (2%positive, Some 7)].
Proof.
  exists demo_list. split; [done|split; [split; try done|]].
  - by apply (bool_decide_unpack _); vm_compute.
  - intros a [n Hn]. unfold demo_list in Hn. simpl in Hn.
    apply lookup_insert_Some in Hn as [[<- _]|[_ Hn]]; [set_solver|].
    apply lookup_singleton_Some in Hn as [<- _]. set_solver.
Qed.

Lemma insert_ordered_sorted_witness :
  exists o' xs' ds', esif_link_list_insert_ordered true (Some 5) (Some (le_cb Nat.leb)) (Live demo_list)
      = Some (ESIF_OK, o') /\
    obj_repr o' xs' /\ xs'.*2 = Some <$> ds' /\ sorted Nat.leb ds' /\ ds' ≡ₚ [5; 3; 7].
Proof.
  apply (insert_ordered_sorted nat Nat.leb) with (xs := [(1%positive, Some 3); (2%positive, Some 7)]).
  - intros x y H. apply Nat.leb_gt in H. apply Nat.leb_le. lia.
  - exact demo_list_repr.
  - reflexivity.
  - split; [reflexivity | exact I].
Defined.
