(* ===== verification/Queue.v ===== *)
(** * Bounded blocking queues: Common/esif_queue.c

    A queue object holds its bound, its size counter, the signalled flag of
    its manual-reset event and the list of its items.  The list is used only
    through [ListApi].  Every operation runs under the queue's lock, so it is
    one atomic step; [esif_queue_pull] is two, its wait and its dequeue, and
    the step relation at the end interleaves them with the other threads. *)

From S2P Require Import Prelude ListApi LinkList.
From stdpp Require Import list.
Local Open Scope dptf_scope.

Definition ESIF_QUEUE_TIMEOUT_INFINITE : Z := 0.

Section Queue.
Context {A L : Type} {api : ListApi A L}.

Record queue : Type := mk_queue {
  ms_timeout : Z;
  max_size : Z;
  current_size : Z;
  signaled : bool;
  queue_list : obj L
}.

Abbreviation M T := (SM (obj queue) T).

Definition with_size (f : Z -> Z) (q : queue) : queue :=
  mk_queue (ms_timeout q) (max_size q) (f (current_size q)) (signaled q) (queue_list q).
Definition with_signaled (b : bool) (q : queue) : queue :=
  mk_queue (ms_timeout q) (max_size q) (current_size q) b (queue_list q).
Definition with_list (l : obj L) (q : queue) : queue :=
  mk_queue (ms_timeout q) (max_size q) (current_size q) (signaled q) l.

Definition on_list {T} (m : SM (obj L) T) : M T := zoom queue_list with_list m.

(* ------------------------------------------------------------------ *)
(** ** Operations *)

Definition esif_queue_signal_event : M unit :=
  let! null := is_null in
  if null then sret tt else mod_self (with_signaled true).

Definition esif_queue_enqueue (mem : bool) (d : option A) : M Z :=
  let! null := is_null in
  if null then sret ESIF_E_NO_MEMORY else
  let! self := get_self in
  if (current_size self >=? max_size self)%Z then sret ESIF_E_NO_MEMORY else
  let! rc := on_list (api_add_at_back mem d) in
  if negb (rc =? ESIF_OK)%Z then sret rc else
  mod_self (with_size (fun n => u32 (n + 1))) ;!
  mod_self (with_signaled true) ;!
  sret ESIF_OK.

Definition esif_queue_requeue (mem : bool) (d : option A) : M Z :=
  let! null := is_null in
  if null then sret ESIF_E_NO_MEMORY else
  let! self := get_self in
  if (current_size self >=? max_size self)%Z then sret ESIF_E_NO_MEMORY else
  let! node_ptr := on_list (api_create_node mem d) in
  match node_ptr with
  | None => sret ESIF_E_NO_MEMORY
  | Some _ =>
      on_list (api_add_node_at_front node_ptr) ;!
      mod_self (with_size (fun n => u32 (n + 1))) ;!
      esif_queue_signal_event ;!
      sret ESIF_OK
  end.

(** The [lock_exit] label of [esif_queue_dequeue]. *)
Definition dequeue_exit (d : option A) : M (option A) :=
  let! self := get_self in
  (if (current_size self =? 0)%Z then mod_self (with_signaled false) else sret tt) ;!
  sret d.

Definition esif_queue_dequeue : M (option A) :=
  let! null := is_null in
  if null then sret None else
  let! self := get_self in
  match queue_list self with
  | Null => sret None
  | _ =>
      let! node_ptr := on_list api_head in
      match node_ptr with
      | None =>
          mod_self (with_size (fun _ => 0%Z)) ;!
          dequeue_exit None
      | Some _ =>
          let! d := on_list (api_data node_ptr) in
          on_list (api_node_remove node_ptr) ;!
          mod_self (with_size (fun n => u32 (n - 1))) ;!
          dequeue_exit d
      end
  end.

(** Whether the wait in [esif_queue_pull] can return now: it is unbounded when
    [ms_timeout] is [ESIF_QUEUE_TIMEOUT_INFINITE]. *)
Definition pull_may_proceed (q : queue) : bool :=
  signaled q || negb (ms_timeout q =? ESIF_QUEUE_TIMEOUT_INFINITE)%Z.

(** [esif_queue_pull] from the moment its wait has returned. *)
Definition esif_queue_pull : M (option A) :=
  let! null := is_null in
  if null then sret None else esif_queue_dequeue.

Definition esif_queue_size : M Z :=
  let! null := is_null in
  if null then sret 0%Z else let! self := get_self in sret (current_size self).

(** The items handed to [destroy_func], in order, when there is one.  The loop
    makes at most one round per item, and one to see the end. *)
Fixpoint destroy_loop (fuel : nat) (destroy_func : bool) (d : option A) : M (list A) :=
  match fuel with
  | O => ub
  | S fuel' =>
      match d with
      | None => sret []
      | Some x =>
          let! d' := esif_queue_dequeue in
          let! rest := destroy_loop fuel' destroy_func d' in
          sret (if destroy_func then x :: rest else rest)
      end
  end.

Definition esif_queue_destroy (destroy_func : bool) : M (list A) :=
  let! null := is_null in
  if null then sret [] else
  let! self := get_self in
  let! d := esif_queue_dequeue in
  let! out := destroy_loop (S (S (Z.to_nat (current_size self)))) destroy_func d in
  on_list free_self ;!
  free_self ;!
  sret out.

(** Creation: [mem] gives the outcomes of the two allocations. *)
Definition esif_queue_create (mem_queue mem_list : bool) (depth timeout : Z) : obj queue :=
  if mem_queue then
    match api_create mem_list with
    | Null =>
        match esif_queue_destroy false (Live (mk_queue timeout depth 0 false Null)) with
        | Some (_, _) => Null
        | None => Freed
        end
    | l => Live (mk_queue timeout depth 0 false l)
    end
  else Null.
End Queue.

Arguments queue L : clear implicits.

(* ------------------------------------------------------------------ *)
(** ** What a queue denotes *)

Section Spec.
Context {A L : Type} {api : ListApi A L} {laws : ListLaws A L}.
Implicit Types (ds : list (option A)) (d : option A) (q : queue L).

(** The invariant: the counter is exact and within the bound, and the event is
    signalled whenever there is an item. *)
Record queue_inv q (cap timeout : Z) ds : Prop := {
  inv_cap : max_size q = cap;
  inv_timeout : ms_timeout q = timeout;
  inv_size : current_size q = Z.of_nat (length ds);
  inv_bound : (Z.of_nat (length ds) <= cap < 2 ^ 32)%Z;
  inv_signal : ds <> [] -> signaled q = true;
  inv_list : exists xs, denotes (queue_list q) xs /\ xs.*2 = ds
}.

Definition queue_repr (o : obj (queue L)) cap timeout ds : Prop :=
  exists q, o = Live q /\ queue_inv q cap timeout ds.

Lemma on_list_live {T} (m : SM (obj L) T) q x l :
  m (queue_list q) = Some (x, l) -> on_list m (Live q) = Some (x, Live (with_list l q)).
Proof. apply zoom_some. Qed.

Lemma queue_enqueue_spec (mem : bool) o cap timeout ds d :
  queue_repr o cap timeout ds ->
  if mem && (Z.of_nat (length ds) <? cap)%Z then
    exists o', esif_queue_enqueue mem d o = Some (ESIF_OK, o') /\
      queue_repr o' cap timeout (ds ++ [d])
  else esif_queue_enqueue mem d o = Some (ESIF_E_NO_MEMORY, o).
Proof.
  intros (q & -> & [Hc Ht Hz Hb Hsig (xs & Hl & Hds)]).
  unfold esif_queue_enqueue. rewrite (sbind_some is_null _ _ false (Live q)) by done.
  rewrite (sbind_some get_self _ _ q (Live q)) by done. rewrite Hz, Hc, Z.geb_leb.
  destruct (Z.ltb_spec (Z.of_nat (length ds)) cap) as [Hlt|Hge].
  - rewrite (proj2 (Z.leb_gt _ _)) by done. destruct mem; cbn [andb].
    + destruct (add_at_back_law _ _ d Hl) as (a & l' & E & _ & Hl').
      eexists. rewrite (sbind_some _ _ _ _ _ (on_list_live _ _ _ _ E)). split; [reflexivity|].
      eexists. split; [reflexivity|]. split; try done; simpl.
      * rewrite Hz, length_app. simpl. rewrite wrap_small; unfold in_range; lia.
      * rewrite length_app. simpl. lia.
      * exists (xs ++ [(a, d)]). by rewrite fmap_app, Hds.
    + rewrite (sbind_some _ _ _ _ _ (on_list_live _ _ _ _ (add_at_back_no_memory _ _ d Hl))).
      by destruct q.
  - rewrite andb_false_r, (proj2 (Z.leb_le _ _)) by done. done.
Qed.

Lemma queue_requeue_spec (mem : bool) o cap timeout ds d :
  queue_repr o cap timeout ds ->
  if mem && (Z.of_nat (length ds) <? cap)%Z then
    exists o', esif_queue_requeue mem d o = Some (ESIF_OK, o') /\
      queue_repr o' cap timeout (d :: ds)
  else esif_queue_requeue mem d o = Some (ESIF_E_NO_MEMORY, o).
Proof.
  intros (q & -> & [Hc Ht Hz Hb Hsig (xs & Hl & Hds)]).
  unfold esif_queue_requeue. rewrite (sbind_some is_null _ _ false (Live q)) by done.
  rewrite (sbind_some get_self _ _ q (Live q)) by done. rewrite Hz, Hc, Z.geb_leb.
  destruct (Z.ltb_spec (Z.of_nat (length ds)) cap) as [Hlt|Hge].
  - rewrite (proj2 (Z.leb_gt _ _)) by done. destruct mem; cbn [andb].
    + destruct (push_front_law _ _ d Hl) as (a & l1 & l2 & E1 & E2 & _ & Hl').
      eexists. rewrite (sbind_some _ _ _ _ _ (on_list_live _ _ _ _ E1)).
      rewrite (sbind_some _ _ _ _ _ (on_list_live _ (with_list l1 q) _ _ E2)). split; [reflexivity|].
      eexists. split; [reflexivity|]. split; try done; simpl.
      * rewrite Hz, wrap_small; unfold in_range; lia.
      * lia.
      * exists ((a, d) :: xs). by rewrite fmap_cons, Hds.
    + rewrite (sbind_some _ _ _ _ _ (on_list_live _ _ _ _ (create_node_no_memory _ d))).
      by destruct q.
  - rewrite andb_false_r, (proj2 (Z.leb_le _ _)) by done. done.
Qed.

Lemma queue_dequeue_spec o cap timeout ds :
  queue_repr o cap timeout ds ->
  exists o', esif_queue_dequeue o = Some (match ds with [] => None | d :: _ => d end, o') /\
    queue_repr o' cap timeout (tail ds).
Proof.
  intros (q & -> & [Hc Ht Hz Hb Hsig (xs & Hl & <-)]).
  unfold esif_queue_dequeue. rewrite (sbind_some is_null _ _ false (Live q)) by done.
  rewrite (sbind_some get_self _ _ q (Live q)) by done.
  destruct (denotes_live _ _ Hl) as [l El]. rewrite El.
  rewrite (sbind_some _ _ _ _ _ (on_list_live _ _ _ _ (head_law _ _ Hl))).
  destruct xs as [|[a d] xs]; cbn [first]; cbn beta iota.
  - eexists. split; [reflexivity|]. exists (with_signaled false (with_size (fun _ => 0%Z) (with_list (queue_list q) q))).
    split; [done|]. split; try done. by exists [].
  - rewrite (sbind_some _ _ _ _ _ (on_list_live _ (with_list (queue_list q) q) _ _ (data_law _ [] _ _ _ Hl))).
    destruct (node_remove_law _ [] _ _ _ Hl) as (l' & E & Hl').
    rewrite (sbind_some _ _ _ _ _ (on_list_live _ (with_list _ (with_list _ q)) _ _ E)).
    simpl length in Hz, Hb. rewrite length_fmap in Hz, Hb.
    assert (Esz : u32 (Z.of_nat (S (length xs)) - 1) = Z.of_nat (length xs)).
    { rewrite wrap_small; unfold in_range; lia. }
    destruct (decide (xs = [])) as [->|Hne].
    + eexists. split; [unfold dequeue_exit; run_monad; simpl; rewrite Hz; reflexivity|].
      eexists. split; [reflexivity|]. split; try done; [|simpl in *; lia|by exists []].
      simpl. by rewrite Hz, Esz.
    + assert (length xs <> 0) by by destruct xs.
      eexists. split.
      { unfold dequeue_exit. run_monad. simpl. rewrite Hz, Esz.
        rewrite (proj2 (Z.eqb_neq _ _)) by lia. reflexivity. }
      eexists. split; [reflexivity|]. split; try done; simpl; rewrite ?length_fmap.
      * rewrite Hz, Esz. lia.
      * lia.
      * intros _. by apply Hsig.
      * by exists xs.
Qed.
(** The operations' effect on the items alone: what a client of the queue may
    reason with instead of the object. *)
Definition fifo_enqueue (cap : Z) (mem : bool) d ds : Z * list (option A) :=
  if mem && (Z.of_nat (length ds) <? cap)%Z then (ESIF_OK, ds ++ [d]) else (ESIF_E_NO_MEMORY, ds).
Definition fifo_requeue (cap : Z) (mem : bool) d ds : Z * list (option A) :=
  if mem && (Z.of_nat (length ds) <? cap)%Z then (ESIF_OK, d :: ds) else (ESIF_E_NO_MEMORY, ds).
Definition fifo_dequeue ds : option A * list (option A) :=
  (match ds with [] => None | d :: _ => d end, tail ds).

Lemma queue_implements_fifo (mem : bool) o cap timeout ds d :
  queue_repr o cap timeout ds ->
  (exists o', esif_queue_enqueue mem d o = Some ((fifo_enqueue cap mem d ds).1, o') /\
     queue_repr o' cap timeout (fifo_enqueue cap mem d ds).2) /\
  (exists o', esif_queue_requeue mem d o = Some ((fifo_requeue cap mem d ds).1, o') /\
     queue_repr o' cap timeout (fifo_requeue cap mem d ds).2) /\
  (exists o', esif_queue_dequeue o = Some ((fifo_dequeue ds).1, o') /\
     queue_repr o' cap timeout (fifo_dequeue ds).2).
Proof.
  intros Ho. pose proof (queue_enqueue_spec mem _ _ _ _ d Ho) as H1.
  pose proof (queue_requeue_spec mem _ _ _ _ d Ho) as H2. unfold fifo_enqueue, fifo_requeue.
  destruct (mem && _); (split; [eauto|split; [eauto|by apply queue_dequeue_spec]]).
Qed.
End Spec.

(* ------------------------------------------------------------------ *)
(** ** Creation and destruction *)

Section Lifecycle.
Context {A L : Type} {api : ListApi A L} {laws : ListLaws A L}.
Implicit Types (ds : list (option A)) (q : queue L).

(** The items before the first NULL one: where the destruction loop stops. *)
Fixpoint before_null ds : list A :=
  match ds with Some x :: ds' => x :: before_null ds' | _ => [] end.

Lemma queue_create_spec depth timeout :
  (0 <= depth < 2 ^ 32)%Z ->
  queue_repr (esif_queue_create (L := L) true true depth timeout) depth timeout [] /\
  (forall b, esif_queue_create (L := L) false b depth timeout = Null) /\
  esif_queue_create (L := L) true false depth timeout = Null.
Proof.
  intros Hd. split; [|split; [done|]].
  - unfold esif_queue_create. destruct (denotes_live _ _ denotes_create) as [l E]. rewrite E.
    eexists. split; [reflexivity|]. split; try done.
    exists []. simpl. rewrite <- E. split; [apply denotes_create|done].
  - unfold esif_queue_create. by rewrite create_fails.
Qed.

Lemma dequeue_step o cap timeout ds d :
  queue_repr o cap timeout (d :: ds) ->
  exists o', esif_queue_dequeue o = Some (d, o') /\ queue_repr o' cap timeout ds.
Proof. apply queue_dequeue_spec. Qed.

Lemma queue_destroy_loop_spec b o cap timeout ds d fuel :
  queue_repr o cap timeout ds -> S (length ds) < fuel ->
  exists o' ds', destroy_loop fuel b d o =
      Some (if b then before_null (d :: ds) else [], o') /\ queue_repr o' cap timeout ds'.
Proof.
  revert o ds d. induction fuel as [|fuel IH]; intros o ds d Ho Hf; [lia|].
  destruct d as [x|]; [|exists o, ds; by destruct b].
  destruct (queue_dequeue_spec _ _ _ _ Ho) as (o1 & E1 & Ho1).
  destruct ds as [|e ds]; cbn [destroy_loop].
  - destruct fuel as [|fuel]; simpl in Hf; [lia|].
    exists o1, []. split; [|done]. rewrite (sbind_some _ _ _ _ _ E1). by destruct b.
  - simpl in Hf, Ho1. destruct (IH o1 ds e Ho1 ltac:(lia)) as (o' & ds' & E2 & Ho2).
    exists o', ds'. split; [|done]. rewrite (sbind_some _ _ _ _ _ E1), (sbind_some _ _ _ _ _ E2).
    by destruct b.
Qed.

Lemma queue_destroy_spec b o cap timeout ds :
  queue_repr o cap timeout ds ->
  esif_queue_destroy b o = Some (if b then before_null ds else [], Freed).
Proof.
  intros Ho. pose proof Ho as (q & -> & Hq). unfold esif_queue_destroy.
  rewrite (sbind_some is_null _ _ false (Live q)) by done.
  rewrite (sbind_some get_self _ _ q (Live q)) by done.
  destruct (queue_dequeue_spec _ _ _ _ Ho) as (o1 & E1 & Ho1). rewrite (sbind_some _ _ _ _ _ E1).
  destruct (queue_destroy_loop_spec b o1 cap timeout (tail ds) (match ds with [] => None | d :: _ => d end)
    (S (S (Z.to_nat (current_size q)))) Ho1) as (o2 & ds2 & E2 & (q2 & -> & Hq2)).
  { rewrite (inv_size _ _ _ _ Hq), Nat2Z.id. destruct ds; simpl; lia. }
  rewrite (sbind_some _ _ _ _ _ E2).
  destruct (inv_list _ _ _ _ Hq2) as (xs & Hl & _). destruct (denotes_live _ _ Hl) as [l El].
  rewrite (sbind_some _ _ _ tt (Live (with_list Freed q2))) by (apply on_list_live; by rewrite El).
  by destruct b, ds.
Qed.
End Lifecycle.

(* ------------------------------------------------------------------ *)
(** ** Threads sharing a queue *)

Section Threads.
Context {A L : Type} {api : ListApi A L} {laws : ListLaws A L}.
Implicit Types (ds : list (option A)) (d : option A).

(** The atomic steps: each takes the lock, except a puller's wait.  An event
    records the call's arguments, whether there is memory for a node, and what it
    returned. *)
Inductive qevent : Type :=
  | EvEnqueue (mem : bool) (d : option A) (rc : Z)
  | EvRequeue (mem : bool) (d : option A) (rc : Z)
  | EvSignal
  | EvPullWait
  | EvPullDequeue (d : option A).

(** The shared queue and the number of pullers that have passed their wait. *)
Record sys : Type := mk_sys { shared : obj (queue L); ready : nat }.

Inductive qstep : sys -> qevent -> sys -> Prop :=
  | step_enqueue o n mem d rc o' :
      esif_queue_enqueue mem d o = Some (rc, o') ->
      qstep (mk_sys o n) (EvEnqueue mem d rc) (mk_sys o' n)
  | step_requeue o n mem d rc o' :
      esif_queue_requeue mem d o = Some (rc, o') ->
      qstep (mk_sys o n) (EvRequeue mem d rc) (mk_sys o' n)
  | step_signal o n o' :
      esif_queue_signal_event o = Some (tt, o') ->
      qstep (mk_sys o n) EvSignal (mk_sys o' n)
  | step_wait o q n :
      get_self o = Some (q, o) -> pull_may_proceed q = true ->
      qstep (mk_sys o n) EvPullWait (mk_sys o (S n))
  | step_dequeue o n d o' :
      esif_queue_pull o = Some (d, o') ->
      qstep (mk_sys o (S n)) (EvPullDequeue d) (mk_sys o' n).

Inductive qrun : sys -> list qevent -> sys -> Prop :=
  | qrun_nil s : qrun s [] s
  | qrun_snoc s tr s' ev s'' : qrun s tr s' -> qstep s' ev s'' -> qrun s (tr ++ [ev]) s''.

(** The abstract bounded queue: an item is refused only when it is full or there is no
    memory, and then nothing changes. *)
Inductive spec_step (cap : Z) : list (option A) -> qevent -> list (option A) -> Prop :=
  | spec_enqueue ds d : (Z.of_nat (length ds) < cap)%Z ->
      spec_step cap ds (EvEnqueue true d ESIF_OK) (ds ++ [d])
  | spec_enqueue_refused ds mem d : mem = false \/ (cap <= Z.of_nat (length ds))%Z ->
      spec_step cap ds (EvEnqueue mem d ESIF_E_NO_MEMORY) ds
  | spec_requeue ds d : (Z.of_nat (length ds) < cap)%Z ->
      spec_step cap ds (EvRequeue true d ESIF_OK) (d :: ds)
  | spec_requeue_refused ds mem d : mem = false \/ (cap <= Z.of_nat (length ds))%Z ->
      spec_step cap ds (EvRequeue mem d ESIF_E_NO_MEMORY) ds
  | spec_signal ds : spec_step cap ds EvSignal ds
  | spec_wait ds : spec_step cap ds EvPullWait ds
  | spec_dequeue ds d : spec_step cap (d :: ds) (EvPullDequeue d) ds
  | spec_dequeue_empty : spec_step cap [] (EvPullDequeue None) [].

Inductive spec_run (cap : Z) : list qevent -> list (option A) -> Prop :=
  | spec_run_nil : spec_run cap [] []
  | spec_run_snoc tr ds ev ds' :
      spec_run cap tr ds -> spec_step cap ds ev ds' -> spec_run cap (tr ++ [ev]) ds'.

Lemma queue_signal_spec o cap timeout ds :
  queue_repr o cap timeout ds ->
  exists o', esif_queue_signal_event o = Some (tt, o') /\ queue_repr o' cap timeout ds.
Proof.
  intros (q & -> & Hq). eexists. split; [reflexivity|]. eexists. split; [reflexivity|].
  destruct Hq. by split.
Qed.

Lemma pull_dequeue o cap timeout ds :
  queue_repr o cap timeout ds -> esif_queue_pull o = esif_queue_dequeue o.
Proof. intros (q & -> & _). done. Qed.

Lemma refused_why (mem : bool) (n cap : Z) : mem && (n <? cap)%Z = false -> mem = false \/ (cap <= n)%Z.
Proof. destruct mem; [|by left]. right. by apply Z.ltb_ge. Qed.

Lemma queue_step_refines cap timeout s ev s' ds :
  queue_repr (shared s) cap timeout ds -> qstep s ev s' ->
  exists ds', spec_step cap ds ev ds' /\ queue_repr (shared s') cap timeout ds'.
Proof.
  intros Ho Hs. inversion Hs as [o n mem d rc o' E|o n mem d rc o' E|o n o' E|o q n Eo E|o n d o' E];
    subst; simpl in *.
  - pose proof (queue_enqueue_spec mem _ _ _ _ d Ho) as H. destruct (mem && _) eqn:Ec.
    + apply andb_true_iff in Ec as [-> ?%Z.ltb_lt]. destruct H as (o1 & E1 & Ho1). simplify_eq.
      eexists. split; [by constructor|done].
    + rewrite E in H. simplify_eq. eexists. split; [constructor; by apply refused_why|done].
  - pose proof (queue_requeue_spec mem _ _ _ _ d Ho) as H. destruct (mem && _) eqn:Ec.
    + apply andb_true_iff in Ec as [-> ?%Z.ltb_lt]. destruct H as (o1 & E1 & Ho1). simplify_eq.
      eexists. split; [by constructor|done].
    + rewrite E in H. simplify_eq. eexists. split; [constructor; by apply refused_why|done].
  - destruct (queue_signal_spec _ _ _ _ Ho) as (o1 & E1 & Ho1). simplify_eq. eexists. split; [by constructor|done].
  - eexists. split; [by constructor|done].
  - rewrite (pull_dequeue _ _ _ _ Ho) in E.
    destruct (queue_dequeue_spec _ _ _ _ Ho) as (o1 & E1 & Ho1). simplify_eq.
    destruct ds as [|x ds]; eexists; (split; [by constructor|done]).
Qed.

Lemma queue_run_refines cap timeout tr s :
  (0 <= cap < 2 ^ 32)%Z ->
  qrun (mk_sys (esif_queue_create true true cap timeout) 0) tr s ->
  exists ds, spec_run cap tr ds /\ queue_repr (shared s) cap timeout ds.
Proof.
  intros Hc Hr. remember (mk_sys _ 0) as s0 eqn:E0. induction Hr as [s|s tr s' ev s'' Hr IH Hs]; subst.
  - exists []. split; [constructor|]. by apply queue_create_spec.
  - destruct (IH eq_refl) as (ds & H1 & H2). destruct (queue_step_refines _ _ _ _ _ _ H2 Hs) as (ds' & H3 & H4).
    exists ds'. split; [by econstructor|done].
Qed.

(** Payloads accepted by enqueue, and payloads delivered by pull. *)
Definition accepted (tr : list qevent) : list A :=
  omap (fun ev => match ev with EvEnqueue _ d rc => if (rc =? ESIF_OK)%Z then d else None | _ => None end) tr.
Definition delivered (tr : list qevent) : list A :=
  omap (fun ev => match ev with EvPullDequeue d => d | _ => None end) tr.
Definition is_requeue (ev : qevent) : bool :=
  match ev with EvRequeue _ _ _ => true | _ => false end.

Lemma spec_run_fifo cap tr ds :
  spec_run cap tr ds -> Forall (fun ev => is_requeue ev = false) tr ->
  accepted tr = delivered tr ++ omap id ds.
Proof.
  induction 1 as [|tr ds ev ds' Hr IH Hs]; intros Hf; [done|].
  apply Forall_app in Hf as [Hf Hev]. specialize (IH Hf).
  apply Forall_cons in Hev as [Hev _]. unfold accepted, delivered in *. rewrite !omap_app, IH.
  inversion Hs; subst; simpl in *; try done; rewrite ?app_nil_r, ?omap_app, <- ?app_assoc; try done;
    by destruct d.
Qed.

Lemma queue_repr_size o cap timeout ds :
  queue_repr o cap timeout ds -> esif_queue_size o = Some (Z.of_nat (length ds), o).
Proof. intros (q & -> & Hq). unfold esif_queue_size. run_monad. by rewrite (inv_size _ _ _ _ Hq). Qed.
End Threads.
Arguments qevent A : clear implicits.
Arguments sys L : clear implicits.


(** As long as nothing is requeued, items come out in the order in which
    they went in: what enqueue accepted is what pull delivered followed by
    what is still queued. *)
Theorem queue_fifo_order (A L : Type) (api : ListApi A L) (laws : ListLaws A L)
    (depth timeout : Z) (Hdepth : (0 <= depth < 2 ^ 32)%Z)
    (tr : list (qevent A)) (s : sys L)
    (Hrun : qrun (mk_sys (esif_queue_create true true depth timeout) 0) tr s)
    (Hnoreq : Forall (fun ev => is_requeue ev = false) tr) :
  exists ds, queue_repr (shared s) depth timeout ds /\ accepted tr = delivered tr ++ omap id ds.
Proof.
  destruct (queue_run_refines _ _ _ _ Hdepth Hrun) as (ds & Hs & Ho). exists ds. split; [done|].
  by eapply spec_run_fifo.
Qed.

(** No wake-up is lost: in every reachable state in which an item is
    queued, a puller's wait returns even with an infinite timeout; and a
    puller whose wait has returned always completes its dequeue. *)
Theorem queue_no_lost_wakeup (A L : Type) (api : ListApi A L) (laws : ListLaws A L)
    (depth timeout : Z) (Hdepth : (0 <= depth < 2 ^ 32)%Z)
    (tr : list (qevent A)) (s : sys L)
    (Hrun : qrun (mk_sys (esif_queue_create true true depth timeout) 0) tr s) :
  (forall n o, esif_queue_size (shared s) = Some (n, o) -> (0 < n)%Z -> exists s', qstep s EvPullWait s') /\
  (0 < ready s -> exists d s', qstep s (EvPullDequeue d) s').
Proof.
  destruct (queue_run_refines _ _ _ _ Hdepth Hrun) as (ds & Hs & Ho).
  destruct s as [o n]. simpl in *. split.
  - intros m o' E Hm. rewrite (queue_repr_size _ _ _ _ Ho) in E. simplify_eq.
    destruct Ho as (q & -> & Hq). eexists. apply step_wait with q; [done|]. unfold pull_may_proceed.
    rewrite (inv_signal _ _ _ _ Hq); [done|]. intros ->. simpl in Hm. lia.
  - intros Hn. destruct n as [|n]; [lia|].
    destruct (queue_dequeue_spec _ _ _ _ Ho) as (o' & E & _). rewrite <- (pull_dequeue _ _ _ _ Ho) in E.
    eexists _, _. by constructor.
Qed.

(** Destroying a queue after any interleaving hands each queued item, up to
    the first NULL one, to the destroy callback in queue order and frees the
    queue object; creation fails cleanly, with no object, when either
    allocation fails. *)
Theorem queue_destroy_drains (A L : Type) (api : ListApi A L) (laws : ListLaws A L)
    (depth timeout : Z) (Hdepth : (0 <= depth < 2 ^ 32)%Z)
    (tr : list (qevent A)) (s : sys L)
    (Hrun : qrun (mk_sys (esif_queue_create true true depth timeout) 0) tr s) :
  (exists ds, spec_run depth tr ds /\
     esif_queue_destroy true (shared s) = Some (before_null ds, Freed)) /\
  esif_queue_create (L := L) false true depth timeout = Null /\
  esif_queue_create (L := L) true false depth timeout = Null.
Proof.
  destruct (queue_run_refines _ _ _ _ Hdepth Hrun) as (ds & Hs & Ho).
  pose proof (queue_create_spec (L := L) depth timeout Hdepth) as (_ & Hc1 & Hc2).
  split; [|done]. exists ds. split; [done|]. exact (queue_destroy_spec true _ _ _ _ Ho).
Qed.

(* ------------------------------------------------------------------ *)
(** ** A concrete run over the pointer-level list *)

Module Demo.
Definition after {T} (m : SM (obj (queue (llist nat))) T) (o : obj (queue (llist nat))) :
    obj (queue (llist nat)) :=
  match m o with Some (_, o') => o' | None => Null end.

Definition o0 : obj (queue (llist nat)) := esif_queue_create true true 2 0.
Definition o1 := after (esif_queue_enqueue true (Some 5)) o0.
Definition o2 := after (esif_queue_enqueue true (Some 6)) o1.
Definition o3 := after esif_queue_pull o2.
Definition q2 : queue (llist nat) :=
  match o2 with Live q => q | _ => mk_queue 0 0 0 false Null end.

Definition tr : list (qevent nat) :=
  [EvEnqueue true (Some 5) ESIF_OK; EvEnqueue true (Some 6) ESIF_OK;
   EvEnqueue true (Some 7) ESIF_E_NO_MEMORY; EvPullWait; EvPullDequeue (Some 5)].

Lemma run : qrun (mk_sys (esif_queue_create true true 2 0) 0) tr (mk_sys o3 0).
Proof.
  apply (qrun_snoc _ [_; _; _; _] (mk_sys o2 1)).
  2: { constructor. vm_compute. reflexivity. }
  apply (qrun_snoc _ [_; _; _] (mk_sys o2 0)).
  2: { apply step_wait with q2; vm_compute; reflexivity. }
  apply (qrun_snoc _ [_; _] (mk_sys o2 0)).
  2: { apply step_enqueue. vm_compute. reflexivity. }
  apply (qrun_snoc _ [_] (mk_sys o1 0)).
  2: { apply step_enqueue. vm_compute. reflexivity. }
  apply (qrun_snoc _ [] (mk_sys o0 0)); [constructor|].
  apply step_enqueue. vm_compute. reflexivity.
Qed.
End Demo.


Lemma queue_fifo_order_witness :
  exists ds, queue_repr (shared (mk_sys Demo.o3 0)) 2 0 ds /\
    accepted Demo.tr = delivered Demo.tr ++ omap id ds.
Proof.
  refine (queue_fifo_order nat (llist nat) _ _ 2 0 ltac:(lia) Demo.tr _ Demo.run _).
  repeat constructor.
Defined.

Lemma queue_no_lost_wakeup_witness :
  (forall n o, esif_queue_size (shared (mk_sys Demo.o3 0)) = Some (n, o) -> (0 < n)%Z ->
     exists s', qstep (mk_sys Demo.o3 0) EvPullWait s') /\
  (0 < ready (mk_sys Demo.o3 0) -> exists d s', qstep (mk_sys Demo.o3 0) (EvPullDequeue d) s').
Proof.
  exact (queue_no_lost_wakeup nat (llist nat) _ _ 2 0 ltac:(lia) Demo.tr _ Demo.run).
Defined.

Lemma queue_destroy_drains_witness :
  (exists ds, spec_run 2 Demo.tr ds /\
     esif_queue_destroy true (shared (mk_sys Demo.o3 0)) = Some (before_null ds, Freed)) /\
  esif_queue_create (L := llist nat) false true 2 0 = Null /\
  esif_queue_create (L := llist nat) true false 2 0 = Null.
Proof.
  exact (queue_destroy_drains nat (llist nat) _ _ 2 0 ltac:(lia) Demo.tr _ Demo.run).
Defined.
