(* ===== verification/HashTable.v ===== *)
(** * Hash tables: ESIF/Products/ESIF_CM/Sources/esif_hash_table.c

    A table is an array of chains, used through [ListApi]; a key hashes to the
    chain that holds its nodes.  A key argument is the byte string that
    [key_ptr] and [key_length] delimit, or NULL ([None]).  The caller's items
    are opaque pointers, possibly NULL. *)

From S2P Require Import Prelude ListApi LinkList.
From stdpp Require Import list.
Local Open Scope dptf_scope.

Definition key : Type := list Z.

Record ht_node (I : Type) : Type := mk_ht_node {
  node_key : key;
  item_ptr : option I
}.
Arguments mk_ht_node {I}.
Arguments node_key {I}.
Arguments item_ptr {I}.

Definition FNV_PRIME : Z := 16777619.

(** FNV-1a with a zero offset basis, in 32-bit arithmetic. *)
Definition hash_step (hash_value byte : Z) : Z := u32 (Z.lxor hash_value byte * FNV_PRIME).
Definition esif_compute_hash (data : key) : Z := foldl hash_step 0%Z data.

Definition esif_cmp_keys (key1 key2 : option key) : bool :=
  match key1, key2 with
  | Some k1, Some k2 => if decide (length k1 = length k2) then bool_decide (k1 = k2) else false
  | _, _ => false
  end.

Section HashTable.
Context {I L : Type} {api : ListApi (ht_node I) L}.

Record ht : Type := mk_ht { size : Z; table : list (obj L) }.

Abbreviation M T := (SM (obj ht) T).

Definition with_table (f : list (obj L) -> list (obj L)) (h : ht) : ht := mk_ht (size h) (f (table h)).

(** Run a list operation on [table[i]]; outside the array it has no outcome. *)
Definition on_bucket {T} (i : nat) (m : SM (obj L) T) : M T :=
  let! self := get_self in
  match table self !! i with
  | Some b =>
      match m b with
      | Some (x, b') => mod_self (with_table (insert i b')) ;! sret x
      | None => ub
      end
  | None => ub
  end.

(* ------------------------------------------------------------------ *)
(** ** Operations *)

(** The chain for a key: its index, or NULL when that entry is NULL. *)
Definition esif_ht_get_ll (k : key) : M (option nat) :=
  let! self := get_self in
  if (size self =? 0)%Z then ub else
  let hash_index := Z.to_nat (esif_compute_hash k mod size self) in
  match table self !! hash_index with
  | None => ub
  | Some Null => sret None
  | Some _ => sret (Some hash_index)
  end.

Fixpoint find_loop (fuel : nat) (k : key) (cur_ptr : ptr) : SM (obj L) ptr :=
  match fuel with
  | O => ub
  | S fuel' =>
      match cur_ptr with
      | None => sret None
      | Some _ =>
          let! nd := api_data cur_ptr in
          let hit := match nd with
                     | Some n => esif_cmp_keys (Some k) (Some (node_key n))
                     | None => false
                     end in
          if hit then sret cur_ptr else
          let! nx := api_next cur_ptr in
          find_loop fuel' k nx
      end
  end.

Definition esif_find_node_in_ht_ll (k : key) : SM (obj L) ptr :=
  let! self := sget in
  let! hd := api_head in
  find_loop (api_fuel self) k hd.

(** [mem_node] and [mem_key] are the outcomes of the two allocations. *)
Definition esif_alloc_ht_node (mem_node mem_key : bool) (k : key) (item : option I) :
    option (ht_node I) :=
  if mem_node then
    if mem_key then Some (mk_ht_node k item) else None
  else None.

Definition esif_ht_get_ht_node (k : key) : M (option (ht_node I)) :=
  let! ll := esif_ht_get_ll k in
  match ll with
  | None => sret None
  | Some i =>
      let! ll_node := on_bucket i (esif_find_node_in_ht_ll k) in
      match ll_node with
      | None => sret None
      | Some _ => on_bucket i (api_data ll_node)
      end
  end.

Definition esif_ht_add_item (mem_node mem_key mem_ll : bool) (key_ptr : option key)
    (item : option I) : M Z :=
  let! null := is_null in
  match key_ptr with
  | None => sret ESIF_E_PARAMETER_IS_NULL
  | Some k =>
      if null then sret ESIF_E_PARAMETER_IS_NULL else
      let! ll := esif_ht_get_ll k in
      match ll with
      | None => sret ESIF_E_NOT_FOUND
      | Some i =>
          match esif_alloc_ht_node mem_node mem_key k item with
          | None => sret ESIF_E_NO_MEMORY
          | Some n => on_bucket i (api_add_at_back mem_ll (Some n))
          end
      end
  end.

Definition esif_ht_remove_item (key_ptr : option key) : M Z :=
  let! null := is_null in
  match key_ptr with
  | None => sret ESIF_E_PARAMETER_IS_NULL
  | Some k =>
      if null then sret ESIF_E_PARAMETER_IS_NULL else
      let! ll := esif_ht_get_ll k in
      match ll with
      | None => sret ESIF_E_NOT_FOUND
      | Some i =>
          let! ll_node := on_bucket i (esif_find_node_in_ht_ll k) in
          match ll_node with
          | None => sret ESIF_E_NOT_FOUND
          | Some _ =>
              let! nd := on_bucket i (api_data ll_node) in
              match nd with
              | None => sret ESIF_E_PARAMETER_IS_NULL
              | Some _ => on_bucket i (api_node_remove ll_node) ;! sret ESIF_OK
              end
          end
      end
  end.

Definition esif_ht_get_item (key_ptr : option key) : M (option I) :=
  let! null := is_null in
  match key_ptr with
  | None => sret None
  | Some k =>
      if null then sret None else
      let! nd := esif_ht_get_ht_node k in
      sret (match nd with None => None | Some n => item_ptr n end)
  end.

(** The items handed to the destroy callback, when there is one. *)
Fixpoint destroy_nodes_loop (fuel : nat) (destroy : bool) (cur_ptr : ptr) :
    SM (obj L) (list (option I)) :=
  match fuel with
  | O => ub
  | S fuel' =>
      match cur_ptr with
      | None => sret []
      | Some _ =>
          let! nd := api_data cur_ptr in
          let! out := (match nd with
                       | Some n => api_set_data cur_ptr None ;!
                                   sret (if destroy then [item_ptr n] else [])
                       | None => sret []
                       end) in
          let! nx := api_next cur_ptr in
          let! rest := destroy_nodes_loop fuel' destroy nx in
          sret (out ++ rest)
      end
  end.

Definition esif_destroy_ht_nodes (destroy : bool) : SM (obj L) (list (option I)) :=
  let! null := is_null in
  if null then sret [] else
  let! self := sget in
  let! hd := api_head in
  destroy_nodes_loop (api_fuel self) destroy hd.

(** The loop over the entries; each is set to NULL once its chain is freed. *)
Fixpoint destroy_table_loop (n index : nat) (destroy : bool) : M (list (option I)) :=
  match n with
  | O => sret []
  | S n' =>
      let! self := get_self in
      match table self !! index with
      | None => ub
      | Some Null => destroy_table_loop n' (S index) destroy
      | Some _ =>
          let! out := on_bucket index (esif_destroy_ht_nodes destroy) in
          on_bucket index api_destroy ;!
          mod_self (with_table (insert index Null)) ;!
          let! rest := destroy_table_loop n' (S index) destroy in
          sret (out ++ rest)
      end
  end.

Definition esif_ht_destroy (destroy : bool) : M (list (option I)) :=
  let! null := is_null in
  if null then sret [] else
  let! self := get_self in
  let! out := destroy_table_loop (Z.to_nat (size self)) 0 destroy in
  free_self ;!
  sret out.

(** Creation: the entries not yet created are NULL, since the allocator zeroes
    memory; [mem_list index] is the outcome of allocating chain [index]. *)
Fixpoint create_loop (n index : nat) (mem_list : nat -> bool) : M bool :=
  match n with
  | O => sret true
  | S n' =>
      mod_self (with_table (insert index (api_create (mem_list index)))) ;!
      let! self := get_self in
      match table self !! index with
      | None => ub
      | Some Null => esif_ht_destroy false ;! sret false
      | Some _ => create_loop n' (S index) mem_list
      end
  end.

Definition esif_ht_create (mem_ht mem_table : bool) (mem_list : nat -> bool) (sz : Z) : obj ht :=
  if mem_ht then
    if mem_table then
      match create_loop (Z.to_nat sz) 0 mem_list (Live (mk_ht sz (replicate (Z.to_nat sz) Null))) with
      | Some (true, o) => o
      | Some (false, _) => Null
      | None => Freed
      end
    else Null
  else Null.
End HashTable.
Arguments ht L : clear implicits.

(* ------------------------------------------------------------------ *)
(** ** The abstract table: nodes in insertion order *)

Section Assoc.
Context {I : Type}.
Implicit Types (al : list (ht_node I)) (n : ht_node I).

(** Looking a key up, or removing it, concerns the oldest node that has it. *)
Fixpoint lookup_first (k : key) al : option (ht_node I) :=
  match al with
  | [] => None
  | n :: al' => if decide (node_key n = k) then Some n else lookup_first k al'
  end.

Fixpoint remove_first (k : key) al : list (ht_node I) :=
  match al with
  | [] => []
  | n :: al' => if decide (node_key n = k) then al' else n :: remove_first k al'
  end.

(** The chain a key belongs to, and the nodes of a chain. *)
Definition chain_of (sz : Z) (k : key) : nat := Z.to_nat (esif_compute_hash k mod sz).
Definition in_chain (sz : Z) (i : nat) n : Prop := chain_of sz (node_key n) = i.
#[export] Instance in_chain_dec sz i n : Decision (in_chain sz i n).
Proof. unfold in_chain. apply _. Defined.

Lemma lookup_first_filter sz k al :
  lookup_first k (filter (in_chain sz (chain_of sz k)) al) = lookup_first k al.
Proof.
  induction al as [|n al IH]; [done|]. rewrite filter_cons. simpl.
  destruct (decide (node_key n = k)) as [<-|Hne].
  - rewrite (decide_True (P := in_chain _ _ n)) by done. simpl. by rewrite decide_True.
  - case_decide; simpl; [by rewrite decide_False | done].
Qed.

Lemma remove_first_filter sz k i al :
  filter (in_chain sz i) (remove_first k al) =
  if decide (chain_of sz k = i) then remove_first k (filter (in_chain sz i) al)
  else filter (in_chain sz i) al.
Proof.
  induction al as [|n al IH]; [by case_decide|]. simpl.
  destruct (decide (node_key n = k)) as [<-|Hne]; rewrite !filter_cons.
  - destruct (decide (chain_of sz (node_key n) = i)) as [E|E].
    + rewrite (decide_True (P := in_chain _ _ n)) by done. simpl. by rewrite decide_True.
    + by rewrite (decide_False (P := in_chain _ _ n)).
  - rewrite IH. destruct (decide (in_chain sz i n)); case_decide; simpl; rewrite ?decide_False by done; done.
Qed.

Lemma lookup_first_split k al n :
  lookup_first k al = Some n ->
  exists al1 al2, al = al1 ++ n :: al2 /\ node_key n = k /\ remove_first k al = al1 ++ al2.
Proof.
  induction al as [|m al IH]; simpl; [done|]. case_decide as E; intros Hn.
  - simplify_eq. by exists [], al.
  - destruct (IH Hn) as (al1 & al2 & -> & Hk & ->). by exists (m :: al1), al2.
Qed.

Lemma lookup_first_None k al : lookup_first k al = None -> remove_first k al = al.
Proof. induction al as [|m al IH]; simpl; [done|]. case_decide as E; [done|]. intros Hn. by rewrite IH. Qed.

Lemma filter_snoc sz i al n :
  filter (in_chain sz i) (al ++ [n]) =
  filter (in_chain sz i) al ++ (if decide (in_chain sz i n) then [n] else []).
Proof. rewrite filter_app. f_equal. Qed.

(** The chains partition the nodes. *)
Lemma chains_partition sz al :
  (0 < sz)%Z ->
  concat ((fun i => filter (in_chain sz i) al) <$> seq 0 (Z.to_nat sz)) ≡ₚ al.
Proof.
  intros Hsz. induction al as [|n al IH].
  { induction (seq 0 _) as [|i js IHi]; simpl; [done|exact IHi]. }
  transitivity (n :: concat ((fun i => filter (in_chain sz i) al) <$> seq 0 (Z.to_nat sz))); [clear IH|by rewrite IH].
  set (c := chain_of sz (node_key n)).
  assert (Hc : c < Z.to_nat sz).
  { subst c. unfold chain_of. pose proof (Z.mod_pos_bound (esif_compute_hash (node_key n)) sz Hsz). lia. }
  assert (Hseq : seq 0 (Z.to_nat sz) = seq 0 c ++ c :: seq (S c) (Z.to_nat sz - S c)).
  { replace (Z.to_nat sz) with (c + S (Z.to_nat sz - S c)) at 1 by lia. by rewrite seq_app. }
  assert (Hoff : forall js : list nat, c ∉ js -> ((fun i => filter (in_chain sz i) (n :: al)) <$> js) =
                                 ((fun i => filter (in_chain sz i) al) <$> js)).
  { intros js His. apply list_fmap_ext. intros j i Hj. rewrite filter_cons, decide_False; [done|].
    unfold in_chain. fold c. intros ->. by apply His, list_elem_of_lookup_2 with j. }
  rewrite Hseq, !fmap_app, !fmap_cons, !concat_app. simpl.
  rewrite !Hoff by (rewrite elem_of_seq; lia).
  rewrite filter_cons, decide_True by done. simpl. by rewrite <- Permutation_middle.
Qed.
End Assoc.

(* ------------------------------------------------------------------ *)
(** ** What a table denotes *)

Section Spec.
Context {I L : Type} {api : ListApi (ht_node I) L} {laws : ListLaws (ht_node I) L}.
Implicit Types (al : list (ht_node I)) (h : ht L).

Definition chain_repr (b : obj L) (ns : list (ht_node I)) : Prop :=
  exists xs, denotes b xs /\ xs.*2 = Some <$> ns.

Record table_inv h (sz : Z) al : Prop := {
  tinv_size : size h = sz;
  tinv_pos : (0 < sz)%Z;
  tinv_len : length (table h) = Z.to_nat sz;
  tinv_chain : forall i b, table h !! i = Some b -> chain_repr b (filter (in_chain sz i) al)
}.

Definition table_repr (o : obj (ht L)) sz al : Prop := exists h, o = Live h /\ table_inv h sz al.

Lemma on_bucket_live {T} i (m : SM (obj L) T) h b x b' :
  table h !! i = Some b -> m b = Some (x, b') ->
  on_bucket i m (Live h) = Some (x, Live (with_table (insert i b') h)).
Proof. intros Hb Hm. unfold on_bucket. run_monad. by rewrite Hb, Hm. Qed.

Lemma on_bucket_read {T} i (m : SM (obj L) T) h b x :
  table h !! i = Some b -> m b = Some (x, b) -> on_bucket i m (Live h) = Some (x, Live h).
Proof.
  intros Hb Hm. rewrite (on_bucket_live _ _ _ _ _ _ Hb Hm). unfold with_table.
  rewrite list_insert_id by done. by destruct h.
Qed.

Lemma cmp_keys_spec k1 k2 : esif_cmp_keys (Some k1) (Some k2) = bool_decide (k2 = k1).
Proof.
  unfold esif_cmp_keys. case_decide as E; [|by rewrite bool_decide_eq_false_2 by congruence].
  apply bool_decide_ext. naive_solver.
Qed.

Lemma chain_live b ns : chain_repr b ns -> b <> Null.
Proof. intros (xs & Hd & _) ->. apply denotes_live in Hd as [l Hl]. done. Qed.

Lemma get_ll_spec h sz al k :
  table_inv h sz al ->
  exists b, table h !! chain_of sz k = Some b /\
    chain_repr b (filter (in_chain sz (chain_of sz k)) al) /\
    esif_ht_get_ll k (Live h) = Some (Some (chain_of sz k), Live h).
Proof.
  intros [Hsz Hpos Hlen Hch].
  destruct (lookup_lt_is_Some_2 (table h) (chain_of sz k)) as [b Hb].
  { rewrite Hlen. unfold chain_of. pose proof (Z.mod_pos_bound (esif_compute_hash k) sz Hpos). lia. }
  exists b. split; [done|split; [by apply Hch|]].
  unfold esif_ht_get_ll. run_monad. rewrite Hsz, (proj2 (Z.eqb_neq _ _)) by lia.
  fold (chain_of sz k). rewrite Hb. apply Hch, chain_live in Hb. by destruct b.
Qed.

Lemma find_loop_spec b pre suf ns k fuel :
  denotes b (pre ++ suf) -> suf.*2 = Some <$> ns -> length suf < fuel ->
  match lookup_first k ns with
  | None => find_loop fuel k (first suf None) b = Some (None, b)
  | Some n => exists s1 a s2, suf = s1 ++ (a, Some n) :: s2 /\ s1.*2 ++ s2.*2 = Some <$> remove_first k ns /\
      find_loop fuel k (first suf None) b = Some (Some a, b)
  end.
Proof.
  revert pre ns fuel. induction suf as [|[a d] suf IH]; intros pre ns [|fuel] Hd Hs Hf;
    simpl in Hf; try lia.
  { destruct ns; [done|discriminate]. }
  destruct ns as [|n ns]; [discriminate|]. simpl in Hs. injection Hs as -> Hs.
  simpl lookup_first. simpl remove_first. cbn [find_loop first].
  rewrite (sbind_some _ _ _ _ _ (data_law _ _ _ _ _ Hd)), cmp_keys_spec.
  case_decide as E.
  - rewrite bool_decide_eq_true_2 by done. exists [], a, suf. by split; [|split; [exact Hs|]].
  - rewrite bool_decide_eq_false_2 by done. rewrite (sbind_some _ _ _ _ _ (next_law _ _ _ _ _ Hd)).
    rewrite cons_middle, app_assoc in Hd. specialize (IH _ ns fuel Hd Hs ltac:(lia)).
    destruct (lookup_first k ns) as [m|]; [|done].
    destruct IH as (s1 & a' & s2 & -> & Hrm & Hfind). exists ((a, Some n) :: s1), a', s2.
    split; [done|split; [|done]]. rewrite !fmap_cons. cbn [app]. by rewrite Hrm.
Qed.

Lemma find_node_spec b ns k :
  chain_repr b ns ->
  match lookup_first k ns with
  | None => esif_find_node_in_ht_ll k b = Some (None, b)
  | Some n => exists a, esif_find_node_in_ht_ll k b = Some (Some a, b) /\
      api_data (Some a) b = Some (Some n, b) /\
      exists b', api_node_remove (Some a) b = Some (tt, b') /\ chain_repr b' (remove_first k ns)
  end.
Proof.
  intros (xs & Hd & Hs). pose proof (find_loop_spec b [] xs ns k (api_fuel b) Hd Hs (fuel_law _ _ Hd)) as H.
  assert (E : esif_find_node_in_ht_ll k b = find_loop (api_fuel b) k (first xs None) b).
  { unfold esif_find_node_in_ht_ll. rewrite (sbind_some sget _ b b b) by done.
    by rewrite (sbind_some _ _ _ _ _ (head_law _ _ Hd)). }
  rewrite E. destruct (lookup_first k ns) as [n|]; [|done].
  destruct H as (s1 & a & s2 & -> & Hrm & Hfind). exists a.
  split; [done|split; [by eapply data_law|]].
  destruct (node_remove_law _ _ _ _ _ Hd) as (b' & Er & Hd'). exists b'. split; [done|].
  exists (s1 ++ s2). by rewrite fmap_app.
Qed.

(** Replacing one chain's contents. *)
Lemma table_insert h sz al al' i b :
  table_inv h sz al -> i < Z.to_nat sz ->
  chain_repr b (filter (in_chain sz i) al') ->
  (forall j, j <> i -> filter (in_chain sz j) al' = filter (in_chain sz j) al) ->
  table_inv (with_table (insert i b) h) sz al'.
Proof.
  intros [Hsz Hpos Hlen Hch] Hi Hb Hoth. split; simpl; try done; [by rewrite length_insert|].
  intros j c Hc. destruct (decide (j = i)) as [->|Hne].
  - rewrite list_lookup_insert_eq in Hc by lia. by simplify_eq.
  - rewrite list_lookup_insert_ne in Hc by done. rewrite Hoth by done. by apply Hch.
Qed.

Lemma chain_of_lt sz k : (0 < sz)%Z -> chain_of sz k < Z.to_nat sz.
Proof.
  intros H. unfold chain_of. pose proof (Z.mod_pos_bound (esif_compute_hash k) sz H). lia.
Qed.

Lemma add_item_spec (m1 m2 m3 : bool) o sz al k item :
  table_repr o sz al ->
  if m1 && m2 && m3 then
    exists o', esif_ht_add_item m1 m2 m3 (Some k) item o = Some (ESIF_OK, o') /\
      table_repr o' sz (al ++ [mk_ht_node k item])
  else esif_ht_add_item m1 m2 m3 (Some k) item o = Some (ESIF_E_NO_MEMORY, o).
Proof.
  intros (h & -> & Hi). destruct (get_ll_spec h sz al k Hi) as (b & Hb & Hc & E).
  assert (E' : esif_ht_add_item m1 m2 m3 (Some k) item (Live h) =
     match esif_alloc_ht_node m1 m2 k item with
     | None => Some (ESIF_E_NO_MEMORY, Live h)
     | Some n => on_bucket (chain_of sz k) (api_add_at_back m3 (Some n)) (Live h)
     end).
  { unfold esif_ht_add_item. rewrite (sbind_some is_null _ _ false (Live h)) by done.
    rewrite (sbind_some _ _ _ _ _ E). by destruct (esif_alloc_ht_node _ _ _ _). }
  rewrite E'. destruct m1, m2; try done. simpl. destruct Hc as (xs & Hd & Hs).
  destruct m3.
  - destruct (add_at_back_law _ _ (Some (mk_ht_node k item)) Hd) as (a & b' & Ea & _ & Hd').
    eexists. split; [by eapply on_bucket_live|]. eexists. split; [done|].
    apply table_insert with (al := al); [done|by apply chain_of_lt, Hi| |].
    + exists (xs ++ [(a, Some (mk_ht_node k item))]). split; [done|].
      rewrite fmap_app, filter_snoc, decide_True, fmap_app, Hs by done. done.
    + intros j Hj. rewrite filter_snoc, decide_False, app_nil_r; [done|]. unfold in_chain. simpl. congruence.
  - by apply (on_bucket_read _ _ _ b); [|eapply add_at_back_no_memory].
Qed.

Lemma remove_item_spec o sz al k :
  table_repr o sz al ->
  match lookup_first k al with
  | None => esif_ht_remove_item (Some k) o = Some (ESIF_E_NOT_FOUND, o)
  | Some _ => exists o', esif_ht_remove_item (Some k) o = Some (ESIF_OK, o') /\
      table_repr o' sz (remove_first k al)
  end.
Proof.
  intros (h & -> & Hi). destruct (get_ll_spec h sz al k Hi) as (b & Hb & Hc & E).
  pose proof (find_node_spec b _ k Hc) as Hf. rewrite lookup_first_filter in Hf.
  unfold esif_ht_remove_item. rewrite (sbind_some is_null _ _ false (Live h)) by done.
  rewrite (sbind_some _ _ _ _ _ E).
  destruct (lookup_first k al) as [n|].
  - destruct Hf as (a & Ef & Ed & b' & Er & Hc').
    rewrite (sbind_some _ _ _ _ _ (on_bucket_read _ _ _ _ _ Hb Ef)).
    rewrite (sbind_some _ _ _ _ _ (on_bucket_read _ _ _ _ _ Hb Ed)).
    rewrite (sbind_some _ _ _ _ _ (on_bucket_live _ _ _ _ _ _ Hb Er)).
    eexists. split; [reflexivity|]. eexists. split; [done|].
    apply table_insert with (al := al); [done|by apply chain_of_lt, Hi| |].
    + by rewrite remove_first_filter, decide_True.
    + intros j Hj. by rewrite remove_first_filter, decide_False.
  - by rewrite (sbind_some _ _ _ _ _ (on_bucket_read _ _ _ _ _ Hb Hf)).
Qed.

Lemma get_item_spec o sz al k :
  table_repr o sz al ->
  esif_ht_get_item (Some k) o =
    Some (match lookup_first k al with Some n => item_ptr n | None => None end, o).
Proof.
  intros (h & -> & Hi). destruct (get_ll_spec h sz al k Hi) as (b & Hb & Hc & E).
  pose proof (find_node_spec b _ k Hc) as Hf. rewrite lookup_first_filter in Hf.
  unfold esif_ht_get_item, esif_ht_get_ht_node. rewrite (sbind_some is_null _ _ false (Live h)) by done.
  unfold sbind at 1. rewrite (sbind_some _ _ _ _ _ E).
  destruct (lookup_first k al) as [n|].
  - destruct Hf as (a & Ef & Ed & _).
    rewrite (sbind_some _ _ _ _ _ (on_bucket_read _ _ _ _ _ Hb Ef)).
    by rewrite (on_bucket_read _ _ _ _ _ Hb Ed).
  - by rewrite (sbind_some _ _ _ _ _ (on_bucket_read _ _ _ _ _ Hb Hf)).
Qed.
End Spec.

(* ------------------------------------------------------------------ *)
(** ** Creation and destruction *)

Section HtLifecycle.
Context {I L : Type} {api : ListApi (ht_node I) L} {laws : ListLaws (ht_node I) L}.
Implicit Types (al ns : list (ht_node I)) (h : ht L).

(** An entry not yet created, or already destroyed, is NULL. *)
Definition entry_repr (b : obj L) ns : Prop := (b = Null /\ ns = []) \/ chain_repr b ns.

Lemma destroy_nodes_loop_spec (d : bool) b pre suf ns fuel :
  denotes b (pre ++ suf) -> suf.*2 = Some <$> ns -> length suf < fuel ->
  exists b' xs, destroy_nodes_loop fuel d (first suf None) b =
      Some (if d then item_ptr <$> ns else [], b') /\ denotes b' xs.
Proof.
  revert b pre ns fuel. induction suf as [|[a x] suf IH]; intros b pre ns [|fuel] Hd Hs Hf;
    simpl in Hf; try lia.
  { destruct ns; [|discriminate]. exists b, (pre ++ []). by destruct d. }
  destruct ns as [|n ns]; [discriminate|]. rewrite !fmap_cons in Hs. injection Hs as Hx Hs.
  simpl in Hx. subst x. cbn [destroy_nodes_loop first].
  rewrite (sbind_some _ _ _ _ _ (data_law _ _ _ _ _ Hd)).
  destruct (set_data_law _ _ _ _ _ None Hd) as (b1 & E1 & Hd1).
  rewrite (sbind_some _ _ _ (if d then [item_ptr n] else []) b1)
    by (by rewrite (sbind_some _ _ _ _ _ E1)).
  rewrite (sbind_some _ _ _ _ _ (next_law _ _ _ _ _ Hd1)).
  rewrite cons_middle, app_assoc in Hd1.
  destruct (IH _ _ ns fuel Hd1 Hs ltac:(lia)) as (b' & xs & E2 & Hd2).
  rewrite (sbind_some _ _ _ _ _ E2). exists b', xs. by destruct d.
Qed.

Lemma destroy_nodes_spec (d : bool) b ns :
  chain_repr b ns ->
  exists b', esif_destroy_ht_nodes d b = Some (if d then item_ptr <$> ns else [], b') /\
    api_destroy b' = Some (tt, Freed).
Proof.
  intros (xs & Hd & Hs). destruct (denotes_live _ _ Hd) as [l El].
  destruct (destroy_nodes_loop_spec d b [] xs ns (api_fuel b) Hd Hs (fuel_law _ _ Hd)) as (b' & ys & E & Hd').
  exists b'. split; [|by eapply destroy_law]. unfold esif_destroy_ht_nodes.
  rewrite (sbind_some is_null _ b false b) by by rewrite El.
  rewrite (sbind_some sget _ b b b) by done.
  by rewrite (sbind_some _ _ _ _ _ (head_law _ _ Hd)).
Qed.

Lemma destroy_table_loop_spec (d : bool) f n index h :
  (forall i, index <= i < index + n -> exists b, table h !! i = Some b /\ entry_repr b (f i)) ->
  exists h', destroy_table_loop n index d (Live h) =
    Some (if d then item_ptr <$> concat (f <$> seq index n) else [], Live h').
Proof.
  revert index h. induction n as [|n IH]; intros index h Hf; [exists h; by destruct d|].
  destruct (Hf index ltac:(lia)) as (b & Hb & Hr). cbn [destroy_table_loop].
  rewrite (sbind_some get_self _ _ h (Live h)), Hb by done. cbn [seq]. rewrite fmap_cons. cbn [concat].
  destruct Hr as [[-> ->]|Hr].
  { destruct (IH (S index) h) as [h' E]; [intros i Hi; apply Hf; lia|]. exists h'. by destruct d. }
  assert (Hlt : index < length (table h)) by by eapply lookup_lt_Some.
  destruct (destroy_nodes_spec d b _ Hr) as (b' & E1 & E2).
  assert (Hnext : exists h', destroy_table_loop n (S index) d
      (Live (with_table (insert index Null) (with_table (insert index Freed) (with_table (insert index b') h)))) =
      Some (if d then item_ptr <$> concat (f <$> seq (S index) n) else [], Live h')).
  { apply IH. intros i Hi. destruct (Hf i ltac:(lia)) as (c & Hc & Hrc). exists c. split; [|done].
    simpl. by rewrite !list_lookup_insert_ne by lia. }
  destruct Hnext as [h' E3]. exists h'.
  assert (Hb' : table (with_table (insert index b') h) !! index = Some b') by by apply list_lookup_insert_eq.
  pose proof Hr as (xs & Hd & _). destruct (denotes_live _ _ Hd) as [l ->].
  rewrite (sbind_some _ _ _ _ _ (on_bucket_live _ _ _ _ _ _ Hb E1)).
  rewrite (sbind_some _ _ _ _ _ (on_bucket_live _ _ _ _ _ _ Hb' E2)).
  cbn [mod_self sbind].
  rewrite (sbind_some _ _ _ _ _ E3). destruct d; by rewrite ?fmap_app.
Qed.

Lemma ht_destroy_spec (d : bool) o sz al :
  table_repr o sz al ->
  exists items, esif_ht_destroy d o = Some (items, Freed) /\
    items ≡ₚ (if d then item_ptr <$> al else []).
Proof.
  intros (h & -> & [Hsz Hpos Hlen Hch]).
  destruct (destroy_table_loop_spec d (fun i => filter (in_chain sz i) al) (Z.to_nat sz) 0 h) as [h' E].
  { intros i Hi. destruct (lookup_lt_is_Some_2 (table h) i) as [b Hb]; [lia|].
    exists b. split; [done|]. right. by apply Hch. }
  eexists. split.
  - unfold esif_ht_destroy. rewrite (sbind_some is_null _ _ false (Live h)) by done.
    rewrite (sbind_some get_self _ _ h (Live h)), Hsz by done. by rewrite (sbind_some _ _ _ _ _ E).
  - destruct d; [|done]. by rewrite chains_partition.
Qed.

Lemma create_loop_spec mem_list n index h :
  size h = Z.of_nat (index + n) -> length (table h) = index + n ->
  (forall i, i < index -> exists b, table h !! i = Some b /\ chain_repr b []) ->
  (forall i, index <= i < index + n -> table h !! i = Some Null) ->
  if forallb mem_list (seq index n) then
    exists h', create_loop n index mem_list (Live h) = Some (true, Live h') /\
      size h' = size h /\ length (table h') = length (table h) /\
      (forall i b, table h' !! i = Some b -> chain_repr b [])
  else create_loop n index mem_list (Live h) = Some (false, Freed).
Proof.
  revert index h. induction n as [|n IH]; intros index h Hsz Hlen Hlo Hhi.
  { exists h. split; [done|split; [done|split; [done|]]]. intros i b Hb.
    destruct (Hlo i) as (c & Hc & Hr); [apply lookup_lt_Some in Hb; lia|]. by simplify_eq. }
  set (h1 := with_table (insert index (api_create (mem_list index))) h).
  assert (H1 : table h1 !! index = Some (api_create (mem_list index))).
  { simpl. apply list_lookup_insert_eq. lia. }
  cbn [create_loop seq forallb]. rewrite (sbind_some _ _ _ tt (Live h1)) by done.
  rewrite (sbind_some get_self _ _ h1 (Live h1)), H1 by done.
  destruct (mem_list index); cbn [andb].
  - destruct (denotes_live _ _ denotes_create) as [l El].
    assert (Hc : chain_repr (api_create true) []) by (exists []; split; [apply denotes_create|done]).
    assert (Hlen1 : length (table h1) = length (table h)) by apply length_insert.
    rewrite El in *. rewrite <- Hlen1. apply (IH (S index) h1); [simpl; lia|lia| |].
    + intros i Hi. destruct (decide (i = index)) as [->|Hne]; [by eexists|].
      simpl. rewrite list_lookup_insert_ne by done. apply Hlo. lia.
    + intros i Hi. simpl. rewrite list_lookup_insert_ne by lia. apply Hhi. lia.
  - rewrite create_fails. unfold esif_ht_destroy.
    destruct (destroy_table_loop_spec false (fun _ => []) (Z.to_nat (size h1)) 0 h1) as [h2 E].
    { intros i Hi. simpl in *. destruct (decide (i < index)) as [Hlt|Hge].
      - destruct (Hlo i Hlt) as (b & Hb & Hr). exists b. rewrite list_lookup_insert_ne by lia.
        split; [done|by right].
      - exists Null. split; [|by left]. destruct (decide (i = index)) as [->|Hne].
        + by rewrite list_lookup_insert_eq, create_fails by lia.
        + rewrite list_lookup_insert_ne by done. apply Hhi. lia. }
    rewrite (sbind_some _ _ _ [] Freed); [done|].
    rewrite (sbind_some is_null _ _ false (Live h1)) by done.
    rewrite (sbind_some get_self _ _ h1 (Live h1)) by done. by rewrite (sbind_some _ _ _ _ _ E).
Qed.

Lemma ht_create_spec (m1 m2 : bool) mem_list sz :
  (0 < sz)%Z ->
  if m1 && m2 && forallb mem_list (seq 0 (Z.to_nat sz)) then
    table_repr (esif_ht_create m1 m2 mem_list sz) sz []
  else esif_ht_create m1 m2 mem_list sz = Null.
Proof.
  intros Hsz. destruct m1; [|done]. destruct m2; [|done]. cbn [andb]. unfold esif_ht_create.
  pose proof (create_loop_spec mem_list (Z.to_nat sz) 0 (mk_ht sz (replicate (Z.to_nat sz) Null))) as H.
  cbn [table size] in H.
  rewrite length_replicate in H. specialize (H ltac:(simpl; lia) ltac:(simpl; lia) ltac:(lia)).
  specialize (H ltac:(intros i Hi; apply lookup_replicate_2; lia)). destruct (forallb _ _).
  - destruct H as (h' & -> & Hs & Hl & Hc). exists h'. by split.
  - by rewrite H.
Qed.
End HtLifecycle.

(* ------------------------------------------------------------------ *)
(** ** Clients *)

Section Scripts.
Context {I L : Type} {api : ListApi (ht_node I) L} {laws : ListLaws (ht_node I) L}.

(** A client's calls, with the outcomes of the allocations an insertion makes
    (node, key copy, list node) and a key that may be NULL. *)
Inductive ht_op : Type :=
  | HtAdd (mem_node mem_key mem_ll : bool) (k : option key) (item : option I)
  | HtRemove (k : option key)
  | HtGet (k : option key).

Inductive ht_result : Type :=
  | RcResult (rc : Z)
  | ItemResult (item : option I).

Definition ht_call (op : ht_op) : SM (obj (ht L)) ht_result :=
  match op with
  | HtAdd m1 m2 m3 k item => let! rc := esif_ht_add_item m1 m2 m3 k item in sret (RcResult rc)
  | HtRemove k => let! rc := esif_ht_remove_item k in sret (RcResult rc)
  | HtGet k => let! item := esif_ht_get_item k in sret (ItemResult item)
  end.

Fixpoint ht_script (ops : list ht_op) : SM (obj (ht L)) (list ht_result) :=
  match ops with
  | [] => sret []
  | op :: ops' => let! r := ht_call op in let! rs := ht_script ops' in sret (r :: rs)
  end.

(** The same calls on the abstract table. *)
Definition assoc_call (op : ht_op) (al : list (ht_node I)) : ht_result * list (ht_node I) :=
  match op with
  | HtAdd _ _ _ None _ | HtRemove None => (RcResult ESIF_E_PARAMETER_IS_NULL, al)
  | HtGet None => (ItemResult None, al)
  | HtAdd m1 m2 m3 (Some k) item =>
      if m1 && m2 && m3 then (RcResult ESIF_OK, al ++ [mk_ht_node k item])
      else (RcResult ESIF_E_NO_MEMORY, al)
  | HtRemove (Some k) =>
      match lookup_first k al with
      | Some _ => (RcResult ESIF_OK, remove_first k al)
      | None => (RcResult ESIF_E_NOT_FOUND, al)
      end
  | HtGet (Some k) =>
      (ItemResult (match lookup_first k al with Some n => item_ptr n | None => None end), al)
  end.

Fixpoint assoc_script (ops : list ht_op) (al : list (ht_node I)) : list ht_result * list (ht_node I) :=
  match ops with
  | [] => ([], al)
  | op :: ops' =>
      let '(r, al1) := assoc_call op al in
      let '(rs, al2) := assoc_script ops' al1 in (r :: rs, al2)
  end.

Lemma ht_call_refines op o sz al :
  table_repr o sz al ->
  exists o', ht_call op o = Some ((assoc_call op al).1, o') /\ table_repr o' sz (assoc_call op al).2.
Proof.
  intros Ho. pose proof Ho as (h & Eh & _).
  destruct op as [m1 m2 m3 [k|] item|[k|]|[k|]]; unfold ht_call; cbn [assoc_call];
    try (exists o; subst; done).
  - pose proof (add_item_spec m1 m2 m3 o sz al k item Ho) as H. destruct (m1 && m2 && m3).
    + destruct H as (o' & E & Ho'). exists o'. by rewrite (sbind_some _ _ _ _ _ E).
    + exists o. by rewrite (sbind_some _ _ _ _ _ H).
  - pose proof (remove_item_spec o sz al k Ho) as H. destruct (lookup_first k al).
    + destruct H as (o' & E & Ho'). exists o'. by rewrite (sbind_some _ _ _ _ _ E).
    + exists o. by rewrite (sbind_some _ _ _ _ _ H).
  - exists o. by rewrite (sbind_some _ _ _ _ _ (get_item_spec o sz al k Ho)).
Qed.

Lemma ht_script_refines ops o sz al :
  table_repr o sz al ->
  exists o', ht_script ops o = Some ((assoc_script ops al).1, o') /\
    table_repr o' sz (assoc_script ops al).2.
Proof.
  revert o al. induction ops as [|op ops IH]; intros o al Ho; [by exists o|].
  destruct (ht_call_refines op o sz al Ho) as (o1 & E1 & Ho1). cbn [ht_script assoc_script].
  destruct (assoc_call op al) as [r al1]. simpl in E1, Ho1.
  destruct (IH o1 al1 Ho1) as (o2 & E2 & Ho2). destruct (assoc_script ops al1) as [rs al2].
  exists o2. by rewrite (sbind_some _ _ _ _ _ E1), (sbind_some _ _ _ _ _ E2).
Qed.
End Scripts.
Arguments ht_op I : clear implicits.
Arguments ht_result I : clear implicits.

(** C40: A freshly created table of any positive size behaves, on every sequence
    of insertions, removals and lookups (failed allocations and NULL keys
    included), as the list of its nodes in insertion order in which a key
    means its oldest node: the answers do not depend on the size or on which
    keys collide, and no call has undefined behaviour. *)
Theorem hash_table_refines_assoc (I L : Type) (api : ListApi (ht_node I) L)
    (laws : ListLaws (ht_node I) L) (sz : Z) (Hsz : (0 < sz < 2 ^ 32)%Z) (ops : list (ht_op I)) :
  exists o', ht_script ops (esif_ht_create true true (fun _ => true) sz) =
    Some ((assoc_script ops []).1, o').
Proof.
  pose proof (ht_create_spec (L := L) true true (fun _ => true) sz ltac:(lia)) as Hc.
  rewrite (proj2 (forallb_forall _ _)) in Hc by done.
  destruct (ht_script_refines ops _ _ _ Hc) as (o' & E & _). by exists o'.
Qed.

(** Destroying a table after any such sequence hands every item still in it
    to the destroy callback exactly once and frees the table; creation is
    atomic: when any of its allocations fails, everything allocated so far is
    released and NULL is returned. *)
Theorem hash_table_lifecycle (I L : Type) (api : ListApi (ht_node I) L)
    (laws : ListLaws (ht_node I) L) (sz : Z) (Hsz : (0 < sz < 2 ^ 32)%Z) :
  (forall ops : list (ht_op I), exists rs o' items,
     ht_script ops (esif_ht_create true true (fun _ => true) sz) = Some (rs, o') /\
     esif_ht_destroy true o' = Some (items, Freed) /\
     items ≡ₚ item_ptr <$> (assoc_script ops []).2) /\
  (forall m1 m2 mem_list, m1 && m2 && forallb mem_list (seq 0 (Z.to_nat sz)) = false ->
     esif_ht_create (L := L) m1 m2 mem_list sz = Null).
Proof.
  split.
  - intros ops. pose proof (ht_create_spec (L := L) true true (fun _ => true) sz ltac:(lia)) as Hc.
    rewrite (proj2 (forallb_forall _ _)) in Hc by done.
    destruct (ht_script_refines ops _ _ _ Hc) as (o' & E & Ho).
    destruct (ht_destroy_spec true _ _ _ Ho) as (items & Ed & Hp). by exists (assoc_script ops []).1, o', items.
  - intros m1 m2 ml Hf. pose proof (ht_create_spec (L := L) m1 m2 ml sz ltac:(lia)) as Hc.
    by rewrite Hf in Hc.
Qed.

Module HtDemo.
Definition k1 : key := [1; 2]%Z.
Definition k2 : key := [7]%Z.
Definition ops : list (ht_op nat) :=
  [HtAdd true true true (Some k1) (Some 10); HtAdd true true true (Some k2) (Some 20);
   HtAdd true true true (Some k1) (Some 30); HtAdd true false true (Some k2) (Some 40);
   HtGet (Some k1); HtRemove (Some k1); HtGet (Some k1); HtGet (Some k2); HtRemove (Some [9%Z]);
   HtGet None].
End HtDemo.

Lemma hash_table_refines_assoc_witness :
  (assoc_script HtDemo.ops []).1 =
    [RcResult 0%Z; RcResult 0%Z; RcResult 0%Z; RcResult ESIF_E_NO_MEMORY; ItemResult (Some 10);
     RcResult 0%Z; ItemResult (Some 30); ItemResult (Some 20); RcResult ESIF_E_NOT_FOUND;
     ItemResult None] /\
  exists o', ht_script HtDemo.ops (esif_ht_create (L := llist (ht_node nat)) true true (fun _ => true) 1) =
    Some ((assoc_script HtDemo.ops []).1, o').
Proof.
  split; [reflexivity|].
  apply (hash_table_refines_assoc nat (llist (ht_node nat)) _ _ 1%Z ltac:(lia) HtDemo.ops).
Defined.

Lemma hash_table_lifecycle_witness :
  exists rs o' items,
    ht_script HtDemo.ops (esif_ht_create (L := llist (ht_node nat)) true true (fun _ => true) 3) = Some (rs, o') /\
    esif_ht_destroy true o' = Some (items, Freed) /\
    items ≡ₚ [Some 20; Some 30].
Proof.
  apply (hash_table_lifecycle nat (llist (ht_node nat)) _ _ 3%Z ltac:(lia)).
Defined.
