(* ===== verification/PrimitiveType.v ===== *)
(** * Primitive numbers: ESIF/Products/ESIF_UF/Sources/esif_uf_primitive_type.h

    The table that associates each SET primitive with its GET primitive, its
    inverse, and the binary searches over them.  The numbers are those of
    [enum esif_primitive_type] (Common/esif_sdk_primitive_type.h). *)

From S2P Require Import Prelude.
From stdpp Require Import list sorting.
Local Open Scope Z_scope.

Definition SET_PERF_PREFERENCE_MAX : Z := 797.
Definition SET_PERF_PREFERENCE_MIN : Z := 799.
Definition SET_PLATFORM_POWER_LIMIT : Z := 334.
Definition SET_PLATFORM_POWER_LIMIT_ENABLE : Z := 335.
Definition SET_PLATFORM_POWER_LIMIT_TIME_WINDOW : Z := 336.
Definition SET_PROC_NUMBER_OFFLINE_CORES : Z := 153.
Definition SET_RAPL_POWER_LIMIT : Z := 130.
Definition SET_RAPL_POWER_LIMIT_DUTY_CYCLE : Z := 342.
Definition SET_RAPL_POWER_LIMIT_ENABLE : Z := 222.
Definition SET_RAPL_POWER_LIMIT_TIME_WINDOW : Z := 340.
Definition SET_TCC_OFFSET : Z := 478.
Definition SET_FAN_LEVEL : Z := 87.

Definition set2get_map : list (Z * Z) := [
  (47, 143); (130, 38); (163, 157); (202, 1); (203, 13); (204, 12); (205, 177); (206, 11);
  (222, 126); (229, 228); (232, 15); (241, 14); (275, 55); (276, 61); (301, 300); (329, 159);
  (330, 160); (334, 331); (335, 332); (336, 333); (338, 337); (340, 339); (342, 341); (343, 76);
  (355, 356); (382, 291); (383, 294); (397, 396); (399, 398); (401, 400); (403, 402); (405, 404);
  (413, 412); (415, 414); (417, 416); (419, 418); (421, 420); (437, 298); (438, 296); (448, 447);
  (452, 451); (455, 35); (457, 456); (459, 458); (461, 460); (467, 466); (469, 468); (471, 470);
  (473, 472); (474, 443); (476, 128); (478, 477); (480, 479); (489, 482); (493, 486); (506, 505);
  (512, 511); (514, 513); (516, 515); (523, 522); (525, 524); (528, 527); (529, 530); (532, 531);
  (533, 436); (539, 537); (540, 538); (542, 541); (557, 556); (559, 558); (561, 560); (563, 562);
  (565, 564); (567, 566); (569, 568); (571, 570); (655, 654); (662, 660); (668, 667); (670, 671);
  (718, 686); (725, 724); (734, 733); (738, 737); (740, 739); (743, 742); (750, 747); (751, 748);
  (777, 776); (780, 779); (782, 781); (784, 783); (786, 785); (797, 793); (799, 795); (810, 801);
  (811, 802); (814, 806); (819, 815); (820, 817); (822, 821); (834, 833); (839, 838); (877, 874);
  (879, 875); (882, 22); (884, 139); (889, 887); (906, 902); (907, 903); (908, 904); (909, 905);
  (914, 913); (916, 915); (932, 924); (933, 925); (934, 926); (935, 927); (936, 928); (942, 941);
  (948, 947); (951, 950); (971, 920); (972, 911)]%Z.

Definition get2set_map : list (Z * Z) := [
  (1, 202); (11, 206); (12, 204); (13, 203); (14, 241); (15, 232); (22, 882); (35, 455);
  (38, 130); (55, 275); (61, 276); (76, 343); (126, 222); (128, 476); (139, 884); (143, 47);
  (157, 163); (159, 329); (160, 330); (177, 205); (228, 229); (291, 382); (294, 383); (296, 438);
  (298, 437); (300, 301); (331, 334); (332, 335); (333, 336); (337, 338); (339, 340); (341, 342);
  (356, 355); (396, 397); (398, 399); (400, 401); (402, 403); (404, 405); (412, 413); (414, 415);
  (416, 417); (418, 419); (420, 421); (436, 533); (443, 474); (447, 448); (451, 452); (456, 457);
  (458, 459); (460, 461); (466, 467); (468, 469); (470, 471); (472, 473); (477, 478); (479, 480);
  (482, 489); (486, 493); (505, 506); (511, 512); (513, 514); (515, 516); (522, 523); (524, 525);
  (527, 528); (530, 529); (531, 532); (537, 539); (538, 540); (541, 542); (556, 557); (558, 559);
  (560, 561); (562, 563); (564, 565); (566, 567); (568, 569); (570, 571); (654, 655); (660, 662);
  (667, 668); (671, 670); (686, 718); (724, 725); (733, 734); (737, 738); (739, 740); (742, 743);
  (747, 750); (748, 751); (776, 777); (779, 780); (781, 782); (783, 784); (785, 786); (793, 797);
  (795, 799); (801, 810); (802, 811); (806, 814); (815, 819); (817, 820); (821, 822); (833, 834);
  (838, 839); (874, 877); (875, 879); (887, 889); (902, 906); (903, 907); (904, 908); (905, 909);
  (911, 972); (913, 914); (915, 916); (920, 971); (924, 932); (925, 933); (926, 934); (927, 935);
  (928, 936); (941, 942); (947, 948); (950, 951)]%Z.

(** The search loop: [start], [last] and [node] are the code's three indices.
    There is no outcome when an index leaves the table. *)
Fixpoint search_loop (fuel : nat) (tbl : list (Z * Z)) (type start last node : Z) : option Z :=
  match fuel with
  | O => None
  | S fuel' =>
      if start <=? last then
        match tbl !! Z.to_nat node with
        | None => None
        | Some (k, v) =>
            let comp := if type <? k then -1 else if k <? type then 1 else 0 in
            if comp =? 0 then Some v
            else if 0 <? comp then
              let start' := node + 1 in
              search_loop fuel' tbl type start' last ((last - start') / 2 + start')
            else
              let last' := node - 1 in
              search_loop fuel' tbl type start last' ((last' - start) / 2 + start)
        end
      else Some 0
  end.

Definition search (tbl : list (Z * Z)) (type : Z) : option Z :=
  let n := Z.of_nat (length tbl) in
  search_loop (S (length tbl)) tbl type 0 (n - 1) (n / 2).

Definition esif_primitive_type_set2get (type : Z) : option Z := search set2get_map type.
Definition esif_primitive_type_get2set (type : Z) : option Z := search get2set_map type.

(* ------------------------------------------------------------------ *)
(** ** Correctness of the search *)

Fixpoint assoc_or_0 (type : Z) (tbl : list (Z * Z)) : Z :=
  match tbl with
  | [] => 0
  | (k, v) :: tbl' => if k =? type then v else assoc_or_0 type tbl'
  end.

(** A table whose keys increase strictly. *)
Definition keys_increase (tbl : list (Z * Z)) : Prop :=
  forall i j k1 v1 k2 v2, (i < j)%nat -> tbl !! i = Some (k1, v1) -> tbl !! j = Some (k2, v2) -> k1 < k2.

Lemma assoc_hit tbl i k v : keys_increase tbl -> tbl !! i = Some (k, v) -> assoc_or_0 k tbl = v.
Proof.
  revert i. induction tbl as [|[k' v'] tbl IH]; intros i Hs Hi; [done|]. simpl.
  destruct i as [|i]; simplify_eq/=.
  - by rewrite Z.eqb_refl.
  - pose proof (Hs 0%nat (S i) k' v' k v ltac:(lia) eq_refl Hi).
    rewrite (proj2 (Z.eqb_neq _ _)) by lia. apply (IH i); [|done].
    intros a b k1 v1 k2 v2 Hab. apply (Hs (S a) (S b)). lia.
Qed.

Lemma assoc_miss tbl type :
  (forall i k v, tbl !! i = Some (k, v) -> k <> type) -> assoc_or_0 type tbl = 0.
Proof.
  induction tbl as [|[k v] tbl IH]; intros H; [done|]. simpl.
  rewrite (proj2 (Z.eqb_neq _ _)) by apply (H 0%nat _ _ eq_refl).
  apply IH. intros i k' v' Hi. by apply (H (S i) k' v').
Qed.

Lemma search_loop_spec fuel tbl type start last node :
  keys_increase tbl ->
  0 <= start -> last < Z.of_nat (length tbl) -> start <= last + 1 ->
  (start <= last -> start <= node <= last) ->
  last - start + 1 < Z.of_nat fuel ->
  (forall i k v, tbl !! i = Some (k, v) -> Z.of_nat i < start -> k < type) ->
  (forall i k v, tbl !! i = Some (k, v) -> last < Z.of_nat i -> type < k) ->
  search_loop fuel tbl type start last node = Some (assoc_or_0 type tbl).
Proof.
  intros Hs. revert start last node.
  induction fuel as [|fuel IH]; intros start last node H0 Hl Hsl Hn Hf Hlo Hhi; [lia|].
  cbn [search_loop]. destruct (Z.leb_spec start last) as [Hle|Hgt].
  - specialize (Hn Hle).
    destruct (lookup_lt_is_Some_2 tbl (Z.to_nat node)) as [[k v] Hkv]; [lia|]. rewrite Hkv.
    destruct (Z.ltb_spec type k) as [Hlt|Hge]; simpl.
    + pose proof (Z.div_pos (node - 1 - start) 2). pose proof (Z.div_le_upper_bound (node - 1 - start) 2 (node - 1 - start)).
      apply IH; try lia; [done|].
      intros i k2 v2 Hi Hni. destruct (decide (i = Z.to_nat node)) as [->|Hne]; [by simplify_eq|].
      etrans; [done|]. apply (Hs (Z.to_nat node) i _ v _ v2); [lia|done|done].
    + destruct (Z.ltb_spec k type) as [Hlt'|Hge']; simpl.
      * pose proof (Z.div_pos (last - (node + 1)) 2).
        pose proof (Z.div_le_upper_bound (last - (node + 1)) 2 (last - (node + 1))).
        apply IH; try lia; [|done].
        intros i k2 v2 Hi Hni. destruct (decide (i = Z.to_nat node)) as [->|Hne]; [by simplify_eq|].
        etrans; [|done]. apply (Hs i (Z.to_nat node) _ v2 _ v); [lia|done|done].
      * assert (type = k) as -> by lia. by rewrite (assoc_hit _ _ _ _ Hs Hkv).
  - rewrite assoc_miss; [done|]. intros i k v Hi.
    destruct (decide (Z.of_nat i < start)); [specialize (Hlo _ _ _ Hi) | specialize (Hhi _ _ _ Hi)]; lia.
Qed.

Lemma search_spec tbl type : keys_increase tbl -> tbl <> [] -> search tbl type = Some (assoc_or_0 type tbl).
Proof.
  intros Hs Hne. assert (0 < Z.of_nat (length tbl)) by (destruct tbl; [done|simpl; lia]).
  pose proof (Z.div_lt (Z.of_nat (length tbl)) 2). pose proof (Z.div_pos (Z.of_nat (length tbl)) 2).
  apply search_loop_spec; try done; try lia.
  intros i k v Hi%lookup_lt_Some. lia.
Qed.

(** A decidable form of the order, to evaluate on the tables. *)
Fixpoint increasing (tbl : list (Z * Z)) : bool :=
  match tbl with
  | (k1, _) :: (((k2, _) :: _) as tbl') => (k1 <? k2) && increasing tbl'
  | _ => true
  end.

Lemma increasing_keys tbl : increasing tbl = true -> keys_increase tbl.
Proof.
  induction tbl as [|[k v] tbl IH]; intros H i j k1 v1 k2 v2 Hij Hi Hj; [done|].
  destruct j as [|j]; [lia|]. simpl in Hj.
  destruct tbl as [|[k' v'] tbl]; [done|]. simpl in H. apply andb_true_iff in H as [Hk H%IH].
  apply Z.ltb_lt in Hk. destruct i as [|i]; simplify_eq/=.
  - destruct j as [|j]; simplify_eq/=; [done|]. specialize (H 0%nat (S j) _ _ _ _ ltac:(lia) eq_refl Hj). lia.
  - apply (H i j k1 v1 k2 v2); [lia|done|done].
Qed.

Lemma set2get_total type : esif_primitive_type_set2get type = Some (assoc_or_0 type set2get_map).
Proof. apply search_spec; [apply increasing_keys; by vm_compute|done]. Qed.

(** The two lookups are total, answer exactly as the association tables do
    (0 for a primitive without a counterpart), and are inverse to each other
    on every primitive that occurs in the tables. *)
Theorem set2get_get2set_inverse :
  (forall type, esif_primitive_type_set2get type = Some (assoc_or_0 type set2get_map)) /\
  (forall type, esif_primitive_type_get2set type = Some (assoc_or_0 type get2set_map)) /\
  (forall s g, (s, g) ∈ set2get_map ->
     esif_primitive_type_set2get s = Some g /\ esif_primitive_type_get2set g = Some s).
Proof.
  assert (H1 : keys_increase set2get_map) by (apply increasing_keys; by vm_compute).
  assert (H2 : keys_increase get2set_map) by (apply increasing_keys; by vm_compute).
  assert (E1 : forall type, esif_primitive_type_set2get type = Some (assoc_or_0 type set2get_map)) by (intros; by apply search_spec).
  assert (E2 : forall type, esif_primitive_type_get2set type = Some (assoc_or_0 type get2set_map)) by (intros; by apply search_spec).
  split; [exact E1|split; [exact E2|]]. intros s g Hin. rewrite E1, E2.
  assert (Hall : Forall (fun p => assoc_or_0 p.1 set2get_map = p.2 /\ assoc_or_0 p.2 get2set_map = p.1) set2get_map).
  { eapply bool_decide_unpack. vm_compute. exact I. }
  pose proof (proj1 (Forall_forall _ _) Hall _ Hin) as [Ha Hb]. simpl fst in *. simpl snd in *.
  rewrite Ha, Hb. by split.
Qed.
