(* ===== verification/EsifData.v ===== *)
(** * Data buffers: ESIF/Products/ESIF_LIB/Sources/esif_lib_esifdata.c

    [struct esif_data] describes a typed buffer: its block of memory (or NULL),
    the size its owner claims for the block and the size of the contents.  The
    block is the list of its bytes, so that an access past its end is visible:
    it has no outcome ([None]).  Integers are stored little-endian. *)

From S2P Require Import Prelude.
From stdpp Require Import list.
Local Open Scope Z_scope.

Record EsifData : Type := mk_EsifData {
  type : Z;
  buf_ptr : option (list Z);
  buf_len : Z;
  data_len : Z
}.

(** Reading and writing an [UInt32] at the start of a block. *)
Definition read_u32 (block : list Z) : option Z :=
  match block with
  | b0 :: b1 :: b2 :: b3 :: _ => Some (b0 + 256 * b1 + 65536 * b2 + 16777216 * b3)
  | _ => None
  end.

Definition write_u32 (v : Z) (block : list Z) : option (list Z) :=
  match block with
  | _ :: _ :: _ :: _ :: rest =>
      Some (u8 v :: u8 (v / 256) :: u8 (v / 65536) :: u8 (v / 16777216) :: rest)
  | _ => None
  end.

(** [esif_data_type_sizeof] of Common/esif_sdk_data_type.h. *)
Definition esif_data_type_sizeof (t : Z) : Z :=
  if bool_decide (t ∈ [41; 39; 19; 13; 16; 29; 26; 6; 31; 3]) then 4
  else if bool_decide (t ∈ [40; 14; 18; 15; 4]) then 8
  else if bool_decide (t ∈ [5; 17]) then 16
  else if bool_decide (t ∈ [30; 12; 28; 2]) then 2
  else if bool_decide (t ∈ [11; 1]) then 1
  else 0.

(** [*clonePtr = *self] and then a private copy of the contents.  [mem_self] and
    [mem_buf] are the outcomes of the two allocations; [malloc] zeroes. *)
Definition EsifData_Clone (mem_self mem_buf : bool) (self : option EsifData) :
    option (option EsifData) :=
  match self with
  | None => Some None
  | Some d =>
      if mem_self then
        match buf_ptr d with
        | None => Some (Some (mk_EsifData (type d) None (buf_len d) (data_len d)))
        | Some block =>
            let len := if buf_len d >=? data_len d then buf_len d else data_len d in
            if len =? 0 then Some (Some (mk_EsifData (type d) None (buf_len d) (data_len d)))
            else if mem_buf then
              if data_len d <=? Z.of_nat (length block) then
                Some (Some (mk_EsifData (type d)
                  (Some (take (Z.to_nat (data_len d)) block ++
                         replicate (Z.to_nat (len - data_len d)) 0))
                  len (data_len d)))
              else None
            else Some None
        end
      else Some None
  end.

(* ------------------------------------------------------------------ *)
(** ** Well-formed buffers *)

Definition is_byte (b : Z) : Prop := 0 <= b < 256.

(** What a caller must respect: the sizes are machine words and the block is
    at least as large as it says.  [exact] buffers own exactly what they say. *)
Record data_ok (d : EsifData) : Prop := {
  ok_buf_len : 0 <= buf_len d < 2 ^ 32;
  ok_data_len : 0 <= data_len d < 2 ^ 32;
  ok_block : forall b, buf_ptr d = Some b ->
    Forall is_byte b /\ buf_len d <= Z.of_nat (length b) /\ data_len d <= Z.of_nat (length b)
}.

(** The 32-bit value of a buffer, when it has one. *)
Definition value_of (d : EsifData) : option Z :=
  match buf_ptr d with
  | Some b => if buf_len d >=? 4 then read_u32 b else None
  | None => None
  end.

Lemma read_u32_some b : 4 <= Z.of_nat (length b) -> exists v, read_u32 b = Some v.
Proof. intros H. destruct b as [|b0 [|b1 [|b2 [|b3 b]]]]; simpl in H; try lia. eauto. Qed.

Lemma read_u32_range b v : Forall is_byte b -> read_u32 b = Some v -> 0 <= v < 2 ^ 32.
Proof.
  intros Hb Hv. destruct b as [|b0 [|b1 [|b2 [|b3 b]]]]; simplify_eq/=.
  rewrite !Forall_cons in Hb. unfold is_byte in Hb. lia.
Qed.

Lemma value_of_range d v : data_ok d -> value_of d = Some v -> 0 <= v < 2 ^ 32.
Proof.
  intros [_ _ Hb]. unfold value_of. destruct (buf_ptr d) as [b|]; [|done].
  destruct (buf_len d >=? 4); [|done]. by apply read_u32_range, Hb.
Qed.

Lemma write_read v b b' : 0 <= v < 2 ^ 32 -> write_u32 v b = Some b' -> read_u32 b' = Some v.
Proof.
  intros Hv Hb. destruct b as [|b0 [|b1 [|b2 [|b3 b]]]]; simplify_eq/=. f_equal. unfold wrap.
  pose proof (Z.div_mod v 256). pose proof (Z.div_mod (v / 256) 256).
  pose proof (Z.div_mod (v / 65536) 256). pose proof (Z.mod_small (v / 16777216) 256).
  rewrite !Z.div_div in * by lia. change (256 * 256) with 65536 in *. change (65536 * 256) with 16777216 in *.
  assert (0 <= v / 16777216 < 256) by (split; [apply Z.div_pos|apply Z.div_lt_upper_bound]; lia).
  change (2 ^ 8) with 256. lia.
Qed.

Lemma write_u32_some v b : 4 <= Z.of_nat (length b) ->
  exists b', write_u32 v b = Some b' /\ length b' = length b /\ (Forall is_byte b -> Forall is_byte b').
Proof.
  intros H. destruct b as [|b0 [|b1 [|b2 [|b3 b]]]]; simpl in H; try lia.
  eexists. split; [done|split; [done|]]. rewrite !Forall_cons. intros (_ & _ & _ & _ & Hb).
  pose proof (wrap_in_range 8 v). pose proof (wrap_in_range 8 (v / 256)).
  pose proof (wrap_in_range 8 (v / 65536)). pose proof (wrap_in_range 8 (v / 16777216)).
  unfold in_range, is_byte in *. split_and!; try lia. done.
Qed.

(** The first four bytes of a clone: those of the source that are contents,
    zeros beyond. *)
Definition clone_value (d : EsifData) : option Z :=
  match buf_ptr d with
  | Some b =>
      if Z.max (buf_len d) (data_len d) >=? 4 then
        read_u32 (take (Z.to_nat (data_len d)) b ++ replicate (Z.to_nat (buf_len d - data_len d)) 0)
      else None
  | None => None
  end.

Lemma geb_max a b : (if a >=? b then a else b) = Z.max a b.
Proof. rewrite Z.geb_leb. destruct (Z.leb_spec b a); lia. Qed.

Lemma clone_spec (m1 m2 : bool) d :
  data_ok d ->
  exists r, EsifData_Clone m1 m2 (Some d) = Some r /\
    (m1 = true -> m2 = true -> r <> None) /\
    forall c, r = Some c -> data_ok c /\ type c = type d /\ data_len c = data_len d /\ value_of c = clone_value d.
Proof.
  intros [H1 H2 H3]. unfold EsifData_Clone, clone_value, value_of. destruct m1; [|by exists None].
  destruct (buf_ptr d) as [b|] eqn:Eb; cycle 1.
  { eexists. split; [done|split; [done|]]. by intros c [= <-]. }
  destruct (H3 b eq_refl) as (Hb & Hl1 & Hl2). rewrite geb_max.
  destruct (Z.eqb_spec (Z.max (buf_len d) (data_len d)) 0) as [E|E].
  { eexists. split; [done|split; [done|]]. intros c [= <-]. split; [by split|]. simpl. split_and!; try done.
    by rewrite E. }
  destruct m2; [|by exists None]. rewrite (proj2 (Z.leb_le _ _)) by done.
  eexists. split; [done|split; [done|]]. intros c [= <-]. simpl.
  assert (E1 : Z.to_nat (Z.max (buf_len d) (data_len d) - data_len d) = Z.to_nat (buf_len d - data_len d)) by lia.
  rewrite E1. split; [|done]. split; simpl; try lia. intros c [= <-].
  rewrite length_app, length_take, length_replicate. split; [|lia].
  apply Forall_app. split; [by apply Forall_take|]. apply Forall_replicate. unfold is_byte. lia.
Qed.

(** The clone when memory is available. *)
Definition clone_of (d : EsifData) : EsifData :=
  match EsifData_Clone true true (Some d) with Some (Some c) => c | _ => d end.

Lemma clone_of_spec d :
  data_ok d ->
  EsifData_Clone true true (Some d) = Some (Some (clone_of d)) /\ data_ok (clone_of d) /\
  type (clone_of d) = type d /\ data_len (clone_of d) = data_len d /\ value_of (clone_of d) = clone_value d.
Proof.
  intros Hd. destruct (clone_spec true true d Hd) as (r & E & Hn & Hc). unfold clone_of. rewrite E.
  destruct r as [c|]; [|by destruct Hn]. split; [done|]. by apply Hc.
Qed.

(** Contents that hold a full 32-bit value: such a value survives cloning. *)
Definition full (d : EsifData) : Prop := data_ok d /\ 4 <= data_len d /\ buf_ptr d <> None.

Definition content (d : EsifData) : option Z :=
  match buf_ptr d with Some b => read_u32 b | None => None end.

Lemma read_u32_take b n z : (4 <= n)%nat -> (4 <= length b)%nat -> read_u32 (take n b ++ z) = read_u32 b.
Proof.
  intros Hn Hb. destruct b as [|b0 [|b1 [|b2 [|b3 b]]]]; simpl in Hb; try lia.
  by destruct n as [|[|[|[|n]]]]; try lia.
Qed.

Lemma full_content d : full d -> exists v, content d = Some v /\ 0 <= v < 2 ^ 32.
Proof.
  intros (Hd & Hl & Hb). unfold content. destruct (buf_ptr d) as [b|] eqn:Eb; [|done].
  destruct (ok_block _ Hd b Eb) as (H1 & H2 & H3). destruct (read_u32_some b) as [v Hv]; [lia|].
  exists v. split; [done|]. by eapply read_u32_range.
Qed.

Lemma clone_full d : full d ->
  full (clone_of d) /\ value_of (clone_of d) = content d /\ content (clone_of d) = content d /\
  4 <= buf_len (clone_of d).
Proof.
  intros (Hd & Hl & Hb). pose proof (clone_of_spec d Hd) as (E & Hok & _ & Hlen & Hv).
  destruct (buf_ptr d) as [b|] eqn:Eb; [|done]. destruct (ok_block _ Hd b Eb) as (H1 & H2 & H3).
  assert (Hc : clone_value d = content d).
  { unfold clone_value, content. rewrite Eb, Z.geb_leb, (proj2 (Z.leb_le _ _)) by lia.
    apply read_u32_take; lia. }
  unfold full. rewrite Hlen, Hv, Hc.
  destruct (full_content d) as (v & Ev & _); [split; [done|split; [lia|by rewrite Eb]]|].
  rewrite Hc, Ev in Hv. unfold value_of in Hv.
  assert (Ecl : content (clone_of d) = match buf_ptr (clone_of d) with Some b => read_u32 b | None => None end) by done.
  rewrite Ecl. clear Ecl.
  destruct (buf_ptr (clone_of d)) as [cb|]; [|done]. rewrite Z.geb_leb in Hv.
  destruct (Z.leb_spec 4 (buf_len (clone_of d))); [|done]. rewrite Ev, Hv. by split_and!.
Qed.
