(* ===== verification/Base64.v ===== *)
(** * Base64: Common/esif_sdk_base64_enc.c and esif_sdk_base64_dec.c

    Bytes and characters are numbers below 256.  The encoder writes into the
    caller's buffer; the decoder first answers the size that it needs, and in a
    buffer of exactly that size decodes text that may have white space after each
    group of four characters. *)

From S2P Require Import Prelude CString.
From stdpp Require Import list strings.
Local Open Scope Z_scope.

(* ------------------------------------------------------------------ *)
(** ** The code *)

(** [size_t] arithmetic. *)
Definition BASE64_ENCODED_LENGTH (bytes : Z) : Z := u64 (u64 (u64 (bytes + 2) / 3 * 4) + 1).
Definition MAX_BASE64_ENCODED_LEN : Z := ((32 * 1024 * 1024 / 3 + 2) * 4 / 64 + 1) * 66.
Definition BASE64_DECODED_BUFFER_LEN (encoded_len : Z) : Z := u64 (u64 (encoded_len + 3) / 4 * 3).

Definition base64_asciimap : list Z := chars_of "ABCDEFGHIJKLMNOPQRSTUVWXYZabcdefghijklmnopqrstuvwxyz0123456789+/".
Definition PAD : Z := 61.
Definition char_of (v : Z) : Z := nth (Z.to_nat v) base64_asciimap 0.

(** The four characters of three bytes, and of the last two or the last one. *)
Definition block3 (a b c : Z) : list Z :=
  [char_of (Z.shiftr a 2);
   char_of (Z.land (Z.lor (Z.shiftl a 4) (Z.shiftr b 4)) 0x3F);
   char_of (Z.land (Z.lor (Z.shiftl b 2) (Z.shiftr c 6)) 0x3F);
   char_of (Z.land c 0x3F)].
Definition block2 (a b : Z) : list Z :=
  [char_of (Z.shiftr a 2);
   char_of (Z.land (Z.lor (Z.shiftl a 4) (Z.shiftr b 4)) 0x3F);
   char_of (Z.land (Z.shiftl b 2) 0x3F); PAD].
Definition block1 (a : Z) : list Z := [char_of (Z.shiftr a 2); char_of (Z.land (Z.shiftl a 4) 0x3F); PAD; PAD].

(** The loop takes three bytes at a time; the switch has what remains. *)
Fixpoint encode_bytes (data : list Z) : list Z :=
  match data with
  | a :: b :: c :: data => block3 a b c ++ encode_bytes data
  | [a; b] => block2 a b
  | [a] => block1 a
  | [] => []
  end.

(** Writing at the start of a buffer; past its end there is no outcome. *)
Definition write_front (buf out : list Z) : option (list Z) :=
  if decide (length out <= length buf)%nat then Some (out ++ drop (length out) buf) else None.

(** The result code and the target buffer; the source's length is that of its
    buffer. *)
Definition esif_base64_encode (target_str : option (list Z)) (target_len : Z) (source_buf : option (list Z)) (source_len : Z) : option (Z * option (list Z)) :=
  if MAX_BASE64_ENCODED_LEN <? BASE64_ENCODED_LENGTH source_len then Some (ESIF_E_PARAMETER_IS_OUT_OF_BOUNDS, target_str)
  else if target_len <? BASE64_ENCODED_LENGTH source_len then Some (ESIF_E_NEED_LARGER_BUFFER, target_str)
  else
    match source_buf, target_str with
    | Some src, Some dst =>
        if decide (Z.of_nat (length src) < source_len) then None
        else option_map (fun b => (ESIF_OK, Some b)) (write_front dst (encode_bytes (take (Z.to_nat source_len) src) ++ [0]))
    | _, _ => Some (ESIF_E_PARAMETER_IS_NULL, target_str)
    end.

Definition isalpha (c : Z) : bool := (65 <=? c) && (c <=? 90) || (97 <=? c) && (c <=? 122).
Definition isdigit (c : Z) : bool := (48 <=? c) && (c <=? 57).
Definition islower (c : Z) : bool := (97 <=? c) && (c <=? 122).
Definition BASE64_DECODED_ISVALID (c : Z) : bool := isalpha c || isdigit c || (c =? 43) || (c =? 47).
Definition BASE64_DECODED_BYTE (c : Z) : Z :=
  u8 (if c =? PAD then 0 else if c =? 47 then 0x3F else if c =? 43 then 0x3E else if isdigit c then c - 48 + 0x34 else if islower c then c - 97 + 0x1A else c - 65).
(** [strchr] also finds the terminator of the string of blanks. *)
Definition is_blank (c : Z) : bool := (c =? 13) || (c =? 10) || (c =? 9) || (c =? 32) || (c =? 0).

Definition char_at (buf : list Z) (i : Z) : option Z := if i <? 0 then None else buf !! Z.to_nat i.

(** The length without the blanks at the end, and their number. *)
Fixpoint strip_blanks (n : nat) (buf : list Z) (white : Z) : option (Z * Z) :=
  match n with
  | O => Some (0, white)
  | S m =>
      match char_at buf (Z.of_nat m) with
      | None => None
      | Some c => if is_blank c then strip_blanks m buf (white + 1) else Some (Z.of_nat n, white)
      end
  end.
(** The blanks after a group; [n] bounds the characters left. *)
Fixpoint skip_blanks (n : nat) (buf : list Z) (len j white : Z) : option (Z * Z) :=
  if j + 4 <? len then
    match char_at buf (j + 4), n with
    | Some c, S m => if is_blank c then skip_blanks m buf len (j + 1) (white + 1) else Some (j, white)
    | _, _ => None
    end
  else Some (j, white).

(** A group that is not four characters of the alphabet; the last two of the text may
    be padding. *)
Definition bad_group (len j c0 c1 c2 c3 : Z) : bool :=
  negb (BASE64_DECODED_ISVALID c0) || negb (BASE64_DECODED_ISVALID c1)
  || negb (BASE64_DECODED_ISVALID c2) && ((j + 2 <? len - 2) || negb (c2 =? PAD))
  || negb (BASE64_DECODED_ISVALID c3) && ((j + 3 <? len - 2) || negb (c3 =? PAD)).
Definition decode_group (c0 c1 c2 c3 : Z) : list Z :=
  let d0 := BASE64_DECODED_BYTE c0 in let d1 := BASE64_DECODED_BYTE c1 in let d2 := BASE64_DECODED_BYTE c2 in let d3 := BASE64_DECODED_BYTE c3 in
  [u8 (Z.lor (Z.shiftl (Z.land d0 0x3F) 2) (Z.shiftr (Z.land d1 0x30) 4));
   u8 (Z.lor (Z.shiftl (Z.land d1 0x0F) 4) (Z.shiftr (Z.land d2 0x3C) 2));
   u8 (Z.lor (Z.shiftl (Z.land d2 0x03) 6) (Z.land d3 0x3F))].
Definition pad_count (len j c2 c3 : Z) : Z :=
  if j + 4 =? len then (if c2 =? PAD then 1 else 0) + (if c3 =? PAD then 1 else 0) else 0.

(** [out] are the [k] bytes written so far; the guard keeps them in the buffer. *)
Fixpoint decode_loop (n : nat) (buf : list Z) (len target_len j padding white : Z) (out : list Z) : option (Z * Z * Z * list Z) :=
  if (j + 3 <? len) && (Z.of_nat (length out) + 2 <? target_len) then
    match n, char_at buf j, char_at buf (j + 1), char_at buf (j + 2), char_at buf (j + 3) with
    | S n, Some c0, Some c1, Some c2, Some c3 =>
        if bad_group len j c0 c1 c2 c3 then Some (j, padding, white, out)
        else
          match skip_blanks (Z.to_nat len) buf len j white with
          | Some (j', white') => decode_loop n buf len target_len (j' + 4) (padding + pad_count len j c2 c3) white' (out ++ decode_group c0 c1 c2 c3)
          | None => None
          end
    | _, _, _, _, _ => None
    end
  else Some (j, padding, white, out).

(** The result code, the length and the target buffer. *)
Definition esif_base64_decode (target_buf : option (list Z)) (target_len : option Z) (encoded_buf : option (list Z)) (encoded_len : Z) : option (Z * option Z * option (list Z)) :=
  if MAX_BASE64_ENCODED_LEN <? encoded_len then Some (ESIF_E_PARAMETER_IS_OUT_OF_BOUNDS, target_len, target_buf)
  else if match target_len with Some t => t <? BASE64_DECODED_BUFFER_LEN encoded_len | None => false end
  then Some (ESIF_E_NEED_LARGER_BUFFER, Some (BASE64_DECODED_BUFFER_LEN encoded_len), target_buf)
  else
    match target_buf, target_len, encoded_buf with
    | Some dst, Some t, Some buf =>
        match strip_blanks (Z.to_nat encoded_len) buf 0 with
        | None => None
        | Some (len, white) =>
            match decode_loop (Z.to_nat len) buf len t 0 0 white [] with
            | None => None
            | Some (j, padding, white, out) =>
                match write_front dst out with
                | None => None
                | Some dst =>
                    if (j =? len) && (Z.of_nat (length out) =? u64 (t - BASE64_DECODED_BUFFER_LEN white))
                    then Some (ESIF_OK, Some (Z.of_nat (length out) - padding), Some dst)
                    else Some (ESIF_E_COMMAND_DATA_INVALID, Some t, Some dst)
                end
            end
        end
    | _, _, _ => Some (ESIF_E_PARAMETER_IS_NULL, target_len, target_buf)
    end.

(* ------------------------------------------------------------------ *)
(** ** One group *)

Definition byte (x : Z) : Prop := 0 <= x < 256.
Definition blank (c : Z) : Prop := is_blank c = true.

Lemma char_ok v : 0 <= v < 64 -> BASE64_DECODED_ISVALID (char_of v) = true /\ is_blank (char_of v) = false /\ (char_of v =? PAD) = false /\ BASE64_DECODED_BYTE (char_of v) = v.
Proof.
  intros Hv. assert (Hall : forallb (fun v => BASE64_DECODED_ISVALID (char_of v) && negb (is_blank (char_of v)) && negb (char_of v =? PAD) && (BASE64_DECODED_BYTE (char_of v) =? v)) (seqZ 0 64) = true) by (vm_compute; reflexivity).
  rewrite forallb_forall in Hall. specialize (Hall v ltac:(apply list_elem_of_In, elem_of_seqZ; lia)).
  apply andb_true_iff in Hall as [Hall H4]. apply andb_true_iff in Hall as [Hall H3]. apply andb_true_iff in Hall as [H1 H2]. apply negb_true_iff in H2, H3. apply Z.eqb_eq in H4. done.
Qed.

Lemma land_mod x n : 0 <= n -> Z.land x (Z.ones n) = x mod 2 ^ n.
Proof. intros Hn. by apply Z.land_ones. Qed.
Lemma lor_add x y n : 0 <= n -> 0 <= y < 2 ^ n -> Z.lor (x * 2 ^ n) y = x * 2 ^ n + y.
Proof.
  intros Hn Hy. rewrite <- Z.shiftl_mul_pow2 by done. rewrite <- Z.add_lor_land.
  assert (Z.land (Z.shiftl x n) y = 0) as ->; [|lia]. apply Z.bits_inj'. intros k Hk. rewrite Z.land_spec, Z.bits_0. destruct (decide (k < n)).
  - by rewrite Z.shiftl_spec_low.
  - rewrite <- (Z.mod_small y (2 ^ n)), Z.mod_pow2_bits_high, andb_false_r; [done|lia|lia].
Qed.

(** The six-bit values of a group. *)
Definition s0 (a : Z) : Z := a / 4.
Definition s1 (a b : Z) : Z := a mod 4 * 16 + b / 16.
Definition s2 (b c : Z) : Z := b mod 16 * 4 + c / 64.
Definition s3 (c : Z) : Z := c mod 64.

Lemma s0_eq a : Z.shiftr a 2 = s0 a.
Proof. by rewrite Z.shiftr_div_pow2. Qed.
Lemma s1_eq a b : byte b -> Z.land (Z.lor (Z.shiftl a 4) (Z.shiftr b 4)) 0x3F = s1 a b.
Proof.
  unfold byte, s1. intros Hb. rewrite Z.shiftl_mul_pow2, Z.shiftr_div_pow2 by lia. rewrite (lor_add a (b / 2 ^ 4) 4) by (change (2 ^ 4) with 16; Z.to_euclidean_division_equations; lia).
  change 0x3F with (Z.ones 6). rewrite land_mod by lia. change (2 ^ 6) with 64. change (2 ^ 4) with 16. Z.to_euclidean_division_equations. lia.
Qed.
Lemma s2_eq b c : byte c -> Z.land (Z.lor (Z.shiftl b 2) (Z.shiftr c 6)) 0x3F = s2 b c.
Proof.
  unfold byte, s2. intros Hb. rewrite Z.shiftl_mul_pow2, Z.shiftr_div_pow2 by lia. rewrite (lor_add b (c / 2 ^ 6) 2) by (change (2 ^ 6) with 64; change (2 ^ 2) with 4; Z.to_euclidean_division_equations; lia).
  change 0x3F with (Z.ones 6). rewrite land_mod by lia. change (2 ^ 6) with 64. change (2 ^ 2) with 4. Z.to_euclidean_division_equations. lia.
Qed.
Lemma s3_eq c : Z.land c 0x3F = s3 c.
Proof. change 0x3F with (Z.ones 6). by rewrite land_mod. Qed.
Lemma s1_last a : Z.land (Z.shiftl a 4) 0x3F = s1 a 0.
Proof.
  unfold s1. rewrite Z.shiftl_mul_pow2 by lia. change 0x3F with (Z.ones 6). rewrite land_mod by lia. change (2 ^ 6) with 64. change (2 ^ 4) with 16. Z.to_euclidean_division_equations. lia.
Qed.
Lemma s2_last b : Z.land (Z.shiftl b 2) 0x3F = s2 b 0.
Proof.
  unfold s2. rewrite Z.shiftl_mul_pow2 by lia. change 0x3F with (Z.ones 6). rewrite land_mod by lia. change (2 ^ 6) with 64. change (2 ^ 2) with 4. Z.to_euclidean_division_equations. lia.
Qed.

Lemma six_range a b c : byte a -> byte b -> byte c -> 0 <= s0 a < 64 /\ 0 <= s1 a b < 64 /\ 0 <= s2 b c < 64 /\ 0 <= s3 c < 64.
Proof. unfold byte, s0, s1, s2, s3. intros. Z.to_euclidean_division_equations. lia. Qed.

(** Three bytes back from their six-bit values. *)
Lemma three_bytes a b c : byte a -> byte b -> byte c ->
  [u8 (Z.lor (Z.shiftl (Z.land (s0 a) 0x3F) 2) (Z.shiftr (Z.land (s1 a b) 0x30) 4));
   u8 (Z.lor (Z.shiftl (Z.land (s1 a b) 0x0F) 4) (Z.shiftr (Z.land (s2 b c) 0x3C) 2));
   u8 (Z.lor (Z.shiftl (Z.land (s2 b c) 0x03) 6) (Z.land (s3 c) 0x3F))] = [a; b; c].
Proof.
  intros Ha Hb Hc. pose proof (six_range a b c Ha Hb Hc) as (R0 & R1 & R2 & R3). rewrite !Z.shiftr_land. change (Z.shiftr 0x30 4) with (Z.ones 2). change (Z.shiftr 0x3C 2) with (Z.ones 4).
  change 0x3F with (Z.ones 6). change 0x0F with (Z.ones 4). change 0x03 with (Z.ones 2). rewrite !land_mod by lia. rewrite !Z.shiftl_mul_pow2, !Z.shiftr_div_pow2 by lia.
  rewrite !lor_add by (try lia; apply Z.mod_pos_bound; lia). unfold u8, wrap, byte, s0, s1, s2, s3 in *. change (2 ^ 6) with 64 in *. change (2 ^ 4) with 16 in *. change (2 ^ 2) with 4 in *. change (2 ^ 8) with 256.
  f_equal; [|f_equal; [|f_equal]]; Z.to_euclidean_division_equations; lia.
Qed.

(** The four characters of up to three bytes. *)
Definition group (bs : list Z) : list Z := match bs with [a; b; c] => block3 a b c | [a; b] => block2 a b | [a] => block1 a | _ => [] end.
Definition chunk (bs : list Z) : Prop := (1 <= length bs <= 3)%nat /\ Forall byte bs.
Definition pads (bs : list Z) : Z := 3 - Z.of_nat (length bs).

Lemma group_decodes bs len j : chunk bs -> (length bs = 3%nat \/ j + 4 = len) ->
  exists c0 c1 c2 c3, group bs = [c0; c1; c2; c3] /\ bad_group len j c0 c1 c2 c3 = false /\
    decode_group c0 c1 c2 c3 = bs ++ replicate (Z.to_nat (pads bs)) 0 /\ pad_count len j c2 c3 = (if j + 4 =? len then pads bs else 0) /\
    Forall (fun c => is_blank c = false) [c0; c1; c2; c3].
Proof.
  assert (H0 : byte 0) by (unfold byte; lia). assert (Hp : is_blank PAD = false) by done.
  assert (HZ : s2 0 0 = 0 /\ s3 0 = 0) by done. destruct HZ as [HZ2 HZ3].
  intros [Hlen Hbs] Hlast. destruct bs as [|a [|b [|c [|]]]]; cbn in Hlen; try lia; rewrite ?Forall_cons in Hbs.
  - destruct Hbs as [Ha _]. destruct Hlast as [|Hj]; [done|]. destruct (six_range a 0 0 Ha H0 H0) as (R0 & R1 & _). destruct (char_ok _ R0) as (V0 & B0 & P0 & Y0). destruct (char_ok _ R1) as (V1 & B1 & P1 & Y1).
    cbn [group]. unfold block1. rewrite s0_eq, s1_last. eexists _, _, _, _. split; [reflexivity|]. unfold bad_group, decode_group, pad_count. rewrite V0, V1, Y0, Y1, (proj2 (Z.ltb_ge _ _)), (proj2 (Z.ltb_ge _ _)), (proj2 (Z.eqb_eq _ _)) by lia.
    split; [done|]. change (BASE64_DECODED_BYTE PAD) with 0. pose proof (three_bytes a 0 0 Ha H0 H0) as T. rewrite HZ2, HZ3 in T. rewrite T. split; [done|]. split; [done|]. by repeat constructor.
  - destruct Hbs as (Ha & Hb & _). destruct Hlast as [|Hj]; [done|]. destruct (six_range a b 0 Ha Hb H0) as (R0 & R1 & R2 & _). destruct (char_ok _ R0) as (V0 & B0 & P0 & Y0). destruct (char_ok _ R1) as (V1 & B1 & P1 & Y1).
    destruct (char_ok _ R2) as (V2 & B2 & P2 & Y2). cbn [group]. unfold block2. rewrite s0_eq, s1_eq, s2_last by done. eexists _, _, _, _. split; [reflexivity|]. unfold bad_group, decode_group, pad_count.
    rewrite V0, V1, V2, Y0, Y1, Y2, P2, (proj2 (Z.ltb_ge (j + 3) _)), (proj2 (Z.eqb_eq _ _)) by lia. split; [done|].
    change (BASE64_DECODED_BYTE PAD) with 0. pose proof (three_bytes a b 0 Ha Hb H0) as T. rewrite HZ3 in T. rewrite T. split; [done|]. split; [done|]. by repeat constructor.
  - destruct Hbs as (Ha & Hb & Hc & _). destruct (six_range a b c Ha Hb Hc) as (R0 & R1 & R2 & R3). destruct (char_ok _ R0) as (V0 & B0 & P0 & Y0). destruct (char_ok _ R1) as (V1 & B1 & P1 & Y1).
    destruct (char_ok _ R2) as (V2 & B2 & P2 & Y2). destruct (char_ok _ R3) as (V3 & B3 & P3 & Y3). cbn [group]. unfold block3. rewrite s0_eq, s1_eq, s2_eq, s3_eq by done. eexists _, _, _, _. split; [reflexivity|].
    unfold bad_group, decode_group, pad_count. rewrite V0, V1, V2, V3, Y0, Y1, Y2, Y3, P2, P3. split; [done|]. rewrite (three_bytes a b c) by done. split; [done|]. split; [by destruct (j + 4 =? len)|]. by repeat constructor.
Qed.

(** The chunks of the data; only the last is shorter than three bytes. *)
Fixpoint chunks (data : list Z) : list (list Z) :=
  match data with
  | a :: b :: c :: data => [a; b; c] :: chunks data
  | [] => []
  | bs => [bs]
  end.

Lemma triple_ind (P : list Z -> Prop) : P [] -> (forall a, P [a]) -> (forall a b, P [a; b]) -> (forall a b c l, P l -> P (a :: b :: c :: l)) -> forall l, P l.
Proof.
  intros H0 H1 H2 H3. fix IH 1. intros [|a [|b [|c l]]]; [exact H0|exact (H1 a)|exact (H2 a b)|apply H3, IH].
Qed.

Lemma encode_chunks data : encode_bytes data = concat (map group (chunks data)).
Proof. induction data as [|a|a b|a b c data IH] using triple_ind; cbn [encode_bytes chunks map concat]; rewrite ?app_nil_r; [done..|]. by rewrite IH. Qed.
Lemma concat_chunks data : concat (chunks data) = data.
Proof. induction data as [|a|a b|a b c data IH] using triple_ind; cbn [chunks concat app]; [done..|]. by rewrite IH. Qed.

(** Chunks of which each but the last has three bytes. *)
Fixpoint aligned (cs : list (list Z)) : Prop :=
  match cs with
  | [] => True
  | bs :: cs => chunk bs /\ (cs <> [] -> length bs = 3%nat) /\ aligned cs
  end.
Lemma chunks_aligned data : Forall byte data -> aligned (chunks data).
Proof.
  induction data as [|a|a b|a b c data IH] using triple_ind; intros Hb; cbn [chunks aligned]; [done| | |].
  - split; [by split; [cbn; lia|]|done].
  - split; [by split; [cbn; lia|]|done].
  - rewrite !Forall_cons in Hb. destruct Hb as (Ha & Hb & Hc & Hd). split; [split; [cbn; lia|by rewrite !Forall_cons]|]. split; [done|by apply IH].
Qed.

(* ------------------------------------------------------------------ *)
(** ** Text with blanks *)

(** Blanks [runs] after the groups of four characters. *)
Fixpoint weave (enc : list Z) (runs : list (list Z)) : list Z :=
  match enc with
  | c0 :: c1 :: c2 :: c3 :: enc => c0 :: c1 :: c2 :: c3 :: hd [] runs ++ weave enc (tl runs)
  | enc => enc
  end.

(** The text up to its last character that is not blank, and the blanks after it. *)
Fixpoint tight (cs : list (list Z)) (runs : list (list Z)) : list Z :=
  match cs with
  | [] => []
  | bs :: cs => group bs ++ match cs with [] => [] | _ => hd [] runs ++ tight cs (tl runs) end
  end.
Fixpoint last_run (cs : list (list Z)) (runs : list (list Z)) : list Z :=
  match cs with [] => [] | [_] => hd [] runs | _ :: cs => last_run cs (tl runs) end.

Lemma group_length bs : chunk bs -> length (group bs) = 4%nat.
Proof. intros [Hl _]. destruct bs as [|a [|b [|c [|]]]]; cbn in Hl; try lia; done. Qed.

Lemma weave_tight cs : forall runs, aligned cs -> weave (concat (map group cs)) runs = tight cs runs ++ last_run cs runs.
Proof.
  induction cs as [|bs cs IH]; intros runs Hal; [done|]. destruct Hal as (Hc & _ & Hal). cbn [map concat tight last_run]. pose proof (group_length bs Hc) as Hl.
  destruct (group bs) as [|c0 [|c1 [|c2 [|c3 [|]]]]]; cbn in Hl; try lia. cbn [app weave]. rewrite (IH (tl runs) Hal). destruct cs as [|bs' cs]; [by rewrite app_nil_r|]. by rewrite <- app_assoc.
Qed.

Definition all_blank (runs : list (list Z)) : Prop := Forall (Forall blank) runs.
Lemma hd_blank runs : all_blank runs -> Forall blank (hd [] runs).
Proof. intros Hr. destruct Hr; [constructor|done]. Qed.
Lemma tl_blank runs : all_blank runs -> all_blank (tl runs).
Proof. intros Hr. destruct Hr; [constructor|done]. Qed.
Lemma last_blank cs : forall runs, all_blank runs -> Forall blank (last_run cs runs).
Proof. induction cs as [|bs [|bs' cs] IH]; intros runs Hr; cbn [last_run]; [constructor|by apply hd_blank|]. by apply IH, tl_blank. Qed.

Lemma char_at_app pre l i : 0 <= i -> char_at (pre ++ l) (Z.of_nat (length pre) + i) = l !! Z.to_nat i.
Proof.
  intros Hi. unfold char_at. rewrite (proj2 (Z.ltb_ge _ _)) by lia. rewrite lookup_app_r by lia. f_equal. lia.
Qed.

Lemma skip_run run : forall n pre c post j len white, Forall blank run -> is_blank c = false -> (length run < n)%nat -> j + 4 = Z.of_nat (length pre) -> Z.of_nat (length pre + length run) < len ->
  skip_blanks n (pre ++ run ++ c :: post) len j white = Some (j + Z.of_nat (length run), white + Z.of_nat (length run)).
Proof.
  induction run as [|b run IH]; intros n pre c post j len white Hb Hc Hn Hj Hlen; (destruct n as [|n]; [cbn in Hn; lia|]); cbn [skip_blanks app length]; rewrite (proj2 (Z.ltb_lt _ _)) by (cbn [length] in Hlen; lia);
    rewrite Hj, <- (Z.add_0_r (Z.of_nat (length pre))), char_at_app by lia; change (Z.to_nat 0) with 0%nat; cbn [lookup list_lookup].
  - rewrite Hc. by rewrite !Z.add_0_r.
  - apply Forall_cons in Hb as [Hb Hb']. red in Hb. rewrite Hb. replace (pre ++ b :: run ++ c :: post) with ((pre ++ [b]) ++ run ++ c :: post) by (by rewrite <- app_assoc).
    rewrite IH; [f_equal; f_equal; lia|done|done|cbn in Hn; lia|rewrite length_app; cbn; lia|rewrite length_app; cbn [length] in *; lia].
Qed.

Lemma tight_first cs runs : aligned cs -> cs <> [] -> exists c post, tight cs runs = c :: post /\ is_blank c = false.
Proof.
  intros Hal Hne. destruct cs as [|bs cs]; [done|]. destruct Hal as (Hc & Hl & Hal). assert (Hlast : length bs = 3%nat \/ 0 + 4 = 4) by (by right).
  destruct (group_decodes bs 4 0 Hc Hlast) as (c0 & c1 & c2 & c3 & Hg & _ & _ & _ & Hb). cbn [tight]. rewrite Hg. cbn. eexists _, _. split; [reflexivity|]. by apply Forall_cons in Hb as [? _].
Qed.

Lemma skip_end n buf len j white : len <= j + 4 -> skip_blanks n buf len j white = Some (j, white).
Proof. intros Hl. destruct n; cbn [skip_blanks]; by rewrite (proj2 (Z.ltb_ge _ _)) by lia. Qed.

Definition total_pads (cs : list (list Z)) : Z := 3 * Z.of_nat (length cs) - Z.of_nat (length (concat cs)).

Lemma decode_loop_ok cs : forall n pre post runs t padding white out, aligned cs -> all_blank runs -> (length (tight cs runs) <= n)%nat ->
  Z.of_nat (length out) + 3 * Z.of_nat (length cs) <= t ->
  decode_loop n (pre ++ tight cs runs ++ post) (Z.of_nat (length pre + length (tight cs runs))) t (Z.of_nat (length pre)) padding white out =
    Some (Z.of_nat (length pre + length (tight cs runs)), padding + total_pads cs, white + (Z.of_nat (length (tight cs runs)) - 4 * Z.of_nat (length cs)),
          out ++ concat cs ++ replicate (Z.to_nat (total_pads cs)) 0).
Proof.
  induction cs as [|bs cs IH]; intros n pre post runs t padding white out Hal Hr Hn Ht.
  - cbn [tight length concat replicate app]. unfold total_pads. cbn. destruct n; cbn [decode_loop]; rewrite (proj2 (Z.ltb_ge _ _)) by lia; cbn [andb]; rewrite !app_nil_r; repeat f_equal; lia.
  - destruct Hal as (Hc & Hl & Hal). set (len := Z.of_nat (length pre + length (tight (bs :: cs) runs))).
    assert (Htl : length (tight (bs :: cs) runs) = (4 + match cs with [] => 0 | _ => length (hd [] runs) + length (tight cs (tl runs)) end)%nat).
    { cbn [tight]. rewrite length_app, (group_length bs Hc). destruct cs; [done|]. by rewrite length_app. }
    assert (Hlast : length bs = 3%nat \/ Z.of_nat (length pre) + 4 = len).
    { destruct cs; [right; unfold len; rewrite Htl; lia|left; by apply Hl]. }
    destruct (group_decodes bs len (Z.of_nat (length pre)) Hc Hlast) as (c0 & c1 & c2 & c3 & Hg & Hbad & Hdec & Hpad & _).
    destruct n as [|n]; [rewrite Htl in Hn; lia|].
    cbn [decode_loop]. rewrite (proj2 (Z.ltb_lt (_ + 3) _)) by (unfold len; rewrite Htl; destruct cs; lia). rewrite (proj2 (Z.ltb_lt (_ + 2) _)) by (cbn [length] in Ht; lia). cbn [andb].
    assert (Hat : forall i c, [c0; c1; c2; c3] !! i = Some c -> char_at (pre ++ tight (bs :: cs) runs ++ post) (Z.of_nat (length pre) + Z.of_nat i) = Some c).
    { intros i c Hi. rewrite char_at_app, Nat2Z.id by lia. cbn [tight]. rewrite Hg, <- app_assoc. rewrite lookup_app_l; [done|]. by eapply lookup_lt_Some. }
    pose proof (Hat 0%nat c0 eq_refl) as Hat0. rewrite Z.add_0_r in Hat0. 
    pose proof (Hat 1%nat c1 eq_refl : char_at _ (_ + 1) = _) as Hat1. pose proof (Hat 2%nat c2 eq_refl : char_at _ (_ + 2) = _) as Hat2. pose proof (Hat 3%nat c3 eq_refl : char_at _ (_ + 3) = _) as Hat3.
    rewrite Hat0, Hat1, Hat2, Hat3, Hbad, Hdec, Hpad. clear Hat Hat0 Hat1 Hat2 Hat3 Hbad Hdec Hpad.
    set (run := match cs with [] => [] | _ => hd [] runs end).
    assert (Htight : tight (bs :: cs) runs = group bs ++ run ++ tight cs (tl runs)) by (unfold run; by destruct cs).
    assert (Hlen : len = Z.of_nat (length pre) + 4 + Z.of_nat (length run) + Z.of_nat (length (tight cs (tl runs)))) by (unfold len; rewrite Htight, !length_app, (group_length bs Hc); lia).
    assert (Hskip : skip_blanks (Z.to_nat len) (pre ++ tight (bs :: cs) runs ++ post) len (Z.of_nat (length pre)) white = Some (Z.of_nat (length pre) + Z.of_nat (length run), white + Z.of_nat (length run))).
    { destruct cs as [|bs' cs].
      - unfold run in *. cbn [length tight] in Hlen. rewrite !Z.add_0_r. apply skip_end. lia.
      - destruct (tight_first (bs' :: cs) (tl runs) Hal ltac:(done)) as (c & tl0 & Htf & Hcb). rewrite Htight, Htf. unfold run.
        replace (pre ++ (group bs ++ hd [] runs ++ c :: tl0) ++ post) with ((pre ++ group bs) ++ hd [] runs ++ c :: (tl0 ++ post)) by (by rewrite <- !app_assoc).
        rewrite Htf in Hlen. cbn [length] in Hlen. fold run in Hlen. change (hd [] runs) with run. apply skip_run; [by apply hd_blank|done|lia|rewrite length_app, (group_length bs Hc); lia|rewrite length_app, (group_length bs Hc); lia]. }
    rewrite Hskip. assert (Hr' : all_blank (tl runs)) by (by apply tl_blank).
    replace (pre ++ tight (bs :: cs) runs ++ post) with ((pre ++ group bs ++ run) ++ tight cs (tl runs) ++ post) by (rewrite Htight, <- !app_assoc; done).
    assert (Hpre : Z.of_nat (length pre) + Z.of_nat (length run) + 4 = Z.of_nat (length (pre ++ group bs ++ run))) by (rewrite !length_app, (group_length bs Hc); lia).
    assert (Hlen2 : len = Z.of_nat (length (pre ++ group bs ++ run) + length (tight cs (tl runs)))) by lia. rewrite Hpre, Hlen2.
    assert (Hfuel : (length (tight cs (tl runs)) <= n)%nat) by (rewrite Htight, !length_app, (group_length bs Hc) in Hn; lia).
    rewrite (IH n (pre ++ group bs ++ run) post (tl runs) t _ _ (out ++ bs ++ replicate (Z.to_nat (pads bs)) 0) Hal Hr' Hfuel).
    2: { rewrite !length_app, length_replicate. unfold pads. destruct Hc as [Hc _]. cbn [length] in Ht. lia. }
    rewrite <- Hlen2. pose proof (group_length bs Hc) as Hgl. destruct Hc as [Hc _]. f_equal. f_equal; [f_equal; [f_equal|]|].
    + unfold total_pads. cbn [concat length]. rewrite length_app. destruct (Z.eqb_spec (Z.of_nat (length pre) + 4) len) as [He|He].
      * assert (cs = []) as -> by (destruct cs as [|bs' cs]; [done|]; destruct (tight_first (bs' :: cs) (tl runs) Hal ltac:(done)) as (c & tl0 & Htf & _); rewrite Htf in Hlen; cbn [length] in Hlen; lia). cbn. unfold pads. lia.
      * destruct cs as [|bs' cs]; [unfold run in Hlen; cbn in Hlen; lia|]. rewrite (Hl ltac:(done)). lia.
    + rewrite Htight, !length_app, Hgl. cbn [length]. lia.
    + unfold total_pads. cbn [concat length]. rewrite <- !app_assoc. f_equal. f_equal. destruct cs as [|bs' cs].
      * cbn [concat length]. change (Z.to_nat (3 * Z.of_nat 0 - Z.of_nat 0)) with 0%nat. cbn [replicate]. rewrite !app_nil_r. unfold pads. done.
      * assert (Hb3 : length bs = 3%nat) by (by apply Hl). unfold pads. rewrite Hb3, length_app, Hb3. change (Z.to_nat (3 - Z.of_nat 3)) with 0%nat. cbn [replicate app]. do 2 f_equal. lia.
Qed.

Lemma strip_run t : forall ws white, Forall blank ws -> strip_blanks (length t + length ws) (t ++ ws) white = strip_blanks (length t) (t ++ ws) (white + Z.of_nat (length ws)).
Proof.
  intros ws. induction ws as [|b ws IH] using rev_ind; intros white Hb; [by rewrite Nat.add_0_r, Z.add_0_r|]. apply Forall_app in Hb as [Hb Hlast]. apply Forall_cons in Hlast as [Hlast _]. red in Hlast.
  rewrite length_app, Nat.add_assoc, Nat.add_1_r. cbn [strip_blanks].
  assert (Hext : forall l n x white, (n <= length l)%nat -> strip_blanks n (l ++ x) white = strip_blanks n l white).
  { intros l. induction n as [|n IHn]; intros x w Hn; [done|]. cbn [strip_blanks]. assert (Hat : char_at (l ++ x) (Z.of_nat n) = char_at l (Z.of_nat n)) by (unfold char_at; rewrite (proj2 (Z.ltb_ge _ _)) by lia; by rewrite lookup_app_l by lia).
    rewrite Hat. destruct (char_at l _); [|done]. rewrite IHn by lia. done. }
  assert (Hat : char_at (t ++ ws ++ [b]) (Z.of_nat (length t + length ws)) = Some b).
  { unfold char_at. rewrite (proj2 (Z.ltb_ge _ _)), Nat2Z.id by lia. rewrite app_assoc, lookup_app_r by (rewrite length_app; lia). rewrite length_app, Nat.sub_diag. done. }
  rewrite Hat, Hlast, app_assoc. rewrite Hext by (rewrite length_app; lia). rewrite (IH _ Hb). rewrite (Hext (t ++ ws)) by (rewrite length_app; lia). f_equal. cbn [length]. lia.
Qed.

Lemma strip_end t c ws white : is_blank c = false -> strip_blanks (length (t ++ [c])) ((t ++ [c]) ++ ws) white = Some (Z.of_nat (length (t ++ [c])), white).
Proof.
  intros Hc. rewrite length_app, Nat.add_1_r. cbn [strip_blanks]. assert (Hat : char_at ((t ++ [c]) ++ ws) (Z.of_nat (length t)) = Some c).
  { unfold char_at. rewrite (proj2 (Z.ltb_ge _ _)), Nat2Z.id by lia. rewrite <- app_assoc, lookup_app_r, Nat.sub_diag by lia. done. }
  by rewrite Hat, Hc.
Qed.

Lemma tight_end cs : forall runs, aligned cs -> cs <> [] -> exists t c, tight cs runs = t ++ [c] /\ is_blank c = false.
Proof.
  induction cs as [|bs cs IH]; intros runs Hal Hne; [done|]. destruct Hal as (Hc & _ & Hal). destruct (group_decodes bs 4 0 Hc ltac:(by right)) as (c0 & c1 & c2 & c3 & Hg & _ & _ & _ & Hb).
  destruct cs as [|bs' cs].
  - exists [c0; c1; c2], c3. cbn [tight]. rewrite Hg. split; [done|]. by do 3 apply Forall_cons in Hb as [_ Hb]; apply Forall_cons in Hb as [Hb _].
  - destruct (IH (tl runs) Hal ltac:(done)) as (t & c & Ht & Hcb). exists (group bs ++ hd [] runs ++ t), c. split; [|done]. cbn [tight]. cbn [tight] in Ht. by rewrite Ht, <- !app_assoc.
Qed.

Lemma strip_text cs runs : aligned cs -> all_blank runs ->
  let text := tight cs runs ++ last_run cs runs in strip_blanks (length text) text 0 = Some (Z.of_nat (length (tight cs runs)), Z.of_nat (length (last_run cs runs))).
Proof.
  intros Hal Hr. cbv zeta. rewrite length_app, (strip_run _ _ _ (last_blank cs runs Hr)), Z.add_0_l. destruct cs as [|bs cs]; [done|]. destruct (tight_end (bs :: cs) runs Hal ltac:(done)) as (t & c & Ht & Hc). rewrite Ht.
  by apply strip_end.
Qed.

Lemma encode_length data : Z.of_nat (length (encode_bytes data)) = (Z.of_nat (length data) + 2) / 3 * 4.
Proof.
  induction data as [|a|a b|a b c data IH] using triple_ind; [done..|]. cbn [encode_bytes]. rewrite length_app, Nat2Z.inj_add, IH. cbn [length block3]. Z.to_euclidean_division_equations. lia.
Qed.
Lemma chunks_length data : Z.of_nat (length (chunks data)) = (Z.of_nat (length data) + 2) / 3.
Proof. induction data as [|a|a b|a b c data IH] using triple_ind; [done..|]. cbn [chunks length] in *. Z.to_euclidean_division_equations. lia. Qed.
Lemma tight_length cs : forall runs, aligned cs -> 4 * Z.of_nat (length cs) <= Z.of_nat (length (tight cs runs)).
Proof.
  induction cs as [|bs cs IH]; intros runs Hal; [cbn; lia|]. destruct Hal as (Hc & _ & Hal). cbn [tight length]. rewrite length_app, (group_length bs Hc). specialize (IH (tl runs) Hal). destruct cs; [cbn; lia|].
  rewrite length_app. cbn [length] in *. lia.
Qed.

(** C35: What the encoder writes for some bytes - with a terminator, and as long as
    [BASE64_ENCODED_LENGTH] says - the decoder reads back as these bytes, also when
    blanks have been put after its groups, if it gets a buffer of the size that it
    asks for. *)
Theorem base64_roundtrip data runs dst dst' : Forall byte data -> all_blank runs ->
  let text := weave (encode_bytes data) runs in
  Z.of_nat (length text) <= MAX_BASE64_ENCODED_LEN -> (length (encode_bytes data) < length dst)%nat -> Z.of_nat (length dst') = BASE64_DECODED_BUFFER_LEN (Z.of_nat (length text)) ->
  (exists rest, esif_base64_encode (Some dst) (Z.of_nat (length dst)) (Some data) (Z.of_nat (length data)) = Some (ESIF_OK, Some (encode_bytes data ++ 0 :: rest)) /\
     Z.of_nat (length (encode_bytes data)) + 1 = BASE64_ENCODED_LENGTH (Z.of_nat (length data))) /\
  exists rest, esif_base64_decode (Some dst') (Some (Z.of_nat (length dst'))) (Some text) (Z.of_nat (length text)) = Some (ESIF_OK, Some (Z.of_nat (length data)), Some (data ++ rest)).
Proof.
  intros Hb Hr text Hmax Hdst Hdst'. pose proof (chunks_aligned data Hb) as Hal. set (cs := chunks data) in *.
  assert (Htext : text = tight cs runs ++ last_run cs runs) by (unfold text; rewrite encode_chunks; by apply weave_tight).
  pose proof (tight_length cs runs Hal) as Htl. pose proof (chunks_length data) as Hcl. fold cs in Hcl. pose proof (encode_length data) as Hel.
  assert (Hlen : Z.of_nat (length text) = Z.of_nat (length (tight cs runs)) + Z.of_nat (length (last_run cs runs))) by (rewrite Htext, length_app; lia).
  assert (HM : MAX_BASE64_ENCODED_LEN = 46137366) by done. rewrite HM in Hmax.
  assert (Hsmall : 0 <= Z.of_nat (length data) < 2 ^ 28) by (change (2 ^ 28) with 268435456; Z.to_euclidean_division_equations; lia). change (2 ^ 28) with 268435456 in Hsmall.
  assert (Henc : BASE64_ENCODED_LENGTH (Z.of_nat (length data)) = Z.of_nat (length (encode_bytes data)) + 1).
  { unfold BASE64_ENCODED_LENGTH. rewrite (wrap_small 64 (Z.of_nat (length data) + 2)) by (unfold in_range; lia). rewrite (wrap_small 64 (_ / 3 * 4)) by (unfold in_range; Z.to_euclidean_division_equations; lia).
    rewrite wrap_small by (unfold in_range; Z.to_euclidean_division_equations; lia). by rewrite Hel. }
  split.
  - unfold esif_base64_encode. rewrite Henc, HM. rewrite (proj2 (Z.ltb_ge 46137366 _)) by (Z.to_euclidean_division_equations; lia). rewrite (proj2 (Z.ltb_ge _ _)) by lia. rewrite decide_False by lia.
    rewrite Nat2Z.id, firstn_all. unfold write_front. rewrite decide_True by (rewrite length_app; cbn; lia). exists (drop (length (encode_bytes data ++ [0])) dst). split; [|lia]. cbn [option_map]. by rewrite <- app_assoc.
  - assert (Hdec : BASE64_DECODED_BUFFER_LEN (Z.of_nat (length text)) = (Z.of_nat (length text) + 3) / 4 * 3).
    { unfold BASE64_DECODED_BUFFER_LEN. rewrite (wrap_small 64 (_ + 3)) by (unfold in_range; lia). rewrite wrap_small by (unfold in_range; Z.to_euclidean_division_equations; lia). done. }
    unfold esif_base64_decode. rewrite HM, (proj2 (Z.ltb_ge 46137366 _)) by lia. rewrite Hdst', (proj2 (Z.ltb_ge _ _)) by lia. rewrite Nat2Z.id. pose proof (strip_text cs runs Hal Hr) as Hstrip. cbv zeta in Hstrip. rewrite <- Htext in Hstrip. rewrite Hstrip.
    pose proof (decode_loop_ok cs (length (tight cs runs)) [] (last_run cs runs) runs (BASE64_DECODED_BUFFER_LEN (Z.of_nat (length text))) 0 (Z.of_nat (length (last_run cs runs))) [] Hal Hr ltac:(lia)) as Hloop.
    cbn [length app Nat.add] in Hloop. change (Z.of_nat 0) with 0 in Hloop. rewrite <- Htext in Hloop. rewrite Nat2Z.id. rewrite Hloop. 2: { rewrite Hdec. Z.to_euclidean_division_equations. lia. }
    assert (Hcc : concat cs = data) by apply concat_chunks. rewrite Hcc. unfold write_front.
    assert (Hpads : 0 <= total_pads cs /\ Z.of_nat (length data) + total_pads cs = 3 * Z.of_nat (length cs)) by (unfold total_pads; rewrite Hcc; Z.to_euclidean_division_equations; lia).
    assert (Hout : Z.of_nat (length (data ++ replicate (Z.to_nat (total_pads cs)) 0)) = 3 * Z.of_nat (length cs)) by (rewrite length_app, length_replicate; lia).
    rewrite decide_True by (apply Nat2Z.inj_le; rewrite Hout, Hdst', Hdec; Z.to_euclidean_division_equations; lia). rewrite Z.eqb_refl.
    assert (Hk : u64 (BASE64_DECODED_BUFFER_LEN (Z.of_nat (length text)) - BASE64_DECODED_BUFFER_LEN (Z.of_nat (length (last_run cs runs)) + (Z.of_nat (length (tight cs runs)) - 4 * Z.of_nat (length cs)))) = 3 * Z.of_nat (length cs)).
    { rewrite Hdec. unfold BASE64_DECODED_BUFFER_LEN. set (w := Z.of_nat (length (last_run cs runs)) + (Z.of_nat (length (tight cs runs)) - 4 * Z.of_nat (length cs))).
      assert (Hw : 0 <= w /\ Z.of_nat (length text) = 4 * Z.of_nat (length cs) + w) by (unfold w; lia).
      rewrite (wrap_small 64 (w + 3)) by (unfold in_range; lia). rewrite (wrap_small 64 (_ / 4 * 3)) by (unfold in_range; Z.to_euclidean_division_equations; lia). rewrite wrap_small by (unfold in_range; Z.to_euclidean_division_equations; lia).
      Z.to_euclidean_division_equations. lia. }
    rewrite Hk, Hout, Z.eqb_refl. cbn [andb]. eexists. rewrite <- app_assoc. do 3 f_equal. unfold total_pads in *. f_equal. lia.
Qed.

Lemma base64_roundtrip_witness :
  let text := weave (encode_bytes (chars_of "hello")) [[13; 10]; [32]] in
  text = chars_of "aGVs" ++ [13; 10] ++ chars_of "bG8= " /\
  exists rest, esif_base64_decode (Some (replicate 9 7)) (Some 9) (Some text) 11 = Some (ESIF_OK, Some 5, Some (chars_of "hello" ++ rest)).
Proof.
  split; [vm_compute; reflexivity|].
  assert (Hd : Forall byte (chars_of "hello")) by (repeat constructor; unfold byte; cbn; lia).
  assert (Hr : all_blank [[13; 10]; [32]]) by (repeat constructor).
  exact (proj2 (base64_roundtrip (chars_of "hello") [[13; 10]; [32]] (replicate 9 7) (replicate 9 7) Hd Hr ltac:(by vm_compute) ltac:(vm_compute; lia) ltac:(by vm_compute))).
Defined.

(** A buffer that is larger than the decoder asks for makes it refuse good text;
    padding before the last character is accepted. *)
Theorem base64_decode_limits :
  esif_base64_decode (Some (replicate 6 0)) (Some 6) (Some (chars_of "aGVs")) 4 = Some (ESIF_E_COMMAND_DATA_INVALID, Some 6, Some (chars_of "hel" ++ [0; 0; 0])) /\
  esif_base64_decode (Some (replicate 3 0)) (Some 3) (Some (chars_of "AB=C")) 4 = Some (ESIF_OK, Some 2, Some [0; 16; 2]).
Proof. split; vm_compute; reflexivity. Qed.
