(* ===== verification/ShaStd.v ===== *)
(** * The secure hash standard, FIPS 180-4: SHA-1 and SHA-256

    What Sha.v refines, written from the standard and not from the code: words are
    numbers below 2^32 that are added modulo 2^32, rotation is arithmetic, the words of a
    block are read with their highest byte first, the constants and the initial values are
    the roots of primes of which the standard says that they are.  The code is not used
    here; the published values of the standard's examples are at the end. *)

From S2P Require Import Prelude.
From stdpp Require Import list strings.
Local Open Scope Z_scope.

(* ------------------------------------------------------------------ *)
(** ** Operations on words: sections 2.2.2, 3.2, 4.1 *)

Definition W32 : Z := 2 ^ 32.
Definition add32 (xs : list Z) : Z := foldr Z.add 0 xs mod W32.
Definition ROTL (n x : Z) : Z := x * 2 ^ n mod W32 + x / 2 ^ (32 - n).
Definition ROTR (n x : Z) : Z := ROTL (32 - n) x.
Definition SHR (n x : Z) : Z := x / 2 ^ n.
Definition XOR (x y z : Z) : Z := Z.lxor (Z.lxor x y) z.
(** "x and y, or, not x and z". *)
Definition Ch (x y z : Z) : Z := Z.lxor (Z.land x y) (Z.ldiff z x).
Definition Maj (x y z : Z) : Z := XOR (Z.land x y) (Z.land x z) (Z.land y z).
Definition Parity (x y z : Z) : Z := XOR x y z.
Definition Sigma0 (x : Z) : Z := XOR (ROTR 2 x) (ROTR 13 x) (ROTR 22 x).
Definition Sigma1 (x : Z) : Z := XOR (ROTR 6 x) (ROTR 11 x) (ROTR 25 x).
Definition sigma0 (x : Z) : Z := XOR (ROTR 7 x) (ROTR 18 x) (SHR 3 x).
Definition sigma1 (x : Z) : Z := XOR (ROTR 17 x) (ROTR 19 x) (SHR 10 x).

(* ------------------------------------------------------------------ *)
(** ** Constants: sections 4.2 and 5.3 *)

Definition is_prime (n : Z) : bool := (1 <? n) && forallb (fun d => negb (n mod d =? 0)) (seqZ 2 (n - 2)).
Definition primes (n : nat) : list Z := take n (filter (fun p => is_prime p = true) (seqZ 2 320)).
(** The largest number whose [k]-th power is at most [n], bit by bit. *)
Fixpoint root_from (k : Z) (n : Z) (bits : nat) (r : Z) : Z :=
  match bits with
  | O => r
  | S b => let r' := r + 2 ^ Z.of_nat b in root_from k n b (if r' ^ k <=? n then r' else r)
  end.
Definition root (k n : Z) : Z := root_from k n 40 0.
(** The first 32 bits of the fractional part of a prime's root. *)
Definition fraction_of_root (k p : Z) : Z := root k (p * W32 ^ k) mod W32.

Definition K256 : list Z := map (fraction_of_root 3) (primes 64).
Definition H256 : list Z := map (fraction_of_root 2) (primes 8).
(** The square roots of 2, 3, 5 and 10 times 2^30, for twenty steps each. *)
Definition K1 (t : nat) : Z := root 2 (nth (t / 20) [2; 3; 5; 10] 0 * 2 ^ 60).
(** The digits upward and downward, and again. *)
Definition H1 : list Z := [0x67452301; 0xEFCDAB89; 0x98BADCFE; 0x10325476; 0xC3D2E1F0].

(* ------------------------------------------------------------------ *)
(** ** Padding and parsing: sections 5.1 and 5.2 *)

(** A number in bytes, the highest first; and back. *)
Definition to_bytes (n : nat) (x : Z) : list Z := map (fun i => x / 256 ^ Z.of_nat i mod 256) (rev (seq 0 n)).
Definition from_bytes (l : list Z) : Z := foldl (fun v b => 256 * v + b) 0 l.
(** A one bit, zeros to 448 bits modulo 512, and the length in bits in 64 bits. *)
Definition pad (msg : list Z) : list Z :=
  let len := Z.of_nat (length msg) in msg ++ [0x80] ++ replicate (Z.to_nat ((55 - len) mod 64)) 0 ++ to_bytes 8 (8 * len).
Fixpoint groups (k n : nat) (l : list Z) : list (list Z) :=
  match n with O => [] | S n => take k l :: groups k n (drop k l) end.
Definition blocks (padded : list Z) : list (list Z) := groups 64 (length padded / 64) padded.
Definition words (b : list Z) : list Z := map from_bytes (groups 4 16 b).

(* ------------------------------------------------------------------ *)
(** ** The hash of a block: sections 6.1.2 and 6.2.2 *)

(** The message schedule, with [next] for the words after the sixteenth. *)
Definition W (next : (nat -> Z) -> nat -> Z) (n : nat) (b : list Z) : list Z :=
  fold_left (fun w t => w ++ [next (fun i => nth i w 0) t]) (seq 16 (n - 16)) (words b).
Definition next1 (w : nat -> Z) (t : nat) : Z := ROTL 1 (Z.lxor (XOR (w (t - 3)%nat) (w (t - 8)%nat) (w (t - 14)%nat)) (w (t - 16)%nat)).
Definition next256 (w : nat -> Z) (t : nat) : Z := add32 [sigma1 (w (t - 2)%nat); w (t - 7)%nat; sigma0 (w (t - 15)%nat); w (t - 16)%nat].

Definition f1 (t : nat) : Z -> Z -> Z -> Z := if (t <? 20)%nat then Ch else if (t <? 40)%nat then Parity else if (t <? 60)%nat then Maj else Parity.
Definition step1 (w : list Z) (v : list Z) (t : nat) : list Z :=
  match v with
  | [a; b; c; d; e] => [add32 [ROTL 5 a; f1 t b c d; e; K1 t; nth t w 0]; a; ROTL 30 b; c; d]
  | _ => v
  end.
Definition step256 (w : list Z) (v : list Z) (t : nat) : list Z :=
  match v with
  | [a; b; c; d; e; f; g; h] =>
      let T1 := add32 [h; Sigma1 e; Ch e f g; nth t K256 0; nth t w 0] in
      let T2 := add32 [Sigma0 a; Maj a b c] in
      [add32 [T1; T2]; a; b; c; add32 [d; T1]; e; f; g]
  | _ => v
  end.
Definition add_lists (h v : list Z) : list Z := zip_with (fun x y => add32 [x; y]) h v.
Definition block1 (h b : list Z) : list Z := add_lists h (fold_left (step1 (W next1 80 b)) (seq 0 80) h).
Definition block256 (h b : list Z) : list Z := add_lists h (fold_left (step256 (W next256 64 b)) (seq 0 64) h).

Definition digest_of (block : list Z -> list Z -> list Z) (h0 msg : list Z) : list Z := concat (map (to_bytes 4) (fold_left block (blocks (pad msg)) h0)).
Definition SHA1 (msg : list Z) : list Z := digest_of block1 H1 msg.
Definition SHA256 (msg : list Z) : list Z := digest_of block256 H256 msg.

(* ------------------------------------------------------------------ *)
(** ** The published examples: "abc", and the one of two blocks *)

Definition abc : list Z := [97; 98; 99].
Definition two_blocks : list Z := map (fun c => Z.of_N (Ascii.N_of_ascii c)) (String.list_ascii_of_string "abcdbcdecdefdefgefghfghighijhijkijkljklmklmnlmnomnopnopq").
Example sha1_abc : SHA1 abc =
  [0xa9; 0x99; 0x3e; 0x36; 0x47; 0x06; 0x81; 0x6a; 0xba; 0x3e; 0x25; 0x71; 0x78; 0x50; 0xc2; 0x6c; 0x9c; 0xd0; 0xd8; 0x9d].
Proof. by vm_compute. Qed.
Example sha256_abc : SHA256 abc =
  [0xba; 0x78; 0x16; 0xbf; 0x8f; 0x01; 0xcf; 0xea; 0x41; 0x41; 0x40; 0xde; 0x5d; 0xae; 0x22; 0x23;
   0xb0; 0x03; 0x61; 0xa3; 0x96; 0x17; 0x7a; 0x9c; 0xb4; 0x10; 0xff; 0x61; 0xf2; 0x00; 0x15; 0xad].
Proof. by vm_compute. Qed.
Example sha1_two_blocks : SHA1 two_blocks =
  [0x84; 0x98; 0x3e; 0x44; 0x1c; 0x3b; 0xd2; 0x6e; 0xba; 0xae; 0x4a; 0xa1; 0xf9; 0x51; 0x29; 0xe5; 0xe5; 0x46; 0x70; 0xf1].
Proof. by vm_compute. Qed.
Example sha256_two_blocks : SHA256 two_blocks =
  [0x24; 0x8d; 0x6a; 0x61; 0xd2; 0x06; 0x38; 0xb8; 0xe5; 0xc0; 0x26; 0x93; 0x0c; 0x3e; 0x60; 0x39;
   0xa3; 0x3c; 0xe4; 0x59; 0x64; 0xff; 0x21; 0x67; 0xf6; 0xec; 0xed; 0xd4; 0x19; 0xdb; 0x06; 0xc1].
Proof. by vm_compute. Qed.
