(* ===== verification/Sha.v ===== *)
(** * Secure hashes: Common/esif_sdk_sha.c

    SHA-1 and SHA-256, the two that the header selects by default (SHA-384 and
    SHA-512 are compiled only on request).  The digest is a list of 32-bit words, as
    the code reads the array [hash] on a little-endian machine, as many as the type has;
    the block a list of bytes. *)

From S2P Require Import Prelude ShaStd.
From stdpp Require Import list strings.
Local Open Scope Z_scope.

(* ------------------------------------------------------------------ *)
(** ** Words *)

Definition LEFTROTATE (a b : Z) : Z := Z.lor (u32 (Z.shiftl a b)) (Z.shiftr a (32 - b)).
Definition RIGHTROTATE (a b : Z) : Z := Z.lor (Z.shiftr a b) (u32 (Z.shiftl a (32 - b))).
Definition REORDERBYTES (a : Z) : Z :=
  Z.lor (Z.lor (Z.lor (u32 (Z.shiftl a 24)) (Z.shiftr (Z.land a 0x00ff0000) 8)) (Z.shiftl (Z.land a 0x0000ff00) 8)) (Z.shiftr a 24).
Definition REORDERBYTES64 (a : Z) : Z :=
  Z.lor (Z.lor (Z.lor (Z.lor (Z.lor (Z.lor (Z.lor (u64 (Z.shiftl a 56))
    (Z.shiftr (Z.land a 0x00ff000000000000) 40)) (Z.shiftr (Z.land a 0x0000ff0000000000) 24)) (Z.shiftr (Z.land a 0x000000ff00000000) 8))
    (Z.shiftl (Z.land a 0x00000000ff000000) 8)) (Z.shiftl (Z.land a 0x0000000000ff0000) 24)) (Z.shiftl (Z.land a 0x000000000000ff00) 40)) (Z.shiftr a 56).

(** A word in memory, the lowest byte first, with the shifts of the code; and bytes as
    words. *)
Fixpoint word_bytes (n : nat) (x : Z) : list Z := match n with O => [] | S n => Z.land x 255 :: word_bytes n (Z.shiftr x 8) end.
Fixpoint le_words (bytes : list Z) : list Z :=
  match bytes with
  | a :: b :: c :: d :: bytes => (a + 256 * b + 65536 * c + 16777216 * d) :: le_words bytes
  | _ => []
  end.

(* ------------------------------------------------------------------ *)
(** ** The transformations of a block *)

Definition at_ (l : list Z) (i : nat) : Z := nth i l 0.

(** The message schedule: sixteen words of the block, and the rest from those
    before. *)
Fixpoint schedule (n : nat) (next : list Z -> nat -> Z) (rounds : list Z) : list Z :=
  match n with O => rounds | S n => schedule n next (rounds ++ [next rounds (length rounds)]) end.
Definition block_words (block : list Z) : list Z := map REORDERBYTES (le_words block).

Definition sha1_next (r : list Z) (i : nat) : Z :=
  LEFTROTATE (Z.lxor (Z.lxor (Z.lxor (at_ r (i - 3)) (at_ r (i - 8))) (at_ r (i - 14))) (at_ r (i - 16))) 1.
Definition sha1_round (rounds : list Z) (chunk : list Z) (i : nat) : list Z :=
  match chunk with
  | [a; b; c; d; e] =>
      let f := match (i / 20)%nat with
        | 0%nat => Z.lxor (Z.land b c) (Z.land (Z.lnot b) d) + e + 0x5a827999
        | 1%nat => Z.lxor (Z.lxor b c) d + e + 0x6ed9eba1
        | 2%nat => Z.lxor (Z.lxor (Z.land b c) (Z.land b d)) (Z.land c d) + e + 0x8f1bbcdc
        | _ => Z.lxor (Z.lxor b c) d + e + 0xca62c1d6
        end in
      [u32 (LEFTROTATE a 5 + f + at_ rounds i); a; LEFTROTATE b 30; c; d]
  | _ => chunk
  end.
Definition add_words (h chunk : list Z) : list Z := zip_with (fun x y => u32 (x + y)) h chunk.
Definition esif_sha1_transform (h block : list Z) : list Z :=
  let rounds := schedule 64 sha1_next (block_words block) in add_words h (fold_left (sha1_round rounds) (seq 0 80) h).

Definition kvalues : list Z :=
  [0x428a2f98; 0x71374491; 0xb5c0fbcf; 0xe9b5dba5; 0x3956c25b; 0x59f111f1; 0x923f82a4; 0xab1c5ed5] ++
  [0xd807aa98; 0x12835b01; 0x243185be; 0x550c7dc3; 0x72be5d74; 0x80deb1fe; 0x9bdc06a7; 0xc19bf174] ++
  [0xe49b69c1; 0xefbe4786; 0x0fc19dc6; 0x240ca1cc; 0x2de92c6f; 0x4a7484aa; 0x5cb0a9dc; 0x76f988da] ++
  [0x983e5152; 0xa831c66d; 0xb00327c8; 0xbf597fc7; 0xc6e00bf3; 0xd5a79147; 0x06ca6351; 0x14292967] ++
  [0x27b70a85; 0x2e1b2138; 0x4d2c6dfc; 0x53380d13; 0x650a7354; 0x766a0abb; 0x81c2c92e; 0x92722c85] ++
  [0xa2bfe8a1; 0xa81a664b; 0xc24b8b70; 0xc76c51a3; 0xd192e819; 0xd6990624; 0xf40e3585; 0x106aa070] ++
  [0x19a4c116; 0x1e376c08; 0x2748774c; 0x34b0bcb5; 0x391c0cb3; 0x4ed8aa4a; 0x5b9cca4f; 0x682e6ff3] ++
  [0x748f82ee; 0x78a5636f; 0x84c87814; 0x8cc70208; 0x90befffa; 0xa4506ceb; 0xbef9a3f7; 0xc67178f2].
Definition xor3 (x y z : Z) : Z := Z.lxor (Z.lxor x y) z.
Definition sha256_next (r : list Z) (i : nat) : Z :=
  let w15 := at_ r (i - 15) in let w2 := at_ r (i - 2) in
  let s0 := xor3 (RIGHTROTATE w15 7) (RIGHTROTATE w15 18) (Z.shiftr w15 3) in
  let s1 := xor3 (RIGHTROTATE w2 17) (RIGHTROTATE w2 19) (Z.shiftr w2 10) in
  u32 (at_ r (i - 16) + s0 + at_ r (i - 7) + s1).
Definition sha256_round (rounds : list Z) (chunk : list Z) (i : nat) : list Z :=
  match chunk with
  | [a; b; c; d; e; f; g; h] =>
      let S1 := xor3 (RIGHTROTATE e 6) (RIGHTROTATE e 11) (RIGHTROTATE e 25) in
      let ch := Z.lxor (Z.land e f) (Z.land (Z.lnot e) g) in
      let S0 := xor3 (RIGHTROTATE a 2) (RIGHTROTATE a 13) (RIGHTROTATE a 22) in
      let maj := xor3 (Z.land a b) (Z.land a c) (Z.land b c) in
      let temp1 := u32 (h + S1 + ch + at_ kvalues i + at_ rounds i) in
      let temp2 := u32 (S0 + maj) in
      [u32 (temp1 + temp2); a; b; c; u32 (d + temp1); e; f; g]
  | _ => chunk
  end.
Definition esif_sha256_transform (h block : list Z) : list Z :=
  let rounds := schedule 48 sha256_next (block_words block) in add_words h (fold_left (sha256_round rounds) (seq 0 64) h).

(* ------------------------------------------------------------------ *)
(** ** The shared code *)

Definition SHA1_TYPE : Z := 1.
Definition SHA256_TYPE : Z := 256.
Definition SHA1_HASH_BYTES : Z := 20.
Definition SHA256_HASH_BYTES : Z := 32.
Definition SHA_BLOCK_BYTES : Z := 64.

Record esif_sha_t : Type := mk_sha {
  hashtype : Z; hashsize : Z; blocksize : Z;
  hash : list Z; block : list Z; blockused : Z;
  digest_bits : Z; digest_hibits : Z
}.

Definition with_hash (h : list Z) (s : esif_sha_t) : esif_sha_t :=
  mk_sha (hashtype s) (hashsize s) (blocksize s) h (block s) (blockused s) (digest_bits s) (digest_hibits s).
Definition with_block (b : list Z) (used : Z) (s : esif_sha_t) : esif_sha_t :=
  mk_sha (hashtype s) (hashsize s) (blocksize s) (hash s) b used (digest_bits s) (digest_hibits s).
(** [bits] more have been hashed. *)
Definition add_bits (bits : Z) (s : esif_sha_t) : esif_sha_t :=
  let n := u64 (digest_bits s + bits) in
  mk_sha (hashtype s) (hashsize s) (blocksize s) (hash s) (block s) (blockused s) n (u64 (digest_hibits s + if n <? digest_bits s then 1 else 0)).

Definition esif_sha_transform (s : esif_sha_t) : esif_sha_t :=
  if hashtype s =? SHA1_TYPE then with_hash (esif_sha1_transform (hash s) (block s)) s
  else if hashtype s =? SHA256_TYPE then with_hash (esif_sha256_transform (hash s) (block s)) s
  else s.

Definition zeros (n : Z) : list Z := replicate (Z.to_nat n) 0.
Definition sha1_iv : list Z := [0x67452301; 0xefcdab89; 0x98badcfe; 0x10325476; 0xc3d2e1f0].
Definition sha256_iv : list Z := [0x6a09e667; 0xbb67ae85; 0x3c6ef372; 0xa54ff53a; 0x510e527f; 0x9b05688c; 0x1f83d9ab; 0x5be0cd19].
(** Of an unknown type the object stays zero. *)
Definition esif_sha_init (type : Z) : esif_sha_t :=
  if type =? SHA1_TYPE then mk_sha SHA1_TYPE SHA1_HASH_BYTES SHA_BLOCK_BYTES sha1_iv (zeros SHA_BLOCK_BYTES) 0 0 0
  else if type =? SHA256_TYPE then mk_sha SHA256_TYPE SHA256_HASH_BYTES SHA_BLOCK_BYTES sha256_iv (zeros SHA_BLOCK_BYTES) 0 0 0
  else mk_sha 0 0 0 (zeros 8) (zeros SHA_BLOCK_BYTES) 0 0 0.

(** Copying into the block at an offset. *)
Definition copy_at (b : list Z) (off : Z) (data : list Z) : list Z := take (Z.to_nat off) b ++ data ++ drop (Z.to_nat off + length data) b.

(** [n] bounds the blocks that the data fill. *)
Fixpoint update_loop (n : nat) (s : esif_sha_t) (octets : list Z) : esif_sha_t :=
  if blocksize s <=? blockused s + Z.of_nat (length octets) then
    match n with
    | O => s
    | S n =>
        let k := Z.to_nat (blocksize s - blockused s) in
        let s := with_block (copy_at (block s) (blockused s) (take k octets)) (blockused s) s in
        let s := add_bits (blocksize s * 8) (esif_sha_transform s) in
        update_loop n (with_block (block s) 0 s) (drop k octets)
    end
  else with_block (copy_at (block s) (blockused s) octets) (u16 (blockused s + Z.of_nat (length octets))) s.

Definition usable (s : esif_sha_t) : bool := (8 <=? blocksize s) && (blocksize s <=? SHA_BLOCK_BYTES) && (blockused s <? blocksize s).
Definition esif_sha_update (self : option esif_sha_t) (source : option (list Z)) : option esif_sha_t :=
  match self, source with
  | Some s, Some octets => if (0 <? Z.of_nat (length octets)) && usable s then Some (update_loop (length octets) s octets) else self
  | _, _ => self
  end.

Definition finish_hash (s : esif_sha_t) : esif_sha_t :=
  if (hashtype s =? SHA1_TYPE) || (hashtype s =? SHA256_TYPE) then
    let s := with_block (copy_at (block s) (blocksize s - 8) (word_bytes 8 (REORDERBYTES64 (digest_bits s)))) (blockused s) s in
    let s := esif_sha_transform s in
    with_hash (map REORDERBYTES (take (Z.to_nat (hashsize s / 4)) (hash s)) ++ drop (Z.to_nat (hashsize s / 4)) (hash s)) s
  else s.
Definition esif_sha_finish (self : option esif_sha_t) : option esif_sha_t :=
  match self with
  | None => None
  | Some s =>
      if negb (usable s) then Some s
      else
        let s := with_block (copy_at (block s) (blockused s) (0x80 :: zeros (blocksize s - blockused s - 1))) (blockused s) s in
        let s := if blocksize s - 8 <=? blockused s then let s := esif_sha_transform s in with_block (copy_at (block s) 0 (zeros (blocksize s))) (blockused s) s else s in
        let s := finish_hash (add_bits (blockused s * 8) s) in
        Some (mk_sha (hashtype s) (hashsize s) 0 (hash s) (copy_at (block s) 0 (zeros (blocksize s))) 0 (digest_bits s) (digest_hibits s))
  end.

(** The bytes of the array [hash]. *)
Definition hash_bytes (s : esif_sha_t) : list Z := take (Z.to_nat (hashsize s)) (concat (map (word_bytes 4) (hash s))).

Definition hex (x : Z) : Z := if x <? 10 then x + 48 else x - 10 + 97.
(** The text and its terminator; [None] if there is no room. *)
Definition esif_hash_tostring (bytes : list Z) (buf_len : Z) : option (list Z) :=
  if (0 <? buf_len) && negb (Z.of_nat (length bytes) =? 0) && (2 * Z.of_nat (length bytes) <? buf_len)
  then Some (concat (map (fun b => [hex (Z.shiftr (Z.land b 0xf0) 4); hex (Z.land b 0x0f)]) bytes) ++ zeros (buf_len - 2 * Z.of_nat (length bytes)))
  else None.
Definition esif_sha_tostring (self : option esif_sha_t) (buf_len : Z) : option (list Z) :=
  match self with Some s => if blocksize s =? 0 then esif_hash_tostring (hash_bytes s) buf_len else None | None => None end.

(* ------------------------------------------------------------------ *)
(** ** What the streaming code computes, block by block

    A message is padded with a one bit, zeros and its length in bits, to whole blocks
    of 64 bytes, which are transformed one after the other; the words of the result
    are written with their highest byte first.  That this is the standard's hash
    (ShaStd.v) is shown at the end. *)

Definition be_bytes (n : nat) (x : Z) : list Z := rev (word_bytes n x).
Definition padding (len : Z) : list Z := 0x80 :: zeros ((55 - len) mod 64) ++ be_bytes 8 (u64 (8 * len)).
Fixpoint absorb (transform : list Z -> list Z -> list Z) (n : nat) (h msg : list Z) : list Z :=
  match n with O => h | S n => absorb transform n (transform h (take 64 msg)) (drop 64 msg) end.
Definition sha_of (transform : list Z -> list Z -> list Z) (iv msg : list Z) : list Z :=
  let p := msg ++ padding (Z.of_nat (length msg)) in concat (map (be_bytes 4) (absorb transform (length p / 64) iv p)).

Definition transform_of (type : Z) : list Z -> list Z -> list Z := if type =? SHA1_TYPE then esif_sha1_transform else esif_sha256_transform.
Definition iv_of (type : Z) : list Z := if type =? SHA1_TYPE then sha1_iv else sha256_iv.

(* ------------------------------------------------------------------ *)
(** ** Bytes *)

(** The eight or four bytes of a word in reverse, bit by bit. *)

Lemma byte_ext x y : (forall k, 0 <= k < 8 -> Z.testbit x k = Z.testbit y k) -> Z.land x 255 = Z.land y 255.
Proof.
  intros Hk. apply Z.bits_inj'. intros n Hn. rewrite !Z.land_spec. destruct (decide (n < 8)) as [Hlt|Hge]; [by rewrite Hk by lia|].
  change 255 with (Z.ones 8). rewrite Z.ones_spec_high by lia. by rewrite !andb_false_r.
Qed.
Lemma below8 k : 0 <= k < 8 -> k = 0 \/ k = 1 \/ k = 2 \/ k = 3 \/ k = 4 \/ k = 5 \/ k = 6 \/ k = 7.
Proof. lia. Qed.
Lemma high_bits w a n : 0 <= a < 2 ^ w -> 0 <= w <= n -> Z.testbit a n = false.
Proof. intros Ha Hn. rewrite <- (Z.mod_small a (2 ^ w)) by done. apply Z.mod_pow2_bits_high. lia. Qed.

(** Each bit of a reordered word is one bit of the word. *)
Ltac bits_of a w Ha :=
  intros k Hk; rewrite ?Z.shiftr_spec by lia;
  pose proof (fun n => high_bits w a n Ha) as Hhi; pose proof (Z.testbit_neg_r a) as Hneg;
  destruct (below8 k Hk) as [-> | [-> | [-> | [-> | [-> | [-> | [-> | ->]]]]]]];
  rewrite ?Z.lor_spec, ?wrap_testbit, ?Z.shiftl_spec, ?Z.shiftr_spec, ?Z.land_spec by lia;
  revert Hhi Hneg; generalize (Z.testbit a); clear; intros f Hhi Hneg;
  repeat match goal with
    | |- context [f ?n] => let m := eval vm_compute in n in progress change (f n) with (f m)
    | |- context [Z.testbit ?c ?n] => let m := eval vm_compute in (Z.testbit c n) in change (Z.testbit c n) with m
    | |- context [Z.ltb ?c ?n] => let m := eval vm_compute in (Z.ltb c n) in change (Z.ltb c n) with m
    end;
  rewrite ?andb_true_r, ?andb_false_r, ?orb_false_r, ?orb_false_l; repeat match goal with |- context [f ?n] => first [rewrite (Hneg n) by lia | rewrite (Hhi n) by lia] end;
  cbn [andb orb]; rewrite ?andb_true_r, ?andb_false_r, ?orb_false_r, ?orb_false_l; try reflexivity.

Lemma reorder_bytes a : 0 <= a < 2 ^ 32 -> word_bytes 4 (REORDERBYTES a) = be_bytes 4 a.
Proof.
  intros Ha. unfold be_bytes. cbn [word_bytes rev app]. rewrite !Z.shiftr_shiftr by lia. cbn [Z.add Pos.add].
  refine (f_equal2 cons _ (f_equal2 cons _ (f_equal2 cons _ (f_equal2 cons _ eq_refl)))); apply byte_ext; unfold REORDERBYTES.
  all: bits_of a 32 Ha.
Qed.
Lemma reorder64_bytes a : 0 <= a < 2 ^ 64 -> word_bytes 8 (REORDERBYTES64 a) = be_bytes 8 a.
Proof.
  intros Ha. unfold be_bytes. cbn [word_bytes rev app]. rewrite !Z.shiftr_shiftr by lia. cbn [Z.add Pos.add].
  refine (f_equal2 cons _ (f_equal2 cons _ (f_equal2 cons _ (f_equal2 cons _ (f_equal2 cons _ (f_equal2 cons _ (f_equal2 cons _ (f_equal2 cons _ eq_refl))))))));
    apply byte_ext; unfold REORDERBYTES64.
  all: bits_of a 64 Ha.
Qed.

(* ------------------------------------------------------------------ *)
(** ** Words stay words *)

Definition word (x : Z) : Prop := 0 <= x < 2 ^ 32.
Definition digest (type : Z) (h : list Z) : Prop := length h = length (iv_of type) /\ Forall word h.

Lemma u32_word x : word (u32 x).
Proof. unfold word, wrap. apply Z.mod_pos_bound. lia. Qed.
Lemma add_words_ok h chunk : length chunk = length h -> length (add_words h chunk) = length h /\ Forall word (add_words h chunk).
Proof.
  intros Hl. unfold add_words. split; [rewrite length_zip_with; lia|]. apply Forall_forall. intros x Hx. apply list_elem_of_lookup in Hx as [i Hi]. apply lookup_zip_with_Some in Hi as (a & b & -> & _). apply u32_word.
Qed.
Lemma fold_length (f : list Z -> nat -> list Z) n l : (forall h i, length h = n -> length (f h i) = n) -> forall h, length h = n -> length (fold_left f l h) = n.
Proof. intros Hf. induction l as [|i l IH]; intros h Hh; cbn [fold_left]; [done|]. by apply IH, Hf. Qed.
Lemma sha1_round_length r h i : length h = 5%nat -> length (sha1_round r h i) = 5%nat.
Proof. destruct h as [|a [|b [|c [|d [|e [|]]]]]]; try done. Qed.
Lemma sha256_round_length r h i : length h = 8%nat -> length (sha256_round r h i) = 8%nat.
Proof. destruct h as [|a [|b [|c [|d [|e [|f [|g [|x [|]]]]]]]]]; try done. Qed.
Lemma transform_digest type h b : digest type h -> digest type (transform_of type h b).
Proof.
  unfold digest, transform_of, iv_of. destruct (type =? SHA1_TYPE); intros [Hl _]; cbn [length sha1_iv sha256_iv] in *.
  - unfold esif_sha1_transform. rewrite <- Hl. apply add_words_ok. rewrite Hl. by apply fold_length; [intros; apply sha1_round_length|].
  - unfold esif_sha256_transform. rewrite <- Hl. apply add_words_ok. rewrite Hl. by apply fold_length; [intros; apply sha256_round_length|].
Qed.
Lemma iv_digest type : digest type (iv_of type).
Proof. unfold digest, iv_of. destruct (type =? SHA1_TYPE); (split; [done|]); repeat constructor; unfold word; lia. Qed.
Lemma absorb_digest type n : forall h m, digest type h -> digest type (absorb (transform_of type) n h m).
Proof. induction n as [|n IH]; intros h m Hh; cbn [absorb]; [done|]. apply IH. by apply transform_digest. Qed.

(** Absorbing in two parts. *)
Lemma absorb_app tr n : forall h p q m, length p = (64 * n)%nat -> absorb tr (n + m) h (p ++ q) = absorb tr m (absorb tr n h p) q.
Proof.
  induction n as [|n IH]; intros h p q m Hp; [by apply nil_length_inv in Hp as ->|]. cbn [absorb Nat.add]. rewrite take_app_le, drop_app_le by lia. apply IH. rewrite length_drop. lia.
Qed.
Lemma absorb_one tr h b q : length b = 64%nat -> absorb tr 1 h (b ++ q) = tr h b.
Proof. intros Hb. cbn [absorb]. by rewrite take_app_le, firstn_all2 by lia. Qed.

Lemma absorb_step tr n h p b : length p = (64 * n)%nat -> length b = 64%nat -> absorb tr (S n) h (p ++ b) = tr (absorb tr n h p) b.
Proof. intros Hp Hb. rewrite <- Nat.add_1_r, absorb_app by done. by rewrite <- (app_nil_r b), absorb_one, app_nil_r by done. Qed.

(* ------------------------------------------------------------------ *)
(** ** The state after some data *)

Definition known (type : Z) : Prop := type = SHA1_TYPE \/ type = SHA256_TYPE.
(** [p] has been absorbed, [r] is in the block. *)
Record sha_ok (type : Z) (msg : list Z) (s : esif_sha_t) (n : nat) (p r : list Z) : Prop := {
  so_type : hashtype s = type;
  so_size : hashsize s = 4 * Z.of_nat (length (iv_of type));
  so_block_size : blocksize s = 64;
  so_msg : msg = p ++ r;
  so_p : length p = (64 * n)%nat;
  so_r : (length r < 64)%nat;
  so_hash : hash s = absorb (transform_of type) n (iv_of type) p;
  so_block : length (block s) = 64%nat /\ take (length r) (block s) = r;
  so_used : blockused s = Z.of_nat (length r);
  so_bits : digest_bits s = u64 (512 * Z.of_nat n)
}.

Lemma init_sha_ok type : known type -> sha_ok type [] (esif_sha_init type) 0 [] [].
Proof. intros [-> | ->]; (split; [reflexivity|reflexivity|reflexivity|reflexivity|reflexivity|cbn; lia|reflexivity|by split|reflexivity|reflexivity]). Qed.

Lemma transform_known type s : known type -> hashtype s = type -> esif_sha_transform s = with_hash (transform_of type (hash s) (block s)) s.
Proof. intros [-> | ->] Ht; unfold esif_sha_transform; by rewrite Ht. Qed.

Lemma copy_at_fill b r d : length b = 64%nat -> take (length r) b = r -> (length r + length d = 64)%nat -> copy_at b (Z.of_nat (length r)) d = r ++ d.
Proof.
  intros Hb Hr Hl. unfold copy_at. rewrite Nat2Z.id, Hr. rewrite drop_ge by lia. by rewrite app_nil_r.
Qed.
Lemma copy_at_part b r d : length b = 64%nat -> take (length r) b = r -> (length r + length d <= 64)%nat ->
  length (copy_at b (Z.of_nat (length r)) d) = 64%nat /\ take (length (r ++ d)) (copy_at b (Z.of_nat (length r)) d) = r ++ d.
Proof.
  intros Hb Hr Hl. unfold copy_at. rewrite Nat2Z.id, Hr. split; [rewrite !length_app, length_drop; lia|]. by rewrite app_assoc, take_app_length.
Qed.

Lemma update_loop_ok type : known type -> forall k octets msg s n p r, sha_ok type msg s n p r -> (length octets <= k)%nat ->
  exists n' p' r', sha_ok type (msg ++ octets) (update_loop k s octets) n' p' r'.
Proof.
  intros Hk. induction k as [|k IH]; intros octets msg s n p r [A B C D E F G [I1 I2] J K] Hlen; cbn [update_loop]; rewrite C, J.
  - assert (octets = []) as -> by (destruct octets; [done|cbn in Hlen; lia]). rewrite (proj2 (Z.leb_gt _ _)) by (cbn; lia). exists n, p, r.
    destruct (copy_at_part (block s) r [] I1 I2) as [C1 C2]; [cbn; lia|]. rewrite app_nil_r in C2. split; cbn; try done; [by rewrite app_nil_r|]. rewrite Z.add_0_r. apply wrap_small. unfold in_range. lia.
  - destruct (Z.leb_spec 64 (Z.of_nat (length r) + Z.of_nat (length octets))) as [Hge|Hlt].
    + set (m := Z.to_nat (64 - Z.of_nat (length r))). assert (Hm : (length (take m octets) = m)%nat) by (rewrite length_take; lia).
      assert (Hfill : copy_at (block s) (Z.of_nat (length r)) (take m octets) = r ++ take m octets) by (apply copy_at_fill; [done|done|rewrite Hm; lia]). rewrite Hfill.
      rewrite (transform_known type) by done. set (s1 := with_block _ 0 _).
      destruct (IH (drop m octets) (msg ++ take m octets) s1 (S n) (p ++ r ++ take m octets) []) as (n' & p' & r' & Hok); [|rewrite length_drop; lia|].
      * unfold s1. split; cbn; try done.
        -- rewrite D, app_nil_r, <- app_assoc. done.
        -- rewrite !length_app, Hm. lia.
        -- lia.
        -- rewrite G. symmetry. apply (absorb_step _ n _ p (r ++ take m octets)); [done|rewrite length_app, Hm; lia].
        -- split; [rewrite length_app, Hm; lia|done].
        -- rewrite K. unfold wrap. rewrite Zplus_mod_idemp_l. f_equal. lia.
      * exists n', p', r'. by rewrite <- app_assoc, take_drop in Hok.
    + exists n, p, (r ++ octets). destruct (copy_at_part (block s) r octets I1 I2) as [C1 C2]; [lia|]. split; cbn; try done.
      * by rewrite D, app_assoc.
      * rewrite length_app. lia.
      * rewrite length_app, Nat2Z.inj_add. apply wrap_small. unfold in_range. lia.
Qed.

Lemma usable_ok type msg s n p r : sha_ok type msg s n p r -> usable s = true.
Proof. intros [A B C D E F G I J K]. unfold usable. rewrite C, J. rewrite (proj2 (Z.ltb_lt _ _)) by lia. done. Qed.

Lemma sha_update_ok type msg s n p r octets : known type -> sha_ok type msg s n p r -> exists s' n' p' r', esif_sha_update (Some s) (Some octets) = Some s' /\ sha_ok type (msg ++ octets) s' n' p' r'.
Proof.
  intros Hk Hok. unfold esif_sha_update. rewrite (usable_ok _ _ _ _ _ _ Hok), andb_true_r. destruct (Z.ltb_spec 0 (Z.of_nat (length octets))) as [Hpos|Hz].
  - destruct (update_loop_ok type Hk (length octets) octets msg s n p r Hok ltac:(lia)) as (n' & p' & r' & H'). by exists (update_loop (length octets) s octets), n', p', r'.
  - assert (octets = []) as -> by (destruct octets; [done|cbn in Hz; lia]). exists s, n, p, r. by rewrite app_nil_r.
Qed.

(* ------------------------------------------------------------------ *)
(** ** The end *)

Lemma zeros_app a b : 0 <= a -> 0 <= b -> zeros a ++ zeros b = zeros (a + b).
Proof. intros Ha Hb. unfold zeros. rewrite <- replicate_add. f_equal. lia. Qed.
Lemma length_zeros a : 0 <= a -> Z.of_nat (length (zeros a)) = a.
Proof. intros Ha. unfold zeros. rewrite length_replicate. lia. Qed.
Lemma take_zeros k a : 0 <= k <= a -> take (Z.to_nat k) (zeros a) = zeros k.
Proof. intros Hk. unfold zeros. rewrite take_replicate. f_equal. lia. Qed.
Lemma sha_le_bytes_length n x : length (word_bytes n x) = n.
Proof. revert x. induction n as [|n IH]; intros x; cbn; [done|]. by rewrite IH. Qed.
Lemma be_bytes_length n x : length (be_bytes n x) = n.
Proof. unfold be_bytes. by rewrite length_rev, sha_le_bytes_length. Qed.

Lemma concat_length4 (f : Z -> list Z) l : (forall x, length (f x) = 4%nat) -> length (concat (map f l)) = (4 * length l)%nat.
Proof. intros Hf. induction l as [|x l IH]; cbn [map concat length]; [done|]. rewrite length_app, IH, Hf. lia. Qed.

(** The result, as bytes. *)
Lemma output_bytes type h s : digest type h -> hashsize s = 4 * Z.of_nat (length (iv_of type)) ->
  hash_bytes (with_hash (map REORDERBYTES (take (Z.to_nat (hashsize s / 4)) h) ++ drop (Z.to_nat (hashsize s / 4)) h) s) = concat (map (be_bytes 4) h).
Proof.
  intros [Hl Hw] Hs. rewrite Hs. rewrite Z.mul_comm, Z.div_mul, Nat2Z.id by lia. rewrite <- Hl, firstn_all, drop_all, app_nil_r. unfold hash_bytes. cbn [hashsize hash with_hash]. rewrite Hs, map_map.
  rewrite firstn_all2; [|rewrite concat_length4 by (intros; apply sha_le_bytes_length); rewrite Hl; lia]. f_equal. apply map_ext_in. intros x Hx. apply reorder_bytes. apply list_elem_of_In in Hx. by eapply Forall_forall in Hw.
Qed.

Lemma copy_all b a : length b = Z.to_nat a -> copy_at b 0 (zeros a) = zeros a.
Proof. intros Hb. unfold copy_at. cbn [Z.to_nat take app]. rewrite drop_ge, app_nil_r; [done|]. unfold zeros. rewrite length_replicate. lia. Qed.

(** Where the length goes. *)
Lemma length_at_end b bits : length b = 64%nat -> 0 <= bits < 2 ^ 64 -> copy_at b (64 - 8) (word_bytes 8 (REORDERBYTES64 bits)) = take 56 b ++ be_bytes 8 bits.
Proof.
  intros Hb Hbits. unfold copy_at. rewrite reorder64_bytes by done. change (Z.to_nat (64 - 8)) with 56%nat. rewrite be_bytes_length, drop_ge, app_nil_r by lia. done.
Qed.

Lemma finish_block type s : known type -> hashtype s = type -> hashsize s = 4 * Z.of_nat (length (iv_of type)) -> blocksize s = 64 -> length (block s) = 64%nat -> digest type (hash s) -> 0 <= digest_bits s < 2 ^ 64 ->
  hash_bytes (finish_hash s) = concat (map (be_bytes 4) (transform_of type (hash s) (take 56 (block s) ++ be_bytes 8 (digest_bits s)))).
Proof.
  intros Hk Ht Hs Hb Hl Hd Hbits. unfold finish_hash. assert (Hknown : (hashtype s =? SHA1_TYPE) || (hashtype s =? SHA256_TYPE) = true) by (rewrite Ht; by destruct Hk as [-> | ->]).
  rewrite Hknown, Hb, length_at_end by done. rewrite (transform_known type) by done. cbn [hash with_hash with_block block]. apply (output_bytes type); [|done]. by apply transform_digest.
Qed.

Lemma sha_finish_ok type msg s n p r : known type -> sha_ok type msg s n p r -> exists s', esif_sha_finish (Some s) = Some s' /\ hash_bytes s' = sha_of (transform_of type) (iv_of type) msg.
Proof.
  intros Hk Hok. pose proof (usable_ok _ _ _ _ _ _ Hok) as Hus. destruct Hok as [A B C D E F G [I1 I2] J K]. unfold esif_sha_finish. rewrite Hus. cbn [negb]. eexists. split; [reflexivity|].
  set (b1 := r ++ 0x80 :: zeros (63 - Z.of_nat (length r))).
  assert (Hb1 : copy_at (block s) (blockused s) (0x80 :: zeros (blocksize s - blockused s - 1)) = b1).
  { rewrite C, J. replace (64 - Z.of_nat (length r) - 1) with (63 - Z.of_nat (length r)) by lia. apply copy_at_fill; [done|done|]. cbn [length]. pose proof (length_zeros (63 - Z.of_nat (length r)) ltac:(lia)). lia. }
  assert (Hl1 : length b1 = 64%nat) by (unfold b1; rewrite length_app; cbn [length]; pose proof (length_zeros (63 - Z.of_nat (length r)) ltac:(lia)); lia).
  rewrite Hb1. cbn [blocksize blockused with_block]. rewrite C, J. change (64 - 8) with 56.
  match goal with |- context [finish_hash (add_bits _ ?x)] => set (s2 := x) end.
  assert (H2 : hashtype s2 = type /\ hashsize s2 = hashsize s /\ blocksize s2 = 64 /\ digest_bits s2 = digest_bits s /\ blockused s2 = Z.of_nat (length r)).
  { unfold s2. destruct (56 <=? _); [rewrite (transform_known type) by done|]; cbn; done. }
  destruct H2 as (H2a & H2b & H2c & H2d & H2e). set (bits := u64 (8 * Z.of_nat (length msg))).
  assert (Hmsg : Z.of_nat (length msg) = 64 * Z.of_nat n + Z.of_nat (length r)) by (rewrite D, length_app, E; lia).
  assert (Hbits : digest_bits (add_bits (Z.of_nat (length r) * 8) s2) = bits).
  { unfold add_bits, bits. cbn [digest_bits]. rewrite H2d, K. unfold wrap. rewrite Zplus_mod_idemp_l. f_equal. lia. }
  assert (Hrange : 0 <= bits < 2 ^ 64) by (apply Z.mod_pos_bound; lia).
  assert (Hdig : digest type (hash s)) by (rewrite G; apply absorb_digest, iv_digest).
  assert (Hs2 : length (block s2) = 64%nat /\ digest type (hash s2) /\
    transform_of type (hash s2) (take 56 (block s2) ++ be_bytes 8 bits) = absorb (transform_of type) (length (msg ++ padding (Z.of_nat (length msg))) / 64) (iv_of type) (msg ++ padding (Z.of_nat (length msg)))).
  { set (q := padding _). unfold s2. destruct (Z.leb_spec 56 (Z.of_nat (length r))) as [Hge|Hlt].
    - rewrite (transform_known type) by done. cbn [block hash blocksize with_block with_hash]. rewrite C, copy_all by done. split; [reflexivity|]. split; [by apply transform_digest|]. rewrite <- (take_zeros 56 64) at 1 by lia.
      assert (Hq : msg ++ q = (p ++ b1) ++ zeros 56 ++ be_bytes 8 bits).
      { unfold q, padding, b1. rewrite D, <- !app_assoc. f_equal. f_equal. cbn [app]. f_equal. rewrite app_assoc. rewrite zeros_app by lia. f_equal; [|by rewrite <- D]. f_equal. rewrite <- D, Hmsg. Z.to_euclidean_division_equations. lia. }
      assert (Hlast : length (zeros 56 ++ be_bytes 8 bits) = 64%nat) by (rewrite length_app, be_bytes_length; done).
      assert (Hlen : (length (msg ++ q) / 64 = S (S n))%nat) by (rewrite Hq, !length_app, E, Hl1, <- length_app, Hlast; apply Nat2Z.inj; rewrite Nat2Z.inj_div; Z.to_euclidean_division_equations; lia).
      rewrite Hlen, Hq, absorb_step by (try done; rewrite length_app; lia). rewrite absorb_step by done. by rewrite G.
    - cbn [block hash with_block]. split; [done|]. split; [done|].
      assert (Hq : msg ++ q = p ++ take 56 b1 ++ be_bytes 8 bits).
      { unfold q, padding, b1. rewrite D, <- !app_assoc. f_equal. rewrite take_app_ge by lia. rewrite <- app_assoc. f_equal.
        replace (56 - length r)%nat with (S (Z.to_nat (55 - Z.of_nat (length r)))) by lia. cbn [take app]. f_equal. rewrite take_zeros by lia. f_equal; [|by rewrite <- D]. f_equal. rewrite <- D, Hmsg. Z.to_euclidean_division_equations. lia. }
      assert (Hlast : length (take 56 b1 ++ be_bytes 8 bits) = 64%nat) by (rewrite length_app, be_bytes_length, length_take; lia).
      assert (Hlen : (length (msg ++ q) / 64 = S n)%nat) by (rewrite Hq, length_app, E, Hlast; apply Nat2Z.inj; rewrite Nat2Z.inj_div; Z.to_euclidean_division_equations; lia).
      rewrite Hlen, Hq, absorb_step by done. by rewrite G. }
  destruct Hs2 as (Hs2a & Hs2b & Hs2c). unfold sha_of. rewrite <- Hs2c.
  assert (Hfin := finish_block type (add_bits (Z.of_nat (length r) * 8) s2) Hk H2a ltac:(cbn; congruence) H2c Hs2a Hs2b ltac:(by rewrite Hbits)). rewrite Hbits in Hfin. rewrite H2e. exact Hfin.
Qed.

(* ------------------------------------------------------------------ *)
(** ** Hashing a message in parts *)

Definition update_all (s : option esif_sha_t) (parts : list (list Z)) : option esif_sha_t :=
  fold_left (fun s part => esif_sha_update s (Some part)) parts s.

Lemma update_all_ok type parts : known type -> forall msg s n p r, sha_ok type msg s n p r ->
  exists s' n' p' r', update_all (Some s) parts = Some s' /\ sha_ok type (msg ++ concat parts) s' n' p' r'.
Proof.
  intros Hk. induction parts as [|o parts IH]; intros msg s n p r Hok; cbn [concat].
  - exists s, n, p, r. by rewrite app_nil_r.
  - destruct (sha_update_ok type msg s n p r o Hk Hok) as (s1 & n1 & p1 & r1 & Hu & Hok1). unfold update_all. cbn [fold_left]. rewrite Hu, app_assoc. by apply (IH (msg ++ o) s1 n1 p1 r1).
Qed.

(* ------------------------------------------------------------------ *)
(** ** The code's transformations are the standard's *)

Lemma lor_sum x y n : 0 <= n -> 0 <= y < 2 ^ n -> Z.lor (x * 2 ^ n) y = x * 2 ^ n + y.
Proof.
  intros Hn Hy. rewrite <- Z.shiftl_mul_pow2 by done. rewrite <- Z.add_lor_land. assert (Z.land (Z.shiftl x n) y = 0) as ->; [|lia].
  apply Z.bits_inj'. intros k Hk. rewrite Z.land_spec, Z.bits_0. destruct (decide (k < n)); [by rewrite Z.shiftl_spec_low|].
  rewrite (high_bits n y k) by lia. apply andb_false_r.
Qed.
Lemma left_rotl a b : word a -> 0 < b < 32 -> LEFTROTATE a b = ROTL b a.
Proof.
  intros Ha Hb. unfold LEFTROTATE, ROTL, wrap, W32, word in *. rewrite Z.shiftl_mul_pow2, Z.shiftr_div_pow2 by lia.
  replace (2 ^ 32) with (2 ^ (32 - b) * 2 ^ b) in * by (rewrite <- Z.pow_add_r by lia; f_equal; lia). assert (0 < 2 ^ b) by (apply Z.pow_pos_nonneg; lia). assert (0 < 2 ^ (32 - b)) by (apply Z.pow_pos_nonneg; lia).
  rewrite Z.mul_mod_distr_r by lia. apply lor_sum; [lia|]. split; [apply Z.div_pos; lia|]. apply Z.div_lt_upper_bound; [lia|]. lia.
Qed.
Lemma right_rotr a b : word a -> 0 < b < 32 -> RIGHTROTATE a b = ROTR b a.
Proof. intros Ha Hb. unfold ROTR. rewrite <- left_rotl by (done || lia). unfold RIGHTROTATE, LEFTROTATE. rewrite Z.lor_comm. by replace (32 - (32 - b)) with b by lia. Qed.
Lemma u32_add32 x l : x = foldr Z.add 0 l -> u32 x = add32 l.
Proof. by intros ->. Qed.
Lemma ldiff_not x z : Z.land (Z.lnot x) z = Z.ldiff z x.
Proof. by rewrite Z.ldiff_land, Z.land_comm. Qed.

Lemma add32_word l : word (add32 l).
Proof. apply Z.mod_pos_bound. unfold W32. lia. Qed.
Lemma rotl_word n x : word x -> 0 < n < 32 -> word (ROTL n x).
Proof.
  intros Hx Hn. unfold ROTL, W32, word in *. assert (0 < 2 ^ n) by (apply Z.pow_pos_nonneg; lia). assert (0 < 2 ^ (32 - n)) by (apply Z.pow_pos_nonneg; lia).
  assert (E : 2 ^ 32 = 2 ^ (32 - n) * 2 ^ n) by (rewrite <- Z.pow_add_r by lia; f_equal; lia). rewrite E, Z.mul_mod_distr_r by lia.
  assert (0 <= x / 2 ^ (32 - n) < 2 ^ n) by (split; [apply Z.div_pos; lia|apply Z.div_lt_upper_bound; lia]). pose proof (Z.mod_pos_bound x (2 ^ (32 - n)) ltac:(lia)). nia.
Qed.
Lemma nth_word l i : Forall word l -> word (nth i l 0).
Proof. intros Hl. destruct (lt_dec i (length l)) as [Hi|Hi]; [|rewrite nth_overflow by lia; unfold word; lia]. eapply Forall_forall; [exact Hl|]. apply list_elem_of_In, nth_In, Hi. Qed.

(** The words of a block. *)
Lemma word_bits x : 0 <= x -> (forall n, 32 <= n -> Z.testbit x n = false) -> word x.
Proof.
  intros H0 Hx. assert (x mod 2 ^ 32 = x) as <-; [|apply Z.mod_pos_bound; lia]. apply Z.bits_inj'. intros n Hn.
  destruct (decide (n < 32)); [by rewrite Z.mod_pow2_bits_low by lia|]. by rewrite Z.mod_pow2_bits_high, Hx by lia.
Qed.
Lemma lor_word x y : word x -> word y -> word (Z.lor x y).
Proof.
  intros Hx Hy. apply word_bits; [apply Z.lor_nonneg; unfold word in *; lia|]. intros n Hn. rewrite Z.lor_spec. by rewrite (high_bits 32 x), (high_bits 32 y) by (done || lia).
Qed.
Lemma masked_word a m k : 0 <= m < 2 ^ 32 -> word a -> 0 <= k -> word (Z.shiftr (Z.land a m) k).
Proof.
  intros Hm Ha Hk. apply word_bits; [apply Z.shiftr_nonneg, Z.land_nonneg; unfold word in *; lia|]. intros n Hn. rewrite Z.shiftr_spec, Z.land_spec by lia. by rewrite (high_bits 32 m) by (done || lia); apply andb_false_r.
Qed.
Lemma reorder_word a : word a -> word (REORDERBYTES a).
Proof.
  intros Ha. unfold REORDERBYTES. repeat apply lor_word; [apply u32_word|by apply masked_word| |].
  - apply word_bits; [apply Z.shiftl_nonneg, Z.land_nonneg; unfold word in *; lia|]. intros n Hn. rewrite Z.shiftl_spec, Z.land_spec by lia. rewrite (high_bits 24 0x0000ff00 (n - 8)) by lia. apply andb_false_r.
  - rewrite <- (Z.land_m1_r a). apply word_bits; [apply Z.shiftr_nonneg; rewrite Z.land_m1_r; unfold word in *; lia|]. intros n Hn. rewrite Z.shiftr_spec, Z.land_m1_r by lia. apply (high_bits 32); [done|lia].
Qed.
Lemma word_value x : word x -> x = foldr (fun b v => b + 256 * v) 0 (word_bytes 4 x).
Proof.
  intros Hx. cbn [word_bytes foldr]. change 255 with (Z.ones 8). rewrite !Z.land_ones, !Z.shiftr_div_pow2 by lia. unfold word in Hx. change (2 ^ 8) with 256. Z.to_euclidean_division_equations. lia.
Qed.
Definition octet (x : Z) : Prop := 0 <= x < 256.
Lemma reorder_value a b c d : octet a -> octet b -> octet c -> octet d -> REORDERBYTES (a + 256 * b + 65536 * c + 16777216 * d) = from_bytes [a; b; c; d].
Proof.
  unfold octet. intros Ha Hb Hc Hd. set (x := a + 256 * b + 65536 * c + 16777216 * d). assert (Hx : word x) by (unfold word, x; lia).
  rewrite (word_value (REORDERBYTES x)) by (by apply reorder_word). rewrite reorder_bytes by done. assert (word_bytes 4 x = [a; b; c; d]) as Ex.
  { cbn [word_bytes]. change 255 with (Z.ones 8). rewrite !Z.land_ones, !Z.shiftr_div_pow2 by lia. change (2 ^ 8) with 256.
    assert (E1 : x / 256 = b + 256 * c + 65536 * d) by (unfold x; Z.to_euclidean_division_equations; lia). assert (E2 : (b + 256 * c + 65536 * d) / 256 = c + 256 * d) by (Z.to_euclidean_division_equations; lia). assert (E3 : (c + 256 * d) / 256 = d) by (Z.to_euclidean_division_equations; lia).
    rewrite E1, E2, E3. repeat f_equal; unfold x; Z.to_euclidean_division_equations; lia. }
  unfold be_bytes. rewrite Ex. unfold from_bytes. cbn. lia.
Qed.
Lemma block_words_std n : forall b, length b = (4 * n)%nat -> Forall octet b -> block_words b = map from_bytes (groups 4 n b).
Proof.
  induction n as [|n IH]; intros b Hl Hb; [by destruct b|]. destruct b as [|x0 [|x1 [|x2 [|x3 b]]]]; cbn [length] in Hl; try lia.
  repeat (apply Forall_cons in Hb as [? Hb]). unfold block_words in *. cbn [le_words map groups take drop]. rewrite reorder_value by done. f_equal. apply IH; [rewrite drop_0; lia|by rewrite drop_0].
Qed.
Lemma block_words_word b : Forall octet b -> forall n, length b = (4 * n)%nat -> Forall word (block_words b).
Proof.
  intros Hb n. revert b Hb. induction n as [|n IH]; intros b Hb Hl; [by destruct b|]. destruct b as [|x0 [|x1 [|x2 [|x3 b]]]]; cbn [length] in Hl; try lia.
  repeat (apply Forall_cons in Hb as [? Hb]). unfold block_words in *. cbn [le_words map]. constructor; [|apply IH; [done|lia]]. apply reorder_word. unfold word, octet in *. lia.
Qed.

(** The message schedule. *)
Lemma schedule_std nextc nexts n : forall r, (16 <= length r)%nat -> Forall word r ->
  (forall r, (16 <= length r)%nat -> Forall word r -> nextc r (length r) = nexts (fun i => nth i r 0) (length r) /\ word (nextc r (length r))) ->
  schedule n nextc r = fold_left (fun w t => w ++ [nexts (fun i => nth i w 0) t]) (seq (length r) n) r /\ Forall word (schedule n nextc r).
Proof.
  induction n as [|n IH]; intros r Hl Hr Hn; cbn [schedule seq fold_left]; [done|]. destruct (Hn r Hl Hr) as [E Hw]. rewrite <- E.
  assert (El : length (r ++ [nextc r (length r)]) = S (length r)) by (rewrite length_app; cbn; lia). rewrite <- El. apply IH; [lia| |done]. apply Forall_app. split; [done|by apply Forall_singleton].
Qed.
Lemma lxor_word x y : word x -> word y -> word (Z.lxor x y).
Proof.
  intros Hx Hy. apply word_bits; [apply Z.lxor_nonneg; unfold word in *; lia|]. intros n Hn. rewrite Z.lxor_spec. by rewrite (high_bits 32 x), (high_bits 32 y) by (done || lia).
Qed.
Lemma sha1_next_std r : (16 <= length r)%nat -> Forall word r -> sha1_next r (length r) = next1 (fun i => nth i r 0) (length r) /\ word (sha1_next r (length r)).
Proof.
  intros _ Hr. unfold sha1_next, next1, XOR, at_. rewrite left_rotl; [|repeat apply lxor_word; by apply nth_word|lia]. split; [done|]. apply rotl_word; [repeat apply lxor_word; by apply nth_word|lia].
Qed.
Lemma sha256_next_std r : (16 <= length r)%nat -> Forall word r -> sha256_next r (length r) = next256 (fun i => nth i r 0) (length r) /\ word (sha256_next r (length r)).
Proof.
  intros _ Hr. split; [|apply u32_word]. unfold sha256_next, next256, at_. apply u32_add32. cbn [foldr]. unfold sigma0, sigma1, xor3, XOR, SHR. rewrite !right_rotr, !Z.shiftr_div_pow2 by (lia || by apply nth_word). lia.
Qed.

(** The rounds. *)
Ltac all_words := repeat (apply Forall_cons_2; [first [assumption|apply u32_word|apply add32_word|apply rotl_word; [assumption|lia]]|]); apply Forall_nil_2.
Lemma sha1_round_std w v t : (t < 80)%nat -> Forall word v -> sha1_round w v t = step1 w v t /\ Forall word (sha1_round w v t).
Proof.
  intros Ht Hv. destruct v as [|a [|b [|c [|d [|e [|]]]]]]; try done. repeat (apply Forall_cons in Hv as [? Hv]). unfold sha1_round, step1. rewrite !left_rotl by (done || lia).
  split; [|all_words]. f_equal. apply u32_add32. cbn [foldr]. unfold at_, f1.
  assert (E : exists q, (t / 20 = q)%nat /\ (q = 0 \/ q = 1 \/ q = 2 \/ q = 3)%nat) by (eexists; split; [reflexivity|]; pose proof (Nat.div_mod_eq t 20); pose proof (Nat.mod_upper_bound t 20); lia).
  unfold K1. pose proof (Nat.div_mod_eq t 20) as Em. pose proof (Nat.mod_upper_bound t 20 ltac:(lia)). destruct E as (q & E & [-> | [-> | [-> | ->]]]); rewrite E in *.
  - rewrite (proj2 (Nat.ltb_lt t 20)) by lia. unfold Ch. rewrite ldiff_not. change (root 2 _) with 0x5a827999. lia.
  - rewrite (proj2 (Nat.ltb_ge t 20)), (proj2 (Nat.ltb_lt t 40)) by lia. unfold Parity, XOR. change (root 2 _) with 0x6ed9eba1. lia.
  - rewrite (proj2 (Nat.ltb_ge t 20)), (proj2 (Nat.ltb_ge t 40)), (proj2 (Nat.ltb_lt t 60)) by lia. unfold Maj, XOR. change (root 2 _) with 0x8f1bbcdc. lia.
  - rewrite (proj2 (Nat.ltb_ge t 20)), (proj2 (Nat.ltb_ge t 40)), (proj2 (Nat.ltb_ge t 60)) by lia. unfold Parity, XOR. change (root 2 _) with 0xca62c1d6. lia.
Qed.
Lemma kvalues_std : kvalues = K256.
Proof. by vm_compute. Qed.
Lemma sha256_round_std w v t : Forall word v -> sha256_round w v t = step256 w v t /\ Forall word (sha256_round w v t).
Proof.
  intros Hv. destruct v as [|a [|b [|c [|d [|e [|f [|g [|h [|]]]]]]]]]; try done. repeat (apply Forall_cons in Hv as [? Hv]). unfold sha256_round, step256. rewrite kvalues_std, ldiff_not. unfold xor3. rewrite !right_rotr by (done || lia).
  assert (E1 : u32 (h + Z.lxor (Z.lxor (ROTR 6 e) (ROTR 11 e)) (ROTR 25 e) + Z.lxor (Z.land e f) (Z.ldiff g e) + at_ K256 t + at_ w t) = add32 [h; Sigma1 e; Ch e f g; nth t K256 0; nth t w 0]) by (apply u32_add32; cbn [foldr]; unfold Sigma1, XOR, Ch, at_; lia).
  assert (E2 : u32 (Z.lxor (Z.lxor (ROTR 2 a) (ROTR 13 a)) (ROTR 22 a) + Z.lxor (Z.lxor (Z.land a b) (Z.land a c)) (Z.land b c)) = add32 [Sigma0 a; Maj a b c]) by (apply u32_add32; cbn [foldr]; unfold Sigma0, Maj, XOR; lia).
  rewrite E1, E2. set (T1 := add32 [h; _; _; _; _]). set (T2 := add32 [_; _]). rewrite (u32_add32 (T1 + T2) [T1; T2]), (u32_add32 (d + T1) [d; T1]) by (cbn [foldr]; lia). split; [done|]. all_words.
Qed.
Lemma fold_std (f g : list Z -> nat -> list Z) l : (forall v t, t ∈ l -> Forall word v -> f v t = g v t /\ Forall word (f v t)) -> forall v, Forall word v -> fold_left f l v = fold_left g l v.
Proof.
  induction l as [|t l IH]; intros Hf v Hv; cbn [fold_left]; [done|]. destruct (Hf v t ltac:(left) Hv) as [E Hw]. rewrite <- E. apply IH; [|done]. intros. apply Hf; [by right|done].
Qed.
Lemma add_words_std h v : add_words h v = add_lists h v.
Proof. unfold add_words, add_lists. revert v. induction h as [|x h IH]; intros [|y v]; cbn; try done. f_equal; [|apply IH]. rewrite (u32_add32 _ [x; y]) by (cbn; lia). done. Qed.
(** A block. *)
Definition std_block (type : Z) : list Z -> list Z -> list Z := if type =? SHA1_TYPE then block1 else block256.
Definition std_hash (type : Z) : list Z -> list Z := if type =? SHA1_TYPE then SHA1 else SHA256.
Lemma transform_std type h b : Forall word h -> Forall octet b -> length b = 64%nat -> transform_of type h b = std_block type h b.
Proof.
  intros Hh Hb Hl. assert (Ew : block_words b = words b) by (by apply block_words_std). pose proof (block_words_word b Hb 16 Hl) as Hw.
  assert (E16 : length (block_words b) = 16%nat) by (rewrite Ew; done).
  unfold transform_of, std_block. destruct (type =? SHA1_TYPE).
  - unfold esif_sha1_transform, block1. destruct (schedule_std sha1_next next1 64 (block_words b) ltac:(lia) Hw sha1_next_std) as [Es _]. rewrite Es, E16, Ew. rewrite add_words_std. f_equal.
    apply (fold_std (sha1_round _) (step1 _)); [|done]. intros v t Ht Hv. apply sha1_round_std; [|done]. apply list_elem_of_In, in_seq in Ht. lia.
  - unfold esif_sha256_transform, block256. destruct (schedule_std sha256_next next256 48 (block_words b) ltac:(lia) Hw sha256_next_std) as [Es _]. rewrite Es, E16, Ew. rewrite add_words_std. f_equal.
    apply (fold_std (sha256_round _) (step256 _)); [|done]. intros v t _ Hv. by apply sha256_round_std.
Qed.
Lemma absorb_std type n : forall h m, digest type h -> Forall octet m -> length m = (64 * n)%nat -> absorb (transform_of type) n h m = fold_left (std_block type) (groups 64 n m) h.
Proof.
  induction n as [|n IH]; intros h m Hh Hm Hl; cbn [absorb groups fold_left]; [done|]. pose proof Hh as [_ Hw].
  rewrite <- (transform_std type h (take 64 m)) by (done || (by apply Forall_take) || (rewrite length_take; lia)). apply IH; [by apply transform_digest|by apply Forall_drop|rewrite length_drop; lia].
Qed.

(** Padding, and numbers in bytes. *)
Lemma word_bytes_digits n : forall x, word_bytes n x = map (fun i => x / 256 ^ Z.of_nat i mod 256) (seq 0 n).
Proof.
  induction n as [|n IH]; intros x; [done|]. cbn [word_bytes]. rewrite IH. change (seq 0 (S n)) with (0%nat :: seq 1 n). rewrite <- seq_shift, map_cons, map_map. change 255 with (Z.ones 8). rewrite Z.land_ones by lia. f_equal; [by rewrite Z.div_1_r|].
  apply map_ext. intros i. rewrite Z.shiftr_div_pow2, Z.div_div by (try apply Z.pow_pos_nonneg; lia). change (2 ^ 8) with 256. rewrite <- Z.pow_succ_r by lia. by rewrite Nat2Z.inj_succ.
Qed.
Lemma be_to_bytes n x : be_bytes n x = to_bytes n x.
Proof. unfold be_bytes, to_bytes. by rewrite word_bytes_digits, map_rev. Qed.
Lemma word_bytes_mod n : forall x, word_bytes n (x mod 256 ^ Z.of_nat n) = word_bytes n x.
Proof.
  induction n as [|n IH]; intros x; [done|]. cbn [word_bytes]. change 255 with (Z.ones 8). rewrite !Z.land_ones, !Z.shiftr_div_pow2 by lia. change (2 ^ 8) with 256.
  rewrite Nat2Z.inj_succ, Z.pow_succ_r by lia. assert (0 < 256 ^ Z.of_nat n) by (apply Z.pow_pos_nonneg; lia). rewrite Z.rem_mul_r by lia.
  assert (E1 : (x mod 256 + 256 * ((x / 256) mod 256 ^ Z.of_nat n)) mod 256 = x mod 256) by (rewrite Z.mul_comm, Z.mod_add by lia; apply Z.mod_mod; lia).
  assert (E2 : (x mod 256 + 256 * ((x / 256) mod 256 ^ Z.of_nat n)) / 256 = (x / 256) mod 256 ^ Z.of_nat n) by (rewrite Z.mul_comm, Z.div_add by lia; rewrite Z.div_small by (apply Z.mod_pos_bound; lia); lia).
  by rewrite E1, E2, IH.
Qed.
Lemma pad_std msg : msg ++ padding (Z.of_nat (length msg)) = pad msg.
Proof.
  unfold pad, padding, zeros. cbn [app]. do 3 f_equal. rewrite <- be_to_bytes. unfold be_bytes. f_equal. apply (word_bytes_mod 8).
Qed.
Lemma pad_octets msg : Forall octet msg -> Forall octet (pad msg).
Proof.
  intros Hm. assert (Hx : forall n x, Forall octet (to_bytes n x)).
  { intros n x. unfold to_bytes. apply Forall_forall. intros y Hy. apply list_elem_of_In, in_map_iff in Hy as (i & <- & _). apply Z.mod_pos_bound. lia. }
  unfold pad. rewrite !Forall_app. split_and!; [done|by apply Forall_singleton|apply Forall_replicate; done|apply Hx].
Qed.
Lemma pad_length msg : exists n, length (pad msg) = (64 * n)%nat.
Proof.
  rewrite <- pad_std, length_app. unfold padding. cbn [length]. rewrite length_app, be_bytes_length. pose proof (length_zeros ((55 - Z.of_nat (length msg)) mod 64) ltac:(apply Z.mod_pos_bound; lia)) as Hz.
  exists (Z.to_nat ((Z.of_nat (length msg) + 9 + (55 - Z.of_nat (length msg)) mod 64) / 64)). Z.to_euclidean_division_equations. lia.
Qed.
Lemma iv_std type : iv_of type = if type =? SHA1_TYPE then H1 else H256.
Proof. unfold iv_of. destruct (type =? SHA1_TYPE); by vm_compute. Qed.
Lemma sha_of_std type msg : Forall octet msg -> sha_of (transform_of type) (iv_of type) msg = std_hash type msg.
Proof.
  intros Hm. unfold sha_of. rewrite pad_std. destruct (pad_length msg) as [n Hn]. assert (En : (length (pad msg) / 64 = n)%nat) by (rewrite Hn, Nat.mul_comm; by apply Nat.div_mul). rewrite En.
  rewrite absorb_std; [|apply iv_digest|by apply pad_octets|done]. rewrite iv_std. unfold std_hash, std_block, SHA1, SHA256, digest_of. assert (Eb : blocks (pad msg) = groups 64 n (pad msg)) by (unfold blocks; by rewrite En). destruct (type =? SHA1_TYPE); rewrite Eb; f_equal; apply map_ext; intros; apply be_to_bytes.
Qed.

(* ------------------------------------------------------------------ *)
(** ** Hashing in parts is the standard's hash of the whole *)

(** C36: hashing in parts is the standard's hash of the whole.  For both types that the
    code supports, starting from a fresh object, and whatever parts a message of bytes is
    given in (empty ones, ones that straddle blocks, ones of many blocks), finishing
    leaves SHA-1 or SHA-256 of the parts together, as FIPS 180-4 defines them (ShaStd.v):
    the constants and the initial values, the schedule and the rounds, the order of the
    bytes in words, the padding and the length at the end are the standard's. *)
Theorem sha_streams (type : Z) (parts : list (list Z)) (Hk : known type) (Hparts : Forall (Forall octet) parts) :
  exists s', esif_sha_finish (update_all (Some (esif_sha_init type)) parts) = Some s' /\
             hash_bytes s' = (if type =? SHA1_TYPE then SHA1 (concat parts) else SHA256 (concat parts)).
Proof.
  destruct (update_all_ok type parts Hk [] _ _ _ _ (init_sha_ok type Hk)) as (s1 & n & p & r & -> & Hok). destruct (sha_finish_ok type _ _ n p r Hk Hok) as (s' & E & Eh). exists s'. split; [done|].
  rewrite Eh. cbn [app]. rewrite sha_of_std; [unfold std_hash; by destruct (type =? SHA1_TYPE)|]. by apply Forall_concat.
Qed.
Definition demo_parts : list (list Z) := [[97]; []; [98; 99]].
Lemma sha_streams_witness :
  known SHA256_TYPE /\ Forall (Forall octet) demo_parts /\
  exists s', esif_sha_finish (update_all (Some (esif_sha_init SHA256_TYPE)) demo_parts) = Some s' /\
             hash_bytes s' = (if SHA256_TYPE =? SHA1_TYPE then SHA1 (concat demo_parts) else SHA256 (concat demo_parts)).
Proof.
  assert (Hk : known SHA256_TYPE) by (by right).
  assert (Hp : Forall (Forall octet) demo_parts) by (unfold demo_parts, octet; repeat (apply Forall_cons_2; [|]); try apply Forall_nil_2; lia).
  exact (conj Hk (conj Hp (sha_streams SHA256_TYPE demo_parts Hk Hp))).
Defined.
