(* ===== verification/Ids.v ===== *)
(** * Numbers of primitives and GUIDs of events: Common/esif_sdk_primitive_type.h and
    Common/esif_sdk_event_guid.h *)

From Stdlib Require Import ZArith.
From stdpp Require Import base list.
Local Open Scope Z_scope.

(** ** [enum esif_primitive_type] *)

Definition GET_AC_PEAK_POWER : Z := 447.
Definition GET_ACTIVE_CONTROL_POINT_RELATIONSHIP_TABLE : Z := 424.
Definition GET_ACTIVE_RELATIONSHIP_TABLE : Z := 89.
Definition GET_ACTIVITY_COUNTER_WIDTH : Z := 575.
Definition GET_ACUR : Z := 414.
Definition GET_ADAPTER_POWER_RATING : Z := 296.
Definition GET_ADAPTIVE_PERFORMANCE_ACTIONS_TABLE : Z := 321.
Definition GET_ADAPTIVE_PERFORMANCE_CONDITIONS_TABLE : Z := 316.
Definition GET_ADAPTIVE_PERFORMANCE_PARTICIPANT_CONDITION_TABLE : Z := 406.
Definition GET_AGGREGATE_DISPLAY_INFORMATION : Z := 778.
Definition GET_AGGRESSIVENESS_LEVEL : Z := 748.
Definition GET_AP01 : Z := 416.
Definition GET_AP02 : Z := 418.
Definition GET_AP10 : Z := 420.
Definition GET_AUTO_ENUM_LIST : Z := 910.
Definition GET_AUTO_ENUM_LIST_MTL : Z := 946.
Definition GET_AVAILABLE_DEVICES : Z := 543.
Definition GET_AVOL : Z := 412.
Definition GET_BASELINE_SSC_GUARD_BAND : Z := 570.
Definition GET_BASELINE_SSC_SPREAD_VALUE : Z := 566.
Definition GET_BASELINE_SSC_THRESHOLD : Z := 568.
Definition GET_BATTERY_HIGH_FREQUENCY_IMPEDANCE : Z := 511.
Definition GET_BATTERY_INFORMATION : Z := 224.
Definition GET_BATTERY_MAX_PEAK_CURRENT : Z := 515.
Definition GET_BATTERY_NO_LOAD_VOLTAGE : Z := 513.
Definition GET_BATTERY_PARTICIPANT_CAPABILITY : Z := 964.
Definition GET_BATTERY_PERCENTAGE : Z := 667.
Definition GET_BATTERY_STATUS : Z := 223.
Definition GET_BIOMETRIC_PRESENCE_SENSOR_INSTANCE : Z := 776.
Definition GET_CAPABILITY_LIST : Z := 956.
Definition GET_CAPABILITY_LIST_MTL : Z := 957.
Definition GET_CHARGER_TYPE : Z := 297.
Definition GET_CLOCK_ORIGINAL_FREQUENCY : Z := 187.
Definition GET_CONFIG : Z := 344.
Definition GET_CONFIG_ACCESS_CONTROL_SUR : Z := 381.
Definition GET_CONFIG_DATAVAULT_DESCRIPTION : Z := 545.
Definition GET_CONFIG_DATAVAULT_SUR : Z := 345.
Definition GET_CONFIG_TDP_CONTROL : Z := 727.
Definition GET_CONFIG_TDP_LEVEL0 : Z := 729.
Definition GET_CONFIG_TDP_LEVEL1 : Z := 730.
Definition GET_CONFIG_TDP_LEVEL2 : Z := 731.
Definition GET_CONFIG_TDP_LOCK : Z := 728.
Definition GET_CORE_ACTIVITY_COUNTER : Z := 442.
Definition GET_CPU_RWEIGHT : Z := 924.
Definition GET_CPU_UTILIZATION : Z := 970.
Definition GET_CURRENT_CHARGING_RATE : Z := 966.
Definition GET_DC_PEAK_POWER : Z := 451.
Definition GET_DDR_DVFS_DATA_RATE : Z := 789.
Definition GET_DDR_DVFS_DATA_RATE_REG_HI : Z := 836.
Definition GET_DDR_DVFS_DATA_RATE_REG_LO : Z := 837.
Definition GET_DDR_DVFS_RFI_RESTRICTION_REG : Z := 838.
Definition GET_DDR_RFI_TABLE : Z := 770.
Definition GET_DEVICE_UNIQUE_ID : Z := 67.
Definition GET_DISENGAGED_STABILITY_WINDOW : Z := 737.
Definition GET_DISK_INFO : Z := 389.
Definition GET_DISPLAY_BRIGHTNESS : Z := 356.
Definition GET_DISPLAY_BRIGHTNESS_LEVELS : Z := 158.
Definition GET_DISPLAY_BRIGHTNESS_SOFT : Z := 157.
Definition GET_DISPLAY_CAPABILITY : Z := 159.
Definition GET_DISPLAY_DEPTH_LIMIT : Z := 160.
Definition GET_DLVR_PLL_FREQ_CHANGE_BUSY : Z := 894.
Definition GET_DLVR_REVISION : Z := 885.
Definition GET_DLVR_RFI_ENABLE : Z := 888.
Definition GET_DOMAIN_PRIORITY : Z := 178.
Definition GET_DYNAMIC_BOOST_STATE : Z := 801.
Definition GET_DYNAMIC_BOOST_STATE_SUR : Z := 802.
Definition GET_EMERGENCY_CALL_MODE_TABLE : Z := 385.
Definition GET_EPP_BATTERY_LIFE_BURSTY_THRESHOLD : Z := 781.
Definition GET_EPP_SENSITIVITY_HINT : Z := 564.
Definition GET_EPP_SENSITIVITY_HINT_MODEL : Z := 759.
Definition GET_ES_DISPLAY_REQUIRED : Z := 617.
Definition GET_EXPECTED_BATTERY_LIFE : Z := 747.
Definition GET_FAN_CAPABILITIES : Z := 495.
Definition GET_FAN_DIRECTION : Z := 742.
Definition GET_FAN_INFORMATION : Z := 84.
Definition GET_FAN_MODE_CAPABILITIES : Z := 832.
Definition GET_FAN_OPERATING_MODE : Z := 833.
Definition GET_FAN_PERFORMANCE_STATES : Z := 85.
Definition GET_FAN_SPEED_HIGH_THRESHOLD : Z := 902.
Definition GET_FAN_SPEED_HIGH_THRESHOLD_SUR : Z := 904.
Definition GET_FAN_SPEED_LOW_THRESHOLD : Z := 903.
Definition GET_FAN_SPEED_LOW_THRESHOLD_SUR : Z := 905.
Definition GET_FAN_SPEED_THRESHOLD_HYSTERESIS : Z := 870.
Definition GET_FAN_STATUS : Z := 86.
Definition GET_FAST_POLL_TIME : Z := 462.
Definition GET_FIVR_VERSION : Z := 652.
Definition GET_FIVR_VERSION_PLATFORM_SUR : Z := 672.
Definition GET_FIVR_VERSION_SUR : Z := 653.
Definition GET_GT_CLIP_REASONS : Z := 610.
Definition GET_GT_RWEIGHT : Z := 928.
Definition GET_HID_ACCESS_INFO : Z := 491.
Definition GET_HW_ID : Z := 973.
Definition GET_HW_SOC_WORKLOAD : Z := 919.
Definition GET_HWP_EPP_VALUE : Z := 825.
Definition GET_HWP_GUARANTEED_PERFORMANCE_LEVEL : Z := 844.
Definition GET_HWP_HIGHEST_PERFORMANCE_LEVEL : Z := 842.
Definition GET_HWP_LOWEST_PERFORMANCE_LEVEL : Z := 845.
Definition GET_HWP_MOST_EFFICIENT_PERFORMANCE_LEVEL : Z := 843.
Definition GET_HWPF_STATE : Z := 606.
Definition GET_IA_CLIP_REASONS : Z := 609.
Definition GET_INFO : Z := 439.
Definition GET_INSTANTANEOUS_POWER : Z := 481.
Definition GET_INTELLIGENT_THERMAL_MANAGEMENT_TABLE : Z := 765.
Definition GET_IOCTL : Z := 390.
Definition GET_IP_ALIGNMENT_SETTINGS : Z := 962.
Definition GET_IPU_RWEIGHT : Z := 925.
Definition GET_IS_BIOMETRIC_PRESENCE_SENSOR_CAPABLE : Z := 826.
Definition GET_IS_EXTERNAL_MONITOR_CONNECTED : Z := 665.
Definition GET_IS_FACE_DETECTION_CAPABLE : Z := 703.
Definition GET_LAST_EWMA_POWER : Z := 404.
Definition GET_LAST_HID_INPUT_TIME : Z := 618.
Definition GET_LAST_POWER_USED : Z := 402.
Definition GET_MBT_MODEL_VERSION : Z := 783.
Definition GET_MEDIA_RWEIGHT : Z := 927.
Definition GET_MINIMUM_SAMPLE_PERIOD : Z := 426.
Definition GET_NEGATIVE_EVENT_FILTERING_STATE : Z := 724.
Definition GET_NOT_PRESENT_STABILITY_WINDOW : Z := 739.
Definition GET_NOTIFICATION_TEMP_THRESHOLD : Z := 54.
Definition GET_NV_TGP_VALUE_AC : Z := 803.
Definition GET_NV_TGP_VALUE_DC : Z := 827.
Definition GET_OC_MBOX : Z := 830.
Definition GET_OEM_VARS : Z := 323.
Definition GET_OPTIMIZATION_SLIDER : Z := 947.
Definition GET_OPTIMIZATION_SLIDER_STATUS : Z := 949.
Definition GET_OS_FOREGROUND_APPLICATION : Z := 380.
Definition GET_PARTICIPANT_CAPABILITIES : Z := 952.
Definition GET_PARTICIPANT_ENERGY_THRESHOLD : Z := 472.
Definition GET_PARTICIPANT_FRIENDLY_NAME : Z := 868.
Definition GET_PARTICIPANT_HANDLE_LIST : Z := 958.
Definition GET_PARTICIPANT_MAX_CORE_UTILIZATION : Z := 944.
Definition GET_PARTICIPANT_PERF_PRESENT_CAPABILITY : Z := 176.
Definition GET_PARTICIPANT_RESIDENCY_UTILIZATION : Z := 443.
Definition GET_PARTICIPANT_SAMPLE_PERIOD : Z := 300.
Definition GET_PARTICIPANT_TYPE : Z := 139.
Definition GET_PARTICIPANT_UTILIZATION : Z := 138.
Definition GET_PARTICIPANT_UTILIZATION_SUR : Z := 804.
Definition GET_PARTICIPANT_UTILIZATION_THRESHOLD : Z := 470.
Definition GET_PASSIVE_RELATIONSHIP_TABLE : Z := 234.
Definition GET_PCIE_THROTTLING_OPTION : Z := 918.
Definition GET_PERF_PREFERENCE_MAX : Z := 793.
Definition GET_PERF_PREFERENCE_MIN : Z := 795.
Definition GET_PERF_PREFERENCE_RANGE : Z := 823.
Definition GET_PERF_PREFERENCE_RANGE_SUR : Z := 824.
Definition GET_PERF_PREFERENCE_SUR : Z := 821.
Definition GET_PERF_PSTATE_DEPTH_LIMIT : Z := 76.
Definition GET_PERF_SUPPORT_STATES : Z := 137.
Definition GET_PERF_SUPPORT_STATES_SUR : Z := 429.
Definition GET_PERFMON_FIXED_COUNTER : Z := 603.
Definition GET_PID_ALGORITHM_TABLE : Z := 410.
Definition GET_PID_KI_TERM : Z := 458.
Definition GET_PID_KP_TERM : Z := 456.
Definition GET_PID_TIME_AVERAGE_CONSTANT : Z := 460.
Definition GET_PLATFORM_BATTERY_STEADY_STATE : Z := 294.
Definition GET_PLATFORM_MAX_BATTERY_POWER : Z := 291.
Definition GET_PLATFORM_POWER_LIMIT : Z := 331.
Definition GET_PLATFORM_POWER_LIMIT_DUTY_CYCLE : Z := 337.
Definition GET_PLATFORM_POWER_LIMIT_ENABLE : Z := 332.
Definition GET_PLATFORM_POWER_LIMIT_TIME_WINDOW : Z := 333.
Definition GET_PLATFORM_POWER_SOURCE : Z := 295.
Definition GET_PLATFORM_REST_OF_POWER : Z := 298.
Definition GET_PORT : Z := 436.
Definition GET_POSITIVE_EVENT_FILTERING_STATE : Z := 686.
Definition GET_POWER_ALPHA : Z := 396.
Definition GET_POWER_BOSS_ACTIONS_TABLE : Z := 362.
Definition GET_POWER_BOSS_CONDITIONS_TABLE : Z := 360.
Definition GET_POWER_BOSS_MATH_TABLE : Z := 422.
Definition GET_POWER_DELTA : Z := 400.
Definition GET_POWER_SAMPLE_PERIOD : Z := 278.
Definition GET_POWER_SEED : Z := 398.
Definition GET_POWER_SHARE_EFFECTIVE_BIAS : Z := 660.
Definition GET_POWER_SHARE_POLICY_POWER : Z := 654.
Definition GET_POWER_SHARE_TEMPERATURE_THRESHOLD : Z := 468.
Definition GET_POWER_SHARING_ALGORITHM_TABLE : Z := 440.
Definition GET_POWER_SHARING_ALGORITHM_TABLE_2 : Z := 589.
Definition GET_POWERSHARE_POWER_LIMIT_TIME_WINDOW : Z := 752.
Definition GET_PPM_PARAM_VALUES : Z := 829.
Definition GET_PRESENT_STABILITY_WINDOW : Z := 733.
Definition GET_PROC_BRAND_MODIFIER : Z := 551.
Definition GET_PROC_HDC_OOB_ENABLE : Z := 326.
Definition GET_PROC_HWP_ENABLE : Z := 325.
Definition GET_PROC_HWP_SUPPORT_CHECK : Z := 311.
Definition GET_PROC_LOGICAL_PROCESSOR_AFFINITY : Z := 228.
Definition GET_PROC_LOGICAL_PROCESSOR_COUNT : Z := 101.
Definition GET_PROC_PER_CORE_CSTATE_RESIDENCY : Z := 314.
Definition GET_PROC_PERF_PRESENT_CAPABILITY : Z := 56.
Definition GET_PROC_PERF_PSTATE_DEPTH_LIMIT : Z := 55.
Definition GET_PROC_PERF_SUPPORT_STATES : Z := 95.
Definition GET_PROC_PERF_THROTTLE_PRESENT_CAPABILITY : Z := 62.
Definition GET_PROC_PERF_TSTATE_DEPTH_LIMIT : Z := 61.
Definition GET_PROC_PHYSICAL_CORE_COUNT : Z := 841.
Definition GET_PROC_PKG_CSTATE_RESIDENCY : Z := 315.
Definition GET_PROC_RF_TUNING_AVAILABLE : Z := 268.
Definition GET_PROC_RP_STATE_CAPABILITY : Z := 277.
Definition GET_PROC_THERMAL_DESIGN_POWER : Z := 21.
Definition GET_PROC_THREAD_STALL_COUNTER : Z := 313.
Definition GET_PROC_THREAD_STALL_COUNTER_STATUS : Z := 324.
Definition GET_PROC_TJMAX : Z := 20.
Definition GET_PROC_TSC : Z := 312.
Definition GET_PROCESS_AFFINITY_MASK : Z := 945.
Definition GET_RAPL_ENERGY : Z := 128.
Definition GET_RAPL_ENERGY_COUNTER_INFO : Z := 774.
Definition GET_RAPL_ENERGY_COUNTER_INFO_SUR : Z := 938.
Definition GET_RAPL_ENERGY_COUNTER_WIDTH : Z := 475.
Definition GET_RAPL_ENERGY_CPU_SUR : Z := 846.
Definition GET_RAPL_ENERGY_GPU_SUR : Z := 847.
Definition GET_RAPL_ENERGY_UNIT : Z := 123.
Definition GET_RAPL_ENERGY_UNIT_CPU_SUR : Z := 895.
Definition GET_RAPL_ENERGY_UNIT_GPU_SUR : Z := 896.
Definition GET_RAPL_FLOOR_STATE : Z := 537.
Definition GET_RAPL_POWER : Z := 35.
Definition GET_RAPL_POWER_CONTROL_CAPABILITIES : Z := 75.
Definition GET_RAPL_POWER_DEFAULT : Z := 148.
Definition GET_RAPL_POWER_LIMIT : Z := 38.
Definition GET_RAPL_POWER_LIMIT_DUTY_CYCLE : Z := 341.
Definition GET_RAPL_POWER_LIMIT_ENABLE : Z := 126.
Definition GET_RAPL_POWER_LIMIT_LOCK : Z := 172.
Definition GET_RAPL_POWER_LIMIT_TIME_WINDOW : Z := 339.
Definition GET_RAPL_POWER_MAX : Z := 23.
Definition GET_RAPL_POWER_MAX_TIME_WINDOW : Z := 24.
Definition GET_RAPL_POWER_MIN : Z := 22.
Definition GET_RAPL_POWER_SUR : Z := 805.
Definition GET_RAPL_POWER_UNIT : Z := 124.
Definition GET_RAPL_TIME_UNIT : Z := 122.
Definition GET_RAPL_TIME_WINDOW : Z := 39.
Definition GET_RF_ACTIVE_CHANNELS : Z := 897.
Definition GET_RF_ACTIVE_CHANNELS_SUR : Z := 898.
Definition GET_RF_CHANNEL_INFO : Z := 487.
Definition GET_RFI_DISABLE : Z := 768.
Definition GET_RFPROFILE_CENTER_FREQUENCY : Z := 245.
Definition GET_RFPROFILE_CENTER_FREQUENCY_DLVR : Z := 886.
Definition GET_RFPROFILE_CENTER_FREQUENCY_DLVR_SUR : Z := 969.
Definition GET_RFPROFILE_CENTER_FREQUENCY_FIVR : Z := 524.
Definition GET_RFPROFILE_CENTER_FREQUENCY_FIVR_PLATFORM : Z := 676.
Definition GET_RFPROFILE_CENTER_FREQUENCY_MCIVR : Z := 482.
Definition GET_RFPROFILE_CLIP_PERCENT_LEFT : Z := 255.
Definition GET_RFPROFILE_CLIP_PERCENT_RIGHT : Z := 256.
Definition GET_RFPROFILE_DEFAULT_CENTER_FREQUENCY : Z := 254.
Definition GET_RFPROFILE_DEFAULT_CENTER_FREQUENCY_FIVR : Z := 526.
Definition GET_RFPROFILE_DEFAULT_CENTER_FREQUENCY_MCIVR : Z := 483.
Definition GET_RFPROFILE_FIVR_RFI_XTAL_19_24 : Z := 522.
Definition GET_RFPROFILE_FIVR_RFI_XTAL_19_24_PLATFORM : Z := 677.
Definition GET_RFPROFILE_FIVR_RFI_XTAL_38 : Z := 530.
Definition GET_RFPROFILE_FIVR_RFI_XTAL_38_PLATFORM : Z := 678.
Definition GET_RFPROFILE_FREQUENCY_ADJUST_RESOLUTION : Z := 257.
Definition GET_RFPROFILE_MAX_FREQUENCY : Z := 497.
Definition GET_RFPROFILE_MAX_FREQUENCY_XTAL_19_2 : Z := 503.
Definition GET_RFPROFILE_MAX_FREQUENCY_XTAL_24 : Z := 499.
Definition GET_RFPROFILE_MAX_FREQUENCY_XTAL_38_4 : Z := 534.
Definition GET_RFPROFILE_MIN_FREQUENCY : Z := 498.
Definition GET_RFPROFILE_MIN_FREQUENCY_XTAL_19_2 : Z := 504.
Definition GET_RFPROFILE_MIN_FREQUENCY_XTAL_24 : Z := 500.
Definition GET_RFPROFILE_MIN_FREQUENCY_XTAL_38_4 : Z := 535.
Definition GET_RFPROFILE_SSC : Z := 485.
Definition GET_RFPROFILE_SSC_DLVR : Z := 887.
Definition GET_RFPROFILE_SSC_DLVR_CTRL_LOCK : Z := 891.
Definition GET_RFPROFILE_SSC_FIVR : Z := 527.
Definition GET_RFPROFILE_SSC_FIVR_PLATFORM : Z := 679.
Definition GET_RFPROFILE_SSC_MCIVR : Z := 486.
Definition GET_RFPROFILE_WIFI24_FREQ_GUARD_BAND : Z := 591.
Definition GET_RFPROFILE_WIFI5_FREQ_GUARD_BAND : Z := 592.
Definition GET_RFPROFILE_WWAN_FREQ_GUARD_BAND : Z := 593.
Definition GET_RWEIGHTS : Z := 923.
Definition GET_SLOW_POLL_TIME : Z := 464.
Definition GET_SLOWPOLL_POWER_THRESHOLD : Z := 479.
Definition GET_SOC_DGPU_WEIGHTS : Z := 791.
Definition GET_SOC_OPTIMIZATION_CONFIG : Z := 950.
Definition GET_SOC_POWER_FLOOR_INT_ENABLE : Z := 920.
Definition GET_SOC_POWER_FLOOR_STATE : Z := 917.
Definition GET_SOC_PREDICTION_CHANGE_INT_ENABLE : Z := 911.
Definition GET_SOC_PREDICTION_CHANGE_TIME_WINDOW : Z := 915.
Definition GET_SOC_PREDICTION_CONTROLS : Z := 913.
Definition GET_SOC_WORKLOAD : Z := 553.
Definition GET_SOCWC_AC_POLLING_PERIOD : Z := 558.
Definition GET_SOCWC_DC_POLLING_PERIOD : Z := 560.
Definition GET_SOCWC_POWER_DIFFS_COUNT_THRESHOLD : Z := 779.
Definition GET_SOCWC_SLOW_POLLING_PERIOD : Z := 562.
Definition GET_SOCWLC_SOURCE : Z := 941.
Definition GET_STANDBY_TEMPERATURE_SAMPLE_PERIOD : Z := 505.
Definition GET_STORAGE_BUS_CONTROLLER_LOCATION : Z := 531.
Definition GET_STORAGE_SAMPLE_PERIOD : Z := 572.
Definition GET_SUPPORT_EPP_HINT : Z := 556.
Definition GET_SUPPORTED_POLICIES : Z := 92.
Definition GET_TCC_LOCK_STATUS : Z := 848.
Definition GET_TCC_OFFSET : Z := 477.
Definition GET_TEMPERATURE : Z := 14.
Definition GET_TEMPERATURE_ACPI_SUR : Z := 320.
Definition GET_TEMPERATURE_APPROX_TABLE : Z := 164.
Definition GET_TEMPERATURE_SUR : Z := 290.
Definition GET_TEMPERATURE_THRESHOLD_HYSTERESIS : Z := 15.
Definition GET_TEMPERATURE_THRESHOLDS : Z := 143.
Definition GET_TEMPERATURE_VRAM_SUR : Z := 840.
Definition GET_TGP_MAX_AC_SUR : Z := 806.
Definition GET_TGP_MAX_DC_SUR : Z := 940.
Definition GET_TGP_MIN_AC_SUR : Z := 874.
Definition GET_THERMAL_MBOX_CMD_DATA : Z := 548.
Definition GET_THERMAL_MBOX_CMD_REG : Z := 541.
Definition GET_THERMAL_MBOX_DATA_REG : Z := 538.
Definition GET_THERMAL_MBOX_DATA_REG_HI : Z := 785.
Definition GET_THERMAL_RELATIONSHIP_TABLE : Z := 91.
Definition GET_TPG_POWER_STATE : Z := 807.
Definition GET_TPG_POWER_STATE_SUR : Z := 808.
Definition GET_TPG_TPP_LIMIT_AC_SUR : Z := 875.
Definition GET_TPG_TPP_LIMIT_DC_SUR : Z := 939.
Definition GET_TRIP_POINT_ACTIVE : Z := 1.
Definition GET_TRIP_POINT_CRITICAL : Z := 13.
Definition GET_TRIP_POINT_HOT : Z := 12.
Definition GET_TRIP_POINT_PASSIVE : Z := 11.
Definition GET_TRIP_POINT_WARM : Z := 177.
Definition GET_TSC_WIDTH : Z := 597.
Definition GET_TSTATES : Z := 65.
Definition GET_USER_BASED_REFRESH_RATE : Z := 815.
Definition GET_USER_BASED_REFRESH_RATE_CAPABILITY : Z := 816.
Definition GET_USER_BASED_REFRESH_RATE_CAPABILITY_SUR : Z := 818.
Definition GET_USER_BASED_REFRESH_RATE_SUR : Z := 817.
Definition GET_UVTH : Z := 671.
Definition GET_VIRTUAL_SENSOR_CALIB_TABLE : Z := 347.
Definition GET_VIRTUAL_SENSOR_POLLING_TABLE : Z := 348.
Definition GET_VOLTAGE_THRESHOLD_MATH_TABLE : Z := 520.
Definition GET_VPU_RWEIGHT : Z := 926.
Definition GET_WEIGHTED_SLOWPOLL_CONSTANT : Z := 466.
Definition GET_WIFI_CAPABILITIES : Z := 767.
Definition SET_AC_PEAK_POWER : Z := 448.
Definition SET_ACTIVE_CONTROL_POINT_RELATIONSHIP_TABLE : Z := 425.
Definition SET_ACTIVE_POWER_SCHEME : Z := 761.
Definition SET_ACTIVE_RELATIONSHIP_TABLE : Z := 230.
Definition SET_ACUR : Z := 415.
Definition SET_ADAPTER_POWER_RATING : Z := 438.
Definition SET_ADAPTIVE_PERFORMANCE_ACTIONS_TABLE : Z := 322.
Definition SET_ADAPTIVE_PERFORMANCE_CONDITIONS_TABLE : Z := 317.
Definition SET_ADAPTIVE_PERFORMANCE_PARTICIPANT_CONDITION_TABLE : Z := 407.
Definition SET_AGGRESSIVENESS_LEVEL : Z := 751.
Definition SET_AP01 : Z := 417.
Definition SET_AP02 : Z := 419.
Definition SET_AP10 : Z := 421.
Definition SET_APP_ALIVE_RESPONSE : Z := 507.
Definition SET_APP_COMPAT : Z := 960.
Definition SET_APP_COMPAT_DELETE : Z := 961.
Definition SET_AVOL : Z := 413.
Definition SET_BASELINE_SSC_GUARD_BAND : Z := 571.
Definition SET_BASELINE_SSC_SPREAD_VALUE : Z := 567.
Definition SET_BASELINE_SSC_THRESHOLD : Z := 569.
Definition SET_BATTERY_CONTROL_STATES : Z := 965.
Definition SET_BATTERY_HIGH_FREQUENCY_IMPEDANCE : Z := 512.
Definition SET_BATTERY_MAX_PEAK_CURRENT : Z := 516.
Definition SET_BATTERY_NO_LOAD_VOLTAGE : Z := 514.
Definition SET_BATTERY_PERCENTAGE : Z := 668.
Definition SET_BIOMETRIC_PRESENCE_SENSOR_INSTANCE : Z := 777.
Definition SET_CLEAR_ALL_SIMULATION_MODE_EVENT_TYPE : Z := 614.
Definition SET_CLEAR_SIMULATION_MODE_EVENT_TYPE : Z := 613.
Definition SET_CONFIG_DATAVAULT : Z := 544.
Definition SET_CONFIG_RESET : Z := 392.
Definition SET_CPU_RWEIGHT : Z := 932.
Definition SET_DC_PEAK_POWER : Z := 452.
Definition SET_DDR_DVFS_RFI_RESTRICTION : Z := 790.
Definition SET_DDR_DVFS_RFI_RESTRICTION_REG : Z := 839.
Definition SET_DDR_RFI_TABLE : Z := 771.
Definition SET_DEVICE_TEMPERATURE_INDICATION : Z := 51.
Definition SET_DISENGAGED_STABILITY_WINDOW : Z := 738.
Definition SET_DISPLAY_BRIGHTNESS : Z := 355.
Definition SET_DISPLAY_BRIGHTNESS_LEVELS : Z := 328.
Definition SET_DISPLAY_BRIGHTNESS_SOFT : Z := 163.
Definition SET_DISPLAY_CAPABILITY : Z := 329.
Definition SET_DISPLAY_DEPTH_LIMIT : Z := 330.
Definition SET_DLVR_SSC_TO_CNVI : Z := 901.
Definition SET_DTT_MASTER_TO_CNVI : Z := 900.
Definition SET_DYNAMIC_BOOST_STATE : Z := 810.
Definition SET_DYNAMIC_BOOST_STATE_SUR : Z := 811.
Definition SET_EMERGENCY_CALL_MODE_TABLE : Z := 386.
Definition SET_ENERGY_THRESHOLD_COUNT : Z := 453.
Definition SET_ENERGY_THRESHOLD_INT_DISABLE : Z := 454.
Definition SET_EPP_BATTERY_LIFE_BURSTY_THRESHOLD : Z := 782.
Definition SET_EPP_SENSITIVITY_HINT : Z := 565.
Definition SET_EPP_WORKLOAD_TYPE : Z := 775.
Definition SET_EXECUTE_SIMULATION : Z := 395.
Definition SET_EXPECTED_BATTERY_LIFE : Z := 750.
Definition SET_FAN_CAPABILITIES : Z := 496.
Definition SET_FAN_DIRECTION : Z := 743.
Definition SET_FAN_LEVEL : Z := 87.
Definition SET_FAN_OPERATING_MODE : Z := 834.
Definition SET_FAN_SPEED_HIGH_THRESHOLD : Z := 906.
Definition SET_FAN_SPEED_HIGH_THRESHOLD_SUR : Z := 908.
Definition SET_FAN_SPEED_LOW_THRESHOLD : Z := 907.
Definition SET_FAN_SPEED_LOW_THRESHOLD_SUR : Z := 909.
Definition SET_FOREGROUND_APP_RATIO_PERIOD : Z := 764.
Definition SET_GT_RWEIGHT : Z := 936.
Definition SET_HWPF_CONFIG : Z := 608.
Definition SET_INTELLIGENT_THERMAL_MANAGEMENT_TABLE : Z := 766.
Definition SET_IP_ALIGNMENT_DISABLE : Z := 967.
Definition SET_IP_ALIGNMENT_ENABLE : Z := 959.
Definition SET_IP_ALIGNMENT_START : Z := 954.
Definition SET_IP_ALIGNMENT_STOP : Z := 955.
Definition SET_IP_ALIGNMENT_SUPPORT_STATE : Z := 953.
Definition SET_IPU_RWEIGHT : Z := 933.
Definition SET_JAVA_HELPER_SERVICE_NOTIFICATION : Z := 388.
Definition SET_LAST_EWMA_POWER : Z := 405.
Definition SET_LAST_POWER_USED : Z := 403.
Definition SET_MBT_MODEL_VERSION : Z := 784.
Definition SET_MEDIA_RWEIGHT : Z := 935.
Definition SET_NEGATIVE_EVENT_FILTERING_STATE : Z := 725.
Definition SET_NOT_PRESENT_STABILITY_WINDOW : Z := 740.
Definition SET_NV_TGP_VALUE_SUR : Z := 813.
Definition SET_NVAPI_ACTION_STATE_DISABLE : Z := 809.
Definition SET_NVAPI_ACTION_STATE_ENABLE : Z := 812.
Definition SET_OC_MBOX : Z := 831.
Definition SET_OEM_VARS : Z := 379.
Definition SET_OPERATING_SYSTEM_CAPABILITIES : Z := 93.
Definition SET_OPTIMIZATION_SLIDER : Z := 948.
Definition SET_OS_BATTERY_PERCENTAGE : Z := 368.
Definition SET_OS_COOLING_MODE : Z := 375.
Definition SET_OS_DOCK_MODE : Z := 374.
Definition SET_OS_FOREGROUND_APPLICATION : Z := 378.
Definition SET_OS_LID_STATE : Z := 376.
Definition SET_OS_MIXED_REALITY_MODE : Z := 508.
Definition SET_OS_PLATFORM_TYPE : Z := 377.
Definition SET_OS_POWER_SOURCE : Z := 369.
Definition SET_PARTICIPANT_CAPABILITIES_EVAL : Z := 393.
Definition SET_PARTICIPANT_ENERGY_THRESHOLD : Z := 473.
Definition SET_PARTICIPANT_HYSTERESIS_BEHAVIOR : Z := 305.
Definition SET_PARTICIPANT_MAX_PERF_STATE : Z := 490.
Definition SET_PARTICIPANT_RESIDENCY_UTILIZATION : Z := 474.
Definition SET_PARTICIPANT_SAMPLE_BEHAVIOR : Z := 302.
Definition SET_PARTICIPANT_SAMPLE_PERIOD : Z := 301.
Definition SET_PARTICIPANT_TYPE : Z := 884.
Definition SET_PARTICIPANT_UTILIZATION_THRESHOLD : Z := 471.
Definition SET_PASSIVE_RELATIONSHIP_TABLE : Z := 235.
Definition SET_PBOK : Z := 444.
Definition SET_PERF_PREFERENCE_MAX : Z := 797.
Definition SET_PERF_PREFERENCE_MIN : Z := 799.
Definition SET_PERF_PREFERENCE_SUR : Z := 822.
Definition SET_PERF_PRESENT_CAPABILITY : Z := 82.
Definition SET_PERF_PRESENT_CAPABILITY_SUR : Z := 304.
Definition SET_PERF_PSTATE_DEPTH_LIMIT : Z := 343.
Definition SET_PERF_SUPPORT_STATES : Z := 227.
Definition SET_PERFMON_COUNTERS_FIXED_CTR_CTRL : Z := 604.
Definition SET_PERFMON_COUNTERS_GLOBAL_CTRL : Z := 605.
Definition SET_PID_ALGORITHM_TABLE : Z := 411.
Definition SET_PID_KI_TERM : Z := 459.
Definition SET_PID_KP_TERM : Z := 457.
Definition SET_PID_TIME_AVERAGE_CONSTANT : Z := 461.
Definition SET_PLATFORM_BATTERY_STEADY_STATE : Z := 383.
Definition SET_PLATFORM_MAX_BATTERY_POWER : Z := 382.
Definition SET_PLATFORM_POWER_LIMIT : Z := 334.
Definition SET_PLATFORM_POWER_LIMIT_DUTY_CYCLE : Z := 338.
Definition SET_PLATFORM_POWER_LIMIT_ENABLE : Z := 335.
Definition SET_PLATFORM_POWER_LIMIT_TIME_WINDOW : Z := 336.
Definition SET_PLATFORM_REST_OF_POWER : Z := 437.
Definition SET_PORT : Z := 533.
Definition SET_POSITIVE_EVENT_FILTERING_STATE : Z := 718.
Definition SET_POWER_ALPHA : Z := 397.
Definition SET_POWER_BOSS_ACTIONS_TABLE : Z := 363.
Definition SET_POWER_BOSS_CONDITIONS_TABLE : Z := 361.
Definition SET_POWER_BOSS_MATH_TABLE : Z := 423.
Definition SET_POWER_DELTA : Z := 401.
Definition SET_POWER_SAMPLE_BEHAVIOR : Z := 384.
Definition SET_POWER_SCHEME_EPP : Z := 760.
Definition SET_POWER_SEED : Z := 399.
Definition SET_POWER_SHARE_EFFECTIVE_BIAS : Z := 662.
Definition SET_POWER_SHARE_POLICY_POWER : Z := 655.
Definition SET_POWER_SHARE_TEMPERATURE_THRESHOLD : Z := 469.
Definition SET_POWER_SHARING_ALGORITHM_TABLE : Z := 441.
Definition SET_POWER_SHARING_ALGORITHM_TABLE_2 : Z := 590.
Definition SET_POWER_THRESHOLDS : Z := 199.
Definition SET_PPM_NON_BALANCED_VALUES : Z := 963.
Definition SET_PPM_PARAM_VALUES : Z := 828.
Definition SET_PPM_PARAMS_TO_NULL : Z := 741.
Definition SET_PRESENT_STABILITY_WINDOW : Z := 734.
Definition SET_PROC_LOGICAL_PROCESSOR_AFFINITY : Z := 229.
Definition SET_PROC_MAX_THROTTLE_STATE : Z := 494.
Definition SET_PROC_NUMBER_OFFLINE_CORES : Z := 153.
Definition SET_PROC_PERF_PSTATE_DEPTH_LIMIT : Z := 275.
Definition SET_PROC_PERF_SUPPORT_STATES : Z := 357.
Definition SET_PROC_PERF_TSTATE_DEPTH_LIMIT : Z := 276.
Definition SET_PROCESS_AFFINITY_MASK : Z := 943.
Definition SET_RAPL_ENERGY : Z := 476.
Definition SET_RAPL_FLOOR_STATE : Z := 539.
Definition SET_RAPL_POWER : Z := 455.
Definition SET_RAPL_POWER_CONTROL_CAPABILITIES : Z := 274.
Definition SET_RAPL_POWER_LIMIT : Z := 130.
Definition SET_RAPL_POWER_LIMIT_CLEAR : Z := 881.
Definition SET_RAPL_POWER_LIMIT_DUTY_CYCLE : Z := 342.
Definition SET_RAPL_POWER_LIMIT_ENABLE : Z := 222.
Definition SET_RAPL_POWER_LIMIT_TIME_WINDOW : Z := 340.
Definition SET_RAPL_POWER_MIN : Z := 882.
Definition SET_RAPL_POWER_MIN_CLEAR : Z := 883.
Definition SET_RF_ACTIVE_CHANNELS : Z := 899.
Definition SET_RF_CHANNEL_INFO : Z := 488.
Definition SET_RFPROFILE_CENTER_FREQUENCY : Z := 211.
Definition SET_RFPROFILE_CENTER_FREQUENCY_DLVR : Z := 892.
Definition SET_RFPROFILE_CENTER_FREQUENCY_DLVR_SUR : Z := 893.
Definition SET_RFPROFILE_CENTER_FREQUENCY_FIVR : Z := 525.
Definition SET_RFPROFILE_CENTER_FREQUENCY_MCIVR : Z := 489.
Definition SET_RFPROFILE_CENTER_FREQUENCY_SUR : Z := 303.
Definition SET_RFPROFILE_FIVR_RFI_XTAL_19_24 : Z := 523.
Definition SET_RFPROFILE_FIVR_RFI_XTAL_38 : Z := 529.
Definition SET_RFPROFILE_SSC_DLVR : Z := 889.
Definition SET_RFPROFILE_SSC_DLVR_SUR : Z := 890.
Definition SET_RFPROFILE_SSC_FIVR : Z := 528.
Definition SET_RFPROFILE_SSC_MCIVR : Z := 493.
Definition SET_RFPROFILE_WIFI24_FREQ_GUARD_BAND : Z := 594.
Definition SET_RFPROFILE_WIFI5_FREQ_GUARD_BAND : Z := 595.
Definition SET_RFPROFILE_WWAN_FREQ_GUARD_BAND : Z := 596.
Definition SET_RWEIGHTS : Z := 931.
Definition SET_SCREEN_AUTO_LOCK_STATE : Z := 633.
Definition SET_SCREEN_STATE : Z := 632.
Definition SET_SIMULATION_MODE_EVENT_TYPE : Z := 612.
Definition SET_SLOWPOLL_POWER_THRESHOLD : Z := 480.
Definition SET_SOC_OPTIMIZATION_CONFIG : Z := 951.
Definition SET_SOC_POWER_FLOOR_INT_ENABLE : Z := 971.
Definition SET_SOC_POWER_FLOOR_INT_ENABLE_SUR : Z := 921.
Definition SET_SOC_PREDICTION_CHANGE_INT_ENABLE : Z := 972.
Definition SET_SOC_PREDICTION_CHANGE_INT_ENABLE_SUR : Z := 912.
Definition SET_SOC_PREDICTION_CHANGE_TIME_WINDOW : Z := 916.
Definition SET_SOC_PREDICTION_CONTROLS : Z := 914.
Definition SET_SOCWC_AC_POLLING_PERIOD : Z := 559.
Definition SET_SOCWC_DC_POLLING_PERIOD : Z := 561.
Definition SET_SOCWC_POWER_DIFFS_COUNT_THRESHOLD : Z := 780.
Definition SET_SOCWC_SLOW_POLLING_PERIOD : Z := 563.
Definition SET_SOCWLC_SOURCE : Z := 942.
Definition SET_SPECIFIC_ACTION_PRIMITIVE : Z := 428.
Definition SET_STANDBY_TEMPERATURE_SAMPLE_PERIOD : Z := 506.
Definition SET_STORAGE_BUS_CONTROLLER_LOCATION : Z := 532.
Definition SET_SUPPORT_EPP_HINT : Z := 557.
Definition SET_SUPPORTED_POLICIES : Z := 271.
Definition SET_SYSTEM_HIBERNATE : Z := 175.
Definition SET_SYSTEM_SHUTDOWN : Z := 173.
Definition SET_SYSTEM_SLEEP : Z := 174.
Definition SET_TCC_OFFSET : Z := 478.
Definition SET_TEMPERATURE : Z := 241.
Definition SET_TEMPERATURE_INTERRUPT_STATE : Z := 280.
Definition SET_TEMPERATURE_THRESHOLD_HYSTERESIS : Z := 232.
Definition SET_TEMPERATURE_THRESHOLDS : Z := 47.
Definition SET_TEMPERATURE_THRESHOLDS_SUR : Z := 299.
Definition SET_TGP_MAX_AC_SUR : Z := 814.
Definition SET_TGP_MAX_CLEAR_SUR : Z := 876.
Definition SET_TGP_MIN_AC_SUR : Z := 877.
Definition SET_TGP_MIN_CLEAR_SUR : Z := 878.
Definition SET_THERMAL_MBOX_CMD_DATA : Z := 549.
Definition SET_THERMAL_MBOX_CMD_GET_DDDR_SUR : Z := 787.
Definition SET_THERMAL_MBOX_CMD_GET_RWEIGHT_SUR : Z := 929.
Definition SET_THERMAL_MBOX_CMD_REG : Z := 542.
Definition SET_THERMAL_MBOX_CMD_SET_DDRR_SUR : Z := 788.
Definition SET_THERMAL_MBOX_CMD_SET_RWEIGHT_SUR : Z := 930.
Definition SET_THERMAL_MBOX_DATA_REG : Z := 540.
Definition SET_THERMAL_MBOX_DATA_REG_HI : Z := 786.
Definition SET_THERMAL_RELATIONSHIP_TABLE : Z := 231.
Definition SET_TPG_TPP_LIMIT_AC_SUR : Z := 879.
Definition SET_TPG_TPP_LIMIT_CLEAR_SUR : Z := 880.
Definition SET_TRIP_POINT_ACTIVE : Z := 202.
Definition SET_TRIP_POINT_CRITICAL : Z := 203.
Definition SET_TRIP_POINT_HOT : Z := 204.
Definition SET_TRIP_POINT_PASSIVE : Z := 206.
Definition SET_TRIP_POINT_WARM : Z := 205.
Definition SET_TSTATE_CURRENT : Z := 147.
Definition SET_UNDER_VOLTAGE_THRESHOLD : Z := 519.
Definition SET_USER_BASED_REFRESH_RATE : Z := 819.
Definition SET_USER_BASED_REFRESH_RATE_RESET : Z := 849.
Definition SET_USER_BASED_REFRESH_RATE_RESET_SUR : Z := 850.
Definition SET_USER_BASED_REFRESH_RATE_SUR : Z := 820.
Definition SET_UVTH : Z := 670.
Definition SET_VIRTUAL_SENSOR_CALIB_TABLE : Z := 350.
Definition SET_VIRTUAL_SENSOR_POLLING_TABLE : Z := 351.
Definition SET_VIRTUAL_TEMPERATURE : Z := 349.
Definition SET_VOLTAGE_THRESHOLD_MATH_TABLE : Z := 521.
Definition SET_VPU_RWEIGHT : Z := 934.
Definition SET_WAKE_ON_APPROACH_STATE : Z := 630.
Definition SET_WEIGHTED_SLOWPOLL_CONSTANT : Z := 467.
Definition SET_WORKSTATION_LOCK : Z := 631.

(** The primitives that set something. *)
Definition set_primitives : list Z := [
  SET_AC_PEAK_POWER; SET_ACTIVE_CONTROL_POINT_RELATIONSHIP_TABLE; SET_ACTIVE_POWER_SCHEME; SET_ACTIVE_RELATIONSHIP_TABLE; SET_ACUR;
  SET_ADAPTER_POWER_RATING; SET_ADAPTIVE_PERFORMANCE_ACTIONS_TABLE; SET_ADAPTIVE_PERFORMANCE_CONDITIONS_TABLE;
  SET_ADAPTIVE_PERFORMANCE_PARTICIPANT_CONDITION_TABLE; SET_AGGRESSIVENESS_LEVEL; SET_AP01; SET_AP02; SET_AP10; SET_APP_ALIVE_RESPONSE;
  SET_APP_COMPAT; SET_APP_COMPAT_DELETE; SET_AVOL; SET_BASELINE_SSC_GUARD_BAND; SET_BASELINE_SSC_SPREAD_VALUE; SET_BASELINE_SSC_THRESHOLD;
  SET_BATTERY_CONTROL_STATES; SET_BATTERY_HIGH_FREQUENCY_IMPEDANCE; SET_BATTERY_MAX_PEAK_CURRENT; SET_BATTERY_NO_LOAD_VOLTAGE;
  SET_BATTERY_PERCENTAGE; SET_BIOMETRIC_PRESENCE_SENSOR_INSTANCE; SET_CLEAR_ALL_SIMULATION_MODE_EVENT_TYPE; SET_CLEAR_SIMULATION_MODE_EVENT_TYPE;
  SET_CONFIG_DATAVAULT; SET_CONFIG_RESET; SET_CPU_RWEIGHT; SET_DC_PEAK_POWER; SET_DDR_DVFS_RFI_RESTRICTION; SET_DDR_DVFS_RFI_RESTRICTION_REG;
  SET_DDR_RFI_TABLE; SET_DEVICE_TEMPERATURE_INDICATION; SET_DISENGAGED_STABILITY_WINDOW; SET_DISPLAY_BRIGHTNESS; SET_DISPLAY_BRIGHTNESS_LEVELS;
  SET_DISPLAY_BRIGHTNESS_SOFT; SET_DISPLAY_CAPABILITY; SET_DISPLAY_DEPTH_LIMIT; SET_DLVR_SSC_TO_CNVI; SET_DTT_MASTER_TO_CNVI;
  SET_DYNAMIC_BOOST_STATE; SET_DYNAMIC_BOOST_STATE_SUR; SET_EMERGENCY_CALL_MODE_TABLE; SET_ENERGY_THRESHOLD_COUNT; SET_ENERGY_THRESHOLD_INT_DISABLE;
  SET_EPP_BATTERY_LIFE_BURSTY_THRESHOLD; SET_EPP_SENSITIVITY_HINT; SET_EPP_WORKLOAD_TYPE; SET_EXECUTE_SIMULATION; SET_EXPECTED_BATTERY_LIFE;
  SET_FAN_CAPABILITIES; SET_FAN_DIRECTION; SET_FAN_LEVEL; SET_FAN_OPERATING_MODE; SET_FAN_SPEED_HIGH_THRESHOLD; SET_FAN_SPEED_HIGH_THRESHOLD_SUR;
  SET_FAN_SPEED_LOW_THRESHOLD; SET_FAN_SPEED_LOW_THRESHOLD_SUR; SET_FOREGROUND_APP_RATIO_PERIOD; SET_GT_RWEIGHT; SET_HWPF_CONFIG;
  SET_INTELLIGENT_THERMAL_MANAGEMENT_TABLE; SET_IP_ALIGNMENT_DISABLE; SET_IP_ALIGNMENT_ENABLE; SET_IP_ALIGNMENT_START; SET_IP_ALIGNMENT_STOP;
  SET_IP_ALIGNMENT_SUPPORT_STATE; SET_IPU_RWEIGHT; SET_JAVA_HELPER_SERVICE_NOTIFICATION; SET_LAST_EWMA_POWER; SET_LAST_POWER_USED;
  SET_MBT_MODEL_VERSION; SET_MEDIA_RWEIGHT; SET_NEGATIVE_EVENT_FILTERING_STATE; SET_NOT_PRESENT_STABILITY_WINDOW; SET_NV_TGP_VALUE_SUR;
  SET_NVAPI_ACTION_STATE_DISABLE; SET_NVAPI_ACTION_STATE_ENABLE; SET_OC_MBOX; SET_OEM_VARS; SET_OPERATING_SYSTEM_CAPABILITIES;
  SET_OPTIMIZATION_SLIDER; SET_OS_BATTERY_PERCENTAGE; SET_OS_COOLING_MODE; SET_OS_DOCK_MODE; SET_OS_FOREGROUND_APPLICATION; SET_OS_LID_STATE;
  SET_OS_MIXED_REALITY_MODE; SET_OS_PLATFORM_TYPE; SET_OS_POWER_SOURCE; SET_PARTICIPANT_CAPABILITIES_EVAL; SET_PARTICIPANT_ENERGY_THRESHOLD;
  SET_PARTICIPANT_HYSTERESIS_BEHAVIOR; SET_PARTICIPANT_MAX_PERF_STATE; SET_PARTICIPANT_RESIDENCY_UTILIZATION; SET_PARTICIPANT_SAMPLE_BEHAVIOR;
  SET_PARTICIPANT_SAMPLE_PERIOD; SET_PARTICIPANT_TYPE; SET_PARTICIPANT_UTILIZATION_THRESHOLD; SET_PASSIVE_RELATIONSHIP_TABLE; SET_PBOK;
  SET_PERF_PREFERENCE_MAX; SET_PERF_PREFERENCE_MIN; SET_PERF_PREFERENCE_SUR; SET_PERF_PRESENT_CAPABILITY; SET_PERF_PRESENT_CAPABILITY_SUR;
  SET_PERF_PSTATE_DEPTH_LIMIT; SET_PERF_SUPPORT_STATES; SET_PERFMON_COUNTERS_FIXED_CTR_CTRL; SET_PERFMON_COUNTERS_GLOBAL_CTRL;
  SET_PID_ALGORITHM_TABLE; SET_PID_KI_TERM; SET_PID_KP_TERM; SET_PID_TIME_AVERAGE_CONSTANT; SET_PLATFORM_BATTERY_STEADY_STATE;
  SET_PLATFORM_MAX_BATTERY_POWER; SET_PLATFORM_POWER_LIMIT; SET_PLATFORM_POWER_LIMIT_DUTY_CYCLE; SET_PLATFORM_POWER_LIMIT_ENABLE;
  SET_PLATFORM_POWER_LIMIT_TIME_WINDOW; SET_PLATFORM_REST_OF_POWER; SET_PORT; SET_POSITIVE_EVENT_FILTERING_STATE; SET_POWER_ALPHA;
  SET_POWER_BOSS_ACTIONS_TABLE; SET_POWER_BOSS_CONDITIONS_TABLE; SET_POWER_BOSS_MATH_TABLE; SET_POWER_DELTA; SET_POWER_SAMPLE_BEHAVIOR;
  SET_POWER_SCHEME_EPP; SET_POWER_SEED; SET_POWER_SHARE_EFFECTIVE_BIAS; SET_POWER_SHARE_POLICY_POWER; SET_POWER_SHARE_TEMPERATURE_THRESHOLD;
  SET_POWER_SHARING_ALGORITHM_TABLE; SET_POWER_SHARING_ALGORITHM_TABLE_2; SET_POWER_THRESHOLDS; SET_PPM_NON_BALANCED_VALUES; SET_PPM_PARAM_VALUES;
  SET_PPM_PARAMS_TO_NULL; SET_PRESENT_STABILITY_WINDOW; SET_PROC_LOGICAL_PROCESSOR_AFFINITY; SET_PROC_MAX_THROTTLE_STATE;
  SET_PROC_NUMBER_OFFLINE_CORES; SET_PROC_PERF_PSTATE_DEPTH_LIMIT; SET_PROC_PERF_SUPPORT_STATES; SET_PROC_PERF_TSTATE_DEPTH_LIMIT;
  SET_PROCESS_AFFINITY_MASK; SET_RAPL_ENERGY; SET_RAPL_FLOOR_STATE; SET_RAPL_POWER; SET_RAPL_POWER_CONTROL_CAPABILITIES; SET_RAPL_POWER_LIMIT;
  SET_RAPL_POWER_LIMIT_CLEAR; SET_RAPL_POWER_LIMIT_DUTY_CYCLE; SET_RAPL_POWER_LIMIT_ENABLE; SET_RAPL_POWER_LIMIT_TIME_WINDOW; SET_RAPL_POWER_MIN;
  SET_RAPL_POWER_MIN_CLEAR; SET_RF_ACTIVE_CHANNELS; SET_RF_CHANNEL_INFO; SET_RFPROFILE_CENTER_FREQUENCY; SET_RFPROFILE_CENTER_FREQUENCY_DLVR;
  SET_RFPROFILE_CENTER_FREQUENCY_DLVR_SUR; SET_RFPROFILE_CENTER_FREQUENCY_FIVR; SET_RFPROFILE_CENTER_FREQUENCY_MCIVR;
  SET_RFPROFILE_CENTER_FREQUENCY_SUR; SET_RFPROFILE_FIVR_RFI_XTAL_19_24; SET_RFPROFILE_FIVR_RFI_XTAL_38; SET_RFPROFILE_SSC_DLVR;
  SET_RFPROFILE_SSC_DLVR_SUR; SET_RFPROFILE_SSC_FIVR; SET_RFPROFILE_SSC_MCIVR; SET_RFPROFILE_WIFI24_FREQ_GUARD_BAND;
  SET_RFPROFILE_WIFI5_FREQ_GUARD_BAND; SET_RFPROFILE_WWAN_FREQ_GUARD_BAND; SET_RWEIGHTS; SET_SCREEN_AUTO_LOCK_STATE; SET_SCREEN_STATE;
  SET_SIMULATION_MODE_EVENT_TYPE; SET_SLOWPOLL_POWER_THRESHOLD; SET_SOC_OPTIMIZATION_CONFIG; SET_SOC_POWER_FLOOR_INT_ENABLE;
  SET_SOC_POWER_FLOOR_INT_ENABLE_SUR; SET_SOC_PREDICTION_CHANGE_INT_ENABLE; SET_SOC_PREDICTION_CHANGE_INT_ENABLE_SUR;
  SET_SOC_PREDICTION_CHANGE_TIME_WINDOW; SET_SOC_PREDICTION_CONTROLS; SET_SOCWC_AC_POLLING_PERIOD; SET_SOCWC_DC_POLLING_PERIOD;
  SET_SOCWC_POWER_DIFFS_COUNT_THRESHOLD; SET_SOCWC_SLOW_POLLING_PERIOD; SET_SOCWLC_SOURCE; SET_SPECIFIC_ACTION_PRIMITIVE;
  SET_STANDBY_TEMPERATURE_SAMPLE_PERIOD; SET_STORAGE_BUS_CONTROLLER_LOCATION; SET_SUPPORT_EPP_HINT; SET_SUPPORTED_POLICIES; SET_SYSTEM_HIBERNATE;
  SET_SYSTEM_SHUTDOWN; SET_SYSTEM_SLEEP; SET_TCC_OFFSET; SET_TEMPERATURE; SET_TEMPERATURE_INTERRUPT_STATE; SET_TEMPERATURE_THRESHOLD_HYSTERESIS;
  SET_TEMPERATURE_THRESHOLDS; SET_TEMPERATURE_THRESHOLDS_SUR; SET_TGP_MAX_AC_SUR; SET_TGP_MAX_CLEAR_SUR; SET_TGP_MIN_AC_SUR; SET_TGP_MIN_CLEAR_SUR;
  SET_THERMAL_MBOX_CMD_DATA; SET_THERMAL_MBOX_CMD_GET_DDDR_SUR; SET_THERMAL_MBOX_CMD_GET_RWEIGHT_SUR; SET_THERMAL_MBOX_CMD_REG;
  SET_THERMAL_MBOX_CMD_SET_DDRR_SUR; SET_THERMAL_MBOX_CMD_SET_RWEIGHT_SUR; SET_THERMAL_MBOX_DATA_REG; SET_THERMAL_MBOX_DATA_REG_HI;
  SET_THERMAL_RELATIONSHIP_TABLE; SET_TPG_TPP_LIMIT_AC_SUR; SET_TPG_TPP_LIMIT_CLEAR_SUR; SET_TRIP_POINT_ACTIVE; SET_TRIP_POINT_CRITICAL;
  SET_TRIP_POINT_HOT; SET_TRIP_POINT_PASSIVE; SET_TRIP_POINT_WARM; SET_TSTATE_CURRENT; SET_UNDER_VOLTAGE_THRESHOLD; SET_USER_BASED_REFRESH_RATE;
  SET_USER_BASED_REFRESH_RATE_RESET; SET_USER_BASED_REFRESH_RATE_RESET_SUR; SET_USER_BASED_REFRESH_RATE_SUR; SET_UVTH;
  SET_VIRTUAL_SENSOR_CALIB_TABLE; SET_VIRTUAL_SENSOR_POLLING_TABLE; SET_VIRTUAL_TEMPERATURE; SET_VOLTAGE_THRESHOLD_MATH_TABLE; SET_VPU_RWEIGHT;
  SET_WAKE_ON_APPROACH_STATE; SET_WEIGHTED_SLOWPOLL_CONSTANT; SET_WORKSTATION_LOCK].

(** ** GUIDs of events *)

Definition DTT_ACTIVE_RELATIONSHIP_TABLE_CHANGED : list Z := [0xC7; 0xC5; 0xFC; 0x88; 0x8A; 0xAC; 0x42; 0xC2; 0x8B; 0x51; 0x21; 0x77; 0x70; 0x33; 0xE7; 0x5D].
Definition DTT_THERMAL_RELATIONSHIP_TABLE_CHANGED : list Z := [0x7E; 0x99; 0xE9; 0x0E; 0x0A; 0x22; 0x4E; 0xEC; 0xAD; 0x6C; 0x90; 0x8D; 0xEB; 0x21; 0xE9; 0xA9].
Definition FOREGROUND_APP_CHANGED : list Z := [0x88; 0xE4; 0x19; 0xE3; 0x60; 0x9B; 0x4B; 0xDA; 0x9A; 0x17; 0x83; 0xDE; 0x89; 0x98; 0x31; 0xFD].
Definition PARTICIPANT_SUSPEND : list Z := [0x54; 0x7F; 0x74; 0x65; 0xD9; 0x8A; 0x40; 0xFD; 0xAC; 0x12; 0xE6; 0xD2; 0x0F; 0x7B; 0x09; 0x1B].
Definition PARTICIPANT_RESUME : list Z := [0xAB; 0x3E; 0x04; 0x5F; 0x6B; 0x51; 0x4E; 0xC5; 0x93; 0x30; 0xEA; 0xB7; 0x08; 0x36; 0xF0; 0x2F].
Definition CORE_CAPABILITY_CHANGED : list Z := [0x84; 0x87; 0xD7; 0x40; 0x62; 0xF7; 0x40; 0x30; 0xBE; 0x1A; 0xC2; 0x01; 0x37; 0x7E; 0x0C; 0x18].
Definition DTT_DISPLAY_CAPABILITY_CHANGED : list Z := [0xF1; 0xCD; 0xA3; 0x38; 0x0F; 0x3C; 0x4F; 0x8D; 0xA1; 0xD9; 0x80; 0x33; 0xE6; 0x72; 0xF6; 0x72].
Definition DTT_DISPLAY_STATUS_CHANGED : list Z := [0xBD; 0xB4; 0xF3; 0x56; 0xCF; 0x69; 0x41; 0x52; 0x99; 0xA9; 0x1D; 0xCE; 0x49; 0x72; 0xAB; 0x9D].
Definition PERF_CAPABILITY_CHANGED : list Z := [0x90; 0x91; 0x81; 0x0C; 0xF3; 0x01; 0x44; 0xD6; 0xB2; 0xB5; 0xB3; 0x01; 0x81; 0x2E; 0x4D; 0x08].
Definition PERF_CONTROL_CHANGED : list Z := [0xD8; 0xB5; 0xEA; 0x17; 0x54; 0x86; 0x40; 0xFC; 0xA0; 0xC6; 0x2A; 0xE9; 0x2A; 0xEB; 0x37; 0x75].
Definition POWER_CAPABILITY_CHANGED : list Z := [0x82; 0xC4; 0x38; 0xDD; 0x67; 0x3B; 0x46; 0xA6; 0x99; 0x5F; 0x24; 0xCA; 0xF4; 0x64; 0x4D; 0xCF].
Definition DTT_PRIORITY_CHANGED : list Z := [0x98; 0x07; 0x7F; 0xF3; 0xAD; 0x61; 0x4E; 0x50; 0xAF; 0xEE; 0x51; 0xD0; 0xCE; 0x8D; 0xE3; 0x96].
Definition TEMP_THRESHOLD_CROSSED : list Z := [0x43; 0xCD; 0xD7; 0xD8; 0xC9; 0x6D; 0x4E; 0xE7; 0x9A; 0x4A; 0x7E; 0xC5; 0xC2; 0xEE; 0x1B; 0x6E].
Definition PARTICIPANT_SPEC_INFO_CHANGED : list Z := [0x75; 0x49; 0x4A; 0x00; 0x41; 0x7C; 0x4E; 0x51; 0x9F; 0xAB; 0xFB; 0xDD; 0x96; 0x55; 0x77; 0xD4].
Definition PARTICIPANT_CREATE : list Z := [0xF3; 0xB7; 0x0F; 0x0B; 0x79; 0xBC; 0x44; 0x14; 0xBC; 0xF7; 0x63; 0x89; 0x65; 0x8E; 0x9F; 0xAB].
Definition PARTICIPANT_UNREGISTER : list Z := [0xD5; 0x8C; 0x67; 0x02; 0xBB; 0x4E; 0x4F; 0x82; 0x87; 0xF9; 0xE5; 0x27; 0xFE; 0xBB; 0xBE; 0xE1].
Definition DTT_PASSIVE_TABLE_CHANGED : list Z := [0x66; 0x1C; 0x68; 0xE1; 0xB7; 0x3E; 0x4D; 0x02; 0x85; 0x9B; 0xF1; 0xC1; 0x50; 0x5F; 0x90; 0xD1].
Definition DISPLAY_ORIENTATION_CHANGED : list Z := [0x01; 0x9C; 0x35; 0x71; 0x35; 0x60; 0x4E; 0xC6; 0xBD; 0xED; 0x88; 0x4F; 0x61; 0x25; 0xB5; 0xF9].
Definition DEVICE_ORIENTATION_CHANGED : list Z := [0x16; 0x4B; 0x8F; 0xD7; 0xC1; 0x65; 0x4C; 0x86; 0x8E; 0x9B; 0x44; 0x64; 0xB6; 0xEE; 0xC0; 0x15].
Definition MOTION_CHANGED : list Z := [0xC7; 0xC8; 0x3E; 0x34; 0x51; 0x9B; 0x46; 0x50; 0xA8; 0xB2; 0x64; 0x0E; 0x31; 0xF5; 0xBB; 0x0A].
Definition DTT_SYSTEM_COOLING_POLICY_CHANGED : list Z := [0x5C; 0x7D; 0x59; 0x1E; 0x2E; 0xA8; 0x4D; 0xA1; 0x85; 0xA4; 0x47; 0x61; 0x91; 0x40; 0x46; 0x50].
Definition RF_PROFILE_CHANGED : list Z := [0xC1; 0x3C; 0x9E; 0xAF; 0x9F; 0x51; 0x40; 0x27; 0xBF; 0xE2; 0xE2; 0x78; 0x15; 0x2D; 0x23; 0x8B].
Definition RF_CONNECTION_STATUS_CHANGED : list Z := [0x12; 0x7F; 0xB1; 0x78; 0x2F; 0xF0; 0x42; 0x86; 0x8A; 0x3F; 0x91; 0x61; 0xB6; 0xE8; 0x7D; 0x57].
Definition LOG_VERBOSITY_CHANGED : list Z := [0xF7; 0x7B; 0xD5; 0x45; 0xC4; 0x48; 0x4B; 0x5F; 0x99; 0xC8; 0xD0; 0xBA; 0x02; 0x96; 0x86; 0x65].
Definition DTT_ADAPTIVE_PERFORMANCE_CONDITIONS_TABLE_CHANGED : list Z := [0xCE; 0x5C; 0xCB; 0x61; 0x29; 0x28; 0x45; 0x42; 0xB6; 0xC1; 0x98; 0xB3; 0xA1; 0x9B; 0x01; 0x03].
Definition DTT_ADAPTIVE_PERFORMANCE_ACTIONS_TABLE_CHANGED : list Z := [0xA4; 0x8E; 0xC3; 0xA1; 0x11; 0xA7; 0x40; 0xFE; 0x8D; 0xE8; 0x12; 0x26; 0x81; 0x4A; 0x4E; 0x99].
Definition OS_POWER_SOURCE_CHANGED : list Z := [0xC7; 0xC6; 0xA3; 0xC3; 0xEA; 0xC7; 0x45; 0x6E; 0xBF; 0xEC; 0xA6; 0x56; 0x04; 0x46; 0x40; 0xF3].
Definition OS_LID_STATE_CHANGED : list Z := [0x62; 0xE7; 0x97; 0xE9; 0xD1; 0xAC; 0x4C; 0x27; 0xAB; 0xEE; 0x1C; 0x62; 0x4E; 0x87; 0xBD; 0x16].
Definition OS_BATTERY_PERCENT_CHANGED : list Z := [0xD4; 0xFA; 0xB0; 0x79; 0x2B; 0x09; 0x46; 0x35; 0x91; 0xD0; 0x03; 0xA5; 0xDC; 0xD8; 0xBB; 0x53].
Definition OS_PLATFORM_TYPE_CHANGED : list Z := [0xB2; 0x48; 0xD2; 0xB4; 0x7C; 0x97; 0x45; 0x94; 0xBB; 0x8E; 0x4F; 0x13; 0x7E; 0x6C; 0x80; 0x9E].
Definition OS_DOCK_MODE_CHANGED : list Z := [0xE3; 0x8D; 0x94; 0x22; 0x6E; 0xC7; 0x4A; 0x30; 0xA5; 0x6B; 0xBE; 0x2D; 0xF6; 0xC6; 0x1D; 0x31].
Definition OEM_VARS_CHANGED : list Z := [0xE0; 0x88; 0x41; 0xA6; 0x3A; 0xB8; 0x49; 0xE7; 0x87; 0x31; 0xAD; 0x55; 0x94; 0x11; 0xC8; 0x7C].
Definition DTT_VIRTUAL_SENSOR_CALIB_TABLE_CHANGED : list Z := [0x99; 0x84; 0x93; 0xD3; 0x96; 0x0F; 0x42; 0x41; 0xA5; 0x0F; 0x77; 0x54; 0x7E; 0x37; 0xAA; 0x29].
Definition DTT_VIRTUAL_SENSOR_POLLING_TABLE_CHANGED : list Z := [0xB7; 0x97; 0x1D; 0xBF; 0x21; 0x67; 0x42; 0x46; 0xA3; 0x3F; 0x12; 0xC5; 0x19; 0xEC; 0x9E; 0x0E].
Definition DTT_VIRTUAL_SENSOR_RECALC_CHANGED : list Z := [0x7E; 0xCA; 0x59; 0x43; 0x3A; 0x4E; 0x47; 0xC1; 0xAB; 0x57; 0x6F; 0x07; 0x48; 0x28; 0x8C; 0x62].
Definition BATTERY_STATUS_CHANGED : list Z := [0xD7; 0x64; 0x90; 0x92; 0xD1; 0x85; 0x46; 0x6B; 0x8B; 0x20; 0xB9; 0x8F; 0x6F; 0xFC; 0x80; 0xA9].
Definition BATTERY_INFORMATION_CHANGED : list Z := [0x27; 0x73; 0x61; 0xE1; 0x64; 0xF9; 0x45; 0xE6; 0x87; 0xA4; 0x6E; 0x18; 0x1B; 0x9D; 0x93; 0x49].
Definition PLATFORM_BATTERY_STEADY_STATE_CHANGED : list Z := [0xB3; 0x45; 0xDE; 0x0C; 0x2C; 0xDF; 0x41; 0xFD; 0x9B; 0x34; 0x9B; 0x28; 0x18; 0x69; 0x41; 0x4E].
Definition PLATFORM_POWER_SOURCE_CHANGED : list Z := [0x1C; 0x66; 0x20; 0x50; 0xFA; 0x0A; 0x47; 0x99; 0xBF; 0x56; 0x3E; 0x09; 0x1A; 0x00; 0x73; 0x38].
Definition CHARGER_TYPE_CHANGED : list Z := [0x9B; 0x79; 0x0D; 0xE9; 0x8B; 0xCF; 0x48; 0x0E; 0x85; 0x6B; 0xA5; 0xF0; 0xF5; 0x84; 0x40; 0x73].
Definition PLATFORM_REST_OF_POWER_CHANGED : list Z := [0x6B; 0x17; 0x5B; 0x92; 0x10; 0x5E; 0x43; 0x98; 0x98; 0xD2; 0x62; 0x84; 0x42; 0x1A; 0xD3; 0x17].
Definition DTT_POWER_BOSS_CONDITIONS_TABLE_CHANGED : list Z := [0xAD; 0x46; 0x93; 0xCF; 0x17; 0xFB; 0x43; 0x5B; 0x85; 0x3A; 0x76; 0xB5; 0x38; 0x6A; 0x34; 0xDA].
Definition DTT_POWER_BOSS_ACTIONS_TABLE_CHANGED : list Z := [0x59; 0x53; 0x99; 0xCB; 0xC3; 0x27; 0x4C; 0x7F; 0xBA; 0x29; 0x4A; 0x7C; 0xDE; 0xD3; 0x99; 0x86].
Definition DTT_POLICY_LOADED_UNLOADED : list Z := [0x94; 0x81; 0x04; 0x72; 0x74; 0xC2; 0x46; 0x4A; 0x9E; 0xC0; 0x8A; 0xDD; 0x72; 0xB5; 0x08; 0x10].
Definition DTT_POLICY_ACTIVITY_LOGGING_ENABLED : list Z := [0xD3; 0xCE; 0xE0; 0x52; 0x18; 0xE5; 0x43; 0xCC; 0xB6; 0x5D; 0x8E; 0x4E; 0x27; 0x30; 0xA8; 0x0B].
Definition DTT_POLICY_ACTIVITY_LOGGING_DISABLED : list Z := [0xB0; 0x33; 0x31; 0x1C; 0xE7; 0x6D; 0x40; 0x8F; 0xAC; 0xC1; 0x65; 0xE8; 0x7F; 0x34; 0x8F; 0x83].
Definition DTT_PARTICIPANT_ACTIVITY_LOGGING_ENABLED : list Z := [0x14; 0xD7; 0xEB; 0xAF; 0x29; 0xD4; 0x4C; 0x7B; 0xB8; 0xDB; 0x18; 0x28; 0x57; 0xA2; 0x6E; 0xAB].
Definition DTT_PARTICIPANT_ACTIVITY_LOGGING_DISABLED : list Z := [0x53; 0xCA; 0x4B; 0x30; 0x1E; 0x56; 0x47; 0x48; 0xB5; 0xAC; 0x52; 0x4E; 0xD5; 0x9C; 0x49; 0x36].
Definition DTT_PARTICIPANT_CONTROL_ACTION : list Z := [0xA4; 0x0A; 0xA4; 0xC8; 0x68; 0x5D; 0x4B; 0x8E; 0xA8; 0x83; 0xA6; 0x57; 0xAA; 0x43; 0xF9; 0x14].
Definition MAX_BATTERY_POWER_CHANGED : list Z := [0x87; 0x8E; 0x5A; 0xB7; 0x70; 0xC0; 0x47; 0x72; 0xAB; 0x35; 0xF0; 0xD2; 0xC6; 0xDE; 0x8E; 0xA4].
Definition OS_POWERSCHEME_PERSONALITY_CHANGED : list Z := [0xD6; 0x4B; 0xF1; 0xF6; 0x5E; 0x26; 0x40; 0x9B; 0xBA; 0xE4; 0xA7; 0xC7; 0x95; 0x50; 0xD7; 0xF1].
Definition OS_MOBILE_NOTIFICATION : list Z := [0x00; 0xFF; 0xBA; 0xD8; 0x5C; 0xCD; 0x49; 0xB9; 0xA6; 0x1D; 0xE2; 0x50; 0xC2; 0x9D; 0x45; 0x5A].
Definition EMERGENCY_CALL_MODE_TABLE_CHANGED : list Z := [0x63; 0x43; 0x68; 0xF0; 0x68; 0x81; 0x47; 0xAF; 0x84; 0x9E; 0x6A; 0x5E; 0xD4; 0x87; 0x68; 0x26].
Definition APP_LOADED : list Z := [0xF9; 0xE5; 0x2D; 0xFF; 0x74; 0x22; 0x40; 0x6D; 0xBE; 0xAD; 0x27; 0x9F; 0x45; 0x6C; 0x25; 0x40].
Definition APP_UNLOADED : list Z := [0x33; 0xE7; 0x65; 0xC9; 0x69; 0x84; 0x47; 0xA7; 0x8A; 0xF6; 0xD9; 0xC5; 0xED; 0x81; 0xC4; 0x5F].
Definition DTT_ADAPTIVE_PERFORMANCE_PARTICIPANT_CONDITION_TABLE_CHANGED : list Z := [0xE7; 0x4F; 0x5F; 0x38; 0x09; 0x48; 0x4F; 0x3B; 0xB8; 0x58; 0x9D; 0x03; 0x78; 0x73; 0x9C; 0xAB].
Definition DTT_PID_ALGORITHM_TABLE_CHANGED : list Z := [0x93; 0xE5; 0x7D; 0xB1; 0xD1; 0x60; 0x43; 0x38; 0x83; 0xB5; 0x93; 0x40; 0xF8; 0xBA; 0x5D; 0xBE].
Definition DTT_POWER_BOSS_MATH_TABLE_CHANGED : list Z := [0xC5; 0xA7; 0x0B; 0x06; 0x37; 0xB1; 0x41; 0x63; 0xA9; 0x29; 0x97; 0xDA; 0xD1; 0x27; 0x06; 0xD3].
Definition APP_UNLOADING : list Z := [0x5B; 0xC2; 0x25; 0x27; 0xDA; 0x6C; 0x49; 0x4B; 0x93; 0x82; 0x9F; 0x16; 0x11; 0x88; 0xBF; 0xB7].
Definition DTT_ACTIVE_CONTROL_POINT_RELATIONSHIP_TABLE_CHANGED : list Z := [0xE3; 0xEE; 0xE6; 0xA5; 0x36; 0xFD; 0x49; 0x58; 0xBA; 0x36; 0x4C; 0xA1; 0x13; 0x71; 0x33; 0x9A].
Definition DTT_SUPPORTED_POLICIES_CHANGED : list Z := [0x03; 0xF1; 0x4B; 0xB4; 0xF9; 0x21; 0x45; 0x5B; 0xA8; 0xF4; 0xE0; 0x1E; 0x95; 0xA3; 0xA1; 0x19].
Definition ENERGY_THRESHOLD_CROSSED : list Z := [0x87; 0x23; 0x5D; 0xE6; 0x3A; 0x1C; 0x44; 0x33; 0xA6; 0xF5; 0xB6; 0x87; 0xEC; 0x3F; 0x57; 0x2B].
Definition DTT_POWER_SHARING_ALGORITHM_TABLE_CHANGED : list Z := [0xE0; 0x30; 0x16; 0x7D; 0x54; 0x04; 0x49; 0x1D; 0xBD; 0x88; 0xDF; 0xD8; 0x21; 0xFC; 0x7D; 0x38].
Definition DTT_WORKLOAD_HINT_CONFIGURATION_CHANGED : list Z := [0x48; 0xF9; 0xEF; 0xF7; 0x00; 0x0A; 0x42; 0x56; 0x87; 0x19; 0x20; 0xAC; 0x70; 0x5A; 0xC5; 0x33].
Definition FAN_CAPABILITIES_CHANGED : list Z := [0xA3; 0x8D; 0xC2; 0x28; 0xA6; 0x4D; 0x40; 0xBF; 0xAC; 0xB0; 0xE3; 0x39; 0x04; 0x6B; 0x5C; 0x13].
Definition DTT_ALIVE_REQUEST : list Z := [0x5D; 0x97; 0x17; 0x96; 0x47; 0xA7; 0x49; 0x16; 0x92; 0x16; 0x71; 0x53; 0xE2; 0x47; 0x37; 0x27].
Definition OS_MIXED_REALITY_MODE_CHANGED : list Z := [0x7A; 0xB9; 0x42; 0x16; 0xD5; 0xDA; 0x40; 0xC5; 0x9F; 0x8E; 0x2B; 0x16; 0x3E; 0x70; 0x31; 0xC0].
Definition BATTERY_COUNT_NOTIFICATION : list Z := [0x6C; 0x34; 0xD4; 0xAB; 0x27; 0x13; 0x44; 0x5D; 0x95; 0x50; 0x1C; 0xF1; 0x72; 0x42; 0x2E; 0x70].
Definition OS_SCREEN_STATE_CHANGED : list Z := [0x05; 0xDA; 0x80; 0x66; 0xA6; 0xD5; 0x45; 0xBF; 0x8F; 0xB0; 0xC6; 0x44; 0xB0; 0x1A; 0x0F; 0x1B].
Definition OS_USER_PRESENCE_CHANGED : list Z := [0xF0; 0x4B; 0xD7; 0x52; 0x4C; 0xFD; 0x4A; 0x3C; 0x91; 0xCC; 0xA5; 0xB5; 0x9F; 0xDB; 0x27; 0xBB].
Definition BATTERY_HIGH_FREQUENCY_IMPEDANCE_CHANGED : list Z := [0x23; 0xB4; 0x59; 0x0F; 0x84; 0x4C; 0x48; 0x2D; 0x9E; 0x4D; 0x6A; 0xBF; 0xAF; 0x20; 0x49; 0x7A].
Definition BATTERY_NO_LOAD_VOLTAGE_CHANGED : list Z := [0x64; 0xC5; 0xA2; 0x51; 0xC7; 0x9B; 0x43; 0x62; 0x88; 0xDC; 0x17; 0x74; 0x0B; 0x88; 0xAB; 0xD1].
Definition DTT_VOLTAGE_THRESHOLD_MATH_TABLE_CHANGED : list Z := [0x5A; 0xB4; 0x14; 0x79; 0x79; 0xDE; 0x4F; 0x56; 0xB7; 0xB5; 0x31; 0x18; 0xCA; 0x8F; 0x2A; 0xCA].
Definition OS_POWER_SLIDER_VALUE_CHANGED : list Z := [0x1C; 0xB9; 0x8C; 0x3A; 0x14; 0x92; 0x46; 0xC0; 0xA2; 0x4C; 0x76; 0x6D; 0x09; 0xAD; 0xBE; 0xD2].
Definition WORKLOAD_CLASSIFICATION_CHANGED : list Z := [0xD5; 0xAD; 0xA6; 0xF4; 0x16; 0x1E; 0x40; 0xD4; 0xB3; 0x37; 0xF7; 0x74; 0xAB; 0x89; 0xEA; 0x5A].
Definition DTT_POWER_SHARING_ALGORITHM_TABLE_2_CHANGED : list Z := [0xE8; 0x76; 0xFC; 0xDD; 0xA6; 0x46; 0x4E; 0x65; 0x99; 0x09; 0xC1; 0x8B; 0x48; 0xD7; 0x21; 0xDD].
Definition OS_GAME_MODE_CHANGED : list Z := [0xDE; 0xA0; 0xB0; 0x36; 0x6E; 0x21; 0x43; 0x3A; 0xBF; 0x08; 0xF6; 0x39; 0xE7; 0x22; 0x56; 0x0C].
Definition SESSION_STATE_CHANGED : list Z := [0xAD; 0x9D; 0x76; 0x4C; 0xE5; 0xA2; 0x47; 0xF1; 0xB3; 0x50; 0x94; 0x06; 0x74; 0xFE; 0x8D; 0x72].
Definition SENSOR_USER_PRESENCE_CHANGED : list Z := [0xB8; 0xF6; 0x9C; 0x7F; 0xE0; 0x86; 0x45; 0xEE; 0x95; 0x11; 0xD1; 0x2A; 0x68; 0x4E; 0xA6; 0x06].
Definition PLATFORM_USER_PRESENCE_CHANGED : list Z := [0xD9; 0x84; 0x98; 0xF0; 0x46; 0xDE; 0x45; 0x06; 0xAA; 0xEE; 0xB4; 0x26; 0xF9; 0xB0; 0xD5; 0xEE].
Definition EXTERNAL_MONITOR_CONNECTION_STATE_CHANGED : list Z := [0x47; 0xB2; 0xCC; 0xDE; 0x07; 0x45; 0x44; 0x85; 0xB1; 0x82; 0x3C; 0xD7; 0x78; 0x4E; 0x2D; 0x47].
Definition BIOMETRIC_PRESENCE_SENSOR_INSTANCE_CHANGED : list Z := [0xE7; 0x69; 0xAD; 0x56; 0x39; 0x0A; 0x4A; 0x99; 0x80; 0x80; 0xAB; 0xAD; 0x00; 0x84; 0xCA; 0x17].
Definition DTT_EPP_SENSITIVITY_HINT_CHANGED : list Z := [0xEE; 0x71; 0xB8; 0xF7; 0x1C; 0x7E; 0x43; 0x96; 0xB9; 0x07; 0x8E; 0xA1; 0x68; 0x22; 0x64; 0x76].
Definition OS_USER_INTERACTION_CHANGED : list Z := [0xA4; 0x7A; 0x50; 0x93; 0xB7; 0x1F; 0x44; 0x87; 0xBC; 0xC0; 0x0F; 0xF6; 0xEF; 0xA0; 0xAA; 0x60].
Definition FOREGROUND_BACKGROUND_RATIO_CHANGED : list Z := [0xD9; 0xBA; 0xC2; 0xC6; 0xFA; 0xF0; 0x4E; 0xF8; 0x92; 0xCA; 0x40; 0x37; 0x9F; 0xB2; 0x22; 0x57].
Definition SENSOR_MODE_CHANGED : list Z := [0x74; 0x45; 0xCA; 0x2B; 0x93; 0x35; 0x47; 0xAC; 0x8E; 0x22; 0x4A; 0x5C; 0x1E; 0xF0; 0xBE; 0x26].
Definition DISPLAY_OFF : list Z := [0xFD; 0x34; 0xF7; 0x56; 0xF7; 0xB6; 0x47; 0xDD; 0xB3; 0xD5; 0x00; 0x11; 0xA3; 0x4E; 0x43; 0x37].
Definition DISPLAY_ON : list Z := [0x96; 0x04; 0x50; 0x8D; 0xF4; 0xAA; 0x47; 0x16; 0x83; 0xD9; 0x6E; 0xE9; 0x51; 0xEB; 0xBE; 0xA9].
Definition DTT_INTELLIGENT_THERMAL_MANAGEMENT_TABLE_CHANGED : list Z := [0x54; 0xF5; 0x11; 0x59; 0x43; 0xD2; 0x46; 0x88; 0x91; 0x3C; 0x82; 0xC6; 0x36; 0x14; 0x81; 0x7E].
Definition BIOMETRIC_PRESENCE_SENSOR_WAKE : list Z := [0x0D; 0x71; 0x77; 0xEE; 0x90; 0xBF; 0x41; 0x8C; 0xAD; 0x2A; 0xA9; 0x28; 0x20; 0x2C; 0x8C; 0x15].
Definition ONLOOKER_SENSOR_STATUS_CHANGED : list Z := [0xC8; 0x62; 0xC1; 0x21; 0x80; 0x7E; 0x47; 0xF5; 0xA4; 0x20; 0x2D; 0x75; 0x5F; 0x2B; 0x72; 0x69].
Definition ONLOOKER_SENSOR_HUMAN_COUNT_CHANGED : list Z := [0xDF; 0x26; 0x20; 0xC6; 0x6A; 0x3B; 0x4D; 0xF1; 0xA9; 0x34; 0x9C; 0x52; 0x8F; 0x12; 0x7B; 0x57].
Definition BIOMETRIC_PRESENCE_SENSOR_DISTANCE_CHANGED : list Z := [0x31; 0x12; 0xDE; 0xF5; 0xB9; 0x89; 0x4F; 0xC3; 0x9D; 0x6E; 0x78; 0x84; 0x24; 0x9C; 0x93; 0xE4].
Definition BIOMETRIC_PRESENCE_SENSOR_STATUS_CHANGED : list Z := [0x6F; 0xDB; 0x8B; 0xBA; 0xA5; 0x23; 0x4B; 0x83; 0x8E; 0x32; 0xCD; 0x9A; 0x9F; 0xF1; 0xE2; 0x92].
Definition APP_BROADCAST : list Z := [0x6F; 0x11; 0x98; 0x20; 0x0C; 0x84; 0x40; 0x07; 0x95; 0xF1; 0x86; 0x9D; 0xEA; 0xD3; 0x4A; 0x1D].
Definition WINDOWS_LOW_POWER_MODE_ENTRY : list Z := [0x3E; 0x75; 0x4B; 0x59; 0x09; 0x24; 0x4E; 0x00; 0x9C; 0x4C; 0xCD; 0xB2; 0xE8; 0xB9; 0xD4; 0x89].
Definition WINDOWS_LOW_POWER_MODE_EXIT : list Z := [0x58; 0x38; 0x9C; 0x6D; 0x3A; 0x12; 0x48; 0x03; 0x84; 0x67; 0x7B; 0xDD; 0xA6; 0x10; 0x77; 0xBD].
Definition APP_BROADCAST_UNPRIVILEGED : list Z := [0x90; 0x5C; 0xFF; 0x02; 0xCB; 0x49; 0x4A; 0xCA; 0x93; 0xB7; 0x7C; 0xE4; 0xBD; 0x39; 0x44; 0x9D].
Definition TPG_POWER_STATE_CHANGED : list Z := [0xD5; 0x90; 0x5D; 0x12; 0x78; 0x85; 0x44; 0x60; 0x98; 0xAB; 0xCF; 0x36; 0x4A; 0x7E; 0xBC; 0x44].
Definition COLLABORATION_CHANGED : list Z := [0xF9; 0xBA; 0xC2; 0xC6; 0xFA; 0xF0; 0x4E; 0xF8; 0x92; 0xCA; 0x40; 0x37; 0x9F; 0xB2; 0x22; 0x57].
Definition NUM_FACES_ENROLLED_CHANGED : list Z := [0x60; 0x65; 0x68; 0x76; 0x38; 0xD6; 0x44; 0x71; 0x90; 0x3D; 0xB1; 0xA4; 0x30; 0x27; 0x1E; 0x9B].
Definition FACE_ID_CAPABILITY_SUPPORT_CHANGED : list Z := [0x70; 0xED; 0x77; 0xE2; 0x0D; 0x42; 0x4B; 0x59; 0xB3; 0x88; 0x9F; 0x96; 0x23; 0xB8; 0x75; 0xBA].
Definition FAN_SPEED_THRESHOLD_CROSSED : list Z := [0xDF; 0xAB; 0x16; 0xDB; 0x3E; 0x0B; 0x45; 0x05; 0x9D; 0x30; 0x38; 0xBD; 0xEA; 0x71; 0xE1; 0x02].
Definition TPG_TPP_LIMIT_CHANGED : list Z := [0x37; 0x0A; 0x8B; 0x51; 0xF0; 0xFF; 0x4A; 0x33; 0x89; 0xC1; 0x34; 0xE6; 0x2C; 0x06; 0x90; 0x8C].
Definition SOC_WORKLOADTYPE_CHANGED : list Z := [0x8F; 0x4B; 0x65; 0xD9; 0x8F; 0x3D; 0x46; 0xC8; 0xAD; 0x1E; 0x2D; 0x48; 0xE3; 0x2D; 0xE2; 0xFD].
Definition SOC_POWER_FLOOR_CHANGED : list Z := [0x28; 0xD6; 0xA1; 0x64; 0x87; 0x60; 0x4C; 0xB2; 0x80; 0x9C; 0xEC; 0xC1; 0xAD; 0xB2; 0x9C; 0xF2].
Definition PCIE_THROTTLE_REQUESTED : list Z := [0x23; 0x65; 0x03; 0x4E; 0xCE; 0xDC; 0x4C; 0x98; 0x96; 0x56; 0xC0; 0xD1; 0xD7; 0x21; 0x56; 0x4F].
Definition PROCESS_LOAD_NOTIFICATION : list Z := [0x48; 0x4D; 0xB5; 0xC3; 0x7B; 0x10; 0x43; 0x90; 0x89; 0x5B; 0x93; 0xDF; 0xE0; 0xEE; 0x08; 0x76].
Definition SYSTEM_IN_BAG : list Z := [0xBD; 0xE6; 0x8A; 0xBB; 0x20; 0x37; 0x40; 0x0F; 0x9A; 0x22; 0x37; 0x19; 0x3E; 0x40; 0x1A; 0x37].
Definition IP_ALIGNMENT_STATE_CHANGED : list Z := [0xC1; 0xD9; 0x64; 0x43; 0x38; 0xE9; 0x47; 0x90; 0x81; 0x34; 0x8B; 0x38; 0xE9; 0x9D; 0x91; 0x9E].
