(* ===== verification/AuthMgr.v ===== *)
(** * Which calls of a client reach ESIF: IPF ipfsrv/ipfsrv_authmgr.c

    A client's session has a role, and a role has one list of rules for each function of
    ESIF's interface.  A call is compared with the rules in turn; the first that covers
    it decides, and a call that none covers is refused.  A list ends with an empty
    rule.  The messages that are traced when a call is refused are not modelled. *)

From S2P Require Import Prelude CString EsifData.
From stdpp Require Import list strings.
Local Open Scope Z_scope.
Local Open Scope dptf_scope.

(* ------------------------------------------------------------------ *)
(** ** Rules *)

(** A string of a rule is [None] for NULL, otherwise its characters. *)
Record AclConfig : Type := mk_acl_config { c_permit : bool; c_nameSpace : option (list Z); c_keyName : option (list Z) }.
Record AclPrimitive : Type := mk_acl_primitive { p_permit : bool; primitiveId : Z }.
Record AclWriteLog : Type := mk_acl_log { l_permit : bool; minLogType : Z; maxLogType : Z }.
Record AclEvent : Type := mk_acl_event { e_permit : bool; guid : list Z }.
Record AclCommand : Type := mk_acl_command { m_permit : bool; command : option (list Z) }.

(** What the rules of all kinds have. *)
Class AclRule (R : Type) : Type := { permit : R -> bool; is_empty : R -> bool }.
Definition nullGuid : list Z := replicate 16 0.
#[export] Instance config_rule : AclRule AclConfig := {
  permit := c_permit;
  is_empty r := negb (c_permit r) && bool_decide (c_nameSpace r = None) && bool_decide (c_keyName r = None) }.
#[export] Instance primitive_rule : AclRule AclPrimitive := { permit := p_permit; is_empty r := negb (p_permit r) && (primitiveId r =? 0) }.
#[export] Instance log_rule : AclRule AclWriteLog := { permit := l_permit; is_empty r := negb (l_permit r) && (minLogType r =? 0) && (maxLogType r =? 0) }.
#[export] Instance event_rule : AclRule AclEvent := { permit := e_permit; is_empty r := negb (e_permit r) && bool_decide (guid r = nullGuid) }.
#[export] Instance command_rule : AclRule AclCommand := { permit := m_permit; is_empty r := negb (m_permit r) && bool_decide (command r = None) }.

Record AuthAclDef : Type := mk_acl_def {
  name : string;
  EsifGetConfig : option (list AclConfig); EsifSetConfig : option (list AclConfig); EsifPrimitive : option (list AclPrimitive);
  EsifWriteLog : option (list AclWriteLog); EsifEventRegister : option (list AclEvent); EsifEventUnregister : option (list AclEvent);
  EsifSendEvent : option (list AclEvent); EsifSendCommand : option (list AclCommand)
}.

Definition IPF_AUTH_DEFAULT : bool := false.

(** The loops over a table, which is [None] for NULL; [covers] compares a rule with the
    call. *)
Section Scan.
Context {R : Type} `{AclRule R} (covers : R -> option bool).
Fixpoint scan_rules (rules : list R) : option bool :=
  match rules with
  | [] => None
  | r :: rules =>
      if is_empty r then Some IPF_AUTH_DEFAULT
      else match covers r with Some true => Some (permit r) | Some false => scan_rules rules | None => None end
  end.
Definition scan (table : option (list R)) : option bool := match table with Some rules => scan_rules rules | None => Some IPF_AUTH_DEFAULT end.
End Scan.

(** [d && d->buf_ptr]. *)
Definition ptr (d : option EsifData) : option (list Z) := match d with Some d => buf_ptr d | None => None end.

Definition pattern_covers (m : list Z) (p : option (list Z)) : option bool := match p with None => Some true | Some p => esif_ccb_strmatch m p end.
Definition config_covers (n k : list Z) (r : AclConfig) : option bool :=
  match pattern_covers n (c_nameSpace r) with Some true => pattern_covers k (c_keyName r) | b => b end.
Definition config_authorized (table : option (list AclConfig)) (nameSpace elementPath : option EsifData) : option bool :=
  match ptr nameSpace, ptr elementPath with
  | Some n, Some k => scan (config_covers n k) table
  | _, _ => Some IPF_AUTH_DEFAULT
  end.

Definition primitive_covers (primitive : Z) (r : AclPrimitive) : bool := (primitiveId r =? primitive) || (primitiveId r =? 0).
Definition primitive_authorized (table : option (list AclPrimitive)) (primitive : Z) : option bool := scan (fun r => Some (primitive_covers primitive r)) table.

Definition eLogTypeFatal : Z := 0.
Definition eLogTypeDebug : Z := 4.
Definition log_covers (logType : Z) (r : AclWriteLog) : bool :=
  (minLogType r <=? logType) && (logType <=? maxLogType r) && (eLogTypeFatal <? maxLogType r) ||
  (minLogType r =? eLogTypeFatal) && (maxLogType r =? eLogTypeFatal).
Definition log_authorized (table : option (list AclWriteLog)) (logType : Z) : option bool := scan (fun r => Some (log_covers logType r)) table.

(** Reading a GUID of 16 bytes. *)
Definition guid_at (m : list Z) : option (list Z) := if (16 <=? length m)%nat then Some (take 16 m) else None.
Definition event_covers (m : list Z) (r : AclEvent) : option bool :=
  if bool_decide (guid r = nullGuid) then Some true else (fun g => bool_decide (guid r = g)) <$> guid_at m.
(** The block of an event's GUID, if it is one. *)
Definition guid_block (eventGuid : option EsifData) : option (list Z) :=
  match eventGuid with Some d => if data_len d =? 16 then buf_ptr d else None | None => None end.
Definition event_authorized (table : option (list AclEvent)) (eventGuid : option EsifData) : option bool :=
  match guid_block eventGuid with Some m => scan (event_covers m) table | None => Some IPF_AUTH_DEFAULT end.
(** Registering and unregistering also copy the GUID. *)
Definition register_authorized (table : option (list AclEvent)) (eventGuid : option EsifData) : option bool :=
  match event_authorized table eventGuid with
  | Some ok => match guid_block eventGuid with Some m => (fun _ => ok) <$> guid_at m | None => Some ok end
  | None => None
  end.

(** A command that begins with the rule's, as a whole word. *)
Definition command_covers (thiscmd : list Z) (r : AclCommand) : option bool :=
  match command r with
  | None => Some true
  | Some c =>
      match strnicmp_eq c thiscmd with
      | Some true => (fun x => (x =? 0) || isspace x) <$> nth_error thiscmd (length c)
      | b => b
      end
  end.
Definition cmdsep : list Z := chars_of " && ".
Fixpoint commands_authorized (fuel : nat) (table : option (list AclCommand)) (thiscmd : list Z) : option bool :=
  match fuel with
  | O => None
  | S fuel =>
      match scan (command_covers thiscmd) table with
      | Some true =>
          match strstr thiscmd cmdsep with
          | Some (Some rest) =>
              match skip_spaces (drop (length cmdsep) rest) with Some next => commands_authorized fuel table next | None => None end
          | Some None => Some true
          | None => None
          end
      | b => b
      end
  end.
(** The block has at least as many characters as there are commands. *)
Definition command_authorized (table : option (list AclCommand)) (argc : Z) (argv : option (list EsifData)) : option bool :=
  if argc =? 0 then Some IPF_AUTH_DEFAULT
  else
    match argv with
    | None => Some IPF_AUTH_DEFAULT
    | Some [] => None
    | Some (a :: _) => match buf_ptr a with Some thiscmd => commands_authorized (S (length thiscmd)) table thiscmd | None => Some IPF_AUTH_DEFAULT end
    end.

(* ------------------------------------------------------------------ *)
(** ** The server *)

(** Of a session of ipfsrv_appmgr.c what these functions use. *)
Record AppSession : Type := mk_session { s_ipfHandle : Z; s_esifHandle : Z; s_authHandle : Z }.

(** The state of the server, whatever else is in it: the sessions, the roles, and ESIF's
    functions ([None] for NULL), which may change the state in any way.  They return
    their result and the buffer that the caller gets back. *)
Class IpfSrv (W : Type) : Type := {
  sessions : W -> list (option AppSession);
  roles : W -> list AuthAclDef;
  fGetConfigFuncPtr : option (Z -> option EsifData -> option EsifData -> option EsifData -> SM W (Z * option EsifData));
  fSetConfigFuncPtr : option (Z -> option EsifData -> option EsifData -> option EsifData -> Z -> SM W Z);
  fPrimitiveFuncPtr : option (Z -> Z -> Z -> option EsifData -> option EsifData -> Z -> Z -> SM W (Z * option EsifData));
  fWriteLogFuncPtr : option (Z -> Z -> Z -> option EsifData -> Z -> SM W Z);
  fRegisterEventFuncPtr : option (Z -> Z -> Z -> option EsifData -> SM W Z);
  fUnregisterEventFuncPtr : option (Z -> Z -> Z -> option EsifData -> SM W Z);
  fSendEventFuncPtr : option (Z -> Z -> Z -> option EsifData -> option EsifData -> SM W Z);
  fSendCommandFuncPtr : option (Z -> Z -> option (list EsifData) -> option EsifData -> SM W (Z * option EsifData))
}.

Definition IPFAUTH_ROLE_NONE : Z := 0xA0000.
Definition IPFAUTH_MAX_ROLES : Z := 10.
Definition IPFAUTH_ROLE_INDEX (role : Z) : Z := if (IPFAUTH_ROLE_NONE <=? role) && (role <? IPFAUTH_ROLE_NONE + IPFAUTH_MAX_ROLES) then role - IPFAUTH_ROLE_NONE else 0.

(** The loops over the sessions. *)
Fixpoint find_session (f : AppSession -> bool) (l : list (option AppSession)) : option AppSession :=
  match l with
  | [] => None
  | Some s :: l => if f s then Some s else find_session f l
  | None :: l => find_session f l
  end.

Section Server.
Context {W : Type} `{IpfSrv W}.

Definition AppSessionMgr_GetSessionByHandle (w : W) (ipfHandle : Z) : option AppSession :=
  if ipfHandle =? ESIF_INVALID_HANDLE then None else find_session (fun s => s_ipfHandle s =? ipfHandle) (sessions w).
Definition AppSessionMgr_GetSessionByEsifHandle (w : W) (esifHandle : Z) : option AppSession :=
  if esifHandle =? ESIF_INVALID_HANDLE then None else find_session (fun s => s_esifHandle s =? esifHandle) (sessions w).
Definition AppSessionMgr_GetEsifHandleByHandle (w : W) (ipfHandle : Z) : Z :=
  match AppSessionMgr_GetSessionByHandle w ipfHandle with Some s => s_esifHandle s | None => ESIF_INVALID_HANDLE end.

Definition AuthMgr_GetAuthHandleByEsifHandle (w : W) (esifHandle : Z) : Z :=
  match AppSessionMgr_GetSessionByEsifHandle w esifHandle with
  | Some s => if s_authHandle s =? ESIF_INVALID_HANDLE then IPFAUTH_ROLE_NONE else s_authHandle s
  | None => IPFAUTH_ROLE_NONE
  end.
(** [None] inside for NULL. *)
Definition AuthMgr_GetAuthAclByEsifHandle (w : W) (esifHandle : Z) : option (option AuthAclDef) :=
  let authHandle := AuthMgr_GetAuthHandleByEsifHandle w esifHandle in
  if authHandle =? ESIF_INVALID_HANDLE then Some None else Some <$> roles w !! Z.to_nat (IPFAUTH_ROLE_INDEX authHandle).
(** A table of the role. *)
Definition table_of {R} (sel : AuthAclDef -> option (list R)) (auth : option AuthAclDef) : option (list R) := match auth with Some a => sel a | None => None end.

(** What the functions have in common: the rules are asked, then the call is refused or
    passed on to ESIF's function. *)
Definition call {F T} (f : option F) (apply : F -> SM W T) (not_there : T) : SM W T := match f with Some f => apply f | None => sret not_there end.
Definition authorize {R T} (esifHandle : Z) (sel : AuthAclDef -> option (list R)) (check : option (list R) -> option bool) (refused : T) (m : SM W T) : SM W T :=
  let! w := sget in
  let! auth := of_option (AuthMgr_GetAuthAclByEsifHandle w esifHandle) in
  let! ok := of_option (check (table_of sel auth)) in
  if (ok : bool) then m else sret refused.

Definition AuthMgr_EsifGetConfig (esifHandle : Z) (nameSpace elementPath elementValue : option EsifData) : SM W (Z * option EsifData) :=
  authorize esifHandle EsifGetConfig (fun t => config_authorized t nameSpace elementPath) (ESIF_E_SESSION_PERMISSION_DENIED, elementValue)
    (call fGetConfigFuncPtr (fun f => f esifHandle nameSpace elementPath elementValue) (ESIF_E_NOT_IMPLEMENTED, elementValue)).

Definition AuthMgr_EsifSetConfig (esifHandle : Z) (nameSpace elementPath elementValue : option EsifData) (elementFlags : Z) : SM W Z :=
  authorize esifHandle EsifSetConfig (fun t => config_authorized t nameSpace elementPath) ESIF_E_SESSION_PERMISSION_DENIED
    (call fSetConfigFuncPtr (fun f => f esifHandle nameSpace elementPath elementValue elementFlags) ESIF_E_NOT_IMPLEMENTED).

(** The length of an answer that has a basic type and says none. *)
Definition basic_length (rc : Z) (response : option EsifData) : option EsifData :=
  match response with
  | Some r =>
      let basictype_len := esif_data_type_sizeof (type r) in
      if (rc =? ESIF_OK) && (data_len r =? 0) && negb (basictype_len =? 0) && (basictype_len <=? buf_len r)
      then Some (mk_EsifData (type r) (buf_ptr r) (buf_len r) basictype_len) else Some r
  | None => None
  end.
Definition AuthMgr_EsifPrimitive (esifHandle participantHandle domainHandle : Z) (request response : option EsifData) (primitive instance : Z) : SM W (Z * option EsifData) :=
  authorize esifHandle EsifPrimitive (fun t => primitive_authorized t primitive) (ESIF_E_SESSION_PERMISSION_DENIED, response)
    (call fPrimitiveFuncPtr
      (fun f => let! r := f esifHandle participantHandle domainHandle request response primitive instance in sret (r.1, basic_length r.1 r.2))
      (ESIF_E_NOT_IMPLEMENTED, response)).

Definition AuthMgr_EsifWriteLog (esifHandle participantHandle domainHandle : Z) (message : option EsifData) (logType : Z) : SM W Z :=
  authorize esifHandle EsifWriteLog (fun t => log_authorized t logType) ESIF_E_SESSION_PERMISSION_DENIED
    (call fWriteLogFuncPtr (fun f => f esifHandle participantHandle domainHandle message logType) ESIF_E_NOT_IMPLEMENTED).

Definition AuthMgr_EsifEventRegister (esifHandle participantHandle domainHandle : Z) (eventGuid : option EsifData) : SM W Z :=
  authorize esifHandle EsifEventRegister (fun t => register_authorized t eventGuid) ESIF_E_SESSION_PERMISSION_DENIED
    (call fRegisterEventFuncPtr (fun f => f esifHandle participantHandle domainHandle eventGuid) ESIF_E_NOT_IMPLEMENTED).
Definition AuthMgr_EsifEventUnregister (esifHandle participantHandle domainHandle : Z) (eventGuid : option EsifData) : SM W Z :=
  authorize esifHandle EsifEventUnregister (fun t => register_authorized t eventGuid) ESIF_E_SESSION_PERMISSION_DENIED
    (call fUnregisterEventFuncPtr (fun f => f esifHandle participantHandle domainHandle eventGuid) ESIF_E_NOT_IMPLEMENTED).

Definition AuthMgr_EsifSendEvent (esifHandle participantHandle domainHandle : Z) (eventData eventGuid : option EsifData) : SM W Z :=
  authorize esifHandle EsifSendEvent (fun t => event_authorized t eventGuid) ESIF_E_SESSION_PERMISSION_DENIED
    (call fSendEventFuncPtr (fun f => f esifHandle participantHandle domainHandle eventData eventGuid) ESIF_E_NOT_IMPLEMENTED).

Definition AuthMgr_EsifSendCommand (esifHandle argc : Z) (argv : option (list EsifData)) (response : option EsifData) : SM W (Z * option EsifData) :=
  authorize esifHandle EsifSendCommand (fun t => command_authorized t argc argv) (ESIF_E_SESSION_PERMISSION_DENIED, response)
    (call fSendCommandFuncPtr (fun f => f esifHandle argc argv response) (ESIF_E_NOT_IMPLEMENTED, response)).
End Server.

(* ------------------------------------------------------------------ *)
(** ** What a list of rules says *)

Section Rules.
Context {R : Type} `{AclRule R}.
(** The first rule that covers the call, before the end of the list, permits it. *)
Definition permits (covers : R -> Prop) (rules : list R) : Prop :=
  exists pre r post, rules = pre ++ r :: post /\ Forall (fun q => is_empty q = false /\ ~ covers q) pre /\ is_empty r = false /\ covers r /\ permit r = true.
Definition permitted (covers : R -> Prop) (table : option (list R)) : Prop := exists rules, table = Some rules /\ permits covers rules.
Definition table_ok (rule_ok : R -> Prop) (table : option (list R)) : Prop := forall rules, table = Some rules -> Forall rule_ok rules /\ Exists (fun r => is_empty r = true) rules.

Lemma permits_nil covers : ~ permits covers [].
Proof. by intros ([|q pre] & r & post & E & _). Qed.
Lemma permits_empty covers r rules : is_empty r = true -> ~ permits covers (r :: rules).
Proof. intros Hr ([|q pre] & r' & post & E & Hp & He & _); injection E as -> ->; [congruence|]. apply Forall_cons in Hp as [[? _] _]. congruence. Qed.
Lemma permits_covered (covers : R -> Prop) r rules : is_empty r = false -> covers r -> permits covers (r :: rules) <-> permit r = true.
Proof.
  intros Hr Hc. split.
  - intros ([|q pre] & r' & post & E & Hp & He & Hc' & Hpr); injection E as -> ->; [done|]. apply Forall_cons in Hp as [[_ ?] _]. done.
  - intros Hpr. by exists [], r, rules.
Qed.
Lemma permits_other (covers : R -> Prop) r rules : is_empty r = false -> ~ covers r -> permits covers (r :: rules) <-> permits covers rules.
Proof.
  intros Hr Hc. split.
  - intros ([|q pre] & r' & post & E & Hp & He & Hc' & Hpr); injection E as -> ->; [done|]. apply Forall_cons in Hp as [_ Hp]. by exists pre, r', post.
  - intros (pre & r' & post & -> & Hp & He & Hc' & Hpr). exists (r :: pre), r', post. repeat split; try done. by constructor.
Qed.

(** The loop finds that rule, if it can compare each rule with the call. *)
Lemma scan_ok (covers : R -> option bool) (P : R -> Prop) (rule_ok : R -> Prop) table : table_ok rule_ok table ->
  (forall r, rule_ok r -> exists b, covers r = Some b /\ (b = true <-> P r)) ->
  exists b, scan covers table = Some b /\ (b = true <-> permitted P table).
Proof.
  intros Ht Hc. destruct table as [rules|]; cbn [scan]; [|exists false; split; [done|]; split; [done|]; by intros (? & ? & _)].
  destruct (Ht rules eq_refl) as [Hr He]. assert (Hgo : exists b, scan_rules covers rules = Some b /\ (b = true <-> permits P rules)).
  { clear Ht. induction rules as [|r rules IH]; [by inversion He|]. apply Forall_cons in Hr as [Hr Hrs]. cbn [scan_rules]. destruct (is_empty r) eqn:Er.
    - exists false. split; [done|]. split; [done|]. intros Hp. by apply permits_empty in Hp.
    - destruct (Hc r Hr) as ([] & E & Hb); rewrite E.
      + exists (permit r). split; [done|]. rewrite permits_covered; [done|done|by apply Hb].
      + apply Exists_cons in He as [He|He]; [congruence|]. destruct (IH Hrs He) as (b & E' & Hb'). exists b. split; [done|]. rewrite permits_other; [done|done|]. intros HP. apply Hb in HP. done. }
  destruct Hgo as (b & E & Hb). exists b. split; [done|]. rewrite Hb. split; [intros Hp; by exists rules|by intros (? & [= ->] & Hp)].
Qed.
End Rules.

(** A rule covers a call when ... *)
Definition pattern_matches (p : option (list Z)) (t : list Z) : Prop := match p with None => True | Some p => glob p t end.
Definition config_matches (n k : list Z) (r : AclConfig) : Prop := pattern_matches (c_nameSpace r) n /\ pattern_matches (c_keyName r) k.
Definition primitive_matches (primitive : Z) (r : AclPrimitive) : Prop := primitiveId r = primitive \/ primitiveId r = 0.
Definition log_matches (logType : Z) (r : AclWriteLog) : Prop :=
  minLogType r <= logType <= maxLogType r /\ eLogTypeFatal < maxLogType r \/ minLogType r = eLogTypeFatal /\ maxLogType r = eLogTypeFatal.
Definition event_matches (g : list Z) (r : AclEvent) : Prop := guid r = nullGuid \/ guid r = g.
Definition begins_with (c t : list Z) : Prop := same_letters c (take (length c) t) /\ match drop (length c) t with [] => True | x :: _ => isspace x = true end.
Definition command_matches (t : list Z) (r : AclCommand) : Prop := match command r with None => True | Some c => begins_with c t end.

(** A line of commands: each, up to the next separator, is as it should be. *)
Definition has_sep_at (t : list Z) (i : nat) : Prop := cmdsep `prefix_of` drop i t.
Inductive all_commands (ok : list Z -> Prop) : list Z -> Prop :=
  | last_command t : ok t -> (forall i, ~ has_sep_at t i) -> all_commands ok t
  | next_command a b : ok (a ++ cmdsep ++ b) -> (forall i, (i < length a)%nat -> ~ has_sep_at (a ++ cmdsep ++ b) i) -> all_commands ok (trim b) -> all_commands ok (a ++ cmdsep ++ b).

Lemma sep_at_end a b : has_sep_at (a ++ cmdsep ++ b) (length a).
Proof. unfold has_sep_at. rewrite drop_app_length. by exists b. Qed.
Lemma first_sep_unique a b a' b' : a ++ cmdsep ++ b = a' ++ cmdsep ++ b' ->
  (forall i, (i < length a)%nat -> ~ has_sep_at (a ++ cmdsep ++ b) i) -> (forall i, (i < length a')%nat -> ~ has_sep_at (a' ++ cmdsep ++ b') i) -> a = a' /\ b = b'.
Proof.
  intros E H H'. destruct (Nat.lt_trichotomy (length a) (length a')) as [Hl|[Hl|Hl]].
  - exfalso. apply (H' _ Hl). rewrite <- E. apply sep_at_end.
  - apply app_inj_1 in E as [-> E]; [|done]. split; [done|]. by apply app_inv_head in E.
  - exfalso. apply (H _ Hl). rewrite E. apply sep_at_end.
Qed.

Lemma pattern_ok m t p : string_at m t -> exists b, pattern_covers m p = Some b /\ (b = true <-> pattern_matches p t).
Proof. intros Hm. destruct p as [p|]; cbn; [by apply strmatch_matches|by exists true]. Qed.
Lemma config_ok m m' n k r : string_at m n -> string_at m' k -> exists b, config_covers m m' r = Some b /\ (b = true <-> config_matches n k r).
Proof.
  intros Hm Hm'. unfold config_covers, config_matches. destruct (pattern_ok _ _ (c_nameSpace r) Hm) as ([] & E & Hb); rewrite E.
  - destruct (pattern_ok _ _ (c_keyName r) Hm') as (b & E' & Hb'). exists b. split; [done|]. rewrite Hb'. tauto.
  - exists false. split; [done|]. split; [done|]. intros [? _]. by apply Hb.
Qed.
Lemma primitive_ok p r : exists b, Some (primitive_covers p r) = Some b /\ (b = true <-> primitive_matches p r).
Proof. eexists. split; [done|]. unfold primitive_covers, primitive_matches. rewrite orb_true_iff, !Z.eqb_eq. done. Qed.
Lemma log_ok l r : exists b, Some (log_covers l r) = Some b /\ (b = true <-> log_matches l r).
Proof. eexists. split; [done|]. unfold log_covers, log_matches. rewrite orb_true_iff, !andb_true_iff, !Z.eqb_eq, !Z.leb_le, Z.ltb_lt. tauto. Qed.
Lemma event_covers_ok m r : (16 <= length m)%nat -> exists b, event_covers m r = Some b /\ (b = true <-> event_matches (take 16 m) r).
Proof.
  intros Hl. unfold event_covers, event_matches, guid_at. rewrite (proj2 (Nat.leb_le 16 (length m))) by done. case_bool_decide as E.
  - exists true. split; [done|]. tauto.
  - cbn [fmap option_fmap option_map]. eexists. split; [done|]. rewrite bool_decide_eq_true. tauto.
Qed.
Definition command_rule_ok (r : AclCommand) : Prop := match command r with Some c => text c | None => True end.
Lemma command_ok m t r : string_at m t -> command_rule_ok r -> exists b, command_covers m r = Some b /\ (b = true <-> command_matches t r).
Proof.
  intros Hm Hr. unfold command_rule_ok, command_covers, command_matches, begins_with in *. destruct (command r) as [c|]; [|by exists true].
  rewrite (strnicmp_ok c m t Hr Hm). case_bool_decide as Hs; [|exists false; split; [done|]; split; [done|]; by intros [? _]].
  assert (Hlen : (length c <= length t)%nat) by (apply (f_equal length) in Hs; rewrite !length_map, length_take in Hs; lia).
  rewrite <- (firstn_skipn (length c) t) in Hm. apply string_at_app in Hm as (m' & -> & Hm'). rewrite nth_error_app2 by (rewrite length_take; lia). replace (length c - length (take (length c) t))%nat with O by (rewrite length_take; lia).
  apply string_at_inv in Hm' as [[E [rest ->]]|(x & t' & m'' & E & -> & Hx & Hm')]; rewrite E; cbn; eexists; (split; [done|]).
  - tauto.
  - rewrite (proj2 (Z.eqb_neq x 0)) by done. cbn [orb]. tauto.
Qed.

(** With enough fuel every line is decided; a string of the block's length is enough. *)
Lemma commands_ok table fuel : table_ok command_rule_ok table -> forall m t, string_at m t -> (length t < fuel)%nat ->
  exists b, commands_authorized fuel table m = Some b /\ (b = true <-> all_commands (fun t => permitted (command_matches t) table) t).
Proof.
  intros Ht. assert (Hsep : text cmdsep) by (by apply (bool_decide_eq_true_1 (Forall (fun c => c <> 0) cmdsep))). induction fuel as [|fuel IH]; intros m t Hm Hf; [lia|]. cbn [commands_authorized].
  destruct (scan_ok (command_covers m) (command_matches t) _ table Ht (fun r Hr => command_ok m t r Hm Hr)) as ([] & E & Hb); rewrite E.
  - destruct (strstr_ok cmdsep m t Hsep ltac:(done) Hm) as ([rest|] & Es & Hs); rewrite Es.
    + destruct Hs as (a & b & -> & -> & Hrest & Hfirst). apply string_at_app in Hrest as (m' & -> & Hm'). rewrite drop_app_length. destruct (skip_spaces_ok _ _ Hm') as (next & En & Hn & _). rewrite En.
      pose proof (trim_length b). rewrite !length_app in Hf. change (length cmdsep) with 4%nat in Hf. destruct (IH next (trim b) Hn ltac:(lia)) as (r & Er & Hr). exists r. split; [done|]. rewrite Hr. split.
      * intros Ha. apply next_command; [by apply Hb|exact Hfirst|exact Ha].
      * intros Ha. inversion Ha as [? ? Hno|a' b' _ Hfirst' Ha' E'].
        -- subst. exfalso. by apply (Hno (length a)), sep_at_end.
        -- apply first_sep_unique in E' as [-> ->]; [done|exact Hfirst'|exact Hfirst].
    + exists true. split; [done|]. split; [|done]. intros _. apply last_command; [by apply Hb|exact Hs].
  - exists false. split; [done|]. split; [done|]. intros Ha. apply Hb. by inversion Ha.
Qed.

(* ------------------------------------------------------------------ *)
(** ** What the functions decide *)

Inductive request : Type :=
  | QGetConfig (nameSpace elementPath elementValue : option EsifData)
  | QSetConfig (nameSpace elementPath elementValue : option EsifData) (elementFlags : Z)
  | QPrimitive (participantHandle domainHandle : Z) (request response : option EsifData) (primitive instance : Z)
  | QWriteLog (participantHandle domainHandle : Z) (message : option EsifData) (logType : Z)
  | QEventRegister (participantHandle domainHandle : Z) (eventGuid : option EsifData)
  | QEventUnregister (participantHandle domainHandle : Z) (eventGuid : option EsifData)
  | QSendEvent (participantHandle domainHandle : Z) (eventData eventGuid : option EsifData)
  | QSendCommand (argc : Z) (argv : option (list EsifData)) (response : option EsifData).

(** The buffer that the caller gets back. *)
Definition given_back (q : request) : option EsifData :=
  match q with QGetConfig _ _ v => v | QPrimitive _ _ _ v _ _ => v | QSendCommand _ _ v => v | _ => None end.

(** The call is permitted by the rules of the role. *)
Definition config_permitted (table : option (list AclConfig)) (nameSpace elementPath : option EsifData) : Prop :=
  exists m m' n k, ptr nameSpace = Some m /\ ptr elementPath = Some m' /\ string_at m n /\ string_at m' k /\ permitted (config_matches n k) table.
Definition event_permitted (table : option (list AclEvent)) (eventGuid : option EsifData) : Prop :=
  exists m, guid_block eventGuid = Some m /\ permitted (event_matches (take 16 m)) table.
Definition command_permitted (table : option (list AclCommand)) (argc : Z) (argv : option (list EsifData)) : Prop :=
  argc <> 0 /\ exists a l m t, argv = Some (a :: l) /\ buf_ptr a = Some m /\ string_at m t /\ all_commands (fun t => permitted (command_matches t) table) t.
Definition authorized (auth : option AuthAclDef) (q : request) : Prop :=
  match q with
  | QGetConfig n k _ => config_permitted (table_of EsifGetConfig auth) n k
  | QSetConfig n k _ _ => config_permitted (table_of EsifSetConfig auth) n k
  | QPrimitive _ _ _ _ p _ => permitted (primitive_matches p) (table_of EsifPrimitive auth)
  | QWriteLog _ _ _ l => permitted (log_matches l) (table_of EsifWriteLog auth)
  | QEventRegister _ _ g => event_permitted (table_of EsifEventRegister auth) g
  | QEventUnregister _ _ g => event_permitted (table_of EsifEventUnregister auth) g
  | QSendEvent _ _ _ g => event_permitted (table_of EsifSendEvent auth) g
  | QSendCommand argc argv _ => command_permitted (table_of EsifSendCommand auth) argc argv
  end.

(** The strings and the GUIDs of a call end in their blocks. *)
Definition string_ends (d : option EsifData) : Prop := forall m, ptr d = Some m -> exists t, string_at m t.
Definition guid_ends (d : option EsifData) : Prop := forall m, guid_block d = Some m -> (16 <= length m)%nat.
Definition readable (q : request) : Prop :=
  match q with
  | QGetConfig n k _ | QSetConfig n k _ _ => string_ends n /\ string_ends k
  | QEventRegister _ _ g | QEventUnregister _ _ g | QSendEvent _ _ _ g => guid_ends g
  | QSendCommand argc argv _ => argc <> 0 -> forall l, argv = Some l -> exists a l', l = a :: l' /\ string_ends (Some a)
  | _ => True
  end.

(** The tables of a role end with an empty rule. *)
Record acl_ok (a : AuthAclDef) : Prop := {
  ok_get : table_ok (fun _ => True) (EsifGetConfig a); ok_set : table_ok (fun _ => True) (EsifSetConfig a); ok_prim : table_ok (fun _ => True) (EsifPrimitive a);
  ok_log : table_ok (fun _ => True) (EsifWriteLog a); ok_reg : table_ok (fun _ => True) (EsifEventRegister a); ok_unreg : table_ok (fun _ => True) (EsifEventUnregister a);
  ok_event : table_ok (fun _ => True) (EsifSendEvent a); ok_cmd : table_ok command_rule_ok (EsifSendCommand a)
}.
Definition auth_ok (auth : option AuthAclDef) : Prop := match auth with Some a => acl_ok a | None => True end.

Lemma table_of_ok {R} `{AclRule R} (rule_ok : R -> Prop) sel auth : auth_ok auth -> (forall a, acl_ok a -> table_ok rule_ok (sel a)) -> table_ok rule_ok (table_of sel auth).
Proof. destruct auth as [a|]; cbn; [auto|]. by intros _ _ rules [=]. Qed.

Lemma config_authorized_ok table n k : table_ok (fun _ => True) table -> string_ends n -> string_ends k ->
  exists b, config_authorized table n k = Some b /\ (b = true <-> config_permitted table n k).
Proof.
  intros Ht Hn Hk. unfold config_authorized, config_permitted. destruct (ptr n) as [m|] eqn:En; [|exists false; split; [done|]; split; [done|]; by intros (? & ? & ? & ? & [=] & _)].
  destruct (ptr k) as [m'|] eqn:Ek; [|exists false; split; [done|]; split; [done|]; by intros (? & ? & ? & ? & _ & [=] & _)].
  destruct (Hn _ En) as [t Hm], (Hk _ Ek) as [u Hm']. destruct (scan_ok (config_covers m m') (config_matches t u) _ table Ht (fun r _ => config_ok _ _ _ _ r Hm Hm')) as (b & E & Hb).
  exists b. split; [done|]. rewrite Hb. split; [intros Hp; by exists m, m', t, u|]. intros (? & ? & t' & u' & [= <-] & [= <-] & Ht' & Hu' & Hp).
  by rewrite (string_at_fun _ _ _ Hm Ht'), (string_at_fun _ _ _ Hm' Hu').
Qed.
Lemma event_authorized_ok table g : table_ok (fun _ => True) table -> guid_ends g ->
  exists b, event_authorized table g = Some b /\ (b = true <-> event_permitted table g).
Proof.
  intros Ht Hg. unfold event_authorized, event_permitted. destruct (guid_block g) as [m|] eqn:Eg; [|exists false; split; [done|]; split; [done|]; by intros (? & [=] & _)].
  destruct (scan_ok (event_covers m) (event_matches (take 16 m)) _ table Ht (fun r _ => event_covers_ok m r (Hg _ Eg))) as (b & E & Hb).
  exists b. split; [done|]. rewrite Hb. split; [intros Hp; by exists m|by intros (? & [= <-] & Hp)].
Qed.
Lemma register_authorized_ok table g : table_ok (fun _ => True) table -> guid_ends g ->
  exists b, register_authorized table g = Some b /\ (b = true <-> event_permitted table g).
Proof.
  intros Ht Hg. destruct (event_authorized_ok table g Ht Hg) as (b & E & Hb). exists b. split; [|done]. unfold register_authorized. rewrite E.
  destruct (guid_block g) as [m|] eqn:Eg; [|done]. unfold guid_at. by rewrite (proj2 (Nat.leb_le _ _) (Hg _ Eg)).
Qed.
Lemma command_authorized_ok table argc argv : table_ok command_rule_ok table -> (argc <> 0 -> forall l, argv = Some l -> exists a l', l = a :: l' /\ string_ends (Some a)) ->
  exists b, command_authorized table argc argv = Some b /\ (b = true <-> command_permitted table argc argv).
Proof.
  intros Ht Ha. unfold command_authorized, command_permitted. destruct (Z.eqb_spec argc 0) as [->|Hc]; [exists false; split; [done|]; split; [done|]; by intros [? _]|].
  destruct argv as [l|]; [|exists false; split; [done|]; split; [done|]; by intros (_ & ? & ? & ? & ? & [=] & _)].
  destruct (Ha Hc l eq_refl) as (a & l' & -> & Hs). destruct (buf_ptr a) as [m|] eqn:Em; [|exists false; split; [done|]; split; [done|]; intros (_ & ? & ? & ? & ? & [= <- <-] & ? & _); congruence].
  destruct (Hs m Em) as [t Hm]. assert (Hl : (length t < S (length m))%nat) by (destruct Hm as [_ [rest ->]]; rewrite length_app; cbn; lia).
  destruct (commands_ok table _ Ht m t Hm Hl) as (b & E & Hb). exists b. split; [done|]. rewrite Hb. split; [intros Hp; split; [done|]; by exists a, l', m, t|].
  intros (_ & a' & l2 & m' & t' & [= <- <-] & Em' & Hm' & Hp). rewrite Em in Em'. injection Em' as <-. by rewrite (string_at_fun _ _ _ Hm Hm').
Qed.

Section Decides.
Context {W : Type} `{IpfSrv W}.

(** The call through the authorisation manager, and the call of ESIF's function. *)
Definition checked_call (h : Z) (q : request) : SM W (Z * option EsifData) :=
  match q with
  | QGetConfig n k v => AuthMgr_EsifGetConfig h n k v
  | QSetConfig n k v fl => let! rc := AuthMgr_EsifSetConfig h n k v fl in sret (rc, None)
  | QPrimitive ph dh req resp p i => AuthMgr_EsifPrimitive h ph dh req resp p i
  | QWriteLog ph dh m l => let! rc := AuthMgr_EsifWriteLog h ph dh m l in sret (rc, None)
  | QEventRegister ph dh g => let! rc := AuthMgr_EsifEventRegister h ph dh g in sret (rc, None)
  | QEventUnregister ph dh g => let! rc := AuthMgr_EsifEventUnregister h ph dh g in sret (rc, None)
  | QSendEvent ph dh d g => let! rc := AuthMgr_EsifSendEvent h ph dh d g in sret (rc, None)
  | QSendCommand argc argv v => AuthMgr_EsifSendCommand h argc argv v
  end.
Definition native_call (h : Z) (q : request) : SM W (Z * option EsifData) :=
  match q with
  | QGetConfig n k v => call fGetConfigFuncPtr (fun f => f h n k v) (ESIF_E_NOT_IMPLEMENTED, v)
  | QSetConfig n k v fl => let! rc := call fSetConfigFuncPtr (fun f => f h n k v fl) ESIF_E_NOT_IMPLEMENTED in sret (rc, None)
  | QPrimitive ph dh req resp p i =>
      call fPrimitiveFuncPtr (fun f => let! r := f h ph dh req resp p i in sret (r.1, basic_length r.1 r.2)) (ESIF_E_NOT_IMPLEMENTED, resp)
  | QWriteLog ph dh m l => let! rc := call fWriteLogFuncPtr (fun f => f h ph dh m l) ESIF_E_NOT_IMPLEMENTED in sret (rc, None)
  | QEventRegister ph dh g => let! rc := call fRegisterEventFuncPtr (fun f => f h ph dh g) ESIF_E_NOT_IMPLEMENTED in sret (rc, None)
  | QEventUnregister ph dh g => let! rc := call fUnregisterEventFuncPtr (fun f => f h ph dh g) ESIF_E_NOT_IMPLEMENTED in sret (rc, None)
  | QSendEvent ph dh d g => let! rc := call fSendEventFuncPtr (fun f => f h ph dh d g) ESIF_E_NOT_IMPLEMENTED in sret (rc, None)
  | QSendCommand argc argv v => call fSendCommandFuncPtr (fun f => f h argc argv v) (ESIF_E_NOT_IMPLEMENTED, v)
  end.

Lemma authorize_ok {R T} h sel (check : option (list R) -> option bool) (refused : T) (m : SM W T) w auth b :
  AuthMgr_GetAuthAclByEsifHandle w h = Some auth -> check (table_of sel auth) = Some b -> authorize h sel check refused m w = (if b then m w else Some (refused, w)).
Proof. intros Ha Hc. unfold authorize, sbind, sget. rewrite Ha. cbn. rewrite Hc. cbn. by destruct b. Qed.

(** The outcome of a check, and of the call behind it. *)
Lemma decided {R T} h sel (check : option (list R) -> option bool) (refused : T) (m : SM W T) w auth (P : Prop) :
  AuthMgr_GetAuthAclByEsifHandle w h = Some auth -> (exists b, check (table_of sel auth) = Some b /\ (b = true <-> P)) ->
  P /\ authorize h sel check refused m w = m w \/ ~ P /\ authorize h sel check refused m w = Some (refused, w).
Proof.
  intros Ha (b & E & Hb). rewrite (authorize_ok _ _ _ _ _ _ _ _ Ha E). destruct b; [left; split; [by apply Hb|done]|right; split; [|done]]. intros HP. by apply Hb in HP.
Qed.
Lemma decided_result (P : Prop) (m m' : SM W Z) w : P /\ m w = m' w \/ ~ P /\ m w = Some (ESIF_E_SESSION_PERMISSION_DENIED, w) ->
  P /\ (let! rc := m in sret (rc, None)) w = (let! rc := m' in sret (rc, None : option EsifData)) w \/ ~ P /\ (let! rc := m in sret (rc, None)) w = Some ((ESIF_E_SESSION_PERMISSION_DENIED, None : option EsifData), w).
Proof. unfold sbind. intros [[HP E]|[HP E]]; rewrite E; tauto. Qed.

Lemma checked_or_refused (h : Z) (q : request) (w : W) (auth : option AuthAclDef)
  (Hauth : AuthMgr_GetAuthAclByEsifHandle w h = Some auth) (Hok : auth_ok auth) (Hq : readable q) :
  (authorized auth q /\ checked_call h q w = native_call h q w) \/
  (~ authorized auth q /\ checked_call h q w = Some ((ESIF_E_SESSION_PERMISSION_DENIED, given_back q), w)).
Proof.
  destruct q; cbn [checked_call native_call authorized given_back readable] in *; try apply decided_result; apply (decided _ _ _ _ _ _ _ _ Hauth).
  - destruct Hq. apply config_authorized_ok; [|done|done]. apply table_of_ok; [done|apply ok_get].
  - destruct Hq. apply config_authorized_ok; [|done|done]. apply table_of_ok; [done|apply ok_set].
  - eapply scan_ok; [apply table_of_ok; [done|apply ok_prim]|]. intros r _. apply primitive_ok.
  - eapply scan_ok; [apply table_of_ok; [done|apply ok_log]|]. intros r _. apply log_ok.
  - apply register_authorized_ok; [|done]. apply table_of_ok; [done|apply ok_reg].
  - apply register_authorized_ok; [|done]. apply table_of_ok; [done|apply ok_unreg].
  - apply event_authorized_ok; [|done]. apply table_of_ok; [done|apply ok_event].
  - apply command_authorized_ok; [|done]. apply table_of_ok; [done|apply ok_cmd].
Qed.

(** C5: Whether a call of a client reaches ESIF is decided by the rules of its role.  If
    the first rule that covers the call permits it - for a command line, if that holds for
    each of the commands in it - the call does exactly what ESIF's function does, with the
    length of a basic answer filled in; otherwise it is refused with
    ESIF_E_SESSION_PERMISSION_DENIED and nothing changes.  Every check comes to an end. *)
Theorem calls_need_permission (h : Z) (q : request) (w : W) (auth : option AuthAclDef)
  (Hauth : AuthMgr_GetAuthAclByEsifHandle w h = Some auth) (Hok : auth_ok auth) (Hq : readable q) :
  (authorized auth q /\ checked_call h q w = native_call h q w) \/
  (~ authorized auth q /\ checked_call h q w = Some ((ESIF_E_SESSION_PERMISSION_DENIED, given_back q), w)).
Proof. by apply checked_or_refused. Qed.
End Decides.

(* ------------------------------------------------------------------ *)
(** ** A server that counts the primitives executed *)

Definition demo_rules : AuthAclDef := mk_acl_def "demo" None None (Some [mk_acl_primitive true 5; mk_acl_primitive false 0]) None None None None None.
Definition demo_srv : IpfSrv Z := {|
  sessions := fun _ => [None; Some (mk_session 3 7 IPFAUTH_ROLE_NONE)]; roles := fun _ => [demo_rules];
  fGetConfigFuncPtr := None; fSetConfigFuncPtr := None;
  fPrimitiveFuncPtr := Some (fun _ _ _ _ response _ _ => fun n => Some ((ESIF_OK, response), n + 1));
  fWriteLogFuncPtr := None; fRegisterEventFuncPtr := None; fUnregisterEventFuncPtr := None; fSendEventFuncPtr := None; fSendCommandFuncPtr := None |}.
Lemma demo_rules_ok : acl_ok demo_rules.
Proof. split; try (by intros ? [=]). intros ? [= <-]. split; [by repeat constructor|]. by do 2 constructor. Qed.

(** Primitive 5 is executed; primitive 6 is refused. *)
Lemma calls_need_permission_witness :
  @checked_call Z demo_srv 7 (QPrimitive 1 2 None (Some (mk_EsifData 3 (Some [0; 0; 0; 0]) 4 0)) 5 0) 0 = Some ((ESIF_OK, Some (mk_EsifData 3 (Some [0; 0; 0; 0]) 4 4)), 1) /\
  @checked_call Z demo_srv 7 (QPrimitive 1 2 None None 6 0) 0 = Some ((ESIF_E_SESSION_PERMISSION_DENIED, None), 0).
Proof.
  split.
  - destruct (@calls_need_permission Z demo_srv 7 (QPrimitive 1 2 None (Some (mk_EsifData 3 (Some [0; 0; 0; 0]) 4 0)) 5 0) 0 (Some demo_rules) eq_refl demo_rules_ok I) as [[_ E]|[Hn _]]; [exact E|].
    exfalso. apply Hn. exists [mk_acl_primitive true 5; mk_acl_primitive false 0]. split; [done|]. exists [], (mk_acl_primitive true 5), [mk_acl_primitive false 0]. split_and!; try done. by left.
  - destruct (@calls_need_permission Z demo_srv 7 (QPrimitive 1 2 None None 6 0) 0 (Some demo_rules) eq_refl demo_rules_ok I) as [[Ha _]|[_ E]]; [|exact E].
    exfalso. destruct Ha as (? & [= <-] & Hp). apply permits_other in Hp; [|done|intros [[=]|[=]]]. by apply permits_empty in Hp.
Defined.
