(* ===== verification/AuthRoles.v ===== *)
(** * The roles of IPF's clients: the tables of IPF ipfsrv/ipfsrv_authmgr.c

    Each role of the server has its lists of rules ([AuthMgr_GetAuthAclDef]).  The lists
    are those of the code; an empty rule ends each. *)

From S2P Require Import Prelude CString EsifData Ids AuthMgr.
From stdpp Require Import list strings.
Local Open Scope Z_scope.
Local Open Scope dptf_scope.

(* ------------------------------------------------------------------ *)
(** ** The tables *)

Definition IPFAUTH_ROLE_ROOT : Z := 0xA0001.
Definition IPFAUTH_ROLE_PUBLIC : Z := 0xA0002.
Definition IPFAUTH_ROLE_ELEVATED : Z := 0xA0003.
Definition IPFAUTH_ROLE_DPTF : Z := 0xA0004.
Definition IPFAUTH_ROLE_DPTFUI : Z := 0xA0005.
Definition IPFAUTH_ROLE_IPFUI : Z := 0xA0006.
Definition IPFAUTH_ROLE_ICST : Z := 0xA0007.
Definition IPFAUTH_ROLE_ICSTSVC : Z := 0xA0008.
Definition IPFAUTH_ROLE_DPTFTCS : Z := 0xA0009.

(** [{ ACL_PERMIT, ... }], and [{ 0 }]. *)
Definition permit_config (nameSpace keyName : option (list Z)) : AclConfig := mk_acl_config true nameSpace keyName.
Definition no_config : AclConfig := mk_acl_config false None None.
Definition no_log : AclWriteLog := mk_acl_log false 0 0.
Definition permit_primitives (l : list Z) : list AclPrimitive := map (mk_acl_primitive true) l ++ [mk_acl_primitive false 0].
Definition permit_events (l : list (list Z)) : list AclEvent := map (mk_acl_event true) l ++ [mk_acl_event false nullGuid].
Definition permit_commands (l : list (option (list Z))) : list AclCommand := map (mk_acl_command true) l ++ [mk_acl_command false None].

Definition root_GetConfig : list AclConfig := [permit_config None None; no_config].
Definition root_SetConfig : list AclConfig := [permit_config None None; no_config].
Definition root_Primitive : list AclPrimitive := permit_primitives [0].
Definition root_WriteLog : list AclWriteLog := [mk_acl_log true 0 0; no_log].
Definition root_Event : list AclEvent := permit_events [nullGuid].
Definition root_EventSend : list AclEvent := permit_events [nullGuid].
Definition root_Command : list AclCommand := permit_commands [None].
Definition public_GetConfig : list AclConfig := [no_config].
Definition public_SetConfig : list AclConfig := [no_config].
Definition public_Primitive : list AclPrimitive := permit_primitives [
  GET_ACUR; GET_ADAPTER_POWER_RATING; GET_AGGREGATE_DISPLAY_INFORMATION; GET_AP01; GET_AP02; GET_AP10; GET_AVOL;
  GET_BATTERY_HIGH_FREQUENCY_IMPEDANCE; GET_BATTERY_MAX_PEAK_CURRENT; GET_BATTERY_NO_LOAD_VOLTAGE; GET_BATTERY_PERCENTAGE; GET_CHARGER_TYPE;
  GET_CPU_UTILIZATION; GET_DEVICE_UNIQUE_ID; GET_FAN_INFORMATION; GET_FAN_PERFORMANCE_STATES; GET_FAN_STATUS; GET_HW_SOC_WORKLOAD;
  GET_HWP_GUARANTEED_PERFORMANCE_LEVEL; GET_HWP_HIGHEST_PERFORMANCE_LEVEL; GET_HWP_LOWEST_PERFORMANCE_LEVEL;
  GET_HWP_MOST_EFFICIENT_PERFORMANCE_LEVEL; GET_PARTICIPANT_FRIENDLY_NAME; GET_PARTICIPANT_TYPE; GET_PERF_PREFERENCE_MAX; GET_PERF_PREFERENCE_MIN;
  GET_PERF_PSTATE_DEPTH_LIMIT; GET_PLATFORM_BATTERY_STEADY_STATE; GET_PLATFORM_MAX_BATTERY_POWER; GET_PLATFORM_POWER_LIMIT;
  GET_PLATFORM_POWER_LIMIT_DUTY_CYCLE; GET_PLATFORM_POWER_LIMIT_ENABLE; GET_PLATFORM_POWER_LIMIT_TIME_WINDOW; GET_PLATFORM_POWER_SOURCE;
  GET_PLATFORM_REST_OF_POWER; GET_PROC_LOGICAL_PROCESSOR_COUNT; GET_PROC_THERMAL_DESIGN_POWER; GET_PROC_TJMAX; GET_RAPL_POWER_LIMIT;
  GET_RAPL_POWER_LIMIT_DUTY_CYCLE; GET_RAPL_POWER_LIMIT_ENABLE; GET_RAPL_POWER_LIMIT_TIME_WINDOW; GET_RAPL_POWER_MAX; GET_RAPL_POWER_MIN;
  GET_SOC_WORKLOAD; GET_SOC_DGPU_WEIGHTS; GET_TCC_LOCK_STATUS; GET_TCC_OFFSET; GET_TEMPERATURE_THRESHOLDS; GET_TEMPERATURE].
Definition public_WriteLog : list AclWriteLog := [mk_acl_log true eLogTypeFatal eLogTypeDebug; no_log].
Definition public_Event : list AclEvent := permit_events [
  APP_BROADCAST; APP_BROADCAST_UNPRIVILEGED; BIOMETRIC_PRESENCE_SENSOR_DISTANCE_CHANGED; CHARGER_TYPE_CHANGED; COLLABORATION_CHANGED;
  DEVICE_ORIENTATION_CHANGED; DISPLAY_ORIENTATION_CHANGED; EXTERNAL_MONITOR_CONNECTION_STATE_CHANGED; LOG_VERBOSITY_CHANGED; MOTION_CHANGED;
  OS_BATTERY_PERCENT_CHANGED; OS_DOCK_MODE_CHANGED; OS_GAME_MODE_CHANGED; OS_LID_STATE_CHANGED; OS_MIXED_REALITY_MODE_CHANGED;
  OS_PLATFORM_TYPE_CHANGED; OS_POWER_SLIDER_VALUE_CHANGED; OS_POWER_SOURCE_CHANGED; OS_POWERSCHEME_PERSONALITY_CHANGED; OS_SCREEN_STATE_CHANGED;
  OS_USER_INTERACTION_CHANGED; OS_USER_PRESENCE_CHANGED; PLATFORM_USER_PRESENCE_CHANGED; SENSOR_MODE_CHANGED; SENSOR_USER_PRESENCE_CHANGED;
  SYSTEM_IN_BAG; TEMP_THRESHOLD_CROSSED; WINDOWS_LOW_POWER_MODE_ENTRY; WINDOWS_LOW_POWER_MODE_EXIT; WORKLOAD_CLASSIFICATION_CHANGED].
Definition public_EventSend : list AclEvent := permit_events [APP_BROADCAST_UNPRIVILEGED].
Definition public_Command : list AclCommand := permit_commands [].
Definition elevated_GetConfig : list AclConfig := [no_config].
Definition elevated_SetConfig : list AclConfig := [no_config].
Definition elevated_Primitive : list AclPrimitive := permit_primitives [
  GET_ACUR; GET_ADAPTER_POWER_RATING; GET_AGGREGATE_DISPLAY_INFORMATION; GET_AP01; GET_AP02; GET_AP10; GET_AVOL;
  GET_BATTERY_HIGH_FREQUENCY_IMPEDANCE; GET_BATTERY_MAX_PEAK_CURRENT; GET_BATTERY_NO_LOAD_VOLTAGE; GET_BATTERY_PERCENTAGE; GET_CHARGER_TYPE;
  GET_CPU_UTILIZATION; GET_DEVICE_UNIQUE_ID; GET_FAN_INFORMATION; GET_FAN_PERFORMANCE_STATES; GET_FAN_STATUS; GET_HW_SOC_WORKLOAD;
  GET_HWP_GUARANTEED_PERFORMANCE_LEVEL; GET_HWP_HIGHEST_PERFORMANCE_LEVEL; GET_HWP_LOWEST_PERFORMANCE_LEVEL;
  GET_HWP_MOST_EFFICIENT_PERFORMANCE_LEVEL; GET_IA_CLIP_REASONS; GET_PARTICIPANT_FRIENDLY_NAME; GET_PARTICIPANT_PERF_PRESENT_CAPABILITY;
  GET_PARTICIPANT_TYPE; GET_PERF_PREFERENCE_MAX; GET_PERF_PREFERENCE_MIN; GET_PERF_PSTATE_DEPTH_LIMIT; GET_PLATFORM_BATTERY_STEADY_STATE;
  GET_PLATFORM_MAX_BATTERY_POWER; GET_PLATFORM_POWER_LIMIT; GET_PLATFORM_POWER_LIMIT_DUTY_CYCLE; GET_PLATFORM_POWER_LIMIT_ENABLE;
  GET_PLATFORM_POWER_LIMIT_TIME_WINDOW; GET_PLATFORM_POWER_SOURCE; GET_PLATFORM_REST_OF_POWER; GET_PROC_LOGICAL_PROCESSOR_COUNT;
  GET_PROC_THERMAL_DESIGN_POWER; GET_PROC_TJMAX; GET_RAPL_ENERGY; GET_RAPL_POWER; GET_RAPL_POWER_LIMIT; GET_RAPL_POWER_LIMIT_DUTY_CYCLE;
  GET_RAPL_POWER_LIMIT_ENABLE; GET_RAPL_POWER_LIMIT_TIME_WINDOW; GET_RAPL_POWER_MAX; GET_RAPL_POWER_MIN; GET_SOC_WORKLOAD; GET_SOC_DGPU_WEIGHTS;
  GET_TCC_LOCK_STATUS; GET_TCC_OFFSET; GET_TEMPERATURE; GET_TEMPERATURE_THRESHOLDS; SET_FAN_LEVEL; SET_PERF_PREFERENCE_MAX; SET_PERF_PREFERENCE_MIN;
  SET_PLATFORM_POWER_LIMIT; SET_PLATFORM_POWER_LIMIT_DUTY_CYCLE; SET_PLATFORM_POWER_LIMIT_ENABLE; SET_PLATFORM_POWER_LIMIT_TIME_WINDOW;
  SET_PROC_NUMBER_OFFLINE_CORES; SET_RAPL_POWER_LIMIT; SET_RAPL_POWER_LIMIT_DUTY_CYCLE; SET_RAPL_POWER_LIMIT_ENABLE;
  SET_RAPL_POWER_LIMIT_TIME_WINDOW; SET_TCC_OFFSET; SET_TEMPERATURE_THRESHOLDS].
Definition elevated_WriteLog : list AclWriteLog := [mk_acl_log true eLogTypeFatal eLogTypeDebug; no_log].
Definition elevated_Event : list AclEvent := permit_events [
  APP_BROADCAST; APP_BROADCAST_UNPRIVILEGED; BIOMETRIC_PRESENCE_SENSOR_DISTANCE_CHANGED; CHARGER_TYPE_CHANGED; COLLABORATION_CHANGED;
  DEVICE_ORIENTATION_CHANGED; DISPLAY_ORIENTATION_CHANGED; EXTERNAL_MONITOR_CONNECTION_STATE_CHANGED; LOG_VERBOSITY_CHANGED; MOTION_CHANGED;
  OS_BATTERY_PERCENT_CHANGED; OS_DOCK_MODE_CHANGED; OS_GAME_MODE_CHANGED; OS_LID_STATE_CHANGED; OS_MIXED_REALITY_MODE_CHANGED;
  OS_PLATFORM_TYPE_CHANGED; OS_POWER_SLIDER_VALUE_CHANGED; OS_POWER_SOURCE_CHANGED; OS_POWERSCHEME_PERSONALITY_CHANGED; OS_SCREEN_STATE_CHANGED;
  OS_USER_INTERACTION_CHANGED; OS_USER_PRESENCE_CHANGED; PLATFORM_USER_PRESENCE_CHANGED; SENSOR_MODE_CHANGED; SENSOR_USER_PRESENCE_CHANGED;
  SYSTEM_IN_BAG; TEMP_THRESHOLD_CROSSED; WINDOWS_LOW_POWER_MODE_ENTRY; WINDOWS_LOW_POWER_MODE_EXIT; WORKLOAD_CLASSIFICATION_CHANGED].
Definition elevated_EventSend : list AclEvent := permit_events [APP_BROADCAST; APP_BROADCAST_UNPRIVILEGED; SENSOR_USER_PRESENCE_CHANGED; BIOMETRIC_PRESENCE_SENSOR_INSTANCE_CHANGED].
Definition elevated_Command : list AclCommand := permit_commands [].
Definition dptf_GetConfig : list AclConfig := [permit_config (Some (chars_of "dptf")) None; permit_config (Some (chars_of "override")) None; permit_config (Some (chars_of "ppm")) None; no_config].
Definition dptf_SetConfig : list AclConfig := [permit_config (Some (chars_of "dptf")) None; permit_config (Some (chars_of "override")) None; no_config].
Definition dptf_Primitive : list AclPrimitive := permit_primitives [
  GET_AC_PEAK_POWER; GET_ACTIVE_CONTROL_POINT_RELATIONSHIP_TABLE; GET_ACTIVE_RELATIONSHIP_TABLE; GET_ACTIVITY_COUNTER_WIDTH; GET_ACUR;
  GET_ADAPTER_POWER_RATING; GET_AGGREGATE_DISPLAY_INFORMATION; GET_AGGRESSIVENESS_LEVEL; GET_AP01; GET_AP02; GET_AP10; GET_AVOL;
  GET_BASELINE_SSC_GUARD_BAND; GET_BASELINE_SSC_SPREAD_VALUE; GET_BASELINE_SSC_THRESHOLD; GET_BATTERY_HIGH_FREQUENCY_IMPEDANCE;
  GET_BATTERY_INFORMATION; GET_BATTERY_MAX_PEAK_CURRENT; GET_BATTERY_NO_LOAD_VOLTAGE; GET_BATTERY_PERCENTAGE; GET_BATTERY_STATUS; GET_CHARGER_TYPE;
  GET_CONFIG_ACCESS_CONTROL_SUR; GET_CONFIG_TDP_CONTROL; GET_CONFIG_TDP_LEVEL0; GET_CONFIG_TDP_LEVEL1; GET_CONFIG_TDP_LEVEL2; GET_CONFIG_TDP_LOCK;
  GET_CORE_ACTIVITY_COUNTER; GET_CPU_RWEIGHT; GET_DC_PEAK_POWER; GET_DDR_DVFS_DATA_RATE; GET_DDR_RFI_TABLE; GET_DISENGAGED_STABILITY_WINDOW;
  GET_DISPLAY_BRIGHTNESS; GET_DISPLAY_BRIGHTNESS_LEVELS; GET_DISPLAY_BRIGHTNESS_SOFT; GET_DISPLAY_CAPABILITY; GET_DISPLAY_DEPTH_LIMIT;
  GET_DLVR_REVISION; GET_DLVR_PLL_FREQ_CHANGE_BUSY; GET_DLVR_RFI_ENABLE; GET_DOMAIN_PRIORITY; GET_DYNAMIC_BOOST_STATE; GET_EMERGENCY_CALL_MODE_TABLE;
  GET_EPP_SENSITIVITY_HINT_MODEL; GET_ES_DISPLAY_REQUIRED; GET_EXPECTED_BATTERY_LIFE; GET_FAN_CAPABILITIES; GET_FAN_INFORMATION;
  GET_FAN_MODE_CAPABILITIES; GET_FAN_OPERATING_MODE; GET_FAN_PERFORMANCE_STATES; GET_FAN_SPEED_HIGH_THRESHOLD; GET_FAN_SPEED_LOW_THRESHOLD;
  GET_FAN_SPEED_THRESHOLD_HYSTERESIS; GET_FAN_STATUS; GET_FAST_POLL_TIME; GET_GT_RWEIGHT; GET_HW_SOC_WORKLOAD; GET_HWP_EPP_VALUE; GET_HWPF_STATE;
  GET_INSTANTANEOUS_POWER; GET_INTELLIGENT_THERMAL_MANAGEMENT_TABLE; GET_IP_ALIGNMENT_SETTINGS; GET_IPU_RWEIGHT; GET_LAST_EWMA_POWER;
  GET_LAST_POWER_USED; GET_MINIMUM_SAMPLE_PERIOD; GET_MEDIA_RWEIGHT; GET_NEGATIVE_EVENT_FILTERING_STATE; GET_NOT_PRESENT_STABILITY_WINDOW;
  GET_NOTIFICATION_TEMP_THRESHOLD; GET_OEM_VARS; GET_OPTIMIZATION_SLIDER; GET_OPTIMIZATION_SLIDER_STATUS; GET_PARTICIPANT_CAPABILITIES;
  GET_PARTICIPANT_ENERGY_THRESHOLD; GET_PARTICIPANT_FRIENDLY_NAME; GET_PARTICIPANT_HANDLE_LIST; GET_PARTICIPANT_MAX_CORE_UTILIZATION;
  GET_PARTICIPANT_PERF_PRESENT_CAPABILITY; GET_PARTICIPANT_RESIDENCY_UTILIZATION; GET_PARTICIPANT_UTILIZATION; GET_PARTICIPANT_UTILIZATION_THRESHOLD;
  GET_PASSIVE_RELATIONSHIP_TABLE; GET_PCIE_THROTTLING_OPTION; GET_PERF_PREFERENCE_MAX; GET_PERF_PREFERENCE_MIN; GET_PERF_PSTATE_DEPTH_LIMIT;
  GET_PERF_SUPPORT_STATES; GET_PID_ALGORITHM_TABLE; GET_PID_KI_TERM; GET_PID_KP_TERM; GET_PID_TIME_AVERAGE_CONSTANT;
  GET_PLATFORM_BATTERY_STEADY_STATE; GET_PLATFORM_MAX_BATTERY_POWER; GET_PLATFORM_POWER_LIMIT; GET_PLATFORM_POWER_LIMIT_DUTY_CYCLE;
  GET_PLATFORM_POWER_LIMIT_ENABLE; GET_PLATFORM_POWER_LIMIT_TIME_WINDOW; GET_PLATFORM_POWER_SOURCE; GET_PLATFORM_REST_OF_POWER;
  GET_POSITIVE_EVENT_FILTERING_STATE; GET_POWER_ALPHA; GET_POWER_BOSS_ACTIONS_TABLE; GET_POWER_BOSS_CONDITIONS_TABLE; GET_POWER_BOSS_MATH_TABLE;
  GET_POWER_DELTA; GET_POWER_SEED; GET_POWER_SHARE_TEMPERATURE_THRESHOLD; GET_POWER_SHARING_ALGORITHM_TABLE; GET_POWER_SHARING_ALGORITHM_TABLE_2;
  GET_POWERSHARE_POWER_LIMIT_TIME_WINDOW; GET_PPM_PARAM_VALUES; GET_PRESENT_STABILITY_WINDOW; GET_PROC_LOGICAL_PROCESSOR_COUNT;
  GET_PROC_PERF_PRESENT_CAPABILITY; GET_PROC_PERF_PSTATE_DEPTH_LIMIT; GET_PROC_PERF_SUPPORT_STATES; GET_PROC_PERF_THROTTLE_PRESENT_CAPABILITY;
  GET_PROC_PERF_TSTATE_DEPTH_LIMIT; GET_PROC_PHYSICAL_CORE_COUNT; GET_PROC_THERMAL_DESIGN_POWER; GET_PROC_TJMAX; GET_PROC_TSC; GET_RAPL_ENERGY;
  GET_RAPL_ENERGY_COUNTER_INFO; GET_RAPL_ENERGY_COUNTER_INFO_SUR; GET_RAPL_ENERGY_COUNTER_WIDTH; GET_RAPL_ENERGY_UNIT; GET_RAPL_ENERGY_UNIT_CPU_SUR;
  GET_RAPL_ENERGY_UNIT_GPU_SUR; GET_RAPL_FLOOR_STATE; GET_RAPL_POWER; GET_RAPL_POWER_CONTROL_CAPABILITIES; GET_RAPL_POWER_LIMIT;
  GET_RAPL_POWER_LIMIT_DUTY_CYCLE; GET_RAPL_POWER_LIMIT_ENABLE; GET_RAPL_POWER_LIMIT_TIME_WINDOW; GET_RAPL_POWER_MIN; GET_RF_ACTIVE_CHANNELS;
  GET_RF_CHANNEL_INFO; GET_RFI_DISABLE; GET_RFPROFILE_CENTER_FREQUENCY; GET_RFPROFILE_CENTER_FREQUENCY_DLVR; GET_RFPROFILE_DEFAULT_CENTER_FREQUENCY;
  GET_RFPROFILE_FREQUENCY_ADJUST_RESOLUTION; GET_RFPROFILE_MAX_FREQUENCY; GET_RFPROFILE_MIN_FREQUENCY; GET_RFPROFILE_SSC; GET_RFPROFILE_SSC_DLVR;
  GET_RFPROFILE_SSC_DLVR_CTRL_LOCK; GET_RFPROFILE_WIFI24_FREQ_GUARD_BAND; GET_RFPROFILE_WIFI5_FREQ_GUARD_BAND; GET_RFPROFILE_WWAN_FREQ_GUARD_BAND;
  GET_SLOW_POLL_TIME; GET_SLOWPOLL_POWER_THRESHOLD; GET_SOC_DGPU_WEIGHTS; GET_SOC_POWER_FLOOR_STATE; GET_SOC_WORKLOAD; GET_SOCWLC_SOURCE;
  GET_SUPPORT_EPP_HINT; GET_SUPPORTED_POLICIES; GET_TCC_OFFSET; GET_TEMPERATURE; GET_TEMPERATURE_THRESHOLD_HYSTERESIS; GET_TEMPERATURE_THRESHOLDS;
  GET_THERMAL_RELATIONSHIP_TABLE; GET_TPG_POWER_STATE; GET_TRIP_POINT_ACTIVE; GET_TRIP_POINT_CRITICAL; GET_TRIP_POINT_HOT; GET_TRIP_POINT_PASSIVE;
  GET_TRIP_POINT_WARM; GET_TSC_WIDTH; GET_TSTATES; GET_VIRTUAL_SENSOR_CALIB_TABLE; GET_VIRTUAL_SENSOR_POLLING_TABLE;
  GET_VOLTAGE_THRESHOLD_MATH_TABLE; GET_VPU_RWEIGHT; GET_WEIGHTED_SLOWPOLL_CONSTANT; GET_WIFI_CAPABILITIES; SET_AC_PEAK_POWER;
  SET_ACTIVE_CONTROL_POINT_RELATIONSHIP_TABLE; SET_ACTIVE_POWER_SCHEME; SET_ACTIVE_RELATIONSHIP_TABLE; SET_APP_ALIVE_RESPONSE; SET_APP_COMPAT;
  SET_APP_COMPAT_DELETE; SET_BATTERY_PERCENTAGE; SET_CONFIG_RESET; SET_CPU_RWEIGHT; SET_DC_PEAK_POWER; SET_DDR_DVFS_RFI_RESTRICTION;
  SET_DDR_RFI_TABLE; SET_DEVICE_TEMPERATURE_INDICATION; SET_DISPLAY_BRIGHTNESS; SET_DISPLAY_BRIGHTNESS_LEVELS; SET_DISPLAY_CAPABILITY;
  SET_DISPLAY_DEPTH_LIMIT; SET_DTT_MASTER_TO_CNVI; SET_DYNAMIC_BOOST_STATE; SET_EMERGENCY_CALL_MODE_TABLE; SET_ENERGY_THRESHOLD_COUNT;
  SET_ENERGY_THRESHOLD_INT_DISABLE; SET_FAN_CAPABILITIES; SET_FAN_DIRECTION; SET_FAN_LEVEL; SET_FAN_OPERATING_MODE; SET_FAN_SPEED_HIGH_THRESHOLD;
  SET_FAN_SPEED_LOW_THRESHOLD; SET_FOREGROUND_APP_RATIO_PERIOD; SET_GT_RWEIGHT; SET_INTELLIGENT_THERMAL_MANAGEMENT_TABLE; SET_IP_ALIGNMENT_DISABLE;
  SET_IP_ALIGNMENT_ENABLE; SET_IP_ALIGNMENT_START; SET_IP_ALIGNMENT_SUPPORT_STATE; SET_IP_ALIGNMENT_STOP; SET_IPU_RWEIGHT; SET_LAST_EWMA_POWER;
  SET_LAST_POWER_USED; SET_MEDIA_RWEIGHT; SET_OEM_VARS; SET_OPERATING_SYSTEM_CAPABILITIES; SET_OPTIMIZATION_SLIDER; SET_OS_BATTERY_PERCENTAGE;
  SET_OS_POWER_SOURCE; SET_PARTICIPANT_ENERGY_THRESHOLD; SET_PARTICIPANT_MAX_PERF_STATE; SET_PARTICIPANT_RESIDENCY_UTILIZATION;
  SET_PARTICIPANT_UTILIZATION_THRESHOLD; SET_PASSIVE_RELATIONSHIP_TABLE; SET_PBOK; SET_PERF_PREFERENCE_MAX; SET_PERF_PREFERENCE_MIN;
  SET_PERF_PRESENT_CAPABILITY; SET_PERF_PSTATE_DEPTH_LIMIT; SET_PERF_SUPPORT_STATES; SET_PID_ALGORITHM_TABLE; SET_PID_KI_TERM; SET_PID_KP_TERM;
  SET_PID_TIME_AVERAGE_CONSTANT; SET_PLATFORM_POWER_LIMIT; SET_PLATFORM_POWER_LIMIT_DUTY_CYCLE; SET_PLATFORM_POWER_LIMIT_ENABLE;
  SET_PLATFORM_POWER_LIMIT_TIME_WINDOW; SET_POWER_BOSS_ACTIONS_TABLE; SET_POWER_BOSS_CONDITIONS_TABLE; SET_POWER_BOSS_MATH_TABLE;
  SET_POWER_SCHEME_EPP; SET_POWER_SHARE_EFFECTIVE_BIAS; SET_POWER_SHARE_POLICY_POWER; SET_POWER_SHARE_TEMPERATURE_THRESHOLD;
  SET_POWER_SHARING_ALGORITHM_TABLE; SET_POWER_SHARING_ALGORITHM_TABLE_2; SET_PPM_NON_BALANCED_VALUES; SET_PPM_PARAM_VALUES; SET_PPM_PARAMS_TO_NULL;
  SET_PROC_MAX_THROTTLE_STATE; SET_PROC_NUMBER_OFFLINE_CORES; SET_PROC_PERF_PSTATE_DEPTH_LIMIT; SET_PROC_PERF_SUPPORT_STATES;
  SET_PROC_PERF_TSTATE_DEPTH_LIMIT; SET_PROCESS_AFFINITY_MASK; SET_RAPL_FLOOR_STATE; SET_RAPL_POWER_CONTROL_CAPABILITIES; SET_RAPL_POWER_LIMIT;
  SET_RAPL_POWER_LIMIT_CLEAR; SET_RAPL_POWER_LIMIT_DUTY_CYCLE; SET_RAPL_POWER_LIMIT_ENABLE; SET_RAPL_POWER_LIMIT_TIME_WINDOW; SET_RAPL_POWER_MIN;
  SET_RAPL_POWER_MIN_CLEAR; SET_RF_ACTIVE_CHANNELS; SET_RF_CHANNEL_INFO; SET_RFPROFILE_CENTER_FREQUENCY; SET_RFPROFILE_CENTER_FREQUENCY_DLVR;
  SET_RFPROFILE_CENTER_FREQUENCY_DLVR_SUR; SET_RFPROFILE_SSC_DLVR; SET_RFPROFILE_SSC_DLVR_SUR; SET_SLOWPOLL_POWER_THRESHOLD;
  SET_SOCWC_DC_POLLING_PERIOD; SET_SOCWC_SLOW_POLLING_PERIOD; SET_SOCWLC_SOURCE; SET_SUPPORT_EPP_HINT; SET_SYSTEM_HIBERNATE; SET_SYSTEM_SHUTDOWN;
  SET_SYSTEM_SLEEP; SET_TCC_OFFSET; SET_TEMPERATURE_THRESHOLDS; SET_THERMAL_RELATIONSHIP_TABLE; SET_TRIP_POINT_ACTIVE; SET_TRIP_POINT_PASSIVE;
  SET_TSTATE_CURRENT; SET_UNDER_VOLTAGE_THRESHOLD; SET_VIRTUAL_SENSOR_CALIB_TABLE; SET_VIRTUAL_TEMPERATURE; SET_VOLTAGE_THRESHOLD_MATH_TABLE;
  SET_VPU_RWEIGHT; SET_WEIGHTED_SLOWPOLL_CONSTANT].
Definition dptf_WriteLog : list AclWriteLog := [mk_acl_log true 0 0; no_log].
Definition dptf_Event : list AclEvent := permit_events [
  APP_BROADCAST; APP_BROADCAST_UNPRIVILEGED; APP_UNLOADING; BATTERY_COUNT_NOTIFICATION; BATTERY_HIGH_FREQUENCY_IMPEDANCE_CHANGED;
  BATTERY_INFORMATION_CHANGED; BATTERY_NO_LOAD_VOLTAGE_CHANGED; BATTERY_STATUS_CHANGED; CHARGER_TYPE_CHANGED; COLLABORATION_CHANGED;
  CORE_CAPABILITY_CHANGED; DEVICE_ORIENTATION_CHANGED; DISPLAY_OFF; DISPLAY_ON; DISPLAY_ORIENTATION_CHANGED;
  DTT_ACTIVE_CONTROL_POINT_RELATIONSHIP_TABLE_CHANGED; DTT_ACTIVE_RELATIONSHIP_TABLE_CHANGED; DTT_ALIVE_REQUEST; DTT_DISPLAY_CAPABILITY_CHANGED;
  DTT_DISPLAY_STATUS_CHANGED; DTT_EPP_SENSITIVITY_HINT_CHANGED; DTT_INTELLIGENT_THERMAL_MANAGEMENT_TABLE_CHANGED;
  DTT_PARTICIPANT_ACTIVITY_LOGGING_DISABLED; DTT_PARTICIPANT_ACTIVITY_LOGGING_ENABLED; DTT_PASSIVE_TABLE_CHANGED; DTT_PID_ALGORITHM_TABLE_CHANGED;
  DTT_POLICY_ACTIVITY_LOGGING_DISABLED; DTT_POLICY_ACTIVITY_LOGGING_ENABLED; DTT_POWER_BOSS_ACTIONS_TABLE_CHANGED;
  DTT_POWER_BOSS_CONDITIONS_TABLE_CHANGED; DTT_POWER_BOSS_MATH_TABLE_CHANGED; DTT_POWER_SHARING_ALGORITHM_TABLE_2_CHANGED;
  DTT_POWER_SHARING_ALGORITHM_TABLE_CHANGED; DTT_PRIORITY_CHANGED; DTT_SUPPORTED_POLICIES_CHANGED; DTT_SYSTEM_COOLING_POLICY_CHANGED;
  DTT_THERMAL_RELATIONSHIP_TABLE_CHANGED; DTT_VIRTUAL_SENSOR_CALIB_TABLE_CHANGED; DTT_VIRTUAL_SENSOR_POLLING_TABLE_CHANGED;
  DTT_VIRTUAL_SENSOR_RECALC_CHANGED; DTT_VOLTAGE_THRESHOLD_MATH_TABLE_CHANGED; DTT_WORKLOAD_HINT_CONFIGURATION_CHANGED;
  EMERGENCY_CALL_MODE_TABLE_CHANGED; ENERGY_THRESHOLD_CROSSED; EXTERNAL_MONITOR_CONNECTION_STATE_CHANGED; FAN_CAPABILITIES_CHANGED;
  FAN_SPEED_THRESHOLD_CROSSED; FOREGROUND_APP_CHANGED; FOREGROUND_BACKGROUND_RATIO_CHANGED; IP_ALIGNMENT_STATE_CHANGED; LOG_VERBOSITY_CHANGED;
  MAX_BATTERY_POWER_CHANGED; MOTION_CHANGED; OEM_VARS_CHANGED; OS_BATTERY_PERCENT_CHANGED; OS_DOCK_MODE_CHANGED; OS_GAME_MODE_CHANGED;
  OS_LID_STATE_CHANGED; OS_MIXED_REALITY_MODE_CHANGED; OS_MOBILE_NOTIFICATION; OS_PLATFORM_TYPE_CHANGED; OS_POWER_SLIDER_VALUE_CHANGED;
  OS_POWER_SOURCE_CHANGED; OS_POWERSCHEME_PERSONALITY_CHANGED; OS_SCREEN_STATE_CHANGED; OS_USER_INTERACTION_CHANGED; OS_USER_PRESENCE_CHANGED;
  PARTICIPANT_RESUME; PARTICIPANT_SPEC_INFO_CHANGED; PARTICIPANT_SUSPEND; PCIE_THROTTLE_REQUESTED; PERF_CAPABILITY_CHANGED; PERF_CONTROL_CHANGED;
  PLATFORM_BATTERY_STEADY_STATE_CHANGED; PLATFORM_POWER_SOURCE_CHANGED; PLATFORM_REST_OF_POWER_CHANGED; PLATFORM_USER_PRESENCE_CHANGED;
  POWER_CAPABILITY_CHANGED; PROCESS_LOAD_NOTIFICATION; RF_CONNECTION_STATUS_CHANGED; RF_PROFILE_CHANGED; SESSION_STATE_CHANGED;
  SOC_POWER_FLOOR_CHANGED; SOC_WORKLOADTYPE_CHANGED; SYSTEM_IN_BAG; TEMP_THRESHOLD_CROSSED; TPG_POWER_STATE_CHANGED; TPG_TPP_LIMIT_CHANGED;
  WINDOWS_LOW_POWER_MODE_ENTRY; WINDOWS_LOW_POWER_MODE_EXIT; WORKLOAD_CLASSIFICATION_CHANGED].
Definition dptf_EventSend : list AclEvent := permit_events [APP_BROADCAST; APP_LOADED; APP_UNLOADED; DTT_PARTICIPANT_CONTROL_ACTION; DTT_POLICY_LOADED_UNLOADED; PARTICIPANT_CREATE; PARTICIPANT_UNREGISTER].
Definition dptf_Command : list AclCommand := permit_commands [].
Definition dptftcs_GetConfig : list AclConfig := [permit_config (Some (chars_of "dptf")) None; no_config].
Definition dptftcs_SetConfig : list AclConfig := [no_config].
Definition dptftcs_Primitive : list AclPrimitive := permit_primitives [
  GET_ACTIVE_CONTROL_POINT_RELATIONSHIP_TABLE; GET_ACTIVE_RELATIONSHIP_TABLE; GET_ADAPTER_POWER_RATING; GET_ADAPTIVE_PERFORMANCE_ACTIONS_TABLE;
  GET_ADAPTIVE_PERFORMANCE_CONDITIONS_TABLE; GET_CONFIG_ACCESS_CONTROL_SUR; GET_CONFIG_TDP_CONTROL; GET_CONFIG_TDP_LEVEL0; GET_CONFIG_TDP_LEVEL1;
  GET_CONFIG_TDP_LEVEL2; GET_CONFIG_TDP_LOCK; GET_DISPLAY_BRIGHTNESS; GET_EMERGENCY_CALL_MODE_TABLE; GET_EPP_BATTERY_LIFE_BURSTY_THRESHOLD;
  GET_FAN_MODE_CAPABILITIES; GET_FAN_OPERATING_MODE; GET_FAN_PERFORMANCE_STATES; GET_IA_CLIP_REASONS; GET_LAST_EWMA_POWER; GET_MBT_MODEL_VERSION;
  GET_OEM_VARS; GET_PARTICIPANT_SAMPLE_PERIOD; GET_PASSIVE_RELATIONSHIP_TABLE; GET_PERF_SUPPORT_STATES; GET_PID_ALGORITHM_TABLE;
  GET_PLATFORM_POWER_LIMIT; GET_PLATFORM_REST_OF_POWER; GET_POWER_BOSS_ACTIONS_TABLE; GET_POWER_BOSS_CONDITIONS_TABLE; GET_POWER_BOSS_MATH_TABLE;
  GET_POWER_SAMPLE_PERIOD; GET_POWER_SHARING_ALGORITHM_TABLE; GET_POWER_SHARING_ALGORITHM_TABLE_2; GET_PROC_PKG_CSTATE_RESIDENCY;
  GET_PROC_THERMAL_DESIGN_POWER; GET_PROC_TSC; GET_RAPL_ENERGY; GET_RAPL_ENERGY_UNIT; GET_RAPL_POWER; GET_RAPL_POWER_CONTROL_CAPABILITIES;
  GET_RAPL_POWER_LIMIT; GET_RAPL_POWER_LIMIT_TIME_WINDOW; GET_SOCWC_POWER_DIFFS_COUNT_THRESHOLD; GET_SUPPORTED_POLICIES; GET_TEMPERATURE;
  GET_THERMAL_RELATIONSHIP_TABLE; GET_TRIP_POINT_ACTIVE; GET_TRIP_POINT_CRITICAL; GET_TRIP_POINT_HOT; GET_TRIP_POINT_PASSIVE; GET_TRIP_POINT_WARM;
  GET_VIRTUAL_SENSOR_CALIB_TABLE; GET_VIRTUAL_SENSOR_POLLING_TABLE; GET_VOLTAGE_THRESHOLD_MATH_TABLE].
Definition dptftcs_WriteLog : list AclWriteLog := [mk_acl_log true 0 0; no_log].
Definition dptftcs_Event : list AclEvent := permit_events [
  APP_UNLOADING; BATTERY_COUNT_NOTIFICATION; BATTERY_HIGH_FREQUENCY_IMPEDANCE_CHANGED; BATTERY_INFORMATION_CHANGED; BATTERY_NO_LOAD_VOLTAGE_CHANGED;
  BATTERY_STATUS_CHANGED; CHARGER_TYPE_CHANGED; CORE_CAPABILITY_CHANGED; DEVICE_ORIENTATION_CHANGED; DISPLAY_OFF; DISPLAY_ON;
  DISPLAY_ORIENTATION_CHANGED; DTT_ACTIVE_CONTROL_POINT_RELATIONSHIP_TABLE_CHANGED; DTT_ACTIVE_RELATIONSHIP_TABLE_CHANGED;
  DTT_ADAPTIVE_PERFORMANCE_ACTIONS_TABLE_CHANGED; DTT_ADAPTIVE_PERFORMANCE_CONDITIONS_TABLE_CHANGED;
  DTT_ADAPTIVE_PERFORMANCE_PARTICIPANT_CONDITION_TABLE_CHANGED; DTT_ALIVE_REQUEST; DTT_DISPLAY_CAPABILITY_CHANGED; DTT_DISPLAY_STATUS_CHANGED;
  DTT_EPP_SENSITIVITY_HINT_CHANGED; DTT_PARTICIPANT_ACTIVITY_LOGGING_DISABLED; DTT_PARTICIPANT_ACTIVITY_LOGGING_ENABLED; DTT_PASSIVE_TABLE_CHANGED;
  DTT_PID_ALGORITHM_TABLE_CHANGED; DTT_POLICY_ACTIVITY_LOGGING_DISABLED; DTT_POLICY_ACTIVITY_LOGGING_ENABLED; DTT_POWER_BOSS_ACTIONS_TABLE_CHANGED;
  DTT_POWER_BOSS_CONDITIONS_TABLE_CHANGED; DTT_POWER_BOSS_MATH_TABLE_CHANGED; DTT_POWER_SHARING_ALGORITHM_TABLE_2_CHANGED;
  DTT_POWER_SHARING_ALGORITHM_TABLE_CHANGED; DTT_PRIORITY_CHANGED; DTT_SUPPORTED_POLICIES_CHANGED; DTT_SYSTEM_COOLING_POLICY_CHANGED;
  DTT_THERMAL_RELATIONSHIP_TABLE_CHANGED; DTT_VIRTUAL_SENSOR_CALIB_TABLE_CHANGED; DTT_VIRTUAL_SENSOR_POLLING_TABLE_CHANGED;
  DTT_VIRTUAL_SENSOR_RECALC_CHANGED; DTT_VOLTAGE_THRESHOLD_MATH_TABLE_CHANGED; DTT_WORKLOAD_HINT_CONFIGURATION_CHANGED;
  EMERGENCY_CALL_MODE_TABLE_CHANGED; ENERGY_THRESHOLD_CROSSED; EXTERNAL_MONITOR_CONNECTION_STATE_CHANGED; FAN_CAPABILITIES_CHANGED;
  FOREGROUND_APP_CHANGED; LOG_VERBOSITY_CHANGED; MAX_BATTERY_POWER_CHANGED; MOTION_CHANGED; OEM_VARS_CHANGED; OS_BATTERY_PERCENT_CHANGED;
  OS_DOCK_MODE_CHANGED; OS_GAME_MODE_CHANGED; OS_LID_STATE_CHANGED; OS_MIXED_REALITY_MODE_CHANGED; OS_MOBILE_NOTIFICATION; OS_PLATFORM_TYPE_CHANGED;
  OS_POWER_SLIDER_VALUE_CHANGED; OS_POWER_SOURCE_CHANGED; OS_POWERSCHEME_PERSONALITY_CHANGED; OS_SCREEN_STATE_CHANGED; OS_USER_PRESENCE_CHANGED;
  PARTICIPANT_RESUME; PARTICIPANT_SPEC_INFO_CHANGED; PARTICIPANT_SUSPEND; PERF_CAPABILITY_CHANGED; PERF_CONTROL_CHANGED;
  PLATFORM_BATTERY_STEADY_STATE_CHANGED; PLATFORM_POWER_SOURCE_CHANGED; PLATFORM_REST_OF_POWER_CHANGED; PLATFORM_USER_PRESENCE_CHANGED;
  POWER_CAPABILITY_CHANGED; RF_CONNECTION_STATUS_CHANGED; RF_PROFILE_CHANGED; SENSOR_USER_PRESENCE_CHANGED; SESSION_STATE_CHANGED;
  TEMP_THRESHOLD_CROSSED; WORKLOAD_CLASSIFICATION_CHANGED].
Definition dptftcs_EventSend : list AclEvent := permit_events [].
Definition dptftcs_Command : list AclCommand := permit_commands [Some (chars_of "apps")].
Definition dptfui_GetConfig : list AclConfig := [no_config].
Definition dptfui_SetConfig : list AclConfig := [no_config].
Definition dptfui_Primitive : list AclPrimitive := permit_primitives [].
Definition dptfui_WriteLog : list AclWriteLog := [mk_acl_log true 0 0; no_log].
Definition dptfui_Event : list AclEvent := permit_events [LOG_VERBOSITY_CHANGED].
Definition dptfui_EventSend : list AclEvent := permit_events [].
Definition dptfui_Command : list AclCommand := permit_commands [
  Some (chars_of "about"); Some (chars_of "actionstart"); Some (chars_of "apps"); Some (chars_of "capture"); Some (chars_of "config");
  Some (chars_of "devices"); Some (chars_of "dptf"); Some (chars_of "echo"); Some (chars_of "format"); Some (chars_of "getp");
  Some (chars_of "getp_part"); Some (chars_of "idsp"); Some (chars_of "log"); Some (chars_of "participant"); Some (chars_of "participantlog");
  Some (chars_of "participants"); Some (chars_of "rstp"); Some (chars_of "rstp_part"); Some (chars_of "setp"); Some (chars_of "setp_part");
  Some (chars_of "status"); Some (chars_of "tableobject"); Some (chars_of "trace"); Some (chars_of "ui")].
Definition ipfui_GetConfig : list AclConfig := [no_config].
Definition ipfui_SetConfig : list AclConfig := [no_config].
Definition ipfui_Primitive : list AclPrimitive := permit_primitives [].
Definition ipfui_WriteLog : list AclWriteLog := [mk_acl_log true 0 0; no_log].
Definition ipfui_Event : list AclEvent := permit_events [LOG_VERBOSITY_CHANGED].
Definition ipfui_EventSend : list AclEvent := permit_events [].
Definition ipfui_Command : list AclCommand := permit_commands [
  Some (chars_of "about"); Some (chars_of "apps"); Some (chars_of "arbitrator"); Some (chars_of "config"); Some (chars_of "devices");
  Some (chars_of "echo"); Some (chars_of "format"); Some (chars_of "getp"); Some (chars_of "getp_part"); Some (chars_of "participant");
  Some (chars_of "participantlog"); Some (chars_of "participants"); Some (chars_of "setp"); Some (chars_of "setp_part"); Some (chars_of "trace")].
Definition icst_GetConfig : list AclConfig := [permit_config (Some (chars_of "icst")) None; no_config].
Definition icst_SetConfig : list AclConfig := [permit_config (Some (chars_of "icst")) None; no_config].
Definition icst_Primitive : list AclPrimitive := permit_primitives [
  GET_BATTERY_PERCENTAGE; GET_BATTERY_STATUS; GET_BIOMETRIC_PRESENCE_SENSOR_INSTANCE; GET_DISENGAGED_STABILITY_WINDOW; GET_DISPLAY_BRIGHTNESS;
  GET_DISPLAY_BRIGHTNESS_LEVELS; GET_DISPLAY_BRIGHTNESS_SOFT; GET_DISPLAY_CAPABILITY; GET_DISPLAY_DEPTH_LIMIT; GET_ES_DISPLAY_REQUIRED;
  GET_IS_BIOMETRIC_PRESENCE_SENSOR_CAPABLE; GET_IS_EXTERNAL_MONITOR_CONNECTED; GET_IS_FACE_DETECTION_CAPABLE; GET_LAST_HID_INPUT_TIME;
  GET_NEGATIVE_EVENT_FILTERING_STATE; GET_NOT_PRESENT_STABILITY_WINDOW; GET_POSITIVE_EVENT_FILTERING_STATE; GET_PRESENT_STABILITY_WINDOW;
  SET_BIOMETRIC_PRESENCE_SENSOR_INSTANCE; SET_DISPLAY_BRIGHTNESS; SET_DISPLAY_BRIGHTNESS_SOFT; SET_SCREEN_AUTO_LOCK_STATE; SET_SCREEN_STATE;
  SET_WAKE_ON_APPROACH_STATE; SET_WORKSTATION_LOCK].
Definition icst_WriteLog : list AclWriteLog := [mk_acl_log true eLogTypeFatal eLogTypeDebug; no_log].
Definition icst_Event : list AclEvent := permit_events [
  APP_BROADCAST; APP_BROADCAST_UNPRIVILEGED; BIOMETRIC_PRESENCE_SENSOR_DISTANCE_CHANGED; BIOMETRIC_PRESENCE_SENSOR_INSTANCE_CHANGED;
  BIOMETRIC_PRESENCE_SENSOR_STATUS_CHANGED; BIOMETRIC_PRESENCE_SENSOR_WAKE; DEVICE_ORIENTATION_CHANGED; DISPLAY_OFF; DISPLAY_ON;
  DTT_DISPLAY_STATUS_CHANGED; EXTERNAL_MONITOR_CONNECTION_STATE_CHANGED; LOG_VERBOSITY_CHANGED; ONLOOKER_SENSOR_HUMAN_COUNT_CHANGED;
  ONLOOKER_SENSOR_STATUS_CHANGED; OS_BATTERY_PERCENT_CHANGED; OS_DOCK_MODE_CHANGED; OS_GAME_MODE_CHANGED; OS_LID_STATE_CHANGED;
  OS_POWER_SLIDER_VALUE_CHANGED; OS_POWER_SOURCE_CHANGED; OS_POWERSCHEME_PERSONALITY_CHANGED; OS_SCREEN_STATE_CHANGED; OS_USER_INTERACTION_CHANGED;
  OS_USER_PRESENCE_CHANGED; PLATFORM_USER_PRESENCE_CHANGED; SENSOR_USER_PRESENCE_CHANGED; SESSION_STATE_CHANGED; WINDOWS_LOW_POWER_MODE_ENTRY;
  WINDOWS_LOW_POWER_MODE_EXIT].
Definition icst_EventSend : list AclEvent := permit_events [].
Definition icst_Command : list AclCommand := permit_commands [].
Definition icstsvc_GetConfig : list AclConfig := [permit_config (Some (chars_of "icst")) None; no_config].
Definition icstsvc_SetConfig : list AclConfig := [permit_config (Some (chars_of "icst")) None; no_config].
Definition icstsvc_Primitive : list AclPrimitive := permit_primitives [
  GET_BATTERY_PERCENTAGE; GET_BATTERY_STATUS; GET_BIOMETRIC_PRESENCE_SENSOR_INSTANCE; GET_DISENGAGED_STABILITY_WINDOW; GET_DISPLAY_BRIGHTNESS;
  GET_DISPLAY_BRIGHTNESS_LEVELS; GET_DISPLAY_BRIGHTNESS_SOFT; GET_DISPLAY_CAPABILITY; GET_DISPLAY_DEPTH_LIMIT; GET_ES_DISPLAY_REQUIRED;
  GET_IS_BIOMETRIC_PRESENCE_SENSOR_CAPABLE; GET_IS_EXTERNAL_MONITOR_CONNECTED; GET_IS_FACE_DETECTION_CAPABLE; GET_LAST_HID_INPUT_TIME;
  GET_NEGATIVE_EVENT_FILTERING_STATE; GET_NOT_PRESENT_STABILITY_WINDOW; GET_POSITIVE_EVENT_FILTERING_STATE; GET_PRESENT_STABILITY_WINDOW;
  GET_USER_BASED_REFRESH_RATE; GET_USER_BASED_REFRESH_RATE_CAPABILITY; SET_BIOMETRIC_PRESENCE_SENSOR_INSTANCE; SET_DISPLAY_BRIGHTNESS;
  SET_DISPLAY_BRIGHTNESS_SOFT; SET_SCREEN_AUTO_LOCK_STATE; SET_SCREEN_STATE; SET_USER_BASED_REFRESH_RATE; SET_WAKE_ON_APPROACH_STATE;
  SET_WORKSTATION_LOCK].
Definition icstsvc_WriteLog : list AclWriteLog := [mk_acl_log true eLogTypeFatal eLogTypeDebug; no_log].
Definition icstsvc_Event : list AclEvent := permit_events [
  APP_BROADCAST; APP_BROADCAST_UNPRIVILEGED; BIOMETRIC_PRESENCE_SENSOR_DISTANCE_CHANGED; BIOMETRIC_PRESENCE_SENSOR_INSTANCE_CHANGED;
  BIOMETRIC_PRESENCE_SENSOR_STATUS_CHANGED; BIOMETRIC_PRESENCE_SENSOR_WAKE; DEVICE_ORIENTATION_CHANGED; DISPLAY_OFF; DISPLAY_ON;
  DTT_DISPLAY_STATUS_CHANGED; EXTERNAL_MONITOR_CONNECTION_STATE_CHANGED; FACE_ID_CAPABILITY_SUPPORT_CHANGED; LOG_VERBOSITY_CHANGED;
  NUM_FACES_ENROLLED_CHANGED; ONLOOKER_SENSOR_HUMAN_COUNT_CHANGED; ONLOOKER_SENSOR_STATUS_CHANGED; OS_BATTERY_PERCENT_CHANGED; OS_DOCK_MODE_CHANGED;
  OS_GAME_MODE_CHANGED; OS_LID_STATE_CHANGED; OS_POWER_SLIDER_VALUE_CHANGED; OS_POWER_SOURCE_CHANGED; OS_POWERSCHEME_PERSONALITY_CHANGED;
  OS_SCREEN_STATE_CHANGED; OS_USER_INTERACTION_CHANGED; OS_USER_PRESENCE_CHANGED; PLATFORM_USER_PRESENCE_CHANGED; SENSOR_USER_PRESENCE_CHANGED;
  SESSION_STATE_CHANGED; WINDOWS_LOW_POWER_MODE_ENTRY; WINDOWS_LOW_POWER_MODE_EXIT].
Definition icstsvc_EventSend : list AclEvent := permit_events [APP_BROADCAST].
Definition icstsvc_Command : list AclCommand := permit_commands [].
Definition rootAuth : AuthAclDef := mk_acl_def "root" (Some root_GetConfig) (Some root_SetConfig) (Some root_Primitive) (Some root_WriteLog) (Some root_Event) (Some root_Event) (Some root_EventSend) (Some root_Command).
Definition publicAuth : AuthAclDef := mk_acl_def "public" (Some public_GetConfig) (Some public_SetConfig) (Some public_Primitive) (Some public_WriteLog) (Some public_Event) (Some public_Event) (Some public_EventSend) (Some public_Command).
Definition elevatedAuth : AuthAclDef := mk_acl_def "elevated" (Some elevated_GetConfig) (Some elevated_SetConfig) (Some elevated_Primitive) (Some elevated_WriteLog) (Some elevated_Event) (Some elevated_Event) (Some elevated_EventSend) (Some elevated_Command).
Definition dptfAuth : AuthAclDef := mk_acl_def "dptf" (Some dptf_GetConfig) (Some dptf_SetConfig) (Some dptf_Primitive) (Some dptf_WriteLog) (Some dptf_Event) (Some dptf_Event) (Some dptf_EventSend) (Some dptf_Command).
Definition dptftcsAuth : AuthAclDef := mk_acl_def "dptftcs" (Some dptftcs_GetConfig) (Some dptftcs_SetConfig) (Some dptftcs_Primitive) (Some dptftcs_WriteLog) (Some dptftcs_Event) (Some dptftcs_Event) (Some dptftcs_EventSend) (Some dptftcs_Command).
Definition dptfuiAuth : AuthAclDef := mk_acl_def "dptfui" (Some dptfui_GetConfig) (Some dptfui_SetConfig) (Some dptfui_Primitive) (Some dptfui_WriteLog) (Some dptfui_Event) (Some dptfui_Event) (Some dptfui_EventSend) (Some dptfui_Command).
Definition ipfuiAuth : AuthAclDef := mk_acl_def "ipfui" (Some ipfui_GetConfig) (Some ipfui_SetConfig) (Some ipfui_Primitive) (Some ipfui_WriteLog) (Some ipfui_Event) (Some ipfui_Event) (Some ipfui_EventSend) (Some ipfui_Command).
Definition icstAuth : AuthAclDef := mk_acl_def "icst" (Some icst_GetConfig) (Some icst_SetConfig) (Some icst_Primitive) (Some icst_WriteLog) (Some icst_Event) (Some icst_Event) (Some icst_EventSend) (Some icst_Command).
Definition icstsvcAuth : AuthAclDef := mk_acl_def "icstsvc" (Some icstsvc_GetConfig) (Some icstsvc_SetConfig) (Some icstsvc_Primitive) (Some icstsvc_WriteLog) (Some icstsvc_Event) (Some icstsvc_Event) (Some icstsvc_EventSend) (Some icstsvc_Command).

Definition nullAuth : AuthAclDef := mk_acl_def "" None None None None None None None None.
Definition AuthMgr_GetAuthAclDef (authHandle : Z) : AuthAclDef :=
  if authHandle =? IPFAUTH_ROLE_ROOT then rootAuth
  else if authHandle =? IPFAUTH_ROLE_PUBLIC then publicAuth
  else if authHandle =? IPFAUTH_ROLE_ELEVATED then elevatedAuth
  else if authHandle =? IPFAUTH_ROLE_DPTF then dptfAuth
  else if authHandle =? IPFAUTH_ROLE_DPTFTCS then dptftcsAuth
  else if authHandle =? IPFAUTH_ROLE_DPTFUI then dptfuiAuth
  else if authHandle =? IPFAUTH_ROLE_IPFUI then ipfuiAuth
  else if authHandle =? IPFAUTH_ROLE_ICST then icstAuth
  else if authHandle =? IPFAUTH_ROLE_ICSTSVC then icstsvcAuth
  else nullAuth.

(** [roles] is the array of the manager. *)
Definition AuthMgr_Init (roles : list AuthAclDef) : list AuthAclDef :=
  fold_left (fun roles j => let roleId := IPFAUTH_ROLE_NONE + Z.of_nat j in <[Z.to_nat (IPFAUTH_ROLE_INDEX roleId) := AuthMgr_GetAuthAclDef roleId]> roles)
    (seq 0 (Z.to_nat IPFAUTH_MAX_ROLES)) roles.
(** The array is zeroed to begin with. *)
Definition initial_roles : list AuthAclDef := AuthMgr_Init (replicate (Z.to_nat IPFAUTH_MAX_ROLES) nullAuth).

(* ------------------------------------------------------------------ *)
(** ** What the roles permit *)

(** Lists that only permit: one rule has to cover the call. *)
Lemma permitted_any {R A} `{AclRule R} (mk : A -> R) (e : R) (P : R -> Prop) `{forall r, Decision (P r)} l :
  (forall a, permit (mk a) = true /\ is_empty (mk a) = false) -> is_empty e = true ->
  permitted P (Some (map mk l ++ [e])) <-> exists a, a ∈ l /\ P (mk a).
Proof.
  intros Hmk He. enough (permits P (map mk l ++ [e]) <-> exists a, a ∈ l /\ P (mk a)) as <- by (split; [by intros (? & [= <-] & Hp)|intros Hp; by eexists]).
  induction l as [|a l IH]; cbn [map app].
  - split; [|intros (? & Hin & _); by apply not_elem_of_nil in Hin]. intros Hp. by apply permits_empty in Hp.
  - destruct (Hmk a) as [Hp Hne]. destruct (decide (P (mk a))) as [Ha|Ha].
    + rewrite permits_covered by done. split; [intros _; exists a; split; [constructor|done]|done].
    + rewrite permits_other, IH by done. split; intros (b & Hin & Hb); exists b; [split; [by constructor|done]|]. apply elem_of_cons in Hin as [->|Hin]; [done|]. done.
Qed.
#[export] Instance primitive_matches_dec p r : Decision (primitive_matches p r) := decide (primitiveId r = p \/ primitiveId r = 0).
#[export] Instance event_matches_dec g r : Decision (event_matches g r) := decide (guid r = nullGuid \/ guid r = g).
Lemma permitted_primitives p l : permitted (primitive_matches p) (Some (permit_primitives l)) <-> p ∈ l \/ 0 ∈ l.
Proof.
  etransitivity; [apply (permitted_any (mk_acl_primitive true) (mk_acl_primitive false 0) (primitive_matches p)); done|]. unfold primitive_matches. cbn [primitiveId]. split.
  - intros (a & Hin & [->| ->]); tauto.
  - intros [Hin|Hin]; eexists; (split; [exact Hin|]); tauto.
Qed.
Lemma permitted_events g l : permitted (event_matches g) (Some (permit_events l)) <-> g ∈ l \/ nullGuid ∈ l.
Proof.
  etransitivity; [apply (permitted_any (mk_acl_event true) (mk_acl_event false nullGuid) (event_matches g)); done|]. unfold event_matches. cbn [guid]. split.
  - intros (a & Hin & [->| ->]); tauto.
  - intros [Hin|Hin]; eexists; (split; [exact Hin|]); tauto.
Qed.
Lemma nothing_permitted {R} `{AclRule R} (P : R -> Prop) e : is_empty e = true -> ~ permitted P (Some [e]).
Proof. intros He (? & [= <-] & Hp). by apply permits_empty in Hp. Qed.

(** The tables end. *)
Lemma ends_ok {R} `{AclRule R} (check : R -> bool) (rule_ok : R -> Prop) rules : (forall r, check r = true -> rule_ok r) -> forallb check rules && existsb is_empty rules = true -> table_ok rule_ok (Some rules).
Proof.
  intros Hc Hb ? [= <-]. apply andb_prop in Hb as [Hf He]. split.
  - apply Forall_forall. intros r Hr. apply Hc. apply forallb_forall with (x := r) in Hf; [done|]. by apply list_elem_of_In.
  - apply existsb_exists in He as (r & Hr & He). apply Exists_exists. exists r. split; [by apply list_elem_of_In|done].
Qed.
Definition textb (c : option (list Z)) : bool := match c with Some c => forallb (fun x => negb (x =? 0)) c | None => true end.
Lemma command_text r : textb (command r) = true -> command_rule_ok r.
Proof.
  unfold command_rule_ok, textb. destruct (command r) as [c|]; [|done]. intros Hf. apply Forall_forall. intros x Hx. apply list_elem_of_In in Hx. apply (proj1 (forallb_forall _ _) Hf) in Hx. by apply negb_true_iff, Z.eqb_neq in Hx.
Qed.
Lemma no_table {R} `{AclRule R} (rule_ok : R -> Prop) : table_ok rule_ok None.
Proof. by intros ? [=]. Qed.

Ltac solve_acl_ok :=
  split; first [apply no_table | apply (ends_ok (fun r => textb (command r))); [intros r; apply command_text|by vm_compute] | apply (ends_ok (fun _ => true)); [done|by vm_compute]].
Lemma all_acl_ok role : acl_ok (AuthMgr_GetAuthAclDef role).
Proof. unfold AuthMgr_GetAuthAclDef. repeat case_match; solve_acl_ok. Qed.

Lemma initial_roles_list : initial_roles = map (fun j => AuthMgr_GetAuthAclDef (IPFAUTH_ROLE_NONE + Z.of_nat j)) (seq 0 10).
Proof. reflexivity. Qed.

Section Roles.
Context {W : Type} `{IpfSrv W}.

(** The rules that a session of ESIF's handle [h] is under. *)
Lemma role_rules (w : W) h : roles w = initial_roles -> AuthMgr_GetAuthAclByEsifHandle w h = Some (Some (AuthMgr_GetAuthAclDef (AuthMgr_GetAuthHandleByEsifHandle w h))).
Proof.
  intros Hr. unfold AuthMgr_GetAuthAclByEsifHandle. rewrite Hr. set (role := AuthMgr_GetAuthHandleByEsifHandle w h).
  assert (Hv : role <> ESIF_INVALID_HANDLE).
  { unfold role, AuthMgr_GetAuthHandleByEsifHandle. destruct (AppSessionMgr_GetSessionByEsifHandle w h); [|done]. by destruct (Z.eqb_spec (s_authHandle a) ESIF_INVALID_HANDLE). }
  rewrite (proj2 (Z.eqb_neq _ _) Hv). unfold IPFAUTH_ROLE_INDEX, IPFAUTH_ROLE_NONE, IPFAUTH_MAX_ROLES.
  destruct ((0xA0000 <=? role) && (role <? 0xA0000 + 10)) eqn:E.
  - apply andb_prop in E as [E1 E2]. apply Z.leb_le in E1. apply Z.ltb_lt in E2. rewrite initial_roles_list, list_lookup_fmap, lookup_seq_lt by lia. cbn [fmap option_fmap option_map]. do 3 f_equal. unfold IPFAUTH_ROLE_NONE. lia.
  - assert (Hn : AuthMgr_GetAuthAclDef role = nullAuth); [|by rewrite Hn]. apply andb_false_iff in E. rewrite Z.leb_gt, Z.ltb_ge in E. unfold AuthMgr_GetAuthAclDef, IPFAUTH_ROLE_ROOT, IPFAUTH_ROLE_PUBLIC, IPFAUTH_ROLE_ELEVATED, IPFAUTH_ROLE_DPTF, IPFAUTH_ROLE_DPTFTCS, IPFAUTH_ROLE_DPTFUI, IPFAUTH_ROLE_IPFUI, IPFAUTH_ROLE_ICST, IPFAUTH_ROLE_ICSTSVC.
    repeat (rewrite (proj2 (Z.eqb_neq _ _)) by lia). done.
Qed.

(** Calls that a role may not make. *)
Definition forbidden (role : Z) (q : request) : Prop :=
  role = IPFAUTH_ROLE_NONE \/
  role = IPFAUTH_ROLE_PUBLIC /\ match q with
    | QGetConfig _ _ _ | QSetConfig _ _ _ _ | QSendCommand _ _ _ => True
    | QPrimitive _ _ _ _ p _ => p ∈ set_primitives
    | QSendEvent _ _ _ g => forall m, guid_block g = Some m -> take 16 m <> APP_BROADCAST_UNPRIVILEGED
    | _ => False
    end \/
  role = IPFAUTH_ROLE_DPTFTCS /\ match q with QSetConfig _ _ _ _ | QSendEvent _ _ _ _ => True | QPrimitive _ _ _ _ p _ => p ∈ set_primitives | _ => False end \/
  (role = IPFAUTH_ROLE_DPTFUI \/ role = IPFAUTH_ROLE_IPFUI) /\ match q with QGetConfig _ _ _ | QSetConfig _ _ _ _ | QPrimitive _ _ _ _ _ _ | QSendEvent _ _ _ _ => True | _ => False end.

Lemma disjoint_primitives l p : forallb (fun p => negb (existsb (Z.eqb p) l)) (0 :: set_primitives) = true -> p ∈ set_primitives -> ~ permitted (primitive_matches p) (Some (permit_primitives l)).
Proof.
  intros Hb Hp. rewrite permitted_primitives. rewrite forallb_forall in Hb. assert (Hn : forall x, x = 0 \/ x ∈ set_primitives -> x ∉ l).
  { intros x Hx Hin. assert (Hx' : In x (0 :: set_primitives)) by (destruct Hx as [->|Hx]; [by left|right; by apply list_elem_of_In]). specialize (Hb x Hx'). apply negb_true_iff in Hb.
    enough (existsb (Z.eqb x) l = true) by congruence. apply existsb_exists. exists x. split; [by apply list_elem_of_In|apply Z.eqb_refl]. }
  intros [Hin|Hin]; by eapply Hn; [|exact Hin]; auto.
Qed.
Lemma commands_need (ok : list Z -> Prop) t : all_commands ok t -> exists t', ok t'.
Proof. intros Ha. inversion Ha; subst; by eexists. Qed.
Lemma no_commands table argc argv : (forall t, ~ permitted (command_matches t) table) -> ~ command_permitted table argc argv.
Proof. intros Hn (_ & a & l & m & t & _ & _ & _ & Ha). apply commands_need in Ha as [t' Ht]. by apply (Hn t'). Qed.

Lemma forbidden_not_authorized role q : forbidden role q -> ~ authorized (Some (AuthMgr_GetAuthAclDef role)) q.
Proof.
  intros [->|[[-> Hq]|[[-> Hq]|[[->| ->] Hq]]]] Ha; (destruct q; try done; cbn [authorized table_of] in Ha).
  all: try (destruct Ha as (? & ? & ? & ? & _ & _ & _ & _ & Ha); first [by apply nothing_permitted in Ha | by destruct Ha as (? & [=] & _)]).
  all: try (by apply disjoint_primitives in Ha; [|vm_compute|]).
  all: try (by destruct Ha as (? & [=] & _)).
  all: try (by destruct Ha as (? & _ & ? & [=] & _)).
  all: try (by apply no_commands in Ha; [|intros t Ht; first [by apply nothing_permitted in Ht|by destruct Ht as (? & [=] & _)]]).
  all: try (by apply nothing_permitted in Ha).
  all: try (destruct Ha as (m & Em & Ha); first [by apply nothing_permitted in Ha|apply permitted_events in Ha as [Hin|Hin]]).
  - apply list_elem_of_singleton in Hin. by apply (Hq _ Em).
  - apply list_elem_of_singleton in Hin. done.
Qed.

(** C6: A client whose session has no role, or that has no session, gets nothing from
    ESIF.  The public role cannot read or change the configuration, set anything by a
    primitive, run a command, or send an event except the unprivileged broadcast; the
    telemetry and the user-interface roles are limited likewise.  Such calls are refused
    and change nothing. *)
Theorem roles_are_limited (h : Z) (q : request) (w : W) (Hroles : roles w = initial_roles) (Hq : readable q) (Hf : forbidden (AuthMgr_GetAuthHandleByEsifHandle w h) q) :
  checked_call h q w = Some ((ESIF_E_SESSION_PERMISSION_DENIED, given_back q), w).
Proof.
  pose proof (role_rules w h Hroles) as Hr. eapply forbidden_not_authorized in Hf.
  assert (Hok : auth_ok (Some (AuthMgr_GetAuthAclDef (AuthMgr_GetAuthHandleByEsifHandle w h)))) by apply all_acl_ok.
  by destruct (checked_or_refused h q w _ Hr Hok Hq) as [[Ha _]|[_ E]].
Qed.
End Roles.

(* ------------------------------------------------------------------ *)
(** ** A server with a public client *)

Definition role_srv (role : Z) : IpfSrv Z := {|
  sessions := fun _ => [Some (mk_session 3 7 role)]; roles := fun _ => initial_roles;
  fGetConfigFuncPtr := None; fSetConfigFuncPtr := None;
  fPrimitiveFuncPtr := Some (fun _ _ _ _ response _ _ => fun n => Some ((ESIF_OK, response), n + 1));
  fWriteLogFuncPtr := None; fRegisterEventFuncPtr := None; fUnregisterEventFuncPtr := None; fSendEventFuncPtr := None;
  fSendCommandFuncPtr := Some (fun _ _ _ response => fun n => Some ((ESIF_OK, response), n + 1)) |}.

(** A public client reads a temperature, and cannot set the fan. *)
Lemma roles_are_limited_witness :
  @checked_call Z (role_srv IPFAUTH_ROLE_PUBLIC) 7 (QPrimitive 1 2 None None GET_TEMPERATURE 0) 0 = Some ((ESIF_OK, None), 1) /\
  @checked_call Z (role_srv IPFAUTH_ROLE_PUBLIC) 7 (QPrimitive 1 2 None None SET_FAN_LEVEL 0) 0 = Some ((ESIF_E_SESSION_PERMISSION_DENIED, None), 0).
Proof.
  split; [reflexivity|]. apply (@roles_are_limited Z (role_srv IPFAUTH_ROLE_PUBLIC) 7 (QPrimitive 1 2 None None SET_FAN_LEVEL 0) 0 eq_refl I).
  right; left. split; [reflexivity|]. apply (bool_decide_eq_true_1 (SET_FAN_LEVEL ∈ set_primitives)). reflexivity.
Defined.
