(* ===== verification/ShellLine.v ===== *)
(** * A line of commands in ESIF's shell: [esif_shell_exec_command] of esif_uf_shell.c

    A line may have several commands, separated by newlines or by an ampersand pair
    between spaces that is not in quotes.  The function runs them one after the other;
    what is modelled is which commands it hands to the dispatcher
    ([esif_shell_exec_dispatch]) and which to the shell of the operating system, in
    order.  The dispatcher and the output are not modelled.

    The authorisation manager of IPF (AuthMgr.v) splits the line too; the theorems
    compare the two. *)

From S2P Require Import Prelude CString EsifData Ids AuthMgr AuthRoles.
From stdpp Require Import list strings.
Local Open Scope Z_scope.

(* ------------------------------------------------------------------ *)
(** ** The code *)

Definition NEWLINE : Z := 10.
Definition is_quote (c : Z) : bool := (c =? 34) || (c =? 39).
Definition prefixb (p t : list Z) : bool := bool_decide (p `prefix_of` t).

(** The text before and after the first newline. *)
Fixpoint cut_newline (t : list Z) : option (list Z * list Z) :=
  match t with
  | [] => None
  | c :: t => if c =? NEWLINE then Some ([], t) else (fun p => (c :: p.1, p.2)) <$> cut_newline t
  end.
(** The same for the separator outside quotes; [lastquote] is 0 or the quote that is
    open. *)
Fixpoint cut_quoted (lastquote : Z) (t : list Z) : option (list Z * list Z) :=
  match t with
  | [] => None
  | c :: t' =>
      if c =? lastquote then (fun p => (c :: p.1, p.2)) <$> cut_quoted 0 t'
      else if is_quote c then (fun p => (c :: p.1, p.2)) <$> cut_quoted c t'
      else if (lastquote =? 0) && prefixb cmdsep t then Some ([], drop (length cmdsep) t)
      else (fun p => (c :: p.1, p.2)) <$> cut_quoted lastquote t'
  end.
(** The first command, and what follows its separator. *)
Definition cut_command (t : list Z) : list Z * option (list Z) :=
  match cut_newline t with
  | Some (a, b) => (a, Some b)
  | None => match cut_quoted 0 t with Some (a, b) => (a, Some b) | None => (t, None) end
  end.

(** The first character of the first token: [esif_ccb_strtok] with
    [ESIF_SHELL_STRTOK_SEP]. *)
Definition is_token_sep (c : Z) : bool := (c =? 32) || (c =? 9) || (c =? 13) || (c =? 10).
Fixpoint first_token (t : list Z) : option Z := match t with [] => None | c :: t => if is_token_sep c then first_token t else Some c end.

Inductive action : Type := Dispatch (line : list Z) | External (line : list Z).

(** The loop.  [external] says whether lines may go to the operating system's shell;
    [line] and [separator] are [lineCpy] and [cmd_separator], [token] whether [cmdPtr] is
    not NULL.  The test for a comment or an empty line looks at the line as it was
    before the next command was copied into it. *)
Fixpoint exec_loop (fuel : nat) (external token : bool) (line : list Z) (separator : option (list Z)) : option (list action) :=
  match fuel with
  | O => None
  | S fuel =>
      let temp_line := line in
      let line := match separator with Some rest => rest | None => line end in
      let '(line, separator) := cut_command line in
      let '(token, actions) :=
        match line with
        | 33 :: rest => if external then (token, Some [External rest]) else (false, None)
        | _ => (false, None)
        end in
      let '(token, actions) :=
        match actions with
        | Some l => (token, l)
        | None => match first_token temp_line with
                  | Some c => (true, if c =? 35 then [] else [Dispatch line])
                  | None => (false, [])
                  end
        end in
      match token, separator with
      | true, Some _ => (fun l => actions ++ l) <$> exec_loop fuel external token line separator
      | _, _ => Some actions
      end
  end.
(** [isRest] disables the operating system's shell.  The line has to end within
    [buf_len] bytes; each round of the loop consumes a separator. *)
Definition esif_shell_exec_command (g_cmdshell_enabled isRest : bool) (m : list Z) (buf_len : Z) : option (list action) :=
  match str (take (Z.to_nat buf_len) m) with
  | Some line => exec_loop (S (length line)) (g_cmdshell_enabled && negb isRest) false line None
  | None => if (Z.to_nat buf_len <=? length m)%nat then Some [] else None
  end.

Example two_commands : esif_shell_exec_command false false (literal "about && getp 14 ' && ' && log") 100 = Some [Dispatch (chars_of "about"); Dispatch (chars_of "getp 14 ' && '"); Dispatch (chars_of "log")].
Proof. reflexivity. Qed.

(* ------------------------------------------------------------------ *)
(** ** The commands that were checked are those that run *)

(** Rules that name a command by a word. *)
Definition letter (c : Z) : Prop := 97 <= tolower c <= 122 \/ c = 95.
Definition plain_rule (r : AclCommand) : Prop := is_empty r = true \/ exists x c, command r = Some (x :: c) /\ Forall letter (x :: c).

Lemma letter_not_space c : letter c -> isspace c = false.
Proof. unfold letter, isspace, tolower. intros Hl. destruct (_ && _) eqn:E in Hl; bool_to_prop; destruct ((9 <=? c) && (c <=? 13) || (c =? 32)) eqn:E2; [|done| |done]; bool_to_prop; destruct E2; lia. Qed.
Lemma tolower_letter x y : tolower x = tolower y -> letter x -> letter y.
Proof. unfold letter. intros E [H|H]; [left; by rewrite <- E|]. subst x. right. unfold tolower in E. cbn in E. destruct ((65 <=? y) && (y <=? 90)) eqn:E2; bool_to_prop; lia. Qed.

(** A line that ends a command, or begins the next one, is compared alike. *)
Lemma begins_with_cut c l rest : Forall letter c -> begins_with c l <-> begins_with c (l ++ cmdsep ++ rest).
Proof.
  intros Hc. unfold begins_with. destruct (Nat.le_gt_cases (length c) (length l)) as [Hl|Hl].
  - rewrite take_app_le, drop_app_le by done. destruct (drop (length c) l) as [|x l'] eqn:E; [|done]. split; [|tauto]. intros [H _]. by split.
  - split; intros [Hs _]; exfalso.
    + apply (f_equal length) in Hs. rewrite !length_map, length_take in Hs. lia.
    + destruct (lookup_lt_is_Some_2 c (length l) Hl) as [x Hx]. pose proof (Forall_lookup_1 _ _ _ _ Hc Hx) as Hlet.
      assert (Hy : take (length c) (l ++ cmdsep ++ rest) !! length l = Some 32) by (rewrite lookup_take_lt by done; rewrite lookup_app_r by done; by rewrite Nat.sub_diag).
      assert (Hxy : map tolower c !! length l = map tolower (take (length c) (l ++ cmdsep ++ rest)) !! length l) by (by unfold same_letters in Hs; rewrite Hs).
      rewrite !list_lookup_fmap, Hx, Hy in Hxy. injection Hxy as Hxy. apply (tolower_letter x 32) in Hxy; [|done]. by apply letter_not_space in Hxy.
Qed.
Lemma plain_cut r l rest : plain_rule r -> is_empty r = false -> command_matches l r <-> command_matches (l ++ cmdsep ++ rest) r.
Proof. intros [He|(x & c & Hr & Hc)] Hne; [congruence|]. unfold command_matches. rewrite Hr. by apply begins_with_cut. Qed.

Section Plain.
Context (table : option (list AclCommand)) (Htable : table_ok plain_rule table).
Local Abbreviation ok := (fun t => permitted (command_matches t) table).

Lemma ok_cut l rest : ok (l ++ cmdsep ++ rest) -> ok l.
Proof.
  intros (rules & -> & pre & r & post & E & Hpre & He & Hc & Hp). destruct (Htable rules eq_refl) as [Hrules _]. rewrite E, Forall_app, Forall_cons in Hrules. destruct Hrules as (H1 & H2 & _).
  exists rules. split; [done|]. exists pre, r, post. split; [done|]. split.
  - rewrite Forall_forall in Hpre, H1. apply Forall_forall. intros q Hq. destruct (Hpre q Hq) as [Hq1 Hq2]. split; [done|]. by rewrite (plain_cut q l rest (H1 q Hq) Hq1).
  - split; [done|]. split; [|done]. by apply (plain_cut r l rest).
Qed.
Lemma ok_letter t : ok t -> exists x t', t = x :: t' /\ letter x.
Proof.
  intros (rules & -> & pre & r & post & E & Hpre & He & Hc & Hp). destruct (Htable rules eq_refl) as [Hrules _]. rewrite E, Forall_app, Forall_cons in Hrules. destruct Hrules as (_ & [He'|(x & c & Hr & Hl)] & _); [congruence|].
  unfold command_matches, begins_with, same_letters in Hc. rewrite Hr in Hc. destruct Hc as [Hs _]. destruct t as [|y t]; [done|]. exists y, t. split; [done|]. cbn in Hs. injection Hs as Hxy _. apply Forall_cons in Hl as [Hl _]. by eapply tolower_letter.
Qed.
Lemma all_ok_letter t : all_commands ok t -> ok t.
Proof. by intros []. Qed.

(** Leading white space does not reach over a separator. *)
Lemma trim_cut l rest : ok (trim (l ++ cmdsep ++ rest)) -> trim (l ++ cmdsep ++ rest) = trim l ++ cmdsep ++ rest.
Proof.
  induction l as [|x l IH]; cbn [app trim]; intros Hok.
  - exfalso. change (cmdsep ++ rest) with (32 :: 38 :: 38 :: 32 :: rest) in Hok. destruct (ok_letter _ Hok) as (x & t & E & Hl). injection E as <- _. unfold letter in Hl. cbn in Hl. lia.
  - destruct (isspace x); [by apply IH|done].
Qed.
Lemma trim_suffix l : exists p, l = p ++ trim l.
Proof. induction l as [|x l [p IH]]; cbn [trim]; [by exists []|]. destruct (isspace x); [exists (x :: p); cbn; by f_equal|by exists []]. Qed.

(** No separator that overlaps the one behind it. *)
Definition no_tail (l : list Z) : Prop := forall p, l <> p ++ [32; 38; 38].
Lemma no_tail_suffix p l : no_tail (p ++ l) -> no_tail l.
Proof. intros H q ->. by apply (H (p ++ q)); rewrite app_assoc. Qed.

(** What follows a separator was checked, wherever the separators of the two sides are. *)
Lemma cut_checked n : forall a rest, (length a <= n)%nat -> all_commands ok (a ++ cmdsep ++ rest) -> no_tail a -> all_commands ok (trim rest).
Proof.
  induction n as [|n IH]; intros a rest Hn Ha Ht.
  - destruct a; [|cbn in Hn; lia]. apply all_ok_letter, ok_letter in Ha as (x & t & E & Hl). injection E as <- _. by apply letter_not_space in Hl.
  - inversion Ha as [? Hok Hno|b c Hok Hfirst Hc E].
    { exfalso. by apply (Hno (length a)), sep_at_end. }
    destruct (Nat.lt_trichotomy (length b) (length a)) as [Hl|[Hl|Hl]].
    + assert (Hb : exists u, a = b ++ u /\ u ++ cmdsep ++ rest = cmdsep ++ c /\ u <> []).
      { pose proof (f_equal (take (length b)) E) as E1. pose proof (f_equal (drop (length b)) E) as E2. rewrite take_app_length, take_app_le in E1 by lia. rewrite drop_app_length, drop_app_le in E2 by lia.
        exists (drop (length b) a). split; [rewrite E1 at 1; by rewrite firstn_skipn|]. split; [done|]. intros E3. apply (f_equal length) in E3. rewrite length_drop in E3. cbn in E3. lia. }
      destruct Hb as (u & -> & Eu & Hu). change cmdsep with [32; 38; 38; 32] in Eu. destruct u as [|u1 [|u2 [|u3 [|u4 u]]]]; [done|discriminate Eu|discriminate Eu|injection Eu as -> -> -> _; exfalso; by apply (Ht b)|].
      injection Eu as -> -> -> -> Eu. assert (Ec : c = u ++ cmdsep ++ rest) by (by rewrite <- Eu). clear Eu. subst c. pose proof (trim_cut u rest (all_ok_letter _ Hc)) as Etrim. rewrite Etrim in Hc. apply (IH (trim u)); [|done|].
      * pose proof (trim_length u). rewrite length_app in Hn. cbn in Hn. lia.
      * destruct (trim_suffix u) as [p Ep]. apply (no_tail_suffix (b ++ [32; 38; 38; 32] ++ p)). rewrite <- !app_assoc. rewrite <- Ep. done.
    + apply app_inj_1 in E as [-> E]; [|done]. injection E as ->. done.
    + exfalso. apply (Hfirst (length a) Hl). change (has_sep_at (b ++ cmdsep ++ c) (length a)). replace (b ++ cmdsep ++ c) with (a ++ cmdsep ++ rest) by (by symmetry). apply sep_at_end.
Qed.

(** The shell's separators. *)
Lemma cut_newline_none t : NEWLINE ∉ t -> cut_newline t = None.
Proof. induction t as [|c t IH]; intros Hn; cbn; [done|]. apply not_elem_of_cons in Hn as [Hc Hn]. rewrite (proj2 (Z.eqb_neq _ _)) by done. by rewrite IH. Qed.
Lemma cut_quoted_ok t : forall q a rest, q = 0 \/ is_quote q = true -> text t -> cut_quoted q t = Some (a, rest) -> t = a ++ cmdsep ++ rest /\ no_tail a.
Proof.
  assert (Hnil : no_tail []) by (by intros [|]).
  induction t as [|c t IH]; intros q a rest Hq Ht Hc; cbn [cut_quoted] in Hc; [done|]. apply Forall_cons in Ht as [Hc0 Ht].
  assert (Hgo : forall q', q' = 0 \/ is_quote q' = true -> (q' = q \/ c <> 32) -> (q = 0 -> prefixb cmdsep (c :: t) = false) -> (fun p => (c :: p.1, p.2)) <$> cut_quoted q' t = Some (a, rest) -> c :: t = a ++ cmdsep ++ rest /\ no_tail a).
  { intros q' Hq' Hsame Hpre Hm. destruct (cut_quoted q' t) as [[a' rest']|] eqn:E; [|done]. injection Hm as <- <-. destruct (IH q' a' rest' Hq' Ht E) as [-> Hn]. split; [done|].
    intros [|p1 p]; [|intros [= -> ->]; by apply (Hn p)]. intros [= -> ->]. destruct Hsame as [->|]; [|done].
    destruct (Z.eqb_spec q 0) as [->|Hq0]; [specialize (Hpre eq_refl); apply bool_decide_eq_false in Hpre; apply Hpre; by exists ([38; 38; 32] ++ rest')|].
    destruct Hq as [?|Hq]; [done|]. unfold is_quote in Hq. apply orb_prop in Hq as [Hq|Hq]; apply Z.eqb_eq in Hq; subst q; change cmdsep with [32; 38; 38; 32] in E; cbn in E; by destruct (cut_quoted _ rest'). }
  destruct (Z.eqb_spec c q) as [->|Hcq].
  - apply (Hgo 0); [by left| |by intros ->|done]. right. intros ->. by destruct Hq as [|Hq].
  - destruct (is_quote c) eqn:Eq.
    + apply (Hgo c); [by right| | |done]; [right; intros ->; by cbn in Eq|]. intros _. unfold prefixb. apply bool_decide_false. intros Hp. apply prefix_cons_inv_1 in Hp. subst c. by cbn in Eq.
    + destruct ((q =? 0) && prefixb cmdsep (c :: t)) eqn:Es.
      * apply andb_prop in Es as [_ Es]. apply bool_decide_eq_true in Es as [b Eb]. rewrite Eb, drop_app_length in Hc. injection Hc as <- <-. by rewrite Eb.
      * apply (Hgo q); [done|by left| |done]. intros ->. by cbn in Es.
Qed.

Lemma exec_checked fuel : forall external token line separator (u := match separator with Some rest => rest | None => line end),
  text u -> NEWLINE ∉ u -> all_commands ok (trim u) -> (length u < fuel)%nat ->
  exists acts, exec_loop fuel external token line separator = Some acts /\ Forall (fun a => exists l, a = Dispatch l /\ ok (trim l)) acts.
Proof.
  induction fuel as [|fuel IH]; intros external token line separator u Ht Hn Ha Hf; [lia|]. cbn [exec_loop]. fold u. unfold cut_command. rewrite (cut_newline_none u Hn).
  assert (Hext : forall l, (exists x, u = l ++ x) -> match l with 33 :: rest => if external then (token, Some [External rest]) else (false, None) | _ => (false, None) end = (false, None)).
  { intros [|c l] [x Hx]; [done|]. destruct (Z.eq_dec c 33) as [->|]; [exfalso|by repeat case_match]. rewrite Hx in Ha. cbn in Ha. apply all_ok_letter, ok_letter in Ha as (y & t & E & Hl). injection E as <- _. unfold letter in Hl. cbn in Hl. lia. }
  destruct (cut_quoted 0 u) as [[l rest]|] eqn:Ec.
  - destruct (cut_quoted_ok u 0 l rest (or_introl eq_refl) Ht Ec) as [Eu Htail]. rewrite (Hext l (ex_intro _ _ Eu)).
    pose proof (all_ok_letter _ Ha) as Hok. rewrite Eu in Hok, Ha. pose proof (trim_cut l rest Hok) as Etrim. rewrite Etrim in Hok, Ha.
    assert (Hl : ok (trim l)) by (by eapply ok_cut). assert (Hrest : all_commands ok (trim rest)).
    { eapply cut_checked; [done|exact Ha|]. destruct (trim_suffix l) as [p Ep]. apply (no_tail_suffix p). by rewrite <- Ep. }
    destruct (first_token line) as [c|].
    + rewrite Eu in Ht, Hn, Hf. apply Forall_app in Ht as [_ Ht]. apply Forall_app in Ht as [_ Ht]. rewrite !not_elem_of_app in Hn. rewrite !length_app in Hf. change (length cmdsep) with 4%nat in Hf.
      destruct (IH external true l (Some rest) Ht ltac:(tauto) Hrest ltac:(lia)) as (acts & E & Hacts). rewrite E. eexists. split; [reflexivity|]. apply Forall_app. split; [|done]. destruct (c =? 35); [done|]. apply Forall_singleton. by exists l.
    + by exists [].
  - rewrite (Hext u); [|exists []; by rewrite app_nil_r]. destruct (first_token line) as [c|]; [|by exists []]. eexists. split; [reflexivity|]. destruct (c =? 35); [done|]. apply Forall_singleton. exists u. split; [done|]. by apply all_ok_letter.
Qed.
End Plain.

(** C7: If the authorisation manager finds every command of a line permitted, by rules that
    name commands by words, and the line has no newline, then the shell hands to its
    dispatcher only commands that those rules permit, and none to the operating system,
    although the two separate the line in different ways: the manager also inside
    quotes, and after white space. *)
Theorem checked_commands_run (table : option (list AclCommand)) (m t : list Z) (buf_len : Z) (g_cmdshell_enabled isRest : bool)
  (Htable : table_ok plain_rule table) (Hm : string_at m t) (Hlen : Z.of_nat (length t) < buf_len) (Hnl : NEWLINE ∉ t)
  (Hcheck : commands_authorized (S (length m)) table m = Some true) :
  exists acts, esif_shell_exec_command g_cmdshell_enabled isRest m buf_len = Some acts /\
    Forall (fun a => exists l, a = Dispatch l /\ permitted (command_matches (trim l)) table) acts.
Proof.
  assert (Hstr : str (take (Z.to_nat buf_len) m) = Some t).
  { apply str_ok. destruct Hm as [Ht [rest ->]]. split; [done|]. exists (take (Z.to_nat buf_len - S (length t)) rest). rewrite take_app_ge by lia. f_equal.
    replace (Z.to_nat buf_len - length t)%nat with (S (Z.to_nat buf_len - S (length t))) by lia. done. }
  unfold esif_shell_exec_command. rewrite Hstr. assert (Hrules : table_ok command_rule_ok table).
  { intros rules Er. destruct (Htable rules Er) as [Hp He]. split; [|done]. eapply Forall_impl; [exact Hp|]. intros r [Hr|(x & c & Hr & Hc)]; unfold command_rule_ok.
    - destruct (command r) eqn:E; [|done]. exfalso. unfold is_empty, command_rule in Hr. rewrite E in Hr. by rewrite bool_decide_false, andb_false_r in Hr.
    - rewrite Hr. eapply Forall_impl; [exact Hc|]. intros y Hy ->. unfold letter in Hy. cbn in Hy. lia. }
  destruct (commands_ok table (S (length m)) Hrules m t Hm) as (b & E & Hb); [destruct Hm as [_ [rest ->]]; rewrite length_app; cbn; lia|]. rewrite Hcheck in E. injection E as <-.
  assert (Hall : all_commands (fun t => permitted (command_matches t) table) t) by (by apply Hb). apply (exec_checked table Htable (S (length t)) _ false t None); [apply Hm|done| |lia].
  destruct (ok_letter table Htable t (all_ok_letter table t Hall)) as (x & t' & -> & Hl). cbn [trim]. by rewrite (letter_not_space x Hl).
Qed.

(** What a role's table permits is decided by computation. *)
Definition letterb (c : Z) : bool := (97 <=? tolower c) && (tolower c <=? 122) || (c =? 95).
Definition plainb (r : AclCommand) : bool := is_empty r || match command r with Some (x :: c) => forallb letterb (x :: c) | _ => false end.
Lemma plainb_ok r : plainb r = true -> plain_rule r.
Proof.
  unfold plainb. intros H. apply orb_prop in H as [H|H]; [by left|]. right. destruct (command r) as [[|x c]|]; [done| |done]. exists x, c. split; [done|]. apply Forall_forall. intros y Hy. apply list_elem_of_In in Hy. apply (proj1 (forallb_forall _ _) H) in Hy.
  unfold letterb, letter in *. apply orb_prop in Hy as [Hy|Hy]; [left; apply andb_prop in Hy as [H1 H2]; apply Z.leb_le in H1, H2; lia|right; by apply Z.eqb_eq].
Qed.
Lemma dptfui_plain : table_ok plain_rule (Some dptfui_Command).
Proof. apply (ends_ok plainb); [exact plainb_ok|]. by vm_compute. Qed.

(** The user interface's role runs two commands, the first with a quoted separator. *)
#[local] Instance text_dec t : Decision (text t) := decide (Forall (fun c => c <> 0) t).
Lemma checked_commands_run_witness :
  let m := literal "echo 'a && status ' && log on" in
  exists acts, esif_shell_exec_command true false m 100 = Some acts /\ Forall (fun a => exists l, a = Dispatch l /\ permitted (command_matches (trim l)) (Some dptfui_Command)) acts.
Proof.
  assert (Hs : string_at (literal "echo 'a && status ' && log on") (chars_of "echo 'a && status ' && log on")) by (apply string_at_literal, (bool_decide_eq_true_1 (text (chars_of "echo 'a && status ' && log on"))); by vm_compute).
  exact (checked_commands_run (Some dptfui_Command) (literal "echo 'a && status ' && log on") (chars_of "echo 'a && status ' && log on") 100 true false dptfui_plain Hs
    ltac:(vm_compute; reflexivity) ltac:(apply (bool_decide_eq_true_1 (NEWLINE ∉ chars_of "echo 'a && status ' && log on")); by vm_compute) ltac:(by vm_compute)).
Defined.

(** A newline separates commands for the shell, not for the manager: the role of the user
    interface gets a command run that it may not run. *)
Theorem newline_escapes_check :
  let line := chars_of "about" ++ [NEWLINE] ++ chars_of "exit" ++ [0] in
  command_authorized (Some dptfui_Command) 1 (Some [mk_EsifData 8 (Some line) 11 11]) = Some true /\
  esif_shell_exec_command false false line 11 = Some [Dispatch (chars_of "about"); Dispatch (chars_of "exit")] /\
  scan (command_covers (literal "exit")) (Some dptfui_Command) = Some false.
Proof. repeat split; by vm_compute. Qed.

(** The test for comments and empty lines looks at the line before: a comment keeps the
    command behind it from running, and an empty line ends the execution one command
    later. *)
Theorem comments_skip_next_command :
  esif_shell_exec_command false false (chars_of "#x" ++ [NEWLINE] ++ chars_of "about" ++ [NEWLINE] ++ chars_of "log" ++ [0]) 100 = Some [Dispatch (chars_of "log")] /\
  esif_shell_exec_command false false (chars_of "about" ++ [NEWLINE; NEWLINE] ++ chars_of "log" ++ [0]) 100 = Some [Dispatch (chars_of "about"); Dispatch []] /\
  esif_shell_exec_command false false (chars_of "about" ++ [NEWLINE] ++ chars_of "#log" ++ [0]) 100 = Some [Dispatch (chars_of "about"); Dispatch (chars_of "#log")].
Proof. repeat split; by vm_compute. Qed.
