(* ===== verification/IBinary.v ===== *)
(** * Growing byte buffers: IPF Common/ipf_ibinary.c

    An [IBinary] is a block of bytes, the length of the data at its start, and the
    boundary to which the block grows.  The messages of remote calls are built in
    these buffers.  The operations are computations on an object that is not NULL
    (of a NULL object each returns NULL at once); what they return is whether the
    address is not NULL. *)

From S2P Require Import Prelude.
From stdpp Require Import list.
Local Open Scope Z_scope.
Local Open Scope dptf_scope.

(* ------------------------------------------------------------------ *)
(** ** Blocks of bytes *)

Definition size (l : list Z) : Z := Z.of_nat (length l).
Definition zero_bytes (n : Z) : list Z := replicate (Z.to_nat n) 0.

(** [memcpy] and [memset] into a block, [memcpy] from one; past its end they have no
    outcome. *)
Definition write_at (off : Z) (data b : list Z) : option (list Z) :=
  if (0 <=? off) && (off + size data <=? size b) then Some (take (Z.to_nat off) b ++ data ++ drop (Z.to_nat off + length data) b) else None.
Definition read_at (off n : Z) (b : list Z) : option (list Z) :=
  if (0 <=? off) && (0 <=? n) && (off + n <=? size b) then Some (take (Z.to_nat n) (drop (Z.to_nat off) b)) else None.

(* ------------------------------------------------------------------ *)
(** ** The code *)

Record IBinary : Type := mk_binary { buf : option (list Z); buf_len : Z; data_len : Z; growby_len : Z }.

Definition IBINARY_DEFAULT_GROWBY : Z := 256.
Definition IBinary_Create (mem : bool) : option IBinary := if mem then Some (mk_binary None 0 0 IBINARY_DEFAULT_GROWBY) else None.

(** Whether the buffer has a block. *)
Definition has_buf (s : IBinary) : bool := match buf s with Some _ => true | None => false end.
Definition set_data_len (n : Z) (s : IBinary) : IBinary := mk_binary (buf s) (buf_len s) n (growby_len s).
(** Writing into the block of the object. *)
Definition write_buf (off : Z) (data : list Z) : SM IBinary unit := fun s =>
  match buf s with
  | Some b => match write_at off data b with Some b => Some (tt, mk_binary (Some b) (buf_len s) (data_len s) (growby_len s)) | None => None end
  | None => None
  end.
Definition read_buf (off n : Z) : SM IBinary (list Z) := fun s =>
  match buf s with Some b => option_map (fun l => (l, s)) (read_at off n b) | None => None end.
(** [esif_ccb_memmove(buf_ptr + to, buf_ptr + from, n)]. *)
Definition move_buf (to_ from n : Z) : SM IBinary unit := let! l := read_buf from n in write_buf to_ l.
Definition IBinary_WipeMemory (off n : Z) : SM IBinary unit := write_buf off (zero_bytes n).

(** [esif_ccb_realloc]: a new block is zeroed, the end of one that has grown is not,
    and has no outcome unless [wiped]. *)
Definition esif_ccb_realloc (wiped : bool) (old : option (list Z)) (n : Z) : option (list Z) :=
  match old with
  | None => Some (zero_bytes n)
  | Some b => if (n <=? size b) || wiped then Some (take (Z.to_nat n) b ++ zero_bytes (n - size b)) else None
  end.

(** The block gets exactly [n] bytes.  [mem] is the outcome of the allocation. *)
Definition IBinary_Realloc (mem : bool) (n : Z) : SM IBinary bool :=
  let! s := sget in
  if n =? buf_len s then sret (has_buf s)
  else if n =? 0 then sput (mk_binary None 0 0 (growby_len s)) ;! sret false
  else if mem then
    let! b := of_option (esif_ccb_realloc ((buf_len s <? n) && (0 <? buf_len s)) (buf s) n) in
    sput (mk_binary (Some b) n (if n <? data_len s then n else data_len s) (growby_len s)) ;! sret true
  else sret false.

(** The multiple of the boundary that has room for [n] bytes. *)
Definition round_up (n g : Z) : Z := u64 (u64 (n / g + 1 - (if n mod g =? 0 then 1 else 0)) * g).

(** Room for [need] bytes; where the code of [IBinary_Insert] and [IBinary_CopyOver]
    is the same. *)
Definition grow_for (mem : bool) (need : Z) : SM IBinary bool :=
  let! s := sget in
  if buf_len s <? need then
    if growby_len s =? 0 then sret false
    else IBinary_Realloc mem (u64 (buf_len s + u64 (round_up need (growby_len s) - buf_len s)))
  else sret (has_buf s).

Definition IBinary_Truncate (n : Z) : SM IBinary bool :=
  let! s := sget in
  (if has_buf s && (n <? data_len s) then IBinary_WipeMemory n (buf_len s - n) ;! smodify (set_data_len n) else sret tt) ;!
  sret (has_buf s).

(** [buffer] is the source ([None] for NULL) of which [bytes] are copied. *)
Definition IBinary_Insert (mem : bool) (buffer : option (list Z)) (bytes offset : Z) : SM IBinary bool :=
  let! s := sget in
  match buffer with
  | Some src =>
      if negb (bytes =? 0) && (offset <=? data_len s) then
        let! ok := grow_for mem (u64 (data_len s + bytes)) in
        if (ok : bool) then
          let! s := sget in
          let! data := of_option (read_at 0 bytes src) in
          (if offset <? data_len s then move_buf (offset + bytes) offset (data_len s - offset) else sret tt) ;!
          write_buf offset data ;!
          smodify (set_data_len (u64 (data_len s + bytes))) ;!
          sret true
        else sret false
      else sret (has_buf s)
  | None => sret (has_buf s)
  end.

Definition IBinary_Append (mem : bool) (buffer : option (list Z)) (bytes : Z) : SM IBinary bool :=
  let! s := sget in IBinary_Insert mem buffer bytes (data_len s).
Definition IBinary_Copy (mem : bool) (buffer : option (list Z)) (bytes : Z) : SM IBinary bool :=
  IBinary_Truncate 0 ;! IBinary_Insert mem buffer bytes 0.
(** [mem1] and [mem2] are the outcomes of the allocations for the exact size and for
    the boundary. *)
Definition IBinary_Clone (mem1 mem2 : bool) (buffer : option (list Z)) (bytes : Z) : SM IBinary bool :=
  IBinary_Truncate 0 ;! IBinary_Realloc mem1 bytes ;! IBinary_Insert mem2 buffer bytes 0.

Definition IBinary_CopyOver (mem : bool) (buffer : option (list Z)) (bytes offset : Z) : SM IBinary bool :=
  let! s := sget in
  match buffer with
  | Some src =>
      if negb (bytes =? 0) && (offset <=? data_len s) then
        let! ok := grow_for mem (u64 (offset + bytes)) in
        if (ok : bool) then
          let! s := sget in
          let! data := of_option (read_at 0 bytes src) in
          write_buf offset data ;!
          (if data_len s <? u64 (offset + bytes) then smodify (set_data_len (u64 (data_len s + u64 (bytes - offset)))) else sret tt) ;!
          sret true
        else sret false
      else sret (has_buf s)
  | None => sret (has_buf s)
  end.

Definition IBinary_Delete (offset bytes : Z) : SM IBinary bool :=
  let! s := sget in
  (if has_buf s && negb (bytes =? 0) && (u64 (offset + bytes) <=? data_len s) then
     move_buf offset (offset + bytes) (data_len s - offset - bytes) ;!
     IBinary_WipeMemory (data_len s - bytes) bytes ;!
     smodify (set_data_len (data_len s - bytes))
   else sret tt) ;!
  sret (has_buf s).

(** The size of the block in [IBinary_Shrink] and [IBinary_Resize]: the length [n], of
    which nothing if [wanted] is zero. *)
Definition boundary (wanted n g : Z) : Z := if (wanted =? 0) || (g =? 0) then 0 else u64 (u64 (u64 (n + g) - 1) / g * g).
Definition IBinary_Shrink (mem : bool) (n : Z) : SM IBinary bool :=
  let! ok := IBinary_Truncate n in
  let! s := sget in
  if (n =? 0) || (growby_len s <? u64 (buf_len s - data_len s)) then IBinary_Realloc mem (boundary n (data_len s) (growby_len s)) else sret ok.
Definition IBinary_Resize (mem : bool) (n : Z) : SM IBinary bool :=
  let! s := sget in IBinary_Realloc mem (boundary n n (growby_len s)).

Definition IBinary_GetBuf (s : IBinary) : option (list Z) := buf s.
Definition IBinary_GetBufLen (s : IBinary) : Z := buf_len s.
Definition IBinary_GetLen (s : IBinary) : Z := data_len s.
Definition IBinary_GetGrowBy (s : IBinary) : Z := growby_len s.
Definition IBinary_SetGrowBy (n : Z) (s : IBinary) : IBinary := if n =? 0 then s else mk_binary (buf s) (buf_len s) (data_len s) n.

(* ------------------------------------------------------------------ *)
(** ** What a buffer holds

    The data are at the start of the block and the rest of it is zero. *)

Record holds (s : IBinary) (data : list Z) : Prop := {
  h_len : data_len s = size data;
  h_buf_len : size data <= buf_len s < 2 ^ 63;
  h_growby : 0 < growby_len s < 2 ^ 62;
  h_buf : buf s = if decide (buf_len s = 0) then None else Some (data ++ zero_bytes (buf_len s - size data))
}.

Lemma size_app a b : size (a ++ b) = size a + size b.
Proof. unfold size. rewrite length_app. lia. Qed.
Lemma size_zero n : 0 <= n -> size (zero_bytes n) = n.
Proof. intros Hn. unfold size, zero_bytes. rewrite length_replicate. lia. Qed.
Lemma size_nonneg l : 0 <= size l.
Proof. unfold size. lia. Qed.
Lemma size_nil : size [] = 0.
Proof. done. Qed.
Lemma size_take n l : 0 <= n <= size l -> size (take (Z.to_nat n) l) = n.
Proof. unfold size. rewrite length_take. lia. Qed.
Lemma size_drop n l : 0 <= n <= size l -> size (drop (Z.to_nat n) l) = size l - n.
Proof. unfold size. rewrite length_drop. lia. Qed.
Lemma to_nat_size l : Z.to_nat (size l) = length l.
Proof. unfold size. lia. Qed.
Lemma zero_bytes_app a b : 0 <= a -> 0 <= b -> zero_bytes a ++ zero_bytes b = zero_bytes (a + b).
Proof. intros Ha Hb. unfold zero_bytes. rewrite <- replicate_add. f_equal. lia. Qed.
Lemma drop_zero_bytes n a : 0 <= n <= a -> drop (Z.to_nat n) (zero_bytes a) = zero_bytes (a - n).
Proof. intros Hn. unfold zero_bytes. rewrite drop_replicate. f_equal. lia. Qed.
Lemma take_zero_bytes n a : 0 <= n <= a -> take (Z.to_nat n) (zero_bytes a) = zero_bytes n.
Proof. intros Hn. unfold zero_bytes. rewrite take_replicate. f_equal. lia. Qed.
Lemma nil_of_size l : size l = 0 -> l = [].
Proof. destruct l; [done|]. unfold size. cbn. lia. Qed.

(** Writing over the middle of a block, and reading it. *)
Lemma write_at_mid a old c data : size old = size data -> write_at (size a) data (a ++ old ++ c) = Some (a ++ data ++ c).
Proof.
  intros Hs. unfold write_at. rewrite !size_app. pose proof (size_nonneg a). pose proof (size_nonneg c). rewrite (proj2 (Z.leb_le 0 (size a))), (proj2 (Z.leb_le (size a + size data) _)) by lia. cbn [andb].
  rewrite to_nat_size, take_app_length. f_equal. f_equal. f_equal. rewrite app_assoc, <- (Nat.add_0_r (length a + length data)). unfold size in Hs. rewrite drop_app_ge by (rewrite length_app; lia). rewrite length_app. by replace (length a + length data + 0 - (length a + length old))%nat with 0%nat by lia.
Qed.
Lemma read_at_mid a b c : read_at (size a) (size b) (a ++ b ++ c) = Some b.
Proof.
  unfold read_at. rewrite !size_app. pose proof (size_nonneg a). pose proof (size_nonneg b). pose proof (size_nonneg c). rewrite (proj2 (Z.leb_le 0 (size a))), (proj2 (Z.leb_le 0 (size b))), (proj2 (Z.leb_le _ _)) by lia. cbn [andb].
  rewrite !to_nat_size, drop_app_length, take_app_length. done.
Qed.

(** The block of a buffer that has one. *)
Lemma holds_has_buf s data : holds s data -> has_buf s = negb (buf_len s =? 0).
Proof. intros [A B C D]. unfold has_buf. rewrite D. by destruct (Z.eqb_spec (buf_len s) 0); case_decide. Qed.
Lemma holds_buf s data : holds s data -> buf_len s <> 0 -> buf s = Some (data ++ zero_bytes (buf_len s - size data)).
Proof. intros [A B C D] Hn. by rewrite D, decide_False. Qed.
Lemma holds_full data n g : 0 < g < 2 ^ 62 -> size data <= n < 2 ^ 63 -> n <> 0 -> holds (mk_binary (Some (data ++ zero_bytes (n - size data))) n (size data) g) data.
Proof. intros Hg Hn Hz. split; cbn; try done. by rewrite decide_False. Qed.
Lemma holds_empty g : 0 < g < 2 ^ 62 -> holds (mk_binary None 0 0 g) [].
Proof. intros Hg. split; cbn; try done; lia. Qed.
Lemma holds_eta s data : holds s data -> buf_len s <> 0 -> s = mk_binary (Some (data ++ zero_bytes (buf_len s - size data))) (buf_len s) (size data) (growby_len s).
Proof. intros H Hn. rewrite <- (holds_buf s data H Hn), <- (h_len s data H). by destruct s. Qed.

Lemma realloc_ok mem n s data : holds s data -> 0 <= n < 2 ^ 63 ->
  exists r s', IBinary_Realloc mem n s = Some (r, s') /\ growby_len s' = growby_len s /\
    (r = negb (n =? 0) /\ buf_len s' = n /\ holds s' (take (Z.to_nat n) data) \/ mem = false /\ r = false /\ s' = s /\ n <> buf_len s /\ n <> 0).
Proof.
  intros H Hn. pose proof H as [A B C D]. unfold IBinary_Realloc, sbind, sget. destruct (Z.eqb_spec n (buf_len s)) as [->|Hne].
  - eexists _, s. split; [reflexivity|]. split; [done|]. left. split; [by apply (holds_has_buf s data)|]. split; [done|]. rewrite firstn_all2; [done|]. unfold size in B. lia.
  - destruct (Z.eqb_spec n 0) as [->|Hz].
    + eexists _, _. split; [reflexivity|]. split; [done|]. left. split; [done|]. split; [done|]. by apply holds_empty.
    + destruct mem; [|eexists _, s; split; [reflexivity|]; split; [done|]; by right].
      assert (Hr : esif_ccb_realloc ((buf_len s <? n) && (0 <? buf_len s)) (buf s) n = Some (take (Z.to_nat n) data ++ zero_bytes (n - size (take (Z.to_nat n) data)))).
      { rewrite D. case_decide as Hc.
        - assert (data = []) as -> by (apply nil_of_size; pose proof (size_nonneg data); lia). rewrite firstn_nil. cbn. by rewrite Z.sub_0_r.
        - unfold esif_ccb_realloc. rewrite size_app, size_zero by lia. replace (size data + (buf_len s - size data)) with (buf_len s) by lia.
          replace ((n <=? buf_len s) || (buf_len s <? n) && (0 <? buf_len s)) with true by (destruct (Z.leb_spec n (buf_len s)); [done|]; rewrite (proj2 (Z.ltb_lt _ _)), (proj2 (Z.ltb_lt _ _)) by (pose proof (size_nonneg data); lia); done).
          f_equal. rewrite firstn_app, <- app_assoc. f_equal. pose proof (size_nonneg data). destruct (Z.le_gt_cases n (size data)) as [Hle|Hgt].
          + rewrite size_take by lia. replace (Z.to_nat n - length data)%nat with 0%nat by (unfold size in Hle; lia). cbn [take app]. rewrite Z.sub_diag. unfold zero_bytes. by replace (Z.to_nat (n - buf_len s)) with 0%nat by lia.
          + rewrite (firstn_all2 data) by (unfold size in Hgt; lia). replace (Z.to_nat n - length data)%nat with (Z.to_nat (n - size data)) by (unfold size; lia).
            destruct (Z.le_gt_cases n (buf_len s)); [rewrite take_zero_bytes by lia; unfold zero_bytes at 2; replace (Z.to_nat (n - buf_len s)) with 0%nat by lia; by rewrite app_nil_r|].
            rewrite firstn_all2 by (unfold zero_bytes; rewrite length_replicate; lia). rewrite zero_bytes_app by lia. f_equal. lia. }
      rewrite Hr. cbn [of_option sret sput]. eexists _, _. split; [reflexivity|]. split; [done|]. left. split; [done|]. split; [done|].
      assert (Hlen : (if n <? data_len s then n else data_len s) = size (take (Z.to_nat n) data)).
      { rewrite A. pose proof (size_nonneg data). destruct (Z.ltb_spec n (size data)); [by rewrite size_take by lia|]. by rewrite firstn_all2 by (unfold size in *; lia). }
      rewrite Hlen. apply holds_full; [done| |done]. unfold size. rewrite length_take. lia.
Qed.

Lemma round_up_ok n g : 0 < g < 2 ^ 62 -> 0 <= n < 2 ^ 62 -> n <= round_up n g < n + g /\ round_up n g mod g = 0.
Proof.
  intros Hg Hn. unfold round_up. set (k := n / g + 1 - (if n mod g =? 0 then 1 else 0)).
  assert (Hk : n <= k * g < n + g /\ 0 <= k < 2 ^ 63).
  { unfold k. pose proof (Z.div_mod n g ltac:(lia)) as E. pose proof (Z.mod_pos_bound n g ltac:(lia)). pose proof (Z.div_pos n g ltac:(lia) ltac:(lia)). assert (n / g <= n) by (apply Z.div_le_upper_bound; nia). destruct (Z.eqb_spec (n mod g) 0); split; nia. }
  destruct Hk as [Hk1 Hk2]. rewrite (wrap_small 64 k) by (unfold in_range; lia). rewrite wrap_small by (unfold in_range; lia). split; [done|]. by apply Z.mod_mul; lia.
Qed.

Lemma grow_for_ok mem need s data : holds s data -> size data <= need < 2 ^ 62 -> need <> 0 ->
  exists r s', grow_for mem need s = Some (r, s') /\
    (r = true /\ holds s' data /\ need <= buf_len s' \/ mem = false /\ r = false /\ s' = s).
Proof.
  intros H Hn Hz. pose proof H as [A B C D]. unfold grow_for, sbind at 1, sget. destruct (Z.ltb_spec (buf_len s) need) as [Hlt|Hge].
  - rewrite (proj2 (Z.eqb_neq (growby_len s) 0)) by lia. pose proof (size_nonneg data) as Hpos.
    destruct (round_up_ok need (growby_len s)) as [Hr _]; [lia|lia|].
    assert (Hsum : u64 (buf_len s + u64 (round_up need (growby_len s) - buf_len s)) = round_up need (growby_len s)).
    { rewrite (wrap_small 64 (_ - _)) by (unfold in_range; lia). rewrite wrap_small by (unfold in_range; lia). lia. }
    rewrite Hsum. destruct (realloc_ok mem (round_up need (growby_len s)) s data H) as (r & s' & E & Hg & [(Hr1 & Hb & Hh)|(Hm & Hr2 & Hs & _)]); [lia| |].
    + exists r, s'. split; [exact E|]. left. split; [rewrite Hr1; rewrite (proj2 (Z.eqb_neq _ _)) by lia; done|]. rewrite firstn_all2 in Hh by (unfold size in *; lia). split; [done|lia].
    + exists r, s'. split; [exact E|]. by right.
  - eexists _, s. split; [reflexivity|]. left. rewrite (holds_has_buf s data H), (proj2 (Z.eqb_neq (buf_len s) 0)) by (pose proof (size_nonneg data); lia). split; [done|]. split; [done|lia].
Qed.

(** Running a step on a buffer known to hold a block. *)
Lemma write_buf_some off data b b' l d g : write_at off data b = Some b' -> write_buf off data (mk_binary (Some b) l d g) = Some (tt, mk_binary (Some b') l d g).
Proof. intros H. unfold write_buf. cbn [buf]. by rewrite H. Qed.
Lemma move_buf_some to_ from n b x b' l d g : read_at from n b = Some x -> write_at to_ x b = Some b' -> move_buf to_ from n (mk_binary (Some b) l d g) = Some (tt, mk_binary (Some b') l d g).
Proof. intros H1 H2. unfold move_buf, sbind, read_buf. cbn [buf]. rewrite H1. cbn [option_map]. by apply write_buf_some. Qed.

(** Cutting a list at a size. *)
Lemma cut_at n l : 0 <= n <= size l -> exists a b, l = a ++ b /\ size a = n /\ a = take (Z.to_nat n) l /\ b = drop (Z.to_nat n) l.
Proof. intros Hn. exists (take (Z.to_nat n) l), (drop (Z.to_nat n) l). by rewrite take_drop, size_take. Qed.

Lemma truncate_ok n s data : holds s data -> 0 <= n ->
  exists s', IBinary_Truncate n s = Some (has_buf s', s') /\ holds s' (take (Z.to_nat n) data) /\ buf_len s' = buf_len s /\ growby_len s' = growby_len s.
Proof.
  intros H Hn. pose proof H as [A B C D]. unfold IBinary_Truncate, sbind at 1, sget. rewrite (holds_has_buf s data H), A. destruct (Z.ltb_spec n (size data)) as [Hlt|Hge].
  - assert (Hb : buf_len s <> 0) by (pose proof (size_nonneg data); lia). rewrite (proj2 (Z.eqb_neq _ _)) by done. cbn [negb andb].
    destruct (cut_at n data ltac:(lia)) as (a & b & -> & Ha & Eta & _). rewrite <- Eta. pose proof (holds_eta s _ H Hb) as Es. remember (buf_len s) as l eqn:El. remember (growby_len s) as g eqn:Eg. rewrite Es. clear Es El Eg A D H. rewrite !size_app in *. pose proof (size_nonneg b).
    assert (Hw : write_at n (zero_bytes (l - n)) ((a ++ b) ++ zero_bytes (l - (size a + size b))) = Some (a ++ zero_bytes (l - n))).
    { rewrite <- app_assoc, <- Ha. rewrite <- (app_nil_r (b ++ zero_bytes _)). rewrite write_at_mid; [by rewrite app_nil_r|]. rewrite size_app, !size_zero by lia. lia. }
    unfold IBinary_WipeMemory. exists (mk_binary (Some (a ++ zero_bytes (l - n))) l n g). split.
    + unfold sbind. rewrite (write_buf_some _ _ _ _ _ _ _ Hw). done.
    + split; [|done]. rewrite <- Ha. apply holds_full; [done|lia|done].
  - rewrite andb_false_r. rewrite firstn_all2 by (unfold size in *; lia). exists s. split; [|done]. unfold sbind, sret. by rewrite (holds_has_buf s data H).
Qed.

(** Where in the data an insertion goes. *)
Definition insert_at (off : Z) (d data : list Z) : list Z := take (Z.to_nat off) data ++ d ++ drop (Z.to_nat off) data.

Lemma insert_ok mem src bytes off d s data : holds s data -> read_at 0 bytes src = Some d -> 0 < bytes -> 0 <= off <= size data -> size data + bytes < 2 ^ 62 ->
  exists r s', IBinary_Insert mem (Some src) bytes off s = Some (r, s') /\
    (r = true /\ holds s' (insert_at off d data) \/ mem = false /\ r = false /\ s' = s).
Proof.
  intros H Hd Hbytes Hoff Hmax. pose proof H as [A B C D]. assert (Hsd : size d = bytes).
  { unfold read_at in Hd. destruct (_ && _) eqn:E in Hd; [|done]. bool_to_prop. injection Hd as <-. change (drop (Z.to_nat 0) src) with src. apply size_take. lia. }
  unfold IBinary_Insert, sbind at 1, sget. rewrite A. rewrite (proj2 (Z.eqb_neq bytes 0)), (proj2 (Z.leb_le off (size data))) by lia. cbn [negb andb]. pose proof (size_nonneg data) as Hpos.
  rewrite (wrap_small 64 (size data + bytes)) by (unfold in_range; lia).
  destruct (grow_for_ok mem (size data + bytes) s data H) as (r & s1 & E & [(-> & H1 & Hroom)|(-> & -> & ->)]); [lia|lia| |].
  - unfold sbind at 1. rewrite E. cbn match. unfold sbind at 1, sget. rewrite Hd. cbn [of_option]. unfold sbind at 1, sret at 1.
    exists true, (mk_binary (Some (insert_at off d data ++ zero_bytes (buf_len s1 - size data - bytes))) (buf_len s1) (size data + bytes) (growby_len s1)). rewrite (h_len s1 data H1). split; [|left; split; [reflexivity|]].
    + destruct (cut_at off data ltac:(lia)) as (a & b & -> & Ha & Eta & Etb). rewrite !size_app in *. pose proof (size_nonneg b). pose proof (size_nonneg a).
      assert (Hb : buf_len s1 <> 0) by lia. pose proof (holds_eta s1 _ H1 Hb) as Es. remember (buf_len s1) as l eqn:El. remember (growby_len s1) as g eqn:Eg. rewrite Es. clear Es El Eg H1. rewrite size_app.
      set (z := zero_bytes (l - (size a + size b) - bytes)). assert (Hz : zero_bytes (l - (size a + size b)) = zero_bytes bytes ++ z) by (unfold z; rewrite zero_bytes_app by lia; f_equal; lia). rewrite Hz.
      assert (Hmoved : exists y, size y = bytes /\ (if off <? size a + size b then move_buf (off + bytes) off (size a + size b - off) else sret tt)
        (mk_binary (Some ((a ++ b) ++ zero_bytes bytes ++ z)) (l) (size a + size b) (g)) = Some (tt, mk_binary (Some (a ++ y ++ b ++ z)) (l) (size a + size b) (g))).
      { destruct (Z.ltb_spec off (size a + size b)) as [Hlt|Hge].
        - destruct (cut_at bytes (b ++ zero_bytes bytes)) as (y & w & Eyw & Hy & _); [rewrite size_app, size_zero by lia; lia|]. exists y. split; [done|].
          assert (Hw : size w = size b) by (apply (f_equal size) in Eyw; rewrite !size_app, size_zero in Eyw by lia; lia).
          apply move_buf_some with (x := b).
          + rewrite <- app_assoc. replace (size a + size b - off) with (size b) by lia. rewrite <- Ha. apply read_at_mid.
          + replace ((a ++ b) ++ zero_bytes bytes ++ z) with ((a ++ y) ++ w ++ z) by (rewrite <- !app_assoc; f_equal; rewrite app_assoc, <- Eyw, <- app_assoc; done).
            rewrite (app_assoc a y). replace (off + bytes) with (size (a ++ y)) by (rewrite size_app; lia). apply write_at_mid. done.
        - assert (b = []) as -> by (apply nil_of_size; lia). exists (zero_bytes bytes). split; [apply size_zero; lia|]. by rewrite app_nil_r. }
      destruct Hmoved as (y & Hy & Em). unfold sbind at 1. rewrite Em. unfold sbind at 1. rewrite (write_buf_some off d (a ++ y ++ b ++ z) (a ++ d ++ b ++ z)) by (rewrite <- Ha; apply write_at_mid; lia).
      unfold sbind at 1, smodify, set_data_len, sret. cbn [buf buf_len growby_len]. rewrite (wrap_small 64 (size a + size b + bytes)) by (unfold in_range; lia). do 3 f_equal. unfold insert_at. rewrite <- Eta, <- Etb, <- !app_assoc. unfold z. done.
    + unfold insert_at. destruct (cut_at off data ltac:(lia)) as (a & b & -> & Ha & Eta & Etb). rewrite <- Eta, <- Etb. rewrite !size_app in *.
      replace (buf_len s1 - (size a + size b) - bytes) with (buf_len s1 - size (a ++ d ++ b)) by (rewrite !size_app; lia).
      replace (size a + size b + bytes) with (size (a ++ d ++ b)) by (rewrite !size_app; lia). destruct H1 as [A1 B1 C1 D1]. pose proof (size_nonneg a). pose proof (size_nonneg b). apply holds_full; [done|rewrite !size_app; lia|lia].
  - exists false, s. split; [|by right]. unfold sbind at 1. by rewrite E.
Qed.

Lemma delete_ok off n s data : holds s data -> 0 <= off -> 0 < n -> off + n <= size data ->
  exists s', IBinary_Delete off n s = Some (true, s') /\ holds s' (take (Z.to_nat off) data ++ drop (Z.to_nat (off + n)) data).
Proof.
  intros H Hoff Hn Hle. pose proof H as [A B C D]. assert (Hb : buf_len s <> 0) by lia.
  unfold IBinary_Delete, sbind at 1, sget. rewrite A, (holds_has_buf s data H), (proj2 (Z.eqb_neq (buf_len s) 0)), (proj2 (Z.eqb_neq n 0)) by lia.
  rewrite (wrap_small 64 (off + n)) by (unfold in_range; lia). rewrite (proj2 (Z.leb_le (off + n) (size data))) by lia. cbn [negb andb].
  destruct (cut_at off data ltac:(lia)) as (a & m & -> & Ha & Eta & _). rewrite size_app in *. destruct (cut_at n m ltac:(lia)) as (d & b & -> & Hd & _). rewrite size_app in *.
  assert (Etb : drop (Z.to_nat (off + n)) (a ++ d ++ b) = b) by (rewrite app_assoc, <- Ha, <- Hd, <- size_app, to_nat_size, drop_app_length; done). rewrite <- Eta, Etb.
  pose proof (holds_eta s _ H Hb) as Es. remember (buf_len s) as l eqn:El. remember (growby_len s) as g eqn:Eg. rewrite Es. clear Es El Eg A D H Eta Etb. rewrite !size_app in *.
  pose proof (size_nonneg a). pose proof (size_nonneg b). set (z := zero_bytes (l - (size a + (size d + size b)))).
  destruct (cut_at (size b) (d ++ b)) as (y & w & Eyw & Hy & _); [rewrite size_app; lia|].
  assert (Hw : size w = n) by (apply (f_equal size) in Eyw; rewrite !size_app in Eyw; lia).
  exists (mk_binary (Some (a ++ b ++ zero_bytes n ++ z)) l (size a + size b) g). split.
  - unfold sbind at 1. unfold sbind at 1. rewrite (move_buf_some off (off + n) _ _ b (a ++ b ++ w ++ z)).
    + unfold IBinary_WipeMemory, sbind at 1. rewrite (write_buf_some _ _ _ (a ++ b ++ zero_bytes n ++ z)).
      * unfold smodify, set_data_len, sret. cbn [buf buf_len growby_len]. do 3 f_equal. lia.
      * rewrite (app_assoc a b (w ++ z)), (app_assoc a b (zero_bytes n ++ z)). replace (size a + (size d + size b) - n) with (size (a ++ b)) by (rewrite size_app; lia). apply write_at_mid. rewrite size_zero; lia.
    + replace ((a ++ d ++ b) ++ z) with ((a ++ d) ++ b ++ z) by (by rewrite <- !app_assoc). replace (off + n) with (size (a ++ d)) by (rewrite size_app; lia). replace (size a + (size d + size b) - off - n) with (size b) by lia. apply read_at_mid.
    + rewrite Eyw, <- !app_assoc. rewrite <- Ha. by apply write_at_mid.
  - replace (a ++ b ++ zero_bytes n ++ z) with ((a ++ b) ++ zero_bytes (l - size (a ++ b))).
    + rewrite <- size_app. apply holds_full; [done|rewrite size_app; lia|done].
    + unfold z. rewrite zero_bytes_app by lia. rewrite <- app_assoc. do 3 f_equal. rewrite size_app. lia.
Qed.

(** Copying over bytes that are there. *)
Lemma copy_over_ok mem src bytes off d s data : holds s data -> read_at 0 bytes src = Some d -> 0 < bytes -> 0 <= off -> off + bytes <= size data ->
  exists s', IBinary_CopyOver mem (Some src) bytes off s = Some (true, s') /\ holds s' (take (Z.to_nat off) data ++ d ++ drop (Z.to_nat (off + bytes)) data).
Proof.
  intros H Hd Hbytes Hoff Hle. pose proof H as [A B C D]. assert (Hb : buf_len s <> 0) by lia.
  assert (Hsd : size d = bytes).
  { unfold read_at in Hd. destruct (_ && _) eqn:E in Hd; [|done]. bool_to_prop. injection Hd as <-. change (drop (Z.to_nat 0) src) with src. apply size_take. lia. }
  unfold IBinary_CopyOver, sbind at 1, sget. rewrite A. rewrite (proj2 (Z.eqb_neq bytes 0)), (proj2 (Z.leb_le off (size data))) by lia. cbn [negb andb].
  rewrite (wrap_small 64 (off + bytes)) by (unfold in_range; lia). unfold grow_for, sbind at 1 2, sget. rewrite (proj2 (Z.ltb_ge (buf_len s) (off + bytes))) by lia. unfold sret at 1. rewrite (holds_has_buf s data H), (proj2 (Z.eqb_neq (buf_len s) 0)) by done. cbn [negb].
  unfold sbind at 1. rewrite A, Hd. cbn [of_option]. unfold sbind at 1, sret at 1. rewrite (proj2 (Z.ltb_ge (size data) (off + bytes))) by lia.
  destruct (cut_at off data ltac:(lia)) as (a & m & -> & Ha & Eta & _). rewrite size_app in *. destruct (cut_at bytes m ltac:(lia)) as (o & b & -> & Ho & _). rewrite size_app in *.
  assert (Etb : drop (Z.to_nat (off + bytes)) (a ++ o ++ b) = b) by (rewrite app_assoc, <- Ha, <- Ho, <- size_app, to_nat_size, drop_app_length; done). rewrite <- Eta, Etb.
  pose proof (holds_eta s _ H Hb) as Es. remember (buf_len s) as l eqn:El. remember (growby_len s) as g eqn:Eg. rewrite Es. clear Es El Eg A D H Eta Etb. rewrite !size_app in *.
  set (z := zero_bytes _). exists (mk_binary (Some (a ++ d ++ b ++ z)) l (size a + (size o + size b)) g). split.
  - unfold sbind. rewrite (write_buf_some _ _ _ (a ++ d ++ b ++ z)); [done|]. rewrite <- !app_assoc, <- Ha. apply write_at_mid. lia.
  - replace (a ++ d ++ b ++ z) with ((a ++ d ++ b) ++ zero_bytes (l - size (a ++ d ++ b))) by (unfold z; rewrite !size_app, <- !app_assoc; do 5 f_equal; lia).
    replace (size a + (size o + size b)) with (size (a ++ d ++ b)) by (rewrite !size_app; lia). apply holds_full; [done|rewrite !size_app; lia|done].
Qed.

(** Past the end of the data the length becomes wrong: it loses the offset, or exceeds
    the block. *)
Theorem copy_over_breaks_length :
  (exists s, IBinary_CopyOver true (Some [5; 6; 7]) 3 4 (mk_binary (Some ([1; 2; 3; 4] ++ zero_bytes 252)) 256 4 256) = Some (true, s) /\
     data_len s = 3 /\ exists z, buf s = Some ([1; 2; 3; 4; 5; 6; 7] ++ z)) /\
  (exists s, IBinary_CopyOver true (Some (replicate 250 9)) 250 0 (mk_binary (Some (replicate 10 1 ++ zero_bytes 246)) 256 10 256) = Some (true, s) /\
     buf_len s < data_len s).
Proof.
  split; eexists; (split; [vm_compute; reflexivity|]); (split; [done|]) || done. by eexists.
Qed.

(* ------------------------------------------------------------------ *)
(** ** A buffer is a sequence of bytes *)

Inductive op : Type :=
  | OpInsert (d : list Z) (offset : Z) | OpAppend (d : list Z) | OpCopy (d : list Z) | OpClone (d : list Z)
  | OpCopyOver (d : list Z) (offset : Z) | OpDelete (offset n : Z)
  | OpTruncate (n : Z) | OpShrink (n : Z) | OpResize (n : Z) | OpRealloc (n : Z).

Definition run_op (m1 m2 : bool) (o : op) : SM IBinary bool :=
  match o with
  | OpInsert d off => IBinary_Insert m1 (Some d) (size d) off
  | OpAppend d => IBinary_Append m1 (Some d) (size d)
  | OpCopy d => IBinary_Copy m1 (Some d) (size d)
  | OpClone d => IBinary_Clone m1 m2 (Some d) (size d)
  | OpCopyOver d off => IBinary_CopyOver m1 (Some d) (size d) off
  | OpDelete off n => IBinary_Delete off n
  | OpTruncate n => IBinary_Truncate n
  | OpShrink n => IBinary_Shrink m1 n
  | OpResize n => IBinary_Resize m1 n
  | OpRealloc n => IBinary_Realloc m1 n
  end.

(** The specification, and what is left when memory runs out. *)
Definition result (o : op) (data : list Z) : list Z :=
  match o with
  | OpInsert d off => if off <=? size data then insert_at off d data else data
  | OpAppend d => data ++ d
  | OpCopy d | OpClone d => d
  | OpCopyOver d off => take (Z.to_nat off) data ++ d ++ drop (Z.to_nat (off + size d)) data
  | OpDelete off n => if off + n <=? size data then take (Z.to_nat off) data ++ drop (Z.to_nat (off + n)) data else data
  | OpTruncate n | OpShrink n | OpRealloc n => take (Z.to_nat n) data
  | OpResize n => if n =? 0 then [] else data
  end.
Definition kept (o : op) (data : list Z) : list Z :=
  match o with OpCopy _ | OpClone _ => [] | OpShrink n => take (Z.to_nat n) data | _ => data end.

(** Sizes far from the limits of [size_t]; [IBinary_CopyOver] stays in the data, and
    [IBinary_Resize] does not cut them. *)
Definition fits (o : op) (data : list Z) : Prop :=
  match o with
  | OpInsert d off => 0 <= off /\ size data + size d < 2 ^ 62
  | OpAppend d | OpCopy d | OpClone d => size data + size d < 2 ^ 62
  | OpCopyOver d off => 0 <= off /\ off + size d <= size data
  | OpDelete off n => 0 <= off /\ 0 <= n /\ off + n < 2 ^ 64
  | OpTruncate n | OpShrink n => 0 <= n
  | OpResize n => n = 0 \/ size data <= n < 2 ^ 62
  | OpRealloc n => 0 <= n < 2 ^ 63
  end.

Definition refines_op (m1 m2 : bool) (o : op) (s : IBinary) (data : list Z) : Prop :=
  exists r s', run_op m1 m2 o s = Some (r, s') /\
    (r = has_buf s' /\ holds s' (result o data) \/ m1 && m2 = false /\ r = false /\ holds s' (kept o data)).

Lemma read_at_all d : read_at 0 (size d) d = Some d.
Proof. unfold read_at. rewrite (proj2 (Z.leb_le 0 0)), (proj2 (Z.leb_le 0 (size d))), (proj2 (Z.leb_le _ (size d))) by (pose proof (size_nonneg d); lia). cbn [andb]. rewrite to_nat_size. change (drop (Z.to_nat 0) d) with d. by rewrite firstn_all. Qed.
Lemma insert_end d data : insert_at (size data) d data = data ++ d.
Proof. unfold insert_at. rewrite to_nat_size, firstn_all, drop_all. by rewrite app_nil_r. Qed.
Lemma insert_empty d : (if 0 <=? size [] then insert_at 0 d [] else []) = d.
Proof. change (0 <=? size []) with true. unfold insert_at. cbn [Z.to_nat take drop app]. by rewrite app_nil_r. Qed.
Lemma holds_has_data s data : holds s data -> data <> [] -> has_buf s = true.
Proof. intros H Hne. rewrite (holds_has_buf s data H), (proj2 (Z.eqb_neq _ _)); [done|]. destruct H as [_ B _ _]. assert (size data <> 0) by (intros E; by apply Hne, nil_of_size). pose proof (size_nonneg data). lia. Qed.

(** Inserting, whatever the source. *)
Lemma insert_any mem d off s data : holds s data -> 0 <= off -> size data + size d < 2 ^ 62 ->
  exists r s', IBinary_Insert mem (Some d) (size d) off s = Some (r, s') /\
    (r = has_buf s' /\ holds s' (if off <=? size data then insert_at off d data else data) \/ mem = false /\ r = false /\ s' = s).
Proof.
  intros H Hoff Hmax. assert (Hskip : size d = 0 \/ size data < off \/ 0 < size d /\ off <= size data) by (pose proof (size_nonneg d); lia).
  assert (Hstay : size d = 0 \/ size data < off -> IBinary_Insert mem (Some d) (size d) off s = Some (has_buf s, s)).
  { intros Hs. unfold IBinary_Insert, sbind at 1, sget. rewrite (h_len s data H). replace (negb (size d =? 0) && (off <=? size data)) with false; [done|].
    destruct Hs as [-> | Hs]; [done|]. rewrite (proj2 (Z.leb_gt _ _)) by lia. by rewrite andb_false_r. }
  destruct Hskip as [Hz|[Hgt|[Hpos Hle]]].
  - rewrite Hstay by auto. exists (has_buf s), s. split; [done|]. left. split; [done|]. apply nil_of_size in Hz as ->. destruct (Z.leb_spec off (size data)); [|done]. unfold insert_at. by rewrite app_nil_l, take_drop.
  - rewrite Hstay by auto. exists (has_buf s), s. split; [done|]. left. by rewrite (proj2 (Z.leb_gt _ _)).
  - rewrite (proj2 (Z.leb_le off _)) by lia. destruct (insert_ok mem d (size d) off d s data H (read_at_all d) Hpos) as (r & s' & E & [(-> & H')|Hf]); [lia|lia| |].
    + exists true, s'. split; [done|]. left. split; [|done]. symmetry. apply (holds_has_data s' _ H'). unfold insert_at. intros Hn. apply (f_equal size) in Hn. rewrite !size_app in Hn. pose proof (size_nonneg (take (Z.to_nat off) data)). pose proof (size_nonneg (drop (Z.to_nat off) data)). change (size []) with 0 in Hn. lia.
    + exists r, s'. split; [done|]. by right.
Qed.

Lemma realloc_any mem n s data : holds s data -> 0 <= n < 2 ^ 63 ->
  exists r s', IBinary_Realloc mem n s = Some (r, s') /\ (r = has_buf s' /\ holds s' (take (Z.to_nat n) data) \/ mem = false /\ r = false /\ s' = s).
Proof.
  intros H Hn. destruct (realloc_ok mem n s data H Hn) as (r & s' & E & _ & [(-> & Hb & H')|(-> & -> & -> & _)]).
  - exists (negb (n =? 0)), s'. split; [done|]. left. by rewrite (holds_has_buf s' _ H'), Hb.
  - exists false, s. split; [done|]. by right.
Qed.
Lemma boundary_ok w n g : 0 < g < 2 ^ 62 -> 0 <= n < 2 ^ 63 -> w <> 0 -> n <= boundary w n g < n + g.
Proof.
  intros Hg Hn Hw. unfold boundary. rewrite (proj2 (Z.eqb_neq g 0)), (proj2 (Z.eqb_neq w 0)) by lia. cbn [orb].
  rewrite (wrap_small 64 (n + g)) by (unfold in_range; lia). rewrite (wrap_small 64 (n + g - 1)) by (unfold in_range; lia).
  pose proof (Z.div_mod (n + g - 1) g ltac:(lia)). pose proof (Z.mod_pos_bound (n + g - 1) g ltac:(lia)). rewrite wrap_small by (unfold in_range; nia). nia.
Qed.

Lemma delete_any off n s data : holds s data -> 0 <= off -> 0 <= n -> off + n < 2 ^ 64 ->
  exists s', IBinary_Delete off n s = Some (has_buf s', s') /\ holds s' (if off + n <=? size data then take (Z.to_nat off) data ++ drop (Z.to_nat (off + n)) data else data).
Proof.
  intros H Hoff Hn Hsum. destruct (Z.leb_spec (off + n) (size data)) as [Hle|Hgt]; [destruct (Z.eq_dec n 0) as [->|Hz]|].
  - exists s. split; [unfold IBinary_Delete, sbind, sget; rewrite andb_false_r; reflexivity|]. by rewrite Z.add_0_r, take_drop.
  - destruct (delete_ok off n s data H) as (s' & E & H'); [lia|lia|lia|]. exists s'. split; [|done]. rewrite E. do 2 f_equal.
    unfold IBinary_Delete, sbind at 1, sget in E. destruct (_ && _) in E; unfold sbind in E; [|cbn in E; by injection E as <- <-].
    destruct (move_buf _ _ _ s) as [[[] s1]|] in E; [|done]. destruct (IBinary_WipeMemory _ _ s1) as [[[] s2]|] eqn:Ew in E; [|done]. injection E as _ <-. unfold IBinary_WipeMemory, write_buf in Ew. destruct (buf s1); [|done]. destruct (write_at _ _ _); [|done]. by injection Ew as <-.
  - exists s. split; [|done]. unfold IBinary_Delete, sbind, sget. rewrite (h_len s data H), (wrap_small 64 (off + n)), (proj2 (Z.leb_gt _ _)) by (unfold in_range; lia). by rewrite andb_false_r.
Qed.

Lemma shrink_any mem n s data : holds s data -> 0 <= n ->
  exists r s', IBinary_Shrink mem n s = Some (r, s') /\ holds s' (take (Z.to_nat n) data) /\ (r = has_buf s' \/ mem = false /\ r = false).
Proof.
  intros H Hf. destruct (truncate_ok n s data H Hf) as (s1 & E1 & H1 & _). unfold IBinary_Shrink. rewrite (sbind_some _ _ _ _ _ E1). unfold sbind, sget.
  set (t := take (Z.to_nat n) data) in *. pose proof H1 as [A B C D]. pose proof (size_nonneg t). rewrite A.
  rewrite (wrap_small 64 (buf_len s1 - size t)) by (unfold in_range; lia). destruct (Z.eqb_spec n 0) as [->|Hz]; cbn [orb].
  - change (boundary 0 (size t) (growby_len s1)) with 0. destruct (realloc_any mem 0 s1 t H1) as (r & s' & E & [(-> & H')|(-> & -> & ->)]); [lia| |]; eexists _, _; (split; [exact E|]); [|by auto]. rewrite firstn_O in H'. unfold t. rewrite firstn_O. auto.
  - destruct (Z.ltb_spec (growby_len s1) (buf_len s1 - size t)) as [Hlt|]; [|eexists _, s1; split; [reflexivity|]; auto].
    pose proof (boundary_ok n (size t) (growby_len s1) C ltac:(lia) Hz) as Hb. destruct (realloc_any mem (boundary n (size t) (growby_len s1)) s1 t H1) as (r & s' & E & [(-> & H')|(-> & -> & ->)]); [lia| |]; eexists _, _; (split; [exact E|]); [|by auto]. rewrite firstn_all2 in H' by (unfold size in *; lia). auto.
Qed.

Lemma op_ok m1 m2 o s data : holds s data -> fits o data -> refines_op m1 m2 o s data.
Proof.
  intros H Hf. pose proof (h_buf_len s data H) as Hbl. pose proof (size_nonneg data) as Hpos. unfold refines_op. destruct o as [d off|d|d|d|d off|off n|n|n|n|n]; cbn [run_op result kept fits] in *.
  - destruct (insert_any m1 d off s data H) as (r & s' & E & [?|(-> & -> & ->)]); [lia|lia| |]; eexists _, _; (split; [exact E|]); [by left|by right].
  - unfold IBinary_Append, sbind, sget. rewrite (h_len s data H). destruct (insert_any m1 d (size data) s data H) as (r & s' & E & [(-> & H')|(-> & -> & ->)]); [lia|lia| |]; eexists _, _; (split; [exact E|]); [left|by right]. rewrite Z.leb_refl, insert_end in H'. done.
  - destruct (truncate_ok 0 s data H) as (s1 & E1 & H1 & _); [lia|]. rewrite firstn_O in H1. unfold IBinary_Copy. rewrite (sbind_some _ _ _ _ _ E1). pose proof (size_nonneg d).
    destruct (insert_any m1 d 0 s1 [] H1) as (r & s' & E & [(-> & H')|(-> & -> & ->)]); [lia|change (size []) with 0; lia| |]; eexists _, _; (split; [exact E|]); [left|by right]. by rewrite insert_empty in H'.
  - destruct (truncate_ok 0 s data H) as (s1 & E1 & H1 & _); [lia|]. rewrite firstn_O in H1. unfold IBinary_Clone. rewrite (sbind_some _ _ _ _ _ E1). pose proof (size_nonneg d).
    assert (exists r2 s2, IBinary_Realloc m1 (size d) s1 = Some (r2, s2) /\ holds s2 [] /\ (m1 = true \/ m1 = false)) as (r2 & s2 & E2 & H2 & _).
    { destruct (realloc_any m1 (size d) s1 [] H1) as (r2 & s2 & E2 & [(_ & H2)|(_ & _ & ->)]); [lia| |]; eexists _, _; (split; [exact E2|]); (split; [|by destruct m1; auto]); [|done]. by rewrite firstn_nil in H2. }
    rewrite (sbind_some _ _ _ _ _ E2). destruct (insert_any m2 d 0 s2 [] H2) as (r & s' & E & [(-> & H')|(-> & -> & ->)]); [lia|change (size []) with 0; lia| |]; eexists _, _; (split; [exact E|]); [left|right; by rewrite andb_false_r]. by rewrite insert_empty in H'.
  - destruct Hf as [Hoff Hle]. destruct (Z.eq_dec (size d) 0) as [Hz|Hz].
    + apply nil_of_size in Hz as ->. eexists _, s. split; [unfold IBinary_CopyOver, sbind, sget; cbn [negb andb]; reflexivity|]. left. split; [done|]. change (size []) with 0. by rewrite Z.add_0_r, app_nil_l, take_drop.
    + pose proof (size_nonneg d). destruct (copy_over_ok m1 d (size d) off d s data H (read_at_all d)) as (s' & E & H'); [lia|lia|lia|]. eexists _, s'. split; [exact E|]. left. split; [|done]. symmetry. apply (holds_has_data s' _ H'). intros Hn. apply (f_equal size) in Hn. rewrite !size_app in Hn. pose proof (size_nonneg (take (Z.to_nat off) data)). pose proof (size_nonneg (drop (Z.to_nat (off + size d)) data)). change (size []) with 0 in Hn. lia.
  - destruct Hf as (Hoff & Hn & Hsum). destruct (delete_any off n s data H Hoff Hn Hsum) as (s' & E & H'). eexists _, s'. split; [exact E|]. by left.
  - destruct (truncate_ok n s data H Hf) as (s' & E & H' & _). eexists _, s'. split; [exact E|]. by left.
  - destruct (shrink_any m1 n s data H Hf) as (r & s' & E & H' & [-> | [-> ->]]); eexists _, s'; (split; [exact E|]); [by left|by right].
  - destruct Hf as [-> | Hn]; unfold IBinary_Resize, sbind, sget.
    + change (boundary 0 0 (growby_len s)) with 0. destruct (realloc_any m1 0 s data H) as (r & s' & E & [(-> & H')|(-> & -> & ->)]); [lia| |]; eexists _, _; (split; [exact E|]); [by left|by right].
    + pose proof (h_growby s data H) as Hg. assert (Hr : 0 <= boundary n n (growby_len s) < 2 ^ 63 /\ n <= boundary n n (growby_len s)) by (destruct (Z.eq_dec n 0) as [->|Hz]; [by cbn|pose proof (boundary_ok n n (growby_len s) Hg ltac:(lia) Hz); lia]).
      destruct Hr as [Hr Hle]. destruct (realloc_any m1 _ s data H Hr) as (r & s' & E & [(-> & H')|(-> & -> & ->)]); eexists _, _; (split; [exact E|]); [left|by right]. split; [done|]. rewrite firstn_all2 in H' by (unfold size in *; lia). destruct (Z.eqb_spec n 0) as [->|]; [|done]. assert (data = []) as -> by (apply nil_of_size; lia). done.
  - destruct (realloc_any m1 n s data H Hf) as (r & s' & E & [(-> & H')|(-> & -> & ->)]); eexists _, _; (split; [exact E|]); [by left|by right].
Qed.

(** A script gives each operation with the outcomes of its allocations. *)
Fixpoint run_script (script : list (op * bool * bool)) : SM IBinary unit :=
  match script with
  | [] => sret tt
  | (o, m1, m2) :: script => run_op m1 m2 o ;! run_script script
  end.
(** The contents that the specification allows after a script: those of the results,
    except where memory ran out. *)
Inductive spec_run : list Z -> list (op * bool * bool) -> list Z -> Prop :=
  | spec_nil data : spec_run data [] data
  | spec_result data o m1 m2 script data' : spec_run (result o data) script data' -> spec_run data ((o, m1, m2) :: script) data'
  | spec_no_memory data o m1 m2 script data' : m1 && m2 = false -> spec_run (kept o data) script data' -> spec_run data ((o, m1, m2) :: script) data'.
Fixpoint script_fits (data : list Z) (script : list (op * bool * bool)) : Prop :=
  match script with
  | [] => True
  | (o, m1, m2) :: script => fits o data /\ script_fits (result o data) script /\ (m1 && m2 = false -> script_fits (kept o data) script)
  end.

(** C8: A byte buffer is a sequence of bytes, over every script of its operations.
    From a new buffer, insertions, appending, copies, deletions, truncation and changes
    of the size of the block always have an outcome - nothing is read or written
    outside the block - and the bytes that the buffer holds are those that the
    specification on sequences gives, an operation that runs out of memory leaving
    them as they were (a copy none).  The rest of the block stays zero. *)
Theorem ibinary_refines_bytes (script : list (op * bool * bool)) (s0 : IBinary) (H0 : IBinary_Create true = Some s0) (Hfits : script_fits [] script) :
  exists s data, run_script script s0 = Some (tt, s) /\ spec_run [] script data /\ holds s data.
Proof.
  injection H0 as <-. assert (Hh : holds (mk_binary None 0 0 IBINARY_DEFAULT_GROWBY) []) by (by apply holds_empty). revert Hfits Hh. generalize (mk_binary None 0 0 IBINARY_DEFAULT_GROWBY) as s. generalize (@nil Z) as data.
  induction script as [|[[o m1] m2] script IH]; intros data s Hfits Hh; cbn [script_fits run_script] in *.
  - exists s, data. split; [done|]. split; [constructor|done].
  - destruct Hfits as (Hf & Hf1 & Hf2). destruct (op_ok m1 m2 o s data Hh Hf) as (r & s1 & E & Hor). rewrite (sbind_some _ _ _ _ _ E).
    destruct Hor as [(_ & H1)|(Hm & _ & H1)].
    + destruct (IH _ s1 Hf1 H1) as (s' & d' & E' & Hs & Hd). exists s', d'. split; [done|]. split; [by constructor|done].
    + destruct (IH _ s1 (Hf2 Hm) H1) as (s' & d' & E' & Hs & Hd). exists s', d'. split; [done|]. split; [by apply spec_no_memory|done].
Qed.

Lemma ibinary_refines_bytes_witness :
  let script := [(OpAppend [1; 2; 3; 4], true, true); (OpInsert [9; 9] 2, true, true); (OpDelete 0 1, true, true); (OpShrink 3, true, true)] in
  IBinary_Create true = Some (mk_binary None 0 0 256) /\ script_fits [] script /\
  exists s data, run_script script (mk_binary None 0 0 256) = Some (tt, s) /\ spec_run [] script data /\ holds s data.
Proof.
  intros script. assert (H0 : IBinary_Create true = Some (mk_binary None 0 0 256)) by reflexivity.
  assert (Hf : script_fits [] script) by (unfold script; cbn; lia || (repeat split; try (cbn; lia); done)).
  split; [exact H0|]. split; [exact Hf|]. exact (ibinary_refines_bytes script _ H0 Hf).
Defined.
