(* ===== verification/WsFrame.v ===== *)
(** * WebSocket frames of both sides of IPF: ipfsrv/ipfsrv_ws_socket.c, ipfipc/ipfipc_ws.c

    A frame is a header of two bytes, a size of two or eight bytes in network order if the
    payload is longer than 125 bytes, a key of four bytes in frames of the client, and the
    payload, which the client's key masks.  The server parses ([Websocket_GetFrame]) and
    builds ([WebSocket_BuildFrame]) frames with one set of functions, the client parses
    them ([esif_ws_get_frame_type]) with another and builds them where it sends
    ([IpcSession_SendMsg]).  The theorems at the end say what each side makes of what the
    other sends. *)

From stdpp Require Import list.
From S2P Require Import Prelude IBinary.
Local Open Scope Z_scope.
Local Open Scope dptf_scope.

(** Result codes of the web server. *)
Definition ESIF_E_WS_DISC : Z := 3100.
Definition ESIF_E_WS_SOCKET_ERROR : Z := 3102.
Definition ESIF_E_WS_INCOMPLETE : Z := 3106.
Definition ESIF_E_WS_UNAUTHORIZED : Z := 3108.

(* ------------------------------------------------------------------ *)
(** ** Headers *)

(** [FrameType] and [FinType]. *)
Definition FRAME_NULL : Z := 0xFF.
Definition FRAME_CONTINUATION : Z := 0x00.
Definition FRAME_TEXT : Z := 0x01.
Definition FRAME_BINARY : Z := 0x02.
Definition FRAME_CLOSING : Z := 0x08.
Definition FRAME_PING : Z := 0x09.
Definition FRAME_PONG : Z := 0x0A.
Definition FIN_FRAGMENT : Z := 0.
Definition FIN_FINAL : Z := 1.

Definition WSFRAME_HEADER_TYPE1 : Z := 125.
Definition WSFRAME_HEADER_TYPE2 : Z := 126.
Definition WSFRAME_HEADER_TYPE3 : Z := 127.
Definition WSFRAME_HEADER_TYPE1_MAX : Z := 125.
Definition WSFRAME_HEADER_TYPE2_MAX : Z := 0xFFFF.
Definition WSFRAME_HEADER_TYPE3_MAX : Z := 0x7FFFFFFE.

(** The bit fields of the first two bytes. *)
Definition hdr_frameType (b0 : Z) : Z := Z.land b0 15.
Definition hdr_reserved (b0 : Z) : Z := Z.land (Z.shiftr b0 4) 7.
Definition hdr_fin (b0 : Z) : Z := Z.land (Z.shiftr b0 7) 1.
Definition hdr_payloadSize (b1 : Z) : Z := Z.land b1 127.
Definition hdr_maskFlag (b1 : Z) : Z := Z.land (Z.shiftr b1 7) 1.
Definition hdr_bytes (frameType fin payloadSize maskFlag : Z) : list Z :=
  [Z.lor (Z.land frameType 15) (Z.shiftl (Z.land fin 1) 7); Z.lor (Z.land payloadSize 127) (Z.shiftl (Z.land maskFlag 1) 7)].

(** Numbers in network order: [esif_ccb_htons] and [esif_ccb_htonll] of a field. *)
Definition net_bytes (n : nat) (v : Z) : list Z := rev (le_bytes n v).
Definition net_value (n : nat) (m : list Z) : option Z := if (n <=? length m)%nat then le_value n (rev (take n m)) else None.

(** The header for a payload of [n] bytes, if there is one. *)
Definition frame_header (frameType fin maskFlag n : Z) : option (list Z) :=
  if n <=? WSFRAME_HEADER_TYPE1_MAX then Some (hdr_bytes frameType fin n maskFlag)
  else if n <=? WSFRAME_HEADER_TYPE2_MAX then Some (hdr_bytes frameType fin WSFRAME_HEADER_TYPE2 maskFlag ++ net_bytes 2 n)
  else if n <=? WSFRAME_HEADER_TYPE3_MAX then Some (hdr_bytes frameType fin WSFRAME_HEADER_TYPE3 maskFlag ++ net_bytes 8 n)
  else None.
(** Every byte of the payload with the byte of the key that belongs to its place. *)
Definition masked (key data : list Z) : list Z := imap (fun j b => Z.lxor b (nth (j mod 4) key 0)) data.

(* ------------------------------------------------------------------ *)
(** ** The server *)

(** A frame that was parsed: its type, whether it is the last of its message, its payload
    without the mask, its size in the buffer. *)
Record WsFrame : Type := mk_frame { frameType : Z; fin : Z; payload : list Z; frameSize : Z }.

(** [buffer] has the [buf_len] bytes that were received. *)
Definition Websocket_GetFrame (buffer : list Z) : option (Z * option WsFrame) :=
  let buf_len := size buffer in
  if buf_len <? 2 then Some (ESIF_E_WS_INCOMPLETE, None)
  else
    b0 ← buffer !! 0%nat;
    b1 ← buffer !! 1%nat;
    if hdr_maskFlag b1 =? 0 then Some (ESIF_E_WS_SOCKET_ERROR, None)
    else
      let n := hdr_payloadSize b1 in
      let header_size := if n <=? WSFRAME_HEADER_TYPE1 then 6 else if n =? WSFRAME_HEADER_TYPE2 then 8 else 14 in
      payload_size ← (if header_size <=? buf_len
                      then if n <=? WSFRAME_HEADER_TYPE1 then Some n else net_value (if n =? WSFRAME_HEADER_TYPE2 then 2 else 8) (drop 2 buffer)
                      else Some 0);
      if buf_len <? u64 (header_size + payload_size) then Some (ESIF_E_WS_INCOMPLETE, None)
      else
        mask_key ← read_at (header_size - 4) 4 buffer;
        data ← read_at header_size payload_size buffer;
        Some (ESIF_OK, Some (mk_frame (hdr_frameType b0) (hdr_fin b0) (masked mask_key data) (u64 (header_size + payload_size)))).

(** The frame in an output buffer of [out_buf_len] bytes. *)
Definition WebSocket_BuildFrame (out_buf_len : Z) (data : list Z) (frameType finType : Z) : Z * list Z :=
  match frame_header frameType finType 0 (size data) with
  | None => (ESIF_E_PARAMETER_IS_OUT_OF_BOUNDS, [])
  | Some h => if out_buf_len <? size h + size data then (ESIF_E_NEED_LARGER_BUFFER, []) else (ESIF_OK, h ++ data)
  end.

(* ------------------------------------------------------------------ *)
(** ** The client *)

Definition ERROR_FRAME : Z := 0xF1.
Definition INCOMPLETE_FRAME : Z := 0xF2.
Definition WS_FRAME_SIZE_TYPE_1 : Z := 125.
Definition WS_FRAME_SIZE_TYPE_2 : Z := 126.
Definition WS_FRAME_SIZE_TYPE_3 : Z := 127.
Definition WS_FRAME_MAXIMUM_SIZE : Z := 0x7FFFFFFF.

Definition esif_ws_mask_enabled (b1 : Z) : bool := negb (hdr_maskFlag b1 =? 0).
Definition esif_ws_get_header_size (frame : list Z) : Z :=
  match frame with
  | b0 :: b1 :: _ =>
      let hdrLen := 2 + (if esif_ws_mask_enabled b1 then 4 else 0)
                    + (if hdr_payloadSize b1 =? WS_FRAME_SIZE_TYPE_2 then 2 else if hdr_payloadSize b1 =? WS_FRAME_SIZE_TYPE_3 then 8 else 0) in
      if size frame <? hdrLen then 0 else hdrLen
  | _ => 0
  end.
(** The size of the payload, and the type. *)
Definition esif_ws_get_payload_size (frame : list Z) (frameType : Z) : option (Z * Z) :=
  if esif_ws_get_header_size frame =? 0 then Some (0, INCOMPLETE_FRAME)
  else
    b1 ← frame !! 1%nat;
    let n := hdr_payloadSize b1 in
    if n =? WS_FRAME_SIZE_TYPE_2 then (fun v => (v, frameType)) <$> net_value 2 (drop 2 frame)
    else if n =? WS_FRAME_SIZE_TYPE_3 then (fun v => if WS_FRAME_MAXIMUM_SIZE <? v then (0, ERROR_FRAME) else (v, frameType)) <$> net_value 8 (drop 2 frame)
    else Some (n, frameType).
(** The type, where the data are and how many - if they are set -, and how many bytes
    follow. *)
Definition esif_ws_get_frame_type (frame : list Z) : option (Z * option (Z * Z) * Z) :=
  let hdrLen := esif_ws_get_header_size frame in
  if hdrLen =? 0 then Some (INCOMPLETE_FRAME, None, 0)
  else
    b0 ← frame !! 0%nat;
    if negb (hdr_reserved b0 =? 0) then Some (ERROR_FRAME, None, 0)
    else
      let mode := hdr_frameType b0 in
      if (mode =? FRAME_TEXT) || (mode =? FRAME_BINARY) || (mode =? FRAME_CLOSING) || (mode =? FRAME_PING) || (mode =? FRAME_PONG) || (mode =? FRAME_CONTINUATION) then
        r ← esif_ws_get_payload_size frame mode;
        let '(payloadLength, frameType) := r in
        if payloadLength <=? 0 then Some (frameType, None, 0)
        else if size frame - hdrLen <? payloadLength then Some (INCOMPLETE_FRAME, None, 0)
        else
          let bytesRemaining := if payloadLength <? size frame - hdrLen then size frame - hdrLen - payloadLength else 0 in
          let data := if payloadLength <=? WSFRAME_HEADER_TYPE1_MAX then 2 else if payloadLength <=? WSFRAME_HEADER_TYPE2_MAX then 4 else 10 in
          Some (frameType, Some (data, payloadLength), bytesRemaining)
      else Some (ERROR_FRAME, None, 0).

(** The frame that [IpcSession_SendMsg] makes of a message. *)
Definition client_frame (mask_key message : list Z) : option (list Z) :=
  (fun h => h ++ mask_key ++ masked mask_key message) <$> frame_header FRAME_BINARY FIN_FINAL 1 (size message).

(* ------------------------------------------------------------------ *)
(** ** Both directions *)

Lemma masked_size key d : size (masked key d) = size d.
Proof. unfold size, masked. by rewrite length_imap. Qed.
Lemma masked_twice key d : masked key (masked key d) = d.
Proof.
  unfold masked. apply list_eq. intros i. rewrite !list_lookup_imap. destruct (d !! i) as [b|]; [|done]. cbn. f_equal. by rewrite Z.lxor_assoc, Z.lxor_nilpotent, Z.lxor_0_r.
Qed.

(** The bit fields read what was written. *)
Definition hdr_right (t f n k : Z) : bool :=
  match hdr_bytes t f n k with
  | [b0; b1] => (hdr_frameType b0 =? t) && (hdr_reserved b0 =? 0) && (hdr_fin b0 =? f) && (hdr_payloadSize b1 =? n) && (hdr_maskFlag b1 =? k)
  | _ => false
  end.
Lemma below_forallb (p : Z -> bool) n v : forallb p (seqZ 0 n) = true -> 0 <= v < n -> p v = true.
Proof. intros Hp Hv. apply (proj1 (forallb_forall p _) Hp). apply list_elem_of_In, elem_of_seqZ. lia. Qed.
Lemma hdr_reads t f n k : 0 <= t < 16 -> 0 <= f < 2 -> 0 <= n < 128 -> 0 <= k < 2 ->
  exists b0 b1, hdr_bytes t f n k = [b0; b1] /\ hdr_frameType b0 = t /\ hdr_reserved b0 = 0 /\ hdr_fin b0 = f /\ hdr_payloadSize b1 = n /\ hdr_maskFlag b1 = k.
Proof.
  intros Ht Hf Hn Hk. assert (H : hdr_right t f n k = true).
  { assert (Hall : forallb (fun t => forallb (fun f => forallb (fun n => forallb (hdr_right t f n) (seqZ 0 2)) (seqZ 0 128)) (seqZ 0 2)) (seqZ 0 16) = true) by (by vm_compute).
    apply (below_forallb _ _ k (below_forallb _ _ n (below_forallb _ _ f (below_forallb _ _ t Hall Ht) Hf) Hn) Hk). }
  unfold hdr_right in H. unfold hdr_bytes in *. bool_to_prop. eexists _, _. split; [reflexivity|]. by split_and!.
Qed.
Lemma net_bytes_length n v : length (net_bytes n v) = n.
Proof. unfold net_bytes. by rewrite length_rev, le_bytes_length. Qed.
Lemma net_roundtrip n v rest : 0 <= v < 256 ^ Z.of_nat n -> net_value n (net_bytes n v ++ rest) = Some v.
Proof.
  intros Hv. unfold net_value. rewrite length_app, net_bytes_length, (proj2 (Nat.leb_le _ _)) by lia. rewrite take_app_le by (by rewrite net_bytes_length). rewrite take_ge by (by rewrite net_bytes_length).
  unfold net_bytes. rewrite rev_involutive, <- (app_nil_r (le_bytes n v)). by apply le_roundtrip.
Qed.

(** The header for a payload. *)
Definition size_field (n : Z) : Z := if n <=? 125 then n else if n <=? 0xFFFF then 126 else 127.
Definition size_bytes (n : Z) : list Z := if n <=? 125 then [] else if n <=? 0xFFFF then net_bytes 2 n else net_bytes 8 n.
Lemma header_ok t f k n : 0 <= n <= 0x7FFFFFFE -> frame_header t f k n = Some (hdr_bytes t f (size_field n) k ++ size_bytes n).
Proof.
  intros Hn. unfold frame_header, size_field, size_bytes, WSFRAME_HEADER_TYPE1_MAX, WSFRAME_HEADER_TYPE2_MAX, WSFRAME_HEADER_TYPE3_MAX. destruct (n <=? 125); [by rewrite app_nil_r|]. destruct (n <=? 0xFFFF); [done|]. by rewrite (proj2 (Z.leb_le _ _)) by lia.
Qed.
Lemma size_field_range n : 0 <= n -> 0 <= size_field n < 128.
Proof. intros Hn. unfold size_field. destruct (Z.leb_spec n 125); [lia|]. destruct (_ <=? _); lia. Qed.

(** What the size bytes mean, for a parser that has [m] behind the first two bytes. *)
Lemma size_bytes_cases n : 0 <= n <= 0x7FFFFFFE ->
  (n <= 125 /\ size_field n = n /\ size_bytes n = []) \/
  (125 < n <= 0xFFFF /\ size_field n = 126 /\ size (size_bytes n) = 2 /\ forall m, net_value 2 (size_bytes n ++ m) = Some n) \/
  (0xFFFF < n /\ size_field n = 127 /\ size (size_bytes n) = 8 /\ forall m, net_value 8 (size_bytes n ++ m) = Some n).
Proof.
  intros Hn. unfold size_field, size_bytes, size. destruct (Z.leb_spec n 125); [by left|right]. destruct (Z.leb_spec n 0xFFFF); [left|right]; rewrite net_bytes_length; (split_and!; first [lia|done|intros m; apply net_roundtrip; cbn; lia]).
Qed.

(** ** The server reads a client's frame *)
Lemma server_cut t f key n m : 0 <= t < 16 -> 0 <= f < 2 -> 0 <= n <= 0x7FFFFFFE -> size key = 4 -> let h := hdr_bytes t f (size_field n) 1 ++ size_bytes n in
  Websocket_GetFrame (h ++ key ++ m) =
    if size m <? n then Some (ESIF_E_WS_INCOMPLETE, None)
    else Some (ESIF_OK, Some (mk_frame t f (masked key (take (Z.to_nat n) m)) (size h + 4 + n))).
Proof.
  intros Ht Hf Hn Hkey h. destruct (hdr_reads t f (size_field n) 1 Ht Hf (size_field_range n ltac:(lia)) ltac:(lia)) as (b0 & b1 & Eh & T0 & _ & F0 & N1 & M1).
  pose proof (size_nonneg m). assert (Hh : size h = 2 + size (size_bytes n)) by (unfold h; by rewrite Eh, size_app). unfold h in *. rewrite Eh in *. clear Eh. cbn [app] in *.
  unfold Websocket_GetFrame. set (buf := b0 :: b1 :: _). assert (Hb : size buf = 2 + size (size_bytes n) + 4 + size m) by (unfold buf; rewrite !(app_comm_cons), !size_app, Hh, Hkey; lia).
  pose proof (size_nonneg (size_bytes n)). rewrite Hb, (proj2 (Z.ltb_ge _ _)) by lia. cbn [lookup list_lookup buf mbind option_bind]. rewrite M1, N1. change (1 =? 0) with false. cbn iota.
  assert (Eread : forall hs, hs = 2 + size (size_bytes n) + 4 -> n <= size m -> read_at (hs - 4) 4 buf = Some key /\ read_at hs n buf = Some (take (Z.to_nat n) m)).
  { intros hs -> Hm. unfold buf. rewrite !app_comm_cons. replace (2 + size (size_bytes n) + 4 - 4) with (size (b0 :: b1 :: size_bytes n)) by lia. rewrite <- Hkey at 1. rewrite read_at_mid. split; [done|].
    pose proof (read_at_mid ((b0 :: b1 :: size_bytes n) ++ key) (take (Z.to_nat n) m) (drop (Z.to_nat n) m)) as Er. rewrite size_take in Er by lia. rewrite take_drop, <- app_assoc, size_app in Er.
    by replace (2 + size (size_bytes n) + 4) with (size (b0 :: b1 :: size_bytes n) + size key) by lia. }
  assert (Edrop : drop 2 buf = size_bytes n ++ key ++ m) by done. clearbody buf.
  destruct (size_bytes_cases n Hn) as [(Hs & -> & Ebytes)|[(Hs & -> & Hsz & Hv)|(Hs & -> & Hsz & Hv)]].
  - rewrite Ebytes in *. change (size []) with 0 in *. unfold WSFRAME_HEADER_TYPE1. rewrite (proj2 (Z.leb_le n 125)) by lia. cbn iota. rewrite (proj2 (Z.leb_le 6 _)) by lia. cbn [mbind option_bind]. rewrite wrap_small by (unfold in_range; lia).
    destruct (Z.ltb_spec (size m) n); [by rewrite (proj2 (Z.ltb_lt _ _)) by lia|]. rewrite (proj2 (Z.ltb_ge _ _)) by lia. destruct (Eread 6) as [E1 E2]; [lia|lia|]. rewrite E1, E2. cbn [mbind option_bind]. rewrite T0, F0. do 4 f_equal; lia.
  - unfold WSFRAME_HEADER_TYPE1, WSFRAME_HEADER_TYPE2. change (126 <=? 125) with false. change (126 =? 126) with true. cbn iota. rewrite (proj2 (Z.leb_le 8 _)), Edrop, Hv by lia. cbn [mbind option_bind]. rewrite wrap_small by (unfold in_range; lia).
    destruct (Z.ltb_spec (size m) n); [by rewrite (proj2 (Z.ltb_lt _ _)) by lia|]. rewrite (proj2 (Z.ltb_ge _ _)) by lia. destruct (Eread 8) as [E1 E2]; [lia|lia|]. rewrite E1, E2. cbn [mbind option_bind]. rewrite T0, F0. do 4 f_equal; lia.
  - unfold WSFRAME_HEADER_TYPE1, WSFRAME_HEADER_TYPE2. change (127 <=? 125) with false. change (127 =? 126) with false. cbn iota. rewrite (proj2 (Z.leb_le 14 _)), Edrop, Hv by lia. cbn [mbind option_bind]. rewrite wrap_small by (unfold in_range; lia).
    destruct (Z.ltb_spec (size m) n); [by rewrite (proj2 (Z.ltb_lt _ _)) by lia|]. rewrite (proj2 (Z.ltb_ge _ _)) by lia. destruct (Eread 14) as [E1 E2]; [lia|lia|]. rewrite E1, E2. cbn [mbind option_bind]. rewrite T0, F0. do 4 f_equal; lia.
Qed.
Lemma short_frame_cases (p : list Z) : size p < 2 \/ exists b0 b1 p', p = b0 :: b1 :: p'.
Proof. destruct p as [|b0 [|b1 p']]; [left; done|left; done|right; by exists b0, b1, p']. Qed.
Lemma server_short t f n p q : 0 <= t < 16 -> 0 <= f < 2 -> 0 <= n <= 0x7FFFFFFE -> let h := hdr_bytes t f (size_field n) 1 ++ size_bytes n in
  p `prefix_of` h ++ q -> size p < size h + 4 -> Websocket_GetFrame p = Some (ESIF_E_WS_INCOMPLETE, None).
Proof.
  intros Ht Hf Hn h [r Hp] Hs. destruct (hdr_reads t f (size_field n) 1 Ht Hf (size_field_range n ltac:(lia)) ltac:(lia)) as (b0 & b1 & Eh & T0 & _ & F0 & N1 & M1).
  unfold h in *. rewrite Eh in *. cbn [app] in *. destruct (short_frame_cases p) as [Hp2|(x0 & x1 & p' & ->)]; [unfold Websocket_GetFrame; by rewrite (proj2 (Z.ltb_lt _ _))|].
  cbn [app] in Hp. injection Hp as <- <- Hp. set (buf := b0 :: b1 :: p') in *. assert (Hb : size (b0 :: b1 :: size_bytes n) = 2 + size (size_bytes n)) by (unfold size; cbn [length]; lia). rewrite Hb in Hs.
  unfold Websocket_GetFrame. assert (2 <= size buf) by (unfold buf, size; cbn [length]; lia). rewrite (proj2 (Z.ltb_ge _ _)) by lia. cbn [lookup list_lookup buf mbind option_bind]. fold buf. rewrite M1, N1. change (1 =? 0) with false. cbn iota.
  assert (Eh' : (if size_field n <=? WSFRAME_HEADER_TYPE1 then 6 else if size_field n =? WSFRAME_HEADER_TYPE2 then 8 else 14) = 2 + size (size_bytes n) + 4).
  { unfold WSFRAME_HEADER_TYPE1, WSFRAME_HEADER_TYPE2. destruct (size_bytes_cases n Hn) as [(? & -> & ->)|[(? & -> & -> & _)|(? & -> & -> & _)]]; [by rewrite (proj2 (Z.leb_le _ _)) by lia|done|done]. }
  rewrite Eh', (proj2 (Z.leb_gt _ _)) by lia. cbn [mbind option_bind]. pose proof (size_nonneg (size_bytes n)).
  assert (size (size_bytes n) <= 8) by (destruct (size_bytes_cases n Hn) as [(? & _ & ->)|[(? & _ & -> & _)|(? & _ & -> & _)]]; done). rewrite wrap_small by (unfold in_range; lia). by rewrite (proj2 (Z.ltb_lt _ _)) by lia.
Qed.

(** A frame of the client, and what the server makes of a part of it. *)
Definition frame_of (key m : list Z) : list Z := (hdr_bytes FRAME_BINARY FIN_FINAL (size_field (size m)) 1 ++ size_bytes (size m)) ++ key ++ masked key m.
Definition sendable_message (m : list Z) : Prop := size m <= 0x7FFFFFFE.
Lemma client_frame_ok key m : sendable_message m -> client_frame key m = Some (frame_of key m).
Proof. intros Hm. pose proof (size_nonneg m). unfold client_frame. by rewrite header_ok by (unfold sendable_message in *; lia). Qed.
Lemma server_gets_frame key m rest : size key = 4 -> sendable_message m ->
  Websocket_GetFrame (frame_of key m ++ rest) = Some (ESIF_OK, Some (mk_frame FRAME_BINARY FIN_FINAL m (size (frame_of key m)))).
Proof.
  intros Hk Hm. pose proof (size_nonneg m). pose proof (size_nonneg rest). unfold sendable_message in Hm. unfold frame_of at 1. rewrite <- !app_assoc, app_assoc. rewrite (server_cut FRAME_BINARY FIN_FINAL key (size m) (masked key m ++ rest)); [|done|done|lia|done].
  rewrite size_app, masked_size, (proj2 (Z.ltb_ge _ _)) by lia. replace (Z.to_nat (size m)) with (length (masked key m)) by (pose proof (masked_size key m) as E; unfold size in *; lia). rewrite take_app_length, masked_twice. unfold frame_of. rewrite !size_app, masked_size, Hk. do 4 f_equal. lia.
Qed.
Lemma server_waits key m p : size key = 4 -> sendable_message m -> p `prefix_of` frame_of key m -> size p < size (frame_of key m) -> Websocket_GetFrame p = Some (ESIF_E_WS_INCOMPLETE, None).
Proof.
  intros Hk Hm Hp Hs. pose proof (size_nonneg m). unfold sendable_message in Hm. set (h := hdr_bytes FRAME_BINARY FIN_FINAL (size_field (size m)) 1 ++ size_bytes (size m)). unfold frame_of in *. fold h in Hp, Hs.
  destruct (Z.lt_ge_cases (size p) (size h + 4)) as [Hlt|Hge]; [by apply (server_short FRAME_BINARY FIN_FINAL (size m) p (key ++ masked key m))|].
  assert (exists y, p = h ++ key ++ y) as [y ->].
  { destruct Hp as [r Hp]. rewrite app_assoc in Hp. exists (drop (length (h ++ key)) p). rewrite app_assoc. rewrite <- (take_drop (length (h ++ key)) p) at 1. f_equal.
    apply (f_equal (take (length (h ++ key)))) in Hp. rewrite take_app_length, take_app_le in Hp by (rewrite length_app; unfold size in *; lia). done. }
  rewrite !size_app, masked_size, Hk in Hs. unfold h. rewrite (server_cut FRAME_BINARY FIN_FINAL key (size m) y) by (done || lia). by rewrite (proj2 (Z.ltb_lt _ _)) by lia.
Qed.

(* ------------------------------------------------------------------ *)
(** ** The client reads a server's frame *)

Definition known_type (t : Z) : bool := (t =? FRAME_TEXT) || (t =? FRAME_BINARY) || (t =? FRAME_CLOSING) || (t =? FRAME_PING) || (t =? FRAME_PONG) || (t =? FRAME_CONTINUATION).
Lemma client_cut t f n m : known_type t = true -> 0 <= t < 16 -> 0 <= f < 2 -> 0 < n <= 0x7FFFFFFE -> let h := hdr_bytes t f (size_field n) 0 ++ size_bytes n in
  esif_ws_get_frame_type (h ++ m) = if size m <? n then Some (INCOMPLETE_FRAME, None, 0) else Some (t, Some (size h, n), size m - n).
Proof.
  intros Hkn Ht Hf Hn h. destruct (hdr_reads t f (size_field n) 0 Ht Hf (size_field_range n ltac:(lia)) ltac:(lia)) as (b0 & b1 & Eh & T0 & R0 & F0 & N1 & M1).
  pose proof (size_nonneg m). assert (Hh : size h = 2 + size (size_bytes n)) by (unfold h; by rewrite Eh, size_app). unfold h in *. rewrite Eh in *. clear Eh. cbn [app] in *.
  set (buf := b0 :: b1 :: _). assert (Hb : size buf = 2 + size (size_bytes n) + size m) by (unfold buf; rewrite !(app_comm_cons), !size_app, Hh; lia). pose proof (size_nonneg (size_bytes n)).
  assert (Ehs : esif_ws_get_header_size buf = 2 + size (size_bytes n)).
  { unfold esif_ws_get_header_size, buf at 1, esif_ws_mask_enabled. rewrite M1, N1. change (negb (0 =? 0)) with false. cbn iota. rewrite Hb. unfold WS_FRAME_SIZE_TYPE_2, WS_FRAME_SIZE_TYPE_3.
    destruct (size_bytes_cases n ltac:(lia)) as [(? & -> & ->)|[(? & -> & -> & _)|(? & -> & -> & _)]]; [rewrite !(proj2 (Z.eqb_neq n _)) by lia; change (size []) with 0 in *|..]; cbn; by rewrite (proj2 (Z.ltb_ge _ _)) by lia. }
  assert (Eps : esif_ws_get_payload_size buf t = Some (n, t)).
  { unfold esif_ws_get_payload_size. rewrite Ehs, (proj2 (Z.eqb_neq _ _)) by lia. change (buf !! 1%nat) with (Some b1). cbn [mbind option_bind]. rewrite N1. change (drop 2 buf) with (size_bytes n ++ m). unfold WS_FRAME_SIZE_TYPE_2, WS_FRAME_SIZE_TYPE_3, WS_FRAME_MAXIMUM_SIZE.
    destruct (size_bytes_cases n ltac:(lia)) as [(? & -> & ->)|[(? & -> & _ & ->)|(? & -> & _ & ->)]]; [by rewrite !(proj2 (Z.eqb_neq n _)) by lia|done|]. cbn. by rewrite (proj2 (Z.ltb_ge _ _)) by lia. }
  unfold esif_ws_get_frame_type. rewrite Ehs, (proj2 (Z.eqb_neq _ _)) by lia. change (buf !! 0%nat) with (Some b0). cbn [mbind option_bind]. rewrite R0, T0. change (negb (0 =? 0)) with false. cbn iota. fold (known_type t). rewrite Hkn, Eps. cbn [mbind option_bind]. rewrite (proj2 (Z.leb_gt _ _)), Hb, Hh by lia.
  replace (2 + size (size_bytes n) + size m - (2 + size (size_bytes n))) with (size m) by lia. destruct (Z.ltb_spec (size m) n); [done|]. unfold WSFRAME_HEADER_TYPE1_MAX, WSFRAME_HEADER_TYPE2_MAX.
  assert (Er : (if n <? size m then size m - n else 0) = size m - n) by (destruct (Z.ltb_spec n (size m)); lia). rewrite Er. do 4 f_equal.
  destruct (size_bytes_cases n ltac:(lia)) as [(? & _ & ->)|[(? & _ & -> & _)|(? & _ & -> & _)]]; [by rewrite (proj2 (Z.leb_le _ _)) by lia|rewrite (proj2 (Z.leb_gt n 125)), (proj2 (Z.leb_le _ _)) by lia; done|rewrite !(proj2 (Z.leb_gt n _)) by lia; done].
Qed.
Lemma client_short t f n p q : known_type t = true -> 0 <= t < 16 -> 0 <= f < 2 -> 0 < n <= 0x7FFFFFFE -> let h := hdr_bytes t f (size_field n) 0 ++ size_bytes n in
  p `prefix_of` h ++ q -> size p < size h -> esif_ws_get_frame_type p = Some (INCOMPLETE_FRAME, None, 0).
Proof.
  intros Hkn Ht Hf Hn h [r Hp] Hs. destruct (hdr_reads t f (size_field n) 0 Ht Hf (size_field_range n ltac:(lia)) ltac:(lia)) as (b0 & b1 & Eh & _ & _ & _ & N1 & M1).
  unfold h in *. rewrite Eh in *. cbn [app] in *. destruct p as [|x0 [|x1 p']]; [done|done|]. cbn [app] in Hp. injection Hp as <- <- Hp. set (buf := b0 :: b1 :: p') in *.
  assert (Hb : size (b0 :: b1 :: size_bytes n) = 2 + size (size_bytes n)) by (unfold size; cbn [length]; lia). rewrite Hb in Hs.
  unfold esif_ws_get_frame_type. assert (E : esif_ws_get_header_size buf = 0); [|by rewrite E].
  unfold esif_ws_get_header_size, buf at 1, esif_ws_mask_enabled. rewrite M1, N1. change (negb (0 =? 0)) with false. cbn iota. unfold WS_FRAME_SIZE_TYPE_2, WS_FRAME_SIZE_TYPE_3.
  destruct (size_bytes_cases n ltac:(lia)) as [(? & E & E0)|[(? & -> & E0 & _)|(? & -> & E0 & _)]]; [rewrite E0 in Hs; unfold buf, size in Hs; cbn in Hs; lia|..]; rewrite E0 in Hs; cbn; by rewrite (proj2 (Z.ltb_lt _ _)) by lia.
Qed.

(** A frame of the server, and what the client makes of a part of it. *)
Definition server_frame_of (m : list Z) : list Z := (hdr_bytes FRAME_BINARY FIN_FINAL (size_field (size m)) 0 ++ size_bytes (size m)) ++ m.
Lemma server_frame_ok out_buf_len m : sendable_message m -> size (server_frame_of m) <= out_buf_len -> WebSocket_BuildFrame out_buf_len m FRAME_BINARY FIN_FINAL = (ESIF_OK, server_frame_of m).
Proof.
  intros Hm Hl. pose proof (size_nonneg m). unfold sendable_message in Hm. unfold WebSocket_BuildFrame. rewrite header_ok by lia. unfold server_frame_of in Hl. rewrite size_app in Hl. by rewrite (proj2 (Z.ltb_ge _ _)) by lia.
Qed.
Lemma client_gets_frame m rest : sendable_message m -> 0 < size m -> let h := size (server_frame_of m) - size m in
  esif_ws_get_frame_type (server_frame_of m ++ rest) = Some (FRAME_BINARY, Some (h, size m), size rest).
Proof.
  intros Hm H0 h. unfold sendable_message in Hm. pose proof (size_nonneg rest). unfold server_frame_of at 1. rewrite <- app_assoc. rewrite (client_cut FRAME_BINARY FIN_FINAL (size m) (m ++ rest)); [|done|done|done|lia].
  rewrite size_app, (proj2 (Z.ltb_ge _ _)) by lia. unfold h, server_frame_of. rewrite !size_app. replace (size m + size rest - size m) with (size rest) by lia. match goal with |- Some (_, Some (?x, _), _) = Some (_, Some (?y, _), _) => by replace y with x by lia end.
Qed.
Lemma client_waits m p : sendable_message m -> 0 < size m -> p `prefix_of` server_frame_of m -> size p < size (server_frame_of m) -> esif_ws_get_frame_type p = Some (INCOMPLETE_FRAME, None, 0).
Proof.
  intros Hm H0 Hp Hs. unfold sendable_message in Hm. set (h := hdr_bytes FRAME_BINARY FIN_FINAL (size_field (size m)) 0 ++ size_bytes (size m)). unfold server_frame_of in *. fold h in Hp, Hs.
  destruct (Z.lt_ge_cases (size p) (size h)) as [Hlt|Hge]; [by apply (client_short FRAME_BINARY FIN_FINAL (size m) p m)|].
  assert (exists y, p = h ++ y) as [y ->].
  { destruct Hp as [r Hp]. exists (drop (length h) p). rewrite <- (take_drop (length h) p) at 1. f_equal. apply (f_equal (take (length h))) in Hp. rewrite take_app_length, take_app_le in Hp by (unfold size in *; lia). done. }
  rewrite !size_app in Hs. unfold h. rewrite (client_cut FRAME_BINARY FIN_FINAL (size m) y) by (done || lia). by rewrite (proj2 (Z.ltb_lt _ _)) by lia.
Qed.

(* ------------------------------------------------------------------ *)
(** ** Frames that the other side does not send *)

(** The sum of the sizes of header and payload is a machine integer.  A size that makes it
    turn over is taken for one that has arrived, and unmasking the payload runs over the
    end of the buffer: there is no outcome. *)
Lemma huge_frame_overruns (key m : list Z) : size key = 4 -> size m < 2 ^ 63 -> Websocket_GetFrame (hdr_bytes FRAME_BINARY FIN_FINAL WSFRAME_HEADER_TYPE3 1 ++ net_bytes 8 (2 ^ 64 - 1) ++ key ++ m) = None.
Proof.
  intros Hk Hm. set (buf := _ ++ _). destruct (hdr_reads FRAME_BINARY FIN_FINAL WSFRAME_HEADER_TYPE3 1) as (b0 & b1 & Eh & T0 & _ & F0 & N1 & M1); [done..|].
  assert (Hb : size buf = 14 + size m) by (unfold buf; rewrite Eh, !size_app, Hk; assert (size (net_bytes 8 (2 ^ 64 - 1)) = 8) as -> by (unfold size; by rewrite net_bytes_length); change (size [b0; b1]) with 2; lia). pose proof (size_nonneg m).
  unfold Websocket_GetFrame. rewrite Hb, (proj2 (Z.ltb_ge _ _)) by lia. unfold buf. rewrite Eh. cbn [app lookup list_lookup mbind option_bind]. rewrite M1, N1. change (1 =? 0) with false. change (WSFRAME_HEADER_TYPE3 <=? WSFRAME_HEADER_TYPE1) with false. change (WSFRAME_HEADER_TYPE3 =? WSFRAME_HEADER_TYPE2) with false. cbn iota.
  rewrite (proj2 (Z.leb_le _ _)) by lia. rewrite !skipn_cons, skipn_O. rewrite net_roundtrip by (cbn; lia). cbn [mbind option_bind]. change (u64 (14 + (2 ^ 64 - 1))) with 13. rewrite (proj2 (Z.ltb_ge _ _)) by lia.
  destruct (read_at (14 - 4) 4 _) as [k|]; [|done]. cbn [mbind option_bind]. change (b0 :: b1 :: net_bytes 8 (2 ^ 64 - 1) ++ key ++ m) with ([b0; b1] ++ net_bytes 8 (2 ^ 64 - 1) ++ key ++ m). rewrite <- Eh. fold buf.
  unfold read_at. destruct (Z.leb_spec (14 + (2 ^ 64 - 1)) (size buf)); [lia|by rewrite andb_false_r].
Qed.
