(* ===== verification/WsConn.v ===== *)
(** * A connection of the web server: ipfsrv/ipfsrv_ws_server.c

    What the server has of a client ([WebClient]), writing to its socket
    ([WebClient_Write]) with a buffer for what the socket does not take at once, and
    closing it.  The socket is modelled by what it has taken and by what it answers to
    each [send]; what the rest of the server does with a client is an interface
    ([WebApp]).  The thread of a client's requests is left out (IrpcServer.v has what it
    does). *)

From stdpp Require Import list.
From S2P Require Import Prelude IBinary WsFrame.
Local Open Scope Z_scope.
Local Open Scope dptf_scope.

Definition WS_NETWORK_BUFFER_LEN : Z := 1 * 1024 * 1024.
Definition WS_MAX_CLIENT_SENDBUF : Z := 8 * 1024 * 1024.
Definition WS_MAX_CLIENT_RECVBUF : Z := 8 * 1024 * 1024.

(* ------------------------------------------------------------------ *)
(** ** The client object and its socket *)

Inductive ClientType : Type := ClientClosed | ClientHttp | ClientWebsocket.
(** A buffer that is NULL is empty; only that of the fragments can be a block of size
    zero. *)
Record WebClient : Type := mk_client {
  c_type : ClientType; c_socket : bool; c_authHandle : Z;
  c_sendBuf : list Z; c_recvBuf : list Z;
  c_httpRequest : option (list (list Z)); c_msgType : Z; c_fragBuf : option (list Z);
  c_ipfHandle : Z
}.
Definition with_type (t : ClientType) (c : WebClient) : WebClient := mk_client t (c_socket c) (c_authHandle c) (c_sendBuf c) (c_recvBuf c) (c_httpRequest c) (c_msgType c) (c_fragBuf c) (c_ipfHandle c).
Definition with_sendBuf (b : list Z) (c : WebClient) : WebClient := mk_client (c_type c) (c_socket c) (c_authHandle c) b (c_recvBuf c) (c_httpRequest c) (c_msgType c) (c_fragBuf c) (c_ipfHandle c).
Definition with_recvBuf (b : list Z) (c : WebClient) : WebClient := mk_client (c_type c) (c_socket c) (c_authHandle c) (c_sendBuf c) b (c_httpRequest c) (c_msgType c) (c_fragBuf c) (c_ipfHandle c).
Definition with_httpRequest (r : option (list (list Z))) (c : WebClient) : WebClient := mk_client (c_type c) (c_socket c) (c_authHandle c) (c_sendBuf c) (c_recvBuf c) r (c_msgType c) (c_fragBuf c) (c_ipfHandle c).
Definition with_msgType (t : Z) (c : WebClient) : WebClient := mk_client (c_type c) (c_socket c) (c_authHandle c) (c_sendBuf c) (c_recvBuf c) (c_httpRequest c) t (c_fragBuf c) (c_ipfHandle c).
Definition with_fragBuf (b : option (list Z)) (c : WebClient) : WebClient := mk_client (c_type c) (c_socket c) (c_authHandle c) (c_sendBuf c) (c_recvBuf c) (c_httpRequest c) (c_msgType c) b (c_ipfHandle c).
Definition with_ipfHandle (h : Z) (c : WebClient) : WebClient := mk_client (c_type c) (c_socket c) (c_authHandle c) (c_sendBuf c) (c_recvBuf c) (c_httpRequest c) (c_msgType c) (c_fragBuf c) h.
Definition WebClient_Init : WebClient := mk_client ClientClosed false ESIF_INVALID_HANDLE [] [] None FRAME_NULL None ESIF_INVALID_HANDLE.

(** What [send] does: it takes some bytes, would block, or fails. *)
Inductive sent : Type := Sent (n : Z) | WouldBlock | Failed.
(** The client, what its socket has taken so far and will answer from now on (when the
    list is used up it takes everything), and the rest of the server. *)
Record Conn (W : Type) : Type := mk_conn { k_client : WebClient; k_sent : list Z; k_sends : list sent; k_world : W }.
Arguments mk_conn {W}.
Arguments k_client {W}.
Arguments k_sent {W}.
Arguments k_sends {W}.
Arguments k_world {W}.

(** What the server does with a message of a client ([WebServer_IrpcProcess], whose two
    cases are [receive_request] of IrpcServer.v and [receive_answer] of AppServer.v), when
    a client goes ([IpfClient_Stop] of AppServer.v), to make a handle for it
    ([AppSessionMgr_GenerateHandle]) and to start its thread. *)
Class WebApp (W : Type) : Type := {
  WebServer_IrpcProcess : Z -> IBinary -> SM W Z;
  client_stop : Z -> SM W unit;
  AppSessionMgr_GenerateHandle : SM W Z;
  worker_start : SM W Z
}.

Section Connection.
Context {W : Type} `{WebApp W} (mem : Z -> bool).

Definition mod_client (f : WebClient -> WebClient) : SM (Conn W) unit := smodify (fun k => mk_conn (f (k_client k)) (k_sent k) (k_sends k) (k_world k)).
Definition in_server {T} (m : SM W T) : SM (Conn W) T := fun k =>
  match m (k_world k) with Some (r, w) => Some (r, mk_conn (k_client k) (k_sent k) (k_sends k) w) | None => None end.
Definition do_send (data : list Z) : SM (Conn W) sent := fun k =>
  match k_sends k with
  | [] => Some (Sent (size data), mk_conn (k_client k) (k_sent k ++ data) [] (k_world k))
  | Sent n :: l => let n := Z.max 0 (Z.min n (size data)) in Some (Sent n, mk_conn (k_client k) (k_sent k ++ take (Z.to_nat n) data) l (k_world k))
  | e :: l => Some (e, mk_conn (k_client k) (k_sent k) l (k_world k))
  end.

(** [WebClient_Close]. *)
Definition WebClient_Close : SM (Conn W) unit :=
  let! k := sget in
  let ipfHandle := c_ipfHandle (k_client k) in
  mod_client (fun _ => WebClient_Init) ;!
  in_server (client_stop ipfHandle).

(** Sending what is in the buffer. *)
Definition send_pending : SM (Conn W) sent :=
  let! k := sget in
  match c_sendBuf (k_client k) with
  | [] => sret (Sent 0)
  | b =>
      let! r := do_send b in
      match r with
      | Sent n => mod_client (with_sendBuf (if n =? size b then [] else if 0 <? n then drop (Z.to_nat n) b else b)) ;! sret (Sent 0)
      | e => sret e
      end
  end.
(** Sending new data if the buffer is clear; [ret] is the outcome so far. *)
Definition send_new (buffer : option (list Z)) (ret : sent) : SM (Conn W) sent :=
  let! k := sget in
  match c_sendBuf (k_client k), buffer with
  | [], Some (x :: b) => do_send (x :: b)
  | _, _ => sret ret
  end.
(** What a [send] took; one that would block took nothing. *)
Definition taken (ret : sent) : Z := match ret with Sent n => n | _ => 0 end.
(** Whether the rest of new data can be kept. *)
Definition write_rc (buffer : option (list Z)) (ret : sent) (sendBufLen : Z) : Z :=
  match ret, buffer with
  | Failed, _ => ESIF_E_WS_SOCKET_ERROR
  | _, None => ESIF_OK
  | _, Some b =>
      let newBufLen := sendBufLen + size b - taken ret in
      if (taken ret =? size b) || (newBufLen <=? WS_MAX_CLIENT_SENDBUF) && mem newBufLen then ESIF_OK else ESIF_E_NO_MEMORY
  end.
(** [buffer] is [None] for NULL, to send what is in the buffer. *)
Definition WebClient_Write (buffer : option (list Z)) : SM (Conn W) Z :=
  let! k := sget in
  if c_socket (k_client k) then
    let! ret := send_pending in
    let! ret := send_new buffer ret in
    let! k := sget in
    let rc := write_rc buffer ret (size (c_sendBuf (k_client k))) in
    (if rc =? ESIF_OK
     then mod_client (with_sendBuf (c_sendBuf (k_client k) ++ drop (Z.to_nat (taken ret)) (default [] buffer)))
     else WebClient_Close) ;!
    sret rc
  else sret ESIF_E_PARAMETER_IS_NULL.

(** A message for the client ([WebServer_WebsocketDeliver]). *)
Definition WebServer_WebsocketDeliver (buffer : list Z) : SM (Conn W) Z :=
  match buffer with
  | [] => sret ESIF_E_PARAMETER_IS_NULL
  | _ =>
      let '(rc, frame) := WebSocket_BuildFrame WS_NETWORK_BUFFER_LEN buffer FRAME_BINARY FIN_FINAL in
      if rc =? ESIF_OK then WebClient_Write (Some frame) else sret rc
  end.

(* ------------------------------------------------------------------ *)
(** ** What is written is what is sent *)

(** The bytes for the socket: taken, and buffered. *)
Definition outgoing (k : Conn W) : list Z := k_sent k ++ c_sendBuf (k_client k).
Definition open (k : Conn W) : Prop := c_socket (k_client k) = true.
Definition bounded (k : Conn W) : Prop := size (c_sendBuf (k_client k)) <= WS_MAX_CLIENT_SENDBUF.

Lemma do_send_ok data (k : Conn W) : exists r k', do_send data k = Some (r, k') /\ k_client k' = k_client k /\ k_world k' = k_world k /\
  match r with Sent n => 0 <= n <= size data /\ k_sent k' = k_sent k ++ take (Z.to_nat n) data | _ => k_sent k' = k_sent k end.
Proof.
  pose proof (size_nonneg data). unfold do_send. destruct (k_sends k) as [|[n| |] l]; eexists _, _; (split; [reflexivity|]); cbn [k_client k_sent k_world]; split_and!; try done; try lia.
  by rewrite to_nat_size, firstn_all.
Qed.
(** Sending does not change what is to go out, nor the client but for its buffer. *)
Lemma send_pending_ok (k : Conn W) : bounded k -> exists r k', send_pending k = Some (r, k') /\ outgoing k' = outgoing k /\ bounded k' /\ c_socket (k_client k') = c_socket (k_client k) /\ k_world k' = k_world k /\
  with_sendBuf [] (k_client k') = with_sendBuf [] (k_client k) /\
  (r = Sent 0 \/ c_sendBuf (k_client k') <> [] /\ (r = WouldBlock \/ r = Failed)).
Proof.
  intros Hb. unfold send_pending, sbind at 1, sget. destruct (c_sendBuf (k_client k)) as [|x b] eqn:E; [exists (Sent 0), k; split_and!; auto|].
  destruct (do_send_ok (x :: b) k) as (r & k1 & E1 & Hc & Hw & Hr). unfold sbind at 1. rewrite E1. unfold outgoing. rewrite E. destruct r as [n| |].
  - destruct Hr as [Hn Hs]. unfold sbind, mod_client, smodify, sret. eexists _, _. split; [reflexivity|]. cbn [k_sent k_client k_world]. rewrite Hs, Hc. unfold bounded in *. rewrite E in Hb. cbn [c_sendBuf with_sendBuf k_client c_socket].
    split_and!; [|..|done|done|done|by left].
    + destruct (Z.eqb_spec n (size (x :: b))) as [->|]; [by rewrite to_nat_size, firstn_all, app_nil_r|]. destruct (Z.ltb_spec 0 n); [by rewrite <- app_assoc, take_drop|]. assert (n = 0) as -> by lia. cbn [Z.to_nat take]. by rewrite app_nil_r.
    + destruct (_ =? _); [by vm_compute|]. destruct (Z.ltb_spec 0 n); [|done]. rewrite size_drop by lia. lia.
  - exists WouldBlock, k1. unfold bounded in *. rewrite Hr, Hc, Hw, E. rewrite E in Hb. split_and!; auto.
  - exists Failed, k1. unfold bounded in *. rewrite Hr, Hc, Hw, E. rewrite E in Hb. split_and!; auto.
Qed.

Lemma send_new_ok b (k : Conn W) ret : exists r k', send_new b ret k = Some (r, k') /\ k_client k' = k_client k /\ k_world k' = k_world k /\
  ((r = ret /\ k' = k /\ (c_sendBuf (k_client k) <> [] \/ default [] b = [])) \/
   (c_sendBuf (k_client k) = [] /\ match r with Sent n => 0 <= n <= size (default [] b) /\ k_sent k' = k_sent k ++ take (Z.to_nat n) (default [] b) | _ => k_sent k' = k_sent k end)).
Proof.
  unfold send_new, sbind at 1, sget. destruct (c_sendBuf (k_client k)) as [|x q]; [|exists ret, k; split_and!; auto].
  destruct b as [[|y b]|]; [exists ret, k; split_and!; auto| |exists ret, k; split_and!; auto]. destruct (do_send_ok (y :: b) k) as (r & k' & E & Hc & Hw & Hr). exists r, k'. split_and!; auto.
Qed.

Lemma both_sends b (k : Conn W) : bounded k -> exists r k1 k2, send_pending k = Some (r, k1) /\ exists ret, send_new b r k1 = Some (ret, k2) /\
  bounded k2 /\ c_socket (k_client k2) = c_socket (k_client k) /\ k_world k2 = k_world k /\ with_sendBuf [] (k_client k2) = with_sendBuf [] (k_client k) /\
  k_sent k2 `prefix_of` outgoing k ++ default [] b /\
  (ret <> Failed -> 0 <= taken ret <= size (default [] b) /\ outgoing k2 ++ drop (Z.to_nat (taken ret)) (default [] b) = outgoing k ++ default [] b /\ (b = None -> taken ret = 0)).
Proof.
  intros Hb. destruct (send_pending_ok k Hb) as (r1 & k1 & E1 & Hout & Hb1 & Ho1 & Hw1 & Hc1 & Hr1). destruct (send_new_ok b k1 r1) as (r2 & k2 & E2 & Hc2 & Hw2 & Hr2).
  pose proof (size_nonneg (default [] b)). exists r1, k1, k2. split; [done|]. exists r2. unfold bounded in *. rewrite Hc2, Hw2. split_and!; try done.
  - unfold outgoing in *. rewrite <- Hout. destruct Hr2 as [(-> & -> & _)|(E0 & Hr2)]; [rewrite <- app_assoc; by apply prefix_app_r|]. rewrite E0, app_nil_r. destruct r2; [destruct Hr2 as [_ ->]; apply prefix_app, prefix_take|rewrite Hr2; by apply prefix_app_r..].
  - intros Hf. unfold outgoing in *. rewrite Hc2, <- Hout. destruct Hr2 as [(-> & -> & _)|(E0 & Hr2)].
    + assert (taken r1 = 0) as -> by (destruct Hr1 as [->|(_ & [->| ->])]; done). split_and!; [lia..|done|done].
    + rewrite E0, !app_nil_r. destruct r2 as [n| |]; [|rewrite Hr2; split_and!; cbn; [lia..|done|done]|done]. destruct Hr2 as [Hn ->]. cbn [taken]. split_and!; [lia..|by rewrite <- app_assoc, take_drop|]. intros ->. change (size (default [] None)) with 0 in Hn. lia.
Qed.

Context (Hstop : forall h w, exists w', client_stop h w = Some (tt, w')).

(** One write: all of the data are on their way, or the client is closed and what was
    sent is the beginning of them. *)
Lemma write_ok b (k : Conn W) : open k -> bounded k -> exists rc k', WebClient_Write b k = Some (rc, k') /\
  ((rc = ESIF_OK /\ outgoing k' = outgoing k ++ default [] b /\ open k' /\ bounded k' /\ k_world k' = k_world k /\ with_sendBuf [] (k_client k') = with_sendBuf [] (k_client k)) \/
   (rc <> ESIF_OK /\ k_client k' = WebClient_Init /\ k_sent k' `prefix_of` outgoing k ++ default [] b /\ client_stop (c_ipfHandle (k_client k)) (k_world k) = Some (tt, k_world k'))).
Proof.
  intros Ho Hb. unfold WebClient_Write, sbind at 1, sget at 1. rewrite Ho.
  destruct (both_sends b k Hb) as (r & k1 & k2 & E1 & ret & E2 & Hb2 & Ho2 & Hw & Hc & Hpre & Hok). rewrite (sbind_some _ _ _ _ _ E1), (sbind_some _ _ _ _ _ E2). unfold sbind at 1, sget at 1. cbv zeta.
  set (rc := write_rc b ret _). exists rc. destruct (Z.eqb_spec rc ESIF_OK) as [Erc|Erc].
  - eexists. split; [reflexivity|]. left. split; [done|]. assert (Hf : ret <> Failed) by (intros ->; done). destruct (Hok Hf) as (Hn & Hout & _). unfold outgoing, open, bounded. cbn [k_sent k_client k_world c_sendBuf c_socket with_sendBuf].
    split_and!; [by rewrite app_assoc|by rewrite Ho2| |done|done]. unfold rc, write_rc in Erc. destruct b as [b|]; [|change (default [] None) with (@nil Z); by rewrite drop_nil, app_nil_r].
    change (default [] (Some b)) with b in *. rewrite size_app, size_drop by done. unfold bounded in Hb2. destruct (Z.eqb_spec (taken ret) (size b)) as [En|_]; [lia|]. cbn [orb] in Erc.
    destruct (Z.leb_spec (size (c_sendBuf (k_client k2)) + size b - taken ret) WS_MAX_CLIENT_SENDBUF); [lia|]. by destruct ret.
  - unfold WebClient_Close, sbind at 1 2 3, sget, mod_client, smodify. cbn [k_client k_world]. unfold sbind, in_server. cbn [k_client k_sent k_sends k_world].
    assert (Eh : c_ipfHandle (k_client k2) = c_ipfHandle (k_client k)) by (by injection Hc). destruct (Hstop (c_ipfHandle (k_client k2)) (k_world k2)) as [w' Ew]. rewrite Ew. eexists. split; [reflexivity|]. right. split_and!; [done|done|done|]. by rewrite <- Eh, <- Hw.
Qed.

(* ------------------------------------------------------------------ *)
(** ** Any number of writes *)

(** New data, or [None] when the socket can take more; the result codes. *)
Fixpoint write_all (ops : list (option (list Z))) : SM (Conn W) (list Z) :=
  match ops with
  | [] => sret []
  | b :: ops => let! rc := WebClient_Write b in let! rcs := write_all ops in sret (rc :: rcs)
  end.
Definition written (ops : list (option (list Z))) : list Z := concat (map (default []) ops).
Lemma write_closed ops (k : Conn W) : c_socket (k_client k) = false -> write_all ops k = Some (replicate (length ops) ESIF_E_PARAMETER_IS_NULL, k).
Proof. intros Hc. induction ops as [|b ops IH]; [done|]. cbn [write_all length replicate]. unfold WebClient_Write at 1, sbind at 1 2, sget at 1. rewrite Hc. unfold sret at 1. by rewrite (sbind_some _ _ _ _ _ IH). Qed.

(** Over any writes to a client and any behaviour of its socket - which may take a part of what it
    is given, or nothing - every write that succeeds is sent in full and in order: while the client is
    open, what the socket has taken and what is buffered are together exactly what was written.  The
    first write that fails closes the client - its server is told - and what was sent by then is the
    beginning of what was written; every later write is refused and changes nothing. *)
Theorem writes_keep_stream ops (k : Conn W) : open k -> bounded k -> exists rcs k', write_all ops k = Some (rcs, k') /\
  ((rcs = replicate (length ops) ESIF_OK /\ open k' /\ bounded k' /\ outgoing k' = outgoing k ++ written ops /\ k_world k' = k_world k) \/
   exists ops1 b ops2 rc, ops = ops1 ++ b :: ops2 /\ rc <> ESIF_OK /\ rcs = replicate (length ops1) ESIF_OK ++ rc :: replicate (length ops2) ESIF_E_PARAMETER_IS_NULL /\
     k_client k' = WebClient_Init /\ k_sent k' `prefix_of` outgoing k ++ written (ops1 ++ [b]) /\ client_stop (c_ipfHandle (k_client k)) (k_world k) = Some (tt, k_world k')).
Proof.
  revert k. induction ops as [|b ops IH]; intros k Ho Hb; [exists [], k; split; [done|left]; unfold written; cbn; by rewrite app_nil_r|].
  destruct (write_ok b k Ho Hb) as (rc & k1 & E1 & [(-> & Hout & Ho1 & Hb1 & Hw1 & Hc1)|(Hrc & Hinit & Hpre & Hst)]); cbn [write_all]; rewrite (sbind_some _ _ _ _ _ E1).
  - destruct (IH k1 Ho1 Hb1) as (rcs & k2 & E2 & Hcase). rewrite (sbind_some _ _ _ _ _ E2). exists (ESIF_OK :: rcs), k2. split; [done|]. rewrite Hout, Hw1 in Hcase.
    destruct Hcase as [(-> & Hk)|(ops1 & b' & ops2 & rc & -> & Hrc & -> & Hi & Hpre & Hst)].
    + left. rewrite <- app_assoc in Hk. by destruct Hk as (? & ? & ? & ?).
    + right. exists (b :: ops1), b', ops2, rc. rewrite <- app_assoc in Hpre. split_and!; try done. assert (c_ipfHandle (k_client k1) = c_ipfHandle (k_client k)) as <- by (by injection Hc1). done.
  - rewrite (sbind_some _ _ _ _ _ (write_closed ops k1 ltac:(by rewrite Hinit))). eexists _, k1. split; [reflexivity|]. right. exists [], b, ops, rc. unfold written. cbn. rewrite app_nil_r. done.
Qed.
End Connection.

(* ------------------------------------------------------------------ *)
(** ** An example *)

(** The rest of a server that lists the clients that have gone. *)
#[export] Instance gone_app : WebApp (list Z) := {
  WebServer_IrpcProcess := fun _ _ => sret ESIF_OK;
  client_stop := fun h => smodify (fun w => w ++ [h]);
  AppSessionMgr_GenerateHandle := sret 7;
  worker_start := sret ESIF_OK
}.
Lemma gone_stops (h : Z) (w : list Z) : exists w', client_stop h w = Some (tt, w').
Proof. by exists (w ++ [h]). Qed.
Definition demo_client : WebClient := with_ipfHandle 5 (mk_client ClientWebsocket true 0 [] [] None FRAME_NULL None 0).
Definition demo_ops : list (option (list Z)) := [Some [1; 2; 3; 4]; Some [5; 6]; None; Some [7]].
Example demo_slow : write_all (fun _ => true) demo_ops (mk_conn demo_client [] [Sent 3; WouldBlock; Sent 1] []) = Some ([ESIF_OK; ESIF_OK; ESIF_OK; ESIF_OK], mk_conn demo_client [1; 2; 3; 4; 5; 6; 7] [] []).
Proof. reflexivity. Qed.
Example demo_broken : write_all (fun _ => true) demo_ops (mk_conn demo_client [] [Sent 3; Failed] []) = Some ([ESIF_OK; ESIF_E_WS_SOCKET_ERROR; ESIF_E_PARAMETER_IS_NULL; ESIF_E_PARAMETER_IS_NULL], mk_conn WebClient_Init [1; 2; 3] [] [5]).
Proof. reflexivity. Qed.
Lemma writes_keep_stream_witness : exists rcs k', write_all (fun _ => true) demo_ops (mk_conn demo_client [] [Sent 3; WouldBlock; Sent 1] []) = Some (rcs, k') /\ rcs = replicate 4 ESIF_OK /\ outgoing k' = [1; 2; 3; 4; 5; 6; 7].
Proof.
  destruct (writes_keep_stream (fun _ => true) gone_stops demo_ops (mk_conn demo_client [] [Sent 3; WouldBlock; Sent 1] []) eq_refl ltac:(by vm_compute)) as (rcs & k' & E & Hcase).
  exists rcs, k'. split; [exact E|]. destruct Hcase as [(-> & _ & _ & -> & _)|(ops1 & b & ops2 & rc & _ & Hrc & -> & _)]; [by split|]. rewrite demo_slow in E. injection E as E _. exfalso.
  assert (Hin : rc ∈ [ESIF_OK; ESIF_OK; ESIF_OK; ESIF_OK]) by (rewrite E; apply elem_of_app; right; left). rewrite !elem_of_cons, elem_of_nil in Hin. naive_solver.
Defined.
