(* ===== verification/IrpcCodec.v ===== *)
(** * Messages of remote calls: IPF Common/ipf_ipc_codec.c and ipf_ipc_codec.h

    A message is a packed structure followed by its variable-length data: typed
    buffers, arrays of them and nested structures, to which offsets in the structure
    point.  An offset counts from the end of its own field.  The encoders append to an
    [IBinary]; the decoders read from memory at given positions.

    Each encoder of the code lists the fields of its structure, appends the structure
    with empty offsets, serialises the data of each field in the order of the structure
    and writes the completed structure over the first one.  [encode_struct] is that
    code, and each encoder its instance at a list of fields.  Integers are
    little-endian (the default of the header). *)

From stdpp Require Import list.
From S2P Require Import Prelude EsifData IBinary.
Local Open Scope Z_scope.
Local Open Scope dptf_scope.

(** The fields of [EsifData], which [IBinary] also has. *)
Abbreviation d_type := EsifData.type.
Abbreviation d_buf := EsifData.buf_ptr.
Abbreviation d_buf_len := EsifData.buf_len.
Abbreviation d_data_len := EsifData.data_len.

Definition IRPC_REVISION : Z := 0.
Definition IRPC_NULLVALUE : Z := 2 ^ 32 - 1.
Definition IRPC_MAXARRAY : Z := 1024.

(* ------------------------------------------------------------------ *)
(** ** Encoding *)

(** The buffer, and the outcomes of the allocations to come (of those not listed,
    success). *)
Record encoder : Type := mk_encoder { blob : IBinary; mem : list bool }.

(** [IBinary_Append(blob, buffer, bytes)]. *)
Definition append (buffer : option (list Z)) (bytes : Z) : SM encoder bool := fun s =>
  match IBinary_Append (hd true (mem s)) buffer bytes (blob s) with
  | Some (ok, b) => Some (ok, mk_encoder b (tl (mem s)))
  | None => None
  end.
Definition append_struct (bytes : list Z) : SM encoder bool := append (Some bytes) (size bytes).

(** [Encoded_EsifData]: [Irpc_Cast_EsifData]. *)
Definition sizeof_EsifData : Z := 16.
Definition Irpc_Cast_EsifData (d : EsifData) (offset : Z) : list Z :=
  le_bytes 4 (d_type d) ++ le_bytes 4 (d_buf_len d) ++ le_bytes 4 (d_data_len d) ++ le_bytes 4 offset.

(** The bytes counted, and the new offset. *)
Definition Irpc_Serialize_EsifData (d : EsifData) (offset varbinary : Z) : SM encoder (Z * Z) :=
  let offset := u32 (offset + u32 varbinary) in
  if bool_decide (d_buf d = None) || (d_data_len d =? 0) then sret (d_data_len d, offset)
  else if d_data_len d <=? d_buf_len d then
    let! ok := append (d_buf d) (d_data_len d) in sret (if (ok : bool) then d_data_len d else 0, offset)
  else sret (0, offset).

(** The bytes counted, and the offset, which stays if there are no data. *)
Definition Irpc_Serialize_EsifDataPtr (data : option EsifData) (offsetof varbinary : Z) : SM encoder (Z * Z) :=
  match data with
  | None => sret (0, IRPC_NULLVALUE)
  | Some d =>
      append_struct (Irpc_Cast_EsifData d 0) ;!
      let! r := Irpc_Serialize_EsifData d 0 0 in
      sret (sizeof_EsifData + r.1, u32 (offsetof + varbinary))
  end.

Fixpoint serialize_items (n : nat) (data : list EsifData) : SM encoder Z :=
  match n with
  | O => sret 0
  | S n =>
      match data with
      | [] => ub
      | d :: data =>
          append_struct (Irpc_Cast_EsifData d 0) ;!
          let! r := Irpc_Serialize_EsifData d 0 0 in
          let! bytes := serialize_items n data in
          sret (sizeof_EsifData + r.1 + bytes)
      end
  end.
(** Whether an array is sent at all. *)
Definition array_sent (array_len : Z) (data : option (list EsifData)) : bool :=
  negb (array_len =? 0) && (array_len <? IRPC_MAXARRAY) && negb (bool_decide (data = None)).
Definition Irpc_Serialize_EsifDataArray (data : option (list EsifData)) (array_len offsetof varbinary : Z) : SM encoder (Z * Z) :=
  match data with
  | Some l => if array_sent array_len data then let! bytes := serialize_items (Z.to_nat array_len) l in sret (bytes, u32 (offsetof + varbinary)) else sret (0, IRPC_NULLVALUE)
  | None => sret (0, IRPC_NULLVALUE)
  end.

(** A field of a structure: an integer of a width, a typed buffer described in place,
    or an offset to a typed buffer, to an array of them or to another object, which a
    computation appends. *)
Inductive field : Type :=
  | Int (w : nat) (v : Z)
  | Embed (d : EsifData)
  | DataPtr (d : option EsifData)
  | DataArray (array_len : Z) (data : option (list EsifData))
  | ObjPtr (m : option (SM encoder bool)).
Definition width (f : field) : Z := match f with Int w _ => Z.of_nat w | Embed _ => sizeof_EsifData | _ => 4 end.
Fixpoint widths (fs : list field) : Z := match fs with [] => 0 | f :: fs => width f + widths fs end.

(** The structure when it is appended first.  [Irpc_OffsetOf] is the number of bytes
    after the field. *)
Fixpoint initial (fs : list field) : list Z :=
  match fs with
  | [] => []
  | f :: fs =>
      match f with
      | Int w v => le_bytes w v
      | Embed d => Irpc_Cast_EsifData d (widths fs)
      | _ => le_bytes 4 IRPC_NULLVALUE
      end ++ initial fs
  end.

(** The bytes appended for a field, and the completed field. *)
Definition serialize_field (f : field) (offsetof varbinary : Z) : SM encoder (Z * list Z) :=
  match f with
  | Int w v => sret (0, le_bytes w v)
  | Embed d => let! r := Irpc_Serialize_EsifData d offsetof varbinary in sret (r.1, Irpc_Cast_EsifData d r.2)
  | DataPtr d => let! r := Irpc_Serialize_EsifDataPtr d offsetof varbinary in sret (r.1, le_bytes 4 r.2)
  | DataArray n d => let! r := Irpc_Serialize_EsifDataArray d n offsetof varbinary in sret (r.1, le_bytes 4 r.2)
  | ObjPtr None => sret (0, le_bytes 4 IRPC_NULLVALUE)
  | ObjPtr (Some m) =>
      let! s := sget in
      let! ok := m in
      let! s' := sget in
      if (ok : bool) then sret (IBinary_GetLen (blob s') - IBinary_GetLen (blob s), le_bytes 4 (u32 (offsetof + varbinary)))
      else sret (0, le_bytes 4 IRPC_NULLVALUE)
  end.
Fixpoint serialize (fs : list field) (varbinary : Z) : SM encoder (list Z) :=
  match fs with
  | [] => sret []
  | f :: fs =>
      let! r := serialize_field f (widths fs) varbinary in
      let! rest := serialize fs (varbinary + r.1) in
      sret (r.2 ++ rest)
  end.

(** Writing the completed structure. *)
Definition patch (offset : Z) (bytes : list Z) : SM encoder unit := fun s =>
  match write_buf offset bytes (blob s) with Some (_, b) => Some (tt, mk_encoder b (mem s)) | None => None end.
Definition encode_struct (fs : list field) : SM encoder bool :=
  let! s := sget in
  let! ok := append_struct (initial fs) in
  if (ok : bool) then let! final := serialize fs 0 in patch (IBinary_GetLen (blob s)) final ;! sret true else sret false.

(* ------------------------------------------------------------------ *)
(** ** Decoding *)

(** An integer field at a position; beyond the end of the message there is no outcome. *)
Definition get_int (w : nat) (m : list Z) (pos : Z) : option Z := if 0 <=? pos then le_value w (drop (Z.to_nat pos) m) else None.
(** [esif_ccb_malloc] zeroes. *)
Definition malloc (ok : bool) (n : Z) : option (list Z) := if ok then Some (zero_bytes n) else None.

(** [encoded] and [offsetfrom] are positions in the message [m]; the result is the block
    or NULL. *)
Definition Irpc_Deserialize_EsifData (ok : bool) (into : option (list Z)) (m : list Z) (encoded offsetfrom : Z) : option (option (list Z)) :=
  blen ← get_int 4 m (encoded + 4);
  if blen =? 0 then Some into
  else
    let into := match into with None => malloc ok blen | _ => into end in
    match into with
    | None => Some None
    | Some b =>
        dlen ← get_int 4 m (encoded + 8);
        if dlen <=? blen then
          off ← get_int 4 m (encoded + 12);
          src ← read_at (offsetfrom + off) dlen m;
          b' ← write_at 0 src b;
          Some (Some b')
        else Some (Some b)
    end.

(** [Irpc_Uncast_EsifData]. *)
Definition Irpc_Uncast_EsifData (m : list Z) (encoded : Z) (ptr : option (list Z)) : option EsifData :=
  ty ← get_int 4 m encoded; blen ← get_int 4 m (encoded + 4); dlen ← get_int 4 m (encoded + 8); Some (mk_EsifData ty ptr blen dlen).

(** [into] is the object to fill, or NULL for a new one; [ok1] and [ok2] are the
    allocations of the object and of its block. *)
Definition Irpc_Deserialize_EsifDataPtr (ok1 ok2 : bool) (into : option EsifData) (m : list Z) (encoded offsetfrom : Z) : option (option EsifData) :=
  off ← get_int 4 m encoded;
  if off =? IRPC_NULLVALUE then Some into
  else if bool_decide (into = None) && negb ok1 then Some None
  else
    let at_ := offsetfrom + off in
    ptr ← Irpc_Deserialize_EsifData ok2 None m at_ (at_ + sizeof_EsifData);
    d ← Irpc_Uncast_EsifData m at_ ptr;
    Some (Some d).

(** The elements from a position on; [None] inside for NULL, when a block of a new array
    cannot be allocated. *)
Fixpoint deserialize_items (oks : list bool) (n : nat) (m : list Z) (at_ : Z) : option (option (list EsifData)) :=
  match n with
  | O => Some (Some [])
  | S n =>
      ptr ← Irpc_Deserialize_EsifData (hd true oks) None m at_ (at_ + sizeof_EsifData);
      d ← Irpc_Uncast_EsifData m at_ ptr;
      if bool_decide (d_buf d = None) && negb (d_buf_len d =? 0) then Some None
      else
        rest ← deserialize_items (tl oks) n m (at_ + sizeof_EsifData + d_data_len d);
        Some (option_map (cons d) rest)
  end.
(** Into a new array, as all callers do. *)
Definition Irpc_Deserialize_EsifDataArray (ok : bool) (oks : list bool) (array_len : Z) (m : list Z) (encoded offsetfrom : Z) : option (option (list EsifData)) :=
  if negb (array_len =? 0) && (array_len <? IRPC_MAXARRAY) then
    off ← get_int 4 m encoded;
    if off =? IRPC_NULLVALUE then Some None
    else if ok then deserialize_items oks (Z.to_nat array_len) m (offsetfrom + off)
    else Some None
  else Some None.

(** The result code and the caller's object; [into] is [None] for NULL. *)
Definition Irpc_Unmarshall_EsifDataPtr (ok1 ok2 : bool) (into : option EsifData) (m : list Z) (encoded offsetfrom : Z) : option (Z * option EsifData) :=
  match into with
  | None => Some (ESIF_E_PARAMETER_IS_NULL, None)
  | Some d =>
      param ← Irpc_Deserialize_EsifDataPtr ok1 ok2 None m encoded offsetfrom;
      match param with
      | None => Some (ESIF_E_PARAMETER_IS_NULL, Some d)
      | Some p =>
          match d_buf d with
          | Some b =>
              if (d_data_len p <=? d_buf_len d) && negb (d_buf_len d =? 0) then
                match d_buf p with
                | Some src =>
                    bytes ← read_at 0 (d_data_len p) src;
                    b' ← write_at 0 bytes b;
                    Some (ESIF_OK, Some (mk_EsifData (d_type p) (Some b') (d_buf_len d) (d_data_len p)))
                | None => Some (ESIF_E_NO_MEMORY, Some (mk_EsifData (d_type p) (Some b) (d_buf_len d) (d_data_len p)))
                end
              else Some (ESIF_OK, Some (mk_EsifData (d_type p) (Some b) (d_buf_len d) (d_data_len p)))
          | None => Some (ESIF_OK, Some (mk_EsifData (d_type p) None (d_buf_len d) (d_data_len p)))
          end
      end
  end.

(* ------------------------------------------------------------------ *)
(** ** What is on the wire *)

(** The bytes that follow the description of a buffer, and what the encoder counts. *)
Definition payload (d : EsifData) : list Z :=
  match d_buf d with
  | Some b => if (d_data_len d =? 0) || (d_buf_len d <? d_data_len d) then [] else take (Z.to_nat (d_data_len d)) b
  | None => []
  end.
Definition counted (d : EsifData) : Z :=
  match d_buf d with None => d_data_len d | Some _ => if d_buf_len d <? d_data_len d then 0 else d_data_len d end.
(** The block has the bytes that it claims; the sizes are machine words. *)
Record block_ok (d : EsifData) : Prop := {
  bo_type : 0 <= d_type d < 2 ^ 32;
  bo_buf_len : 0 <= d_buf_len d < 2 ^ 32;
  bo_data_len : 0 <= d_data_len d < 2 ^ 32;
  bo_block : forall b, d_buf d = Some b -> d_data_len d <= d_buf_len d -> d_data_len d <= size b
}.
(** Data without a block count though nothing is sent. *)
Definition exact (d : EsifData) : Prop := d_buf d = None -> d_data_len d = 0.

Lemma payload_counted d : block_ok d -> exact d -> size (payload d) = counted d.
Proof.
  intros [_ _ Hd Hb] He. unfold payload, counted. destruct (d_buf d) as [b|] eqn:E; [|by rewrite He].
  specialize (Hb b eq_refl). destruct (Z.eqb_spec (d_data_len d) 0) as [Ez|]; [rewrite Ez; cbn [orb]; by destruct (d_buf_len d <? 0)|]. cbn [orb]. destruct (Z.ltb_spec (d_buf_len d) (d_data_len d)); [done|]. rewrite size_take; lia.
Qed.
Lemma payload_le d : block_ok d -> 0 <= size (payload d) <= counted d.
Proof.
  intros Hb. split; [apply size_nonneg|]. destruct (d_buf d) eqn:E; [rewrite payload_counted; [done|done|]; intros E'; congruence|]. unfold payload, counted. rewrite E. apply Hb.
Qed.

Definition item (d : EsifData) : list Z := Irpc_Cast_EsifData d 0 ++ payload d.
Lemma cast_size d off : size (Irpc_Cast_EsifData d off) = sizeof_EsifData.
Proof. unfold size, Irpc_Cast_EsifData. rewrite !length_app, !le_bytes_length. done. Qed.

(** Allocations do not fail. *)
Definition plenty (s : encoder) : Prop := Forall (eq true) (mem s).
Definition filled (s : encoder) (data : list Z) : Prop := holds (blob s) data /\ plenty s.
(** A computation that appends given bytes. *)
Definition appends {T} (m : SM encoder T) (r : T) (bytes : list Z) : Prop :=
  forall s data, filled s data -> size data + size bytes < 2 ^ 62 -> exists s', m s = Some (r, s') /\ filled s' (data ++ bytes).

Lemma plenty_hd l : Forall (eq true) l -> hd true l = true.
Proof. by intros [|x ? <- _]. Qed.
Lemma plenty_tl l : Forall (eq true) l -> Forall (eq true) (tl l).
Proof. by intros [|x ? _ H]. Qed.

Lemma append_ok src n d : read_at 0 n src = Some d -> 0 < n -> appends (append (Some src) n) true d.
Proof.
  intros Hr Hn s data [Hh Hm] Hsz. assert (Hd : size d = n).
  { unfold read_at in Hr. destruct (_ && _) eqn:E in Hr; [|done]. bool_to_prop. injection Hr as <-. change (drop (Z.to_nat 0) src) with src. apply size_take. lia. }
  unfold append, IBinary_Append, sbind, sget. rewrite (h_len _ _ Hh).
  destruct (insert_ok (hd true (mem s)) src n (size data) d (blob s) data Hh Hr Hn) as (r & b & E & [(-> & Hb)|(Hf & _)]); [pose proof (size_nonneg data); lia|lia| |by rewrite plenty_hd in Hf].
  rewrite E. eexists. split; [reflexivity|]. rewrite insert_end in Hb. split; [done|]. by apply plenty_tl.
Qed.
Lemma append_struct_ok bytes : 0 < size bytes -> appends (append_struct bytes) true bytes.
Proof. intros Hs. by apply append_ok; [apply read_at_all|]. Qed.

Lemma appends_bind {T U} (m : SM encoder T) (k : T -> SM encoder U) r r' a b : appends m r a -> appends (k r) r' b -> appends (sbind m k) r' (a ++ b).
Proof.
  intros Hm Hk s data Hs Hsz. rewrite size_app in Hsz. pose proof (size_nonneg b). destruct (Hm s data Hs) as (s1 & E1 & H1); [lia|].
  destruct (Hk s1 (data ++ a) H1) as (s2 & E2 & H2); [rewrite size_app; lia|]. exists s2. unfold sbind. rewrite E1. by rewrite app_assoc.
Qed.
Lemma appends_ret {T} (r : T) : appends (sret r) r [].
Proof. intros s data Hs _. exists s. by rewrite app_nil_r. Qed.
Lemma appends_ret_bind {T U} (m : SM encoder T) (f : T -> U) r a : appends m r a -> appends (let! x := m in sret (f x)) (f r) a.
Proof. intros Hm. rewrite <- (app_nil_r a). eapply appends_bind; [exact Hm|]. apply appends_ret. Qed.

Lemma serialize_data_ok d offset varbinary : block_ok d ->
  appends (Irpc_Serialize_EsifData d offset varbinary) (counted d, u32 (offset + u32 varbinary)) (payload d).
Proof.
  intros [_ Hbl Hd Hb]. unfold Irpc_Serialize_EsifData, counted, payload. destruct (d_buf d) as [b|] eqn:E; cbn [orb]; [|apply appends_ret].
  rewrite bool_decide_false by done. cbn [orb]. specialize (Hb b eq_refl). destruct (Z.eqb_spec (d_data_len d) 0) as [Hz|Hz].
  - rewrite Hz. rewrite (proj2 (Z.ltb_ge _ 0)) by lia. apply appends_ret.
  - cbn [orb]. destruct (Z.leb_spec (d_data_len d) (d_buf_len d)) as [Hle|Hgt].
    + rewrite (proj2 (Z.ltb_ge _ _)) by lia. apply (appends_ret_bind _ (fun ok : bool => (if ok then d_data_len d else 0, u32 (offset + u32 varbinary)))) with (r := true). apply append_ok; [|lia].
      unfold read_at. rewrite (proj2 (Z.leb_le 0 0)), (proj2 (Z.leb_le 0 (d_data_len d))), (proj2 (Z.leb_le _ (size b))) by lia. done.
    + rewrite (proj2 (Z.ltb_lt _ _)) by lia. apply appends_ret.
Qed.

Lemma item_ok d : block_ok d -> appends (append_struct (Irpc_Cast_EsifData d 0) ;! Irpc_Serialize_EsifData d 0 0) (counted d, 0) (item d).
Proof.
  intros Hb. unfold item. eapply appends_bind; [apply append_struct_ok; by rewrite cast_size|]. by apply (serialize_data_ok d 0 0).
Qed.

Definition item_count (d : EsifData) : Z := sizeof_EsifData + counted d.
Definition items_count (l : list EsifData) : Z := foldr (fun d n => item_count d + n) 0 l.
Lemma serialize_items_ok n l : (n <= length l)%nat -> Forall block_ok l ->
  appends (serialize_items n l) (items_count (take n l)) (concat (map item (take n l))).
Proof.
  revert l. induction n as [|n IH]; intros l Hn Hl; cbn [serialize_items take]; [apply appends_ret|].
  destruct l as [|d l]; [cbn in Hn; lia|]. inversion Hl as [|? ? Hd Hl']; subst. cbn [firstn map concat]. change (items_count (d :: take n l)) with (item_count d + items_count (take n l)). unfold item at 1. rewrite <- app_assoc.
  eapply appends_bind; [apply append_struct_ok; by rewrite cast_size|]. eapply appends_bind; [by apply serialize_data_ok|].
  apply (appends_ret_bind _ (fun bytes => sizeof_EsifData + counted d + bytes)). apply IH; [cbn in Hn; lia|done].
Qed.

(** What a field appends and counts. *)
Definition array_taken (n : Z) (data : option (list EsifData)) : list EsifData := match data with Some l => if array_sent n data then take (Z.to_nat n) l else [] | None => [] end.
Definition field_ok (f : field) (p : list Z) (n : Z) : Prop :=
  match f with
  | Int _ _ | DataPtr None | ObjPtr None => p = [] /\ n = 0
  | Embed d => block_ok d /\ p = payload d /\ n = counted d
  | DataPtr (Some d) => block_ok d /\ p = item d /\ n = item_count d
  | DataArray k data => p = concat (map item (array_taken k data)) /\ n = items_count (array_taken k data) /\
      forall l, data = Some l -> array_sent k data = true -> Forall block_ok l /\ 0 <= k /\ k <= Z.of_nat (length l)
  | ObjPtr (Some m) => appends m true p /\ n = size p
  end.
(** The completed field. *)
Definition head_bytes (f : field) (after var : Z) : list Z :=
  match f with
  | Int w v => le_bytes w v
  | Embed d => Irpc_Cast_EsifData d (u32 (after + u32 var))
  | DataPtr None | ObjPtr None => le_bytes 4 IRPC_NULLVALUE
  | DataArray k data => le_bytes 4 (if array_sent k data then u32 (after + var) else IRPC_NULLVALUE)
  | _ => le_bytes 4 (u32 (after + var))
  end.

Lemma serialize_field_ok f p n after var : field_ok f p n -> appends (serialize_field f after var) (n, head_bytes f after var) p.
Proof.
  destruct f as [w v|d|d|k data|m]; cbn [field_ok serialize_field].
  - intros [-> ->]. apply appends_ret.
  - intros (Hb & -> & ->). apply (appends_ret_bind _ (fun r : Z * Z => (r.1, Irpc_Cast_EsifData d r.2)) (counted d, u32 (after + u32 var))). by apply serialize_data_ok.
  - destruct d as [d|].
    + intros (Hb & -> & ->). apply (appends_ret_bind _ (fun r : Z * Z => (r.1, le_bytes 4 r.2)) (item_count d, u32 (after + var))). cbn [Irpc_Serialize_EsifDataPtr]. unfold item.
      eapply appends_bind; [apply append_struct_ok; by rewrite cast_size|].
      apply (appends_ret_bind _ (fun r : Z * Z => (sizeof_EsifData + r.1, u32 (after + var))) (counted d, u32 (0 + u32 0))). by apply serialize_data_ok.
    + intros [-> ->]. apply (appends_ret_bind _ (fun r : Z * Z => (r.1, le_bytes 4 r.2)) (0, IRPC_NULLVALUE)). apply appends_ret.
  - intros (-> & -> & Hl). unfold head_bytes. apply (appends_ret_bind _ (fun r : Z * Z => (r.1, le_bytes 4 r.2)) (items_count (array_taken k data), if array_sent k data then u32 (after + var) else IRPC_NULLVALUE)).
    unfold Irpc_Serialize_EsifDataArray, array_taken. destruct data as [l|]; [|unfold array_sent; rewrite bool_decide_true, andb_false_r by done; apply appends_ret].
    destruct (array_sent k (Some l)) eqn:Es; [|apply appends_ret]. destruct (Hl l eq_refl eq_refl) as (Hb & H0 & Hk).
    apply (appends_ret_bind _ (fun bytes : Z => (bytes, u32 (after + var)))). apply serialize_items_ok; [lia|done].
  - destruct m as [m|]; [|intros [-> ->]; apply appends_ret]. intros (Hm & ->) s data Hs Hsz. destruct (Hm s data Hs Hsz) as (s' & E & Hs'). exists s'. split; [|done].
    unfold sbind, sget. rewrite E. unfold IBinary_GetLen. destruct Hs as [Hs _], Hs' as [Hs'' _]. rewrite (h_len _ _ Hs), (h_len _ _ Hs''). rewrite size_app. unfold sret, head_bytes. do 3 f_equal. lia.
Qed.

(** All the fields: what they append, what they count, and the completed structure. *)
Inductive fields_ok : list field -> list (list Z * Z) -> Prop :=
  | fields_nil : fields_ok [] []
  | fields_cons f p n fs ps : field_ok f p n -> fields_ok fs ps -> fields_ok (f :: fs) ((p, n) :: ps).
Fixpoint heads (fs : list field) (ps : list (list Z * Z)) (var : Z) : list Z :=
  match fs, ps with
  | f :: fs, (_, n) :: ps => head_bytes f (widths fs) var ++ heads fs ps (var + n)
  | _, _ => []
  end.
Definition payloads (ps : list (list Z * Z)) : list Z := concat (map fst ps).
(** The message. *)
Definition wire (fs : list field) (ps : list (list Z * Z)) : list Z := heads fs ps 0 ++ payloads ps.

Lemma serialize_ok fs ps : fields_ok fs ps -> forall var, appends (serialize fs var) (heads fs ps var) (payloads ps).
Proof.
  induction 1 as [|f p n fs ps Hf Hfs IH]; intros var; cbn [serialize heads]; [apply appends_ret|].
  change (payloads ((p, n) :: ps)) with (p ++ payloads ps). eapply appends_bind; [by apply serialize_field_ok|]. cbn [fst snd].
  apply (appends_ret_bind _ (fun rest => head_bytes f (widths fs) var ++ rest)). apply IH.
Qed.

Lemma head_size f after var : size (head_bytes f after var) = width f.
Proof. unfold size. destruct f as [w v|d|[d|]|k data|[m|]]; cbn [head_bytes width]; rewrite ?le_bytes_length; done. Qed.
Lemma initial_size fs : size (initial fs) = widths fs.
Proof.
  induction fs as [|f fs IH]; cbn [initial widths]; [done|]. rewrite size_app, IH. f_equal. unfold size. destruct f as [w v|d|d|k data|m]; cbn [width]; rewrite ?le_bytes_length; done.
Qed.
Lemma heads_size fs ps : fields_ok fs ps -> forall var, size (heads fs ps var) = widths fs.
Proof. induction 1 as [|f p n fs ps Hf Hfs IH]; intros var; cbn [heads widths]; [done|]. by rewrite size_app, head_size, IH. Qed.

Lemma encode_struct_ok fs ps : fields_ok fs ps -> 0 < widths fs -> appends (encode_struct fs) true (wire fs ps).
Proof.
  intros Hf Hw s data Hs Hsz. unfold wire in *. rewrite size_app, (heads_size _ _ Hf) in Hsz. pose proof (size_nonneg (payloads ps)). unfold encode_struct, sbind at 1, sget.
  destruct (append_struct_ok (initial fs)) with (s := s) (data := data) as (s1 & E1 & H1); [by rewrite initial_size|done|rewrite initial_size; lia|]. rewrite (sbind_some _ _ _ _ _ E1).
  destruct (serialize_ok fs ps Hf 0 s1 _ H1) as (s2 & E2 & [H2 Hm2]); [rewrite size_app, initial_size; lia|]. rewrite (sbind_some _ _ _ _ _ E2).
  set (l := (data ++ initial fs) ++ payloads ps) in *. set (l' := data ++ heads fs ps 0 ++ payloads ps).
  assert (Hl : size l' = size l) by (unfold l, l'; rewrite !size_app, (heads_size _ _ Hf), initial_size; lia).
  assert (Hb : buf_len (blob s2) <> 0) by (pose proof (h_buf_len _ _ H2); unfold l in *; rewrite !size_app, initial_size in *; pose proof (size_nonneg data); lia).
  exists (mk_encoder (mk_binary (Some (l' ++ zero_bytes (buf_len (blob s2) - size l'))) (buf_len (blob s2)) (size l') (growby_len (blob s2))) (mem s2)). split.
  - unfold sbind, patch. rewrite (holds_eta _ _ H2 Hb). unfold IBinary_GetLen. destruct Hs as [Hs _]. rewrite (h_len _ _ Hs). rewrite <- Hl. erewrite write_buf_some; [reflexivity|].
    unfold l, l'. rewrite <- !app_assoc. rewrite write_at_mid; [done|]. by rewrite initial_size, (heads_size _ _ Hf).
  - split; [|done]. apply holds_full; [apply H2| |done]. rewrite Hl. apply H2.
Qed.

(* ------------------------------------------------------------------ *)
(** ** Reading back *)

Lemma drop_size a b : drop (Z.to_nat (size a)) (a ++ b) = b.
Proof. by rewrite to_nat_size, drop_app_length. Qed.
Lemma get_int_at w a v c : get_int w (a ++ le_bytes w v ++ c) (size a) = Some (v mod 256 ^ Z.of_nat w).
Proof. unfold get_int. rewrite (proj2 (Z.leb_le 0 (size a))) by apply size_nonneg. by rewrite drop_size, le_roundtrip_wrap. Qed.
(** With the position and the shape of the message up to equality. *)
Lemma get_int_eq w m a v c pos : m = a ++ le_bytes w v ++ c -> pos = size a -> get_int w m pos = Some (v mod 256 ^ Z.of_nat w).
Proof. intros -> ->. apply get_int_at. Qed.
Lemma get_u32_eq m a v c pos : m = a ++ le_bytes 4 v ++ c -> pos = size a -> 0 <= v < 2 ^ 32 -> get_int 4 m pos = Some v.
Proof. intros Hm Hp Hv. rewrite (get_int_eq 4 m a v c pos Hm Hp). f_equal. by apply Z.mod_small. Qed.
Lemma le4_size v : size (le_bytes 4 v) = 4.
Proof. unfold size. by rewrite le_bytes_length. Qed.

(** The fields of a description. *)
Lemma cast_fields m a d off c : block_ok d -> 0 <= off < 2 ^ 32 -> m = a ++ Irpc_Cast_EsifData d off ++ c ->
  get_int 4 m (size a) = Some (d_type d) /\ get_int 4 m (size a + 4) = Some (d_buf_len d) /\
  get_int 4 m (size a + 8) = Some (d_data_len d) /\ get_int 4 m (size a + 12) = Some off.
Proof.
  intros [Ht Hb Hd _] Ho Hm. unfold Irpc_Cast_EsifData in Hm. rewrite <- !app_assoc in Hm. repeat split.
  - by eapply get_u32_eq.
  - apply (get_u32_eq m (a ++ le_bytes 4 (d_type d)) _ (le_bytes 4 (d_data_len d) ++ le_bytes 4 off ++ c)); [by rewrite Hm, <- !app_assoc|by rewrite size_app, le4_size|done].
  - apply (get_u32_eq m (a ++ le_bytes 4 (d_type d) ++ le_bytes 4 (d_buf_len d)) _ (le_bytes 4 off ++ c)); [by rewrite Hm, <- !app_assoc|rewrite !size_app, !le4_size; lia|done].
  - apply (get_u32_eq m (a ++ le_bytes 4 (d_type d) ++ le_bytes 4 (d_buf_len d) ++ le_bytes 4 (d_data_len d)) _ c); [by rewrite Hm, <- !app_assoc|rewrite !size_app, !le4_size; lia|done].
Qed.

(** What arrives: the data in a zeroed block of the same size. *)
Definition received_buf (d : EsifData) : option (list Z) :=
  if d_buf_len d =? 0 then None
  else Some (if d_data_len d <=? d_buf_len d then payload d ++ zero_bytes (d_buf_len d - d_data_len d) else zero_bytes (d_buf_len d)).
Definition received (d : EsifData) : EsifData := mk_EsifData (d_type d) (received_buf d) (d_buf_len d) (d_data_len d).
(** Buffers that can be sent: data that fit have a block. *)
Definition sendable (d : EsifData) : Prop := block_ok d /\ (d_data_len d <= d_buf_len d -> exact d).

Lemma payload_fits d : sendable d -> d_data_len d <= d_buf_len d -> size (payload d) = d_data_len d.
Proof.
  intros [Hb He] Hle. rewrite payload_counted by auto. unfold counted. destruct (d_buf d); [|done]. by rewrite (proj2 (Z.ltb_ge _ _)).
Qed.

Lemma deserialize_data_ok d off m a c b c' offsetfrom : sendable d -> 0 <= off < 2 ^ 32 -> m = a ++ Irpc_Cast_EsifData d off ++ c -> m = b ++ payload d ++ c' -> size b = offsetfrom + off ->
  Irpc_Deserialize_EsifData true None m (size a) offsetfrom = Some (received_buf d).
Proof.
  intros Hs Hoff Hm Hm' Hpos. destruct Hs as [Hb He]. destruct (cast_fields m a d off c Hb Hoff Hm) as (_ & E1 & E2 & E3). unfold Irpc_Deserialize_EsifData, received_buf. rewrite E1. cbn [mbind option_bind].
  destruct (Z.eqb_spec (d_buf_len d) 0) as [|Hne]; [done|]. cbn [malloc]. rewrite E2. cbn [mbind option_bind]. destruct (Z.leb_spec (d_data_len d) (d_buf_len d)) as [Hle|]; [|done]. rewrite E3. cbn [mbind option_bind].
  assert (Hp : size (payload d) = d_data_len d) by (by apply payload_fits). rewrite <- Hpos, Hm', <- Hp, read_at_mid. cbn [mbind option_bind].
  pose proof (bo_buf_len d Hb). pose proof (bo_data_len d Hb). replace (zero_bytes (d_buf_len d)) with ([] ++ zero_bytes (size (payload d)) ++ zero_bytes (d_buf_len d - size (payload d))) by (rewrite zero_bytes_app by lia; cbn; f_equal; lia).
  change 0 with (size []) at 1. rewrite write_at_mid by (rewrite size_zero; lia). done.
Qed.

Lemma uncast_ok d off m a c ptr : block_ok d -> 0 <= off < 2 ^ 32 -> m = a ++ Irpc_Cast_EsifData d off ++ c ->
  Irpc_Uncast_EsifData m (size a) ptr = Some (mk_EsifData (d_type d) ptr (d_buf_len d) (d_data_len d)).
Proof. intros Hb Ho Hm. destruct (cast_fields m a d off c Hb Ho Hm) as (E0 & E1 & E2 & _). unfold Irpc_Uncast_EsifData. rewrite E0, E1, E2. done. Qed.

(** An element: its description, with the data right behind. *)
Lemma item_decodes d m a c : sendable d -> m = a ++ item d ++ c ->
  Irpc_Deserialize_EsifData true None m (size a) (size a + sizeof_EsifData) = Some (received_buf d) /\
  Irpc_Uncast_EsifData m (size a) (received_buf d) = Some (received d).
Proof.
  intros Hs Hm. unfold item in Hm. rewrite <- app_assoc in Hm. split.
  - apply (deserialize_data_ok d 0 m a (payload d ++ c) (a ++ Irpc_Cast_EsifData d 0) c); [done|lia|done|by rewrite Hm, <- app_assoc|rewrite size_app, cast_size; lia].
  - eapply uncast_ok; [apply Hs| |exact Hm]. lia.
Qed.

Lemma ptr_decodes d m a c encoded offsetfrom off into : sendable d -> get_int 4 m encoded = Some off -> off <> IRPC_NULLVALUE -> m = a ++ item d ++ c -> size a = offsetfrom + off ->
  Irpc_Deserialize_EsifDataPtr true true into m encoded offsetfrom = Some (Some (received d)).
Proof.
  intros Hs Hg Hne Hm Hpos. unfold Irpc_Deserialize_EsifDataPtr. rewrite Hg. cbn [mbind option_bind]. rewrite (proj2 (Z.eqb_neq _ _)) by done. rewrite andb_false_r. rewrite <- Hpos.
  destruct (item_decodes d m a c Hs Hm) as [E1 E2]. rewrite E1. cbn [mbind option_bind]. by rewrite E2.
Qed.
Lemma null_decodes m encoded offsetfrom ok1 ok2 into : get_int 4 m encoded = Some IRPC_NULLVALUE -> Irpc_Deserialize_EsifDataPtr ok1 ok2 into m encoded offsetfrom = Some into.
Proof. intros Hg. unfold Irpc_Deserialize_EsifDataPtr. by rewrite Hg. Qed.

(** The elements of an array are found one behind the other, as long as each has its data
    behind it. *)
Definition stacked (d : EsifData) : Prop := sendable d /\ d_data_len d <= d_buf_len d.
Lemma items_decode l : Forall stacked l -> forall m a c, m = a ++ concat (map item l) ++ c -> deserialize_items [] (length l) m (size a) = Some (Some (map received l)).
Proof.
  induction 1 as [|d l [Hs Hle] Hl IH]; intros m a c Hm; [done|]. cbn [map concat] in Hm. rewrite <- app_assoc in Hm. cbn [length deserialize_items hd tl].
  destruct (item_decodes d m a _ Hs Hm) as [E1 E2]. rewrite E1. cbn [mbind option_bind]. rewrite E2. cbn [mbind option_bind].
  assert (Hnull : bool_decide (d_buf (received d) = None) && negb (d_buf_len (received d) =? 0) = false).
  { cbn [EsifData.buf_ptr EsifData.buf_len received]. unfold received_buf. by destruct (d_buf_len d =? 0); rewrite ?andb_false_r. }
  rewrite Hnull. cbn [EsifData.data_len received]. replace (size a + sizeof_EsifData + d_data_len d) with (size (a ++ item d)).
  - rewrite (IH m (a ++ item d) c); [done|]. by rewrite <- app_assoc.
  - unfold item. rewrite !size_app, cast_size, (payload_fits d Hs Hle). lia.
Qed.

(* ------------------------------------------------------------------ *)
(** ** The fields of a message *)

Definition counts (ps : list (list Z * Z)) : Z := foldr (fun p n => snd p + n) 0 ps.
(** What is counted is what was appended. *)
Definition tight (p : list Z * Z) : Prop := size (fst p) = snd p.
Lemma counts_tight ps : Forall tight ps -> size (payloads ps) = counts ps.
Proof.
  induction 1 as [|[p n] ps Hp Hps IH]; [done|]. change (payloads ((p, n) :: ps)) with (p ++ payloads ps). rewrite size_app, IH. cbn [counts foldr snd]. unfold tight in Hp. cbn in Hp. unfold counts. lia.
Qed.
Lemma widths_app a b : widths (a ++ b) = widths a + widths b.
Proof. induction a as [|f a IH]; cbn [app widths]; [done|]. rewrite IH. lia. Qed.
Lemma width_nonneg f : 0 <= width f.
Proof. destruct f; cbn; unfold sizeof_EsifData; lia. Qed.
Lemma widths_nonneg fs : 0 <= widths fs.
Proof. induction fs as [|f fs IH]; cbn; [done|]. pose proof (width_nonneg f). lia. Qed.

(** A message cut at one of its fields. *)
Lemma wire_cut fs ps i f : fields_ok fs ps -> fs !! i = Some f ->
  exists p n h h' q, field_ok f p n /\ ps !! i = Some (p, n) /\
    wire fs ps = h ++ head_bytes f (widths (drop (S i) fs)) (counts (take i ps)) ++ h' ++ payloads (take i ps) ++ p ++ q /\
    size h = widths (take i fs) /\ size h' = widths (drop (S i) fs).
Proof.
  intros Hf Hi. unfold wire. enough (H : forall var, exists p n h h' q, field_ok f p n /\ ps !! i = Some (p, n) /\
    heads fs ps var = h ++ head_bytes f (widths (drop (S i) fs)) (var + counts (take i ps)) ++ h' /\ payloads ps = payloads (take i ps) ++ p ++ q /\
    size h = widths (take i fs) /\ size h' = widths (drop (S i) fs)).
  { destruct (H 0) as (p & n & h & h' & q & H1 & H2 & H3 & H4 & H5 & H6). exists p, n, h, h', q. rewrite H3, H4, Z.add_0_l, <- !app_assoc. done. }
  revert i Hi. induction Hf as [|g p n fs ps Hg Hfs IH]; intros i Hi var; [done|]. destruct i as [|i].
  - injection Hi as <-. exists p, n, [], (heads fs ps (var + n)), (payloads ps). cbn [heads take drop counts foldr]. rewrite Z.add_0_r. repeat split; try done. by apply heads_size.
  - cbn [lookup list_lookup] in Hi. destruct (IH i Hi (var + n)) as (p' & n' & h & h' & q & H1 & H2 & H3 & H4 & H5 & H6).
    exists p', n', (head_bytes g (widths fs) var ++ h), h', q. cbn [heads firstn skipn]. split; [done|]. split; [done|]. split; [|split; [|split]].
    + rewrite H3, <- app_assoc. cbn [counts foldr snd]. by rewrite Z.add_assoc.
    + change (payloads ((p, n) :: ps)) with (p ++ payloads ps). rewrite H4. change (payloads ((p, n) :: take i ps)) with (p ++ payloads (take i ps)). by rewrite <- app_assoc.
    + rewrite size_app, head_size, H5. done.
    + done.
Qed.

Lemma widths_split fs i f : fs !! i = Some f -> widths fs = widths (take i fs) + width f + widths (drop (S i) fs) /\ widths (take (S i) fs) = widths (take i fs) + width f.
Proof.
  intros Hi. split.
  - rewrite <- (take_drop_middle fs i f Hi) at 1. rewrite widths_app. cbn [widths]. lia.
  - rewrite (take_S_r _ _ _ Hi), widths_app. cbn [widths]. lia.
Qed.

(** An integer. *)
Lemma wire_int fs ps i w v : fields_ok fs ps -> fs !! i = Some (Int w v) -> get_int w (wire fs ps) (widths (take i fs)) = Some (v mod 256 ^ Z.of_nat w).
Proof.
  intros Hf Hi. destruct (wire_cut fs ps i _ Hf Hi) as (p & n & h & h' & q & _ & _ & Ew & Hh & _). by eapply get_int_eq; [exact Ew|].
Qed.

(** An offset, and what is behind it. *)
Lemma wire_offset fs ps i f : fields_ok fs ps -> fs !! i = Some f -> width f = 4 -> Forall tight (take i ps) -> size (wire fs ps) < 2 ^ 32 - 1 ->
  (forall after var, head_bytes f after var = le_bytes 4 (u32 (after + var))) ->
  exists off p n a c, field_ok f p n /\ get_int 4 (wire fs ps) (widths (take i fs)) = Some off /\ 0 <= off < 2 ^ 32 - 1 /\
    wire fs ps = a ++ p ++ c /\ size a = widths (take (S i) fs) + off.
Proof.
  intros Hf Hi Hw Ht Hsz Hhd. destruct (wire_cut fs ps i _ Hf Hi) as (p & n & h & h' & q & Hok & _ & Ew & Hh & Hh'). rewrite Hhd in Ew. destruct (widths_split fs i _ Hi) as [_ Hs].
  set (off := widths (drop (S i) fs) + counts (take i ps)) in *. pose proof (counts_tight _ Ht) as Hc. pose proof (widths_nonneg (drop (S i) fs)). pose proof (size_nonneg (payloads (take i ps))). pose proof (size_nonneg h).
  assert (Hoff : 0 <= off < 2 ^ 32 - 1).
  { rewrite Ew, !size_app, le4_size, Hh', Hc in Hsz. pose proof (size_nonneg p). pose proof (size_nonneg q). unfold off. lia. }
  exists off, p, n, (h ++ le_bytes 4 (u32 off) ++ h' ++ payloads (take i ps)), q. split; [done|]. split; [|split; [done|split]].
  - rewrite (wrap_small 32 off) in Ew by (unfold in_range; lia). eapply get_u32_eq; [exact Ew|done|lia].
  - rewrite Ew. by rewrite <- !app_assoc.
  - rewrite !size_app, le4_size, Hh', Hc, Hs, Hw, Hh. unfold off. lia.
Qed.

(** A typed buffer behind an offset arrives. *)
Lemma wire_ptr fs ps i d into : fields_ok fs ps -> fs !! i = Some (DataPtr (Some d)) -> sendable d -> Forall tight (take i ps) -> size (wire fs ps) < 2 ^ 32 - 1 ->
  Irpc_Deserialize_EsifDataPtr true true into (wire fs ps) (widths (take i fs)) (widths (take (S i) fs)) = Some (Some (received d)).
Proof.
  intros Hf Hi Hs Ht Hsz. destruct (wire_offset fs ps i _ Hf Hi) as (off & p & n & a & c & Hok & Hg & Hoff & Hm & Ha); [done|done|done|done|].
  destruct Hok as (_ & -> & _). eapply ptr_decodes; [done|exact Hg|unfold IRPC_NULLVALUE; lia|exact Hm|exact Ha].
Qed.
Lemma wire_null fs ps i ok1 ok2 into : fields_ok fs ps -> fs !! i = Some (DataPtr None) ->
  Irpc_Deserialize_EsifDataPtr ok1 ok2 into (wire fs ps) (widths (take i fs)) (widths (take (S i) fs)) = Some into.
Proof.
  intros Hf Hi. destruct (wire_cut fs ps i _ Hf Hi) as (p & n & h & h' & q & _ & _ & Ew & Hh & _). apply null_decodes. eapply get_u32_eq; [exact Ew|done|]. unfold IRPC_NULLVALUE. lia.
Qed.
(** An array arrives. *)
Lemma wire_array fs ps i k l : fields_ok fs ps -> fs !! i = Some (DataArray k (Some l)) -> array_sent k (Some l) = true -> k = Z.of_nat (length l) -> Forall stacked l -> Forall tight (take i ps) -> size (wire fs ps) < 2 ^ 32 - 1 ->
  Irpc_Deserialize_EsifDataArray true [] k (wire fs ps) (widths (take i fs)) (widths (take (S i) fs)) = Some (Some (map received l)).
Proof.
  intros Hf Hi Hsent Hk Hl Ht Hsz. destruct (wire_offset fs ps i _ Hf Hi) as (off & p & n & a & c & Hok & Hg & Hoff & Hm & Ha); [done|done|done|intros; cbn [head_bytes]; by rewrite Hsent|].
  destruct Hok as (-> & _ & _). unfold array_taken in Hm. rewrite Hsent in Hm. rewrite firstn_all2 in Hm by lia.
  unfold Irpc_Deserialize_EsifDataArray. unfold array_sent in Hsent. apply andb_prop in Hsent as [-> _]. rewrite Hg. cbn [mbind option_bind]. rewrite (proj2 (Z.eqb_neq _ _)) by (unfold IRPC_NULLVALUE; lia).
  rewrite <- Ha. replace (Z.to_nat k) with (length l) by lia. by eapply items_decode.
Qed.
(** A buffer described in place arrives. *)
Lemma wire_embed fs ps i d : fields_ok fs ps -> fs !! i = Some (Embed d) -> sendable d -> Forall tight (take i ps) -> size (wire fs ps) < 2 ^ 32 - 1 ->
  Irpc_Deserialize_EsifData true None (wire fs ps) (widths (take i fs)) (widths (take (S i) fs)) = Some (received_buf d) /\
  Irpc_Uncast_EsifData (wire fs ps) (widths (take i fs)) (received_buf d) = Some (received d).
Proof.
  intros Hf Hi Hs Ht Hsz. destruct (wire_cut fs ps i _ Hf Hi) as (p & n & h & h' & q & Hok & _ & Ew & Hh & Hh'). destruct Hok as (Hb & -> & _). destruct (widths_split fs i _ Hi) as [_ Hsp]. cbn [head_bytes] in Ew.
  pose proof (counts_tight _ Ht) as Hc. pose proof (widths_nonneg (drop (S i) fs)). pose proof (size_nonneg (payloads (take i ps))). pose proof (size_nonneg h). rewrite <- Hh in *. rewrite Hsp.
  rewrite Ew, !size_app, cast_size, Hh', Hc in Hsz. pose proof (size_nonneg (payload d)). pose proof (size_nonneg q). rewrite (wrap_small 32 (counts _)), wrap_small in Ew by (unfold in_range, sizeof_EsifData in *; lia). split.
  - eapply deserialize_data_ok; [done| |exact Ew| |]; [unfold sizeof_EsifData in *; lia| |].
    + rewrite Ew. set (cast := Irpc_Cast_EsifData d _). transitivity ((h ++ cast ++ h' ++ payloads (take i ps)) ++ payload d ++ q); [by rewrite <- !app_assoc|reflexivity].
    + rewrite !size_app, cast_size, Hh', Hc. cbn [width]. lia.
  - eapply uncast_ok; [done| |exact Ew]. unfold sizeof_EsifData in *; lia.
Qed.
