(* ===== verification/IrpcMsg.v ===== *)
(** * The calls as messages: the function encoders of IPF Common/ipf_ipc_codec.c

    Each call of the ESIF and of the application interface has a structure: a header, a
    result and the parameters, of which those that the called side does not change are
    sent in requests only.  The encoders write into the request of a transaction, or
    into its response if it has one. *)

From stdpp Require Import list.
From S2P Require Import Prelude EsifData IBinary IrpcCodec.
Local Open Scope Z_scope.
Local Open Scope dptf_scope.

(* ------------------------------------------------------------------ *)
(** ** Transactions and the header *)

Definition IrpcMsg_ProcRequest : Z := 1.
Definition IrpcMsg_ProcResponse : Z := 2.

Definition IrpcFunc_None : Z := 0x00.
Definition IrpcFunc_EsifGetConfig : Z := 0x20.
Definition IrpcFunc_EsifSetConfig : Z := 0x21.
Definition IrpcFunc_EsifPrimitive : Z := 0x22.
Definition IrpcFunc_EsifWriteLog : Z := 0x23.
Definition IrpcFunc_EsifEventRegister : Z := 0x24.
Definition IrpcFunc_EsifEventUnregister : Z := 0x25.
Definition IrpcFunc_EsifSendEvent : Z := 0x26.
Definition IrpcFunc_EsifSendCommand : Z := 0x27.
Definition IrpcFunc_AppCreate : Z := 0x40.
Definition IrpcFunc_AppDestroy : Z := 0x41.
Definition IrpcFunc_AppSuspend : Z := 0x42.
Definition IrpcFunc_AppResume : Z := 0x43.
Definition IrpcFunc_AppGetVersion : Z := 0x44.
Definition IrpcFunc_AppCommand : Z := 0x45.
Definition IrpcFunc_AppGetIntro : Z := 0x46.
Definition IrpcFunc_AppGetDescription : Z := 0x47.
Definition IrpcFunc_AppGetName : Z := 0x48.
Definition IrpcFunc_AppGetStatus : Z := 0x49.
Definition IrpcFunc_AppParticipantCreate : Z := 0x4A.
Definition IrpcFunc_AppParticipantDestroy : Z := 0x4B.
Definition IrpcFunc_AppDomainCreate : Z := 0x4C.
Definition IrpcFunc_AppDomainDestroy : Z := 0x4D.
Definition IrpcFunc_AppEvent : Z := 0x4E.

(** Of a transaction what the encoders use. *)
Record Transaction : Type := mk_trx {
  t_request : option IBinary; t_response : option IBinary;
  t_trxId : Z; t_clockticks : Z; t_clocktime : Z; t_result : Z; t_ipfHandle : Z
}.
Definition with_request (b : option IBinary) (t : Transaction) : Transaction :=
  mk_trx b (t_response t) (t_trxId t) (t_clockticks t) (t_clocktime t) (t_result t) (t_ipfHandle t).
Definition with_response (b : option IBinary) (t : Transaction) : Transaction :=
  mk_trx (t_request t) b (t_trxId t) (t_clockticks t) (t_clocktime t) (t_result t) (t_ipfHandle t).
Definition with_trxId (n : Z) (t : Transaction) : Transaction :=
  mk_trx (t_request t) (t_response t) n (t_clockticks t) (t_clocktime t) (t_result t) (t_ipfHandle t).
Definition with_result (n : Z) (t : Transaction) : Transaction :=
  mk_trx (t_request t) (t_response t) (t_trxId t) (t_clockticks t) (t_clocktime t) n (t_ipfHandle t).

(** [Encoded_IrpcMsg] and the result. *)
Definition irpc_header (msgtype funcId : Z) (t : Transaction) (result : Z) : list field :=
  [Int 4 msgtype; Int 2 IRPC_REVISION; Int 4 funcId; Int 8 (t_trxId t); Int 8 (t_clockticks t); Int 8 (t_clocktime t); Int 4 result].
Definition irpc_layout : list Z := [4; 2; 4; 8; 8; 8; 4].

(** The body that the encoders share: into the response if there is one, otherwise into
    the request.  [params] says which fields follow in a request ([true]) and in a
    response; the result is whether the pointer returned is not NULL. *)
Definition encode_function (mem : list bool) (t : Transaction) (funcId result : Z) (params : bool -> list field) : option (bool * Transaction) :=
  match t_response t, t_request t with
  | Some b, _ =>
      match encode_struct (irpc_header IrpcMsg_ProcResponse funcId t result ++ params false) (mk_encoder b mem) with
      | Some (ok, s) => Some (ok, with_response (Some (blob s)) t)
      | None => None
      end
  | None, Some b =>
      match encode_struct (irpc_header IrpcMsg_ProcRequest funcId t result ++ params true) (mk_encoder b mem) with
      | Some (ok, s) => Some (ok, with_request (Some (blob s)) t)
      | None => None
      end
  | None, None => Some (false, t)
  end.
(** A parameter that is sent in requests only. *)
Definition const (request : bool) {A} (x : option A) : option A := if request then x else None.

(* ------------------------------------------------------------------ *)
(** ** The ESIF interface *)

Definition Irpc_Encode_EsifGetConfigFunc (mem : list bool) (t : Transaction) (esifHandle : Z) (nameSpace elementPath elementValue : option EsifData) : option (bool * Transaction) :=
  encode_function mem t IrpcFunc_EsifGetConfig (t_result t) (fun request =>
    [Int 8 esifHandle; DataPtr (const request nameSpace); DataPtr (const request elementPath); DataPtr elementValue]).

Definition Irpc_Encode_EsifSetConfigFunc (mem : list bool) (t : Transaction) (esifHandle : Z) (nameSpace elementPath elementValue : option EsifData) (elementFlags : Z) : option (bool * Transaction) :=
  encode_function mem t IrpcFunc_EsifSetConfig (t_result t) (fun request =>
    [Int 8 esifHandle; DataPtr (const request nameSpace); DataPtr (const request elementPath); DataPtr (const request elementValue); Int 4 elementFlags]).

Definition Irpc_Encode_EsifPrimitiveFunc (mem : list bool) (t : Transaction) (esifHandle participantHandle domainHandle : Z) (request_ response : option EsifData) (primitive instance : Z) : option (bool * Transaction) :=
  encode_function mem t IrpcFunc_EsifPrimitive (t_result t) (fun request =>
    [Int 8 esifHandle; Int 8 participantHandle; Int 8 domainHandle; DataPtr (const request request_); DataPtr response; Int 4 primitive; Int 1 instance]).

Definition Irpc_Encode_EsifWriteLogFunc (mem : list bool) (t : Transaction) (esifHandle participantHandle domainHandle : Z) (message : option EsifData) (logType : Z) : option (bool * Transaction) :=
  encode_function mem t IrpcFunc_EsifWriteLog (t_result t) (fun request =>
    [Int 8 esifHandle; Int 8 participantHandle; Int 8 domainHandle; DataPtr (const request message); Int 4 logType]).

(** Registering for an event and unregistering. *)
Definition Irpc_Encode_EsifEventActionFunc (mem : list bool) (t : Transaction) (funcId esifHandle participantHandle domainHandle : Z) (eventGuid : option EsifData) : option (bool * Transaction) :=
  encode_function mem t funcId (t_result t) (fun request =>
    [Int 8 esifHandle; Int 8 participantHandle; Int 8 domainHandle; DataPtr (const request eventGuid)]).

Definition Irpc_Encode_EsifSendEventFunc (mem : list bool) (t : Transaction) (esifHandle participantHandle domainHandle : Z) (eventData eventGuid : option EsifData) : option (bool * Transaction) :=
  encode_function mem t IrpcFunc_EsifSendEvent (t_result t) (fun request =>
    [Int 8 esifHandle; Int 8 participantHandle; Int 8 domainHandle; DataPtr (const request eventData); DataPtr (const request eventGuid)]).

(** The count of an array is sent only with the array. *)
Definition argc_field (argc : Z) (argv : option (list EsifData)) : field := Int 4 (if array_sent argc argv then argc else 0).
Definition Irpc_Encode_EsifSendCommandFunc (mem : list bool) (t : Transaction) (esifHandle argc : Z) (argv : option (list EsifData)) (response : option EsifData) : option (bool * Transaction) :=
  encode_function mem t IrpcFunc_EsifSendCommand (t_result t) (fun request =>
    [Int 8 esifHandle; argc_field argc (const request argv); DataArray argc (const request argv); DataPtr response]).

(* ------------------------------------------------------------------ *)
(** ** Objects of the application interface *)

Record EsifIfaceHdr : Type := mk_iface_hdr { fIfaceType : Z; fIfaceVersion : Z; fIfaceSize : Z }.
Definition Irpc_Cast_EsifIfaceHdr (h : EsifIfaceHdr) : list Z := le_bytes 4 (fIfaceType h) ++ le_bytes 2 (fIfaceVersion h) ++ le_bytes 2 (fIfaceSize h).
Definition Irpc_Uncast_EsifIfaceHdr (m : list Z) (pos : Z) : option EsifIfaceHdr :=
  t ← get_int 4 m pos; v ← get_int 2 m (pos + 4); s ← get_int 2 m (pos + 6); Some (mk_iface_hdr t v s).
(** Whether the header was appended. *)
Definition Irpc_Encode_EsifIfaceHdr (h : EsifIfaceHdr) : SM encoder bool := append_struct (Irpc_Cast_EsifIfaceHdr h).
Definition Irpc_Decode_EsifIfaceHdr (ok : bool) (m : list Z) (pos : Z) : option (option EsifIfaceHdr) := if ok then Some <$> Irpc_Uncast_EsifIfaceHdr m pos else Some None.

(** An interface is known by which of its functions are there, in the order of the
    structures: of an application from [fAppCreateFuncPtr] to [fAppEventFuncPtr], of ESIF
    from [fGetConfigFuncPtr] to [fSendCommandFuncPtr]. *)
Record AppInterfaceSet : Type := mk_iface_set { hdr : EsifIfaceHdr; appIface : list bool; esifIface : list bool }.
Definition IrpcFuncPtr2Id (present : bool) (id : Z) : Z := if present then id else IrpcFunc_None.
Definition app_ids : list Z :=
  [IrpcFunc_AppCreate; IrpcFunc_AppDestroy; IrpcFunc_AppSuspend; IrpcFunc_AppResume; IrpcFunc_AppGetVersion; IrpcFunc_AppCommand; IrpcFunc_AppGetIntro;
   IrpcFunc_AppGetDescription; IrpcFunc_AppGetName; IrpcFunc_AppGetStatus; IrpcFunc_AppParticipantCreate; IrpcFunc_AppParticipantDestroy;
   IrpcFunc_AppDomainCreate; IrpcFunc_AppDomainDestroy; IrpcFunc_AppEvent].
Definition esif_ids : list Z :=
  [IrpcFunc_EsifGetConfig; IrpcFunc_EsifSetConfig; IrpcFunc_EsifPrimitive; IrpcFunc_EsifWriteLog; IrpcFunc_EsifEventRegister; IrpcFunc_EsifEventUnregister;
   IrpcFunc_EsifSendEvent; IrpcFunc_EsifSendCommand].
Definition Irpc_Cast_AppInterface (fs : list bool) : list Z := concat (zip_with (fun present id => le_bytes 4 (IrpcFuncPtr2Id present id)) fs app_ids).
Definition Irpc_Cast_EsifInterface (fs : list bool) : list Z := concat (zip_with (fun present id => le_bytes 4 (IrpcFuncPtr2Id present id)) fs esif_ids).
Definition encoded_ifaceSet (s : AppInterfaceSet) : list Z := Irpc_Cast_EsifIfaceHdr (hdr s) ++ Irpc_Cast_AppInterface (appIface s) ++ Irpc_Cast_EsifInterface (esifIface s).

Record AppData : Type := mk_app_data { fPathHome : EsifData; fLogLevel : Z }.
(** The path follows whatever size its block claims. *)
Definition Irpc_Encode_AppData (d : AppData) : SM encoder bool :=
  let! ok := append_struct (Irpc_Cast_EsifData (fPathHome d) 4 ++ le_bytes 4 (fLogLevel d)) in
  if (ok : bool) then
    if bool_decide (d_buf (fPathHome d) = None) || (d_data_len (fPathHome d) =? 0) then sret true
    else append (d_buf (fPathHome d)) (d_data_len (fPathHome d))
  else sret false.
(** [pos] is where the object starts; NULL if it cannot be allocated. *)
Definition Irpc_Decode_AppData (ok1 ok2 : bool) (m : list Z) (pos : Z) : option (option AppData) :=
  if ok1 then
    ptr ← Irpc_Deserialize_EsifData ok2 None m pos (pos + sizeof_EsifData);
    d ← Irpc_Uncast_EsifData m pos ptr;
    l ← get_int 4 m (pos + 16);
    Some (Some (mk_app_data d l))
  else Some None.

Record AppParticipantData : Type := mk_part_data {
  p_fVersion : Z; p_fReserved : list Z;
  fDriverType : EsifData; fDeviceType : EsifData; p_fName : EsifData; fDesc : EsifData; fDriverName : EsifData; fDeviceName : EsifData; fDevicePath : EsifData;
  fDomainCount : Z; fReserved2 : list Z; fBusEnumerator : Z;
  fAcpiDevice : EsifData; fAcpiScope : EsifData; fAcpiUID : EsifData; fAcpiType : Z;
  fPciVendor : Z; fPciDevice : Z; fPciBus : Z; fPciBusDevice : Z; fPciFunction : Z; fPciRevision : Z; fPciClass : Z; fPciSubClass : Z; fPciProgIf : Z;
  fReserved3 : list Z
}.
(** An array of bytes, field by field: [Irpc_Init_Array]. *)
Definition byte_fields (n : nat) (l : list Z) : list field := map (fun i => Int 1 (nth i l 0)) (seq 0 n).
Definition participant_fields (d : AppParticipantData) : list field :=
  [Int 1 (p_fVersion d)] ++ byte_fields 3 (p_fReserved d) ++
  [Embed (fDriverType d); Embed (fDeviceType d); Embed (p_fName d); Embed (fDesc d); Embed (fDriverName d); Embed (fDeviceName d); Embed (fDevicePath d);
   Int 1 (fDomainCount d)] ++ byte_fields 3 (fReserved2 d) ++
  [Int 4 (fBusEnumerator d); Embed (fAcpiDevice d); Embed (fAcpiScope d); Embed (fAcpiUID d); Int 4 (fAcpiType d);
   Int 2 (fPciVendor d); Int 2 (fPciDevice d); Int 1 (fPciBus d); Int 1 (fPciBusDevice d); Int 1 (fPciFunction d); Int 1 (fPciRevision d);
   Int 1 (fPciClass d); Int 1 (fPciSubClass d); Int 1 (fPciProgIf d)] ++ byte_fields 1 (fReserved3 d).
Definition Irpc_Encode_AppParticipantData (d : AppParticipantData) : SM encoder bool := encode_struct (participant_fields d).

Record AppDomainData : Type := mk_domain_data {
  d_fVersion : Z; d_fReserved : list Z; d_fName : EsifData; fDescription : EsifData; fGuid : EsifData; fType : Z; fCapability : Z; fCapabilityBytes : list Z
}.
Definition domain_fields (d : AppDomainData) : list field :=
  [Int 1 (d_fVersion d)] ++ byte_fields 3 (d_fReserved d) ++ [Embed (d_fName d); Embed (fDescription d); Embed (fGuid d); Int 4 (fType d); Int 4 (fCapability d)] ++
  byte_fields 32 (fCapabilityBytes d).
Definition Irpc_Encode_AppDomainData (d : AppDomainData) : SM encoder bool := encode_struct (domain_fields d).

(** Reading a structure field by field. *)
Inductive kind : Type := KInt (w : nat) | KData.
Inductive value : Type := VInt (v : Z) | VData (d : EsifData).
Definition kind_width (k : kind) : Z := match k with KInt w => Z.of_nat w | KData => sizeof_EsifData end.
(** [oks] are the allocations of the blocks. *)
Fixpoint decode_fields (oks : list bool) (ks : list kind) (m : list Z) (pos : Z) : option (list value) :=
  match ks with
  | [] => Some []
  | KInt w :: ks => v ← get_int w m pos; rest ← decode_fields oks ks m (pos + Z.of_nat w); Some (VInt v :: rest)
  | KData :: ks =>
      ptr ← Irpc_Deserialize_EsifData (hd true oks) None m pos (pos + sizeof_EsifData);
      d ← Irpc_Uncast_EsifData m pos ptr;
      rest ← decode_fields (tl oks) ks m (pos + sizeof_EsifData); Some (VData d :: rest)
  end.
Definition vint (v : value) : Z := match v with VInt v => v | VData _ => 0 end.
Definition vdata (v : value) : EsifData := match v with VData d => d | VInt _ => mk_EsifData 0 None 0 0 end.
Definition int_at (l : list value) (i : nat) : Z := vint (nth i l (VInt 0)).
Definition data_at (l : list value) (i : nat) : EsifData := vdata (nth i l (VInt 0)).
Definition ints_at (l : list value) (i n : nat) : list Z := map (int_at l) (seq i n).

Definition participant_kinds : list kind :=
  repeat (KInt 1) 4 ++ repeat KData 7 ++ repeat (KInt 1) 4 ++ [KInt 4; KData; KData; KData; KInt 4; KInt 2; KInt 2] ++ repeat (KInt 1) 8.
Definition participant_of (l : list value) : AppParticipantData :=
  mk_part_data (int_at l 0) (ints_at l 1 3) (data_at l 4) (data_at l 5) (data_at l 6) (data_at l 7) (data_at l 8) (data_at l 9) (data_at l 10)
    (int_at l 11) (ints_at l 12 3) (int_at l 15) (data_at l 16) (data_at l 17) (data_at l 18) (int_at l 19)
    (int_at l 20) (int_at l 21) (int_at l 22) (int_at l 23) (int_at l 24) (int_at l 25) (int_at l 26) (int_at l 27) (int_at l 28) (ints_at l 29 1).
Definition Irpc_Decode_AppParticipantData (ok : bool) (oks : list bool) (m : list Z) (pos : Z) : option (option AppParticipantData) :=
  if ok then l ← decode_fields oks participant_kinds m pos; Some (Some (participant_of l)) else Some None.

Definition domain_kinds : list kind := repeat (KInt 1) 4 ++ [KData; KData; KData; KInt 4; KInt 4] ++ repeat (KInt 1) 32.
Definition domain_of (l : list value) : AppDomainData :=
  mk_domain_data (int_at l 0) (ints_at l 1 3) (data_at l 4) (data_at l 5) (data_at l 6) (int_at l 7) (int_at l 8) (ints_at l 9 32).
Definition Irpc_Decode_AppDomainData (ok : bool) (oks : list bool) (m : list Z) (pos : Z) : option (option AppDomainData) :=
  if ok then l ← decode_fields oks domain_kinds m pos; Some (Some (domain_of l)) else Some None.

(* ------------------------------------------------------------------ *)
(** ** The application interface *)

(** Getting the name, the description, the version and the introduction. *)
Definition Irpc_Encode_AppGetStringFunc (mem : list bool) (t : Transaction) (funcId appHandle : Z) (stringData : option EsifData) : option (bool * Transaction) :=
  encode_function mem t funcId (t_result t) (fun _ => [Int 8 appHandle; DataPtr stringData]).

Definition Irpc_Encode_AppCreateFunc (mem : list bool) (t : Transaction) (ifaceSetPtr : option AppInterfaceSet) (esifHandle : Z) (appHandlePtr : option Z) (appData : option AppData) (initialAppState : Z) : option (bool * Transaction) :=
  encode_function mem t IrpcFunc_AppCreate ESIF_OK (fun request =>
    [ObjPtr (option_map (fun s => append_struct (encoded_ifaceSet s)) ifaceSetPtr); Int 8 esifHandle;
     ObjPtr (option_map (fun h => append_struct (le_bytes 8 h)) appHandlePtr);
     ObjPtr (option_map Irpc_Encode_AppData (const request appData)); Int 4 initialAppState]).

(** Destroying, suspending and resuming. *)
Definition Irpc_Encode_AppHandleFunc (mem : list bool) (t : Transaction) (funcId appHandle : Z) : option (bool * Transaction) :=
  encode_function mem t funcId ESIF_OK (fun _ => [Int 8 appHandle]).

Definition Irpc_Encode_AppCommandFunc (mem : list bool) (t : Transaction) (appHandle argc : Z) (argv : option (list EsifData)) (response : option EsifData) : option (bool * Transaction) :=
  encode_function mem t IrpcFunc_AppCommand (t_result t) (fun request =>
    [Int 8 appHandle; argc_field argc (const request argv); DataArray argc (const request argv); DataPtr response]).

Definition Irpc_Encode_AppGetStatusFunc (mem : list bool) (t : Transaction) (appHandle command appStatusIn : Z) (appStatusOut : option EsifData) : option (bool * Transaction) :=
  encode_function mem t IrpcFunc_AppGetStatus (t_result t) (fun _ => [Int 8 appHandle; Int 4 command; Int 4 appStatusIn; DataPtr appStatusOut]).

Definition Irpc_Encode_AppParticipantCreateFunc (mem : list bool) (t : Transaction) (appHandle participantHandle : Z) (participantData : option AppParticipantData) (participantInitialState : Z) : option (bool * Transaction) :=
  encode_function mem t IrpcFunc_AppParticipantCreate ESIF_OK (fun request =>
    [Int 8 appHandle; Int 8 participantHandle; ObjPtr (option_map Irpc_Encode_AppParticipantData (const request participantData)); Int 4 participantInitialState]).

Definition Irpc_Encode_AppParticipantDestroyFunc (mem : list bool) (t : Transaction) (appHandle participantHandle : Z) : option (bool * Transaction) :=
  encode_function mem t IrpcFunc_AppParticipantDestroy ESIF_OK (fun _ => [Int 8 appHandle; Int 8 participantHandle]).

Definition Irpc_Encode_AppDomainCreateFunc (mem : list bool) (t : Transaction) (appHandle participantHandle domainHandle : Z) (domainDataPtr : option AppDomainData) (domainInitialState : Z) : option (bool * Transaction) :=
  encode_function mem t IrpcFunc_AppDomainCreate ESIF_OK (fun request =>
    [Int 8 appHandle; Int 8 participantHandle; Int 8 domainHandle; ObjPtr (option_map Irpc_Encode_AppDomainData (const request domainDataPtr)); Int 4 domainInitialState]).

Definition Irpc_Encode_AppDomainDestroyFunc (mem : list bool) (t : Transaction) (appHandle participantHandle domainHandle : Z) : option (bool * Transaction) :=
  encode_function mem t IrpcFunc_AppDomainDestroy ESIF_OK (fun _ => [Int 8 appHandle; Int 8 participantHandle; Int 8 domainHandle]).

Definition Irpc_Encode_AppEventFunc (mem : list bool) (t : Transaction) (appHandle participantHandle domainHandle : Z) (eventData eventGuid : option EsifData) : option (bool * Transaction) :=
  encode_function mem t IrpcFunc_AppEvent ESIF_OK (fun request =>
    [Int 8 appHandle; Int 8 participantHandle; Int 8 domainHandle; DataPtr (const request eventData); DataPtr (const request eventGuid)]).

(* ------------------------------------------------------------------ *)
(** ** Reading inside a larger message *)

Lemma read_at_inside pre m post pos n x : read_at pos n m = Some x -> read_at (size pre + pos) n (pre ++ m ++ post) = Some x.
Proof.
  unfold read_at. destruct (_ && _) eqn:E; [|done]. intros [= <-]. apply andb_prop in E as [E E3]. apply andb_prop in E as [E1 E2]. apply Z.leb_le in E1, E2, E3. pose proof (size_nonneg pre). pose proof (size_nonneg post).
  rewrite (proj2 (Z.leb_le 0 (size pre + pos))), (proj2 (Z.leb_le 0 n)), (proj2 (Z.leb_le _ (size (pre ++ m ++ post)))) by (rewrite ?size_app; lia). cbn [andb]. f_equal.
  replace (Z.to_nat (size pre + pos)) with (length pre + Z.to_nat pos)%nat by (unfold size; lia). rewrite drop_app_add. unfold size in *. rewrite drop_app_le by lia. rewrite take_app_le; [done|]. rewrite length_drop. lia.
Qed.
Lemma le_value_app n : forall a b v, le_value n a = Some v -> le_value n (a ++ b) = Some v.
Proof.
  induction n as [|n IH]; intros a b v; cbn [le_value]; [done|]. destruct a as [|x a]; [done|]. cbn [app]. destruct (le_value n a) as [y|] eqn:E; [|done]. by rewrite (IH _ b _ E).
Qed.
Lemma le_value_empty n b v : (0 < n)%nat -> le_value n b = Some v -> b <> [].
Proof. destruct n; [lia|]. by destruct b. Qed.
Lemma get_int_inside w pre m post pos v : (0 < w)%nat -> get_int w m pos = Some v -> get_int w (pre ++ m ++ post) (size pre + pos) = Some v.
Proof.
  unfold get_int. intros Hw. destruct (Z.leb_spec 0 pos) as [Hp|]; [|done]. intros Hv. pose proof (size_nonneg pre). rewrite (proj2 (Z.leb_le _ _)) by lia.
  replace (Z.to_nat (size pre + pos)) with (length pre + Z.to_nat pos)%nat by (unfold size; lia). rewrite drop_app_add.
  pose proof (le_value_empty w _ _ Hw Hv) as Hne. assert (Z.to_nat pos < length m)%nat by (destruct (Nat.lt_ge_cases (Z.to_nat pos) (length m)); [done|]; by rewrite drop_ge in Hne).
  rewrite drop_app_le by lia. by apply le_value_app.
Qed.

Lemma deserialize_inside pre m post ok into e o r : Irpc_Deserialize_EsifData ok into m e o = Some r -> Irpc_Deserialize_EsifData ok into (pre ++ m ++ post) (size pre + e) (size pre + o) = Some r.
Proof.
  unfold Irpc_Deserialize_EsifData. destruct (get_int 4 m (e + 4)) as [bl|] eqn:E1; [|done]. rewrite <- (Z.add_assoc (size pre) e 4). rewrite (get_int_inside 4 pre m post _ _ ltac:(lia) E1). cbn [mbind option_bind].
  destruct (bl =? 0); [done|]. destruct (match into with None => malloc ok bl | _ => into end) as [b|]; [|done].
  destruct (get_int 4 m (e + 8)) as [dl|] eqn:E2; [|done]. rewrite <- (Z.add_assoc (size pre) e 8). rewrite (get_int_inside 4 pre m post _ _ ltac:(lia) E2). cbn [mbind option_bind]. destruct (dl <=? bl); [|done].
  destruct (get_int 4 m (e + 12)) as [off|] eqn:E3; [|done]. rewrite <- (Z.add_assoc (size pre) e 12). rewrite (get_int_inside 4 pre m post _ _ ltac:(lia) E3). cbn [mbind option_bind].
  destruct (read_at (o + off) dl m) as [src|] eqn:E4; [|done]. rewrite <- (Z.add_assoc (size pre) o off). by rewrite (read_at_inside pre m post _ _ _ E4).
Qed.
Lemma uncast_inside pre m post e ptr d : Irpc_Uncast_EsifData m e ptr = Some d -> Irpc_Uncast_EsifData (pre ++ m ++ post) (size pre + e) ptr = Some d.
Proof.
  unfold Irpc_Uncast_EsifData. destruct (get_int 4 m e) as [t|] eqn:E1; [|done]. destruct (get_int 4 m (e + 4)) as [b|] eqn:E2; [|done]. destruct (get_int 4 m (e + 8)) as [l|] eqn:E3; [|done].
  rewrite <- !Z.add_assoc, (get_int_inside 4 pre m post _ _ ltac:(lia) E1), (get_int_inside 4 pre m post _ _ ltac:(lia) E2), (get_int_inside 4 pre m post _ _ ltac:(lia) E3). done.
Qed.

(* ------------------------------------------------------------------ *)
(** ** Structures of integers and buffers arrive *)

Definition kind_of (f : field) : option kind := match f with Int w _ => if decide (w = O) then None else Some (KInt w) | Embed _ => Some KData | _ => None end.
Definition value_of (f : field) : value := match f with Int w v => VInt (v mod 256 ^ Z.of_nat w) | Embed d => VData (received d) | _ => VInt 0 end.
Definition field_sendable (f : field) : Prop := match f with Embed d => sendable d /\ exact d | _ => True end.

Lemma kind_width_of f k : kind_of f = Some k -> width f = kind_width k.
Proof. destruct f; cbn; try done; [|by intros [= <-]]. case_decide; [done|]. by intros [= <-]. Qed.

(** What the fields from one on give. *)
Lemma decode_wire fs ps pre post : fields_ok fs ps -> Forall field_sendable fs -> Forall tight ps -> size (wire fs ps) < 2 ^ 32 - 1 ->
  forall i ks, mapM kind_of (drop i fs) = Some ks -> (i <= length fs)%nat ->
    decode_fields [] ks (pre ++ wire fs ps ++ post) (size pre + widths (take i fs)) = Some (map value_of (drop i fs)).
Proof.
  intros Hf Hs Ht Hsz i ks. remember (length fs - i)%nat as k eqn:Ek. revert i ks Ek. induction k as [|k IH]; intros i ks Ek Hks Hi.
  - rewrite drop_ge in * by lia. by injection Hks as <-.
  - destruct (lookup_lt_is_Some_2 fs i ltac:(lia)) as [f Hfi]. rewrite (drop_S _ _ _ Hfi) in *. cbn [mapM mbind option_bind] in Hks.
    destruct (kind_of f) as [kd|] eqn:Ekd; [|done]. cbn in Hks. destruct (mapM kind_of (drop (S i) fs)) as [ks'|] eqn:Eks; [|done]. injection Hks as <-.
    destruct (widths_split fs i f Hfi) as [_ Hw]. rewrite (kind_width_of _ _ Ekd) in Hw. specialize (IH (S i) ks' ltac:(lia) Eks ltac:(lia)). rewrite Hw, Z.add_assoc in IH.
    assert (Hti : Forall tight (take i ps)) by by apply Forall_take.
    destruct f as [w v|d| | |]; cbn in Ekd; try done; [case_decide; [done|]; injection Ekd as <-|injection Ekd as <-]; cbn [decode_fields kind_width hd] in *.
    + rewrite (get_int_inside w pre _ post _ _ ltac:(lia) (wire_int fs ps i w v Hf Hfi)). cbn [mbind option_bind]. by rewrite IH.
    + pose proof (Forall_lookup_1 _ _ _ _ Hs Hfi) as Hse. cbn [field_sendable] in Hse. destruct Hse as [Hse _]. destruct (wire_embed fs ps i d Hf Hfi Hse Hti Hsz) as [E1 E2]. destruct (widths_split fs i _ Hfi) as [_ Hw']. rewrite Hw' in E1. cbn [width] in E1.
      rewrite <- (Z.add_assoc (size pre) (widths (take i fs)) sizeof_EsifData). rewrite (deserialize_inside pre _ post _ _ _ _ _ E1). cbn [mbind option_bind]. rewrite (uncast_inside pre _ post _ _ _ E2). cbn [mbind option_bind tl]. rewrite (Z.add_assoc (size pre) (widths (take i fs)) sizeof_EsifData). by rewrite IH.
Qed.

(** Fields whose values fit. *)
Definition field_fits (f : field) : Prop := match f with Int w v => 0 <= v < 256 ^ Z.of_nat w | Embed d => sendable d /\ exact d | _ => True end.
Definition value_sent (f : field) : value := match f with Int w v => VInt v | Embed d => VData (received d) | _ => VInt 0 end.
Definition simple_part (f : field) : list Z * Z := match f with Embed d => (payload d, counted d) | _ => ([], 0) end.
Definition simple (f : field) : Prop := match f with Int _ _ | Embed _ => True | _ => False end.

Lemma values_sent fs : Forall field_fits fs -> map value_of fs = map value_sent fs.
Proof.
  intros Hf. apply map_ext_in. intros f Hin. apply list_elem_of_In in Hin. pose proof (proj1 (Forall_forall _ _) Hf f Hin) as Hff. destruct f as [w v| | | |]; cbn in *; try done. by rewrite Z.mod_small.
Qed.
Lemma simple_fields fs : Forall simple fs -> Forall field_fits fs -> fields_ok fs (map simple_part fs) /\ Forall tight (map simple_part fs) /\ Forall field_sendable fs.
Proof.
  intros Hs Hf. induction fs as [|f fs IH]; [repeat constructor|]. apply Forall_cons in Hs as [Hs Hs'], Hf as [Hf Hf']. destruct (IH Hs' Hf') as (A & B & C). destruct f as [w v|d| | |]; try done; cbn [map simple_part].
  - repeat split; [constructor; [done|done]|by constructor|by constructor].
  - destruct Hf as [[Hb He] Hx]. repeat split; [constructor; [done|done]| |by constructor]. constructor; [|done]. unfold tight. cbn. by apply payload_counted.
Qed.

(** A structure of such fields, encoded and decoded at any place in a message. *)
Lemma struct_arrives fs ks pre post : Forall simple fs -> Forall field_fits fs -> mapM kind_of fs = Some ks -> 0 < widths fs -> size (wire fs (map simple_part fs)) < 2 ^ 32 - 1 ->
  appends (encode_struct fs) true (wire fs (map simple_part fs)) /\
  decode_fields [] ks (pre ++ wire fs (map simple_part fs) ++ post) (size pre) = Some (map value_sent fs).
Proof.
  intros Hs Hf Hk Hw Hsz. destruct (simple_fields fs Hs Hf) as (A & B & C). split; [by apply encode_struct_ok|].
  pose proof (decode_wire fs (map simple_part fs) pre post A C B Hsz 0 ks Hk ltac:(lia)) as Hd. cbn [take widths] in Hd. rewrite Z.add_0_r in Hd. rewrite Hd. f_equal. change (drop 0 fs) with fs. by apply values_sent.
Qed.

Definition received_participant (d : AppParticipantData) : AppParticipantData :=
  mk_part_data (p_fVersion d) (p_fReserved d) (received (fDriverType d)) (received (fDeviceType d)) (received (p_fName d)) (received (fDesc d)) (received (fDriverName d)) (received (fDeviceName d)) (received (fDevicePath d))
    (fDomainCount d) (fReserved2 d) (fBusEnumerator d) (received (fAcpiDevice d)) (received (fAcpiScope d)) (received (fAcpiUID d)) (fAcpiType d)
    (fPciVendor d) (fPciDevice d) (fPciBus d) (fPciBusDevice d) (fPciFunction d) (fPciRevision d) (fPciClass d) (fPciSubClass d) (fPciProgIf d) (fReserved3 d).
Definition received_domain (d : AppDomainData) : AppDomainData :=
  mk_domain_data (d_fVersion d) (d_fReserved d) (received (d_fName d)) (received (fDescription d)) (received (fGuid d)) (fType d) (fCapability d) (fCapabilityBytes d).

Record participant_ok (d : AppParticipantData) : Prop := {
  po_fields : Forall field_fits (participant_fields d);
  po_reserved : length (p_fReserved d) = 3%nat /\ length (fReserved2 d) = 3%nat /\ length (fReserved3 d) = 1%nat
}.
Record domain_data_ok (d : AppDomainData) : Prop := {
  do_fields : Forall field_fits (domain_fields d);
  do_reserved : length (d_fReserved d) = 3%nat /\ length (fCapabilityBytes d) = 32%nat
}.
Definition participant_wire (d : AppParticipantData) : list Z := wire (participant_fields d) (map simple_part (participant_fields d)).
Definition domain_wire (d : AppDomainData) : list Z := wire (domain_fields d) (map simple_part (domain_fields d)).

Lemma list3 {A} (l : list A) : length l = 3%nat -> exists a b c, l = [a; b; c].
Proof. destruct l as [|a [|b [|c [|]]]]; try done. by exists a, b, c. Qed.
Lemma list1 {A} (l : list A) : length l = 1%nat -> exists a, l = [a].
Proof. destruct l as [|a [|]]; try done. by exists a. Qed.
Lemma simple_bytes n l : Forall simple (byte_fields n l).
Proof. unfold byte_fields. apply Forall_forall. intros f Hf. apply list_elem_of_In, in_map_iff in Hf as (i & <- & _). done. Qed.
Lemma ints_bytes n l : length l = n -> map (fun i => nth i l 0) (seq 0 n) = l.
Proof.
  intros <-. induction l as [|x l IH]; [done|]. cbn [length seq map nth]. f_equal. rewrite <- seq_shift, map_map. exact IH.
Qed.

(** The description of a participant arrives as it was sent, with all of its ten
    buffers of text.  The encoder appends to any message, when it does not run out of
    memory, the structure and the buffers' contents, and the decoder reads the same
    description from wherever it stands in the message received; a buffer arrives in a
    block of its own of the length that it claims, filled with zeroes. *)
Theorem participant_arrives (d : AppParticipantData) (pre post : list Z) (Hd : participant_ok d) (Hsize : size (participant_wire d) < 2 ^ 32 - 1) :
  appends (Irpc_Encode_AppParticipantData d) true (participant_wire d) /\
  Irpc_Decode_AppParticipantData true [] (pre ++ participant_wire d ++ post) (size pre) = Some (Some (received_participant d)).
Proof.
  destruct Hd as [Hf (H1 & H2 & H3)]. destruct (struct_arrives (participant_fields d) participant_kinds pre post) as [A B]; [|done| | |done|].
  - unfold participant_fields. rewrite !Forall_app. repeat split; try apply simple_bytes; repeat constructor.
  - done.
  - done.
  - split; [exact A|]. unfold Irpc_Decode_AppParticipantData. unfold participant_wire. rewrite B. cbn [mbind option_bind]. do 2 f_equal. destruct d as [ver res a b c e f g h cnt res2 bus ac1 ac2 ac3 act p1 p2 p3 p4 p5 p6 p7 p8 p9 res3]. cbn [p_fReserved fReserved2 fReserved3] in *.
    destruct (list3 _ H1) as (x1 & x2 & x3 & ->), (list3 _ H2) as (y1 & y2 & y3 & ->), (list1 _ H3) as (z1 & ->). reflexivity.
Qed.

(** A processor. *)
Definition demo_text (t : list Z) : EsifData := mk_EsifData 8 (Some t) (size t) (size t).
Definition demo_participant : AppParticipantData :=
  mk_part_data 2 [0; 0; 0] (demo_text [49; 0]) (demo_text []) (demo_text [84; 67; 80; 85; 0]) (demo_text [67; 80; 85; 0]) (mk_EsifData 8 None 0 0) (demo_text [0]) (mk_EsifData 8 None 0 0)
    3 [0; 0; 0] 1 (demo_text [73; 78; 84; 0]) (demo_text [92; 95; 83; 66; 0]) (mk_EsifData 8 (Some [48; 0; 0; 0]) 4 2) 0 0x8086 0x9A03 0 4 0 1 17 128 0 [0].
Lemma participant_arrives_witness :
  size (participant_wire demo_participant) = 211 /\
  appends (Irpc_Encode_AppParticipantData demo_participant) true (participant_wire demo_participant) /\
  Irpc_Decode_AppParticipantData true [] ([7; 7] ++ participant_wire demo_participant ++ [9]) (size [7; 7]) = Some (Some (received_participant demo_participant)).
Proof.
  assert (Hb : forall t n, 0 <= n <= size t -> size t < 100 -> field_fits (Embed (mk_EsifData 8 (Some t) (size t) n))).
  { intros t n Hn Ht. repeat split; cbn; try lia; try done. intros b [= <-] _. lia. }
  assert (Hn : field_fits (Embed (mk_EsifData 8 None 0 0))) by (repeat split; cbn; try lia; done).
  assert (Hok : participant_ok demo_participant).
  { split; [|done]. cbn -[demo_text field_fits]. repeat (apply Forall_cons; split); try done; try (cbn; lia); match goal with |- field_fits (Embed (demo_text ?t)) => apply (Hb t (size t)); unfold size; cbn [length]; lia | _ => apply (Hb [48; 0; 0; 0] 2); unfold size; cbn [length]; lia end. }
  split; [by vm_compute|]. exact (participant_arrives demo_participant [7; 7] [9] Hok ltac:(by vm_compute)).
Defined.
Lemma domain_arrives d pre post : domain_data_ok d -> size (domain_wire d) < 2 ^ 32 - 1 ->
  appends (Irpc_Encode_AppDomainData d) true (domain_wire d) /\
  Irpc_Decode_AppDomainData true [] (pre ++ domain_wire d ++ post) (size pre) = Some (Some (received_domain d)).
Proof.
  intros [Hf (H1 & H2)] Hsz. destruct (struct_arrives (domain_fields d) domain_kinds pre post) as [A B]; [|done| | |done|].
  - unfold domain_fields. rewrite !Forall_app. repeat split; try apply simple_bytes; repeat constructor.
  - done.
  - done.
  - split; [exact A|]. unfold Irpc_Decode_AppDomainData, domain_wire. rewrite B. cbn [mbind option_bind]. do 2 f_equal. destruct d as [ver res a b c ty cap bytes]. cbn [d_fReserved fCapabilityBytes] in *.
    destruct (list3 _ H1) as (x1 & x2 & x3 & ->). rewrite <- (ints_bytes 32 bytes H2) at 2. reflexivity.
Qed.

(* ------------------------------------------------------------------ *)
(** ** A call as a message *)

Lemma header_parts msgtype funcId t result : fields_ok (irpc_header msgtype funcId t result) (map simple_part (irpc_header msgtype funcId t result)).
Proof. repeat constructor. Qed.
Lemma fields_ok_app fs ps fs' ps' : fields_ok fs ps -> fields_ok fs' ps' -> fields_ok (fs ++ fs') (ps ++ ps').
Proof. intros H H'. induction H as [|f p n fs ps Hf Hfs IH]; [done|]. by constructor. Qed.

(** The parts of a whole message. *)
Definition msg_fields (msgtype funcId : Z) (t : Transaction) (result : Z) (fs : list field) : list field := irpc_header msgtype funcId t result ++ fs.
Definition msg_parts (ps : list (list Z * Z)) : list (list Z * Z) := repeat ([], 0) 7 ++ ps.
Definition msg_wire (msgtype funcId : Z) (t : Transaction) (result : Z) (fs : list field) (ps : list (list Z * Z)) : list Z := wire (msg_fields msgtype funcId t result fs) (msg_parts ps).

Lemma msg_fields_ok msgtype funcId t result fs ps : fields_ok fs ps -> fields_ok (msg_fields msgtype funcId t result fs) (msg_parts ps).
Proof. intros H. apply fields_ok_app; [apply header_parts|done]. Qed.
Lemma msg_widths msgtype funcId t result fs : widths (msg_fields msgtype funcId t result fs) = 38 + widths fs.
Proof. unfold msg_fields. by rewrite widths_app. Qed.
(** A field of the parameters in the whole message. *)
Lemma msg_lookup msgtype funcId t result fs i : msg_fields msgtype funcId t result fs !! (7 + i)%nat = fs !! i.
Proof. done. Qed.
Lemma msg_take msgtype funcId t result fs i : widths (take (7 + i) (msg_fields msgtype funcId t result fs)) = 38 + widths (take i fs).
Proof. unfold msg_fields. change (take (7 + i) (irpc_header msgtype funcId t result ++ fs)) with (irpc_header msgtype funcId t result ++ take i fs). by rewrite widths_app. Qed.
Lemma msg_tight ps i : Forall tight (take i ps) -> Forall tight (take (7 + i) (msg_parts ps)).
Proof. intros H. change (take (7 + i) (msg_parts ps)) with (repeat ([] : list Z, 0) 7 ++ take i ps). apply Forall_app. split; [repeat constructor|done]. Qed.

Lemma encode_request mem t b funcId result params ps : t_response t = None -> t_request t = Some b -> holds b [] -> Forall (eq true) mem -> fields_ok (params true) ps -> size (msg_wire IrpcMsg_ProcRequest funcId t result (params true) ps) < 2 ^ 62 ->
  exists b', encode_function mem t funcId result params = Some (true, with_request (Some b') t) /\ holds b' (msg_wire IrpcMsg_ProcRequest funcId t result (params true) ps).
Proof.
  intros Hr Hq Hb Hm Hf Hsz. unfold encode_function. rewrite Hr, Hq.
  destruct (encode_struct_ok _ _ (msg_fields_ok IrpcMsg_ProcRequest funcId t result _ _ Hf)) with (s := mk_encoder b mem) (data := @nil Z) as (s' & E & [Hs' _]); [rewrite msg_widths; pose proof (widths_nonneg (params true)); lia|by split|done|].
  unfold msg_fields in E. rewrite E. exists (blob s'). by split.
Qed.
Lemma encode_response mem t b data funcId result params ps : t_response t = Some b -> holds b data -> Forall (eq true) mem -> fields_ok (params false) ps -> size data + size (msg_wire IrpcMsg_ProcResponse funcId t result (params false) ps) < 2 ^ 62 ->
  exists b', encode_function mem t funcId result params = Some (true, with_response (Some b') t) /\ holds b' (data ++ msg_wire IrpcMsg_ProcResponse funcId t result (params false) ps).
Proof.
  intros Hr Hb Hm Hf Hsz. unfold encode_function. rewrite Hr.
  destruct (encode_struct_ok _ _ (msg_fields_ok IrpcMsg_ProcResponse funcId t result _ _ Hf)) with (s := mk_encoder b mem) (data := data) as (s' & E & [Hs' _]); [rewrite msg_widths; pose proof (widths_nonneg (params false)); lia|by split|done|].
  unfold msg_fields in E. rewrite E. exists (blob s'). by split.
Qed.

(** The header of a message, wherever a value fits its width. *)
Lemma msg_header msgtype funcId t result fs ps : fields_ok fs ps -> 0 <= msgtype < 2 ^ 32 -> 0 <= funcId < 2 ^ 32 -> 0 <= t_trxId t < 2 ^ 64 -> 0 <= result < 2 ^ 32 ->
  let m := msg_wire msgtype funcId t result fs ps in
  get_int 4 m 0 = Some msgtype /\ get_int 4 m 6 = Some funcId /\ get_int 8 m 10 = Some (t_trxId t) /\ get_int 4 m 34 = Some result.
Proof.
  intros Hf Hm Hfn Ht Hr m. pose proof (msg_fields_ok msgtype funcId t result _ _ Hf) as Hw. unfold m, msg_wire. repeat split.
  - pose proof (wire_int _ _ 0 4 msgtype Hw eq_refl) as E. cbn [take widths msg_fields irpc_header app width] in E. rewrite Z.mod_small in E by done. exact E.
  - pose proof (wire_int _ _ 2 4 funcId Hw eq_refl) as E. cbn [take widths msg_fields irpc_header app width] in E. rewrite Z.mod_small in E by done. exact E.
  - pose proof (wire_int _ _ 3 8 (t_trxId t) Hw eq_refl) as E. cbn [take widths msg_fields irpc_header app width] in E. rewrite Z.mod_small in E by done. exact E.
  - pose proof (wire_int _ _ 6 4 result Hw eq_refl) as E. cbn [take widths msg_fields irpc_header app width] in E. rewrite Z.mod_small in E by done. exact E.
Qed.

(** The parameters of a message. *)
Section Params.
Context (msgtype funcId : Z) (t : Transaction) (result : Z) (fs : list field) (ps : list (list Z * Z)).
Context (Hf : fields_ok fs ps) (Hsz : size (msg_wire msgtype funcId t result fs ps) < 2 ^ 32 - 1).
Local Abbreviation m := (msg_wire msgtype funcId t result fs ps).

Lemma param_int i w v pos : fs !! i = Some (Int w v) -> 0 <= v < 256 ^ Z.of_nat w -> pos = 38 + widths (take i fs) -> get_int w m pos = Some v.
Proof.
  intros Hi Hv ->. pose proof (wire_int _ _ (7 + i) w v (msg_fields_ok msgtype funcId t result _ _ Hf) Hi) as E. rewrite msg_take, Z.mod_small in E by done. exact E.
Qed.
Lemma param_data i d into pos : fs !! i = Some (DataPtr (Some d)) -> sendable d -> Forall tight (take i ps) -> pos = 38 + widths (take i fs) ->
  Irpc_Deserialize_EsifDataPtr true true into m pos (pos + 4) = Some (Some (received d)).
Proof.
  intros Hi Hs Ht ->. pose proof (wire_ptr _ _ (7 + i) d into (msg_fields_ok msgtype funcId t result _ _ Hf) Hi Hs (msg_tight _ _ Ht) Hsz) as E.
  change (S (7 + i)) with (7 + S i)%nat in E. rewrite !msg_take in E. destruct (widths_split fs i _ Hi) as [_ Hw]. rewrite Hw in E. cbn [width] in E. by rewrite Z.add_assoc in E.
Qed.
Lemma param_null i ok1 ok2 into pos : fs !! i = Some (DataPtr None) -> pos = 38 + widths (take i fs) -> Irpc_Deserialize_EsifDataPtr ok1 ok2 into m pos (pos + 4) = Some into.
Proof.
  intros Hi ->. pose proof (wire_null _ _ (7 + i) ok1 ok2 into (msg_fields_ok msgtype funcId t result _ _ Hf) Hi) as E.
  change (S (7 + i)) with (7 + S i)%nat in E. rewrite !msg_take in E. destruct (widths_split fs i _ Hi) as [_ Hw]. rewrite Hw in E. cbn [width] in E. by rewrite Z.add_assoc in E.
Qed.
Lemma param_array i k l pos : fs !! i = Some (DataArray k (Some l)) -> array_sent k (Some l) = true -> k = Z.of_nat (length l) -> Forall stacked l -> Forall tight (take i ps) -> pos = 38 + widths (take i fs) ->
  Irpc_Deserialize_EsifDataArray true [] k m pos (pos + 4) = Some (Some (map received l)).
Proof.
  intros Hi Hsent Hk Hl Ht ->. pose proof (wire_array _ _ (7 + i) k l (msg_fields_ok msgtype funcId t result _ _ Hf) Hi Hsent Hk Hl (msg_tight _ _ Ht) Hsz) as E.
  change (S (7 + i)) with (7 + S i)%nat in E. rewrite !msg_take in E. destruct (widths_split fs i _ Hi) as [_ Hw]. rewrite Hw in E. cbn [width] in E. by rewrite Z.add_assoc in E.
Qed.
End Params.
