(* ===== verification/IrpcServer.v ===== *)
(** * The server's side of remote calls: IPF ipfsrv/ipfsrv_irpc.c

    A frame from a client is a header and a message ([esif_sdk_message.h]).  The server
    takes the message out of it (ipfsrv_ws_socket.c), makes it a transaction of the
    client's connection, decodes the call, asks the authorisation manager for it
    (AuthMgr.v) and encodes the answer; a worker thread (ipfsrv_ws_server.c) puts the
    header in front and sends it.  The queue between the two and the sockets are left
    out: what arrives in a frame is worked on and sent. *)

From stdpp Require Import list.
From S2P Require Import Prelude EsifData AuthMgr IBinary IrpcCodec IrpcMsg.
Local Open Scope Z_scope.
Local Open Scope dptf_scope.

(* ------------------------------------------------------------------ *)
(** ** Frames: Common/esif_sdk_message.h *)

Definition ESIFMSG_SIGNATURE : Z := 0xD8E5.
Definition ESIFMSG_VERSION : Z := 0x01000000.
Definition ESIFMSG_CLASS_IRPC : Z := 0x43505249.
Definition sizeof_EsifMsgHdr : Z := 16.
(** The header that all senders write: [EsifMsgHdr header = {...}]. *)
Definition EsifMsgHdr (msgclass msglen : Z) : list Z :=
  le_bytes 2 ESIFMSG_SIGNATURE ++ le_bytes 2 sizeof_EsifMsgHdr ++ le_bytes 4 ESIFMSG_VERSION ++ le_bytes 4 msgclass ++ le_bytes 4 msglen.
(** Putting the header in front of a message: [header.v1.msglen = ...] and the
    [IBinary_Insert] after it.  What is sent is the data of the buffer. *)
Definition with_header (mem : bool) (blob : IBinary) : option (option (list Z)) :=
  let header := EsifMsgHdr ESIFMSG_CLASS_IRPC (u32 (IBinary_GetLen blob)) in
  match IBinary_Insert mem (Some header) (size header) 0 blob with
  | Some (true, b) => match IBinary_GetBuf b with Some m => Some <$> read_at 0 (IBinary_GetLen b) m | None => None end
  | Some (false, _) => Some None
  | None => None
  end.

(** The new buffer that gets a message of a frame, with its two allocations; [None] inside
    if there is none. *)
Definition clone_message (ok : bool) (message : list Z) (msglen : Z) : option (option IBinary) :=
  match IBinary_Create ok with
  | Some b => match IBinary_Clone ok ok (Some message) msglen b with Some (r, b) => Some (if (r : bool) then Some b else None) | None => None end
  | None => Some None
  end.

(** The outcome of an allocation, by its place; those not listed succeed. *)
Definition alloc (oks : list bool) (i : nat) : bool := nth i oks true.

(* ------------------------------------------------------------------ *)
(** ** A transaction on the server *)

Definition IpfServer_Trx (fresh : Z * Z * Z) (ipfHandle : Z) (blob : IBinary) : Transaction :=
  mk_trx (Some blob) None fresh.1.1 fresh.1.2 fresh.2 ESIF_OK ipfHandle.

(** [EsifData decoded = { 0 }]. *)
Definition nothing : EsifData := mk_EsifData 0 None 0 0.
(** [Irpc_Deserialize_EsifDataPtr(&decoded, &ipcbuf->field, Irpc_OffsetFrom( *ipcbuf, field))]. *)
Definition param (ok : bool) (m : list Z) (pos : Z) : option EsifData :=
  match Irpc_Deserialize_EsifDataPtr true ok (Some nothing) m pos (pos + 4) with Some (Some d) => Some d | _ => None end.

Section Server.
Context {W : Type} `{IpfSrv W}.

(** What the handlers share.  [decode] reads the parameters, [None] inside when there is
    none; [auth] is the call of the authorisation manager, which gives the result and
    the buffer for the answer; without it the result stays as it was.  [encode] writes
    the answer, of which the type and the result are then set. *)
Definition respond {A} (ok : bool) (t : Transaction) (funcId : Z) (decode : list Z -> option (option A))
    (auth : Z -> A -> SM W (Z * option EsifData)) (given : A -> option EsifData)
    (encode : Transaction -> Z -> A -> option EsifData -> option (bool * Transaction)) : SM W (Z * Transaction) :=
  let! w := sget in
  let esifHandle := AppSessionMgr_GetEsifHandleByHandle w (t_ipfHandle t) in
  match t_request t with
  | None => sret (ESIF_E_PARAMETER_IS_NULL, t)
  | Some request =>
      match IBinary_GetBuf request with
      | None => sret (ESIF_E_PARAMETER_IS_NULL, t)
      | Some m =>
          let! id := of_option (get_int 4 m 6) in
          if negb (esifHandle =? ESIF_INVALID_HANDLE) && (id =? funcId) then
            match IBinary_Create ok with
            | None => sret (ESIF_E_PARAMETER_IS_NULL, t)
            | Some response =>
                let t := with_response (Some response) t in
                let! args := of_option (decode m) in
                match args with
                | None => sret (ESIF_E_PARAMETER_IS_NULL, t)
                | Some a =>
                    let! trxId := of_option (get_int 8 m 10) in
                    let t := with_trxId trxId t in
                    let! handle := of_option (get_int 8 m 38) in
                    let! r := if t_ipfHandle t =? handle then auth esifHandle a else sret (t_result t, given a) in
                    let t := with_result r.1 t in
                    let! e := of_option (encode t handle a r.2) in
                    let '(written, t) := e in
                    if (written : bool) then
                      match t_response t with
                      | Some b =>
                          let! b := of_option (option_map snd (write_buf 0 (le_bytes 4 IrpcMsg_ProcResponse) b)) in
                          let! b := of_option (option_map snd (write_buf 34 (le_bytes 4 (t_result t)) b)) in
                          sret (ESIF_OK, with_response (Some b) t)
                      | None => ub
                      end
                    else sret (ESIF_E_PARAMETER_IS_NULL, t)
                end
            end
          else sret (ESIF_E_PARAMETER_IS_NULL, t)
      end
  end.

(** The allocations of a handler: the response buffer, then the blocks decoded; the
    encoder has its own ([mem]). *)
Definition Irpc_Response_EsifGetConfig (oks mem : list bool) (t : Transaction) : SM W (Z * Transaction) :=
  respond (alloc oks 0) t IrpcFunc_EsifGetConfig
    (fun m => n ← param (alloc oks 1) m 46; k ← param (alloc oks 2) m 50; v ← param (alloc oks 3) m 54; Some (Some (n, k, v)))
    (fun h '(n, k, v) => AuthMgr_EsifGetConfig h (Some n) (Some k) (Some v)) (fun '(n, k, v) => Some v)
    (fun t handle _ v => Irpc_Encode_EsifGetConfigFunc mem t handle None None v).

Definition Irpc_Response_EsifSetConfig (oks mem : list bool) (t : Transaction) : SM W (Z * Transaction) :=
  respond (alloc oks 0) t IrpcFunc_EsifSetConfig
    (fun m => n ← param (alloc oks 1) m 46; k ← param (alloc oks 2) m 50; v ← param (alloc oks 3) m 54; f ← get_int 4 m 58; Some (Some (n, k, v, f)))
    (fun h '(n, k, v, f) => let! rc := AuthMgr_EsifSetConfig h (Some n) (Some k) (Some v) f in sret (rc, None)) (fun _ => None)
    (fun t handle '(n, k, v, f) _ => Irpc_Encode_EsifSetConfigFunc mem t handle None None None f).

Definition Irpc_Response_EsifPrimitive (oks mem : list bool) (t : Transaction) : SM W (Z * Transaction) :=
  respond (alloc oks 0) t IrpcFunc_EsifPrimitive
    (fun m => req ← param (alloc oks 1) m 62; resp ← param (alloc oks 2) m 66; ph ← get_int 8 m 46; dh ← get_int 8 m 54; p ← get_int 4 m 70; i ← get_int 1 m 74; Some (Some (req, resp, ph, dh, p, i)))
    (fun h '(req, resp, ph, dh, p, i) => AuthMgr_EsifPrimitive h ph dh (Some req) (Some resp) p i) (fun '(req, resp, ph, dh, p, i) => Some resp)
    (fun t handle '(req, resp, ph, dh, p, i) v => Irpc_Encode_EsifPrimitiveFunc mem t handle ph dh None v p i).

Definition Irpc_Response_EsifWriteLog (oks mem : list bool) (t : Transaction) : SM W (Z * Transaction) :=
  respond (alloc oks 0) t IrpcFunc_EsifWriteLog
    (fun m => msg ← param (alloc oks 1) m 62; ph ← get_int 8 m 46; dh ← get_int 8 m 54; l ← get_int 4 m 66; Some (Some (msg, ph, dh, l)))
    (fun h '(msg, ph, dh, l) => let! rc := AuthMgr_EsifWriteLog h ph dh (Some msg) l in sret (rc, None)) (fun _ => None)
    (fun t handle '(msg, ph, dh, l) _ => Irpc_Encode_EsifWriteLogFunc mem t handle ph dh None l).

(** The answer carries ESIF's handle of the session instead of the client's. *)
Definition Irpc_Response_EsifEventAction (oks mem : list bool) (t : Transaction) (funcId : Z) : SM W (Z * Transaction) :=
  let! w := sget in
  respond (alloc oks 0) t funcId
    (fun m => g ← param (alloc oks 1) m 62; ph ← get_int 8 m 46; dh ← get_int 8 m 54; Some (Some (g, ph, dh)))
    (fun h '(g, ph, dh) =>
       let! rc :=
         if funcId =? IrpcFunc_EsifEventRegister then AuthMgr_EsifEventRegister h ph dh (Some g)
         else if funcId =? IrpcFunc_EsifEventUnregister then AuthMgr_EsifEventUnregister h ph dh (Some g)
         else sret ESIF_E_INVALID_REQUEST_TYPE in
       sret (rc, None)) (fun _ => None)
    (fun t' handle '(g, ph, dh) _ => Irpc_Encode_EsifEventActionFunc mem t' funcId (AppSessionMgr_GetEsifHandleByHandle w (t_ipfHandle t)) ph dh None).
Definition Irpc_Response_EsifEventRegister (oks mem : list bool) (t : Transaction) : SM W (Z * Transaction) := Irpc_Response_EsifEventAction oks mem t IrpcFunc_EsifEventRegister.
Definition Irpc_Response_EsifEventUnregister (oks mem : list bool) (t : Transaction) : SM W (Z * Transaction) := Irpc_Response_EsifEventAction oks mem t IrpcFunc_EsifEventUnregister.

Definition Irpc_Response_EsifSendEvent (oks mem : list bool) (t : Transaction) : SM W (Z * Transaction) :=
  respond (alloc oks 0) t IrpcFunc_EsifSendEvent
    (fun m => d ← param (alloc oks 1) m 62; g ← param (alloc oks 2) m 66; ph ← get_int 8 m 46; dh ← get_int 8 m 54; Some (Some (d, g, ph, dh)))
    (fun h '(d, g, ph, dh) => let! rc := AuthMgr_EsifSendEvent h ph dh (Some d) (Some g) in sret (rc, None)) (fun _ => None)
    (fun t handle '(d, g, ph, dh) _ => Irpc_Encode_EsifSendEventFunc mem t handle ph dh None None).

(** An array or an answer that is missing ends the handler. *)
Definition Irpc_Response_EsifSendCommand (oks mem : list bool) (t : Transaction) : SM W (Z * Transaction) :=
  respond (alloc oks 0) t IrpcFunc_EsifSendCommand
    (fun m =>
       argc ← get_int 4 m 46;
       argv ← Irpc_Deserialize_EsifDataArray (alloc oks 1) (drop 4 oks) argc m 50 54;
       resp ← Irpc_Deserialize_EsifDataPtr (alloc oks 2) (alloc oks 3) None m 54 58;
       Some (match argv, resp with Some l, Some r => Some (argc, l, r) | _, _ => None end))
    (fun h '(argc, l, r) => AuthMgr_EsifSendCommand h argc (Some l) (Some r)) (fun '(argc, l, r) => Some r)
    (fun t handle '(argc, l, r) v => Irpc_Encode_EsifSendCommandFunc mem t handle argc None v).

(** The dispatcher. *)
Definition IrpcTransaction_EsifRequest (oks mem : list bool) (t : Transaction) : SM W (Z * Transaction) :=
  match t_request t, t_response t with
  | Some request, None =>
      match IBinary_GetBuf request with
      | None => ub
      | Some m =>
          let t := with_result ESIF_E_INVALID_HANDLE t in
          let! funcId := of_option (get_int 4 m 6) in
          let! r :=
            if funcId =? IrpcFunc_EsifGetConfig then Irpc_Response_EsifGetConfig oks mem t
            else if funcId =? IrpcFunc_EsifSetConfig then Irpc_Response_EsifSetConfig oks mem t
            else if funcId =? IrpcFunc_EsifPrimitive then Irpc_Response_EsifPrimitive oks mem t
            else if funcId =? IrpcFunc_EsifWriteLog then Irpc_Response_EsifWriteLog oks mem t
            else if funcId =? IrpcFunc_EsifEventRegister then Irpc_Response_EsifEventRegister oks mem t
            else if funcId =? IrpcFunc_EsifEventUnregister then Irpc_Response_EsifEventUnregister oks mem t
            else if funcId =? IrpcFunc_EsifSendEvent then Irpc_Response_EsifSendEvent oks mem t
            else if funcId =? IrpcFunc_EsifSendCommand then Irpc_Response_EsifSendCommand oks mem t
            else sret (ESIF_E_NOT_IMPLEMENTED, with_result ESIF_E_NOT_IMPLEMENTED t) in
          sret (if (r.1 =? ESIF_OK) && bool_decide (t_response r.2 = None) then ESIF_E_NO_MEMORY else r.1, r.2)
      end
  | _, _ => sret (ESIF_E_PARAMETER_IS_NULL, t)
  end.

(* ------------------------------------------------------------------ *)
(** ** From frame to frame *)

(** A binary frame of a client's connection ([WebServer_WebsocketResponse]); the message
    that goes to [WebServer_IrpcProcess]. *)
Definition receive_frame (ok : bool) (payload : list Z) : option (Z * option IBinary) :=
  if size payload <? sizeof_EsifMsgHdr then Some (ESIF_OK, None)
  else
    signature ← get_int 2 payload 0;
    if signature =? ESIFMSG_SIGNATURE then
      msgclass ← get_int 4 payload 8;
      if msgclass =? ESIFMSG_CLASS_IRPC then
        msglen ← get_int 4 payload 12;
        blob ← clone_message ok (drop 16 payload) msglen;
        Some (ESIF_OK, blob)
      else Some (ESIF_E_INVALID_REQUEST_TYPE, None)
    else Some (ESIF_OK, None).

(** A request ([WebServer_IrpcProcess]): the transaction that the worker gets. *)
Definition receive_request (ok : bool) (fresh : Z * Z * Z) (ipfHandle : Z) (blob : IBinary) : SM W (option Transaction) :=
  match IBinary_GetBuf blob with
  | None => sret None
  | Some m =>
      let! msgtype := of_option (get_int 4 m 0) in
      let! w := sget in
      if (msgtype =? IrpcMsg_ProcRequest) && ok && negb (bool_decide (AppSessionMgr_GetSessionByHandle w ipfHandle = None))
      then sret (Some (IpfServer_Trx fresh ipfHandle blob)) else sret None
  end.

(** The worker ([WebServer_IrpcMain]): the frame that is sent, if there is one. *)
Definition work (oks mem : list bool) (t : Transaction) : SM W (option (list Z)) :=
  let! r := IrpcTransaction_EsifRequest oks mem t in
  if r.1 =? ESIF_OK then match t_response r.2 with Some b => of_option (with_header true b) | None => ub end else sret None.

(** All of it, for one frame. *)
Definition answer_frame (oks mem : list bool) (fresh : Z * Z * Z) (ipfHandle : Z) (payload : list Z) : SM W (option (list Z)) :=
  let! r := of_option (receive_frame true payload) in
  match r.2 with
  | None => sret None
  | Some blob =>
      let! t := receive_request true fresh ipfHandle blob in
      match t with Some t => work oks mem t | None => sret None end
  end.
End Server.
