(* ===== verification/IrpcClient.v ===== *)
(** * The client's side of remote calls: IPF ipfipc/ipfipc_irpc.c

    ESIF's functions as an application in another process sees them: each encodes its
    call into a transaction, hands it to the thread that talks to the server, waits for
    the answer, and decodes it into the caller's buffer.  Handing over and waiting
    ([IrpcTransaction_QueueRequest], [IrpcTransaction_WaitForResponse]; the transactions
    themselves are in TrxMgr.v) are a parameter: a computation that gets the bytes to
    send and gives a result code and the response. *)

From stdpp Require Import list strings.
From S2P Require Import Prelude CString SdkVersion EsifData IBinary IrpcCodec IrpcMsg IrpcServer.
Local Open Scope Z_scope.
Local Open Scope dptf_scope.

(** What a call gives: its result and the caller's buffer. *)
Abbreviation outcome := (Z * option EsifData)%type.

Section Client.
Context {W : Type} (exchange : Transaction -> list Z -> SM W (Z * option IBinary)).

(** What the functions share.  [trx] is the new transaction ([None] without memory), of
    the session of the handle if there is one; [encode] puts the call into it, [finish]
    reads the answer, and [into] is the caller's buffer. *)
Definition Irpc_Request (mem : bool) (trx : option Transaction) (session : option Z) (funcId : Z)
    (encode : Transaction -> option (bool * Transaction)) (finish : list Z -> option outcome) (into : option EsifData) : SM W outcome :=
  match trx with
  | None => sret (ESIF_E_PARAMETER_IS_NULL, into)
  | Some t =>
      let t := match session with Some h => mk_trx (t_request t) (t_response t) (t_trxId t) (t_clockticks t) (t_clocktime t) (t_result t) h | None => t end in
      let! e := of_option (encode t) in
      let '(written, t) := e in
      let! r :=
        if (written : bool) then
          match t_request t with
          | Some blob =>
              let! frame := of_option (with_header mem blob) in
              match frame with Some frame => exchange t frame | None => sret (ESIF_E_PARAMETER_IS_NULL, None) end
          | None => sret (ESIF_E_PARAMETER_IS_NULL, None)
          end
        else sret (ESIF_E_PARAMETER_IS_NULL, None) in
      let '(rc, response) := r in
      if rc =? ESIF_OK then
        match response with
        | None => sret (rc, into)
        | Some b =>
            match IBinary_GetBuf b with
            | None => sret (rc, into)
            | Some m =>
                let! id := of_option (get_int 4 m 6) in
                if id =? funcId then of_option (finish m) else sret (rc, into)
            end
        end
      else sret (rc, into)
  end.

(** The answer is a result alone, or a result and a buffer at a position; an error of the
    call comes before an error of decoding. *)
Definition result_only (m : list Z) : option outcome := result ← get_int 4 m 34; Some (result, None).
Definition result_and_data (ok1 ok2 : bool) (into : option EsifData) (pos : Z) (m : list Z) : option outcome :=
  r ← Irpc_Unmarshall_EsifDataPtr ok1 ok2 into m pos (pos + 4);
  result ← get_int 4 m 34;
  Some (if (r.1 =? ESIF_OK) || negb (result =? ESIF_OK) then result else r.1, r.2).

(** [oks] are the allocations of the header's insertion and of the decoding, [mem] those
    of the encoder. *)
Context (oks mem : list bool) (trx : option Transaction) (session : option Z).

Definition Irpc_Request_EsifGetConfig (esifHandle : Z) (nameSpace elementPath elementValue : option EsifData) : SM W outcome :=
  Irpc_Request (alloc oks 0) trx session IrpcFunc_EsifGetConfig
    (fun t => Irpc_Encode_EsifGetConfigFunc mem t esifHandle nameSpace elementPath elementValue)
    (result_and_data (alloc oks 1) (alloc oks 2) elementValue 54) elementValue.

Definition Irpc_Request_EsifSetConfig (esifHandle : Z) (nameSpace elementPath elementValue : option EsifData) (elementFlags : Z) : SM W outcome :=
  Irpc_Request (alloc oks 0) trx session IrpcFunc_EsifSetConfig
    (fun t => Irpc_Encode_EsifSetConfigFunc mem t esifHandle nameSpace elementPath elementValue elementFlags) result_only None.

Definition Irpc_Request_EsifPrimitive (esifHandle participantHandle domainHandle : Z) (request response : option EsifData) (primitive instance : Z) : SM W outcome :=
  Irpc_Request (alloc oks 0) trx session IrpcFunc_EsifPrimitive
    (fun t => Irpc_Encode_EsifPrimitiveFunc mem t esifHandle participantHandle domainHandle request response primitive instance)
    (result_and_data (alloc oks 1) (alloc oks 2) response 66) response.

Definition Irpc_Request_EsifWriteLog (esifHandle participantHandle domainHandle : Z) (message : option EsifData) (logType : Z) : SM W outcome :=
  Irpc_Request (alloc oks 0) trx session IrpcFunc_EsifWriteLog
    (fun t => Irpc_Encode_EsifWriteLogFunc mem t esifHandle participantHandle domainHandle message logType) result_only None.

Definition Irpc_Request_EsifEventAction (funcId esifHandle participantHandle domainHandle : Z) (eventGuid : option EsifData) : SM W outcome :=
  Irpc_Request (alloc oks 0) trx session funcId
    (fun t => Irpc_Encode_EsifEventActionFunc mem t funcId esifHandle participantHandle domainHandle eventGuid) result_only None.
Definition Irpc_Request_EsifEventRegister := Irpc_Request_EsifEventAction IrpcFunc_EsifEventRegister.
Definition Irpc_Request_EsifEventUnregister := Irpc_Request_EsifEventAction IrpcFunc_EsifEventUnregister.

Definition Irpc_Request_EsifSendEvent (esifHandle participantHandle domainHandle : Z) (eventData eventGuid : option EsifData) : SM W outcome :=
  Irpc_Request (alloc oks 0) trx session IrpcFunc_EsifSendEvent
    (fun t => Irpc_Encode_EsifSendEventFunc mem t esifHandle participantHandle domainHandle eventData eventGuid) result_only None.

(** The command sdk-version is answered on the spot.  [None] inside: it is another
    command. *)
Definition is_sdk_version (argc : Z) (argv : option (list EsifData)) (response : option EsifData) : option bool :=
  if 0 <? argc then
    match argv with
    | Some (a :: _) =>
        match d_buf a with
        | Some c => if d_data_len a =? 0 then Some false else (fun same => same && negb (bool_decide (response = None))) <$> stricmp_eq c (literal "sdk-version")
        | None => Some false
        end
    | _ => None
    end
  else Some false.
Definition sdk_version (argc : Z) (argv : option (list EsifData)) (response : EsifData) : option outcome :=
  rc ← (if 1 <? argc then
          match argv with
          | Some (_ :: a :: _) =>
              match d_buf a with
              | Some v => if d_data_len a =? 0 then Some ESIF_OK else IpfSdk_VersionCheck (Some (IPF_SDK_VERSION ++ [0])) (Some v)
              | None => Some ESIF_OK
              end
          | _ => None
          end
        else Some ESIF_OK);
  if rc =? ESIF_OK then
    let data_len := size (IPF_SDK_VERSION ++ [0]) in
    if d_buf_len response <? data_len then Some (ESIF_E_NEED_LARGER_BUFFER, Some (mk_EsifData (d_type response) (d_buf response) (d_buf_len response) data_len))
    else
      match d_buf response with
      | Some b => b' ← write_at 0 (IPF_SDK_VERSION ++ [0]) b; Some (rc, Some (mk_EsifData (d_type response) (Some b') (d_buf_len response) data_len))
      | None => None
      end
  else Some (rc, Some response).

Definition Irpc_Request_EsifSendCommand (esifHandle argc : Z) (argv : option (list EsifData)) (response : option EsifData) : SM W outcome :=
  let! here := of_option (is_sdk_version argc argv response) in
  match (here : bool), response with
  | true, Some r => of_option (sdk_version argc argv r)
  | _, _ =>
      Irpc_Request (alloc oks 0) trx session IrpcFunc_EsifSendCommand
        (fun t => Irpc_Encode_EsifSendCommandFunc mem t esifHandle argc argv response)
        (result_and_data (alloc oks 1) (alloc oks 2) response 54) response
  end.
End Client.

(* ------------------------------------------------------------------ *)
(** ** Receiving *)

(** [EsifMsgHdr_Verify], and [EsifMsgFrame_GetPayload] with all of its results: the
    message class, where the payload is in the frame and how long. *)
Definition ESIFHDR_GET_MAJOR (ver : Z) : Z := Z.land (Z.shiftr ver 24) 0xff.
Definition EsifMsgHdr_Verify (frame : list Z) : option Z :=
  signature ← get_int 2 frame 0; headersize ← get_int 2 frame 2; version ← get_int 4 frame 4;
  Some (if (signature =? ESIFMSG_SIGNATURE) && (ESIFHDR_GET_MAJOR version =? ESIFHDR_GET_MAJOR ESIFMSG_VERSION) && (sizeof_EsifMsgHdr <=? headersize) then ESIF_OK else ESIF_E_NOT_SUPPORTED).
Definition EsifMsgFrame_GetPayload (frame : list Z) : option (Z * (Z * Z * Z)) :=
  if sizeof_EsifMsgHdr <=? size frame then
    rc ← EsifMsgHdr_Verify frame;
    if rc =? ESIF_OK then
      msgclass ← get_int 4 frame 8; headersize ← get_int 2 frame 2; msglen ← get_int 4 frame 12;
      Some (if size frame <? headersize + msglen then (ESIF_E_REQUEST_DATA_OUT_OF_BOUNDS, (msgclass, 0, 0)) else (ESIF_OK, (msgclass, headersize, msglen)))
    else Some (rc, (0, 0, 0))
  else Some (ESIF_E_NOT_SUPPORTED, (0, 0, 0)).

(** A response ([IpcSession_ReceiveMsg]): what the call waiting with [trxId] gets. *)
Definition receive_response (ok : bool) (trxId : Z) (frame : list Z) : option (option IBinary) :=
  p ← EsifMsgFrame_GetPayload frame;
  let '(rc, (msgclass, _, payload_len)) := p in
  if (rc =? ESIF_OK) && (msgclass =? ESIFMSG_CLASS_IRPC) then
    msgtype ← get_int 4 frame 16;
    if msgtype =? IrpcMsg_ProcResponse then
      id ← get_int 8 frame 26;
      if id =? trxId then clone_message ok (drop 16 frame) payload_len else Some None
    else Some None
  else Some None.
