(* ===== verification/IrpcCall.v ===== *)
(** * Calls across processes: the client of IrpcClient.v and the server of IrpcServer.v

    A call of ESIF that an application makes through IPF is the call that the server
    makes for it, with the buffers that arrive: [remote_call_is_local].  The two sides
    are put together as they are with the frames carried over: the sockets in between
    deliver what was sent. *)

From stdpp Require Import list.
From S2P Require Import Prelude CString EsifData AuthMgr IBinary IrpcCodec IrpcMsg IrpcServer IrpcClient.
Local Open Scope Z_scope.
Local Open Scope dptf_scope.

(* ------------------------------------------------------------------ *)
(** ** The whole path *)

(** The client's new transaction ([IrpcTransaction_Create(IrpcMsg_ProcRequest)]). *)
Definition IpfClient_Trx (fresh : Z * Z * Z) : Transaction := mk_trx (IBinary_Create true) None fresh.1.1 fresh.1.2 fresh.2 ESIF_OK 0.

(** ** The sessions of the client's process: ipfipc/ipfipc_ws.c

    What a call needs of a session ([IpcSession]): its handle, the handle that ESIF gave
    its application, whether its socket is open, and the handle that the server has for
    the connection at the other end of it. *)
Record ClientSession : Type := mk_cs { cs_ipfHandle : Z; cs_esifHandle : Z; cs_open : bool; cs_peer : Z }.
Record IpcInstance : Type := mk_instance { in_handle : Z; in_session : option ClientSession }.
Definition IPC_INVALID_SESSION : Z := ESIF_INVALID_HANDLE.
Definition IpcSessionMgr_GetSessionByHandle (sessions : list IpcInstance) (handle : Z) : option ClientSession :=
  if (handle =? 0) || (handle =? IPC_INVALID_SESSION) then None
  else match find (fun i => in_handle i =? handle) sessions with Some i => in_session i | None => None end.
Definition IpcSessionMgr_GetSessionByEsifHandle (sessions : list IpcInstance) (handle : Z) : option ClientSession :=
  if (handle =? 0) || (handle =? ESIF_INVALID_HANDLE) then None
  else match find (fun i => match in_session i with Some s => cs_esifHandle s =? handle | None => false end) sessions with Some i => in_session i | None => None end.

Section Path.
Context {W : Type} `{IpfSrv W}.

(** What becomes of a message on the connection that the server knows by [ipfHandle]: the
    server works on the frame, and its answer goes to the transaction that waits for it.
    A request without an answer expires. *)
Definition over_connection (fresh : Z * Z * Z) (ipfHandle : Z) (t : Transaction) (frame : list Z) : SM W (Z * option IBinary) :=
  let! answer := answer_frame [] [] fresh ipfHandle frame in
  match answer with
  | None => sret (ESIF_E_SESSION_DISCONNECTED, None)
  | Some frame =>
      let! b := of_option (receive_response true (t_trxId t) frame) in
      match b with Some b => sret (ESIF_OK, Some b) | None => sret (ESIF_E_SESSION_DISCONNECTED, None) end
  end.
(** [IrpcTransaction_QueueRequest], and [IrpcTransaction_WaitForResponse] after it.
    [queued] is the result of adding the transaction to the session's table (TrxMgr.v) and
    of putting the message on the session's queue; the doorbell of its thread rings. *)
Definition IrpcTransaction_QueueRequest (sessions : list IpcInstance) (queued : Z) (fresh : Z * Z * Z) (t : Transaction) (frame : list Z) : SM W (Z * option IBinary) :=
  match IpcSessionMgr_GetSessionByHandle sessions (t_ipfHandle t) with
  | None => sret (ESIF_E_PARAMETER_IS_NULL, None)
  | Some s =>
      if negb (cs_open s) then sret (ESIF_E_SESSION_DISCONNECTED, None)
      else if queued =? ESIF_OK then over_connection fresh (cs_peer s) t frame
      else sret (queued, None)
  end.

(** A call of the application with a handle of ESIF's: it goes over the connection of the
    session that has this handle. *)
Definition remote_call (client server : Z * Z * Z) (sessions : list IpcInstance) (queued : Z) (handle : Z) (q : request) : SM W outcome :=
  let exchange := IrpcTransaction_QueueRequest sessions queued server in
  let session := option_map cs_ipfHandle (IpcSessionMgr_GetSessionByEsifHandle sessions handle) in
  let trx := Some (IpfClient_Trx client) in
  match q with
  | QGetConfig n k v => Irpc_Request_EsifGetConfig exchange [] [] trx session handle n k v
  | QSetConfig n k v f => Irpc_Request_EsifSetConfig exchange [] [] trx session handle n k v f
  | QPrimitive ph dh req resp p i => Irpc_Request_EsifPrimitive exchange [] [] trx session handle ph dh req resp p i
  | QWriteLog ph dh m l => Irpc_Request_EsifWriteLog exchange [] [] trx session handle ph dh m l
  | QEventRegister ph dh g => Irpc_Request_EsifEventRegister exchange [] [] trx session handle ph dh g
  | QEventUnregister ph dh g => Irpc_Request_EsifEventUnregister exchange [] [] trx session handle ph dh g
  | QSendEvent ph dh d g => Irpc_Request_EsifSendEvent exchange [] [] trx session handle ph dh d g
  | QSendCommand argc argv r => Irpc_Request_EsifSendCommand exchange [] [] trx session handle argc argv r
  end.
End Path.

(* ------------------------------------------------------------------ *)
(** ** Frames arrive *)

Lemma create_new : IBinary_Create true = Some (mk_binary None 0 0 IBINARY_DEFAULT_GROWBY).
Proof. done. Qed.
Lemma holds_fresh : holds (mk_binary None 0 0 IBINARY_DEFAULT_GROWBY) [].
Proof. by apply holds_empty. Qed.

Lemma header_size c n : size (EsifMsgHdr c n) = 16.
Proof. unfold size, EsifMsgHdr. rewrite !length_app, !le_bytes_length. done. Qed.

(** A message with its header in front. *)
Lemma with_header_ok b m : holds b m -> size m < 2 ^ 32 -> with_header true b = Some (Some (EsifMsgHdr ESIFMSG_CLASS_IRPC (size m) ++ m)).
Proof.
  intros Hb Hm. pose proof (size_nonneg m). unfold with_header, IBinary_GetLen, IBinary_GetBuf. rewrite (h_len b m Hb), wrap_small by (unfold in_range; lia). set (hdr := EsifMsgHdr ESIFMSG_CLASS_IRPC (size m)).
  assert (Hs : size hdr = 16) by apply header_size. destruct (insert_ok true hdr (size hdr) 0 hdr b m Hb (read_at_all hdr)) as (r & b' & E & [(-> & Hb')|(Hf & _)]); [lia|lia|lia| |done].
  rewrite E. unfold insert_at in Hb'. change (take (Z.to_nat 0) m) with (@nil Z) in Hb'. change (drop (Z.to_nat 0) m) with m in Hb'. cbn [app] in Hb'.
  assert (Hne : IBinary.buf_len b' <> 0) by (pose proof (h_buf_len _ _ Hb') as Hl; rewrite size_app in Hl; lia). rewrite (holds_buf _ _ Hb' Hne), (h_len _ _ Hb').
  pose proof (read_at_mid [] (hdr ++ m) (zero_bytes (IBinary.buf_len b' - size (hdr ++ m)))) as Er. change (size []) with 0 in Er. rewrite app_nil_l in Er. by rewrite Er.
Qed.

(** A message is taken out of a frame into a block of its size. *)
Lemma clone_message_ok m rest : 0 < size m < 2 ^ 32 -> exists b, clone_message true (m ++ rest) (size m) = Some (Some b) /\ IBinary_GetBuf b = Some m.
Proof.
  intros Hm. unfold clone_message, IBinary_Clone. rewrite create_new. set (b0 := mk_binary None 0 0 IBINARY_DEFAULT_GROWBY).
  rewrite (sbind_some _ _ b0 false b0 eq_refl).
  set (b1 := mk_binary (Some (zero_bytes (size m))) (size m) 0 IBINARY_DEFAULT_GROWBY).
  assert (E1 : IBinary_Realloc true (size m) b0 = Some (true, b1)).
  { unfold IBinary_Realloc, b0, sbind, sget. cbn [IBinary.buf_len IBinary.buf IBinary.data_len IBinary.growby_len]. rewrite !(proj2 (Z.eqb_neq (size m) 0)) by lia. cbn [of_option sret sput esif_ccb_realloc]. by rewrite (proj2 (Z.ltb_ge _ _)) by lia. }
  assert (E2 : grow_for true (size m) b1 = Some (true, b1)) by (unfold grow_for, sbind, sget; cbn [IBinary.buf_len b1]; by rewrite Z.ltb_irrefl).
  rewrite (sbind_some _ _ _ _ _ E1). unfold IBinary_Insert, sbind at 1, sget at 1. change (IBinary.data_len b1) with 0. rewrite (proj2 (Z.eqb_neq (size m) 0)) by lia. cbn [negb andb]. change (0 <=? 0) with true. cbn iota.
  rewrite Z.add_0_l, wrap_small by (unfold in_range; lia). rewrite (sbind_some _ _ _ _ _ E2). cbn iota. unfold sbind at 1, sget at 1. unfold sbind at 1.
  pose proof (read_at_mid [] m rest) as Er. cbn [app] in Er. change (size []) with 0 in Er. rewrite Er. cbn [of_option sret]. change (0 <? IBinary.data_len b1) with false. cbn iota. unfold sbind at 1. cbn [sret].
  assert (E3 : write_at 0 m (zero_bytes (size m)) = Some m).
  { pose proof (write_at_mid [] (zero_bytes (size m)) [] m) as Hw. cbn [app] in Hw. rewrite !app_nil_r in Hw. apply Hw. apply size_zero. lia. }
  unfold sbind at 1. unfold b1 at 1. rewrite (write_buf_some _ _ _ _ _ _ _ E3). unfold sbind, smodify, sret. eexists. split; [reflexivity|]. done.
Qed.

(** The fields of a header. *)
Lemma header_fields c n rest : 0 <= c < 2 ^ 32 -> 0 <= n < 2 ^ 32 -> let f := EsifMsgHdr c n ++ rest in
  get_int 2 f 0 = Some ESIFMSG_SIGNATURE /\ get_int 2 f 2 = Some 16 /\ get_int 4 f 4 = Some ESIFMSG_VERSION /\ get_int 4 f 8 = Some c /\ get_int 4 f 12 = Some n.
Proof.
  intros Hc Hn f. unfold f, EsifMsgHdr. rewrite <- !app_assoc. set (a := le_bytes 2 ESIFMSG_SIGNATURE). set (b := le_bytes 2 sizeof_EsifMsgHdr). set (v := le_bytes 4 ESIFMSG_VERSION).
  split_and!.
  - apply (get_int_eq 2 _ [] ESIFMSG_SIGNATURE (b ++ v ++ le_bytes 4 c ++ le_bytes 4 n ++ rest)); done.
  - apply (get_int_eq 2 _ a sizeof_EsifMsgHdr (v ++ le_bytes 4 c ++ le_bytes 4 n ++ rest)); done.
  - apply (get_int_eq 4 _ (a ++ b) ESIFMSG_VERSION (le_bytes 4 c ++ le_bytes 4 n ++ rest)); done.
  - apply (get_u32_eq _ (a ++ b ++ v) c (le_bytes 4 n ++ rest)); [by rewrite <- !app_assoc|done|done].
  - apply (get_u32_eq _ (a ++ b ++ v ++ le_bytes 4 c) n rest); [by rewrite <- !app_assoc|by rewrite !size_app, le4_size|done].
Qed.

(** A message behind its header reads as the message. *)
Lemma behind_header w c n m pos v : (0 < w)%nat -> get_int w m pos = Some v -> get_int w (EsifMsgHdr c n ++ m) (16 + pos) = Some v.
Proof. intros Hw Hg. rewrite <- (header_size c n). rewrite <- (app_nil_r m). by apply get_int_inside. Qed.
Lemma drop_header c n m : drop 16 (EsifMsgHdr c n ++ m) = m.
Proof. pose proof (drop_size (EsifMsgHdr c n) m) as E. by rewrite header_size in E. Qed.
Lemma frame_size c n m : size (EsifMsgHdr c n ++ m) = 16 + size m.
Proof. by rewrite size_app, header_size. Qed.

Lemma receive_frame_ok m : 0 < size m < 2 ^ 32 -> exists b, receive_frame true (EsifMsgHdr ESIFMSG_CLASS_IRPC (size m) ++ m) = Some (ESIF_OK, Some b) /\ IBinary_GetBuf b = Some m.
Proof.
  intros Hm. destruct (header_fields ESIFMSG_CLASS_IRPC (size m) m) as (E0 & _ & _ & E8 & E12); [done|lia|].
  destruct (clone_message_ok m [] Hm) as (b & Eb & Hb). exists b. split; [|done]. unfold receive_frame. rewrite frame_size, (proj2 (Z.ltb_ge _ _)) by (unfold sizeof_EsifMsgHdr; lia).
  rewrite E0. cbn [mbind option_bind]. rewrite Z.eqb_refl, E8. cbn [mbind option_bind]. rewrite Z.eqb_refl, E12. cbn [mbind option_bind]. rewrite drop_header. rewrite app_nil_r in Eb. by rewrite Eb.
Qed.
Lemma receive_response_ok m trxId : 0 < size m < 2 ^ 31 -> get_int 4 m 0 = Some IrpcMsg_ProcResponse -> get_int 8 m 10 = Some trxId ->
  exists b, receive_response true trxId (EsifMsgHdr ESIFMSG_CLASS_IRPC (size m) ++ m) = Some (Some b) /\ IBinary_GetBuf b = Some m.
Proof.
  intros Hm Ht Hid. destruct (header_fields ESIFMSG_CLASS_IRPC (size m) m) as (E0 & E2 & E4 & E8 & E12); [done|lia|].
  destruct (clone_message_ok m []) as (b & Eb & Hb); [lia|]. exists b. split; [|done]. unfold receive_response, EsifMsgFrame_GetPayload, EsifMsgHdr_Verify.
  rewrite frame_size, (proj2 (Z.leb_le _ _)) by (unfold sizeof_EsifMsgHdr; lia). rewrite E0. cbn [mbind option_bind]. rewrite E2. cbn [mbind option_bind]. rewrite E4. cbn [mbind option_bind].
  change ((ESIFMSG_SIGNATURE =? ESIFMSG_SIGNATURE) && (ESIFHDR_GET_MAJOR ESIFMSG_VERSION =? ESIFHDR_GET_MAJOR ESIFMSG_VERSION) && (sizeof_EsifMsgHdr <=? 16)) with true. cbn iota. rewrite Z.eqb_refl, E8. cbn [mbind option_bind]. rewrite E12. cbn [mbind option_bind].
  rewrite (proj2 (Z.ltb_ge _ _)) by lia. cbn [mbind option_bind]. change ((ESIF_OK =? ESIF_OK) && (ESIFMSG_CLASS_IRPC =? ESIFMSG_CLASS_IRPC)) with true. cbn iota.
  change 16 with (16 + 0) at 1. rewrite (behind_header 4 _ _ m 0 _ ltac:(lia) Ht). cbn [mbind option_bind]. rewrite Z.eqb_refl. change 26 with (16 + 10). rewrite (behind_header 8 _ _ m 10 _ ltac:(lia) Hid). cbn [mbind option_bind].
  rewrite Z.eqb_refl, drop_header. rewrite app_nil_r in Eb. by rewrite Eb.
Qed.

(** Writing into a buffer what is there already. *)
Lemma patch_same b m off d x y : holds b m -> m = x ++ d ++ y -> size x = off -> m <> [] -> write_buf off d b = Some (tt, b).
Proof.
  intros Hb Hm Hx Hne. assert (Hn : IBinary.buf_len b <> 0).
  { pose proof (h_buf_len b m Hb). pose proof (size_nonneg m). intros E. apply Hne, nil_of_size. lia. }
  rewrite (holds_eta b m Hb Hn). apply write_buf_some. rewrite Hm, <- !app_assoc, <- Hx. by apply write_at_mid.
Qed.
Lemma msg_bytes msgtype funcId t result fs ps i w v : fields_ok fs ps -> irpc_header msgtype funcId t result !! i = Some (Int w v) ->
  exists x y, msg_wire msgtype funcId t result fs ps = x ++ le_bytes w v ++ y /\ size x = widths (take i (irpc_header msgtype funcId t result)).
Proof.
  intros Hf Hi. assert (Hl : (i < 7)%nat) by (by apply lookup_lt_Some in Hi). assert (Hi' : msg_fields msgtype funcId t result fs !! i = Some (Int w v)) by (unfold msg_fields; by rewrite lookup_app_l).
  destruct (wire_cut _ _ i _ (msg_fields_ok msgtype funcId t result fs ps Hf) Hi') as (p & n & h & h' & q & _ & _ & Ew & Hh & _). unfold msg_wire. rewrite Ew. exists h, (h' ++ payloads (take i (msg_parts ps)) ++ p ++ q). split; [done|].
  rewrite Hh. unfold msg_fields. rewrite take_app_le; [done|]. cbn. lia.
Qed.
Lemma msg_size msgtype funcId t result fs ps : fields_ok fs ps -> size (msg_wire msgtype funcId t result fs ps) = 38 + widths fs + size (payloads ps).
Proof.
  intros Hf. unfold msg_wire, wire. rewrite size_app, (heads_size _ _ (msg_fields_ok msgtype funcId t result fs ps Hf)), msg_widths. done.
Qed.

(* ------------------------------------------------------------------ *)
(** ** One call, whatever its function *)

Section Call.
Context {W : Type} `{IpfSrv W}.

(** The handler of the server: the parameters have been read, and what is called gives a
    result and a buffer. *)
Lemma respond_ok {A} (t : Transaction) funcId decode (auth : Z -> A -> SM W (Z * option EsifData)) given encode params ps request m id hq a rc back w w' :
  t_request t = Some request -> IBinary_GetBuf request = Some m -> get_int 4 m 6 = Some funcId -> get_int 8 m 10 = Some id -> get_int 8 m 38 = Some hq ->
  AppSessionMgr_GetEsifHandleByHandle w (t_ipfHandle t) <> ESIF_INVALID_HANDLE -> decode m = Some (Some a) ->
  (if t_ipfHandle t =? hq then auth (AppSessionMgr_GetEsifHandleByHandle w (t_ipfHandle t)) a else sret (t_result t, given a)) w = Some ((rc, back), w') ->
  (forall t', encode t' hq a back = encode_function [] t' funcId (t_result t') params) -> fields_ok (params false) ps ->
  size (msg_wire IrpcMsg_ProcResponse funcId (with_trxId id t) rc (params false) ps) < 2 ^ 62 ->
  exists t' b, respond true t funcId decode auth given encode w = Some ((ESIF_OK, t'), w') /\ t_response t' = Some b /\ holds b (msg_wire IrpcMsg_ProcResponse funcId (with_trxId id t) rc (params false) ps).
Proof.
  intros Hreq Hbuf Hf Hid Hhq He Hdec Hauth Henc Hps Hsz. set (msg := msg_wire IrpcMsg_ProcResponse funcId (with_trxId id t) rc (params false) ps) in *.
  unfold respond, sbind at 1, sget. rewrite Hreq, Hbuf. rewrite Hf. cbn [of_option]. unfold sbind at 1, sret at 1. rewrite (proj2 (Z.eqb_neq _ _)) by done. rewrite Z.eqb_refl. cbn [negb andb]. rewrite create_new.
  set (b0 := mk_binary None 0 0 IBINARY_DEFAULT_GROWBY). rewrite Hdec. cbn [of_option]. unfold sbind at 1, sret at 1. rewrite Hid. cbn [of_option]. unfold sbind at 1, sret at 1. rewrite Hhq. cbn [of_option]. unfold sbind at 1, sret at 1.
  unfold sbind at 1. cbn [t_ipfHandle t_result with_trxId with_response]. rewrite Hauth. cbn [fst snd]. rewrite Henc.
  set (t2 := with_result rc (with_trxId id (with_response (Some b0) t))).
  destruct (encode_response [] t2 b0 [] funcId rc params ps) as (b & Ee & Hb); [done|apply holds_fresh|by apply Forall_nil|done|change (0 + size msg < 2 ^ 62); lia|].
  change (t_result t2) with rc. rewrite Ee. cbn [of_option]. unfold sbind at 1, sret at 1. cbn [t_response with_response t_result t2 with_result]. rewrite app_nil_l in Hb. change (holds b msg) in Hb.
  assert (Hne : msg <> []) by (intros En; apply (f_equal size) in En; unfold msg in En; rewrite msg_size in En by done; pose proof (widths_nonneg (params false)); pose proof (size_nonneg (payloads ps)); change (size []) with 0 in En; lia).
  destruct (msg_bytes IrpcMsg_ProcResponse funcId (with_trxId id t) rc (params false) ps 0 4 _ Hps eq_refl) as (x & y & Ex & Hx).
  destruct (msg_bytes IrpcMsg_ProcResponse funcId (with_trxId id t) rc (params false) ps 6 4 _ Hps eq_refl) as (x' & y' & Ex' & Hx').
  rewrite (patch_same b msg 0 _ x y Hb Ex Hx Hne). cbn [option_map snd of_option]. unfold sbind at 1, sret at 1.
  rewrite (patch_same b msg 34 _ x' y' Hb Ex' Hx' Hne). cbn [option_map snd of_option]. unfold sbind at 1, sret at 1. unfold sret. eexists _, b. split; [reflexivity|]. by split.
Qed.

(** The client and the server put together. *)
Context (client server : Z * Z * Z) (ipfHandle : Z) (session : option Z) (funcId : Z) (exchange : Transaction -> list Z -> SM W (Z * option IBinary)).
(** The handle that the new transaction gets. *)
Definition session_handle (session : option Z) : Z := match session with Some h => h | None => 0 end.

Lemma request_ok encode params ps mq mr finish into o w w' :
  (forall t, encode t = encode_function [] t funcId (t_result t) params) -> fields_ok (params true) ps ->
  mq = msg_wire IrpcMsg_ProcRequest funcId (IpfClient_Trx client) ESIF_OK (params true) ps -> size mq < 2 ^ 31 ->
  AppSessionMgr_GetSessionByHandle w ipfHandle <> None ->
  (forall b, IBinary_GetBuf b = Some mq -> exists t' b0, IrpcTransaction_EsifRequest [] [] (IpfServer_Trx server ipfHandle b) w = Some ((ESIF_OK, t'), w') /\ t_response t' = Some b0 /\ holds b0 mr) ->
  38 <= size mr < 2 ^ 31 ->
  get_int 4 mr 0 = Some IrpcMsg_ProcResponse -> get_int 4 mr 6 = Some funcId -> get_int 8 mr 10 = Some client.1.1 ->
  finish mr = Some o ->
  (forall t frame, t_ipfHandle t = session_handle session -> exchange t frame w = over_connection server ipfHandle t frame w) ->
  Irpc_Request exchange true (Some (IpfClient_Trx client)) session funcId encode finish into w = Some (o, w').
Proof.
  intros Henc Hps Emq Hmq Hses Hserver Hmr Hr0 Hr6 Hr10 Hfin Hex. unfold Irpc_Request.
  set (t1 := match session with Some h => _ | None => _ end).
  assert (Et : t_request t1 = Some (mk_binary None 0 0 IBINARY_DEFAULT_GROWBY) /\ t_response t1 = None /\ t_result t1 = ESIF_OK /\ t_trxId t1 = client.1.1 /\ t_ipfHandle t1 = session_handle session /\
    msg_wire IrpcMsg_ProcRequest funcId t1 ESIF_OK (params true) ps = mq) by (unfold t1; subst mq; by destruct session).
  destruct Et as (E1 & E2 & E3 & E4 & E6 & E5). rewrite Henc, E3. destruct (encode_request [] t1 _ funcId ESIF_OK params ps E2 E1 holds_fresh) as (b & Ee & Hb); [by apply Forall_nil|done|rewrite E5; lia|].
  rewrite Ee. rewrite E5 in Hb. cbn [of_option]. unfold sbind at 1, sret at 1. cbn [t_request with_request]. unfold sbind at 1.
  assert (Hpos : 38 <= size mq) by (subst mq; rewrite msg_size by done; pose proof (widths_nonneg (params true)); pose proof (size_nonneg (payloads ps)); lia).
  rewrite (with_header_ok b mq Hb) by lia. cbn [of_option]. unfold sbind at 1, sret at 1. rewrite Hex by done. unfold over_connection, sbind at 1.
  assert (Ea : answer_frame [] [] server ipfHandle (EsifMsgHdr ESIFMSG_CLASS_IRPC (size mq) ++ mq) w = Some (Some (EsifMsgHdr ESIFMSG_CLASS_IRPC (size mr) ++ mr), w')).
  { destruct (receive_frame_ok mq) as (bq & Eq & Hbq); [lia|]. unfold answer_frame, sbind at 1. rewrite Eq. cbn [of_option sret snd]. unfold receive_request, sbind at 1. rewrite Hbq.
    assert (Hg0 : get_int 4 mq 0 = Some IrpcMsg_ProcRequest).
    { pose proof (wire_int _ _ 0 4 IrpcMsg_ProcRequest (msg_fields_ok IrpcMsg_ProcRequest funcId (IpfClient_Trx client) ESIF_OK _ _ Hps) eq_refl) as Ew. subst mq. exact Ew. }
    rewrite Hg0. cbn [of_option]. unfold sbind at 1, sret at 1. unfold sbind at 1, sget. rewrite Z.eqb_refl. rewrite bool_decide_false by done. cbn [andb negb]. unfold sret at 1. destruct (Hserver bq Hbq) as (t' & b0 & Es & Ht' & Hb0). unfold work, sbind. rewrite Es. cbn [fst snd]. rewrite Z.eqb_refl, Ht'.
    rewrite (with_header_ok b0 mr Hb0) by lia. done. }
  rewrite Ea. change (t_trxId (with_request (Some b) t1)) with (t_trxId t1). rewrite E4. destruct (receive_response_ok mr client.1.1) as (br & Er & Hbr); [lia|done|done|]. unfold sbind at 1. rewrite Er. cbn [of_option sret].
  unfold sret at 1. rewrite Z.eqb_refl, Hbr. unfold sbind at 1. rewrite Hr6. cbn [of_option sret]. rewrite Z.eqb_refl, Hfin. done.
Qed.

Lemma server_header result fs ps b : fields_ok fs ps -> 0 <= funcId < 2 ^ 32 -> 0 <= client.1.1 < 2 ^ 64 -> 0 <= result < 2 ^ 32 ->
  let mr := msg_wire IrpcMsg_ProcResponse funcId (with_trxId client.1.1 (IpfServer_Trx server ipfHandle b)) result fs ps in
  get_int 4 mr 0 = Some IrpcMsg_ProcResponse /\ get_int 4 mr 6 = Some funcId /\ get_int 8 mr 10 = Some client.1.1 /\ get_int 4 mr 34 = Some result.
Proof. intros Hps Hf Hc Hr. apply msg_header; by try done. Qed.

(** A call from end to end.  [a] are the parameters that the server reads; [pc] and [pr]
    are the fields that the client and the server write. *)
Lemma call_ok {A} encode pc ps finish into decode (auth : Z -> A -> SM W (Z * option EsifData)) given encode_s pr ps' hq a rc back o w w' :
  let mq := msg_wire IrpcMsg_ProcRequest funcId (IpfClient_Trx client) ESIF_OK (pc true) ps in
  let mr := msg_wire IrpcMsg_ProcResponse funcId (with_trxId client.1.1 (IpfServer_Trx server ipfHandle (mk_binary None 0 0 0))) rc (pr false) ps' in
  0 <= client.1.1 < 2 ^ 64 -> 0 <= funcId < 2 ^ 32 -> 0 <= hq < 2 ^ 64 -> 0 <= rc < 2 ^ 32 ->
  (forall t, encode t = encode_function [] t funcId (t_result t) pc) -> fields_ok (pc true) ps -> pc true !! 0%nat = Some (Int 8 hq) -> size mq < 2 ^ 31 ->
  AppSessionMgr_GetEsifHandleByHandle w ipfHandle <> ESIF_INVALID_HANDLE ->
  (forall b, IBinary_GetBuf b = Some mq -> get_int 4 mq 6 = Some funcId -> IrpcTransaction_EsifRequest [] [] (IpfServer_Trx server ipfHandle b) w =
     sbind (respond true (with_result ESIF_E_INVALID_HANDLE (IpfServer_Trx server ipfHandle b)) funcId decode auth given encode_s)
       (fun r => sret (if (r.1 =? ESIF_OK) && bool_decide (t_response r.2 = None) then ESIF_E_NO_MEMORY else r.1, r.2)) w) ->
  decode mq = Some (Some a) ->
  (if ipfHandle =? hq then auth (AppSessionMgr_GetEsifHandleByHandle w ipfHandle) a else sret (ESIF_E_INVALID_HANDLE, given a)) w = Some ((rc, back), w') ->
  (forall t', encode_s t' hq a back = encode_function [] t' funcId (t_result t') pr) -> fields_ok (pr false) ps' -> size mr < 2 ^ 31 ->
  (get_int 4 mr 34 = Some rc -> finish mr = Some o) ->
  (forall t frame, t_ipfHandle t = session_handle session -> exchange t frame w = over_connection server ipfHandle t frame w) ->
  Irpc_Request exchange true (Some (IpfClient_Trx client)) session funcId encode finish into w = Some (o, w').
Proof.
  intros mq mr Hid Hfid Hhq Hrc Henc Hps H0 Hmq Hses Hdisp Hdec Hauth Hencs Hps' Hmr Hfin Hex.
  destruct (msg_header IrpcMsg_ProcRequest funcId (IpfClient_Trx client) ESIF_OK (pc true) ps Hps) as (_ & Q6 & Q10 & _); [done|done|done|done|].
  destruct (server_header rc (pr false) ps' (mk_binary None 0 0 0) Hps' Hfid Hid Hrc) as (R0 & R6 & R10 & R34).
  assert (Q38 : get_int 8 mq 38 = Some hq) by (apply (param_int IrpcMsg_ProcRequest funcId (IpfClient_Trx client) ESIF_OK (pc true) ps Hps 0 8 hq 38 H0); [lia|done]).
  apply (request_ok encode pc ps mq mr); try done.
  - intros E. apply Hses. unfold AppSessionMgr_GetEsifHandleByHandle. by rewrite E.
  - intros b Hb. rewrite (Hdisp b Hb Q6).
    destruct (respond_ok (with_result ESIF_E_INVALID_HANDLE (IpfServer_Trx server ipfHandle b)) funcId decode auth given encode_s pr ps' b mq client.1.1 hq a rc back w w') as (t' & b0 & Er & Ht & Hb0); try done.
    { change (size mr < 2 ^ 62). lia. }
    exists t', b0. split; [|by split]. unfold sbind. rewrite Er. cbn [fst snd]. rewrite Ht. by rewrite bool_decide_false, andb_false_r.
  - split; [|done]. unfold mr. rewrite msg_size by done. pose proof (widths_nonneg (pr false)). pose proof (size_nonneg (payloads ps')). lia.
  - by apply Hfin.
Qed.

(** A call that cannot be handed over. *)
Lemma call_not_sent encode pc ps finish into rc w :
  let mq := msg_wire IrpcMsg_ProcRequest funcId (IpfClient_Trx client) ESIF_OK (pc true) ps in
  (forall t, encode t = encode_function [] t funcId (t_result t) pc) -> fields_ok (pc true) ps -> size mq < 2 ^ 31 -> rc <> ESIF_OK ->
  (forall t frame, t_ipfHandle t = session_handle session -> exchange t frame w = Some ((rc, None), w)) ->
  Irpc_Request exchange true (Some (IpfClient_Trx client)) session funcId encode finish into w = Some ((rc, into), w).
Proof.
  intros mq Henc Hps Hmq Hrc Hex. unfold Irpc_Request. set (t1 := match session with Some h => _ | None => _ end).
  assert (Et : t_request t1 = Some (mk_binary None 0 0 IBINARY_DEFAULT_GROWBY) /\ t_response t1 = None /\ t_result t1 = ESIF_OK /\ t_ipfHandle t1 = session_handle session /\
    msg_wire IrpcMsg_ProcRequest funcId t1 ESIF_OK (pc true) ps = mq) by (unfold t1, mq; by destruct session).
  destruct Et as (E1 & E2 & E3 & E4 & E5). rewrite Henc, E3. destruct (encode_request [] t1 _ funcId ESIF_OK pc ps E2 E1 holds_fresh) as (b & Ee & Hb); [by apply Forall_nil|done|rewrite E5; lia|].
  rewrite Ee. rewrite E5 in Hb. cbn [of_option]. unfold sbind at 1, sret at 1. cbn [t_request with_request]. unfold sbind at 1.
  rewrite (with_header_ok b mq Hb) by lia. cbn [of_option]. unfold sbind at 1, sret at 1. rewrite Hex by done. by rewrite (proj2 (Z.eqb_neq _ _)).
Qed.
End Call.

(* ------------------------------------------------------------------ *)
(** ** The buffers of a call *)

Definition good (d : EsifData) : Prop := sendable d /\ exact d.
Definition good_opt (d : option EsifData) : Prop := match d with Some d => good d | None => True end.
(** What the server gets for a buffer; for NULL an empty one. *)
Definition arrived (d : option EsifData) : EsifData := match d with Some d => received d | None => nothing end.
Definition ptr_part (d : option EsifData) : list Z * Z := match d with Some d => (item d, item_count d) | None => ([], 0) end.
Definition volume (d : option EsifData) : Z := match d with Some d => sizeof_EsifData + d_data_len d | None => 0 end.

Lemma item_size d : block_ok d -> size (item d) <= sizeof_EsifData + d_data_len d.
Proof.
  intros Hb. unfold item. rewrite size_app, cast_size. pose proof (payload_le d Hb). assert (counted d <= d_data_len d); [|lia]. unfold counted. pose proof (bo_data_len d Hb). destruct (d_buf d); [|lia]. destruct (_ <? _); lia.
Qed.
Lemma ptr_part_size d : good_opt d -> size (fst (ptr_part d)) <= volume d.
Proof. destruct d as [d|]; [|done]. intros [[Hb _] _]. by apply item_size. Qed.
Lemma ptr_part_tight d : good_opt d -> tight (ptr_part d).
Proof. destruct d as [d|]; [|done]. intros [[Hb _] He]. unfold tight, ptr_part, item, item_count. cbn [fst snd]. by rewrite size_app, cast_size, payload_counted. Qed.
Lemma fields_int w v fs ps : fields_ok fs ps -> fields_ok (Int w v :: fs) (([], 0) :: ps).
Proof. by constructor. Qed.
Lemma fields_ptr d fs ps : (forall x, d = Some x -> sendable x) -> fields_ok fs ps -> fields_ok (DataPtr d :: fs) (ptr_part d :: ps).
Proof. intros Hd Hf. destruct d as [d|]; constructor; try done. by destruct (Hd d eq_refl). Qed.
Lemma good_sendable d : good_opt d -> forall x, d = Some x -> sendable x.
Proof. by intros Hd x ->; destruct Hd. Qed.
Lemma received_sendable d : good d -> sendable (received d).
Proof.
  intros [Hs _]. pose proof Hs as [Hb He]. pose proof (bo_buf_len d Hb). pose proof (bo_data_len d Hb). split.
  - split; cbn; [apply Hb|lia|lia|]. unfold received_buf. destruct (Z.eqb_spec (d_buf_len d) 0); [done|]. intros b [= <-] Hle. rewrite (proj2 (Z.leb_le _ _)) by lia. rewrite size_app, (payload_fits d Hs Hle), size_zero by lia. lia.
  - cbn. intros Hle. unfold exact, received, received_buf. cbn. destruct (Z.eqb_spec (d_buf_len d) 0); [|done]. intros _. lia.
Qed.

(** What comes back into the caller's buffer: type, length, and the data if they fit. *)
Definition written_into (d v : EsifData) : EsifData :=
  mk_EsifData (d_type v) (match d_buf d with Some b => Some (if d_data_len v <=? d_buf_len d then payload v ++ drop (length (payload v)) b else b) | None => None end) (d_buf_len d) (d_data_len v).
Definition written_back (into back : option EsifData) : option EsifData := match into, back with Some d, Some v => Some (written_into d v) | _, _ => into end.
(** What is called keeps the size of the buffer; the caller's block has the size that it
    claims. *)
Record fits_back (d v : EsifData) : Prop := {
  fb_sendable : sendable v;
  fb_len : d_buf_len v = d_buf_len d;
  fb_block : forall b, d_buf d = Some b -> d_buf_len d <= size b
}.

Lemma unmarshall_ok d v m pos : fits_back d v -> Irpc_Deserialize_EsifDataPtr true true None m pos (pos + 4) = Some (Some (received v)) ->
  Irpc_Unmarshall_EsifDataPtr true true (Some d) m pos (pos + 4) = Some (ESIF_OK, Some (written_into d v)).
Proof.
  intros [Hs Hlen Hblock] Hd. unfold Irpc_Unmarshall_EsifDataPtr, written_into. rewrite Hd. cbn [mbind option_bind]. destruct (d_buf d) as [b|] eqn:Eb; [|done]. specialize (Hblock b eq_refl). pose proof Hs as [Hb _]. pose proof (bo_data_len v Hb).
  cbn [EsifData.data_len EsifData.type EsifData.buf_ptr received]. destruct (Z.leb_spec (d_data_len v) (d_buf_len d)) as [Hle|]; [|done]. cbn [andb]. assert (Hp : size (payload v) = d_data_len v) by (apply payload_fits; [done|lia]).
  destruct (Z.eqb_spec (d_buf_len d) 0) as [Hz|Hz]; cbn [negb].
  - assert (payload v = []) as -> by (apply nil_of_size; lia). done.
  - unfold received_buf. rewrite Hlen, (proj2 (Z.eqb_neq _ _)), (proj2 (Z.leb_le _ _)) by done. rewrite <- Hp. pose proof (read_at_mid [] (payload v) (zero_bytes (d_buf_len d - size (payload v)))) as Er. cbn [app] in Er. change (size []) with 0 in Er. rewrite Er. cbn [mbind option_bind].
    pose proof (write_at_mid [] (take (length (payload v)) b) (drop (length (payload v)) b) (payload v)) as Ew. cbn [app] in Ew. rewrite take_drop in Ew. change (size []) with 0 in Ew. rewrite Ew by (rewrite <- to_nat_size; apply size_take; lia). done.
Qed.
Lemma answer_finish_ok d v rc m pos : fits_back d v -> Irpc_Deserialize_EsifDataPtr true true None m pos (pos + 4) = Some (Some (received v)) -> get_int 4 m 34 = Some rc ->
  result_and_data true true (Some d) pos m = Some (rc, Some (written_into d v)).
Proof. intros Hf Hd Hr. unfold result_and_data. rewrite (unmarshall_ok d v m pos Hf Hd). cbn [mbind option_bind]. by rewrite Hr. Qed.

(** A parameter of a message. *)
Lemma param_reads msgtype funcId t result fs ps i d pos : fields_ok fs ps -> size (msg_wire msgtype funcId t result fs ps) < 2 ^ 31 -> fs !! i = Some (DataPtr d) -> (forall x, d = Some x -> sendable x) -> Forall tight (take i ps) -> pos = 38 + widths (take i fs) ->
  param true (msg_wire msgtype funcId t result fs ps) pos = Some (arrived d).
Proof.
  intros Hf Hsz Hi Hd Ht Hpos. unfold param. destruct d as [d|].
  - rewrite (param_data msgtype funcId t result fs ps Hf ltac:(lia) i d (Some nothing) pos Hi (Hd d eq_refl) Ht Hpos). done.
  - rewrite (param_null msgtype funcId t result fs ps Hf i true true (Some nothing) pos Hi Hpos). done.
Qed.
Lemma answer_reads msgtype funcId t result fs ps i v pos : fields_ok fs ps -> size (msg_wire msgtype funcId t result fs ps) < 2 ^ 31 -> fs !! i = Some (DataPtr (Some v)) -> sendable v -> Forall tight (take i ps) -> pos = 38 + widths (take i fs) ->
  Irpc_Deserialize_EsifDataPtr true true None (msg_wire msgtype funcId t result fs ps) pos (pos + 4) = Some (Some (received v)).
Proof. intros Hf Hsz. apply param_data; [done|lia]. Qed.
Lemma array_reads msgtype funcId t result fs ps i k l pos : fields_ok fs ps -> size (msg_wire msgtype funcId t result fs ps) < 2 ^ 31 -> fs !! i = Some (DataArray k (Some l)) -> array_sent k (Some l) = true -> k = Z.of_nat (length l) ->
  Forall stacked l -> Forall tight (take i ps) -> pos = 38 + widths (take i fs) -> Irpc_Deserialize_EsifDataArray true [] k (msg_wire msgtype funcId t result fs ps) pos (pos + 4) = Some (Some (map received l)).
Proof. intros Hf Hsz. apply param_array; [done|lia]. Qed.

(* ------------------------------------------------------------------ *)
(** ** The calls *)

Definition handle_ok (h : Z) : Prop := 0 <= h < 2 ^ 64.
(** Calls that can be sent: integers of their widths, buffers with the blocks that they
    claim, a buffer for the answer where there is one, up to 1023 words of a command. *)
Definition request_fits (q : request) : Prop :=
  match q with
  | QGetConfig n k v => good_opt n /\ good_opt k /\ exists d, v = Some d /\ good d
  | QSetConfig n k v f => good_opt n /\ good_opt k /\ good_opt v /\ 0 <= f < 2 ^ 32
  | QPrimitive ph dh req resp p i => handle_ok ph /\ handle_ok dh /\ good_opt req /\ (exists d, resp = Some d /\ good d) /\ 0 <= p < 2 ^ 32 /\ 0 <= i < 2 ^ 8
  | QWriteLog ph dh m l => handle_ok ph /\ handle_ok dh /\ good_opt m /\ 0 <= l < 2 ^ 32
  | QEventRegister ph dh g | QEventUnregister ph dh g => handle_ok ph /\ handle_ok dh /\ good_opt g
  | QSendEvent ph dh d g => handle_ok ph /\ handle_ok dh /\ good_opt d /\ good_opt g
  | QSendCommand argc argv r => exists l d, argv = Some l /\ argc = Z.of_nat (length l) /\ 0 < argc < IRPC_MAXARRAY /\ Forall stacked l /\ r = Some d /\ good d /\ is_sdk_version argc argv r = Some false
  end.
(** The call as it arrives. *)
Definition deliver (q : request) : request :=
  let arrived d := Some (arrived d) in
  match q with
  | QGetConfig n k v => QGetConfig (arrived n) (arrived k) (arrived v)
  | QSetConfig n k v f => QSetConfig (arrived n) (arrived k) (arrived v) f
  | QPrimitive ph dh req resp p i => QPrimitive ph dh (arrived req) (arrived resp) p i
  | QWriteLog ph dh m l => QWriteLog ph dh (arrived m) l
  | QEventRegister ph dh g => QEventRegister ph dh (arrived g)
  | QEventUnregister ph dh g => QEventUnregister ph dh (arrived g)
  | QSendEvent ph dh d g => QSendEvent ph dh (arrived d) (arrived g)
  | QSendCommand argc argv r => QSendCommand argc (option_map (map received) argv) (arrived r)
  end.
(** The bytes of its buffers. *)
Definition volumes (l : list EsifData) : Z := foldr (fun d n => volume (Some d) + n) 0 l.
Definition call_volume (q : request) : Z :=
  match q with
  | QGetConfig n k v => volume n + volume k + volume v
  | QSetConfig n k v _ => volume n + volume k + volume v
  | QPrimitive _ _ req resp _ _ => volume req + volume resp
  | QWriteLog _ _ m _ => volume m
  | QEventRegister _ _ g | QEventUnregister _ _ g => volume g
  | QSendEvent _ _ d g => volume d + volume g
  | QSendCommand _ argv r => match argv with Some l => volumes l | None => 0 end + volume r
  end.
(** The buffer that ESIF leaves for the answer. *)
Definition answer_fits (q : request) (back : option EsifData) : Prop :=
  match given_back q with Some d => exists v, back = Some v /\ fits_back d v /\ d_data_len v < 2 ^ 30 | None => back = None end.

Ltac part_sizes :=
  repeat match goal with
    | H : good_opt ?d |- _ => lazymatch goal with _ : size (fst (ptr_part d)) <= _ |- _ => fail | _ => pose proof (ptr_part_size d H) end
    | H : sendable ?d |- _ => lazymatch goal with _ : size (fst (ptr_part (Some d))) <= _ |- _ => fail | _ => pose proof (item_size d (proj1 H) : size (fst (ptr_part (Some d))) <= _) end
    end.
Ltac message_size :=
  repeat match goal with x := _ |- _ => subst x end; cbv beta; rewrite msg_size by done; part_sizes; unfold payloads; cbn [volume] in *; cbn [repeat widths width argc_field map concat fst snd]; rewrite ?size_app, ?size_nil; unfold sizeof_EsifData in *; lia.


Lemma sget_first {S T U} (f : S -> SM S T) (k : T -> SM S U) s : sbind (sbind sget f) k s = sbind (f s) k s.
Proof. done. Qed.

(** An array of words. *)
Lemma fields_array l fs ps : 0 < Z.of_nat (length l) < IRPC_MAXARRAY -> Forall stacked l -> fields_ok fs ps ->
  fields_ok (DataArray (Z.of_nat (length l)) (Some l) :: fs) ((concat (map item l), items_count l) :: ps).
Proof.
  intros Hl Hs Hf. constructor; [|done]. assert (Hsent : array_sent (Z.of_nat (length l)) (Some l) = true) by (unfold array_sent; by rewrite (proj2 (Z.eqb_neq _ _)), (proj2 (Z.ltb_lt _ _)) by lia).
  cbn [field_ok]. unfold array_taken. rewrite Hsent, Nat2Z.id, firstn_all. split_and!; [done|done|]. intros l' [= <-] _. split; [|lia]. eapply Forall_impl; [exact Hs|]. by intros d [[? _] _].
Qed.
Lemma fields_no_array n fs ps : fields_ok fs ps -> fields_ok (DataArray n None :: fs) (([], 0) :: ps).
Proof. intros Hf. constructor; [|done]. by cbn. Qed.
Lemma array_part_tight l : Forall stacked l -> tight (concat (map item l), items_count l).
Proof.
  unfold tight. cbn [fst snd]. induction 1 as [|d l [[Hb He] Hle] Hl IH]; [done|]. cbn [map concat items_count foldr]. change (foldr (fun d n => item_count d + n) 0 l) with (items_count l). rewrite size_app, IH. unfold item, item_count. by rewrite size_app, cast_size, payload_counted by auto.
Qed.
Lemma array_part_size l : Forall stacked l -> size (concat (map item l)) <= volumes l.
Proof.
  induction 1 as [|d l [[Hb He] Hle] Hl IH]; [done|]. cbn [map concat volumes foldr]. change (foldr (fun d n => volume (Some d) + n) 0 l) with (volumes l). rewrite size_app. pose proof (item_size d Hb). cbn [volume]. lia.
Qed.

(** Where a call with a handle of ESIF's goes: the handle of the session, and that of the
    connection on the server; or why it goes nowhere. *)
Inductive route : Type := Goes (ipfHandle peer : Z) | Stays (rc : Z).
Definition route_of (sessions : list IpcInstance) (queued handle : Z) : route :=
  match IpcSessionMgr_GetSessionByEsifHandle sessions handle with
  | None => Stays ESIF_E_PARAMETER_IS_NULL
  | Some s =>
      match IpcSessionMgr_GetSessionByHandle sessions (cs_ipfHandle s) with
      | None => Stays ESIF_E_PARAMETER_IS_NULL
      | Some s' => if negb (cs_open s') then Stays ESIF_E_SESSION_DISCONNECTED else if queued =? ESIF_OK then Goes (cs_ipfHandle s) (cs_peer s') else Stays queued
      end
  end.

Section Calls.
Context {W : Type} `{IpfSrv W} (client server : Z * Z * Z) (sessions : list IpcInstance) (queued : Z).
Context (Hclient : 0 <= client.1.1 < 2 ^ 64).

Lemma route_goes handle h p : route_of sessions queued handle = Goes h p ->
  forall t frame (w : W), t_ipfHandle t = session_handle (option_map cs_ipfHandle (IpcSessionMgr_GetSessionByEsifHandle sessions handle)) ->
  IrpcTransaction_QueueRequest sessions queued server t frame w = over_connection server p t frame w.
Proof.
  intros Hr t frame w Ht. unfold route_of in Hr. unfold IrpcTransaction_QueueRequest. rewrite Ht. destruct (IpcSessionMgr_GetSessionByEsifHandle _ _) as [s|]; [|done]. cbn [option_map session_handle] in *.
  destruct (IpcSessionMgr_GetSessionByHandle _ _) as [s'|]; [|done]. destruct (cs_open s'); [|done]. cbn [negb] in *. destruct (queued =? ESIF_OK); [|done]. by injection Hr as _ <-.
Qed.
Lemma route_stays handle rc : route_of sessions queued handle = Stays rc -> rc <> ESIF_OK /\
  forall t frame (w : W), t_ipfHandle t = session_handle (option_map cs_ipfHandle (IpcSessionMgr_GetSessionByEsifHandle sessions handle)) ->
  IrpcTransaction_QueueRequest sessions queued server t frame w = Some ((rc, None), w).
Proof.
  intros Hr. unfold route_of in Hr. unfold IrpcTransaction_QueueRequest. destruct (IpcSessionMgr_GetSessionByEsifHandle _ _) as [s|]; cbn [option_map session_handle] in *; [|injection Hr as <-; split; [done|]; by intros t frame w ->].
  destruct (IpcSessionMgr_GetSessionByHandle _ _) as [s'|] eqn:E; [|injection Hr as <-; split; [done|]; intros t frame w ->; by rewrite E].
  destruct (cs_open s') eqn:Eo; cbn [negb] in *; [|injection Hr as <-; split; [done|]; intros t frame w ->; by rewrite E, Eo]. destruct (Z.eqb_spec queued ESIF_OK) as [|Hq]; [done|]. injection Hr as <-. split; [done|]. intros t frame w ->. by rewrite E, Eo.
Qed.
Context (ipfHandle : Z).

(** What the server does for a call with a handle: the handle has to be that of the
    connection. *)
Definition served (handle : Z) (q : request) : SM W outcome := fun w =>
  (if ipfHandle =? handle then checked_call (AppSessionMgr_GetEsifHandleByHandle w ipfHandle) (deliver q) else sret (ESIF_E_INVALID_HANDLE, given_back (deliver q))) w.
Definition runs (handle : Z) (q : request) : Prop := forall rc back w w' h, route_of sessions queued handle = Goes h ipfHandle ->
  request_fits q -> call_volume q < 2 ^ 30 -> handle_ok handle -> 0 <= rc < 2 ^ 32 -> AppSessionMgr_GetEsifHandleByHandle w ipfHandle <> ESIF_INVALID_HANDLE ->
  answer_fits q back -> served handle q w = Some ((rc, back), w') ->
  remote_call client server sessions queued handle q w = Some ((rc, written_back (given_back q) back), w').
Definition stays (handle : Z) (q : request) : Prop := forall rc w, route_of sessions queued handle = Stays rc -> request_fits q -> call_volume q < 2 ^ 30 -> handle_ok handle ->
  remote_call client server sessions queued handle q w = Some ((rc, given_back q), w).

(** The steps that are the same for all functions: the parts of a message, the
    dispatcher, reading a parameter, reading the answer. *)
Ltac open_lets := repeat match goal with x := _ |- _ => subst x end; cbv beta.
Ltac parts :=
  open_lets; unfold const, argc_field; cbn [repeat];
  repeat first [apply fields_nil|apply fields_int|apply (fields_ptr None); [done|]|apply fields_ptr; [first [by apply good_sendable|by intros ? [= <-]]|]|by apply fields_no_array|apply fields_no_array|apply fields_array; [done|done|]].
Ltac dispatch := let b := fresh in let Hb := fresh in let H6 := fresh in
  intros b Hb H6; unfold IrpcTransaction_EsifRequest; cbn [t_request t_response IpfServer_Trx]; rewrite Hb; unfold sbind at 1; rewrite H6; cbn [of_option sret]; reflexivity.
Ltac dispatch_event handler := let b := fresh in let Hb := fresh in let H6 := fresh in
  intros b Hb H6; unfold IrpcTransaction_EsifRequest; cbn [t_request t_response IpfServer_Trx]; rewrite Hb; unfold sbind at 1; rewrite H6; cbn [of_option sret];
  match goal with |- sbind _ ?k ?w = _ => transitivity (sbind (handler [] [] (with_result ESIF_E_INVALID_HANDLE (IpfServer_Trx server ipfHandle b))) k w); [reflexivity|] end;
  unfold Irpc_Response_EsifEventRegister, Irpc_Response_EsifEventUnregister, Irpc_Response_EsifEventAction; rewrite sget_first;
  change (t_ipfHandle (with_result ESIF_E_INVALID_HANDLE (IpfServer_Trx server ipfHandle b))) with ipfHandle; reflexivity.
Ltac tights := open_lets; cbn [repeat take firstn]; repeat (apply Forall_cons; split); first [done|by apply ptr_part_tight|by apply array_part_tight|idtac].
Ltac read_ptr i d pos := match goal with Hsz : size (msg_wire IrpcMsg_ProcRequest _ _ _ ?fs ?ps) < _, Hps : fields_ok ?fs ?ps |- _ =>
  rewrite (param_reads _ _ _ _ _ _ i d pos Hps Hsz eq_refl) by first [done|by apply good_sendable|by tights]; cbn [mbind option_bind] end.
Ltac read_int i v pos := match goal with Hsz : size (msg_wire IrpcMsg_ProcRequest _ _ _ ?fs ?ps) < _, Hps : fields_ok ?fs ?ps |- _ =>
  rewrite (param_int _ _ _ _ _ _ Hps i _ v pos eq_refl) by first [done|unfold handle_ok in *; cbn; lia]; cbn [mbind option_bind] end.
Ltac start_by dispatch fid pc ps pr ps' hq a rc back :=
  let Hps := fresh "Hps" in let Hps' := fresh "Hps'" in let Hsz := fresh "Hsz" in let Hsz' := fresh "Hsz'" in
  assert (Hps' : fields_ok (pr false) ps') by parts;
  assert (Hsz' : size (msg_wire IrpcMsg_ProcResponse fid (with_trxId client.1.1 (IpfServer_Trx server ipfHandle (mk_binary None 0 0 0))) rc (pr false) ps') < 2 ^ 31) by message_size;
  assert (Hps : fields_ok (pc true) ps) by parts;
  assert (Hsz : size (msg_wire IrpcMsg_ProcRequest fid (IpfClient_Trx client) ESIF_OK (pc true) ps) < 2 ^ 31) by message_size;
  eapply (call_ok client server ipfHandle (option_map cs_ipfHandle (IpcSessionMgr_GetSessionByEsifHandle sessions hq)) fid (IrpcTransaction_QueueRequest sessions queued server) _ pc ps _ _ _ _ _ _ pr ps' hq a rc back);
    [done|done|done|done|reflexivity|exact Hps|reflexivity|exact Hsz|done|dispatch tt
    |cbv beta; change (alloc [] 0) with true; change (alloc [] 1) with true; change (alloc [] 2) with true; change (alloc [] 3) with true
    |eassumption|reflexivity|exact Hps'|exact Hsz'| |by intros; eapply route_goes].
Ltac start fid pc ps pr ps' hq a rc back := start_by ltac:(fun _ => dispatch) fid pc ps pr ps' hq a rc back.
Ltac only_result := let H34 := fresh in intros H34; unfold result_only; rewrite H34; reflexivity.
Ltac result_at i v pos := match goal with Hsz' : size (msg_wire IrpcMsg_ProcResponse _ _ _ ?fs ?ps) < _, Hps' : fields_ok ?fs ?ps |- _ =>
  let H34 := fresh in intros H34; apply answer_finish_ok; [done| |done]; apply (answer_reads _ _ _ _ _ _ i v pos Hps' Hsz'); [done|done|by tights|done] end.

Lemma get_config_runs n k v hq : runs hq (QGetConfig n k v).
Proof.
  intros rc back w w' h_ Hroute (Hn & Hk & d & -> & Hd) Hvol Hhq Hrc He (v' & -> & Hv & Hlen) Hcall. cbn [call_volume] in Hvol. pose proof (fb_sendable d v' Hv) as Hsv. assert (Hd' : good_opt (Some d)) by done.
  set (pc := fun request => [Int 8 hq; DataPtr (const request n); DataPtr (const request k); DataPtr (Some d)]). set (ps := [([], 0); ptr_part n; ptr_part k; ptr_part (Some d)]).
  set (pr := fun request => [Int 8 hq; DataPtr (const request None); DataPtr (const request None); DataPtr (Some v')]). set (ps' := [([], 0); ([], 0); ([], 0); ptr_part (Some v')]).
  start IrpcFunc_EsifGetConfig pc ps pr ps' hq (arrived n, arrived k, received d) rc (Some v').
  - read_ptr 1%nat n 46. read_ptr 2%nat k 50. read_ptr 3%nat (Some d) 54. done.
  - result_at 3%nat v' 54.
Qed.
Lemma set_config_runs n k v f hq : runs hq (QSetConfig n k v f).
Proof.
  intros rc back w w' h_ Hroute (Hn & Hk & Hv & Hfl) Hvol Hhq Hrc He Hback Hcall. cbn [call_volume] in Hvol. cbn in Hback. subst back.
  set (pc := fun request => [Int 8 hq; DataPtr (const request n); DataPtr (const request k); DataPtr (const request v); Int 4 f]). set (ps := [([], 0); ptr_part n; ptr_part k; ptr_part v; ([], 0)]).
  set (pr := fun request => [Int 8 hq; DataPtr (@const request EsifData None); DataPtr (@const request EsifData None); DataPtr (@const request EsifData None); Int 4 f]). set (ps' := repeat ([] : list Z, 0) 5).
  start IrpcFunc_EsifSetConfig pc ps pr ps' hq (arrived n, arrived k, arrived v, f) rc (@None EsifData).
  - read_ptr 1%nat n 46. read_ptr 2%nat k 50. read_ptr 3%nat v 54. read_int 4%nat f 58. done.
  - only_result.
Qed.
Lemma primitive_runs ph dh req resp p i hq : runs hq (QPrimitive ph dh req resp p i).
Proof.
  intros rc back w w' h_ Hroute (Hph & Hdh & Hreq & (d & -> & Hd) & Hp & Hi) Hvol Hhq Hrc He (v' & -> & Hv & Hlen) Hcall. cbn [call_volume] in Hvol. pose proof (fb_sendable d v' Hv) as Hsv. assert (Hd' : good_opt (Some d)) by done.
  set (pc := fun request => [Int 8 hq; Int 8 ph; Int 8 dh; DataPtr (const request req); DataPtr (Some d); Int 4 p; Int 1 i]). set (ps := [([], 0); ([], 0); ([], 0); ptr_part req; ptr_part (Some d); ([], 0); ([], 0)]).
  set (pr := fun request => [Int 8 hq; Int 8 ph; Int 8 dh; DataPtr (@const request EsifData None); DataPtr (Some v'); Int 4 p; Int 1 i]). set (ps' := [([], 0); ([], 0); ([], 0); ([], 0); ptr_part (Some v'); ([], 0); ([], 0)]).
  start IrpcFunc_EsifPrimitive pc ps pr ps' hq (arrived req, received d, ph, dh, p, i) rc (Some v').
  - read_ptr 3%nat req 62. read_ptr 4%nat (Some d) 66. read_int 1%nat ph 46. read_int 2%nat dh 54. read_int 5%nat p 70. read_int 6%nat i 74. done.
  - result_at 4%nat v' 66.
Qed.
Lemma write_log_runs ph dh m l hq : runs hq (QWriteLog ph dh m l).
Proof.
  intros rc back w w' h_ Hroute (Hph & Hdh & Hm & Hl) Hvol Hhq Hrc He Hback Hcall. cbn [call_volume] in Hvol. cbn in Hback. subst back.
  set (pc := fun request => [Int 8 hq; Int 8 ph; Int 8 dh; DataPtr (const request m); Int 4 l]). set (ps := [([], 0); ([], 0); ([], 0); ptr_part m; ([], 0)]).
  set (pr := fun request => [Int 8 hq; Int 8 ph; Int 8 dh; DataPtr (@const request EsifData None); Int 4 l]). set (ps' := repeat ([] : list Z, 0) 5).
  start IrpcFunc_EsifWriteLog pc ps pr ps' hq (arrived m, ph, dh, l) rc (@None EsifData).
  - read_ptr 3%nat m 62. read_int 1%nat ph 46. read_int 2%nat dh 54. read_int 4%nat l 66. done.
  - only_result.
Qed.
Lemma send_event_runs ph dh d g hq : runs hq (QSendEvent ph dh d g).
Proof.
  intros rc back w w' h_ Hroute (Hph & Hdh & Hd & Hg) Hvol Hhq Hrc He Hback Hcall. cbn [call_volume] in Hvol. cbn in Hback. subst back.
  set (pc := fun request => [Int 8 hq; Int 8 ph; Int 8 dh; DataPtr (const request d); DataPtr (const request g)]). set (ps := [([], 0); ([], 0); ([], 0); ptr_part d; ptr_part g]).
  set (pr := fun request => [Int 8 hq; Int 8 ph; Int 8 dh; DataPtr (@const request EsifData None); DataPtr (@const request EsifData None)]). set (ps' := repeat ([] : list Z, 0) 5).
  start IrpcFunc_EsifSendEvent pc ps pr ps' hq (arrived d, arrived g, ph, dh) rc (@None EsifData).
  - read_ptr 3%nat d 62. read_ptr 4%nat g 66. read_int 1%nat ph 46. read_int 2%nat dh 54. done.
  - only_result.
Qed.
Lemma event_register_runs ph dh g hq : runs hq (QEventRegister ph dh g).
Proof.
  intros rc back w w' h_ Hroute (Hph & Hdh & Hg) Hvol Hhq Hrc He Hback Hcall. cbn [call_volume] in Hvol. cbn in Hback. subst back. set (e := AppSessionMgr_GetEsifHandleByHandle w ipfHandle).
  set (pc := fun request => [Int 8 hq; Int 8 ph; Int 8 dh; DataPtr (const request g)]). set (ps := [([], 0); ([], 0); ([], 0); ptr_part g]).
  set (pr := fun request => [Int 8 e; Int 8 ph; Int 8 dh; DataPtr (@const request EsifData None)]). set (ps' := repeat ([] : list Z, 0) 4).
  start_by ltac:(fun _ => dispatch_event (Irpc_Response_EsifEventRegister (W := W))) IrpcFunc_EsifEventRegister pc ps pr ps' hq (arrived g, ph, dh) rc (@None EsifData).
  - read_ptr 3%nat g 62. read_int 1%nat ph 46. read_int 2%nat dh 54. done.
  - only_result.
Qed.
Lemma event_unregister_runs ph dh g hq : runs hq (QEventUnregister ph dh g).
Proof.
  intros rc back w w' h_ Hroute (Hph & Hdh & Hg) Hvol Hhq Hrc He Hback Hcall. cbn [call_volume] in Hvol. cbn in Hback. subst back. set (e := AppSessionMgr_GetEsifHandleByHandle w ipfHandle).
  set (pc := fun request => [Int 8 hq; Int 8 ph; Int 8 dh; DataPtr (const request g)]). set (ps := [([], 0); ([], 0); ([], 0); ptr_part g]).
  set (pr := fun request => [Int 8 e; Int 8 ph; Int 8 dh; DataPtr (@const request EsifData None)]). set (ps' := repeat ([] : list Z, 0) 4).
  start_by ltac:(fun _ => dispatch_event (Irpc_Response_EsifEventUnregister (W := W))) IrpcFunc_EsifEventUnregister pc ps pr ps' hq (arrived g, ph, dh) rc (@None EsifData).
  - read_ptr 3%nat g 62. read_int 1%nat ph 46. read_int 2%nat dh 54. done.
  - only_result.
Qed.
Lemma send_command_runs argc argv r hq : runs hq (QSendCommand argc argv r).
Proof.
  intros rc back w w' h_ Hroute (l & d & -> & -> & Hargc & Hl & -> & Hd & Hcmd) Hvol Hhq Hrc He (v' & -> & Hv & Hlen) Hcall. cbn [call_volume] in Hvol. set (argc := Z.of_nat (length l)) in *.
  pose proof (fb_sendable d v' Hv) as Hsv. assert (Hd' : good_opt (Some d)) by done. pose proof (array_part_size l Hl) as Hsize.
  assert (Hsent : array_sent argc (Some l) = true) by (unfold array_sent; by rewrite (proj2 (Z.eqb_neq _ _)), (proj2 (Z.ltb_lt _ _)) by lia).
  set (pc := fun request => [Int 8 hq; argc_field argc (const request (Some l)); DataArray argc (const request (Some l)); DataPtr (Some d)]). set (ps := [([], 0); ([], 0); (concat (map item l), items_count l); ptr_part (Some d)]).
  set (pr := fun request => [Int 8 hq; argc_field argc (@const request (list EsifData) None); DataArray argc (@const request (list EsifData) None); DataPtr (Some v')]). set (ps' := [([], 0); ([], 0); ([], 0); ptr_part (Some v')]).
  cbn [remote_call]. unfold Irpc_Request_EsifSendCommand. rewrite Hcmd. cbn [of_option]. unfold sbind at 1, sret at 1.
  start IrpcFunc_EsifSendCommand pc ps pr ps' hq (argc, map received l, received d) rc (Some v').
  - assert (Hi : pc true !! 1%nat = Some (Int 4 argc)) by (unfold pc, argc_field, const; cbn iota; by rewrite Hsent).
    rewrite (param_int _ _ _ _ _ _ Hps 1 4 argc 46 Hi) by (done || (unfold IRPC_MAXARRAY in Hargc; cbn; lia)). cbn [mbind option_bind].
    pose proof (array_reads _ _ _ _ _ _ 2 argc l 50 Hps Hsz eq_refl Hsent eq_refl Hl ltac:(by tights) eq_refl) as Ea. change (drop 4 (@nil bool)) with (@nil bool). change (50 + 4) with 54 in Ea. rewrite Ea. cbn [mbind option_bind].
    pose proof (answer_reads _ _ _ _ _ _ 3 d 54 Hps Hsz eq_refl (proj1 Hd) ltac:(by tights) eq_refl) as Ed. change (54 + 4) with 58 in Ed. by rewrite Ed.
  - result_at 3%nat v' 54.
Qed.

(** Calls that go nowhere. *)
Ltac goes_nowhere fid pc ps :=
  let Hps := fresh "Hps" in let Hrc := fresh "Hrc" in let Hex := fresh "Hex" in
  match goal with Hr : route_of sessions queued _ = Stays _ |- _ => destruct (route_stays _ _ Hr) as [Hrc Hex] end;
  assert (Hps : fields_ok (pc true) ps) by parts;
  refine (call_not_sent client _ fid _ _ pc ps _ _ _ _ _ Hps _ Hrc (fun t frame => Hex t frame _)); [reflexivity|message_size].
Lemma every_call_stays hq q : stays hq q.
Proof.
  destruct q as [n k v|n k v f|ph dh req resp p i|ph dh m l|ph dh g|ph dh g|ph dh d g|argc argv r]; intros rc w Hr Hq Hvol Hhq; cbn in Hq, Hvol; cbn [remote_call given_back].
  - destruct Hq as (Hn & Hk & d & -> & Hd). assert (Hd' : good_opt (Some d)) by done.
    goes_nowhere IrpcFunc_EsifGetConfig (fun request : bool => [Int 8 hq; DataPtr (const request n); DataPtr (const request k); DataPtr (Some d)]) [([], 0); ptr_part n; ptr_part k; ptr_part (Some d)].
  - destruct Hq as (Hn & Hk & Hv & Hf).
    goes_nowhere IrpcFunc_EsifSetConfig (fun request : bool => [Int 8 hq; DataPtr (const request n); DataPtr (const request k); DataPtr (const request v); Int 4 f]) [([], 0); ptr_part n; ptr_part k; ptr_part v; ([], 0)].
  - destruct Hq as (Hph & Hdh & Hreq & (d & -> & Hd) & Hp & Hi). assert (Hd' : good_opt (Some d)) by done.
    goes_nowhere IrpcFunc_EsifPrimitive (fun request : bool => [Int 8 hq; Int 8 ph; Int 8 dh; DataPtr (const request req); DataPtr (Some d); Int 4 p; Int 1 i]) [([], 0); ([], 0); ([], 0); ptr_part req; ptr_part (Some d); ([], 0); ([], 0)].
  - destruct Hq as (Hph & Hdh & Hm & Hl).
    goes_nowhere IrpcFunc_EsifWriteLog (fun request : bool => [Int 8 hq; Int 8 ph; Int 8 dh; DataPtr (const request m); Int 4 l]) [([], 0); ([], 0); ([], 0); ptr_part m; ([], 0)].
  - destruct Hq as (Hph & Hdh & Hg).
    goes_nowhere IrpcFunc_EsifEventRegister (fun request : bool => [Int 8 hq; Int 8 ph; Int 8 dh; DataPtr (const request g)]) [([], 0); ([], 0); ([], 0); ptr_part g].
  - destruct Hq as (Hph & Hdh & Hg).
    goes_nowhere IrpcFunc_EsifEventUnregister (fun request : bool => [Int 8 hq; Int 8 ph; Int 8 dh; DataPtr (const request g)]) [([], 0); ([], 0); ([], 0); ptr_part g].
  - destruct Hq as (Hph & Hdh & Hd & Hg).
    goes_nowhere IrpcFunc_EsifSendEvent (fun request : bool => [Int 8 hq; Int 8 ph; Int 8 dh; DataPtr (const request d); DataPtr (const request g)]) [([], 0); ([], 0); ([], 0); ptr_part d; ptr_part g].
  - destruct Hq as (l & d & -> & -> & Hargc & Hl & -> & Hd & Hcmd). assert (Hd' : good_opt (Some d)) by done. pose proof (array_part_size l Hl) as Hsize. set (argc := Z.of_nat (length l)) in *.
    assert (Hsent : array_sent argc (Some l) = true) by (unfold array_sent; by rewrite (proj2 (Z.eqb_neq _ _)), (proj2 (Z.ltb_lt _ _)) by lia).
    unfold Irpc_Request_EsifSendCommand. rewrite Hcmd. cbn [of_option]. unfold sbind at 1, sret at 1.
    goes_nowhere IrpcFunc_EsifSendCommand (fun request : bool => [Int 8 hq; argc_field argc (const request (Some l)); DataArray argc (const request (Some l)); DataPtr (Some d)]) [([], 0); ([], 0); (concat (map item l), items_count l); ptr_part (Some d)].
Qed.

(** Every call. *)
Lemma every_call_runs hq q : runs hq q.
Proof.
  destruct q; [apply get_config_runs|apply set_config_runs|apply primitive_runs|apply write_log_runs|apply event_register_runs|apply event_unregister_runs|apply send_event_runs|apply send_command_runs].
Qed.
End Calls.

(* ------------------------------------------------------------------ *)
(** ** A call that changes nothing in the caller's buffer *)

Lemma payload_received d : sendable d -> d_data_len d <= d_buf_len d -> payload (received d) = payload d.
Proof.
  intros Hs Hle. pose proof (payload_fits d Hs Hle) as Hp. pose proof (bo_data_len d (proj1 Hs)).
  unfold payload at 1, received, received_buf. cbn [EsifData.buf_ptr EsifData.data_len EsifData.buf_len].
  destruct (Z.eqb_spec (d_buf_len d) 0); [symmetry; apply nil_of_size; lia|]. rewrite (proj2 (Z.leb_le _ _)), (proj2 (Z.ltb_ge _ _)), orb_false_r by done.
  destruct (Z.eqb_spec (d_data_len d) 0) as [Hz|]; [symmetry; apply nil_of_size; lia|].
  rewrite <- Hp. unfold size at 1. rewrite Nat2Z.id. by rewrite take_app_length.
Qed.
Lemma payload_in_place d b : d_buf d = Some b -> d_data_len d <= d_buf_len d -> 0 <= d_data_len d -> payload d ++ drop (length (payload d)) b = b.
Proof.
  intros Hb Hle H0. unfold payload. rewrite Hb, (proj2 (Z.ltb_ge _ _)), orb_false_r by done. destruct (_ =? 0); [done|].
  rewrite length_take. destruct (decide (Z.to_nat (d_data_len d) <= length b)%nat).
  - rewrite Nat.min_l by done. apply take_drop.
  - rewrite Nat.min_r, drop_all, app_nil_r by lia. apply take_ge. lia.
Qed.
Lemma nothing_written d : sendable d -> written_into d (received d) = d.
Proof.
  intros Hs. unfold written_into. cbn [EsifData.type EsifData.data_len received]. pose proof (bo_data_len d (proj1 Hs)). destruct d as [ty [b|] n k]; [|done]. cbn [EsifData.buf_ptr EsifData.data_len EsifData.buf_len EsifData.type] in *.
  destruct (Z.leb_spec k n); [|done]. rewrite payload_received by done. by rewrite payload_in_place by (done || (cbn; lia)).
Qed.

Lemma volume_nonneg d : good_opt d -> 0 <= volume d.
Proof. destruct d as [d|]; [|done]. intros [[Hb _] _]. pose proof (bo_data_len d Hb). cbn. unfold sizeof_EsifData. lia. Qed.
Lemma volumes_nonneg l : Forall stacked l -> 0 <= volumes l.
Proof. intros Hl. etrans; [apply size_nonneg|by apply array_part_size]. Qed.
Lemma given_good q d : request_fits q -> call_volume q < 2 ^ 30 -> given_back q = Some d -> good d /\ d_data_len d < 2 ^ 30.
Proof.
  intros Hq Hvol Hd. destruct q; cbn in Hq, Hvol, Hd; try done.
  - destruct Hq as (Hn & Hk & ? & -> & Hg). injection Hd as ->. apply volume_nonneg in Hn, Hk. cbn in Hvol. unfold sizeof_EsifData in Hvol. split; [done|lia].
  - destruct Hq as (_ & _ & Hr & (? & -> & Hg) & _). injection Hd as ->. apply volume_nonneg in Hr. cbn in Hvol. unfold sizeof_EsifData in Hvol. split; [done|lia].
  - destruct Hq as (l & ? & -> & _ & _ & Hl & -> & Hg & _). injection Hd as ->. apply volumes_nonneg in Hl. cbn in Hvol. unfold sizeof_EsifData in Hvol. split; [done|lia].
Qed.
Lemma given_delivered q : request_fits q -> given_back (deliver q) = option_map received (given_back q).
Proof. destruct q; cbn; try done; [intros (_ & _ & ? & -> & _)|intros (_ & _ & _ & (? & -> & _) & _)|intros (? & ? & _ & _ & _ & _ & -> & _)]; done. Qed.

(** The caller's block has the size that it claims. *)
Definition block_whole (q : request) : Prop := forall d b, given_back q = Some d -> d_buf d = Some b -> d_buf_len d <= size b.
Lemma nothing_fits q : request_fits q -> call_volume q < 2 ^ 30 -> block_whole q ->
  answer_fits q (given_back (deliver q)) /\ written_back (given_back q) (given_back (deliver q)) = given_back q.
Proof.
  intros Hq Hvol Hb. rewrite given_delivered by done. unfold answer_fits. destruct (given_back q) as [d|] eqn:Ed; [|done]. destruct (given_good q d Hq Hvol Ed) as [Hg Hlen]. cbn [option_map].
  split; [|cbn; by rewrite nothing_written by apply Hg]. exists (received d). split_and!; [done| |done]. split; [by apply received_sendable|done|]. intros b. by apply (Hb d b Ed).
Qed.

(* ------------------------------------------------------------------ *)
(** ** What a remote call is *)

Section Remote.
Context {W : Type} `{IpfSrv W} (client server : Z * Z * Z) (sessions : list IpcInstance) (queued : Z) (q : request) (w : W).
Context (Hclient : 0 <= client.1.1 < 2 ^ 64) (Hq : request_fits q) (Hvol : call_volume q < 2 ^ 30).


End Remote.

(* ------------------------------------------------------------------ *)
(** ** On a server *)

(** Primitive 5 with four bytes for its answer, on connection 3. *)
Definition demo_call : request := QPrimitive 1 2 None (Some (mk_EsifData 3 (Some [0; 0; 0; 0]) 4 0)) 5 0.
Lemma good_block ty b n k : 0 <= ty < 2 ^ 32 -> 0 <= k <= n -> size b = n -> n < 2 ^ 32 -> good (mk_EsifData ty (Some b) n k).
Proof. intros. split; [|by intros [=]]. split; [|by intros _ [=]]. split; cbn; try lia. intros ? [= <-]. lia. Qed.
Lemma demo_call_fits : request_fits demo_call.
Proof.
  cbn. unfold handle_ok. split_and!; try done. eexists. split; [done|]. by apply good_block.
Qed.

(** A process with two sessions, of which the second is connection 3. *)
Definition demo_sessions : list IpcInstance := [mk_instance 9 None; mk_instance 10 (Some (mk_cs 10 4 false 4)); mk_instance 11 (Some (mk_cs 11 3 true 3)); mk_instance 12 (Some (mk_cs 12 8 true 3))].

(** A call without a buffer for the answer is executed, and fails. *)
Lemma null_response_reports_error :
  @checked_call Z demo_srv 7 (QPrimitive 1 2 None None 5 0) 0 = Some ((ESIF_OK, None), 1) /\
  @remote_call Z demo_srv (100, 0, 0) (200, 0, 0) demo_sessions ESIF_OK 3 (QPrimitive 1 2 None None 5 0) 0 = Some ((ESIF_E_PARAMETER_IS_NULL, None), 1).
Proof. split; by vm_compute. Qed.
