(* ===== verification/AppClient.v ===== *)
(** * The application's side of calls by ESIF: IPF ipfipc/ipfipc_irpc.c

    A request of the server comes to the process of an application, whose thread for
    such calls decodes it, checks the application's handle, calls the application's
    function and encodes the answer, with its header in front, for the thread that
    sends it.  The application is an interface ([IpfApp]): functions that may be missing
    and may change its own state in any way. *)

From stdpp Require Import list strings pretty.
From S2P Require Import Prelude CString SdkVersion EsifData Ids IBinary IrpcCodec IrpcMsg IrpcServer IrpcClient.
Local Open Scope Z_scope.
Local Open Scope dptf_scope.

(* ------------------------------------------------------------------ *)
(** ** The application and its connection *)

(** [AppInterface].  The blocks of the parameters belong to the caller; a function that
    fills a buffer gives it back. *)
Class IpfApp (A : Type) : Type := {
  fAppCreateFuncPtr : option (AppInterfaceSet -> Z -> Z -> AppData -> Z -> SM A (Z * Z));
  fAppDestroyFuncPtr : option (Z -> SM A Z);
  fAppSuspendFuncPtr : option (Z -> SM A Z);
  fAppResumeFuncPtr : option (Z -> SM A Z);
  fAppGetVersionFuncPtr : option (EsifData -> SM A (Z * EsifData));
  fAppCommandFuncPtr : option (Z -> Z -> list EsifData -> EsifData -> SM A (Z * EsifData));
  fAppGetIntroFuncPtr : option (Z -> EsifData -> SM A (Z * EsifData));
  fAppGetDescriptionFuncPtr : option (EsifData -> SM A (Z * EsifData));
  fAppGetNameFuncPtr : option (EsifData -> SM A (Z * EsifData));
  fAppGetStatusFuncPtr : option (Z -> Z -> Z -> EsifData -> SM A (Z * EsifData));
  fParticipantCreateFuncPtr : option (Z -> Z -> AppParticipantData -> Z -> SM A Z);
  fParticipantDestroyFuncPtr : option (Z -> Z -> SM A Z);
  fDomainCreateFuncPtr : option (Z -> Z -> Z -> AppDomainData -> Z -> SM A Z);
  fDomainDestroyFuncPtr : option (Z -> Z -> Z -> SM A Z);
  fAppEventFuncPtr : option (Z -> Z -> Z -> option EsifData -> option EsifData -> SM A Z)
}.
Definition there {T} (f : option T) : bool := match f with Some _ => true | None => false end.
Definition app_functions {A} (the_app : IpfApp A) : list bool :=
  [there fAppCreateFuncPtr; there fAppDestroyFuncPtr; there fAppSuspendFuncPtr; there fAppResumeFuncPtr; there fAppGetVersionFuncPtr; there fAppCommandFuncPtr;
   there fAppGetIntroFuncPtr; there fAppGetDescriptionFuncPtr; there fAppGetNameFuncPtr; there fAppGetStatusFuncPtr; there fParticipantCreateFuncPtr;
   there fParticipantDestroyFuncPtr; there fDomainCreateFuncPtr; there fDomainDestroyFuncPtr; there fAppEventFuncPtr].

(** [client->appSession] with the interface set but its functions, the timeout of the
    transaction manager of the connection, and the trace level of the process. *)
Record IpcSession : Type := mk_ipc {
  i_ipfHandle : Z; i_esifHandle : Z; i_appHandle : Z; i_hdr : EsifIfaceHdr; i_esifIface : list bool; i_rpcTimeout : Z; i_traceLevel : Z
}.
Definition with_handles (esifHandle appHandle : Z) (s : IpcSession) : IpcSession := mk_ipc (i_ipfHandle s) esifHandle appHandle (i_hdr s) (i_esifIface s) (i_rpcTimeout s) (i_traceLevel s).
Definition with_iface (h : EsifIfaceHdr) (l : list bool) (s : IpcSession) : IpcSession := mk_ipc (i_ipfHandle s) (i_esifHandle s) (i_appHandle s) h l (i_rpcTimeout s) (i_traceLevel s).
Definition with_rpcTimeout (n : Z) (s : IpcSession) : IpcSession := mk_ipc (i_ipfHandle s) (i_esifHandle s) (i_appHandle s) (i_hdr s) (i_esifIface s) n (i_traceLevel s).
Definition with_traceLevel (n : Z) (s : IpcSession) : IpcSession := mk_ipc (i_ipfHandle s) (i_esifHandle s) (i_appHandle s) (i_hdr s) (i_esifIface s) (i_rpcTimeout s) n.
(** The process: the connection and the application. *)
Definition process (A : Type) : Type := (IpcSession * A)%type.

Definition eIfaceTypeApplication : Z := 0.
Definition APP_INTERFACE_VERSION : Z := 4.
Definition sizeof_AppInterfaceSet : Z := 192.
Definition ESIF_DATA_STRING : Z := 8.
Definition TRX_EXPIRE_TIMEOUT_SECONDS : Z := 45.

(** [esif_ccb_sprintf(siz, str, "%s", text)]: what is in the buffer and the result. *)
Definition esif_ccb_sprintf (siz : Z) (m : list Z) (text : list Z) : option (list Z * Z) :=
  if siz =? 0 then Some (m, 0)
  else let shown := take (Z.to_nat (siz - 1)) text in (fun m' => (m', size shown)) <$> write_at 0 (shown ++ [0]) m.
(** The digits of a number. *)
Definition decimal (n : Z) : list Z := chars_of (pretty n).

(** [isalpha] of the C library. *)
Definition isalpha (c : Z) : bool := (65 <=? c) && (c <=? 90) || (97 <=? c) && (c <=? 122).
(** A path of the server that begins with a drive becomes a local one; [ok] is the
    allocation of its block. *)
Definition local_path : list Z := literal "/usr/share/dptf/log".
Definition translate_path (ok : bool) (d : EsifData) : option EsifData :=
  match d_buf d with
  | None => None
  | Some m =>
      c ← head m;
      if isalpha c then
        c' ← m !! 1%nat;
        if (c' =? 58) && ok then Some (mk_EsifData (d_type d) (Some local_path) (size local_path) (size local_path)) else Some d
      else Some d
  end.

Section App.
Context {A : Type} `{the_app : IpfApp A}.

(** A step of the application. *)
Definition in_app {T} (f : SM A T) : SM (process A) T := fun s => match f s.2 with Some (r, a) => Some (r, (s.1, a)) | None => None end.
Definition on_session (f : IpcSession -> IpcSession) : SM (process A) unit := smodify (fun s => (f s.1, s.2)).
(** A function of the interface, if it is there. *)
Definition invoke {F T} (f : option F) (run : F -> SM A T) (otherwise : T) : SM (process A) T := match f with Some f => in_app (run f) | None => sret otherwise end.

(* ------------------------------------------------------------------ *)
(** ** Responses *)

(** The transaction of a response, [None] without memory. *)
Definition IpfApp_Trx (ok : bool) (fresh : Z * Z * Z) (ipfHandle : Z) : option Transaction :=
  match IBinary_Create ok with Some b => Some (mk_trx None (Some b) fresh.1.1 fresh.1.2 fresh.2 ESIF_OK ipfHandle) | None => None end.
Definition Irpc_SetResponseHeader (hdr : list Z) (b : IBinary) : option IBinary :=
  if has_buf b && (sizeof_EsifMsgHdr <=? IBinary_GetBufLen b) then option_map snd (write_buf 0 hdr b) else Some b.

(** What the handlers share.  [handle] decodes the request, calls the application and
    gives the result and the encoder of the answer, or nothing if there is none.  The
    allocations are [oks] (the transaction and the header) and [mem] (the encoder). *)
Definition Irpc_Response (oks mem : list bool) (fresh : Z * Z * Z) (m : list Z) (handle : SM (process A) (option (Z * (Transaction -> option (bool * Transaction))))) : SM (process A) (option IBinary) :=
  let! s := sget in
  match IpfApp_Trx (alloc oks 0) fresh (i_ipfHandle s.1) with
  | None => sret None
  | Some t =>
      match t_response t with
      | None => ub
      | Some b =>
          let! appended := of_option (IBinary_Append (alloc oks 1) (Some (EsifMsgHdr ESIFMSG_CLASS_IRPC 0)) sizeof_EsifMsgHdr b) in
          let '(written, b) := appended in
          if (written : bool) then
            let msgstart := IBinary_GetLen b in
            let! r := handle in
            match r with
            | None => sret None
            | Some (result, encode) =>
                let! trxId := of_option (get_int 8 m 10) in
                let t := with_result result (with_trxId trxId (with_response (Some b) t)) in
                let! e := of_option (encode t) in
                let '(encoded, t) := e in
                match (encoded : bool), t_response t with
                | true, Some b =>
                    let! b := of_option (option_map snd (write_buf msgstart (le_bytes 4 IrpcMsg_ProcResponse) b)) in
                    let! b := of_option (option_map snd (write_buf (msgstart + 34) (le_bytes 4 (t_result t)) b)) in
                    let! b := of_option (Irpc_SetResponseHeader (EsifMsgHdr ESIFMSG_CLASS_IRPC (u32 (IBinary_GetLen b - msgstart))) b) in
                    sret (Some b)
                | _, _ => sret None
                end
            end
          else sret None
      end
  end.

(** The check that most handlers make. *)
Definition for_handle {T} (handle : Z) (call : Z -> SM (process A) (Z * T)) (otherwise : T) : SM (process A) (Z * T) :=
  let! s := sget in
  if i_appHandle s.1 =? handle then call (i_appHandle s.1) else sret (ESIF_E_INVALID_HANDLE, otherwise).
(** A function with a result alone. *)
Definition result_of {F} (f : option F) (run : F -> SM A Z) : SM (process A) (Z * unit) :=
  let! rc := invoke f run ESIF_E_NOT_IMPLEMENTED in sret (rc, tt).
(** A buffer with a block: the handlers answer nothing without one. *)
Definition block_at (ok1 ok2 : bool) (m : list Z) (pos : Z) : option (option EsifData) :=
  d ← Irpc_Deserialize_EsifDataPtr ok1 ok2 None m pos (pos + 4);
  Some (match d with Some d => if bool_decide (d_buf d = None) then None else Some d | None => None end).

Definition Irpc_Response_AppGetString (oks mem : list bool) (fresh : Z * Z * Z) (m : list Z) : SM (process A) (option IBinary) :=
  Irpc_Response oks mem fresh m (
    let! data := of_option (block_at (alloc oks 2) (alloc oks 3) m 46) in
    match data with
    | None => sret None
    | Some d =>
        let! funcId := of_option (get_int 4 m 6) in
        let! handle := of_option (get_int 8 m 38) in
        let! r :=
          if funcId =? IrpcFunc_AppGetName then let! r := invoke fAppGetNameFuncPtr (fun f => f d) (ESIF_E_NOT_IMPLEMENTED, d) in sret (ESIF_INVALID_HANDLE, r)
          else if funcId =? IrpcFunc_AppGetDescription then let! r := invoke fAppGetDescriptionFuncPtr (fun f => f d) (ESIF_E_NOT_IMPLEMENTED, d) in sret (ESIF_INVALID_HANDLE, r)
          else if funcId =? IrpcFunc_AppGetVersion then let! r := invoke fAppGetVersionFuncPtr (fun f => f d) (ESIF_E_NOT_IMPLEMENTED, d) in sret (ESIF_INVALID_HANDLE, r)
          else if funcId =? IrpcFunc_AppGetIntro then
            let! s := sget in
            if i_appHandle s.1 =? handle then
              match fAppGetIntroFuncPtr with
              | Some f => let! r := in_app (f handle d) in sret (i_appHandle s.1, r)
              | None => sret (ESIF_INVALID_HANDLE, (ESIF_E_NOT_IMPLEMENTED, d))
              end
            else sret (ESIF_INVALID_HANDLE, (ESIF_E_INVALID_HANDLE, d))
          else sret (ESIF_INVALID_HANDLE, (ESIF_E_INVALID_REQUEST_TYPE, d)) in
        let '(appHandle, (rc, d)) := r in
        sret (Some (rc, fun t => Irpc_Encode_AppGetStringFunc mem t funcId appHandle (Some d)))
    end).

(** The command timeout is answered by the connection itself. *)
Definition is_timeout (argv : list EsifData) : option bool :=
  match argv with
  | a :: _ => if d_type a =? ESIF_DATA_STRING then (c ← d_buf a; stricmp_eq c (literal "timeout")) else Some false
  | [] => Some false
  end.
Definition timeout_given (argv : list EsifData) : option (option Z) :=
  match argv with
  | _ :: a :: _ =>
      if d_type a =? ESIF_DATA_STRING then
        c ← d_buf a; x ← head c;
        if isdigit x then (fun n => Some (u64 n)) <$> atoi c else Some None
      else Some None
  | _ => Some None
  end.
Definition timeout_command (argv : list EsifData) (response : EsifData) : SM (process A) (Z * EsifData) :=
  let! given := of_option (timeout_given argv) in
  (match given with Some n => on_session (with_rpcTimeout (if n =? 0 then TRX_EXPIRE_TIMEOUT_SECONDS else n)) | None => sret tt end) ;!
  let! s := sget in
  match d_buf response with
  | None => ub
  | Some c =>
      let! r := of_option (esif_ccb_sprintf (d_buf_len response) c (decimal (i_rpcTimeout s.1) ++ [10])) in
      sret (ESIF_OK, mk_EsifData (d_type response) (Some r.1) (d_buf_len response) (u32 (r.2 + 1)))
  end.
Definition Irpc_Response_AppCommand (oks mem : list bool) (fresh : Z * Z * Z) (m : list Z) : SM (process A) (option IBinary) :=
  Irpc_Response oks mem fresh m (
    let! argc := of_option (get_int 4 m 46) in
    let! argv := of_option (Irpc_Deserialize_EsifDataArray (alloc oks 2) (drop 5 oks) argc m 50 54) in
    let! response := of_option (block_at (alloc oks 3) (alloc oks 4) m 54) in
    match argv, response with
    | Some argv, Some d =>
        let! handle := of_option (get_int 8 m 38) in
        let! r := for_handle handle (fun _ =>
          let! here := of_option (if 0 <? argc then is_timeout argv else Some false) in
          if (here : bool) then timeout_command argv d else invoke fAppCommandFuncPtr (fun f => f handle argc argv d) (ESIF_E_NOT_IMPLEMENTED, d)) d in
        sret (Some (r.1, fun t => Irpc_Encode_AppCommandFunc mem t handle 0 None (Some r.2)))
    | _, _ => sret None
    end).

(** [IrpcFunc_AppDestroy], [..Suspend] and [..Resume]. *)
Definition Irpc_Response_AppHandle (oks mem : list bool) (fresh : Z * Z * Z) (funcId : Z) (m : list Z) : SM (process A) (option IBinary) :=
  Irpc_Response oks mem fresh m (
    let! handle := of_option (get_int 8 m 38) in
    let! s := sget in
    let! r := for_handle handle (fun h =>
      if funcId =? IrpcFunc_AppDestroy then result_of fAppDestroyFuncPtr (fun f => f h)
      else if funcId =? IrpcFunc_AppSuspend then result_of fAppSuspendFuncPtr (fun f => f h)
      else if funcId =? IrpcFunc_AppResume then result_of fAppResumeFuncPtr (fun f => f h)
      else sret (ESIF_E_INVALID_REQUEST_TYPE, tt)) tt in
    (if funcId =? IrpcFunc_AppDestroy then on_session (with_handles ESIF_INVALID_HANDLE ESIF_INVALID_HANDLE) else sret tt) ;!
    sret (Some (r.1, fun t => Irpc_Encode_AppHandleFunc mem t funcId (i_appHandle s.1)))).

Definition Irpc_Response_AppGetStatus (oks mem : list bool) (fresh : Z * Z * Z) (m : list Z) : SM (process A) (option IBinary) :=
  Irpc_Response oks mem fresh m (
    let! out := of_option (block_at (alloc oks 2) (alloc oks 3) m 54) in
    match out with
    | None => sret None
    | Some d =>
        let! handle := of_option (get_int 8 m 38) in
        let! command := of_option (get_int 4 m 46) in
        let! appStatusIn := of_option (get_int 4 m 50) in
        let! r := for_handle handle (fun _ => invoke fAppGetStatusFuncPtr (fun f => f handle command appStatusIn d) (ESIF_E_NOT_IMPLEMENTED, d)) d in
        sret (Some (r.1, fun t => Irpc_Encode_AppGetStatusFunc mem t handle command appStatusIn (Some r.2)))
    end).

(** The description is read where its offset points to. *)
Definition Irpc_Response_AppParticipantCreate (oks mem : list bool) (fresh : Z * Z * Z) (m : list Z) : SM (process A) (option IBinary) :=
  Irpc_Response oks mem fresh m (
    let! handle := of_option (get_int 8 m 38) in
    let! participant := of_option (get_int 8 m 46) in
    let! state := of_option (get_int 4 m 58) in
    let! r := for_handle handle (fun _ =>
      match fParticipantCreateFuncPtr with
      | None => sret (ESIF_E_NOT_IMPLEMENTED, tt)
      | Some f =>
          let! offset := of_option (get_int 4 m 54) in
          let! data := of_option (Irpc_Decode_AppParticipantData true (drop 2 oks) m (58 + offset)) in
          match data with
          | Some d => let! rc := in_app (f handle participant d state) in sret (rc, tt)
          | None => sret (ESIF_E_NOT_IMPLEMENTED, tt)
          end
      end) tt in
    sret (Some (r.1, fun t => Irpc_Encode_AppParticipantCreateFunc mem t handle participant None state))).

Definition Irpc_Response_AppParticipantDestroy (oks mem : list bool) (fresh : Z * Z * Z) (m : list Z) : SM (process A) (option IBinary) :=
  Irpc_Response oks mem fresh m (
    let! handle := of_option (get_int 8 m 38) in
    let! participant := of_option (get_int 8 m 46) in
    let! r := for_handle handle (fun _ => result_of fParticipantDestroyFuncPtr (fun f => f handle participant)) tt in
    sret (Some (r.1, fun t => Irpc_Encode_AppParticipantDestroyFunc mem t handle participant))).

Definition Irpc_Response_AppDomainCreate (oks mem : list bool) (fresh : Z * Z * Z) (m : list Z) : SM (process A) (option IBinary) :=
  Irpc_Response oks mem fresh m (
    let! handle := of_option (get_int 8 m 38) in
    let! participant := of_option (get_int 8 m 46) in
    let! domain := of_option (get_int 8 m 54) in
    let! state := of_option (get_int 4 m 66) in
    let! r := for_handle handle (fun _ =>
      match fDomainCreateFuncPtr with
      | None => sret (ESIF_E_NOT_IMPLEMENTED, tt)
      | Some f =>
          let! offset := of_option (get_int 4 m 62) in
          let! data := of_option (Irpc_Decode_AppDomainData true (drop 2 oks) m (66 + offset)) in
          match data with
          | Some d => let! rc := in_app (f handle participant domain d state) in sret (rc, tt)
          | None => sret (ESIF_E_NOT_IMPLEMENTED, tt)
          end
      end) tt in
    sret (Some (r.1, fun t => Irpc_Encode_AppDomainCreateFunc mem t handle participant domain None state))).

Definition Irpc_Response_AppDomainDestroy (oks mem : list bool) (fresh : Z * Z * Z) (m : list Z) : SM (process A) (option IBinary) :=
  Irpc_Response oks mem fresh m (
    let! handle := of_option (get_int 8 m 38) in
    let! participant := of_option (get_int 8 m 46) in
    let! domain := of_option (get_int 8 m 54) in
    let! r := for_handle handle (fun _ => result_of fDomainDestroyFuncPtr (fun f => f handle participant domain)) tt in
    sret (Some (r.1, fun t => Irpc_Encode_AppDomainDestroyFunc mem t handle participant domain))).

(** The new trace level in an event, if it is one that changes the verbosity. *)
Definition verbosity (data guid : option EsifData) : option (option Z) :=
  match g ← guid; d_buf g with
  | None => Some None
  | Some g =>
      g ← read_at 0 16 g;
      match d ← data; b ← d_buf d; Some (d, b) with
      | Some (d, b) => if bool_decide (g = LOG_VERBOSITY_CHANGED) && (d_buf_len d =? 4) then Some <$> get_int 4 b 0 else Some None
      | None => Some None
      end
  end.
(** An event is taken with the handle of the application or with none; before the
    application has a handle it is not answered. *)
Definition Irpc_Response_AppEvent (oks mem : list bool) (fresh : Z * Z * Z) (m : list Z) : SM (process A) (option IBinary) :=
  let! s := sget in
  let theAppHandle := i_appHandle s.1 in
  if theAppHandle =? ESIF_INVALID_HANDLE then sret None
  else
    Irpc_Response oks mem fresh m (
      let! handle := of_option (get_int 8 m 38) in
      let! participant := of_option (get_int 8 m 46) in
      let! domain := of_option (get_int 8 m 54) in
      let! rc :=
        if negb (theAppHandle =? handle) && negb (handle =? ESIF_INVALID_HANDLE) then sret ESIF_E_INVALID_HANDLE
        else
          match fAppEventFuncPtr with
          | None => sret ESIF_E_NOT_IMPLEMENTED
          | Some f =>
              let! data := of_option (Irpc_Deserialize_EsifDataPtr (alloc oks 2) (alloc oks 3) None m 62 66) in
              let! guid := of_option (Irpc_Deserialize_EsifDataPtr (alloc oks 4) (alloc oks 5) None m 66 70) in
              let! rc := in_app (f theAppHandle participant domain data guid) in
              let! level := of_option (verbosity data guid) in
              (match level with Some n => on_session (with_traceLevel (s32 n)) | None => sret tt end) ;!
              sret rc
          end in
      sret (Some (rc, fun t => Irpc_Encode_AppEventFunc mem t theAppHandle participant domain None None))).

(** The application is created with an interface of ESIF whose functions are those of
    IrpcClient.v; all eight are there.  A header of another interface or version is not
    answered.  [paths] is the allocation of a local path. *)
Definition Irpc_Response_AppCreate (oks mem : list bool) (paths : bool) (fresh : Z * Z * Z) (m : list Z) : SM (process A) (option IBinary) :=
  Irpc_Response oks mem fresh m (
    let! offset := of_option (get_int 4 m 38) in
    let! h := of_option (Irpc_Uncast_EsifIfaceHdr m (42 + offset)) in
    if negb (fIfaceType h =? eIfaceTypeApplication) || negb (fIfaceVersion h =? APP_INTERFACE_VERSION) then sret None
    else
      let h := mk_iface_hdr (fIfaceType h) (fIfaceVersion h) sizeof_AppInterfaceSet in
      let functions := repeat true 8 in
      on_session (with_iface h functions) ;!
      let set := mk_iface_set h (app_functions the_app) functions in
      let! esifHandle := of_option (get_int 8 m 42) in
      on_session (with_handles esifHandle ESIF_INVALID_HANDLE) ;!
      let! state := of_option (get_int 4 m 58) in
      let! rc :=
        match fAppCreateFuncPtr with
        | None => sret ESIF_E_NOT_IMPLEMENTED
        | Some f =>
            let! offset := of_option (get_int 4 m 54) in
            let! data := of_option (Irpc_Decode_AppData true (alloc oks 2) m (58 + offset)) in
            match data with
            | None => ub
            | Some data =>
                on_session (with_traceLevel (s32 (fLogLevel data))) ;!
                if bool_decide (d_buf (fPathHome data) = None) then sret ESIF_E_NO_MEMORY
                else
                  let! path := of_option (translate_path paths (fPathHome data)) in
                  let! r := in_app (f set esifHandle ESIF_INVALID_HANDLE (mk_app_data path (fLogLevel data)) state) in
                  on_session (with_handles esifHandle r.2) ;!
                  sret r.1
            end
        end in
      let! s := sget in
      sret (Some (rc, fun t => Irpc_Encode_AppCreateFunc mem t (Some set) esifHandle (Some (i_appHandle s.1)) None state))).

(* ------------------------------------------------------------------ *)
(** ** Requests *)

(** [Irpc_ProcessRequest] with a message: the response that is queued for the server. *)
Definition Irpc_ProcessRequest (oks mem : list bool) (paths : bool) (fresh : Z * Z * Z) (m : list Z) : SM (process A) (option IBinary) :=
  let! funcId := of_option (get_int 4 m 6) in
  if (funcId =? IrpcFunc_AppGetName) || (funcId =? IrpcFunc_AppGetDescription) || (funcId =? IrpcFunc_AppGetVersion) then Irpc_Response_AppGetString oks mem fresh m
  else if funcId =? IrpcFunc_AppCommand then Irpc_Response_AppCommand oks mem fresh m
  else if funcId =? IrpcFunc_AppGetIntro then Irpc_Response_AppGetString oks mem fresh m
  else if funcId =? IrpcFunc_AppCreate then Irpc_Response_AppCreate oks mem paths fresh m
  else if (funcId =? IrpcFunc_AppDestroy) || (funcId =? IrpcFunc_AppSuspend) || (funcId =? IrpcFunc_AppResume) then Irpc_Response_AppHandle oks mem fresh funcId m
  else if funcId =? IrpcFunc_AppGetStatus then Irpc_Response_AppGetStatus oks mem fresh m
  else if funcId =? IrpcFunc_AppParticipantCreate then Irpc_Response_AppParticipantCreate oks mem fresh m
  else if funcId =? IrpcFunc_AppParticipantDestroy then Irpc_Response_AppParticipantDestroy oks mem fresh m
  else if funcId =? IrpcFunc_AppDomainCreate then Irpc_Response_AppDomainCreate oks mem fresh m
  else if funcId =? IrpcFunc_AppDomainDestroy then Irpc_Response_AppDomainDestroy oks mem fresh m
  else if funcId =? IrpcFunc_AppEvent then Irpc_Response_AppEvent oks mem fresh m
  else sret None.
(** Without a message, when the connection is lost. *)
Definition Irpc_ConnectionLost : SM (process A) Z :=
  let! s := sget in
  let h := i_appHandle s.1 in
  if negb (h =? 0) && negb (h =? ESIF_INVALID_HANDLE) then invoke fAppDestroyFuncPtr (fun f => f h) ESIF_E_PARAMETER_IS_NULL else sret ESIF_E_PARAMETER_IS_NULL.

(** A request in a frame ([IpcSession_ReceiveMsg]); what the thread gets. *)
Definition receive_app_request (ok : bool) (frame : list Z) : option (option IBinary) :=
  p ← EsifMsgFrame_GetPayload frame;
  let '(rc, (msgclass, _, payload_len)) := p in
  if (rc =? ESIF_OK) && (msgclass =? ESIFMSG_CLASS_IRPC) then
    msgtype ← get_int 4 frame 16;
    if (msgtype =? IrpcMsg_ProcRequest) && negb (payload_len =? 0) then clone_message ok (drop 16 frame) payload_len else Some None
  else Some None.
(** From frame to frame. *)
Definition answer_app_frame (oks mem : list bool) (paths : bool) (fresh : Z * Z * Z) (frame : list Z) : SM (process A) (option (list Z)) :=
  let! b := of_option (receive_app_request true frame) in
  match b with
  | None => sret None
  | Some b =>
      match IBinary_GetBuf b with
      | None => sret None
      | Some m =>
          let! r := Irpc_ProcessRequest oks mem paths fresh m in
          match r with Some b => of_option (match IBinary_GetBuf b with Some m => Some <$> read_at 0 (IBinary_GetLen b) m | None => None end) | None => sret None end
      end
  end.
End App.
