(* ===== verification/AppServer.v ===== *)
(** * The server's side of calls by ESIF: IPF ipfsrv/ipfsrv_irpc.c, ipfsrv_iface_cli.c, ipfsrv_appmgr.c

    To ESIF each connected application is an application whose functions
    ([IpfCli_...]) are remote calls ([Irpc_Request_App...]): the session of the
    application is looked up - by its name at first, then by the thread that creates it,
    then by its handle -, the call is encoded, sent and waited for, and the answer is
    decoded into the caller's buffer.  The sessions are a table (ipfsrv_appmgr.c).

    A session is known by its handle, which no other session of the table has: code that
    holds a pointer to a session that was taken out of the table meanwhile works on an
    object that nothing else sees.  The reference counts that keep such an object, and
    the times of a session, are left out, as are the transactions that closing a session
    ends (TrxMgr.v) and the closing of its socket. *)

From stdpp Require Import list strings gmap.
From S2P Require Import Prelude CString SdkVersion EsifData IBinary IrpcCodec IrpcMsg IrpcServer IrpcClient AppClient.
Local Open Scope Z_scope.
Local Open Scope dptf_scope.

(* ------------------------------------------------------------------ *)
(** ** Text in arrays *)

(** The characters of the string at a pointer, at most [n]: [esif_ccb_strnlen] and the
    bytes before. *)
Fixpoint strn (n : nat) (m : list Z) : option (list Z) :=
  match n, m with
  | O, _ => Some []
  | S n, c :: m => if c =? 0 then Some [] else cons c <$> strn n m
  | S n, [] => None
  end.
(** [esif_ccb_strcpy] into an array of [siz] characters: the text that is in it then. *)
Definition esif_ccb_strcpy (siz : nat) (m : list Z) : option (list Z) := take (siz - 1) <$> strn siz m.
(** [esif_ccb_sprintf] into an array of [siz] characters. *)
Definition formatted (siz : nat) (t : list Z) : list Z := take (siz - 1) t.
Definition esif_ccb_strlwr (t : list Z) : list Z := map tolower t.
(** [%llx]. *)
Fixpoint hex_digits (n : nat) (v : Z) (acc : list Z) : list Z :=
  match n with
  | O => acc
  | S n => let d := v mod 16 in let acc := (if d <? 10 then 48 + d else 87 + d) :: acc in if v / 16 =? 0 then acc else hex_digits n (v / 16) acc
  end.
Definition hex (v : Z) : list Z := hex_digits 16 v [].

Definition ESIF_NAME_LEN : nat := 64.
Definition ESIF_DESC_LEN : nat := 64.
Definition ESIF_VERSION_LEN : nat := 20.
Definition ESIF_INTRO_LEN : nat := 1024.
Definition MAX_PATH : nat := 260.
Definition ESIF_NULL_THREAD_ID : Z := 0.
Definition IPFSRV_MAX_SESSIONS : nat := 32.

(* ------------------------------------------------------------------ *)
(** ** Sessions *)

Record Session : Type := mk_sess {
  s_ipfHandle : Z; s_esifHandle : Z; s_appHandle : Z; s_authHandle : Z; s_connected : bool;
  s_appName : list Z; s_appVersion : list Z; s_appDescription : list Z; s_appIntro : list Z; s_esifName : list Z;
  s_threadId : Z; s_ifaceSet : option AppInterfaceSet
}.
Definition with_connected (b : bool) (s : Session) : Session :=
  mk_sess (s_ipfHandle s) (s_esifHandle s) (s_appHandle s) (s_authHandle s) b (s_appName s) (s_appVersion s) (s_appDescription s) (s_appIntro s) (s_esifName s) (s_threadId s) (s_ifaceSet s).
Definition with_threadId (n : Z) (s : Session) : Session :=
  mk_sess (s_ipfHandle s) (s_esifHandle s) (s_appHandle s) (s_authHandle s) (s_connected s) (s_appName s) (s_appVersion s) (s_appDescription s) (s_appIntro s) (s_esifName s) n (s_ifaceSet s).
Definition with_esif (n : Z) (set : option AppInterfaceSet) (s : Session) : Session :=
  mk_sess (s_ipfHandle s) n (s_appHandle s) (s_authHandle s) (s_connected s) (s_appName s) (s_appVersion s) (s_appDescription s) (s_appIntro s) (s_esifName s) (s_threadId s) set.
Definition with_appHandle (n : Z) (s : Session) : Session :=
  mk_sess (s_ipfHandle s) (s_esifHandle s) n (s_authHandle s) (s_connected s) (s_appName s) (s_appVersion s) (s_appDescription s) (s_appIntro s) (s_esifName s) (s_threadId s) (s_ifaceSet s).
Definition with_auth (n : Z) (s : Session) : Session :=
  mk_sess (s_ipfHandle s) (s_esifHandle s) (s_appHandle s) n (s_connected s) (s_appName s) (s_appVersion s) (s_appDescription s) (s_appIntro s) (s_esifName s) (s_threadId s) (s_ifaceSet s).
Definition with_appName (t : list Z) (s : Session) : Session :=
  mk_sess (s_ipfHandle s) (s_esifHandle s) (s_appHandle s) (s_authHandle s) (s_connected s) t (s_appVersion s) (s_appDescription s) (s_appIntro s) (s_esifName s) (s_threadId s) (s_ifaceSet s).
Definition with_appVersion (t : list Z) (s : Session) : Session :=
  mk_sess (s_ipfHandle s) (s_esifHandle s) (s_appHandle s) (s_authHandle s) (s_connected s) (s_appName s) t (s_appDescription s) (s_appIntro s) (s_esifName s) (s_threadId s) (s_ifaceSet s).
Definition with_appDescription (t : list Z) (s : Session) : Session :=
  mk_sess (s_ipfHandle s) (s_esifHandle s) (s_appHandle s) (s_authHandle s) (s_connected s) (s_appName s) (s_appVersion s) t (s_appIntro s) (s_esifName s) (s_threadId s) (s_ifaceSet s).
Definition with_appIntro (t : list Z) (s : Session) : Session :=
  mk_sess (s_ipfHandle s) (s_esifHandle s) (s_appHandle s) (s_authHandle s) (s_connected s) (s_appName s) (s_appVersion s) (s_appDescription s) t (s_esifName s) (s_threadId s) (s_ifaceSet s).
Definition with_esifName (t : list Z) (s : Session) : Session :=
  mk_sess (s_ipfHandle s) (s_esifHandle s) (s_appHandle s) (s_authHandle s) (s_connected s) (s_appName s) (s_appVersion s) (s_appDescription s) (s_appIntro s) t (s_threadId s) (s_ifaceSet s).
(** [AppSession_Create]: the block is zeroed. *)
Definition AppSession_Create (ok : bool) : option Session :=
  if ok then Some (mk_sess ESIF_INVALID_HANDLE ESIF_INVALID_HANDLE ESIF_INVALID_HANDLE ESIF_INVALID_HANDLE false [] [] [] [] [] ESIF_NULL_THREAD_ID None) else None.
Definition AppSession_disconnected (s : Session) : Session :=
  mk_sess (s_ipfHandle s) ESIF_INVALID_HANDLE ESIF_INVALID_HANDLE ESIF_INVALID_HANDLE (s_connected s) (s_appName s) (s_appVersion s) (s_appDescription s) (s_appIntro s) (s_esifName s) (s_threadId s) None.
(** What [IpfClient_Close] leaves in a session. *)
Definition AppSession_closed (s : Session) : Session :=
  mk_sess (s_ipfHandle s) ESIF_INVALID_HANDLE ESIF_INVALID_HANDLE (s_authHandle s) false [] [] [] [] [] (s_threadId s) (s_ifaceSet s).

(** The server: the table, whether the web server runs, and the rest of the world. *)
Record Server (O : Type) : Type := mk_server { sv_sessions : list (option Session); sv_started : bool; sv_world : O }.
Arguments mk_server {O}.
Arguments sv_sessions {O}.
Arguments sv_started {O}.
Arguments sv_world {O}.

(** ESIF as the server sees it: the function for commands, if it is there, the server's
    own handle, and the name that the server was loaded by. *)
Class IpfEsif (O : Type) : Type := {
  fSendCommand : option (Z -> Z -> list EsifData -> EsifData -> SM O (Z * EsifData));
  IpfSrv_GetEsifHandle : O -> Z;
  g_appName : list Z
}.

Section Manager.
Context {O : Type} `{IpfEsif O}.

Definition in_world {T} (f : SM O T) : SM (Server O) T := fun s =>
  match f (sv_world s) with Some (r, o) => Some (r, mk_server (sv_sessions s) (sv_started s) o) | None => None end.
Definition set_sessions (l : list (option Session)) : SM (Server O) unit := smodify (fun s => mk_server l (sv_started s) (sv_world s)).
(** Writing to the session that a pointer leads to. *)
Definition update_session (h : Z) (f : Session -> Session) : SM (Server O) unit :=
  let! s := sget in
  set_sessions (map (option_map (fun x => if s_ipfHandle x =? h then f x else x)) (sv_sessions s)).

(** The first session with a property, of which a test may have no outcome. *)
Fixpoint first_session (test : Session -> option bool) (l : list (option Session)) : option (option Session) :=
  match l with
  | [] => Some None
  | None :: l => first_session test l
  | Some s :: l => match test s with Some true => Some (Some s) | Some false => first_session test l | None => None end
  end.
Definition AppSessionMgr_GetSessionById (id : Z) : SM (Server O) (option Session) :=
  let! s := sget in sret (if (0 <=? id) && (id <? Z.of_nat (length (sv_sessions s))) then match sv_sessions s !! Z.to_nat id with Some x => x | None => None end else None).
Definition AppSessionMgr_GetSessionByHandle (ipfHandle : Z) : SM (Server O) (option Session) :=
  let! s := sget in
  if ipfHandle =? ESIF_INVALID_HANDLE then sret None else of_option (first_session (fun x => Some (s_ipfHandle x =? ipfHandle)) (sv_sessions s)).
Definition AppSessionMgr_GetSessionByName (appName : option (list Z)) : SM (Server O) (option Session) :=
  match appName with
  | None => sret None
  | Some m =>
      let! c := of_option (head m) in
      let! s := sget in
      if c =? 0 then sret None
      else of_option (first_session (fun x => same ← stricmp_eq (s_esifName x ++ [0]) m; Some (same && negb (s_ipfHandle x =? ESIF_INVALID_HANDLE))) (sv_sessions s))
  end.
Definition AppSessionMgr_GetSessionByThreadId (threadId : Z) : SM (Server O) (option Session) :=
  let! s := sget in
  if threadId =? ESIF_NULL_THREAD_ID then sret None
  else of_option (first_session (fun x => Some ((s_threadId x =? threadId) && negb (s_ipfHandle x =? ESIF_INVALID_HANDLE))) (sv_sessions s)).
Definition AppSessionMgr_GetSessionByEsifHandle (esifHandle : Z) : SM (Server O) (option Session) :=
  let! s := sget in
  if esifHandle =? ESIF_INVALID_HANDLE then sret None else of_option (first_session (fun x => Some (s_esifHandle x =? esifHandle)) (sv_sessions s)).
Definition AppSessionMgr_GetEsifHandleByHandle (ipfHandle : Z) : SM (Server O) Z :=
  let! x := AppSessionMgr_GetSessionByHandle ipfHandle in sret (match x with Some x => s_esifHandle x | None => ESIF_INVALID_HANDLE end).
Definition AppSessionMgr_GetHandleByEsifHandle (esifHandle : Z) : SM (Server O) Z :=
  let! x := AppSessionMgr_GetSessionByEsifHandle esifHandle in sret (match x with Some x => s_ipfHandle x | None => ESIF_INVALID_HANDLE end).

(** The slot for a new session: the first free one, if no session has the handle. *)
Fixpoint free_session (ipfHandle : Z) (l : list (option Session)) (j : nat) (slot : option nat) : option nat :=
  match l with
  | [] => slot
  | None :: l => free_session ipfHandle l (S j) (match slot with None => Some j | _ => slot end)
  | Some x :: l => if s_ipfHandle x =? ipfHandle then None else free_session ipfHandle l (S j) slot
  end.
Definition AppSessionMgr_CreateSession (ok : bool) (ipfHandle : Z) : SM (Server O) (option Session) :=
  if ipfHandle =? ESIF_INVALID_HANDLE then sret None
  else
    let! s := sget in
    match free_session ipfHandle (sv_sessions s) 0 None with
    | None => sret None
    | Some slot =>
        match AppSession_Create ok with
        | None => sret None
        | Some x =>
            let x := mk_sess ipfHandle (s_esifHandle x) (s_appHandle x) (s_authHandle x) true (s_appName x) (s_appVersion x) (s_appDescription x) (s_appIntro x) (s_esifName x) (s_threadId x) (s_ifaceSet x) in
            set_sessions (<[slot := Some x]> (sv_sessions s)) ;!
            sret (Some x)
        end
    end.
Definition AppSessionMgr_DeleteSession (ipfHandle : Z) : SM (Server O) unit :=
  if ipfHandle =? ESIF_INVALID_HANDLE then sret tt
  else
    let! s := sget in
    set_sessions (map (fun x => match x with Some x => if s_ipfHandle x =? ipfHandle then None else Some x | None => None end) (sv_sessions s)).

Definition AppSession_IsConnected (self : option Session) : SM (Server O) bool :=
  let! s := sget in
  sret (match self with Some x => negb (s_ipfHandle x =? ESIF_INVALID_HANDLE) && s_connected x && sv_started s | None => false end).
Definition AppSession_Disconnect (self : Session) : SM (Server O) unit := update_session (s_ipfHandle self) AppSession_disconnected.

(* ------------------------------------------------------------------ *)
(** ** A session and its application in ESIF *)

(** A command for ESIF, from an array of [MAX_PATH] characters; [extra] is what is counted
    beyond the text.  The result, and the reply. *)
Definition esif_command (text : list Z) (extra : Z) : SM (Server O) (option (Z * EsifData)) :=
  let! s := sget in
  match fSendCommand with
  | Some f =>
      if IpfSrv_GetEsifHandle (sv_world s) =? ESIF_INVALID_HANDLE then sret None
      else
        let t := formatted MAX_PATH text in
        let command := t ++ zero_bytes (Z.of_nat MAX_PATH - size t) in
        let! r := in_world (f (IpfSrv_GetEsifHandle (sv_world s)) 1
            [mk_EsifData ESIF_DATA_STRING (Some command) (size t + extra) (size t + extra)]
            (mk_EsifData ESIF_DATA_STRING (Some (zero_bytes (Z.of_nat MAX_PATH))) (Z.of_nat MAX_PATH) 0)) in
        sret (Some r)
  | None => sret None
  end.

Definition IpfClient_Close (ipfHandle : Z) : SM (Server O) Z :=
  let! x := AppSessionMgr_GetSessionByHandle ipfHandle in
  let! rc := match x with Some x => update_session (s_ipfHandle x) AppSession_closed ;! sret ESIF_OK | None => sret ESIF_E_INVALID_HANDLE end in
  AppSessionMgr_DeleteSession ipfHandle ;!
  sret rc.
Definition IpfClient_IsStarted (ipfHandle : Z) : SM (Server O) bool :=
  let! x := AppSessionMgr_GetSessionByHandle ipfHandle in sret (match x with Some x => negb (s_appHandle x =? ESIF_INVALID_HANDLE) | None => false end).
Definition IpfClient_Exists (ipfHandle : Z) : SM (Server O) bool :=
  let! x := AppSessionMgr_GetSessionByHandle ipfHandle in sret (match x with Some x => s_connected x | None => false end).

Definition IpfClient_Start (ok : bool) (ipfHandle authHandle : Z) : SM (Server O) Z :=
  let! x := AppSessionMgr_CreateSession ok ipfHandle in
  match x with
  | None => sret ESIF_E_NO_CREATE
  | Some x =>
      update_session ipfHandle (with_auth authHandle) ;!
      let! s := sget in
      match fSendCommand with
      | Some _ =>
          if IpfSrv_GetEsifHandle (sv_world s) =? ESIF_INVALID_HANDLE then sret ESIF_E_NO_CREATE
          else
            let esifName := formatted ESIF_NAME_LEN (chars_of "ipfcli-" ++ hex ipfHandle) in
            update_session ipfHandle (with_esifName esifName) ;!
            let! r := esif_command (chars_of "start appstart @" ++ esifName ++ [61] ++ g_appName) 0 in
            sret (match r with Some r => r.1 | None => ESIF_E_NO_CREATE end)
      | None => sret ESIF_E_NO_CREATE
      end
  end.
Definition IpfClient_Stop (ipfHandle : Z) : SM (Server O) Z :=
  let! x := AppSessionMgr_GetSessionByHandle ipfHandle in
  match x with
  | None => sret ESIF_E_INVALID_HANDLE
  | Some x =>
      let! started := IpfClient_IsStarted ipfHandle in
      update_session ipfHandle (with_connected false) ;!
      let! r := if (started : bool) then esif_command (chars_of "start appstop '" ++ s_esifName x ++ [39]) 1 else sret None in
      match r with
      | Some r => sret r.1
      | None => update_session ipfHandle (with_appName []) ;! sret ESIF_E_INVALID_HANDLE
      end
  end.
(** The result of a renaming is in the text of the reply: a number in brackets. *)
Definition rename_result (reply : EsifData) : option (option Z) :=
  match d_buf reply with
  | None => None
  | Some m =>
      found ← strstr m (chars_of "ESIF_OK");
      match found with
      | Some _ => Some None
      | None =>
          bracket ← strchr m 40;
          match bracket with
          | Some p => rc ← atoi (drop 1 p); Some (Some (if rc =? ESIF_E_APP_ALREADY_STARTED then ESIF_E_SESSION_ALREADY_STARTED else rc))
          | None => Some (Some ESIF_E_UNSPECIFIED)
          end
      end
  end.
Definition rename_command (esifName newName : list Z) : list Z := chars_of "app rename " ++ esifName ++ chars_of " '" ++ esif_ccb_strlwr newName ++ [39].
Definition IpfClient_Rename (ipfHandle : Z) (newName : option (list Z)) : SM (Server O) Z :=
  let! x := AppSessionMgr_GetSessionByHandle ipfHandle in
  match x, newName with
  | Some x, Some m =>
      let! c := of_option (head m) in
      if c =? 0 then sret ESIF_E_INVALID_HANDLE
      else
        let! appName := of_option (esif_ccb_strcpy ESIF_NAME_LEN m) in
        let! r := esif_command (rename_command (s_esifName x) appName) 1 in
        match r with
        | None => sret ESIF_E_INVALID_HANDLE
        | Some (rc, reply) =>
            if rc =? ESIF_OK then
              let! bad := of_option (rename_result reply) in
              match bad with
              | Some rc => IpfClient_Close ipfHandle ;! sret rc
              | None => sret rc
              end
            else sret rc
        end
  | _, _ => sret ESIF_E_INVALID_HANDLE
  end.
End Manager.

(* ------------------------------------------------------------------ *)
(** ** Requests to the application *)

Section Requests.
Context {O : Type} `{IpfEsif O} (exchange : Transaction -> list Z -> SM (Server O) (Z * option IBinary)).

(** Sending ([Irpc_SendMessage]) and waiting; [exchange] adds the transaction, sends the
    frame and waits. *)
Definition Irpc_SendMessage (ok : bool) (t : Transaction) : SM (Server O) (Z * option IBinary) :=
  match t_request t with
  | None => sret (ESIF_E_PARAMETER_IS_NULL, None)
  | Some blob =>
      let! session := AppSessionMgr_GetSessionByHandle (t_ipfHandle t) in
      let! connected := AppSession_IsConnected session in
      if (connected : bool) then
        if IBinary_GetLen blob =? 0 then sret (ESIF_E_PARAMETER_IS_NULL, None)
        else
          let! frame := of_option (with_header ok blob) in
          match frame with
          | Some frame =>
              let! r := exchange t frame in
              if r.1 =? ESIF_E_SESSION_REQUEST_FAILED then IpfClient_Stop (t_ipfHandle t) ;! sret (ESIF_E_SESSION_DISCONNECTED, None) else sret r
          | None => sret (ESIF_E_PARAMETER_IS_NULL, None)
          end
      else sret (ESIF_E_SESSION_DISCONNECTED, None)
  end.

(** What the requests share.  The call is made for a session that is connected if [may];
    otherwise the result is [refused].  [encode] puts the call into the new transaction
    ([None] without memory) with the session's handles, and [finish] reads the answer,
    of which there may be none. *)
Definition Irpc_App_Request {T} (mem : bool) (trx : option Transaction) (session : option Session) (may : Session -> bool) (refused : Z)
    (encode : Session -> Transaction -> option (bool * Transaction)) (finish : option (list Z) -> option (option Z * T)) (into : T) : SM (Server O) (Z * T) :=
  let! connected := AppSession_IsConnected session in
  match (connected : bool), session with
  | true, Some x =>
      match trx with
      | None => sret (refused, into)
      | Some t =>
          if may x then
            let t := mk_trx (t_request t) (t_response t) (t_trxId t) (t_clockticks t) (t_clocktime t) (t_result t) (s_ipfHandle x) in
            let! e := of_option (encode x t) in
            let '(written, t) := e in
            let! r := if (written : bool) then Irpc_SendMessage mem t else sret (refused, None) in
            let '(rc, response) := r in
            if rc =? ESIF_OK then
              let! f := of_option (finish (b ← response; IBinary_GetBuf b)) in
              sret (match f.1 with Some result => result | None => rc end, f.2)
            else sret (rc, into)
          else sret (refused, into)
      end
  | _, _ => sret (ESIF_E_SESSION_DISCONNECTED, into)
  end.
(** An answer of the function called is read, any other is ignored. *)
Definition for_function {T} (funcId : Z) (into : T) (read : list Z -> option (option Z * T)) (m : option (list Z)) : option (option Z * T) :=
  match m with
  | None => Some (None, into)
  | Some m => id ← get_int 4 m 6; if id =? funcId then read m else Some (None, into)
  end.
Definition just_result (m : list Z) : option (option Z * unit) := result ← get_int 4 m 34; Some (Some result, tt).
Definition result_and_buffer (ok1 ok2 : bool) (into : option EsifData) (pos : Z) (m : list Z) : option (option Z * option EsifData) :=
  r ← result_and_data ok1 ok2 into pos m; Some (Some r.1, r.2).
Definition created (x : Session) : bool := negb (s_appHandle x =? ESIF_INVALID_HANDLE).

Context (oks mem : list bool) (trx : option Transaction).

Definition is_string_function (funcId : Z) : bool := (funcId =? IrpcFunc_AppGetName) || (funcId =? IrpcFunc_AppGetDescription) || (funcId =? IrpcFunc_AppGetVersion) || (funcId =? IrpcFunc_AppGetIntro).
Definition Irpc_Request_AppGetEsifData (funcId : Z) (data : option EsifData) (appHandle : Z) : SM (Server O) (Z * option EsifData) :=
  let! session :=
    if funcId =? IrpcFunc_AppGetIntro then AppSessionMgr_GetSessionByHandle appHandle
    else match data with Some d => AppSessionMgr_GetSessionByName (d_buf d) | None => sret None end in
  let! connected := AppSession_IsConnected session in
  if (connected : bool) then
    if negb (bool_decide (trx = None)) && negb (funcId =? IrpcFunc_None) && negb (bool_decide (data = None)) then
      Irpc_App_Request (alloc oks 0) trx session (fun _ => is_string_function funcId) ESIF_E_INVALID_REQUEST_TYPE
        (fun x t => Irpc_Encode_AppGetStringFunc mem t funcId (s_appHandle x) data)
        (fun m => match m with
                  | None => Some (Some ESIF_E_INVALID_REQUEST_TYPE, data)
                  | Some m => id ← get_int 4 m 6; if is_string_function id then result_and_buffer (alloc oks 1) (alloc oks 2) data 46 m else Some (Some ESIF_E_INVALID_REQUEST_TYPE, data)
                  end) data
    else sret (ESIF_E_PARAMETER_IS_NULL, data)
  else sret (ESIF_E_SESSION_DISCONNECTED, data).
Definition Irpc_Request_AppGetName (d : option EsifData) := Irpc_Request_AppGetEsifData IrpcFunc_AppGetName d ESIF_INVALID_HANDLE.
Definition Irpc_Request_AppGetDescription (d : option EsifData) := Irpc_Request_AppGetEsifData IrpcFunc_AppGetDescription d ESIF_INVALID_HANDLE.
Definition Irpc_Request_AppGetVersion (d : option EsifData) := Irpc_Request_AppGetEsifData IrpcFunc_AppGetVersion d ESIF_INVALID_HANDLE.
Definition Irpc_Request_AppGetIntro (appHandle : Z) (d : option EsifData) := Irpc_Request_AppGetEsifData IrpcFunc_AppGetIntro d appHandle.

(** Destroying disconnects the session. *)
Definition Irpc_Request_AppHandle (funcId appHandle : Z) : SM (Server O) Z :=
  let! session := AppSessionMgr_GetSessionByHandle appHandle in
  let! r := Irpc_App_Request (alloc oks 0) trx session created ESIF_E_INVALID_HANDLE
    (fun x t => Irpc_Encode_AppHandleFunc mem t funcId (s_appHandle x))
    (for_function funcId false (fun m => result ← get_int 4 m 34; Some (Some result, result =? ESIF_OK))) false in
  (match session with
   | Some x => if r.2 && (funcId =? IrpcFunc_AppDestroy) then AppSession_Disconnect x else sret tt
   | None => sret tt
   end) ;!
  sret r.1.
Definition Irpc_Request_AppDestroy := Irpc_Request_AppHandle IrpcFunc_AppDestroy.
Definition Irpc_Request_AppSuspend := Irpc_Request_AppHandle IrpcFunc_AppSuspend.
Definition Irpc_Request_AppResume := Irpc_Request_AppHandle IrpcFunc_AppResume.

(** The application gets the session's handle for ESIF's; the caller gets the handle of
    the application.  [None] for parameters that are NULL. *)
Definition Irpc_Request_AppCreate (threadId : Z) (ifaceSetPtr : option AppInterfaceSet) (appHandlePtr : option Z) (appData : option AppData) (appInitialState : Z) : SM (Server O) (Z * option Z) :=
  let! session := AppSessionMgr_GetSessionByThreadId threadId in
  let given := negb (bool_decide (trx = None)) && negb (bool_decide (ifaceSetPtr = None)) && negb (bool_decide (appHandlePtr = None)) && negb (bool_decide (appData = None)) in
  let! connected := AppSession_IsConnected session in
  if (connected : bool) && negb given then sret (ESIF_E_PARAMETER_IS_NULL, appHandlePtr)
  else if (connected : bool) then
    Irpc_App_Request (alloc oks 0) trx session (fun _ => true) ESIF_E_PARAMETER_IS_NULL
      (fun x t => Irpc_Encode_AppCreateFunc mem t (option_map (fun s => mk_iface_set (hdr s) (repeat false 15) (esifIface s)) ifaceSetPtr) (s_ipfHandle x) (Some ESIF_INVALID_HANDLE) appData appInitialState)
      (for_function IrpcFunc_AppCreate (Some ESIF_INVALID_HANDLE) (fun m =>
         result ← get_int 4 m 34;
         if result =? ESIF_OK then offset ← get_int 4 m 50; h ← get_int 8 m (54 + offset); Some (Some result, Some h) else Some (Some result, Some ESIF_INVALID_HANDLE)))
      (Some ESIF_INVALID_HANDLE)
  else sret (ESIF_E_SESSION_DISCONNECTED, appHandlePtr).

Definition Irpc_Request_AppCommand (appHandle argc : Z) (argv : option (list EsifData)) (response : option EsifData) : SM (Server O) (Z * option EsifData) :=
  let! session := AppSessionMgr_GetSessionByHandle appHandle in
  Irpc_App_Request (alloc oks 0) trx session (fun x => created x && negb (argc =? 0) && negb (bool_decide (argv = None)) && negb (bool_decide (response = None))) ESIF_E_PARAMETER_IS_NULL
    (fun x t => Irpc_Encode_AppCommandFunc mem t (s_appHandle x) argc argv response)
    (for_function IrpcFunc_AppCommand response (result_and_buffer (alloc oks 1) (alloc oks 2) response 54)) response.

Definition Irpc_Request_AppGetStatus (appHandle command appStatusIn : Z) (appStatusOut : option EsifData) : SM (Server O) (Z * option EsifData) :=
  let! session := AppSessionMgr_GetSessionByHandle appHandle in
  Irpc_App_Request (alloc oks 0) trx session (fun x => created x && negb (bool_decide (appStatusOut = None))) ESIF_E_PARAMETER_IS_NULL
    (fun x t => Irpc_Encode_AppGetStatusFunc mem t (s_appHandle x) command appStatusIn appStatusOut)
    (for_function IrpcFunc_AppGetStatus appStatusOut (result_and_buffer (alloc oks 1) (alloc oks 2) appStatusOut 54)) appStatusOut.

(** The calls with a result alone. *)
Definition plain_request (appHandle : Z) (may : Session -> bool) (funcId : Z) (encode : Session -> Transaction -> option (bool * Transaction)) : SM (Server O) Z :=
  let! session := AppSessionMgr_GetSessionByHandle appHandle in
  let! r := Irpc_App_Request (alloc oks 0) trx session may ESIF_E_PARAMETER_IS_NULL encode (for_function funcId tt just_result) tt in
  sret r.1.
Definition Irpc_Request_AppParticipantCreate (appHandle participantHandle : Z) (participantData : option AppParticipantData) (participantInitialState : Z) : SM (Server O) Z :=
  plain_request appHandle (fun x => created x && negb (bool_decide (participantData = None))) IrpcFunc_AppParticipantCreate
    (fun x t => Irpc_Encode_AppParticipantCreateFunc mem t (s_appHandle x) participantHandle participantData participantInitialState).
Definition Irpc_Request_AppParticipantDestroy (appHandle participantHandle : Z) : SM (Server O) Z :=
  plain_request appHandle created IrpcFunc_AppParticipantDestroy (fun x t => Irpc_Encode_AppParticipantDestroyFunc mem t (s_appHandle x) participantHandle).
Definition Irpc_Request_AppDomainCreate (appHandle participantHandle domainHandle : Z) (domainDataPtr : option AppDomainData) (domainInitialState : Z) : SM (Server O) Z :=
  plain_request appHandle (fun x => created x && negb (bool_decide (domainDataPtr = None))) IrpcFunc_AppDomainCreate
    (fun x t => Irpc_Encode_AppDomainCreateFunc mem t (s_appHandle x) participantHandle domainHandle domainDataPtr domainInitialState).
Definition Irpc_Request_AppDomainDestroy (appHandle participantHandle domainHandle : Z) : SM (Server O) Z :=
  plain_request appHandle created IrpcFunc_AppDomainDestroy (fun x t => Irpc_Encode_AppDomainDestroyFunc mem t (s_appHandle x) participantHandle domainHandle).
(** An event is sent though the application may have no handle yet. *)
Definition Irpc_Request_AppEvent (appHandle participantHandle domainHandle : Z) (eventData eventGuid : option EsifData) : SM (Server O) Z :=
  plain_request appHandle (fun _ => true) IrpcFunc_AppEvent (fun x t => Irpc_Encode_AppEventFunc mem t (s_appHandle x) participantHandle domainHandle eventData eventGuid).
End Requests.

(* ------------------------------------------------------------------ *)
(** ** The application's functions for ESIF: ipfsrv_iface_cli.c *)

Section Interface.
Context {O : Type} `{IpfEsif O} (exchange : Transaction -> list Z -> SM (Server O) (Z * option IBinary)).
Context (oks mem : list bool) (trx : option Transaction) (threadId : Z).

(** The text in a buffer is measured where there is an answer. *)
Definition text_length (d : EsifData) : option EsifData :=
  (fun t => mk_EsifData (d_type d) (d_buf d) (d_buf_len d) (u32 (size t + 1))) <$> match d_buf d with Some m => strn (Z.to_nat (d_buf_len d)) m | None => Some [] end.
(** A text copied into the session; NULL is empty. *)
Definition copied (siz : nat) (d : EsifData) : option (list Z) := match d_buf d with Some m => esif_ccb_strcpy siz m | None => Some [] end.
Definition answered (rc : Z) : bool := (rc =? ESIF_OK) || (rc =? ESIF_E_NEED_LARGER_BUFFER).

Definition IpfCli_AppGetName (appNamePtr : option EsifData) : SM (Server O) (Z * option EsifData) :=
  let! session := AppSessionMgr_GetSessionByName (match appNamePtr with Some d => d_buf d | None => Some [0] end) in
  match session, appNamePtr with
  | Some x, Some d =>
      let h := s_ipfHandle x in
      update_session h (with_threadId ESIF_NULL_THREAD_ID) ;!
      let! r := Irpc_Request_AppGetName exchange oks mem trx (Some d) in
      let '(rc, d') := r in
      match d' with
      | None => ub
      | Some d' =>
          let! d' := if answered rc then of_option (text_length d') else (IpfClient_Close h ;! sret d') in
          let! rc :=
            if rc =? ESIF_OK then
              let! name := of_option (copied ESIF_NAME_LEN d') in
              update_session h (with_appName name) ;! IpfClient_Rename h (d_buf d')
            else sret rc in
          (if rc =? ESIF_OK then
             let! name := of_option (copied ESIF_NAME_LEN d') in
             update_session h (with_esifName (esif_ccb_strlwr name)) ;!
             update_session h (fun x => if s_appHandle x =? ESIF_INVALID_HANDLE then with_threadId threadId x else x)
           else sret tt) ;!
          sret (rc, Some d')
      end
  | _, _ => sret (ESIF_E_NOT_FOUND, appNamePtr)
  end.

(** The description and the version. *)
Definition get_text (request : option EsifData -> SM (Server O) (Z * option EsifData)) (siz : nat) (store : list Z -> Session -> Session) (p : option EsifData) : SM (Server O) (Z * option EsifData) :=
  let! session := AppSessionMgr_GetSessionByName (match p with Some d => d_buf d | None => Some [0] end) in
  match session, p with
  | Some x, Some d =>
      let h := s_ipfHandle x in
      let! r := request (Some d) in
      let '(rc, d') := r in
      match d' with
      | None => ub
      | Some d' =>
          (if rc =? ESIF_OK then let! t := of_option (copied siz d') in update_session h (store t) else sret tt) ;!
          let! d' := if answered rc then of_option (text_length d') else (IpfClient_Close h ;! sret d') in
          sret (rc, Some d')
      end
  | _, _ => sret (ESIF_E_NOT_FOUND, p)
  end.
Definition IpfCli_AppGetDescription := get_text (Irpc_Request_AppGetDescription exchange oks mem trx) ESIF_DESC_LEN with_appDescription.
Definition IpfCli_AppGetVersion := get_text (Irpc_Request_AppGetVersion exchange oks mem trx) ESIF_VERSION_LEN with_appVersion.
Definition IpfCli_AppGetIntro (appHandle : Z) (appIntroPtr : option EsifData) : SM (Server O) (Z * option EsifData) :=
  let! session := AppSessionMgr_GetSessionByHandle appHandle in
  match session with
  | None => sret (ESIF_E_INVALID_HANDLE, appIntroPtr)
  | Some x =>
      let! r := Irpc_Request_AppGetIntro exchange oks mem trx appHandle appIntroPtr in
      (if r.1 =? ESIF_OK then
         match r.2 with
         | Some d => let! t := of_option (copied ESIF_INTRO_LEN d) in update_session (s_ipfHandle x) (with_appIntro t)
         | None => ub
         end
       else sret tt) ;!
      sret r
  end.

(** ESIF knows the application by the handle of the session.  [set] and [ptr] are [None]
    for NULL. *)
Definition IpfCli_AppCreate (set : option AppInterfaceSet) (esifHandle : Z) (ptr : option Z) (appData : option AppData) (state : Z) : SM (Server O) (Z * option Z) :=
  match set, ptr with
  | Some iface, Some p =>
      let! same := AppSessionMgr_GetSessionByEsifHandle esifHandle in
      let! session := match same with Some _ => sret None | None => AppSessionMgr_GetSessionByThreadId threadId end in
      match session with
      | None => sret (ESIF_E_INVALID_HANDLE, Some p)
      | Some x =>
          let h := s_ipfHandle x in
          update_session h (with_esif esifHandle (Some iface)) ;!
          let! r := Irpc_Request_AppCreate exchange oks mem trx threadId (Some iface) (Some ESIF_INVALID_HANDLE) appData state in
          update_session h (with_threadId ESIF_NULL_THREAD_ID) ;!
          if r.1 =? ESIF_OK then
            match r.2 with Some a => update_session h (with_appHandle a) ;! sret (r.1, Some h) | None => ub end
          else IpfClient_Close h ;! sret (r.1, Some ESIF_INVALID_HANDLE)
      end
  | _, _ => sret (ESIF_E_PARAMETER_IS_NULL, ptr)
  end.
Definition IpfCli_AppDestroy (appHandle : Z) : SM (Server O) Z :=
  let! session := AppSessionMgr_GetSessionByHandle appHandle in
  match session with
  | None => sret ESIF_E_INVALID_HANDLE
  | Some x =>
      let! rc := Irpc_Request_AppDestroy exchange oks mem trx appHandle in
      IpfClient_Close (s_ipfHandle x) ;!
      sret rc
  end.
Definition IpfCli_AppSuspend := Irpc_Request_AppSuspend exchange oks mem trx.
Definition IpfCli_AppResume := Irpc_Request_AppResume exchange oks mem trx.
Definition IpfCli_AppCommand := Irpc_Request_AppCommand exchange oks mem trx.
Definition IpfCli_AppGetStatus := Irpc_Request_AppGetStatus exchange oks mem trx.
Definition IpfCli_AppParticipantCreate := Irpc_Request_AppParticipantCreate exchange oks mem trx.
Definition IpfCli_AppParticipantDestroy := Irpc_Request_AppParticipantDestroy exchange oks mem trx.
Definition IpfCli_AppDomainCreate := Irpc_Request_AppDomainCreate exchange oks mem trx.
Definition IpfCli_AppDomainDestroy := Irpc_Request_AppDomainDestroy exchange oks mem trx.
Definition IpfCli_AppEvent := Irpc_Request_AppEvent exchange oks mem trx.
End Interface.

(** An answer in a frame of the connection [ipfHandle] ([WebServer_IrpcProcess]): what the
    call waiting with the transaction gets. *)
Definition receive_answer (ok : bool) (ipfHandle : Z) (t : Transaction) (frame : list Z) : option (option IBinary) :=
  r ← receive_frame ok frame;
  match r.2 with
  | None => Some None
  | Some b =>
      match IBinary_GetBuf b with
      | None => Some None
      | Some m =>
          msgtype ← get_int 4 m 0;
          if msgtype =? IrpcMsg_ProcResponse then
            id ← get_int 8 m 10;
            Some (if (id =? t_trxId t) && (ipfHandle =? t_ipfHandle t) then Some b else None)
          else Some None
      end
  end.

(* ------------------------------------------------------------------ *)
(** ** The table is a map from handles to sessions *)

Definition known (l : list (option Session)) (h : Z) (x : Session) : Prop := Some x ∈ l /\ s_ipfHandle x = h.
Definition handles (l : list (option Session)) : list Z := omap (fun x => s_ipfHandle <$> x) l.
(** Handles are valid, and no two sessions have the same. *)
Record table_is (l : list (option Session)) (m : gmap Z Session) : Prop := {
  ti_known : forall h x, m !! h = Some x <-> known l h x;
  ti_valid : forall x, Some x ∈ l -> s_ipfHandle x <> ESIF_INVALID_HANDLE;
  ti_distinct : NoDup (handles l)
}.

Lemma handle_in l x : Some x ∈ l -> s_ipfHandle x ∈ handles l.
Proof. intros Hx. apply list_elem_of_omap. by exists (Some x). Qed.
Lemma in_handles l h : h ∈ handles l -> exists x, Some x ∈ l /\ s_ipfHandle x = h.
Proof. intros Hh. apply list_elem_of_omap in Hh as ([x|] & Hx & E); [|done]. injection E as <-. by exists x. Qed.
Lemma find_ok l m h : table_is l m -> first_session (fun x => Some (s_ipfHandle x =? h)) l = Some (m !! h).
Proof.
  intros [Hk _ _]. assert (Hl : forall l, first_session (fun x => Some (s_ipfHandle x =? h)) l = Some None /\ (forall x, Some x ∈ l -> s_ipfHandle x <> h) \/
    exists x, first_session (fun x => Some (s_ipfHandle x =? h)) l = Some (Some x) /\ Some x ∈ l /\ s_ipfHandle x = h).
  { clear. induction l as [|[x|] l IH]; cbn [first_session]; [left; split; [done|]; intros x Hx; by apply elem_of_nil in Hx| |].
    - destruct (Z.eqb_spec (s_ipfHandle x) h) as [E|E]; [right; exists x; split_and!; [done|left|done]|]. destruct IH as [[-> Hno]|(y & -> & Hy & Eh)]; [left|right; exists y; split_and!; [done|by right|done]].
      split; [done|]. intros y Hy. apply elem_of_cons in Hy as [[= ->]|Hy]; [done|by apply Hno].
    - destruct IH as [[-> Hno]|(y & -> & Hy & Eh)]; [left|right; exists y; split_and!; [done|by right|done]]. split; [done|]. intros y Hy. apply elem_of_cons in Hy as [?|Hy]; [done|by apply Hno]. }
  destruct (Hl l) as [[-> Hno]|(x & -> & Hx & Eh)]; f_equal; symmetry.
  - destruct (m !! h) as [x|] eqn:E; [|done]. apply Hk in E as [Hx Eh]. by destruct (Hno x).
  - by apply Hk.
Qed.
Lemma get_session_ok {O} (sv : Server O) m h : table_is (sv_sessions sv) m -> AppSessionMgr_GetSessionByHandle h sv = Some (m !! h, sv).
Proof.
  intros Ht. unfold AppSessionMgr_GetSessionByHandle, sbind, sget. destruct (Z.eqb_spec h ESIF_INVALID_HANDLE) as [->|].
  - destruct (m !! ESIF_INVALID_HANDLE) as [x|] eqn:E; [|done]. apply (ti_known _ _ Ht) in E as [Hx Eh]. by apply (ti_valid _ _ Ht) in Hx.
  - by rewrite (find_ok _ _ _ Ht).
Qed.

(** The slot for a new session. *)
Lemma free_session_ok l h : forall j slot, (forall x, Some x ∈ l -> s_ipfHandle x <> h) ->
  free_session h l j slot = match slot with Some _ => slot | None => (fun k => (j + k)%nat) <$> (fst <$> list_find (fun x => x = None) l) end.
Proof.
  induction l as [|[x|] l IH]; intros j slot Hno; cbn [free_session].
  - by destruct slot.
  - rewrite (proj2 (Z.eqb_neq _ _)) by (apply Hno; left). rewrite IH by (intros y Hy; apply Hno; by right). destruct slot; [done|]. cbn [list_find]. rewrite decide_False by done. destruct (list_find _ l) as [[k y]|]; cbn; [|done]. f_equal. lia.
  - rewrite IH by (intros y Hy; apply Hno; by right). destruct slot; [done|]. cbn [list_find]. rewrite decide_True by done. cbn. f_equal. lia.
Qed.
Lemma taken_session h l : forall j slot x, Some x ∈ l -> s_ipfHandle x = h -> free_session h l j slot = None.
Proof.
  induction l as [|[y|] l IH]; intros j slot x Hx Hh; cbn [free_session]; [by apply elem_of_nil in Hx| |].
  - destruct (Z.eqb_spec (s_ipfHandle y) h); [done|]. apply elem_of_cons in Hx as [[= ->]|Hx]; [done|]. by apply (IH _ _ x).
  - apply elem_of_cons in Hx as [?|Hx]; [done|]. by apply (IH _ _ x).
Qed.
(** Filling a free slot. *)
Lemma fill_ok l m k x : table_is l m -> l !! k = Some None -> s_ipfHandle x <> ESIF_INVALID_HANDLE -> m !! s_ipfHandle x = None -> table_is (<[k := Some x]> l) (<[s_ipfHandle x := x]> m).
Proof.
  intros [Hk Hv Hd] Hfree Hx Hm. assert (Hin : forall y, Some y ∈ <[k := Some x]> l <-> y = x \/ Some y ∈ l).
  { intros y. rewrite !list_elem_of_lookup. split.
    - intros [i Hi]. apply list_lookup_insert_Some in Hi as [(-> & [= ->] & _)|[_ Hi]]; [by left|right; by exists i].
    - intros [->|[i Hi]]; [exists k; apply list_lookup_insert_eq; by eapply lookup_lt_Some|]. exists i. rewrite list_lookup_insert_ne; [done|]. intros ->. congruence. }
  split.
  - intros h y. unfold known. rewrite Hin, lookup_insert_Some, Hk. unfold known. split.
    + intros [[<- <-]|[Hne [Hy Hh]]]; [by split; [left|]|split; [by right|done]].
    + intros [[->|Hy] Hh]; [by left|]. right. split; [|done]. intros Eh. assert (E : m !! s_ipfHandle x = Some y) by (apply Hk; split; [done|congruence]). congruence.
  - intros y Hy. apply Hin in Hy as [->|Hy]; [done|by apply Hv].
  - assert (Hno : s_ipfHandle x ∉ handles l).
    { intros Hxl. apply in_handles in Hxl as (y & Hy & E). assert (Em : m !! s_ipfHandle x = Some y) by (apply Hk; by split). congruence. }
    rewrite insert_take_drop by (by eapply lookup_lt_Some). unfold handles in *. rewrite <- (take_drop_middle l k None Hfree) in Hd, Hno. rewrite !omap_app in *. cbn in *.
    rewrite elem_of_app in Hno. apply NoDup_app in Hd as (H1 & H2 & H3). apply NoDup_app. split; [done|]. split; [|apply NoDup_cons; split; [tauto|done]].
    intros h Hh. apply not_elem_of_cons. split; [|by apply H2]. intros ->. tauto.
Qed.

Lemma handles_size l m : table_is l m -> base.size m = length (handles l).
Proof.
  intros [Hk _ Hd]. rewrite <- (size_dom (D := gset Z)). replace (dom m) with (list_to_set (C := gset Z) (handles l)); [by apply size_list_to_set|]. apply leibniz_equiv. intros h. rewrite elem_of_list_to_set, elem_of_dom. split.
  - intros Hh. apply in_handles in Hh as (x & Hx & <-). exists x. by apply Hk.
  - intros [x Hx]. apply Hk in Hx as [Hx <-]. by apply handle_in.
Qed.
Lemma handles_length l : (length (handles l) <= length l)%nat.
Proof. induction l as [|[x|] l IH]; [done| |]; [change (handles (Some x :: l)) with (s_ipfHandle x :: handles l)|change (handles (None :: l)) with (handles l)]; cbn [length]; lia. Qed.
Lemma slot_left l : (length (handles l) <? length l)%nat = true <-> exists k, fst <$> list_find (fun x => x = None) l = Some k /\ l !! k = Some None.
Proof.
  induction l as [|[x|] l IH]; cbn -[Nat.ltb list_find handles].
  - split; [done|by intros (? & ? & ?)].
  - change (handles (Some x :: l)) with (s_ipfHandle x :: handles l). cbn [length list_find]. rewrite decide_False by done. change (S (length (handles l)) <? S (length l))%nat with (length (handles l) <? length l)%nat. rewrite IH.
    split; intros (k & E & Hk); [exists (S k); destruct (list_find _ l) as [[? ?]|]; [|done]; cbn in *; by simplify_eq|]. destruct (list_find _ l) as [[k' ?]|]; cbn in *; [|done]. simplify_eq. by exists k'.
  - change (handles (None :: l)) with (handles l). cbn [length list_find]. rewrite decide_True by done. split; [intros _; by exists O|intros _]. apply Nat.ltb_lt, Nat.lt_succ_r, handles_length.
Qed.

(** Writing to one session, and taking it out. *)
Lemma update_table l m h f : table_is l m -> (forall x, s_ipfHandle (f x) = s_ipfHandle x) ->
  table_is (map (option_map (fun x => if s_ipfHandle x =? h then f x else x)) l) (alter f h m).
Proof.
  intros [Hk Hv Hd] Hf. set (g := fun x => if s_ipfHandle x =? h then f x else x). assert (Hg : forall x, s_ipfHandle (g x) = s_ipfHandle x) by (intros x; unfold g; by destruct (_ =? _)).
  assert (Hin : forall y, Some y ∈ map (option_map g) l <-> exists x, Some x ∈ l /\ y = g x).
  { intros y. rewrite list_elem_of_In, in_map_iff. split; [intros ([x|] & E & Hx); [|done]; injection E as <-; exists x; by rewrite list_elem_of_In|]. intros (x & Hx & ->). exists (Some x). by rewrite <- list_elem_of_In. }
  split.
  - intros k y. unfold known. rewrite Hin, lookup_alter_Some. split.
    + intros [(-> & x & Hx & ->)|[Hne Hy]]; [apply Hk in Hx as [Hx <-]|apply Hk in Hy as [Hy <-]].
      * rewrite Hf. split; [|done]. exists x. unfold g. by rewrite Z.eqb_refl.
      * split; [|done]. exists y. unfold g. rewrite (proj2 (Z.eqb_neq _ _)) by congruence. done.
    + intros [(x & Hx & ->) Hh]. rewrite Hg in Hh. unfold g. destruct (Z.eqb_spec (s_ipfHandle x) h) as [E|E]; [left|right]; (split; [congruence|]).
      * exists x. split; [|done]. apply Hk. split; [done|congruence].
      * by apply Hk.
  - intros y Hy. apply Hin in Hy as (x & Hx & ->). rewrite Hg. by apply Hv.
  - replace (handles (map (option_map g) l)) with (handles l); [done|]. clear -Hg. induction l as [|[x|] l IH]; [done| |done]. change (handles (map (option_map g) (Some x :: l))) with (s_ipfHandle (g x) :: handles (map (option_map g) l)). by rewrite Hg, <- IH.
Qed.
Lemma delete_table l m h : table_is l m -> table_is (map (fun x => match x with Some x => if s_ipfHandle x =? h then None else Some x | None => None end) l) (delete h m).
Proof.
  intros [Hk Hv Hd]. set (g := fun o : option Session => match o with Some x => if s_ipfHandle x =? h then None else Some x | None => None end).
  assert (Hin : forall y, Some y ∈ map g l <-> Some y ∈ l /\ s_ipfHandle y <> h).
  { intros y. rewrite !list_elem_of_In, in_map_iff. unfold g. split.
    - intros ([x|] & E & Hx); [|done]. destruct (Z.eqb_spec (s_ipfHandle x) h); [done|]. by simplify_eq.
    - intros [Hy Hne]. exists (Some y). by rewrite (proj2 (Z.eqb_neq _ _)). }
  split.
  - intros k y. unfold known. rewrite Hin, lookup_delete_Some, Hk. unfold known. split; [intros (? & ? & ?)|intros ((? & ?) & ?)]; split_and!; congruence.
  - intros y Hy. apply Hin in Hy as [Hy _]. by apply Hv.
  - clear -Hd. induction l as [|[x|] l IH]; [done| |by apply IH]. change (handles (Some x :: l)) with (s_ipfHandle x :: handles l) in Hd. apply NoDup_cons in Hd as [Hx Hd]. cbn [map g]. unfold g at 1. destruct (_ =? h); [by apply IH|].
    apply NoDup_cons. split; [|by apply IH]. intros Hy. apply Hx. apply in_handles in Hy as (y & Hy & <-). apply list_elem_of_In, in_map_iff in Hy as ([z|] & E & Hz); [|done]. unfold g in E. destruct (_ =? h); [done|]. injection E as <-. apply handle_in. by apply list_elem_of_In.
Qed.
Lemma deleted_again (m : gmap Z Session) h f : delete h (alter f h m) = delete h m.
Proof. apply map_eq. intros k. destruct (decide (k = h)) as [->|Hne]; [by rewrite !lookup_delete_eq|]. by rewrite !lookup_delete_ne, lookup_alter_ne by done. Qed.

(** The operations on the table, what each does, and what it does to the map. *)
Inductive table_op : Type := Create (ok : bool) (h : Z) | Find (h : Z) | Close (h : Z) | Delete (h : Z) | Disconnect (h : Z) | IsStarted (h : Z) | Exists (h : Z) | EsifHandle (h : Z).
Inductive table_result : Type := Found (x : option Session) | Code (rc : Z) | Answer (b : bool) | Nothing.
Section Table.
Context {O : Type}.
Definition do_table (op : table_op) : SM (Server O) table_result :=
  match op with
  | Create ok h => let! x := AppSessionMgr_CreateSession ok h in sret (Found x)
  | Find h => let! x := AppSessionMgr_GetSessionByHandle h in sret (Found x)
  | Close h => let! rc := IpfClient_Close h in sret (Code rc)
  | Delete h => AppSessionMgr_DeleteSession h ;! sret Nothing
  | Disconnect h => let! x := AppSessionMgr_GetSessionByHandle h in (match x with Some x => AppSession_Disconnect x | None => sret tt end) ;! sret Nothing
  | IsStarted h => let! b := IpfClient_IsStarted h in sret (Answer b)
  | Exists h => let! b := IpfClient_Exists h in sret (Answer b)
  | EsifHandle h => let! n := AppSessionMgr_GetEsifHandleByHandle h in sret (Code n)
  end.
Definition new_session (h : Z) : Session := mk_sess h ESIF_INVALID_HANDLE ESIF_INVALID_HANDLE ESIF_INVALID_HANDLE true [] [] [] [] [] ESIF_NULL_THREAD_ID None.
Definition on_map (slots : nat) (op : table_op) (m : gmap Z Session) : table_result * gmap Z Session :=
  match op with
  | Create ok h => if decide (h = ESIF_INVALID_HANDLE \/ ok = false \/ m !! h <> None \/ (slots <= base.size m)%nat) then (Found None, m) else (Found (Some (new_session h)), <[h := new_session h]> m)
  | Find h => (Found (m !! h), m)
  | Close h => (Code (match m !! h with Some _ => ESIF_OK | None => ESIF_E_INVALID_HANDLE end), delete h m)
  | Delete h => (Nothing, delete h m)
  | Disconnect h => (Nothing, alter AppSession_disconnected h m)
  | IsStarted h => (Answer (match m !! h with Some x => negb (s_appHandle x =? ESIF_INVALID_HANDLE) | None => false end), m)
  | Exists h => (Answer (match m !! h with Some x => s_connected x | None => false end), m)
  | EsifHandle h => (Code (match m !! h with Some x => s_esifHandle x | None => ESIF_INVALID_HANDLE end), m)
  end.

Lemma no_invalid l m : table_is l m -> m !! ESIF_INVALID_HANDLE = None.
Proof. intros Ht. destruct (m !! ESIF_INVALID_HANDLE) as [x|] eqn:E; [|done]. apply (ti_known _ _ Ht) in E as [Hx Eh]. by apply (ti_valid _ _ Ht) in Hx. Qed.
Lemma delete_step (sv : Server O) m h : table_is (sv_sessions sv) m ->
  exists sv', AppSessionMgr_DeleteSession h sv = Some (tt, sv') /\ table_is (sv_sessions sv') (delete h m) /\ length (sv_sessions sv') = length (sv_sessions sv).
Proof.
  intros Ht. unfold AppSessionMgr_DeleteSession. destruct (Z.eqb_spec h ESIF_INVALID_HANDLE) as [->|].
  - exists sv. rewrite delete_id by (by eapply no_invalid). done.
  - eexists. unfold sbind, sget, set_sessions, smodify. split; [reflexivity|]. cbn [sv_sessions]. split; [by apply delete_table|apply length_map].
Qed.
Lemma update_step (sv : Server O) m h f : table_is (sv_sessions sv) m -> (forall x, s_ipfHandle (f x) = s_ipfHandle x) ->
  exists sv', update_session h f sv = Some (tt, sv') /\ table_is (sv_sessions sv') (alter f h m) /\ length (sv_sessions sv') = length (sv_sessions sv).
Proof. intros Ht Hf. eexists. unfold update_session, sbind, sget, set_sessions, smodify. split; [reflexivity|]. cbn [sv_sessions]. split; [by apply update_table|apply length_map]. Qed.
Lemma create_step (sv : Server O) m ok h : table_is (sv_sessions sv) m -> let r := on_map (length (sv_sessions sv)) (Create ok h) m in
  exists sv', do_table (Create ok h) sv = Some (r.1, sv') /\ table_is (sv_sessions sv') r.2 /\ length (sv_sessions sv') = length (sv_sessions sv).
Proof.
  intros Ht. cbn [do_table on_map]. unfold AppSessionMgr_CreateSession. destruct (Z.eqb_spec h ESIF_INVALID_HANDLE) as [->|Hh]; [rewrite decide_True by (by left); by exists sv|]. unfold sbind, sget.
  destruct (m !! h) as [x|] eqn:Em.
  { pose proof Em as Ek. apply (ti_known _ _ Ht) in Ek as [Hx Eh]. rewrite (taken_session h _ 0 None x Hx Eh). rewrite decide_True by (right; right; by left). by exists sv. }
  rewrite (free_session_ok _ h 0 None) by (intros x Hx Eh; assert (E : m !! h = Some x) by (by apply (ti_known _ _ Ht)); congruence).
  pose proof (handles_size _ _ Ht) as Hsz. pose proof (slot_left (sv_sessions sv)) as Hs. rewrite <- Hsz, Nat.ltb_lt in Hs. destruct (list_find _ _) as [[k y]|] eqn:El; cbn [fmap option_fmap option_map fst] in *.
  - destruct ok; [|rewrite decide_True by (right; by left); by exists sv]. cbn [AppSession_Create Nat.add]. apply list_find_Some in El as (El & -> & _).
    assert (Hlt : (base.size m < length (sv_sessions sv))%nat) by (apply (proj2 Hs); by exists k). clear Hs.
    rewrite decide_False by (intros [?|[?|[?|?]]]; [done|done|done|lia]). eexists. unfold set_sessions, smodify, sret. split; [reflexivity|]. cbn [sv_sessions fst snd]. split; [|apply length_insert].
      by apply (fill_ok _ _ k (new_session h) Ht).
  - rewrite decide_True; [by exists sv|]. do 3 right. apply Nat.le_ngt. intros Hlt. apply Hs in Hlt as (k & E & _). done.
Qed.
Lemma table_step (sv : Server O) m op : table_is (sv_sessions sv) m -> let r := on_map (length (sv_sessions sv)) op m in
  exists sv', do_table op sv = Some (r.1, sv') /\ table_is (sv_sessions sv') r.2 /\ length (sv_sessions sv') = length (sv_sessions sv).
Proof.
  intros Ht. destruct op as [ok h|h|h|h|h|h|h|h]; [by apply create_step|..]; cbn [do_table on_map fst snd]; unfold IpfClient_Close, IpfClient_IsStarted, IpfClient_Exists, AppSessionMgr_GetEsifHandleByHandle.
  - rewrite (sbind_some _ _ _ _ _ (get_session_ok sv m h Ht)). by exists sv.
  - unfold sbind at 1, sbind at 1. rewrite (get_session_ok sv m h Ht). destruct (m !! h) as [x|] eqn:Em.
    + destruct (update_step sv m (s_ipfHandle x) AppSession_closed Ht) as (sv1 & E1 & H1 & L1); [done|]. assert (s_ipfHandle x = h) as Eh by (by apply (ti_known _ _ Ht) in Em as [_ ?]). rewrite Eh in *. unfold sbind at 1, sbind at 1. rewrite E1. cbn [sret].
      destruct (delete_step sv1 _ h H1) as (sv2 & E2 & H2 & L2). unfold sret at 1, sbind at 1. rewrite E2. exists sv2. rewrite deleted_again in H2. split_and!; [done|done|congruence].
    + unfold sbind at 1, sret at 1. destruct (delete_step sv m h Ht) as (sv2 & E2 & H2 & L2). unfold sbind at 1. rewrite E2. by exists sv2.
  - destruct (delete_step sv m h Ht) as (sv2 & E2 & H2 & L2). unfold sbind. rewrite E2. by exists sv2.
  - unfold sbind at 1. rewrite (get_session_ok sv m h Ht). destruct (m !! h) as [x|] eqn:Em.
    + assert (s_ipfHandle x = h) as Eh by (by apply (ti_known _ _ Ht) in Em as [_ ?]). destruct (update_step sv m h AppSession_disconnected Ht) as (sv1 & E1 & H1 & L1); [done|]. unfold AppSession_Disconnect, sbind. rewrite Eh, E1. by exists sv1.
    + exists sv. split; [done|]. split; [|done]. rewrite alter_id; [done|]. intros x Hx. congruence.
  - unfold sbind at 1, sbind at 1. rewrite (get_session_ok sv m h Ht). by exists sv.
  - unfold sbind at 1, sbind at 1. rewrite (get_session_ok sv m h Ht). by exists sv.
  - unfold sbind at 1, sbind at 1. rewrite (get_session_ok sv m h Ht). by exists sv.
Qed.

(** Sequences of operations. *)
Fixpoint do_all (ops : list table_op) : SM (Server O) (list table_result) :=
  match ops with [] => sret [] | op :: ops => let! r := do_table op in let! l := do_all ops in sret (r :: l) end.
Fixpoint on_map_all (slots : nat) (ops : list table_op) (m : gmap Z Session) : list table_result * gmap Z Session :=
  match ops with [] => ([], m) | op :: ops => let r := on_map slots op m in let l := on_map_all slots ops r.2 in (r.1 :: l.1, l.2) end.

(** C4: The sessions of the server are a map from handles to sessions, of at most as many
    entries as the table has slots.  Over every sequence of operations from the empty
    table on - connections that come and go, lookups, applications that are destroyed -
    each gives the result that it has on the map: a new connection gets a session exactly
    if its handle is valid and unused and there is room, and a closed one is not found
    again until it is created again. *)
Theorem sessions_refine_map (slots : nat) (started : bool) (world : O) (ops : list table_op) :
  exists sv', do_all ops (mk_server (repeat None slots) started world) = Some ((on_map_all slots ops ∅).1, sv') /\ table_is (sv_sessions sv') (on_map_all slots ops ∅).2.
Proof.
  set (sv := mk_server (repeat None slots) started world). assert (H0 : table_is (sv_sessions sv) ∅).
  { cbn. split.
    - intros h x. rewrite lookup_empty. split; [done|]. intros [Hx _]. apply list_elem_of_In in Hx. by apply repeat_spec in Hx.
    - intros x Hx. apply list_elem_of_In in Hx. by apply repeat_spec in Hx.
    - induction slots as [|n IH]; [constructor|exact IH]. }
  assert (L0 : length (sv_sessions sv) = slots) by apply repeat_length. clearbody sv. revert sv L0 H0. generalize (∅ : gmap Z Session) as m. induction ops as [|op ops IH]; intros m sv L0 H0; [by exists sv|].
  destruct (table_step sv m op H0) as (sv1 & E1 & H1 & L1). rewrite L0 in E1, H1. destruct (IH _ sv1 ltac:(congruence) H1) as (sv2 & E2 & H2). exists sv2. cbn [do_all on_map_all fst snd]. split; [|done].
  rewrite (sbind_some _ _ _ _ _ E1), (sbind_some _ _ _ _ _ E2). done.
Qed.
End Table.
