(* ===== verification/AppCall.v ===== *)
(** * Calls of an application across processes: AppServer.v and AppClient.v put together

    A call of the application's interface that ESIF makes is the call of the function of
    the application in the other process with the buffers that arrive, and what the
    interface does on top of it: [app_call_is_local].  The two sides are put together as
    they are with the frames carried over. *)

From stdpp Require Import list strings gmap.
From S2P Require Import Prelude CString SdkVersion EsifData Ids ShellLine IBinary IrpcCodec IrpcMsg IrpcServer IrpcClient IrpcCall AppClient AppServer.
Local Open Scope Z_scope.
Local Open Scope dptf_scope.

(* ------------------------------------------------------------------ *)
(** ** The whole path *)

Section Path.
Context {A : Type} `{IpfApp A} `{IpfEsif (process A)}.

(** Sending, and waiting: the application's process answers the frame, and the answer goes
    to the transaction.  A request without an answer expires. *)
Definition over_app (fresh : Z * Z * Z) (t : Transaction) (frame : list Z) : SM (Server (process A)) (Z * option IBinary) :=
  let! answer := in_world (answer_app_frame [] [] true fresh frame) in
  match answer with
  | None => sret (ESIF_E_SESSION_REQUEST_FAILED, None)
  | Some frame =>
      let! b := of_option (receive_answer true (t_ipfHandle t) t frame) in
      match b with Some b => sret (ESIF_OK, Some b) | None => sret (ESIF_E_SESSION_REQUEST_FAILED, None) end
  end.
End Path.

(* ------------------------------------------------------------------ *)
(** ** Frames arrive *)

(** Writing over a part of what a buffer holds. *)
Lemma holds_write b x old y d : holds b (x ++ old ++ y) -> size old = size d -> x ++ old ++ y <> [] ->
  exists b', write_buf (size x) d b = Some (tt, b') /\ holds b' (x ++ d ++ y) /\ IBinary_GetBufLen b' = IBinary_GetBufLen b.
Proof.
  intros Hb Hs Hne. assert (Hn : IBinary.buf_len b <> 0).
  { pose proof (h_buf_len b _ Hb). pose proof (size_nonneg (x ++ old ++ y)). intros E. apply Hne, nil_of_size. lia. }
  assert (Hsz : size (x ++ d ++ y) = size (x ++ old ++ y)) by (rewrite !size_app; lia).
  rewrite (holds_eta b _ Hb Hn). eexists. split; [apply write_buf_some; rewrite <- !app_assoc; by apply write_at_mid|]. split; [|done].
  rewrite <- Hsz. replace ((x ++ d ++ y ++ zero_bytes _)) with ((x ++ d ++ y) ++ zero_bytes (IBinary.buf_len b - size (x ++ d ++ y))) by (by rewrite <- !app_assoc). apply holds_full; [apply Hb| |done]. rewrite Hsz. apply Hb.
Qed.
(** The result in a message. *)
Lemma result_place msgtype funcId t fs ps : fields_ok fs ps -> exists x y, size x = 34 /\ forall r, msg_wire msgtype funcId t r fs ps = x ++ le_bytes 4 r ++ y.
Proof.
  intros Hf. exists (le_bytes 4 msgtype ++ le_bytes 2 IRPC_REVISION ++ le_bytes 4 funcId ++ le_bytes 8 (t_trxId t) ++ le_bytes 8 (t_clockticks t) ++ le_bytes 8 (t_clocktime t)), (heads fs ps 0 ++ payloads ps).
  split; [unfold size; by rewrite !length_app, !le_bytes_length|]. intros r. unfold msg_wire, msg_fields, msg_parts, wire, irpc_header. cbn [app repeat heads head_bytes]. change (payloads (([], 0) :: ([], 0) :: ([], 0) :: ([], 0) :: ([], 0) :: ([], 0) :: ([], 0) :: ps)) with (payloads ps).
  by rewrite <- !app_assoc.
Qed.

(** The request of a frame. *)
Lemma receive_app_request_ok m : 0 < size m < 2 ^ 31 -> get_int 4 m 0 = Some IrpcMsg_ProcRequest ->
  exists b, receive_app_request true (EsifMsgHdr ESIFMSG_CLASS_IRPC (size m) ++ m) = Some (Some b) /\ IBinary_GetBuf b = Some m.
Proof.
  intros Hm Ht. destruct (header_fields ESIFMSG_CLASS_IRPC (size m) m) as (E0 & E2 & E4 & E8 & E12); [done|lia|].
  destruct (clone_message_ok m []) as (b & Eb & Hb); [lia|]. exists b. split; [|done]. unfold receive_app_request, EsifMsgFrame_GetPayload, EsifMsgHdr_Verify.
  rewrite frame_size, (proj2 (Z.leb_le _ _)) by (unfold sizeof_EsifMsgHdr; lia). rewrite E0. cbn [mbind option_bind]. rewrite E2. cbn [mbind option_bind]. rewrite E4. cbn [mbind option_bind].
  change ((ESIFMSG_SIGNATURE =? ESIFMSG_SIGNATURE) && (ESIFHDR_GET_MAJOR ESIFMSG_VERSION =? ESIFHDR_GET_MAJOR ESIFMSG_VERSION) && (sizeof_EsifMsgHdr <=? 16)) with true. cbn iota. rewrite Z.eqb_refl, E8. cbn [mbind option_bind]. rewrite E12. cbn [mbind option_bind].
  rewrite (proj2 (Z.ltb_ge _ _)) by lia. cbn [mbind option_bind]. change ((ESIF_OK =? ESIF_OK) && (ESIFMSG_CLASS_IRPC =? ESIFMSG_CLASS_IRPC)) with true. cbn iota.
  change 16 with (16 + 0) at 1. rewrite (behind_header 4 _ _ m 0 _ ltac:(lia) Ht). cbn [mbind option_bind]. rewrite Z.eqb_refl, (proj2 (Z.eqb_neq _ _)) by lia. cbn [negb andb]. rewrite drop_header. rewrite app_nil_r in Eb. by rewrite Eb.
Qed.
Lemma receive_answer_ok m t : 0 < size m < 2 ^ 32 -> get_int 4 m 0 = Some IrpcMsg_ProcResponse -> get_int 8 m 10 = Some (t_trxId t) ->
  exists b, receive_answer true (t_ipfHandle t) t (EsifMsgHdr ESIFMSG_CLASS_IRPC (size m) ++ m) = Some (Some b) /\ IBinary_GetBuf b = Some m.
Proof.
  intros Hm Ht Hid. destruct (receive_frame_ok m Hm) as (b & Eb & Hb). exists b. split; [|done]. unfold receive_answer. rewrite Eb. cbn [mbind option_bind snd]. rewrite Hb, Ht. cbn [mbind option_bind]. rewrite Z.eqb_refl, Hid. cbn [mbind option_bind]. by rewrite !Z.eqb_refl.
Qed.

(* ------------------------------------------------------------------ *)
(** ** One call, whatever its function *)

Section Call.
Context {A : Type} `{IpfApp A} `{IpfEsif (process A)} (client server : Z * Z * Z).

(** The application's handler: it has read the parameters, and the application gives a
    result and an encoder. *)
Lemma app_response_ok (s s' : process A) handle rc encode funcId result params ps m id :
  handle s = Some (Some (rc, encode), s') -> (forall t, encode t = encode_function [] t funcId (result t) params) -> fields_ok (params false) ps -> get_int 8 m 10 = Some id -> 
  let t := mk_trx None None id client.1.2 client.2 rc (i_ipfHandle s.1) in
  let mr := msg_wire IrpcMsg_ProcResponse funcId t rc (params false) ps in size mr < 2 ^ 31 ->
  exists b, Irpc_Response [] [] client m handle s = Some (Some b, s') /\ holds b (EsifMsgHdr ESIFMSG_CLASS_IRPC (size mr) ++ mr).
Proof.
  intros Hh Henc Hps Hid t mr Hsz. unfold Irpc_Response, sbind at 1, sget. change (alloc [] 0) with true. change (alloc [] 1) with true. unfold IpfApp_Trx. rewrite create_new. cbn [t_response]. set (b0 := mk_binary None 0 0 IBINARY_DEFAULT_GROWBY).
  set (h0 := EsifMsgHdr ESIFMSG_CLASS_IRPC 0). assert (Hh0 : size h0 = 16) by apply header_size.
  assert (Ea : exists b1, IBinary_Append true (Some h0) sizeof_EsifMsgHdr b0 = Some (true, b1) /\ holds b1 h0).
  { destruct (insert_ok true h0 (size h0) 0 h0 b0 [] holds_fresh (read_at_all h0)) as (r & b1 & E & [(-> & Hb1)|(Hf & _)]); [lia|done|rewrite Hh0; done| |done].
    exists b1. unfold insert_at in Hb1. cbn [Z.to_nat take drop app] in Hb1. rewrite app_nil_r in Hb1. split; [|done]. rewrite <- E. unfold IBinary_Append, sbind, sget. by rewrite Hh0. }
  destruct Ea as (b1 & Ea & Hb1). rewrite Ea. cbn [of_option]. unfold sbind at 1, sret at 1. unfold sbind at 1. rewrite Hh. unfold IBinary_GetLen. rewrite (h_len _ _ Hb1), Hh0. rewrite Hid. cbn [of_option]. unfold sbind at 1, sret at 1. rewrite Henc.
  set (t1 := with_result rc (with_trxId id (with_response (Some b1) _))). set (r0 := result t1).
  assert (Emr : forall r, msg_wire IrpcMsg_ProcResponse funcId t1 r (params false) ps = msg_wire IrpcMsg_ProcResponse funcId t r (params false) ps) by done.
  destruct (result_place IrpcMsg_ProcResponse funcId t (params false) ps Hps) as (x & y & Hx & Ey).
  assert (Hr0 : size (msg_wire IrpcMsg_ProcResponse funcId t r0 (params false) ps) = size mr) by (unfold mr; rewrite !Ey, !size_app, !le4_size; done).
  destruct (encode_response [] t1 b1 h0 funcId r0 params ps) as (b2 & Ee & Hb2); [done|done|by apply Forall_nil|done|rewrite Hh0, Emr, Hr0; lia|].
  rewrite Ee. cbn [of_option]. unfold sbind at 1, sret at 1. cbn [t_response with_response]. rewrite Emr, Ey in Hb2. pose proof Hb2 as Hb2'.
  (* the type is there already *)
  assert (Htype : exists z, x = le_bytes 4 IrpcMsg_ProcResponse ++ z).
  { destruct (result_place IrpcMsg_ProcResponse funcId t (params false) ps Hps) as (_ & _ & _ & _). exists (drop 4 x). specialize (Ey 0). apply (f_equal (take 4)) in Ey. unfold msg_wire, msg_fields, wire, irpc_header in Ey. cbn [app heads msg_parts repeat head_bytes] in Ey.
    rewrite <- !app_assoc in Ey. rewrite (take_app_le x) in Ey by (unfold size in Hx; lia). rewrite take_app_le in Ey by (by rewrite le_bytes_length). rewrite (take_ge (le_bytes 4 _)) in Ey by (by rewrite le_bytes_length). rewrite Ey. symmetry. apply take_drop. }
  destruct Htype as (z & Ez). assert (Hne : forall l, h0 ++ l <> []) by (intros l E; apply (f_equal size) in E; rewrite size_app, Hh0 in E; pose proof (size_nonneg l); change (size []) with 0 in E; lia).
  rewrite (patch_same b2 _ 16 (le_bytes 4 IrpcMsg_ProcResponse) h0 (z ++ le_bytes 4 r0 ++ y) Hb2); [|by rewrite Ez, <- !app_assoc|done|apply Hne]. cbn [option_map snd of_option]. unfold sbind at 1, sret at 1.
  destruct (holds_write b2 (h0 ++ x) (le_bytes 4 r0) y (le_bytes 4 rc)) as (b3 & E3 & Hb3 & L3); [by rewrite <- app_assoc|done|rewrite <- app_assoc; apply Hne|]. rewrite size_app, Hh0, Hx in E3. change (16 + 34) with 50 in *. change (t_result (with_response (Some b2) t1)) with rc. rewrite E3. cbn [option_map snd of_option]. unfold sbind at 1, sret at 1.
  rewrite <- app_assoc, <- Ey in Hb3. fold mr in Hb3. assert (Hlen : data_len b3 = 16 + size mr) by (rewrite (h_len _ _ Hb3), size_app, Hh0; done). rewrite Hlen. replace (16 + size mr - 16) with (size mr) by lia. pose proof (size_nonneg mr).
  rewrite wrap_small by (unfold in_range; lia). set (h1 := EsifMsgHdr ESIFMSG_CLASS_IRPC (size mr)).
  destruct (holds_write b3 [] h0 mr h1) as (b4 & E4 & Hb4 & _); [done|rewrite Hh0; unfold h1; by rewrite header_size|apply Hne|]. change (size []) with 0 in E4.
  unfold Irpc_SetResponseHeader. pose proof (h_buf_len _ _ Hb3) as Hbl. rewrite size_app, Hh0 in Hbl. rewrite (holds_has_buf _ _ Hb3). unfold IBinary_GetBufLen. rewrite (proj2 (Z.eqb_neq _ _)), (proj2 (Z.leb_le _ _)) by (unfold sizeof_EsifMsgHdr; lia). cbn [negb andb]. rewrite E4. cbn [option_map snd of_option]. unfold sbind at 1, sret at 1. exists b4. by split.
Qed.

(** The server's request is answered by such a handler. *)
Lemma app_call_ok {T} (sv : Server (process A)) x encode funcId result pc ps may refused finish (into : T) handle rc encode_a result_a pr ps' s' o :
  let s := sv_world sv in
  let mq := msg_wire IrpcMsg_ProcRequest funcId (IpfClient_Trx server) ESIF_OK (pc true) ps in
  let mr := msg_wire IrpcMsg_ProcResponse funcId (mk_trx None None server.1.1 client.1.2 client.2 rc (i_ipfHandle s.1)) rc (pr false) ps' in
  AppSessionMgr_GetSessionByHandle (s_ipfHandle x) sv = Some (Some x, sv) -> AppSession_IsConnected (Some x) sv = Some (true, sv) -> may x = true ->
  0 <= server.1.1 < 2 ^ 64 -> 0 <= funcId < 2 ^ 32 -> 0 <= rc < 2 ^ 32 ->
  (forall t, encode x t = encode_function [] t funcId (result t) pc) -> (forall t, t_result t = ESIF_OK -> result t = ESIF_OK) -> fields_ok (pc true) ps -> size mq < 2 ^ 31 ->
  (get_int 4 mq 6 = Some funcId -> Irpc_ProcessRequest [] [] true client mq s = Irpc_Response [] [] client mq handle s) ->
  handle s = Some (Some (rc, encode_a), s') -> (forall t, encode_a t = encode_function [] t funcId (result_a t) pr) -> fields_ok (pr false) ps' -> size mr < 2 ^ 31 ->
  (get_int 4 mr 6 = Some funcId -> get_int 4 mr 34 = Some rc -> finish (Some mr) = Some (Some rc, o)) ->
  Irpc_App_Request (over_app client) true (Some (IpfClient_Trx server)) (Some x) may refused encode finish into sv = Some ((rc, o), mk_server (sv_sessions sv) (sv_started sv) s').
Proof.
  intros s mq mr Hfound Hconn Hmay Hid Hfid Hrc Henc Hres Hps Hmq Hdisp Hh Henca Hps' Hmr Hfin.
  destruct (msg_header IrpcMsg_ProcRequest funcId (IpfClient_Trx server) ESIF_OK (pc true) ps Hps) as (Q0 & Q6 & Q10 & _); [done|done|done|done|].
  destruct (msg_header IrpcMsg_ProcResponse funcId (mk_trx None None server.1.1 client.1.2 client.2 rc (i_ipfHandle s.1)) rc (pr false) ps' Hps') as (R0 & R6 & R10 & R34); [done|done|done|done|].
  fold mq in Q0, Q6, Q10. fold mr in R0, R6, R10, R34.
  assert (Hq : 38 <= size mq) by (unfold mq; rewrite msg_size by done; pose proof (widths_nonneg (pc true)); pose proof (size_nonneg (payloads ps)); lia).
  assert (Hr : 38 <= size mr) by (unfold mr; rewrite msg_size by done; pose proof (widths_nonneg (pr false)); pose proof (size_nonneg (payloads ps')); lia).
  unfold Irpc_App_Request. rewrite (sbind_some _ _ _ _ _ Hconn), Hmay. set (t1 := mk_trx _ _ _ _ _ _ _).
  assert (Et : result t1 = ESIF_OK) by by apply Hres. rewrite Henc, Et.
  destruct (encode_request [] t1 _ funcId ESIF_OK pc ps eq_refl eq_refl holds_fresh) as (b & Ee & Hb); [by apply Forall_nil|done|change (size mq < 2 ^ 62); lia|]. change (holds b mq) in Hb.
  rewrite Ee. cbn [of_option]. unfold sbind at 1, sret at 1. unfold Irpc_SendMessage. cbn [t_request with_request t_ipfHandle t1]. unfold sbind at 1. unfold sbind at 1. rewrite Hfound. unfold sbind at 1. rewrite Hconn.
  unfold IBinary_GetLen. rewrite (h_len _ _ Hb), (proj2 (Z.eqb_neq _ _)) by lia. rewrite (with_header_ok b mq Hb) by lia. cbn [of_option]. unfold sbind at 1, sret at 1. unfold sbind at 1. unfold over_app, sbind at 1, in_world.
  assert (Ea : answer_app_frame [] [] true client (EsifMsgHdr ESIFMSG_CLASS_IRPC (size mq) ++ mq) s = Some (Some (EsifMsgHdr ESIFMSG_CLASS_IRPC (size mr) ++ mr), s')).
  { destruct (receive_app_request_ok mq) as (bq & Eq & Hbq); [lia|done|]. unfold answer_app_frame, sbind at 1. rewrite Eq. cbn [of_option sret]. unfold sret at 1. rewrite Hbq. unfold sbind at 1. rewrite (Hdisp Q6).
    destruct (app_response_ok s s' handle rc encode_a funcId result_a pr ps' mq server.1.1 Hh Henca Hps' Q10) as (br & Er & Hbr); [exact Hmr|]. rewrite Er. fold mr in Hbr.
    assert (Hne : IBinary.buf_len br <> 0) by (pose proof (h_buf_len _ _ Hbr) as Hl; rewrite size_app, header_size in Hl; lia). unfold IBinary_GetBuf, IBinary_GetLen. rewrite (holds_buf _ _ Hbr Hne), (h_len _ _ Hbr).
    set (f := EsifMsgHdr ESIFMSG_CLASS_IRPC (size mr) ++ mr). pose proof (read_at_mid [] f (zero_bytes (IBinary.buf_len br - size f))) as Erd. cbn [app] in Erd. change (size []) with 0 in Erd. by rewrite Erd. }
  change (sv_world sv) with s. rewrite Ea. unfold sbind at 1.
  destruct (receive_answer_ok mr (with_request (Some b) t1)) as (br & Er & Hbr); [lia|done|exact R10|]. rewrite Er. cbn [of_option sret]. unfold sret at 1. cbn [fst]. change (ESIF_OK =? ESIF_E_SESSION_REQUEST_FAILED) with false. cbn iota.
  unfold sret at 1. rewrite Z.eqb_refl. cbn [mbind option_bind]. rewrite Hbr. rewrite (Hfin R6 R34). done.
Qed.
End Call.

(* ------------------------------------------------------------------ *)
(** ** The calls *)

(** The calls of an application, all but the one that creates it. *)
Inductive app_call : Type :=
  | AGetName (d : EsifData) | AGetDescription (d : EsifData) | AGetVersion (d : EsifData) | AGetIntro (d : EsifData)
  | ADestroy | ASuspend | AResume
  | ACommand (argv : list EsifData) (response : EsifData)
  | AGetStatus (command appStatusIn : Z) (out : EsifData)
  | AParticipantCreate (participant : Z) (data : AppParticipantData) (state : Z)
  | AParticipantDestroy (participant : Z)
  | ADomainCreate (participant domain : Z) (data : AppDomainData) (state : Z)
  | ADomainDestroy (participant domain : Z)
  | AEvent (participant domain : Z) (data guid : option EsifData).
(** The caller's buffer. *)
Definition app_given (c : app_call) : option EsifData :=
  match c with AGetName d | AGetDescription d | AGetVersion d | AGetIntro d | ACommand _ d | AGetStatus _ _ d => Some d | _ => None end.
(** What can be sent.  Buffers for an answer have some room. *)
Definition roomy (d : EsifData) : Prop := good d /\ 0 < d_buf_len d.
Definition app_call_fits (c : app_call) : Prop :=
  match c with
  | AGetName d | AGetDescription d | AGetVersion d | AGetIntro d => roomy d
  | ADestroy | ASuspend | AResume => True
  | ACommand argv d => 0 < Z.of_nat (length argv) < IRPC_MAXARRAY /\ Forall stacked argv /\ roomy d
  | AGetStatus command n d => 0 <= command < 2 ^ 32 /\ 0 <= n < 2 ^ 32 /\ roomy d
  | AParticipantCreate p d st => handle_ok p /\ participant_ok d /\ 0 <= st < 2 ^ 32
  | AParticipantDestroy p => handle_ok p
  | ADomainCreate p dm d st => handle_ok p /\ handle_ok dm /\ domain_data_ok d /\ 0 <= st < 2 ^ 32
  | ADomainDestroy p dm => handle_ok p /\ handle_ok dm
  | AEvent p dm d g => handle_ok p /\ handle_ok dm /\ good_opt d /\ good_opt g
  end.
Definition app_call_volume (c : app_call) : Z :=
  match c with
  | AGetName d | AGetDescription d | AGetVersion d | AGetIntro d => volume (Some d)
  | ACommand argv d => volumes argv + volume (Some d)
  | AGetStatus _ _ d => volume (Some d)
  | AParticipantCreate _ d _ => size (participant_wire d)
  | ADomainCreate _ _ d _ => size (domain_wire d)
  | AEvent _ _ d g => volume d + volume g
  | _ => 0
  end.
Definition app_answer_fits (c : app_call) (back : option EsifData) : Prop :=
  match app_given c with Some d => exists v, back = Some v /\ fits_back d v /\ d_data_len v < 2 ^ 30 | None => back = None end.

Section Performed.
Context {A : Type} `{IpfApp A}.

(** What the application does in a call, with its handle [a] and the buffers as they
    arrive. *)
Definition with_buffer (m : SM (process A) (Z * EsifData)) : SM (process A) outcome := let! r := m in sret (r.1, Some r.2).
Definition with_result_only (m : SM (process A) Z) : SM (process A) outcome := let! rc := m in sret (rc, None).
Definition performed (a : Z) (c : app_call) : SM (process A) outcome :=
  match c with
  | AGetName d => with_buffer (invoke fAppGetNameFuncPtr (fun f => f (received d)) (ESIF_E_NOT_IMPLEMENTED, received d))
  | AGetDescription d => with_buffer (invoke fAppGetDescriptionFuncPtr (fun f => f (received d)) (ESIF_E_NOT_IMPLEMENTED, received d))
  | AGetVersion d => with_buffer (invoke fAppGetVersionFuncPtr (fun f => f (received d)) (ESIF_E_NOT_IMPLEMENTED, received d))
  | AGetIntro d => with_buffer (invoke fAppGetIntroFuncPtr (fun f => f a (received d)) (ESIF_E_NOT_IMPLEMENTED, received d))
  | ADestroy => with_result_only (let! rc := invoke fAppDestroyFuncPtr (fun f => f a) ESIF_E_NOT_IMPLEMENTED in on_session (with_handles ESIF_INVALID_HANDLE ESIF_INVALID_HANDLE) ;! sret rc)
  | ASuspend => with_result_only (invoke fAppSuspendFuncPtr (fun f => f a) ESIF_E_NOT_IMPLEMENTED)
  | AResume => with_result_only (invoke fAppResumeFuncPtr (fun f => f a) ESIF_E_NOT_IMPLEMENTED)
  | ACommand argv d =>
      with_buffer (
        let! here := of_option (is_timeout (map received argv)) in
        if (here : bool) then timeout_command (map received argv) (received d)
        else invoke fAppCommandFuncPtr (fun f => f a (Z.of_nat (length argv)) (map received argv) (received d)) (ESIF_E_NOT_IMPLEMENTED, received d))
  | AGetStatus command n d => with_buffer (invoke fAppGetStatusFuncPtr (fun f => f a command n (received d)) (ESIF_E_NOT_IMPLEMENTED, received d))
  | AParticipantCreate p d st => with_result_only (invoke fParticipantCreateFuncPtr (fun f => f a p (received_participant d) st) ESIF_E_NOT_IMPLEMENTED)
  | AParticipantDestroy p => with_result_only (invoke fParticipantDestroyFuncPtr (fun f => f a p) ESIF_E_NOT_IMPLEMENTED)
  | ADomainCreate p dm d st => with_result_only (invoke fDomainCreateFuncPtr (fun f => f a p dm (received_domain d) st) ESIF_E_NOT_IMPLEMENTED)
  | ADomainDestroy p dm => with_result_only (invoke fDomainDestroyFuncPtr (fun f => f a p dm) ESIF_E_NOT_IMPLEMENTED)
  | AEvent p dm d g =>
      with_result_only (
        match fAppEventFuncPtr with
        | None => sret ESIF_E_NOT_IMPLEMENTED
        | Some f =>
            let! rc := in_app (f a p dm (received <$> d) (received <$> g)) in
            let! level := of_option (verbosity (received <$> d) (received <$> g)) in
            (match level with Some n => on_session (with_traceLevel (s32 n)) | None => sret tt end) ;!
            sret rc
        end)
  end.

(** The call over the connection; [h] is the handle that ESIF has. *)
Context `{IpfEsif (process A)}.
Definition remote_app_call (client server : Z * Z * Z) (h : Z) (c : app_call) : SM (Server (process A)) outcome :=
  let exchange := over_app client in
  let trx := Some (IpfClient_Trx server) in
  let plain (m : SM (Server (process A)) Z) := let! rc := m in sret (rc, None) in
  match c with
  | AGetName d => Irpc_Request_AppGetName exchange [] [] trx (Some d)
  | AGetDescription d => Irpc_Request_AppGetDescription exchange [] [] trx (Some d)
  | AGetVersion d => Irpc_Request_AppGetVersion exchange [] [] trx (Some d)
  | AGetIntro d => Irpc_Request_AppGetIntro exchange [] [] trx h (Some d)
  | ADestroy => plain (Irpc_Request_AppDestroy exchange [] [] trx h)
  | ASuspend => plain (Irpc_Request_AppSuspend exchange [] [] trx h)
  | AResume => plain (Irpc_Request_AppResume exchange [] [] trx h)
  | ACommand argv d => Irpc_Request_AppCommand exchange [] [] trx h (Z.of_nat (length argv)) (Some argv) (Some d)
  | AGetStatus command n d => Irpc_Request_AppGetStatus exchange [] [] trx h command n (Some d)
  | AParticipantCreate p d st => plain (Irpc_Request_AppParticipantCreate exchange [] [] trx h p (Some d) st)
  | AParticipantDestroy p => plain (Irpc_Request_AppParticipantDestroy exchange [] [] trx h p)
  | ADomainCreate p dm d st => plain (Irpc_Request_AppDomainCreate exchange [] [] trx h p dm (Some d) st)
  | ADomainDestroy p dm => plain (Irpc_Request_AppDomainDestroy exchange [] [] trx h p dm)
  | AEvent p dm d g => plain (Irpc_Request_AppEvent exchange [] [] trx h p dm d g)
  end.
(** The session that a call is for: by the name in the buffer, or by the handle. *)
Definition session_for (h : Z) (c : app_call) : SM (Server (process A)) (option Session) :=
  match c with AGetName d | AGetDescription d | AGetVersion d => AppSessionMgr_GetSessionByName (d_buf d) | _ => AppSessionMgr_GetSessionByHandle h end.
(** A destroyed application's session is disconnected. *)
Definition session_left (x : Session) (c : app_call) (rc : Z) (sv : Server (process A)) : list (option Session) :=
  match c with
  | ADestroy => if rc =? ESIF_OK then map (option_map (fun y => if s_ipfHandle y =? s_ipfHandle x then AppSession_disconnected y else y)) (sv_sessions sv) else sv_sessions sv
  | _ => sv_sessions sv
  end.
End Performed.

(* ------------------------------------------------------------------ *)
(** ** Each call *)

(** An object behind an offset. *)
Lemma param_obj msgtype funcId t result fs ps i o p n pos : fields_ok fs ps -> size (msg_wire msgtype funcId t result fs ps) < 2 ^ 31 -> fs !! i = Some (ObjPtr (Some o)) -> ps !! i = Some (p, n) -> Forall tight (take i ps) -> pos = 38 + widths (take i fs) ->
  exists off a c, get_int 4 (msg_wire msgtype funcId t result fs ps) pos = Some off /\ msg_wire msgtype funcId t result fs ps = a ++ p ++ c /\ size a = pos + 4 + off.
Proof.
  intros Hf Hsz Hi Hp Ht ->. destruct (wire_cut _ _ (7 + i) _ (msg_fields_ok msgtype funcId t result _ _ Hf) Hi) as (p' & n' & h & h' & q & _ & Hp' & Ew & Hh & Hh'). assert (p' = p) as -> by (change (msg_parts ps !! (7 + i)%nat) with (ps !! i) in Hp'; congruence).
  fold (msg_wire msgtype funcId t result fs ps) in Ew. cbn [head_bytes] in Ew. pose proof (counts_tight _ (msg_tight _ _ Ht)) as Hc. destruct (widths_split (msg_fields msgtype funcId t result fs) (7 + i) _ Hi) as [_ Hw].
  set (off := widths (drop (S (7 + i)) (msg_fields msgtype funcId t result fs)) + counts (take (7 + i) (msg_parts ps))) in *. pose proof (widths_nonneg (drop (S (7 + i)) (msg_fields msgtype funcId t result fs))). pose proof (size_nonneg (payloads (take (7 + i) (msg_parts ps)))). pose proof (size_nonneg h).
  assert (Hoff : 0 <= off < 2 ^ 32).
  { rewrite Ew, !size_app, le4_size, Hh', Hc in Hsz. pose proof (size_nonneg p). pose proof (size_nonneg q). unfold off. lia. }
  rewrite (wrap_small 32 off) in Ew by (unfold in_range; lia). exists off, (h ++ le_bytes 4 off ++ h' ++ payloads (take (7 + i) (msg_parts ps))), q. split_and!.
  - rewrite <- (msg_take msgtype funcId t result fs i). eapply get_u32_eq; [exact Ew|by rewrite Hh|lia].
  - rewrite Ew. by rewrite <- !app_assoc.
  - rewrite !size_app, le4_size, Hh', Hc, Hh, msg_take. unfold off. lia.
Qed.
Lemma fields_obj o p fs ps : appends o true p -> fields_ok fs ps -> fields_ok (ObjPtr (Some o) :: fs) ((p, size p) :: ps).
Proof. intros Ho Hf. by constructor. Qed.
Lemma fields_no_obj fs ps : fields_ok fs ps -> fields_ok (ObjPtr None :: fs) (([], 0) :: ps).
Proof. intros Hf. by constructor. Qed.

Section Calls.
Context {A : Type} `{IpfApp A} `{IpfEsif (process A)} (client server : Z * Z * Z).
Context (Hserver : 0 <= server.1.1 < 2 ^ 64).

(** Who may be called: an application that has been created, by its own handle; its name,
    description and version are asked for before. *)
Definition may_call (x : Session) (a : Z) (c : app_call) : Prop :=
  match c with
  | AGetName _ | AGetDescription _ | AGetVersion _ => True
  | AEvent _ _ _ _ => a <> ESIF_INVALID_HANDLE /\ (s_appHandle x = a \/ s_appHandle x = ESIF_INVALID_HANDLE)
  | _ => a <> ESIF_INVALID_HANDLE /\ s_appHandle x = a
  end.
Definition app_runs (c : app_call) : Prop := forall sv x h rc back s',
  app_call_fits c -> app_call_volume c < 2 ^ 30 -> handle_ok (s_appHandle x) -> handle_ok (i_appHandle (sv_world sv).1) -> may_call x (i_appHandle (sv_world sv).1) c ->
  session_for h c sv = Some (Some x, sv) -> AppSessionMgr_GetSessionByHandle (s_ipfHandle x) sv = Some (Some x, sv) -> AppSession_IsConnected (Some x) sv = Some (true, sv) ->
  0 <= rc < 2 ^ 32 -> app_answer_fits c back -> performed (i_appHandle (sv_world sv).1) c (sv_world sv) = Some ((rc, back), s') ->
  remote_app_call client server h c sv = Some ((rc, written_back (app_given c) back), mk_server (session_left x c rc sv) (sv_started sv) s').

Ltac open_lets := repeat match goal with x := _ |- _ => subst x end; cbv beta.
Ltac parts :=
  open_lets; unfold const, argc_field; cbn [repeat option_map];
  repeat first [apply fields_nil|apply fields_int|apply (fields_ptr None); [done|]|apply fields_ptr; [first [by apply good_sendable|by intros ? [= <-]]|]|by apply fields_no_array|apply fields_no_array|apply fields_array; [done|done|]|apply fields_no_obj|apply fields_obj; [done|]].
Ltac tights := open_lets; cbn [repeat take firstn]; repeat (apply Forall_cons; split); first [done|by apply ptr_part_tight|by apply array_part_tight|idtac].
(** Sizes of the two messages, and the fields of both. *)
Ltac start funcId pc ps pr ps' rc back :=
  let Hps := fresh "Hps" in let Hps' := fresh "Hps'" in let Hsz := fresh "Hsz" in let Hsz' := fresh "Hsz'" in
  assert (Hps' : fields_ok (pr false) ps') by parts;
  assert (Hsz' : forall t, size (msg_wire IrpcMsg_ProcResponse funcId t rc (pr false) ps') < 2 ^ 31) by (intros; message_size);
  assert (Hps : fields_ok (pc true) ps) by parts;
  assert (Hsz : size (msg_wire IrpcMsg_ProcRequest funcId (IpfClient_Trx server) ESIF_OK (pc true) ps) < 2 ^ 31) by message_size.
Ltac read_int i v pos := match goal with Hps : fields_ok ?fs ?ps |- context [msg_wire IrpcMsg_ProcRequest _ _ _ ?fs ?ps] =>
  rewrite (param_int _ _ _ _ _ _ Hps i _ v pos eq_refl) by first [done|unfold handle_ok in *; cbn; lia]; cbn [of_option]; unfold sbind at 1, sret at 1 end.

Lemma block_reads msgtype funcId t result fs ps i d pos : fields_ok fs ps -> size (msg_wire msgtype funcId t result fs ps) < 2 ^ 31 -> fs !! i = Some (DataPtr (Some d)) -> roomy d -> Forall tight (take i ps) -> pos = 38 + widths (take i fs) ->
  block_at true true (msg_wire msgtype funcId t result fs ps) pos = Some (Some (received d)).
Proof.
  intros Hf Hsz Hi [[Hs _] Hr] Ht Hpos. unfold block_at. rewrite (answer_reads _ _ _ _ _ _ i d pos Hf Hsz Hi Hs Ht Hpos). cbn [mbind option_bind]. rewrite bool_decide_false; [done|]. cbn. unfold received_buf. by rewrite (proj2 (Z.eqb_neq _ _)) by lia.
Qed.
Lemma answer_buffer d v funcId t rc fs ps i pos : fields_ok fs ps -> (forall t, size (msg_wire IrpcMsg_ProcResponse funcId t rc fs ps) < 2 ^ 31) -> fs !! i = Some (DataPtr (Some v)) -> fits_back d v -> Forall tight (take i ps) -> pos = 38 + widths (take i fs) ->
  get_int 4 (msg_wire IrpcMsg_ProcResponse funcId t rc fs ps) 34 = Some rc ->
  result_and_buffer true true (Some d) pos (msg_wire IrpcMsg_ProcResponse funcId t rc fs ps) = Some (Some rc, Some (written_into d v)).
Proof.
  intros Hf Hsz Hi Hv Ht Hpos H34. unfold result_and_buffer. rewrite (IrpcCall.answer_finish_ok d v rc _ pos Hv); [done| |done]. apply (answer_reads _ _ _ _ _ _ i v pos Hf (Hsz t) Hi); [apply Hv|done|done].
Qed.

(** The four texts. *)
Lemma get_text_runs funcId d sv x rc v s' h ah : is_string_function funcId = true -> roomy d -> volume (Some d) < 2 ^ 30 -> handle_ok (s_appHandle x) -> handle_ok ah ->
  (if funcId =? IrpcFunc_AppGetIntro then AppSessionMgr_GetSessionByHandle h else AppSessionMgr_GetSessionByName (d_buf d)) sv = Some (Some x, sv) ->
  AppSessionMgr_GetSessionByHandle (s_ipfHandle x) sv = Some (Some x, sv) -> AppSession_IsConnected (Some x) sv = Some (true, sv) ->
  0 <= rc < 2 ^ 32 -> fits_back d v -> d_data_len v < 2 ^ 30 ->
  (forall m, get_int 4 m 6 = Some funcId -> get_int 8 m 38 = Some (s_appHandle x) ->
    (if funcId =? IrpcFunc_AppGetName then let! r := invoke fAppGetNameFuncPtr (fun f => f (received d)) (ESIF_E_NOT_IMPLEMENTED, received d) in sret (ESIF_INVALID_HANDLE, r)
     else if funcId =? IrpcFunc_AppGetDescription then let! r := invoke fAppGetDescriptionFuncPtr (fun f => f (received d)) (ESIF_E_NOT_IMPLEMENTED, received d) in sret (ESIF_INVALID_HANDLE, r)
     else if funcId =? IrpcFunc_AppGetVersion then let! r := invoke fAppGetVersionFuncPtr (fun f => f (received d)) (ESIF_E_NOT_IMPLEMENTED, received d) in sret (ESIF_INVALID_HANDLE, r)
     else if funcId =? IrpcFunc_AppGetIntro then
       let! s := sget in
       if i_appHandle s.1 =? s_appHandle x then
         match fAppGetIntroFuncPtr with
         | Some f => let! r := in_app (f (s_appHandle x) (received d)) in sret (i_appHandle s.1, r)
         | None => sret (ESIF_INVALID_HANDLE, (ESIF_E_NOT_IMPLEMENTED, received d))
         end
       else sret (ESIF_INVALID_HANDLE, (ESIF_E_INVALID_HANDLE, received d))
     else sret (ESIF_INVALID_HANDLE, (ESIF_E_INVALID_REQUEST_TYPE, received d))) (sv_world sv) = Some ((ah, (rc, v)), s')) ->
  Irpc_Request_AppGetEsifData (over_app client) [] [] (Some (IpfClient_Trx server)) funcId (Some d) h sv = Some ((rc, Some (written_into d v)), mk_server (sv_sessions sv) (sv_started sv) s').
Proof.
  intros Hfn Hd Hvol Hx Hah Hfind Hfound Hconn Hrc Hback Hlen Hrun. pose proof (proj1 Hd) as Hg. pose proof (fb_sendable d v Hback) as Hsv. cbn [volume] in Hvol. assert (Hd' : good_opt (Some d)) by done. assert (Hsd : sendable d) by apply Hg.
  set (pc := fun _ : bool => [Int 8 (s_appHandle x); DataPtr (Some d)]). set (ps := [([], 0); ptr_part (Some d)]).
  set (pr := fun _ : bool => [Int 8 ah; DataPtr (Some v)]). set (ps' := [([], 0); ptr_part (Some v)]).
  start funcId pc ps pr ps' rc (Some v).
  unfold Irpc_Request_AppGetEsifData. rewrite (sbind_some _ _ _ _ _ Hfind), (sbind_some _ _ _ _ _ Hconn). rewrite !bool_decide_false by done.
  assert (Hfid : negb (funcId =? IrpcFunc_None) = true /\ 0 <= funcId < 2 ^ 32).
  { unfold is_string_function in Hfn. repeat (apply orb_prop in Hfn as [Hfn|Hfn]); apply Z.eqb_eq in Hfn; subst funcId; done. }
  destruct Hfid as [-> Hfid]. cbn [negb andb]. change (alloc [] 0) with true. change (alloc [] 1) with true. change (alloc [] 2) with true.
  eapply (app_call_ok client server sv x _ funcId t_result pc ps _ _ _ _ _ rc _ t_result pr ps' s' (Some (written_into d v))); try done; cbv beta.
  - intros H6. unfold Irpc_ProcessRequest, sbind at 1. rewrite H6. cbn [of_option sret]. unfold sret at 1.
    assert (E : (funcId =? IrpcFunc_AppGetName) || (funcId =? IrpcFunc_AppGetDescription) || (funcId =? IrpcFunc_AppGetVersion) = true \/ funcId = IrpcFunc_AppGetIntro).
    { unfold is_string_function in Hfn. apply orb_prop in Hfn as [->|Hfn]; [by left|right; by apply Z.eqb_eq]. }
    destruct E as [->| ->]; reflexivity.
  - change (alloc [] 2) with true. change (alloc [] 3) with true. rewrite (block_reads _ _ _ _ _ _ 1 d 46 Hps Hsz eq_refl Hd ltac:(by tights) eq_refl). cbn [of_option]. unfold sbind at 1, sret at 1.
    destruct (msg_header IrpcMsg_ProcRequest funcId (IpfClient_Trx server) ESIF_OK (pc true) ps Hps) as (_ & Q6 & _); [done|done|done|done|]. rewrite Q6. cbn [of_option]. unfold sbind at 1, sret at 1. 
    pose proof (param_int IrpcMsg_ProcRequest funcId (IpfClient_Trx server) ESIF_OK _ _ Hps 0 8 (s_appHandle x) 38 eq_refl ltac:(exact Hx) eq_refl) as Q38. rewrite Q38. cbn [of_option]. unfold sbind at 1, sret at 1.
    rewrite (sbind_some _ _ _ _ _ (Hrun _ Q6 Q38)). reflexivity.
  - intros H6 H34. rewrite H6. cbn [mbind option_bind]. rewrite Hfn. apply (answer_buffer d v funcId _ rc _ _ 1 46 Hps' Hsz' eq_refl Hback ltac:(by tights) eq_refl H34).
Qed.

(** A step of the application gives a result and a state. *)
Lemma buffer_result (m : SM (process A) (Z * EsifData)) s rc back s' : with_buffer m s = Some ((rc, back), s') -> exists v, back = Some v /\ m s = Some ((rc, v), s').
Proof. unfold with_buffer, sbind. destruct (m s) as [[[rc' v] s1]|]; [|done]. intros [= <- <- <-]. by exists v. Qed.
Lemma only_result (m : SM (process A) Z) s rc back s' : with_result_only m s = Some ((rc, back), s') -> back = None /\ m s = Some (rc, s').
Proof. unfold with_result_only, sbind. destruct (m s) as [[rc' s1]|]; [|done]. by intros [= <- <- <-]. Qed.

(** Choosing the branch of a function. *)
Ltac choose := repeat match goal with |- context [?a =? ?b] => first [change (a =? b) with true|change (a =? b) with false] end; cbn iota.

Lemma get_name_runs d : app_runs (AGetName d).
Proof.
  intros sv x h rc back s' Hd Hvol Hx Ha Hmay Hfind Hfound Hconn Hrc (v & -> & Hv & Hlen) Hrun. apply buffer_result in Hrun as (v' & [= <-] & Hrun).
  apply (get_text_runs IrpcFunc_AppGetName d sv x rc v s' ESIF_INVALID_HANDLE ESIF_INVALID_HANDLE); try done. intros m _ _. choose. by rewrite (sbind_some _ _ _ _ _ Hrun).
Qed.
Lemma get_description_runs d : app_runs (AGetDescription d).
Proof.
  intros sv x h rc back s' Hd Hvol Hx Ha Hmay Hfind Hfound Hconn Hrc (v & -> & Hv & Hlen) Hrun. apply buffer_result in Hrun as (v' & [= <-] & Hrun).
  apply (get_text_runs IrpcFunc_AppGetDescription d sv x rc v s' ESIF_INVALID_HANDLE ESIF_INVALID_HANDLE); try done. intros m _ _. choose. by rewrite (sbind_some _ _ _ _ _ Hrun).
Qed.
Lemma get_version_runs d : app_runs (AGetVersion d).
Proof.
  intros sv x h rc back s' Hd Hvol Hx Ha Hmay Hfind Hfound Hconn Hrc (v & -> & Hv & Hlen) Hrun. apply buffer_result in Hrun as (v' & [= <-] & Hrun).
  apply (get_text_runs IrpcFunc_AppGetVersion d sv x rc v s' ESIF_INVALID_HANDLE ESIF_INVALID_HANDLE); try done. intros m _ _. choose. by rewrite (sbind_some _ _ _ _ _ Hrun).
Qed.
Lemma get_intro_runs d : app_runs (AGetIntro d).
Proof.
  intros sv x h rc back s' Hd Hvol Hx Ha [Hne Hmay] Hfind Hfound Hconn Hrc (v & -> & Hv & Hlen) Hrun. apply buffer_result in Hrun as (v' & [= <-] & Hrun).
  apply (get_text_runs IrpcFunc_AppGetIntro d sv x rc v s' h (if there fAppGetIntroFuncPtr then s_appHandle x else ESIF_INVALID_HANDLE)); try done; [by destruct (there _)|]. intros m _ _. choose. unfold sbind at 1, sget.
  cbv beta iota. unfold process in *. rewrite <- Hmay, Z.eqb_refl. rewrite <- Hmay in Hrun. unfold invoke in Hrun. destruct fAppGetIntroFuncPtr as [f|]; cbn [there].
  - by rewrite (sbind_some _ _ _ _ _ Hrun).
  - by injection Hrun as <- <- <-.
Qed.

(** The steps that are the same for all other calls. *)
Ltac looked_up := match goal with Hfind : session_for _ _ ?sv = Some (Some ?x, ?sv) |- _ => rewrite (sbind_some _ _ _ _ _ (Hfind : AppSessionMgr_GetSessionByHandle _ sv = Some (Some x, sv))) end.
Ltac call fid result result_a pc ps pr ps' rc o :=
  eapply (app_call_ok client server _ _ _ fid result pc ps _ _ _ _ _ rc _ result_a pr ps' _ o); try done; cbv beta.
Ltac dispatch := let H6 := fresh in intros H6; unfold Irpc_ProcessRequest, sbind at 1; rewrite H6; cbn [of_option sret]; reflexivity.
(** The handle is that of the application. *)
Lemma for_handle_ok {T} (a : Z) (call : Z -> SM (process A) (Z * T)) otherwise s : i_appHandle s.1 = a -> for_handle a call otherwise s = call a s.
Proof. intros Ha. unfold for_handle, sbind at 1, sget. by rewrite Ha, Z.eqb_refl. Qed.
Lemma session_created x a : a <> ESIF_INVALID_HANDLE -> s_appHandle x = a -> created x = true.
Proof. intros Ha <-. unfold created. by rewrite (proj2 (Z.eqb_neq _ _)). Qed.

Lemma get_status_runs command n d : app_runs (AGetStatus command n d).
Proof.
  intros sv x h rc back s' (Hc & Hn & Hd) Hvol Hx Ha [Hne Hmay] Hfind Hfound Hconn Hrc (v & -> & Hv & Hlen) Hrun. apply buffer_result in Hrun as (v' & [= <-] & Hrun). pose proof (fb_sendable d v Hv) as Hsv. cbn [app_call_volume] in Hvol.
  assert (Hd' : good_opt (Some d)) by apply Hd. assert (Hsd : sendable d) by apply Hd. rewrite <- Hmay in *.
  set (pc := fun _ : bool => [Int 8 (s_appHandle x); Int 4 command; Int 4 n; DataPtr (Some d)]). set (ps := [([], 0); ([], 0); ([], 0); ptr_part (Some d)]).
  set (pr := fun _ : bool => [Int 8 (s_appHandle x); Int 4 command; Int 4 n; DataPtr (Some v)]). set (ps' := [([], 0); ([], 0); ([], 0); ptr_part (Some v)]).
  start IrpcFunc_AppGetStatus pc ps pr ps' rc (Some v).
  cbn [remote_app_call]. unfold Irpc_Request_AppGetStatus. looked_up. call IrpcFunc_AppGetStatus t_result t_result pc ps pr ps' rc (Some (written_into d v)).
  - by rewrite (session_created x _ Hne eq_refl), bool_decide_false.
  - change (alloc [] 2) with true. change (alloc [] 3) with true. rewrite (block_reads _ _ _ _ _ _ 3 d 54 Hps Hsz eq_refl Hd ltac:(by tights) eq_refl). cbn [of_option]. unfold sbind at 1, sret at 1.
    read_int 0%nat (s_appHandle x) 38. read_int 1%nat command 46. read_int 2%nat n 50. unfold sbind at 1. rewrite (for_handle_ok _ _ _ _ (eq_sym Hmay)). rewrite Hrun. reflexivity.
  - intros H6 H34. unfold for_function. rewrite H6. cbn [mbind option_bind]. rewrite Z.eqb_refl. apply (answer_buffer d v _ _ rc _ _ 3 54 Hps' Hsz' eq_refl Hv ltac:(by tights) eq_refl H34).
Qed.

(** The calls with a result alone. *)
Lemma plain_ok sv x h may funcId encode pc ps handle rc encode_a pr ps' s' :
  let mq := msg_wire IrpcMsg_ProcRequest funcId (IpfClient_Trx server) ESIF_OK (pc true) ps in
  AppSessionMgr_GetSessionByHandle h sv = Some (Some x, sv) -> AppSessionMgr_GetSessionByHandle (s_ipfHandle x) sv = Some (Some x, sv) -> AppSession_IsConnected (Some x) sv = Some (true, sv) -> may x = true ->
  0 <= funcId < 2 ^ 32 -> 0 <= rc < 2 ^ 32 ->
  (forall t, encode x t = encode_function [] t funcId ESIF_OK pc) -> fields_ok (pc true) ps -> size mq < 2 ^ 31 ->
  (get_int 4 mq 6 = Some funcId -> Irpc_ProcessRequest [] [] true client mq (sv_world sv) = Irpc_Response [] [] client mq handle (sv_world sv)) ->
  handle (sv_world sv) = Some (Some (rc, encode_a), s') -> (forall t, encode_a t = encode_function [] t funcId ESIF_OK pr) -> fields_ok (pr false) ps' ->
  (forall t, size (msg_wire IrpcMsg_ProcResponse funcId t rc (pr false) ps') < 2 ^ 31) ->
  plain_request (over_app client) [] (Some (IpfClient_Trx server)) h may funcId encode sv = Some (rc, mk_server (sv_sessions sv) (sv_started sv) s').
Proof.
  intros mq Hfind Hfound Hconn Hmay Hfid Hrc Henc Hps Hmq Hdisp Hh Henca Hps' Hmr. unfold plain_request. rewrite (sbind_some _ _ _ _ _ Hfind). change (alloc [] 0) with true.
  erewrite sbind_some; [|eapply (app_call_ok client server sv x encode funcId (fun _ => ESIF_OK) pc ps may _ _ _ handle rc encode_a (fun _ => ESIF_OK) pr ps' s' tt); try done].
  - done.
  - intros H6 H34. unfold for_function, just_result. rewrite H6. cbn [mbind option_bind]. rewrite Z.eqb_refl, H34. done.
Qed.

(** Parameters as the handlers read them. *)
Lemma in_app_result {F T} (f : option F) (run : F -> SM A T) otherwise s : invoke f run otherwise s = match f with Some g => in_app (run g) s | None => Some (otherwise, s) end.
Proof. by destruct f. Qed.
Lemma result_of_ok {F} (f : option F) (run : F -> SM A Z) s rc s' : invoke f run ESIF_E_NOT_IMPLEMENTED s = Some (rc, s') -> result_of f run s = Some ((rc, tt), s').
Proof. intros Hr. unfold result_of. by rewrite (sbind_some _ _ _ _ _ Hr). Qed.
Lemma plain_result (m : SM (Server (process A)) Z) sv rc sv' : m sv = Some (rc, sv') -> (let! rc := m in sret (rc, @None EsifData)) sv = Some ((rc, None), sv').
Proof. intros Hm. by rewrite (sbind_some _ _ _ _ _ Hm). Qed.

Ltac plain_call may pc ps pr ps' rc :=
  cbn [remote_app_call app_given written_back session_left]; apply plain_result;
  eapply (plain_ok _ _ _ may _ _ pc ps _ rc _ pr ps'); try done; cbv beta.

Lemma participant_destroy_runs p : app_runs (AParticipantDestroy p).
Proof.
  intros sv x h rc back s' Hp Hvol Hx Ha [Hne Hmay] Hfind Hfound Hconn Hrc Hback Hrun. cbn in Hback. subst back. apply only_result in Hrun as [_ Hrun]. cbn in Hp. rewrite <- Hmay in *.
  set (pc := fun _ : bool => [Int 8 (s_appHandle x); Int 8 p]). set (ps := [([] : list Z, 0); ([], 0)]).
  start IrpcFunc_AppParticipantDestroy pc ps pc ps rc (@None EsifData).
  plain_call created pc ps pc ps rc.
  - by apply (session_created x _ Hne).
  - read_int 0%nat (s_appHandle x) 38. read_int 1%nat p 46. unfold sbind at 1. rewrite (for_handle_ok _ _ _ _ (eq_sym Hmay)), (result_of_ok _ _ _ _ _ Hrun). reflexivity.
Qed.
Lemma domain_destroy_runs p dm : app_runs (ADomainDestroy p dm).
Proof.
  intros sv x h rc back s' [Hp Hdm] Hvol Hx Ha [Hne Hmay] Hfind Hfound Hconn Hrc Hback Hrun. cbn in Hback. subst back. apply only_result in Hrun as [_ Hrun]. rewrite <- Hmay in *.
  set (pc := fun _ : bool => [Int 8 (s_appHandle x); Int 8 p; Int 8 dm]). set (ps := [([] : list Z, 0); ([], 0); ([], 0)]).
  start IrpcFunc_AppDomainDestroy pc ps pc ps rc (@None EsifData).
  plain_call created pc ps pc ps rc.
  - by apply (session_created x _ Hne).
  - read_int 0%nat (s_appHandle x) 38. read_int 1%nat p 46. read_int 2%nat dm 54. unfold sbind at 1. rewrite (for_handle_ok _ _ _ _ (eq_sym Hmay)), (result_of_ok _ _ _ _ _ Hrun). reflexivity.
Qed.

(** An object behind an offset is decoded from there. *)
Lemma obj_reads {T} (decode : list Z -> Z -> option T) msgtype funcId t result fs ps i o p n r pos : fields_ok fs ps -> size (msg_wire msgtype funcId t result fs ps) < 2 ^ 31 -> fs !! i = Some (ObjPtr (Some o)) -> ps !! i = Some (p, n) -> Forall tight (take i ps) -> pos = 38 + widths (take i fs) ->
  (forall a c, decode (a ++ p ++ c) (size a) = Some r) ->
  exists off, get_int 4 (msg_wire msgtype funcId t result fs ps) pos = Some off /\ decode (msg_wire msgtype funcId t result fs ps) (pos + 4 + off) = Some r.
Proof.
  intros Hf Hsz Hi Hp Ht Hpos Hr. destruct (param_obj _ _ _ _ _ _ i o p n pos Hf Hsz Hi Hp Ht Hpos) as (off & a & c & Eo & Ew & Ha). exists off. split; [done|]. by rewrite <- Ha, Ew.
Qed.
Lemma participant_create_runs p d st : app_runs (AParticipantCreate p d st).
Proof.
  intros sv x h rc back s' (Hp & Hd & Hst) Hvol Hx Ha [Hne Hmay] Hfind Hfound Hconn Hrc Hback Hrun. cbn in Hback. subst back. apply only_result in Hrun as [_ Hrun]. cbn [app_call_volume] in Hvol. rewrite <- Hmay in *.
  assert (Henc : appends (Irpc_Encode_AppParticipantData d) true (participant_wire d)) by (apply (participant_arrives d [] []); [done|lia]).
  assert (Hdec : forall a c, Irpc_Decode_AppParticipantData true [] (a ++ participant_wire d ++ c) (size a) = Some (Some (received_participant d))) by (intros a c; apply participant_arrives; [done|lia]).
  set (pc := fun request : bool => [Int 8 (s_appHandle x); Int 8 p; ObjPtr (option_map Irpc_Encode_AppParticipantData (const request (Some d))); Int 4 st]). set (ps := [([] : list Z, 0); ([], 0); (participant_wire d, size (participant_wire d)); ([], 0)]).
  set (pr := fun request : bool => [Int 8 (s_appHandle x); Int 8 p; ObjPtr (option_map Irpc_Encode_AppParticipantData (const request None)); Int 4 st]). set (ps' := repeat ([] : list Z, 0) 4).
  start IrpcFunc_AppParticipantCreate pc ps pr ps' rc (@None EsifData).
  plain_call (fun x => created x && negb (bool_decide (Some d = None))) pc ps pr ps' rc.
  - by rewrite (session_created x _ Hne eq_refl), bool_decide_false.
  - read_int 0%nat (s_appHandle x) 38. read_int 1%nat p 46. read_int 3%nat st 58. unfold sbind at 1. rewrite (for_handle_ok _ _ _ _ (eq_sym Hmay)). unfold invoke in Hrun. destruct fParticipantCreateFuncPtr as [f|]; [|by injection Hrun as <- <-].
    destruct (obj_reads (Irpc_Decode_AppParticipantData true []) _ _ _ _ _ _ 2 _ _ _ _ 54 Hps Hsz eq_refl eq_refl ltac:(by tights) eq_refl Hdec) as (off & Eo & Ed). rewrite Eo. cbn [of_option]. unfold sbind at 1, sret at 1. change (drop 2 (@nil bool)) with (@nil bool). change (54 + 4) with 58 in Ed. rewrite Ed. cbn [of_option]. unfold sbind at 1, sret at 1.
    by rewrite (sbind_some _ _ _ _ _ Hrun).
Qed.
Lemma domain_create_runs p dm d st : app_runs (ADomainCreate p dm d st).
Proof.
  intros sv x h rc back s' (Hp & Hdm & Hd & Hst) Hvol Hx Ha [Hne Hmay] Hfind Hfound Hconn Hrc Hback Hrun. cbn in Hback. subst back. apply only_result in Hrun as [_ Hrun]. cbn [app_call_volume] in Hvol. rewrite <- Hmay in *.
  assert (Henc : appends (Irpc_Encode_AppDomainData d) true (domain_wire d)) by (apply (domain_arrives d [] []); [done|lia]).
  assert (Hdec : forall a c, Irpc_Decode_AppDomainData true [] (a ++ domain_wire d ++ c) (size a) = Some (Some (received_domain d))) by (intros a c; apply domain_arrives; [done|lia]).
  set (pc := fun request : bool => [Int 8 (s_appHandle x); Int 8 p; Int 8 dm; ObjPtr (option_map Irpc_Encode_AppDomainData (const request (Some d))); Int 4 st]). set (ps := [([] : list Z, 0); ([], 0); ([], 0); (domain_wire d, size (domain_wire d)); ([], 0)]).
  set (pr := fun request : bool => [Int 8 (s_appHandle x); Int 8 p; Int 8 dm; ObjPtr (option_map Irpc_Encode_AppDomainData (const request None)); Int 4 st]). set (ps' := repeat ([] : list Z, 0) 5).
  start IrpcFunc_AppDomainCreate pc ps pr ps' rc (@None EsifData).
  plain_call (fun x => created x && negb (bool_decide (Some d = None))) pc ps pr ps' rc.
  - by rewrite (session_created x _ Hne eq_refl), bool_decide_false.
  - read_int 0%nat (s_appHandle x) 38. read_int 1%nat p 46. read_int 2%nat dm 54. read_int 4%nat st 66. unfold sbind at 1. rewrite (for_handle_ok _ _ _ _ (eq_sym Hmay)). unfold invoke in Hrun. destruct fDomainCreateFuncPtr as [f|]; [|by injection Hrun as <- <-].
    destruct (obj_reads (Irpc_Decode_AppDomainData true []) _ _ _ _ _ _ 3 _ _ _ _ 62 Hps Hsz eq_refl eq_refl ltac:(by tights) eq_refl Hdec) as (off & Eo & Ed). rewrite Eo. cbn [of_option]. unfold sbind at 1, sret at 1. change (drop 2 (@nil bool)) with (@nil bool). change (62 + 4) with 66 in Ed. rewrite Ed. cbn [of_option]. unfold sbind at 1, sret at 1.
    by rewrite (sbind_some _ _ _ _ _ Hrun).
Qed.

(** Events: a block that is NULL stays so. *)
Lemma opt_reads msgtype funcId t result fs ps i d pos : fields_ok fs ps -> size (msg_wire msgtype funcId t result fs ps) < 2 ^ 31 -> fs !! i = Some (DataPtr d) -> good_opt d -> Forall tight (take i ps) -> pos = 38 + widths (take i fs) ->
  Irpc_Deserialize_EsifDataPtr true true None (msg_wire msgtype funcId t result fs ps) pos (pos + 4) = Some (received <$> d).
Proof.
  intros Hf Hsz Hi Hd Ht Hpos. destruct d as [d|]; [exact (answer_reads _ _ _ _ _ _ i d pos Hf Hsz Hi (proj1 Hd) Ht Hpos)|]. by rewrite (param_null msgtype funcId t result fs ps Hf i true true None pos Hi Hpos).
Qed.
Lemma event_runs p dm d g : app_runs (AEvent p dm d g).
Proof.
  intros sv x h rc back s' (Hp & Hdm & Hd & Hg) Hvol Hx Ha [Hne Hmay] Hfind Hfound Hconn Hrc Hback Hrun. cbn in Hback. subst back. apply only_result in Hrun as [_ Hrun]. cbn [app_call_volume] in Hvol. set (a := i_appHandle (sv_world sv).1) in *.
  set (pc := fun request : bool => [Int 8 (s_appHandle x); Int 8 p; Int 8 dm; DataPtr (const request d); DataPtr (const request g)]). set (ps := [([] : list Z, 0); ([], 0); ([], 0); ptr_part d; ptr_part g]).
  set (pr := fun request : bool => [Int 8 a; Int 8 p; Int 8 dm; DataPtr (@const request EsifData None); DataPtr (@const request EsifData None)]). set (ps' := repeat ([] : list Z, 0) 5).
  start IrpcFunc_AppEvent pc ps pr ps' rc (@None EsifData).
  plain_call (fun _ : Session => true) pc ps pr ps' rc.
  - intros H6. unfold Irpc_ProcessRequest, sbind at 1. rewrite H6. cbn [of_option sret]. unfold sret at 1. choose. cbn [orb]. unfold Irpc_Response_AppEvent, sbind at 1, sget. cbv beta iota zeta. change (i_appHandle _) with a. rewrite (proj2 (Z.eqb_neq _ _)) by done. reflexivity.
  - read_int 0%nat (s_appHandle x) 38. read_int 1%nat p 46. read_int 2%nat dm 54. change (i_appHandle _) with a.
    assert (E : negb (a =? s_appHandle x) && negb (s_appHandle x =? ESIF_INVALID_HANDLE) = false) by (destruct Hmay as [->| ->]; rewrite Z.eqb_refl; cbn; by rewrite ?andb_false_r). rewrite E.
    destruct fAppEventFuncPtr as [f|]; [|by injection Hrun as <- <-].
    pose proof (opt_reads _ _ _ _ _ _ 3 d 62 Hps Hsz eq_refl Hd ltac:(by tights) eq_refl) as Ed. pose proof (opt_reads _ _ _ _ _ _ 4 g 66 Hps Hsz eq_refl Hg ltac:(by tights) eq_refl) as Eg. change (62 + 4) with 66 in Ed. change (66 + 4) with 70 in Eg.
    change (alloc [] 2) with true. change (alloc [] 3) with true. change (alloc [] 4) with true. change (alloc [] 5) with true. rewrite Ed, Eg. cbn [of_option]. erewrite sbind_some; [|exact Hrun]. reflexivity.
Qed.

(** Destroying, suspending and resuming. *)
Lemma handle_runs funcId sv x h rc s' :
  (funcId =? IrpcFunc_AppDestroy) || (funcId =? IrpcFunc_AppSuspend) || (funcId =? IrpcFunc_AppResume) = true ->
  handle_ok (s_appHandle x) -> s_appHandle x <> ESIF_INVALID_HANDLE -> s_appHandle x = i_appHandle (sv_world sv).1 ->
  AppSessionMgr_GetSessionByHandle h sv = Some (Some x, sv) -> AppSessionMgr_GetSessionByHandle (s_ipfHandle x) sv = Some (Some x, sv) -> AppSession_IsConnected (Some x) sv = Some (true, sv) -> 0 <= rc < 2 ^ 32 ->
  (let! rc := if funcId =? IrpcFunc_AppDestroy then invoke fAppDestroyFuncPtr (fun f => f (s_appHandle x)) ESIF_E_NOT_IMPLEMENTED
              else if funcId =? IrpcFunc_AppSuspend then invoke fAppSuspendFuncPtr (fun f => f (s_appHandle x)) ESIF_E_NOT_IMPLEMENTED
              else invoke fAppResumeFuncPtr (fun f => f (s_appHandle x)) ESIF_E_NOT_IMPLEMENTED in
   (if funcId =? IrpcFunc_AppDestroy then on_session (with_handles ESIF_INVALID_HANDLE ESIF_INVALID_HANDLE) else sret tt) ;! sret rc) (sv_world sv) = Some (rc, s') ->
  Irpc_Request_AppHandle (over_app client) [] [] (Some (IpfClient_Trx server)) funcId h sv =
    Some (rc, mk_server (if (rc =? ESIF_OK) && (funcId =? IrpcFunc_AppDestroy) then map (option_map (fun y => if s_ipfHandle y =? s_ipfHandle x then AppSession_disconnected y else y)) (sv_sessions sv) else sv_sessions sv) (sv_started sv) s').
Proof.
  intros Hfn Hx Hne Hmay Hfind Hfound Hconn Hrc Hrun. assert (Hfid : 0 <= funcId < 2 ^ 32) by (repeat (apply orb_prop in Hfn as [Hfn|Hfn]); apply Z.eqb_eq in Hfn; by subst).
  assert (Hdisp : forall m s, get_int 4 m 6 = Some funcId -> Irpc_ProcessRequest [] [] true client m s = Irpc_Response_AppHandle [] [] client funcId m s).
  { intros m s H6. unfold Irpc_ProcessRequest, sbind at 1. rewrite H6. cbn [of_option sret]. unfold sret at 1. repeat (apply orb_prop in Hfn as [Hfn|Hfn]); apply Z.eqb_eq in Hfn; by subst funcId. }
  set (pc := fun _ : bool => [Int 8 (s_appHandle x)]). set (ps := [([] : list Z, 0)]).
  start funcId pc ps pc ps rc (@None EsifData).
  unfold Irpc_Request_AppHandle. rewrite (sbind_some _ _ _ _ _ Hfind). change (alloc [] 0) with true.
  erewrite sbind_some; [|eapply (app_call_ok client server sv x _ funcId (fun _ => ESIF_OK) pc ps created _ _ _ _ rc _ (fun _ => ESIF_OK) pc ps s' (rc =? ESIF_OK)); try done; cbv beta].
  - cbn [fst snd]. destruct (_ && _); done.
  - by apply (session_created x _ Hne).
  - intros H6. rewrite (Hdisp _ _ H6). reflexivity.
  - read_int 0%nat (s_appHandle x) 38. unfold sbind at 1, sget. unfold sbind at 1. rewrite (for_handle_ok _ _ _ _ (eq_sym Hmay)). cbv beta. unfold process in *. rewrite <- Hmay.
    unfold sbind at 1 in Hrun. repeat (apply orb_prop in Hfn as [Hfn|Hfn]); apply Z.eqb_eq in Hfn; subst funcId; unfold result_of, sbind in *; cbn in Hrun |- *.
    all: destruct (invoke _ _ _ _) as [[rc' s1]|]; [|done].
    all: unfold on_session, smodify, sret in *; by injection Hrun as <- <-.
  - intros H6 H34. unfold for_function. rewrite H6. cbn [mbind option_bind]. rewrite Z.eqb_refl, H34. done.
Qed.
Lemma destroy_runs : app_runs ADestroy.
Proof.
  intros sv x h rc back s' _ _ Hx Ha [Hne Hmay] Hfind Hfound Hconn Hrc Hback Hrun. cbn in Hback. subst back. apply only_result in Hrun as [_ Hrun]. rewrite <- Hmay in *. cbn [remote_app_call app_given written_back]. apply plain_result.
  unfold Irpc_Request_AppDestroy. rewrite (handle_runs IrpcFunc_AppDestroy sv x h rc s') by done. choose. cbn [session_left]. by rewrite andb_true_r.
Qed.
Lemma suspend_runs : app_runs ASuspend.
Proof.
  intros sv x h rc back s' _ _ Hx Ha [Hne Hmay] Hfind Hfound Hconn Hrc Hback Hrun. cbn in Hback. subst back. apply only_result in Hrun as [_ Hrun]. rewrite <- Hmay in *. cbn [remote_app_call app_given written_back]. apply plain_result.
  unfold Irpc_Request_AppSuspend. rewrite (handle_runs IrpcFunc_AppSuspend sv x h rc s'); try done; [choose; by rewrite andb_false_r|]. choose. by rewrite (sbind_some _ _ _ _ _ Hrun).
Qed.
Lemma resume_runs : app_runs AResume.
Proof.
  intros sv x h rc back s' _ _ Hx Ha [Hne Hmay] Hfind Hfound Hconn Hrc Hback Hrun. cbn in Hback. subst back. apply only_result in Hrun as [_ Hrun]. rewrite <- Hmay in *. cbn [remote_app_call app_given written_back]. apply plain_result.
  unfold Irpc_Request_AppResume. rewrite (handle_runs IrpcFunc_AppResume sv x h rc s'); try done; [choose; by rewrite andb_false_r|]. choose. by rewrite (sbind_some _ _ _ _ _ Hrun).
Qed.

(** Commands. *)
Lemma command_runs argv d : app_runs (ACommand argv d).
Proof.
  intros sv x h rc back s' (Hargc & Hl & Hd) Hvol Hx Ha [Hne Hmay] Hfind Hfound Hconn Hrc (v & -> & Hv & Hlen) Hrun. apply buffer_result in Hrun as (v' & [= <-] & Hrun). pose proof (fb_sendable d v Hv) as Hsv. cbn [app_call_volume] in Hvol.
  set (argc := Z.of_nat (length argv)) in *. assert (Hd' : good_opt (Some d)) by apply Hd. assert (Hsd : sendable d) by apply Hd. rewrite <- Hmay in *. pose proof (array_part_size argv Hl) as Hsize.
  assert (Hsent : array_sent argc (Some argv) = true) by (unfold array_sent; by rewrite (proj2 (Z.eqb_neq _ _)), (proj2 (Z.ltb_lt _ _)) by lia).
  set (pc := fun request => [Int 8 (s_appHandle x); argc_field argc (const request (Some argv)); DataArray argc (const request (Some argv)); DataPtr (Some d)]). set (ps := [([], 0); ([], 0); (concat (map item argv), items_count argv); ptr_part (Some d)]).
  set (pr := fun request => [Int 8 (s_appHandle x); argc_field 0 (@const request (list EsifData) None); DataArray 0 (@const request (list EsifData) None); DataPtr (Some v)]). set (ps' := [([], 0); ([], 0); ([], 0); ptr_part (Some v)]).
  start IrpcFunc_AppCommand pc ps pr ps' rc (Some v).
  cbn [remote_app_call]. unfold Irpc_Request_AppCommand. fold argc. looked_up. call IrpcFunc_AppCommand t_result t_result pc ps pr ps' rc (Some (written_into d v)).
  - rewrite (session_created x _ Hne eq_refl), (proj2 (Z.eqb_neq _ _)) by lia. by rewrite !bool_decide_false.
  - assert (Hi : pc true !! 1%nat = Some (Int 4 argc)) by (unfold pc, argc_field, const; cbn iota; by rewrite Hsent).
    rewrite (param_int _ _ _ _ _ _ Hps 1 4 argc 46 Hi) by (done || (unfold IRPC_MAXARRAY in Hargc; cbn; lia)). cbn [of_option]. unfold sbind at 1, sret at 1.
    pose proof (array_reads _ _ _ _ _ _ 2 argc argv 50 Hps Hsz eq_refl Hsent eq_refl Hl ltac:(by tights) eq_refl) as Ea. change (50 + 4) with 54 in Ea.
    change (drop 5 (@nil bool)) with (@nil bool). change (alloc [] 2) with true. change (alloc [] 3) with true. change (alloc [] 4) with true. rewrite Ea. cbn [of_option]. unfold sbind at 1, sret at 1.
    rewrite (block_reads _ _ _ _ _ _ 3 d 54 Hps Hsz eq_refl Hd ltac:(by tights) eq_refl). cbn [of_option]. unfold sbind at 1, sret at 1. read_int 0%nat (s_appHandle x) 38.
    unfold sbind at 1. rewrite (for_handle_ok _ _ _ _ (eq_sym Hmay)). cbv beta. rewrite (proj2 (Z.ltb_lt _ _)) by lia. fold argc in Hrun. rewrite Hrun. reflexivity.
  - intros H6 H34. unfold for_function. rewrite H6. cbn [mbind option_bind]. rewrite Z.eqb_refl. apply (answer_buffer d v _ _ rc _ _ 3 54 Hps' Hsz' eq_refl Hv ltac:(by tights) eq_refl H34).
Qed.

(** Every call. *)
Lemma every_app_call_runs c : app_runs c.
Proof.
  destruct c; [apply get_name_runs|apply get_description_runs|apply get_version_runs|apply get_intro_runs|apply destroy_runs|apply suspend_runs|apply resume_runs|apply command_runs|apply get_status_runs
    |apply participant_create_runs|apply participant_destroy_runs|apply domain_create_runs|apply domain_destroy_runs|apply event_runs].
Qed.
End Calls.

(* ------------------------------------------------------------------ *)
(** ** What a call of an application is *)

(** A session that is found is in the table. *)
Lemma first_session_in test x l : first_session test l = Some (Some x) -> Some x ∈ l.
Proof.
  induction l as [|[y|] l IH]; cbn [first_session]; [done| |intros E; right; by apply IH]. destruct (test y) as [[]|]; [intros [= ->]; left|intros E; right; by apply IH|done].
Qed.
Lemma session_for_in {A} `{IpfApp A} h c (sv : Server (process A)) x : session_for h c sv = Some (Some x, sv) -> Some x ∈ sv_sessions sv.
Proof.
  assert (Hh : AppSessionMgr_GetSessionByHandle h sv = Some (Some x, sv) -> Some x ∈ sv_sessions sv).
  { unfold AppSessionMgr_GetSessionByHandle, sbind, sget. destruct (_ =? _); [done|]. destruct (first_session _ _) as [o|] eqn:E; [|done]. intros [= ->]. by apply first_session_in in E. }
  assert (Hn : forall m, AppSessionMgr_GetSessionByName m sv = Some (Some x, sv) -> Some x ∈ sv_sessions sv).
  { intros [m|]; [|done]. unfold AppSessionMgr_GetSessionByName, sbind, sget. destruct (head m) as [c'|]; [|done]. cbn [of_option]. unfold sret. destruct (_ =? _); [done|]. destruct (first_session _ _) as [o|] eqn:E; [|done]. intros [= ->]. by apply first_session_in in E. }
  destruct c; first [exact Hh|exact (Hn _)].
Qed.

(** The same session by its name, after a write to it that leaves its name and its handle. *)
Lemma first_session_map test g l : (forall x, test (g x) = test x) -> first_session test (map (option_map g) l) = option_map (option_map g) (first_session test l).
Proof. intros Hg. induction l as [|[x|] l IH]; cbn [first_session map option_map]; [done| |done]. rewrite Hg. destruct (test x) as [[]|]; [done|done|done]. Qed.
Lemma by_name_after {O} (sv : Server O) name x f : AppSessionMgr_GetSessionByName name sv = Some (Some x, sv) -> (forall y, s_esifName (f y) = s_esifName y) -> (forall y, s_ipfHandle (f y) = s_ipfHandle y) ->
  let sv' := mk_server (map (option_map (fun y => if s_ipfHandle y =? s_ipfHandle x then f y else y)) (sv_sessions sv)) (sv_started sv) (sv_world sv) in
  AppSessionMgr_GetSessionByName name sv' = Some (Some (f x), sv').
Proof.
  intros E Hn Hh sv'. destruct name as [b|]; [|done]. unfold AppSessionMgr_GetSessionByName, sbind, sget in *. destruct (head b) as [c|]; [|done]. cbn [of_option] in *. unfold sret in *. destruct (c =? 0); [done|].
  cbn [sv_sessions sv']. rewrite first_session_map.
  - destruct (first_session _ (sv_sessions sv)) as [o|] eqn:Eo; [|done]. cbn [of_option] in E. unfold sret in E. injection E as ->. cbn [option_map of_option]. by rewrite Z.eqb_refl.
  - intros y. destruct (s_ipfHandle y =? s_ipfHandle x); [|done]. by rewrite Hn, Hh.
Qed.

(** The table after the call: what is left of the session [h], and the others as they were. *)
Definition with_left (left : option Session) (h : Z) (m : gmap Z Session) : gmap Z Session := match left with Some y => <[h := y]> m | None => delete h m end.
Record settled {O} (sv : Server O) (m : gmap Z Session) (started : bool) (world : O) : Prop := {
  st_table : table_is (sv_sessions sv) m; st_started : sv_started sv = started; st_world : sv_world sv = world
}.
Lemma update_left {O} (sv : Server O) left h m b w f : settled sv (with_left left h m) b w -> (forall y, s_ipfHandle (f y) = s_ipfHandle y) ->
  exists sv', update_session h f sv = Some (tt, sv') /\ settled sv' (with_left (f <$> left) h m) b w.
Proof.
  intros [Ht Hs Hw] Hf. eexists. split; [reflexivity|]. split; [|done|done]. pose proof (update_table _ _ h f Ht Hf) as Hu. cbn [sv_sessions]. destruct left as [y|]; cbn [with_left fmap option_fmap option_map] in *.
  - replace (<[h := f y]> m) with (alter f h (<[h := y]> m)); [done|]. apply map_eq. intros k. destruct (decide (k = h)) as [->|]; [by rewrite lookup_alter_eq, !lookup_insert_eq|by rewrite lookup_alter_ne, !lookup_insert_ne].
  - rewrite alter_id in Hu; [done|]. intros y Hy. by rewrite lookup_delete_eq in Hy.
Qed.
Lemma close_left {O} (sv : Server O) y h m b w : settled sv (with_left (Some y) h m) b w -> exists sv', IpfClient_Close h sv = Some (ESIF_OK, sv') /\ settled sv' (delete h m) b w.
Proof.
  intros [Ht Hs Hw]. cbn [with_left] in Ht. assert (E : <[h := y]> m !! h = Some y) by apply lookup_insert_eq. pose proof (proj1 (ti_known _ _ Ht _ _) E) as [Hin Eh]. pose proof (ti_valid _ _ Ht _ Hin) as Hne. rewrite Eh in Hne.
  destruct (table_step sv _ (Close h) Ht) as (sv' & Ec & Ht' & _). cbn [on_map do_table fst snd] in *. rewrite E, delete_insert_eq in *. unfold sbind at 1 in Ec. destruct (IpfClient_Close h sv) as [[rc sv1]|] eqn:E1; [|done]. unfold sret in Ec. injection Ec as -> ->.
  exists sv'. split; [done|]. split; [done| |]; revert E1; unfold IpfClient_Close, sbind at 1 2; rewrite (get_session_ok sv _ h Ht), E; unfold AppSessionMgr_DeleteSession; rewrite (proj2 (Z.eqb_neq _ _)) by done; intros [= <-]; done.
Qed.

Section Renaming.
Context {O : Type} `{IpfEsif O}.
(** What ESIF answers when it is asked to give the application the name: the result, and
    whether the session is to be closed. *)
Definition renaming (esifName : list Z) (newName : option (list Z)) : SM O (Z * bool) :=
  match newName with
  | None => sret (ESIF_E_INVALID_HANDLE, false)
  | Some b =>
      let! c := of_option (head b) in
      if c =? 0 then sret (ESIF_E_INVALID_HANDLE, false)
      else
        let! name := of_option (esif_ccb_strcpy ESIF_NAME_LEN b) in
        let! w := sget in
        match fSendCommand with
        | Some f =>
            if IpfSrv_GetEsifHandle w =? ESIF_INVALID_HANDLE then sret (ESIF_E_INVALID_HANDLE, false)
            else
              let t := formatted MAX_PATH (rename_command esifName name) in
              let! r := f (IpfSrv_GetEsifHandle w) 1 [mk_EsifData ESIF_DATA_STRING (Some (t ++ zero_bytes (Z.of_nat MAX_PATH - size t))) (size t + 1) (size t + 1)]
                          (mk_EsifData ESIF_DATA_STRING (Some (zero_bytes (Z.of_nat MAX_PATH))) (Z.of_nat MAX_PATH) 0) in
              if r.1 =? ESIF_OK then
                let! bad := of_option (rename_result r.2) in
                sret (match bad with Some rc => (rc, true) | None => (ESIF_OK, false) end)
              else sret (r.1, false)
        | None => sret (ESIF_E_INVALID_HANDLE, false)
        end
  end.
Lemma rename_left (sv : Server O) y h m b w name rc gone w' : settled sv (with_left (Some y) h m) b w -> renaming (s_esifName y) name w = Some ((rc, gone), w') ->
  exists sv', IpfClient_Rename h name sv = Some (rc, sv') /\ settled sv' (with_left (if gone then None else Some y) h m) b w'.
Proof.
  intros Hset. pose proof Hset as [Ht Hs Hw]. cbn [with_left] in Ht. assert (E : <[h := y]> m !! h = Some y) by apply lookup_insert_eq. unfold IpfClient_Rename, renaming. rewrite (sbind_some _ _ _ _ _ (get_session_ok sv _ h Ht)), E.
  assert (Hno : forall rc', sret (rc', false) w = Some (rc, gone, w') -> exists sv', sret rc' sv = Some (rc, sv') /\ settled sv' (with_left (if gone then None else Some y) h m) b w') by (intros rc' [= <- <- <-]; by exists sv).
  destruct name as [n|]; [|apply Hno]. unfold esif_command, in_world, sbind, sget, sret in *. destruct (head n) as [c|]; [|done]. cbn [of_option]. unfold sret. destruct (c =? 0); [apply Hno|].
  destruct (esif_ccb_strcpy ESIF_NAME_LEN n) as [t|]; [|done]. cbn [of_option]. unfold sret. rewrite Hw. destruct fSendCommand as [f|]; [|apply Hno]. destruct (_ =? ESIF_INVALID_HANDLE); [apply Hno|].
  cbv zeta. rewrite Hw. destruct (f _ _ _ _ w) as [[[rc1 reply] w1]|]; [|done]. cbn [fst snd].
  set (sv1 := mk_server (sv_sessions sv) (sv_started sv) w1). assert (Hset1 : settled sv1 (with_left (Some y) h m) b w1) by by split.
  destruct (Z.eqb_spec rc1 ESIF_OK) as [->|]; [|intros [= <- <- <-]; by exists sv1]. destruct (rename_result reply) as [[bad|]|]; [| |done]; cbn [of_option]; unfold sret.
  - intros [= <- <- <-]. destruct (close_left sv1 y h m b w1 Hset1) as (sv2 & E2 & Hset2). rewrite E2. by exists sv2.
  - intros [= <- <- <-]. by exists sv1.
Qed.
End Renaming.

Section Remote.
Context {A : Type} `{IpfApp A} `{IpfEsif (process A)} (client server : Z * Z * Z) (threadId : Z).

(** ESIF's call of the application's interface, which ipfsrv_iface_cli.c implements. *)
Definition interface_call (h : Z) (c : app_call) : SM (Server (process A)) outcome :=
  let exchange := over_app client in
  let trx := Some (IpfClient_Trx server) in
  let plain (m : SM (Server (process A)) Z) := let! rc := m in sret (rc, None) in
  match c with
  | AGetName d => IpfCli_AppGetName exchange [] [] trx threadId (Some d)
  | AGetDescription d => IpfCli_AppGetDescription exchange [] [] trx (Some d)
  | AGetVersion d => IpfCli_AppGetVersion exchange [] [] trx (Some d)
  | AGetIntro d => IpfCli_AppGetIntro exchange [] [] trx h (Some d)
  | ADestroy => plain (IpfCli_AppDestroy exchange [] [] trx h)
  | ASuspend => plain (IpfCli_AppSuspend exchange [] [] trx h)
  | AResume => plain (IpfCli_AppResume exchange [] [] trx h)
  | ACommand argv d => IpfCli_AppCommand exchange [] [] trx h (Z.of_nat (length argv)) (Some argv) (Some d)
  | AGetStatus command n d => IpfCli_AppGetStatus exchange [] [] trx h command n (Some d)
  | AParticipantCreate p d st => plain (IpfCli_AppParticipantCreate exchange [] [] trx h p (Some d) st)
  | AParticipantDestroy p => plain (IpfCli_AppParticipantDestroy exchange [] [] trx h p)
  | ADomainCreate p dm d st => plain (IpfCli_AppDomainCreate exchange [] [] trx h p dm (Some d) st)
  | ADomainDestroy p dm => plain (IpfCli_AppDomainDestroy exchange [] [] trx h p dm)
  | AEvent p dm d g => plain (IpfCli_AppEvent exchange [] [] trx h p dm d g)
  end.

(** What ESIF gets and what is left of the session, once the application has answered [rc]
    and the buffer holds [back]. *)
Definition text_left (siz : nat) (store : list Z -> Session -> Session) (x : Session) (rc : Z) (v : EsifData) : SM (process A) (outcome * option Session) :=
  let! x := if rc =? ESIF_OK then let! t := of_option (copied siz v) in sret (store t x) else sret x in
  if answered rc then let! v' := of_option (text_length v) in sret (rc, Some v', Some x) else sret (rc, Some v, None).
Definition name_left (x : Session) (rc : Z) (v : EsifData) : SM (process A) (outcome * option Session) :=
  let x := with_threadId ESIF_NULL_THREAD_ID x in
  if answered rc then
    let! v' := of_option (text_length v) in
    if rc =? ESIF_OK then
      let! name := of_option (copied ESIF_NAME_LEN v) in
      let! r := renaming (s_esifName x) (d_buf v) in
      let x := with_appName name x in
      let renamed y := let y := with_esifName (esif_ccb_strlwr name) y in if s_appHandle y =? ESIF_INVALID_HANDLE then with_threadId threadId y else y in
      let left := if r.2 : bool then None else Some x in
      sret (r.1, Some v', if r.1 =? ESIF_OK then renamed <$> left else left)
    else sret (rc, Some v', Some x)
  else sret (rc, Some v, None).
Definition interface_left (x : Session) (c : app_call) (rc : Z) (back : option EsifData) : SM (process A) (outcome * option Session) :=
  match c, back with
  | AGetName _, Some v => name_left x rc v
  | AGetDescription _, Some v => text_left ESIF_DESC_LEN with_appDescription x rc v
  | AGetVersion _, Some v => text_left ESIF_VERSION_LEN with_appVersion x rc v
  | AGetIntro _, Some v => if rc =? ESIF_OK then let! t := of_option (copied ESIF_INTRO_LEN v) in sret (rc, Some v, Some (with_appIntro t x)) else sret (rc, Some v, Some x)
  | ADestroy, _ => sret (rc, None, None)
  | _, _ => sret (rc, back, Some x)
  end.

Lemma measured d v : text_length d = Some v -> d_buf v = d_buf d /\ forall siz, copied siz v = copied siz d.
Proof. unfold text_length, copied. destruct (match d_buf d with Some _ => _ | None => _ end); [|done]. by intros [= <-]. Qed.
Lemma text_left_ok request siz store d x h m b w sv rc v out left w' sv1 : (forall t y, s_ipfHandle (store t y) = s_ipfHandle y) -> s_ipfHandle x = h ->
  AppSessionMgr_GetSessionByName (d_buf d) sv = Some (Some x, sv) -> request (Some d) sv = Some ((rc, Some v), sv1) -> settled sv1 (with_left (Some x) h m) b w ->
  text_left siz store x rc v w = Some ((out, left), w') ->
  exists sv', get_text request siz store (Some d) sv = Some (out, sv') /\ settled sv' (with_left left h m) b w'.
Proof.
  intros Hst Hh Hx Hr Hset. unfold get_text. rewrite (sbind_some _ _ _ _ _ Hx). cbv zeta. rewrite (sbind_some _ _ _ _ _ Hr), Hh. unfold text_left.
  assert (Htail : forall x' sv2, settled sv2 (with_left (Some x') h m) b w ->
    (if answered rc then let! v' := of_option (text_length v) in sret (rc, Some v', Some x') else sret (rc, Some v, None)) w = Some (out, left, w') ->
    exists sv', (let! d' := if answered rc then of_option (text_length v) else (IpfClient_Close h ;! sret v) in sret (rc, Some d')) sv2 = Some (out, sv') /\ settled sv' (with_left left h m) b w').
  { intros x' sv2 Hset2. unfold sbind. destruct (answered rc).
    - destruct (text_length v) as [v'|]; [|done]. cbn [of_option]. unfold sret. intros [= <- <- <-]. by exists sv2.
    - intros [= <- <- <-]. destruct (close_left sv2 x' h m b w Hset2) as (sv3 & E3 & Hset3). rewrite E3. unfold sret. by exists sv3. }
  destruct (rc =? ESIF_OK); [|by apply Htail]. destruct (copied siz v) as [t|]; [|done]. intros E.
  destruct (update_left sv1 (Some x) h m b w (store t) Hset (Hst t)) as (sv2 & E2 & Hset2). destruct (Htail _ sv2 Hset2 E) as (sv' & E' & Hset'). exists sv'. split; [|done]. erewrite sbind_some; [exact E'|exact E2].
Qed.
Lemma name_left_ok x d h m b w sv rc v out left w' sv0 sv1 : s_ipfHandle x = h ->
  AppSessionMgr_GetSessionByName (d_buf d) sv = Some (Some x, sv) -> update_session h (with_threadId ESIF_NULL_THREAD_ID) sv = Some (tt, sv0) ->
  Irpc_Request_AppGetName (over_app client) [] [] (Some (IpfClient_Trx server)) (Some d) sv0 = Some ((rc, Some v), sv1) -> settled sv1 (with_left (Some (with_threadId ESIF_NULL_THREAD_ID x)) h m) b w ->
  name_left x rc v w = Some ((out, left), w') ->
  exists sv', IpfCli_AppGetName (over_app client) [] [] (Some (IpfClient_Trx server)) threadId (Some d) sv = Some (out, sv') /\ settled sv' (with_left left h m) b w'.
Proof.
  intros Hh Hx Hu Hr Hset. unfold IpfCli_AppGetName. rewrite (sbind_some _ _ _ _ _ Hx). cbv zeta. rewrite Hh, (sbind_some _ _ _ _ _ Hu), (sbind_some _ _ _ _ _ Hr). unfold name_left. set (x0 := with_threadId ESIF_NULL_THREAD_ID x) in *.
  destruct (answered rc) eqn:Ha.
  2: { intros [= <- <- <-]. destruct (close_left sv1 x0 h m b w Hset) as (sv2 & E2 & Hset2). assert (Hrc : rc =? ESIF_OK = false) by (by apply orb_false_iff in Ha as [? _]). rewrite Hrc. unfold sbind. rewrite E2. cbn [sret]. unfold sret. rewrite Hrc. by exists sv2. }
  unfold sbind at 1. destruct (text_length v) as [v'|] eqn:Ev; [|done]. destruct (measured v v' Ev) as [Eb Ec]. cbn [of_option]. unfold sret at 1. intros E. erewrite sbind_some; [|reflexivity]. rewrite !Ec, Eb. revert E. destruct (Z.eqb_spec rc ESIF_OK) as [->|Hrc].
  2: { intros [= <- <- <-]. erewrite sbind_some; [|reflexivity]. cbv beta. rewrite (proj2 (Z.eqb_neq _ _)) by done. by exists sv1. }
  unfold sbind at 1. destruct (copied ESIF_NAME_LEN v) as [name|]; [|done]. cbn [of_option]. unfold sret at 1. cbv beta iota.
  destruct (update_left sv1 (Some x0) h m b w (with_appName name) Hset) as (sv2 & E2 & Hset2); [done|]. unfold sbind at 1. destruct (renaming (s_esifName x0) (d_buf v) w) as [[[rc2 gone] w2]|] eqn:Er; [|done]. cbn [fst snd]. intros E.
  destruct (rename_left sv2 (with_appName name x0) h m b w (d_buf v) rc2 gone w2 Hset2 Er) as (sv3 & E3 & Hset3). revert E.
  assert (Hren : (let! name := of_option (Some name) in update_session h (with_appName name);! IpfClient_Rename h (d_buf v)) sv1 = Some (rc2, sv3)) by (unfold sbind; cbn [of_option]; unfold sret; by rewrite E2).
  rewrite (sbind_some _ _ _ _ _ Hren). destruct (rc2 =? ESIF_OK); [|intros [= <- <- <-]; by exists sv3]. set (left0 := if gone then None else Some (with_appName name x0)) in *.
  destruct (update_left sv3 left0 h m b w2 (with_esifName (esif_ccb_strlwr name)) Hset3) as (sv4 & E4 & Hset4); [done|].
  destruct (update_left sv4 _ h m b w2 (fun y => if s_appHandle y =? ESIF_INVALID_HANDLE then with_threadId threadId y else y) Hset4) as (sv5 & E5 & Hset5); [intros y; by destruct (_ =? _)|].
  intros [= <- <- <-]. exists sv5. split.
  - erewrite sbind_some; [reflexivity|]. unfold sbind. cbn [of_option]. unfold sret. by rewrite E4.
  - by destruct left0.
Qed.

Lemma session_for_known {O} (sv : Server O) m h x : table_is (sv_sessions sv) m -> AppSessionMgr_GetSessionByHandle h sv = Some (Some x, sv) -> m !! h = Some x /\ s_ipfHandle x = h.
Proof. intros Ht. rewrite (get_session_ok sv m h Ht). intros [= E]. split; [done|]. by apply (ti_known _ _ Ht) in E as [_ ?]. Qed.
Lemma connected_ok {O} (sv : Server O) m x : table_is (sv_sessions sv) m -> Some x ∈ sv_sessions sv -> s_connected x = true -> sv_started sv = true ->
  m !! s_ipfHandle x = Some x /\ AppSessionMgr_GetSessionByHandle (s_ipfHandle x) sv = Some (Some x, sv) /\ AppSession_IsConnected (Some x) sv = Some (true, sv).
Proof.
  intros Ht Hin Hc Hs. assert (Em : m !! s_ipfHandle x = Some x) by (by apply (ti_known _ _ Ht)). split_and!; [done|by rewrite (get_session_ok sv m _ Ht), Em|].
  pose proof (ti_valid _ _ Ht _ Hin). unfold AppSession_IsConnected, sbind, sget, sret. by rewrite (proj2 (Z.eqb_neq _ _)), Hc, Hs.
Qed.

Context (sv : Server (process A)) (m : gmap Z Session) (h : Z) (x : Session) (c : app_call).
Context (Hserver : 0 <= server.1.1 < 2 ^ 64) (Hc : app_call_fits c) (Hvol : app_call_volume c < 2 ^ 30).
Context (Htable : table_is (sv_sessions sv) m) (Hstarted : sv_started sv = true).

(** C1: A call of an application's interface that ESIF makes ([interface_call], the
    IpfCli_App functions other than the one that creates the application) is the call of
    the function of the application in the other process.  It is so for a session of the
    table that is connected to a running server and that the call finds, by the name in the
    buffer or by its handle, if the application has been created under the handle that the
    session has for it; its name, description and version can be asked for before, and an
    event can come before the session has that handle ([may_call]); the parameters and the
    application's answer are what fits in the messages; there is memory, and the frames are
    carried over.  Then the session is looked up, the
    call encoded with the application's own handle, framed, taken out, decoded and made,
    and its answer encoded, framed, received for the waiting transaction and decoded.  The
    application's process is in the state in which the function leaves it; ESIF gets the
    application's result and, in the buffer, the answer's type, length and, if they fit,
    bytes.  On top of that ([interface_left]): a name, description or version that is not
    answered closes the session, and one that is is measured; an answered text is kept in
    the session; a name is also given to ESIF, whose answer becomes the result, decides
    whether the session is closed, and if it is positive whether the session goes by that
    name from then on; and destroying the application closes the session, whatever the
    result.  No other session changes. *)
Theorem app_call_is_local rc back s' out left s'' :
  handle_ok (s_appHandle x) -> handle_ok (i_appHandle (sv_world sv).1) -> may_call x (i_appHandle (sv_world sv).1) c ->
  session_for h c sv = Some (Some x, sv) -> s_connected x = true -> 0 <= rc < 2 ^ 32 -> app_answer_fits c back ->
  performed (i_appHandle (sv_world sv).1) c (sv_world sv) = Some ((rc, back), s') ->
  interface_left x c rc (written_back (app_given c) back) s' = Some ((out, left), s'') ->
  exists sv', interface_call h c sv = Some (out, sv') /\ settled sv' (with_left left (s_ipfHandle x) m) (sv_started sv) s''.
Proof.
  intros Hx Ha Hmay Hfind Hconn Hrc Hback Hrun Hleft. pose proof (session_for_in _ _ _ _ Hfind) as Hin. destruct (connected_ok sv m x Htable Hin Hconn Hstarted) as (Em & Hget & Hcon).
  pose proof (every_app_call_runs client server Hserver c sv x h rc back s' Hc Hvol Hx Ha Hmay Hfind Hget Hcon Hrc Hback Hrun) as Hremote.
  assert (Hsame : forall w : process A, settled (mk_server (sv_sessions sv) (sv_started sv) w) (with_left (Some x) (s_ipfHandle x) m) (sv_started sv) w) by (split; [cbn [with_left]; by rewrite insert_id|done|done]).
  assert (Hplain : interface_call h c sv = remote_app_call client server h c sv -> session_left x c rc sv = sv_sessions sv -> (out, left, s'') = ((rc, written_back (app_given c) back), Some x, s') ->
    exists sv', interface_call h c sv = Some (out, sv') /\ settled sv' (with_left left (s_ipfHandle x) m) (sv_started sv) s'').
  { intros -> Es [= -> -> ->]. rewrite Hremote, Es. eexists. split; [reflexivity|]. apply Hsame. }
  destruct c as [d|d|d|d| | | |argv d|command n d| | | | |]; cbn [interface_left app_given written_back] in Hleft;
    try (apply Hplain; [done|done|]; destruct back as [v|]; by injection Hleft as <- <- <-).
  - (* the name, with the thread forgotten before *) destruct Hback as (v & -> & Hv & Hlen). cbn [written_back app_given] in Hleft. set (x0 := with_threadId ESIF_NULL_THREAD_ID x).
    destruct (update_left sv (Some x) (s_ipfHandle x) m (sv_started sv) (sv_world sv) (with_threadId ESIF_NULL_THREAD_ID)) as (sv0 & E0 & Hset0); [by destruct sv; apply Hsame|done|]. pose proof Hset0 as [Ht0 Hs0 Hw0].
    assert (E0' : sv0 = mk_server (map (option_map (fun y => if s_ipfHandle y =? s_ipfHandle x then with_threadId ESIF_NULL_THREAD_ID y else y)) (sv_sessions sv)) (sv_started sv) (sv_world sv)) by by injection E0 as <-.
    pose proof (by_name_after sv (d_buf d) x (with_threadId ESIF_NULL_THREAD_ID) Hfind ltac:(done) ltac:(done)) as Hfind0. cbv zeta in Hfind0. rewrite <- E0' in Hfind0. fold x0 in Hfind0.
    assert (Hin0 : Some x0 ∈ sv_sessions sv0) by (eapply (session_for_in h (AGetName d)); exact Hfind0). destruct (connected_ok sv0 _ x0 Ht0 Hin0 Hconn ltac:(congruence)) as (_ & Hget0 & Hcon0). rewrite <- Hw0 in Hrun, Ha.
    pose proof (every_app_call_runs client server Hserver (AGetName d) sv0 x0 h rc (Some v) s' Hc Hvol Hx Ha I Hfind0 Hget0 Hcon0 Hrc ltac:(by exists v) Hrun) as Hr0.
    apply (name_left_ok x d (s_ipfHandle x) m (sv_started sv) s' sv rc (written_into d v) out left s'' sv0 _ eq_refl Hfind E0 Hr0); [|done]. by split.
  - destruct Hback as (v & -> & _). by apply (text_left_ok _ ESIF_DESC_LEN with_appDescription d x _ m _ s' sv rc (written_into d v) out left s'' _ ltac:(done) eq_refl Hfind Hremote (Hsame s')).
  - destruct Hback as (v & -> & _). by apply (text_left_ok _ ESIF_VERSION_LEN with_appVersion d x _ m _ s' sv rc (written_into d v) out left s'' _ ltac:(done) eq_refl Hfind Hremote (Hsame s')).
  - destruct Hback as (v & -> & _). cbn [written_back app_given] in Hleft. cbn [interface_call]. unfold IpfCli_AppGetIntro. rewrite (sbind_some _ _ _ _ _ Hfind). rewrite (sbind_some _ _ _ _ _ Hremote). cbn [fst snd written_back app_given session_left]. destruct (rc =? ESIF_OK); [|injection Hleft as <- <- <-; eexists; split; [reflexivity|apply Hsame]].
    unfold sbind in Hleft |- *. destruct (copied ESIF_INTRO_LEN _) as [t|]; [|done]. cbn [of_option] in *. unfold sret in *. injection Hleft as <- <- <-. destruct (update_left _ _ _ _ _ _ (with_appIntro t) (Hsame s')) as (sv2 & E2 & Hset2); [done|].
    unfold process in *. rewrite E2. by exists sv2.
  - destruct (session_for_known sv m h x Htable Hfind) as [_ Eh]. injection Hleft as <- <- <-. cbn [interface_call]. unfold IpfCli_AppDestroy. cbn [remote_app_call] in Hremote. unfold sbind at 1 in Hremote. destruct (Irpc_Request_AppDestroy _ _ _ _ h sv) as [[rc' sv1]|] eqn:E1; [|done]. injection Hremote as -> Hsv1.
    assert (Hset1 : exists y, settled sv1 (with_left (Some y) (s_ipfHandle x) m) (sv_started sv) s').
    { rewrite Hsv1. cbn [session_left]. destruct (rc =? ESIF_OK); [|exists x; apply Hsame]. destruct (update_left _ _ _ _ _ _ AppSession_disconnected (Hsame s')) as (sv2 & [= <-] & Hset2); [done|]. by eexists. }
    destruct Hset1 as (y & Hset1). destruct (close_left sv1 y _ m _ s' Hset1) as (sv2 & E2 & Hset2). exists sv2. split; [|done]. unfold sbind at 1. unfold sbind at 1. cbn [session_for] in Hfind. rewrite Hfind. unfold sbind at 1. rewrite E1. unfold sbind. by rewrite E2.
Qed.
End Remote.

(* ------------------------------------------------------------------ *)
(** ** A connected application *)

(** An application with a name and a status, and ESIF, which accepts every command and keeps
    it. *)
Definition demo_app : IpfApp (list (list Z)) := {|
  fAppCreateFuncPtr := None; fAppDestroyFuncPtr := None; fAppSuspendFuncPtr := None; fAppResumeFuncPtr := None; fAppGetVersionFuncPtr := None; fAppCommandFuncPtr := None;
  fAppGetIntroFuncPtr := None; fAppGetDescriptionFuncPtr := None;
  fAppGetNameFuncPtr := Some (fun d l => Some ((ESIF_OK, mk_EsifData 8 (Some (chars_of "Power" ++ zero_bytes 11)) 16 6), l));
  fAppGetStatusFuncPtr := Some (fun _ command n d l => Some ((ESIF_OK, mk_EsifData 3 (Some [command; n; 0; 0]) 4 2), [command] :: l));
  fParticipantCreateFuncPtr := None; fParticipantDestroyFuncPtr := None; fDomainCreateFuncPtr := None; fDomainDestroyFuncPtr := None; fAppEventFuncPtr := Some (fun _ _ _ _ _ l => Some (ESIF_OK, l))
|}.
Definition demo_esif : IpfEsif (process (list (list Z))) := {|
  fSendCommand := Some (fun _ _ argv reply s => Some ((ESIF_OK, mk_EsifData 8 (Some (literal "ESIF_OK")) 260 8), (s.1, omap (fun d => d_buf d) argv ++ s.2)));
  IpfSrv_GetEsifHandle := fun _ => 1; g_appName := chars_of "ipfsrv"
|}.
(** Its session is in the second of three slots. *)
Definition demo_session (appHandle : Z) : Session := mk_sess 3 7 appHandle ESIF_INVALID_HANDLE true [] [] [] [] (chars_of "ipfcli-3") ESIF_NULL_THREAD_ID None.
Definition demo_server (appHandle : Z) : Server (process (list (list Z))) :=
  mk_server [None; Some (demo_session appHandle); None] true (mk_ipc 3 7 appHandle (mk_iface_hdr 0 4 192) [] 45 0, []).
Lemma demo_table a : table_is (sv_sessions (demo_server a)) {[3 := demo_session a]}.
Proof.
  split.
  - intros h x. unfold known, demo_server, sv_sessions. rewrite lookup_singleton_Some. split.
    + intros [<- <-]. split; [right; left|done].
    + intros [Hx <-]. repeat (apply elem_of_cons in Hx as [Hx|Hx]; [by simplify_eq|]). by apply elem_of_nil in Hx.
  - intros x Hx. cbn in Hx. repeat (apply elem_of_cons in Hx as [Hx|Hx]; [by simplify_eq|]). by apply elem_of_nil in Hx.
  - repeat constructor. by intros ?%elem_of_nil.
Qed.

(** It is asked for its name, before it is created: what ESIF does then, and the session. *)
Definition demo_name : app_call := AGetName (mk_EsifData 8 (Some (chars_of "ipfcli-3" ++ zero_bytes 8)) 16 9).
Definition demo_named : Session := mk_sess 3 7 ESIF_INVALID_HANDLE ESIF_INVALID_HANDLE true (chars_of "Power") [] [] [] (chars_of "power") 77 None.
Definition demo_renamed : process (list (list Z)) :=
  let t := chars_of "app rename ipfcli-3 'power'" in ((sv_world (demo_server ESIF_INVALID_HANDLE)).1, [t ++ zero_bytes (260 - size t)]).

Lemma app_call_is_local_witness :
  app_call_fits demo_name /\
  exists sv', @interface_call _ demo_app demo_esif (100, 0, 0) (200, 0, 0) 77 3 demo_name (demo_server ESIF_INVALID_HANDLE) = Some ((ESIF_OK, Some (mk_EsifData 8 (Some (chars_of "Power" ++ [0; 45; 51] ++ zero_bytes 8)) 16 6)), sv') /\
    settled sv' {[3 := demo_named]} true demo_renamed.
Proof.
  assert (Hg : app_call_fits demo_name) by (cbn; unfold roomy; split_and!; try done; by apply good_block). split; [exact Hg|].
  change {[3 := demo_named]} with (<[3 := demo_named]> (∅ : gmap Z Session)).
  rewrite <- (insert_insert_eq ∅ 3 demo_named (demo_session ESIF_INVALID_HANDLE)).
  apply (@app_call_is_local _ demo_app demo_esif (100, 0, 0) (200, 0, 0) 77 (demo_server ESIF_INVALID_HANDLE) {[3 := demo_session ESIF_INVALID_HANDLE]} 3 (demo_session ESIF_INVALID_HANDLE) demo_name ltac:(cbn; lia) Hg ltac:(reflexivity) (demo_table _) eq_refl
    ESIF_OK (Some (mk_EsifData 8 (Some (chars_of "Power" ++ zero_bytes 11)) 16 6)) (sv_world (demo_server ESIF_INVALID_HANDLE)) _ (Some demo_named)).
  - by vm_compute.
  - by vm_compute.
  - done.
  - by vm_compute.
  - done.
  - unfold ESIF_OK. lia.
  - eexists. split; [done|]. split; [|done]. split; [|done|by intros ? [= <-]]. by apply good_block.
  - by vm_compute.
  - by vm_compute.
Defined.

(** An event for an application that is connected but not created yet, which both sides
    mean to let through, is not answered; the call fails and the session is stopped. *)
Lemma early_event_stops_session :
  exists sv', @remote_app_call _ demo_app demo_esif (100, 0, 0) (200, 0, 0) 3 (AEvent 1 2 None None) (demo_server ESIF_INVALID_HANDLE) = Some ((ESIF_E_SESSION_DISCONNECTED, None), sv') /\
    sv_sessions sv' = [None; Some (with_appName [] (with_connected false (demo_session ESIF_INVALID_HANDLE))); None].
Proof. eexists. split; [vm_compute; reflexivity|]. by vm_compute. Qed.

(** The name that an application gives itself goes into a command for ESIF as it is.  ESIF
    runs a line of it as a command of its own, whatever the application's role may do. *)
Lemma app_name_runs_commands :
  let name := chars_of "x" ++ [NEWLINE] ++ chars_of "exit" ++ [NEWLINE; 0] in
  exists sv' sent, @IpfClient_Rename _ demo_esif 3 (Some name) (demo_server 9) = Some (ESIF_OK, sv') /\ (sv_world sv').2 = [sent] /\
    esif_shell_exec_command false false sent (Z.of_nat MAX_PATH) = Some [Dispatch (chars_of "app rename ipfcli-3 'x"); Dispatch (chars_of "exit"); Dispatch [39]].
Proof. eexists _, _. split; [vm_compute; reflexivity|]. split; [vm_compute; reflexivity|]. by vm_compute. Qed.
