(* ===== verification/Xform.v ===== *)
(** * Units and their conversion: ESIF_CM esif_temp.h, esif_power.h, esif_time.h,
    esif_percent.h and ESIF/Products/ESIF_UF/Sources/esif_uf_xform.c

    Devices report and accept temperatures, powers, times and percentages in
    units of their own; applications see tenths of a degree Kelvin, milliwatts,
    milliseconds and hundredths of a percent.  A participant's support package
    names, for each action, the algorithms that convert; a value that is read
    (GET) goes from the device's unit to the normal one, a value that is written
    (SET) the other way.

    Values are 32-bit unsigned; a temperature below 0 C is its two's complement.
    Intermediate values are kept at the width that the code computes in; a
    signed overflow has no outcome ([None]). *)

From S2P Require Import Prelude EsifData.
From stdpp Require Import list.
Local Open Scope Z_scope.

(* ------------------------------------------------------------------ *)
(** ** Temperatures *)

Inductive esif_temperature_type : Type :=
  | ESIF_TEMP_K | ESIF_TEMP_DECIK | ESIF_TEMP_CENTIK | ESIF_TEMP_MILLIK
  | ESIF_TEMP_C | ESIF_TEMP_DECIC | ESIF_TEMP_CENTIC | ESIF_TEMP_MILLIC | ESIF_TEMP_THERMISTOR.
#[export] Instance temperature_type_eq_dec : EqDecision esif_temperature_type.
Proof. solve_decision. Defined.

Definition DPTF_KELVIN_BASE : Z := 2732.
Definition NORMALIZE_TEMP_TYPE : esif_temperature_type := ESIF_TEMP_DECIK.
Definition NORMALIZE_TEMP_ADJUSTMENT : Z := DPTF_KELVIN_BASE.

Definition esif_temp_mc2c (out : esif_temperature_type) (val : Z) : Z :=
  match out with
  | ESIF_TEMP_C => u32 (val + 500) / 1000
  | ESIF_TEMP_DECIC => u32 (val + 50) / 100
  | ESIF_TEMP_CENTIC => u32 (val + 5) / 10
  | _ => val
  end.

(** [int] arithmetic; the division truncates. *)
Definition div_int (x d : Z) : option Z :=
  if (- 2 ^ 31 <=? x) && (x <? 2 ^ 31) then Some (u32 (Z.quot x d)) else None.
Definition esif_temp_mk2c (out : esif_temperature_type) (val : Z) : option Z :=
  let signedVal := s32 (val - DPTF_KELVIN_BASE * 100) in
  let round (half d : Z) := if 0 <=? signedVal then div_int (signedVal + half) d else div_int (signedVal - half) d in
  match out with
  | ESIF_TEMP_C => round 500 1000
  | ESIF_TEMP_DECIC => round 50 100
  | ESIF_TEMP_CENTIC => round 5 10
  | ESIF_TEMP_MILLIC => Some (u32 signedVal)
  | _ => Some val
  end.

Definition esif_temp_mc2k (out : esif_temperature_type) (val : Z) : Z :=
  match out with
  | ESIF_TEMP_K => u32 (val + DPTF_KELVIN_BASE * 100 + 500) / 1000
  | ESIF_TEMP_DECIK => u32 (val + DPTF_KELVIN_BASE * 100 + 50) / 100
  | ESIF_TEMP_CENTIK => u32 (val + DPTF_KELVIN_BASE * 100 + 5) / 10
  | ESIF_TEMP_MILLIK => u32 (val + DPTF_KELVIN_BASE * 100)
  | _ => val
  end.

Definition esif_temp_mk2k (out : esif_temperature_type) (val : Z) : Z :=
  match out with
  | ESIF_TEMP_K => u32 (val + 500) / 1000
  | ESIF_TEMP_DECIK => u32 (val + 50) / 100
  | ESIF_TEMP_CENTIK => u32 (val + 5) / 10
  | _ => val
  end.

(** What the value is multiplied by to make it thousandths; [None] is the default
    case. *)
Definition temp_scale (u : esif_temperature_type) : option Z :=
  match u with
  | ESIF_TEMP_C | ESIF_TEMP_K => Some 1000
  | ESIF_TEMP_DECIC | ESIF_TEMP_DECIK => Some 100
  | ESIF_TEMP_CENTIC | ESIF_TEMP_CENTIK => Some 10
  | ESIF_TEMP_MILLIC | ESIF_TEMP_MILLIK => Some 1
  | ESIF_TEMP_THERMISTOR => None
  end.
Definition is_kelvin (u : esif_temperature_type) : bool :=
  match u with ESIF_TEMP_K | ESIF_TEMP_DECIK | ESIF_TEMP_CENTIK | ESIF_TEMP_MILLIK => true | _ => false end.

(** The result code and the value behind the pointer. *)
Definition esif_convert_temp (inn out : esif_temperature_type) (temp : option Z) : option (Z * option Z) :=
  match temp with
  | None => Some (ESIF_E_PARAMETER_IS_NULL, None)
  | Some val =>
      if decide (inn = out) then Some (ESIF_OK, temp)
      else
        match temp_scale inn, temp_scale out with
        | Some k, Some _ =>
            let val := u32 (val * k) in
            match (match is_kelvin out, is_kelvin inn with
                   | false, true => esif_temp_mk2c out val
                   | false, false => Some (esif_temp_mc2c out val)
                   | true, true => Some (esif_temp_mk2k out val)
                   | true, false => Some (esif_temp_mc2k out val)
                   end) with
            | Some val => Some (ESIF_OK, Some val)
            | None => None
            end
        | _, _ => Some (ESIF_E_UNSUPPORTED_REQUEST_TEMP_TYPE, temp)
        end
  end.

Definition esif_temp_rel_to_abs (rel_temp : Z) : Z := u32 (rel_temp + NORMALIZE_TEMP_ADJUSTMENT).
Definition esif_temp_abs_to_rel (abs_temp : Z) : Z :=
  let rel_temp := u32 (abs_temp - NORMALIZE_TEMP_ADJUSTMENT) in if s32 rel_temp <? 0 then 0 else rel_temp.

(* ------------------------------------------------------------------ *)
(** ** Power, times and percentages *)

Inductive esif_power_unit_type : Type := ESIF_POWER_W | ESIF_POWER_DECIW | ESIF_POWER_CENTIW | ESIF_POWER_MILLIW | ESIF_POWER_MICROW.
#[export] Instance power_type_eq_dec : EqDecision esif_power_unit_type.
Proof. solve_decision. Defined.
Definition NORMALIZE_POWER_UNIT_TYPE : esif_power_unit_type := ESIF_POWER_MILLIW.

Definition power_scale (u : esif_power_unit_type) : Z :=
  match u with ESIF_POWER_W => 1 | ESIF_POWER_DECIW => 10 | ESIF_POWER_CENTIW => 100 | ESIF_POWER_MILLIW => 1000 | ESIF_POWER_MICROW => 1000000 end.

(** The product is computed in 64 bits and the quotient cut down to 32. *)
Definition esif_convert_power (inn out : esif_power_unit_type) (power : option Z) : Z * option Z :=
  match power with
  | None => (ESIF_E_PARAMETER_IS_NULL, None)
  | Some val =>
      if (val =? 0) || bool_decide (inn = out) then (ESIF_OK, power)
      else (ESIF_OK, Some (u32 (u64 (val * power_scale out) / power_scale inn)))
  end.

Inductive esif_time_type : Type := ESIF_TIME_S | ESIF_TIME_DECIS | ESIF_TIME_CENTIS | ESIF_TIME_MILLIS | ESIF_TIME_MICROS.
#[export] Instance time_type_eq_dec : EqDecision esif_time_type.
Proof. solve_decision. Defined.
Definition NORMALIZE_TIME_TYPE : esif_time_type := ESIF_TIME_MILLIS.

(** Microseconds in one. *)
Definition time_scale (u : esif_time_type) : Z :=
  match u with ESIF_TIME_S => 1000000 | ESIF_TIME_DECIS => 100000 | ESIF_TIME_CENTIS => 10000 | ESIF_TIME_MILLIS => 1000 | ESIF_TIME_MICROS => 1 end.

(** A result that needs more than 32 bits is refused and the value left. *)
Definition narrow (old : option Z) (val : Z) : Z * option Z :=
  if 2 ^ 32 <=? val then (ESIF_E_OVERFLOWED_RESULT_TYPE, old) else (ESIF_OK, Some val).

Definition esif_convert_time (inn out : esif_time_type) (time : option Z) : Z * option Z :=
  match time with
  | None => (ESIF_E_PARAMETER_IS_NULL, None)
  | Some val =>
      if (val =? 0) || bool_decide (inn = out) then (ESIF_OK, time)
      else narrow time (u64 (val * time_scale inn) / time_scale out)
  end.

Definition ESIF_PERCENT_BYTE_CONV_FACTOR : Z := 255.
Inductive esif_percent_type : Type := ESIF_PERCENT | ESIF_PERCENT_DECI | ESIF_PERCENT_CENTI | ESIF_PERCENT_MILLI | ESIF_PERCENT_BYTE.
#[export] Instance percent_type_eq_dec : EqDecision esif_percent_type.
Proof. solve_decision. Defined.
Definition NORMALIZE_PERCENT_TYPE : esif_percent_type := ESIF_PERCENT_CENTI.

(** To thousandths of a percent, and from them. *)
Definition to_millipercent (u : esif_percent_type) (val : Z) : Z :=
  match u with
  | ESIF_PERCENT => u64 (val * 1000)
  | ESIF_PERCENT_DECI => u64 (val * 100)
  | ESIF_PERCENT_CENTI => u64 (val * 10)
  | ESIF_PERCENT_MILLI => val
  | ESIF_PERCENT_BYTE => u64 (u64 (val * 100) * 1000) / ESIF_PERCENT_BYTE_CONV_FACTOR
  end.
Definition from_millipercent (u : esif_percent_type) (val : Z) : Z :=
  match u with
  | ESIF_PERCENT => val / 1000
  | ESIF_PERCENT_DECI => val / 100
  | ESIF_PERCENT_CENTI => val / 10
  | ESIF_PERCENT_MILLI => val
  | ESIF_PERCENT_BYTE => u64 (u64 (val * ESIF_PERCENT_BYTE_CONV_FACTOR) / 100 + 500) / 1000
  end.

Definition esif_convert_percent (inn out : esif_percent_type) (value : option Z) : Z * option Z :=
  match value with
  | None => (ESIF_E_PARAMETER_IS_NULL, None)
  | Some val =>
      if (val =? 0) || bool_decide (inn = out) then (ESIF_OK, value)
      else narrow value (from_millipercent out (to_millipercent inn val))
  end.

(* ------------------------------------------------------------------ *)
(** ** The transforms *)

Definition ESIF_ALGORITHM_TYPE_PERCENT_CENTI : Z := 21.
Definition ESIF_ALGORITHM_TYPE_PERCENT_DECI : Z := 23.
Definition ESIF_ALGORITHM_TYPE_PERCENT_NONE : Z := 20.
Definition ESIF_ALGORITHM_TYPE_PERCENT_WHOLE : Z := 24.
Definition ESIF_ALGORITHM_TYPE_POWER_DECIW : Z := 0.
Definition ESIF_ALGORITHM_TYPE_POWER_MICROW : Z := 25.
Definition ESIF_ALGORITHM_TYPE_POWER_MILLIW : Z := 1.
Definition ESIF_ALGORITHM_TYPE_POWER_NONE : Z := 2.
Definition ESIF_ALGORITHM_TYPE_TEMP_C : Z := 18.
Definition ESIF_ALGORITHM_TYPE_TEMP_DECIC : Z := 14.
Definition ESIF_ALGORITHM_TYPE_TEMP_DECIK : Z := 5.
Definition ESIF_ALGORITHM_TYPE_TEMP_MILLIC : Z := 9.
Definition ESIF_ALGORITHM_TYPE_TEMP_NONE : Z := 6.
Definition ESIF_ALGORITHM_TYPE_TIME_DECIS : Z := 16.
Definition ESIF_ALGORITHM_TYPE_TIME_MILLIS : Z := 17.
Definition ESIF_ALGORITHM_TYPE_TIME_NONE : Z := 8.

Definition ESIF_PRIMITIVE_OP_GET : Z := 1.
Definition ESIF_PRIMITIVE_OP_SET : Z := 2.
Definition ESIF_DATA_TEMPERATURE : Z := 6.
Definition ESIF_DATA_POWER : Z := 26.
Definition ESIF_DATA_TIME : Z := 31.
Definition ESIF_DATA_PERCENT : Z := 29.

(** The algorithms of an action, and what a transform needs of a participant: its
    support package, if it is there, with the package's [get_algorithm]. *)
Record esif_fpc_algorithm : Type := mk_algorithm { temp_xform : Z; percent_xform : Z; power_xform : Z; time_xform : Z }.
Abbreviation dsp := (Z -> option esif_fpc_algorithm).
Record up : Type := mk_up { up_dsp : option dsp }.

(** The unit that an algorithm stands for: [inl true] for the algorithm that leaves
    values as they are, [inl false] for one that is not known. *)
Definition temp_algorithm (algo : Z) : bool + esif_temperature_type :=
  if algo =? ESIF_ALGORITHM_TYPE_TEMP_C then inr ESIF_TEMP_C
  else if algo =? ESIF_ALGORITHM_TYPE_TEMP_MILLIC then inr ESIF_TEMP_MILLIC
  else if algo =? ESIF_ALGORITHM_TYPE_TEMP_DECIC then inr ESIF_TEMP_DECIC
  else if algo =? ESIF_ALGORITHM_TYPE_TEMP_DECIK then inr ESIF_TEMP_DECIK
  else inl (algo =? ESIF_ALGORITHM_TYPE_TEMP_NONE).
Definition power_algorithm (algo : Z) : bool + esif_power_unit_type :=
  if algo =? ESIF_ALGORITHM_TYPE_POWER_DECIW then inr ESIF_POWER_DECIW
  else if algo =? ESIF_ALGORITHM_TYPE_POWER_MICROW then inr ESIF_POWER_MICROW
  else if algo =? ESIF_ALGORITHM_TYPE_POWER_MILLIW then inr ESIF_POWER_MILLIW
  else inl (algo =? ESIF_ALGORITHM_TYPE_POWER_NONE).
Definition time_algorithm (algo : Z) : bool + esif_time_type :=
  if algo =? ESIF_ALGORITHM_TYPE_TIME_DECIS then inr ESIF_TIME_DECIS
  else if algo =? ESIF_ALGORITHM_TYPE_TIME_MILLIS then inr ESIF_TIME_MILLIS
  else inl (algo =? ESIF_ALGORITHM_TYPE_TIME_NONE).
Definition percent_algorithm (algo : Z) : bool + esif_percent_type :=
  if algo =? ESIF_ALGORITHM_TYPE_PERCENT_WHOLE then inr ESIF_PERCENT
  else if algo =? ESIF_ALGORITHM_TYPE_PERCENT_DECI then inr ESIF_PERCENT_DECI
  else if algo =? ESIF_ALGORITHM_TYPE_PERCENT_CENTI then inr ESIF_PERCENT_CENTI
  else inl (algo =? ESIF_ALGORITHM_TYPE_PERCENT_NONE).

(** The transforms ignore the result code of the conversion. *)
Definition EsifUfXformTemp (tempType : esif_temperature_type) (algoType opcode : Z) (u : option up) (temp : option Z) : option (Z * option Z) :=
  match temp, u with
  | Some _, Some u =>
      match up_dsp u with
      | None => Some (ESIF_E_NEED_DSP, temp)
      | Some _ =>
          match temp_algorithm algoType with
          | inl none => Some (if (none : bool) then ESIF_OK else ESIF_E_UNSUPPORTED_ALGORITHM, temp)
          | inr device =>
              match (if opcode =? ESIF_PRIMITIVE_OP_GET then esif_convert_temp device tempType temp else esif_convert_temp tempType device temp) with
              | Some (_, v) => Some (ESIF_OK, v)
              | None => None
              end
          end
      end
  | _, _ => Some (ESIF_E_PARAMETER_IS_NULL, temp)
  end.

Definition EsifUfXformPower (powerType : esif_power_unit_type) (algoType opcode : Z) (u : option up) (power : option Z) : Z * option Z :=
  match power, u with
  | Some _, Some _ =>
      match power_algorithm algoType with
      | inl none => (if (none : bool) then ESIF_OK else ESIF_E_UNSUPPORTED_ALGORITHM, power)
      | inr device => (ESIF_OK, (if opcode =? ESIF_PRIMITIVE_OP_GET then esif_convert_power device powerType power else esif_convert_power powerType device power).2)
      end
  | _, _ => (ESIF_E_PARAMETER_IS_NULL, power)
  end.

Definition EsifUfXformTime (timeType : esif_time_type) (algoType opcode : Z) (u : option up) (time : option Z) : Z * option Z :=
  match time with
  | Some _ =>
      match time_algorithm algoType with
      | inl none => (if (none : bool) then ESIF_OK else ESIF_E_UNSUPPORTED_ALGORITHM, time)
      | inr device => (ESIF_OK, (if opcode =? ESIF_PRIMITIVE_OP_GET then esif_convert_time device timeType time else esif_convert_time timeType device time).2)
      end
  | None => (ESIF_E_PARAMETER_IS_NULL, None)
  end.

(** The percentages are normalised to [NORMALIZE_PERCENT_TYPE], whatever the type. *)
Definition EsifUfXformPercent (pctType : esif_percent_type) (algoType opcode : Z) (u : option up) (value : option Z) : Z * option Z :=
  match value with
  | Some _ =>
      match percent_algorithm algoType with
      | inl none => (if (none : bool) then ESIF_OK else ESIF_E_UNSUPPORTED_ALGORITHM, value)
      | inr device => (ESIF_OK, (if opcode =? ESIF_PRIMITIVE_OP_GET then esif_convert_percent device NORMALIZE_PERCENT_TYPE value
                                 else esif_convert_percent NORMALIZE_PERCENT_TYPE device value).2)
      end
  | None => (ESIF_E_PARAMETER_IS_NULL, None)
  end.

(** The value at the start of a buffer, transformed in place. *)
Definition transform_buffer (f : option Z -> option (Z * option Z)) (d : EsifData) : option (Z * EsifData) :=
  match buf_ptr d with
  | None => match f None with Some (rc, _) => Some (rc, d) | None => None end
  | Some b =>
      match read_u32 b with
      | Some v =>
          match f (Some v) with
          | Some (rc, Some v') => match write_u32 v' b with Some b' => Some (rc, mk_EsifData (type d) (Some b') (buf_len d) (data_len d)) | None => None end
          | _ => None
          end
      | None => None
      end
  end.

Definition needs_transform (ty : Z) : bool :=
  (ty =? ESIF_DATA_TEMPERATURE) || (ty =? ESIF_DATA_POWER) || (ty =? ESIF_DATA_TIME) || (ty =? ESIF_DATA_PERCENT).

Definition EsifUfExecuteTransform (data : option EsifData) (u : option up) (actionType opcode : Z) : option (Z * option EsifData) :=
  match data, u with
  | Some d, Some p =>
      if negb (needs_transform (type d)) then Some (ESIF_OK, data)
      else
        match up_dsp p with
        | None => Some (ESIF_E_NEED_DSP, data)
        | Some get_algorithm =>
            match get_algorithm actionType with
            | None => Some (ESIF_E_NEED_ALGORITHM, data)
            | Some a =>
                match transform_buffer (fun v =>
                    if type d =? ESIF_DATA_TEMPERATURE then EsifUfXformTemp NORMALIZE_TEMP_TYPE (temp_xform a) opcode u v
                    else if type d =? ESIF_DATA_POWER then Some (EsifUfXformPower NORMALIZE_POWER_UNIT_TYPE (power_xform a) opcode u v)
                    else if type d =? ESIF_DATA_TIME then Some (EsifUfXformTime NORMALIZE_TIME_TYPE (time_xform a) opcode u v)
                    else Some (EsifUfXformPercent NORMALIZE_PERCENT_TYPE (percent_xform a) opcode u v)) d with
                | Some (rc, d') => Some (rc, Some d')
                | None => None
                end
            end
        end
  | _, _ => Some (ESIF_E_PARAMETER_IS_NULL, data)
  end.

(* ------------------------------------------------------------------ *)
(** ** A converted temperature is the nearest one in the new unit *)

(** What a value means: Celsius values are signed. *)
Definition reading (u : esif_temperature_type) (val : Z) : Z := if is_kelvin u then val else s32 val.
(** Thousandths of a degree above absolute zero. *)
Definition millikelvin (u : esif_temperature_type) (val : Z) : Z :=
  reading u val * default 0 (temp_scale u) + (if is_kelvin u then 0 else DPTF_KELVIN_BASE * 100).

Lemma s32_range x : - 2 ^ 31 <= s32 x < 2 ^ 31.
Proof. unfold s32. pose proof (Z.mod_pos_bound x (2 ^ 32) ltac:(lia)). cbv zeta. unfold wrap in *. destruct (Z.ltb_spec (x mod 2 ^ 32) (2 ^ 31)); lia. Qed.

Lemma s32_small x : - 2 ^ 31 <= x < 2 ^ 31 -> s32 x = x.
Proof.
  intros Hx. unfold s32, wrap. destruct (Z.neg_nonneg_cases x) as [H|H].
  - replace (x mod 2 ^ 32) with (x + 2 ^ 32); [rewrite (proj2 (Z.ltb_ge _ _)); lia|]. apply (Z.mod_unique x (2 ^ 32) (-1)); [left; lia|lia].
  - rewrite Z.mod_small by lia. rewrite (proj2 (Z.ltb_lt _ _)); lia.
Qed.

Lemma u32_s32 x : u32 (s32 x) = u32 x.
Proof. unfold s32. destruct (_ <? _); [apply wrap_wrap|]. unfold wrap. rewrite <- (Z_mod_plus_full (x mod 2 ^ 32 - 2 ^ 32) 1). rewrite Z.mul_1_l, Z.sub_add. by rewrite Z.mod_mod. Qed.

Lemma s32_u32 x : s32 (u32 x) = s32 x.
Proof. unfold s32. by rewrite wrap_wrap. Qed.

(** The value multiplied is right modulo the width of the type. *)
Lemma scaled u val k : temp_scale u = Some k -> exists q, val * k = reading u val * k + q * 2 ^ 32.
Proof.
  intros Hk. unfold reading. destruct (is_kelvin u); [exists 0; lia|]. unfold s32, wrap. cbv zeta.
  pose proof (Z.div_mod val (2 ^ 32) ltac:(lia)). destruct (_ <? _); [exists (val / 2 ^ 32 * k)|exists ((val / 2 ^ 32 + 1) * k)]; nia.
Qed.

(** Rounding up from the half, and away from zero. *)
Lemma round_half t k h : 0 < k -> 2 * h <= k -> k <= 2 * h + 1 -> 2 * Z.abs ((t + h) / k * k - t) <= k.
Proof. intros Hk H1 H2. pose proof (Z.div_mod (t + h) k ltac:(lia)). pose proof (Z.mod_pos_bound (t + h) k Hk). nia. Qed.

Lemma round_int s k h : 0 < k -> 2 * h = k -> - 2 ^ 31 <= s - h -> s + h < 2 ^ 31 ->
  exists r, (if 0 <=? s then div_int (s + h) k else div_int (s - h) k) = Some (u32 r) /\ 2 * Z.abs (r * k - s) <= k /\ - 2 ^ 31 <= r < 2 ^ 31.
Proof.
  intros Hk Hh H1 H2. unfold div_int. destruct (Z.leb_spec 0 s).
  - rewrite (proj2 (Z.leb_le _ _)), (proj2 (Z.ltb_lt _ _)) by lia. exists (Z.quot (s + h) k). split; [done|]. rewrite Z.quot_div_nonneg by lia.
    pose proof (Z.div_mod (s + h) k ltac:(lia)). pose proof (Z.mod_pos_bound (s + h) k Hk). nia.
  - rewrite (proj2 (Z.leb_le _ _)), (proj2 (Z.ltb_lt _ _)) by lia. exists (Z.quot (s - h) k). split; [done|].
    replace (s - h) with (- (h - s)) by lia. rewrite Z.quot_opp_l, Z.quot_div_nonneg by lia.
    pose proof (Z.div_mod (h - s) k ltac:(lia)). pose proof (Z.mod_pos_bound (h - s) k Hk). nia.
Qed.

Lemma to_kelvin out (t k : Z) : is_kelvin out = true -> temp_scale out = Some k -> 0 <= t < 2 ^ 31 - 500 ->
  in_range 32 (esif_temp_mk2k out t) /\ 2 * Z.abs (esif_temp_mk2k out t * k - t) <= k.
Proof.
  intros Ho Hk Ht. unfold in_range. destruct out; try done; injection Hk as <-; cbn [esif_temp_mk2k];
    rewrite ?wrap_small by (unfold in_range; lia); try lia.
  all: split; [split; [apply Z.div_pos; lia|apply Z.div_lt_upper_bound; lia]|apply round_half; lia].
Qed.

Lemma celsius_to_kelvin out x : is_kelvin out = true -> esif_temp_mc2k out x = esif_temp_mk2k out (u32 (x + DPTF_KELVIN_BASE * 100)).
Proof. destruct out; try done; intros _; cbn [esif_temp_mc2k esif_temp_mk2k]; by rewrite ?wrap_add_l. Qed.

Lemma to_celsius out (s k x : Z) : is_kelvin out = false -> temp_scale out = Some k -> - 2 ^ 30 <= s < 2 ^ 31 - 500 -> u32 (x - DPTF_KELVIN_BASE * 100) = u32 s ->
  exists v, esif_temp_mk2c out x = Some v /\ in_range 32 v /\ 2 * Z.abs (s32 v * k - s) <= k.
Proof.
  intros Ho Hk Hs Hx. assert (E : s32 (x - DPTF_KELVIN_BASE * 100) = s) by (rewrite <- s32_u32, Hx, s32_u32; apply s32_small; lia).
  unfold esif_temp_mk2c. rewrite E. destruct out; try done; injection Hk as <-.
  4:{ exists (u32 s). split; [done|]. split; [apply wrap_in_range; lia|]. rewrite s32_u32, s32_small; lia. }
  1: destruct (round_int s 1000 500) as (r & Er & Hr & Hb); [lia..|].
  2: destruct (round_int s 100 50) as (r & Er & Hr & Hb); [lia..|].
  3: destruct (round_int s 10 5) as (r & Er & Hr & Hb); [lia..|].
  all: exists (u32 r); split; [exact Er|]; split; [apply wrap_in_range; lia|]; by rewrite s32_u32, s32_small.
Qed.

Lemma celsius_to_celsius out (s k : Z) : is_kelvin out = false -> temp_scale out = Some k -> 0 <= s < 2 ^ 31 - 500 ->
  in_range 32 (esif_temp_mc2c out s) /\ 2 * Z.abs (s32 (esif_temp_mc2c out s) * k - s) <= k.
Proof.
  intros Ho Hk Hs. unfold in_range. destruct out; try done; injection Hk as <-; cbn [esif_temp_mc2c]; rewrite ?wrap_small by (unfold in_range; lia).
  4: rewrite s32_small; lia.
  all: assert (0 <= (s + 500) / 1000 < 2 ^ 31 /\ 0 <= (s + 50) / 100 < 2 ^ 31 /\ 0 <= (s + 5) / 10 < 2 ^ 31) by
    (split_and!; (apply Z.div_pos || apply Z.div_lt_upper_bound); lia); rewrite s32_small by lia; split; [lia|apply round_half; lia].
Qed.

(** C37: Every conversion between temperature units gives the nearest value in
    the new unit: for every pair of units and every temperature from absolute
    zero up to two million degrees, negative Celsius values included, the result
    is a 32-bit value that means the same temperature up to half a unit, and
    nothing overflows on the way.  Only between two Celsius units the temperature
    must not be below 0 C. *)
Theorem temp_convert_nearest (inn out : esif_temperature_type) (val ki ko : Z) (Hval : in_range 32 val)
    (Hki : temp_scale inn = Some ki) (Hko : temp_scale out = Some ko) (Ht : 0 <= millikelvin inn val < 2 ^ 31 - 500)
    (Hc : is_kelvin inn = false -> is_kelvin out = false -> inn <> out -> 0 <= s32 val) :
  exists val', esif_convert_temp inn out (Some val) = Some (ESIF_OK, Some val') /\ in_range 32 val' /\
    2 * Z.abs (millikelvin out val' - millikelvin inn val) <= ko.
Proof.
  unfold esif_convert_temp. destruct (decide (inn = out)) as [->|Hne].
  { exists val. rewrite Z.sub_diag. split; [done|]. split; [done|]. destruct out; cbn in Hko; simplify_eq; lia. }
  rewrite Hki, Hko. unfold millikelvin in *. rewrite Hki in Ht. rewrite Hki, Hko. unfold default, id, reading in *.
  destruct (scaled inn val ki Hki) as [q Hq]. unfold reading in Hq. unfold DPTF_KELVIN_BASE in *.
  destruct (is_kelvin out) eqn:Ho, (is_kelvin inn) eqn:Hi.
  - rewrite wrap_small by (unfold in_range; lia). eexists. split; [reflexivity|]. destruct (to_kelvin out (val * ki) ko Ho Hko ltac:(lia)) as [Hr Hd]. split; [exact Hr|lia].
  - rewrite celsius_to_kelvin, wrap_add_l by done. unfold DPTF_KELVIN_BASE. assert (E : u32 (val * ki + 2732 * 100) = s32 val * ki + 2732 * 100).
    { rewrite Hq. unfold wrap. replace (s32 val * ki + q * 2 ^ 32 + 2732 * 100) with (s32 val * ki + 2732 * 100 + q * 2 ^ 32) by lia.
      rewrite Z_mod_plus_full. apply Z.mod_small. lia. }
    rewrite E. eexists. split; [reflexivity|]. destruct (to_kelvin out (s32 val * ki + 2732 * 100) ko Ho Hko ltac:(lia)) as [Hr Hd]. split; [exact Hr|lia].
  - destruct (to_celsius out (val * ki - 2732 * 100) ko (u32 (val * ki)) Ho Hko) as (v & Ev & Hv & Hd); [lia|unfold DPTF_KELVIN_BASE; apply wrap_sub_l|].
    rewrite Ev. eexists. split; [reflexivity|]. split; [done|]. lia.
  - specialize (Hc eq_refl eq_refl Hne). assert (E : u32 (val * ki) = s32 val * ki).
    { rewrite Hq. unfold wrap. rewrite Z_mod_plus_full. apply Z.mod_small. destruct inn; cbn in Hki; simplify_eq; lia. }
    rewrite E. eexists. split; [reflexivity|].
    destruct (celsius_to_celsius out (s32 val * ki) ko Ho Hko ltac:(destruct inn; cbn in Hki; simplify_eq; lia)) as [Hr Hd]. split; [exact Hr|lia].
Qed.

Module XformDemo.
(** -136 C, the lowest trip point, and 100 C. *)
Definition low : Z := 4294967160.
End XformDemo.

Lemma temp_convert_nearest_witness : in_range 32 XformDemo.low /\ 0 <= millikelvin ESIF_TEMP_C XformDemo.low < 2 ^ 31 - 500 /\
  esif_convert_temp ESIF_TEMP_C ESIF_TEMP_DECIK (Some XformDemo.low) = Some (ESIF_OK, Some 1372) /\
  exists val', esif_convert_temp ESIF_TEMP_C ESIF_TEMP_DECIK (Some XformDemo.low) = Some (ESIF_OK, Some val') /\ in_range 32 val' /\
    2 * Z.abs (millikelvin ESIF_TEMP_DECIK val' - millikelvin ESIF_TEMP_C XformDemo.low) <= 100.
Proof.
  assert (H1 : in_range 32 XformDemo.low) by (unfold in_range, XformDemo.low; lia).
  assert (H2 : 0 <= millikelvin ESIF_TEMP_C XformDemo.low < 2 ^ 31 - 500) by (replace (millikelvin ESIF_TEMP_C XformDemo.low) with 137200 by reflexivity; lia).
  assert (H3 : is_kelvin ESIF_TEMP_C = false -> is_kelvin ESIF_TEMP_DECIK = false -> ESIF_TEMP_C <> ESIF_TEMP_DECIK -> 0 <= s32 XformDemo.low) by done.
  split; [exact H1|]. split; [exact H2|]. split; [vm_compute; reflexivity|].
  exact (temp_convert_nearest ESIF_TEMP_C ESIF_TEMP_DECIK XformDemo.low 1000 100 H1 eq_refl eq_refl H2 H3).
Defined.

(* ------------------------------------------------------------------ *)
(** ** Reading a value and writing it back *)

(** The normal unit can hold the device's value. *)
Definition representable (a : esif_fpc_algorithm) (ty v : Z) : Prop :=
  if ty =? ESIF_DATA_TEMPERATURE then match temp_algorithm (temp_xform a) with inr dev => 0 <= millikelvin dev v < 2 ^ 31 - 1000 | inl none => none = true end
  else if ty =? ESIF_DATA_POWER then match power_algorithm (power_xform a) with inr dev => v * 1000 / power_scale dev < 2 ^ 32 | inl none => none = true end
  else if ty =? ESIF_DATA_TIME then match time_algorithm (time_xform a) with inr dev => v * time_scale dev / 1000 < 2 ^ 32 | inl none => none = true end
  else match percent_algorithm (percent_xform a) with inr dev => to_millipercent dev v / 10 < 2 ^ 32 | inl none => none = true end.

(** The value comes back, but for the digits that the normal unit does not have. *)
Definition comes_back (a : esif_fpc_algorithm) (ty v v' : Z) : Prop :=
  if ty =? ESIF_DATA_TEMPERATURE then
    if temp_xform a =? ESIF_ALGORITHM_TYPE_TEMP_MILLIC then Z.abs (s32 v' - s32 v) <= 50 else v' = v
  else if ty =? ESIF_DATA_POWER then
    if power_xform a =? ESIF_ALGORITHM_TYPE_POWER_MICROW then v' <= v < v' + 1000 else v' = v
  else v' = v.

(** An algorithm that is known, case by case. *)
Ltac known_algorithm :=
  repeat match goal with
  | H : (if ?a =? ?b then _ else _) = _ |- _ => destruct (Z.eqb_spec a b) as [->|]; [injection H as <-|]
  end; try discriminate.

Lemma temp_algorithm_inv algo dev : temp_algorithm algo = inr dev ->
  exists k, temp_scale dev = Some k /\ (k = 1 <-> algo = ESIF_ALGORITHM_TYPE_TEMP_MILLIC) /\ (dev <> ESIF_TEMP_DECIK -> is_kelvin dev = false) /\
  (k = 1 \/ k = 100 \/ k = 1000).
Proof.
  unfold temp_algorithm. intros H. known_algorithm; eexists; (split; [reflexivity|]); (split; [|split; [first [done|intros Hk; by destruct Hk]|lia]]);
    unfold ESIF_ALGORITHM_TYPE_TEMP_C, ESIF_ALGORITHM_TYPE_TEMP_MILLIC, ESIF_ALGORITHM_TYPE_TEMP_DECIC, ESIF_ALGORITHM_TYPE_TEMP_DECIK; lia.
Qed.

Lemma s32_inj x y : in_range 32 x -> in_range 32 y -> s32 x = s32 y -> x = y.
Proof. intros Hx Hy H. rewrite <- (wrap_small 32 x Hx), <- (wrap_small 32 y Hy), <- (u32_s32 x), <- (u32_s32 y). by rewrite H. Qed.

Lemma temp_roundtrip p algo v : in_range 32 v ->
  match temp_algorithm algo with inr dev => 0 <= millikelvin dev v < 2 ^ 31 - 1000 | inl none => none = true end ->
  exists n v', EsifUfXformTemp NORMALIZE_TEMP_TYPE algo ESIF_PRIMITIVE_OP_GET (Some (mk_up (Some p))) (Some v) = Some (ESIF_OK, Some n) /\ in_range 32 n /\
    EsifUfXformTemp NORMALIZE_TEMP_TYPE algo ESIF_PRIMITIVE_OP_SET (Some (mk_up (Some p))) (Some n) = Some (ESIF_OK, Some v') /\ in_range 32 v' /\
    if algo =? ESIF_ALGORITHM_TYPE_TEMP_MILLIC then Z.abs (s32 v' - s32 v) <= 50 else v' = v.
Proof.
  intros Hv H. unfold EsifUfXformTemp, NORMALIZE_TEMP_TYPE. cbn [up_dsp]. change (ESIF_PRIMITIVE_OP_GET =? ESIF_PRIMITIVE_OP_GET) with true. change (ESIF_PRIMITIVE_OP_SET =? ESIF_PRIMITIVE_OP_GET) with false.
  destruct (temp_algorithm algo) as [none|dev] eqn:Ea.
  - exists v, v. subst none. split_and!; try done. destruct (_ =? _); [lia|done].
  - destruct (temp_algorithm_inv algo dev Ea) as (k & Hk & Hm & Hd & Hk3).
    destruct (decide (dev = ESIF_TEMP_DECIK)) as [->|Hne].
    { exists v, v. split_and!; try done. destruct (Z.eqb_spec algo ESIF_ALGORITHM_TYPE_TEMP_MILLIC); [lia|done]. }
    specialize (Hd Hne). destruct (temp_convert_nearest dev ESIF_TEMP_DECIK v k 100 Hv Hk eq_refl ltac:(lia) ltac:(done)) as (n & En & Hn & Dn).
    assert (Hnr : 0 <= millikelvin ESIF_TEMP_DECIK n < 2 ^ 31 - 500).
    { split; [|lia]. unfold millikelvin, reading. cbn. unfold in_range in Hn. lia. }
    destruct (temp_convert_nearest ESIF_TEMP_DECIK dev n 100 k Hn eq_refl Hk Hnr ltac:(done)) as (v' & Ev & Hv' & Dv).
    exists n, v'. rewrite En, Ev. split_and!; try done. unfold millikelvin, reading, default, id in *. rewrite Hd, Hk in *. cbn [is_kelvin temp_scale] in Dn, Dv.
    unfold DPTF_KELVIN_BASE in *. destruct (Z.eqb_spec algo ESIF_ALGORITHM_TYPE_TEMP_MILLIC) as [E|E].
    + apply Hm in E as ->. lia.
    + apply s32_inj; [done|done|]. assert (k = 100 \/ k = 1000) as [->| ->] by tauto; lia.
Qed.

(** What a conversion gives, when it fits. *)
Lemma power_value inn out v : in_range 32 v -> v * power_scale out / power_scale inn < 2 ^ 32 ->
  esif_convert_power inn out (Some v) = (ESIF_OK, Some (v * power_scale out / power_scale inn)).
Proof.
  unfold in_range. intros Hv H. unfold esif_convert_power. destruct (Z.eqb_spec v 0) as [->|Hz]; [cbn [orb]; by rewrite Z.mul_0_l, Z.div_0_l by (by destruct inn)|].
  cbn [orb]. case_bool_decide as He; [subst; by rewrite Z.div_mul by (by destruct out)|].
  rewrite (wrap_small 64) by (unfold in_range; destruct out; cbn; lia).
  rewrite wrap_small; [done|]. split; [apply Z.div_pos; destruct inn, out; cbn; lia|done].
Qed.

Lemma time_value inn out v : in_range 32 v -> v * time_scale inn / time_scale out < 2 ^ 32 ->
  esif_convert_time inn out (Some v) = (ESIF_OK, Some (v * time_scale inn / time_scale out)).
Proof.
  unfold in_range. intros Hv H. unfold esif_convert_time, narrow. destruct (Z.eqb_spec v 0) as [->|Hz]; [cbn [orb]; by rewrite Z.mul_0_l, Z.div_0_l by (by destruct out)|].
  cbn [orb]. case_bool_decide as He; [subst; by rewrite Z.div_mul by (by destruct out)|].
  rewrite (wrap_small 64) by (unfold in_range; destruct inn; cbn; lia). by rewrite (proj2 (Z.leb_gt _ _)).
Qed.

Lemma percent_value inn out v : inn <> ESIF_PERCENT_BYTE -> out <> ESIF_PERCENT_BYTE -> in_range 32 v -> from_millipercent out (to_millipercent inn v) < 2 ^ 32 ->
  esif_convert_percent inn out (Some v) = (ESIF_OK, Some (from_millipercent out (to_millipercent inn v))).
Proof.
  unfold in_range. intros Hi Ho Hv H. unfold esif_convert_percent, narrow. destruct (Z.eqb_spec v 0) as [->|Hz]; [by destruct inn, out|].
  cbn [orb]. case_bool_decide as He; [|by rewrite (proj2 (Z.leb_gt _ _))]. subst. do 2 f_equal.
  destruct out; cbn; rewrite ?wrap_small by (unfold in_range; lia); rewrite ?Z.div_mul; done.
Qed.

Lemma power_roundtrip (u : up) algo v : in_range 32 v ->
  match power_algorithm algo with inr dev => v * 1000 / power_scale dev < 2 ^ 32 | inl none => none = true end ->
  exists n v', EsifUfXformPower NORMALIZE_POWER_UNIT_TYPE algo ESIF_PRIMITIVE_OP_GET (Some u) (Some v) = (ESIF_OK, Some n) /\ in_range 32 n /\
    EsifUfXformPower NORMALIZE_POWER_UNIT_TYPE algo ESIF_PRIMITIVE_OP_SET (Some u) (Some n) = (ESIF_OK, Some v') /\ in_range 32 v' /\
    if algo =? ESIF_ALGORITHM_TYPE_POWER_MICROW then v' <= v < v' + 1000 else v' = v.
Proof.
  intros Hv H. unfold EsifUfXformPower, NORMALIZE_POWER_UNIT_TYPE. change (ESIF_PRIMITIVE_OP_GET =? ESIF_PRIMITIVE_OP_GET) with true. change (ESIF_PRIMITIVE_OP_SET =? ESIF_PRIMITIVE_OP_GET) with false.
  destruct (power_algorithm algo) as [none|dev] eqn:Ea.
  - exists v, v. subst none. split_and!; try done. destruct (_ =? _); [lia|done].
  - assert (Hdev : (algo =? ESIF_ALGORITHM_TYPE_POWER_MICROW) = bool_decide (dev = ESIF_POWER_MICROW) /\ (dev = ESIF_POWER_DECIW \/ dev = ESIF_POWER_MICROW \/ dev = ESIF_POWER_MILLIW)).
    { unfold power_algorithm in Ea. known_algorithm; by split; [|tauto]. }
    destruct Hdev as [-> Hdev]. unfold in_range in *. pose proof (power_value dev ESIF_POWER_MILLIW v Hv H) as E1. rewrite E1. cbn [power_scale snd].
    set (n := v * 1000 / power_scale dev) in *. assert (Hn : 0 <= n) by (apply Z.div_pos; destruct dev; cbn; lia).
    assert (Hb : n * power_scale dev / 1000 <= v < n * power_scale dev / 1000 + (if bool_decide (dev = ESIF_POWER_MICROW) then 1000 else 1)).
    { subst n. pose proof (Z.div_mod (v * 1000) (power_scale dev)) as D1. pose proof (Z.mod_pos_bound (v * 1000) (power_scale dev)) as B1.
      pose proof (Z.div_mod (v * 1000 / power_scale dev * power_scale dev) 1000) as D2. pose proof (Z.mod_pos_bound (v * 1000 / power_scale dev * power_scale dev) 1000) as B2.
      destruct Hdev as [->|[->| ->]]; cbn [power_scale] in *; cbn [bool_decide]; (rewrite ?bool_decide_eq_false_2 by done); rewrite ?bool_decide_eq_true_2 by done; lia. }
    pose proof (power_value ESIF_POWER_MILLIW dev n ltac:(split; done) ltac:(cbn [power_scale]; lia)) as E2.
    eexists _, _. split; [reflexivity|]. split; [done|]. rewrite E2. cbn [snd power_scale]. split; [reflexivity|].
    split; [split; [apply Z.div_pos; destruct dev; cbn; lia|lia]|]. destruct (bool_decide _); lia.
Qed.

Lemma time_roundtrip (u : option up) algo v : in_range 32 v ->
  match time_algorithm algo with inr dev => v * time_scale dev / 1000 < 2 ^ 32 | inl none => none = true end ->
  exists n, EsifUfXformTime NORMALIZE_TIME_TYPE algo ESIF_PRIMITIVE_OP_GET u (Some v) = (ESIF_OK, Some n) /\ in_range 32 n /\
    EsifUfXformTime NORMALIZE_TIME_TYPE algo ESIF_PRIMITIVE_OP_SET u (Some n) = (ESIF_OK, Some v).
Proof.
  intros Hv H. unfold EsifUfXformTime, NORMALIZE_TIME_TYPE. change (ESIF_PRIMITIVE_OP_GET =? ESIF_PRIMITIVE_OP_GET) with true. change (ESIF_PRIMITIVE_OP_SET =? ESIF_PRIMITIVE_OP_GET) with false.
  destruct (time_algorithm algo) as [none|dev] eqn:Ea; [exists v; by subst none|].
  assert (Hdev : dev = ESIF_TIME_DECIS \/ dev = ESIF_TIME_MILLIS).
  { unfold time_algorithm in Ea. known_algorithm; tauto. }
  unfold in_range in *. assert (Hn : 0 <= v * time_scale dev / 1000) by (apply Z.div_pos; destruct dev; cbn; lia).
  exists (v * time_scale dev / 1000). pose proof (time_value dev ESIF_TIME_MILLIS v Hv H) as E1. rewrite E1. split; [done|]. split; [done|].
  assert (Hb : v * time_scale dev / 1000 * 1000 / time_scale dev = v).
  { pose proof (Z.div_mod (v * time_scale dev) 1000) as D1. pose proof (Z.mod_pos_bound (v * time_scale dev) 1000) as B1.
    destruct Hdev as [->| ->]; cbn [time_scale] in *; [|rewrite Z.div_mul; [rewrite Z.div_mul|]; lia].
    replace (v * 100000) with (v * 100 * 1000) by lia. rewrite Z.div_mul by lia. replace (v * 100 * 1000) with (v * 100000) by lia. by rewrite Z.div_mul. }
  rewrite (time_value ESIF_TIME_MILLIS dev); [|by split|cbn [time_scale]; lia]. cbn [snd time_scale]. by rewrite Hb.
Qed.

Lemma percent_roundtrip (u : option up) algo v : in_range 32 v ->
  match percent_algorithm algo with inr dev => to_millipercent dev v / 10 < 2 ^ 32 | inl none => none = true end ->
  exists n, EsifUfXformPercent NORMALIZE_PERCENT_TYPE algo ESIF_PRIMITIVE_OP_GET u (Some v) = (ESIF_OK, Some n) /\ in_range 32 n /\
    EsifUfXformPercent NORMALIZE_PERCENT_TYPE algo ESIF_PRIMITIVE_OP_SET u (Some n) = (ESIF_OK, Some v).
Proof.
  intros Hv H. unfold EsifUfXformPercent, NORMALIZE_PERCENT_TYPE. change (ESIF_PRIMITIVE_OP_GET =? ESIF_PRIMITIVE_OP_GET) with true. change (ESIF_PRIMITIVE_OP_SET =? ESIF_PRIMITIVE_OP_GET) with false.
  destruct (percent_algorithm algo) as [none|dev] eqn:Ea; [exists v; by subst none|].
  assert (Hdev : dev = ESIF_PERCENT \/ dev = ESIF_PERCENT_DECI \/ dev = ESIF_PERCENT_CENTI).
  { unfold percent_algorithm in Ea. known_algorithm; tauto. }
  unfold in_range in *. assert (Hne : dev <> ESIF_PERCENT_BYTE) by (destruct Hdev as [->|[->| ->]]; done).
  assert (Hn : exists n, to_millipercent dev v / 10 = n /\ 0 <= n /\ n * 10 = to_millipercent dev v /\ from_millipercent dev (n * 10) = v).
  { destruct Hdev as [->|[->| ->]]; cbn [to_millipercent from_millipercent] in *; rewrite wrap_small in * by (unfold in_range; lia).
    - exists (v * 100). replace (v * 1000) with (v * 100 * 10) by lia. rewrite Z.div_mul by lia. split_and!; try lia. replace (v * 100 * 10) with (v * 1000) by lia. by apply Z.div_mul.
    - exists (v * 10). replace (v * 100) with (v * 10 * 10) by lia. rewrite Z.div_mul by lia. split_and!; try lia. replace (v * 10 * 10) with (v * 100) by lia. by apply Z.div_mul.
    - exists v. rewrite Z.div_mul by lia. split_and!; try lia. }
  destruct Hn as (n & En & Hn0 & En10 & Eback). rewrite En in H. exists n.
  rewrite (percent_value dev ESIF_PERCENT_CENTI v Hne ltac:(done) Hv) by (cbn [from_millipercent]; lia). cbn [from_millipercent snd]. rewrite En. split; [done|]. split; [done|].
  assert (E : to_millipercent ESIF_PERCENT_CENTI n = n * 10) by (cbn [to_millipercent]; apply wrap_small; unfold in_range; lia).
  rewrite (percent_value ESIF_PERCENT_CENTI dev n ltac:(done) Hne) by (rewrite ?E, ?Eback; unfold in_range; lia). cbn [snd]. by rewrite E, Eback.
Qed.

Lemma transform_value f d b v rc v' : buf_ptr d = Some b -> read_u32 b = Some v -> f (Some v) = Some (rc, Some v') -> in_range 32 v' ->
  exists d', transform_buffer f d = Some (rc, d') /\ content d' = Some v' /\ type d' = type d /\ is_Some (buf_ptr d').
Proof.
  intros Hb Hr Hf Hv. unfold transform_buffer. rewrite Hb, Hr, Hf. assert (Hl : 4 <= Z.of_nat (length b)).
  { destruct b as [|b0 [|b1 [|b2 [|b3 b]]]]; try done. cbn [length]. lia. }
  destruct (write_u32_some v' b Hl) as (b' & Eb & _). rewrite Eb. eexists. split; [reflexivity|]. unfold content. cbn [buf_ptr type].
  split; [by apply (write_read v' b)|done].
Qed.

(** A value that is read from a device and written back to it arrives as it
    was: for every type of data that is converted and every algorithm that is
    known, whatever the value, as long as the normal unit can hold it, the buffer
    that the GET transform has filled gives, through the SET transform, the
    device's value again - thousandths of a degree Celsius up to 50 of them, and
    microwatts up to the next lower milliwatt. *)
Theorem transform_roundtrip (get_algorithm : dsp) (actionType : Z) (a : esif_fpc_algorithm) (d : EsifData) (b : list Z) (v : Z)
    (Ha : get_algorithm actionType = Some a) (Hty : needs_transform (type d) = true) (Hb : buf_ptr d = Some b) (Hr : read_u32 b = Some v)
    (Hv : in_range 32 v) (Hfit : representable a (type d) v) :
  exists d1 d2 v', EsifUfExecuteTransform (Some d) (Some (mk_up (Some get_algorithm))) actionType ESIF_PRIMITIVE_OP_GET = Some (ESIF_OK, Some d1) /\
    EsifUfExecuteTransform (Some d1) (Some (mk_up (Some get_algorithm))) actionType ESIF_PRIMITIVE_OP_SET = Some (ESIF_OK, Some d2) /\
    content d2 = Some v' /\ comes_back a (type d) v v'.
Proof.
  set (f op ty := fun w : option Z =>
    if ty =? ESIF_DATA_TEMPERATURE then EsifUfXformTemp NORMALIZE_TEMP_TYPE (temp_xform a) op (Some (mk_up (Some get_algorithm))) w
    else if ty =? ESIF_DATA_POWER then Some (EsifUfXformPower NORMALIZE_POWER_UNIT_TYPE (power_xform a) op (Some (mk_up (Some get_algorithm))) w)
    else if ty =? ESIF_DATA_TIME then Some (EsifUfXformTime NORMALIZE_TIME_TYPE (time_xform a) op (Some (mk_up (Some get_algorithm))) w)
    else Some (EsifUfXformPercent NORMALIZE_PERCENT_TYPE (percent_xform a) op (Some (mk_up (Some get_algorithm))) w)).
  assert (Hf : exists n v', f ESIF_PRIMITIVE_OP_GET (type d) (Some v) = Some (ESIF_OK, Some n) /\ in_range 32 n /\
      f ESIF_PRIMITIVE_OP_SET (type d) (Some n) = Some (ESIF_OK, Some v') /\ in_range 32 v' /\ comes_back a (type d) v v').
  { unfold f, representable, comes_back in *. destruct (type d =? ESIF_DATA_TEMPERATURE); [by apply temp_roundtrip|].
    destruct (type d =? ESIF_DATA_POWER).
    { destruct (power_roundtrip (mk_up (Some get_algorithm)) _ _ Hv Hfit) as (n & v' & E1 & Hn & E2 & Hv' & Hc). exists n, v'. by rewrite E1, E2. }
    destruct (type d =? ESIF_DATA_TIME).
    { destruct (time_roundtrip (Some (mk_up (Some get_algorithm))) _ _ Hv Hfit) as (n & E1 & Hn & E2). exists n, v. by rewrite E1, E2. }
    destruct (percent_roundtrip (Some (mk_up (Some get_algorithm))) _ _ Hv Hfit) as (n & E1 & Hn & E2). exists n, v. by rewrite E1, E2. }
  destruct Hf as (n & v' & F1 & Hn & F2 & Hv' & Hc).
  destruct (transform_value (f ESIF_PRIMITIVE_OP_GET (type d)) d b v ESIF_OK n Hb Hr F1 Hn) as (d1 & E1 & C1 & T1 & [b1 B1]).
  assert (R1 : read_u32 b1 = Some n) by (unfold content in C1; by rewrite B1 in C1).
  destruct (transform_value (f ESIF_PRIMITIVE_OP_SET (type d)) d1 b1 n ESIF_OK v' B1 R1 F2 Hv') as (d2 & E2 & C2 & T2 & _).
  exists d1, d2, v'. unfold EsifUfExecuteTransform. cbn [up_dsp]. rewrite T1, Hty, Ha. cbn [negb].
  change (match transform_buffer (f ESIF_PRIMITIVE_OP_GET (type d)) d with Some (rc, d') => Some (rc, Some d') | None => None end = Some (ESIF_OK, Some d1) /\
    match transform_buffer (f ESIF_PRIMITIVE_OP_SET (type d)) d1 with Some (rc, d') => Some (rc, Some d') | None => None end = Some (ESIF_OK, Some d2) /\
    content d2 = Some v' /\ comes_back a (type d) v v').
  by rewrite E1, E2.
Qed.

Module TransformDemo.
Definition a : esif_fpc_algorithm := mk_algorithm ESIF_ALGORITHM_TYPE_TEMP_C ESIF_ALGORITHM_TYPE_PERCENT_WHOLE ESIF_ALGORITHM_TYPE_POWER_DECIW ESIF_ALGORITHM_TYPE_TIME_DECIS.
Definition get_algorithm : dsp := fun action => if action =? 7 then Some a else None.
(** 45 C. *)
Definition d : EsifData := mk_EsifData ESIF_DATA_TEMPERATURE (Some [45; 0; 0; 0]) 4 4.
End TransformDemo.

Lemma transform_roundtrip_witness : TransformDemo.get_algorithm 7 = Some TransformDemo.a /\ read_u32 [45; 0; 0; 0] = Some 45 /\
  representable TransformDemo.a ESIF_DATA_TEMPERATURE 45 /\
  EsifUfExecuteTransform (Some TransformDemo.d) (Some (mk_up (Some TransformDemo.get_algorithm))) 7 ESIF_PRIMITIVE_OP_GET =
    Some (ESIF_OK, Some (mk_EsifData ESIF_DATA_TEMPERATURE (Some [110; 12; 0; 0]) 4 4)) /\
  exists d1 d2 v', EsifUfExecuteTransform (Some TransformDemo.d) (Some (mk_up (Some TransformDemo.get_algorithm))) 7 ESIF_PRIMITIVE_OP_GET = Some (ESIF_OK, Some d1) /\
    EsifUfExecuteTransform (Some d1) (Some (mk_up (Some TransformDemo.get_algorithm))) 7 ESIF_PRIMITIVE_OP_SET = Some (ESIF_OK, Some d2) /\
    content d2 = Some v' /\ comes_back TransformDemo.a ESIF_DATA_TEMPERATURE 45 v'.
Proof.
  assert (Hv : in_range 32 45) by (unfold in_range; lia).
  assert (Hf : representable TransformDemo.a ESIF_DATA_TEMPERATURE 45) by (split; [discriminate|reflexivity]).
  split; [reflexivity|]. split; [reflexivity|]. split; [exact Hf|]. split; [vm_compute; reflexivity|].
  exact (transform_roundtrip TransformDemo.get_algorithm 7 TransformDemo.a TransformDemo.d [45; 0; 0; 0] 45 eq_refl eq_refl eq_refl eq_refl Hv Hf).
Defined.

(** A time that the normal unit cannot hold is passed on in the device's unit,
    with the result ESIF_OK. *)
Theorem time_overflow_unnoticed (u : option up) (v : Z) (Hv : 42949673 <= v < 2 ^ 32) :
  EsifUfXformTime NORMALIZE_TIME_TYPE ESIF_ALGORITHM_TYPE_TIME_DECIS ESIF_PRIMITIVE_OP_GET u (Some v) = (ESIF_OK, Some v).
Proof.
  unfold EsifUfXformTime, NORMALIZE_TIME_TYPE, esif_convert_time, narrow. cbn. rewrite (proj2 (Z.eqb_neq v 0)) by lia. cbn [orb]. rewrite bool_decide_eq_false_2 by done.
  rewrite wrap_small by (unfold in_range; lia). replace (v * 100000) with (v * 100 * 1000) by lia. rewrite Z.div_mul by lia.
  by rewrite (proj2 (Z.leb_le _ _)) by lia.
Qed.
