(* ===== verification/PrimExec.v ===== *)
(** * Executing a primitive: esif_uf_participant.c and esif_uf_primitive.c

    A primitive is a request such as "get the temperature".  The participant's
    support package lists actions for it - a sysfs file, a table, a constant, code -
    and the framework tries them in order until one succeeds.  Values are
    transformed to and from the units of the device (Xform.v) on the way.

    The support package ([EsifDsp]), the actions and the devices behind them are
    parameters: [W] is the state of the world outside and an action a function on
    it.  The state of the definitions also keeps what has been tried ([tried]), as
    the index of an action among those of its primitive, its number among the
    kernel's, and its result; nothing reads it.  The configuration is the one of
    Linux ([ESIF_FEAT_OPT_ACTION_SYSFS]), without a lower framework. *)

From S2P Require Import Prelude EsifData Xform.
From stdpp Require Import list.
Local Open Scope Z_scope.
Local Open Scope dptf_scope.

Definition ESIF_E_NO_LOWER_FRAMEWORK : Z := 1001.
Definition ESIF_E_UNSUPPORTED_ACTION_TYPE : Z := 1202.
Definition ESIF_E_REQ_SIZE_TYPE_MISTMATCH : Z := 1302.
Definition ESIF_E_PRIMITIVE_NO_ACTION_SUCCESSFUL : Z := 2406.
Definition ESIF_E_PRIMITIVE_NO_ACTION_AVAIL : Z := 2407.
Definition ESIF_E_INVALID_PARTICIPANT_ID : Z := 3601.
Definition ESIF_DATA_ALLOCATE : Z := 4294967295.
Definition ESIF_DATA_AUTO : Z := 36.
Definition ESIF_DATA_BINARY : Z := 7.
Definition ESIF_DATA_FREQUENCY : Z := 40.
Definition ESIF_DATA_STRING : Z := 8.
Definition ESIF_DATA_UINT8 : Z := 1.
Definition ESIF_DATA_UINT16 : Z := 2.
Definition ESIF_DATA_UINT32 : Z := 3.
Definition ESIF_DATA_UINT64 : Z := 4.
Definition ESIF_DATA_UNICODE : Z := 9.
Definition ESIF_DATA_VOID : Z := 24.
Definition ESIF_PRIM_ACT_SEL_FLAG_EXCLUDE : Z := 1.
Definition ESIF_PRIM_ACT_SEL_FLAG_INDEX_VALID : Z := 2.
Definition ESIF_PRIM_ACT_SEL_FLAG_TYPE_VALID : Z := 4.

(* ------------------------------------------------------------------ *)
(** ** The support package *)

Record EsifPrimitiveTuple : Type := mk_tuple { t_id : Z; t_domain : Z; t_instance : Z }.
(** [get_params] is what decoding the parameters of an action gives. *)
Record EsifFpcAction : Type := mk_action { act_type : Z; is_kernel : Z; get_params : Z }.
Record EsifFpcPrimitive : Type := mk_primitive { operation : Z; request_type : Z; result_type : Z; num_actions : Z }.
Record EsifDsp : Type := mk_dsp {
  has_type : bool;
  get_primitive : EsifPrimitiveTuple -> option EsifFpcPrimitive;
  get_action : EsifFpcPrimitive -> Z -> option EsifFpcAction;
  get_algorithm : Z -> option esif_fpc_algorithm
}.
Record EsifPrimitiveActionSelector : Type := mk_selector { flags : Z; sel_index : Z; sel_type : Z }.

Section World.
Context {W : Type}.

(** The code of an action: for a GET a function of the request and the response
    buffer, for a SET of the request.  [STATIC] is compiled in, [V4] a plugin. *)
Definition get_func : Type := EsifFpcPrimitive -> EsifFpcAction -> EsifData -> EsifData -> W -> Z * EsifData * W.
Definition set_func : Type := EsifFpcPrimitive -> EsifFpcAction -> EsifData -> W -> Z * W.
Inductive EsifActIface : Type :=
  | IFACE_STATIC (getFuncPtr : option get_func) (setFuncPtr : option set_func)
  | IFACE_V4 (getFuncPtr : option get_func) (setFuncPtr : option set_func)
  | IFACE_OTHER.

(** The loaded actions by type. *)
Context (EsifActMgr_GetAction : W -> Z -> option EsifActIface).

Record xst : Type := mk_xst { dev : W; tried : list (Z * Z * Z) }.
Abbreviation XM := (SM xst).

Definition run_get (f : get_func) (p : EsifFpcPrimitive) (a : EsifFpcAction) (req rsp : EsifData) : XM (Z * EsifData) :=
  fun s => let r := f p a req rsp (dev s) in Some ((r.1.1, r.1.2), mk_xst r.2 (tried s)).
Definition run_set (f : set_func) (p : EsifFpcPrimitive) (a : EsifFpcAction) (req : EsifData) : XM Z :=
  fun s => let r := f p a req (dev s) in Some (r.1, mk_xst r.2 (tried s)).

(** A plugin is given the decoded parameters.  The call of its missing SET function
    is undefined. *)
Definition EsifActCallPluginGet (f : option get_func) (p : EsifFpcPrimitive) (a : EsifFpcAction) (req rsp : EsifData) : XM (Z * EsifData) :=
  match f with
  | None => sret (ESIF_E_PARAMETER_IS_NULL, rsp)
  | Some f => if get_params a =? ESIF_OK then run_get f p a req rsp else sret (get_params a, rsp)
  end.
Definition EsifActCallPluginSet (f : option set_func) (p : EsifFpcPrimitive) (a : EsifFpcAction) (req : EsifData) : XM Z :=
  if get_params a =? ESIF_OK then match f with Some f => run_set f p a req | None => ub end else sret (get_params a).

(** An interface of another version does nothing, successfully. *)
Definition EsifUp_ExecuteIfaceGet (i : EsifActIface) (p : EsifFpcPrimitive) (a : EsifFpcAction) (req rsp : EsifData) : XM (Z * EsifData) :=
  match i with
  | IFACE_STATIC None _ => sret (ESIF_E_PARAMETER_IS_OUT_OF_BOUNDS, rsp)
  | IFACE_STATIC (Some f) _ => run_get f p a req rsp
  | IFACE_V4 f _ => EsifActCallPluginGet f p a req rsp
  | IFACE_OTHER => sret (ESIF_OK, rsp)
  end.

Definition EsifUp_ExecuteIfaceSet (i : EsifActIface) (p : EsifFpcPrimitive) (a : EsifFpcAction) (req : EsifData) : XM Z :=
  match i with
  | IFACE_STATIC _ None => sret ESIF_E_PARAMETER_IS_OUT_OF_BOUNDS
  | IFACE_STATIC _ (Some f) => run_set f p a req
  | IFACE_V4 _ f => EsifActCallPluginSet f p a req
  | IFACE_OTHER => sret ESIF_E_UNSUPPORTED_ACTION_TYPE
  end.

(** [EsifUfExecuteTransform] with the algorithms of the package. *)
Definition transform (dsp : EsifDsp) (d : EsifData) (actionType opcode : Z) : option (Z * EsifData) :=
  match EsifUfExecuteTransform (Some d) (Some (mk_up (Some (get_algorithm dsp)))) actionType opcode with
  | Some (rc, Some d') => Some (rc, d')
  | _ => None
  end.

Definition voidRequest : EsifData := mk_EsifData ESIF_DATA_VOID None 0 0.

Definition EsifUp_ExecuteUfGetAction (dsp : EsifDsp) (p : EsifFpcPrimitive) (a : EsifFpcAction) (req rsp : option EsifData) : XM (Z * option EsifData) :=
  match rsp with
  | None => sret (ESIF_E_PARAMETER_IS_NULL, None)
  | Some rsp =>
      let req := default voidRequest req in
      let! s := sget in
      match EsifActMgr_GetAction (dev s) (act_type a) with
      | None => sret (ESIF_E_UNSUPPORTED_ACTION_TYPE, Some rsp)
      | Some i =>
          if (buf_len rsp <? esif_data_type_sizeof (type rsp)) || (buf_len req <? esif_data_type_sizeof (type req)) then
            sret (ESIF_E_REQ_SIZE_TYPE_MISTMATCH, Some rsp)
          else
            let! r := EsifUp_ExecuteIfaceGet i p a req rsp in
            if r.1 =? ESIF_OK then
              let! r := of_option (transform dsp r.2 (act_type a) ESIF_PRIMITIVE_OP_GET) in sret (r.1, Some r.2)
            else sret (r.1, Some r.2)
      end
  end.

(** A value with a unit is transformed in a copy. *)
Definition EsifUp_ExecuteUfSetAction (dsp : EsifDsp) (p : EsifFpcPrimitive) (a : EsifFpcAction) (req : option EsifData) : XM Z :=
  match req with
  | None => sret ESIF_E_PARAMETER_IS_NULL
  | Some req =>
      let! s := sget in
      match EsifActMgr_GetAction (dev s) (act_type a) with
      | None => sret ESIF_E_UNSUPPORTED_ACTION_TYPE
      | Some i =>
          if buf_len req <? esif_data_type_sizeof (type req) then
            sret (if data_len req =? 0 then ESIF_E_PARAMETER_IS_NULL else ESIF_E_REQ_SIZE_TYPE_MISTMATCH)
          else if needs_transform (type req) then
            match buf_ptr req with
            | None => sret ESIF_E_PARAMETER_IS_NULL
            | Some b =>
                if buf_len req <? 4 then sret ESIF_E_REQ_SIZE_TYPE_MISTMATCH
                else
                  let! xformedData := of_option (read_u32 b) in
                  let! copy := of_option (write_u32 xformedData [0; 0; 0; 0]) in
                  let! r := of_option (transform dsp (mk_EsifData (type req) (Some copy) 4 4) (act_type a) ESIF_PRIMITIVE_OP_SET) in
                  if r.1 =? ESIF_OK then EsifUp_ExecuteIfaceSet i p a r.2 else sret r.1
            end
          else EsifUp_ExecuteIfaceSet i p a req
      end
  end.

Definition EsifUp_ExecuteAction (dsp : EsifDsp) (p : EsifFpcPrimitive) (a : EsifFpcAction) (req rsp : option EsifData) : XM (Z * option EsifData) :=
  if 0 <? is_kernel a then sret (ESIF_E_NO_LOWER_FRAMEWORK, rsp)
  else if operation p =? ESIF_PRIMITIVE_OP_GET then EsifUp_ExecuteUfGetAction dsp p a req rsp
  else let! rc := EsifUp_ExecuteUfSetAction dsp p a req in sret (rc, rsp).

(** One trial of the action at index [i], recorded. *)
Definition attempt (dsp : EsifDsp) (p : EsifFpcPrimitive) (a : EsifFpcAction) (i kern : Z) (req rsp : option EsifData) : XM (Z * option EsifData) :=
  let! r := EsifUp_ExecuteAction dsp p a req rsp in
  smodify (fun s => mk_xst (dev s) (tried s ++ [(i, kern, r.1)])) ;! sret r.

(* ------------------------------------------------------------------ *)
(** ** The actions of a primitive *)

(** [ESIF_DATA_RETYPE]: the type, and whether it was left to the package. *)
Definition retype (t new : Z) : Z * bool := if t =? ESIF_DATA_AUTO then (new, true) else (t, false).

Definition with_type (t : Z) (d : EsifData) : EsifData := mk_EsifData t (buf_ptr d) (buf_len d) (data_len d).
Definition with_block (b : option (list Z)) (len : Z) (d : EsifData) : EsifData := mk_EsifData (type d) b len (data_len d).

Definition response_type (t : Z) : Z :=
  let t := if (t =? ESIF_DATA_UINT8) || (t =? ESIF_DATA_UINT16) then ESIF_DATA_UINT32 else t in
  if t =? ESIF_DATA_UNICODE then ESIF_DATA_STRING else t.
Definition response_size (t : Z) : Z :=
  if t =? ESIF_DATA_BINARY then 4096
  else if t =? ESIF_DATA_UNICODE then 256
  else if t =? ESIF_DATA_STRING then 128
  else if (t =? ESIF_DATA_UINT64) || (t =? ESIF_DATA_FREQUENCY) then 8
  else 4.

(** [esif_ccb_malloc] zeroes the block; [ok] says whether it is there. *)
Definition malloc (ok : bool) (size : Z) : option (list Z) := if ok then Some (replicate (Z.to_nat size) 0) else None.

(** The response after the preparation, and whether its size is left to the package;
    [inl] if there is no memory. *)
Definition prepare_response (mem : bool) (p : EsifFpcPrimitive) (rsp : EsifData) : EsifData + EsifData * bool :=
  let ty := retype (type rsp) (result_type p) in
  let rsp := with_type (response_type ty.1) rsp in
  match buf_ptr rsp with
  | None =>
      if buf_len rsp =? ESIF_DATA_ALLOCATE then
        let size := response_size (type rsp) in
        let rsp := with_block (malloc mem size) size rsp in
        if mem then inr (rsp, ty.2) else inl rsp
      else inr (rsp, ty.2)
  | Some _ => inr (rsp, ty.2)
  end.

(** Whether the selector lets the action at [i] be tried. *)
Definition selected (sel : EsifPrimitiveActionSelector) (i : Z) (a : EsifFpcAction) : bool :=
  let has f := negb (Z.land (flags sel) f =? 0) in
  let tryAll := Z.land (flags sel) (Z.lnot ESIF_PRIM_ACT_SEL_FLAG_EXCLUDE) =? 0 in
  let isTargetAction := (has ESIF_PRIM_ACT_SEL_FLAG_TYPE_VALID && (sel_type sel =? act_type a)) || (has ESIF_PRIM_ACT_SEL_FLAG_INDEX_VALID && (sel_index sel =? i)) in
  let excludeAction := has ESIF_PRIM_ACT_SEL_FLAG_EXCLUDE in
  tryAll || (isTargetAction && negb excludeAction) || (negb isTargetAction && excludeAction).
Definition only_index (sel : EsifPrimitiveActionSelector) (i : Z) : bool :=
  negb (Z.land (flags sel) ESIF_PRIM_ACT_SEL_FLAG_INDEX_VALID =? 0) && (sel_index sel =? i).

(** Trying one action: [inl] ends the search.  [mem] is the outcome of the
    reallocation. *)
Definition try_action (dsp : EsifDsp) (p : EsifFpcPrimitive) (rspAuto mem : bool) (a : EsifFpcAction) (i kern : Z) (req rsp : option EsifData) :
    XM (Z * option EsifData + Z * option EsifData) :=
  let! r := attempt dsp p a i kern req rsp in
  if r.1 =? ESIF_OK then sret (inl r)
  else if r.1 =? ESIF_E_NEED_LARGER_BUFFER then
    if negb rspAuto then sret (inl r)
    else
      match r.2 with
      | None => ub
      | Some d =>
          let d := with_block (malloc mem (data_len d)) (data_len d) d in
          if negb mem then sret (inl (ESIF_E_NO_MEMORY, Some d))
          else
            let! r := attempt dsp p a i kern req (Some d) in
            if r.1 =? ESIF_OK then sret (inl r) else sret (inr r)
      end
  else sret (inr r).

(** [n] actions are left, the next is number [i]; [rc] is the result so far and
    [supActRc] the last one of an action that is there. *)
Fixpoint actions_loop (dsp : EsifDsp) (p : EsifFpcPrimitive) (sel : EsifPrimitiveActionSelector) (rspAuto : bool) (mem : Z -> bool) (req : option EsifData)
    (n : nat) (i kern rc supActRc : Z) (rsp : option EsifData) : XM (Z * option EsifData) :=
  match n with
  | O => sret (rc, rsp)
  | S n =>
      match get_action dsp p (u8 i) with
      | None => sret (ESIF_E_PRIMITIVE_NO_ACTION_SUCCESSFUL, rsp)
      | Some a =>
          let kern' := if 0 <? is_kernel a then u16 (kern + 1) else kern in
          if selected sel i a then
            let! r := try_action dsp p rspAuto (mem i) a i kern req rsp in
            match r with
            | inl r => sret r
            | inr r =>
                let sup := if r.1 =? ESIF_E_UNSUPPORTED_ACTION_TYPE then supActRc else r.1 in
                if only_index sel i then sret (sup, r.2)
                else actions_loop dsp p sel rspAuto mem req n (i + 1) kern' sup sup r.2
            end
          else actions_loop dsp p sel rspAuto mem req n (i + 1) kern' rc supActRc rsp
      end
  end.

(** The result and the two buffers as the call leaves them. *)
Definition EsifUp_ExecuteSpecificActionPrimitive (mem : bool) (mems : Z -> bool) (up : option (option EsifDsp)) (tuple : option EsifPrimitiveTuple)
    (sel : option EsifPrimitiveActionSelector) (req rsp : option EsifData) : XM (Z * option EsifData * option EsifData) :=
  match up, tuple, sel with
  | Some up, Some tuple, Some sel =>
      match up with
      | None => sret (ESIF_E_NEED_DSP, req, rsp)
      | Some dsp =>
          if negb (has_type dsp) then sret (ESIF_E_NEED_DSP, req, rsp)
          else
            match get_primitive dsp tuple with
            | None => sret (ESIF_E_PRIMITIVE_NOT_FOUND_IN_DSP, req, rsp)
            | Some p =>
                if num_actions p =? 0 then sret (ESIF_E_PRIMITIVE_NO_ACTION_AVAIL, req, rsp)
                else
                  let req := option_map (fun d => with_type (retype (type d) (request_type p)).1 d) req in
                  match option_map (prepare_response mem p) rsp with
                  | Some (inl rsp) => sret (ESIF_E_NO_MEMORY, req, Some rsp)
                  | prepared =>
                      let rspAuto := match prepared with Some (inr (_, auto)) => auto | _ => false end in
                      let rsp := match prepared with Some (inr (d, _)) => Some d | _ => None end in
                      let! r := actions_loop dsp p sel rspAuto mems req (Z.to_nat (num_actions p)) 0 0
                        ESIF_E_PRIMITIVE_NO_ACTION_AVAIL ESIF_E_PRIMITIVE_NO_ACTION_AVAIL rsp in
                      sret (r.1, req, r.2)
                  end
            end
      end
  | _, _, _ => sret (ESIF_E_PARAMETER_IS_NULL, req, rsp)
  end.

Definition EsifUp_ExecutePrimitive (mem : bool) (mems : Z -> bool) (up : option (option EsifDsp)) (tuple : option EsifPrimitiveTuple)
    (req rsp : option EsifData) : XM (Z * option EsifData * option EsifData) :=
  EsifUp_ExecuteSpecificActionPrimitive mem mems up tuple (Some (mk_selector 0 0 0)) req rsp.

(** [pm] is the table of participants; a domain is a string of which the first two
    characters count. *)
Definition EsifExecutePrimitive (mem : bool) (mems : Z -> bool) (pm : Z -> option (option EsifDsp)) (participantId primitiveId : Z) (domain : option Z)
    (instance : Z) (req rsp : option EsifData) : XM (Z * option EsifData * option EsifData) :=
  match domain with
  | None => sret (ESIF_E_PARAMETER_IS_NULL, req, rsp)
  | Some domain =>
      match pm participantId with
      | None => sret (ESIF_E_PARTICIPANT_NOT_FOUND, req, rsp)
      | Some up => EsifUp_ExecutePrimitive mem mems (Some up) (Some (mk_tuple (u16 primitiveId) domain instance)) req rsp
      end
  end.
End World.

(** The questions about a primitive. *)
Definition EsifPrimitiveGetDataType (pm : Z -> option (option EsifDsp)) (participantId primitiveId domain instance opcode : Z) (has_ptr : bool) : Z * option Z :=
  if negb has_ptr then (ESIF_E_PARAMETER_IS_NULL, None)
  else
    match pm participantId with
    | None => (ESIF_E_INVALID_PARTICIPANT_ID, None)
    | Some None => (ESIF_E_NEED_DSP, None)
    | Some (Some dsp) =>
        match get_primitive dsp (mk_tuple (u16 primitiveId) domain instance) with
        | None => (ESIF_E_PRIMITIVE_NOT_FOUND_IN_DSP, None)
        | Some p =>
            if negb (opcode =? operation p) then (ESIF_E_INVALID_REQUEST_TYPE, None)
            else if operation p =? ESIF_PRIMITIVE_OP_GET then (ESIF_OK, Some (result_type p))
            else if operation p =? ESIF_PRIMITIVE_OP_SET then (ESIF_OK, Some (request_type p))
            else (ESIF_E_NOT_FOUND, None)
        end
    end.
Definition EsifPrimitiveVerifyOpcode (pm : Z -> option (option EsifDsp)) (participantId primitiveId domain instance opcode : Z) : bool :=
  match pm participantId with
  | Some (Some dsp) =>
      match get_primitive dsp (mk_tuple (u16 primitiveId) domain instance) with
      | Some p => opcode =? operation p
      | None => true
      end
  | _ => true
  end.

(* ------------------------------------------------------------------ *)
(** ** A transform has an outcome *)

Lemma to_decik_some inn v : is_Some (temp_scale inn) -> exists rc v', esif_convert_temp inn ESIF_TEMP_DECIK (Some v) = Some (rc, Some v').
Proof. intros [k Hk]. unfold esif_convert_temp. destruct (decide (inn = ESIF_TEMP_DECIK)); [eauto|]. rewrite Hk. destruct inn; try done; cbn; eauto. Qed.

Lemma from_decik_some out v : is_Some (temp_scale out) -> 0 <= v < 2 ^ 24 -> exists rc v', esif_convert_temp ESIF_TEMP_DECIK out (Some v) = Some (rc, Some v').
Proof.
  intros [k Hk] Hv. unfold esif_convert_temp. destruct (decide _); [eauto|]. rewrite Hk. cbn [temp_scale is_kelvin].
  rewrite wrap_small by (unfold in_range; lia). destruct (is_kelvin out) eqn:Ek; [eauto|].
  assert (E : s32 (v * 100 - DPTF_KELVIN_BASE * 100) = v * 100 - DPTF_KELVIN_BASE * 100) by (apply s32_small; unfold DPTF_KELVIN_BASE; lia).
  assert (Hd : forall h d, 0 <= h <= 500 -> is_Some (if 0 <=? v * 100 - DPTF_KELVIN_BASE * 100 then div_int (v * 100 - DPTF_KELVIN_BASE * 100 + h) d else div_int (v * 100 - DPTF_KELVIN_BASE * 100 - h) d)).
  { intros h d Hh. unfold div_int, DPTF_KELVIN_BASE. destruct (_ <=? _); rewrite (proj2 (Z.leb_le _ _)), (proj2 (Z.ltb_lt _ _)) by lia; by eexists. }
  destruct out; try done; cbn [esif_temp_mk2c]; rewrite E; eauto.
  all: match goal with |- context [div_int (_ + ?h) ?d] => destruct (Hd h d ltac:(lia)) as [x Ex] end; rewrite Ex; eauto.
Qed.

Lemma temp_algorithm_scale algo u : temp_algorithm algo = inr u -> is_Some (temp_scale u).
Proof. unfold temp_algorithm. repeat case_match; intros [= <-]; by eexists. Qed.

(** The transforms of the four types. *)
Definition xform_of (dsp : EsifDsp) (a : esif_fpc_algorithm) (ty op : Z) (v : option Z) : option (Z * option Z) :=
  let u := Some (mk_up (Some (get_algorithm dsp))) in
  if ty =? ESIF_DATA_TEMPERATURE then EsifUfXformTemp NORMALIZE_TEMP_TYPE (temp_xform a) op u v
  else if ty =? ESIF_DATA_POWER then Some (EsifUfXformPower NORMALIZE_POWER_UNIT_TYPE (power_xform a) op u v)
  else if ty =? ESIF_DATA_TIME then Some (EsifUfXformTime NORMALIZE_TIME_TYPE (time_xform a) op u v)
  else Some (EsifUfXformPercent NORMALIZE_PERCENT_TYPE (percent_xform a) op u v).

Definition temp_small (ty v : Z) : Prop := ty = ESIF_DATA_TEMPERATURE -> 0 <= v < 2 ^ 24.

Lemma convert_power_some i o v : exists v', (esif_convert_power i o (Some v)).2 = Some v'.
Proof. unfold esif_convert_power, narrow. repeat case_match; cbn; eauto. Qed.
Lemma convert_time_some i o v : exists v', (esif_convert_time i o (Some v)).2 = Some v'.
Proof. unfold esif_convert_time, narrow. repeat case_match; cbn; eauto. Qed.
Lemma convert_percent_some i o v : exists v', (esif_convert_percent i o (Some v)).2 = Some v'.
Proof. unfold esif_convert_percent, narrow. repeat case_match; cbn; eauto. Qed.

Lemma xform_some dsp a ty op v : op = ESIF_PRIMITIVE_OP_GET \/ temp_small ty v -> exists rc v', xform_of dsp a ty op (Some v) = Some (rc, Some v').
Proof.
  intros Hop. unfold xform_of. destruct (ty =? ESIF_DATA_TEMPERATURE) eqn:Et.
  { unfold EsifUfXformTemp. cbn [up_dsp]. destruct (temp_algorithm _) as [none|dv] eqn:Ea; [eauto|]. pose proof (temp_algorithm_scale _ _ Ea).
    destruct (op =? ESIF_PRIMITIVE_OP_GET) eqn:Eo.
    - destruct (to_decik_some dv v) as (rc & v' & E); [done|]. unfold NORMALIZE_TEMP_TYPE. rewrite E. eauto.
    - destruct Hop as [->|Hs]; [done|]. destruct (from_decik_some dv v) as (rc & v' & E); [done|apply Hs; lia|]. unfold NORMALIZE_TEMP_TYPE. rewrite E. eauto. }
  destruct (ty =? ESIF_DATA_POWER); [|destruct (ty =? ESIF_DATA_TIME)].
  - unfold EsifUfXformPower. destruct (power_algorithm _) as [none|dv]; [eauto|]. destruct (op =? _); edestruct convert_power_some as [v' E]; rewrite E; eauto.
  - unfold EsifUfXformTime. destruct (time_algorithm _) as [none|dv]; [eauto|]. destruct (op =? _); edestruct convert_time_some as [v' E]; rewrite E; eauto.
  - unfold EsifUfXformPercent. destruct (percent_algorithm _) as [none|dv]; [eauto|]. destruct (op =? _); edestruct convert_percent_some as [v' E]; rewrite E; eauto.
Qed.

(** The buffer is as large as it is said to be. *)
Definition room (d : EsifData) : Prop := match buf_ptr d with Some b => buf_len d <= Z.of_nat (length b) | None => True end.

Lemma needs_transform_size ty : needs_transform ty = true -> esif_data_type_sizeof ty = 4.
Proof. unfold needs_transform. rewrite !orb_true_iff, !Z.eqb_eq. intros [[[->| ->]| ->]| ->]; done. Qed.

Lemma transform_some dsp d ty op : room d -> (needs_transform (type d) = true -> 4 <= buf_len d) ->
  op = ESIF_PRIMITIVE_OP_GET \/ (forall b v, buf_ptr d = Some b -> read_u32 b = Some v -> temp_small (type d) v) ->
  exists rc d', transform dsp d ty op = Some (rc, d') /\ type d' = type d /\ buf_len d' = buf_len d /\ room d'.
Proof.
  intros Hr Hl Hop. unfold transform, EsifUfExecuteTransform. cbn [up_dsp]. destruct (needs_transform (type d)) eqn:En; cbn [negb]; [|by eexists _, _].
  destruct (get_algorithm dsp ty) as [a|]; [|by eexists _, _].
  match goal with |- context [transform_buffer ?f d] => change f with (xform_of dsp a (type d) op) end.
  unfold transform_buffer. unfold room in Hr. destruct (buf_ptr d) as [b|] eqn:Eb.
  - destruct (read_u32_some b) as [v Ev]; [specialize (Hl eq_refl); lia|]. rewrite Ev.
    destruct (xform_some dsp a (type d) op v) as (rc & v' & Ex); [destruct Hop as [->|Hop]; [by left|right; eauto]|]. rewrite Ex.
    destruct (write_u32_some v' b) as (b' & Ew & Hlen & _); [specialize (Hl eq_refl); lia|]. rewrite Ew. eexists _, _. split; [done|]. unfold room. cbn. split_and!; [done..|lia].
  - assert (E : exists rc, xform_of dsp a (type d) op None = Some (rc, None)).
    { unfold xform_of. repeat case_match; by eexists. }
    destruct E as [rc E]. rewrite E. eexists _, _. split; [done|]. unfold room. by rewrite Eb.
Qed.

(* ------------------------------------------------------------------ *)
(** ** The actions are tried in order until one succeeds *)

(** What became of one action: the result, and the result of the second try if the
    response had to grow. *)
Record trial : Type := mk_trial { tr_index : Z; tr_kern : Z; tr_first : Z; tr_again : option Z }.
Definition trial_log (t : trial) : list (Z * Z * Z) :=
  (tr_index t, tr_kern t, tr_first t) :: match tr_again t with Some rc => [(tr_index t, tr_kern t, rc)] | None => [] end.
Definition tr_rc (t : trial) : Z := default (tr_first t) (tr_again t).
(** The search goes on after [t]. *)
Definition failed (t : trial) : bool :=
  negb (tr_rc t =? ESIF_OK) && (negb (tr_first t =? ESIF_E_NEED_LARGER_BUFFER) || bool_decide (is_Some (tr_again t))).
(** An action is tried again exactly when it wants a larger response, the size was
    left to the package and there is memory ([mems], by the action's index). *)
Definition again_when_too_small (auto : bool) (mems : Z -> bool) (t : trial) : Prop :=
  is_Some (tr_again t) <-> tr_first t = ESIF_E_NEED_LARGER_BUFFER /\ auto = true /\ mems (tr_index t) = true.
(** The result of a search that [t] ends. *)
Definition verdict (auto : bool) (mems : Z -> bool) (t : trial) : Z :=
  if (tr_first t =? ESIF_E_NEED_LARGER_BUFFER) && auto && negb (mems (tr_index t)) then ESIF_E_NO_MEMORY else tr_rc t.
(** The last result that is not just a missing action. *)
Definition result_of (r0 : Z) (ts : list trial) : Z :=
  foldl (fun r t => if tr_rc t =? ESIF_E_UNSUPPORTED_ACTION_TYPE then r else tr_rc t) r0 ts.

Section Reference.
Context (acts : list EsifFpcAction) (sel : EsifPrimitiveActionSelector).

Definition may_try (i : Z) : bool := match acts !! Z.to_nat i with Some a => selected sel i a | None => false end.
(** A selected index is the last one. *)
Fixpoint until (stop : Z -> bool) (l : list Z) : list Z :=
  match l with [] => [] | i :: l => i :: if stop i then [] else until stop l end.
Definition candidates (i n : Z) : list Z := until (only_index sel) (filter (fun i => may_try i = true) (seqZ i n)).
Definition kernel_number (i : Z) : Z := u16 (Z.of_nat (length (filter (fun a => 0 < is_kernel a) (take (Z.to_nat i) acts)))).

(** How the candidates [cs] were tried: [ts] failed, and [last] ended the search
    before its end. *)
Record searched (auto : bool) (mems : Z -> bool) (r0 : Z) (cs : list Z) (ts : list trial) (last : option trial) (rc : Z) : Prop := {
  in_order : exists rest, cs = map tr_index (ts ++ option_list last) ++ rest /\ (last = None -> rest = []);
  numbered : Forall (fun t => tr_kern t = kernel_number (tr_index t) /\ again_when_too_small auto mems t) (ts ++ option_list last);
  all_failed : Forall (fun t => failed t = true) ts;
  ended : match last with Some t => failed t = false /\ rc = verdict auto mems t | None => rc = result_of r0 ts end
}.
End Reference.

Section Search.
Context {W : Type} (EsifActMgr_GetAction : W -> Z -> option (EsifActIface (W := W))) (dsp : EsifDsp).

(** The buffer has the size that the type needs. *)
Definition fits (d : EsifData) : Prop := room d /\ esif_data_type_sizeof (type d) <= buf_len d.
(** An action leaves the response within its buffer. *)
Definition good_get (f : get_func (W := W)) : Prop := forall p a req rsp (w : W), fits rsp -> fits (f p a req rsp w).1.2.
Definition good_iface (op : Z) (i : EsifActIface (W := W)) : Prop :=
  match i with
  | IFACE_STATIC g _ => forall f, g = Some f -> good_get f
  | IFACE_V4 g s => (forall f, g = Some f -> good_get f) /\ (op <> ESIF_PRIMITIVE_OP_GET -> is_Some s)
  | IFACE_OTHER => True
  end.
(** A temperature to be set is below 16 million tenths of a degree. *)
Definition good_request (op : Z) (req : option EsifData) : Prop :=
  op = ESIF_PRIMITIVE_OP_GET \/ forall d, req = Some d -> room d /\ forall b v, buf_ptr d = Some b -> read_u32 b = Some v -> temp_small (type d) v /\ 0 <= v < 2 ^ 32.

Definition good_response (rsp : option EsifData) : Prop := forall d, rsp = Some d -> room d.

Context (p : EsifFpcPrimitive) (Hactions : forall w ty i, EsifActMgr_GetAction w ty = Some i -> good_iface (operation p) i).

Lemma iface_get_some i a req rsp s : good_iface (operation p) i -> fits rsp ->
  exists rc rsp' s', EsifUp_ExecuteIfaceGet i p a req rsp s = Some ((rc, rsp'), s') /\ tried s' = tried s /\ fits rsp'.
Proof.
  intros Hi Hf. assert (Hrun : forall f, good_get f -> exists rc rsp' s', run_get f p a req rsp s = Some ((rc, rsp'), s') /\ tried s' = tried s /\ fits rsp').
  { intros f Hg. eexists _, _, _. split; [reflexivity|]. split; [done|]. by apply Hg. }
  destruct i as [[f|] ?|[f|] ?|]; cbn [EsifUp_ExecuteIfaceGet EsifActCallPluginGet]; try (by eexists _, _, _).
  - apply Hrun, Hi. done.
  - destruct (get_params a =? ESIF_OK); [|by eexists _, _, _]. apply Hrun, (proj1 Hi). done.
Qed.

Lemma iface_set_some i a req s : good_iface (operation p) i -> operation p <> ESIF_PRIMITIVE_OP_GET ->
  exists rc s', EsifUp_ExecuteIfaceSet i p a req s = Some (rc, s') /\ tried s' = tried s.
Proof.
  intros Hi Hop. destruct i as [? [f|]|? [f|]|]; cbn [EsifUp_ExecuteIfaceSet]; unfold EsifActCallPluginSet; try (by eexists _, _).
  - destruct (get_params a =? ESIF_OK); by eexists _, _.
  - destruct (proj2 Hi Hop). done.
Qed.

Lemma get_action_some a req rsp s : good_response rsp ->
  exists rc rsp' s', EsifUp_ExecuteUfGetAction EsifActMgr_GetAction dsp p a req rsp s = Some ((rc, rsp'), s') /\ tried s' = tried s /\
    good_response rsp' /\ (is_Some rsp -> is_Some rsp').
Proof.
  intros Hr. unfold EsifUp_ExecuteUfGetAction. destruct rsp as [rsp|]; [|by eexists _, _, _].
  unfold sbind at 1, sget. destruct (EsifActMgr_GetAction _ _) as [i|] eqn:Ei; [|by eexists _, _, _].
  destruct (_ || _) eqn:Es; [by eexists _, _, _|]. apply orb_false_iff in Es as [Es _]. apply Z.ltb_ge in Es.
  destruct (iface_get_some i a (default voidRequest req) rsp s) as (rc & rsp' & s' & E & Ht & Hf); [by eapply Hactions|by split; [apply Hr|]|].
  rewrite (sbind_some _ _ _ _ _ E). cbn [fst snd]. destruct (rc =? ESIF_OK).
  - destruct (transform_some dsp rsp' (act_type a) ESIF_PRIMITIVE_OP_GET) as (rc' & d' & Et & _ & _ & Hroom); [apply Hf| |by left|].
    { intros Hn. rewrite <- (needs_transform_size _ Hn). apply Hf. }
    rewrite Et. eexists _, _, _. split; [reflexivity|]. split; [done|]. split; [by intros ? [= <-]|by eexists].
  - eexists _, _, _. split; [reflexivity|]. split; [done|]. split; [intros ? [= <-]; apply Hf|by eexists].
Qed.

Lemma set_action_some a req s : operation p <> ESIF_PRIMITIVE_OP_GET -> good_request (operation p) req ->
  exists rc s', EsifUp_ExecuteUfSetAction EsifActMgr_GetAction dsp p a req s = Some (rc, s') /\ tried s' = tried s.
Proof.
  intros Hop [?|Hreq]; [done|]. unfold EsifUp_ExecuteUfSetAction. destruct req as [req|]; [|by eexists _, _].
  destruct (Hreq req eq_refl) as [Hroom Hv]. unfold sbind at 1, sget. destruct (EsifActMgr_GetAction _ _) as [i|] eqn:Ei; [|by eexists _, _].
  pose proof (Hactions _ _ _ Ei) as Hi. destruct (_ <? _); [by eexists _, _|]. destruct (needs_transform _) eqn:En; [|by apply iface_set_some].
  unfold room in Hroom. destruct (buf_ptr req) as [b|] eqn:Eb; [|by eexists _, _]. destruct (Z.ltb_spec (buf_len req) 4); [by eexists _, _|].
  destruct (read_u32_some b) as [v Ev]; [lia|]. destruct (Hv b v eq_refl Ev) as [Hsmall Hrange].
  destruct (write_u32_some v [0; 0; 0; 0]) as (c & Ec & Hlen & _); [done|]. rewrite Ev. cbn [of_option]. unfold sbind at 1, sret at 1. rewrite Ec. cbn [of_option]. unfold sbind at 1, sret at 1. unfold sbind at 1.
  destruct (transform_some dsp (mk_EsifData (type req) (Some c) 4 4) (act_type a) ESIF_PRIMITIVE_OP_SET) as (rc & d' & Et & _).
  - unfold room. cbn. rewrite Hlen. done.
  - done.
  - right. cbn. intros ? w [= <-] Hw. rewrite (write_read v _ _ Hrange Ec) in Hw. by injection Hw as <-.
  - rewrite Et. cbn [of_option]. unfold sret at 1. cbn [fst snd]. destruct (rc =? ESIF_OK); [by apply iface_set_some|by eexists _, _].
Qed.

Lemma attempt_some a i kern req rsp s : good_request (operation p) req -> good_response rsp ->
  exists rc rsp' s', attempt EsifActMgr_GetAction dsp p a i kern req rsp s = Some ((rc, rsp'), s') /\ tried s' = tried s ++ [(i, kern, rc)] /\
    good_response rsp' /\ (is_Some rsp -> is_Some rsp').
Proof.
  intros Hreq Hrsp. unfold attempt. assert (H : exists rc rsp' s', EsifUp_ExecuteAction EsifActMgr_GetAction dsp p a req rsp s = Some ((rc, rsp'), s') /\
    tried s' = tried s /\ good_response rsp' /\ (is_Some rsp -> is_Some rsp')).
  { unfold EsifUp_ExecuteAction. destruct (0 <? is_kernel a); [by eexists _, _, _|]. destruct (Z.eqb_spec (operation p) ESIF_PRIMITIVE_OP_GET) as [Ho|Ho]; [by apply get_action_some|].
    destruct (set_action_some a req s Ho Hreq) as (rc & s' & E & Ht). rewrite (sbind_some _ _ _ _ _ E). by eexists _, _, _. }
  destruct H as (rc & rsp' & s' & E & Ht & Hg & Hs). rewrite (sbind_some _ _ _ _ _ E). eexists _, _, _. split; [reflexivity|]. cbn. by rewrite Ht.
Qed.

Lemma room_block d (n : Z) (b : bool) : room (with_block (malloc b n) n d).
Proof. unfold room, malloc. destruct b; [|done]. cbn. rewrite length_replicate. lia. Qed.

Lemma try_action_some rspAuto mems a i kern req rsp s : good_request (operation p) req -> good_response rsp -> (rspAuto = true -> is_Some rsp) ->
  exists r s' t, try_action EsifActMgr_GetAction dsp p rspAuto (mems i) a i kern req rsp s = Some (r, s') /\ tried s' = tried s ++ trial_log t /\
    tr_index t = i /\ tr_kern t = kern /\ again_when_too_small rspAuto mems t /\
    match r with
    | inl r => failed t = false /\ r.1 = verdict rspAuto mems t
    | inr r => failed t = true /\ r.1 = tr_rc t /\ good_response r.2 /\ (is_Some rsp -> is_Some r.2)
    end.
Proof.
  intros Hreq Hrsp Hauto. unfold try_action. destruct (attempt_some a i kern req rsp s Hreq Hrsp) as (rc & rsp' & s' & E & Ht & Hg & Hs).
  rewrite (sbind_some _ _ _ _ _ E). cbn [fst snd].
  assert (Hnone : forall rc, rc <> ESIF_E_NEED_LARGER_BUFFER \/ rspAuto = false \/ mems i = false -> again_when_too_small rspAuto mems (mk_trial i kern rc None)).
  { intros rc0 Hc. split; [by intros [? ?]|]. cbn. intros (H1 & H2 & H3). destruct Hc as [?|[?|?]]; congruence. }
  destruct (rc =? ESIF_OK) eqn:Eok.
  { apply Z.eqb_eq in Eok as ->. exists (inl (ESIF_OK, rsp')), s', (mk_trial i kern ESIF_OK None). split_and!; try done. apply Hnone. by left. }
  destruct (rc =? ESIF_E_NEED_LARGER_BUFFER) eqn:Eneed.
  - apply Z.eqb_eq in Eneed as ->. destruct rspAuto; cbn [negb].
    + destruct (Hs (Hauto eq_refl)) as [d ->]. destruct (mems i) eqn:Em; cbn [negb].
      * set (d' := with_block _ _ _). destruct (attempt_some a i kern req (Some d') s' Hreq) as (rc2 & rsp2 & s2 & E2 & Ht2 & Hg2 & Hs2); [intros ? [= <-]; apply room_block|].
        rewrite (sbind_some _ _ _ _ _ E2). cbn [fst snd]. rewrite Ht, <- app_assoc in Ht2.
        assert (Hagain : again_when_too_small true mems (mk_trial i kern ESIF_E_NEED_LARGER_BUFFER (Some rc2))) by (split; [by intros _|by eexists]).
        destruct (rc2 =? ESIF_OK) eqn:E2ok; eexists _, s2, (mk_trial i kern ESIF_E_NEED_LARGER_BUFFER (Some rc2)); (split; [reflexivity|]); split_and!; try done.
        all: try (intros _; by apply Hs2). all: unfold failed, verdict, tr_rc; cbn; rewrite ?E2ok, ?Em; done.
      * eexists _, s', (mk_trial i kern ESIF_E_NEED_LARGER_BUFFER None). split; [reflexivity|]. split_and!; try done; [apply Hnone; auto|]. unfold verdict. cbn. by rewrite Em.
    + eexists _, s', (mk_trial i kern ESIF_E_NEED_LARGER_BUFFER None). split; [reflexivity|]. split_and!; try done. apply Hnone. auto.
  - exists (inr (rc, rsp')), s', (mk_trial i kern rc None). split_and!; try done; [apply Hnone; left; by apply Z.eqb_neq|]. unfold failed, tr_rc. cbn [tr_again tr_first default]. by rewrite Eok, Eneed.
Qed.

Context (acts : list EsifFpcAction) (sel : EsifPrimitiveActionSelector)
  (Hacts : forall i, 0 <= i < Z.of_nat (length acts) -> get_action dsp p (u8 i) = acts !! Z.to_nat i).

Lemma kernel_number_next i a : 0 <= i -> acts !! Z.to_nat i = Some a ->
  kernel_number acts (i + 1) = if 0 <? is_kernel a then u16 (kernel_number acts i + 1) else kernel_number acts i.
Proof.
  intros Hi Ha. unfold kernel_number. rewrite Z2Nat.inj_add by lia. rewrite Nat.add_1_r. erewrite take_S_r by exact Ha. rewrite filter_app, length_app.
  cbn [filter list_filter]. destruct (Z.ltb_spec 0 (is_kernel a)).
  - rewrite decide_True by done. cbn [length]. rewrite Nat2Z.inj_add. rewrite wrap_add_l. done.
  - rewrite decide_False by lia. cbn [length]. by rewrite Nat.add_0_r.
Qed.

Lemma candidates_cons i n a : 0 <= i -> acts !! Z.to_nat i = Some a ->
  candidates acts sel i (Z.of_nat (S n)) =
    if selected sel i a then i :: if only_index sel i then [] else candidates acts sel (i + 1) (Z.of_nat n) else candidates acts sel (i + 1) (Z.of_nat n).
Proof.
  intros Hi Ha. unfold candidates. rewrite Nat2Z.inj_succ, seqZ_cons by lia. rewrite Z.pred_succ, <- Z.add_1_r. rewrite filter_cons.
  assert (E : may_try acts sel i = selected sel i a) by (unfold may_try; by rewrite Ha).
  destruct (selected sel i a); [by rewrite decide_True|rewrite decide_False; [done|by rewrite E]].
Qed.

Lemma loop_some rspAuto mem req n : forall i r0 rsp s, good_request (operation p) req -> good_response rsp -> (rspAuto = true -> is_Some rsp) ->
  0 <= i -> i + Z.of_nat n = Z.of_nat (length acts) ->
  exists rc rsp' s' ts last,
    actions_loop EsifActMgr_GetAction dsp p sel rspAuto mem req n i (kernel_number acts i) r0 r0 rsp s = Some ((rc, rsp'), s') /\
    tried s' = tried s ++ concat (map trial_log (ts ++ option_list last)) /\
    searched acts rspAuto mem r0 (candidates acts sel i (Z.of_nat n)) ts last rc.
Proof.
  induction n as [|n IH]; intros i r0 rsp s Hreq Hrsp Hauto Hi Hn.
  { exists r0, rsp, s, [], None. split; [reflexivity|]. split; [by rewrite app_nil_r|]. split; [by exists []|by apply Forall_nil|by apply Forall_nil|done]. }
  cbn [actions_loop]. rewrite (Hacts i) by lia. destruct (lookup_lt_is_Some_2 acts (Z.to_nat i)) as [a Ea]; [lia|]. rewrite Ea.
  rewrite (candidates_cons i n a Hi Ea), <- (kernel_number_next i a Hi Ea). destruct (selected sel i a) eqn:Es.
  - destruct (try_action_some rspAuto mem a i (kernel_number acts i) req rsp s Hreq Hrsp Hauto) as (r & s' & t & E & Ht & Ti & Tk & Tf & Hr).
    rewrite (sbind_some _ _ _ _ _ E). destruct r as [[rc rsp']|[rc rsp']]; cbn [fst snd] in *.
    + destruct Hr as [Hf ->]. eexists _, rsp', s', [], (Some t). split; [reflexivity|]. cbn. split; [by rewrite app_nil_r|].
      split; [eexists; split; [cbn; by rewrite Ti|done]|apply Forall_singleton; by rewrite Tk, Ti|by apply Forall_nil|done].
    + destruct Hr as (Hf & -> & Hg & Hs). destruct (only_index sel i).
      * eexists _, rsp', s', [t], None. split; [reflexivity|]. cbn. split; [by rewrite app_nil_r|].
        split; [exists []; split; [cbn; by rewrite Ti|done]|apply Forall_singleton; by rewrite Tk, Ti|by apply Forall_singleton|done].
      * set (sup := if tr_rc t =? ESIF_E_UNSUPPORTED_ACTION_TYPE then r0 else tr_rc t).
        destruct (IH (i + 1) sup rsp' s' Hreq Hg ltac:(auto) ltac:(lia) ltac:(lia)) as (rc' & rsp2 & s2 & ts & last & E2 & Ht2 & [[rest [Hc Hrest]] Hnum Hall Hend]).
        exists rc', rsp2, s2, (t :: ts), last. split; [done|]. split; [rewrite Ht2, Ht; cbn [app map concat]; by rewrite <- app_assoc|].
        split; [exists rest; split; [cbn; by rewrite Ti, Hc|done]|cbn; constructor; [by rewrite Tk, Ti|done]|by constructor|]. by destruct last.
  - destruct (IH (i + 1) r0 rsp s Hreq Hrsp Hauto ltac:(lia) ltac:(lia)) as (rc' & rsp2 & s2 & ts & last & E2 & H). by exists rc', rsp2, s2, ts, last.
Qed.
End Search.

Lemma result_of_not_ok r0 ts : r0 <> ESIF_OK -> Forall (fun t => failed t = true) ts -> result_of r0 ts <> ESIF_OK.
Proof.
  intros Hr H. unfold result_of. revert r0 Hr. induction H as [|t ts Ht _ IH]; intros r0 Hr; cbn [foldl]; [done|]. apply IH.
  destruct (_ =? _); [done|]. unfold failed in Ht. apply andb_true_iff in Ht as [Ht _]. by apply negb_true_iff, Z.eqb_neq in Ht.
Qed.

Lemma searched_ok acts auto mems r0 cs ts last rc : r0 <> ESIF_OK -> searched acts auto mems r0 cs ts last rc ->
  rc = ESIF_OK <-> exists t, last = Some t /\ tr_rc t = ESIF_OK.
Proof.
  intros Hr [_ Hnum Hf He]. destruct last as [t|].
  - destruct He as [_ ->]. apply Forall_app in Hnum as [_ Hnum]. destruct (Forall_inv Hnum) as [_ Hagain]. unfold verdict.
    destruct ((tr_first t =? _) && _ && _) eqn:E; [|split; [by exists t|by intros (? & [= <-] & ?)]].
    rewrite !andb_true_iff, negb_true_iff, Z.eqb_eq in E. destruct E as [[E1 E2] E3]. split; [done|]. intros (? & [= <-] & H).
    destruct (tr_again t) as [x|] eqn:Ea; [destruct (proj1 Hagain) as (_ & _ & ?); [rewrite Ea; by eexists|congruence]|].
    unfold tr_rc in H. rewrite Ea in H. cbn in H. by rewrite H in E1.
  - subst rc. split; [|by intros (? & ? & _)]. intros H. by destruct (result_of_not_ok r0 ts Hr Hf).
Qed.

(** Whether the size of the response is left to the package. *)
Definition auto_response (rsp : option EsifData) : bool := match rsp with Some d => type d =? ESIF_DATA_AUTO | None => false end.
(** The request with the type that the package gives it. *)
Definition typed_request (p : EsifFpcPrimitive) (req : option EsifData) : option EsifData :=
  option_map (fun d => with_type (retype (type d) (request_type p)).1 d) req.

Lemma prepare_some p rsp : good_response rsp -> exists r,
  option_map (prepare_response true p) rsp = option_map inr r /\ good_response (option_map fst r) /\
  (match r with Some (_, auto) => auto | None => false end) = auto_response rsp /\ (auto_response rsp = true -> is_Some (option_map fst r)).
Proof.
  intros H. destruct rsp as [d|]; [|by exists None]. cbn [option_map]; unfold prepare_response; cbv zeta. set (ty := retype (type d) (result_type p)).
  assert (E : ty.2 = (type d =? ESIF_DATA_AUTO)) by (unfold ty, retype; by destruct (_ =? _)). specialize (H d eq_refl).
  destruct (buf_ptr (with_type (response_type ty.1) d)) as [b|] eqn:Eb; [|destruct (buf_len (with_type (response_type ty.1) d) =? ESIF_DATA_ALLOCATE)]; (eexists (Some (_, _)); split; [reflexivity|]); (split; [|split; [done|by eexists]]); intros ? [= <-].
  - done.
  - exact (room_block _ _ true).
  - by unfold room; rewrite Eb.
Qed.

(** C34: A primitive tries the actions of the support package that the selector
    allows, in the package's order and up to a selected index, each with the number
    of kernel actions before it, until one ends the search.  An action is tried a
    second time exactly when its first answer was that the response is too small,
    the response's size was left to the package and there is memory for a larger
    one.  All before the last have failed; the result is ESIF_OK iff the last
    attempt gave it, it is that of the action that ended the search, or
    ESIF_E_NO_MEMORY if its response could not grow, and otherwise the last failure
    that is not a missing action.  The search has an outcome whatever the actions do
    within their buffers, as long as there is memory for the first response, the
    package has as many actions as it says, a plugin that is loaded has the function
    for a SET (a missing one is called all the same, esif_uf_action.c:739) and a
    temperature to be set is below 2^24 tenths of a degree, so that its conversion
    does not overflow. *)
Theorem primitive_tries_actions_in_order {W} (EsifActMgr_GetAction : W -> Z -> option (EsifActIface (W := W))) (dsp : EsifDsp) (p : EsifFpcPrimitive)
    (acts : list EsifFpcAction) (sel : EsifPrimitiveActionSelector) (tuple : EsifPrimitiveTuple) (mems : Z -> bool) (req rsp : option EsifData) (s : xst)
    (Hty : has_type dsp = true) (Hprim : get_primitive dsp tuple = Some p) (Hn : num_actions p = Z.of_nat (length acts)) (Hne : acts <> [])
    (Hacts : forall i, 0 <= i < num_actions p -> get_action dsp p (u8 i) = acts !! Z.to_nat i)
    (Hactions : forall w ty i, EsifActMgr_GetAction w ty = Some i -> good_iface (operation p) i)
    (Hreq : good_request (operation p) (typed_request p req)) (Hrsp : good_response rsp) :
  exists rc rsp' s' ts last,
    EsifUp_ExecuteSpecificActionPrimitive EsifActMgr_GetAction true mems (Some (Some dsp)) (Some tuple) (Some sel) req rsp s =
      Some ((rc, typed_request p req, rsp'), s') /\
    tried s' = tried s ++ concat (map trial_log (ts ++ option_list last)) /\
    searched acts (auto_response rsp) mems ESIF_E_PRIMITIVE_NO_ACTION_AVAIL (candidates acts sel 0 (num_actions p)) ts last rc /\
    (rc = ESIF_OK <-> exists t, last = Some t /\ tr_rc t = ESIF_OK).
Proof.
  unfold EsifUp_ExecuteSpecificActionPrimitive. rewrite Hty, Hprim. cbn [negb]. rewrite (proj2 (Z.eqb_neq _ _)) by (rewrite Hn; destruct acts; [done|cbn; lia]).
  destruct (prepare_some p rsp Hrsp) as (r & Er & Hg & Ea & Hs). rewrite Er. rewrite Hn in Hacts.
  destruct (loop_some EsifActMgr_GetAction dsp p Hactions acts sel Hacts (auto_response rsp) mems (typed_request p req) (length acts) 0
    ESIF_E_PRIMITIVE_NO_ACTION_AVAIL (option_map fst r) s Hreq Hg Hs) as (rc & rsp' & s' & ts & last & E & Ht & H); [lia|lia|].
  change (kernel_number acts 0) with 0 in E. exists rc, rsp', s', ts, last. rewrite Hn. split; [|split; [done|split; [done|]]; refine (searched_ok _ _ _ _ _ _ _ _ _ H); done].
  rewrite Nat2Z.id. destruct r as [[d auto]|]; cbn [option_map fst] in *; rewrite <- Ea in E; fold (typed_request p req); by rewrite (sbind_some _ _ _ _ _ E).
Qed.

Module ExecDemo.
(** A kernel action, one that is not loaded, and a string of six characters. *)
Definition acts : list EsifFpcAction := [mk_action 5 1 0; mk_action 30 0 0; mk_action 12 0 0].
Definition p : EsifFpcPrimitive := mk_primitive ESIF_PRIMITIVE_OP_GET ESIF_DATA_VOID ESIF_DATA_STRING 3.
Definition dsp : EsifDsp := mk_dsp true (fun t => if t_id t =? 14 then Some p else None) (fun _ i => acts !! Z.to_nat i) (fun _ => None).
Definition get_name : get_func (W := Z) := fun _ _ _ rsp w =>
  match buf_ptr rsp with
  | Some b => if buf_len rsp <? 200 then (ESIF_E_NEED_LARGER_BUFFER, mk_EsifData (type rsp) (Some b) (buf_len rsp) 200, w + 1)
              else (ESIF_OK, mk_EsifData (type rsp) (Some (65 :: drop 1 b)) (buf_len rsp) 200, w + 1)
  | None => (ESIF_E_PARAMETER_IS_NULL, rsp, w)
  end.
Definition EsifActMgr_GetAction (w : Z) (ty : Z) : option (EsifActIface (W := Z)) := if ty =? 12 then Some (IFACE_STATIC (Some get_name) None) else None.
Definition response : EsifData := mk_EsifData ESIF_DATA_AUTO None ESIF_DATA_ALLOCATE 0.
Definition run (rsp : option EsifData) := EsifUp_ExecuteSpecificActionPrimitive EsifActMgr_GetAction true (fun _ => true) (Some (Some dsp)) (Some (mk_tuple 14 0 255)) (Some (mk_selector 0 0 0)) None rsp.

Lemma get_name_good : good_get get_name.
Proof.
  intros p0 a req rsp w [Hr Hs]. unfold get_name. unfold room in Hr. destruct (buf_ptr rsp) as [b|] eqn:Eb; [|cbn [fst snd]; split; [unfold room; by rewrite Eb|done]].
  destruct (_ <? _) eqn:El; (split; [unfold room; cbn|done]); [done|]. rewrite length_drop. lia.
Qed.
End ExecDemo.

Lemma primitive_tries_actions_in_order_witness :
  option_map (fun r => (r.1.1.1, tried r.2)) (ExecDemo.run (Some ExecDemo.response) (mk_xst 0 [])) =
    Some (ESIF_OK, [(0, 0, ESIF_E_NO_LOWER_FRAMEWORK); (1, 1, ESIF_E_UNSUPPORTED_ACTION_TYPE); (2, 1, ESIF_E_NEED_LARGER_BUFFER); (2, 1, ESIF_OK)]) /\
  exists rc rsp' s' ts last,
    ExecDemo.run (Some ExecDemo.response) (mk_xst 0 []) = Some ((rc, None, rsp'), s') /\
    tried s' = [] ++ concat (map trial_log (ts ++ option_list last)) /\
    searched ExecDemo.acts true (fun _ => true) ESIF_E_PRIMITIVE_NO_ACTION_AVAIL (candidates ExecDemo.acts (mk_selector 0 0 0) 0 3) ts last rc /\
    (rc = ESIF_OK <-> exists t, last = Some t /\ tr_rc t = ESIF_OK).
Proof.
  split; [vm_compute; reflexivity|].
  assert (Hacts : forall i, 0 <= i < num_actions ExecDemo.p -> get_action ExecDemo.dsp ExecDemo.p (u8 i) = ExecDemo.acts !! Z.to_nat i).
  { cbn [num_actions ExecDemo.p]. intros i Hi. assert (Hc : i = 0 \/ i = 1 \/ i = 2) by lia. by destruct Hc as [->|[->| ->]]. }
  assert (Hg : forall w ty i, ExecDemo.EsifActMgr_GetAction w ty = Some i -> good_iface (operation ExecDemo.p) i).
  { intros w ty i. unfold ExecDemo.EsifActMgr_GetAction. destruct (ty =? 12); [|done]. intros [= <-] f [= <-]. apply ExecDemo.get_name_good. }
  assert (Hreq : good_request (operation ExecDemo.p) (typed_request ExecDemo.p None)) by (left; reflexivity).
  assert (Hrsp : good_response (Some ExecDemo.response)) by (intros d [= <-]; exact I).
  exact (primitive_tries_actions_in_order ExecDemo.EsifActMgr_GetAction ExecDemo.dsp ExecDemo.p ExecDemo.acts (mk_selector 0 0 0) (mk_tuple 14 0 255) (fun _ => true) None
    (Some ExecDemo.response) (mk_xst 0 []) eq_refl eq_refl eq_refl ltac:(discriminate) Hacts Hg Hreq Hrsp).
Defined.

(** The documented errors of the framework around the search. *)
Theorem primitive_refused {W} (EsifActMgr_GetAction : W -> Z -> option (EsifActIface (W := W))) (mem : bool) (mems : Z -> bool) (pm : Z -> option (option EsifDsp))
    (id prim instance : Z) (domain : option Z) (req rsp : option EsifData) (s : xst) :
  match domain with
  | None => EsifExecutePrimitive EsifActMgr_GetAction mem mems pm id prim domain instance req rsp s = Some ((ESIF_E_PARAMETER_IS_NULL, req, rsp), s)
  | Some dom =>
      match pm id with
      | None => EsifExecutePrimitive EsifActMgr_GetAction mem mems pm id prim domain instance req rsp s = Some ((ESIF_E_PARTICIPANT_NOT_FOUND, req, rsp), s)
      | Some None => EsifExecutePrimitive EsifActMgr_GetAction mem mems pm id prim domain instance req rsp s = Some ((ESIF_E_NEED_DSP, req, rsp), s)
      | Some (Some dsp) => has_type dsp = true -> get_primitive dsp (mk_tuple (u16 prim) dom instance) = None ->
          EsifExecutePrimitive EsifActMgr_GetAction mem mems pm id prim domain instance req rsp s = Some ((ESIF_E_PRIMITIVE_NOT_FOUND_IN_DSP, req, rsp), s)
      end
  end.
Proof.
  unfold EsifExecutePrimitive. destruct domain as [dom|]; [|done]. destruct (pm id) as [[dsp|]|]; [|done|done]. intros Hty Hp.
  unfold EsifUp_ExecutePrimitive, EsifUp_ExecuteSpecificActionPrimitive. by rewrite Hty, Hp.
Qed.
