(* ===== verification/ArbEntry.v ===== *)
(** * Arbitration of one primitive: the EsifArbEntry, EsifArbReq and EsifArbPrimReq
    functions of ESIF/Products/ESIF_UF/Sources/esif_uf_arbmgr.c

    An entry keeps, for one primitive of one participant, the latest request of
    every application, ordered so that the head is the arbitration winner, and
    the limits that are applied before a request is executed.  Requests are
    not executed in place: they are put on the manager's primitive queue.

    The request list is kept as the sequence of its nodes' data pointers, which
    is what LinkList.v proves the linked list to be, and the primitive queue as
    the sequence of its items, which is what Queue.v proves of the queue.
    Every operation runs under the entry's lock. *)

From S2P Require Import Prelude Queue EsifData PrimitiveType.
From stdpp Require Import list sorting gmap.
Local Open Scope Z_scope.
Local Open Scope dptf_scope.

Definition ESIF_ARBITRATION_INVALID : Z := 0.
Definition ESIF_ARBITRATION_UIN32_GREATER_THAN : Z := 1.
Definition ESIF_ARBITRATION_UIN32_LESS_THAN : Z := 2.
Definition ESIF_ARB_LIMIT_MIN : Z := 0.
Definition ESIF_ARB_LIMIT_MAX : Z := 4294967295.
Definition ESIF_UF_ARBMGR_QUEUE_SIZE : Z := 4294967295.

(** A pointer to an [EsifData]: the address and what it points to.  Requests
    are never modified once created, and comparisons are of addresses. *)
Definition dataptr : Type := option (positive * EsifData).

Record EsifArbReq : Type := mk_EsifArbReq {
  appHandle : Z;
  reqPtr : dataptr
}.

Record EsifArbPrimReq : Type := mk_EsifArbPrimReq {
  p_participantId : Z;
  p_primitiveId : Z;
  p_domain : Z;
  p_instance : Z;
  p_reqDataPtr : option EsifData;
  p_rspDataPtr : ptr;
  p_completionEventPtr : ptr;
  p_completionStatusPtr : ptr;
  p_reqDataRequiresRelease : bool;
  p_requiresDelay : bool;
  p_delayedPrimitiveId : Z;
  p_isDummyRequest : bool
}.

Record EsifArbEntry : Type := mk_EsifArbEntry {
  primitiveId : Z;
  domain : Z;
  instance : Z;
  arbType : Z;
  upperLimit : Z;
  lowerLimit : Z;
  arbitrationEnabled : bool;
  arbRequests : list (option EsifArbReq);
  participantId : Z;
  refCount : Z;
  markedForDelete : bool;
  deleteEvent : bool
}.

Record EsifArbEntryParams : Type := mk_EsifArbEntryParams {
  e_primitiveId : Z;
  e_domain : Z;
  e_instance : Z;
  e_arbType : Z;
  e_upperLimit : Z;
  e_lowerLimit : Z
}.

Definition with_requests (l : list (option EsifArbReq)) (e : EsifArbEntry) : EsifArbEntry :=
  mk_EsifArbEntry (primitiveId e) (domain e) (instance e) (arbType e) (upperLimit e) (lowerLimit e)
    (arbitrationEnabled e) l (participantId e) (refCount e) (markedForDelete e) (deleteEvent e).
Definition with_limits (hi lo : Z) (e : EsifArbEntry) : EsifArbEntry :=
  mk_EsifArbEntry (primitiveId e) (domain e) (instance e) (arbType e) hi lo
    (arbitrationEnabled e) (arbRequests e) (participantId e) (refCount e) (markedForDelete e) (deleteEvent e).
Definition with_arbType (t : Z) (e : EsifArbEntry) : EsifArbEntry :=
  mk_EsifArbEntry (primitiveId e) (domain e) (instance e) t (upperLimit e) (lowerLimit e)
    (arbitrationEnabled e) (arbRequests e) (participantId e) (refCount e) (markedForDelete e) (deleteEvent e).
Definition with_enabled (b : bool) (e : EsifArbEntry) : EsifArbEntry :=
  mk_EsifArbEntry (primitiveId e) (domain e) (instance e) (arbType e) (upperLimit e) (lowerLimit e)
    b (arbRequests e) (participantId e) (refCount e) (markedForDelete e) (deleteEvent e).
Definition with_life (n : Z) (marked ev : bool) (e : EsifArbEntry) : EsifArbEntry :=
  mk_EsifArbEntry (primitiveId e) (domain e) (instance e) (arbType e) (upperLimit e) (lowerLimit e)
    (arbitrationEnabled e) (arbRequests e) (participantId e) n marked ev.

(** The outcomes of an operation's allocations, in the order the code makes
    them: the request and its cloned data (address and block), the list nodes,
    the limited clone, the primitive request with its cloned data, the queue
    nodes and the copy of the primitive request. *)
Record allocs : Type := mk_allocs {
  m_req : bool;
  m_data : option positive;
  m_buf : bool;
  m_node : nat -> bool;
  m_lim : bool;
  m_limbuf : bool;
  m_prim : bool;
  m_pdata : bool;
  m_pbuf : bool;
  m_enq : bool;
  m_copy : bool;
  m_enq2 : bool
}.

(* ------------------------------------------------------------------ *)
(** ** Requests *)

(** Inside the outer option, [None] is the NULL the code returns. *)
Definition EsifArbReq_Create (m : allocs) (app : Z) (req : option EsifData) : option (option EsifArbReq) :=
  if m_req m then
    match EsifData_Clone (match m_data m with Some _ => true | None => false end) (m_buf m) req with
    | None => None
    | Some None => Some None
    | Some (Some d) =>
        match m_data m with
        | Some a => Some (Some (mk_EsifArbReq app (Some (a, d))))
        | None => Some None
        end
    end
  else Some None.

Definition EsifArbReq_GetAppHandle (self : option EsifArbReq) : Z :=
  match self with Some r => appHandle r | None => ESIF_INVALID_HANDLE end.

Definition EsifArbReq_GetRequestData (self : option EsifArbReq) : dataptr :=
  match self with Some r => reqPtr r | None => None end.

(* ------------------------------------------------------------------ *)
(** ** Arbitration functions: (rc, isValid1, isValid2, result) *)

(** What one of the two comparisons reads of a request: [Some None] when there
    is no data to read, [Some (Some None)] when it is too short. *)
Definition arb_read (req : option EsifArbReq) : option (option (option Z)) :=
  match req with
  | Some r =>
      match reqPtr r with
      | Some (_, d) =>
          match buf_ptr d with
          | Some block =>
              if buf_len d >=? 4 then
                match read_u32 block with Some v => Some (Some (Some v)) | None => None end
              else Some (Some None)
          | None => Some None
          end
      | None => Some None
      end
  | None => Some None
  end.

(** [better d1 d2] is the comparison that ranks request 1 above request 2. *)
Definition arb_compare (better : Z -> Z -> bool) (req1 req2 : option EsifArbReq) :
    option (Z * bool * bool * Z) :=
  match arb_read req1, arb_read req2 with
  | Some x1, Some x2 =>
      let req1Rc := match x1 with
                    | None => ESIF_E_PARAMETER_IS_NULL
                    | Some None => ESIF_E_PARAMETER_IS_OUT_OF_BOUNDS
                    | Some (Some _) => ESIF_OK
                    end in
      let req1Rc := match x2 with None => req1Rc | Some _ => ESIF_E_PARAMETER_IS_OUT_OF_BOUNDS end in
      let req2Rc := match x2 with Some (Some _) => ESIF_OK | _ => ESIF_E_PARAMETER_IS_NULL end in
      match x1, x2 with
      | Some (Some data1), Some (Some data2) =>
          let arbResult := if better data1 data2 then 1 else if better data2 data1 then -1 else 0 in
          Some (ESIF_OK, true, true, arbResult)
      | _, _ =>
          let isValid1 := match x1 with Some (Some _) => true | _ => false end in
          let isValid2 := match x2 with Some (Some _) => true | _ => false end in
          Some (Z.lor req1Rc req2Rc, isValid1, isValid2, 0)
      end
  | _, _ => None
  end.

Definition EsifArbFunction_UInt32_GreaterThan := arb_compare (fun data1 data2 => data1 >? data2).
Definition EsifArbFunction_UInt32_LessThan := arb_compare (fun data1 data2 => data1 <? data2).

Definition ArbitratorFunc : Type := option EsifArbReq -> option EsifArbReq -> option (Z * bool * bool * Z).

Definition g_arbitrationFunctions : list (option ArbitratorFunc) :=
  [None; Some EsifArbFunction_UInt32_GreaterThan; Some EsifArbFunction_UInt32_LessThan].

Definition GetArbitrationFunction (funcType : Z) : option ArbitratorFunc :=
  if funcType <? Z.of_nat (length g_arbitrationFunctions) then
    match g_arbitrationFunctions !! Z.to_nat funcType with Some f => f | None => None end
  else None.

(* ------------------------------------------------------------------ *)
(** ** Primitive requests and their queue *)

Definition EsifArbPrimReq_Create (m : allocs) (part prim dom inst : Z) (request : option EsifData)
    (rsp completionEvent completionStatus : ptr) (requiresDelay : bool) : option (option EsifArbPrimReq) :=
  if m_prim m then
    let self := mk_EsifArbPrimReq part prim dom inst None rsp completionEvent completionStatus
                  false requiresDelay 0 false in
    match request with
    | None => Some (Some self)
    | Some _ =>
        match EsifData_Clone (m_pdata m) (m_pbuf m) request with
        | None => None
        | Some clone =>
            match (if requiresDelay then esif_primitive_type_set2get prim else Some 0) with
            | None => None
            | Some delayed =>
                match clone with
                | None => Some None
                | Some d => Some (Some (mk_EsifArbPrimReq part prim dom inst (Some d) rsp completionEvent
                              completionStatus true requiresDelay delayed false))
                end
            end
        end
    end
  else Some None.

Definition as_dummy (r : EsifArbPrimReq) : EsifArbPrimReq :=
  mk_EsifArbPrimReq (p_participantId r) (p_primitiveId r) (p_domain r) (p_instance r) (p_reqDataPtr r)
    (p_rspDataPtr r) (p_completionEventPtr r) (p_completionStatusPtr r) (p_reqDataRequiresRelease r)
    (p_requiresDelay r) (p_delayedPrimitiveId r) true.

Abbreviation prim_queue := (list (option EsifArbPrimReq)).

Definition enqueue (mem : bool) (r : EsifArbPrimReq) : prim_queue -> Z * prim_queue :=
  fifo_enqueue ESIF_UF_ARBMGR_QUEUE_SIZE mem (Some r).

(** The request goes on the queue, followed by a dummy copy that marks a SET
    whose matching GET must wait until the SET has been processed. *)
Definition EsifArbMgr_QueuePrimitiveRequest_Locked (m : allocs) (part prim dom inst : Z)
    (request : option EsifData) (rsp completionEvent completionStatus : ptr) (requiresDelay : bool) :
    SM prim_queue Z :=
  fun q =>
    match EsifArbPrimReq_Create m part prim dom inst request rsp completionEvent completionStatus requiresDelay with
    | None => None
    | Some None => Some (ESIF_E_NO_MEMORY, q)
    | Some (Some r) =>
        let '(rc, q1) := enqueue (m_enq m) r q in
        if p_requiresDelay r && negb (p_delayedPrimitiveId r =? 0) then
          if m_copy m then Some (rc, (enqueue (m_enq2 m) (as_dummy r) q1).2) else Some (rc, q1)
        else Some (rc, q1)
    end.

Fixpoint must_delay_loop (prim : Z) (q : prim_queue) : bool :=
  match q with
  | [] => false
  | Some r :: q' => if p_requiresDelay r && (prim =? p_delayedPrimitiveId r) then true else must_delay_loop prim q'
  | None :: q' => must_delay_loop prim q'
  end.
Definition EsifArbMgr_MustDelayPrimitive_Locked (prim : Z) (q : prim_queue) : bool := must_delay_loop prim q.

(* ------------------------------------------------------------------ *)
(** ** Entry operations

    A computation acts on [self], which may be NULL ([None]), and on the
    primitive queue. *)

Record est : Type := mk_est { self : option EsifArbEntry; queue : prim_queue }.

Abbreviation M := (SM est).

(** [if (self)] guards; reading and writing through a NULL [self] has no outcome. *)
Definition has_self : M bool := fun s => Some (match self s with Some _ => true | None => false end, s).
Definition get_entry : M EsifArbEntry :=
  fun s => match self s with Some e => Some (e, s) | None => None end.
Definition mod_entry (f : EsifArbEntry -> EsifArbEntry) : M unit :=
  fun s => match self s with Some e => Some (tt, mk_est (Some (f e)) (queue s)) | None => None end.
Definition on_queue {T} (m : SM prim_queue T) : M T :=
  fun s => match m (queue s) with Some (x, q) => Some (x, mk_est (self s) q) | None => None end.

Definition EsifArbEntry_Create (mem : bool) (params : EsifArbEntryParams) (part : Z) : option EsifArbEntry :=
  if mem then
    Some (mk_EsifArbEntry (e_primitiveId params) (e_domain params) (e_instance params) (e_arbType params)
      (e_upperLimit params) (e_lowerLimit params) true [] part 1 false false)
  else None.

Definition EsifArbEntry_GetRef : M Z :=
  let! ok := has_self in
  if ok then
    let! e := get_entry in
    if negb (markedForDelete e) then
      mod_entry (with_life (u32 (refCount e + 1)) (markedForDelete e) (deleteEvent e)) ;! sret ESIF_OK
    else sret ESIF_E_UNSPECIFIED
  else sret ESIF_E_PARAMETER_IS_NULL.

Definition EsifArbEntry_PutRef : M unit :=
  let! ok := has_self in
  if ok then
    let! e := get_entry in
    let n := u32 (refCount e - 1) in
    let needsRelease := (n =? 0) && markedForDelete e in
    mod_entry (with_life n (markedForDelete e) (if needsRelease then true else deleteEvent e))
  else sret tt.

(** Marks the entry, drops the owner's reference and waits for the delete event:
    when no other thread can set it the call never returns, which is no
    outcome here.  The requests are released with the entry. *)
Definition EsifArbEntry_Destroy : M unit :=
  let! ok := has_self in
  if ok then
    let! e := get_entry in
    mod_entry (with_life (refCount e) true (deleteEvent e)) ;!
    EsifArbEntry_PutRef ;!
    let! e := get_entry in
    if deleteEvent e then (fun s => Some (tt, mk_est None (queue s))) else ub
  else sret tt.

(** The head of the list is the arbitration winner. *)
Definition EsifArbEntry_GetArbitratedRequestData_Locked : M dataptr :=
  let! ok := has_self in
  if ok then
    let! e := get_entry in
    match arbRequests e with
    | [] => sret None
    | arbReqPtr :: _ => sret (EsifArbReq_GetRequestData arbReqPtr)
    end
  else sret None.

(** The walk over the list: it removes requests of the same application and
    inserts the new one in front of the first node it beats, by adding a node
    after that one for its request and taking its place.  The result tells
    whether the request was inserted. *)
Fixpoint arbitrate_loop (arbFunc : option ArbitratorFunc) (arbReqPtr : EsifArbReq) (mem_node : bool)
    (isInserted isOldRemoved : bool) (rest : list (option EsifArbReq)) :
    option (bool * list (option EsifArbReq)) :=
  match rest with
  | [] => Some (isInserted, [])
  | curArbReqPtr :: rest' =>
      if isInserted && isOldRemoved then Some (isInserted, rest) else
      let skip := match arbitrate_loop arbFunc arbReqPtr mem_node isInserted isOldRemoved rest' with
                  | Some (i, l) => Some (i, curArbReqPtr :: l)
                  | None => None
                  end in
      match curArbReqPtr with
      | None => skip
      | Some cur =>
          if appHandle cur =? appHandle arbReqPtr then
            arbitrate_loop arbFunc arbReqPtr mem_node isInserted true rest'
          else
            match arbFunc with
            | Some f =>
                if isInserted then skip else
                match f (Some arbReqPtr) curArbReqPtr with
                | None => None
                | Some (rc, isArbitable, _, arbResult) =>
                    if ((rc =? ESIF_OK) && (0 <? arbResult)) || (negb (rc =? ESIF_OK) && isArbitable) then
                      match arbitrate_loop arbFunc arbReqPtr mem_node true isOldRemoved rest' with
                      | Some (i, l) => Some (i, Some arbReqPtr :: (if mem_node then curArbReqPtr :: l else l))
                      | None => None
                      end
                    else skip
                end
            | None => skip
            end
      end
  end.

Definition EsifArbEntry_ArbitrateRequest_Locked (mem_node : bool) (arbReqPtr : option EsifArbReq) : M Z :=
  let! ok := has_self in
  match arbReqPtr with
  | Some r =>
      if negb ok then sret ESIF_E_PARAMETER_IS_NULL else
      let! e := get_entry in
      let arbFunc := GetArbitrationFunction (arbType e) in
      match arbitrate_loop arbFunc r mem_node false false (arbRequests e) with
      | None => ub
      | Some (isInserted, l) =>
          let l := if negb isInserted then (if mem_node then l ++ [Some r] else l) else l in
          mod_entry (with_requests l) ;! sret ESIF_OK
      end
  | None => sret ESIF_E_PARAMETER_IS_NULL
  end.

Definition EsifArbEntry_InsertRequest_Locked (m : allocs) (app : Z) (request : option EsifData) : M Z :=
  let! ok := has_self in
  match request with
  | Some _ =>
      if negb ok then sret ESIF_E_PARAMETER_IS_NULL else
      let! arbReqPtr := of_option (EsifArbReq_Create m app request) in
      EsifArbEntry_ArbitrateRequest_Locked (m_node m 0%nat) arbReqPtr
  | None => sret ESIF_E_PARAMETER_IS_NULL
  end.

(** [None] inside when the value is within the limits, or when the clone could
    not be made. *)
Definition EsifArbEntry_CreateLimitedData_Locked (m : allocs) (e : EsifArbEntry) (data : option EsifData) :
    option (option EsifData) :=
  match data with
  | Some d =>
      match buf_ptr d with
      | Some block =>
          if buf_len d >=? 4 then
            match read_u32 block with
            | None => None
            | Some unlimitedValue =>
                let limitedValue := if unlimitedValue >=? lowerLimit e then unlimitedValue else lowerLimit e in
                let limitedValue := if limitedValue <=? upperLimit e then limitedValue else upperLimit e in
                if negb (unlimitedValue =? limitedValue) then
                  match EsifData_Clone (m_lim m) (m_limbuf m) data with
                  | None => None
                  | Some None => Some None
                  | Some (Some c) =>
                      match buf_ptr c with
                      | Some cblock =>
                          match write_u32 limitedValue cblock with
                          | Some cblock' => Some (Some (mk_EsifData (type c) (Some cblock') (buf_len c) (data_len c)))
                          | None => None
                          end
                      | None => None
                      end
                  end
                else Some None
            end
          else Some None
      | None => Some None
      end
  | None => Some None
  end.

Definition EsifArbEntry_QueueLimitedPrimitiveRequest_Locked (m : allocs) (request : dataptr)
    (requiresDelay : bool) : M Z :=
  let! ok := has_self in
  match request with
  | Some (_, d) =>
      if negb ok then sret ESIF_E_PARAMETER_IS_NULL else
      let! e := get_entry in
      let! limited := of_option (EsifArbEntry_CreateLimitedData_Locked m e (Some d)) in
      let dataPtr := match limited with Some c => c | None => d end in
      on_queue (EsifArbMgr_QueuePrimitiveRequest_Locked m (participantId e) (primitiveId e) (domain e)
        (instance e) (Some dataPtr) None None None requiresDelay)
  | None => sret ESIF_E_PARAMETER_IS_NULL
  end.

(** [curArbDataPtr && (curArbDataPtr != prevArbDataPtr)], by address. *)
Definition winner_changed (prev cur : dataptr) : bool :=
  match cur with
  | None => false
  | Some (a, _) => match prev with Some (b, _) => negb (bool_decide (a = b)) | None => true end
  end.

Definition EsifArbEntry_ExecutePrimitive (m : allocs) (app : Z) (request : option EsifData) : M Z :=
  let! ok := has_self in
  if ok then
    let! e := get_entry in
    if arbitrationEnabled e then
      let! prev := EsifArbEntry_GetArbitratedRequestData_Locked in
      let! rc := EsifArbEntry_InsertRequest_Locked m app request in
      if rc =? ESIF_OK then
        let! cur := EsifArbEntry_GetArbitratedRequestData_Locked in
        if winner_changed prev cur then EsifArbEntry_QueueLimitedPrimitiveRequest_Locked m cur true
        else sret rc
      else sret rc
    else sret ESIF_E_NOT_SUPPORTED
  else sret ESIF_E_PARAMETER_IS_NULL.

(** The requests are taken off the copied list one by one and arbitrated into
    the emptied one; [i] numbers the node allocations. *)
Fixpoint rearbitrate_loop (m : allocs) (i : nat) (tempList : list (option EsifArbReq)) : M unit :=
  match tempList with
  | [] => sret tt
  | curReqPtr :: tempList' =>
      EsifArbEntry_ArbitrateRequest_Locked (m_node m i) curReqPtr ;!
      rearbitrate_loop m (S i) tempList'
  end.

Definition EsifArbEntry_RearbitrateRequests_Locked (m : allocs) : M Z :=
  let! ok := has_self in
  if ok then
    let! e := get_entry in
    mod_entry (with_requests []) ;!
    rearbitrate_loop m 0 (arbRequests e) ;!
    sret ESIF_OK
  else sret ESIF_E_PARAMETER_IS_NULL.

Definition EsifArbEntry_SetArbitrationFunction (m : allocs) (t : Z) : M Z :=
  let! ok := has_self in
  if ok then
    match GetArbitrationFunction t with
    | Some _ =>
        mod_entry (with_arbType t) ;!
        let! prev := EsifArbEntry_GetArbitratedRequestData_Locked in
        let! rc := EsifArbEntry_RearbitrateRequests_Locked m in
        if rc =? ESIF_OK then
          let! cur := EsifArbEntry_GetArbitratedRequestData_Locked in
          if winner_changed prev cur then EsifArbEntry_QueueLimitedPrimitiveRequest_Locked m cur false
          else sret rc
        else sret rc
    | None => sret ESIF_E_PARAMETER_IS_OUT_OF_BOUNDS
    end
  else sret ESIF_E_PARAMETER_IS_NULL.

Definition EsifArbEntry_SetLimits (m : allocs) (upperLimitPtr lowerLimitPtr : option Z) : M Z :=
  let! ok := has_self in
  if ok then
    let! e := get_entry in
    let newUpperLimit := match upperLimitPtr with Some u => u | None => upperLimit e end in
    let newLowerLimit := match lowerLimitPtr with Some l => l | None => lowerLimit e end in
    if newUpperLimit >=? newLowerLimit then
      if negb (upperLimit e =? newUpperLimit) || negb (lowerLimit e =? newLowerLimit) then
        mod_entry (with_limits newUpperLimit newLowerLimit) ;!
        let! arbDataPtr := EsifArbEntry_GetArbitratedRequestData_Locked in
        EsifArbEntry_QueueLimitedPrimitiveRequest_Locked m arbDataPtr false ;!
        sret ESIF_OK
      else sret ESIF_OK
    else sret ESIF_E_PARAMETER_IS_OUT_OF_BOUNDS
  else sret ESIF_E_PARAMETER_IS_NULL.

Definition EsifArbEntry_PurgeRequests_Locked : M unit :=
  let! ok := has_self in
  if ok then mod_entry (with_requests []) else sret tt.
Definition EsifArbEntry_PurgeRequests : M unit :=
  let! ok := has_self in
  if ok then EsifArbEntry_PurgeRequests_Locked else sret tt.

Definition EsifArbEntry_SetArbitrationState (isEnabled : bool) : M Z :=
  let! ok := has_self in
  if ok then
    mod_entry (with_enabled isEnabled) ;!
    (if negb isEnabled then EsifArbEntry_PurgeRequests_Locked else sret tt) ;!
    sret ESIF_OK
  else sret ESIF_E_PARAMETER_IS_NULL.

Fixpoint remove_app_loop (app : Z) (l : list (option EsifArbReq)) : list (option EsifArbReq) :=
  match l with
  | [] => []
  | cur :: l' =>
      if app =? EsifArbReq_GetAppHandle cur then remove_app_loop app l' else cur :: remove_app_loop app l'
  end.

Definition EsifArbEntry_RemoveApp (m : allocs) (app : Z) : M unit :=
  let! ok := has_self in
  if ok then
    let! prev := EsifArbEntry_GetArbitratedRequestData_Locked in
    let! e := get_entry in
    mod_entry (with_requests (remove_app_loop app (arbRequests e))) ;!
    let! cur := EsifArbEntry_GetArbitratedRequestData_Locked in
    if winner_changed prev cur then
      EsifArbEntry_QueueLimitedPrimitiveRequest_Locked m cur false ;! sret tt
    else sret tt
  else sret tt.

Definition EsifArbEntry_IsMatchingEntry (self : option EsifArbEntry) (prim dom inst : Z) : bool :=
  match self with
  | Some e => (prim =? primitiveId e) && (dom =? domain e) && (inst =? instance e)
  | None => false
  end.

(* ------------------------------------------------------------------ *)
(** ** The ranking of requests *)

Section Ranking.
Implicit Types (r c : EsifArbReq) (rs : list EsifArbReq).

Definition req_value r : option Z := match reqPtr r with Some (_, d) => value_of d | None => None end.
Definition req_ok r : Prop := exists a d, reqPtr r = Some (a, d) /\ data_ok d.

(** The comparison of an arbitration type on values. *)
Definition value_better (t v1 v2 : Z) : bool :=
  if t =? ESIF_ARBITRATION_UIN32_GREATER_THAN then v1 >? v2
  else if t =? ESIF_ARBITRATION_UIN32_LESS_THAN then v1 <? v2 else false.

(** A request goes in front of another when its value is better, or when it
    has a value and the other has none; without an arbitration function never. *)
Definition beats (t : Z) r1 r2 : bool :=
  match GetArbitrationFunction t, req_value r1, req_value r2 with
  | Some _, Some v1, Some v2 => value_better t v1 v2
  | Some _, Some _, None => true
  | _, _, _ => false
  end.

Lemma value_better_cases t :
  (t = 1 /\ value_better t = fun v1 v2 => v1 >? v2) \/ (t = 2 /\ value_better t = fun v1 v2 => v1 <? v2) \/
  (t <> 1 /\ t <> 2 /\ value_better t = fun _ _ => false).
Proof.
  unfold value_better, ESIF_ARBITRATION_UIN32_GREATER_THAN, ESIF_ARBITRATION_UIN32_LESS_THAN.
  destruct (Z.eqb_spec t 1), (Z.eqb_spec t 2); auto.
Qed.

Lemma arb_function_cases t f :
  GetArbitrationFunction t = Some f -> f = arb_compare (value_better t).
Proof.
  unfold GetArbitrationFunction. destruct (Z.ltb_spec t (Z.of_nat (length g_arbitrationFunctions))) as [Hlt|]; [|done].
  simpl in Hlt. destruct (value_better_cases t) as [[-> ->]|[[-> ->]|(H1 & H2 & ->)]]; simpl.
  1, 2: by intros [= <-].
  destruct (Z.to_nat t) as [|[|[|k]]] eqn:E; simpl; try done; lia.
Qed.

Lemma arb_read_spec r : req_ok r ->
  exists x, arb_read (Some r) = Some x /\
    req_value r = match x with Some (Some v) => Some v | _ => None end.
Proof.
  intros (a & d & E & Hd). unfold arb_read, req_value, value_of. rewrite E.
  destruct (buf_ptr d) as [b|] eqn:Eb; [|by exists None]. rewrite Z.geb_leb.
  destruct (Z.leb_spec 4 (buf_len d)) as [Hl|Hl]; [|by exists (Some None)].
  destruct (ok_block _ Hd b Eb) as (_ & Hb & _). destruct (read_u32_some b) as [v ->]; [lia|]. by exists (Some (Some v)).
Qed.

Lemma arb_function_spec t f r1 r2 :
  GetArbitrationFunction t = Some f -> req_ok r1 -> req_ok r2 ->
  exists rc v1 v2 res, f (Some r1) (Some r2) = Some (rc, v1, v2, res) /\
    ((rc =? ESIF_OK) && (0 <? res)) || (negb (rc =? ESIF_OK) && v1) = beats t r1 r2.
Proof.
  intros Hf H1 H2. unfold beats. rewrite Hf. rewrite (arb_function_cases _ _ Hf). unfold arb_compare.
  destruct (arb_read_spec r1 H1) as (x1 & -> & ->), (arb_read_spec r2 H2) as (x2 & -> & ->).
  destruct x1 as [[v1|]|], x2 as [[v2|]|]; eexists _, _, _, _; (split; [reflexivity|]); try done.
  simpl. rewrite orb_false_r. destruct (value_better t v1 v2); [done|]. by destruct (value_better t v2 v1).
Qed.

(** Not being beaten is a total preorder, so [beats] sorts. *)
Definition ranked (t : Z) r1 r2 : Prop := beats t r2 r1 = false.

Lemma beats_asym t r1 r2 : beats t r1 r2 = true -> beats t r2 r1 = false.
Proof.
  unfold beats. destruct (GetArbitrationFunction t); [|done].
  destruct (req_value r1) as [v1|], (req_value r2) as [v2|]; try done.
  destruct (value_better_cases t) as [[_ ->]|[[_ ->]|(_ & _ & ->)]]; try done; lia.
Qed.

Lemma ranked_trans t r1 r2 r3 : ranked t r1 r2 -> ranked t r2 r3 -> ranked t r1 r3.
Proof.
  unfold ranked, beats. destruct (GetArbitrationFunction t); [|done].
  destruct (req_value r1) as [v1|], (req_value r2) as [v2|], (req_value r3) as [v3|]; try done.
  destruct (value_better_cases t) as [[_ ->]|[[_ ->]|(_ & _ & ->)]]; try done; lia.
Qed.

(** Where a new request goes. *)
Fixpoint place (t : Z) r rs : list EsifArbReq :=
  match rs with
  | [] => [r]
  | c :: rs' => if beats t r c then r :: c :: rs' else c :: place t r rs'
  end.

Lemma place_perm t r rs : place t r rs ≡ₚ r :: rs.
Proof.
  induction rs as [|c rs IH]; [done|]. simpl. destruct (beats t r c); [done|].
  rewrite IH. apply Permutation_swap.
Qed.

Lemma place_ranked t r rs : StronglySorted (ranked t) rs -> StronglySorted (ranked t) (place t r rs).
Proof.
  induction 1 as [|c rs Hs IH Hc]; simpl; [by repeat constructor|].
  destruct (beats t r c) eqn:E.
  - apply beats_asym in E. repeat constructor; try done.
    eapply Forall_impl; [exact Hc|]. intros x Hx. exact (ranked_trans t r c x E Hx).
  - constructor; [done|]. rewrite place_perm. by constructor.
Qed.

Definition others (app : Z) rs : list EsifArbReq := filter (fun c => appHandle c <> app) rs.

Lemma others_absent app rs : (forall c, c ∈ rs -> appHandle c <> app) -> others app rs = rs.
Proof.
  intros H. unfold others. induction rs as [|c rs IH]; [done|].
  rewrite filter_cons, decide_True by (apply H; left). f_equal. apply IH. intros x Hx. apply H. by right.
Qed.

Lemma others_sublist app rs : others app rs `sublist_of` rs.
Proof. apply sublist_filter. Qed.

Lemma StronglySorted_others t app rs : StronglySorted (ranked t) rs -> StronglySorted (ranked t) (others app rs).
Proof.
  induction 1 as [|c rs Hs IH Hc]; [constructor|]. unfold others in *. rewrite filter_cons.
  case_decide; [|done]. constructor; [done|]. rewrite Forall_forall in Hc |- *.
  intros x [_ Hx]%list_elem_of_filter. by apply Hc.
Qed.

Lemma nodup_app_tail c rs app :
  NoDup (appHandle <$> c :: rs) -> appHandle c = app -> others app rs = rs.
Proof.
  intros [Hc _]%NoDup_cons <-. apply others_absent. intros x Hx E. apply Hc. rewrite <- E.
  by apply list_elem_of_fmap_2.
Qed.

(** The walk, once the request is in. *)
Lemma arbitrate_loop_inserted f r m b rs :
  (b = true -> others (appHandle r) rs = rs) -> NoDup (appHandle <$> rs) ->
  arbitrate_loop f r m true b (Some <$> rs) = Some (true, Some <$> others (appHandle r) rs).
Proof.
  revert b. induction rs as [|c rs IH]; intros b Hb Hn; [done|]. cbn [fmap list_fmap arbitrate_loop].
  pose proof Hn as [Hc Hn']%NoDup_cons.
  destruct b; simpl.
  - by rewrite Hb.
  - unfold others. rewrite filter_cons.
    destruct (Z.eqb_spec (appHandle c) (appHandle r)) as [E|E].
    + rewrite decide_False by auto. apply IH; [|done]. intros _. by apply nodup_app_tail with c.
    + rewrite decide_True by done. rewrite (IH false) by done. by destruct f.
Qed.

(** The walk as a whole: the request takes its place among the others. *)
Lemma arbitrate_loop_spec t r b rs :
  Forall req_ok (r :: rs) -> (b = true -> others (appHandle r) rs = rs) -> NoDup (appHandle <$> rs) ->
  exists i l, arbitrate_loop (GetArbitrationFunction t) r true false b (Some <$> rs) = Some (i, l) /\
    (if negb i then l ++ [Some r] else l) = Some <$> place t r (others (appHandle r) rs).
Proof.
  intros Hok. revert b. induction rs as [|c rs IH]; intros b Hb Hn; [by eexists _, _|].
  cbn [fmap list_fmap arbitrate_loop andb].
  pose proof Hn as [Hc Hn']%NoDup_cons.
  pose proof Hok as [Hr [Hcok Hrs]%Forall_cons]%Forall_cons.
  assert (Hok' : Forall req_ok (r :: rs)) by by constructor.
  unfold others. rewrite filter_cons. destruct (Z.eqb_spec (appHandle c) (appHandle r)) as [E|E].
  { rewrite decide_False by auto. apply IH; [done| |done]. intros _. by apply nodup_app_tail with c. }
  rewrite decide_True by done. fold (others (appHandle r) rs). simpl place.
  assert (Hb' : b = true -> others (appHandle r) rs = rs).
  { intros Hbt. specialize (Hb Hbt). unfold others in Hb. rewrite filter_cons, decide_True in Hb by done. by simplify_eq. }
  assert (Hskip : beats t r c = false -> exists i l,
    match arbitrate_loop (GetArbitrationFunction t) r true false b (Some <$> rs) with
    | Some (i, l) => Some (i, Some c :: l) | None => None end = Some (i, l) /\
    (if negb i then l ++ [Some r] else l) = Some <$> (if beats t r c then r :: c :: others (appHandle r) rs
       else c :: place t r (others (appHandle r) rs))).
  { intros Hbt. destruct (IH Hok' b Hb' Hn') as (i & l & -> & Hl). rewrite Hbt, fmap_cons, <- Hl. by destruct i; eexists _, _. }
  destruct (GetArbitrationFunction t) as [f|] eqn:Ef.
  2: { apply Hskip. unfold beats. by rewrite Ef. }
  destruct (arb_function_spec t f r c Ef Hr Hcok) as (rc & v1 & v2 & res & -> & Hbt). rewrite Hbt.
  destruct (beats t r c); [|by apply Hskip].
  rewrite (arbitrate_loop_inserted (Some f) r true b rs Hb' Hn'). by eexists _, _.
Qed.
End Ranking.

(* ------------------------------------------------------------------ *)
(** ** The entry's invariant and what its operations do *)

Definition req_addr (r : EsifArbReq) : option positive := fst <$> reqPtr r.

(** The requests: one per application, all readable, in distinct memory, and
    ranked by the entry's arbitration type. *)
Record reqs_repr (t : Z) (rs : list EsifArbReq) : Prop := {
  rr_ok : Forall req_ok rs;
  rr_apps : NoDup (appHandle <$> rs);
  rr_addrs : NoDup (req_addr <$> rs);
  rr_ranked : StronglySorted (ranked t) rs
}.

Record entry_repr (e : EsifArbEntry) (rs : list EsifArbReq) : Prop := {
  er_list : arbRequests e = Some <$> rs;
  er_reqs : reqs_repr (arbType e) rs;
  er_limits : 0 <= lowerLimit e /\ lowerLimit e <= upperLimit e /\ upperLimit e < 2 ^ 32
}.

Lemma reqs_nil t : reqs_repr t [].
Proof. split; constructor. Qed.

Lemma reqs_others t app rs : reqs_repr t rs -> reqs_repr t (others app rs).
Proof.
  intros [Hok Hap Had Hr]. split.
  - rewrite Forall_forall in Hok |- *. intros x [_ Hx]%list_elem_of_filter. by apply Hok.
  - eapply sublist_NoDup; [exact Hap|]. apply fmap_sublist, others_sublist.
  - eapply sublist_NoDup; [exact Had|]. apply fmap_sublist, others_sublist.
  - by apply StronglySorted_others.
Qed.

Lemma reqs_place t r rs :
  reqs_repr t rs -> req_ok r -> appHandle r ∉ appHandle <$> rs -> req_addr r ∉ req_addr <$> rs ->
  reqs_repr t (place t r rs).
Proof.
  intros [Hok Hap Had Hr] Hrok H1 H2. split.
  - rewrite place_perm. by constructor.
  - rewrite place_perm, fmap_cons. by apply NoDup_cons.
  - rewrite place_perm, fmap_cons. by apply NoDup_cons.
  - by apply place_ranked.
Qed.

Lemma others_app_notin app rs : app ∉ appHandle <$> others app rs.
Proof. intros (x & E & [Hx _]%list_elem_of_filter)%list_elem_of_fmap_1. done. Qed.

Lemma reqs_arbitrate t r rs :
  reqs_repr t rs -> req_ok r -> req_addr r ∉ req_addr <$> rs ->
  reqs_repr t (place t r (others (appHandle r) rs)).
Proof.
  intros Hrs Hr Ha. apply reqs_place; [by apply reqs_others|done|apply others_app_notin|].
  intros Hin. apply Ha. eapply elem_of_sublist; [exact Hin|]. apply fmap_sublist, others_sublist.
Qed.

Definition winner (rs : list EsifArbReq) : dataptr := match rs with [] => None | r :: _ => reqPtr r end.

(** All allocations of an operation succeed. *)
Record mem_ok (m : allocs) : Prop := {
  mo_req : m_req m = true;
  mo_buf : m_buf m = true;
  mo_node : forall i, m_node m i = true;
  mo_lim : m_lim m = true;
  mo_limbuf : m_limbuf m = true;
  mo_prim : m_prim m = true;
  mo_pdata : m_pdata m = true;
  mo_pbuf : m_pbuf m = true;
  mo_enq : m_enq m = true;
  mo_copy : m_copy m = true;
  mo_enq2 : m_enq2 m = true
}.

Definition clamp (e : EsifArbEntry) (v : Z) : Z := Z.min (Z.max v (lowerLimit e)) (upperLimit e).

(** The data an entry sends for a request's data. *)
Definition limited (e : EsifArbEntry) (d : EsifData) : EsifData :=
  match value_of d with
  | Some v =>
      if clamp e v =? v then d
      else match buf_ptr (clone_of d) with
           | Some b => match write_u32 (clamp e v) b with
                       | Some b' => mk_EsifData (type d) (Some b') (buf_len (clone_of d)) (data_len d)
                       | None => d
                       end
           | None => d
           end
  | None => d
  end.

Definition prim_request (e : EsifArbEntry) (d : EsifData) (requiresDelay : bool) : EsifArbPrimReq :=
  mk_EsifArbPrimReq (participantId e) (primitiveId e) (domain e) (instance e) (Some (clone_of (limited e d)))
    None None None true requiresDelay (if requiresDelay then assoc_or_0 (primitiveId e) set2get_map else 0) false.

(** What goes on the queue: the request, and its dummy copy. *)
Definition sent (e : EsifArbEntry) (d : EsifData) (requiresDelay : bool) : prim_queue :=
  let r := prim_request e d requiresDelay in
  Some r :: (if requiresDelay && negb (p_delayedPrimitiveId r =? 0) then [Some (as_dummy r)] else []).

(** What an operation that may change the winner appends to the queue. *)
Definition sent_if_changed (e : EsifArbEntry) (prev cur : dataptr) (requiresDelay : bool) : prim_queue :=
  if winner_changed prev cur then
    match cur with Some (_, d) => sent e d requiresDelay | None => [] end
  else [].

Lemma create_limited_spec m e d :
  mem_ok m -> data_ok d -> 0 <= lowerLimit e -> lowerLimit e <= upperLimit e < 2 ^ 32 ->
  exists r, EsifArbEntry_CreateLimitedData_Locked m e (Some d) = Some r /\
    match r with Some c => c | None => d end = limited e d /\ data_ok (limited e d).
Proof.
  intros Hm Hd Hlo Hhi. unfold EsifArbEntry_CreateLimitedData_Locked, limited.
  destruct (value_of d) as [v|] eqn:Ev; cycle 1; unfold value_of in Ev.
  { destruct (buf_ptr d) as [b|] eqn:Eb; [|by exists None].
    destruct (Z.geb_spec (buf_len d) 4); [|by exists None].
    destruct (ok_block _ Hd b Eb) as (_ & Hl & _). destruct (read_u32_some b) as [v E]; [lia|]. congruence. }
  destruct (buf_ptr d) as [b|] eqn:Eb; [|done]. destruct (Z.geb_spec (buf_len d) 4) as [Hge|]; [|done].
  rewrite Ev. rewrite geb_max.
  assert (Ecl : (if Z.max v (lowerLimit e) <=? upperLimit e then Z.max v (lowerLimit e) else upperLimit e) = clamp e v).
  { unfold clamp. destruct (Z.leb_spec (Z.max v (lowerLimit e)) (upperLimit e)); lia. }
  rewrite Ecl, Z.eqb_sym. destruct (Z.eqb_spec (clamp e v) v) as [E|E]; cbn [negb]; [by exists None|].
  pose proof (clone_of_spec d Hd) as (Ec & Hok & Ht & Hl & _).
  rewrite (mo_lim _ Hm), (mo_limbuf _ Hm), Ec, Ht, Hl.
  assert (Hb : exists cb, buf_ptr (clone_of d) = Some cb /\ 4 <= buf_len (clone_of d)).
  { revert Ec. unfold EsifData_Clone. rewrite Eb, geb_max, (proj2 (Z.eqb_neq _ _)) by lia.
    destruct (data_len d <=? _); [|done]. intros [= <-]. simpl. eexists. split; [done|lia]. }
  destruct Hb as (cb & Ecb & Hcl). rewrite Ecb. destruct (ok_block _ Hok cb Ecb) as (Hby & Hl1 & Hl2).
  destruct (write_u32_some (clamp e v) cb) as (cb' & -> & Hlen & Hby'); [lia|].
  eexists. split; [done|split; [done|]]. destruct Hok as [Hk1 Hk2 _]. rewrite Hl in Hk2, Hl2.
  split; simpl; try done. intros b0 [= <-]. rewrite Hlen. auto.
Qed.

Lemma queue_limited_spec m e q a d (delay : bool) :
  mem_ok m -> data_ok d -> 0 <= lowerLimit e -> lowerLimit e <= upperLimit e < 2 ^ 32 ->
  Z.of_nat (length q) + 2 <= ESIF_UF_ARBMGR_QUEUE_SIZE ->
  EsifArbEntry_QueueLimitedPrimitiveRequest_Locked m (Some (a, d)) delay (mk_est (Some e) q) =
    Some (ESIF_OK, mk_est (Some e) (q ++ sent e d delay)).
Proof.
  intros Hm Hd Hlo Hhi Hq. destruct (create_limited_spec m e d Hm Hd Hlo Hhi) as (r & E & El & Hok).
  unfold EsifArbEntry_QueueLimitedPrimitiveRequest_Locked, on_queue. run_monad.
  cbn [has_self get_entry self queue negb sbind]. rewrite E. run_monad. rewrite El. clear E El r.
  unfold EsifArbMgr_QueuePrimitiveRequest_Locked, EsifArbPrimReq_Create.
  pose proof (clone_of_spec _ Hok) as (Ec & _).
  rewrite (mo_prim _ Hm), (mo_pdata _ Hm), (mo_pbuf _ Hm), Ec.
  assert (Ed : (if delay then esif_primitive_type_set2get (primitiveId e) else Some 0) =
               Some (if delay then assoc_or_0 (primitiveId e) set2get_map else 0)).
  { destruct delay; [|done]. apply set2get_total. }
  cbn [queue]. rewrite Ed. unfold enqueue, fifo_enqueue. rewrite (mo_enq _ Hm), (mo_copy _ Hm), (mo_enq2 _ Hm).
  rewrite (proj2 (Z.ltb_lt _ _)) by lia. cbn [andb p_requiresDelay p_delayedPrimitiveId].
  unfold sent. cbn [p_delayedPrimitiveId prim_request]. destruct (delay && _); [|done].
  rewrite (proj2 (Z.ltb_lt _ _)) by (rewrite length_app; simpl; lia). by rewrite <- app_assoc.
Qed.

(** Run the computations of this section on a state whose entry is known. *)
Ltac run_est :=
  unfold has_self, get_entry, mod_entry, on_queue;
  repeat progress cbn [sbind sret ub of_option self queue negb].

Lemma winner_step e rs q :
  arbRequests e = Some <$> rs ->
  EsifArbEntry_GetArbitratedRequestData_Locked (mk_est (Some e) q) = Some (winner rs, mk_est (Some e) q).
Proof.
  intros Hl. unfold EsifArbEntry_GetArbitratedRequestData_Locked. run_est.
  rewrite Hl. by destruct rs.
Qed.

Lemma winner_in rs a d : winner rs = Some (a, d) -> exists r, r ∈ rs /\ reqPtr r = Some (a, d).
Proof. destruct rs as [|r rs]; [done|]. intros E. exists r. split; [left|done]. Qed.

Lemma winner_ok rs a d : Forall req_ok rs -> winner rs = Some (a, d) -> data_ok d.
Proof.
  intros Hok (r & Hr & E)%winner_in. rewrite Forall_forall in Hok.
  destruct (Hok r Hr) as (a' & d' & E' & Hd). rewrite E in E'. by simplify_eq.
Qed.

Lemma winner_some rs : Forall req_ok rs -> rs <> [] -> exists a d, winner rs = Some (a, d).
Proof. destruct rs as [|r rs]; [done|]. intros [(a & d & E & _) _]%Forall_cons _. by exists a, d. Qed.

(** The tail of the operations that compare winners. *)
Lemma send_winner_spec m e rs q prev (delay : bool) :
  mem_ok m -> entry_repr e rs -> Z.of_nat (length q) + 2 <= ESIF_UF_ARBMGR_QUEUE_SIZE ->
  (if winner_changed prev (winner rs) then EsifArbEntry_QueueLimitedPrimitiveRequest_Locked m (winner rs) delay
   else sret ESIF_OK) (mk_est (Some e) q) =
  Some (ESIF_OK, mk_est (Some e) (q ++ sent_if_changed e prev (winner rs) delay)).
Proof.
  intros Hm [Hl [Hok _ _ _] Hlim] Hq. unfold sent_if_changed. destruct (winner_changed prev (winner rs)) eqn:E.
  - destruct (winner rs) as [[a d]|] eqn:Ew; [|done].
    apply queue_limited_spec; try done; [by eapply winner_ok|lia|lia].
  - by rewrite app_nil_r.
Qed.

Lemma create_req_spec m app d a :
  mem_ok m -> m_data m = Some a -> data_ok d ->
  EsifArbReq_Create m app (Some d) = Some (Some (mk_EsifArbReq app (Some (a, clone_of d)))).
Proof.
  intros Hm Ha Hd. unfold EsifArbReq_Create. rewrite (mo_req _ Hm), (mo_buf _ Hm), Ha.
  by destruct (clone_of_spec d Hd) as [-> _].
Qed.

Lemma arbitrate_request_spec e rs r q :
  entry_repr e rs -> req_ok r -> req_addr r ∉ req_addr <$> rs ->
  EsifArbEntry_ArbitrateRequest_Locked true (Some r) (mk_est (Some e) q) =
    Some (ESIF_OK, mk_est (Some (with_requests (Some <$> place (arbType e) r (others (appHandle r) rs)) e)) q) /\
  entry_repr (with_requests (Some <$> place (arbType e) r (others (appHandle r) rs)) e)
    (place (arbType e) r (others (appHandle r) rs)).
Proof.
  intros [Hl Hrs Hlim] Hrok Hfresh. split.
  - destruct (arbitrate_loop_spec (arbType e) r false rs) as (i & l & E & El);
      [constructor; [done|apply Hrs]|done|apply Hrs|].
    unfold EsifArbEntry_ArbitrateRequest_Locked. run_est.
    rewrite Hl, E. run_est. by rewrite <- El.
  - split; simpl; try done. by apply reqs_arbitrate.
Qed.

(** The entry's fields that an operation on the requests keeps. *)
Definition new_requests (e : EsifArbEntry) (rs : list EsifArbReq) : EsifArbEntry :=
  with_requests (Some <$> rs) e.

Lemma execute_primitive_spec m e rs q app d a :
  mem_ok m -> m_data m = Some a -> data_ok d -> entry_repr e rs -> arbitrationEnabled e = true ->
  Some a ∉ req_addr <$> rs -> Z.of_nat (length q) + 2 <= ESIF_UF_ARBMGR_QUEUE_SIZE ->
  let rs' := place (arbType e) (mk_EsifArbReq app (Some (a, clone_of d))) (others app rs) in
  EsifArbEntry_ExecutePrimitive m app (Some d) (mk_est (Some e) q) =
    Some (ESIF_OK, mk_est (Some (new_requests e rs')) (q ++ sent_if_changed (new_requests e rs') (winner rs) (winner rs') true)) /\
  entry_repr (new_requests e rs') rs'.
Proof.
  intros Hm Ha Hd He Hen Hf Hq rs'. set (r := mk_EsifArbReq app (Some (a, clone_of d))) in *.
  assert (Hr : req_ok r) by (exists a, (clone_of d); split; [done|apply clone_of_spec, Hd]).
  destruct (arbitrate_request_spec e rs r q He Hr Hf) as [E He']. split; [|exact He'].
  unfold EsifArbEntry_ExecutePrimitive. run_est. rewrite Hen.
  rewrite (sbind_some _ _ _ _ _ (winner_step e rs q (er_list _ _ He))).
  rewrite (sbind_some _ _ _ ESIF_OK (mk_est (Some (new_requests e rs')) q)).
  2: { unfold EsifArbEntry_InsertRequest_Locked. run_est. rewrite (create_req_spec m app d a Hm Ha Hd).
       run_est. rewrite (mo_node _ Hm). exact E. }
  cbn [Z.eqb ESIF_OK]. rewrite (sbind_some _ _ _ _ _ (winner_step (new_requests e rs') rs' q eq_refl)).
  by apply send_winner_spec.
Qed.

Lemma remove_app_loop_spec app rs : remove_app_loop app (Some <$> rs) = Some <$> others app rs.
Proof.
  induction rs as [|r rs IH]; [done|]. unfold others. rewrite filter_cons. simpl.
  destruct (Z.eqb_spec app (appHandle r)) as [->|E].
  - by rewrite decide_False by auto.
  - rewrite decide_True, fmap_cons by auto. f_equal. exact IH.
Qed.

Lemma remove_app_spec m e rs q app :
  mem_ok m -> entry_repr e rs -> Z.of_nat (length q) + 2 <= ESIF_UF_ARBMGR_QUEUE_SIZE ->
  EsifArbEntry_RemoveApp m app (mk_est (Some e) q) =
    Some (tt, mk_est (Some (new_requests e (others app rs)))
      (q ++ sent_if_changed (new_requests e (others app rs)) (winner rs) (winner (others app rs)) false)) /\
  entry_repr (new_requests e (others app rs)) (others app rs).
Proof.
  intros Hm He Hq. assert (He' : entry_repr (new_requests e (others app rs)) (others app rs)).
  { destruct He as [Hl Hrs Hlim]. split; simpl; try done. by apply reqs_others. }
  split; [|done]. unfold EsifArbEntry_RemoveApp. run_est.
  rewrite (sbind_some _ _ _ _ _ (winner_step e rs q (er_list _ _ He))). run_est.
  rewrite (er_list _ _ He), remove_app_loop_spec. fold (new_requests e (others app rs)).
  rewrite (sbind_some _ _ _ _ _ (winner_step (new_requests e (others app rs)) (others app rs) q eq_refl)).
  pose proof (send_winner_spec m _ _ q (winner rs) false Hm He' Hq) as E.
  destruct (winner_changed _ _); [by rewrite (sbind_some _ _ _ _ _ E)|].
  unfold sret in *. do 2 f_equal. congruence.
Qed.

(** Re-arbitration inserts the requests one by one, in list order. *)
Definition rearbitrate (t : Z) (acc rs : list EsifArbReq) : list EsifArbReq :=
  foldl (fun acc r => place t r acc) acc rs.

Lemma rearbitrate_perm t acc rs : rearbitrate t acc rs ≡ₚ acc ++ rs.
Proof.
  revert acc. induction rs as [|r rs IH]; intros acc; simpl; [by rewrite app_nil_r|].
  rewrite IH, place_perm. apply Permutation_middle.
Qed.

Lemma rearbitrate_loop_spec m e acc rest i q :
  mem_ok m -> entry_repr e acc -> Forall req_ok rest ->
  NoDup (appHandle <$> acc ++ rest) -> NoDup (req_addr <$> acc ++ rest) ->
  rearbitrate_loop m i (Some <$> rest) (mk_est (Some e) q) =
    Some (tt, mk_est (Some (new_requests e (rearbitrate (arbType e) acc rest))) q) /\
  entry_repr (new_requests e (rearbitrate (arbType e) acc rest)) (rearbitrate (arbType e) acc rest).
Proof.
  intros Hm. revert e acc i. induction rest as [|r rest IH]; intros e acc i He Hok Hap Had.
  { simpl. unfold new_requests. rewrite <- (er_list _ _ He). destruct e. simpl. split; [done|].
    destruct He. by split. }
  apply Forall_cons in Hok as [Hr Hok]. rewrite fmap_app, fmap_cons in Hap. rewrite fmap_app, fmap_cons in Had.
  pose proof Hap as (Hap1 & _ & _)%NoDup_app_cons_swap.
  pose proof Had as (Had1 & _ & _)%NoDup_app_cons_swap.
  destruct (arbitrate_request_spec e acc r q He Hr Had1) as [E He'].
  assert (Eo : others (appHandle r) acc = acc).
  { apply others_absent. intros c Hc Ec. apply Hap1. rewrite <- Ec. by apply list_elem_of_fmap_2. }
  rewrite Eo in E, He'. cbn [fmap list_fmap rearbitrate_loop].
  rewrite (mo_node _ Hm), (sbind_some _ _ _ _ _ E).
  specialize (IH (new_requests e (place (arbType e) r acc)) (place (arbType e) r acc) (S i) He' Hok).
  assert (Hp : place (arbType e) r acc ++ rest ≡ₚ acc ++ r :: rest).
  { rewrite place_perm. apply Permutation_middle. }
  rewrite Hp, !fmap_app, !fmap_cons in IH. by apply IH.
Qed.

Lemma reqs_rearbitrate t t' rs : reqs_repr t rs -> reqs_repr t' (rearbitrate t' [] rs).
Proof.
  intros [Hok Hap Had _]. 
  assert (H : forall acc rest, reqs_repr t' acc -> Forall req_ok rest -> NoDup (appHandle <$> acc ++ rest) ->
    NoDup (req_addr <$> acc ++ rest) -> reqs_repr t' (rearbitrate t' acc rest)).
  { intros acc rest. revert acc. induction rest as [|r rest IH]; intros acc Ha Hr H1 H2; [done|].
    apply Forall_cons in Hr as [Hr1 Hr2]. simpl. apply IH; try done.
    - rewrite fmap_app, fmap_cons in H1. rewrite fmap_app, fmap_cons in H2.
      apply reqs_place; try done; by apply NoDup_app_cons_swap in H1 as (? & _), H2 as (? & _).
    - by rewrite place_perm, <- app_comm_cons, Permutation_middle.
    - by rewrite place_perm, <- app_comm_cons, Permutation_middle. }
  by apply H; [apply reqs_nil|..].
Qed.

Lemma set_function_spec m e rs q t :
  mem_ok m -> entry_repr e rs -> Z.of_nat (length q) + 2 <= ESIF_UF_ARBMGR_QUEUE_SIZE ->
  match GetArbitrationFunction t with
  | Some _ =>
      let rs' := rearbitrate t [] rs in
      let e' := new_requests (with_arbType t e) rs' in
      EsifArbEntry_SetArbitrationFunction m t (mk_est (Some e) q) =
        Some (ESIF_OK, mk_est (Some e') (q ++ sent_if_changed e' (winner rs) (winner rs') false)) /\
      entry_repr e' rs'
  | None => EsifArbEntry_SetArbitrationFunction m t (mk_est (Some e) q) =
      Some (ESIF_E_PARAMETER_IS_OUT_OF_BOUNDS, mk_est (Some e) q)
  end.
Proof.
  intros Hm He Hq. unfold EsifArbEntry_SetArbitrationFunction.
  destruct (GetArbitrationFunction t) as [f|]; [|by run_est]. run_est.
  set (e1 := with_arbType t e). set (e0 := new_requests e1 []).
  assert (He0 : entry_repr e0 []) by (destruct He; split; [done|apply reqs_nil|done]).
  destruct (rearbitrate_loop_spec m e0 [] rs 0 q Hm He0) as [E He']; try apply He.
  split; [|exact He']. 
  rewrite (sbind_some _ _ _ _ _ (winner_step e1 rs q (er_list _ _ He))).
  rewrite (sbind_some _ _ _ ESIF_OK (mk_est (Some (new_requests e1 (rearbitrate t [] rs))) q)).
  2: { unfold EsifArbEntry_RearbitrateRequests_Locked. run_est. cbn [arbRequests e1 with_arbType].
       rewrite (er_list _ _ He). fold e0. unfold e0 in E at 1. rewrite (sbind_some _ _ _ _ _ E). done. }
  cbn [Z.eqb ESIF_OK].
  rewrite (sbind_some _ _ _ _ _ (winner_step (new_requests e1 (rearbitrate t [] rs)) (rearbitrate t [] rs) q eq_refl)).
  by apply send_winner_spec.
Qed.

Definition new_limits (hi lo : option Z) (e : EsifArbEntry) : Z * Z :=
  (match hi with Some u => u | None => upperLimit e end, match lo with Some l => l | None => lowerLimit e end).

Lemma set_limits_spec m e rs q hi lo :
  mem_ok m -> entry_repr e rs -> Z.of_nat (length q) + 2 <= ESIF_UF_ARBMGR_QUEUE_SIZE ->
  (forall u, hi = Some u -> 0 <= u < 2 ^ 32) -> (forall l, lo = Some l -> 0 <= l < 2 ^ 32) ->
  let '(h, l) := new_limits hi lo e in
  let e' := with_limits h l e in
  if l <=? h then
    EsifArbEntry_SetLimits m hi lo (mk_est (Some e) q) =
      Some (ESIF_OK, mk_est (Some e')
        (q ++ (if (upperLimit e =? h) && (lowerLimit e =? l) then []
               else match winner rs with Some (_, d) => sent e' d false | None => [] end))) /\
    entry_repr e' rs
  else EsifArbEntry_SetLimits m hi lo (mk_est (Some e) q) =
      Some (ESIF_E_PARAMETER_IS_OUT_OF_BOUNDS, mk_est (Some e) q).
Proof.
  intros Hm He Hq Hhi Hlo. destruct (new_limits hi lo e) as [h l] eqn:E.
  assert (Hr : 0 <= h < 2 ^ 32 /\ 0 <= l < 2 ^ 32).
  { destruct (er_limits _ _ He) as (? & ? & ?). unfold new_limits in E. injection E as <- <-.
    destruct hi as [u|], lo as [l'|]; (split; [try (by apply Hhi); lia|try (by apply Hlo); lia]). }
  unfold EsifArbEntry_SetLimits. unfold new_limits in E. injection E as E1 E2. cbv zeta. run_est. rewrite E1, E2.
  rewrite Z.geb_leb. destruct (Z.leb_spec l h) as [Hle|Hgt]; [|done].
  assert (He' : entry_repr (with_limits h l e) rs) by (destruct He; split; simpl; try done; lia).
  split; [|done]. rewrite <- negb_andb. destruct ((upperLimit e =? h) && (lowerLimit e =? l)) eqn:Ec; cbn [negb].
  - bool_to_prop. rewrite app_nil_r. clear E1 E2. subst h l. by destruct e.
  - run_est. rewrite (sbind_some _ _ _ _ _ (winner_step (with_limits h l e) rs q (er_list _ _ He))).
    destruct (winner rs) as [[a d]|] eqn:Ew.
    + rewrite (sbind_some _ _ _ _ _ (queue_limited_spec m (with_limits h l e) q a d false Hm
        (winner_ok _ _ _ (rr_ok _ _ (er_reqs _ _ He)) Ew) ltac:(simpl; lia) ltac:(simpl; lia) Hq)). done.
    + rewrite app_nil_r. unfold EsifArbEntry_QueueLimitedPrimitiveRequest_Locked. by run_est.
Qed.

Lemma set_state_spec e rs q (b : bool) :
  entry_repr e rs ->
  let rs' := if b then rs else [] in
  EsifArbEntry_SetArbitrationState b (mk_est (Some e) q) =
    Some (ESIF_OK, mk_est (Some (new_requests (with_enabled b e) rs')) q) /\
  entry_repr (new_requests (with_enabled b e) rs') rs'.
Proof.
  intros He rs'. split.
  - unfold EsifArbEntry_SetArbitrationState. run_est. destruct b; cbn [negb]; run_est.
    + unfold new_requests, rs'. rewrite <- (er_list _ _ He). by destruct e.
    + unfold EsifArbEntry_PurgeRequests_Locked. by run_est.
  - destruct He. split; simpl; try done. unfold rs'. destruct b; [done|apply reqs_nil].
Qed.

(* ------------------------------------------------------------------ *)
(** ** Runs of an entry and their specification *)

Inductive arb_op : Type :=
  | ArbExecute (app : Z) (request : EsifData)
  | ArbRemoveApp (app : Z)
  | ArbSetFunction (t : Z)
  | ArbSetLimits (hi lo : option Z)
  | ArbSetState (b : bool).

Definition arb_call (m : allocs) (op : arb_op) : M Z :=
  match op with
  | ArbExecute app d => EsifArbEntry_ExecutePrimitive m app (Some d)
  | ArbRemoveApp app => EsifArbEntry_RemoveApp m app ;! sret ESIF_OK
  | ArbSetFunction t => EsifArbEntry_SetArbitrationFunction m t
  | ArbSetLimits hi lo => EsifArbEntry_SetLimits m hi lo
  | ArbSetState b => EsifArbEntry_SetArbitrationState b
  end.

(** What a call may rely on: memory, a fresh address for the request's copy, a
    well-formed request, limits that are 32-bit values and room on the queue. *)
Definition op_ok (m : allocs) (op : arb_op) (s : est) : Prop :=
  mem_ok m /\ Z.of_nat (length (queue s)) + 2 <= ESIF_UF_ARBMGR_QUEUE_SIZE /\
  match op with
  | ArbExecute _ d =>
      data_ok d /\ exists a, m_data m = Some a /\
        forall e r, self s = Some e -> Some r ∈ arbRequests e -> req_addr r <> Some a
  | ArbSetLimits hi lo =>
      (forall u, hi = Some u -> 0 <= u < 2 ^ 32) /\ (forall l, lo = Some l -> 0 <= l < 2 ^ 32)
  | _ => True
  end.

(** The runs of an entry: the calls made and the codes they returned. *)
Inductive arb_run (s0 : est) : list (arb_op * Z) -> est -> Prop :=
  | arb_run_nil : arb_run s0 [] s0
  | arb_run_snoc tr s m op rc s' :
      arb_run s0 tr s -> op_ok m op s -> arb_call m op s = Some (rc, s') ->
      arb_run s0 (tr ++ [(op, rc)]) s'.

(** The specification: the latest request of each application, the type, the
    limits and whether arbitration is on. *)
Record arb_spec : Type := mk_arb_spec {
  sp_type : Z;
  sp_upper : Z;
  sp_lower : Z;
  sp_enabled : bool;
  sp_requests : gmap Z EsifData
}.

Definition spec_call (op : arb_op) (sp : arb_spec) : Z * arb_spec :=
  match op with
  | ArbExecute app d =>
      if sp_enabled sp then
        (ESIF_OK, mk_arb_spec (sp_type sp) (sp_upper sp) (sp_lower sp) true (<[app := clone_of d]> (sp_requests sp)))
      else (ESIF_E_NOT_SUPPORTED, sp)
  | ArbRemoveApp app =>
      (ESIF_OK, mk_arb_spec (sp_type sp) (sp_upper sp) (sp_lower sp) (sp_enabled sp) (delete app (sp_requests sp)))
  | ArbSetFunction t =>
      match GetArbitrationFunction t with
      | Some _ => (ESIF_OK, mk_arb_spec t (sp_upper sp) (sp_lower sp) (sp_enabled sp) (sp_requests sp))
      | None => (ESIF_E_PARAMETER_IS_OUT_OF_BOUNDS, sp)
      end
  | ArbSetLimits hi lo =>
      let h := match hi with Some u => u | None => sp_upper sp end in
      let l := match lo with Some l => l | None => sp_lower sp end in
      if l <=? h then (ESIF_OK, mk_arb_spec (sp_type sp) h l (sp_enabled sp) (sp_requests sp))
      else (ESIF_E_PARAMETER_IS_OUT_OF_BOUNDS, sp)
  | ArbSetState b =>
      (ESIF_OK, mk_arb_spec (sp_type sp) (sp_upper sp) (sp_lower sp) b (if b then sp_requests sp else ∅))
  end.

Fixpoint spec_calls (ops : list arb_op) (sp : arb_spec) : list Z * arb_spec :=
  match ops with
  | [] => ([], sp)
  | op :: ops' => let '(rc, sp1) := spec_call op sp in let '(rcs, sp2) := spec_calls ops' sp1 in (rc :: rcs, sp2)
  end.

Definition spec_init (p : EsifArbEntryParams) : arb_spec :=
  mk_arb_spec (e_arbType p) (e_upperLimit p) (e_lowerLimit p) true ∅.

Definition params_ok (p : EsifArbEntryParams) : Prop :=
  0 <= e_lowerLimit p /\ e_lowerLimit p <= e_upperLimit p /\ e_upperLimit p < 2 ^ 32.

(** The requests of an entry as a map. *)
Definition req_data (r : EsifArbReq) : EsifData :=
  match reqPtr r with Some (_, d) => d | None => mk_EsifData 0 None 0 0 end.
Definition req_map (rs : list EsifArbReq) : gmap Z EsifData :=
  list_to_map ((fun r => (appHandle r, req_data r)) <$> rs).

Record arb_rel (e : EsifArbEntry) (rs : list EsifArbReq) (sp : arb_spec) : Prop := {
  rel_repr : entry_repr e rs;
  rel_type : arbType e = sp_type sp;
  rel_upper : upperLimit e = sp_upper sp;
  rel_lower : lowerLimit e = sp_lower sp;
  rel_enabled : arbitrationEnabled e = sp_enabled sp;
  rel_requests : req_map rs = sp_requests sp
}.

Lemma req_keys rs : ((fun r => (appHandle r, req_data r)) <$> rs).*1 = appHandle <$> rs.
Proof. by rewrite <- list_fmap_compose. Qed.

Lemma req_map_perm rs rs' : NoDup (appHandle <$> rs) -> rs ≡ₚ rs' -> req_map rs = req_map rs'.
Proof. intros Hn Hp. apply list_to_map_proper; [by rewrite req_keys|by rewrite Hp]. Qed.

Lemma req_map_others app rs : NoDup (appHandle <$> rs) -> req_map (others app rs) = delete app (req_map rs).
Proof.
  induction rs as [|r rs IH]; intros Hn; [symmetry; apply delete_empty|].
  pose proof Hn as [Hr Hn']%NoDup_cons. specialize (IH Hn').
  assert (Ec : forall l, req_map (r :: l) = <[appHandle r := req_data r]> (req_map l)) by done.
  unfold others in *. rewrite filter_cons, Ec. case_decide as E.
  - by rewrite Ec, IH, delete_insert_ne by auto.
  - assert (appHandle r = app) as <- by (destruct (decide (appHandle r = app)); [done|by destruct E]).
    by rewrite IH, delete_insert_eq.
Qed.

Lemma req_map_insert t r rs :
  NoDup (appHandle <$> rs) ->
  req_map (place t r (others (appHandle r) rs)) = <[appHandle r := req_data r]> (req_map rs).
Proof.
  intros Hn. rewrite (req_map_perm _ (r :: others (appHandle r) rs)); [|rewrite place_perm|apply place_perm].
  - assert (Ec : forall l, req_map (r :: l) = <[appHandle r := req_data r]> (req_map l)) by done.
    rewrite Ec, req_map_others by done. apply insert_delete_eq.
  - rewrite fmap_cons. apply NoDup_cons. split; [apply others_app_notin|].
    eapply sublist_NoDup; [exact Hn|]. apply fmap_sublist, others_sublist.
Qed.

(** The last request put on the queue, dummies aside. *)
Definition last_request (q : prim_queue) : option EsifArbPrimReq :=
  last (filter (fun r => p_isDummyRequest r = false) (omap id q)).

(** The current winner, limited as the entry now says, is the last primitive
    requested. *)
Definition in_effect (e : EsifArbEntry) (rs : list EsifArbReq) (q : prim_queue) : Prop :=
  forall a d, winner rs = Some (a, d) -> exists delay, last_request q = Some (prim_request e d delay).

Lemma last_request_sent q e d delay : last_request (q ++ sent e d delay) = Some (prim_request e d delay).
Proof.
  unfold last_request, sent. rewrite omap_app, filter_app. 
  assert (E : filter (fun r => p_isDummyRequest r = false)
    (omap id (Some (prim_request e d delay) :: (if delay && negb (p_delayedPrimitiveId (prim_request e d delay) =? 0)
      then [Some (as_dummy (prim_request e d delay))] else []))) = [prim_request e d delay]).
  { by destruct (delay && _). }
  rewrite E. apply last_snoc.
Qed.

Lemma same_address rs r1 r2 :
  NoDup (req_addr <$> rs) -> r1 ∈ rs -> r2 ∈ rs -> req_addr r1 = req_addr r2 -> r1 = r2.
Proof.
  intros Hn [i Hi]%list_elem_of_lookup_1 [j Hj]%list_elem_of_lookup_1 E.
  assert (i = j) as ->; [|by simplify_eq].
  eapply NoDup_lookup; [exact Hn| |]; rewrite list_lookup_fmap; [by rewrite Hi|by rewrite Hj, E].
Qed.

(** Requests that stay keep their address; new ones are elsewhere. *)
Lemma in_effect_step e e' rs rs' q delay :
  in_effect e rs q -> NoDup (req_addr <$> rs) -> Forall req_ok rs ->
  (forall x, x ∈ rs' -> x ∈ rs \/ req_addr x ∉ req_addr <$> rs) ->
  (forall d b, prim_request e' d b = prim_request e d b) ->
  in_effect e' rs' (q ++ sent_if_changed e' (winner rs) (winner rs') delay).
Proof.
  intros Hin Hn Hok Hx Hpr a d Hw. unfold sent_if_changed. rewrite Hw.
  destruct (winner_changed (winner rs) (Some (a, d))) eqn:Ec; [exists delay; apply last_request_sent|].
  rewrite app_nil_r. simpl in Ec. destruct (winner rs) as [[b d']|] eqn:Ew; [|done].
  apply negb_false_iff, bool_decide_eq_true in Ec as ->.
  destruct (winner_in _ _ _ Hw) as (x & Hxin & Ex), (winner_in _ _ _ Ew) as (y & Hyin & Ey).
  assert (Ea : req_addr x = req_addr y) by by unfold req_addr; rewrite Ex, Ey.
  destruct (Hx x Hxin) as [Hxr|Hxr].
  - assert (x = y) as -> by by eapply same_address. rewrite Ey in Ex. simplify_eq.
    destruct (Hin _ _ Ew) as [dl Hl]. exists dl. by rewrite Hpr.
  - destruct Hxr. rewrite Ea. by apply list_elem_of_fmap_2.
Qed.

Lemma sent_length e d delay : (length (sent e d delay) <= 2)%nat.
Proof. unfold sent. destruct (delay && _); simpl; lia. Qed.

Lemma sent_if_changed_length e prev cur delay : (length (sent_if_changed e prev cur delay) <= 2)%nat.
Proof.
  unfold sent_if_changed. destruct (winner_changed prev cur); [|simpl; lia].
  destruct cur as [[a d]|]; [apply sent_length|simpl; lia].
Qed.

Ltac queue_growth :=
  rewrite ?length_app;
  repeat match goal with
  | |- context [length (sent_if_changed ?e ?p ?c ?b)] =>
      let H := fresh in pose proof (sent_if_changed_length e p c b) as H; revert H; generalize (length (sent_if_changed e p c b)); intros
  | |- context [length (sent ?e ?d ?b)] =>
      let H := fresh in pose proof (sent_length e d b) as H; revert H; generalize (length (sent e d b)); intros
  end; simpl; lia.

(** One call: it has an outcome, it is the specified one, it leaves the winner
    in effect and the references as they are. *)
Lemma arb_call_spec m op e rs sp q :
  arb_rel e rs sp -> op_ok m op (mk_est (Some e) q) ->
  exists e' rs' q', arb_call m op (mk_est (Some e) q) = Some ((spec_call op sp).1, mk_est (Some e') q') /\
    arb_rel e' rs' (spec_call op sp).2 /\ (in_effect e rs q -> in_effect e' rs' q') /\
    (length q' <= length q + 2)%nat /\
    (refCount e', markedForDelete e', deleteEvent e') = (refCount e, markedForDelete e, deleteEvent e) /\
    (primitiveId e', domain e', instance e', participantId e') = (primitiveId e, domain e, instance e, participantId e).
Proof.
  intros [He Ht Hu Hl Hen Hrq] (Hm & Hq & Hop). pose proof (er_reqs _ _ He) as [Hok Hap Had _].
  destruct op as [app d|app|t|hi lo|b]; unfold arb_call; cbn [spec_call].
  - destruct (arbitrationEnabled e) eqn:Ee; rewrite <- Hen; cycle 1.
    { exists e, rs, q. split; [|split; [split; simpl; try done; congruence|split_and!; [done|lia|done|done]]].
      unfold EsifArbEntry_ExecutePrimitive. run_est. by rewrite Ee. }
    destruct Hop as (Hd & a & Ha & Hf).
    assert (Hf' : Some a ∉ req_addr <$> rs).
    { intros (r & Er & Hr)%list_elem_of_fmap_1. apply (Hf e r); [done| |done].
      rewrite (er_list _ _ He). by apply list_elem_of_fmap_2. }
    destruct (execute_primitive_spec m e rs q app d a) as [E He']; try done.
    eexists _, _, _. split; [exact E|]. split; [|split; [|split; [queue_growth|done]]].
    + split; try done. simpl.
      rewrite (req_map_insert _ (mk_EsifArbReq app (Some (a, clone_of d)))) by done. by rewrite Hrq.
    + intros Hin. apply in_effect_step with e; try done. intros x. rewrite place_perm.
      intros [->|[_ Hx]%list_elem_of_filter]%elem_of_cons; [by right|by left].
  - destruct (remove_app_spec m e rs q app Hm He Hq) as [E He']. eexists _, _, _.
    rewrite (sbind_some _ _ _ _ _ E). split; [done|]. split; [|split; [|split; [queue_growth|done]]].
    + split; try done. simpl. by rewrite req_map_others, Hrq.
    + intros Hin. apply in_effect_step with e; try done. intros x [_ Hx]%list_elem_of_filter. by left.
  - pose proof (set_function_spec m e rs q t Hm He Hq) as H. destruct (GetArbitrationFunction t).
    + destruct H as [E He']. eexists _, _, _. split; [exact E|]. split; [|split; [|split; [queue_growth|done]]].
      * split; try done. simpl. rewrite (req_map_perm _ rs); [done| |]; rewrite rearbitrate_perm; done.
      * intros Hin. apply in_effect_step with e; try done. intros x. rewrite rearbitrate_perm. by left.
    + exists e, rs, q. split_and!; try done; lia.
  - destruct Hop as [Hhi Hlo]. pose proof (set_limits_spec m e rs q hi lo Hm He Hq Hhi Hlo) as H.
    unfold new_limits in H. rewrite <- Hu, <- Hl. destruct (_ <=? _).
    + destruct H as [E He']. eexists _, _, _. split; [exact E|]. split; [by split|split; [|split; [|done]]].
      2: { destruct (_ && _); [|destruct (winner rs) as [[a d]|]]; queue_growth. }
      intros Hin a d Hw. destruct ((upperLimit e =? _) && (lowerLimit e =? _)) eqn:Ec.
      * apply andb_true_iff in Ec as [<-%Z.eqb_eq <-%Z.eqb_eq]. rewrite app_nil_r.
        assert (with_limits (upperLimit e) (lowerLimit e) e = e) as -> by by destruct e. by eapply Hin.
      * rewrite Hw. exists false. apply last_request_sent.
    + exists e, rs, q. split_and!; try done; lia.
  - destruct (set_state_spec e rs q b He) as [E He']. eexists _, _, _. split; [exact E|]. split; [|split; [|split; [queue_growth|done]]].
    + split; try done. simpl. by destruct b.
    + intros Hin. by destruct b.
Qed.

Lemma spec_calls_snoc ops op sp :
  spec_calls (ops ++ [op]) sp =
  ((spec_calls ops sp).1 ++ [(spec_call op (spec_calls ops sp).2).1], (spec_call op (spec_calls ops sp).2).2).
Proof.
  revert sp. induction ops as [|o ops IH]; intros sp; simpl; [by destruct (spec_call op sp)|].
  destruct (spec_call o sp) as [rc sp1]. rewrite IH. by destruct (spec_calls ops sp1).
Qed.

Lemma arb_run_rel p part tr s :
  params_ok p -> arb_run (mk_est (EsifArbEntry_Create true p part) []) tr s ->
  exists e rs, self s = Some e /\ arb_rel e rs (spec_calls tr.*1 (spec_init p)).2 /\
    tr.*2 = (spec_calls tr.*1 (spec_init p)).1 /\ in_effect e rs (queue s) /\
    (primitiveId e, domain e, instance e, participantId e) = (e_primitiveId p, e_domain p, e_instance p, part).
Proof.
  intros Hp Hr. induction Hr as [|tr s m op rc s' Hr IH Hok E].
  - eexists _, []. split; [done|split; [|done]]. split; try done. split; [done|apply reqs_nil|done].
  - destruct IH as (e & rs & Es & Hrel & Hrcs & Hef & Hid). destruct s as [o q]. simpl in Es. subst o.
    destruct (arb_call_spec _ _ _ _ _ _ Hrel Hok) as (e' & rs' & q' & E' & Hrel' & Hef' & _ & _ & Hid').
    rewrite E' in E. simplify_eq.
    exists e', rs'. rewrite !fmap_app. cbn [fmap list_fmap fst snd]. rewrite spec_calls_snoc.
    split; [done|split; [done|]]. simpl. rewrite Hrcs. split; [done|split; [by apply Hef'|congruence]].
Qed.

Lemma StronglySorted_head t r rs x : StronglySorted (ranked t) (r :: rs) -> x ∈ r :: rs -> beats t x r = false.
Proof.
  intros [_ Hf]%StronglySorted_inv [->|Hx]%elem_of_cons.
  - destruct (beats t r r) eqn:E; [|done]. by rewrite (beats_asym _ _ _ E) in E.
  - rewrite Forall_forall in Hf. by apply Hf.
Qed.

Lemma req_map_lookup rs app d :
  NoDup (appHandle <$> rs) -> Forall req_ok rs ->
  req_map rs !! app = Some d <-> exists r a, r ∈ rs /\ appHandle r = app /\ reqPtr r = Some (a, d).
Proof.
  intros Hn Hok. unfold req_map. rewrite <- elem_of_list_to_map by by rewrite req_keys. split.
  - intros (r & [= -> ->] & Hr)%list_elem_of_fmap_1. rewrite Forall_forall in Hok.
    destruct (Hok r Hr) as (a & d & E & _). exists r, a. unfold req_data. by rewrite E.
  - intros (r & a & Hr & <- & E). apply list_elem_of_fmap. exists r. unfold req_data. by rewrite E.
Qed.

(** Limiting a full value and copying it into a primitive request. *)
Lemma limited_content e d v :
  full d -> 4 <= buf_len d -> content d = Some v ->
  0 <= lowerLimit e -> lowerLimit e <= upperLimit e < 2 ^ 32 ->
  content (clone_of (limited e d)) = Some (clamp e v).
Proof.
  intros Hfull Hbl Hv Hlo Hhi. pose proof (full_content d Hfull) as (v' & Hv' & Hvr). rewrite Hv in Hv'. simplify_eq.
  assert (Evd : value_of d = Some v').
  { unfold value_of, content in *. destruct (buf_ptr d); [|done]. rewrite Z.geb_leb. by rewrite (proj2 (Z.leb_le _ _)). }
  unfold limited. rewrite Evd. destruct (Z.eqb_spec (clamp e v') v') as [E|E].
  { destruct (clone_full d Hfull) as (_ & _ & -> & _). by rewrite E. }
  destruct (clone_full d Hfull) as ((Hok & Hdl & Hnb) & _ & _ & Hcl).
  destruct (clone_of_spec d (proj1 Hfull)) as (_ & _ & Hty & Hlen & _).
  destruct (buf_ptr (clone_of d)) as [b|] eqn:Eb; [|done]. destruct (ok_block _ Hok b Eb) as (H1 & H2 & H3).
  destruct (write_u32_some (clamp e v') b) as (b' & Ew & Elen & Hby); [lia|]. rewrite Ew.
  set (d' := mk_EsifData (type d) (Some b') (buf_len (clone_of d)) (data_len d)).
  assert (Hfull' : full d').
  { split; [|split; [simpl; lia|done]]. destruct Hok as [Ha Hb _]. split; simpl; try lia.
    intros b0 [= <-]. rewrite Elen. split; [by apply Hby|lia]. }
  destruct (clone_full d' Hfull') as (_ & _ & -> & _). simpl. apply write_read with b; [unfold clamp; lia|done].
Qed.

(** C9: An arbitrated primitive refines its specification: whatever sequence
    of requests, removals and changes of function, limits or state an entry has
    seen, every call returned the specified code, the entry holds exactly the
    latest request of each application (one each), and the next call has an
    outcome - no invalid memory is read. *)
Theorem arb_entry_refines (p : EsifArbEntryParams) (part : Z) (tr : list (arb_op * Z)) (s : est)
    (Hp : params_ok p) (Hrun : arb_run (mk_est (EsifArbEntry_Create true p part) []) tr s) :
  tr.*2 = (spec_calls tr.*1 (spec_init p)).1 /\
  (exists e rs, self s = Some e /\ arbRequests e = Some <$> rs /\ NoDup (appHandle <$> rs) /\
     req_map rs = sp_requests (spec_calls tr.*1 (spec_init p)).2) /\
  (forall m op, op_ok m op s -> exists rc s', arb_call m op s = Some (rc, s')).
Proof.
  destruct (arb_run_rel p part tr s Hp Hrun) as (e & rs & Es & Hrel & Hrcs & _ & _). split; [done|split].
  - exists e, rs. destruct Hrel as [He _ _ _ _ Hrq]. split; [done|split; [apply He|split; [apply He|done]]].
  - intros m op Hok. destruct s as [o q]. simpl in Es. subst o.
    destruct (arb_call_spec m op e rs _ q Hrel Hok) as (e' & rs' & q' & E & _). eauto.
Qed.

(** C10: The winner is the best request: as long as some application's latest
    request has a 32-bit value and the entry has an arbitration function, the
    head of the list is some application's latest request, it has a value, and
    no other application's value is better. *)
Theorem arb_winner_best (p : EsifArbEntryParams) (part : Z) (tr : list (arb_op * Z)) (s : est)
    (Hp : params_ok p) (Hrun : arb_run (mk_est (EsifArbEntry_Create true p part) []) tr s)
    (sp : arb_spec) (Hsp : (spec_calls tr.*1 (spec_init p)).2 = sp)
    (Hfun : GetArbitrationFunction (sp_type sp) <> None)
    (app : Z) (d : EsifData) (v : Z) (Happ : sp_requests sp !! app = Some d) (Hv : value_of d = Some v) :
  exists a dw w vw, EsifArbEntry_GetArbitratedRequestData_Locked s = Some (Some (a, dw), s) /\
    sp_requests sp !! w = Some dw /\ value_of dw = Some vw /\
    forall app' d' v', sp_requests sp !! app' = Some d' -> value_of d' = Some v' ->
      value_better (sp_type sp) v' vw = false.
Proof.
  destruct (arb_run_rel p part tr s Hp Hrun) as (e & rs & Es & [He Ht _ _ _ Hrq] & _). rewrite Hsp in *.
  destruct s as [o q]. simpl in Es. subst o. pose proof (er_reqs _ _ He) as [Hok Hap _ Hs].
  rewrite <- Hrq, req_map_lookup in Happ by done. destruct Happ as (r & a & Hr & Ea & Ed).
  destruct rs as [|w rs]; [by apply elem_of_nil in Hr|].
  pose proof Hok as [(aw & dw & Ew & _) _]%Forall_cons.
  assert (Hbest : forall x, x ∈ w :: rs -> beats (arbType e) x w = false) by (intros; by eapply StronglySorted_head).
  assert (Hval : forall x ax dx, reqPtr x = Some (ax, dx) -> req_value x = value_of dx) by (by unfold req_value; intros ? ? ? ->).
  destruct (GetArbitrationFunction (sp_type sp)) as [f|] eqn:Ef; [|done].
  assert (Hvw : exists vw, value_of dw = Some vw).
  { specialize (Hbest r Hr). unfold beats in Hbest. rewrite Ht, Ef, (Hval _ _ _ Ed), (Hval _ _ _ Ew), Hv in Hbest.
    destruct (value_of dw); [eauto|done]. }
  destruct Hvw as [vw Hvw]. exists aw, dw, (appHandle w), vw.
  rewrite (winner_step _ _ _ (er_list _ _ He)). simpl. rewrite Ew. split; [done|split; [|split; [done|]]].
  - rewrite <- Hrq, req_map_lookup by done. exists w, aw. by split; [left|].
  - intros app' d' v' Happ' Hv'. rewrite <- Hrq, req_map_lookup in Happ' by done.
    destruct Happ' as (x & ax & Hx & _ & Ex). specialize (Hbest x Hx). unfold beats in Hbest.
    by rewrite Ht, Ef, (Hval _ _ _ Ex), (Hval _ _ _ Ew), Hv', Hvw in Hbest.
Qed.

(** C11: The winner is in effect: after any run, as long as any request is
    pending, the last primitive put on the queue is addressed to the entry's
    participant, primitive, domain and instance, and when the winning request
    carries a full 32-bit value it carries that value clamped to the current
    limits, even if the limits, the function or the applications changed after
    the request was made. *)
Theorem arb_winner_in_effect (p : EsifArbEntryParams) (part : Z) (tr : list (arb_op * Z)) (s : est)
    (Hp : params_ok p) (Hrun : arb_run (mk_est (EsifArbEntry_Create true p part) []) tr s)
    (sp : arb_spec) (Hsp : (spec_calls tr.*1 (spec_init p)).2 = sp)
    (a : positive) (d : EsifData)
    (Hwin : EsifArbEntry_GetArbitratedRequestData_Locked s = Some (Some (a, d), s)) :
  exists r, last_request (queue s) = Some r /\
    p_participantId r = part /\ p_primitiveId r = e_primitiveId p /\ p_domain r = e_domain p /\
    p_instance r = e_instance p /\
    forall v, full d -> 4 <= buf_len d -> content d = Some v ->
      exists c, p_reqDataPtr r = Some c /\
        content c = Some (Z.min (Z.max v (sp_lower sp)) (sp_upper sp)).
Proof.
  destruct (arb_run_rel p part tr s Hp Hrun) as (e & rs & Es & [He _ Hu Hl _ _] & _ & Hef & Hid). rewrite Hsp in *.
  destruct s as [o q]. simpl in Es, Hef. subst o. rewrite (winner_step _ _ _ (er_list _ _ He)) in Hwin.
  injection Hwin as Hw. destruct (Hef a d Hw) as [delay Hlast]. exists (prim_request e d delay).
  injection Hid as H1 H2 H3 H4. split; [done|]. simpl. split_and!; try done.
  intros v Hfull Hbl Hv. eexists. split; [done|].
  destruct (er_limits _ _ He) as (? & ? & ?). rewrite (limited_content e d v Hfull Hbl Hv) by lia.
  unfold clamp. by rewrite Hu, Hl.
Qed.

(* ------------------------------------------------------------------ *)
(** ** Allocation failures *)

(** A request whose copy cannot be allocated changes nothing: the entry, its
    winner and the queue stay as they were and the caller gets an error. *)
Theorem arb_execute_no_memory (m : allocs) (e : EsifArbEntry) (q : prim_queue) (app : Z) (d : EsifData)
    (Hd : data_ok d) (Hen : arbitrationEnabled e = true)
    (Hm : m_req m = false \/ m_data m = None \/
      (m_buf m = false /\ exists b, buf_ptr d = Some b /\ 0 < Z.max (buf_len d) (data_len d))) :
  EsifArbEntry_ExecutePrimitive m app (Some d) (mk_est (Some e) q) =
    Some (ESIF_E_PARAMETER_IS_NULL, mk_est (Some e) q).
Proof.
  assert (E : EsifArbReq_Create m app (Some d) = Some None).
  { unfold EsifArbReq_Create. destruct (m_req m); [|done].
    destruct (m_data m) as [a|]; [|done].
    destruct Hm as [?|[?|(Hb & b & Eb & Hpos)]]; [done|done|]. unfold EsifData_Clone.
    by rewrite Hb, Eb, geb_max, (proj2 (Z.eqb_neq _ _)) by lia. }
  unfold EsifArbEntry_ExecutePrimitive. run_est. rewrite Hen.
  assert (Ew : exists w, EsifArbEntry_GetArbitratedRequestData_Locked (mk_est (Some e) q) = Some (w, mk_est (Some e) q)).
  { unfold EsifArbEntry_GetArbitratedRequestData_Locked. run_est. destruct (arbRequests e); eauto. }
  destruct Ew as [w Ew]. rewrite (sbind_some _ _ _ _ _ Ew).
  rewrite (sbind_some _ _ _ ESIF_E_PARAMETER_IS_NULL (mk_est (Some e) q)); [done|].
  unfold EsifArbEntry_InsertRequest_Locked. run_est. rewrite E. run_est.
  unfold EsifArbEntry_ArbitrateRequest_Locked. by run_est.
Qed.

Module ArbDemo.
Definition mem (a : positive) : allocs :=
  mk_allocs true (Some a) true (fun _ => true) true true true true true true true true.
Definition u32_data (v : Z) : EsifData := mk_EsifData 24 (Some [v; 0; 0; 0]) 4 4.
Definition params : EsifArbEntryParams := mk_EsifArbEntryParams SET_RAPL_POWER_LIMIT 12356 0 2 100 0.

Lemma mem_all a : mem_ok (mem a).
Proof. by split. Qed.

Lemma data_fine v : 0 <= v < 256 -> data_ok (u32_data v).
Proof.
  intros Hv. split; simpl; try lia. intros b [= <-]. split; [|simpl; lia].
  repeat constructor; unfold is_byte; lia.
Qed.

Definition ops : list (positive * arb_op) :=
  [(1%positive, ArbExecute 7 (u32_data 50)); (2%positive, ArbExecute 8 (u32_data 20));
   (3%positive, ArbSetLimits None (Some 30)); (4%positive, ArbRemoveApp 8);
   (5%positive, ArbExecute 9 (u32_data 90)); (6%positive, ArbSetFunction 1);
   (7%positive, ArbSetLimits (Some 80) None)].

(** Running a list of calls, with the codes they return. *)
Fixpoint run_ops (l : list (positive * arb_op)) (s : est) : list (arb_op * Z) * est :=
  match l with
  | [] => ([], s)
  | (a, op) :: l' =>
      match arb_call (mem a) op s with
      | Some (rc, s') => let '(tr, s'') := run_ops l' s' in ((op, rc) :: tr, s'')
      | None => ([], s)
      end
  end.

Definition s0 : est := mk_est (EsifArbEntry_Create true params 5) [].
Definition tr (n : nat) : list (arb_op * Z) := (run_ops (take n ops) s0).1.
Definition st (n : nat) : est := (run_ops (take n ops) s0).2.

Definition fresh (a : positive) (s : est) : bool :=
  match self s with
  | Some e => forallb (fun o => match o with Some r => bool_decide (req_addr r <> Some a) | None => true end) (arbRequests e)
  | None => true
  end.

Lemma execute_ok a app v s :
  0 <= v < 256 -> Z.of_nat (length (queue s)) < 100 -> fresh a s = true ->
  op_ok (mem a) (ArbExecute app (u32_data v)) s.
Proof.
  intros Hv Hq Hf. split; [apply mem_all|split; [unfold ESIF_UF_ARBMGR_QUEUE_SIZE; lia|]].
  split; [by apply data_fine|]. exists a. split; [done|]. intros e r He Hr.
  unfold fresh in Hf. rewrite He in Hf. rewrite forallb_forall in Hf.
  specialize (Hf (Some r) (proj1 (list_elem_of_In _ _) Hr)). by apply bool_decide_eq_true in Hf.
Qed.

Lemma step n a op rc :
  arb_run s0 (tr n) (st n) -> op_ok (mem a) op (st n) ->
  arb_call (mem a) op (st n) = Some (rc, st (S n)) -> tr (S n) = tr n ++ [(op, rc)] ->
  arb_run s0 (tr (S n)) (st (S n)).
Proof. intros Hr Hok E ->. by eapply arb_run_snoc. Qed.

Ltac room := split; [apply mem_all|split; [by vm_compute|]].

Lemma run_entry : arb_run s0 (tr 7) (st 7).
Proof.
  apply (step 6 7 (ArbSetLimits (Some 80) None) 0); [|room; split; [intros ? [= <-]; lia|done]|by vm_compute|by vm_compute].
  apply (step 5 6 (ArbSetFunction 1) 0); [|by room|by vm_compute|by vm_compute].
  apply (step 4 5 (ArbExecute 9 (u32_data 90)) 0); [|by apply execute_ok|by vm_compute|by vm_compute].
  apply (step 3 4 (ArbRemoveApp 8) 0); [|by room|by vm_compute|by vm_compute].
  apply (step 2 3 (ArbSetLimits None (Some 30)) 0); [|room; split; [done|intros ? [= <-]; lia]|by vm_compute|by vm_compute].
  apply (step 1 2 (ArbExecute 8 (u32_data 20)) 0); [|by apply execute_ok|by vm_compute|by vm_compute].
  apply (step 0 1 (ArbExecute 7 (u32_data 50)) 0); [|by apply execute_ok|by vm_compute|by vm_compute].
  constructor.
Qed.

Lemma params_fine : params_ok params.
Proof. unfold params_ok. simpl. lia. Qed.
End ArbDemo.

Lemma arb_entry_refines_witness :
  (ArbDemo.tr 7).*2 = (spec_calls (ArbDemo.tr 7).*1 (spec_init ArbDemo.params)).1 /\
  (exists e rs, self (ArbDemo.st 7) = Some e /\ arbRequests e = Some <$> rs /\ NoDup (appHandle <$> rs) /\
     req_map rs = sp_requests (spec_calls (ArbDemo.tr 7).*1 (spec_init ArbDemo.params)).2) /\
  (forall m op, op_ok m op (ArbDemo.st 7) -> exists rc s', arb_call m op (ArbDemo.st 7) = Some (rc, s')).
Proof. exact (arb_entry_refines ArbDemo.params 5 (ArbDemo.tr 7) (ArbDemo.st 7) ArbDemo.params_fine ArbDemo.run_entry). Defined.

Lemma arb_winner_best_witness :
  exists a dw w vw, EsifArbEntry_GetArbitratedRequestData_Locked (ArbDemo.st 7) = Some (Some (a, dw), ArbDemo.st 7) /\
    sp_requests (spec_calls (ArbDemo.tr 7).*1 (spec_init ArbDemo.params)).2 !! w = Some dw /\ value_of dw = Some vw /\
    forall app' d' v', sp_requests (spec_calls (ArbDemo.tr 7).*1 (spec_init ArbDemo.params)).2 !! app' = Some d' ->
      value_of d' = Some v' ->
      value_better (sp_type (spec_calls (ArbDemo.tr 7).*1 (spec_init ArbDemo.params)).2) v' vw = false.
Proof.
  refine (arb_winner_best ArbDemo.params 5 (ArbDemo.tr 7) (ArbDemo.st 7) ArbDemo.params_fine ArbDemo.run_entry
    _ eq_refl _ 7 (ArbDemo.u32_data 50) 50 _ _); [by vm_compute|by vm_compute|by vm_compute].
Defined.

Lemma arb_winner_in_effect_witness :
  exists r, last_request (queue (ArbDemo.st 7)) = Some r /\
    p_participantId r = 5 /\ p_primitiveId r = SET_RAPL_POWER_LIMIT /\ p_domain r = 12356 /\ p_instance r = 0 /\
    forall v, full (ArbDemo.u32_data 90) -> 4 <= buf_len (ArbDemo.u32_data 90) -> content (ArbDemo.u32_data 90) = Some v ->
      exists c, p_reqDataPtr r = Some c /\
        content c = Some (Z.min (Z.max v (sp_lower (spec_calls (ArbDemo.tr 7).*1 (spec_init ArbDemo.params)).2))
                         (sp_upper (spec_calls (ArbDemo.tr 7).*1 (spec_init ArbDemo.params)).2)).
Proof.
  refine (arb_winner_in_effect ArbDemo.params 5 (ArbDemo.tr 7) (ArbDemo.st 7) ArbDemo.params_fine ArbDemo.run_entry
    _ eq_refl 5 (ArbDemo.u32_data 90) _). by vm_compute.
Defined.

Lemma arb_execute_no_memory_witness :
  EsifArbEntry_ExecutePrimitive (mk_allocs true None true (fun _ => true) true true true true true true true true)
    7 (Some (ArbDemo.u32_data 50)) (mk_est (EsifArbEntry_Create true ArbDemo.params 5) []) =
  Some (ESIF_E_PARAMETER_IS_NULL, mk_est (EsifArbEntry_Create true ArbDemo.params 5) []).
Proof.
  apply arb_execute_no_memory; [apply ArbDemo.data_fine; lia|reflexivity|by right; left].
Defined.

(** When the list node cannot be allocated, the request that the new one
    beats first is overwritten: it is lost, whichever application made it. *)
Theorem arbitrate_node_failure_drops (t : Z) (r c : EsifArbReq) (rest : list EsifArbReq)
    (Hr : req_ok r) (Hc : req_ok c) (Hnodup : NoDup (appHandle <$> c :: rest)) (Hne : appHandle c <> appHandle r)
    (Hb : beats t r c = true) :
  arbitrate_loop (GetArbitrationFunction t) r false false false (Some <$> c :: rest) =
    Some (true, Some <$> r :: others (appHandle r) rest).
Proof.
  apply NoDup_cons in Hnodup as [_ Hn]. cbn [fmap list_fmap arbitrate_loop andb].
  rewrite (proj2 (Z.eqb_neq _ _)) by done.
  destruct (GetArbitrationFunction t) as [f|] eqn:Ef; [|unfold beats in Hb; by rewrite Ef in Hb].
  destruct (arb_function_spec t f r c Ef Hr Hc) as (rc & v1 & v2 & res & -> & Hbt). rewrite Hbt, Hb.
  by rewrite (arbitrate_loop_inserted (Some f) r false false rest) by done.
Qed.

Lemma arbitrate_node_failure_drops_witness :
  let req app v := mk_EsifArbReq app (Some (1%positive, ArbDemo.u32_data v)) in
  arbitrate_loop (GetArbitrationFunction 1) (req 8 50) false false false [Some (req 7 20)] = Some (true, [Some (req 8 50)]).
Proof.
  intros req. apply (arbitrate_node_failure_drops 1 (req 8 50) (req 7 20) []); try done.
  - eexists _, _. split; [reflexivity|]. apply ArbDemo.data_fine. lia.
  - eexists _, _. split; [reflexivity|]. apply ArbDemo.data_fine. lia.
  - repeat constructor. by intros ?%elem_of_nil.
Defined.
