(* ===== verification/ArbLife.v ===== *)
(** * The life of an arbitration entry: EsifArbEntry_GetRef, EsifArbEntry_PutRef and
    EsifArbEntry_Destroy of ESIF/Products/ESIF_UF/Sources/esif_uf_arbmgr.c under
    concurrency

    Callers take and release references while one thread destroys the entry:
    it marks it, drops the owner's reference, waits for the delete event and
    frees it.  Each step below is one of the code's critical sections, or its
    unlocked write of [markedForDelete], or the end of its wait. *)

From S2P Require Import Prelude ArbEntry.
From stdpp Require Import list.
Local Open Scope Z_scope.

Inductive phase : Type := PhAlive | PhMarked | PhReleased | PhFreed.

#[export] Instance phase_eq_dec : EqDecision phase.
Proof. solve_decision. Defined.

Record life : Type := mk_life { entry : est; held : Z; ph : phase }.

(** The unlocked [self->markedForDelete = ESIF_TRUE]. *)
Definition mark_for_delete : SM est unit :=
  mod_entry (fun e => with_life (refCount e) true (deleteEvent e) e).

Inductive life_step : life -> life -> Prop :=
  | life_get s h p rc s' :
      h < 2 ^ 32 - 2 -> EsifArbEntry_GetRef s = Some (rc, s') -> p <> PhFreed ->
      life_step (mk_life s h p) (mk_life s' (if rc =? ESIF_OK then h + 1 else h) p)
  | life_put s h p s' :
      0 < h -> EsifArbEntry_PutRef s = Some (tt, s') ->
      life_step (mk_life s h p) (mk_life s' (h - 1) p)
  | life_mark s h s' :
      mark_for_delete s = Some (tt, s') -> life_step (mk_life s h PhAlive) (mk_life s' h PhMarked)
  | life_release s h s' :
      EsifArbEntry_PutRef s = Some (tt, s') -> life_step (mk_life s h PhMarked) (mk_life s' h PhReleased)
  | life_free s h e :
      self s = Some e -> deleteEvent e = true ->
      life_step (mk_life s h PhReleased) (mk_life (mk_est None (queue s)) h PhFreed).

Inductive life_run (l0 : life) : life -> Prop :=
  | life_run_nil : life_run l0 l0
  | life_run_step l l' : life_run l0 l -> life_step l l' -> life_run l0 l'.

Definition owner_ref (p : phase) : Z := match p with PhAlive | PhMarked => 1 | _ => 0 end.

(** The invariant: the counter is the references held plus the owner's, and the
    event is set exactly when the last one has gone. *)
Record life_inv (l : life) : Prop := {
  li_held : 0 <= held l < 2 ^ 32 - 1;
  li_freed : ph l = PhFreed -> self (entry l) = None /\ held l = 0;
  li_alive : ph l <> PhFreed -> exists e, self (entry l) = Some e /\
    refCount e = held l + owner_ref (ph l) /\
    (markedForDelete e = true <-> ph l <> PhAlive) /\
    (deleteEvent e = true <-> ph l = PhReleased /\ held l = 0)
}.

Lemma put_ref_live e q :
  EsifArbEntry_PutRef (mk_est (Some e) q) =
  Some (tt, mk_est (Some (with_life (u32 (refCount e - 1)) (markedForDelete e)
    (if (u32 (refCount e - 1) =? 0) && markedForDelete e then true else deleteEvent e) e)) q).
Proof. unfold EsifArbEntry_PutRef. by run_est. Qed.

Lemma life_step_inv l l' : life_inv l -> life_step l l' -> life_inv l'.
Proof.
  intros [Hh Hfr Hal] Hs. destruct Hs as [s h p rc s' Hb E Hp|s h p s' Hpos E|s h s' E|s h s' E|s h e Es Ev];
    cbn [held ph entry] in *.
  - destruct (Hal Hp) as (e & Es & Hrc & Hm & Hev). destruct s as [o q]. simpl in Es. subst o.
    revert E. unfold EsifArbEntry_GetRef. run_est. destruct (markedForDelete e) eqn:Em; cbn [negb]; run_est; unfold sret; intros E; simplify_eq.
    + split; cbn [held ph entry]; simpl; [lia|done|]. intros _. exists e. by rewrite Em.
    + assert (p = PhAlive) as ->.
      { destruct p; [done|exfalso; assert (false = true) by (apply Hm; done); done..]. }
      split; cbn [held ph entry]; simpl; [lia|done|]. intros _. eexists. split; [done|]. simpl.
      rewrite wrap_small by (unfold in_range; simpl in Hrc; lia). simpl in Hrc. split; [lia|].
      split; [done|]. split; [intros [? ?]%Hev; done|intros [? ?]; done].
  - destruct (decide (p = PhFreed)) as [->|Hne]; [destruct (Hfr eq_refl); lia|].
    destruct (Hal Hne) as (e & Es & Hrc & Hm & Hev). destruct s as [o q]. simpl in Es. subst o.
    rewrite put_ref_live in E. simplify_eq. split; cbn [held ph entry]; simpl; [lia|done|]. intros _.
    eexists. split; [done|]. simpl. rewrite wrap_small by (unfold in_range; destruct p; simpl in *; lia).
    split; [lia|split; [done|]].
    destruct (Z.eqb_spec (refCount e - 1) 0) as [Ez|Ez]; destruct (markedForDelete e); simpl.
    all: destruct p; simpl in *; naive_solver lia.
  - destruct (Hal ltac:(done)) as (e & Es & Hrc & Hm & Hev). destruct s as [o q]. simpl in Es. subst o.
    revert E. unfold mark_for_delete. run_est. intros E. simplify_eq.
    split; cbn [held ph entry]; simpl; [lia|done|]. intros _. eexists. split; [done|]. simpl.
    split; [done|split; [done|]]. naive_solver.
  - destruct (Hal ltac:(done)) as (e & Es & Hrc & Hm & Hev). destruct s as [o q]. simpl in Es. subst o.
    rewrite put_ref_live in E. simplify_eq. split; cbn [held ph entry]; simpl; [lia|done|]. intros _.
    eexists. split; [done|]. simpl in *. rewrite wrap_small by (unfold in_range; lia).
    assert (Em : markedForDelete e = true) by by apply Hm. rewrite Em, andb_true_r.
    split; [lia|split; [done|]]. destruct (Z.eqb_spec (refCount e - 1) 0); naive_solver lia.
  - destruct (Hal ltac:(done)) as (e' & Es' & Hrc & Hm & Hev). rewrite Es in Es'. simplify_eq.
    split; cbn [held ph entry]; simpl; [done| |done]. intros _. apply Hev in Ev as [_ ->]. done.
Qed.

(** C14: An arbitration entry is freed only when nobody uses it, and always
    gets freed: in every interleaving of callers and one destroyer, as long as
    a caller holds a reference the entry exists and the reference can be
    released; once it is marked no new reference is granted; and when the
    destroyer waits and no reference is left, its wait is over. *)
Theorem arb_entry_lifetime (params : EsifArbEntryParams) (part : Z) (q : prim_queue) (l : life)
    (Hrun : life_run (mk_life (mk_est (EsifArbEntry_Create true params part) q) 0 PhAlive) l) :
  (0 < held l -> exists e s', self (entry l) = Some e /\ EsifArbEntry_PutRef (entry l) = Some (tt, s')) /\
  (forall rc s', ph l <> PhAlive -> EsifArbEntry_GetRef (entry l) = Some (rc, s') -> rc <> ESIF_OK /\ s' = entry l) /\
  (ph l = PhReleased -> held l = 0 -> exists l', life_step l l' /\ ph l' = PhFreed).
Proof.
  assert (Hinv : life_inv l).
  { induction Hrun as [|l l' _ IH Hs]; [|by eapply life_step_inv]. split; simpl; [lia|done|]. intros _.
    eexists. split; [done|]. simpl. split; [done|]. split; naive_solver. }
  destruct Hinv as [Hh Hfr Hal]. destruct l as [s h p]. simpl in *. split; [|split].
  - intros Hpos. destruct (decide (p = PhFreed)) as [->|Hne]; [destruct (Hfr eq_refl); lia|].
    destruct (Hal Hne) as (e & Es & _). destruct s as [o q']. simpl in Es. subst o.
    eexists _, _. split; [done|]. apply put_ref_live.
  - intros rc s' Hna E. destruct (decide (p = PhFreed)) as [->|Hne].
    + destruct (Hfr eq_refl) as [Hs _]. destruct s as [o q']. simpl in Hs. subst o.
      revert E. unfold EsifArbEntry_GetRef. run_est. unfold sret. intros E. by simplify_eq.
    + destruct (Hal Hne) as (e & Es & _ & Hm & _). destruct s as [o q']. simpl in Es. subst o.
      assert (Em : markedForDelete e = true) by by apply Hm.
      revert E. unfold EsifArbEntry_GetRef. run_est. rewrite Em. cbn [negb]. run_est. unfold sret. intros E. by simplify_eq.
  - intros -> ->. destruct (Hal ltac:(done)) as (e & Es & _ & _ & Hev). exists (mk_life (mk_est None (queue s)) 0 PhFreed). split; [|done].
    eapply life_free; [done|]. by apply Hev.
Qed.

(** A run in which the destroyer has to wait for a caller. *)
Definition demo_entry (n : Z) (marked ev : bool) : est :=
  match EsifArbEntry_Create true ArbDemo.params 5 with
  | Some e => mk_est (Some (with_life n marked ev e)) []
  | None => mk_est None []
  end.

Lemma demo_life :
  life_run (mk_life (mk_est (EsifArbEntry_Create true ArbDemo.params 5) []) 0 PhAlive)
    (mk_life (demo_entry 0 true true) 0 PhReleased).
Proof.
  apply life_run_step with (mk_life (demo_entry 1 true false) 1 PhReleased).
  2: { exact (life_put (demo_entry 1 true false) 1 PhReleased (demo_entry 0 true true) ltac:(lia) eq_refl). }
  apply life_run_step with (mk_life (demo_entry 2 true false) 1 PhMarked); [|by apply life_release].
  apply life_run_step with (mk_life (demo_entry 2 false false) 1 PhAlive); [|by apply life_mark].
  apply life_run_step with (mk_life (demo_entry 1 false false) 0 PhAlive); [constructor|].
  exact (life_get (demo_entry 1 false false) 0 PhAlive ESIF_OK (demo_entry 2 false false) ltac:(lia) eq_refl ltac:(done)).
Qed.

Lemma arb_entry_lifetime_witness :
  (0 < 0 -> exists e s', self (demo_entry 0 true true) = Some e /\
     EsifArbEntry_PutRef (demo_entry 0 true true) = Some (tt, s')) /\
  (forall rc s', PhReleased <> PhAlive -> EsifArbEntry_GetRef (demo_entry 0 true true) = Some (rc, s') ->
     rc <> ESIF_OK /\ s' = demo_entry 0 true true) /\
  (PhReleased = PhReleased -> 0 = 0 ->
     exists l', life_step (mk_life (demo_entry 0 true true) 0 PhReleased) l' /\ ph l' = PhFreed).
Proof. exact (arb_entry_lifetime ArbDemo.params 5 [] _ demo_life). Defined.
