(* ===== verification/ArbCtx.v ===== *)
(** * Arbitration contexts: the EsifArbCtx functions of
    ESIF/Products/ESIF_UF/Sources/esif_uf_arbmgr.c

    A context is the growable array of a participant's arbitration entries.
    Its entries are known by their index; every call takes a reference on the
    entry it uses and releases it.  The calls are modelled one at a time (the
    interleavings of references and destruction are in ArbLife.v), so a wait
    that no other thread can end has no outcome. *)

From S2P Require Import Prelude EsifData PrimitiveType ArbEntry.
From stdpp Require Import list.
Local Open Scope Z_scope.
Local Open Scope dptf_scope.

Definition ESIF_ARB_CTX_ENTRY_TABLE_GROWTH_RATE : Z := 10.
Definition ESIF_PRIMITIVE_DOMAIN_D0 : Z := 12356.
Definition ESIF_PRIMITIVE_DOMAIN_D1 : Z := 12612.
Definition ESIF_ARB_LIMIT_MAX_PERCENT : Z := 10000.
Definition ESIF_ARB_LIMIT_MIN_PERCENT : Z := 0.
Definition ESIF_PRIMITIVE_OP_SET : Z := 2.
Definition ESIF_ARB_DATA_SIZE : Z := 4.

Record EsifArbCtx : Type := mk_EsifArbCtx {
  ctx_enabled : bool;
  entryCapacity : Z;
  entriesPtr : list EsifArbEntry;
  ctx_participantId : Z
}.
Definition numEntries (c : EsifArbCtx) : Z := Z.of_nat (length (entriesPtr c)).

Definition with_ctx_enabled (b : bool) (c : EsifArbCtx) : EsifArbCtx :=
  mk_EsifArbCtx b (entryCapacity c) (entriesPtr c) (ctx_participantId c).
Definition with_entries (cap : Z) (l : list EsifArbEntry) (c : EsifArbCtx) : EsifArbCtx :=
  mk_EsifArbCtx (ctx_enabled c) cap l (ctx_participantId c).

(** A computation acts on the context, which may be NULL, and on the primitive
    queue. *)
Record cst : Type := mk_cst { ctx : option EsifArbCtx; cqueue : prim_queue }.

Abbreviation CM := (SM cst).

Definition has_ctx : CM bool := fun s => Some (match ctx s with Some _ => true | None => false end, s).
Definition get_ctx : CM EsifArbCtx := fun s => match ctx s with Some c => Some (c, s) | None => None end.
Definition mod_ctx (f : EsifArbCtx -> EsifArbCtx) : CM unit :=
  fun s => match ctx s with Some c => Some (tt, mk_cst (Some (f c)) (cqueue s)) | None => None end.

(** Call an entry operation through a pointer that may be NULL; through a
    pointer outside the array there is no outcome. *)
Definition on_entry {T} (i : option nat) (m : SM est T) : CM T :=
  match i with
  | None => fun s => match m (mk_est None (cqueue s)) with
                     | Some (x, e') => Some (x, mk_cst (ctx s) (queue e'))
                     | None => None
                     end
  | Some i => fun s =>
      match ctx s with
      | Some c =>
          match entriesPtr c !! i with
          | Some e =>
              match m (mk_est (Some e) (cqueue s)) with
              | Some (x, e') =>
                  match self e' with
                  | Some e1 => Some (x, mk_cst (Some (with_entries (entryCapacity c) (<[i:=e1]> (entriesPtr c)) c)) (queue e'))
                  | None => None
                  end
              | None => None
              end
          | None => None
          end
      | None => None
      end
  end.

(** What the context functions ask of the participant manager and the DSP: the
    operation and the request type of a primitive, when the participant is
    available, has a DSP and the DSP knows the primitive. *)
Definition dsp_lookup : Type := Z -> Z -> Z -> Z -> option (Z * Z).

Definition IsPrimitiveSupported (dsp : dsp_lookup) (part prim dom inst : Z) : bool :=
  match dsp part (u16 prim) dom inst with
  | Some (operation, request_type) =>
      (ESIF_PRIMITIVE_OP_SET =? operation) && (ESIF_ARB_DATA_SIZE =? esif_data_type_sizeof request_type)
  | None => false
  end.

(* ------------------------------------------------------------------ *)
(** ** The array of entries *)

(** [mem_grow] is the outcome of the reallocation.  The second round happens
    only after the array has grown. *)
Fixpoint insert_rounds (fuel : nat) (mem_grow : bool) (e : EsifArbEntry) : CM Z :=
  match fuel with
  | O => ub
  | S fuel' =>
      let! ok := has_ctx in
      if ok then
        let! c := get_ctx in
        if numEntries c <? entryCapacity c then
          mod_ctx (fun c => with_entries (entryCapacity c) (entriesPtr c ++ [e]) c) ;!
          sret ESIF_OK
        else if mem_grow then
          mod_ctx (fun c => with_entries (entryCapacity c + ESIF_ARB_CTX_ENTRY_TABLE_GROWTH_RATE) (entriesPtr c) c) ;!
          insert_rounds fuel' mem_grow e
        else sret ESIF_E_NO_MEMORY
      else sret ESIF_E_PARAMETER_IS_NULL
  end.
Definition EsifArbCtx_InsertArbEntry_Locked (mem_grow : bool) (e : EsifArbEntry) : CM Z :=
  insert_rounds 2 mem_grow e.

(** The result is the code and the pointer passed back. *)
Definition EsifArbCtx_CreateAndInsertEntry_Locked (mem_entry mem_grow : bool) (params : EsifArbEntryParams) :
    CM (Z * option nat) :=
  let! ok := has_ctx in
  if ok then
    let! c := get_ctx in
    match EsifArbEntry_Create mem_entry params (ctx_participantId c) with
    | None => sret (ESIF_E_NO_MEMORY, None)
    | Some e =>
        fun s =>
        match EsifArbEntry_GetRef (mk_est (Some e) (cqueue s)) with
        | Some (rc, e') =>
            match self e' with
            | Some e1 =>
                (let! rc := (if rc =? ESIF_OK then EsifArbCtx_InsertArbEntry_Locked mem_grow e1 else sret rc) in
                 if rc =? ESIF_OK then sret (rc, Some (length (entriesPtr c)))
                 else fun s' =>
                   match EsifArbEntry_Destroy (mk_est (Some e1) (cqueue s')) with
                   | Some (_, e2) => Some ((rc, None), mk_cst (ctx s') (queue e2))
                   | None => None
                   end) (mk_cst (ctx s) (queue e'))
            | None => None
            end
        | None => None
        end
    end
  else sret (ESIF_E_PARAMETER_IS_NULL, None).

(** Removal closes the gap and gives memory back once ten slots are free.  The
    entry leaves the array without being destroyed. *)
Definition EsifArbCtx_RemoveArbEntry_Locked (mem_shrink : bool) (i : option nat) : CM Z :=
  let! ok := has_ctx in
  match i with
  | None => sret ESIF_E_PARAMETER_IS_NULL
  | Some i =>
      if negb ok then sret ESIF_E_PARAMETER_IS_NULL else
      mod_ctx (fun c => with_entries (entryCapacity c) (delete i (entriesPtr c)) c) ;!
      let! c := get_ctx in
      (if (entryCapacity c - numEntries c >? ESIF_ARB_CTX_ENTRY_TABLE_GROWTH_RATE) then
         if numEntries c =? 0 then mod_ctx (with_entries 0 [])
         else if mem_shrink then
           mod_ctx (with_entries (entryCapacity c - ESIF_ARB_CTX_ENTRY_TABLE_GROWTH_RATE) (entriesPtr c))
         else sret tt
       else sret tt) ;!
      sret ESIF_OK
  end.

Fixpoint lookup_loop (n i : nat) (prim dom inst : Z) : CM (option nat) :=
  match n with
  | O => sret None
  | S n' =>
      let! c := get_ctx in
      match entriesPtr c !! i with
      | None => ub
      | Some e =>
          if EsifArbEntry_IsMatchingEntry (Some e) prim dom inst then
            let! rc := on_entry (Some i) EsifArbEntry_GetRef in
            if rc =? ESIF_OK then sret (Some i) else lookup_loop n' (S i) prim dom inst
          else lookup_loop n' (S i) prim dom inst
      end
  end.
Definition EsifArbCtx_LookupArbEntry_Locked (prim dom inst : Z) : CM (option nat) :=
  let! ok := has_ctx in
  if ok then
    let! c := get_ctx in
    lookup_loop (length (entriesPtr c)) 0 prim dom inst
  else sret None.

(* ------------------------------------------------------------------ *)
(** ** The iterator *)

Record EsifArbEntryIterator : Type := mk_iter {
  it_marker : bool;
  it_index : nat;
  it_valid : bool;
  it_entryPtr : option nat
}.

(** The code returned is an error although the iterator is initialized. *)
Definition EsifArbCtx_InitEntryIterator : Z * EsifArbEntryIterator :=
  (ESIF_E_PARAMETER_IS_NULL, mk_iter true 0 false None).

Fixpoint next_loop (fuel : nat) (index : nat) : CM (nat * option nat) :=
  match fuel with
  | O => ub
  | S fuel' =>
      let! c := get_ctx in
      if (Z.of_nat index <? numEntries c) then
        let! rc := on_entry (Some index) EsifArbEntry_GetRef in
        if rc =? ESIF_OK then sret (index, Some index) else next_loop fuel' (S index)
      else sret (index, None)
  end.

Definition EsifArbCtx_GetNextEntry (it : EsifArbEntryIterator) : CM (Z * EsifArbEntryIterator * option nat) :=
  let! ok := has_ctx in
  if ok then
    if it_marker it then
      (if it_valid it then on_entry (it_entryPtr it) EsifArbEntry_PutRef else sret tt) ;!
      let index := if it_valid it then S (it_index it) else it_index it in
      let! c := get_ctx in
      let! r := next_loop (S (length (entriesPtr c))) index in
      match r with
      | (index', Some e) => sret (ESIF_OK, mk_iter true index' true (Some e), Some e)
      | (index', None) => sret (ESIF_E_ITERATION_DONE, mk_iter true index' false None, None)
      end
    else sret (ESIF_E_INVALID_HANDLE, it, None)
  else sret (ESIF_E_PARAMETER_IS_NULL, it, None).

(* ------------------------------------------------------------------ *)
(** ** Context operations *)

Definition EsifArbCtx_ExecutePrimitive (m : allocs) (app prim dom inst : Z) (request : option EsifData) : CM Z :=
  let! ok := has_ctx in
  if ok then
    let! c := get_ctx in
    let! r := (if ctx_enabled c then
                 let! i := EsifArbCtx_LookupArbEntry_Locked prim dom inst in sret (ESIF_E_NOT_FOUND, i)
               else sret (ESIF_E_NOT_SUPPORTED, None)) in
    let '(rc, i) := r in
    let! rc := (match i with
                | Some _ => on_entry i (EsifArbEntry_ExecutePrimitive m app request)
                | None => sret rc
                end) in
    on_entry i EsifArbEntry_PutRef ;!
    sret rc
  else sret ESIF_E_PARAMETER_IS_NULL.

Fixpoint remove_app_iter (fuel : nat) (mem : nat -> allocs) (app : Z) (it : EsifArbEntryIterator)
    (iterRc : Z) (entryPtr : option nat) : CM unit :=
  match fuel with
  | O => ub
  | S fuel' =>
      if iterRc =? ESIF_OK then
        on_entry entryPtr (EsifArbEntry_RemoveApp (mem (it_index it)) app) ;!
        let! r := EsifArbCtx_GetNextEntry it in
        let '(iterRc', it', entryPtr') := r in
        (* the caller's pointer keeps its value when nothing more is found *)
        remove_app_iter fuel' mem app it' iterRc' (match entryPtr' with Some _ => entryPtr' | None => entryPtr end)
      else if negb (iterRc =? ESIF_E_ITERATION_DONE) then on_entry entryPtr EsifArbEntry_PutRef
      else sret tt
  end.

(** [mem i] are the outcomes of the allocations made for entry [i]. *)
Definition EsifArbCtx_RemoveApp (mem : nat -> allocs) (app : Z) : CM unit :=
  let! ok := has_ctx in
  if ok then
    let it := EsifArbCtx_InitEntryIterator.2 in
    let! c := get_ctx in
    let! r := EsifArbCtx_GetNextEntry it in
    let '(iterRc, it', entryPtr) := r in
    remove_app_iter (S (length (entriesPtr c))) mem app it' iterRc entryPtr
  else sret tt.

Fixpoint purge_loop (n i : nat) : CM unit :=
  match n with
  | O => sret tt
  | S n' => on_entry (Some i) EsifArbEntry_PurgeRequests ;! purge_loop n' (S i)
  end.
Definition EsifArbCtx_PurgeRequests_Locked : CM unit :=
  let! ok := has_ctx in
  if ok then let! c := get_ctx in purge_loop (length (entriesPtr c)) 0 else sret tt.
Definition EsifArbCtx_PurgeRequests : CM unit :=
  let! ok := has_ctx in
  if ok then EsifArbCtx_PurgeRequests_Locked else sret tt.

Definition EsifArbCtx_SetArbitrationState (prim dom inst : Z) (isEnabled : bool) : CM Z :=
  let! ok := has_ctx in
  if ok then
    if 0 =? prim then
      mod_ctx (with_ctx_enabled isEnabled) ;!
      (if negb isEnabled then EsifArbCtx_PurgeRequests_Locked else sret tt) ;!
      sret ESIF_OK
    else
      let! i := EsifArbCtx_LookupArbEntry_Locked prim dom inst in
      let! rc := (match i with
                  | Some _ =>
                      let! rc := on_entry i (EsifArbEntry_SetArbitrationState isEnabled) in
                      (if (rc =? ESIF_OK) && isEnabled then mod_ctx (with_ctx_enabled isEnabled) else sret tt) ;!
                      sret rc
                  | None => sret ESIF_E_NOT_FOUND
                  end) in
      on_entry i EsifArbEntry_PutRef ;!
      sret rc
  else sret ESIF_E_PARAMETER_IS_NULL.

(** The walk of [EsifArbCtx_StopArbitration]: the code and the pointer that is
    left when the loop ends, with the iterator's last code. *)
Fixpoint stop_iter (fuel : nat) (mem_shrink : bool) (prim dom inst : Z) (it : EsifArbEntryIterator)
    (iterRc : Z) (curEntryPtr : option nat) (rc : Z) : CM (Z * Z * option nat) :=
  match fuel with
  | O => ub
  | S fuel' =>
      if iterRc =? ESIF_OK then
        let! c := get_ctx in
        match curEntryPtr with
        | None => ub
        | Some i =>
            match entriesPtr c !! i with
            | None => ub
            | Some e =>
                if EsifArbEntry_IsMatchingEntry (Some e) prim dom inst then
                  let! rc := EsifArbCtx_RemoveArbEntry_Locked mem_shrink curEntryPtr in
                  if rc =? ESIF_OK then
                    (* out of the array: its two last references go, then the entry itself *)
                    fun s =>
                      match (EsifArbEntry_PutRef ;! EsifArbEntry_Destroy) (mk_est (Some e) (cqueue s)) with
                      | Some (_, e') => Some ((rc, iterRc, None), mk_cst (ctx s) (queue e'))
                      | None => None
                      end
                  else sret (rc, iterRc, curEntryPtr)
                else
                  let! r := EsifArbCtx_GetNextEntry it in
                  let '(iterRc', it', next) := r in
                  stop_iter fuel' mem_shrink prim dom inst it' iterRc'
                    (match next with Some _ => next | None => curEntryPtr end) ESIF_E_NOT_FOUND
            end
        end
      else sret (rc, iterRc, curEntryPtr)
  end.

Definition EsifArbCtx_StopArbitration (mem_shrink : bool) (prim dom inst : Z) : CM Z :=
  let! ok := has_ctx in
  if ok then
    let it := EsifArbCtx_InitEntryIterator.2 in
    let! c := get_ctx in
    let! r := EsifArbCtx_GetNextEntry it in
    let '(iterRc, it', cur) := r in
    let! r := stop_iter (S (length (entriesPtr c))) mem_shrink prim dom inst it' iterRc cur ESIF_E_NOT_FOUND in
    let '(rc, iterRc, cur) := r in
    if negb (iterRc =? ESIF_E_ITERATION_DONE) then
      on_entry cur EsifArbEntry_PutRef ;!
      sret (if negb (iterRc =? ESIF_OK) then iterRc else rc)
    else sret rc
  else sret ESIF_E_PARAMETER_IS_NULL.

Section Dsp.
Context (dsp : dsp_lookup).

Definition EsifArbCtx_SetArbitrationFunction (m : allocs) (mem_entry mem_grow : bool) (prim dom inst t : Z) : CM Z :=
  let! ok := has_ctx in
  if ok then
    let params := mk_EsifArbEntryParams prim dom inst t ESIF_ARB_LIMIT_MAX ESIF_ARB_LIMIT_MIN in
    let! c := get_ctx in
    let! i := EsifArbCtx_LookupArbEntry_Locked prim dom inst in
    let! r := (match i with
               | Some _ => sret (ESIF_E_PARAMETER_IS_NULL, i)
               | None =>
                   if IsPrimitiveSupported dsp (ctx_participantId c) prim dom inst then
                     EsifArbCtx_CreateAndInsertEntry_Locked mem_entry mem_grow params
                   else sret (ESIF_E_NOT_SUPPORTED, None)
               end) in
    let '(rc, i) := r in
    let! rc := (match i with
                | Some _ => on_entry i (EsifArbEntry_SetArbitrationFunction m t)
                | None => sret rc
                end) in
    on_entry i EsifArbEntry_PutRef ;!
    sret rc
  else sret ESIF_E_PARAMETER_IS_NULL.

Definition EsifArbCtx_SetLimits (m : allocs) (mem_entry mem_grow : bool) (prim dom inst : Z)
    (upperLimitPtr lowerLimitPtr : option Z) : CM Z :=
  let! ok := has_ctx in
  if ok then
    let params := mk_EsifArbEntryParams prim dom inst ESIF_ARBITRATION_INVALID ESIF_ARB_LIMIT_MAX ESIF_ARB_LIMIT_MIN in
    let! c := get_ctx in
    let! i := EsifArbCtx_LookupArbEntry_Locked prim dom inst in
    let! r := (match i with
               | Some _ => sret (ESIF_E_PARAMETER_IS_NULL, i)
               | None =>
                   if IsPrimitiveSupported dsp (ctx_participantId c) prim dom inst then
                     EsifArbCtx_CreateAndInsertEntry_Locked mem_entry mem_grow params
                   else sret (ESIF_E_PRIMITIVE_NOT_FOUND_IN_DSP, None)
               end) in
    let '(rc, i) := r in
    let! rc := (match i with
                | Some _ => on_entry i (EsifArbEntry_SetLimits m upperLimitPtr lowerLimitPtr)
                | None => sret rc
                end) in
    on_entry i EsifArbEntry_PutRef ;!
    sret rc
  else sret ESIF_E_PARAMETER_IS_NULL.

(** The default tables. *)
Definition less (prim dom inst hi lo : Z) : EsifArbEntryParams :=
  mk_EsifArbEntryParams prim dom inst ESIF_ARBITRATION_UIN32_LESS_THAN hi lo.
Definition greater (prim dom inst hi lo : Z) : EsifArbEntryParams :=
  mk_EsifArbEntryParams prim dom inst ESIF_ARBITRATION_UIN32_GREATER_THAN hi lo.

Definition g_cpuArbTable : list EsifArbEntryParams := [
  less SET_PERF_PREFERENCE_MAX ESIF_PRIMITIVE_DOMAIN_D0 255 ESIF_ARB_LIMIT_MAX_PERCENT ESIF_ARB_LIMIT_MIN_PERCENT;
  less SET_PERF_PREFERENCE_MIN ESIF_PRIMITIVE_DOMAIN_D0 255 ESIF_ARB_LIMIT_MAX_PERCENT ESIF_ARB_LIMIT_MIN_PERCENT;
  less SET_PLATFORM_POWER_LIMIT ESIF_PRIMITIVE_DOMAIN_D0 0 ESIF_ARB_LIMIT_MAX ESIF_ARB_LIMIT_MIN;
  less SET_PLATFORM_POWER_LIMIT ESIF_PRIMITIVE_DOMAIN_D0 1 ESIF_ARB_LIMIT_MAX ESIF_ARB_LIMIT_MIN;
  less SET_PLATFORM_POWER_LIMIT_ENABLE ESIF_PRIMITIVE_DOMAIN_D0 0 ESIF_ARB_LIMIT_MAX ESIF_ARB_LIMIT_MIN;
  less SET_PLATFORM_POWER_LIMIT_ENABLE ESIF_PRIMITIVE_DOMAIN_D0 1 ESIF_ARB_LIMIT_MAX ESIF_ARB_LIMIT_MIN;
  less SET_PLATFORM_POWER_LIMIT_TIME_WINDOW ESIF_PRIMITIVE_DOMAIN_D0 0 ESIF_ARB_LIMIT_MAX ESIF_ARB_LIMIT_MIN;
  greater SET_PROC_NUMBER_OFFLINE_CORES ESIF_PRIMITIVE_DOMAIN_D1 255 ESIF_ARB_LIMIT_MAX ESIF_ARB_LIMIT_MIN;
  less SET_RAPL_POWER_LIMIT ESIF_PRIMITIVE_DOMAIN_D0 0 ESIF_ARB_LIMIT_MAX ESIF_ARB_LIMIT_MIN;
  less SET_RAPL_POWER_LIMIT ESIF_PRIMITIVE_DOMAIN_D0 1 ESIF_ARB_LIMIT_MAX ESIF_ARB_LIMIT_MIN;
  less SET_RAPL_POWER_LIMIT ESIF_PRIMITIVE_DOMAIN_D0 3 ESIF_ARB_LIMIT_MAX ESIF_ARB_LIMIT_MIN;
  less SET_RAPL_POWER_LIMIT_DUTY_CYCLE ESIF_PRIMITIVE_DOMAIN_D0 2 ESIF_ARB_LIMIT_MAX ESIF_ARB_LIMIT_MIN;
  greater SET_RAPL_POWER_LIMIT_ENABLE ESIF_PRIMITIVE_DOMAIN_D0 0 ESIF_ARB_LIMIT_MAX ESIF_ARB_LIMIT_MIN;
  greater SET_RAPL_POWER_LIMIT_ENABLE ESIF_PRIMITIVE_DOMAIN_D0 1 ESIF_ARB_LIMIT_MAX ESIF_ARB_LIMIT_MIN;
  less SET_RAPL_POWER_LIMIT_TIME_WINDOW ESIF_PRIMITIVE_DOMAIN_D0 0 ESIF_ARB_LIMIT_MAX ESIF_ARB_LIMIT_MIN;
  less SET_RAPL_POWER_LIMIT_TIME_WINDOW ESIF_PRIMITIVE_DOMAIN_D0 1 ESIF_ARB_LIMIT_MAX ESIF_ARB_LIMIT_MIN;
  greater SET_TCC_OFFSET ESIF_PRIMITIVE_DOMAIN_D0 255 ESIF_ARB_LIMIT_MAX ESIF_ARB_LIMIT_MIN].

Definition g_wifiArbTable : list EsifArbEntryParams := [
  less SET_RAPL_POWER_LIMIT ESIF_PRIMITIVE_DOMAIN_D0 0 ESIF_ARB_LIMIT_MAX ESIF_ARB_LIMIT_MIN;
  less SET_RAPL_POWER_LIMIT ESIF_PRIMITIVE_DOMAIN_D0 1 ESIF_ARB_LIMIT_MAX ESIF_ARB_LIMIT_MIN;
  less SET_RAPL_POWER_LIMIT ESIF_PRIMITIVE_DOMAIN_D0 3 ESIF_ARB_LIMIT_MAX ESIF_ARB_LIMIT_MIN;
  greater SET_RAPL_POWER_LIMIT_ENABLE ESIF_PRIMITIVE_DOMAIN_D0 0 ESIF_ARB_LIMIT_MAX ESIF_ARB_LIMIT_MIN;
  greater SET_RAPL_POWER_LIMIT_ENABLE ESIF_PRIMITIVE_DOMAIN_D0 1 ESIF_ARB_LIMIT_MAX ESIF_ARB_LIMIT_MIN].

Definition g_ietmArbTable : list EsifArbEntryParams := [].

Definition g_fanArbTable : list EsifArbEntryParams := [
  greater SET_FAN_LEVEL ESIF_PRIMITIVE_DOMAIN_D0 255 ESIF_ARB_LIMIT_MAX ESIF_ARB_LIMIT_MIN].

(** [mem i] are the outcomes of the allocations for row [i]: entry and growth. *)
Fixpoint populate_loop (mem : nat -> bool * bool) (i : nat) (table : list EsifArbEntryParams) : CM unit :=
  match table with
  | [] => sret tt
  | p :: table' =>
      let! c := get_ctx in
      (if IsPrimitiveSupported dsp (ctx_participantId c) (e_primitiveId p) (e_domain p) (e_instance p) then
         let! r := EsifArbCtx_CreateAndInsertEntry_Locked (mem i).1 (mem i).2 p in
         on_entry r.2 EsifArbEntry_PutRef
       else sret tt) ;!
      populate_loop mem (S i) table'
  end.

Definition EsifArbCtx_PopulateDefaultArbitrationTable (mem : nat -> bool * bool)
    (table : list EsifArbEntryParams) : CM Z :=
  let! ok := has_ctx in
  if ok then populate_loop mem 0 table ;! sret ESIF_OK else sret ESIF_E_PARAMETER_IS_NULL.

(** What decides the default table: whether the participant is named as the
    CPU, its ACPI domain type when it has metadata, and whether it is the
    primary participant. *)
Definition default_table (is_cpu : bool) (acpi_type : option Z) (is_primary : bool) : list EsifArbEntryParams :=
  if is_cpu then g_cpuArbTable
  else match acpi_type with
       | None => []
       | Some t => if is_primary then g_ietmArbTable
                   else if 7 =? t then g_wifiArbTable
                   else if 4 =? t then g_fanArbTable else []
       end.

Definition EsifArbCtx_Create (mem_ctx : bool) (mem : nat -> bool * bool) (part : Z)
    (is_cpu : bool) (acpi_type : option Z) (is_primary : bool) (q : prim_queue) : option cst :=
  if mem_ctx then
    match EsifArbCtx_PopulateDefaultArbitrationTable mem (default_table is_cpu acpi_type is_primary)
            (mk_cst (Some (mk_EsifArbCtx true 0 [] part)) q) with
    | Some (_, s) => Some s
    | None => None
    end
  else Some (mk_cst None q).
End Dsp.

Fixpoint destroy_entries (l : list EsifArbEntry) (q : prim_queue) : option prim_queue :=
  match l with
  | [] => Some q
  | e :: l' => match EsifArbEntry_Destroy (mk_est (Some e) q) with
               | Some (_, s) => destroy_entries l' (queue s)
               | None => None
               end
  end.
Definition EsifArbCtx_Destroy : CM unit :=
  fun s => match ctx s with
           | None => Some (tt, s)
           | Some c => match destroy_entries (entriesPtr c) (cqueue s) with
                       | Some q => Some (tt, mk_cst None q)
                       | None => None
                       end
           end.

(* ------------------------------------------------------------------ *)
(** ** Information *)

Record EsifArbEntryInfo : Type := mk_EsifArbEntryInfo {
  i_participantId : Z; i_primitiveId : Z; i_domain : Z; i_instance : Z;
  i_arbType : Z; i_upperLimit : Z; i_lowerLimit : Z; i_arbitrationEnabled : bool
}.
Definition zeroed_info : EsifArbEntryInfo := mk_EsifArbEntryInfo 0 0 0 0 0 0 0 false.

Definition EsifArbEntry_GetInformation (e : EsifArbEntry) : EsifArbEntryInfo :=
  mk_EsifArbEntryInfo (participantId e) (primitiveId e) (domain e) (instance e) (arbType e)
    (upperLimit e) (lowerLimit e) (arbitrationEnabled e).

Record EsifArbCtxInfo : Type := mk_EsifArbCtxInfo {
  i_ctx_participantId : Z; i_isArbitrated : bool; i_ctx_enabled : bool; i_count : Z;
  i_entries : list EsifArbEntryInfo
}.

(** The whole array, the slots that were not asked for left zeroed. *)
Definition EsifArbCtx_GetInformation (mem : bool) (prim dom inst : Z) (self : option EsifArbCtx) :
    option EsifArbCtxInfo :=
  match self with
  | None => None
  | Some c =>
      if mem then
        Some (mk_EsifArbCtxInfo (ctx_participantId c) false (ctx_enabled c) (numEntries c)
          ((fun e => if (0 =? prim) || EsifArbEntry_IsMatchingEntry (Some e) prim dom inst
                     then EsifArbEntry_GetInformation e else zeroed_info) <$> entriesPtr c))
      else None
  end.

(* ------------------------------------------------------------------ *)
(** ** What a context denotes

    The entries in array order, each with the specification state of
    ArbEntry.v; between calls every entry holds exactly its owner's reference. *)

Abbreviation ekey := (Z * Z * Z)%type.
Definition key_of (e : EsifArbEntry) : ekey := (primitiveId e, domain e, instance e).

Definition good (e : EsifArbEntry) (sp : arb_spec) : Prop :=
  refCount e = 1 /\ markedForDelete e = false /\ deleteEvent e = false /\ exists rs, arb_rel e rs sp.

Abbreviation spec_entries := (list (ekey * arb_spec)).

Record ctx_rel (c : EsifArbCtx) (al : spec_entries) : Prop := {
  cr_entries : Forall2 (fun e p => key_of e = p.1 /\ good e p.2) (entriesPtr c) al;
  cr_keys : NoDup al.*1;
  cr_capacity : numEntries c <= entryCapacity c
}.

(** An entry while a call uses it. *)
Definition ref2 (e : EsifArbEntry) : EsifArbEntry := with_life 2 false false e.

Definition set_at (i : nat) (e : EsifArbEntry) (c : EsifArbCtx) : EsifArbCtx :=
  with_entries (entryCapacity c) (<[i:=e]> (entriesPtr c)) c.

Lemma ctx_eta c : with_entries (entryCapacity c) (entriesPtr c) c = c.
Proof. by destruct c. Qed.

Lemma set_at_id i e c : entriesPtr c !! i = Some e -> set_at i e c = c.
Proof. intros H. unfold set_at. by rewrite list_insert_id, ctx_eta. Qed.

Lemma set_at_twice i e1 e2 c : set_at i e1 (set_at i e2 c) = set_at i e1 c.
Proof. unfold set_at. simpl. by rewrite list_insert_insert_eq. Qed.

Lemma set_at_lookup i e e0 c : entriesPtr c !! i = Some e0 -> entriesPtr (set_at i e c) !! i = Some e.
Proof. intros H. simpl. apply list_lookup_insert_eq. by eapply lookup_lt_Some. Qed.

Lemma on_entry_run {T} i (m : SM est T) c q e x e' q' :
  entriesPtr c !! i = Some e -> m (mk_est (Some e) q) = Some (x, mk_est (Some e') q') ->
  on_entry (Some i) m (mk_cst (Some c) q) = Some (x, mk_cst (Some (set_at i e' c)) q').
Proof. intros He Hm. unfold on_entry. cbn [ctx cqueue]. by rewrite He, Hm. Qed.

Lemma on_entry_unit {T} i (m : SM est unit) (y x : T) s s' :
  on_entry (Some i) (m ;! sret y) s = Some (x, s') -> on_entry (Some i) m s = Some (tt, s').
Proof.
  unfold on_entry. destruct (ctx s) as [c|]; [|done]. destruct (entriesPtr c !! i); [|done].
  unfold sbind, sret. destruct (m _) as [[[] s1]|]; [|done]. simpl. destruct (self s1); [|done]. congruence.
Qed.

Lemma on_null_put q c : on_entry None EsifArbEntry_PutRef (mk_cst c q) = Some (tt, mk_cst c q).
Proof. done. Qed.

Lemma get_ref_good e sp q :
  good e sp -> EsifArbEntry_GetRef (mk_est (Some e) q) = Some (ESIF_OK, mk_est (Some (ref2 e)) q).
Proof.
  intros (Hr & Hm & Hd & _). unfold EsifArbEntry_GetRef. run_est. rewrite Hm, Hr, Hd. by run_est.
Qed.

Lemma put_ref_used e q :
  refCount e = 2 -> markedForDelete e = false ->
  EsifArbEntry_PutRef (mk_est (Some e) q) = Some (tt, mk_est (Some (with_life 1 false (deleteEvent e) e)) q).
Proof. intros Hr Hm. unfold EsifArbEntry_PutRef. run_est. by rewrite Hr, Hm. Qed.

Lemma arb_rel_life e rs sp n b1 b2 : arb_rel e rs sp -> arb_rel (with_life n b1 b2 e) rs sp.
Proof. intros [[Hl Hr Hlim] Ht Hu Hlo Hen Hrq]. split; try done. Qed.

(** Taking an unused entry, using it for a call and giving it back. *)
Lemma use_entry e sp m op q :
  good e sp -> op_ok m op (mk_est (Some e) q) ->
  exists e' q', arb_call m op (mk_est (Some (ref2 e)) q) = Some ((spec_call op sp).1, mk_est (Some e') q') /\
    (length q' <= length q + 2)%nat /\
    exists e'', EsifArbEntry_PutRef (mk_est (Some e') q') = Some (tt, mk_est (Some e'') q') /\
      good e'' (spec_call op sp).2 /\ key_of e'' = key_of e.
Proof.
  intros (Hr & Hm & Hd & rs & Hrel) Hok.
  assert (Hok' : op_ok m op (mk_est (Some (ref2 e)) q)).
  { destruct Hok as (H1 & H2 & H3). split; [done|split; [done|]]. destruct op; try done.
    destruct H3 as (Hd' & a & Ha & Hf). split; [done|]. exists a. split; [done|].
    intros e0 r He0 Hr0. simpl in He0. simplify_eq. by apply (Hf e r). }
  destruct (arb_call_spec m op (ref2 e) rs sp q (arb_rel_life _ _ _ _ _ _ Hrel) Hok')
    as (e' & rs' & q' & E & Hrel' & _ & Hlen & Hlife & Hid).
  injection Hlife as Hr' Hm' Hd'. injection Hid as Hp Hdo Hi _. simpl in Hp, Hdo, Hi.
  exists e', q'. split; [done|split; [done|]]. eexists. split; [by apply put_ref_used|].
  split; [|by unfold key_of; simpl; rewrite Hp, Hdo, Hi].
  split_and!; try done. exists rs'. by apply arb_rel_life.
Qed.

(** The index of a key. *)
Definition find_key (k : ekey) (al : spec_entries) : option nat := fst <$> list_find (fun p => p.1 = k) al.

Lemma matching_key e prim dom inst :
  EsifArbEntry_IsMatchingEntry (Some e) prim dom inst = bool_decide (key_of e = (prim, dom, inst)).
Proof.
  unfold EsifArbEntry_IsMatchingEntry, key_of.
  destruct (Z.eqb_spec prim (primitiveId e)), (Z.eqb_spec dom (domain e)), (Z.eqb_spec inst (instance e)); simpl;
    symmetry; (apply bool_decide_eq_true || apply bool_decide_eq_false); congruence.
Qed.

Lemma find_key_cons k p al :
  find_key k (p :: al) = if decide (p.1 = k) then Some 0%nat else S <$> find_key k al.
Proof. unfold find_key. simpl. destruct (decide (p.1 = k)); [done|]. by destruct (list_find _ al) as [[]|]. Qed.

Lemma lookup_loop_spec c q pre es ps prim dom inst :
  entriesPtr c = pre ++ es -> Forall2 (fun e p => key_of e = p.1 /\ good e p.2) es ps ->
  match find_key (prim, dom, inst) ps with
  | Some i => exists e, entriesPtr c !! (length pre + i)%nat = Some e /\ es !! i = Some e /\
      lookup_loop (length es) (length pre) prim dom inst (mk_cst (Some c) q) =
        Some (Some (length pre + i)%nat, mk_cst (Some (set_at (length pre + i) (ref2 e) c)) q)
  | None => lookup_loop (length es) (length pre) prim dom inst (mk_cst (Some c) q) = Some (None, mk_cst (Some c) q)
  end.
Proof.
  intros Hc Hf. revert pre Hc. induction Hf as [|e p es ps [Hk Hg] Hf IH]; intros pre Hc; [done|].
  assert (He : entriesPtr c !! length pre = Some e) by (rewrite Hc; by apply list_lookup_middle).
  cbn [length lookup_loop]. rewrite (sbind_some get_ctx _ _ c (mk_cst (Some c) q)), He by done.
  rewrite matching_key, find_key_cons, Hk. destruct (decide (p.1 = (prim, dom, inst))) as [E|E].
  - rewrite bool_decide_eq_true_2 by done. exists e. rewrite Nat.add_0_r. split; [done|split; [done|]].
    rewrite (sbind_some _ _ _ _ _ (on_entry_run _ _ _ _ _ _ _ _ He (get_ref_good _ _ _ Hg))). done.
  - rewrite bool_decide_eq_false_2 by done.
    specialize (IH (pre ++ [e])). rewrite <- app_assoc, length_app, Nat.add_1_r in IH. specialize (IH Hc).
    destruct (find_key (prim, dom, inst) ps) as [i|]; [|exact IH].
    destruct IH as (e' & H1 & H2 & H3). exists e'. simpl. rewrite <- Nat.add_succ_comm. done.
Qed.

Lemma lookup_spec c q al prim dom inst :
  ctx_rel c al ->
  match find_key (prim, dom, inst) al with
  | Some i => exists e sp, entriesPtr c !! i = Some e /\ al !! i = Some ((prim, dom, inst), sp) /\ good e sp /\
      key_of e = (prim, dom, inst) /\
      EsifArbCtx_LookupArbEntry_Locked prim dom inst (mk_cst (Some c) q) =
        Some (Some i, mk_cst (Some (set_at i (ref2 e) c)) q)
  | None => EsifArbCtx_LookupArbEntry_Locked prim dom inst (mk_cst (Some c) q) = Some (None, mk_cst (Some c) q)
  end.
Proof.
  intros [Hf Hn Hcap]. pose proof (lookup_loop_spec c q [] _ _ prim dom inst eq_refl Hf) as H. simpl in H.
  destruct (find_key (prim, dom, inst) al) as [i|] eqn:Ek; [|exact H].
  destruct H as (e & He & _ & E). unfold find_key in Ek.
  destruct (list_find _ al) as [[j p]|] eqn:Ef; [|done]. simplify_eq/=.
  apply list_find_Some in Ef as (Hp & Hk & _).
  destruct (Forall2_lookup_l _ _ _ _ _ Hf He) as ([k sp] & Hp' & Hkk & Hg). rewrite Hp in Hp'. simplify_eq/=.
  exists e, sp. split_and!; try done. by rewrite <- Hk.
Qed.

(** Room on the queue and memory for a call on one entry of the context. *)
Lemma ctx_rel_update c al i e k sp e' sp' :
  ctx_rel c al -> entriesPtr c !! i = Some e -> al !! i = Some (k, sp) ->
  good e' sp' -> key_of e' = key_of e -> ctx_rel (set_at i e' c) (<[i:=(k, sp')]> al).
Proof.
  intros [Hf Hn Hcap] He Hp Hg Hk. split.
  - destruct (Forall2_lookup_lr _ _ _ _ _ _ Hf He Hp) as [Hke _]. apply Forall2_insert; [done|].
    split; [by rewrite Hk|done].
  - rewrite list_fmap_insert, list_insert_id; [done|]. by rewrite list_lookup_fmap, Hp.
  - unfold numEntries. simpl. by rewrite length_insert.
Qed.

Lemma call_at m op c al i e k sp q :
  ctx_rel c al -> entriesPtr c !! i = Some e -> al !! i = Some (k, sp) -> op_ok m op (mk_est (Some e) q) ->
  exists e' c' q',
    on_entry (Some i) (arb_call m op) (mk_cst (Some (set_at i (ref2 e) c)) q) =
      Some ((spec_call op sp).1, mk_cst (Some (set_at i e' c)) q') /\
    on_entry (Some i) EsifArbEntry_PutRef (mk_cst (Some (set_at i e' c)) q') = Some (tt, mk_cst (Some c') q') /\
    (length q' <= length q + 2)%nat /\ ctx_rel c' (<[i:=(k, (spec_call op sp).2)]> al) /\
    ctx_enabled c' = ctx_enabled c /\ ctx_participantId c' = ctx_participantId c.
Proof.
  intros Hc He Hp Hok. destruct (Forall2_lookup_lr _ _ _ _ _ _ (cr_entries _ _ Hc) He Hp) as [_ Hg].
  destruct (use_entry e sp m op q Hg Hok) as (e' & q' & E & Hlen & e'' & Eput & Hg' & Hk').
  exists e', (set_at i e'' c), q'. split_and!; try done.
  - pose proof (set_at_lookup i (ref2 e) e c He) as H2.
    rewrite (on_entry_run _ _ _ _ _ _ _ _ H2 E). by rewrite set_at_twice.
  - pose proof (set_at_lookup i e' e c He) as H2.
    rewrite (on_entry_run _ _ _ _ _ _ _ _ H2 Eput). by rewrite set_at_twice.
  - by eapply ctx_rel_update.
Qed.

(* ------------------------------------------------------------------ *)
(** ** Adding and removing entries *)

Definition add_entry (cap : Z) (e : EsifArbEntry) (c : EsifArbCtx) : EsifArbCtx :=
  with_entries cap (entriesPtr c ++ [e]) c.

Definition fresh_entry (p : EsifArbEntryParams) (part : Z) : EsifArbEntry :=
  mk_EsifArbEntry (e_primitiveId p) (e_domain p) (e_instance p) (e_arbType p) (e_upperLimit p) (e_lowerLimit p)
    true [] part 1 false false.

Lemma fresh_good p part : params_ok p -> good (fresh_entry p part) (spec_init p).
Proof.
  intros Hp. split_and!; try done. exists []. split; try done. split; [done|apply reqs_nil|done].
Qed.

Definition params_key (p : EsifArbEntryParams) : ekey := (e_primitiveId p, e_domain p, e_instance p).

Lemma has_ctx_run {T} (f : bool -> CM T) c q :
  sbind has_ctx f (mk_cst (Some c) q) = f true (mk_cst (Some c) q).
Proof. done. Qed.
Lemma get_ctx_run {T} (f : EsifArbCtx -> CM T) c q :
  sbind get_ctx f (mk_cst (Some c) q) = f c (mk_cst (Some c) q).
Proof. done. Qed.
Lemma mod_ctx_run {T} (g : EsifArbCtx -> EsifArbCtx) (f : unit -> CM T) c q :
  sbind (mod_ctx g) f (mk_cst (Some c) q) = f tt (mk_cst (Some (g c)) q).
Proof. done. Qed.

Definition grown (c : EsifArbCtx) : Z :=
  if numEntries c <? entryCapacity c then entryCapacity c
  else entryCapacity c + ESIF_ARB_CTX_ENTRY_TABLE_GROWTH_RATE.

Lemma grown_room c : numEntries c <= entryCapacity c -> numEntries c < grown c.
Proof. unfold grown, ESIF_ARB_CTX_ENTRY_TABLE_GROWTH_RATE. destruct (Z.ltb_spec (numEntries c) (entryCapacity c)); lia. Qed.

Lemma insert_entry_spec mem_grow e c q :
  numEntries c <= entryCapacity c ->
  EsifArbCtx_InsertArbEntry_Locked mem_grow e (mk_cst (Some c) q) =
  if mem_grow || (numEntries c <? entryCapacity c) then
    Some (ESIF_OK, mk_cst (Some (add_entry (grown c) e c)) q)
  else Some (ESIF_E_NO_MEMORY, mk_cst (Some c) q).
Proof.
  intros Hcap. pose proof (grown_room c Hcap) as Hr. unfold EsifArbCtx_InsertArbEntry_Locked, grown in *. cbn [insert_rounds].
  rewrite has_ctx_run, get_ctx_run. destruct (Z.ltb_spec (numEntries c) (entryCapacity c)) as [Hlt|Hge].
  - by rewrite orb_true_r.
  - rewrite orb_false_r. destruct mem_grow; [|done]. rewrite mod_ctx_run, has_ctx_run, get_ctx_run.
    unfold numEntries, ESIF_ARB_CTX_ENTRY_TABLE_GROWTH_RATE in *. cbn [with_entries entriesPtr entryCapacity].
    by rewrite (proj2 (Z.ltb_lt _ _)) by lia.
Qed.

(** Creation succeeds and hands back a referenced entry at the end of the
    array; without memory for the entry nothing changes; and when the array
    cannot grow the call never returns: the entry is destroyed while the
    reference taken for the caller is still held. *)
Lemma create_insert_spec (mem_entry mem_grow : bool) p c al q :
  ctx_rel c al -> params_ok p ->
  EsifArbCtx_CreateAndInsertEntry_Locked mem_entry mem_grow p (mk_cst (Some c) q) =
    (if mem_entry then
       if mem_grow || (numEntries c <? entryCapacity c) then
         Some ((ESIF_OK, Some (length al)),
           mk_cst (Some (add_entry (grown c) (ref2 (fresh_entry p (ctx_participantId c))) c)) q)
       else None
     else Some ((ESIF_E_NO_MEMORY, None), mk_cst (Some c) q)).
Proof.
  intros [Hf Hn Hcap] Hp. unfold EsifArbCtx_CreateAndInsertEntry_Locked. rewrite has_ctx_run, get_ctx_run.
  destruct mem_entry; [|done]. unfold EsifArbEntry_Create. fold (fresh_entry p (ctx_participantId c)). cbn [cqueue].
  rewrite (get_ref_good _ _ q (fresh_good p (ctx_participantId c) Hp)). cbn [self queue ctx Z.eqb ESIF_OK].
  assert (Hlen : length al = length (entriesPtr c)) by (symmetry; by eapply Forall2_length). rewrite Hlen.
  unfold sbind at 1. rewrite insert_entry_spec by done. by destruct (mem_grow || _).
Qed.

Lemma ctx_rel_add c al cap p sp :
  ctx_rel c al -> params_key p ∉ al.*1 -> numEntries c < cap -> forall e,
  good e sp -> key_of e = params_key p ->
  ctx_rel (add_entry cap e c) (al ++ [(params_key p, sp)]).
Proof.
  intros [Hf Hn Hcap] Hk Hlt e Hg He. split; simpl.
  - apply Forall2_app; [done|]. constructor; [by split|constructor].
  - rewrite fmap_app. apply NoDup_app. split; [done|split; [|apply NoDup_singleton]].
    intros x Hx [->|[]%elem_of_nil]%elem_of_cons. by apply Hk.
  - unfold numEntries in *. simpl. rewrite length_app. simpl. lia.
Qed.

Lemma find_key_none k al : find_key k al = None -> k ∉ al.*1.
Proof.
  unfold find_key. destruct (list_find _ al) as [[i p]|] eqn:E; [done|]. intros _ Hin.
  apply list_find_None in E. rewrite Forall_forall in E.
  apply list_elem_of_fmap_1 in Hin as (p & -> & Hp). by apply (E p Hp).
Qed.

(* ------------------------------------------------------------------ *)
(** ** Walks over the entries *)

Definition map_from {A} (f : A -> A) (j : nat) (l : list A) : list A := take j l ++ (f <$> drop j l).

Lemma map_from_step {A} (f : A -> A) j l p :
  l !! j = Some p -> map_from f (S j) (<[j:=f p]> l) = map_from f j l.
Proof.
  intros Hj. assert (Hlt : (j < length l)%nat) by by eapply lookup_lt_Some.
  unfold map_from. rewrite drop_insert_lt by lia. rewrite (drop_S l p j Hj), fmap_cons.
  erewrite take_S_r by (by apply list_lookup_insert_eq). rewrite take_insert_ge by lia. by rewrite <- app_assoc.
Qed.

Lemma map_from_end {A} (f : A -> A) j l : (length l <= j)%nat -> map_from f j l = l.
Proof. intros H. unfold map_from. by rewrite drop_ge, take_ge, app_nil_r by lia. Qed.

Lemma ctx_rel_lookup c al i e : ctx_rel c al -> entriesPtr c !! i = Some e ->
  exists sp, al !! i = Some (key_of e, sp) /\ good e sp.
Proof.
  intros Hc He. destruct (Forall2_lookup_l _ _ _ _ _ (cr_entries _ _ Hc) He) as ([k sp] & Hp & Hk & Hg).
  simpl in *. subst k. by exists sp.
Qed.

Lemma ctx_rel_length c al : ctx_rel c al -> length (entriesPtr c) = length al.
Proof. intros Hc. eapply Forall2_length, Hc. Qed.

Lemma next_loop_spec c al fuel j q :
  ctx_rel c al -> (0 < fuel)%nat ->
  next_loop fuel j (mk_cst (Some c) q) =
    match entriesPtr c !! j with
    | Some e => Some ((j, Some j), mk_cst (Some (set_at j (ref2 e) c)) q)
    | None => Some ((j, None), mk_cst (Some c) q)
    end.
Proof.
  intros Hc Hf. destruct fuel as [|fuel]; [lia|]. cbn [next_loop]. rewrite get_ctx_run. unfold numEntries.
  destruct (entriesPtr c !! j) as [e|] eqn:He.
  - assert (Hlt : (j < length (entriesPtr c))%nat) by by eapply lookup_lt_Some.
    rewrite (proj2 (Z.ltb_lt _ _)) by lia. destruct (ctx_rel_lookup _ _ _ _ Hc He) as (sp & _ & Hg).
    by rewrite (sbind_some _ _ _ _ _ (on_entry_run _ _ _ _ _ _ _ _ He (get_ref_good _ _ _ Hg))).
  - apply lookup_ge_None in He. by rewrite (proj2 (Z.ltb_ge _ _)) by lia.
Qed.

(** The next entry from index [j] on. *)
Definition next_result (c : EsifArbCtx) (j : nat) (q : prim_queue) : option (Z * EsifArbEntryIterator * option nat * cst) :=
  match entriesPtr c !! j with
  | Some e => Some (ESIF_OK, mk_iter true j true (Some j), Some j, mk_cst (Some (set_at j (ref2 e) c)) q)
  | None => Some (ESIF_E_ITERATION_DONE, mk_iter true j false None, None, mk_cst (Some c) q)
  end.

Lemma get_next_first c al q :
  ctx_rel c al ->
  EsifArbCtx_GetNextEntry EsifArbCtx_InitEntryIterator.2 (mk_cst (Some c) q) = next_result c 0 q.
Proof.
  intros Hc. unfold EsifArbCtx_GetNextEntry. rewrite has_ctx_run. cbn [EsifArbCtx_InitEntryIterator snd it_marker it_valid it_index].
  rewrite (sbind_some (sret tt) _ _ tt _) by done. rewrite get_ctx_run.
  unfold sbind. rewrite (next_loop_spec c al) by (done || lia). unfold next_result. by destruct (entriesPtr c !! 0%nat).
Qed.

Lemma get_next_after c al j e' c' q :
  on_entry (Some j) EsifArbEntry_PutRef (mk_cst (Some (set_at j e' c)) q) = Some (tt, mk_cst (Some c') q) ->
  ctx_rel c' al ->
  EsifArbCtx_GetNextEntry (mk_iter true j true (Some j)) (mk_cst (Some (set_at j e' c)) q) = next_result c' (S j) q.
Proof.
  intros Hput Hc. unfold EsifArbCtx_GetNextEntry. rewrite has_ctx_run. cbn [it_marker it_valid it_index it_entryPtr].
  rewrite (sbind_some _ _ _ _ _ Hput), get_ctx_run. unfold sbind. rewrite (next_loop_spec c' al) by (done || lia).
  unfold next_result. by destruct (entriesPtr c' !! S j).
Qed.

(** What the context's calls may rely on. *)
Definition ctx_mem_ok (m : nat -> allocs) (c : EsifArbCtx) (q : prim_queue) : Prop :=
  (forall i, mem_ok (m i)) /\
  Z.of_nat (length q) + 2 * Z.of_nat (length (entriesPtr c)) + 4 <= ESIF_UF_ARBMGR_QUEUE_SIZE.

Definition on_spec (op : arb_op) (p : ekey * arb_spec) : ekey * arb_spec := (p.1, (spec_call op p.2).2).

Lemma remove_app_iter_spec m app k : forall fuel j c al q e,
  (k = length al - j)%nat -> (k < fuel)%nat -> ctx_rel c al -> entriesPtr c !! j = Some e ->
  (forall i, mem_ok (m i)) -> Z.of_nat (length q) + 2 * Z.of_nat k <= ESIF_UF_ARBMGR_QUEUE_SIZE ->
  exists c' q', remove_app_iter fuel m app (mk_iter true j true (Some j)) ESIF_OK (Some j)
      (mk_cst (Some (set_at j (ref2 e) c)) q) = Some (tt, mk_cst (Some c') q') /\
    ctx_rel c' (map_from (on_spec (ArbRemoveApp app)) j al) /\
    ctx_enabled c' = ctx_enabled c /\ ctx_participantId c' = ctx_participantId c.
Proof.
  induction k as [|k IH]; intros fuel j c al q e Hk Hf Hc He Hm Hq.
  { apply lookup_lt_Some in He. rewrite (ctx_rel_length _ _ Hc) in He. lia. }
  destruct fuel as [|fuel]; [lia|]. destruct (ctx_rel_lookup _ _ _ _ Hc He) as (sp & Hp & Hg).
  assert (Hop : op_ok (m j) (ArbRemoveApp app) (mk_est (Some e) q)) by (split; [done|split; [simpl; lia|done]]).
  destruct (call_at (m j) (ArbRemoveApp app) c al j e (key_of e) sp q Hc He Hp Hop)
    as (e' & c' & q' & Ecall & Eput & Hlen & Hc' & Hen & Hpt).
  cbn [remove_app_iter]. cbn [Z.eqb ESIF_OK it_index].
  assert (Ecall' : on_entry (Some j) (EsifArbEntry_RemoveApp (m j) app) (mk_cst (Some (set_at j (ref2 e) c)) q) =
     Some (tt, mk_cst (Some (set_at j e' c)) q')).
  { by eapply on_entry_unit. }
  rewrite (sbind_some _ _ _ _ _ Ecall').
  change (ctx_rel c' (<[j:=on_spec (ArbRemoveApp app) (key_of e, sp)]> al)) in Hc'.
  pose proof (get_next_after c _ j e' c' q' Eput Hc') as En. unfold next_result in En.
  pose proof (ctx_rel_length _ _ Hc') as Hl'. rewrite length_insert in Hl'.
  destruct (entriesPtr c' !! S j) as [e2|] eqn:He2.
  - unfold sbind at 1. rewrite En. destruct (IH fuel (S j) c' (<[j:=on_spec (ArbRemoveApp app) (key_of e, sp)]> al) q' e2) as (c2 & q2 & E2 & Hc2 & Hen2 & Hpt2); try done;
      [rewrite length_insert; lia|lia|lia|].
    exists c2, q2. split; [exact E2|split; [|split; congruence]].
    by rewrite (map_from_step (on_spec (ArbRemoveApp app)) j al _ Hp) in Hc2.
  - unfold sbind at 1. rewrite En. apply lookup_ge_None in He2. 
    exists c', q'. split; [by destruct fuel; [lia|]|split; [|done]].
    rewrite <- (map_from_step (on_spec (ArbRemoveApp app)) j al _ Hp), map_from_end; [exact Hc'|].
    rewrite length_insert. lia.
Qed.

Lemma remove_app_ctx_spec m app c al q :
  ctx_rel c al -> ctx_mem_ok m c q ->
  exists c' q', EsifArbCtx_RemoveApp m app (mk_cst (Some c) q) = Some (tt, mk_cst (Some c') q') /\
    ctx_rel c' (on_spec (ArbRemoveApp app) <$> al) /\
    ctx_enabled c' = ctx_enabled c /\ ctx_participantId c' = ctx_participantId c.
Proof.
  intros Hc [Hm Hq]. unfold EsifArbCtx_RemoveApp. rewrite has_ctx_run, get_ctx_run.
  unfold sbind at 1. rewrite (get_next_first c al q Hc). unfold next_result.
  rewrite (ctx_rel_length _ _ Hc) in *. destruct (entriesPtr c !! 0%nat) as [e|] eqn:He.
  - destruct (remove_app_iter_spec m app (length al) (S (length al)) 0 c al q e) as (c' & q' & E & Hc' & H1 & H2);
      try done; [lia|lia|lia|]. exists c', q'. done.
  - apply lookup_ge_None in He. rewrite (ctx_rel_length _ _ Hc) in He. destruct al; [|simpl in He; lia].
    exists c, q. done.
Qed.

(** Purging forgets the requests of every entry. *)
Definition purge_spec (sp : arb_spec) : arb_spec :=
  mk_arb_spec (sp_type sp) (sp_upper sp) (sp_lower sp) (sp_enabled sp) ∅.

Lemma purge_good e sp : good e sp -> good (with_requests [] e) (purge_spec sp).
Proof.
  intros (Hr & Hm & Hd & rs & [[Hl _ Hlim] Ht Hu Hlo Hen _]). split_and!; try done.
  exists []. split; try done. split; [done|apply reqs_nil|done].
Qed.

Lemma purge_loop_spec n : forall j c al q,
  (n = length al - j)%nat -> ctx_rel c al ->
  exists c', purge_loop n j (mk_cst (Some c) q) = Some (tt, mk_cst (Some c') q) /\
    ctx_rel c' (map_from (fun p => (p.1, purge_spec p.2)) j al) /\
    ctx_enabled c' = ctx_enabled c /\ ctx_participantId c' = ctx_participantId c.
Proof.
  induction n as [|n IH]; intros j c al q Hn Hc.
  { exists c. rewrite map_from_end by lia. done. }
  destruct (lookup_lt_is_Some_2 (entriesPtr c) j) as [e He]; [rewrite (ctx_rel_length _ _ Hc); lia|].
  destruct (ctx_rel_lookup _ _ _ _ Hc He) as (sp & Hp & Hg).
  pose proof (ctx_rel_update _ _ _ _ _ _ _ _ Hc He Hp (purge_good _ _ Hg) eq_refl) as Hc'.
  destruct (IH (S j) _ (<[j:=(key_of e, purge_spec sp)]> al) q ltac:(rewrite length_insert; lia) Hc')
    as (c' & E & Hr & H1 & H2).
  exists c'. cbn [purge_loop].
  rewrite (sbind_some _ _ _ _ _ (on_entry_run j EsifArbEntry_PurgeRequests c q e tt (with_requests [] e) q He eq_refl)).
  split; [exact E|split; [|done]].
  rewrite <- (map_from_step (fun p => (p.1, purge_spec p.2)) j al _ Hp). exact Hr.
Qed.

Lemma purge_ctx_spec c al q :
  ctx_rel c al ->
  exists c', EsifArbCtx_PurgeRequests_Locked (mk_cst (Some c) q) = Some (tt, mk_cst (Some c') q) /\
    ctx_rel c' ((fun p => (p.1, purge_spec p.2)) <$> al) /\
    ctx_enabled c' = ctx_enabled c /\ ctx_participantId c' = ctx_participantId c.
Proof.
  intros Hc. unfold EsifArbCtx_PurgeRequests_Locked. rewrite has_ctx_run, get_ctx_run, (ctx_rel_length _ _ Hc).
  apply (purge_loop_spec (length al) 0 c al q); [lia|done].
Qed.

Lemma remove_entry_spec mem_shrink c al j e e' q :
  ctx_rel c al -> entriesPtr c !! j = Some e ->
  exists c', EsifArbCtx_RemoveArbEntry_Locked mem_shrink (Some j) (mk_cst (Some (set_at j e' c)) q) =
      Some (ESIF_OK, mk_cst (Some c') q) /\
    ctx_rel c' (delete j al) /\ ctx_enabled c' = ctx_enabled c /\ ctx_participantId c' = ctx_participantId c.
Proof.
  intros [Hf Hn Hcap] He. set (c1 := with_entries (entryCapacity c) (delete j (entriesPtr c)) c).
  assert (Hlt : (j < length (entriesPtr c))%nat) by by eapply lookup_lt_Some.
  assert (Hlen : numEntries c1 = numEntries c - 1).
  { unfold numEntries. simpl. rewrite length_delete by by eapply lookup_lt_is_Some_2. lia. }
  assert (Hrel : forall cap, numEntries c1 <= cap -> ctx_rel (with_entries cap (entriesPtr c1) c1) (delete j al)).
  { intros cap Hle. split; [simpl; by apply Forall2_delete| |done].
    eapply sublist_NoDup; [exact Hn|]. apply fmap_sublist, sublist_delete. }
  unfold EsifArbCtx_RemoveArbEntry_Locked. rewrite has_ctx_run. cbn [negb]. rewrite mod_ctx_run.
  assert (E1 : with_entries (entryCapacity (set_at j e' c)) (delete j (entriesPtr (set_at j e' c))) (set_at j e' c) = c1).
  { unfold set_at, c1. simpl. rewrite !delete_take_drop, take_insert_ge, drop_insert_lt by lia. done. }
  rewrite E1, get_ctx_run. unfold ESIF_ARB_CTX_ENTRY_TABLE_GROWTH_RATE. rewrite Z.gtb_ltb.
  destruct (Z.ltb_spec 10 (entryCapacity c1 - numEntries c1)) as [Hs|Hs].
  - destruct (Z.eqb_spec (numEntries c1) 0) as [Hz|Hz].
    + exists (with_entries 0 (entriesPtr c1) c1). rewrite mod_ctx_run.
      assert (entriesPtr c1 = []) as -> by (apply length_zero_iff_nil; unfold numEntries in Hz; lia).
      split; [done|split; [|done]]. assert (H0 : with_entries 0 [] c1 = with_entries 0 (entriesPtr c1) c1).
      { f_equal. symmetry. apply length_zero_iff_nil. unfold numEntries in Hz. lia. }
      rewrite H0. apply Hrel. lia.
    + destruct mem_shrink.
      * exists (with_entries (entryCapacity c1 - 10) (entriesPtr c1) c1). rewrite mod_ctx_run.
        split; [done|split; [|done]]. apply Hrel. lia.
      * exists c1. split; [done|split; [|done]]. rewrite <- (ctx_eta c1). apply Hrel. simpl entryCapacity. lia.
  - exists c1. split; [done|split; [|done]]. rewrite <- (ctx_eta c1). apply Hrel. simpl entryCapacity. lia.
Qed.

Lemma destroy_used e sp q :
  good e sp -> (EsifArbEntry_PutRef ;! EsifArbEntry_Destroy) (mk_est (Some (ref2 e)) q) = Some (tt, mk_est None q).
Proof. intros _. vm_compute. done. Qed.

Lemma stop_iter_spec mem_shrink prim dom inst k : forall fuel j c al q e rc,
  (k = length al - j)%nat -> (k < fuel)%nat -> ctx_rel c al -> entriesPtr c !! j = Some e ->
  match find_key (prim, dom, inst) (drop j al) with
  | Some i => exists c', stop_iter fuel mem_shrink prim dom inst (mk_iter true j true (Some j)) ESIF_OK (Some j) rc
        (mk_cst (Some (set_at j (ref2 e) c)) q) = Some ((ESIF_OK, ESIF_OK, None), mk_cst (Some c') q) /\
      ctx_rel c' (delete (j + i)%nat al) /\ ctx_enabled c' = ctx_enabled c /\ ctx_participantId c' = ctx_participantId c
  | None => exists cur, stop_iter fuel mem_shrink prim dom inst (mk_iter true j true (Some j)) ESIF_OK (Some j) rc
        (mk_cst (Some (set_at j (ref2 e) c)) q) =
        Some ((ESIF_E_NOT_FOUND, ESIF_E_ITERATION_DONE, cur), mk_cst (Some c) q)
  end.
Proof.
  induction k as [|k IH]; intros fuel j c al q e rc Hk Hf Hc He.
  { apply lookup_lt_Some in He. rewrite (ctx_rel_length _ _ Hc) in He. lia. }
  destruct fuel as [|fuel]; [lia|]. destruct (ctx_rel_lookup _ _ _ _ Hc He) as (sp & Hp & Hg).
  cbn [stop_iter]. cbn [Z.eqb ESIF_OK]. rewrite get_ctx_run, (set_at_lookup j (ref2 e) e c He), matching_key.
  rewrite (drop_S _ _ _ Hp), find_key_cons. change (key_of (ref2 e)) with (key_of e). cbn [fst].
  destruct (decide (key_of e = (prim, dom, inst))) as [E|E].
  - rewrite bool_decide_eq_true_2 by done.
    destruct (remove_entry_spec mem_shrink c al j e (ref2 e) q Hc He) as (c' & Er & Hc' & H1 & H2).
    exists c'. rewrite (sbind_some _ _ _ _ _ Er), Nat.add_0_r. cbn [Z.eqb ESIF_OK cqueue ctx].
    by rewrite (destroy_used _ _ _ Hg).
  - rewrite bool_decide_eq_false_2 by done.
    assert (Eput : on_entry (Some j) EsifArbEntry_PutRef (mk_cst (Some (set_at j (ref2 e) c)) q) = Some (tt, mk_cst (Some c) q)).
    { rewrite (on_entry_run _ _ _ _ _ _ _ _ (set_at_lookup j (ref2 e) e c He) (put_ref_used (ref2 e) q eq_refl eq_refl)).
      rewrite set_at_twice, set_at_id; [done|]. rewrite He. destruct Hg as (Hr & Hm & Hd & _).
      f_equal. destruct e. simpl in *. by subst. }
    pose proof (get_next_after c al j (ref2 e) c q Eput Hc) as En. unfold next_result in En.
    unfold sbind at 1 2. rewrite En. destruct (entriesPtr c !! S j) as [e2|] eqn:He2.
    + specialize (IH fuel (S j) c al q e2 ESIF_E_NOT_FOUND ltac:(lia) ltac:(lia) Hc He2).
      destruct (find_key (prim, dom, inst) (drop (S j) al)) as [i|]; cbn [fmap option_fmap option_map].
      * destruct IH as (c' & E2 & H). exists c'. rewrite Nat.add_succ_r. exact (conj E2 H).
      * exact IH.
    + apply lookup_ge_None in He2. rewrite (ctx_rel_length _ _ Hc) in He2. rewrite (drop_ge al (S j)) by lia.
      exists (Some j). destruct fuel; [lia|done].
Qed.

Lemma stop_ctx_spec mem_shrink prim dom inst c al q :
  ctx_rel c al ->
  match find_key (prim, dom, inst) al with
  | Some i => exists c', EsifArbCtx_StopArbitration mem_shrink prim dom inst (mk_cst (Some c) q) =
        Some (ESIF_OK, mk_cst (Some c') q) /\
      ctx_rel c' (delete i al) /\ ctx_enabled c' = ctx_enabled c /\ ctx_participantId c' = ctx_participantId c
  | None => EsifArbCtx_StopArbitration mem_shrink prim dom inst (mk_cst (Some c) q) =
        Some (ESIF_E_NOT_FOUND, mk_cst (Some c) q)
  end.
Proof.
  intros Hc. set (go r := let '(iterRc, it', cur) := r in
    let! r := stop_iter (S (length al)) mem_shrink prim dom inst it' iterRc cur ESIF_E_NOT_FOUND in
    let '(rc, iterRc, cur) := r in
    if negb (iterRc =? ESIF_E_ITERATION_DONE) then
      on_entry cur EsifArbEntry_PutRef ;! sret (if negb (iterRc =? ESIF_OK) then iterRc else rc)
    else sret rc).
  assert (E0 : EsifArbCtx_StopArbitration mem_shrink prim dom inst (mk_cst (Some c) q) =
    match next_result c 0 q with Some (r, s) => go r s | None => None end).
  { unfold EsifArbCtx_StopArbitration. rewrite has_ctx_run, get_ctx_run, (ctx_rel_length _ _ Hc).
    unfold sbind at 1. by rewrite (get_next_first c al q Hc). }
  rewrite E0. clear E0. unfold next_result. destruct (entriesPtr c !! 0%nat) as [e|] eqn:He.
  - pose proof (stop_iter_spec mem_shrink prim dom inst (length al) (S (length al)) 0 c al q e ESIF_E_NOT_FOUND
      ltac:(lia) ltac:(lia) Hc He) as H. rewrite drop_0 in H. destruct (find_key _ al) as [i|].
    + destruct H as (c' & E & H). exists c'. unfold go. by rewrite (sbind_some _ _ _ _ _ E).
    + destruct H as (cur & E). unfold go. by rewrite (sbind_some _ _ _ _ _ E).
  - apply lookup_ge_None in He. rewrite (ctx_rel_length _ _ Hc) in He. destruct al; [|simpl in He; lia]. done.
Qed.

(* ------------------------------------------------------------------ *)
(** ** The context refines its specification *)

Record ctx_spec : Type := mk_ctx_spec { cs_enabled : bool; cs_entries : spec_entries }.

Inductive ctx_op : Type :=
  | CtxExecute (k : ekey) (app : Z) (request : EsifData)
  | CtxRemoveApp (app : Z)
  | CtxSetState (k : ekey) (b : bool)
  | CtxSetFunction (k : ekey) (t : Z)
  | CtxSetLimits (k : ekey) (hi lo : option Z)
  | CtxStop (k : ekey)
  | CtxPurge.

(** A call on the entry with a key, when there is one. *)
Definition at_key (k : ekey) (op : arb_op) (cs : ctx_spec) : option (Z * ctx_spec) :=
  match find_key k (cs_entries cs) with
  | Some i =>
      match cs_entries cs !! i with
      | Some (k', sp) =>
          Some ((spec_call op sp).1, mk_ctx_spec (cs_enabled cs) (<[i:=(k', (spec_call op sp).2)]> (cs_entries cs)))
      | None => None
      end
  | None => None
  end.

(** A call on the entry with a key, which is added first when it is missing. *)
Definition at_key_or_new (sup : bool) (unsupported : Z) (k : ekey) (t : Z) (op : arb_op) (cs : ctx_spec) : Z * ctx_spec :=
  match at_key k op cs with
  | Some r => r
  | None =>
      if sup then
        let '(prim, dom, inst) := k in
        let sp := spec_init (mk_EsifArbEntryParams prim dom inst t ESIF_ARB_LIMIT_MAX ESIF_ARB_LIMIT_MIN) in
        ((spec_call op sp).1, mk_ctx_spec (cs_enabled cs) (cs_entries cs ++ [(k, (spec_call op sp).2)]))
      else (unsupported, cs)
  end.

Definition ctx_spec_call (sup : ekey -> bool) (op : ctx_op) (cs : ctx_spec) : Z * ctx_spec :=
  match op with
  | CtxExecute k app d =>
      if cs_enabled cs then
        match at_key k (ArbExecute app d) cs with Some r => r | None => (ESIF_E_NOT_FOUND, cs) end
      else (ESIF_E_NOT_SUPPORTED, cs)
  | CtxRemoveApp app => (ESIF_OK, mk_ctx_spec (cs_enabled cs) (on_spec (ArbRemoveApp app) <$> cs_entries cs))
  | CtxSetState k b =>
      if 0 =? k.1.1 then
        (ESIF_OK, mk_ctx_spec b (if b then cs_entries cs else (fun p => (p.1, purge_spec p.2)) <$> cs_entries cs))
      else match at_key k (ArbSetState b) cs with
           | Some (rc, cs') => (rc, if b then mk_ctx_spec true (cs_entries cs') else cs')
           | None => (ESIF_E_NOT_FOUND, cs)
           end
  | CtxSetFunction k t => at_key_or_new (sup k) ESIF_E_NOT_SUPPORTED k t (ArbSetFunction t) cs
  | CtxSetLimits k hi lo =>
      at_key_or_new (sup k) ESIF_E_PRIMITIVE_NOT_FOUND_IN_DSP k ESIF_ARBITRATION_INVALID (ArbSetLimits hi lo) cs
  | CtxStop k =>
      match find_key k (cs_entries cs) with
      | Some i => (ESIF_OK, mk_ctx_spec (cs_enabled cs) (delete i (cs_entries cs)))
      | None => (ESIF_E_NOT_FOUND, cs)
      end
  | CtxPurge => (ESIF_OK, mk_ctx_spec (cs_enabled cs) ((fun p => (p.1, purge_spec p.2)) <$> cs_entries cs))
  end.

Definition ctx_call (dsp : dsp_lookup) (m : nat -> allocs) (op : ctx_op) : CM Z :=
  match op with
  | CtxExecute (prim, dom, inst) app d => EsifArbCtx_ExecutePrimitive (m 0%nat) app prim dom inst (Some d)
  | CtxRemoveApp app => EsifArbCtx_RemoveApp m app ;! sret ESIF_OK
  | CtxSetState (prim, dom, inst) b => EsifArbCtx_SetArbitrationState prim dom inst b
  | CtxSetFunction (prim, dom, inst) t => EsifArbCtx_SetArbitrationFunction dsp (m 0%nat) true true prim dom inst t
  | CtxSetLimits (prim, dom, inst) hi lo => EsifArbCtx_SetLimits dsp (m 0%nat) true true prim dom inst hi lo
  | CtxStop (prim, dom, inst) => EsifArbCtx_StopArbitration true prim dom inst
  | CtxPurge => EsifArbCtx_PurgeRequests ;! sret ESIF_OK
  end.

Definition supported (dsp : dsp_lookup) (part : Z) (k : ekey) : bool :=
  let '(prim, dom, inst) := k in IsPrimitiveSupported dsp part prim dom inst.

(** What a call may rely on; addresses are fresh with respect to every request
    of the context. *)
Definition ctx_op_ok (m : nat -> allocs) (op : ctx_op) (s : cst) : Prop :=
  exists c, ctx s = Some c /\ ctx_mem_ok m c (cqueue s) /\
  match op with
  | CtxExecute _ _ d =>
      data_ok d /\ exists a, m_data (m 0%nat) = Some a /\
        forall i e r, entriesPtr c !! i = Some e -> Some r ∈ arbRequests e -> req_addr r <> Some a
  | CtxSetLimits _ hi lo =>
      (forall u, hi = Some u -> 0 <= u < 2 ^ 32) /\ (forall l, lo = Some l -> 0 <= l < 2 ^ 32)
  | _ => True
  end.

Definition ctx_repr (c : EsifArbCtx) (part : Z) (cs : ctx_spec) : Prop :=
  ctx_rel c (cs_entries cs) /\ ctx_enabled c = cs_enabled cs /\ ctx_participantId c = part.

(** Looking a key up, calling and releasing, as the operations do it. *)
Lemma at_key_spec m op prim dom inst c part cs q :
  ctx_repr c part cs ->
  (forall i e, entriesPtr c !! i = Some e -> op_ok m op (mk_est (Some e) q)) ->
  match at_key (prim, dom, inst) op cs with
  | Some (rc, cs') => exists i c1 c2 c3 q',
      EsifArbCtx_LookupArbEntry_Locked prim dom inst (mk_cst (Some c) q) = Some (Some i, mk_cst (Some c1) q) /\
      on_entry (Some i) (arb_call m op) (mk_cst (Some c1) q) = Some (rc, mk_cst (Some c2) q') /\
      on_entry (Some i) EsifArbEntry_PutRef (mk_cst (Some c2) q') = Some (tt, mk_cst (Some c3) q') /\
      (forall b, on_entry (Some i) EsifArbEntry_PutRef (mk_cst (Some (with_ctx_enabled b c2)) q') =
         Some (tt, mk_cst (Some (with_ctx_enabled b c3)) q')) /\
      ctx_repr c3 part cs'
  | None => EsifArbCtx_LookupArbEntry_Locked prim dom inst (mk_cst (Some c) q) = Some (None, mk_cst (Some c) q)
  end.
Proof.
  intros (Hc & Hen & Hpt) Hok. unfold at_key. pose proof (lookup_spec c q _ prim dom inst Hc) as Hl.
  destruct (find_key (prim, dom, inst) (cs_entries cs)) as [i|]; [|exact Hl].
  destruct Hl as (e & sp & He & Hp & Hg & Hk & El). rewrite Hp.
  destruct (call_at m op c _ i e _ sp q Hc He Hp (Hok i e He)) as (e' & c' & q' & E1 & E2 & _ & Hc' & H1 & H2).
  exists i, (set_at i (ref2 e) c), (set_at i e' c), c', q'.
  split; [done|split; [done|split; [done|split]]].
  - intros b. revert E2. unfold on_entry. cbn [ctx cqueue]. cbn [with_ctx_enabled set_at with_entries entriesPtr].
    destruct (<[i:=e']> (entriesPtr c) !! i) as [e0|]; [|done].
    destruct (EsifArbEntry_PutRef _) as [[x s]|]; [|done]. destruct (self s); [|done]. intros E. by simplify_eq.
  - split; [done|]. split; [|by rewrite H2]. by rewrite H1.
Qed.

Lemma add_entry_set cap e e' c al :
  ctx_rel c al -> add_entry cap e' c = set_at (length al) e' (add_entry cap e c).
Proof.
  intros Hc. unfold set_at, add_entry. simpl. rewrite <- (ctx_rel_length _ _ Hc).
  rewrite insert_app_r_alt, Nat.sub_diag by lia. done.
Qed.

Lemma full_params_ok prim dom inst t :
  params_ok (mk_EsifArbEntryParams prim dom inst t ESIF_ARB_LIMIT_MAX ESIF_ARB_LIMIT_MIN).
Proof. unfold params_ok, ESIF_ARB_LIMIT_MAX, ESIF_ARB_LIMIT_MIN. simpl. lia. Qed.

(** The missing entry is created, used and released. *)
Lemma new_key_spec m op t prim dom inst c part cs q :
  ctx_repr c part cs -> at_key (prim, dom, inst) op cs = None ->
  (forall e, entriesPtr c = [] \/ arbRequests e = [] -> op_ok m op (mk_est (Some e) q)) ->
  let p := mk_EsifArbEntryParams prim dom inst t ESIF_ARB_LIMIT_MAX ESIF_ARB_LIMIT_MIN in
  exists i c1 c2 c3 q',
    EsifArbCtx_CreateAndInsertEntry_Locked true true p (mk_cst (Some c) q) = Some ((ESIF_OK, Some i), mk_cst (Some c1) q) /\
    on_entry (Some i) (arb_call m op) (mk_cst (Some c1) q) = Some ((spec_call op (spec_init p)).1, mk_cst (Some c2) q') /\
    on_entry (Some i) EsifArbEntry_PutRef (mk_cst (Some c2) q') = Some (tt, mk_cst (Some c3) q') /\
    ctx_repr c3 part (mk_ctx_spec (cs_enabled cs) (cs_entries cs ++ [((prim, dom, inst), (spec_call op (spec_init p)).2)])).
Proof.
  intros (Hc & Hen & Hpt) Hnone Hok p. assert (Hp : params_ok p) by apply full_params_ok.
  assert (Hnk : params_key p ∉ (cs_entries cs).*1).
  { apply find_key_none. unfold at_key in Hnone. change (params_key p) with (prim, dom, inst).
    pose proof (lookup_spec c q _ prim dom inst Hc) as Hl. destruct (find_key (prim, dom, inst) (cs_entries cs)); [|done].
    destruct Hl as (e & sp & _ & Hl & _). by rewrite Hl in Hnone. }
  set (e := fresh_entry p (ctx_participantId c)).
  assert (Hg : good e (spec_init p)) by by apply fresh_good.
  pose proof (ctx_rel_add c (cs_entries cs) (grown c) p (spec_init p) Hc Hnk (grown_room _ (cr_capacity _ _ Hc)) e Hg eq_refl) as Hadd.
  assert (He : entriesPtr (add_entry (grown c) e c) !! length (cs_entries cs) = Some e).
  { simpl. rewrite <- (ctx_rel_length _ _ Hc). by apply list_lookup_middle. }
  assert (Hs : (cs_entries cs ++ [(params_key p, spec_init p)]) !! length (cs_entries cs) = Some (params_key p, spec_init p))
    by by apply list_lookup_middle.
  destruct (call_at m op _ _ _ e _ (spec_init p) q Hadd He Hs (Hok e ltac:(by right))) as (e' & c' & q' & E1 & E2 & _ & Hc' & H1 & H2).
  eexists _, _, _, c', q'. split; [|split; [exact E1|split; [exact E2|]]].
  - rewrite (create_insert_spec true true p c _ q Hc Hp). cbn [orb].
    fold e. by rewrite (add_entry_set (grown c) e (ref2 e) c _ Hc).
  - rewrite insert_app_r_alt, Nat.sub_diag in Hc' by lia. split; [exact Hc'|]. split; [by rewrite H1|by rewrite H2].
Qed.

Lemma ctx_op_entry_ok m op c q i e :
  ctx_op_ok m op (mk_cst (Some c) q) -> entriesPtr c !! i = Some e ->
  op_ok (m 0%nat) match op with
                  | CtxExecute _ app d => ArbExecute app d
                  | CtxRemoveApp app => ArbRemoveApp app
                  | CtxSetState _ b => ArbSetState b
                  | CtxSetFunction _ t => ArbSetFunction t
                  | CtxSetLimits _ hi lo => ArbSetLimits hi lo
                  | _ => ArbSetState true
                  end (mk_est (Some e) q).
Proof.
  intros (c' & Hc & [Hm Hq] & Hop) He. simpl in Hc, Hq. simplify_eq.
  split; [done|split; [simpl; lia|]]. destruct op; try done.
  destruct Hop as (Hd & a & Ha & Hf). split; [done|]. exists a. split; [done|].
  intros e0 r He0 Hr. simpl in He0. simplify_eq. by eapply Hf.
Qed.

Lemma ctx_op_new_ok m op c q e :
  ctx_op_ok m op (mk_cst (Some c) q) ->
  match op with
  | CtxSetFunction _ t => op_ok (m 0%nat) (ArbSetFunction t) (mk_est (Some e) q)
  | CtxSetLimits _ hi lo => op_ok (m 0%nat) (ArbSetLimits hi lo) (mk_est (Some e) q)
  | _ => True
  end.
Proof.
  intros (c' & Hc & [Hm Hq] & Hop). simpl in Hc, Hq. simplify_eq.
  destruct op; try done; (split; [done|split; [simpl; lia|done]]).
Qed.

(** Looking an entry up or creating it, calling it and releasing it: the shape
    that setting the limits and setting the function share. *)
Lemma use_or_create_spec dsp m op t unsupported prim dom inst c part cs q :
  ctx_repr c part cs ->
  (forall i e, entriesPtr c !! i = Some e -> op_ok m op (mk_est (Some e) q)) ->
  (forall e, op_ok m op (mk_est (Some e) q)) ->
  exists c' q',
    (let! i := EsifArbCtx_LookupArbEntry_Locked prim dom inst in
     let! r := (match i with
                | Some _ => sret (ESIF_E_PARAMETER_IS_NULL, i)
                | None =>
                    if IsPrimitiveSupported dsp part prim dom inst then
                      EsifArbCtx_CreateAndInsertEntry_Locked true true
                        (mk_EsifArbEntryParams prim dom inst t ESIF_ARB_LIMIT_MAX ESIF_ARB_LIMIT_MIN)
                    else sret (unsupported, None)
                end) in
     let '(rc, i) := r in
     let! rc := (match i with Some _ => on_entry i (arb_call m op) | None => sret rc end) in
     on_entry i EsifArbEntry_PutRef ;!
     sret rc) (mk_cst (Some c) q) =
      Some ((at_key_or_new (supported dsp part (prim, dom, inst)) unsupported (prim, dom, inst) t op cs).1,
            mk_cst (Some c') q') /\
    ctx_repr c' part (at_key_or_new (supported dsp part (prim, dom, inst)) unsupported (prim, dom, inst) t op cs).2.
Proof.
  intros Hc Hent Hnew. unfold at_key_or_new.
  pose proof (at_key_spec m op prim dom inst c part cs q Hc Hent) as H.
  destruct (at_key (prim, dom, inst) op cs) as [[rc cs']|] eqn:Ea.
  - destruct H as (i & c1 & c2 & c3 & q' & El & E1 & E2 & _ & Hr). exists c3, q'. split; [|done].
    rewrite (sbind_some _ _ _ _ _ El), (sbind_some (sret _) _ _ (ESIF_E_PARAMETER_IS_NULL, Some i) _) by done.
    rewrite (sbind_some _ _ _ _ _ E1). by rewrite (sbind_some _ _ _ _ _ E2).
  - rewrite (sbind_some _ _ _ _ _ H).
    change (IsPrimitiveSupported dsp part prim dom inst) with (supported dsp part (prim, dom, inst)).
    destruct (supported dsp part (prim, dom, inst)); [|by exists c, q].
    destruct (new_key_spec m op t prim dom inst c part cs q Hc Ea (fun e _ => Hnew e))
      as (i & c1 & c2 & c3 & q' & Ec & E1 & E2 & Hr). exists c3, q'. split; [|done].
    rewrite (sbind_some _ _ _ _ _ Ec), (sbind_some _ _ _ _ _ E1). by rewrite (sbind_some _ _ _ _ _ E2).
Qed.

Lemma execute_ctx_spec dsp m prim dom inst app d c part cs q :
  ctx_repr c part cs ->
  (forall i e, entriesPtr c !! i = Some e -> op_ok (m 0%nat) (ArbExecute app d) (mk_est (Some e) q)) ->
  let op := CtxExecute (prim, dom, inst) app d in
  exists c' q', ctx_call dsp m op (mk_cst (Some c) q) =
      Some ((ctx_spec_call (supported dsp part) op cs).1, mk_cst (Some c') q') /\
    ctx_repr c' part (ctx_spec_call (supported dsp part) op cs).2.
Proof.
  intros Hc Hent op. pose proof Hc as (_ & Hen & _). unfold op. cbn [ctx_call ctx_spec_call].
  unfold EsifArbCtx_ExecutePrimitive. rewrite has_ctx_run, get_ctx_run, <- Hen.
  destruct (ctx_enabled c); [|by exists c, q].
  pose proof (at_key_spec _ (ArbExecute app d) prim dom inst c part cs q Hc Hent) as H.
  destruct (at_key (prim, dom, inst) (ArbExecute app d) cs) as [[rc cs']|].
  - destruct H as (i & c1 & c2 & c3 & q' & El & E1 & E2 & _ & Hr). exists c3, q'. split; [|done].
    rewrite (sbind_some _ _ _ (ESIF_E_NOT_FOUND, Some i) (mk_cst (Some c1) q)) by by rewrite (sbind_some _ _ _ _ _ El).
    rewrite (sbind_some _ _ _ _ _ E1). by rewrite (sbind_some _ _ _ _ _ E2).
  - exists c, q. split; [|done].
    by rewrite (sbind_some _ _ _ (ESIF_E_NOT_FOUND, None) (mk_cst (Some c) q)) by by rewrite (sbind_some _ _ _ _ _ H).
Qed.

Lemma set_state_ctx_spec dsp m prim dom inst (b : bool) c part cs q :
  ctx_repr c part cs ->
  (forall i e, entriesPtr c !! i = Some e -> op_ok (m 0%nat) (ArbSetState b) (mk_est (Some e) q)) ->
  let op := CtxSetState (prim, dom, inst) b in
  exists c' q', ctx_call dsp m op (mk_cst (Some c) q) =
      Some ((ctx_spec_call (supported dsp part) op cs).1, mk_cst (Some c') q') /\
    ctx_repr c' part (ctx_spec_call (supported dsp part) op cs).2.
Proof.
  intros Hc Hent op. pose proof Hc as (Hrel & Hen & Hpt). unfold op. cbn [ctx_call ctx_spec_call fst].
  unfold EsifArbCtx_SetArbitrationState. rewrite has_ctx_run. destruct (Z.eqb_spec 0 prim) as [E|E].
  - rewrite mod_ctx_run. assert (Hrel' : ctx_rel (with_ctx_enabled b c) (cs_entries cs)) by (destruct Hrel; by split).
    destruct b; cbn [negb]; [eexists _, q; split; [reflexivity|by split]|].
    destruct (purge_ctx_spec _ _ q Hrel') as (c' & Ep & Hr & H1 & H2). exists c', q.
    rewrite (sbind_some _ _ _ _ _ Ep). split; [done|]. split; [done|]. split; [by rewrite H1|by rewrite H2].
  - pose proof (at_key_spec _ (ArbSetState b) prim dom inst c part cs q Hc Hent) as H.
    destruct (at_key (prim, dom, inst) (ArbSetState b) cs) as [[rc cs']|] eqn:Ea;
      [|exists c, q; split; [by rewrite (sbind_some _ _ _ _ _ H)|done]].
    destruct H as (i & c1 & c2 & c3 & q' & El & E1 & E2 & E3 & Hr & Hr2 & Hr3).
    assert (rc = ESIF_OK) as ->.
    { unfold at_key in Ea. destruct (find_key _ _); [|done]. destruct (_ !! _) as [[]|]; [|done]. by simplify_eq. }
    rewrite (sbind_some _ _ _ _ _ El). destruct b.
    + exists (with_ctx_enabled true c3), q'. split; [|by destruct Hr; split].
      rewrite (sbind_some _ _ _ ESIF_OK (mk_cst (Some (with_ctx_enabled true c2)) q'));
        [|by rewrite (sbind_some _ _ _ _ _ E1)]. by rewrite (sbind_some _ _ _ _ _ (E3 true)).
    + exists c3, q'. split; [|done].
      rewrite (sbind_some _ _ _ ESIF_OK (mk_cst (Some c2) q')); [|by rewrite (sbind_some _ _ _ _ _ E1)].
      by rewrite (sbind_some _ _ _ _ _ E2).
Qed.

(** One call on a context: it has an outcome, the specified code, and leaves a
    context that represents the specified state. *)
Lemma ctx_call_spec dsp m op c part cs q :
  ctx_repr c part cs -> ctx_op_ok m op (mk_cst (Some c) q) ->
  exists c' q', ctx_call dsp m op (mk_cst (Some c) q) =
      Some ((ctx_spec_call (supported dsp part) op cs).1, mk_cst (Some c') q') /\
    ctx_repr c' part (ctx_spec_call (supported dsp part) op cs).2.
Proof.
  intros Hc Hop. pose proof Hc as (Hrel & Hen & Hpt).
  assert (Hent := fun i e => ctx_op_entry_ok m op c q i e Hop).
  assert (Hnew := fun e => ctx_op_new_ok m op c q e Hop).
  pose proof Hop as (c0 & Hc0 & Hmem & _). simpl in Hc0, Hmem. injection Hc0 as <-.
  destruct op as [[[prim dom] inst] app d|app|[[prim dom] inst] b|[[prim dom] inst] t|[[prim dom] inst] hi lo|[[prim dom] inst]|].
  - by apply execute_ctx_spec.
  - destruct (remove_app_ctx_spec m app c _ q Hrel Hmem) as (c' & q' & E & Hr & H1 & H2).
    exists c', q'. cbn [ctx_call]. rewrite (sbind_some _ _ _ _ _ E). split; [done|]. by split; [|rewrite H1, H2].
  - by apply set_state_ctx_spec.
  - cbn [ctx_call]. unfold EsifArbCtx_SetArbitrationFunction. rewrite has_ctx_run, get_ctx_run, Hpt.
    exact (use_or_create_spec dsp _ (ArbSetFunction t) t _ prim dom inst c part cs q Hc Hent Hnew).
  - cbn [ctx_call]. unfold EsifArbCtx_SetLimits. rewrite has_ctx_run, get_ctx_run, Hpt.
    exact (use_or_create_spec dsp _ (ArbSetLimits hi lo) _ _ prim dom inst c part cs q Hc Hent Hnew).
  - cbn [ctx_call ctx_spec_call]. pose proof (stop_ctx_spec true prim dom inst c _ q Hrel) as H. destruct (find_key _ _) as [i|].
    + destruct H as (c' & E & Hr & H1 & H2). exists c', q. split; [done|]. by split; [|rewrite H1, H2].
    + by exists c, q.
  - cbn [ctx_call ctx_spec_call]. destruct (purge_ctx_spec _ _ q Hrel) as (c' & E & Hr & H1 & H2). exists c', q.
    unfold EsifArbCtx_PurgeRequests. rewrite (sbind_some _ _ _ tt (mk_cst (Some c') q)) by by rewrite has_ctx_run.
    split; [done|]. by split; [|rewrite H1, H2].
Qed.

(** The default tables populate a new context with their supported rows. *)
Definition table_entries (sup : ekey -> bool) (table : list EsifArbEntryParams) : spec_entries :=
  (fun p => (params_key p, spec_init p)) <$> filter (fun p => sup (params_key p) = true) table.

Lemma populate_loop_spec dsp part table : forall i c al q,
  ctx_rel c al -> ctx_participantId c = part -> Forall params_ok table -> NoDup (al.*1 ++ (params_key <$> table)) ->
  exists c', populate_loop dsp (fun _ => (true, true)) i table (mk_cst (Some c) q) = Some (tt, mk_cst (Some c') q) /\
    ctx_rel c' (al ++ table_entries (supported dsp part) table) /\
    ctx_enabled c' = ctx_enabled c /\ ctx_participantId c' = part.
Proof.
  induction table as [|p table IH]; intros i c al q Hc Hpt Hok Hn.
  { exists c. unfold table_entries. by rewrite filter_nil, app_nil_r. }
  apply Forall_cons in Hok as [Hp Hok]. rewrite fmap_cons in Hn.
  cbn [populate_loop fst snd]. rewrite get_ctx_run, Hpt.
  change (IsPrimitiveSupported dsp part (e_primitiveId p) (e_domain p) (e_instance p)) with (supported dsp part (params_key p)).
  unfold table_entries. rewrite filter_cons. destruct (supported dsp part (params_key p)) eqn:Es.
  - rewrite decide_True by done. rewrite fmap_cons.
    assert (Hnk : params_key p ∉ al.*1) by (by apply NoDup_app_cons_swap in Hn as (? & _)).
    set (e := fresh_entry p (ctx_participantId c)).
    assert (Hg : good e (spec_init p)) by by apply fresh_good.
    pose proof (ctx_rel_add c al (grown c) p (spec_init p) Hc Hnk (grown_room _ (cr_capacity _ _ Hc)) e Hg eq_refl) as Hadd.
    assert (He : entriesPtr (add_entry (grown c) e c) !! length al = Some e).
    { simpl. rewrite <- (ctx_rel_length _ _ Hc). by apply list_lookup_middle. }
    destruct (IH (S i) (add_entry (grown c) e c) _ q Hadd Hpt Hok) as (c' & E & Hr & H1 & H2).
    { rewrite fmap_app, <- app_assoc. exact Hn. }
    exists c'. rewrite (sbind_some _ _ _ tt (mk_cst (Some (add_entry (grown c) e c)) q)).
    + split; [exact E|]. unfold table_entries in Hr. by rewrite <- app_assoc in Hr.
    + rewrite (sbind_some _ _ _ _ _ (create_insert_spec true true p c al q Hc Hp)). cbn [orb snd]. fold e.
      rewrite (add_entry_set (grown c) e (ref2 e) c _ Hc).
      rewrite (on_entry_run _ _ _ _ _ _ _ _ (set_at_lookup (length al) (ref2 e) e _ He) (put_ref_used (ref2 e) q eq_refl eq_refl)).
      rewrite set_at_twice. by rewrite set_at_id.
  - rewrite decide_False by done. rewrite (sbind_some (sret tt) _ _ tt (mk_cst (Some c) q)) by done.
    apply IH; [done|done|done|]. by apply NoDup_app_cons_swap in Hn as (_ & _ & ?).
Qed.

Definition table_fineb (t : list EsifArbEntryParams) : bool :=
  forallb (fun p => (0 <=? e_lowerLimit p) && (e_lowerLimit p <=? e_upperLimit p) && (e_upperLimit p <? 2 ^ 32)) t &&
  bool_decide (NoDup (params_key <$> t)).

Lemma table_fine t : table_fineb t = true -> Forall params_ok t /\ NoDup (params_key <$> t).
Proof.
  unfold table_fineb. intros [H1 H2]%andb_true_iff. split; [|by apply bool_decide_eq_true in H2].
  apply Forall_forall. intros p Hp. rewrite forallb_forall in H1.
  specialize (H1 p (proj1 (list_elem_of_In _ _) Hp)). bool_to_prop. done.
Qed.

Lemma default_table_fine is_cpu acpi is_primary :
  Forall params_ok (default_table is_cpu acpi is_primary) /\ NoDup (params_key <$> default_table is_cpu acpi is_primary).
Proof.
  apply table_fine. unfold default_table. destruct is_cpu; [by vm_compute|].
  destruct acpi as [t|]; [|done]. destruct is_primary; [done|].
  destruct (7 =? t); [by vm_compute|]. by destruct (4 =? t).
Qed.

Definition ctx_spec_init (dsp : dsp_lookup) (part : Z) (is_cpu : bool) (acpi : option Z) (is_primary : bool) : ctx_spec :=
  mk_ctx_spec true (table_entries (supported dsp part) (default_table is_cpu acpi is_primary)).

Lemma ctx_create_spec dsp part is_cpu acpi is_primary q :
  exists c, EsifArbCtx_Create dsp true (fun _ => (true, true)) part is_cpu acpi is_primary q = Some (mk_cst (Some c) q) /\
    ctx_repr c part (ctx_spec_init dsp part is_cpu acpi is_primary).
Proof.
  destruct (default_table_fine is_cpu acpi is_primary) as [Hok Hn].
  assert (H0 : ctx_rel (mk_EsifArbCtx true 0 [] part) []) by (split; [constructor|constructor|done]).
  destruct (populate_loop_spec dsp part _ 0 _ [] q H0 eq_refl Hok Hn) as (c & E & Hr & H1 & H2).
  exists c. split; [|by split].
  unfold EsifArbCtx_Create, EsifArbCtx_PopulateDefaultArbitrationTable. rewrite has_ctx_run.
  by rewrite (sbind_some _ _ _ _ _ E).
Qed.

(** The runs of a context. *)
Inductive ctx_run (dsp : dsp_lookup) (s0 : cst) : list (ctx_op * Z) -> cst -> Prop :=
  | ctx_run_nil : ctx_run dsp s0 [] s0
  | ctx_run_snoc tr s m op rc s' :
      ctx_run dsp s0 tr s -> ctx_op_ok m op s -> ctx_call dsp m op s = Some (rc, s') ->
      ctx_run dsp s0 (tr ++ [(op, rc)]) s'.

Fixpoint ctx_spec_calls (sup : ekey -> bool) (ops : list ctx_op) (cs : ctx_spec) : list Z * ctx_spec :=
  match ops with
  | [] => ([], cs)
  | op :: ops' =>
      let '(rc, cs1) := ctx_spec_call sup op cs in
      let '(rcs, cs2) := ctx_spec_calls sup ops' cs1 in (rc :: rcs, cs2)
  end.

Lemma ctx_spec_calls_snoc sup ops op cs :
  ctx_spec_calls sup (ops ++ [op]) cs =
  ((ctx_spec_calls sup ops cs).1 ++ [(ctx_spec_call sup op (ctx_spec_calls sup ops cs).2).1],
   (ctx_spec_call sup op (ctx_spec_calls sup ops cs).2).2).
Proof.
  revert cs. induction ops as [|o ops IH]; intros cs; simpl; [by destruct (ctx_spec_call sup op cs)|].
  destruct (ctx_spec_call sup o cs) as [rc cs1]. rewrite IH. by destruct (ctx_spec_calls sup ops cs1).
Qed.

(** C12: A participant's arbitration context refines its specification - an
    enable flag and, per primitive, domain and instance, the specified entry:
    after creation with the participant's default table and any sequence of
    calls (requests, removal of an application, enabling and disabling,
    changes of function and limits that add missing entries, stopping), every
    call returned the specified code, each key has one entry, every reference
    a call took has been given back, and the next call has an outcome. *)
Theorem arb_ctx_refines (dsp : dsp_lookup) (part : Z) (is_cpu : bool) (acpi : option Z) (is_primary : bool)
    (q : prim_queue) (s0 s : cst) (tr : list (ctx_op * Z))
    (Hcreate : EsifArbCtx_Create dsp true (fun _ => (true, true)) part is_cpu acpi is_primary q = Some s0)
    (Hrun : ctx_run dsp s0 tr s) :
  tr.*2 = (ctx_spec_calls (supported dsp part) tr.*1 (ctx_spec_init dsp part is_cpu acpi is_primary)).1 /\
  (exists c, ctx s = Some c /\
     ctx_enabled c = cs_enabled (ctx_spec_calls (supported dsp part) tr.*1 (ctx_spec_init dsp part is_cpu acpi is_primary)).2 /\
     Forall2 (fun e p => key_of e = p.1 /\ exists rs, arb_rel e rs p.2) (entriesPtr c)
       (cs_entries (ctx_spec_calls (supported dsp part) tr.*1 (ctx_spec_init dsp part is_cpu acpi is_primary)).2) /\
     NoDup (key_of <$> entriesPtr c) /\
     Forall (fun e => refCount e = 1 /\ markedForDelete e = false) (entriesPtr c)) /\
  (forall m op, ctx_op_ok m op s -> exists rc s', ctx_call dsp m op s = Some (rc, s')).
Proof.
  destruct (ctx_create_spec dsp part is_cpu acpi is_primary q) as (c0 & E0 & Hc0).
  rewrite E0 in Hcreate. simplify_eq. set (cs0 := ctx_spec_init dsp part is_cpu acpi is_primary) in *.
  assert (H : tr.*2 = (ctx_spec_calls (supported dsp part) tr.*1 cs0).1 /\
    exists c q', s = mk_cst (Some c) q' /\ ctx_repr c part (ctx_spec_calls (supported dsp part) tr.*1 cs0).2).
  { induction Hrun as [|tr s m op rc s' _ IH Hok E]; [split; [done|]; by exists c0, q|].
    destruct IH as (Hrcs & c & q' & -> & Hc).
    destruct (ctx_call_spec dsp m op c part _ q' Hc Hok) as (c' & q2 & E' & Hc'). rewrite E' in E. simplify_eq.
    rewrite !fmap_app. cbn [fmap list_fmap fst snd]. rewrite ctx_spec_calls_snoc. cbn [fst snd]. rewrite Hrcs.
    split; [done|]. by exists c', q2. }
  destruct H as (Hrcs & c & q' & -> & Hc). split; [done|split].
  - destruct Hc as ([Hf Hn _] & Hen & _). exists c. split; [done|split; [done|split; [|split]]].
    + eapply Forall2_impl; [exact Hf|]. intros e p [Hk (_ & _ & _ & Hr)]. done.
    + assert (Hkeys : key_of <$> entriesPtr c = (cs_entries (ctx_spec_calls (supported dsp part) tr.*1 cs0).2).*1).
      { clear Hn. induction Hf as [|e p l l' [Hk _] _ IH]; [done|]. by rewrite !fmap_cons, Hk, IH. }
      by rewrite Hkeys.
    + eapply Forall2_Forall_l; [exact Hf|]. apply Forall_true. by intros p e [_ (? & ? & _)].
  - intros m op Hok. destruct (ctx_call_spec dsp m op c part _ q' Hc Hok) as (c' & q2 & E' & _). eauto.
Qed.

Module CtxDemo.
Definition dsp : dsp_lookup := fun _ _ _ _ => Some (ESIF_PRIMITIVE_OP_SET, 3).
Definition s0 : cst :=
  match EsifArbCtx_Create dsp true (fun _ => (true, true)) 5 false (Some 4) false [] with
  | Some s => s
  | None => mk_cst None []
  end.
Definition fan : ekey := (SET_FAN_LEVEL, ESIF_PRIMITIVE_DOMAIN_D0, 255).
Definition tcc : ekey := (SET_TCC_OFFSET, ESIF_PRIMITIVE_DOMAIN_D0, 255).
Definition after (m : nat -> allocs) (op : ctx_op) (s : cst) : cst :=
  match ctx_call dsp m op s with Some (_, s') => s' | None => s end.
Definition mem (a : positive) : nat -> allocs := fun _ => ArbDemo.mem a.
Definition op1 : ctx_op := CtxExecute fan 7 (ArbDemo.u32_data 50).
Definition op2 : ctx_op := CtxSetLimits tcc None (Some 30).
Definition s1 : cst := after (mem 1) op1 s0.
Definition s2 : cst := after (mem 2) op2 s1.
Definition tr : list (ctx_op * Z) := [(op1, 0); (op2, 0)].

Lemma run_ctx : ctx_run dsp s0 tr s2.
Proof.
  apply (ctx_run_snoc dsp s0 [(op1, 0)] s1 (mem 2)).
  - apply (ctx_run_snoc dsp s0 [] s0 (mem 1)); [constructor| |by vm_compute].
    eexists. split; [reflexivity|]. split; [split; [intros; apply ArbDemo.mem_all|by vm_compute]|].
    split; [apply ArbDemo.data_fine; lia|]. exists 1%positive. split; [done|].
    intros [|i] e r He Hr; vm_compute in He; [|done]. injection He as <-. by apply elem_of_nil in Hr.
  - eexists. split; [reflexivity|]. split; [split; [intros; apply ArbDemo.mem_all|by vm_compute]|].
    split; [done|]. intros l [= <-]. lia.
  - by vm_compute.
Qed.
End CtxDemo.

Lemma arb_ctx_refines_witness :
  EsifArbCtx_Create CtxDemo.dsp true (fun _ => (true, true)) 5 false (Some 4) false [] = Some CtxDemo.s0 /\
  CtxDemo.tr.*2 = (ctx_spec_calls (supported CtxDemo.dsp 5) CtxDemo.tr.*1 (ctx_spec_init CtxDemo.dsp 5 false (Some 4) false)).1.
Proof.
  split; [reflexivity|].
  apply (arb_ctx_refines CtxDemo.dsp 5 false (Some 4) false [] CtxDemo.s0 CtxDemo.s2 CtxDemo.tr eq_refl CtxDemo.run_ctx).
Defined.

(** When the array is full and cannot grow, adding an entry never returns:
    the new entry is destroyed while the reference taken for the caller is
    held, so the delete event that its destruction waits for is never set. *)
Theorem create_insert_hangs (p : EsifArbEntryParams) (c : EsifArbCtx) (al : spec_entries) (q : prim_queue)
    (Hctx : ctx_rel c al) (Hparams : params_ok p) (Hfull : numEntries c = entryCapacity c) :
  EsifArbCtx_CreateAndInsertEntry_Locked true false p (mk_cst (Some c) q) = None.
Proof. rewrite (create_insert_spec _ _ _ _ _ _ Hctx Hparams), Hfull. simpl. by rewrite Z.ltb_irrefl. Qed.

Lemma create_insert_hangs_witness :
  EsifArbCtx_CreateAndInsertEntry_Locked true false ArbDemo.params (mk_cst (Some (mk_EsifArbCtx true 0 [] 5)) []) = None.
Proof.
  apply (create_insert_hangs ArbDemo.params (mk_EsifArbCtx true 0 [] 5) []); [|apply ArbDemo.params_fine|reflexivity].
  split; [constructor|constructor|done].
Defined.
