(* ===== verification/ArbMgr.v ===== *)
(** * The arbitration manager: the EsifArbMgr functions of
    ESIF/Products/ESIF_UF/Sources/esif_uf_arbmgr.c

    The manager routes a primitive either to the arbitration context of its
    participant or straight to the participant, holds the global enable flag,
    and runs the thread that executes the queued requests.  A participant is
    what the manager uses of it: its instance, what selects its default table
    and the context stored in it.  Finding a participant is the participant
    manager's lookup by instance over the available participants; executing a
    primitive on a participant is the parameter [exec], and each execution is
    recorded. *)

From S2P Require Import Prelude Queue EsifData PrimitiveType ArbEntry ArbCtx.
From stdpp Require Import list relations.
Local Open Scope Z_scope.
Local Open Scope dptf_scope.

Record EsifUp : Type := mk_EsifUp {
  up_instance : Z;
  up_is_cpu : bool;
  up_acpiType : option Z;
  up_is_primary : bool;
  up_arbitrationContext : option EsifArbCtx
}.

(** One execution of a primitive: participant, primitive, domain, instance and
    request data. *)
Record execution : Type := mk_execution {
  x_participant : option Z; x_id : Z; x_domain : Z; x_instance : Z; x_request : option EsifData
}.

Record mst : Type := mk_mst {
  mgr_enabled : bool;
  ups : list EsifUp;
  primitiveQueue : prim_queue;
  executed : list execution
}.

Abbreviation MM := (SM mst).

Definition with_mgr_enabled (b : bool) (s : mst) : mst := mk_mst b (ups s) (primitiveQueue s) (executed s).
Definition with_queue (q : prim_queue) (s : mst) : mst := mk_mst (mgr_enabled s) (ups s) q (executed s).
Definition with_ctx (c : option EsifArbCtx) (u : EsifUp) : EsifUp :=
  mk_EsifUp (up_instance u) (up_is_cpu u) (up_acpiType u) (up_is_primary u) c.

Definition on_pq {T} (m : SM prim_queue T) : MM T :=
  fun s => match m (primitiveQueue s) with Some (x, q) => Some (x, with_queue q s) | None => None end.

(** A context operation on the context stored in participant [i]. *)
Definition on_ctx {T} (i : nat) (m : CM T) : MM T :=
  fun s => match ups s !! i with
           | Some u =>
               match m (mk_cst (up_arbitrationContext u) (primitiveQueue s)) with
               | Some (x, c) => Some (x, mk_mst (mgr_enabled s) (<[i:=with_ctx (ctx c) u]> (ups s)) (cqueue c) (executed s))
               | None => None
               end
           | None => None
           end.

Section Manager.
Context (dsp : dsp_lookup) (exec : execution -> Z).

Definition EsifUp_ExecutePrimitive (x : execution) : MM Z :=
  fun s => Some (exec x, mk_mst (mgr_enabled s) (ups s) (primitiveQueue s) (executed s ++ [x])).

Definition EsifUpPm_GetAvailableParticipantByInstance (part : Z) : MM (option nat) :=
  fun s => Some (fst <$> list_find (fun u => up_instance u = part) (ups s), s).

(** The context of a participant, created when there is none; [mem_ctx] and
    [mem] are the outcomes of the allocations.  The result tells whether there
    is one. *)
Definition EsifArbMgr_CtxInst (mem_ctx : bool) (mem : nat -> bool * bool) (i : nat) : MM bool :=
  let! s := sget in
  match ups s !! i with
  | None => ub
  | Some u =>
      match up_arbitrationContext u with
      | Some _ => sret true
      | None =>
          match EsifArbCtx_Create dsp mem_ctx mem (up_instance u) (up_is_cpu u) (up_acpiType u) (up_is_primary u)
                  (primitiveQueue s) with
          | Some c =>
              sput (mk_mst (mgr_enabled s) (<[i:=with_ctx (ctx c) u]> (ups s)) (cqueue c) (executed s)) ;!
              sret (match ctx c with Some _ => true | None => false end)
          | None => ub
          end
      end
  end.

(** An unarbitrated primitive is executed at once, or has been put on the queue
    with a completion event and its caller waits for the worker. *)
Inductive unarb_result : Type := Done (rc : Z) | Waiting (waiter : positive).

Definition EsifArbMgr_ExecuteUnarbitratedPrimitive (m : allocs) (waiter : positive) (part prim dom inst : Z)
    (request : option EsifData) (rsp : ptr) : MM unarb_result :=
  let direct := let! rc := EsifUp_ExecutePrimitive (mk_execution (Some part) (u16 prim) dom inst request) in sret (Done rc) in
  let! s := sget in
  if mgr_enabled s then
    if EsifArbMgr_MustDelayPrimitive_Locked prim (primitiveQueue s) then
      let! rc := on_pq (EsifArbMgr_QueuePrimitiveRequest_Locked m part prim dom inst request rsp (Some waiter) (Some waiter) false) in
      if rc =? ESIF_OK then sret (Waiting waiter) else direct
    else direct
  else direct.

(** [domainStr] is the number made of the two characters, or NULL. *)
Definition EsifArbMgr_ExecutePrimitive (m : allocs) (mem_ctx : bool) (mem : nat -> bool * bool) (waiter : positive)
    (app part prim : Z) (domainStr : option Z) (inst : Z) (request : option EsifData) (rsp : ptr) : MM unarb_result :=
  match domainStr with
  | None => sret (Done ESIF_E_PARAMETER_IS_NULL)
  | Some dom =>
      let! up := EsifUpPm_GetAvailableParticipantByInstance part in
      match up with
      | None => sret (Done ESIF_E_PARTICIPANT_NOT_FOUND)
      | Some i =>
          let! s := sget in
          let! rc := (if mgr_enabled s then
                        EsifArbMgr_CtxInst mem_ctx mem i ;!
                        on_ctx i (EsifArbCtx_ExecutePrimitive m app prim dom inst request)
                      else sret ESIF_E_NOT_SUPPORTED) in
          if negb (rc =? ESIF_OK) then
            EsifArbMgr_ExecuteUnarbitratedPrimitive m waiter part prim dom inst request rsp
          else sret (Done rc)
      end
  end.

(** [mem i] for participant [i]. *)
Fixpoint remove_app_ups (n i : nat) (mem : nat -> nat -> allocs) (app : Z) : MM unit :=
  match n with
  | O => sret tt
  | S n' => on_ctx i (EsifArbCtx_RemoveApp (mem i) app) ;! remove_app_ups n' (S i) mem app
  end.
Definition EsifArbMgr_RemoveApp (mem : nat -> nat -> allocs) (app : Z) : MM unit :=
  let! s := sget in remove_app_ups (length (ups s)) 0 mem app.

Fixpoint purge_ups (n i : nat) : MM unit :=
  match n with
  | O => sret tt
  | S n' => on_ctx i EsifArbCtx_PurgeRequests ;! purge_ups n' (S i)
  end.
Definition EsifArbMgr_PurgeRequests_Locked : MM unit :=
  let! s := sget in purge_ups (length (ups s)) 0.

Definition EsifArbMgr_SetArbitrationState (mem_ctx : bool) (mem : nat -> bool * bool)
    (part prim dom inst : Z) (isEnabled : bool) : MM Z :=
  if ESIF_INVALID_HANDLE =? part then
    smodify (with_mgr_enabled isEnabled) ;!
    (if negb isEnabled then EsifArbMgr_PurgeRequests_Locked else sret tt) ;!
    sret ESIF_OK
  else
    let! up := EsifUpPm_GetAvailableParticipantByInstance part in
    match up with
    | None => sret ESIF_E_PARTICIPANT_NOT_FOUND
    | Some i =>
        let! ok := EsifArbMgr_CtxInst mem_ctx mem i in
        if ok then
          let! rc := on_ctx i (EsifArbCtx_SetArbitrationState prim dom inst isEnabled) in
          (if (rc =? ESIF_OK) && isEnabled then smodify (with_mgr_enabled true) else sret tt) ;!
          sret rc
        else sret ESIF_E_NO_MEMORY
    end.

(** The calls that only find the context and pass the call on. *)
Definition with_context (mem_ctx : bool) (mem : nat -> bool * bool) (part not_found : Z) (m : CM Z) : MM Z :=
  let! up := EsifUpPm_GetAvailableParticipantByInstance part in
  match up with
  | None => sret not_found
  | Some i =>
      let! ok := EsifArbMgr_CtxInst mem_ctx mem i in
      if ok then on_ctx i m else sret ESIF_E_NO_MEMORY
  end.

Definition EsifArbMgr_StopArbitration (mem_ctx : bool) (mem : nat -> bool * bool) (mem_shrink : bool)
    (part prim dom inst : Z) : MM Z :=
  with_context mem_ctx mem part ESIF_E_PARAMETER_IS_NULL (EsifArbCtx_StopArbitration mem_shrink prim dom inst).

Definition EsifArbMgr_SetLimits (mem_ctx : bool) (mem : nat -> bool * bool) (m : allocs) (mem_entry mem_grow : bool)
    (part prim dom inst : Z) (upperLimitPtr lowerLimitPtr : option Z) : MM Z :=
  with_context mem_ctx mem part ESIF_E_PARTICIPANT_NOT_FOUND
    (EsifArbCtx_SetLimits dsp m mem_entry mem_grow prim dom inst upperLimitPtr lowerLimitPtr).

Definition EsifArbMgr_SetArbitrationFunction (mem_ctx : bool) (mem : nat -> bool * bool) (m : allocs)
    (mem_entry mem_grow : bool) (part prim dom inst t : Z) : MM Z :=
  with_context mem_ctx mem part ESIF_E_PARTICIPANT_NOT_FOUND
    (EsifArbCtx_SetArbitrationFunction dsp m mem_entry mem_grow prim dom inst t).

(** The participants' information, in order; a participant without a context
    gets a placeholder. *)
Definition EsifArbMgr_GetInformation (mem : nat -> bool) (part prim dom inst : Z) (s : mst) :
    bool * nat * list EsifArbCtxInfo :=
  let chosen := filter (fun p => part = ESIF_INVALID_HANDLE \/ part = up_instance p.2) (imap pair (ups s)) in
  let infos := omap (fun p =>
      match EsifArbCtx_GetInformation (mem p.1) prim dom inst (up_arbitrationContext p.2) with
      | Some i => Some (mk_EsifArbCtxInfo (i_ctx_participantId i) true (i_ctx_enabled i) (i_count i) (i_entries i))
      | None => if mem p.1 then Some (mk_EsifArbCtxInfo (up_instance p.2) false false 0 []) else None
      end) chosen in
  (mgr_enabled s, length (filter (fun i => i_isArbitrated i = true) infos), infos).

(* ------------------------------------------------------------------ *)
(** ** The queue's worker thread *)

(** What the worker holds: nothing, a request it has pulled and is executing,
    or one it has executed and has yet to complete. *)
Inductive worker : Type :=
  | WIdle
  | WPulled (r : EsifArbPrimReq)
  | WExecuted (r : EsifArbPrimReq) (rc : Z).

(** One round of the thread's loop, in its three steps: the pull (which drops
    dummies), the execution, and - under the queue lock - the removal of the
    request's dummy, after which the waiting caller is released. *)
Definition worker_pull (q : prim_queue) : worker * prim_queue :=
  let '(d, q') := fifo_dequeue q in
  match d with
  | None => (WIdle, q')
  | Some r => if p_isDummyRequest r then (WIdle, q') else (WPulled r, q')
  end.

Definition worker_execution (find : Z -> bool) (r : EsifArbPrimReq) : execution :=
  mk_execution (if find (p_participantId r) then Some (p_participantId r) else None)
    (u16 (p_primitiveId r)) (p_domain r) (p_instance r) (p_reqDataPtr r).

(** The queue afterwards, and the caller to release with its status. *)
Definition worker_complete (mem : bool) (r : EsifArbPrimReq) (rc : Z) (q : prim_queue) :
    prim_queue * option (positive * Z) :=
  let '(d, q') := fifo_dequeue q in
  let is_mine := match d with
                 | Some dr => p_isDummyRequest dr && (p_primitiveId r =? p_primitiveId dr)
                 | None => false
                 end in
  (if is_mine then q' else (fifo_requeue ESIF_UF_ARBMGR_QUEUE_SIZE mem d q').2,
   match p_completionEventPtr r with Some w => Some (w, rc) | None => None end).
End Manager.

(* ------------------------------------------------------------------ *)
(** ** A GET never overtakes its SET

    Threads queue requests under the manager's lock while the worker pulls, executes and
    completes them.  Queuing a SET that delays its GET is two enqueues, between which the
    worker may already pull the SET; the manager's lock is held throughout, so the worker's
    completion and the decision whether to delay a primitive cannot happen in between.
    That decision walks over the nodes of the queue's list.  The worker's pull needs the
    queue's own lock only, so it can take away nodes during the walk, also the one on which
    the walk stands. *)

Definition needs_dummy (r : EsifArbPrimReq) : bool := p_requiresDelay r && negb (p_delayedPrimitiveId r =? 0).

(** Where a walk stands: on a node, which has been looked at or not; behind the last one; or
    on memory that was a node. *)
Inductive walk_place : Type :=
  | AtNode (i : nat) (looked : bool)
  | AtEnd
  | AtFreed.
(** The thread that holds the manager's lock: it has a dummy still to queue, it walks, or
    it has found that the primitive is to be delayed. *)
Inductive holder : Type :=
  | LFree
  | LDummy (d : EsifArbPrimReq)
  | LWalk (prim : Z) (place : walk_place)
  | LDelay (prim : Z).
Record qsys : Type := mk_qsys { qq : prim_queue; qw : worker; qlock : holder }.

Inductive qev : Type :=
  | QvAdd (r : EsifArbPrimReq)
  | QvAddDummy
  | QvWalk (prim : Z)
  | QvLook
  | QvNext
  | QvDirect (prim : Z)
  | QvPull
  | QvExecute (r : EsifArbPrimReq) (rc : Z)
  | QvComplete.

Definition held_request (w : worker) : option EsifArbPrimReq :=
  match w with WIdle => None | WPulled r | WExecuted r _ => Some r end.

(** The node with place [i], if there is one. *)
Definition node_at (q : prim_queue) (i : nat) : walk_place := if (i <? length q)%nat then AtNode i false else AtEnd.
Definition delays (prim : Z) (o : option EsifArbPrimReq) : bool :=
  match o with Some r => p_requiresDelay r && (prim =? p_delayedPrimitiveId r) | None => false end.
(** The first node is freed under a walk. *)
Definition walk_pulled (q : prim_queue) (l : holder) : holder :=
  match q, l with
  | _ :: _, LWalk prim (AtNode 0 _) => LWalk prim AtFreed
  | _ :: _, LWalk prim (AtNode (S i) looked) => LWalk prim (AtNode i looked)
  | _, _ => l
  end.

Inductive qsys_step : qsys -> qev -> qsys -> Prop :=
  | qs_add q w r :
      p_isDummyRequest r = false ->
      Z.of_nat (length q) + 2 <= ESIF_UF_ARBMGR_QUEUE_SIZE ->
      qsys_step (mk_qsys q w LFree) (QvAdd r)
        (mk_qsys (enqueue true r q).2 w (if needs_dummy r then LDummy (as_dummy r) else LFree))
  | qs_add_dummy q w d :
      Z.of_nat (length q) + 1 <= ESIF_UF_ARBMGR_QUEUE_SIZE ->
      qsys_step (mk_qsys q w (LDummy d)) QvAddDummy (mk_qsys (enqueue true d q).2 w LFree)
  | qs_walk q w prim :
      qsys_step (mk_qsys q w LFree) (QvWalk prim) (mk_qsys q w (LWalk prim (node_at q 0)))
  | qs_look q w prim i o :
      q !! i = Some o ->
      qsys_step (mk_qsys q w (LWalk prim (AtNode i false))) QvLook
        (mk_qsys q w (if delays prim o then LDelay prim else LWalk prim (AtNode i true)))
  | qs_next q w prim i :
      qsys_step (mk_qsys q w (LWalk prim (AtNode i true))) QvNext (mk_qsys q w (LWalk prim (node_at q (S i))))
  | qs_direct q w prim :
      qsys_step (mk_qsys q w (LWalk prim AtEnd)) (QvDirect prim) (mk_qsys q w LFree)
  | qs_add_delayed q w prim r :
      p_isDummyRequest r = false -> p_requiresDelay r = false -> p_primitiveId r = prim ->
      Z.of_nat (length q) + 1 <= ESIF_UF_ARBMGR_QUEUE_SIZE ->
      qsys_step (mk_qsys q w (LDelay prim)) (QvAdd r) (mk_qsys (enqueue true r q).2 w LFree)
  | qs_pull q l w' q' :
      worker_pull q = (w', q') -> qsys_step (mk_qsys q WIdle l) QvPull (mk_qsys q' w' (walk_pulled q l))
  | qs_execute q l r rc :
      qsys_step (mk_qsys q (WPulled r) l) (QvExecute r rc) (mk_qsys q (WExecuted r rc) l)
  | qs_complete q r rc q' out :
      Z.of_nat (length q) + 1 <= ESIF_UF_ARBMGR_QUEUE_SIZE ->
      worker_complete true r rc q = (q', out) ->
      qsys_step (mk_qsys q (WExecuted r rc) LFree) QvComplete (mk_qsys q' WIdle LFree).

Inductive qsys_run : list qev -> qsys -> Prop :=
  | qsys_init : qsys_run [] (mk_qsys [] WIdle LFree)
  | qsys_snoc tr s ev s' : qsys_run tr s -> qsys_step s ev s' -> qsys_run (tr ++ [ev]) s'.

(** A request that delays [prim] and has not been completed. *)
Definition pending (prim : Z) (s : qsys) : Prop :=
  exists r, p_requiresDelay r = true /\ p_delayedPrimitiveId r = prim /\ p_isDummyRequest r = false /\
    (Some r ∈ qq s \/ held_request (qw s) = Some r).

(** The shape of the queue: each SET that delays is followed by its dummy. *)
Inductive segments : prim_queue -> Prop :=
  | seg_nil : segments []
  | seg_null q : segments q -> segments (None :: q)
  | seg_plain r q : p_isDummyRequest r = false -> needs_dummy r = false -> segments q -> segments (Some r :: q)
  | seg_set r q : p_isDummyRequest r = false -> needs_dummy r = true -> segments q ->
      segments (Some r :: Some (as_dummy r) :: q).

Definition pending_dummy (l : holder) : prim_queue := match l with LDummy d => [Some d] | _ => [] end.

(** The nodes behind a walk do not delay its primitive. *)
Definition passed (prim : Z) (q : prim_queue) (n : nat) : Prop := forall i o, (i < n)%nat -> q !! i = Some o -> delays prim o = false.
Definition walk_inv (s : qsys) : Prop :=
  match qlock s with
  | LWalk prim (AtNode i looked) => (i < length (qq s))%nat /\ passed prim (qq s) (if looked then S i else i)
  | LWalk prim AtEnd => passed prim (qq s) (length (qq s))
  | _ => True
  end.

Definition qsys_inv (s : qsys) : Prop :=
  match held_request (qw s) with
  | Some r =>
      p_isDummyRequest r = false /\
      if needs_dummy r then exists q', qq s ++ pending_dummy (qlock s) = Some (as_dummy r) :: q' /\ segments q'
      else segments (qq s ++ pending_dummy (qlock s))
  | None => segments (qq s ++ pending_dummy (qlock s))
  end.

Lemma segments_app q1 q2 : segments q1 -> segments q2 -> segments (q1 ++ q2).
Proof. intros H1 H2. induction H1; simpl; [done|by apply seg_null|by apply seg_plain|by apply seg_set]. Qed.

Lemma enqueue_room r q : Z.of_nat (length q) + 1 <= ESIF_UF_ARBMGR_QUEUE_SIZE -> (enqueue true r q).2 = q ++ [Some r].
Proof. intros H. unfold enqueue, fifo_enqueue. by rewrite (proj2 (Z.ltb_lt _ _)) by lia. Qed.

Lemma segments_add r : p_isDummyRequest r = false ->
  segments ([Some r] ++ pending_dummy (if needs_dummy r then LDummy (as_dummy r) else LFree)).
Proof.
  intros Hd. destruct (needs_dummy r) eqn:E; simpl; [apply seg_set|apply seg_plain]; done || constructor.
Qed.

Lemma pull_inv q l w' q' :
  segments (q ++ pending_dummy l) -> worker_pull q = (w', q') -> qsys_inv (mk_qsys q' w' l).
Proof.
  intros Hs E. unfold worker_pull in E. destruct q as [|[r|] q]; simplify_eq/=; [done| |].
  - inversion Hs as [| |? ? Hd Hn Hs'|? ? Hd Hn Hs' Heq]; subst; rewrite Hd in E; simplify_eq;
      unfold qsys_inv; cbn [held_request qw qq qlock]; rewrite Hn; (split; [done|]); [done|]. by eexists.
  - unfold qsys_inv. simpl. by inversion Hs.
Qed.

Lemma requeue_same q d q' :
  Z.of_nat (length q) + 1 <= ESIF_UF_ARBMGR_QUEUE_SIZE -> fifo_dequeue q = (d, q') ->
  segments q -> segments (fifo_requeue ESIF_UF_ARBMGR_QUEUE_SIZE true d q').2.
Proof.
  intros Hl E Hs. unfold fifo_dequeue in E. injection E as <- <-. unfold fifo_requeue.
  assert (Hlt : Z.of_nat (length (tail q)) < ESIF_UF_ARBMGR_QUEUE_SIZE) by (destruct q; simpl in *; lia).
  rewrite (proj2 (Z.ltb_lt _ _) Hlt). destruct q; [by repeat constructor|exact Hs].
Qed.

Lemma complete_inv q r rc q' out :
  Z.of_nat (length q) + 1 <= ESIF_UF_ARBMGR_QUEUE_SIZE -> p_isDummyRequest r = false ->
  (if needs_dummy r then exists q1, q = Some (as_dummy r) :: q1 /\ segments q1 else segments q) ->
  worker_complete true r rc q = (q', out) -> segments q'.
Proof.
  intros Hl Hd Hs E. unfold worker_complete in E. destruct (fifo_dequeue q) as [d q1] eqn:Eq.
  destruct (needs_dummy r).
  - destruct Hs as (q2 & -> & Hs). unfold fifo_dequeue in Eq. injection Eq as <- <-. simpl in E.
    rewrite Z.eqb_refl in E. by simplify_eq.
  - assert (Hr := requeue_same q d q1 Hl Eq Hs). destruct d as [dr|]; [|by simplify_eq].
    destruct (p_isDummyRequest dr) eqn:Edr; simpl in E; [|by simplify_eq].
    exfalso. unfold fifo_dequeue in Eq. destruct q as [|o q]; simplify_eq/=.
    inversion Hs; subst; congruence.
Qed.

Lemma add_inv q w l r :
  qsys_inv (mk_qsys q w l) -> pending_dummy l = [] -> p_isDummyRequest r = false -> Z.of_nat (length q) + 1 <= ESIF_UF_ARBMGR_QUEUE_SIZE ->
  qsys_inv (mk_qsys (enqueue true r q).2 w (if needs_dummy r then LDummy (as_dummy r) else LFree)).
Proof.
  intros Hi El Hd Hl. unfold qsys_inv in *. cbn [qq qw qlock] in *. rewrite enqueue_room by lia. rewrite <- app_assoc.
  rewrite El, app_nil_r in Hi. pose proof (segments_add r Hd) as Ha.
  destruct (held_request w) as [h|]; [|by apply segments_app].
  destruct Hi as [Hh Hi]. split; [done|]. destruct (needs_dummy h); [|by apply segments_app].
  destruct Hi as (q' & -> & Hq'). exists (q' ++ [Some r] ++ pending_dummy (if needs_dummy r then LDummy (as_dummy r) else LFree)).
  split; [done|]. by apply segments_app.
Qed.
Lemma pulled_dummy q l : pending_dummy (walk_pulled q l) = pending_dummy l.
Proof. destruct q, l as [| |prim [[|i] looked| |]|]; done. Qed.
Lemma no_dummy_inv q w l l' : pending_dummy l = pending_dummy l' -> qsys_inv (mk_qsys q w l) -> qsys_inv (mk_qsys q w l').
Proof. unfold qsys_inv. cbn [qq qw qlock]. by intros ->. Qed.

Lemma qsys_step_inv s ev s' : qsys_inv s -> qsys_step s ev s' -> qsys_inv s'.
Proof.
  intros Hi Hs. destruct Hs as [q w r Hd Hl|q w d Hl|q w prim|q w prim i o Ho|q w prim i|q w prim|q w prim r Hd Hr Hp Hl|q l w' q' E|q l r rc|q r rc q' out Hl E].
  - by apply (add_inv q w LFree); [..|lia].
  - unfold qsys_inv in *. cbn [qq qw qlock pending_dummy] in *. by rewrite enqueue_room, app_nil_r by lia.
  - apply (no_dummy_inv q w LFree); [|done]. unfold node_at. by destruct (_ <? _)%nat.
  - apply (no_dummy_inv q w (LWalk prim (AtNode i false))); [by destruct (delays prim o)|done].
  - apply (no_dummy_inv q w (LWalk prim (AtNode i true))); [|done]. unfold node_at. by destruct (_ <? _)%nat.
  - by apply (no_dummy_inv q w (LWalk prim AtEnd)).
  - pose proof (add_inv q w (LDelay prim) r Hi eq_refl Hd Hl) as H. unfold needs_dummy in H. by rewrite Hr in H.
  - apply (no_dummy_inv q' w' l); [by rewrite pulled_dummy|]. by apply (pull_inv q).
  - done.
  - unfold qsys_inv in *. cbn [held_request qq qw qlock pending_dummy] in *. rewrite !app_nil_r in *.
    destruct Hi as [Hd Hi]. by eapply complete_inv.
Qed.

(** Pulls leave a walk where it is, on a node that is one place further to the front. *)
Lemma pull_tail q w q' : worker_pull q = (w, q') -> q' = tail q.
Proof. unfold worker_pull, fifo_dequeue. destruct q as [|[r|] q]; cbn [tail]; [by intros [= <- <-]| |by intros [= <- <-]]. by destruct (p_isDummyRequest r); intros [= <- <-]. Qed.
Lemma passed_tail prim o q n : passed prim (o :: q) (S n) -> passed prim q n.
Proof. intros H i x Hi Hx. apply (H (S i) x); [lia|done]. Qed.
Lemma walk_step_inv s ev s' : walk_inv s -> qsys_step s ev s' -> walk_inv s'.
Proof.
  intros Hi Hs. destruct Hs as [q w r Hd Hl|q w d Hl|q w prim|q w prim i o Ho|q w prim i|q w prim|q w prim r Hd Hr Hp Hl|q l w' q' E|q l r rc|q r rc q' out Hl E]; unfold walk_inv in *; cbn [qq qw qlock] in *; try done.
  - by destruct (needs_dummy r).
  - unfold node_at. destruct q as [|o q]; cbn; [intros i o Hi'; lia|]. split; [lia|]. intros i x Hi'. lia.
  - destruct Hi as [Hlt Hp]. destruct (delays prim o) eqn:Ed; [done|]. split; [done|]. intros j x Hj Hx. destruct (decide (j = i)) as [->|]; [by simplify_eq|]. apply (Hp j x); [lia|done].
  - destruct Hi as [Hlt Hp]. unfold node_at. destruct (Nat.ltb_spec (S i) (length q)); [done|]. by replace (length q) with (S i) by lia.
  - apply pull_tail in E as ->. destruct q as [|o q]; cbn [walk_pulled tail]; [done|]. destruct l as [| |prim [[|i] looked| |]|]; try done.
    + destruct Hi as [Hlt Hp]. cbn [length] in Hlt. split; [lia|]. destruct looked; by apply passed_tail in Hp.
    + by apply passed_tail in Hi.
Qed.

Lemma delays_passed prim q r : p_requiresDelay r = true -> p_delayedPrimitiveId r = prim -> Some r ∈ q -> ~ passed prim q (length q).
Proof.
  intros Hr Hp Hin H. apply list_elem_of_lookup in Hin as (i & Hi). specialize (H i _ (lookup_lt_Some _ _ _ Hi) Hi). cbn [delays] in H. by rewrite Hr, Hp, Z.eqb_refl in H.
Qed.

(** C13: A primitive never overtakes the SET that delays it.  In every interleaving of
    threads that queue requests, the worker that pulls, executes and completes them, and
    threads that walk over the queue to decide whether they may execute a primitive
    directly, node by node while the worker may pull, such a walk comes to its end only
    when no SET that delays the primitive is queued, pulled, or executed without being
    completed - even between the moment the worker takes the SET off the queue and the
    moment it is done.  This is so as long as the queue has room and there is memory for
    the requests and their dummies; a walk whose node the worker frees under it does not go
    on in the model ([walk_on_freed_node] is such a run). *)
Theorem get_never_overtakes_set (tr : list qev) (s s' : qsys) (prim : Z)
    (Hprim : prim <> 0) (Hrun : qsys_run tr s) (Hstep : qsys_step s (QvDirect prim) s') :
  ~ pending prim s.
Proof.
  assert (Hi : qsys_inv s /\ walk_inv s).
  { clear Hstep. induction Hrun as [|tr s0 ev s1 _ [IH1 IH2] Hs]; [by split; [constructor|]|]. split; [by eapply qsys_step_inv|by eapply walk_step_inv]. }
  destruct Hi as [Hi Hw]. intros (r & Hr & Hp & Hd & Hin). inversion Hstep; subst. unfold walk_inv in Hw. cbn [qq qw qlock] in *.
  destruct Hin as [Hin|Hin]; [by apply (delays_passed _ _ r) in Hw|].
  unfold qsys_inv in Hi. cbn [qq qw qlock pending_dummy] in Hi. rewrite Hin, app_nil_r in Hi.
  assert (Hn : needs_dummy r = true) by (unfold needs_dummy; by rewrite Hr, (proj2 (Z.eqb_neq _ _))).
  rewrite Hn in Hi. destruct Hi as (_ & q' & -> & _). revert Hw. by apply (delays_passed _ _ (as_dummy r)); [..|left].
Qed.

(** Without a pull a walk decides what [EsifArbMgr_MustDelayPrimitive_Locked] computes. *)
Lemma walk_alone prim q w : forall n i, (length q - i <= n)%nat -> passed prim q i ->
  rtc (fun s s' => exists ev, qsys_step s ev s') (mk_qsys q w (LWalk prim (node_at q i)))
    (mk_qsys q w (if EsifArbMgr_MustDelayPrimitive_Locked prim (drop i q) then LDelay prim else LWalk prim AtEnd)).
Proof.
  induction n as [|n IH]; intros i Hn Hp; unfold node_at; destruct (Nat.ltb_spec i (length q)) as [Hlt|Hge]; try lia; try (rewrite drop_ge by lia; apply rtc_refl).
  destruct (lookup_lt_is_Some_2 q i Hlt) as [o Ho]. rewrite (drop_S q o i Ho). eapply rtc_l; [eexists; by apply (qs_look q w prim i o)|].
  assert (Es : EsifArbMgr_MustDelayPrimitive_Locked prim (o :: drop (S i) q) = delays prim o || EsifArbMgr_MustDelayPrimitive_Locked prim (drop (S i) q)).
  { unfold EsifArbMgr_MustDelayPrimitive_Locked. destruct o as [r|]; cbn [must_delay_loop delays]; [|done]. by destruct (_ && _). }
  rewrite Es. destruct (delays prim o) eqn:Ed; [apply rtc_refl|]. eapply rtc_l; [eexists; by apply qs_next|]. apply IH; [lia|].
  intros j x Hj Hx. destruct (decide (j = i)) as [->|]; [by simplify_eq|]. apply (Hp j x); [lia|done].
Qed.

(** The requests that threads queue, those the worker executes, and those on
    the queue, dummies left out. *)
Definition added (tr : list qev) : list EsifArbPrimReq :=
  omap (fun ev => match ev with QvAdd r => Some r | _ => None end) tr.
Definition performed (tr : list qev) : list EsifArbPrimReq :=
  omap (fun ev => match ev with QvExecute r _ => Some r | _ => None end) tr.
Definition waiting (q : prim_queue) : list EsifArbPrimReq :=
  omap (fun o => match o with Some r => if p_isDummyRequest r then None else Some r | None => None end) q.
Definition pulled (w : worker) : list EsifArbPrimReq := match w with WPulled r => [r] | _ => [] end.

Lemma waiting_app q1 q2 : waiting (q1 ++ q2) = waiting q1 ++ waiting q2.
Proof. apply omap_app. Qed.

Lemma waiting_pull q w q' : worker_pull q = (w, q') -> waiting q = pulled w ++ waiting q'.
Proof.
  unfold worker_pull. destruct q as [|[r|] q]; intros E; simplify_eq/=; [done| |done].
  destruct (p_isDummyRequest r) eqn:Ed; simplify_eq/=; unfold waiting; simpl; by rewrite ?Ed.
Qed.

Lemma waiting_requeue q d q' :
  Z.of_nat (length q) + 1 <= ESIF_UF_ARBMGR_QUEUE_SIZE -> fifo_dequeue q = (d, q') ->
  waiting (fifo_requeue ESIF_UF_ARBMGR_QUEUE_SIZE true d q').2 = waiting q.
Proof.
  intros Hl E. unfold fifo_dequeue in E. injection E as <- <-. unfold fifo_requeue.
  assert (Hlt : Z.of_nat (length (tail q)) < ESIF_UF_ARBMGR_QUEUE_SIZE) by (destruct q; simpl in *; lia).
  rewrite (proj2 (Z.ltb_lt _ _) Hlt). by destruct q.
Qed.

Lemma waiting_complete q r rc q' out :
  Z.of_nat (length q) + 1 <= ESIF_UF_ARBMGR_QUEUE_SIZE -> worker_complete true r rc q = (q', out) ->
  waiting q' = waiting q.
Proof.
  intros Hl E. unfold worker_complete in E. destruct (fifo_dequeue q) as [d q1] eqn:Eq.
  pose proof (waiting_requeue q d q1 Hl Eq) as Hr. destruct d as [dr|]; [|by simplify_eq].
  destruct (p_isDummyRequest dr && _) eqn:Ed; [|by simplify_eq]. bool_to_prop. simplify_eq.
  unfold fifo_dequeue in Eq. destruct q as [|[x|] q]; simplify_eq/=. unfold waiting. simpl. by rewrite H.
Qed.

Lemma waiting_enqueue r q :
  Z.of_nat (length q) + 1 <= ESIF_UF_ARBMGR_QUEUE_SIZE ->
  waiting (enqueue true r q).2 = waiting q ++ waiting [Some r].
Proof. intros H. by rewrite enqueue_room, waiting_app by done. Qed.

(** The dummy that a thread has still to queue is one. *)
Definition lock_dummy (s : qsys) : Prop := forall d, qlock s = LDummy d -> p_isDummyRequest d = true.

Lemma lock_dummy_step s ev s' : lock_dummy s -> qsys_step s ev s' -> lock_dummy s'.
Proof.
  unfold lock_dummy. intros H Hs. destruct Hs; simpl in *; try done.
  - destruct (needs_dummy r); [|done]. by intros d [= <-].
  - by destruct (delays prim o).
  - intros d Hd. apply H. destruct q, l as [| |p [[|i] looked| |]|]; done.
Qed.

Lemma order_step tr s ev s' :
  lock_dummy s -> qsys_step s ev s' ->
  added tr = performed tr ++ pulled (qw s) ++ waiting (qq s) ->
  added (tr ++ [ev]) = performed (tr ++ [ev]) ++ pulled (qw s') ++ waiting (qq s').
Proof.
  intros Hd Hs E. unfold added, performed in *. rewrite !omap_app.
  destruct Hs as [q w r Hr Hl|q w d Hl|q w prim|q w prim i o Ho|q w prim i|q w prim|q w prim r Hr Hq Hp Hl|q l w' q' Ep|q l r rc|q r rc q' out Hl Ec];
    cbn [qq qw qlock omap list_omap pulled] in *; rewrite E, ?app_nil_r; try done.
  - rewrite waiting_enqueue by lia. unfold waiting at 3. simpl. rewrite Hr. by rewrite !app_assoc.
  - rewrite waiting_enqueue by lia. unfold waiting at 3. simpl. by rewrite (Hd d eq_refl), app_nil_r.
  - rewrite waiting_enqueue by lia. unfold waiting at 3. simpl. rewrite Hr. by rewrite !app_assoc.
  - simpl. by rewrite <- (waiting_pull _ _ _ Ep).
  - by rewrite <- !app_assoc.
  - by rewrite (waiting_complete _ _ _ _ _ Hl Ec).
Qed.

(** The worker loses no request and repeats none: in every interleaving
    with room on the queue, the requests queued so far are, in the order in
    which they were queued, the ones it has executed, followed by the one it
    has pulled, followed by those on the queue - although completing a
    request takes the head off the queue and puts it back. *)
Theorem worker_executes_in_order (tr : list qev) (s : qsys) (Hrun : qsys_run tr s) :
  added tr = performed tr ++ pulled (qw s) ++ waiting (qq s).
Proof.
  assert (H : lock_dummy s /\ added tr = performed tr ++ pulled (qw s) ++ waiting (qq s)); [|by destruct H].
  induction Hrun as [|tr s ev s' _ [Hd IH] Hs]; [done|].
  split; [by eapply lock_dummy_step|by eapply order_step].
Qed.

(** Queuing a request is the adding step, followed by the one for its dummy. *)
Lemma queue_request_steps m part prim dom inst d rsp ev st (delay : bool) q w :
  mem_ok m -> data_ok d -> Z.of_nat (length q) + 2 <= ESIF_UF_ARBMGR_QUEUE_SIZE ->
  exists r q',
    EsifArbMgr_QueuePrimitiveRequest_Locked m part prim dom inst (Some d) rsp ev st delay q = Some (ESIF_OK, q') /\
    (p_primitiveId r, p_completionEventPtr r, p_isDummyRequest r) = (prim, ev, false) /\
    if needs_dummy r then
      qsys_step (mk_qsys q w LFree) (QvAdd r) (mk_qsys (q ++ [Some r]) w (LDummy (as_dummy r))) /\
      qsys_step (mk_qsys (q ++ [Some r]) w (LDummy (as_dummy r))) QvAddDummy (mk_qsys q' w LFree)
    else qsys_step (mk_qsys q w LFree) (QvAdd r) (mk_qsys q' w LFree).
Proof.
  intros Hm Hd Hq. unfold EsifArbMgr_QueuePrimitiveRequest_Locked, EsifArbPrimReq_Create.
  pose proof (clone_of_spec _ Hd) as (Ec & _). rewrite (mo_prim _ Hm), (mo_pdata _ Hm), (mo_pbuf _ Hm), Ec.
  assert (Ed : (if delay then esif_primitive_type_set2get prim else Some 0) =
               Some (if delay then assoc_or_0 prim set2get_map else 0)) by (destruct delay; [apply set2get_total|done]).
  rewrite Ed, (mo_enq _ Hm), (mo_copy _ Hm), (mo_enq2 _ Hm).
  set (r := mk_EsifArbPrimReq _ _ _ _ _ _ _ _ _ _ _ _).
  destruct (enqueue true r q) as [rc1 q1] eqn:E1.
  assert (Eq1 : q1 = q ++ [Some r]) by (pose proof (enqueue_room r q ltac:(lia)) as H; by rewrite E1 in H).
  assert (rc1 = ESIF_OK) as ->.
  { revert E1. unfold enqueue, fifo_enqueue. rewrite (proj2 (Z.ltb_lt _ _)) by lia. cbn [andb]. congruence. }
  subst q1. pose proof (enqueue_room r q ltac:(lia)) as Eq.
  pose proof (qs_add q w r eq_refl Hq) as Hadd. rewrite Eq in Hadd. exists r.
  change (p_requiresDelay r && negb (p_delayedPrimitiveId r =? 0)) with (needs_dummy r).
  destruct (needs_dummy r); eexists; split_and!; try done.
  apply qs_add_dummy. rewrite length_app. simpl. lia.
Qed.

(* ------------------------------------------------------------------ *)
(** ** Routing a primitive *)

(** A participant with a context, found by its instance. *)
Definition found (s : mst) (part : Z) (i : nat) (c : EsifArbCtx) : Prop :=
  fst <$> list_find (fun u => up_instance u = part) (ups s) = Some i /\
  exists u, ups s !! i = Some u /\ up_arbitrationContext u = Some c.

Lemma unarbitrated_spec exec m waiter part prim dom inst d rsp s :
  mem_ok m -> data_ok d ->
  let x := mk_execution (Some part) (u16 prim) dom inst (Some d) in
  exists out s',
    EsifArbMgr_ExecuteUnarbitratedPrimitive exec m waiter part prim dom inst (Some d) rsp s = Some (out, s') /\
    ((out = Done (exec x) /\ executed s' = executed s ++ [x] /\ primitiveQueue s' = primitiveQueue s /\
      (mgr_enabled s = false \/ EsifArbMgr_MustDelayPrimitive_Locked prim (primitiveQueue s) = false)) \/
     (out = Waiting waiter /\ executed s' = executed s /\ mgr_enabled s = true /\
      EsifArbMgr_MustDelayPrimitive_Locked prim (primitiveQueue s) = true /\
      exists r, primitiveQueue s' = primitiveQueue s ++ [Some r] /\ p_primitiveId r = prim /\
        p_completionEventPtr r = Some waiter /\ p_isDummyRequest r = false) \/
     (out = Done (exec x) /\ executed s' = executed s ++ [x] /\
      ESIF_UF_ARBMGR_QUEUE_SIZE <= Z.of_nat (length (primitiveQueue s)))).
Proof.
  intros Hm Hd x. unfold EsifArbMgr_ExecuteUnarbitratedPrimitive, EsifUp_ExecutePrimitive, sget, sbind, sret.
  destruct (mgr_enabled s) eqn:Een; [|by eexists _, _; split; [done|]; left; auto].
  destruct (EsifArbMgr_MustDelayPrimitive_Locked prim (primitiveQueue s)) eqn:Edel;
    [|by eexists _, _; split; [done|]; left; auto].
  unfold on_pq, EsifArbMgr_QueuePrimitiveRequest_Locked, EsifArbPrimReq_Create.
  pose proof (clone_of_spec _ Hd) as (Ec & _). rewrite (mo_prim _ Hm), (mo_pdata _ Hm), (mo_pbuf _ Hm), Ec.
  cbn [p_requiresDelay andb]. unfold enqueue, fifo_enqueue. rewrite (mo_enq _ Hm). cbn [andb].
  destruct (Z.ltb_spec (Z.of_nat (length (primitiveQueue s))) ESIF_UF_ARBMGR_QUEUE_SIZE).
  - eexists _, _. split; [done|]. right; left. split_and!; try done. by eexists.
  - eexists _, _. split; [done|]. by right; right.
Qed.

Lemma ctx_inst_found dsp mem_ctx mem s part i c :
  found s part i c -> EsifArbMgr_CtxInst dsp mem_ctx mem i s = Some (true, s).
Proof. intros (_ & u & Hu & Hc). unfold EsifArbMgr_CtxInst, sget, sbind. by rewrite Hu, Hc. Qed.

Lemma on_ctx_found {T} (f : CM T) s part i c x k :
  found s part i c -> f (mk_cst (Some c) (primitiveQueue s)) = Some (x, k) ->
  exists us, on_ctx i f s = Some (x, mk_mst (mgr_enabled s) us (cqueue k) (executed s)).
Proof. intros (_ & u & Hu & Hc) E. unfold on_ctx. rewrite Hu, Hc, E. eauto. Qed.

(** Executing a primitive goes exactly one way.  For a participant with a
    context: when arbitration is on and the context accepts the request - it
    does exactly when its specification says so - the call succeeds and the
    participant is not touched, the queued winner being the worker's business;
    otherwise the primitive is executed on the participant, once, with its
    result as the call's result - or, when a queued SET delays it, put once on
    the queue with the caller waiting for its completion.  Only a full queue
    lets a primitive past the SET that delays it. *)
Theorem execute_primitive_routed (exec : execution -> Z) (dsp : dsp_lookup) (m : nat -> allocs)
    (mem_ctx : bool) (mem : nat -> bool * bool) (waiter : positive) (app part prim dom inst : Z) (d : EsifData)
    (rsp : ptr) (s : mst) (i : nat) (c : EsifArbCtx) (cs : ctx_spec)
    (Hfound : found s part i c) (Hctx : ctx_repr c part cs)
    (Hok : ctx_op_ok m (CtxExecute (prim, dom, inst) app d) (mk_cst (Some c) (primitiveQueue s))) :
  let x := mk_execution (Some part) (u16 prim) dom inst (Some d) in
  let arb := (ctx_spec_call (supported dsp part) (CtxExecute (prim, dom, inst) app d) cs).1 in
  exists out s' q,
    EsifArbMgr_ExecutePrimitive dsp exec (m 0%nat) mem_ctx mem waiter app part prim (Some dom) inst (Some d) rsp s =
      Some (out, s') /\
    if mgr_enabled s && (arb =? ESIF_OK) then out = Done ESIF_OK /\ executed s' = executed s
    else
      (out = Done (exec x) /\ executed s' = executed s ++ [x] /\
       (mgr_enabled s = false \/ EsifArbMgr_MustDelayPrimitive_Locked prim q = false \/
        ESIF_UF_ARBMGR_QUEUE_SIZE <= Z.of_nat (length q))) \/
      (out = Waiting waiter /\ executed s' = executed s /\ EsifArbMgr_MustDelayPrimitive_Locked prim q = true /\
       exists r, primitiveQueue s' = q ++ [Some r] /\ p_primitiveId r = prim /\
         p_completionEventPtr r = Some waiter /\ p_isDummyRequest r = false).
Proof.
  intros x arb. pose proof Hfound as (Hi & _). pose proof Hok as (c0 & _ & [Hm _] & Hd & _).
  unfold EsifArbMgr_ExecutePrimitive, EsifUpPm_GetAvailableParticipantByInstance. unfold sbind at 1. rewrite Hi.
  unfold sget at 1. unfold sbind at 1.
  assert (Hun : forall s1, mgr_enabled s1 = mgr_enabled s -> executed s1 = executed s ->
    exists out s' q,
      EsifArbMgr_ExecuteUnarbitratedPrimitive exec (m 0%nat) waiter part prim dom inst (Some d) rsp s1 = Some (out, s') /\
      ((out = Done (exec x) /\ executed s' = executed s ++ [x] /\
       (mgr_enabled s = false \/ EsifArbMgr_MustDelayPrimitive_Locked prim q = false \/
        ESIF_UF_ARBMGR_QUEUE_SIZE <= Z.of_nat (length q))) \/
      (out = Waiting waiter /\ executed s' = executed s /\ EsifArbMgr_MustDelayPrimitive_Locked prim q = true /\
       exists r, primitiveQueue s' = q ++ [Some r] /\ p_primitiveId r = prim /\
         p_completionEventPtr r = Some waiter /\ p_isDummyRequest r = false))).
  { intros s1 He Hx. destruct (unarbitrated_spec exec (m 0%nat) waiter part prim dom inst d rsp s1 (Hm 0%nat) Hd) as (out & s' & E & H).
    rewrite He, Hx in H. exists out, s', (primitiveQueue s1). split; [exact E|]. naive_solver. }
  destruct (mgr_enabled s) eqn:Een; cbn [andb].
  - destruct (execute_ctx_spec dsp m prim dom inst app d c part cs (primitiveQueue s) Hctx
      (fun i e He => ctx_op_entry_ok m _ c _ i e Hok He)) as (c' & q' & E & _).
    cbn [ctx_call] in E. fold arb in E.
    destruct (on_ctx_found _ s part i c _ _ Hfound E) as [us Eon].
    rewrite (sbind_some _ _ _ _ _ (eq_trans (sbind_some _ _ _ _ _ (ctx_inst_found dsp mem_ctx mem s part i c Hfound)) Eon)).
    destruct (arb =? ESIF_OK) eqn:Ea; cbn [negb].
    + eexists _, _, []. split; [done|]. bool_to_prop. by rewrite Ea.
    + apply Hun; done.
  - unfold sbind, sret. change (negb (ESIF_E_NOT_SUPPORTED =? ESIF_OK)) with true. cbn iota. by apply Hun.
Qed.

(* ------------------------------------------------------------------ *)
(** ** The theorems at work *)

Module MgrDemo.
(** A SET of the RAPL power limit, whose GET it delays, and a request that delays
    nothing. *)
Definition set_req : EsifArbPrimReq :=
  mk_EsifArbPrimReq 5 SET_RAPL_POWER_LIMIT 12356 0 None None None None false true
    (assoc_or_0 SET_RAPL_POWER_LIMIT set2get_map) false.
Definition get_rapl : Z := assoc_or_0 SET_RAPL_POWER_LIMIT set2get_map.
Definition plain_req : EsifArbPrimReq :=
  mk_EsifArbPrimReq 5 SET_TCC_OFFSET 12356 255 None None None None false false 0 false.

Definition mid : qsys := mk_qsys [Some (as_dummy set_req); Some plain_req] (WPulled set_req) LFree.
Definition last : qsys := mk_qsys [Some plain_req] WIdle LFree.
Definition tr_mid : list qev := [QvAdd set_req; QvAddDummy; QvPull; QvAdd plain_req].
Definition tr_last : list qev := tr_mid ++ [QvExecute set_req 0; QvComplete].
(** The GET's walk passes the first node, the worker pulls it, and the walk ends. *)
Definition tr_walk : list qev := tr_last ++ [QvWalk get_rapl; QvLook; QvNext; QvPull].
Definition walked : qsys := mk_qsys [] (WPulled plain_req) (LWalk get_rapl AtEnd).

Lemma run_queued : qsys_run [QvAdd set_req; QvAddDummy] (mk_qsys [Some set_req; Some (as_dummy set_req)] WIdle LFree).
Proof.
  apply (qsys_snoc [QvAdd set_req] (mk_qsys [Some set_req] WIdle (LDummy (as_dummy set_req)))).
  - apply (qsys_snoc [] (mk_qsys [] WIdle LFree)); [constructor|]. apply (qs_add [] WIdle set_req); [done|by vm_compute].
  - apply (qs_add_dummy [Some set_req]). by vm_compute.
Qed.
Lemma run_mid : qsys_run tr_mid mid.
Proof.
  apply (qsys_snoc [QvAdd set_req; QvAddDummy; QvPull] (mk_qsys [Some (as_dummy set_req)] (WPulled set_req) LFree)).
  - apply (qsys_snoc [QvAdd set_req; QvAddDummy] _ _ _ run_queued). by apply (qs_pull [Some set_req; Some (as_dummy set_req)] LFree).
  - apply (qs_add [Some (as_dummy set_req)] (WPulled set_req) plain_req); [done|by vm_compute].
Qed.

Lemma run_last : qsys_run tr_last last.
Proof.
  apply (qsys_snoc (tr_mid ++ [QvExecute set_req 0]) (mk_qsys (qq mid) (WExecuted set_req 0) LFree)).
  - apply (qsys_snoc tr_mid mid); [apply run_mid|]. apply qs_execute.
  - apply (qs_complete _ set_req 0 _ None); [by vm_compute|reflexivity].
Qed.
Lemma run_walk : qsys_run tr_walk walked.
Proof.
  apply (qsys_snoc (tr_last ++ [QvWalk get_rapl; QvLook; QvNext]) (mk_qsys [Some plain_req] WIdle (LWalk get_rapl AtEnd))).
  - apply (qsys_snoc (tr_last ++ [QvWalk get_rapl; QvLook]) (mk_qsys [Some plain_req] WIdle (LWalk get_rapl (AtNode 0 true)))).
    + apply (qsys_snoc (tr_last ++ [QvWalk get_rapl]) (mk_qsys [Some plain_req] WIdle (LWalk get_rapl (AtNode 0 false)))).
      * apply (qsys_snoc tr_last last); [apply run_last|]. apply (qs_walk [Some plain_req] WIdle get_rapl).
      * by apply (qs_look [Some plain_req] WIdle get_rapl 0 (Some plain_req)).
    + apply (qs_next [Some plain_req] WIdle get_rapl 0).
  - by apply (qs_pull [Some plain_req] (LWalk get_rapl AtEnd)).
Qed.

(** The worker takes the SET off the queue while the walk stands on its node: what the walk
    reads next has been freed. *)
Lemma walk_on_freed_node :
  qsys_run ([QvAdd set_req; QvAddDummy] ++ [QvWalk get_rapl] ++ [QvPull])
    (mk_qsys [Some (as_dummy set_req)] (WPulled set_req) (LWalk get_rapl AtFreed)).
Proof.
  apply (qsys_snoc [QvAdd set_req; QvAddDummy; QvWalk get_rapl] (mk_qsys [Some set_req; Some (as_dummy set_req)] WIdle (LWalk get_rapl (AtNode 0 false)))).
  - apply (qsys_snoc [QvAdd set_req; QvAddDummy] _ _ _ run_queued). apply (qs_walk [Some set_req; Some (as_dummy set_req)] WIdle get_rapl).
  - by apply (qs_pull [Some set_req; Some (as_dummy set_req)] (LWalk get_rapl (AtNode 0 false))).
Qed.

Definition ctx0 : EsifArbCtx :=
  match ctx CtxDemo.s0 with Some c => c | None => mk_EsifArbCtx false 0 [] 0 end.
Definition mgr : mst := mk_mst true [mk_EsifUp 5 false (Some 4) false (Some ctx0)] [] [].
Definition cs0 : ctx_spec := ctx_spec_init CtxDemo.dsp 5 false (Some 4) false.

Lemma ctx0_repr : ctx_repr ctx0 5 cs0.
Proof.
  destruct (ctx_create_spec CtxDemo.dsp 5 false (Some 4) false []) as (c & E & H).
  replace ctx0 with c; [exact H|]. unfold ctx0, CtxDemo.s0. by rewrite E.
Qed.

Lemma exec_ok : ctx_op_ok (CtxDemo.mem 1) CtxDemo.op1 (mk_cst (Some ctx0) []).
Proof.
  eexists. split; [reflexivity|]. split; [split; [intros; apply ArbDemo.mem_all|by vm_compute]|].
  split; [apply ArbDemo.data_fine; lia|]. exists 1%positive. split; [done|].
  intros [|i] e r He Hr; vm_compute in He; [|done]. injection He as <-. by apply elem_of_nil in Hr.
Qed.
End MgrDemo.

Lemma get_never_overtakes_set_witness :
  EsifArbMgr_MustDelayPrimitive_Locked MgrDemo.get_rapl (qq MgrDemo.mid) = true /\
  ~ pending MgrDemo.get_rapl MgrDemo.walked.
Proof.
  split; [reflexivity|].
  apply (get_never_overtakes_set MgrDemo.tr_walk MgrDemo.walked (mk_qsys [] (WPulled MgrDemo.plain_req) LFree) MgrDemo.get_rapl);
    [done|apply MgrDemo.run_walk|by apply qs_direct].
Defined.

Lemma worker_executes_in_order_witness :
  added MgrDemo.tr_mid = [] ++ [MgrDemo.set_req] ++ [MgrDemo.plain_req].
Proof. apply (worker_executes_in_order MgrDemo.tr_mid MgrDemo.mid MgrDemo.run_mid). Defined.

Lemma execute_primitive_routed_witness :
  (ctx_spec_call (supported CtxDemo.dsp 5) CtxDemo.op1 MgrDemo.cs0).1 = ESIF_OK /\
  exists out s' q,
    EsifArbMgr_ExecutePrimitive CtxDemo.dsp (fun _ => 0) (CtxDemo.mem 1 0%nat) true (fun _ => (true, true)) 9 7 5
      SET_FAN_LEVEL (Some ESIF_PRIMITIVE_DOMAIN_D0) 255 (Some (ArbDemo.u32_data 50)) None MgrDemo.mgr = Some (out, s') /\
    out = Done ESIF_OK /\ executed s' = executed MgrDemo.mgr /\ q = primitiveQueue MgrDemo.mgr.
Proof.
  split; [reflexivity|].
  destruct (execute_primitive_routed (fun _ => 0) CtxDemo.dsp (CtxDemo.mem 1) true (fun _ => (true, true)) 9 7 5
    SET_FAN_LEVEL ESIF_PRIMITIVE_DOMAIN_D0 255 (ArbDemo.u32_data 50) None MgrDemo.mgr 0 MgrDemo.ctx0 MgrDemo.cs0)
    as (out & s' & q & E & H).
  - split; [reflexivity|]. eexists. split; reflexivity.
  - apply MgrDemo.ctx0_repr.
  - apply MgrDemo.exec_ok.
  - exists out, s', []. split; [exact E|]. destruct H as [H1 H2]. by split.
Defined.
