(* ===== verification/Timer.v ===== *)
(** * Timers: Common/esif_ccb_timer.c and Common/esif_ccb_timer_lin_user.h

    The timer manager keeps a list of items, one per initialised timer.  A
    timer is known by its handle; each time it is set it gets a new callback
    handle, with which the operating system later calls back.  The callback
    function runs outside the manager's lock, so what the manager does to fire
    a timer is two critical sections, [esif_ccb_tmrm_callback_begin] and
    [esif_ccb_tmrm_callback_end]; every other operation is one.

    An item's list node is known by the item's handle.  Each operation takes
    the outcomes of the allocations and system calls it makes. *)

From S2P Require Import Prelude.
From stdpp Require Import list.
Local Open Scope Z_scope.
Local Open Scope dptf_scope.

Definition ESIF_CNT_HNDL_RETRIES_MAX : nat := 10000.

(** [os_timer] is the operating system's timer when it is armed: the callback
    handle it will present and its interval in nanoseconds. *)
Record esif_timer_obj : Type := mk_timer_obj {
  function_ptr : Z;
  set_is_pending : bool;
  pending_timeout : Z;
  obj_cb_handle : Z;
  os_timer : option (Z * Z)
}.

Record esif_tmrm_item : Type := mk_tmrm_item {
  timer_obj : esif_timer_obj;
  timer_handle : Z;
  timer_cb_handle : Z;
  is_in_cb : bool;
  item_marked : bool;
  destroy_list : list positive
}.

(** The manager, its two counters, and the events that have been set. *)
Record tmrm : Type := mk_tmrm {
  enabled : bool;
  marked_for_delete : bool;
  timer_list : option (list esif_tmrm_item);
  g_next_timer_handle : Z;
  g_next_timer_cb_handle : Z;
  events_set : list positive
}.

Abbreviation TM := (SM tmrm).

Definition with_list (l : option (list esif_tmrm_item)) (t : tmrm) : tmrm :=
  mk_tmrm (enabled t) (marked_for_delete t) l (g_next_timer_handle t) (g_next_timer_cb_handle t) (events_set t).
Definition with_enabled (b : bool) (t : tmrm) : tmrm :=
  mk_tmrm b (marked_for_delete t) (timer_list t) (g_next_timer_handle t) (g_next_timer_cb_handle t) (events_set t).
Definition with_marked (b : bool) (t : tmrm) : tmrm :=
  mk_tmrm (enabled t) b (timer_list t) (g_next_timer_handle t) (g_next_timer_cb_handle t) (events_set t).
Definition with_next (n : Z) (t : tmrm) : tmrm :=
  mk_tmrm (enabled t) (marked_for_delete t) (timer_list t) n (g_next_timer_cb_handle t) (events_set t).
Definition with_next_cb (n : Z) (t : tmrm) : tmrm :=
  mk_tmrm (enabled t) (marked_for_delete t) (timer_list t) (g_next_timer_handle t) n (events_set t).
Definition set_events (l : list positive) (t : tmrm) : tmrm :=
  mk_tmrm (enabled t) (marked_for_delete t) (timer_list t) (g_next_timer_handle t) (g_next_timer_cb_handle t)
    (events_set t ++ l).

(** The outcomes of arming the system timer: the callback object's allocation,
    timer_create and timer_settime. *)
Record os_ok : Type := mk_os_ok { os_mem : bool; os_create : bool; os_settime : bool }.

(* ------------------------------------------------------------------ *)
(** ** Timer objects *)

Definition esif_ccb_timer_obj_disable_timer (o : esif_timer_obj) : esif_timer_obj :=
  mk_timer_obj (function_ptr o) (set_is_pending o) (pending_timeout o) (obj_cb_handle o) None.

Definition esif_ccb_timer_obj_enable_timer (os : os_ok) (timeout : Z) (o : esif_timer_obj) : Z * esif_timer_obj :=
  let freq_nanosecs := u64 (timeout * 1000 * 1000) in
  let o := esif_ccb_timer_obj_disable_timer o in
  if os_mem os then
    if os_create os && os_settime os then
      (ESIF_OK, mk_timer_obj (function_ptr o) (set_is_pending o) (pending_timeout o) (obj_cb_handle o)
                  (Some (obj_cb_handle o, freq_nanosecs)))
    else (ESIF_E_UNSPECIFIED, o)
  else (ESIF_E_NO_MEMORY, o).

Definition esif_ccb_timer_obj_save_pending_timeout (timeout cb : Z) (o : esif_timer_obj) : esif_timer_obj :=
  mk_timer_obj (function_ptr o) true timeout cb (os_timer o).

Definition esif_ccb_timer_obj_set_pending_timeout (os : os_ok) (o : esif_timer_obj) : Z * esif_timer_obj :=
  if set_is_pending o then
    esif_ccb_timer_obj_enable_timer os (pending_timeout o)
      (mk_timer_obj (function_ptr o) false (pending_timeout o) (obj_cb_handle o) (os_timer o))
  else (ESIF_OK, o).

(* ------------------------------------------------------------------ *)
(** ** The list of items *)

Definition items (t : tmrm) : list esif_tmrm_item := match timer_list t with Some l => l | None => [] end.

Fixpoint find_node (p : esif_tmrm_item -> bool) (l : list esif_tmrm_item) : option esif_tmrm_item :=
  match l with
  | [] => None
  | i :: l' => if p i then Some i else find_node p l'
  end.
Definition esif_ccb_tmrm_find_timer_node_wlock (h : Z) (t : tmrm) : option esif_tmrm_item :=
  find_node (fun i => h =? timer_handle i) (items t).
Definition esif_ccb_tmrm_find_timer_node_by_cb_wlock (cb : Z) (t : tmrm) : option esif_tmrm_item :=
  find_node (fun i => cb =? timer_cb_handle i) (items t).

(** Writing to the item of the node [h], and removing the node. *)
Definition update_node (h : Z) (f : esif_tmrm_item -> esif_tmrm_item) (t : tmrm) : tmrm :=
  with_list (match timer_list t with
             | Some l => Some ((fun i => if h =? timer_handle i then f i else i) <$> l)
             | None => None
             end) t.
Definition remove_node (h : Z) (t : tmrm) : tmrm :=
  with_list (match timer_list t with
             | Some l => Some (filter (fun i => timer_handle i <> h) l)
             | None => None
             end) t.

Definition with_obj (o : esif_timer_obj) (i : esif_tmrm_item) : esif_tmrm_item :=
  mk_tmrm_item o (timer_handle i) (timer_cb_handle i) (is_in_cb i) (item_marked i) (destroy_list i).
Definition with_cb_handle (cb : Z) (i : esif_tmrm_item) : esif_tmrm_item :=
  mk_tmrm_item (timer_obj i) (timer_handle i) cb (is_in_cb i) (item_marked i) (destroy_list i).
Definition with_in_cb (b : bool) (i : esif_tmrm_item) : esif_tmrm_item :=
  mk_tmrm_item (timer_obj i) (timer_handle i) (timer_cb_handle i) b (item_marked i) (destroy_list i).
Definition mark_item (evs : list positive) (i : esif_tmrm_item) : esif_tmrm_item :=
  mk_tmrm_item (timer_obj i) (timer_handle i) (timer_cb_handle i) (is_in_cb i) true (destroy_list i ++ evs).

(** Destroying the item sets the events of its waiters; an emptied list is
    destroyed. *)
Definition esif_ccb_tmrm_destroy_timer_node_wlock (i : esif_tmrm_item) (t : tmrm) : tmrm :=
  let t := remove_node (timer_handle i) (set_events (destroy_list i) t) in
  match timer_list t with Some [] => with_list None t | _ => t end.

(* ------------------------------------------------------------------ *)
(** ** Operations *)

Definition esif_ccb_tmrm_init : TM Z := smodify (with_enabled true) ;! sret ESIF_OK.

Definition esif_ccb_tmrm_is_ready : TM Z :=
  let! t := sget in
  if marked_for_delete t then sret ESIF_E_UNSPECIFIED
  else if enabled t then sret ESIF_OK
  else esif_ccb_tmrm_init.

(** The rounds of the do-while: [tries] more are allowed after this one. *)
Fixpoint next_handle_loop (tries : nat) (t : tmrm) : option Z * tmrm :=
  let h := u32 (g_next_timer_handle t + 1) in
  let t := with_next h t in
  match esif_ccb_tmrm_find_timer_node_wlock h t with
  | None => (Some h, t)
  | Some _ => match tries with O => (None, t) | S tries' => next_handle_loop tries' t end
  end.
Definition esif_ccb_tmrm_get_next_handle : TM (option Z) :=
  fun t => Some (next_handle_loop (ESIF_CNT_HNDL_RETRIES_MAX - 1) t).

Definition esif_ccb_tmrm_get_next_cb_handle_wlock : TM Z :=
  let! t := sget in
  let n := u32 (g_next_timer_cb_handle t + 1) in
  let n := if 0 =? n then u32 (n + 1) else n in
  smodify (with_next_cb n) ;! sret n.

(** The outcomes of the allocations of [esif_ccb_timer_init]: the item, its
    list of waiters, the timer object, the manager's list, the list node. *)
Record init_mem : Type := mk_init_mem {
  mem_item : bool; mem_waiters : bool; mem_obj : bool; mem_list : bool; mem_node : bool
}.

Definition esif_ccb_tmrm_create_tmrm_item (m : init_mem) (func : Z) : TM (Z * option esif_tmrm_item) :=
  if mem_item m && mem_waiters m && mem_obj m then
    let! h := esif_ccb_tmrm_get_next_handle in
    match h with
    | Some h => sret (ESIF_OK, Some (mk_tmrm_item (mk_timer_obj func false 0 0 None) h 0 false false []))
    | None => sret (ESIF_E_UNSPECIFIED, None)
    end
  else sret (ESIF_E_NO_MEMORY, None).

(** [timer] is the timer's handle before the call, [func] the callback when
    there is one; the result carries the handle afterwards. *)
Definition esif_ccb_timer_init (m : init_mem) (timer : option Z) (func : option Z) : TM (Z * option Z) :=
  match timer, func with
  | Some _, Some f =>
      let! rc := esif_ccb_tmrm_is_ready in
      if negb (rc =? ESIF_OK) then sret (rc, timer) else
      let! r := esif_ccb_tmrm_create_tmrm_item m f in
      match r.2 with
      | None => sret (r.1, timer)
      | Some item =>
          let! t := sget in
          (match timer_list t with
           | None => if mem_list m then smodify (with_list (Some [])) else sret tt
           | Some _ => sret tt
           end) ;!
          let! t := sget in
          match timer_list t with
          | None => sret (ESIF_E_NO_MEMORY, Some (timer_handle item))
          | Some l =>
              if mem_node m then
                smodify (with_list (Some (l ++ [item]))) ;! sret (ESIF_OK, Some (timer_handle item))
              else sret (ESIF_E_NO_MEMORY, Some (timer_handle item))
          end
      end
  | _, _ => sret (ESIF_E_PARAMETER_IS_NULL, timer)
  end.

(** [mem] is the outcome of the waiter's list node. *)
Definition esif_ccb_timer_kill_w_event (mem : bool) (timer : option Z) (event : option positive) : TM Z :=
  let! rc := (match timer with
              | None => sret ESIF_E_PARAMETER_IS_NULL
              | Some h =>
                  let! t := sget in
                  if negb (enabled t) then sret ESIF_E_UNSPECIFIED else
                  match esif_ccb_tmrm_find_timer_node_wlock h t with
                  | None => sret ESIF_E_INVALID_HANDLE
                  | Some i =>
                      let i' := mark_item (match event with Some e => if mem then [e] else [] | None => [] end) i in
                      smodify (update_node h (fun _ => i')) ;!
                      (if negb (is_in_cb i) then smodify (esif_ccb_tmrm_destroy_timer_node_wlock i') else sret tt) ;!
                      sret ESIF_OK
                  end
              end) in
  (match event with
   | Some e => if negb (rc =? ESIF_OK) then smodify (set_events [e]) else sret tt
   | None => sret tt
   end) ;!
  sret rc.

Definition esif_ccb_timer_kill (timer : option Z) : TM Z := esif_ccb_timer_kill_w_event true timer None.

(** Up to the wait, which returns once [e] has been set. *)
Definition esif_ccb_timer_kill_w_wait (mem : bool) (e : positive) (timer : option Z) : TM Z :=
  esif_ccb_timer_kill_w_event mem timer (Some e).

Definition esif_ccb_timer_set_msec (os : os_ok) (timer : option Z) (timeout : Z) : TM Z :=
  match timer with
  | None => sret ESIF_E_PARAMETER_IS_NULL
  | Some h =>
      if 0 =? timeout then sret ESIF_E_REQUEST_DATA_OUT_OF_BOUNDS else
      let! t := sget in
      if negb (enabled t) then sret ESIF_E_UNSPECIFIED else
      match esif_ccb_tmrm_find_timer_node_wlock h t with
      | None => sret ESIF_E_INVALID_HANDLE
      | Some i =>
          if item_marked i then sret ESIF_E_INVALID_HANDLE else
          let! cb := esif_ccb_tmrm_get_next_cb_handle_wlock in
          let o := esif_ccb_timer_obj_save_pending_timeout timeout cb (timer_obj i) in
          let '(rc, o) := if negb (is_in_cb i) then esif_ccb_timer_obj_set_pending_timeout os o else (ESIF_OK, o) in
          smodify (update_node h (fun i => with_obj o (with_cb_handle cb i))) ;!
          sret rc
      end
  end.

(** Up to the call of the callback function: the item to call, if any. *)
Definition esif_ccb_tmrm_callback_begin (cb : Z) : TM (option esif_tmrm_item) :=
  let! t := sget in
  match esif_ccb_tmrm_find_timer_node_by_cb_wlock cb t with
  | None => sret None
  | Some i =>
      let i' := with_in_cb true (with_cb_handle 0 i) in
      smodify (update_node (timer_handle i) (fun _ => i')) ;! sret (Some i')
  end.

(** From the return of the callback function, with the node it kept. *)
Definition esif_ccb_tmrm_callback_end (os : os_ok) (h : Z) : TM unit :=
  let! t := sget in
  match esif_ccb_tmrm_find_timer_node_wlock h t with
  | None => ub
  | Some i =>
      let i' := with_in_cb false i in
      smodify (update_node h (fun _ => i')) ;!
      if item_marked i' then smodify (esif_ccb_tmrm_destroy_timer_node_wlock i')
      else smodify (update_node h (with_obj (esif_ccb_timer_obj_set_pending_timeout os (timer_obj i')).2))
  end.

(** Every timer is killed, each kill waiting for its event: [fuel] bounds the
    rounds; without outcome when a wait needs another thread to leave its
    callback. *)
Fixpoint kill_all (fuel : nat) (mem : bool) (e : positive) : TM unit :=
  match fuel with
  | O => ub
  | S fuel' =>
      let! t := sget in
      match items t with
      | [] => sret tt
      | i :: _ =>
          esif_ccb_timer_kill_w_wait mem e (Some (timer_handle i)) ;!
          let! t' := sget in
          if bool_decide (length (events_set t) < length (events_set t'))%nat then kill_all fuel' mem e else ub
      end
  end.
Definition esif_ccb_tmrm_exit (mem : bool) (e : positive) : TM unit :=
  let! t := sget in
  if negb (enabled t) then sret tt else
  smodify (with_marked true) ;!
  kill_all (S (length (items t))) mem e ;!
  smodify (with_enabled false) ;!
  smodify (with_marked false).

(* ------------------------------------------------------------------ *)
(** ** Items by handle *)

Abbreviation find_item := esif_ccb_tmrm_find_timer_node_wlock.

Lemma find_node_some p l i : find_node p l = Some i -> i ∈ l /\ p i = true.
Proof.
  induction l as [|j l IH]; simpl; [done|]. destruct (p j) eqn:E.
  - intros [= ->]. by split; [left|].
  - intros H. destruct (IH H). by split; [right|].
Qed.

Lemma find_item_handle h t i : find_item h t = Some i -> timer_handle i = h.
Proof. intros (_ & E)%find_node_some. bool_to_prop. done. Qed.

Lemma items_update h f t : items (update_node h f t) = (fun i => if h =? timer_handle i then f i else i) <$> items t.
Proof. unfold items, update_node, with_list. simpl. by destruct (timer_list t). Qed.
Lemma items_remove h t : items (remove_node h t) = filter (fun i => timer_handle i <> h) (items t).
Proof. unfold items, remove_node, with_list. simpl. by destruct (timer_list t). Qed.

Lemma find_update h h' f t :
  (forall i, timer_handle i = h' -> timer_handle (f i) = h') ->
  find_item h (update_node h' f t) = if h =? h' then f <$> find_item h t else find_item h t.
Proof.
  intros Hf. unfold esif_ccb_tmrm_find_timer_node_wlock. rewrite items_update.
  induction (items t) as [|i l IH]; simpl; [by destruct (h =? h')|].
  destruct (Z.eqb_spec h' (timer_handle i)) as [E|E].
  - rewrite Hf by done. rewrite <- E. destruct (Z.eqb_spec h h'); [done|]. exact IH.
  - destruct (Z.eqb_spec h (timer_handle i)); [|exact IH]. by rewrite (proj2 (Z.eqb_neq h h')) by lia.
Qed.

Lemma find_remove h h' t : find_item h (remove_node h' t) = if h =? h' then None else find_item h t.
Proof.
  unfold esif_ccb_tmrm_find_timer_node_wlock. rewrite items_remove.
  induction (items t) as [|i l IH]; [by destruct (h =? h')|]. rewrite filter_cons.
  destruct (decide (timer_handle i <> h')) as [E|E]; simpl.
  - destruct (Z.eqb_spec h (timer_handle i)); [|exact IH]. by rewrite (proj2 (Z.eqb_neq h h')) by lia.
  - rewrite IH. destruct (Z.eqb_spec h h'); [done|]. by rewrite (proj2 (Z.eqb_neq _ _)) by lia.
Qed.

Lemma items_destroy i t :
  items (esif_ccb_tmrm_destroy_timer_node_wlock i t) = filter (fun j => timer_handle j <> timer_handle i) (items t).
Proof.
  unfold esif_ccb_tmrm_destroy_timer_node_wlock.
  set (t1 := remove_node (timer_handle i) (set_events (destroy_list i) t)).
  assert (E : items t1 = filter (fun j => timer_handle j <> timer_handle i) (items t))
    by exact (items_remove (timer_handle i) (set_events (destroy_list i) t)).
  rewrite <- E. unfold items. destruct (timer_list t1) as [[|j l]|] eqn:El; [done|by rewrite El|by rewrite El].
Qed.

Lemma find_destroy h i t :
  find_item h (esif_ccb_tmrm_destroy_timer_node_wlock i t) = if h =? timer_handle i then None else find_item h t.
Proof.
  rewrite <- (find_remove h (timer_handle i) t). unfold esif_ccb_tmrm_find_timer_node_wlock.
  by rewrite items_destroy, items_remove.
Qed.

Lemma destroy_rest i t :
  let t' := esif_ccb_tmrm_destroy_timer_node_wlock i t in
  enabled t' = enabled t /\ marked_for_delete t' = marked_for_delete t /\
  g_next_timer_handle t' = g_next_timer_handle t /\ g_next_timer_cb_handle t' = g_next_timer_cb_handle t /\
  events_set t' = events_set t ++ destroy_list i.
Proof. unfold esif_ccb_tmrm_destroy_timer_node_wlock. simpl. destruct (timer_list t) as [l|]; [|done]. simpl. destruct (filter _ l); by split_and!. Qed.

Lemma find_app h l i t :
  find_item h (with_list (Some (l ++ [i])) t) =
  match find_item h (with_list (Some l) t) with
  | Some j => Some j
  | None => if h =? timer_handle i then Some i else None
  end.
Proof.
  unfold esif_ccb_tmrm_find_timer_node_wlock, items. simpl.
  induction l as [|j l IH]; simpl; [done|]. by destruct (h =? timer_handle j).
Qed.

Lemma find_by_cb_find cb t i :
  NoDup (timer_handle <$> items t) -> esif_ccb_tmrm_find_timer_node_by_cb_wlock cb t = Some i ->
  find_item (timer_handle i) t = Some i /\ timer_cb_handle i = cb.
Proof.
  intros Hn (Hin & E)%find_node_some. bool_to_prop. split; [|done].
  unfold esif_ccb_tmrm_find_timer_node_wlock. revert Hin Hn. clear. induction (items t) as [|j l IH]; [by intros ?%elem_of_nil|].
  rewrite elem_of_cons, fmap_cons, NoDup_cons. intros [->|Hin] [Hj Hn]; simpl; [by rewrite Z.eqb_refl|].
  rewrite (proj2 (Z.eqb_neq _ _)); [by apply IH|]. intros E. apply Hj. rewrite <- E. by apply list_elem_of_fmap_2.
Qed.

Lemma find_by_cb_none cb t h i :
  esif_ccb_tmrm_find_timer_node_by_cb_wlock cb t = None -> find_item h t = Some i -> timer_cb_handle i <> cb.
Proof.
  unfold esif_ccb_tmrm_find_timer_node_by_cb_wlock, esif_ccb_tmrm_find_timer_node_wlock.
  induction (items t) as [|j l IH]; simpl; [done|].
  destruct (Z.eqb_spec cb (timer_cb_handle j)); [done|]. destruct (h =? timer_handle j); [|done]. intros _ [= ->]. done.
Qed.

(* ------------------------------------------------------------------ *)
(** ** What each operation does to the items *)

(** The state apart from the items and the handle counter. *)
Definition same_rest (t t' : tmrm) : Prop :=
  g_next_timer_cb_handle t' = g_next_timer_cb_handle t /\ events_set t' = events_set t.

Lemma next_handle_spec n : forall t o t',
  next_handle_loop n t = (o, t') ->
  timer_list t' = timer_list t /\ enabled t' = enabled t /\ same_rest t t' /\
  forall h, o = Some h -> find_item h t = None.
Proof.
  induction n as [|n IH]; intros t o t'; cbn [next_handle_loop].
  - destruct (find_item _ _) eqn:E; intros [= <- <-]; (split_and!; try done). by intros h [= <-].
  - destruct (find_item _ _) eqn:E; [|intros [= <- <-]; (split_and!; try done); by intros h [= <-]].
    intros (H1 & H2 & H3 & H4)%IH. by split_and!.
Qed.

Definition new_item (f h : Z) : esif_tmrm_item := mk_tmrm_item (mk_timer_obj f false 0 0 None) h 0 false false [].

Lemma is_ready_spec t :
  esif_ccb_tmrm_is_ready t =
  Some (if marked_for_delete t then (ESIF_E_UNSPECIFIED, t)
        else (ESIF_OK, if enabled t then t else with_enabled true t)).
Proof.
  unfold esif_ccb_tmrm_is_ready, esif_ccb_tmrm_init, sbind, sget, sret, smodify.
  destruct (marked_for_delete t); [done|]. by destruct (enabled t).
Qed.

Lemma init_inv m x f t rc x' t' :
  esif_ccb_timer_init m (Some x) (Some f) t = Some ((rc, x'), t') ->
  same_rest t t' /\
  if rc =? ESIF_OK then exists h, x' = Some h /\ find_item h t = None /\ items t' = items t ++ [new_item f h]
  else items t' = items t.
Proof.
  unfold esif_ccb_timer_init, esif_ccb_tmrm_create_tmrm_item, esif_ccb_tmrm_get_next_handle.
  unfold sbind at 1. rewrite is_ready_spec. unfold sbind, sget, sret, smodify.
  destruct (marked_for_delete t) eqn:Em; [intros [= <- <- <-]; by split|].
  cbn [negb Z.eqb ESIF_OK]. set (t1 := if enabled t then t else with_enabled true t).
  assert (Hi : items t1 = items t /\ same_rest t t1 /\ forall h, find_item h t1 = find_item h t)
    by (unfold t1; by destruct (enabled t)).
  destruct Hi as (Hi & Hr & Hfi). clearbody t1.
  destruct (mem_item m && mem_waiters m && mem_obj m); [|intros [= <- <- <-]; by split].
  destruct (next_handle_loop _ t1) as [o t2] eqn:En. apply next_handle_spec in En as (Hl & He & Hs & Hf).
  assert (Hi2 : items t2 = items t) by (rewrite <- Hi; unfold items; by rewrite Hl).
  assert (Hr2 : same_rest t t2) by (destruct Hr, Hs; split; congruence).
  destruct o as [h|]; cbn [snd fst]; [|intros [= <- <- <-]; by split].
  specialize (Hf h eq_refl). rewrite Hfi in Hf. cbn [timer_handle].
  unfold items in Hi2. destruct (timer_list t2) as [l|] eqn:El.
  - rewrite El. destruct (mem_node m); intros [= <- <- <-]; (split; [done|]); cbn [Z.eqb ESIF_OK ESIF_E_NO_MEMORY].
    + exists h. by rewrite Hi2.
    + unfold items at 1. by rewrite El.
  - assert (Hnil : items t = []) by done. rewrite Hnil.
    destruct (mem_list m); cbn [timer_list with_list]; rewrite ?El; [|intros [= <- <- <-]; split; [done|]; unfold items; simpl; by rewrite El].
    destruct (mem_node m); intros [= <- <- <-]; (split; [done|]); simpl; [by exists h|done].
Qed.

Lemma set_inv os h n t rc t' :
  esif_ccb_timer_set_msec os (Some h) n t = Some (rc, t') ->
  events_set t' = events_set t /\
  (t' = t \/
   exists i, find_item h t = Some i /\ item_marked i = false /\
     let cb := let c := u32 (g_next_timer_cb_handle t + 1) in if 0 =? c then u32 (c + 1) else c in
     let o := esif_ccb_timer_obj_save_pending_timeout n cb (timer_obj i) in
     let r := if negb (is_in_cb i) then esif_ccb_timer_obj_set_pending_timeout os o else (ESIF_OK, o) in
     rc = r.1 /\ t' = update_node h (fun i => with_obj r.2 (with_cb_handle cb i)) (with_next_cb cb t)).
Proof.
  unfold esif_ccb_timer_set_msec, sbind, sget, sret, smodify. destruct (0 =? n); [intros [= <- <-]; auto|].
  destruct (enabled t); cbn [negb]; [|intros [= <- <-]; auto].
  destruct (find_item h t) as [i|]; [|intros [= <- <-]; auto]. destruct (item_marked i) eqn:Em; [intros [= <- <-]; auto|].
  unfold esif_ccb_tmrm_get_next_cb_handle_wlock, sbind, sget, sret, smodify.
  destruct (if negb (is_in_cb i) then _ else _) as [rc' o] eqn:Eo. intros [= <- <-]. split; [done|]. right.
  exists i. split; [done|split; [done|]]. by rewrite Eo.
Qed.

Lemma kill_inv mem h oe t rc t' :
  esif_ccb_timer_kill_w_event mem (Some h) oe t = Some (rc, t') ->
  g_next_timer_cb_handle t' = g_next_timer_cb_handle t /\
  match (if enabled t then find_item h t else None) with
  | Some i =>
      let i' := mark_item (match oe with Some e => if mem then [e] else [] | None => [] end) i in
      rc = ESIF_OK /\
      if is_in_cb i then t' = update_node h (fun _ => i') t
      else t' = esif_ccb_tmrm_destroy_timer_node_wlock i' (update_node h (fun _ => i') t)
  | None => rc <> ESIF_OK /\ t' = match oe with Some e => set_events [e] t | None => t end
  end.
Proof.
  unfold esif_ccb_timer_kill_w_event, sbind, sget, sret, smodify. destruct (enabled t); cbn [negb].
  2:{ destruct oe; intros [= <- <-]; by split_and!. }
  destruct (find_item h t) as [i|] eqn:Ei.
  - destruct (is_in_cb i); cbn [negb]; rewrite Z.eqb_refl; cbn [negb]; destruct oe; intros [= <- <-];
      (split; [|done]); rewrite ?(proj1 (proj2 (proj2 (proj2 (destroy_rest _ _))))); done.
  - destruct oe; intros [= <- <-]; by split_and!.
Qed.

Lemma end_inv os h t t' :
  esif_ccb_tmrm_callback_end os h t = Some (tt, t') ->
  exists i, find_item h t = Some i /\
    let i' := with_in_cb false i in
    if item_marked i then t' = esif_ccb_tmrm_destroy_timer_node_wlock i' (update_node h (fun _ => i') t)
    else t' = update_node h (with_obj (esif_ccb_timer_obj_set_pending_timeout os (timer_obj i)).2)
                (update_node h (fun _ => i') t).
Proof.
  unfold esif_ccb_tmrm_callback_end, sbind, sget, smodify. destruct (find_item h t) as [i|]; [|done].
  change (item_marked (with_in_cb false i)) with (item_marked i). intros E. exists i. split; [done|].
  destruct (item_marked i); by simplify_eq.
Qed.

(* ------------------------------------------------------------------ *)
(** ** The manager with its threads and the operating system

    [running] are the timers whose callback function is being run; [armed] is
    every callback handle that the operating system has been given, any of
    which it may present at any time: cancelling does not take it back. *)

Record tsys : Type := mk_tsys { tm : tmrm; running : list Z; armed : list Z }.

Definition os_handles (t : tmrm) : list Z := omap (fun i => fst <$> os_timer (timer_obj i)) (items t).

Definition after (s : tsys) (t : tmrm) (r : list Z) : tsys := mk_tsys t r (armed s ++ os_handles t).

Inductive tev : Type :=
  | TvInit (h : option Z)
  | TvSet (h : Z) (cb : option Z)
  | TvKill (h : Z) (oe : option positive)
  | TvFire (cb : Z) (h : option Z)
  | TvEnd (h : Z).

Inductive tsys_step (s : tsys) : tev -> tsys -> Prop :=
  | ts_init m x f rc x' t' :
      esif_ccb_timer_init m (Some x) (Some f) (tm s) = Some ((rc, x'), t') ->
      tsys_step s (TvInit (if rc =? ESIF_OK then x' else None)) (after s t' (running s))
  | ts_set os h n rc t' :
      g_next_timer_cb_handle (tm s) + 1 < 2 ^ 32 ->
      esif_ccb_timer_set_msec os (Some h) n (tm s) = Some (rc, t') ->
      tsys_step s (TvSet h (if g_next_timer_cb_handle t' =? g_next_timer_cb_handle (tm s) then None
                            else Some (g_next_timer_cb_handle t')))
        (after s t' (running s))
  | ts_kill mem h oe rc t' :
      esif_ccb_timer_kill_w_event mem (Some h) oe (tm s) = Some (rc, t') ->
      tsys_step s (TvKill h oe) (after s t' (running s))
  | ts_fire cb r t' :
      cb ∈ armed s -> esif_ccb_tmrm_callback_begin cb (tm s) = Some (r, t') ->
      tsys_step s (TvFire cb (timer_handle <$> r))
        (after s t' (match r with Some i => timer_handle i :: running s | None => running s end))
  | ts_end os h t' :
      h ∈ running s -> esif_ccb_tmrm_callback_end os h (tm s) = Some (tt, t') ->
      tsys_step s (TvEnd h) (after s t' (filter (fun h' => h' <> h) (running s))).

Inductive tsys_run : list tev -> tsys -> Prop :=
  | tsys_start : tsys_run [] (mk_tsys (mk_tmrm false false None 0 0 []) [] [])
  | tsys_snoc tr s ev s' : tsys_run tr s -> tsys_step s ev s' -> tsys_run (tr ++ [ev]) s'.

(** The callback handle of the last setting of a timer that neither a kill nor
    a callback has consumed. *)
Definition pending_set (tr : list tev) (h : Z) : option Z :=
  fold_left (fun p ev =>
    match ev with
    | TvInit (Some h') => if h' =? h then None else p
    | TvSet h' (Some cb) => if h' =? h then Some cb else p
    | TvKill h' _ => if h' =? h then None else p
    | TvFire _ (Some h') => if h' =? h then None else p
    | _ => p
    end) tr None.

(** What one item satisfies; [n] is the counter of callback handles. *)
Record item_ok (n : Z) (arm : list Z) (i : esif_tmrm_item) : Prop := {
  io_cb : 0 <= timer_cb_handle i <= n;
  io_marked : item_marked i = true -> is_in_cb i = true;
  io_in_cb : is_in_cb i = true -> timer_cb_handle i ∉ arm;
  io_pending : set_is_pending (timer_obj i) = true ->
    is_in_cb i = true /\ obj_cb_handle (timer_obj i) = timer_cb_handle i /\ timer_cb_handle i <> 0
}.

Definition item_pending (o : option esif_tmrm_item) : option Z :=
  match o with
  | Some i => if item_marked i || (timer_cb_handle i =? 0) then None else Some (timer_cb_handle i)
  | None => None
  end.

Record tinv (tr : list tev) (s : tsys) : Prop := {
  ti_nodup : NoDup (timer_handle <$> items (tm s));
  ti_running_nodup : NoDup (running s);
  ti_running : forall h, h ∈ running s <-> exists i, find_item h (tm s) = Some i /\ is_in_cb i = true;
  ti_items : forall h i, find_item h (tm s) = Some i -> item_ok (g_next_timer_cb_handle (tm s)) (armed s) i;
  ti_cbs : forall h1 h2 i1 i2, find_item h1 (tm s) = Some i1 -> find_item h2 (tm s) = Some i2 ->
    timer_cb_handle i1 = timer_cb_handle i2 -> timer_cb_handle i1 <> 0 -> h1 = h2;
  ti_armed : forall cb, cb ∈ armed s -> 0 < cb <= g_next_timer_cb_handle (tm s);
  ti_counter : 0 <= g_next_timer_cb_handle (tm s) < 2 ^ 32;
  ti_os : forall cb, cb ∈ os_handles (tm s) -> cb ∈ armed s;
  ti_pending : forall h, pending_set tr h = item_pending (find_item h (tm s))
}.

Lemma os_handles_elem cb t :
  cb ∈ os_handles t <-> exists i n, i ∈ items t /\ os_timer (timer_obj i) = Some (cb, n).
Proof.
  unfold os_handles. rewrite list_elem_of_omap. split.
  - intros (i & Hi & E). destruct (os_timer (timer_obj i)) as [[c n]|] eqn:Eo; simplify_eq/=. eauto.
  - intros (i & n & Hi & E). exists i. by rewrite E.
Qed.

Lemma elem_find t i : NoDup (timer_handle <$> items t) -> i ∈ items t -> find_item (timer_handle i) t = Some i.
Proof.
  unfold esif_ccb_tmrm_find_timer_node_wlock. induction (items t) as [|j l IH]; [by intros _ ?%elem_of_nil|].
  rewrite fmap_cons, NoDup_cons, elem_of_cons. intros [Hj Hn] [->|Hin]; simpl; [by rewrite Z.eqb_refl|].
  rewrite (proj2 (Z.eqb_neq _ _)); [by apply IH|]. intros E. apply Hj. rewrite <- E. by apply list_elem_of_fmap_2.
Qed.

Lemma find_elem h t i : find_item h t = Some i -> i ∈ items t.
Proof. by intros (? & _)%find_node_some. Qed.

Lemma os_handles_find cb t : NoDup (timer_handle <$> items t) ->
  cb ∈ os_handles t <-> exists h i n, find_item h t = Some i /\ os_timer (timer_obj i) = Some (cb, n).
Proof.
  intros Hn. rewrite os_handles_elem. split.
  - intros (i & n & Hi & E). exists (timer_handle i), i, n. split; [by apply elem_find|done].
  - intros (h & i & n & Hi & E). exists i, n. split; [by eapply find_elem|done].
Qed.

Lemma tinv_same tr s ev t' :
  tinv tr s -> items t' = items (tm s) -> g_next_timer_cb_handle t' = g_next_timer_cb_handle (tm s) ->
  (forall h, pending_set (tr ++ [ev]) h = pending_set tr h) ->
  tinv (tr ++ [ev]) (after s t' (running s)).
Proof.
  intros Hi Ei Ec Hp. assert (Ef : forall h, find_item h t' = find_item h (tm s))
    by (intros h; unfold esif_ccb_tmrm_find_timer_node_wlock; by rewrite Ei).
  assert (Eo : os_handles t' = os_handles (tm s)) by (unfold os_handles; by rewrite Ei).
  assert (Ea : forall cb, cb ∈ armed s ++ os_handles t' <-> cb ∈ armed s).
  { intros cb. rewrite elem_of_app, Eo. split; [intros [?|?]|auto]; [done|by apply (ti_os _ _ Hi)]. }
  split; cbn [tm running armed after]; rewrite ?Ei, ?Ec.
  - apply Hi.
  - apply Hi.
  - intros h. rewrite Ef. apply Hi.
  - intros h i. rewrite Ef. intros E. destruct (ti_items _ _ Hi h i E) as [H1 H2 H3 H4]. split; try done.
    rewrite Ea. done.
  - intros h1 h2 i1 i2. rewrite !Ef. apply Hi.
  - intros cb. rewrite Ea. apply Hi.
  - apply Hi.
  - intros cb H. rewrite elem_of_app. by right.
  - intros h. rewrite Hp, Ef. apply Hi.
Qed.

(** A step that changes, adds or removes the one item [h]. *)
Lemma tinv_update tr s ev t' r' h (o' : option esif_tmrm_item) :
  tinv tr s -> NoDup (timer_handle <$> items t') ->
  (forall k, find_item k t' = if k =? h then o' else find_item k (tm s)) ->
  g_next_timer_cb_handle (tm s) <= g_next_timer_cb_handle t' < 2 ^ 32 ->
  NoDup r' -> (forall k, k <> h -> k ∈ r' <-> k ∈ running s) ->
  (h ∈ r' <-> exists i, o' = Some i /\ is_in_cb i = true) ->
  (forall i, o' = Some i -> item_ok (g_next_timer_cb_handle t') (armed s) i /\
     (forall c n, os_timer (timer_obj i) = Some (c, n) ->
        c ∈ armed s \/ (c = timer_cb_handle i /\ c <> 0 /\ is_in_cb i = false)) /\
     (timer_cb_handle i = 0 \/ g_next_timer_cb_handle (tm s) < timer_cb_handle i \/
      exists i0, find_item h (tm s) = Some i0 /\ timer_cb_handle i = timer_cb_handle i0)) ->
  (forall k, pending_set (tr ++ [ev]) k = if k =? h then item_pending o' else pending_set tr k) ->
  tinv (tr ++ [ev]) (after s t' r').
Proof.
  intros Hi Hn Hf Hc Hr Hrk Hrh Ho Hp.
  assert (Hcbs : forall h1 h2 i1 i2, find_item h1 t' = Some i1 -> find_item h2 t' = Some i2 ->
    timer_cb_handle i1 = timer_cb_handle i2 -> timer_cb_handle i1 <> 0 -> h1 = h2).
  { assert (Haux : forall k i j, k <> h -> o' = Some i -> find_item k (tm s) = Some j ->
      timer_cb_handle i = timer_cb_handle j -> timer_cb_handle i <> 0 -> False).
    { intros k i j Hk Hi' Hj E Hz. destruct (Ho i Hi') as (_ & _ & [?|[Hgt|(i0 & Hi0 & E0)]]); [done| |].
      - destruct (ti_items _ _ Hi k j Hj) as [[_ ?] _ _ _]. lia.
      - apply Hk. apply (ti_cbs _ _ Hi k h j i0 Hj Hi0); congruence. }
    intros h1 h2 i1 i2. rewrite !Hf. intros H1 H2 E Hz.
    destruct (Z.eqb_spec h1 h) as [->|Hn1], (Z.eqb_spec h2 h) as [->|Hn2]; [done| | |].
    - by destruct (Haux h2 i1 i2).
    - destruct (Haux h1 i2 i1); congruence.
    - by apply (ti_cbs _ _ Hi h1 h2 i1 i2). }
  assert (Hos : forall c, c ∈ os_handles t' -> c ∈ armed s \/
    exists i, o' = Some i /\ c = timer_cb_handle i /\ c <> 0 /\ is_in_cb i = false).
  { intros c. rewrite (os_handles_find c t' Hn). intros (k & i & n & Hk & E). rewrite Hf in Hk.
    destruct (k =? h).
    - destruct (Ho i Hk) as (_ & H & _). destruct (H c n E) as [?|(? & ? & ?)]; [by left|]. right. by exists i.
    - left. apply (ti_os _ _ Hi). apply (os_handles_find c _ (ti_nodup _ _ Hi)). eauto. }
  assert (Hok : forall k i, find_item k t' = Some i -> item_ok (g_next_timer_cb_handle t') (armed s) i).
  { intros k i. rewrite Hf. destruct (k =? h); [intros E; by apply Ho|]. intros E.
    destruct (ti_items _ _ Hi k i E) as [H1 H2 H3 H4]. split; try done. lia. }
  split; cbn [tm running armed after]; try done.
  - intros k. rewrite Hf. destruct (Z.eqb_spec k h) as [->|Hk]; [done|]. rewrite Hrk by done. apply Hi.
  - intros k i E. destruct (Hok k i E) as [H1 H2 H3 H4]. split; try done.
    rewrite elem_of_app. intros Hcb [?|Hin]; [by apply H3|].
    destruct (Hos _ Hin) as [?|(i' & Ei' & E1 & E2 & E3)]; [by apply H3|].
    assert (k = h); [|subst k; rewrite Hf, Z.eqb_refl in E; congruence].
    apply (Hcbs k h i i'); [done|by rewrite Hf, Z.eqb_refl|done|done].
  - intros c [Hin|Hin]%elem_of_app; [pose proof (ti_armed _ _ Hi c Hin); lia|].
    destruct (Hos c Hin) as [Ha|(i & Ei & -> & Hz & _)]; [pose proof (ti_armed _ _ Hi c Ha); lia|].
    destruct (Ho i Ei) as ([H1 _ _ _] & _). lia.
  - pose proof (ti_counter _ _ Hi). lia.
  - intros c Hin. apply elem_of_app. by right.
  - intros k. rewrite Hp, Hf. destruct (k =? h); [done|]. apply Hi.
Qed.

Lemma pending_set_snoc tr ev h :
  pending_set (tr ++ [ev]) h =
  match ev with
  | TvInit (Some h') => if h' =? h then None else pending_set tr h
  | TvSet h' (Some cb) => if h' =? h then Some cb else pending_set tr h
  | TvKill h' _ => if h' =? h then None else pending_set tr h
  | TvFire _ (Some h') => if h' =? h then None else pending_set tr h
  | _ => pending_set tr h
  end.
Proof. unfold pending_set. rewrite fold_left_app. done. Qed.

Lemma handles_update h f t : (forall i, timer_handle i = h -> timer_handle (f i) = h) ->
  timer_handle <$> items (update_node h f t) = timer_handle <$> items t.
Proof.
  intros Hf. rewrite items_update. induction (items t) as [|i l IH]; [done|]. rewrite !fmap_cons, IH.
  destruct (Z.eqb_spec h (timer_handle i)) as [E|E]; [|done].
  rewrite (Hf i) by done. by rewrite E.
Qed.

Lemma handles_destroy i t : NoDup (timer_handle <$> items t) ->
  NoDup (timer_handle <$> items (esif_ccb_tmrm_destroy_timer_node_wlock i t)).
Proof.
  rewrite items_destroy. intros H. eapply sublist_NoDup; [exact H|]. apply fmap_sublist, sublist_filter.
Qed.

(** The commonest case: the item [h] is there and [t'] updates it. *)
Lemma tinv_update_node tr s ev h f i t0 t' r' :
  tinv tr s -> find_item h (tm s) = Some i -> (forall j, timer_handle j = h -> timer_handle (f j) = h) ->
  t' = update_node h f t0 -> items t0 = items (tm s) ->
  g_next_timer_cb_handle (tm s) <= g_next_timer_cb_handle t0 < 2 ^ 32 ->
  NoDup r' -> (forall k, k <> h -> k ∈ r' <-> k ∈ running s) -> (h ∈ r' <-> is_in_cb (f i) = true) ->
  item_ok (g_next_timer_cb_handle t0) (armed s) (f i) ->
  (forall c n, os_timer (timer_obj (f i)) = Some (c, n) ->
     c ∈ armed s \/ (c = timer_cb_handle (f i) /\ c <> 0 /\ is_in_cb (f i) = false)) ->
  (timer_cb_handle (f i) = 0 \/ g_next_timer_cb_handle (tm s) < timer_cb_handle (f i) \/
   timer_cb_handle (f i) = timer_cb_handle i) ->
  (forall k, pending_set (tr ++ [ev]) k = if k =? h then item_pending (Some (f i)) else pending_set tr k) ->
  tinv (tr ++ [ev]) (after s t' r').
Proof.
  intros Hi Ei Hf -> E0 Hc Hr Hrk Hrh Hok Hos Hcb Hp. apply (tinv_update tr s ev _ r' h (Some (f i))); try done.
  - rewrite handles_update by done. rewrite E0. apply Hi.
  - intros k. rewrite find_update by done.
    assert (E : find_item k t0 = find_item k (tm s)) by (unfold esif_ccb_tmrm_find_timer_node_wlock; by rewrite E0).
    rewrite E. destruct (Z.eqb_spec k h) as [->|]; [by rewrite Ei|done].
  - rewrite Hrh. split; [by exists (f i)|]. by intros (j & [= <-] & ?).
  - intros j [= <-]. split; [done|split; [done|]]. destruct Hcb as [?|[?|?]]; [auto|auto|]. right; right. by exists i.
Qed.

Lemma tinv_not_running tr s h i : tinv tr s -> find_item h (tm s) = Some i -> (h ∈ running s <-> is_in_cb i = true).
Proof. intros Hi E. rewrite (ti_running _ _ Hi). split; [intros (j & ? & ?); congruence|eauto]. Qed.

Lemma init_step tr s m x f rc x' t' :
  tinv tr s -> esif_ccb_timer_init m (Some x) (Some f) (tm s) = Some ((rc, x'), t') ->
  tinv (tr ++ [TvInit (if rc =? ESIF_OK then x' else None)]) (after s t' (running s)).
Proof.
  intros Hi ((Hc & _) & E)%init_inv. destruct (rc =? ESIF_OK); cycle 1.
  { apply tinv_same; try done. intros h. by rewrite pending_set_snoc. }
  destruct E as (h & -> & Hn & E).
  assert (Hh : h ∉ timer_handle <$> items (tm s)).
  { intros (i & E1 & Hin)%list_elem_of_fmap. pose proof (elem_find _ i (ti_nodup _ _ Hi) Hin). congruence. }
  apply (tinv_update tr s _ t' (running s) h (Some (new_item f h))); try done.
  - rewrite E, fmap_app. apply NoDup_app. split; [apply Hi|]. split; [|apply NoDup_singleton].
    intros k Hk [->|?%elem_of_nil]%elem_of_cons; done.
  - intros k. unfold esif_ccb_tmrm_find_timer_node_wlock in *. rewrite E.
    destruct (Z.eqb_spec k h) as [->|Hk].
    + clear E Hh. induction (items (tm s)) as [|j l IH]; simpl in *; [by rewrite Z.eqb_refl|].
      destruct (h =? timer_handle j); [done|]. by apply IH.
    + clear E Hh Hn. induction (items (tm s)) as [|j l IH]; simpl; [by rewrite (proj2 (Z.eqb_neq k h))|].
      by destruct (k =? timer_handle j).
  - pose proof (ti_counter _ _ Hi). lia.
  - apply Hi.
  - rewrite (ti_running _ _ Hi). split; [intros (i & ? & ?); congruence|]. by intros (i & [= <-] & ?).
  - intros i [= <-]. split; [|split; [done|by left]]. split; simpl; try done. pose proof (ti_counter _ _ Hi). lia.
  - intros k. rewrite pending_set_snoc, Z.eqb_sym. by destruct (k =? h).
Qed.

Lemma set_step tr s os h n rc t' :
  tinv tr s -> g_next_timer_cb_handle (tm s) + 1 < 2 ^ 32 ->
  esif_ccb_timer_set_msec os (Some h) n (tm s) = Some (rc, t') ->
  tinv (tr ++ [TvSet h (if g_next_timer_cb_handle t' =? g_next_timer_cb_handle (tm s) then None
                        else Some (g_next_timer_cb_handle t'))]) (after s t' (running s)).
Proof.
  intros Hi Hw (_ & [->|(i & Ei & Hm & _ & Et)])%set_inv.
  { rewrite Z.eqb_refl. apply tinv_same; try done. intros k. by rewrite pending_set_snoc. }
  pose proof (ti_counter _ _ Hi) as Hcnt. set (n0 := g_next_timer_cb_handle (tm s)) in *. cbv zeta in Et.
  rewrite (wrap_small 32 (n0 + 1)) in Et by (unfold in_range; lia).
  rewrite (proj2 (Z.eqb_neq 0 (n0 + 1))) in Et by lia.
  assert (Ec : g_next_timer_cb_handle t' = n0 + 1) by by rewrite Et. rewrite Ec.
  rewrite (proj2 (Z.eqb_neq (n0 + 1) n0)) by lia.
  destruct (ti_items _ _ Hi h i Ei) as [H1 H2 H3 H4].
  assert (Hfresh : n0 + 1 ∉ armed s) by (intros Ha; pose proof (ti_armed _ _ Hi _ Ha); lia).
  eapply (tinv_update_node tr s _ h _ i _ t' (running s) Hi Ei); [|exact Et|done|simpl; lia|apply Hi|done|..].
  - done.
  - cbn [with_obj with_cb_handle is_in_cb]. by eapply tinv_not_running.
  - split; cbn [with_obj with_cb_handle timer_cb_handle item_marked is_in_cb timer_obj]; simpl g_next_timer_cb_handle; [lia|congruence|done|].
    destruct (is_in_cb i); cbn [negb]; [intros _; split; [done|split; [done|lia]]|].
    unfold esif_ccb_timer_obj_set_pending_timeout, esif_ccb_timer_obj_enable_timer. simpl.
    destruct (os_mem os); [destruct (os_create os && os_settime os)|]; done.
  - intros c k. cbn [with_obj with_cb_handle timer_cb_handle is_in_cb timer_obj].
    assert (Hold : os_timer (timer_obj i) = Some (c, k) -> c ∈ armed s).
    { intros E. apply (ti_os _ _ Hi), (os_handles_find _ _ (ti_nodup _ _ Hi)). eauto. }
    destruct (is_in_cb i); cbn [negb]; [simpl; auto|].
    unfold esif_ccb_timer_obj_set_pending_timeout, esif_ccb_timer_obj_enable_timer. simpl.
    destruct (os_mem os); [destruct (os_create os && os_settime os)|]; simpl; [|done..].
    intros [= <- _]. right. split; [done|split; [lia|done]].
  - simpl. lia.
  - intros k. rewrite pending_set_snoc, Z.eqb_sym. destruct (k =? h); [|done]. simpl. rewrite Hm.
    by rewrite (proj2 (Z.eqb_neq (n0 + 1) 0)) by lia.
Qed.

Lemma find_none_pending tr s h : tinv tr s -> find_item h (tm s) = None -> pending_set tr h = None.
Proof. intros Hi E. by rewrite (ti_pending _ _ Hi), E. Qed.

Lemma remove_step tr s ev h i t0 t' r' :
  tinv tr s -> find_item h (tm s) = Some i -> (forall k, find_item k t0 = find_item k (tm s) \/ k = h) ->
  NoDup (timer_handle <$> items t0) -> g_next_timer_cb_handle t0 = g_next_timer_cb_handle (tm s) ->
  (exists i', timer_handle i' = h /\ t' = esif_ccb_tmrm_destroy_timer_node_wlock i' t0) ->
  NoDup r' -> (forall k, k <> h -> k ∈ r' <-> k ∈ running s) -> h ∉ r' ->
  (forall k, pending_set (tr ++ [ev]) k = if k =? h then None else pending_set tr k) ->
  tinv (tr ++ [ev]) (after s t' r').
Proof.
  intros Hi Ei Hf Hn Hc (i' & Eh & ->) Hr Hrk Hrh Hp.
  apply (tinv_update tr s ev _ r' h None); try done.
  - by apply handles_destroy.
  - intros k. rewrite find_destroy, Eh. destruct (Z.eqb_spec k h); [done|]. by destruct (Hf k).
  - rewrite (proj1 (proj2 (proj2 (proj2 (destroy_rest i' t0))))), Hc. pose proof (ti_counter _ _ Hi). lia.
  - split; [done|]. by intros (? & ? & _).
Qed.

Lemma kill_step tr s mem h oe rc t' :
  tinv tr s -> esif_ccb_timer_kill_w_event mem (Some h) oe (tm s) = Some (rc, t') ->
  (find_item h (tm s) <> None -> enabled (tm s) = true) ->
  tinv (tr ++ [TvKill h oe]) (after s t' (running s)).
Proof.
  intros Hi (Hc & E)%kill_inv Hen. destruct (find_item h (tm s)) as [i|] eqn:Ei.
  - rewrite Hen in E by done. destruct E as [-> E]. destruct (is_in_cb i) eqn:Ecb.
    + set (f := fun _ : esif_tmrm_item => _) in E. pose proof (find_item_handle _ _ _ Ei) as Eh.
      destruct (ti_items _ _ Hi h i Ei) as [H1 H2 H3 H4]. pose proof (ti_counter _ _ Hi) as Hcnt.
      eapply (tinv_update_node tr s _ h f i (tm s) t' (running s) Hi Ei); try done; [lia|apply Hi|..].
      * rewrite (tinv_not_running tr s h i Hi Ei), Ecb. done.
      * intros c k Eo. left. apply (ti_os _ _ Hi), (os_handles_find _ _ (ti_nodup _ _ Hi)). eauto.
      * right; right. done.
      * intros k. rewrite pending_set_snoc, Z.eqb_sym. by destruct (k =? h).
    + eapply (remove_step tr s _ h i _ t' (running s) Hi Ei); [| | |eexists; split; [|exact E]|apply Hi|done| |].
      * intros k. rewrite find_update by (intros; simpl; by eapply find_item_handle). destruct (Z.eqb_spec k h); auto.
      * rewrite handles_update by (intros; simpl; by eapply find_item_handle). apply Hi.
      * done.
      * simpl. by eapply find_item_handle.
      * rewrite (tinv_not_running tr s h i Hi Ei), Ecb. done.
      * intros k. by rewrite pending_set_snoc, Z.eqb_sym.
  - assert (E' : rc <> ESIF_OK /\ t' = match oe with Some e => set_events [e] (tm s) | None => tm s end)
      by (by destruct (enabled (tm s))).
    destruct E' as [_ ->]. apply tinv_same; [done|by destruct oe|by destruct oe|].
    intros k. rewrite pending_set_snoc. destruct (Z.eqb_spec h k) as [<-|]; [|done].
    symmetry. by eapply find_none_pending.
Qed.

Lemma fire_step tr s cb r t' :
  tinv tr s -> cb ∈ armed s -> esif_ccb_tmrm_callback_begin cb (tm s) = Some (r, t') ->
  tinv (tr ++ [TvFire cb (timer_handle <$> r)])
    (after s t' (match r with Some i => timer_handle i :: running s | None => running s end)) /\
  (forall i, r = Some i -> timer_handle i ∉ running s /\ pending_set tr (timer_handle i) = Some cb) /\
  (r = None -> forall h, pending_set tr h <> Some cb).
Proof.
  intros Hi Ha. unfold esif_ccb_tmrm_callback_begin, sbind, sget, smodify, sret.
  destruct (esif_ccb_tmrm_find_timer_node_by_cb_wlock cb (tm s)) as [i|] eqn:Eb; intros [= <- <-]; cycle 1.
  { split; [|split; [done|]].
    - apply tinv_same; try done. intros h. by rewrite pending_set_snoc.
    - intros _ h. rewrite (ti_pending _ _ Hi). destruct (find_item h (tm s)) as [i|] eqn:Ei; [|done].
      pose proof (find_by_cb_none cb (tm s) h i Eb Ei) as Hne. simpl. destruct (_ || _); [done|]. congruence. }
  destruct (find_by_cb_find cb (tm s) i (ti_nodup _ _ Hi) Eb) as [Ei Ecb].
  destruct (ti_items _ _ Hi _ i Ei) as [H1 H2 H3 H4]. pose proof (ti_armed _ _ Hi cb Ha) as Hpos.
  assert (Hcb : is_in_cb i = false).
  { destruct (is_in_cb i) eqn:E; [|done]. exfalso. apply H3; [done|]. by rewrite Ecb. }
  assert (Hm : item_marked i = false) by (destruct (item_marked i); [rewrite H2 in Hcb by done; done|done]).
  assert (Hnr : timer_handle i ∉ running s) by (rewrite (tinv_not_running tr s _ i Hi Ei), Hcb; done).
  split; [|split; [|done]].
  - set (f := fun _ : esif_tmrm_item => _). cbn [fmap option_fmap option_map timer_handle with_in_cb with_cb_handle].
    pose proof (ti_counter _ _ Hi) as Hcnt.
    eapply (tinv_update_node tr s _ (timer_handle i) f i (tm s) _ _ Hi Ei); try done; [lia|..].
    + apply NoDup_cons. by split; [|apply Hi].
    + intros k Hk. rewrite elem_of_cons. naive_solver.
    + simpl. rewrite elem_of_cons. naive_solver.
    + split; simpl; [lia|congruence| |].
      * intros _ Hin. pose proof (ti_armed _ _ Hi 0 Hin). lia.
      * intros Hp. destruct (H4 Hp). congruence.
    + intros c k Eo. left. apply (ti_os _ _ Hi), (os_handles_find _ _ (ti_nodup _ _ Hi)). eauto.
    + by left.
    + intros k. rewrite pending_set_snoc, Z.eqb_sym. destruct (k =? timer_handle i); [|done]. simpl. by rewrite orb_true_r.
  - intros j [= <-]. split; [done|]. change (pending_set tr (timer_handle i) = Some cb).
    rewrite (ti_pending _ _ Hi), Ei. simpl. rewrite Hm, (proj2 (Z.eqb_neq _ _)) by lia. simpl. by rewrite Ecb.
Qed.

Lemma end_step tr s os h t' :
  tinv tr s -> h ∈ running s -> esif_ccb_tmrm_callback_end os h (tm s) = Some (tt, t') ->
  tinv (tr ++ [TvEnd h]) (after s t' (filter (fun h' => h' <> h) (running s))).
Proof.
  intros Hi Hh (i & Ei & E)%end_inv. destruct (ti_items _ _ Hi h i Ei) as [H1 H2 H3 H4].
  pose proof (proj1 (tinv_not_running tr s h i Hi Ei) Hh) as Hcb. specialize (H3 Hcb).
  pose proof (ti_counter _ _ Hi) as Hcnt. pose proof (find_item_handle _ _ _ Ei) as Eh.
  assert (Hr : NoDup (filter (fun h' => h' <> h) (running s))).
  { eapply sublist_NoDup; [apply (ti_running_nodup _ _ Hi)|]. apply sublist_filter. }
  assert (Hrk : forall k, k <> h -> k ∈ filter (fun h' => h' <> h) (running s) <-> k ∈ running s).
  { intros k Hk. rewrite list_elem_of_filter. naive_solver. }
  assert (Hrh : h ∉ filter (fun h' => h' <> h) (running s)) by (rewrite list_elem_of_filter; naive_solver).
  destruct (item_marked i) eqn:Em.
  - eapply (remove_step tr s _ h i _ t' _ Hi Ei); [| | |eexists; split; [|exact E]|done..|].
    + intros k. rewrite find_update by done. destruct (Z.eqb_spec k h); auto.
    + rewrite handles_update by done. apply Hi.
    + done.
    + done.
    + intros k. rewrite pending_set_snoc. destruct (Z.eqb_spec k h) as [->|]; [|done].
      rewrite (ti_pending _ _ Hi), Ei. simpl. by rewrite Em.
  - set (f := fun _ : esif_tmrm_item => with_obj (esif_ccb_timer_obj_set_pending_timeout os (timer_obj i)).2 (with_in_cb false i)).
    assert (Ef : items t' = items (update_node h f (tm s))).
    { rewrite E, !items_update, <- list_fmap_compose. apply list_fmap_ext. intros _ j _. unfold f, compose.
      destruct (Z.eqb_spec h (timer_handle j)); simpl; [rewrite Eh|]; rewrite ?Z.eqb_refl; [done|].
      by rewrite (proj2 (Z.eqb_neq _ _)). }
    assert (Ec : g_next_timer_cb_handle t' = g_next_timer_cb_handle (tm s)) by by rewrite E.
    assert (Efi : f i = with_obj (esif_ccb_timer_obj_set_pending_timeout os (timer_obj i)).2 (with_in_cb false i)) by done.
    assert (Hpo : set_is_pending (esif_ccb_timer_obj_set_pending_timeout os (timer_obj i)).2 = false).
    { unfold esif_ccb_timer_obj_set_pending_timeout, esif_ccb_timer_obj_enable_timer.
      destruct (set_is_pending (timer_obj i)) eqn:Ep; [|done].
      destruct (os_mem os); [destruct (os_create os && os_settime os)|]; done. }
    assert (Hff : forall j, timer_handle j = h -> timer_handle (f j) = h)
      by (intros j Ej; done).
    apply (tinv_update tr s _ t' _ h (Some (f i)) Hi); try done.
    + rewrite Ef, handles_update by done. apply Hi.
    + intros k. transitivity (find_item k (update_node h f (tm s))).
      { unfold esif_ccb_tmrm_find_timer_node_wlock. by rewrite Ef. }
      rewrite find_update by done. destruct (Z.eqb_spec k h) as [->|]; [by rewrite Ei|done].
    + lia.
    + split; [done|]. intros (j & [= <-] & Hj). rewrite Efi in Hj. done.
    + intros j [= <-]. rewrite Efi, Ec. split; [|split].
      * split; cbn [with_obj with_in_cb timer_cb_handle item_marked is_in_cb timer_obj]; [lia|congruence|done|congruence].
      * intros c n. cbn [with_obj with_in_cb timer_cb_handle is_in_cb timer_obj].
        unfold esif_ccb_timer_obj_set_pending_timeout, esif_ccb_timer_obj_enable_timer.
        destruct (set_is_pending (timer_obj i)) eqn:Ep; cycle 1.
        { intros Eo. left. apply (ti_os _ _ Hi), (os_handles_find _ _ (ti_nodup _ _ Hi)). eauto. }
        destruct (H4 eq_refl) as (_ & Eobj & Hz).
        destruct (os_mem os); [destruct (os_create os && os_settime os)|]; simpl; [|done..].
        intros [= <- _]. rewrite Eobj. by right.
      * right; right. by exists i.
    + intros k. rewrite pending_set_snoc. destruct (Z.eqb_spec k h) as [->|]; [|done].
      rewrite (ti_pending _ _ Hi), Ei, Efi. done.
Qed.

(** Only initialising a timer changes the manager's flags, and it enables. *)
Lemma init_enabled m x f t rc x' t' :
  marked_for_delete t = false -> esif_ccb_timer_init m (Some x) (Some f) t = Some ((rc, x'), t') ->
  enabled t' = true /\ marked_for_delete t' = false.
Proof.
  intros Hm. unfold esif_ccb_timer_init, esif_ccb_tmrm_create_tmrm_item, esif_ccb_tmrm_get_next_handle.
  unfold sbind at 1. rewrite is_ready_spec, Hm. cbn [negb Z.eqb ESIF_OK].
  set (t1 := if enabled t then t else with_enabled true t).
  assert (H1 : enabled t1 = true /\ marked_for_delete t1 = false) by (unfold t1; by destruct (enabled t) eqn:E).
  clearbody t1. unfold sbind, sget, sret, smodify.
  destruct (mem_item m && mem_waiters m && mem_obj m); [|by intros [= <- <- <-]].
  destruct (next_handle_loop _ t1) as [o t2] eqn:En.
  assert (H2 : enabled t2 = true /\ marked_for_delete t2 = false).
  { revert En H1. generalize (ESIF_CNT_HNDL_RETRIES_MAX - 1)%nat as n. intros n. revert t1.
    induction n as [|n IH]; intros t1; cbn [next_handle_loop]; destruct (find_item _ _); [by intros [= <- <-]..| |by intros [= <- <-]].
    intros E H. by eapply IH in E. }
  destruct o as [h|]; cbn [snd]; [|by intros [= <- <- <-]].
  destruct (timer_list t2) eqn:E2.
  - rewrite E2. by destruct (mem_node m); intros [= <- <- <-].
  - destruct (mem_list m); cbn [timer_list with_list]; rewrite ?E2; [|by intros [= <- <- <-]].
    by destruct (mem_node m); intros [= <- <- <-].
Qed.

Definition flags_ok (t : tmrm) : Prop := marked_for_delete t = false /\ (items t <> [] -> enabled t = true).

Lemma destroy_flags i t : flags_ok t -> flags_ok (esif_ccb_tmrm_destroy_timer_node_wlock i t).
Proof.
  intros [Hm He]. destruct (destroy_rest i t) as (E1 & E2 & _). split; [congruence|]. rewrite E1, items_destroy.
  intros H. apply He. intros E. apply H. by rewrite E.
Qed.

Lemma update_flags h f t : flags_ok t -> flags_ok (update_node h f t).
Proof.
  intros [Hm He]. split; [done|]. rewrite items_update. intros H. apply He. intros E. apply H. by rewrite E.
Qed.

Lemma flags_step s ev s' : flags_ok (tm s) -> tsys_step s ev s' -> flags_ok (tm s').
Proof.
  intros Hf Hs. destruct Hs as [m x f rc x' t' E|os h n rc t' _ E|mem h oe rc t' E|cb r t' _ E|os h t' _ E]; cbn [tm after].
  - destruct Hf as [Hm _]. destruct (init_enabled _ _ _ _ _ _ _ Hm E). by split.
  - apply set_inv in E as (_ & [->|(i & _ & _ & _ & ->)]); [done|]. by apply update_flags.
  - apply kill_inv in E as [_ E]. destruct (if enabled (tm s) then _ else _) as [i|].
    + destruct E as [_ E]. destruct (is_in_cb i); rewrite E; [|apply destroy_flags]; by apply update_flags.
    + destruct E as [_ ->]. by destruct oe.
  - revert E. unfold esif_ccb_tmrm_callback_begin, sbind, sget, smodify, sret.
    destruct (esif_ccb_tmrm_find_timer_node_by_cb_wlock cb (tm s)); intros [= <- <-]; [by apply update_flags|done].
  - apply end_inv in E as (i & _ & E). cbv zeta in E. destruct (item_marked i); rewrite E.
    + by apply destroy_flags, update_flags.
    + by apply update_flags, update_flags.
Qed.

Lemma tsys_run_inv tr s : tsys_run tr s -> tinv tr s /\ flags_ok (tm s).
Proof.
  induction 1 as [|tr s ev s' _ [Hi Hf] Hs].
  - split; [|by split]. split; simpl; try done; try (by constructor).
    + intros h. split; [by intros ?%elem_of_nil|]. by intros (? & ? & _).
    + intros cb ?%elem_of_nil. done.
  - split; [|by eapply flags_step]. destruct Hs.
    + by eapply init_step.
    + by eapply set_step.
    + eapply kill_step; [done|done|]. intros Hn. apply Hf. intros Ei. apply Hn.
      unfold esif_ccb_tmrm_find_timer_node_wlock. by rewrite Ei.
    + by apply fire_step.
    + by eapply end_step.
Qed.

(** C17: However threads initialise, set and kill timers while the operating
    system presents the callback handles it was ever given: timers have
    distinct handles; at most one callback of a timer runs at a time; the node
    that a callback in progress holds is still there when it returns, however
    the timer has been killed or set meanwhile; and a presented handle calls a
    timer exactly when it comes from the last setting of that timer and neither
    a kill nor an earlier callback has consumed it. *)
Theorem timer_callbacks_controlled (tr : list tev) (s : tsys) (Hrun : tsys_run tr s) :
  NoDup (timer_handle <$> items (tm s)) /\ NoDup (running s) /\
  (forall h os, h ∈ running s -> exists t', esif_ccb_tmrm_callback_end os h (tm s) = Some (tt, t')) /\
  (forall cb, cb ∈ armed s -> exists r t', esif_ccb_tmrm_callback_begin cb (tm s) = Some (r, t') /\
     match r with
     | Some i => timer_handle i ∉ running s /\ pending_set tr (timer_handle i) = Some cb
     | None => forall h, pending_set tr h <> Some cb
     end).
Proof.
  destruct (tsys_run_inv tr s Hrun) as [Hi _].
  split; [apply (ti_nodup _ _ Hi)|split; [apply (ti_running_nodup _ _ Hi)|split]].
  - intros h os Hh. apply (ti_running _ _ Hi) in Hh as (i & Ei & _).
    unfold esif_ccb_tmrm_callback_end, sbind, sget, smodify. rewrite Ei.
    change (item_marked (with_in_cb false i)) with (item_marked i). destruct (item_marked i); by eexists.
  - intros cb Ha. destruct (esif_ccb_tmrm_callback_begin cb (tm s)) as [[r t']|] eqn:E.
    + exists r, t'. split; [done|]. destruct (fire_step tr s cb r t' Hi Ha E) as (_ & H1 & H2).
      destruct r as [i|]; [by apply H1|by apply H2].
    + exfalso. revert E. unfold esif_ccb_tmrm_callback_begin, sbind, sget, smodify, sret.
      by destruct (esif_ccb_tmrm_find_timer_node_by_cb_wlock cb (tm s)).
Qed.

(* ------------------------------------------------------------------ *)
(** ** Waiting for a killed timer *)

(** Thread waiting on [e] for the callback of [h] to end. *)
Record waits_for (e : positive) (h : Z) (t : tmrm) : Prop := {
  wf_not_set : e ∉ events_set t;
  wf_item : exists i, find_item h t = Some i /\ is_in_cb i = true /\ item_marked i = true /\ e ∈ destroy_list i;
  wf_others : forall k j, k <> h -> find_item k t = Some j -> e ∉ destroy_list j
}.

(** What keeps a waiter waiting: [h] stays, and nobody else gets [e]. *)
Lemma waits_update e h t k f :
  waits_for e h t -> (forall i, timer_handle i = k -> timer_handle (f i) = k) ->
  (forall i, find_item k t = Some i -> k = h ->
     is_in_cb (f i) = true /\ item_marked (f i) = true /\ (e ∈ destroy_list i -> e ∈ destroy_list (f i))) ->
  (forall i, find_item k t = Some i -> k <> h -> e ∉ destroy_list i -> e ∉ destroy_list (f i)) ->
  waits_for e h (update_node k f t).
Proof.
  intros [H1 (i & Hi & Hc & Hm & He) H3] Hf Hh Ho. split; [done| |].
  - rewrite find_update by done. destruct (Z.eqb_spec h k) as [<-|Hk]; [|by exists i].
    rewrite Hi. destruct (Hh i Hi eq_refl) as (? & ? & ?). exists (f i). by split_and!; auto.
  - intros k' j Hk'. rewrite find_update by done. destruct (Z.eqb_spec k' k) as [->|Hk]; [|by apply H3].
    destruct (find_item k t) as [j0|] eqn:Ej; [|done]. intros [= <-]. apply (Ho j0); [done|done|]. by apply (H3 k).
Qed.

Lemma waits_destroy e h t i :
  waits_for e h t -> timer_handle i <> h -> e ∉ destroy_list i ->
  waits_for e h (esif_ccb_tmrm_destroy_timer_node_wlock i t).
Proof.
  intros [H1 (j & Hj & Hr) H3] Hne Hni. split.
  - destruct (destroy_rest i t) as (_ & _ & _ & _ & ->). rewrite elem_of_app. naive_solver.
  - exists j. rewrite find_destroy, (proj2 (Z.eqb_neq _ _)) by congruence. by split.
  - intros k j' Hk. rewrite find_destroy. destruct (k =? timer_handle i); [done|]. by apply H3.
Qed.

Lemma waits_same e h t t' :
  waits_for e h t -> events_set t' = events_set t -> (forall k, find_item k t' = find_item k t) -> waits_for e h t'.
Proof.
  intros [H1 (i & Hi & Hr) H3] Ee Ef. split; [by rewrite Ee|exists i; by rewrite Ef|]. intros k j. rewrite Ef. apply H3.
Qed.

(** A step by others: it does not end the callback of [h] nor wait on [e]. *)
Definition by_others (e : positive) (h : Z) (ev : tev) : Prop :=
  match ev with TvEnd k => k <> h | TvKill _ oe => oe <> Some e | _ => True end.

Lemma waits_step e h s ev s' :
  NoDup (timer_handle <$> items (tm s)) -> tsys_step s ev s' -> by_others e h ev ->
  waits_for e h (tm s) -> waits_for e h (tm s').
Proof.
  intros Hn Hs Hev Hw. pose proof Hw as [H1 (i & Hi & Hc & Hm & He) H3].
  destruct Hs as [m x f rc x' t' E|os k n rc t' _ E|mem k oe rc t' E|cb r t' _ E|os k t' _ E]; cbn [tm after by_others] in *.
  - apply init_inv in E as [[_ Hev'] E]. destruct (rc =? ESIF_OK).
    + destruct E as (k & _ & Hk & E). split; [by rewrite Hev'| |].
      * exists i. split; [|done]. revert Hi. unfold esif_ccb_tmrm_find_timer_node_wlock. rewrite E. clear.
        induction (items (tm s)) as [|j l IH]; simpl; [done|]. by destruct (h =? timer_handle j).
      * intros k' j Hne. unfold esif_ccb_tmrm_find_timer_node_wlock. rewrite E. intros Hj.
        pose proof (find_node_some _ _ _ Hj) as [Hin Hb]. apply elem_of_app in Hin as [Hin|Hin].
        -- bool_to_prop. subst k'. apply (H3 (timer_handle j) j Hne). by apply elem_find.
        -- apply list_elem_of_singleton in Hin as ->. by intros ?%elem_of_nil.
    + eapply waits_same; [done|done|]. intros k. unfold esif_ccb_tmrm_find_timer_node_wlock. by rewrite E.
  - apply set_inv in E as (Ee & [->|(j & Hj & Hjm & _ & ->)]); [done|]. apply (waits_update e h (with_next_cb _ (tm s))).
    + by eapply waits_same.
    + done.
    + intros i' Hi' ->. change (find_item h (tm s) = Some i') in Hi'. congruence.
    + done.
  - apply kill_inv in E as [_ E]. destruct (enabled (tm s)); cycle 1.
    { destruct E as [_ ->]. destruct oe as [e'|]; [|done]. split; [|by exists i|done].
      simpl. rewrite elem_of_app, list_elem_of_singleton. naive_solver. }
    destruct (find_item k (tm s)) as [j|] eqn:Ej; cycle 1.
    { destruct E as [_ ->]. destruct oe as [e'|]; [|done]. split; [|by exists i|done].
      simpl. rewrite elem_of_app, list_elem_of_singleton. naive_solver. }
    destruct E as [_ E]. pose proof (find_item_handle _ _ _ Ej) as Ek.
    set (j' := mark_item _ j) in E. assert (Hj' : k <> h -> e ∉ destroy_list j').
    { intros Hk. unfold j'. simpl. rewrite elem_of_app. intros [?|Hin]; [by apply (H3 k j)|].
      destruct oe as [e'|]; [|by apply elem_of_nil in Hin]. destruct mem; [|by apply elem_of_nil in Hin].
      apply list_elem_of_singleton in Hin as ->. done. }
    assert (Hup : (k = h -> is_in_cb j = true) -> waits_for e h (update_node k (fun _ => j') (tm s))).
    { intros Hkh. apply waits_update; [done|done| |naive_solver].
      intros i' Hi' ->. rewrite Hi' in Ej. simplify_eq. unfold j'. simpl. split_and!; [auto|done|].
      rewrite elem_of_app. auto. }
    destruct (is_in_cb j) eqn:Ecb; rewrite E; [by apply Hup|].
    assert (k <> h) by (intros ->; congruence). apply waits_destroy; [by apply Hup|unfold j'; simpl; congruence|auto].
  - revert E. unfold esif_ccb_tmrm_callback_begin, sbind, sget, smodify, sret.
    destruct (esif_ccb_tmrm_find_timer_node_by_cb_wlock cb (tm s)) as [j|] eqn:Ej; intros [= <- <-]; [|done].
    destruct (find_by_cb_find cb (tm s) j Hn Ej) as [Hj _].
    apply waits_update; [done|done|intros i' Hi' Eh|intros i' Hi' Eh Hni]; rewrite Hj in Hi'; injection Hi' as <-; [|done].
    rewrite Eh in Hj. simpl. split_and!; [done|congruence|done].
  - apply end_inv in E as (j & Hj & E). cbv zeta in E. pose proof (find_item_handle _ _ _ Hj) as Ek.
    assert (Hup : waits_for e h (update_node k (fun _ => with_in_cb false j) (tm s))).
    { apply waits_update; [done|done|done|]. intros i' Hi' _ Hni. rewrite Hi' in Hj. by simplify_eq. }
    destruct (item_marked j); rewrite E.
    + apply waits_destroy; [done|simpl; congruence|]. by apply (H3 k j).
    + by apply waits_update.
Qed.

(** Further steps of a run. *)
Inductive tsys_steps (s0 : tsys) : list tev -> tsys -> Prop :=
  | steps_nil : tsys_steps s0 [] s0
  | steps_snoc tr s ev s' : tsys_steps s0 tr s -> tsys_step s ev s' -> tsys_steps s0 (tr ++ [ev]) s'.

(** C18: A thread that kills a timer and waits is released exactly when the
    timer's callback is over: at once when none is running (or there is no such
    timer), and otherwise - whatever other threads do to this or other timers
    in between, other kills included - not before the callback returns, and
    then, together with the timer's destruction.  [e] is the thread's own
    event. *)
Theorem timer_kill_waits (tr : list tev) (s : tsys) (h : Z) (e : positive)
    (Hrun : tsys_run tr s) (Hfresh : e ∉ events_set (tm s))
    (Hown : forall k j, find_item k (tm s) = Some j -> e ∉ destroy_list j) :
  exists rc t1, esif_ccb_timer_kill_w_wait true e (Some h) (tm s) = Some (rc, t1) /\
    if bool_decide (h ∈ running s) then
      rc = ESIF_OK /\ e ∉ events_set t1 /\
      forall tr2 s2 os, tsys_steps (after s t1 (running s)) tr2 s2 -> Forall (by_others e h) tr2 ->
        e ∉ events_set (tm s2) /\
        exists t3, esif_ccb_tmrm_callback_end os h (tm s2) = Some (tt, t3) /\
          e ∈ events_set t3 /\ find_item h t3 = None
    else e ∈ events_set t1 /\ find_item h t1 = None.
Proof.
  destruct (tsys_run_inv tr s Hrun) as [Hi [_ Hen]]. unfold esif_ccb_timer_kill_w_wait.
  destruct (esif_ccb_timer_kill_w_event true (Some h) (Some e) (tm s)) as [[rc t1]|] eqn:E; cycle 1.
  { exfalso. revert E. unfold esif_ccb_timer_kill_w_event, sbind, sget, sret, smodify.
    destruct (enabled (tm s)); [|done]. destruct (find_item h (tm s)) as [i|]; [|done]. by destruct (is_in_cb i). }
  exists rc, t1. split; [done|]. pose proof (kill_inv _ _ _ _ _ _ E) as [_ Ek].
  assert (Hrunning : h ∈ running s <-> exists i, find_item h (tm s) = Some i /\ is_in_cb i = true) by apply (ti_running _ _ Hi).
  destruct (find_item h (tm s)) as [i|] eqn:Ei; cycle 1.
  { rewrite bool_decide_false by (rewrite Hrunning; intros (? & ? & ?); congruence).
    assert (Et : t1 = set_events [e] (tm s)) by (destruct (enabled (tm s)); by destruct Ek). rewrite Et. simpl.
    split; [rewrite elem_of_app, list_elem_of_singleton; auto|done]. }
  rewrite Hen in Ek by (intros En; unfold esif_ccb_tmrm_find_timer_node_wlock in Ei; by rewrite En in Ei).
  destruct Ek as [-> Ek]. pose proof (find_item_handle _ _ _ Ei) as Eh. set (i' := mark_item [e] i) in Ek.
  assert (Hin : e ∈ destroy_list i') by (simpl; rewrite elem_of_app, list_elem_of_singleton; auto).
  destruct (is_in_cb i) eqn:Ecb; cycle 1.
  { rewrite bool_decide_false by (rewrite Hrunning; intros (? & ? & ?); congruence). rewrite Ek.
    rewrite (proj2 (proj2 (proj2 (proj2 (destroy_rest i' _))))), elem_of_app, find_destroy. simpl timer_handle.
    rewrite Eh, Z.eqb_refl. auto. }
  rewrite bool_decide_true by (apply Hrunning; eauto). split; [done|split; [by rewrite Ek|]].
  intros tr2 s2 os Hst Hoth.
  assert (Hw : tinv (tr ++ TvKill h (Some e) :: tr2) s2 /\ tsys_run (tr ++ TvKill h (Some e) :: tr2) s2 /\ waits_for e h (tm s2)).
  { induction Hst as [|tr2 s1 ev s2 Hst IH Hs].
    - assert (Hr : tsys_run (tr ++ [TvKill h (Some e)]) (after s t1 (running s)))
        by (eapply tsys_snoc; [done|by eapply ts_kill]).
      split; [by apply tsys_run_inv|split; [done|]]. cbn [tm after]. rewrite Ek. split; [done| |].
      + exists i'. rewrite find_update, Z.eqb_refl, Ei by done. by split_and!.
      + intros k j Hk. rewrite find_update, (proj2 (Z.eqb_neq _ _)) by done. by apply Hown.
    - apply Forall_app in Hoth as [Hoth [Hev _]%Forall_cons]. destruct (IH Hoth) as (Hi1 & Hr1 & Hw1).
      assert (Hr2 : tsys_run (tr ++ TvKill h (Some e) :: tr2 ++ [ev]) s2)
        by (rewrite app_comm_cons, app_assoc; by eapply tsys_snoc).
      split; [by apply tsys_run_inv|split; [done|]]. eapply waits_step; [apply (ti_nodup _ _ Hi1)|done..]. }
  destruct Hw as (_ & _ & [Hne (j & Hj & Hc & Hm & He) _]). split; [done|].
  unfold esif_ccb_tmrm_callback_end, sbind, sget, smodify. rewrite Hj.
  change (item_marked (with_in_cb false j)) with (item_marked j). rewrite Hm. eexists. split; [done|].
  rewrite (proj2 (proj2 (proj2 (proj2 (destroy_rest _ _))))), elem_of_app, find_destroy. simpl timer_handle.
  rewrite (find_item_handle _ _ _ Hj), Z.eqb_refl. auto.
Qed.

Module TimerDemo.
Definition mem : init_mem := mk_init_mem true true true true true.
Definition os : os_ok := mk_os_ok true true true.
Definition s0 : tsys := mk_tsys (mk_tmrm false false None 0 0 []) [] [].
Definition t1 : tmrm := match esif_ccb_timer_init mem (Some 0) (Some 7) (tm s0) with Some (_, t) => t | None => tm s0 end.
Definition s1 : tsys := after s0 t1 [].
Definition t2 : tmrm := match esif_ccb_timer_set_msec os (Some 1) 50 t1 with Some (_, t) => t | None => t1 end.
Definition s2 : tsys := after s1 t2 [].
Definition t3 : tmrm := match esif_ccb_tmrm_callback_begin 1 t2 with Some (_, t) => t | None => t2 end.
Definition s3 : tsys := after s2 t3 [1].
Definition tr : list tev := [TvInit (Some 1); TvSet 1 (Some 1); TvFire 1 (Some 1)].

(** A timer is initialised and set, and its callback begins. *)
Lemma run_timer : tsys_run tr s3.
Proof.
  apply (tsys_snoc [TvInit (Some 1); TvSet 1 (Some 1)] s2 (TvFire 1 (Some 1))).
  - apply (tsys_snoc [TvInit (Some 1)] s1 (TvSet 1 (Some 1))).
    + apply (tsys_snoc [] s0 (TvInit (Some 1))); [constructor|].
      apply (ts_init s0 mem 0 7 ESIF_OK (Some 1) t1). by vm_compute.
    + apply (ts_set s1 os 1 50 ESIF_OK t2); by vm_compute.
  - apply (ts_fire s2 1 (find_item 1 t3) t3); [by left|by vm_compute].
Qed.
End TimerDemo.

Lemma timer_callbacks_controlled_witness :
  running TimerDemo.s3 = [1] /\ NoDup (running TimerDemo.s3).
Proof. split; [reflexivity|]. apply (timer_callbacks_controlled TimerDemo.tr TimerDemo.s3 TimerDemo.run_timer). Defined.

Lemma timer_kill_waits_witness :
  exists rc t, esif_ccb_timer_kill_w_wait true 5 (Some 1) (tm TimerDemo.s3) = Some (rc, t) /\ rc = ESIF_OK.
Proof.
  destruct (timer_kill_waits TimerDemo.tr TimerDemo.s3 1 5 TimerDemo.run_timer) as (rc & t & E & H).
  - by intros ?%elem_of_nil.
  - intros k j (Hin & _)%find_node_some. vm_compute in Hin. apply list_elem_of_singleton in Hin as ->.
    by intros ?%elem_of_nil.
  - exists rc, t. split; [exact E|]. destruct H as [H _]. exact H.
Defined.
