(* ===== verification/TimerApi.v ===== *)
(** * The timer interface: what the clients of Common/esif_ccb_timer.c rely on

    [TimerApi] names the timer operations and [TimerLaws] is their contract, in
    terms of the state each timer is in; the functions of Timer.v satisfy it. *)

From S2P Require Import Prelude Timer.
From stdpp Require Import list.
Local Open Scope Z_scope.
Local Open Scope dptf_scope.

(** To a client that initialises, sets and kills its timers under a lock of its
    own and is called back, a timer is in one of these states. *)
Inductive tstatus : Type :=
  | Absent
  | Idle (f : Z)
  | Armed (f ms : Z)
  | InCb (f : Z)
  | InCbPending (f ms : Z)
  | Dying.

Class TimerApi (T : Type) := {
  api_init : init_mem -> Z -> Z -> SM T (Z * Z);
  api_set : os_ok -> Z -> Z -> SM T Z;
  api_kill : Z -> SM T Z;
  api_begin : Z -> SM T (option (Z * Z));
  api_end : os_ok -> Z -> SM T unit
}.

Definition all_mem : init_mem := mk_init_mem true true true true true.
Definition all_os : os_ok := mk_os_ok true true true.

Definition settable (st : tstatus) : bool := match st with Absent | Dying => false | _ => true end.
Definition set_status (st : tstatus) (ms : Z) : tstatus :=
  match st with
  | Idle f | Armed f _ => Armed f ms
  | InCb f | InCbPending f _ => InCbPending f ms
  | Absent => Absent
  | Dying => Dying
  end.
Definition kill_status (st : tstatus) : tstatus :=
  match st with Absent | Idle _ | Armed _ _ => Absent | _ => Dying end.
Definition end_status (st : tstatus) : tstatus :=
  match st with InCb f => Idle f | InCbPending f ms => Armed f ms | _ => Absent end.

(** [wf n] says that the manager has room for [n] more timers and settings. *)
Class TimerLaws (T : Type) {api : TimerApi T} := {
  status : T -> Z -> tstatus;
  wf : nat -> T -> Prop;
  wf_weaken : forall n t, wf (S n) t -> wf n t;
  init_law : forall n t old f, wf (S n) t -> exists h t',
    api_init all_mem old f t = Some ((ESIF_OK, h), t') /\ status t h = Absent /\ wf n t' /\
    forall k, status t' k = if k =? h then Idle f else status t k;
  set_zero_law : forall os t h, api_set os h 0 t = Some (ESIF_E_REQUEST_DATA_OUT_OF_BOUNDS, t);
  set_law : forall n t h ms, wf (S n) t -> ms <> 0 -> settable (status t h) = true -> exists t',
    api_set all_os h ms t = Some (ESIF_OK, t') /\ wf n t' /\
    forall k, status t' k = if k =? h then set_status (status t h) ms else status t k;
  kill_law : forall n t h, wf n t -> exists rc t',
    api_kill h t = Some (rc, t') /\ wf n t' /\
    forall k, status t' k = if k =? h then kill_status (status t h) else status t k;
  begin_law : forall n t h f ms, wf n t -> status t h = Armed f ms ->
    (exists cb t', api_begin cb t = Some (Some (h, f), t')) /\
    forall cb f' t', api_begin cb t = Some (Some (h, f'), t') ->
      f' = f /\ wf n t' /\ forall k, status t' k = if k =? h then InCb f else status t k;
  end_law : forall n t h, wf n t ->
    match status t h with InCb _ | InCbPending _ _ | Dying => True | _ => False end -> exists t',
    api_end all_os h t = Some (tt, t') /\ wf n t' /\
    forall k, status t' k = if k =? h then end_status (status t h) else status t k
}.

#[export] Instance tmrm_api : TimerApi tmrm := {|
  api_init m old f :=
    let! r := esif_ccb_timer_init m (Some old) (Some f) in
    sret (r.1, match r.2 with Some h => h | None => old end);
  api_set os h ms := esif_ccb_timer_set_msec os (Some h) ms;
  api_kill h := esif_ccb_timer_kill (Some h);
  api_begin cb :=
    let! r := esif_ccb_tmrm_callback_begin cb in
    sret (match r with Some i => Some (timer_handle i, function_ptr (timer_obj i)) | None => None end);
  api_end := esif_ccb_tmrm_callback_end
|}.

Definition item_status (i : esif_tmrm_item) : tstatus :=
  let o := timer_obj i in
  if item_marked i then Dying
  else if is_in_cb i then
    if set_is_pending o then InCbPending (function_ptr o) (pending_timeout o) else InCb (function_ptr o)
  else match os_timer o with
       | Some (cb, _) =>
           if (cb =? timer_cb_handle i) && negb (cb =? 0) then Armed (function_ptr o) (pending_timeout o)
           else Idle (function_ptr o)
       | None => Idle (function_ptr o)
       end.

Definition tmrm_status (t : tmrm) (h : Z) : tstatus :=
  match find_item h t with Some i => item_status i | None => Absent end.

(** Any run of the system, with room left. *)
Definition tmrm_wf (n : nat) (t : tmrm) : Prop :=
  exists tr s, tm s = t /\ tsys_run tr s /\
    g_next_timer_cb_handle t + Z.of_nat n < 2 ^ 32 /\
    (length (items t) + n <= ESIF_CNT_HNDL_RETRIES_MAX)%nat.


(* ------------------------------------------------------------------ *)
(** ** The manager satisfies the contract *)

Lemma wf_step n n' t t' :
  tmrm_wf n t ->
  (forall tr s, tm s = t -> tsys_run tr s -> exists ev s', tsys_step s ev s' /\ tm s' = t') ->
  g_next_timer_cb_handle t' + Z.of_nat n' <= g_next_timer_cb_handle t + Z.of_nat n ->
  (length (items t') + n' <= length (items t) + n)%nat -> tmrm_wf n' t'.
Proof.
  intros (tr & s & Es & Hr & H1 & H2) Hs Hc Hl. destruct (Hs tr s Es Hr) as (ev & s1 & Hst & E).
  exists (tr ++ [ev]), s1. split; [done|split; [by eapply tsys_snoc|lia]].
Qed.

Lemma wf_inv n t : tmrm_wf n t -> (exists tr s, tm s = t /\ tinv tr s) /\ flags_ok t.
Proof.
  intros (tr & s & <- & Hr & _). destruct (tsys_run_inv tr s Hr). split; [by exists tr, s|done].
Qed.

Lemma wf_weaken_tmrm n t : tmrm_wf (S n) t -> tmrm_wf n t.
Proof. intros (tr & s & E & Hr & H1 & H2). exists tr, s. split_and!; [done|done|lia|lia]. Qed.

(** The search for a handle fails only when a full round of consecutive handles
    is in use. *)
Lemma next_handle_none n : forall t t' k, next_handle_loop n t = (None, t') -> (k <= n)%nat ->
  find_item (u32 (g_next_timer_handle t + 1 + Z.of_nat k)) t <> None.
Proof.
  induction n as [|n IH]; intros t t' k; cbn [next_handle_loop]; destruct (find_item _ _) as [i|] eqn:E; try done.
  - intros _ Hk. assert (k = 0%nat) as -> by lia. rewrite Z.add_0_r.
    change (find_item (u32 (g_next_timer_handle t + 1)) t = Some i) in E. by rewrite E.
  - intros El Hk. change (find_item (u32 (g_next_timer_handle t + 1)) t = Some i) in E.
    destruct k as [|k]; [rewrite Z.add_0_r; by rewrite E|].
    specialize (IH _ _ k El ltac:(lia)). cbn [g_next_timer_handle with_next] in IH.
    replace (g_next_timer_handle t + 1 + Z.of_nat (S k)) with (g_next_timer_handle t + 1 + (1 + Z.of_nat k)) by lia.
    rewrite <- Z.add_assoc, wrap_add_l in IH. exact IH.
Qed.

Lemma next_handle_found t : (length (items t) < ESIF_CNT_HNDL_RETRIES_MAX)%nat ->
  exists h t', next_handle_loop (ESIF_CNT_HNDL_RETRIES_MAX - 1) t = (Some h, t').
Proof.
  intros Hl. destruct (next_handle_loop (ESIF_CNT_HNDL_RETRIES_MAX - 1) t) as [[h|] t'] eqn:E; [eauto|]. exfalso.
  set (hs := (fun k => u32 (g_next_timer_handle t + 1 + Z.of_nat k)) <$> seq 0 ESIF_CNT_HNDL_RETRIES_MAX).
  assert (Hn : NoDup hs).
  { apply NoDup_fmap_2_strong; [|apply NoDup_seq]. intros x y Hx Hy Exy.
    apply elem_of_seq in Hx, Hy. unfold wrap in Exy.
    assert (Emax : Z.of_nat ESIF_CNT_HNDL_RETRIES_MAX = 10000) by (vm_compute; reflexivity).
    assert (Hd : (Z.of_nat x - Z.of_nat y) mod 2 ^ 32 = 0).
    { replace (Z.of_nat x - Z.of_nat y) with
        ((g_next_timer_handle t + 1 + Z.of_nat x) - (g_next_timer_handle t + 1 + Z.of_nat y)) by lia.
      by rewrite Zminus_mod, Exy, Z.sub_diag. }
    apply Z.mod_divide in Hd as [q Hq]; [|lia].
    change (2 ^ 32) with 4294967296 in Hq. assert (Z.of_nat x < 10000 /\ Z.of_nat y < 10000) by lia.
    assert (q = 0) by lia. lia. }
  assert (Hs : hs ⊆+ (timer_handle <$> items t)).
  { apply NoDup_submseteq; [done|]. intros h (k & -> & Hk)%list_elem_of_fmap. apply elem_of_seq in Hk.
    pose proof (next_handle_none _ t t' k E ltac:(lia)) as Hf.
    destruct (find_item _ t) as [i|] eqn:Ei; [|done]. rewrite <- (find_item_handle _ _ _ Ei).
    apply list_elem_of_fmap_2. by eapply find_elem. }
  apply submseteq_length in Hs. unfold hs in Hs. rewrite !length_fmap, length_seq in Hs. lia.
Qed.

Lemma init_succeeds t old f :
  marked_for_delete t = false -> (length (items t) < ESIF_CNT_HNDL_RETRIES_MAX)%nat ->
  exists h t', esif_ccb_timer_init all_mem (Some old) (Some f) t = Some ((ESIF_OK, Some h), t').
Proof.
  intros Hm Hl. unfold esif_ccb_timer_init, esif_ccb_tmrm_create_tmrm_item, esif_ccb_tmrm_get_next_handle.
  unfold sbind at 1. rewrite is_ready_spec, Hm. cbn [negb Z.eqb ESIF_OK].
  set (t1 := if enabled t then t else with_enabled true t).
  assert (Hl1 : (length (items t1) < ESIF_CNT_HNDL_RETRIES_MAX)%nat) by (unfold t1; by destruct (enabled t)).
  destruct (next_handle_found t1 Hl1) as (h & t2 & E). unfold sbind, sget, sret, smodify.
  cbn [mem_item mem_waiters mem_obj mem_list mem_node all_mem andb]. rewrite E. cbn [snd].
  destruct (timer_list t2) as [l|] eqn:E2; [rewrite E2; eauto|]. simpl. eauto.
Qed.

Lemma new_item_status h t t' i : items t' = items t ++ [i] -> timer_handle i = h -> find_item h t = None ->
  forall k, tmrm_status t' k = if k =? h then item_status i else tmrm_status t k.
Proof.
  intros E Eh Hn k. pose proof (find_app k (items t) i t) as Ha.
  assert (E1 : find_item k (with_list (Some (items t ++ [i])) t) = find_item k t')
    by (unfold esif_ccb_tmrm_find_timer_node_wlock; by rewrite E).
  assert (E2 : find_item k (with_list (Some (items t)) t) = find_item k t) by done.
  rewrite E1, E2, Eh in Ha. unfold tmrm_status. rewrite Ha.
  clear Ha E1 E2. destruct (Z.eqb_spec k h) as [Ek|]; [by rewrite Ek, Hn|]. by destruct (find_item k t).
Qed.

Lemma update_status h f t k i :
  find_item h t = Some i -> (forall j, timer_handle j = h -> timer_handle (f j) = h) ->
  tmrm_status (update_node h f t) k = if k =? h then item_status (f i) else tmrm_status t k.
Proof.
  intros Hi Hf. unfold tmrm_status. rewrite find_update by done.
  destruct (Z.eqb_spec k h) as [->|]; [by rewrite Hi|done].
Qed.

Lemma destroy_status i t k :
  tmrm_status (esif_ccb_tmrm_destroy_timer_node_wlock i t) k = if k =? timer_handle i then Absent else tmrm_status t k.
Proof. unfold tmrm_status. rewrite find_destroy. by destruct (k =? timer_handle i). Qed.

Lemma api_init_eq m old f t :
  api_init m old f t =
  sbind (esif_ccb_timer_init m (Some old) (Some f))
    (fun r => sret (r.1, match r.2 with Some h => h | None => old end)) t.
Proof. reflexivity. Qed.

Lemma tmrm_init_law n t old f : tmrm_wf (S n) t -> exists h t',
  api_init all_mem old f t = Some ((ESIF_OK, h), t') /\ tmrm_status t h = Absent /\ tmrm_wf n t' /\
  forall k, tmrm_status t' k = if k =? h then Idle f else tmrm_status t k.
Proof.
  intros Hw. pose proof Hw as (tr & s & Es & Hr & Hc & Hl). destruct (wf_inv _ _ Hw) as [_ [Hm _]].
  destruct (init_succeeds t old f Hm) as (h & t' & E); [lia|]. pose proof (init_inv _ _ _ _ _ _ _ E) as [[Ec _] Ei].
  cbn [Z.eqb ESIF_OK] in Ei. destruct Ei as (h' & [= <-] & Hn & Ei). exists h, t'.
  split; [by rewrite api_init_eq, (sbind_some _ _ _ _ _ E)|]. split; [unfold tmrm_status; by rewrite Hn|]. split.
  - eapply (wf_step (S n) n t t' Hw); [|lia|rewrite Ei, length_app; simpl; lia].
    intros tr1 s1 <- Hr1. eexists _, _. split; [by eapply ts_init|done].
  - by apply (new_item_status h t t' (new_item f h)).
Qed.


Lemma tmrm_set_law n t h ms : tmrm_wf (S n) t -> ms <> 0 -> settable (tmrm_status t h) = true -> exists t',
  api_set all_os h ms t = Some (ESIF_OK, t') /\ tmrm_wf n t' /\
  forall k, tmrm_status t' k = if k =? h then set_status (tmrm_status t h) ms else tmrm_status t k.
Proof.
  intros Hw Hms Hst. destruct (wf_inv _ _ Hw) as [(tr0 & s0 & <- & Hi) [_ Hen]]. pose proof Hw as (_ & _ & _ & _ & Hc & _).
  pose proof (ti_counter _ _ Hi) as Hcnt. set (t := tm s0) in *.
  unfold tmrm_status in Hst. destruct (find_item h t) as [i|] eqn:Ei; [|done].
  destruct (ti_items _ _ Hi h i Ei) as [H1 H2 H3 H4].
  assert (Hm : item_marked i = false) by (destruct (item_marked i) eqn:E; [unfold item_status in Hst; by rewrite E in Hst|done]).
  assert (He : enabled t = true).
  { apply Hen. intros E. unfold esif_ccb_tmrm_find_timer_node_wlock in Ei. by rewrite E in Ei. }
  set (n0 := g_next_timer_cb_handle t) in *. change (api_set all_os h ms t) with (esif_ccb_timer_set_msec all_os (Some h) ms t).
  assert (E : exists t', esif_ccb_timer_set_msec all_os (Some h) ms t = Some (ESIF_OK, t')).
  { unfold esif_ccb_timer_set_msec. rewrite (proj2 (Z.eqb_neq 0 ms)) by done.
    unfold sbind at 1. cbn [sget]. rewrite He, Ei, Hm. cbn [negb].
    unfold esif_ccb_tmrm_get_next_cb_handle_wlock, sbind, sget, sret, smodify.
    destruct (is_in_cb i); cbn [negb]; by eexists. }
  destruct E as [t' E]. exists t'. split; [done|]. pose proof (set_inv _ _ _ _ _ _ E) as (_ & [Et|(i' & Ei' & _ & _ & Et)]).
  { exfalso. revert E. rewrite Et. unfold esif_ccb_timer_set_msec. rewrite (proj2 (Z.eqb_neq 0 ms)) by done.
    unfold sbind at 1. cbn [sget]. rewrite He, Ei, Hm. cbn [negb].
    unfold esif_ccb_tmrm_get_next_cb_handle_wlock, sbind, sget, sret, smodify. fold n0.
    rewrite (wrap_small 32 (n0 + 1)) by (unfold in_range; lia). rewrite (proj2 (Z.eqb_neq 0 (n0 + 1))) by lia.
    destruct (if negb (is_in_cb i) then _ else _) as [rc o]. intros [= _ E].
    apply (f_equal g_next_timer_cb_handle) in E. simpl in E. fold n0 in E. lia. }
  rewrite Ei in Ei'. injection Ei' as <-. cbv zeta in Et. fold n0 in Et.
  rewrite (wrap_small 32 (n0 + 1)), (proj2 (Z.eqb_neq 0 (n0 + 1))) in Et by (unfold in_range; lia). split.
  - eapply (wf_step (S n) n t t' Hw); [|rewrite Et; simpl; lia|].
    + intros tr1 s1 Es1 Hr1. eexists _, _. split; [eapply (ts_set s1 all_os h ms ESIF_OK t'); rewrite Es1; [|done]|done].
      fold n0. lia.
    + rewrite Et, items_update. rewrite length_fmap. change (items (with_next_cb (n0 + 1) t)) with (items t). lia.
  - intros k. rewrite Et. rewrite (update_status h _ (with_next_cb (n0 + 1) t) k i Ei) by done.
    unfold tmrm_status at 2. rewrite Ei. change (tmrm_status (with_next_cb (n0 + 1) t) k) with (tmrm_status t k).
    destruct (k =? h); [|done]. unfold item_status. simpl. rewrite Hm.
    destruct (is_in_cb i) eqn:Ecb; cbn [negb]; [by destruct (set_is_pending (timer_obj i))|].
    simpl. rewrite Z.eqb_refl, (proj2 (Z.eqb_neq (n0 + 1) 0)) by lia. simpl.
    destruct (os_timer (timer_obj i)) as [[c ns]|]; [|done]. by destruct (_ && _).
Qed.

Lemma tmrm_kill_law n t h : tmrm_wf n t -> exists rc t',
  api_kill h t = Some (rc, t') /\ tmrm_wf n t' /\
  forall k, tmrm_status t' k = if k =? h then kill_status (tmrm_status t h) else tmrm_status t k.
Proof.
  intros Hw. destruct (wf_inv _ _ Hw) as [(tr0 & s0 & <- & Hi) [_ Hen]]. set (t := tm s0) in *.
  change (api_kill h t) with (esif_ccb_timer_kill_w_event true (Some h) None t).
  destruct (esif_ccb_timer_kill_w_event true (Some h) None t) as [[rc t']|] eqn:E; cycle 1.
  { exfalso. revert E. unfold esif_ccb_timer_kill_w_event, sbind, sget, sret, smodify.
    destruct (enabled t); [|done]. destruct (find_item h t) as [i|]; [|done]. by destruct (is_in_cb i). }
  exists rc, t'. split; [done|]. pose proof (kill_inv _ _ _ _ _ _ E) as [Ec Et].
  assert (Hstep : forall tr s, tm s = t -> tsys_run tr s -> exists ev s', tsys_step s ev s' /\ tm s' = t').
  { intros tr1 s1 Es1 Hr1. eexists _, _. split; [eapply (ts_kill s1 true h None rc t'); by rewrite Es1|done]. }
  destruct (find_item h t) as [i|] eqn:Ei; cycle 1.
  { assert (t' = t) as -> by (by destruct (enabled t); destruct Et). split; [done|]. intros k.
    destruct (Z.eqb_spec k h) as [->|]; [|done]. unfold tmrm_status. by rewrite Ei. }
  rewrite Hen in Et by (intros En; unfold esif_ccb_tmrm_find_timer_node_wlock in Ei; by rewrite En in Ei).
  destruct Et as [_ Et]. pose proof (find_item_handle _ _ _ Ei) as Eh. destruct (ti_items _ _ Hi h i Ei) as [H1 H2 _ _].
  set (i' := mark_item [] i) in Et. split.
  - eapply (wf_step n n t t' Hw Hstep); [lia|]. destruct (is_in_cb i); rewrite Et.
    + rewrite items_update, length_fmap. lia.
    + rewrite items_destroy, items_update. pose proof (length_filter (fun j => timer_handle j <> timer_handle i') ((fun j => if h =? timer_handle j then i' else j) <$> items t)) as Hl.
      rewrite length_fmap in Hl. lia.
  - intros k. unfold tmrm_status at 2. rewrite Ei. unfold item_status at 1.
    destruct (is_in_cb i) eqn:Ecb; rewrite Et.
    + rewrite (update_status h _ t k i Ei) by done. destruct (k =? h); [|done]. unfold item_status. simpl.
      destruct (item_marked i); [done|]. by destruct (set_is_pending (timer_obj i)).
    + rewrite destroy_status, (update_status h _ t k i Ei) by done. change (timer_handle i') with (timer_handle i). rewrite Eh.
      destruct (k =? h); [|done]. destruct (item_marked i) eqn:Em; [specialize (H2 eq_refl); congruence|].
      destruct (os_timer (timer_obj i)) as [[c ns]|]; [|done]. by destruct (_ && _).
Qed.

Lemma tmrm_begin_eq cb t :
  api_begin cb t =
  sbind (esif_ccb_tmrm_callback_begin cb)
    (fun r => sret (match r with Some i => Some (timer_handle i, function_ptr (timer_obj i)) | None => None end)) t.
Proof. reflexivity. Qed.

Lemma tmrm_begin_law n t h f ms : tmrm_wf n t -> tmrm_status t h = Armed f ms ->
  (exists cb t', api_begin cb t = Some (Some (h, f), t')) /\
  forall cb f' t', api_begin cb t = Some (Some (h, f'), t') ->
    f' = f /\ tmrm_wf n t' /\ forall k, tmrm_status t' k = if k =? h then InCb f else tmrm_status t k.
Proof.
  intros Hw Hst. destruct (wf_inv _ _ Hw) as [(tr0 & s0 & <- & Hi) _]. set (t := tm s0) in *.
  unfold tmrm_status in Hst. destruct (find_item h t) as [i|] eqn:Ei; [|done].
  destruct (ti_items _ _ Hi h i Ei) as [H1 H2 H3 H4]. pose proof (find_item_handle _ _ _ Ei) as Eh.
  unfold item_status in Hst. destruct (item_marked i) eqn:Em; [done|].
  destruct (is_in_cb i) eqn:Ecb; [by destruct (set_is_pending (timer_obj i))|].
  destruct (os_timer (timer_obj i)) as [[cb ns]|] eqn:Eos; [|done].
  destruct ((cb =? timer_cb_handle i) && negb (cb =? 0)) eqn:Eb; [|done]. injection Hst as <- <-.
  apply andb_true_iff in Eb as [E1%Z.eqb_eq E2%negb_true_iff%Z.eqb_neq].
  set (i' := with_in_cb true (with_cb_handle 0 i)).
  assert (Eby : esif_ccb_tmrm_find_timer_node_by_cb_wlock cb t = Some i).
  { destruct (esif_ccb_tmrm_find_timer_node_by_cb_wlock cb t) as [j|] eqn:Ej.
    - destruct (find_by_cb_find cb t j (ti_nodup _ _ Hi) Ej) as [Hj Hcj].
      assert (timer_handle j = h) as Ejh by (apply (ti_cbs _ _ Hi _ _ j i Hj Ei); congruence). congruence.
    - exfalso. by apply (find_by_cb_none cb t h i Ej Ei). }
  split.
  { exists cb, (update_node h (fun _ => i') t). rewrite tmrm_begin_eq.
    unfold esif_ccb_tmrm_callback_begin, sbind, sget, smodify, sret. rewrite Eby, Eh. simpl. by rewrite Eh. }
  intros cb2 f2 t'. rewrite tmrm_begin_eq. unfold esif_ccb_tmrm_callback_begin, sbind, sget, smodify, sret.
  destruct (esif_ccb_tmrm_find_timer_node_by_cb_wlock cb2 t) as [j|] eqn:Ej; [|done].
  destruct (find_by_cb_find cb2 t j (ti_nodup _ _ Hi) Ej) as [Hj Hcj]. intros [= Ejh <- <-].
  rewrite Ejh in Hj. rewrite Ei in Hj. injection Hj as <-. rewrite Eh. fold i'. split; [done|split].
  - eapply (wf_step n n t _ Hw); [|simpl; lia|rewrite items_update, length_fmap; lia].
    intros tr1 s1 Es1 Hr1. eexists _, _. split; [apply (ts_fire s1 cb (Some i') (update_node h (fun _ => i') t))|done].
    + destruct (tsys_run_inv _ _ Hr1) as [Hi1 _]. apply (ti_os _ _ Hi1), (os_handles_find _ _ (ti_nodup _ _ Hi1)).
      rewrite Es1. eauto.
    + rewrite Es1. unfold esif_ccb_tmrm_callback_begin, sbind, sget, smodify, sret. by rewrite Eby, Eh.
  - intros k. rewrite (update_status h _ t k i Ei) by done. destruct (k =? h); [|done].
    unfold item_status. simpl. rewrite Em. destruct (set_is_pending (timer_obj i)) eqn:Ep; [|done].
    destruct (H4 eq_refl). congruence.
Qed.

Lemma tmrm_end_law n t h : tmrm_wf n t ->
  match tmrm_status t h with InCb _ | InCbPending _ _ | Dying => True | _ => False end -> exists t',
  api_end all_os h t = Some (tt, t') /\ tmrm_wf n t' /\
  forall k, tmrm_status t' k = if k =? h then end_status (tmrm_status t h) else tmrm_status t k.
Proof.
  intros Hw Hst. destruct (wf_inv _ _ Hw) as [(tr0 & s0 & <- & Hi) _]. set (t := tm s0) in *.
  change (api_end all_os h t) with (esif_ccb_tmrm_callback_end all_os h t).
  unfold tmrm_status in Hst. destruct (find_item h t) as [i|] eqn:Ei; [|done].
  destruct (ti_items _ _ Hi h i Ei) as [H1 H2 H3 H4]. pose proof (find_item_handle _ _ _ Ei) as Eh.
  assert (Hcb : is_in_cb i = true).
  { destruct (is_in_cb i) eqn:Ecb; [done|]. unfold item_status in Hst. destruct (item_marked i); [by apply H2|].
    rewrite Ecb in Hst. destruct (os_timer (timer_obj i)) as [[c ns]|]; [by destruct (_ && _)|done]. }
  destruct (esif_ccb_tmrm_callback_end all_os h t) as [[[] t']|] eqn:E; cycle 1.
  { exfalso. revert E. unfold esif_ccb_tmrm_callback_end, sbind, sget, smodify. rewrite Ei.
    change (item_marked (with_in_cb false i)) with (item_marked i). by destruct (item_marked i). }
  exists t'. split; [done|]. pose proof (end_inv _ _ _ _ E) as (i0 & Ei0 & Et). rewrite Ei in Ei0. injection Ei0 as <-.
  cbv zeta in Et. set (i' := with_in_cb false i) in Et.
  assert (Hlen : (length (items t') <= length (items t))%nat).
  { destruct (item_marked i); rewrite Et.
    - rewrite items_destroy, items_update.
      pose proof (length_filter (fun j => timer_handle j <> timer_handle i') ((fun j => if h =? timer_handle j then i' else j) <$> items t)) as Hl.
      by rewrite length_fmap in Hl.
    - by rewrite !items_update, !length_fmap. }
  assert (Hcnt : g_next_timer_cb_handle t' = g_next_timer_cb_handle t).
  { destruct (item_marked i); rewrite Et; [|done]. by rewrite (proj1 (proj2 (proj2 (proj2 (destroy_rest _ _))))). }
  split.
  - eapply (wf_step n n t t' Hw); [|lia|lia]. intros tr1 s1 Es1 Hr1. eexists _, _. split; [apply (ts_end s1 all_os h t'); [|by rewrite Es1]|done].
    destruct (tsys_run_inv _ _ Hr1) as [Hi1 _]. apply (ti_running _ _ Hi1). rewrite Es1. eauto.
  - intros k. unfold tmrm_status at 2. rewrite Ei. unfold item_status at 1. rewrite Hcb.
    destruct (item_marked i) eqn:Em; rewrite Et.
    + rewrite destroy_status, (update_status h _ t k i Ei) by done. change (timer_handle i') with (timer_handle i). rewrite Eh.
      by destruct (k =? h).
    + assert (Ei2 : find_item h (update_node h (fun _ => i') t) = Some i') by by rewrite find_update, Z.eqb_refl, Ei.
      rewrite (update_status h _ (update_node h (fun _ => i') t) k i' Ei2) by done.
      rewrite (update_status h _ t k i Ei) by done. destruct (k =? h); [|done].
      unfold item_status, esif_ccb_timer_obj_set_pending_timeout. simpl. rewrite Em.
      destruct (set_is_pending (timer_obj i)) eqn:Ep.
      * destruct (H4 eq_refl) as (_ & Eo & Hz). simpl. by rewrite Eo, Z.eqb_refl, (proj2 (Z.eqb_neq _ _)).
      * cbn [snd]. destruct (os_timer (timer_obj i)) as [[c ns]|] eqn:Eos; [|done].
        destruct (Z.eqb_spec c (timer_cb_handle i)) as [->|]; [|done]. exfalso. apply (H3 Hcb).
        apply (ti_os _ _ Hi), (os_handles_find _ _ (ti_nodup _ _ Hi)). eauto.
Qed.

#[export] Instance tmrm_laws : TimerLaws tmrm := {|
  status := tmrm_status;
  wf := tmrm_wf;
  wf_weaken := wf_weaken_tmrm;
  init_law := tmrm_init_law;
  set_zero_law := fun os t h => eq_refl;
  set_law := tmrm_set_law;
  kill_law := tmrm_kill_law;
  begin_law := tmrm_begin_law;
  end_law := tmrm_end_law
|}.
