(* ===== verification/Upsm.v ===== *)
(** * The user presence state machine:
    ESIF/Products/ESIF_UF/Sources/esif_uf_upsm.c

    The machine turns the presence sensor's events and the system's user
    interaction events into platform presence events and a correlation state.
    Changes of the sensor can be held back for a stability window; a negative
    correlation is reset some time after the user has left.

    Every handler and timer callback is one critical section under [smLock].
    The timers are used through the interface of TimerApi.v.  What the machine
    signals is kept in the order of signalling; the outcome of each signal, of
    the registrations and of the allocations and system calls are inputs. *)

From S2P Require Import Prelude EsifData Timer TimerApi.
From stdpp Require Import list.
Local Open Scope Z_scope.
Local Open Scope dptf_scope.

Definition ESIF_UPSM_DEFAULT_STABILITY_WINDOW : Z := 5000.
Definition STABILITY_WINDOW_MAX : Z := 15000.
Definition ESIF_UPSM_CORRELATION_RESET_TIME : Z := 120000.

Definition UP_SENSOR_STATE_NOT_PRESENT : Z := 0.
Definition UP_SENSOR_STATE_DISENGAGED : Z := 1.
Definition UP_SENSOR_STATE_ENGAGED : Z := 2.
Definition UP_SENSOR_STATE_INVALID : Z := 99.

Definition UP_STATE_ENGAGED : Z := 2.
Definition UP_STATE_FACE_ENGAGED : Z := 3.

Definition UP_CORRELATION_STATE_NEGATIVE : Z := 0.
Definition UP_CORRELATION_STATE_POSITIVE : Z := 1.

Definition ESIF_EVENT_SENSOR_USER_PRESENCE_CHANGED : Z := 111.
Definition ESIF_EVENT_OS_USER_INTERACTION_CHANGED : Z := 156.

Definition GET_NEGATIVE_EVENT_FILTERING_STATE : Z := 724.
Definition GET_POSITIVE_EVENT_FILTERING_STATE : Z := 686.
Definition GET_NOT_PRESENT_STABILITY_WINDOW : Z := 739.
Definition GET_DISENGAGED_STABILITY_WINDOW : Z := 737.
Definition GET_PRESENT_STABILITY_WINDOW : Z := 733.

(** The sensor side of [EsifUpsm], then its filter settings and timer, then
    the correlation side. *)
Record sensor_part : Type := mk_sensor {
  curSensorState : Z; filteredSensorState : Z; queuedSensorState : Z
}.
Record filter_part : Type := mk_filter {
  negativeEventFilteringEnabled : bool; positiveEventFilteringEnabled : bool;
  notPresentStabilityWindow : Z; disengagedStabilityWindow : Z; presentStabilityWindow : Z;
  eventFilteringTimer : Z; eventFilteringEnabled : bool; eventFilteringTimerActive : bool
}.
Record correlation_part : Type := mk_correlation {
  interacting : bool; correlationState : Z;
  correlationResetTimer : Z; correlationResetEnabled : bool; correlationResetTimerActive : bool
}.
Record EsifUpsm : Type := mk_EsifUpsm {
  refCount : Z; sensor : sensor_part; filt : filter_part; corr : correlation_part
}.

(** The two events the machine signals, with their data. *)
Inductive signal : Type :=
  | Presence (state : Z)
  | Correlation (state : Z).

Record env : Type := mk_env {
  e_init : init_mem; e_os : os_ok;
  e_signal : list signal -> signal -> Z;
  e_register : Z -> Z;
  e_primitive : Z -> Z * Z
}.

Definition STABILITY_CALLBACK : Z := 1.
Definition CORRELATION_CALLBACK : Z := 2.

Section Upsm.
Context {T : Type} {api : TimerApi T}.

Record ust : Type := mk_ust { g_upsm : EsifUpsm; timers : T; sent : list signal }.

Abbreviation UM := (SM ust).

Definition mod_upsm (f : EsifUpsm -> EsifUpsm) : UM unit :=
  smodify (fun s => mk_ust (f (g_upsm s)) (timers s) (sent s)).
Definition mod_sensor (f : sensor_part -> sensor_part) : UM unit :=
  mod_upsm (fun u => mk_EsifUpsm (refCount u) (f (sensor u)) (filt u) (corr u)).
Definition mod_filter (f : filter_part -> filter_part) : UM unit :=
  mod_upsm (fun u => mk_EsifUpsm (refCount u) (sensor u) (f (filt u)) (corr u)).
Definition mod_corr (f : correlation_part -> correlation_part) : UM unit :=
  mod_upsm (fun u => mk_EsifUpsm (refCount u) (sensor u) (filt u) (f (corr u))).
Definition with_refCount (n : Z) (u : EsifUpsm) : EsifUpsm := mk_EsifUpsm n (sensor u) (filt u) (corr u).

Definition set_cur (x : Z) (s : sensor_part) : sensor_part := mk_sensor x (filteredSensorState s) (queuedSensorState s).
Definition set_filtered (x : Z) (s : sensor_part) : sensor_part := mk_sensor (curSensorState s) x (queuedSensorState s).
Definition set_queued (x : Z) (s : sensor_part) : sensor_part := mk_sensor (curSensorState s) (filteredSensorState s) x.
Definition set_filter_timer (h : Z) (enabled active : bool) (f : filter_part) : filter_part :=
  mk_filter (negativeEventFilteringEnabled f) (positiveEventFilteringEnabled f) (notPresentStabilityWindow f)
    (disengagedStabilityWindow f) (presentStabilityWindow f) h enabled active.
Definition set_active (b : bool) (f : filter_part) : filter_part :=
  set_filter_timer (eventFilteringTimer f) (eventFilteringEnabled f) b f.
Definition set_interacting (b : bool) (c : correlation_part) : correlation_part :=
  mk_correlation b (correlationState c) (correlationResetTimer c) (correlationResetEnabled c) (correlationResetTimerActive c).
Definition set_correlation (x : Z) (c : correlation_part) : correlation_part :=
  mk_correlation (interacting c) x (correlationResetTimer c) (correlationResetEnabled c) (correlationResetTimerActive c).
Definition set_corr_timer (h : Z) (enabled active : bool) (c : correlation_part) : correlation_part :=
  mk_correlation (interacting c) (correlationState c) h enabled active.

Definition on_timers {X} (m : SM T X) : UM X :=
  fun s => match m (timers s) with Some (x, t) => Some (x, mk_ust (g_upsm s) t (sent s)) | None => None end.

Definition get_upsm : UM EsifUpsm := fun s => Some (g_upsm s, s).

Definition EsifEventMgr_SignalEvent (v : env) (e : signal) : UM Z :=
  fun s => let rc := e_signal v (sent s) e in
           Some (rc, if rc =? ESIF_OK then mk_ust (g_upsm s) (timers s) (sent s ++ [e]) else s).

(* ------------------------------------------------------------------ *)
(** ** Signals *)

Definition resolve (state : Z) (is_interacting : bool) : Z :=
  if state =? UP_SENSOR_STATE_ENGAGED then UP_STATE_FACE_ENGAGED
  else if negb (state =? UP_SENSOR_STATE_INVALID) && is_interacting then UP_STATE_ENGAGED
  else state.

Definition EsifUpsm_SendPresenceEvent (v : env) (state : Z) : UM Z :=
  let! u := get_upsm in
  EsifEventMgr_SignalEvent v (Presence (resolve state (interacting (corr u)))).

Definition EsifUpsm_SendCorrelationEvent (v : env) (state : Z) : UM Z :=
  EsifEventMgr_SignalEvent v (Correlation state).

(* ------------------------------------------------------------------ *)
(** ** The correlation reset timer and the correlation *)

Definition EsifUpsm_EnableCorrelationResetTimer_SmLocked (v : env) : UM Z :=
  let! u := get_upsm in
  if negb (correlationResetEnabled (corr u)) then
    let! r := on_timers (api_init (e_init v) (correlationResetTimer (corr u)) CORRELATION_CALLBACK) in
    mod_corr (fun c => set_corr_timer r.2 (r.1 =? ESIF_OK) (correlationResetTimerActive c) c) ;!
    sret r.1
  else sret ESIF_OK.

Definition EsifUpsm_StartCorrelationResetTimer_SmLocked (v : env) : UM Z :=
  let! u := get_upsm in
  let! rc := on_timers (api_set (e_os v) (correlationResetTimer (corr u)) ESIF_UPSM_CORRELATION_RESET_TIME) in
  (if rc =? ESIF_OK then mod_corr (fun c => set_corr_timer (correlationResetTimer c) (correlationResetEnabled c) true c)
   else sret tt) ;!
  sret rc.

Definition EsifUpsm_StopCorrelationResetTimer_SmLocked : UM unit :=
  let! u := get_upsm in
  on_timers (api_kill (correlationResetTimer (corr u))) ;!
  mod_corr (fun c => set_corr_timer (correlationResetTimer c) false false c).

Definition stop_reset_if_active : UM unit :=
  let! u := get_upsm in
  if correlationResetTimerActive (corr u) then EsifUpsm_StopCorrelationResetTimer_SmLocked else sret tt.

(** The end of the evaluation: [r] is the status so far and the new correlation
    state. *)
Definition update_correlation (v : env) (is_interacting : bool) (r : Z * Z) : UM Z :=
  let '(rc, newState) := r in
  mod_corr (set_interacting is_interacting) ;!
  let! u := get_upsm in
  if negb (newState =? correlationState (corr u)) then
    mod_corr (set_correlation newState) ;!
    EsifUpsm_SendCorrelationEvent v newState
  else sret rc.

Definition EsifUpsm_EvaluateCorrelation_SmLocked (v : env) (is_interacting : bool) : UM Z :=
  let! u := get_upsm in
  let cur := curSensorState (sensor u) in
  let! r :=
    (if cur =? UP_SENSOR_STATE_ENGAGED then
       stop_reset_if_active ;! sret (ESIF_OK, UP_CORRELATION_STATE_POSITIVE)
     else if is_interacting then
       stop_reset_if_active ;!
       let! rc := (if negb (interacting (corr u)) && (cur <? UP_SENSOR_STATE_ENGAGED) then
                     mod_corr (set_interacting is_interacting) ;!
                     EsifUpsm_SendPresenceEvent v cur
                   else sret ESIF_OK) in
       sret (rc, UP_CORRELATION_STATE_NEGATIVE)
     else
       let! rc :=
         (if (correlationState (corr u) =? UP_CORRELATION_STATE_NEGATIVE) && (cur =? UP_SENSOR_STATE_NOT_PRESENT) then
            if negb (correlationResetTimerActive (corr u)) then
              let! rc := EsifUpsm_EnableCorrelationResetTimer_SmLocked v in
              if rc =? ESIF_OK then EsifUpsm_StartCorrelationResetTimer_SmLocked v else sret rc
            else sret ESIF_OK
          else if cur =? UP_SENSOR_STATE_DISENGAGED then stop_reset_if_active ;! sret ESIF_OK
          else sret ESIF_OK) in
       let! rc := (if interacting (corr u) then
                     mod_corr (set_interacting is_interacting) ;!
                     EsifUpsm_SendPresenceEvent v cur
                   else sret rc) in
       sret (rc, correlationState (corr u))) in
  update_correlation v is_interacting r.

Definition EsifUpsm_CorrelationResetCallback (v : env) : UM unit :=
  mod_corr (fun c => set_correlation UP_CORRELATION_STATE_POSITIVE
                       (set_corr_timer (correlationResetTimer c) (correlationResetEnabled c) false c)) ;!
  EsifUpsm_SendCorrelationEvent v UP_CORRELATION_STATE_POSITIVE ;!
  let! u := get_upsm in
  EsifUpsm_SendPresenceEvent v (curSensorState (sensor u)) ;!
  sret tt.

(* ------------------------------------------------------------------ *)
(** ** Reporting and filtering sensor events *)

Definition EsifUpsm_SendEvents (v : env) : UM Z :=
  let! u := get_upsm in
  let! rc := EsifUpsm_SendPresenceEvent v (curSensorState (sensor u)) in
  if negb (rc =? ESIF_OK) then sret rc else
  (if correlationResetTimerActive (corr u) && negb (curSensorState (sensor u) =? UP_SENSOR_STATE_NOT_PRESENT) then
     EsifUpsm_StopCorrelationResetTimer_SmLocked
   else sret tt) ;!
  EsifUpsm_EvaluateCorrelation_SmLocked v (interacting (corr u)).

Definition EsifUpsm_EnableEventFiltering_SmLocked (v : env) : UM Z :=
  let! u := get_upsm in
  if negb (eventFilteringEnabled (filt u)) then
    let! r := on_timers (api_init (e_init v) (eventFilteringTimer (filt u)) STABILITY_CALLBACK) in
    mod_filter (fun f => set_filter_timer r.2 (if r.1 =? ESIF_OK then true else eventFilteringEnabled f)
                           (eventFilteringTimerActive f) f) ;!
    sret r.1
  else sret ESIF_OK.

Definition EsifUpsm_StopEventFiltering_SmLocked : UM unit :=
  let! u := get_upsm in
  on_timers (api_kill (eventFilteringTimer (filt u))) ;!
  mod_filter (fun f => set_filter_timer (eventFilteringTimer f) false false f).

Definition EsifUpsm_ReportSensorEvent_SmLocked (v : env) (sensorData : Z) : UM Z :=
  mod_sensor (fun _ => mk_sensor sensorData UP_SENSOR_STATE_INVALID UP_SENSOR_STATE_INVALID) ;!
  let! u := get_upsm in
  (if eventFilteringEnabled (filt u) then EsifUpsm_StopEventFiltering_SmLocked else sret tt) ;!
  EsifUpsm_SendEvents v.

Definition window (f : filter_part) (sensorState : Z) : Z :=
  if sensorState =? UP_SENSOR_STATE_ENGAGED then presentStabilityWindow f
  else if sensorState =? UP_SENSOR_STATE_DISENGAGED then disengagedStabilityWindow f
  else notPresentStabilityWindow f.

Definition EsifUpsm_StartEventFiltering_SmLocked (v : env) (sensorState : Z) : UM Z :=
  let! u := get_upsm in
  let! rc := on_timers (api_set (e_os v) (eventFilteringTimer (filt u)) (window (filt u) sensorState)) in
  if rc =? ESIF_OK then mod_filter (set_active true) ;! sret rc
  else
    mod_filter (set_active false) ;!
    if rc =? ESIF_E_REQUEST_DATA_OUT_OF_BOUNDS then EsifUpsm_ReportSensorEvent_SmLocked v sensorState
    else sret rc.

Definition EsifUpsm_FilterSensorEvent_SmLocked (v : env) (sensorData : Z) : UM Z :=
  let! u := get_upsm in
  if negb (eventFilteringTimerActive (filt u)) then
    mod_sensor (set_filtered sensorData) ;!
    let! rc := EsifUpsm_EnableEventFiltering_SmLocked v in
    let! u := get_upsm in
    if eventFilteringEnabled (filt u) then
      EsifUpsm_StartEventFiltering_SmLocked v (filteredSensorState (sensor u))
    else sret rc
  else
    (if sensorData <? filteredSensorState (sensor u) then mod_sensor (set_queued sensorData)
     else mod_sensor (fun s => set_queued UP_SENSOR_STATE_INVALID (set_filtered sensorData s))) ;!
    sret ESIF_OK.

Definition EsifUpsm_HandleSensorEvent_SmLocked (v : env) (sensorData : Z) : UM Z :=
  let! u := get_upsm in
  let cur := curSensorState (sensor u) in
  if negb (sensorData =? cur) then
    if (cur =? UP_SENSOR_STATE_INVALID) || (sensorData =? UP_SENSOR_STATE_INVALID) then
      EsifUpsm_ReportSensorEvent_SmLocked v sensorData
    else if sensorData =? filteredSensorState (sensor u) then
      mod_sensor (set_queued UP_SENSOR_STATE_INVALID) ;! sret ESIF_OK
    else if negativeEventFilteringEnabled (filt u) && (sensorData <? cur) then
      EsifUpsm_FilterSensorEvent_SmLocked v sensorData
    else if positiveEventFilteringEnabled (filt u) && (cur <? sensorData) then
      EsifUpsm_FilterSensorEvent_SmLocked v sensorData
    else EsifUpsm_ReportSensorEvent_SmLocked v sensorData
  else
    (if eventFilteringEnabled (filt u) then EsifUpsm_StopEventFiltering_SmLocked else sret tt) ;!
    mod_sensor (fun s => set_queued UP_SENSOR_STATE_INVALID (set_filtered UP_SENSOR_STATE_INVALID s)) ;!
    sret ESIF_OK.

Definition EsifUpsm_StabilityWindowCallback (v : env) : UM unit :=
  mod_sensor (fun s => set_cur (filteredSensorState s) s) ;!
  EsifUpsm_SendEvents v ;!
  let! u := get_upsm in
  if negb (queuedSensorState (sensor u) =? UP_SENSOR_STATE_INVALID) then
    mod_sensor (fun s => set_queued UP_SENSOR_STATE_INVALID (set_filtered (queuedSensorState s) s)) ;!
    let! u := get_upsm in
    EsifUpsm_StartEventFiltering_SmLocked v (filteredSensorState (sensor u)) ;!
    sret tt
  else
    mod_sensor (set_filtered UP_SENSOR_STATE_INVALID) ;!
    mod_filter (set_active false).

(** [event] is the type in the FPC event, [data] the event's data. *)
Definition EsifUpsm_EventCallback (v : env) (event : option Z) (data : option EsifData) : UM Z :=
  match event, data with
  | Some e, Some d =>
      match buf_ptr d with
      | Some block =>
          if data_len d <? 4 then sret ESIF_E_PARAMETER_IS_OUT_OF_BOUNDS else
          let! x := of_option (read_u32 block) in
          if e =? ESIF_EVENT_SENSOR_USER_PRESENCE_CHANGED then EsifUpsm_HandleSensorEvent_SmLocked v x
          else if e =? ESIF_EVENT_OS_USER_INTERACTION_CHANGED then
            EsifUpsm_EvaluateCorrelation_SmLocked v (negb (x =? 0))
          else sret ESIF_OK
      | None => sret ESIF_E_PARAMETER_IS_NULL
      end
  | _, _ => sret ESIF_E_PARAMETER_IS_NULL
  end.

(* ------------------------------------------------------------------ *)
(** ** Enabling and disabling *)

(** [kill_w_wait] is [kill] and then a wait until no callback of the timer runs,
    which here is over at once: no callback is inside these functions. *)
Definition EsifUpsm_DisableEventFiltering : UM unit :=
  mod_filter (fun f => set_filter_timer (eventFilteringTimer f) false false f) ;!
  let! u := get_upsm in
  on_timers (api_kill (eventFilteringTimer (filt u))) ;! sret tt.

Definition EsifUpsm_DisableCorrelationResetTimer : UM unit :=
  mod_corr (fun c => set_corr_timer (correlationResetTimer c) false false c) ;!
  let! u := get_upsm in
  on_timers (api_kill (correlationResetTimer (corr u))) ;! sret tt.

Definition EsifUpsm_SnapTimeWindowBounds (stabilityWindow : Z) : Z :=
  if stabilityWindow >? STABILITY_WINDOW_MAX then STABILITY_WINDOW_MAX else stabilityWindow.

(** [result] keeps its value when a primitive fails, which then is not used. *)
Definition EsifUpsm_GetEventFilteringSettings_SmLocked (v : env) : UM Z :=
  let bool_of (p : Z) (old : bool) :=
    if (e_primitive v p).1 =? ESIF_OK then negb (u8 (e_primitive v p).2 =? 0) else old in
  let window_of (p old : Z) :=
    if (e_primitive v p).1 =? ESIF_OK then EsifUpsm_SnapTimeWindowBounds (e_primitive v p).2 else old in
  mod_filter (fun f => mk_filter
    (bool_of GET_NEGATIVE_EVENT_FILTERING_STATE (negativeEventFilteringEnabled f))
    (bool_of GET_POSITIVE_EVENT_FILTERING_STATE (positiveEventFilteringEnabled f))
    (window_of GET_NOT_PRESENT_STABILITY_WINDOW (notPresentStabilityWindow f))
    (window_of GET_DISENGAGED_STABILITY_WINDOW (disengagedStabilityWindow f))
    (window_of GET_PRESENT_STABILITY_WINDOW (presentStabilityWindow f))
    (eventFilteringTimer f) (eventFilteringEnabled f) (eventFilteringTimerActive f)) ;!
  sret (e_primitive v GET_PRESENT_STABILITY_WINDOW).1.

Definition EsifUpsm_RegisterEvents (v : env) : Z :=
  let rc := e_register v ESIF_EVENT_SENSOR_USER_PRESENCE_CHANGED in
  if rc =? ESIF_OK then e_register v ESIF_EVENT_OS_USER_INTERACTION_CHANGED else rc.

Definition EsifUpsm_Init : UM Z :=
  mod_upsm (fun u => mk_EsifUpsm (refCount u)
    (mk_sensor UP_SENSOR_STATE_INVALID UP_SENSOR_STATE_INVALID UP_SENSOR_STATE_INVALID)
    (mk_filter false false ESIF_UPSM_DEFAULT_STABILITY_WINDOW ESIF_UPSM_DEFAULT_STABILITY_WINDOW
       ESIF_UPSM_DEFAULT_STABILITY_WINDOW
       (eventFilteringTimer (filt u)) (eventFilteringEnabled (filt u)) (eventFilteringTimerActive (filt u)))
    (mk_correlation false UP_CORRELATION_STATE_POSITIVE (correlationResetTimer (corr u))
       (correlationResetEnabled (corr u)) (correlationResetTimerActive (corr u)))) ;!
  sret ESIF_OK.

(** The unregistrations, which change no state of the machine, are left out. *)
Definition EsifUpsm_Stop : UM unit :=
  EsifUpsm_DisableEventFiltering ;! EsifUpsm_DisableCorrelationResetTimer.

Definition EsifUpsm_Enable (v : env) : UM Z :=
  mod_upsm (fun u => with_refCount (refCount u + 1) u) ;!
  let! u := get_upsm in
  let! rc := (if 1 =? refCount u then
                EsifUpsm_GetEventFilteringSettings_SmLocked v ;!
                let! u := get_upsm in
                (if negativeEventFilteringEnabled (filt u) || positiveEventFilteringEnabled (filt u) then
                   EsifUpsm_EnableEventFiltering_SmLocked v ;! sret tt
                 else sret tt) ;!
                let rc := EsifUpsm_RegisterEvents v in
                (if negb (rc =? ESIF_OK) then
                   EsifUpsm_Stop ;! mod_upsm (fun u => with_refCount (refCount u - 1) u)
                 else sret tt) ;!
                sret rc
              else sret ESIF_OK) in
  let! u := get_upsm in
  (if 1 <=? refCount u then EsifUpsm_SendEvents v ;! sret tt else sret tt) ;!
  sret rc.

Definition EsifUpsm_Disable : UM unit :=
  mod_upsm (fun u => with_refCount (refCount u - 1) u) ;!
  let! u := get_upsm in
  if refCount u <=? 0 then mod_upsm (with_refCount 0) ;! EsifUpsm_Stop else sret tt.

(** The firing of a timer: the manager's two critical sections around the
    callback function of whichever timer the callback handle belongs to. *)
Definition timer_fires (v : env) (cb : Z) : UM unit :=
  let! r := on_timers (api_begin cb) in
  match r with
  | None => sret tt
  | Some (h, f) =>
      (if f =? STABILITY_CALLBACK then EsifUpsm_StabilityWindowCallback v
       else if f =? CORRELATION_CALLBACK then EsifUpsm_CorrelationResetCallback v
       else sret tt) ;!
      on_timers (api_end (e_os v) h)
  end.
End Upsm.

(* ------------------------------------------------------------------ *)
(** ** The abstract machine: no timers, only what they are set for *)

Record pres : Type := mk_pres {
  p_cur : Z; p_inter : bool; p_corr : Z; p_reset : bool; p_sent : list signal
}.

Definition a_signal (e : signal) (a : pres) : pres :=
  mk_pres (p_cur a) (p_inter a) (p_corr a) (p_reset a) (p_sent a ++ [e]).
Definition a_presence (a : pres) : pres := a_signal (Presence (resolve (p_cur a) (p_inter a))) a.
Definition a_with_reset (b : bool) (a : pres) : pres := mk_pres (p_cur a) (p_inter a) (p_corr a) b (p_sent a).
Definition a_with_inter (b : bool) (a : pres) : pres := mk_pres (p_cur a) b (p_corr a) (p_reset a) (p_sent a).
Definition a_with_corr (x : Z) (a : pres) : pres := mk_pres (p_cur a) (p_inter a) x (p_reset a) (p_sent a).
Definition a_with_cur (x : Z) (a : pres) : pres := mk_pres x (p_inter a) (p_corr a) (p_reset a) (p_sent a).

Definition a_finish (b : bool) (new : Z) (a : pres) : pres :=
  let a := a_with_inter b a in
  if new =? p_corr a then a else a_signal (Correlation new) (a_with_corr new a).

Definition a_evaluate (b : bool) (a : pres) : pres :=
  if p_cur a =? UP_SENSOR_STATE_ENGAGED then a_finish b UP_CORRELATION_STATE_POSITIVE (a_with_reset false a)
  else if b then
    let a1 := a_with_reset false a in
    a_finish b UP_CORRELATION_STATE_NEGATIVE
      (if negb (p_inter a) && (p_cur a <? UP_SENSOR_STATE_ENGAGED) then a_presence (a_with_inter b a1) else a1)
  else
    let a1 := if (p_corr a =? UP_CORRELATION_STATE_NEGATIVE) && (p_cur a =? UP_SENSOR_STATE_NOT_PRESENT)
              then a_with_reset true a
              else if p_cur a =? UP_SENSOR_STATE_DISENGAGED then a_with_reset false a else a in
    a_finish b (p_corr a) (if p_inter a then a_presence (a_with_inter b a1) else a1).

Definition a_send_events (a : pres) : pres :=
  let a := a_presence a in
  let a := if p_reset a && negb (p_cur a =? UP_SENSOR_STATE_NOT_PRESENT) then a_with_reset false a else a in
  a_evaluate (p_inter a) a.

Definition a_correlation_reset (a : pres) : pres :=
  a_presence (a_signal (Correlation UP_CORRELATION_STATE_POSITIVE)
    (a_with_corr UP_CORRELATION_STATE_POSITIVE (a_with_reset false a))).

(** The settings are those of the filter part. *)
Record amach : Type := mk_amach { a_pres : pres; a_filtered : Z; a_queued : Z; a_active : bool }.

Definition a_report (x : Z) (m : amach) : amach :=
  mk_amach (a_send_events (a_with_cur x (a_pres m))) UP_SENSOR_STATE_INVALID UP_SENSOR_STATE_INVALID false.
Definition a_start (f : filter_part) (x : Z) (m : amach) : amach :=
  if window f x =? 0 then a_report x m else mk_amach (a_pres m) (a_filtered m) (a_queued m) true.
Definition a_filter (f : filter_part) (x : Z) (m : amach) : amach :=
  if negb (a_active m) then a_start f x (mk_amach (a_pres m) x (a_queued m) (a_active m))
  else if x <? a_filtered m then mk_amach (a_pres m) (a_filtered m) x true
  else mk_amach (a_pres m) x UP_SENSOR_STATE_INVALID true.
Definition a_handle (f : filter_part) (x : Z) (m : amach) : amach :=
  let cur := p_cur (a_pres m) in
  if negb (x =? cur) then
    if (cur =? UP_SENSOR_STATE_INVALID) || (x =? UP_SENSOR_STATE_INVALID) then a_report x m
    else if x =? a_filtered m then mk_amach (a_pres m) (a_filtered m) UP_SENSOR_STATE_INVALID (a_active m)
    else if negativeEventFilteringEnabled f && (x <? cur) then a_filter f x m
    else if positiveEventFilteringEnabled f && (cur <? x) then a_filter f x m
    else a_report x m
  else mk_amach (a_pres m) UP_SENSOR_STATE_INVALID UP_SENSOR_STATE_INVALID false.
Definition a_expire (f : filter_part) (m : amach) : amach :=
  let p := a_send_events (a_with_cur (a_filtered m) (a_pres m)) in
  if negb (a_queued m =? UP_SENSOR_STATE_INVALID) then
    a_start f (a_queued m) (mk_amach p (a_queued m) UP_SENSOR_STATE_INVALID (a_active m))
  else mk_amach p UP_SENSOR_STATE_INVALID (a_queued m) false.

(* ------------------------------------------------------------------ *)
(** ** The handlers implement the abstract machine *)

Definition good (v : env) : Prop :=
  e_init v = all_mem /\ e_os v = all_os /\ forall l e, e_signal v l e = ESIF_OK.

Definition kind (st : tstatus) : option Z :=
  match st with Idle f | Armed f _ | InCb f | InCbPending f _ => Some f | _ => None end.

Section Refinement.
Context {T : Type} {api : TimerApi T} {laws : TimerLaws T}.
Context (v : env) (Hgood : good v).

(** No timer, or one with callback [f]. *)
Definition owned (f : Z) (st : tstatus) : Prop := st = Absent \/ kind st = Some f.

(** Only timers with callback [f] change. *)
Definition frame (f : Z) (t t' : T) : Prop :=
  forall k, status t' k = status t k \/
    (owned f (status t k) /\ (owned f (status t' k) \/ status t' k = Dying)).

Record corr_ok (c : correlation_part) (t : T) : Prop := {
  co_status : correlationResetEnabled c = true -> status t (correlationResetTimer c) =
    if correlationResetTimerActive c then Armed CORRELATION_CALLBACK ESIF_UPSM_CORRELATION_RESET_TIME
    else Idle CORRELATION_CALLBACK;
  co_active : correlationResetTimerActive c = true -> correlationResetEnabled c = true;
  co_only : forall k, kind (status t k) = Some CORRELATION_CALLBACK ->
    correlationResetEnabled c = true /\ k = correlationResetTimer c
}.

(** [cb]: while the timer's own callback is running. *)
Record filter_ok (cb : bool) (f : filter_part) (t : T) : Prop := {
  fo_active : eventFilteringTimerActive f = true -> eventFilteringEnabled f = true /\
    exists ms, status t (eventFilteringTimer f) =
      if cb then InCbPending STABILITY_CALLBACK ms else Armed STABILITY_CALLBACK ms;
  fo_idle : eventFilteringEnabled f = true -> eventFilteringTimerActive f = false ->
    status t (eventFilteringTimer f) = if cb then InCb STABILITY_CALLBACK else Idle STABILITY_CALLBACK;
  fo_only : forall k, kind (status t k) = Some STABILITY_CALLBACK ->
    eventFilteringEnabled f = true /\ k = eventFilteringTimer f
}.

Definition pres_of (s : ust (T := T)) : pres :=
  mk_pres (curSensorState (sensor (g_upsm s))) (interacting (corr (g_upsm s))) (correlationState (corr (g_upsm s)))
    (correlationResetTimerActive (corr (g_upsm s))) (sent s).

Lemma frame_refl f t : frame f t t.
Proof. by left. Qed.

Lemma frame_trans f t1 t2 t3 : frame f t1 t2 -> frame f t2 t3 -> frame f t1 t3.
Proof.
  intros H1 H2 k. destruct (H1 k) as [E1|[E1 E1']], (H2 k) as [E2|[E2 E2']].
  - left. congruence.
  - right. rewrite <- E1. by split.
  - right. rewrite E2. by split.
  - by right.
Qed.

Lemma frame_at f t t' h st : (forall k, status t' k = if k =? h then st else status t k) ->
  owned f (status t h) -> owned f st \/ st = Dying -> frame f t t'.
Proof.
  intros E H1 H2 k. rewrite E. destruct (Z.eqb_spec k h) as [->|]; [by right|by left].
Qed.

Lemma frame_status f t t' k g : frame f t t' -> kind (status t k) = Some g -> g <> f -> status t' k = status t k.
Proof. intros H Hk Hg. destruct (H k) as [E|[[E|E] _]]; [done|..]; rewrite E in Hk; simplify_eq/=. Qed.

Lemma frame_kind f t t' k g : frame f t t' -> kind (status t' k) = Some g -> g <> f -> status t' k = status t k.
Proof. intros H Hk Hg. destruct (H k) as [E|[_ [[E|E]|E]]]; [done|..]; rewrite E in Hk; simplify_eq/=. Qed.

Lemma frame_dying f t t' k : frame f t t' -> status t k = Dying -> status t' k = Dying.
Proof. intros H Hk. destruct (H k) as [E|[[E|E] _]]; [congruence|..]; rewrite Hk in E; simplify_eq/=. Qed.

Lemma corr_ok_frame c t t' : frame STABILITY_CALLBACK t t' -> corr_ok c t -> corr_ok c t'.
Proof.
  intros Hf [H1 H2 H3]. split; [|done|].
  - intros He. rewrite (frame_status _ t t' _ CORRELATION_CALLBACK Hf); [by apply H1| |done].
    rewrite H1 by done. by destruct (correlationResetTimerActive c).
  - intros k Hk. apply H3. by rewrite <- (frame_kind _ t t' k CORRELATION_CALLBACK Hf Hk).
Qed.

Lemma filter_ok_frame cb f t t' : frame CORRELATION_CALLBACK t t' -> filter_ok cb f t -> filter_ok cb f t'.
Proof.
  intros Hf [H1 H2 H3]. split.
  - intros Ha. destruct (H1 Ha) as (He & ms & E). split; [done|]. exists ms.
    rewrite (frame_status _ t t' _ STABILITY_CALLBACK Hf); [done| |done]. rewrite E. by destruct cb.
  - intros He Ha. rewrite (frame_status _ t t' _ STABILITY_CALLBACK Hf); [by apply H2| |done].
    rewrite H2 by done. by destruct cb.
  - intros k Hk. apply H3. by rewrite <- (frame_kind _ t t' k STABILITY_CALLBACK Hf Hk).
Qed.

Lemma on_timers_some {X} (m : SM T X) (s : ust) x t :
  m (timers s) = Some (x, t) -> on_timers m s = Some (x, mk_ust (g_upsm s) t (sent s)).
Proof. unfold on_timers. by intros ->. Qed.

(** Signals succeed. *)
Lemma signal_spec e (s : ust (T := T)) :
  EsifEventMgr_SignalEvent v e s = Some (ESIF_OK, mk_ust (g_upsm s) (timers s) (sent s ++ [e])).
Proof. unfold EsifEventMgr_SignalEvent. destruct Hgood as (_ & _ & ->). done. Qed.

Lemma presence_spec x (s : ust (T := T)) :
  EsifUpsm_SendPresenceEvent v x s =
  Some (ESIF_OK, mk_ust (g_upsm s) (timers s) (sent s ++ [Presence (resolve x (interacting (corr (g_upsm s))))])).
Proof. unfold EsifUpsm_SendPresenceEvent. cbn [sbind get_upsm]. apply signal_spec. Qed.

(** What the operations on the correlation side leave. *)
Record corr_post (n : nat) (s s' : ust (T := T)) (a : pres) : Prop := {
  cp_wf : wf n (timers s');
  cp_ok : corr_ok (corr (g_upsm s')) (timers s');
  cp_frame : frame CORRELATION_CALLBACK (timers s) (timers s');
  cp_sensor : sensor (g_upsm s') = sensor (g_upsm s);
  cp_filt : filt (g_upsm s') = filt (g_upsm s);
  cp_ref : refCount (g_upsm s') = refCount (g_upsm s);
  cp_pres : pres_of s' = a
}.

Lemma corr_post_trans n1 n2 s1 s2 s3 a1 a2 : corr_post n1 s1 s2 a1 -> corr_post n2 s2 s3 a2 -> corr_post n2 s1 s3 a2.
Proof.
  intros [? ? ? ? ? ? ?] [? ? ? ? ? ? ?]. split; try done; try congruence. by eapply frame_trans.
Qed.

Lemma wf_le n m t : (n <= m)%nat -> wf m t -> wf n t.
Proof. induction 1; [done|]. intros H'. by apply IHle, wf_weaken. Qed.

(** A change of the correlation part that leaves its timer alone. *)
Lemma corr_post_mod n (s : ust (T := T)) c a l :
  wf n (timers s) -> corr_ok (corr (g_upsm s)) (timers s) ->
  correlationResetTimer c = correlationResetTimer (corr (g_upsm s)) ->
  correlationResetEnabled c = correlationResetEnabled (corr (g_upsm s)) ->
  correlationResetTimerActive c = correlationResetTimerActive (corr (g_upsm s)) ->
  a = mk_pres (curSensorState (sensor (g_upsm s))) (interacting c) (correlationState c) (correlationResetTimerActive c) l ->
  corr_post n s (mk_ust (mk_EsifUpsm (refCount (g_upsm s)) (sensor (g_upsm s)) (filt (g_upsm s)) c) (timers s) l) a.
Proof.
  intros Hw [H1 H2 H3] E1 E2 E3 ->. split; try done.
  - simpl. split; rewrite ?E1, ?E2, ?E3; done.
  - apply frame_refl.
Qed.

Lemma stop_reset_spec n (s : ust (T := T)) :
  wf n (timers s) -> corr_ok (corr (g_upsm s)) (timers s) -> correlationResetTimerActive (corr (g_upsm s)) = true ->
  exists s', EsifUpsm_StopCorrelationResetTimer_SmLocked s = Some (tt, s') /\
    corr_post n s s' (a_with_reset false (pres_of s)).
Proof.
  intros Hw [H1 H2 H3] Ha. unfold EsifUpsm_StopCorrelationResetTimer_SmLocked. cbn [sbind get_upsm].
  set (h := correlationResetTimer (corr (g_upsm s))).
  destruct (kill_law n (timers s) h Hw) as (rc & t' & E & Hw' & Ht).
  rewrite (sbind_some _ _ _ _ _ (on_timers_some _ _ _ _ E)). eexists. split; [done|].
  assert (Est : status (timers s) h = Armed CORRELATION_CALLBACK ESIF_UPSM_CORRELATION_RESET_TIME)
    by (unfold h; rewrite H1 by auto; by rewrite Ha).
  split; try done; cbn [timers g_upsm corr].
  - split; [done|done|]. cbn [set_corr_timer correlationResetEnabled correlationResetTimer]. intros k. rewrite Ht, Est.
    destruct (Z.eqb_spec k h) as [->|Hk]; [done|]. intros Hkk. destruct (H3 k Hkk). done.
  - eapply frame_at; [exact Ht|rewrite Est; by right|rewrite Est; by left; left].
Qed.

Lemma stop_if_active_spec n (s : ust (T := T)) :
  wf n (timers s) -> corr_ok (corr (g_upsm s)) (timers s) ->
  exists s', stop_reset_if_active s = Some (tt, s') /\ corr_post n s s' (a_with_reset false (pres_of s)).
Proof.
  intros Hw Hc. unfold stop_reset_if_active. cbn [sbind get_upsm].
  destruct (correlationResetTimerActive (corr (g_upsm s))) eqn:Ea; [by apply stop_reset_spec|].
  exists s. split; [done|]. split; try done; [apply frame_refl|]. unfold pres_of, a_with_reset. simpl. by rewrite Ea.
Qed.

Lemma start_reset_spec n (s : ust (T := T)) :
  wf (S (S n)) (timers s) -> corr_ok (corr (g_upsm s)) (timers s) ->
  correlationResetTimerActive (corr (g_upsm s)) = false ->
  exists s', (let! rc := EsifUpsm_EnableCorrelationResetTimer_SmLocked v in
              if rc =? ESIF_OK then EsifUpsm_StartCorrelationResetTimer_SmLocked v else sret rc)%dptf s = Some (ESIF_OK, s') /\
    corr_post n s s' (a_with_reset true (pres_of s)).
Proof.
  intros Hw [H1 H2 H3] Ha. destruct Hgood as (Ei & Eo & _).
  assert (He : exists s1, EsifUpsm_EnableCorrelationResetTimer_SmLocked v s = Some (ESIF_OK, s1) /\
    wf (S n) (timers s1) /\ status (timers s1) (correlationResetTimer (corr (g_upsm s1))) = Idle CORRELATION_CALLBACK /\
    (forall k, kind (status (timers s1) k) = Some CORRELATION_CALLBACK -> k = correlationResetTimer (corr (g_upsm s1))) /\
    frame CORRELATION_CALLBACK (timers s) (timers s1) /\ sent s1 = sent s /\
    correlationResetEnabled (corr (g_upsm s1)) = true /\
    exists h, g_upsm s1 = mk_EsifUpsm (refCount (g_upsm s)) (sensor (g_upsm s)) (filt (g_upsm s))
      (set_corr_timer h true false (corr (g_upsm s)))).
  { unfold EsifUpsm_EnableCorrelationResetTimer_SmLocked. cbn [sbind get_upsm].
    destruct (correlationResetEnabled (corr (g_upsm s))) eqn:Een; cbn [negb].
    - exists s. split; [done|]. split; [by apply wf_weaken|]. specialize (H1 eq_refl). rewrite Ha in H1.
      split; [done|]. split; [intros k Hk; by apply H3|]. split; [apply frame_refl|]. split; [done|split; [done|]].
      exists (correlationResetTimer (corr (g_upsm s))). destruct s as [[? ? ? [? ? ? ? ?]] ? ?]. simpl in *. by subst.
    - destruct (init_law (S n) (timers s) (correlationResetTimer (corr (g_upsm s))) CORRELATION_CALLBACK Hw)
        as (h & t' & E & Hab & Hw' & Ht). rewrite Ei.
      rewrite (sbind_some _ _ _ _ _ (on_timers_some _ _ _ _ E)). eexists. split; [done|]. cbn. split; [done|].
      split; [by rewrite Ht, Z.eqb_refl|]. split; [|split; [|split; [done|split; [done|]]]].
      + intros k. rewrite Ht. destruct (Z.eqb_spec k h); [done|]. intros Hk. by destruct (H3 k Hk).
      + eapply frame_at; [exact Ht|rewrite Hab; by left|by left; right].
      + exists h. by rewrite Ha. }
  destruct He as (s1 & E1 & Hw1 & Hst & Hon & Hfr & Hse & Hen1 & h & Eg). rewrite (sbind_some _ _ _ _ _ E1). cbn [Z.eqb ESIF_OK].
  unfold EsifUpsm_StartCorrelationResetTimer_SmLocked. cbn [sbind get_upsm].
  set (h1 := correlationResetTimer (corr (g_upsm s1))) in *.
  destruct (set_law n (timers s1) h1 ESIF_UPSM_CORRELATION_RESET_TIME Hw1) as (t' & E & Hw' & Ht); [done|by rewrite Hst|].
  rewrite Eo. rewrite (sbind_some _ _ _ _ _ (on_timers_some _ _ _ _ E)). eexists. split; [done|].
  rewrite Hst in Ht. cbn [set_status] in Ht.
  split; cbn [timers g_upsm corr refCount sensor filt]; try done; try by rewrite Eg.
  - split; cbn [set_corr_timer correlationResetEnabled correlationResetTimer correlationResetTimerActive]; [|done|].
    + intros _. fold h1. by rewrite Ht, Z.eqb_refl.
    + fold h1. intros k. rewrite Ht. destruct (Z.eqb_spec k h1) as [->|Hk]; [done|]. intros Hkk. destruct Hk. by apply Hon.
  - eapply frame_trans; [exact Hfr|]. eapply frame_at; [exact Ht|rewrite Hst; by right|by left; right].
  - unfold pres_of. cbn [g_upsm corr sensor sent]. by rewrite Eg, Hse.
Qed.

(** Running a computation to a result. *)
Definition runs {X} (m : SM (ust (T := T)) X) (s : ust) (Q : X -> ust -> Prop) : Prop :=
  exists x s', m s = Some (x, s') /\ Q x s'.

Lemma runs_bind {X Y} (m : SM ust X) (f : X -> SM ust Y) s Q :
  runs m s (fun x s1 => runs (f x) s1 Q) -> runs (sbind m f) s Q.
Proof. intros (x & s1 & E & y & s2 & E2 & HQ). exists y, s2. split; [by rewrite (sbind_some _ _ _ _ _ E)|done]. Qed.

Lemma runs_ret {X} (x : X) s (Q : X -> ust -> Prop) : Q x s -> runs (sret x) s Q.
Proof. by exists x, s. Qed.

Lemma runs_get {Y} (f : EsifUpsm -> SM ust Y) s Q : runs (f (g_upsm s)) s Q -> runs (sbind get_upsm f) s Q.
Proof. intros (y & s2 & E & HQ). by exists y, s2. Qed.

Lemma runs_mono {X} (m : SM ust X) s (Q Q' : X -> ust -> Prop) :
  (forall x s', Q x s' -> Q' x s') -> runs m s Q -> runs m s Q'.
Proof. intros H (x & s' & E & HQ). exists x, s'. auto. Qed.

(** One more operation on the correlation side. *)
Lemma runs_corr n {X} (m : SM ust X) s s0 a0 (F : pres -> pres) (Q : X -> ust -> Prop) (R : X -> Prop) :
  corr_post n s s0 a0 -> runs m s0 (fun x s1 => R x /\ corr_post n s0 s1 (F (pres_of s0))) ->
  (forall x s1, R x -> corr_post n s s1 (F a0) -> Q x s1) -> runs m s0 Q.
Proof.
  intros Hp Hm HQ. eapply runs_mono; [|exact Hm]. intros x s1 [HR Hp1]. apply HQ; [done|].
  rewrite (cp_pres _ _ _ _ Hp) in Hp1. by eapply corr_post_trans.
Qed.

Lemma corr_post_refl n s : wf n (timers s) -> corr_ok (corr (g_upsm s)) (timers s) -> corr_post n s s (pres_of s).
Proof. intros Hw Hc. split; try done. apply frame_refl. Qed.

Lemma interacting_runs n b s : wf n (timers s) -> corr_ok (corr (g_upsm s)) (timers s) ->
  runs (mod_corr (set_interacting b)) s (fun _ s1 => True /\ corr_post n s s1 (a_with_inter b (pres_of s))).
Proof. intros Hw Hc. eexists _, _. split; [done|]. split; [done|]. by apply corr_post_mod. Qed.

Lemma presence_runs n x s : wf n (timers s) -> corr_ok (corr (g_upsm s)) (timers s) ->
  runs (EsifUpsm_SendPresenceEvent v x) s (fun rc s1 => rc = ESIF_OK /\
    corr_post n s s1 (a_signal (Presence (resolve x (p_inter (pres_of s)))) (pres_of s))).
Proof.
  intros Hw Hc. eexists _, _. split; [apply presence_spec|]. split; [done|].
  destruct s as [[r se f c] t l]. by apply (corr_post_mod n (mk_ust (mk_EsifUpsm r se f c) t l) c).
Qed.

Lemma stop_runs n s : wf n (timers s) -> corr_ok (corr (g_upsm s)) (timers s) ->
  runs stop_reset_if_active s (fun _ s1 => True /\ corr_post n s s1 (a_with_reset false (pres_of s))).
Proof. intros Hw Hc. destruct (stop_if_active_spec n s Hw Hc) as (s1 & E & Hp). by exists tt, s1. Qed.

Lemma update_correlation_runs n b rc new s s0 a0 :
  corr_post n s s0 a0 -> runs (update_correlation v b (rc, new)) s0 (fun _ s1 => corr_post n s s1 (a_finish b new a0)).
Proof.
  intros Hp. unfold update_correlation. apply runs_bind.
  eapply runs_corr; [exact Hp|apply interacting_runs; apply Hp|]. intros _ s1 _ Hp1. apply runs_get.
  unfold a_finish. rewrite <- (cp_pres _ _ _ _ Hp1). cbn [pres_of p_corr].
  destruct (new =? correlationState (corr (g_upsm s1))); cbn [negb]; [apply runs_ret; by rewrite (cp_pres _ _ _ _ Hp1)|].
  apply runs_bind. eexists _, _. split; [done|]. eexists _, _. split; [apply signal_spec|].
  eapply corr_post_trans; [exact Hp1|]. destruct s1 as [[r se f c] t l].
  by apply (corr_post_mod n (mk_ust (mk_EsifUpsm r se f c) t l) (set_correlation new c)); [apply Hp1|apply Hp1|..].
Qed.

Lemma evaluate_spec n b s :
  wf (S (S n)) (timers s) -> corr_ok (corr (g_upsm s)) (timers s) ->
  runs (EsifUpsm_EvaluateCorrelation_SmLocked v b) s (fun _ s' => corr_post n s s' (a_evaluate b (pres_of s))).
Proof.
  intros Hw Hc. assert (Hw0 : wf n (timers s)) by (eapply wf_le; [|exact Hw]; lia).
  pose proof (corr_post_refl n s Hw0 Hc) as Hp0. unfold EsifUpsm_EvaluateCorrelation_SmLocked. apply runs_get.
  unfold a_evaluate. cbn [p_cur p_inter p_corr pres_of]. set (cur := curSensorState (sensor (g_upsm s))).
  apply runs_bind. destruct (cur =? UP_SENSOR_STATE_ENGAGED).
  { apply runs_bind. eapply runs_corr; [exact Hp0|apply stop_runs; apply Hp0|]. intros _ s1 _ Hp1.
    apply runs_ret. by apply update_correlation_runs. }
  destruct b.
  - apply runs_bind. eapply runs_corr; [exact Hp0|apply stop_runs; apply Hp0|]. intros _ s1 _ Hp1.
    apply runs_bind. destruct (negb _ && _); [|apply runs_ret, runs_ret; by apply update_correlation_runs].
    apply runs_bind. eapply runs_corr; [exact Hp1|apply interacting_runs; apply Hp1|]. intros _ s2 _ Hp2.
    eapply runs_corr; [exact Hp2|apply presence_runs; apply Hp2|]. intros rc s3 _ Hp3.
    rewrite (cp_pres _ _ _ _ Hp2) in Hp3. apply runs_ret. by apply update_correlation_runs.
  - set (A1 := if (correlationState (corr (g_upsm s)) =? UP_CORRELATION_STATE_NEGATIVE) && (cur =? UP_SENSOR_STATE_NOT_PRESENT)
               then a_with_reset true (pres_of s)
               else if cur =? UP_SENSOR_STATE_DISENGAGED then a_with_reset false (pres_of s) else pres_of s).
    apply runs_bind. apply runs_mono with (Q := fun _ s1 => corr_post n s s1 A1).
    { intros rc s1 Hp1. apply runs_bind. destruct (interacting (corr (g_upsm s))); cycle 1.
      - apply runs_ret, runs_ret. by apply update_correlation_runs.
      - apply runs_bind. eapply runs_corr; [exact Hp1|apply interacting_runs; apply Hp1|]. intros _ s2 _ Hp2.
        eapply runs_corr; [exact Hp2|apply presence_runs; apply Hp2|]. intros rc2 s3 _ Hp3.
        rewrite (cp_pres _ _ _ _ Hp2) in Hp3. apply runs_ret. apply update_correlation_runs.
        unfold a_presence. replace (p_cur (a_with_inter false A1)) with cur; [done|].
        unfold A1. by destruct (_ && _); [|destruct (cur =? _)]. }
    unfold A1. destruct (_ && _).
    + destruct (correlationResetTimerActive (corr (g_upsm s))) eqn:Ea; cbn [negb].
      * apply runs_ret. replace (a_with_reset true (pres_of s)) with (pres_of s); [done|].
        unfold pres_of, a_with_reset. simpl. by rewrite Ea.
      * destruct (start_reset_spec n s Hw Hc Ea) as (s1 & E & Hp1). by exists ESIF_OK, s1.
    + destruct (cur =? UP_SENSOR_STATE_DISENGAGED); [|by apply runs_ret].
      apply runs_bind. eapply runs_corr; [exact Hp0|apply stop_runs; apply Hp0|]. intros _ s1 _ Hp1. by apply runs_ret.
Qed.

Lemma send_events_spec n s :
  wf (S (S n)) (timers s) -> corr_ok (corr (g_upsm s)) (timers s) ->
  runs (EsifUpsm_SendEvents v) s (fun _ s' => corr_post n s s' (a_send_events (pres_of s))).
Proof.
  intros Hw Hc. pose proof (corr_post_refl (S (S n)) s Hw Hc) as Hp0.
  unfold EsifUpsm_SendEvents. apply runs_get, runs_bind.
  eapply runs_corr; [exact Hp0|apply presence_runs; apply Hp0|]. intros rc s1 -> Hp1. cbn [Z.eqb ESIF_OK negb].
  change (a_signal _ (pres_of s)) with (a_presence (pres_of s)) in Hp1.
  set (a2 := if p_reset (pres_of s) && negb (p_cur (pres_of s) =? UP_SENSOR_STATE_NOT_PRESENT)
             then a_with_reset false (a_presence (pres_of s)) else a_presence (pres_of s)).
  apply runs_bind. apply runs_mono with (Q := fun _ s2 => corr_post (S (S n)) s s2 a2).
  - intros _ s2 Hp2. eapply runs_mono; [|apply (evaluate_spec n (interacting (corr (g_upsm s))) s2); apply Hp2].
    intros rc3 s3 Hp3. rewrite (cp_pres _ _ _ _ Hp2) in Hp3. pose proof (corr_post_trans _ _ _ _ _ _ _ Hp2 Hp3) as H.
    unfold a_send_events. change (p_reset (a_presence (pres_of s))) with (p_reset (pres_of s)).
    change (p_cur (a_presence (pres_of s))) with (p_cur (pres_of s)). fold a2.
    replace (p_inter a2) with (interacting (corr (g_upsm s))); [done|]. unfold a2. by destruct (_ && _).
  - unfold a2. change (p_reset (pres_of s)) with (correlationResetTimerActive (corr (g_upsm s))).
    change (p_cur (pres_of s)) with (curSensorState (sensor (g_upsm s))).
    destruct (correlationResetTimerActive (corr (g_upsm s)) && _) eqn:Eb; [|by apply runs_ret].
    apply andb_true_iff in Eb as [Ea _].
    destruct (stop_reset_spec (S (S n)) s1 (cp_wf _ _ _ _ Hp1) (cp_ok _ _ _ _ Hp1)) as (s2 & E2 & Hp2).
    { change (p_reset (pres_of s1) = true). by rewrite (cp_pres _ _ _ _ Hp1). }
    exists tt, s2. split; [done|]. rewrite (cp_pres _ _ _ _ Hp1) in Hp2. by eapply corr_post_trans.
Qed.

(** What the filter timer may be while its operations run. *)
Record filter_any (cb : bool) (f : filter_part) (t : T) : Prop := {
  fa_status : eventFilteringEnabled f = true -> exists ms, status t (eventFilteringTimer f) ∈
    (if cb then [InCb STABILITY_CALLBACK; InCbPending STABILITY_CALLBACK ms]
     else [Idle STABILITY_CALLBACK; Armed STABILITY_CALLBACK ms]);
  fa_active : eventFilteringTimerActive f = true -> eventFilteringEnabled f = true;
  fa_only : forall k, kind (status t k) = Some STABILITY_CALLBACK ->
    eventFilteringEnabled f = true /\ k = eventFilteringTimer f
}.

Lemma filter_ok_any cb f t : filter_ok cb f t -> filter_any cb f t.
Proof.
  intros [H1 H2 H3]. split; [|by intros Ha; apply H1|done]. intros He.
  destruct (eventFilteringTimerActive f) eqn:Ea.
  - destruct (H1 eq_refl) as (_ & ms & E). exists ms. rewrite E. destruct cb; right; left.
  - exists 0. rewrite (H2 He eq_refl). destruct cb; left.
Qed.

Definition settings (f : filter_part) : bool * bool * Z * Z * Z :=
  (negativeEventFilteringEnabled f, positiveEventFilteringEnabled f, notPresentStabilityWindow f,
   disengagedStabilityWindow f, presentStabilityWindow f).

Definition mach_of (s : ust (T := T)) : amach :=
  mk_amach (pres_of s) (filteredSensorState (sensor (g_upsm s))) (queuedSensorState (sensor (g_upsm s)))
    (eventFilteringTimerActive (filt (g_upsm s))).

(** What the operations on the filter leave; [h] is the timer they found. *)
Record filter_post (cb : bool) (n : nat) (s s' : ust (T := T)) (m : amach) : Prop := {
  fp_wf : wf n (timers s');
  fp_corr : corr_ok (corr (g_upsm s')) (timers s');
  fp_ok : filter_ok cb (filt (g_upsm s')) (timers s');
  fp_settings : settings (filt (g_upsm s')) = settings (filt (g_upsm s));
  fp_ref : refCount (g_upsm s') = refCount (g_upsm s);
  fp_mach : mach_of s' = m
}.

(** A timer in its callback is kept, or killed for good. *)
Definition kept_or_killed (cb : bool) (s s' : ust (T := T)) : Prop :=
  let h := eventFilteringTimer (filt (g_upsm s)) in
  cb = true -> eventFilteringTimer (filt (g_upsm s')) = h /\
    (eventFilteringEnabled (filt (g_upsm s')) = true \/ status (timers s') h = Dying).

Lemma disabled_ok cb f t : eventFilteringEnabled f = false -> eventFilteringTimerActive f = false ->
  (forall k, kind (status t k) <> Some STABILITY_CALLBACK) -> filter_ok cb f t.
Proof. intros E1 E2 H. split; [congruence..|]. intros k Hk. by destruct (H k). Qed.

Lemma stop_filter_spec n cb s :
  wf n (timers s) -> corr_ok (corr (g_upsm s)) (timers s) -> filter_any cb (filt (g_upsm s)) (timers s) ->
  eventFilteringEnabled (filt (g_upsm s)) = true ->
  runs EsifUpsm_StopEventFiltering_SmLocked s (fun _ s' =>
    filter_post cb n s s' (mk_amach (pres_of s) (a_filtered (mach_of s)) (a_queued (mach_of s)) false) /\
    (forall k, kind (status (timers s') k) <> Some STABILITY_CALLBACK) /\
    sensor (g_upsm s') = sensor (g_upsm s) /\ eventFilteringEnabled (filt (g_upsm s')) = false /\ kept_or_killed cb s s').
Proof.
  intros Hw Hc [H1 H2 H3] He. unfold EsifUpsm_StopEventFiltering_SmLocked. apply runs_get, runs_bind.
  set (h := eventFilteringTimer (filt (g_upsm s))). destruct (kill_law n (timers s) h Hw) as (rc & t' & E & Hw' & Ht).
  eexists _, _. split; [by apply on_timers_some|]. eexists _, _. split; [done|]. cbn [g_upsm timers filt sensor].
  destruct (H1 He) as [ms Hst]. fold h in Hst.
  assert (Hk : kill_status (status (timers s) h) = if cb then Dying else Absent).
  { destruct cb; apply elem_of_cons in Hst as [->|[->|?%elem_of_nil]%elem_of_cons]; done. }
  assert (Hno : forall k, kind (status t' k) <> Some STABILITY_CALLBACK).
  { intros k. rewrite Ht. destruct (Z.eqb_spec k h) as [->|Hne]; [rewrite Hk; by destruct cb|].
    intros Hkk. by destruct (H3 k Hkk). }
  split; [|split; [done|split; [done|split; [done|]]]].
  - split; try done; cbn [g_upsm timers filt corr].
    + apply (corr_ok_frame _ (timers s)); [|done]. eapply frame_at; [exact Ht| |rewrite Hk; destruct cb; unfold owned; auto].
      destruct cb; apply elem_of_cons in Hst as [->|[->|?%elem_of_nil]%elem_of_cons]; unfold owned; auto; done.
    + by apply disabled_ok.
  - intros ->. split; [done|]. right. cbn [timers]. fold h. by rewrite Ht, Z.eqb_refl.
Qed.

Lemma report_spec n cb s x :
  wf (S (S n)) (timers s) -> corr_ok (corr (g_upsm s)) (timers s) -> filter_any cb (filt (g_upsm s)) (timers s) ->
  runs (EsifUpsm_ReportSensorEvent_SmLocked v x) s (fun _ s' =>
    filter_post cb n s s' (a_report x (mach_of s)) /\
    (eventFilteringEnabled (filt (g_upsm s)) = true -> kept_or_killed cb s s')).
Proof.
  intros Hw Hc Hf. unfold EsifUpsm_ReportSensorEvent_SmLocked. apply runs_bind. eexists _, _. split; [done|].
  set (s1 := mk_ust _ _ _). apply runs_get, runs_bind.
  assert (Hs1 : corr_ok (corr (g_upsm s1)) (timers s1) /\ filter_any cb (filt (g_upsm s1)) (timers s1)) by done.
  destruct Hs1 as [Hc1 Hf1].
  assert (Hgo : forall s2, filter_post cb (S (S n)) s s2
      (mk_amach (a_with_cur x (pres_of s)) UP_SENSOR_STATE_INVALID UP_SENSOR_STATE_INVALID false) ->
      (eventFilteringEnabled (filt (g_upsm s)) = true -> kept_or_killed cb s s2 /\ eventFilteringEnabled (filt (g_upsm s2)) = false) ->
      runs (EsifUpsm_SendEvents v) s2 (fun _ s' =>
        filter_post cb n s s' (a_report x (mach_of s)) /\
        (eventFilteringEnabled (filt (g_upsm s)) = true -> kept_or_killed cb s s'))).
  { intros s2 [Hw2 Hc2 Hf2 Hset Href Hm] Hkk. eapply runs_mono; [|by apply (send_events_spec n s2)].
    intros _ s3 [Hw3 Hc3 Hfr Hse Hfi Hrf Hpr]. pose proof (f_equal a_pres Hm) as Hm1.
    pose proof (f_equal a_filtered Hm) as Hm2. pose proof (f_equal a_queued Hm) as Hm3. pose proof (f_equal a_active Hm) as Hm4.
    cbn [mach_of a_pres a_filtered a_queued a_active] in Hm1, Hm2, Hm3, Hm4. split.
    - split; [done|done| |by rewrite Hfi|by rewrite Hrf|].
      + rewrite Hfi. by eapply filter_ok_frame.
      + unfold mach_of, a_report. by rewrite Hpr, Hse, Hfi, Hm1, Hm2, Hm3, Hm4.
    - intros He Hcb. destruct (Hkk He) as [Hkk' E3]. destruct (Hkk' Hcb) as [E1 E2]. rewrite Hfi. split; [done|]. right.
      destruct E2 as [E2|E2]; [congruence|]. by eapply frame_dying. }
  destruct (eventFilteringEnabled (filt (g_upsm s1))) eqn:Een.
  - destruct (stop_filter_spec (S (S n)) cb s1 Hw Hc1 Hf1 Een) as (y & s2 & E2 & Hp & Hno & Hse & Hen2 & Hk2).
    exists y, s2. split; [done|]. apply Hgo; [|by split].
    destruct Hp as [? ? ? ? ? Hm]. split; done.
  - apply runs_ret. apply Hgo; [|change (eventFilteringEnabled (filt (g_upsm s)) = false) in Een; congruence].
    assert (Ea : eventFilteringTimerActive (filt (g_upsm s1)) = false).
    { destruct (eventFilteringTimerActive (filt (g_upsm s1))) eqn:Ea; [|done]. by rewrite (fa_active _ _ _ Hf1 Ea) in Een. }
    split; try done.
    + apply disabled_ok; [done|done|]. intros k Hk. by destruct (fa_only _ _ _ Hf1 k Hk) as [? _]; congruence.
    + unfold mach_of. simpl. by rewrite <- Ea.
Qed.

Lemma report_same_settings f g : settings f = settings g -> forall x, window f x = window g x.
Proof. destruct f, g. unfold settings, window. simpl. intros [= -> -> -> -> ->]. done. Qed.

Lemma start_spec n cb s x :
  wf (S (S n)) (timers s) -> corr_ok (corr (g_upsm s)) (timers s) -> filter_any cb (filt (g_upsm s)) (timers s) ->
  eventFilteringEnabled (filt (g_upsm s)) = true ->
  runs (EsifUpsm_StartEventFiltering_SmLocked v x) s (fun _ s' =>
    filter_post cb n s s' (a_start (filt (g_upsm s)) x (mach_of s)) /\ kept_or_killed cb s s').
Proof.
  intros Hw Hc Hf He. pose proof Hgood as (_ & Eo & _). unfold EsifUpsm_StartEventFiltering_SmLocked. apply runs_get.
  set (h := eventFilteringTimer (filt (g_upsm s))). unfold a_start.
  destruct (Z.eqb_spec (window (filt (g_upsm s)) x) 0) as [Ew|Ew].
  - rewrite Ew. apply runs_bind. eexists _, _. split; [apply on_timers_some, set_zero_law|].
    cbn [Z.eqb ESIF_OK ESIF_E_REQUEST_DATA_OUT_OF_BOUNDS]. apply runs_bind. eexists _, _. split; [done|].
    cbn [g_upsm timers sent]. eapply runs_mono; [|eapply (report_spec n cb _ x); [done|done|]].
    + intros _ s' [Hp Hk]. specialize (Hk He). split; [|exact Hk]. destruct Hp as [? ? ? ? ? Hm]. by split.
    + destruct Hf as [H1 H2 H3]. by split.
  - destruct (fa_status _ _ _ Hf He) as [ms Hst]. fold h in Hst.
    destruct (set_law (S n) (timers s) h (window (filt (g_upsm s)) x) Hw Ew) as (t' & E & Hw' & Ht).
    { destruct cb; apply elem_of_cons in Hst as [->|[->|?%elem_of_nil]%elem_of_cons]; done. }
    rewrite Eo. apply runs_bind. eexists _, _. split; [by apply on_timers_some|]. cbn [Z.eqb ESIF_OK].
    apply runs_bind. eexists _, _. split; [done|]. apply runs_ret.
    assert (Hs : set_status (status (timers s) h) (window (filt (g_upsm s)) x) =
      if cb then InCbPending STABILITY_CALLBACK (window (filt (g_upsm s)) x)
      else Armed STABILITY_CALLBACK (window (filt (g_upsm s)) x)).
    { destruct cb; apply elem_of_cons in Hst as [->|[->|?%elem_of_nil]%elem_of_cons]; done. }
    split; [|intros _; split; [done|by left]]. split; try done; cbn [g_upsm timers filt corr].
    + by apply wf_weaken.
    + apply (corr_ok_frame _ (timers s)); [|done]. eapply frame_at; [exact Ht| |left; rewrite Hs; right; by destruct cb].
      right. destruct cb; apply elem_of_cons in Hst as [->|[->|?%elem_of_nil]%elem_of_cons]; done.
    + split; cbn [set_active set_filter_timer eventFilteringTimerActive eventFilteringEnabled eventFilteringTimer]; [|done|].
      * intros _. split; [done|]. fold h. rewrite Ht, Z.eqb_refl, Hs. eauto.
      * intros k. rewrite Ht. fold h. destruct (Z.eqb_spec k h) as [->|]; [done|]. apply (fa_only _ _ _ Hf).
Qed.

Lemma filter_spec n s x :
  wf (S (S (S n))) (timers s) -> corr_ok (corr (g_upsm s)) (timers s) -> filter_ok false (filt (g_upsm s)) (timers s) ->
  runs (EsifUpsm_FilterSensorEvent_SmLocked v x) s (fun _ s' =>
    filter_post false n s s' (a_filter (filt (g_upsm s)) x (mach_of s))).
Proof.
  intros Hw Hc Hf. pose proof Hgood as (Ei & _ & _). unfold EsifUpsm_FilterSensorEvent_SmLocked. apply runs_get.
  unfold a_filter. cbn [a_active mach_of a_filtered a_pres a_queued].
  destruct (eventFilteringTimerActive (filt (g_upsm s))) eqn:Ea; cbn [negb].
  { apply runs_bind. destruct (x <? filteredSensorState (sensor (g_upsm s))); (eexists _, _; split; [done|]); apply runs_ret;
      (split; try done; [eapply wf_le; [|exact Hw]; lia|unfold mach_of; simpl; by rewrite Ea]). }
  apply runs_bind. eexists _, _. split; [done|]. set (s1 := mk_ust _ _ _).
  assert (Em1 : mach_of s1 = mk_amach (pres_of s) x (queuedSensorState (sensor (g_upsm s))) false)
    by (unfold mach_of, s1; cbn [g_upsm filt]; by rewrite Ea).
  apply runs_bind. apply runs_mono with (Q := fun _ s2 => wf (S (S n)) (timers s2) /\ corr_ok (corr (g_upsm s2)) (timers s2) /\
    filter_ok false (filt (g_upsm s2)) (timers s2) /\ eventFilteringEnabled (filt (g_upsm s2)) = true /\
    settings (filt (g_upsm s2)) = settings (filt (g_upsm s)) /\ refCount (g_upsm s2) = refCount (g_upsm s) /\
    mach_of s2 = mach_of s1).
  - intros rc s2 (Hw2 & Hc2 & Hf2 & He2 & Hset & Href & Hm). apply runs_get. rewrite He2.
    assert (Efs : filteredSensorState (sensor (g_upsm s2)) = x) by exact (f_equal a_filtered Hm). rewrite Efs.
    eapply runs_mono; [|by apply (start_spec n false s2 x Hw2 Hc2 (filter_ok_any _ _ _ Hf2) He2)].
    intros rc2 s3 [[H1 H2 H3 H4 H5 H6] _]. split; try done; try congruence. rewrite H6, Hm.
    unfold a_start. rewrite (report_same_settings _ _ Hset). by rewrite Em1.
  - unfold EsifUpsm_EnableEventFiltering_SmLocked. apply runs_get. cbn [s1 g_upsm filt].
    destruct (eventFilteringEnabled (filt (g_upsm s))) eqn:Een; cbn [negb].
    + apply runs_ret. split_and!; try done. by apply wf_weaken.
    + destruct (init_law (S (S n)) (timers s) (eventFilteringTimer (filt (g_upsm s))) STABILITY_CALLBACK Hw)
        as (h & t' & E & Hab & Hw' & Ht). rewrite Ei. apply runs_bind.
      eexists _, _. split; [apply (on_timers_some _ s1); exact E|]. apply runs_bind. eexists _, _. split; [done|]. apply runs_ret.
      cbn [g_upsm timers filt corr fst snd Z.eqb ESIF_OK refCount]. split_and!; try done.
      * apply (corr_ok_frame _ (timers s)); [|done]. eapply frame_at; [exact Ht|rewrite Hab; by left|by left; right].
      * cbn [eventFilteringTimerActive filt s1 g_upsm]. split; cbn [set_filter_timer eventFilteringTimerActive eventFilteringEnabled eventFilteringTimer].
        -- rewrite Ea. done.
        -- intros _ _. by rewrite Ht, Z.eqb_refl.
        -- intros k. rewrite Ht. destruct (Z.eqb_spec k h); [done|]. intros Hk. destruct (fo_only _ _ _ Hf k Hk). congruence.
Qed.

Lemma handle_spec n s x :
  wf (S (S (S n))) (timers s) -> corr_ok (corr (g_upsm s)) (timers s) -> filter_ok false (filt (g_upsm s)) (timers s) ->
  runs (EsifUpsm_HandleSensorEvent_SmLocked v x) s (fun _ s' =>
    filter_post false n s s' (a_handle (filt (g_upsm s)) x (mach_of s))).
Proof.
  intros Hw Hc Hf. assert (Hw0 : wf n (timers s)) by (eapply wf_le; [|exact Hw]; lia).
  assert (Hrep : runs (EsifUpsm_ReportSensorEvent_SmLocked v x) s (fun _ s' => filter_post false n s s' (a_report x (mach_of s)))).
  { eapply runs_mono; [|by apply (report_spec n false s x (wf_weaken _ _ Hw) Hc (filter_ok_any _ _ _ Hf))]. by intros rc s' []. }
  unfold EsifUpsm_HandleSensorEvent_SmLocked. apply runs_get. unfold a_handle. cbn [a_pres mach_of p_cur pres_of a_filtered].
  destruct (negb (x =? curSensorState (sensor (g_upsm s)))).
  - destruct (_ || _); [exact Hrep|]. destruct (x =? _).
    + apply runs_bind. eexists _, _. split; [done|]. apply runs_ret. by split.
    + destruct (_ && _); [by apply filter_spec|]. destruct (_ && _); [by apply filter_spec|]. exact Hrep.
  - apply runs_bind. destruct (eventFilteringEnabled (filt (g_upsm s))) eqn:Een.
    + eapply runs_mono; [|by apply (stop_filter_spec n false s Hw0 Hc (filter_ok_any _ _ _ Hf) Een)].
      intros rc s1 ([H1 H2 H3 H4 H5 H6] & _ & _ & Hen & _). apply runs_bind. eexists _, _. split; [done|]. apply runs_ret.
      split; try done. pose proof (f_equal a_pres H6) as E1. pose proof (f_equal a_active H6) as E2.
      cbn [mach_of a_pres a_active] in E1, E2. unfold mach_of. cbn [g_upsm sensor filt]. f_equal; [exact E1|exact E2].
    + apply runs_ret, runs_bind. eexists _, _. split; [done|]. apply runs_ret. split; try done.
      unfold mach_of. cbn [g_upsm sensor filt]. f_equal.
      destruct (eventFilteringTimerActive (filt (g_upsm s))) eqn:Ea; [|done]. destruct (fo_active _ _ _ Hf Ea). congruence.
Qed.

Lemma corr_ok_ext c t t' :
  (forall k, kind (status t k) = Some CORRELATION_CALLBACK \/ kind (status t' k) = Some CORRELATION_CALLBACK ->
     status t' k = status t k) -> corr_ok c t -> corr_ok c t'.
Proof.
  intros H [H1 H2 H3]. split; [|done|].
  - intros He. rewrite H; [by apply H1|]. left. rewrite H1 by done. by destruct (correlationResetTimerActive c).
  - intros k Hk. apply H3. by rewrite <- H by auto.
Qed.

Lemma filter_any_frame cb f t t' : frame CORRELATION_CALLBACK t t' -> filter_any cb f t -> filter_any cb f t'.
Proof.
  intros Hf [H1 H2 H3]. split; [|done|].
  - intros He. destruct (H1 He) as [ms Hin]. exists ms.
    rewrite (frame_status _ t t' _ STABILITY_CALLBACK Hf); [done| |done].
    destruct cb; apply elem_of_cons in Hin as [->|[->|?%elem_of_nil]%elem_of_cons]; done.
  - intros k Hk. apply H3. by rewrite <- (frame_kind _ t t' k STABILITY_CALLBACK Hf Hk).
Qed.

(** The callback function of the filter timer, with the timer in its callback. *)
Lemma stability_spec n s :
  wf (4 + n) (timers s) -> corr_ok (corr (g_upsm s)) (timers s) -> filter_any true (filt (g_upsm s)) (timers s) ->
  eventFilteringEnabled (filt (g_upsm s)) = true ->
  status (timers s) (eventFilteringTimer (filt (g_upsm s))) = InCb STABILITY_CALLBACK ->
  runs (EsifUpsm_StabilityWindowCallback v) s (fun _ s' =>
    filter_post true n s s' (a_expire (filt (g_upsm s)) (mach_of s)) /\ kept_or_killed true s s').
Proof.
  intros Hw Hc Hf He Hst. unfold EsifUpsm_StabilityWindowCallback. apply runs_bind. eexists _, _. split; [done|].
  set (s2 := mk_ust _ _ _). apply runs_bind.
  eapply runs_mono; [|apply (send_events_spec (S (S n)) s2); [exact Hw|exact Hc]].
  intros rc s3 [Hw3 Hc3 Hfr Hse Hfi Hrf Hpr]. cbv beta. apply runs_get.
  rewrite Hse. cbn [s2 g_upsm sensor set_cur queuedSensorState]. unfold a_expire. cbn [a_queued a_filtered a_pres mach_of].
  change (pres_of s2) with (a_with_cur (filteredSensorState (sensor (g_upsm s))) (pres_of s)) in Hpr.
  destruct (negb (queuedSensorState (sensor (g_upsm s)) =? UP_SENSOR_STATE_INVALID)).
  - apply runs_bind. eexists _, _. split; [done|]. set (s4 := mk_ust _ _ _). apply runs_get, runs_bind.
    assert (Efs : filteredSensorState (sensor (g_upsm s4)) = queuedSensorState (sensor (g_upsm s)))
      by (cbn; by rewrite Hse).
    rewrite Efs. eapply runs_mono; [|apply (start_spec n true s4 (queuedSensorState (sensor (g_upsm s))))].
    + intros rc5 s5 [[H1 H2 H3 H4 H5 H6] Hk]. apply runs_ret. split.
      * split; try done; [by rewrite H4; cbn; rewrite Hfi|by rewrite H5; cbn; rewrite Hrf|]. rewrite H6.
        unfold a_start. rewrite (report_same_settings (filt (g_upsm s4)) (filt (g_upsm s))) by (cbn; by rewrite Hfi).
        assert (Em : mach_of s4 = mk_amach (a_send_events (a_with_cur (filteredSensorState (sensor (g_upsm s))) (pres_of s)))
          (queuedSensorState (sensor (g_upsm s))) UP_SENSOR_STATE_INVALID (eventFilteringTimerActive (filt (g_upsm s)))).
        { unfold mach_of. rewrite <- Hpr. cbn. by rewrite Hse, Hfi. }
        by rewrite Em.
      * intros Hcb. destruct (Hk Hcb) as [E1 E2]. revert E1 E2. cbn. rewrite Hfi. by intros -> ?.
    + exact Hw3.
    + exact Hc3.
    + cbn. rewrite Hfi. by eapply filter_any_frame.
    + cbn. by rewrite Hfi.
  - apply runs_bind. eexists _, _. split; [done|]. eexists _, _. split; [done|]. cbn [g_upsm filt timers sensor corr refCount].
    assert (Hst3 : status (timers s3) (eventFilteringTimer (filt (g_upsm s3))) = InCb STABILITY_CALLBACK).
    { rewrite Hfi, (frame_status _ _ _ _ STABILITY_CALLBACK Hfr); [exact Hst|exact (f_equal kind Hst)|done]. }
    pose proof (filter_any_frame true _ _ _ Hfr Hf) as Hf3. split.
    + split; cbn [g_upsm filt timers sensor corr refCount]; try done.
      * by apply wf_weaken, wf_weaken.
      * split; cbn [set_active set_filter_timer eventFilteringTimerActive eventFilteringEnabled eventFilteringTimer]; [done|done|].
        rewrite Hfi. apply (fa_only _ _ _ Hf3).
      * cbn. by rewrite Hfi.
      * unfold mach_of. rewrite <- Hpr. unfold pres_of. cbn [g_upsm sensor filt corr sent set_filtered curSensorState filteredSensorState queuedSensorState]. by rewrite Hse.
    + intros _. cbn. rewrite Hfi. split; [done|by left].
Qed.

Lemma expire_spec n s cb f t1 :
  wf (4 + n) (timers s) -> corr_ok (corr (g_upsm s)) (timers s) -> filter_ok false (filt (g_upsm s)) (timers s) ->
  eventFilteringTimerActive (filt (g_upsm s)) = true ->
  api_begin cb (timers s) = Some (Some (eventFilteringTimer (filt (g_upsm s)), f), t1) ->
  runs (timer_fires v cb) s (fun _ s' => filter_post false n s s' (a_expire (filt (g_upsm s)) (mach_of s))).
Proof.
  intros Hw Hc Hf Ha E. set (h := eventFilteringTimer (filt (g_upsm s))) in *.
  destruct (fo_active _ _ _ Hf Ha) as (He & ms & Hst). fold h in Hst. cbn in Hst.
  destruct (begin_law _ _ _ _ _ Hw Hst) as [_ Hb]. destruct (Hb cb f t1 E) as (-> & Hw1 & Ht1).
  pose proof Hgood as (_ & Eo & _). unfold timer_fires. apply runs_bind. eexists _, _. split; [by apply on_timers_some|].
  change (STABILITY_CALLBACK =? STABILITY_CALLBACK) with true. cbn iota. apply runs_bind.
  eapply runs_mono; [|apply (stability_spec n); [exact Hw1| | |exact He|cbn; fold h; by rewrite Ht1, Z.eqb_refl]]; cycle 1.
  { cbn. apply (corr_ok_frame _ (timers s)); [|done]. eapply frame_at; [exact Ht1|rewrite Hst|left]; by right. }
  { cbn. split.
    - intros _. exists 0. fold h. rewrite Ht1, Z.eqb_refl. left.
    - apply (fo_active _ _ _ Hf).
    - intros k. rewrite Ht1. fold h. destruct (Z.eqb_spec k h) as [->|]; [done|]. apply (fo_only _ _ _ Hf). }
  intros u s5 [[H1 H2 H3 H4 H5 H6] Hk]. destruct (Hk eq_refl) as [Eh5 Hen5]. cbn in Eh5, Hen5. fold h in Eh5, Hen5. cbn in H4, H5.
  assert (Hst5 : eventFilteringEnabled (filt (g_upsm s5)) = true /\
      ((eventFilteringTimerActive (filt (g_upsm s5)) = true /\ exists ms', status (timers s5) h = InCbPending STABILITY_CALLBACK ms') \/
       (eventFilteringTimerActive (filt (g_upsm s5)) = false /\ status (timers s5) h = InCb STABILITY_CALLBACK)) \/
      eventFilteringEnabled (filt (g_upsm s5)) = false /\ status (timers s5) h = Dying).
  { destruct (eventFilteringEnabled (filt (g_upsm s5))) eqn:E5; [left; split; [done|]|right; by destruct Hen5].
    destruct (eventFilteringTimerActive (filt (g_upsm s5))) eqn:A5.
    - left. split; [done|]. destruct (fo_active _ _ _ H3 A5) as (_ & ms' & ?). rewrite Eh5 in *. eauto.
    - right. split; [done|]. rewrite <- Eh5. by apply (fo_idle _ _ _ H3). }
  assert (Hin : match status (timers s5) h with InCb _ | InCbPending _ _ | Dying => True | _ => False end)
    by (destruct Hst5 as [[_ [[_ [ms' ->]]|[_ ->]]]|[_ ->]]; done).
  destruct (end_law n (timers s5) h H1 Hin) as (t6 & E6 & Hw6 & Ht6). rewrite Eo.
  eexists _, _. split; [by apply on_timers_some|]. cbn [g_upsm timers]. split; try done; cbn [g_upsm timers].
  - apply (corr_ok_ext _ (timers s5)); [|done]. intros k. rewrite Ht6. destruct (Z.eqb_spec k h) as [->|]; [|done].
    destruct Hst5 as [[_ [[_ [ms' ->]]|[_ ->]]]|[_ ->]]; cbn; by intros [?|?].
  - destruct Hst5 as [[Een Hst5]|[Een Hst5]].
    + split; rewrite ?Eh5, ?Ht6, ?Z.eqb_refl.
      * intros A5. split; [done|]. destruct Hst5 as [[_ [ms' ->]]|[? _]]; [by exists ms'|congruence].
      * intros _ A5. by destruct Hst5 as [[? _]|[_ ->]]; [congruence|].
      * intros k. rewrite Ht6. destruct (Z.eqb_spec k h) as [->|]; [done|]. rewrite <- Eh5. apply (fo_only _ _ _ H3).
    + apply disabled_ok; [done| |].
      * destruct (eventFilteringTimerActive (filt (g_upsm s5))) eqn:A5; [|done]. destruct (fo_active _ _ _ H3 A5). congruence.
      * intros k. rewrite Ht6. destruct (Z.eqb_spec k h) as [->|]; [by rewrite Hst5|].
        intros Hkk. destruct (fo_only _ _ _ H3 k Hkk). congruence.
Qed.

Lemma correlation_reset_spec n s cb f t1 :
  wf n (timers s) -> corr_ok (corr (g_upsm s)) (timers s) -> filter_ok false (filt (g_upsm s)) (timers s) ->
  correlationResetTimerActive (corr (g_upsm s)) = true ->
  api_begin cb (timers s) = Some (Some (correlationResetTimer (corr (g_upsm s)), f), t1) ->
  runs (timer_fires v cb) s (fun _ s' => filter_post false n s s'
    (mk_amach (a_correlation_reset (pres_of s)) (a_filtered (mach_of s)) (a_queued (mach_of s)) (a_active (mach_of s)))).
Proof.
  intros Hw Hc Hf Ha E. set (h := correlationResetTimer (corr (g_upsm s))) in *. pose proof (co_active _ _ Hc Ha) as He.
  pose proof (co_status _ _ Hc He) as Hst. rewrite Ha in Hst. fold h in Hst.
  destruct (begin_law _ _ _ _ _ Hw Hst) as [_ Hb]. destruct (Hb cb f t1 E) as (-> & Hw1 & Ht1).
  pose proof Hgood as (_ & Eo & _). unfold timer_fires. apply runs_bind. eexists _, _. split; [by apply on_timers_some|].
  change (CORRELATION_CALLBACK =? STABILITY_CALLBACK) with false. change (CORRELATION_CALLBACK =? CORRELATION_CALLBACK) with true.
  cbn iota. apply runs_bind. unfold EsifUpsm_CorrelationResetCallback. apply runs_bind. eexists _, _. split; [done|].
  apply runs_bind. eexists _, _. split; [apply signal_spec|]. apply runs_get, runs_bind.
  eexists _, _. split; [apply presence_spec|]. apply runs_ret. cbn [g_upsm timers sent].
  destruct (end_law n t1 h Hw1) as (t2 & E2 & Hw2 & Ht2); [by rewrite Ht1, Z.eqb_refl|]. rewrite Eo.
  eexists _, _. split; [by apply on_timers_some|].
  assert (Ht : forall k, status t2 k = if k =? h then Idle CORRELATION_CALLBACK else status (timers s) k).
  { intros k. rewrite Ht2, !Ht1, Z.eqb_refl. by destruct (k =? h). }
  split; try done; cbn [g_upsm timers corr filt].
  - split; cbn [set_correlation set_corr_timer correlationResetEnabled correlationResetTimer correlationResetTimerActive]; [|done|].
    + intros _. fold h. by rewrite Ht, Z.eqb_refl.
    + fold h. intros k. rewrite Ht. destruct (Z.eqb_spec k h) as [->|]; [done|]. apply (co_only _ _ Hc).
  - eapply filter_ok_frame; [|exact Hf]. eapply frame_at; [exact Ht|rewrite Hst; by right|by left; right].
Qed.

(* ------------------------------------------------------------------ *)
(** ** Runs of the machine *)

Record mach_ok (s : ust (T := T)) : Prop := {
  mo_corr : corr_ok (corr (g_upsm s)) (timers s);
  mo_filter : filter_ok false (filt (g_upsm s)) (timers s)
}.

Lemma corr_filter_post n s s' a :
  mach_ok s -> corr_post n s s' a ->
  filter_post false n s s' (mk_amach a (a_filtered (mach_of s)) (a_queued (mach_of s)) (a_active (mach_of s))).
Proof.
  intros [Hc Hf] [H1 H2 H3 H4 H5 H6 H7]. split; try done; rewrite ?H5; try done.
  - by eapply filter_ok_frame.
  - unfold mach_of. by rewrite H4, H5, H7.
Qed.

(** The state the program starts with: zeroed, over timers none of which is
    the machine's. *)
Definition zero_upsm : EsifUpsm :=
  mk_EsifUpsm 0 (mk_sensor 0 0 0) (mk_filter false false 0 0 0 0 false false) (mk_correlation false 0 0 false false).
Definition no_timers (t : T) : Prop :=
  forall k, kind (status t k) <> Some STABILITY_CALLBACK /\ kind (status t k) <> Some CORRELATION_CALLBACK.

Definition a_first : amach :=
  mk_amach (a_send_events (mk_pres UP_SENSOR_STATE_INVALID false UP_CORRELATION_STATE_POSITIVE false []))
    UP_SENSOR_STATE_INVALID UP_SENSOR_STATE_INVALID false.

(** What the first enabling reads of the settings. *)
Definition read_bool (p : Z) : bool := if (e_primitive v p).1 =? ESIF_OK then negb (u8 (e_primitive v p).2 =? 0) else false.
Definition read_window (p : Z) : Z :=
  if (e_primitive v p).1 =? ESIF_OK then Z.min (e_primitive v p).2 STABILITY_WINDOW_MAX
  else ESIF_UPSM_DEFAULT_STABILITY_WINDOW.

Definition initial_filter : filter_part :=
  mk_filter (read_bool GET_NEGATIVE_EVENT_FILTERING_STATE) (read_bool GET_POSITIVE_EVENT_FILTERING_STATE)
    (read_window GET_NOT_PRESENT_STABILITY_WINDOW) (read_window GET_DISENGAGED_STABILITY_WINDOW)
    (read_window GET_PRESENT_STABILITY_WINDOW) 0 false false.

(** The settings from which reading them gives the initial ones: the defaults, and those
    that have been read. *)
Definition default_settings : bool * bool * Z * Z * Z :=
  (false, false, ESIF_UPSM_DEFAULT_STABILITY_WINDOW, ESIF_UPSM_DEFAULT_STABILITY_WINDOW, ESIF_UPSM_DEFAULT_STABILITY_WINDOW).
Definition known_settings (s : ust (T := T)) : Prop :=
  settings (filt (g_upsm s)) = default_settings \/ settings (filt (g_upsm s)) = settings initial_filter.
Lemma read_settings s : known_settings s -> exists s1, EsifUpsm_GetEventFilteringSettings_SmLocked v s = Some ((e_primitive v GET_PRESENT_STABILITY_WINDOW).1, s1) /\
  settings (filt (g_upsm s1)) = settings initial_filter /\ timers s1 = timers s /\ sent s1 = sent s /\ refCount (g_upsm s1) = refCount (g_upsm s) /\ sensor (g_upsm s1) = sensor (g_upsm s) /\ corr (g_upsm s1) = corr (g_upsm s) /\
  eventFilteringTimer (filt (g_upsm s1)) = eventFilteringTimer (filt (g_upsm s)) /\ eventFilteringEnabled (filt (g_upsm s1)) = eventFilteringEnabled (filt (g_upsm s)) /\ eventFilteringTimerActive (filt (g_upsm s1)) = eventFilteringTimerActive (filt (g_upsm s)).
Proof.
  intros Hk. eexists. split; [reflexivity|]. split; [|by split_and!]. cbn [g_upsm filt].
  assert (Hsnap : forall x, EsifUpsm_SnapTimeWindowBounds x = Z.min x STABILITY_WINDOW_MAX).
  { intros x. unfold EsifUpsm_SnapTimeWindowBounds. rewrite Z.gtb_ltb. destruct (Z.ltb_spec STABILITY_WINDOW_MAX x); lia. }
  unfold known_settings, settings, default_settings, initial_filter, read_bool, read_window in *. cbn in *. rewrite !Hsnap.
  destruct Hk as [[= -> -> -> -> ->]|[= -> -> -> -> ->]]; [done|]. by repeat destruct (_ =? ESIF_OK).
Qed.

(** Enabling event filtering adds a timer, if there is none. *)
Lemma enable_filter_spec n s : wf (S n) (timers s) -> mach_ok s ->
  runs (EsifUpsm_EnableEventFiltering_SmLocked v) s (fun _ s' => wf n (timers s') /\ mach_ok s' /\ settings (filt (g_upsm s')) = settings (filt (g_upsm s)) /\ refCount (g_upsm s') = refCount (g_upsm s) /\ mach_of s' = mach_of s).
Proof.
  intros Hw Hok. pose proof Hok as [Hc Hf]. pose proof Hgood as (Ei & _ & _). unfold EsifUpsm_EnableEventFiltering_SmLocked. apply runs_get.
  destruct (eventFilteringEnabled (filt (g_upsm s))) eqn:Een; cbn [negb]; [apply runs_ret; split_and!; try done; by apply wf_weaken|].
  assert (Ea : eventFilteringTimerActive (filt (g_upsm s)) = false).
  { destruct (eventFilteringTimerActive (filt (g_upsm s))) eqn:Ea; [|done]. destruct (fo_active _ _ _ Hf Ea). congruence. }
  destruct (init_law n (timers s) (eventFilteringTimer (filt (g_upsm s))) STABILITY_CALLBACK Hw) as (h & t' & E & Hab & Hw' & Ht). rewrite Ei. apply runs_bind.
  eexists _, _. split; [by apply on_timers_some|]. apply runs_bind. eexists _, _. split; [done|]. apply runs_ret.
  cbn [g_upsm timers filt corr fst snd Z.eqb ESIF_OK refCount]. split_and!; try done. split; cbn [g_upsm timers filt corr].
  - apply (corr_ok_frame _ (timers s)); [|done]. eapply frame_at; [exact Ht|rewrite Hab; by left|by left; right].
  - split; cbn [set_filter_timer eventFilteringTimerActive eventFilteringEnabled eventFilteringTimer].
    + by rewrite Ea.
    + intros _ _. by rewrite Ht, Z.eqb_refl.
    + intros k. rewrite Ht. destruct (Z.eqb_spec k h); [done|]. intros Hk. destruct (fo_only _ _ _ Hf k Hk). congruence.
Qed.

(** Signalling the present state. *)
Lemma send_spec n s : wf (3 + n) (timers s) -> mach_ok s ->
  runs (EsifUpsm_SendEvents v ;! sret tt)%dptf s (fun _ s' => filter_post false n s s'
    (mk_amach (a_send_events (a_pres (mach_of s))) (a_filtered (mach_of s)) (a_queued (mach_of s)) (a_active (mach_of s)))).
Proof.
  intros Hw Hok. apply runs_bind. eapply runs_mono; [|apply (send_events_spec n s); [by apply wf_weaken|apply Hok]].
  intros rc s' Hp. apply runs_ret. by apply corr_filter_post.
Qed.

(** The enabling that starts the machine. *)
Lemma enable_first_spec n s : EsifUpsm_RegisterEvents v = ESIF_OK -> wf (4 + n) (timers s) -> mach_ok s -> known_settings s -> refCount (g_upsm s) = 0 ->
  runs (EsifUpsm_Enable v) s (fun rc s' => rc = ESIF_OK /\ wf n (timers s') /\ mach_ok s' /\ refCount (g_upsm s') = 1 /\ settings (filt (g_upsm s')) = settings initial_filter /\
    mach_of s' = mk_amach (a_send_events (a_pres (mach_of s))) (a_filtered (mach_of s)) (a_queued (mach_of s)) (a_active (mach_of s))).
Proof.
  intros Hreg Hw Hok Hk Href. unfold EsifUpsm_Enable. apply runs_bind. eexists _, _. split; [done|]. apply runs_get. cbn [g_upsm refCount with_refCount]. rewrite Href.
  change (1 =? 0 + 1) with true. cbn iota. set (s1 := mk_ust _ _ _).
  destruct (read_settings s1 Hk) as (s2 & E2 & Hset2 & Ht2 & Hsent2 & Hr2 & Hse2 & Hc2 & Hh2 & He2 & Ha2).
  assert (Hok2 : mach_ok s2).
  { destruct Hok as [Hc Hf]. split; rewrite ?Hc2, Ht2; [exact Hc|]. destruct Hf as [H1 H2 H3]. by split; rewrite ?Hh2, ?He2, ?Ha2. }
  assert (Hm2 : mach_of s2 = mach_of s) by (unfold mach_of, pres_of; by rewrite Hse2, Hc2, Hsent2, Ha2).
  apply runs_bind, runs_bind. eexists _, _. split; [exact E2|]. apply runs_get, runs_bind.
  apply runs_mono with (Q := fun _ s3 => wf (3 + n) (timers s3) /\ mach_ok s3 /\ settings (filt (g_upsm s3)) = settings (filt (g_upsm s2)) /\ refCount (g_upsm s3) = refCount (g_upsm s2) /\ mach_of s3 = mach_of s2).
  - intros _ s3 (Hw3 & Hok3 & Hset3 & Hr3 & Hm3). rewrite Hreg. cbn [Z.eqb ESIF_OK negb]. apply runs_bind, runs_ret, runs_ret, runs_get.
    rewrite Hr3, Hr2. cbn [s1 g_upsm refCount with_refCount]. change (1 <=? 0 + 1) with true. cbn iota. apply runs_bind.
    eapply runs_mono; [|apply (send_spec n s3 Hw3 Hok3)]. intros _ s4 [H1 H2 H3 H4 H5 H6]. apply runs_ret. split_and!; try done; try congruence.
    by rewrite H5, Hr3, Hr2.
  - destruct (_ || _); [|apply runs_ret; split_and!; try done; rewrite Ht2; by apply wf_weaken].
    apply runs_bind. eapply runs_mono; [|apply (enable_filter_spec (3 + n) s2); [by rewrite Ht2|done]]. intros rc3 s3 Hp3. by apply runs_ret.
Qed.

Lemma first_enable_spec n t0 :
  wf (4 + n) t0 -> no_timers t0 -> EsifUpsm_RegisterEvents v = ESIF_OK ->
  runs (EsifUpsm_Init ;! EsifUpsm_Enable v)%dptf (mk_ust zero_upsm t0 []) (fun rc s' =>
    rc = ESIF_OK /\ wf n (timers s') /\ mach_ok s' /\ refCount (g_upsm s') = 1 /\ settings (filt (g_upsm s')) = settings initial_filter /\ mach_of s' = a_first).
Proof.
  intros Hw Hno Hreg. apply runs_bind. eexists _, _. split; [done|]. set (s1 := mk_ust _ _ _).
  assert (Hok1 : mach_ok s1) by (split; split; cbn; try done; intros k Hk; by destruct (Hno k)).
  by apply (enable_first_spec n s1 Hreg Hw Hok1); [left|].
Qed.

(** The disabling that stops the machine. *)
Lemma stop_spec n s : wf n (timers s) -> mach_ok s -> refCount (g_upsm s) <= 1 ->
  runs EsifUpsm_Disable s (fun _ s' => refCount (g_upsm s') = 0 /\
    filter_post false n (mk_ust (with_refCount 0 (g_upsm s)) (timers s) (sent s)) s'
      (mk_amach (a_with_reset false (a_pres (mach_of s))) (a_filtered (mach_of s)) (a_queued (mach_of s)) false)).
Proof.
  intros Hw [Hc Hf] Hr. unfold EsifUpsm_Disable. apply runs_bind. eexists _, _. split; [done|]. apply runs_get. cbn [g_upsm refCount with_refCount].
  rewrite (proj2 (Z.leb_le _ _)) by lia. apply runs_bind. eexists _, _. split; [done|]. unfold EsifUpsm_Stop, EsifUpsm_DisableEventFiltering, EsifUpsm_DisableCorrelationResetTimer.
  apply runs_bind, runs_bind. eexists _, _. split; [done|]. apply runs_get, runs_bind. cbn [g_upsm filt timers].
  destruct (kill_law n (timers s) (eventFilteringTimer (filt (g_upsm s))) Hw) as (rc1 & t1 & E1 & Hw1 & Ht1). eexists _, _. split; [by apply on_timers_some|]. apply runs_ret.
  apply runs_bind. eexists _, _. split; [done|]. apply runs_get, runs_bind. cbn [g_upsm corr timers].
  destruct (kill_law n t1 (correlationResetTimer (corr (g_upsm s))) Hw1) as (rc2 & t2 & E2 & Hw2 & Ht2). eexists _, _. split; [by apply on_timers_some|]. apply runs_ret.
  assert (Hgone : forall k f, f = STABILITY_CALLBACK \/ f = CORRELATION_CALLBACK -> kind (status t2 k) <> Some f).
  { intros k f Hfk Hk. assert (Hk1 : kind (status t1 k) = Some f /\ k <> correlationResetTimer (corr (g_upsm s))).
    { rewrite Ht2 in Hk. destruct (Z.eqb_spec k (correlationResetTimer (corr (g_upsm s)))) as [->|]; [|done]. by destruct (status t1 _). }
    destruct Hk1 as [Hk1 Hne]. rewrite Ht1 in Hk1. destruct (Z.eqb_spec k (eventFilteringTimer (filt (g_upsm s)))) as [->|Hne1]; [by destruct (status (timers s) _)|].
    destruct Hfk as [-> | ->]; [by destruct (fo_only _ _ _ Hf k Hk1)|by destruct (co_only _ _ Hc k Hk1)]. }
  split; [done|]. split; try done; cbn [g_upsm timers corr filt].
  - split; [done|done|]. intros k Hk. by destruct (Hgone k CORRELATION_CALLBACK); [right|].
  - apply disabled_ok; [done|done|]. intros k. apply Hgone. by left.
Qed.

Inductive up_event : Type :=
  | UpSensor (x : Z)
  | UpInteraction (x : Z)
  | UpFilterTimer
  | UpResetTimer
  | UpEnable
  | UpDisable
  | UpStop.

Definition a_step (f : filter_part) (ev : up_event) (m : amach) : amach :=
  let with_pres p := mk_amach p (a_filtered m) (a_queued m) (a_active m) in
  match ev with
  | UpSensor x => a_handle f x m
  | UpInteraction x => with_pres (a_evaluate (negb (x =? 0)) (a_pres m))
  | UpFilterTimer => a_expire f m
  | UpResetTimer => with_pres (a_correlation_reset (a_pres m))
  | UpEnable => with_pres (a_send_events (a_pres m))
  | UpDisable => m
  | UpStop => mk_amach (a_with_reset false (a_pres m)) (a_filtered m) (a_queued m) false
  end.

(** [room] is what an event may need of the timer manager. *)
Definition room : nat := 5.

Definition event_data (x : Z) (d : EsifData) : Prop := 4 <= data_len d /\ content d = Some x.

(** One event: a call of the event callback by the event manager, the firing of an armed
    timer, or a client's enabling or disabling, of which the last ([UpStop]) stops the
    machine.  Each runs without another in between.  That leaves out two interleavings that
    the code has: the lock is free between the moment the timer manager enters a timer's
    callback and the callback's taking it ([upsm_crossed_expiry_invalid] is such a run), and
    [EsifUpsm_Enable] does not take it at all. *)
Inductive up_step (s : ust (T := T)) : up_event -> ust (T := T) -> Prop :=
  | us_sensor x d rc s' :
      event_data x d ->
      EsifUpsm_EventCallback v (Some ESIF_EVENT_SENSOR_USER_PRESENCE_CHANGED) (Some d) s = Some (rc, s') ->
      up_step s (UpSensor x) s'
  | us_interaction x d rc s' :
      event_data x d ->
      EsifUpsm_EventCallback v (Some ESIF_EVENT_OS_USER_INTERACTION_CHANGED) (Some d) s = Some (rc, s') ->
      up_step s (UpInteraction x) s'
  | us_timer cb h f ms t1 s' :
      f = STABILITY_CALLBACK \/ f = CORRELATION_CALLBACK ->
      status (timers s) h = Armed f ms -> api_begin cb (timers s) = Some (Some (h, f), t1) ->
      timer_fires v cb s = Some (tt, s') ->
      up_step s (if f =? STABILITY_CALLBACK then UpFilterTimer else UpResetTimer) s'
  | us_enable rc s' : EsifUpsm_Enable v s = Some (rc, s') -> up_step s UpEnable s'
  | us_disable s' : 2 <= refCount (g_upsm s) -> EsifUpsm_Disable s = Some (tt, s') -> up_step s UpDisable s'
  | us_stop s' : refCount (g_upsm s) <= 1 -> EsifUpsm_Disable s = Some (tt, s') -> up_step s UpStop s'.

Inductive up_run (t0 : T) : list up_event -> ust (T := T) -> Prop :=
  | up_start rc s : (EsifUpsm_Init ;! EsifUpsm_Enable v)%dptf (mk_ust zero_upsm t0 []) = Some (rc, s) -> up_run t0 [] s
  | up_snoc evs s ev s' : up_run t0 evs s -> wf room (timers s) -> up_step s ev s' -> up_run t0 (evs ++ [ev]) s'.

Lemma runs_inv {X} (m : SM (ust (T := T)) X) s x s' (P : ust (T := T) -> Prop) :
  m s = Some (x, s') -> runs m s (fun _ => P) -> P s'.
Proof. intros E (y & s1 & E1 & HQ). rewrite E in E1. by simplify_eq. Qed.

Lemma armed_filter s h ms : mach_ok s -> status (timers s) h = Armed STABILITY_CALLBACK ms ->
  h = eventFilteringTimer (filt (g_upsm s)) /\ eventFilteringTimerActive (filt (g_upsm s)) = true.
Proof.
  intros [_ Hf] E. destruct (fo_only _ _ _ Hf h) as [He ->]; [by rewrite E|]. split; [done|].
  destruct (eventFilteringTimerActive (filt (g_upsm s))) eqn:Ea; [done|]. rewrite (fo_idle _ _ _ Hf He Ea) in E. done.
Qed.

Lemma armed_reset s h ms : mach_ok s -> status (timers s) h = Armed CORRELATION_CALLBACK ms ->
  h = correlationResetTimer (corr (g_upsm s)) /\ correlationResetTimerActive (corr (g_upsm s)) = true.
Proof.
  intros [Hc _] E. destruct (co_only _ _ Hc h) as [He ->]; [by rewrite E|]. split; [done|].
  rewrite (co_status _ _ Hc He) in E. by destruct (correlationResetTimerActive (corr (g_upsm s))).
Qed.

Lemma event_call x d e s : event_data x d ->
  EsifUpsm_EventCallback v (Some e) (Some d) s =
  (if e =? ESIF_EVENT_SENSOR_USER_PRESENCE_CHANGED then EsifUpsm_HandleSensorEvent_SmLocked v x
   else if e =? ESIF_EVENT_OS_USER_INTERACTION_CHANGED then EsifUpsm_EvaluateCorrelation_SmLocked v (negb (x =? 0))
   else sret ESIF_OK) s.
Proof.
  intros [Hl Hd]. unfold EsifUpsm_EventCallback, content in *. destruct (buf_ptr d) as [b|]; [|done].
  rewrite (proj2 (Z.ltb_ge _ _) Hl), Hd. done.
Qed.

Lemma enable_spec n s : EsifUpsm_RegisterEvents v = ESIF_OK -> mach_ok s -> wf (room + n) (timers s) -> 0 <= refCount (g_upsm s) -> settings (filt (g_upsm s)) = settings initial_filter ->
  runs (EsifUpsm_Enable v) s (fun _ s' => refCount (g_upsm s') = refCount (g_upsm s) + 1 /\
    filter_post false n (mk_ust (with_refCount (refCount (g_upsm s')) (g_upsm s)) (timers s) (sent s)) s'
      (a_step (filt (g_upsm s)) UpEnable (mach_of s))).
Proof.
  intros Hreg Hok Hw Hr Hset. destruct (Z.eqb_spec (refCount (g_upsm s)) 0) as [E0|Hne].
  { eapply runs_mono; [|apply (enable_first_spec n s Hreg); [eapply wf_le; [|exact Hw]; unfold room; lia|done|by right|done]].
    intros rc s' (_ & Hw' & [Hc' Hf'] & Hr' & Hset' & Hm'). rewrite Hr', E0. split; [done|]. split; try done. cbn [g_upsm filt with_refCount]. congruence. }
  unfold EsifUpsm_Enable. apply runs_bind. eexists _, _. split; [done|].
  apply runs_get. cbn [g_upsm refCount with_refCount].
  rewrite (proj2 (Z.eqb_neq _ _)) by lia. apply runs_bind, runs_ret, runs_get. cbn [g_upsm refCount with_refCount].
  rewrite (proj2 (Z.leb_le _ _)) by lia. apply runs_bind. set (s1 := mk_ust _ _ _).
  assert (Hok1 : mach_ok s1) by (destruct Hok; by split).
  eapply runs_mono; [|apply (send_spec n s1); [eapply wf_le; [|exact Hw]; unfold room; lia|done]].
  intros rc3 s3 [H1 H2 H3 H4 H5 H6]. apply runs_ret. split; [exact H5|]. by split.
Qed.

Lemma disable_again s : 2 <= refCount (g_upsm s) ->
  EsifUpsm_Disable s = Some (tt, mk_ust (with_refCount (refCount (g_upsm s) - 1) (g_upsm s)) (timers s) (sent s)).
Proof.
  intros Hr. unfold EsifUpsm_Disable. cbn [mod_upsm smodify sbind get_upsm g_upsm refCount with_refCount].
  by rewrite (proj2 (Z.leb_gt _ _)) by lia.
Qed.

(** Every step is the abstract machine's. *)
Lemma up_step_spec n s ev s' : EsifUpsm_RegisterEvents v = ESIF_OK ->
  mach_ok s -> wf (room + n) (timers s) -> 0 <= refCount (g_upsm s) -> settings (filt (g_upsm s)) = settings initial_filter -> up_step s ev s' ->
  filter_post false n (mk_ust (with_refCount (refCount (g_upsm s')) (g_upsm s)) (timers s) (sent s)) s'
    (a_step (filt (g_upsm s)) ev (mach_of s)) /\
  refCount (g_upsm s') = match ev with UpEnable => refCount (g_upsm s) + 1 | UpDisable => refCount (g_upsm s) - 1 | UpStop => 0 | _ => refCount (g_upsm s) end.
Proof.
  intros Hreg Hok Hw Hr0 Hset Hs. pose proof Hok as [Hc Hf].
  assert (Hgo : forall m, filter_post false n s s' m ->
    filter_post false n (mk_ust (with_refCount (refCount (g_upsm s')) (g_upsm s)) (timers s) (sent s)) s' m /\
    refCount (g_upsm s') = refCount (g_upsm s)) by (intros m [H1 H2 H3 H4 H5 H6]; split; [by split|done]).
  assert (Hle : forall m, (m <= 4 + n)%nat -> wf m (timers s)) by (intros m Hm; eapply wf_le; [|exact Hw]; unfold room; lia).
  destruct Hs as [x d rc s' Hd E|x d rc s' Hd E|cb h f ms t1 s' Hk Hst Hb E|rc s' E|s' Hr E|s' Hr E].
  - apply Hgo. rewrite (event_call x d _ s Hd) in E. pattern s'; eapply (runs_inv _ _ _ s' _ E).
    apply handle_spec; [apply Hle; lia|done|done].
  - apply Hgo. rewrite (event_call x d _ s Hd) in E. cbn -[EsifUpsm_EvaluateCorrelation_SmLocked] in E.
    pattern s'; eapply (runs_inv _ _ _ s' _ E). eapply runs_mono; [|apply (evaluate_spec n); [apply Hle; lia|done]].
    intros rc1 s1 Hp. by apply (corr_filter_post n s s1).
  - destruct Hk as [-> | ->]; cbn [Z.eqb STABILITY_CALLBACK CORRELATION_CALLBACK]; apply Hgo.
    + destruct (armed_filter s h ms Hok Hst) as [-> Ha]. pattern s'; eapply (runs_inv _ _ _ s' _ E).
      apply (expire_spec n s cb STABILITY_CALLBACK t1); [apply Hle; lia|done..].
    + destruct (armed_reset s h ms Hok Hst) as [-> Ha]. pattern s'; eapply (runs_inv _ _ _ s' _ E).
      apply (correlation_reset_spec n s cb CORRELATION_CALLBACK t1); [apply Hle; lia|done..].
  - pose proof (enable_spec n s Hreg Hok Hw Hr0 Hset) as (y & s1 & E1 & H1 & H2). rewrite E in E1. injection E1 as <- <-. by split.
  - rewrite (disable_again s Hr) in E. injection E as <-. split; [|done]. split; try done. cbn. apply Hle. lia.
  - pose proof (stop_spec n s ltac:(apply Hle; lia) Hok Hr) as (y & s1 & E1 & H1 & H2). rewrite E in E1. injection E1 as <- <-. rewrite H1. by split.
Qed.
End Refinement.

(* ------------------------------------------------------------------ *)
(** ** Facts of the abstract machine *)

Definition a_run (v : env) (evs : list up_event) : amach :=
  fold_left (fun m ev => a_step (initial_filter v) ev m) evs a_first.

(** What the subscribers of the two events were last told. *)
Definition last_presence (l : list signal) : option Z :=
  fold_left (fun p e => match e with Presence x => Some x | Correlation _ => p end) l None.
Definition last_correlation (l : list signal) : Z :=
  fold_left (fun p e => match e with Correlation x => x | Presence _ => p end) l UP_CORRELATION_STATE_POSITIVE.

#[local] Arguments last_presence : simpl never.
#[local] Arguments last_correlation : simpl never.

Definition last_sensor (evs : list up_event) : Z :=
  fold_left (fun p ev => match ev with UpSensor x => x | _ => p end) evs UP_SENSOR_STATE_INVALID.

Definition sensor_value (x : Z) : Prop := 0 <= x <= 2.
Definition valid_event (ev : up_event) : Prop := match ev with UpSensor x => sensor_value x | _ => True end.

Record pres_pre (p : pres) : Prop := {
  pp_cur : sensor_value (p_cur p) \/ p_cur p = UP_SENSOR_STATE_INVALID;
  pp_corr : p_corr p = UP_CORRELATION_STATE_NEGATIVE \/ p_corr p = UP_CORRELATION_STATE_POSITIVE;
  pp_last_corr : last_correlation (p_sent p) = p_corr p;
  pp_reset : p_reset p = true -> p_corr p = UP_CORRELATION_STATE_NEGATIVE /\ p_inter p = false
}.

Record pres_inv (p : pres) : Prop := {
  pi_pre : pres_pre p;
  pi_last : last_presence (p_sent p) = Some (resolve (p_cur p) (p_inter p));
  pi_reset : p_reset p = true -> p_cur p = UP_SENSOR_STATE_NOT_PRESENT
}.

Lemma last_presence_snoc l e : last_presence (l ++ [e]) = match e with Presence x => Some x | _ => last_presence l end.
Proof. unfold last_presence. by rewrite fold_left_app. Qed.
Lemma last_correlation_snoc l e : last_correlation (l ++ [e]) = match e with Correlation x => x | _ => last_correlation l end.
Proof. unfold last_correlation. by rewrite fold_left_app. Qed.

Ltac sensor_cases H :=
  let H' := fresh in
  destruct H as [H'|H']; [unfold sensor_value in H'; match type of H' with 0 <= ?x <= 2 =>
    assert (x = 0 \/ x = 1 \/ x = 2) as [?|[?|?]] by lia end; clear H'|].

Ltac pres_crush :=
  repeat (rewrite ?last_presence_snoc, ?last_correlation_snoc; cbn);
  first [done | by left | by right | left; unfold sensor_value; lia | by intros _; auto | intuition congruence].

Lemma evaluate_inv b p : pres_inv p -> pres_inv (a_evaluate b p).
Proof.
  destruct p as [cur i c r l]. intros [[Hcur Hc Hl Hr] Hp Hr2]. cbn in *.
  sensor_cases Hcur; destruct Hc as [-> | ->], i, b, r; subst cur; cbn in *;
    (split; [split|..]); pres_crush.
Qed.

Lemma send_events_inv p : pres_pre p -> pres_inv (a_send_events p).
Proof.
  destruct p as [cur i c r l]. intros [Hcur Hc Hl Hr]. cbn in *.
  sensor_cases Hcur; destruct Hc as [-> | ->], i, r; subst cur; cbn in *;
    (split; [split|..]); pres_crush.
Qed.

Lemma correlation_reset_inv p : pres_inv p -> pres_inv (a_correlation_reset p).
Proof.
  destruct p as [cur i c r l]. intros [[Hcur Hc Hl Hr] Hp Hr2]. cbn in *.
  unfold a_correlation_reset, a_presence, a_signal. cbn. split; [split|..]; pres_crush.
Qed.

Lemma evaluate_cur b p : p_cur (a_evaluate b p) = p_cur p.
Proof.
  unfold a_evaluate, a_finish. repeat (case_match; cbn in *); done.
Qed.

Lemma send_events_cur p : p_cur (a_send_events p) = p_cur p.
Proof. unfold a_send_events. rewrite evaluate_cur. by destruct (_ && _). Qed.

(** [L] is the sensor's last value. *)
Record mach_inv (L : Z) (m : amach) : Prop := {
  mi_pres : pres_inv (a_pres m);
  mi_idle : a_active m = false -> p_cur (a_pres m) = L /\
    a_filtered m = UP_SENSOR_STATE_INVALID /\ a_queued m = UP_SENSOR_STATE_INVALID;
  mi_active : a_active m = true -> sensor_value (a_filtered m) /\
    ((a_queued m = UP_SENSOR_STATE_INVALID /\ a_filtered m = L) \/ (sensor_value (a_queued m) /\ a_queued m = L))
}.

Lemma with_cur_pre x p : sensor_value x -> pres_pre p -> pres_pre (a_with_cur x p).
Proof. intros Hx [H1 H2 H3 H4]. split; [by left|done..]. Qed.

Lemma report_inv x m : sensor_value x -> pres_pre (a_pres m) -> mach_inv x (a_report x m).
Proof.
  intros Hx Hp. split; [by apply send_events_inv, with_cur_pre| |done]. intros _. split; [|done].
  exact (send_events_cur (a_with_cur x (a_pres m))).
Qed.

Lemma start_inv f x m :
  sensor_value x -> pres_inv (a_pres m) -> a_filtered m = x -> a_queued m = UP_SENSOR_STATE_INVALID ->
  mach_inv x (a_start f x m).
Proof.
  intros Hx Hp Ef Eq. unfold a_start. destruct (window f x =? 0); [by apply report_inv; [|apply Hp]|].
  split; [done|done|]. intros _. cbn. rewrite Ef. split; [done|by left].
Qed.

Lemma handle_inv f L x m : mach_inv L m -> sensor_value x -> mach_inv x (a_handle f x m).
Proof.
  intros [Hp Hi Ha] Hx. assert (Hni : x <> UP_SENSOR_STATE_INVALID) by (unfold sensor_value, UP_SENSOR_STATE_INVALID in *; lia).
  assert (Hrep : mach_inv x (a_report x m)) by by apply report_inv; [|apply Hp].
  assert (Hfil : x <> a_filtered m -> mach_inv x (a_filter f x m)).
  { intros Hne. unfold a_filter. destruct (a_active m) eqn:Ea; cbn [negb].
    - destruct (Ha eq_refl) as (Hf & Hq). destruct (x <? a_filtered m); (split; [done|done|]); intros _; cbn.
      + split; [done|by right].
      + split; [done|by left].
    - apply start_inv; try done. cbn. by apply Hi. }
  unfold a_handle. destruct (Z.eqb_spec x (p_cur (a_pres m))) as [Ec|Ec]; cbn [negb].
  { split; [done|intros _; cbn; by rewrite Ec|done]. }
  destruct (_ || _); [done|]. destruct (Z.eqb_spec x (a_filtered m)) as [Ef|Ef].
  { split; [done| |]; cbn; intros Eact.
    - destruct (Hi Eact) as (_ & E & _). congruence.
    - destruct (Ha Eact) as (Hf & _). split; [done|by left]. }
  destruct (_ && _); [by apply Hfil|]. destruct (_ && _); [by apply Hfil|done].
Qed.

Lemma expire_inv f L m : mach_inv L m -> a_active m = true -> mach_inv L (a_expire f m).
Proof.
  intros [Hp Hi Ha] Eact. destruct (Ha Eact) as (Hf & Hq). unfold a_expire.
  assert (Hse : pres_inv (a_send_events (a_with_cur (a_filtered m) (a_pres m)))) by by apply send_events_inv, with_cur_pre; [|apply Hp].
  destruct Hq as [[Eq El]|[Hq El]].
  - rewrite Eq. cbn. split; [done| |done]. intros _. cbn. rewrite send_events_cur. by split_and!.
  - rewrite (proj2 (Z.eqb_neq _ _)) by (unfold sensor_value, UP_SENSOR_STATE_INVALID in *; lia). cbn [negb].
    rewrite <- El. by apply start_inv.
Qed.

Lemma first_inv : mach_inv UP_SENSOR_STATE_INVALID a_first.
Proof.
  split; [|by intros _; split_and!|done].
  apply send_events_inv. split; cbn; [by right|by right|done|done].
Qed.

(** Timer events only happen when the timer is set. *)
Definition enabled_event (ev : up_event) (m : amach) : Prop :=
  match ev with UpFilterTimer => a_active m = true | UpResetTimer => p_reset (a_pres m) = true | _ => True end.

Lemma a_step_inv f ev L m : ev <> UpStop ->
  mach_inv L m -> valid_event ev -> enabled_event ev m ->
  mach_inv (match ev with UpSensor x => x | _ => L end) (a_step f ev m).
Proof.
  intros Hne Hm Hv He. pose proof Hm as [Hp Hi Ha]. destruct ev as [x|x| | | | |]; cbn [a_step valid_event enabled_event] in *.
  - by eapply handle_inv.
  - split; cbn; [by apply evaluate_inv|by rewrite evaluate_cur|done].
  - by apply expire_inv.
  - split; cbn; [by apply correlation_reset_inv|done|done].
  - split; cbn; [apply send_events_inv, Hp|by rewrite send_events_cur|done].
  - done.
  - done.
Qed.

Lemma a_step_settings f g ev m : settings f = settings g -> a_step f ev m = a_step g ev m.
Proof. destruct f, g. unfold settings. cbn. intros [= -> -> -> -> ->]. by destruct ev. Qed.

Lemma a_run_snoc v evs ev : a_run v (evs ++ [ev]) = a_step (initial_filter v) ev (a_run v evs).
Proof. unfold a_run. by rewrite fold_left_app. Qed.

Lemma last_sensor_snoc evs ev : last_sensor (evs ++ [ev]) = match ev with UpSensor x => x | _ => last_sensor evs end.
Proof. unfold last_sensor. by rewrite fold_left_app. Qed.

(** A window is as set, up to the maximum, so none is longer. *)
Lemma window_max v x : window (initial_filter v) x <= STABILITY_WINDOW_MAX.
Proof.
  unfold window, initial_filter, read_window, ESIF_UPSM_DEFAULT_STABILITY_WINDOW, STABILITY_WINDOW_MAX. cbn.
  repeat case_match; lia.
Qed.

Lemma handle_held f L x m : mach_inv L m -> sensor_value x -> p_cur (a_pres m) <> UP_SENSOR_STATE_INVALID ->
  (negativeEventFilteringEnabled f && (x <? p_cur (a_pres m))) ||
    (positiveEventFilteringEnabled f && (p_cur (a_pres m) <? x)) = true ->
  (a_active m = false -> window f x <> 0) ->
  let m' := a_handle f x m in
  p_sent (a_pres m') = p_sent (a_pres m) /\ p_cur (a_pres m') = p_cur (a_pres m) /\ a_active m' = true /\
  a_filtered m' = if a_active m then Z.max (a_filtered m) x else x.
Proof.
  intros [_ Hi Ha] Hx Hc Hh Hwin. cbv zeta.
  assert (Hne : x <> p_cur (a_pres m)).
  { intros E. rewrite E, Z.ltb_irrefl in Hh. by rewrite !andb_false_r in Hh. }
  assert (Hxi : x <> UP_SENSOR_STATE_INVALID) by (unfold sensor_value, UP_SENSOR_STATE_INVALID in *; lia).
  unfold a_handle. rewrite (proj2 (Z.eqb_neq _ _) Hne), (proj2 (Z.eqb_neq _ _) Hc), (proj2 (Z.eqb_neq _ _) Hxi). cbn [negb orb].
  destruct (Z.eqb_spec x (a_filtered m)) as [Ef|Ef].
  { cbn. destruct (a_active m) eqn:Ea; [split_and!; try done; lia|]. destruct (Hi eq_refl) as (_ & E & _). congruence. }
  assert (Hf : p_sent (a_pres (a_filter f x m)) = p_sent (a_pres m) /\ p_cur (a_pres (a_filter f x m)) = p_cur (a_pres m) /\
    a_active (a_filter f x m) = true /\ a_filtered (a_filter f x m) = if a_active m then Z.max (a_filtered m) x else x).
  { unfold a_filter. destruct (a_active m) eqn:Ea; cbn [negb].
    - destruct (Z.ltb_spec x (a_filtered m)); cbn; split_and!; try done; lia.
    - unfold a_start. by rewrite (proj2 (Z.eqb_neq _ _) (Hwin eq_refl)). }
  destruct (negativeEventFilteringEnabled f && _); [exact Hf|]. cbn [orb] in Hh. by rewrite Hh.
Qed.

(** Two expiries are enough to reach the sensor's last value. *)
Lemma expire_settles f L m : mach_inv L m -> a_active m = true ->
  (p_cur (a_pres (a_expire f m)) = L /\ a_active (a_expire f m) = false) \/
  (a_active (a_expire f m) = true /\ a_queued m <> UP_SENSOR_STATE_INVALID /\
   a_queued (a_expire f m) = UP_SENSOR_STATE_INVALID).
Proof.
  intros Hm Hact. pose proof (mi_idle _ _ (expire_inv f L m Hm Hact)) as Hi.
  destruct (a_active (a_expire f m)) eqn:Ea; [right|by left; destruct Hi].
  revert Ea. unfold a_expire, a_start. destruct (Z.eqb_spec (a_queued m) UP_SENSOR_STATE_INVALID); cbn [negb]; [done|].
  by destruct (window f (a_queued m) =? 0).
Qed.

Lemma expire_last f m : a_queued m = UP_SENSOR_STATE_INVALID -> a_active (a_expire f m) = false.
Proof. intros E. unfold a_expire. by rewrite E. Qed.

(* ------------------------------------------------------------------ *)
(** ** Runs are runs of the abstract machine *)

Section Runs.
Context {T : Type} {api : TimerApi T} {laws : TimerLaws T}.
Context (v : env) (Hgood : good v) (Hreg : EsifUpsm_RegisterEvents v = ESIF_OK).
Context (t0 : T) (Hwf0 : wf (4 + room) t0) (Hno : no_timers t0).

(** What the machine is after every run, and what it is besides if it was never stopped. *)
Record up_ref (evs : list up_event) (s : ust (T := T)) : Prop := {
  ur_ok : mach_ok s;
  ur_settings : settings (filt (g_upsm s)) = settings (initial_filter v);
  ur_mach : mach_of s = a_run v evs;
  ur_ref : 0 <= refCount (g_upsm s)
}.

Lemma up_step_enabled s ev s' : mach_ok s -> up_step v s ev s' -> enabled_event ev (mach_of s).
Proof.
  intros Hok [| |cb h f ms t1 s1 [-> | ->] Hst| | |]; try done.
  - by apply (armed_filter s h ms Hok).
  - by apply (armed_reset s h ms Hok).
Qed.

Lemma up_step_ref n evs s ev s' : up_ref evs s -> wf (room + n) (timers s) -> up_step v s ev s' -> up_ref (evs ++ [ev]) s' /\ wf n (timers s').
Proof.
  intros [Hok Hset Hm Hrf] Hw Hs. destruct (up_step_spec v Hgood n s ev s' Hreg Hok Hw Hrf Hset Hs) as [[H1 H2 H3 H4 H5 H6] Hr]. split; [|done].
  split; [done|by rewrite H4|by rewrite a_run_snoc, <- Hm, <- (a_step_settings _ _ ev (mach_of s) Hset)|].
  rewrite Hr. destruct ev; try lia. inversion Hs; subst; [by destruct (f =? _)|lia].
Qed.
Lemma up_start_ref n rc s : wf (4 + n) t0 -> (EsifUpsm_Init ;! EsifUpsm_Enable v)%dptf (mk_ust zero_upsm t0 []) = Some (rc, s) -> up_ref [] s /\ wf n (timers s).
Proof.
  intros Hw E. destruct (first_enable_spec v Hgood n t0 Hw Hno Hreg) as (rc1 & s1 & E1 & _ & Hw1 & Hok & Hrf & Hset & Hm).
  rewrite E in E1. injection E1 as <- <-. split; [|done]. split; [done|done|done|lia].
Qed.
Lemma up_run_ref evs s : up_run v t0 evs s -> up_ref evs s.
Proof.
  induction 1 as [rc s E|evs s ev s' Hr IH Hw Hs]; [by destruct (up_start_ref room rc s Hwf0 E)|]. by destruct (up_step_ref 0 evs s ev s' IH Hw Hs).
Qed.

Lemma up_run_inv evs s : up_run v t0 evs s -> Forall valid_event evs -> UpStop ∉ evs -> mach_inv (last_sensor evs) (mach_of s).
Proof.
  induction 1 as [rc s E|evs s ev s' Hr IH Hw Hs]; intros Hv Hns.
  - destruct (up_start_ref room rc s Hwf0 E) as [[_ _ -> _] _]. apply first_inv.
  - apply Forall_app in Hv as [Hv [Hev _]%Forall_cons]. pose proof (up_run_ref evs s Hr) as Href.
    assert (Hns' : UpStop ∉ evs /\ ev <> UpStop) by (split; [intros Hin; apply Hns, elem_of_app; by left|intros ->; apply Hns, elem_of_app; right; left]). destruct Hns' as [Hns1 Hns2].
    destruct (up_step_ref 0 evs s ev s' Href Hw Hs) as [[_ _ Hm' _] _]. rewrite Hm', a_run_snoc, last_sensor_snoc, <- (ur_mach _ _ Href).
    apply a_step_inv; [done|by apply IH|done|]. eapply up_step_enabled; [apply Href|done].
Qed.

Lemma up_run_step evs s ev s' : up_run v t0 evs s -> wf room (timers s) -> up_step v s ev s' ->
  mach_ok s' /\ mach_of s' = a_step (initial_filter v) ev (mach_of s).
Proof.
  intros Hr Hw Hs. pose proof (up_run_ref evs s Hr) as Href. destruct (up_step_ref 0 evs s ev s' Href Hw Hs) as [[Hok _ Hm _] _]. split; [done|]. by rewrite Hm, a_run_snoc, (ur_mach _ _ Href).
Qed.

(** When an event can happen. *)
Definition can_happen (s : ust (T := T)) (ev : up_event) : Prop :=
  match ev with
  | UpSensor x | UpInteraction x => exists d, event_data x d
  | UpFilterTimer => exists h ms, status (timers s) h = Armed STABILITY_CALLBACK ms
  | UpResetTimer => exists h ms, status (timers s) h = Armed CORRELATION_CALLBACK ms
  | UpEnable => True
  | UpDisable => 2 <= refCount (g_upsm s)
  | UpStop => refCount (g_upsm s) <= 1
  end.

Lemma up_progress evs s ev : up_ref evs s -> wf room (timers s) -> can_happen s ev -> exists s', up_step v s ev s'.
Proof.
  intros [Hok Hset _ Hrf] Hw Hc. pose proof Hok as [Hco Hfi]. assert (Hle : forall n, (n <= room)%nat -> wf n (timers s)) by (intros; by eapply wf_le).
  destruct ev as [x|x| | | | |]; cbn [can_happen] in Hc.
  - destruct Hc as [d Hd]. destruct (handle_spec v Hgood 0 s x) as (rc & s' & E & _); [apply Hle; unfold room; lia|done..|].
    exists s'. eapply us_sensor; [exact Hd|]. by rewrite (event_call v x d _ s Hd).
  - destruct Hc as [d Hd]. destruct (evaluate_spec v Hgood 0 (negb (x =? 0)) s) as (rc & s' & E & _); [apply Hle; unfold room; lia|done..|].
    exists s'. eapply us_interaction; [exact Hd|]. by rewrite (event_call v x d _ s Hd).
  - destruct Hc as (h & ms & Hst). destruct (armed_filter s h ms Hok Hst) as [-> Ha].
    destruct (begin_law _ _ _ _ _ Hw Hst) as [(cb & t1 & Eb) _].
    destruct (expire_spec v Hgood 0 s cb _ t1 ltac:(apply Hle; unfold room; lia) Hco Hfi Ha Eb) as ([] & s' & E & _).
    exists s'. exact (us_timer v s cb _ STABILITY_CALLBACK ms t1 s' (or_introl eq_refl) Hst Eb E).
  - destruct Hc as (h & ms & Hst). destruct (armed_reset s h ms Hok Hst) as [-> Ha].
    destruct (begin_law _ _ _ _ _ Hw Hst) as [(cb & t1 & Eb) _].
    destruct (correlation_reset_spec v Hgood 0 s cb _ t1 ltac:(apply Hle; unfold room; lia) Hco Hfi Ha Eb) as ([] & s' & E & _).
    exists s'. exact (us_timer v s cb _ CORRELATION_CALLBACK ms t1 s' (or_intror eq_refl) Hst Eb E).
  - destruct (enable_spec v Hgood 0 s Hreg Hok Hw Hrf Hset) as (rc & s' & E & _). exists s'. by eapply us_enable.
  - eexists. eapply us_disable; [done|]. by apply disable_again.
  - destruct (stop_spec 0 s ltac:(apply Hle; lia) Hok Hc) as ([] & s' & E & _). exists s'. by apply us_stop.
Qed.
(** C16: The user presence machine refines its abstract machine.  After any run from the
    first enabling - sensor and interaction events, expiries of its timers, and enables and
    disables of its clients, also the last disable, which stops it, and enabling again after
    that - the sensor value in force, the interaction flag, the correlation, the filtered
    and queued values, the two timer flags and the signals sent, in order, are those that
    the timer-free machine computes from the events alone; and every event that can happen
    runs to the end, while a timer event happens only when that timer is armed.  It is so
    for events one after the other: an expiry is the timer manager's entering of the
    callback together with the callback, and enabling is one event ([up_step] says what
    that leaves out); the event manager accepts the registrations and signals, and the timer
    manager has memory and room. *)
Theorem upsm_refines (evs : list up_event) (s : ust (T := T))
    (Hrun : up_run v t0 evs s) :
  mach_of s = a_run v evs /\
  (wf room (timers s) -> forall ev, can_happen s ev <-> exists s', up_step v s ev s').
Proof.
  pose proof (up_run_ref evs s Hrun) as Href. split; [apply Href|]. intros Hw ev. split; [by apply (up_progress evs)|].
  intros [s' [x d rc s1 Hd E|x d rc s1 Hd E|cb h f ms t1 s1 [-> | ->] Hst Hb E|rc s1 E|s1 Hr E|s1 Hr E]]; cbn; eauto.
Qed.

(** C15: Filtering delays the sensor but does not lose its last value, in runs in which
    events come one after the other (the timer manager's entering of an expired timer's
    callback and the callback are one event, and so is enabling) and some client keeps the
    machine enabled: there, whatever the filter settings, when no stability window is open
    the sensor value in force is the last one the sensor sent (none, if it sent none), and
    when one is open, its expiry brings the last value into force and closes the window, or
    opens one more window whose expiry does.  A sensor event that takes the lock between an
    expiry and its callback, and the last client's disabling within a window, can lose the
    value ([upsm_crossed_expiry_invalid], [upsm_stale_filter_drops]). *)
Theorem upsm_converges (evs : list up_event) (s : ust (T := T))
    (Hrun : up_run v t0 evs s) (Hv : Forall valid_event evs) (Hns : UpStop ∉ evs) (Hw : wf room (timers s)) :
  let cur s := curSensorState (sensor (g_upsm s)) in
  let open s := eventFilteringTimerActive (filt (g_upsm s)) in
  let last := last_sensor evs in
  if open s then
    forall s1, up_step v s UpFilterTimer s1 ->
      (cur s1 = last /\ open s1 = false) \/
      (open s1 = true /\
       (wf room (timers s1) -> forall s2, up_step v s1 UpFilterTimer s2 -> cur s2 = last /\ open s2 = false))
  else cur s = last.
Proof.
  intros cur open last. pose proof (up_run_inv evs s Hrun Hv Hns) as Hinv.
  change (cur s) with (p_cur (a_pres (mach_of s))). change (open s) with (a_active (mach_of s)).
  destruct (a_active (mach_of s)) eqn:Ea; [|by apply (mi_idle _ _ Hinv)]. intros s1 Hs1.
  destruct (up_run_step evs s _ s1 Hrun Hw Hs1) as [_ E1]. cbn [a_step] in E1.
  change (cur s1) with (p_cur (a_pres (mach_of s1))). change (open s1) with (a_active (mach_of s1)). rewrite E1.
  pose proof (expire_inv (initial_filter v) last (mach_of s) Hinv Ea) as Hinv1.
  destruct (expire_settles (initial_filter v) last (mach_of s) Hinv Ea) as [?|(Ea1 & _ & Eq1)]; [by left|right].
  split; [done|]. intros Hw1 s2 Hs2. assert (Hrun1 : up_run v t0 (evs ++ [UpFilterTimer]) s1) by by eapply up_snoc.
  destruct (up_run_step _ s1 _ s2 Hrun1 Hw1 Hs2) as [_ E2]. cbn [a_step] in E2. rewrite E1 in E2.
  change (cur s2) with (p_cur (a_pres (mach_of s2))). change (open s2) with (a_active (mach_of s2)). rewrite E2.
  pose proof (expire_last (initial_filter v) _ Eq1) as Ea2. split; [|done].
  by apply (mi_idle _ _ (expire_inv (initial_filter v) last _ Hinv1 Ea1)).
Qed.

(** The machine's subscribers are never out of date.  After a run without a
    stop the last platform presence event carries the value the sensor in force and the
    interaction flag resolve to, the last correlation event the correlation
    state; and a running correlation reset timer means that the correlation is
    negative, the user is not present and not interacting. *)
Theorem upsm_subscribers_current (evs : list up_event) (s : ust (T := T))
    (Hrun : up_run v t0 evs s) (Hv : Forall valid_event evs) (Hns : UpStop ∉ evs) :
  let u := g_upsm s in
  last_presence (sent s) = Some (resolve (curSensorState (sensor u)) (interacting (corr u))) /\
  last_correlation (sent s) = correlationState (corr u) /\
  (correlationResetTimerActive (corr u) = true ->
     correlationState (corr u) = UP_CORRELATION_STATE_NEGATIVE /\
     curSensorState (sensor u) = UP_SENSOR_STATE_NOT_PRESENT /\ interacting (corr u) = false).
Proof.
  destruct (up_run_inv evs s Hrun Hv Hns) as [[[H1 H2 H3 H4] H5 H6] _ _]. cbn in *.
  split; [done|split; [done|]]. intros Hr. destruct (H4 Hr). auto.
Qed.

(** What filtering holds back.  A sensor value that the settings filter
    (lower than the value in force, or higher, and of a kind that is filtered)
    changes neither the value in force nor what the subscribers were told.
    Within an open window the value that the window's end brings into force
    becomes the greater of the two; with no window open one opens for the new
    value, unless its length is set to zero. *)
Theorem upsm_holds_back (evs : list up_event) (s s' : ust (T := T)) (x : Z)
    (Hrun : up_run v t0 evs s) (Hv : Forall valid_event evs) (Hns : UpStop ∉ evs) (Hw : wf room (timers s))
    (Hx : sensor_value x) (Hs : up_step v s (UpSensor x) s')
    (Hcur : curSensorState (sensor (g_upsm s)) <> UP_SENSOR_STATE_INVALID)
    (Hheld : let f := initial_filter v in let cur := curSensorState (sensor (g_upsm s)) in
       (negativeEventFilteringEnabled f && (x <? cur)) || (positiveEventFilteringEnabled f && (cur <? x)) = true)
    (Hwin : eventFilteringTimerActive (filt (g_upsm s)) = false -> window (initial_filter v) x <> 0) :
  sent s' = sent s /\ curSensorState (sensor (g_upsm s')) = curSensorState (sensor (g_upsm s)) /\
  eventFilteringTimerActive (filt (g_upsm s')) = true /\
  filteredSensorState (sensor (g_upsm s')) =
    (if eventFilteringTimerActive (filt (g_upsm s)) then Z.max (filteredSensorState (sensor (g_upsm s))) x else x).
Proof.
  pose proof (up_run_inv evs s Hrun Hv Hns) as Hinv.
  destruct (up_run_step evs s _ s' Hrun Hw Hs) as [_ E]. cbn [a_step] in E.
  change (sent s') with (p_sent (a_pres (mach_of s'))). change (curSensorState (sensor (g_upsm s'))) with (p_cur (a_pres (mach_of s'))).
  change (eventFilteringTimerActive (filt (g_upsm s'))) with (a_active (mach_of s')).
  change (filteredSensorState (sensor (g_upsm s'))) with (a_filtered (mach_of s')).
  change (sent s) with (p_sent (a_pres (mach_of s))). change (curSensorState (sensor (g_upsm s))) with (p_cur (a_pres (mach_of s))) in *.
  change (eventFilteringTimerActive (filt (g_upsm s))) with (a_active (mach_of s)) in *.
  change (filteredSensorState (sensor (g_upsm s))) with (a_filtered (mach_of s)).
  rewrite E. by apply (handle_held (initial_filter v) (last_sensor evs)).
Qed.

(** The machine accounts for its timers.  After any run it owns at most one
    filter timer and one correlation reset timer, those its handles name; each
    is armed in the timer manager exactly when the machine's flag says so, the
    reset timer for the reset time. *)
Theorem upsm_timers_accounted (evs : list up_event) (s : ust (T := T))
    (Hrun : up_run v t0 evs s) (k : Z) :
  let f := filt (g_upsm s) in let c := corr (g_upsm s) in
  (kind (status (timers s) k) = Some STABILITY_CALLBACK -> k = eventFilteringTimer f) /\
  (kind (status (timers s) k) = Some CORRELATION_CALLBACK -> k = correlationResetTimer c) /\
  (eventFilteringTimerActive f = true <-> exists h ms, status (timers s) h = Armed STABILITY_CALLBACK ms) /\
  (correlationResetTimerActive c = true <->
   exists h, status (timers s) h = Armed CORRELATION_CALLBACK ESIF_UPSM_CORRELATION_RESET_TIME).
Proof.
  destruct (up_run_ref evs s Hrun) as [Hok _ _ _]. pose proof Hok as [Hc Hf]. cbv zeta. split_and!.
  - apply (fo_only _ _ _ Hf).
  - apply (co_only _ _ Hc).
  - split; [intros Ha; destruct (fo_active _ _ _ Hf Ha) as (_ & ms & E); eauto|].
    intros (h & ms & E). by destruct (armed_filter s h ms Hok E).
  - split; [|intros (h & E); by destruct (armed_reset s h _ Hok E)].
    intros Ha. exists (correlationResetTimer (corr (g_upsm s))). by rewrite (co_status _ _ Hc (co_active _ _ Hc Ha)), Ha.
Qed.
End Runs.

(* ------------------------------------------------------------------ *)
(** ** A run over the timer manager, and two races *)

Module UpsmDemo.
(** Negative filtering on, positive filtering off, windows of five seconds. *)
Definition v : env := mk_env all_mem all_os (fun _ _ => ESIF_OK) (fun _ => ESIF_OK)
  (fun p => (ESIF_OK, if p =? GET_NEGATIVE_EVENT_FILTERING_STATE then 1
                      else if p =? GET_POSITIVE_EVENT_FILTERING_STATE then 0 else 5000)).
Definition t0 : tmrm := mk_tmrm false false None 0 0 [].
Definition data (x : Z) : EsifData := mk_EsifData 3 (Some [x; 0; 0; 0]) 4 4.
Abbreviation ustate := (ust (T := tmrm)).
Definition exec {X} (m : SM ustate X) (s : ustate) : ustate := match m s with Some (_, s') => s' | None => s end.
Definition sensor_event (x : Z) : SM ustate Z :=
  EsifUpsm_EventCallback v (Some ESIF_EVENT_SENSOR_USER_PRESENCE_CHANGED) (Some (data x)).

Definition s0 : ustate := exec (EsifUpsm_Init ;! EsifUpsm_Enable v)%dptf (mk_ust zero_upsm t0 []).
Definition s1 : ustate := exec (sensor_event 2) s0.
Definition s2 : ustate := exec (sensor_event 0) s1.

Lemma good_v : good v.
Proof. done. Qed.
Lemma wf_t0 n : (n <= 1000)%nat -> wf n t0.
Proof.
  intros Hn. exists [], (mk_tsys t0 [] []). split; [done|split; [constructor|]]. cbn.
  assert (Z.of_nat ESIF_CNT_HNDL_RETRIES_MAX = 10000) by (vm_compute; reflexivity). lia.
Qed.
Lemma no_timers_t0 : no_timers t0.
Proof. by intros k. Qed.

Lemma run_step evs s s' x n :
  up_run v t0 evs s /\ wf (room + n) (timers s) -> 0 <= x <= 2 ->
  sensor_event x s = Some (ESIF_OK, s') -> up_run v t0 (evs ++ [UpSensor x]) s' /\ wf n (timers s').
Proof.
  intros (Hr & Hw) Hx E.
  assert (Hs : up_step v s (UpSensor x) s').
  { apply (us_sensor v s x (data x) ESIF_OK s'); [|exact E]. split; [done|]. cbn. f_equal. lia. }
  pose proof (up_run_ref v good_v eq_refl t0 (wf_t0 (4 + room) ltac:(unfold room; lia)) no_timers_t0 evs s Hr) as Href.
  destruct (up_step_ref v good_v eq_refl n evs s _ s' Href Hw Hs) as [_ Hw'].
  split; [|done]. eapply up_snoc; [done| |done]. eapply wf_le; [|exact Hw]. lia.
Qed.

Lemma run_first n : (n <= 900)%nat -> up_run v t0 [] s0 /\ wf n (timers s0).
Proof.
  intros Hn. destruct (first_enable_spec v good_v n t0) as (rc & s & E & _ & Hw & _);
    [apply wf_t0; lia|apply no_timers_t0|done|].
  assert (s0 = s) as -> by (unfold s0, exec; by rewrite E). split; [|done]. by eapply up_start.
Qed.

Lemma run_up1 n : (n <= 800)%nat -> up_run v t0 [UpSensor 2] s1 /\ wf n (timers s1).
Proof.
  intros Hn. apply (run_step [] s0 s1 2 n); [apply run_first; unfold room; lia|lia|vm_compute; reflexivity].
Qed.

(** The user is seen, and then seen to be away: the latter is held back. *)
Lemma run_up2 n : (n <= 700)%nat -> up_run v t0 [UpSensor 2; UpSensor 0] s2 /\ wf n (timers s2).
Proof.
  intros Hn. apply (run_step [UpSensor 2] s1 s2 0 n); [apply run_up1; unfold room; lia|lia|vm_compute; reflexivity].
Qed.
Lemma no_stop2 : UpStop ∉ [UpSensor 2; UpSensor 0].
Proof. by intros [?|[?|?%elem_of_nil]%elem_of_cons]%elem_of_cons. Qed.

Lemma valid2 : Forall valid_event [UpSensor 2; UpSensor 0].
Proof. apply Forall_cons. split; [|apply Forall_cons; split; [|constructor]]; cbn; unfold sensor_value; lia. Qed.

(** The window's end and then the machine's disabling and enabling again. *)
Definition reenabled : ustate := exec (EsifUpsm_Disable ;! EsifUpsm_Enable v)%dptf s2.
(** The timer's callback has begun when the sensor event gets the lock first. *)
Definition crossed : SM ustate Z :=
  let! r := on_timers (api_begin (T := tmrm) 1) in
  let! rc := sensor_event 2 in
  EsifUpsm_StabilityWindowCallback v ;!
  on_timers (api_end all_os (match r with Some (h, _) => h | None => 0 end)) ;!
  sret rc.
End UpsmDemo.

(** Disabling the machine while a stability window is open loses the held
    value for good.  The value stays recorded as filtered although no timer
    runs any more; when the machine has been enabled again and the sensor
    repeats the value, it is taken for the one being filtered and dropped: the
    call succeeds, the value in force stays the older one, nothing is sent and
    no window is open. *)
Theorem upsm_stale_filter_drops :
  let s := UpsmDemo.reenabled in
  curSensorState (sensor (g_upsm s)) = UP_SENSOR_STATE_ENGAGED /\
  eventFilteringTimerActive (filt (g_upsm s)) = false /\
  exists s', UpsmDemo.sensor_event UP_SENSOR_STATE_NOT_PRESENT s = Some (ESIF_OK, s') /\
    curSensorState (sensor (g_upsm s')) = UP_SENSOR_STATE_ENGAGED /\ sent s' = sent s /\
    eventFilteringTimerActive (filt (g_upsm s')) = false.
Proof.
  cbv zeta. split; [by vm_compute|split; [by vm_compute|]].
  exists (UpsmDemo.exec (UpsmDemo.sensor_event 0) UpsmDemo.reenabled). split_and!; by vm_compute.
Qed.

(** A window's expiry that has begun cannot be called off.  When the sensor
    returns to the value in force just after the timer manager has entered the
    callback, the handler clears the filtered value and kills the timer; the
    callback then takes the cleared value, so the sensor value in force and the
    platform presence event become the invalid one although the sensor's last
    value is a valid one. *)
Theorem upsm_crossed_expiry_invalid :
  exists s', UpsmDemo.crossed UpsmDemo.s2 = Some (ESIF_OK, s') /\
    curSensorState (sensor (g_upsm UpsmDemo.s2)) = UP_SENSOR_STATE_ENGAGED /\
    curSensorState (sensor (g_upsm s')) = UP_SENSOR_STATE_INVALID /\
    last_presence (sent s') = Some UP_SENSOR_STATE_INVALID.
Proof. exists (UpsmDemo.exec UpsmDemo.crossed UpsmDemo.s2). split_and!; by vm_compute. Qed.

Lemma upsm_refines_witness :
  mach_of UpsmDemo.s2 = a_run UpsmDemo.v [UpSensor 2; UpSensor 0] /\
  exists s', up_step UpsmDemo.v UpsmDemo.s2 UpFilterTimer s'.
Proof.
  destruct (UpsmDemo.run_up2 room ltac:(unfold room; lia)) as (Hr & Hw).
  destruct (upsm_refines UpsmDemo.v UpsmDemo.good_v eq_refl UpsmDemo.t0 (UpsmDemo.wf_t0 (4 + room) ltac:(unfold room; lia))
    UpsmDemo.no_timers_t0 _ _ Hr) as [H1 H2].
  split; [exact H1|]. apply (H2 Hw). exists 2, 5000. by vm_compute.
Defined.

Lemma upsm_converges_witness :
  curSensorState (sensor (g_upsm UpsmDemo.s2)) = 2 /\
  forall s1, up_step UpsmDemo.v UpsmDemo.s2 UpFilterTimer s1 ->
    curSensorState (sensor (g_upsm s1)) = 0 \/ eventFilteringTimerActive (filt (g_upsm s1)) = true.
Proof.
  split; [by vm_compute|]. destruct (UpsmDemo.run_up2 room ltac:(unfold room; lia)) as (Hr & Hw).
  pose proof (upsm_converges UpsmDemo.v UpsmDemo.good_v eq_refl UpsmDemo.t0 (UpsmDemo.wf_t0 (4 + room) ltac:(unfold room; lia))
    UpsmDemo.no_timers_t0 _ _ Hr UpsmDemo.valid2 UpsmDemo.no_stop2 Hw) as H.
  assert (E : eventFilteringTimerActive (filt (g_upsm UpsmDemo.s2)) = true) by by vm_compute.
  cbv beta zeta in H. rewrite E in H. intros s1 Hs. destruct (H s1 Hs) as [[H1 _]|[H1 _]]; [left; exact H1|right; exact H1].
Defined.

Lemma upsm_subscribers_current_witness : last_presence (sent UpsmDemo.s2) = Some UP_STATE_FACE_ENGAGED.
Proof.
  destruct (UpsmDemo.run_up2 room ltac:(unfold room; lia)) as (Hr & Hw).
  destruct (upsm_subscribers_current UpsmDemo.v UpsmDemo.good_v eq_refl UpsmDemo.t0 (UpsmDemo.wf_t0 (4 + room) ltac:(unfold room; lia))
    UpsmDemo.no_timers_t0 _ _ Hr UpsmDemo.valid2 UpsmDemo.no_stop2) as [H1 _].
  rewrite H1. by vm_compute.
Defined.

Lemma upsm_holds_back_witness :
  sent UpsmDemo.s2 = sent UpsmDemo.s1 /\ filteredSensorState (sensor (g_upsm UpsmDemo.s2)) = 0.
Proof.
  destruct (UpsmDemo.run_up1 room ltac:(unfold room; lia)) as (Hr & Hw).
  destruct (upsm_holds_back UpsmDemo.v UpsmDemo.good_v eq_refl UpsmDemo.t0 (UpsmDemo.wf_t0 (4 + room) ltac:(unfold room; lia))
    UpsmDemo.no_timers_t0 [UpSensor 2] UpsmDemo.s1 UpsmDemo.s2 0 Hr) as (H1 & _ & _ & H4).
  - apply Forall_cons. split; [|constructor]. cbn. unfold sensor_value. lia.
  - by intros [?|?%elem_of_nil]%elem_of_cons.
  - exact Hw.
  - unfold sensor_value. lia.
  - apply (us_sensor UpsmDemo.v UpsmDemo.s1 0 (UpsmDemo.data 0) ESIF_OK); [by split|by vm_compute].
  - by vm_compute.
  - by vm_compute.
  - by vm_compute.
  - split; [exact H1|]. rewrite H4. by vm_compute.
Defined.

Lemma upsm_timers_accounted_witness :
  exists h ms, status (timers UpsmDemo.s2) h = Armed STABILITY_CALLBACK ms.
Proof.
  destruct (UpsmDemo.run_up2 room ltac:(unfold room; lia)) as (Hr & Hw).
  destruct (upsm_timers_accounted UpsmDemo.v UpsmDemo.good_v eq_refl UpsmDemo.t0 (UpsmDemo.wf_t0 (4 + room) ltac:(unfold room; lia))
    UpsmDemo.no_timers_t0 _ _ Hr 2) as (_ & _ & [H _] & _).
  apply H. by vm_compute.
Defined.
