(* ===== verification/TrxMgr.v ===== *)
(** * Remote call transactions: IPF/Sources/Common/ipf_ipc_trxmgr.c and its users

    A thread that calls into another process creates a transaction, puts it in
    the manager's pool, sends the request and waits on the transaction's
    semaphore.  The thread that receives the response takes the transaction out
    of the pool by its id, stores the response and posts the semaphore; closing
    a session or the expiry of a transaction does the same without a response.
    Transactions are reference counted: the caller holds one reference and the
    pool another.

    The memory the transactions live in is explicit, so that the use of a
    destroyed one is visible: it has no outcome.  Messages are their bytes; the
    pool of a manager that is not initialised has no slots.  Each operation is
    one critical section; the step relation interleaves the callers with the
    threads that answer, close and expire.  The callers are in
    IPF/Sources/ipfipc/ipfipc_irpc.c, IPF/Sources/ipfsrv/ipfsrv_ws_socket.c and
    IPF/Sources/ipfsrv/ipfsrv_appmgr.c. *)

From S2P Require Import Prelude.
From stdpp Require Import list gmap.
Local Open Scope Z_scope.
Local Open Scope dptf_scope.

Definition ESIF_MAX_CLIENTS : nat := 32.
Definition TRX_POOL_INITIAL : nat := ESIF_MAX_CLIENTS.
Definition TRX_POOL_GROWBY : nat := 2.
Definition TRX_POOL_MAXSIZE : nat := ESIF_MAX_CLIENTS * 64.
Definition TRX_EXPIRE_TIMEOUT_SECONDS : Z := 45.
Definition TRX_EXPIRE_ALL : Z := 0.
Definition TRX_EXPIRE_TIMEOUT_NEVER : Z := 2147483647.
Definition TRXID_MIN : Z := 9223372036854775808.
Definition TRXID_MAX : Z := 18446744073709486080.
Definition IPFTRX_MATCHANY : Z := 18446744073709551615.

Inductive eIrpcMsgType : Type :=
  IrpcMsg_None | IrpcMsg_ProcRequest | IrpcMsg_ProcResponse | IrpcMsg_AuthRequest | IrpcMsg_AuthResponse.

Record IrpcTransaction : Type := mk_trx {
  ipfHandle : Z; refCount : Z; trxId : Z; timestamp : Z; sync : Z;
  request : option (list Z); response : option (list Z); result : Z
}.

(** The manager with the memory of the transactions, and the id generator. *)
Record tst : Type := mk_tst {
  heap : gmap positive IrpcTransaction;
  trxPool : list ptr;
  rpcTimeout : Z;
  trxIdGenerator : Z
}.

Abbreviation XM := (SM tst).

Definition with_heap (h : gmap positive IrpcTransaction) (s : tst) : tst :=
  mk_tst h (trxPool s) (rpcTimeout s) (trxIdGenerator s).
Definition with_pool (l : list ptr) (s : tst) : tst := mk_tst (heap s) l (rpcTimeout s) (trxIdGenerator s).
Definition with_timeout (x : Z) (s : tst) : tst := mk_tst (heap s) (trxPool s) x (trxIdGenerator s).
Definition with_gen (x : Z) (s : tst) : tst := mk_tst (heap s) (trxPool s) (rpcTimeout s) x.

Definition with_handle (h : Z) (t : IrpcTransaction) : IrpcTransaction :=
  mk_trx h (refCount t) (trxId t) (timestamp t) (sync t) (request t) (response t) (result t).
Definition with_ref (n : Z) (t : IrpcTransaction) : IrpcTransaction :=
  mk_trx (ipfHandle t) n (trxId t) (timestamp t) (sync t) (request t) (response t) (result t).
Definition with_time (x : Z) (t : IrpcTransaction) : IrpcTransaction :=
  mk_trx (ipfHandle t) (refCount t) (trxId t) x (sync t) (request t) (response t) (result t).
Definition with_sync (x : Z) (t : IrpcTransaction) : IrpcTransaction :=
  mk_trx (ipfHandle t) (refCount t) (trxId t) (timestamp t) x (request t) (response t) (result t).
Definition with_msgs (q r : option (list Z)) (t : IrpcTransaction) : IrpcTransaction :=
  mk_trx (ipfHandle t) (refCount t) (trxId t) (timestamp t) (sync t) q r (result t).
Definition with_result (x : Z) (t : IrpcTransaction) : IrpcTransaction :=
  mk_trx (ipfHandle t) (refCount t) (trxId t) (timestamp t) (sync t) (request t) (response t) x.

(** Reading and writing through a pointer to a transaction. *)
Definition deref (p : positive) : XM IrpcTransaction :=
  fun s => match heap s !! p with Some t => Some (t, s) | None => None end.
Definition update (p : positive) (f : IrpcTransaction -> IrpcTransaction) : XM unit :=
  fun s => match heap s !! p with Some t => Some (tt, with_heap (<[p := f t]> (heap s)) s) | None => None end.
Definition release (p : positive) : XM unit :=
  fun s => match heap s !! p with Some _ => Some (tt, with_heap (delete p (heap s)) s) | None => None end.

(* ------------------------------------------------------------------ *)
(** ** Transactions *)

Definition IrpcTransaction_Destroy (self : ptr) : XM unit :=
  match self with Some p => release p | None => sret tt end.

Definition IrpcTransaction_GetRef (self : ptr) : XM unit :=
  match self with Some p => update p (fun t => with_ref (refCount t + 1) t) | None => sret tt end.

Definition IrpcTransaction_PutRef (self : ptr) : XM unit :=
  match self with
  | Some p =>
      update p (fun t => with_ref (refCount t - 1) t) ;!
      let! t := deref p in
      if refCount t =? 0 then IrpcTransaction_Destroy self else sret tt
  | None => sret tt
  end.

Definition IrpcTransaction_Signal (self : ptr) : XM unit :=
  match self with Some p => update p (fun t => with_sync (sync t + 1) t) | None => sret tt end.

(** [mem] is the address the transaction is allocated at, [mem_msg] the outcome
    of the message's allocation, [now] the current time in ticks.  Allocations
    are zeroed. *)
Definition IrpcTransaction_Create (mem : ptr) (mem_msg : bool) (now : Z) (msgType : eIrpcMsgType) : XM ptr :=
  match mem with
  | None => sret None
  | Some p =>
      smodify (fun s => with_heap (<[p := mk_trx 0 0 0 0 0 None None 0]> (heap s)) s) ;!
      IrpcTransaction_GetRef (Some p) ;!
      update p (fun t => with_result ESIF_OK (with_time now (with_sync 0 t))) ;!
      let failed := match msgType with IrpcMsg_ProcRequest | IrpcMsg_ProcResponse => negb mem_msg | _ => false end in
      update p (fun t => match msgType with
                         | IrpcMsg_ProcRequest => with_msgs (if mem_msg then Some [] else None) (response t) t
                         | IrpcMsg_ProcResponse => with_msgs (request t) (if mem_msg then Some [] else None) t
                         | _ => t
                         end) ;!
      if failed then IrpcTransaction_Destroy (Some p) ;! sret None
      else
        smodify (fun s => with_gen (u64 (trxIdGenerator s + 1)) s) ;!
        let! s := sget in
        update p (fun t => mk_trx (ipfHandle t) (refCount t) (trxIdGenerator s) (timestamp t) (sync t)
                             (request t) (response t) (result t)) ;!
        (if trxIdGenerator s =? TRXID_MAX then smodify (with_gen TRXID_MIN) else sret tt) ;!
        sret (Some p)
  end.

(** [None] while the semaphore has not been posted: the caller goes on waiting. *)
Definition IrpcTransaction_Wait (self : ptr) : XM (option Z) :=
  match self with
  | None => sret (Some ESIF_E_PARAMETER_IS_NULL)
  | Some p =>
      let! t := deref p in
      if sync t =? 0 then sret None
      else
        update p (with_sync (sync t - 1)) ;!
        sret (Some (if (result t =? ESIF_OK) && (if response t then false else true)
                    then ESIF_E_SESSION_REQUEST_FAILED else result t))
  end.

(* ------------------------------------------------------------------ *)
(** ** The transaction manager *)

Definition IpfTrxMgr_Init (mem : bool) : XM Z :=
  if mem then
    smodify (with_pool (replicate TRX_POOL_INITIAL None)) ;!
    smodify (with_timeout TRX_EXPIRE_TIMEOUT_SECONDS) ;!
    sret ESIF_OK
  else smodify (with_pool []) ;! sret ESIF_E_NO_MEMORY.

(** Whole seconds between two times; [res] is the clock's resolution in
    nanoseconds. *)
Definition esif_ccb_realtime_diff_sec (res t1 t2 : Z) : Z := u64 (t2 - t1) / res / 1000000000.

(** The loop of the expiry over the slots, which it returns. *)
Fixpoint expire_loop (res now seconds : Z) (l : list ptr) : XM (list ptr) :=
  match l with
  | [] => sret []
  | None :: l =>
      let! r := expire_loop res now seconds l in
      sret (None :: r)
  | Some p :: l =>
      let! t := deref p in
      if (seconds =? TRX_EXPIRE_ALL) || (seconds <=? esif_ccb_realtime_diff_sec res (timestamp t) now) then
        update p (with_msgs None None) ;!
        IrpcTransaction_Signal (Some p) ;!
        IrpcTransaction_PutRef (Some p) ;!
        let! r := expire_loop res now seconds l in
        sret (None :: r)
      else
        let! r := expire_loop res now seconds l in
        sret (Some p :: r)
  end.

Definition IpfTrxMgr_ExpireTimeout (res now seconds : Z) : XM unit :=
  if seconds <? TRX_EXPIRE_TIMEOUT_NEVER then
    let! s := sget in
    let! l := expire_loop res now seconds (trxPool s) in
    smodify (with_pool l)
  else sret tt.

Definition IpfTrxMgr_ExpireInactive (res now : Z) : XM unit :=
  let! s := sget in
  IpfTrxMgr_ExpireTimeout res now (rpcTimeout s).

Definition IpfTrxMgr_ExpireAll (res now : Z) : XM unit := IpfTrxMgr_ExpireTimeout res now TRX_EXPIRE_ALL.

Definition IpfTrxMgr_Uninit (res now : Z) : XM unit :=
  IpfTrxMgr_ExpireAll res now ;! smodify (with_pool []).

(** The search for a free slot: the slots with [p] in the first free one. *)
Fixpoint add_loop (p : positive) (l : list ptr) : option (list ptr) :=
  match l with
  | [] => None
  | None :: l => Some (Some p :: l)
  | Some q :: l => cons (Some q) <$> add_loop p l
  end.

Definition IpfTrxMgr_AddTransaction (mem : bool) (trx : ptr) : XM Z :=
  match trx with
  | None => sret ESIF_E_PARAMETER_IS_NULL
  | Some p =>
      let! s := sget in
      match add_loop p (trxPool s) with
      | Some l => IrpcTransaction_GetRef trx ;! smodify (with_pool l) ;! sret ESIF_OK
      | None =>
          if (length (trxPool s) + TRX_POOL_GROWBY <=? TRX_POOL_MAXSIZE)%nat then
            if mem then
              IrpcTransaction_GetRef trx ;!
              smodify (with_pool (trxPool s ++ Some p :: replicate (TRX_POOL_GROWBY - 1) None)) ;!
              sret ESIF_OK
            else sret ESIF_E_MAXIMUM_CAPACITY_REACHED
          else sret ESIF_E_MAXIMUM_CAPACITY_REACHED
      end
  end.

(** The search for a transaction: the one found and the slots without it. *)
Fixpoint get_loop (handle id : Z) (l : list ptr) : XM (ptr * list ptr) :=
  match l with
  | [] => sret (None, [])
  | None :: l =>
      let! r := get_loop handle id l in
      sret (r.1, None :: r.2)
  | Some p :: l =>
      let! t := deref p in
      if ((ipfHandle t =? handle) || (handle =? ESIF_INVALID_HANDLE)) && ((trxId t =? id) || (id =? IPFTRX_MATCHANY)) then
        sret (Some p, None :: l)
      else
        let! r := get_loop handle id l in
        sret (r.1, Some p :: r.2)
  end.

(** The pool's reference is released before the pointer is returned. *)
Definition IpfTrxMgr_GetTransaction (handle id : Z) : XM ptr :=
  let! s := sget in
  let! r := get_loop handle id (trxPool s) in
  smodify (with_pool r.2) ;!
  IrpcTransaction_PutRef r.1 ;!
  sret r.1.

Definition IpfTrxMgr_GetTimeout : XM Z := let! s := sget in sret (rpcTimeout s).

Definition IpfTrxMgr_SetTimeout (timeout : Z) : XM unit :=
  smodify (with_timeout (if timeout =? 0 then TRX_EXPIRE_TIMEOUT_SECONDS else timeout)).

Fixpoint reset_loop (now : Z) (l : list ptr) : XM unit :=
  match l with
  | [] => sret tt
  | None :: l => reset_loop now l
  | Some p :: l => update p (with_time now) ;! reset_loop now l
  end.

Definition IpfTrxMgr_ResetTimeouts (now : Z) : XM unit :=
  let! s := sget in
  reset_loop now (trxPool s).

(* ------------------------------------------------------------------ *)
(** ** What the other threads do with a transaction they have taken *)

(** Storing the response and waking the caller. *)
Definition respond (p : positive) (blob : list Z) : XM unit :=
  update p (fun t => with_msgs (request t) (Some blob) t) ;!
  IrpcTransaction_Signal (Some p).

(** Waking the caller because the session is closed. *)
Definition disconnect (p : positive) : XM unit :=
  update p (with_result ESIF_E_SESSION_DISCONNECTED) ;!
  IrpcTransaction_Signal (Some p).

(** The response branch of [WebServer_IrpcProcess]; its result and whether the
    transaction was found. *)
Definition WebServer_IrpcProcess_response (handle id : Z) (blob : list Z) : XM Z :=
  let! trx := IpfTrxMgr_GetTransaction handle id in
  match trx with
  | Some p => respond p blob ;! sret ESIF_OK
  | None => sret ESIF_OK
  end.

(* ------------------------------------------------------------------ *)
(** ** The threads *)

(** A calling thread, known by its transaction: it has created it, waits for
    the answer, or has its result. *)
Inductive rphase : Type := RqNew | RqWaiting | RqDone (rc : Z).

(** [held] are the transactions that a thread has taken out of the pool and has
    not dealt with yet. *)
Record xsys : Type := mk_xsys { mgr : tst; reqs : gmap positive rphase; held : list positive }.

Inductive xev : Type :=
  | XCreate (p : positive) (handle : Z)
  | XAdd (p : positive) (rc : Z)
  | XSendFailed (p : positive) (rc : Z)
  | XWait (p : positive) (rc : Z)
  | XRelease (p : positive)
  | XTake (handle id : Z) (r : ptr)
  | XRespond (p : positive) (blob : list Z)
  | XDisconnect (p : positive)
  | XDrop (p : positive)
  | XExpire (ps : list positive)
  | XTimeouts.

Definition pooled (s : tst) : list positive := omap id (trxPool s).
Definition unheld (p : positive) (l : list positive) : list positive := filter (fun q => q <> p) l.

(** One step of one thread.  [XSendFailed] is a caller that gives up because its
    request could not be sent, [XDrop] a receiving thread that has taken the
    transaction but could not copy the response. *)
Inductive xstep (s : xsys) : xev -> xsys -> Prop :=
  | xs_create p handle now m :
      heap (mgr s) !! p = None ->
      (IrpcTransaction_Create (Some p) true now IrpcMsg_ProcRequest ;! update p (with_handle handle)) (mgr s) = Some (tt, m) ->
      xstep s (XCreate p handle) (mk_xsys m (<[p := RqNew]> (reqs s)) (held s))
  | xs_add p mem rc m :
      reqs s !! p = Some RqNew ->
      IpfTrxMgr_AddTransaction mem (Some p) (mgr s) = Some (rc, m) ->
      xstep s (XAdd p rc) (mk_xsys m (<[p := if rc =? ESIF_OK then RqWaiting else RqDone rc]> (reqs s)) (held s))
  | xs_send_failed p rc :
      reqs s !! p = Some RqWaiting ->
      xstep s (XSendFailed p rc) (mk_xsys (mgr s) (<[p := RqDone rc]> (reqs s)) (held s))
  | xs_wait p rc m :
      reqs s !! p = Some RqWaiting -> IrpcTransaction_Wait (Some p) (mgr s) = Some (Some rc, m) ->
      xstep s (XWait p rc) (mk_xsys m (<[p := RqDone rc]> (reqs s)) (held s))
  | xs_release p ph m :
      reqs s !! p = Some ph -> ph <> RqWaiting -> IrpcTransaction_PutRef (Some p) (mgr s) = Some (tt, m) ->
      xstep s (XRelease p) (mk_xsys m (delete p (reqs s)) (held s))
  | xs_take handle id r m :
      IpfTrxMgr_GetTransaction handle id (mgr s) = Some (r, m) ->
      xstep s (XTake handle id r) (mk_xsys m (reqs s) (held s ++ option_list r))
  | xs_respond p blob m :
      p ∈ held s -> respond p blob (mgr s) = Some (tt, m) ->
      xstep s (XRespond p blob) (mk_xsys m (reqs s) (unheld p (held s)))
  | xs_disconnect p m :
      p ∈ held s -> disconnect p (mgr s) = Some (tt, m) ->
      xstep s (XDisconnect p) (mk_xsys m (reqs s) (unheld p (held s)))
  | xs_drop p :
      p ∈ held s -> xstep s (XDrop p) (mk_xsys (mgr s) (reqs s) (unheld p (held s)))
  | xs_expire res now seconds m :
      IpfTrxMgr_ExpireTimeout res now seconds (mgr s) = Some (tt, m) ->
      xstep s (XExpire (filter (fun p => p ∉ pooled m) (pooled (mgr s)))) (mk_xsys m (reqs s) (held s))
  | xs_reset now m :
      IpfTrxMgr_ResetTimeouts now (mgr s) = Some (tt, m) -> xstep s XTimeouts (mk_xsys m (reqs s) (held s))
  | xs_timeout timeout m :
      IpfTrxMgr_SetTimeout timeout (mgr s) = Some (tt, m) -> xstep s XTimeouts (mk_xsys m (reqs s) (held s)).

Definition zero_mgr : tst := mk_tst ∅ [] 0 TRXID_MIN.

Inductive xrun : list xev -> xsys -> Prop :=
  | xrun_start m : IpfTrxMgr_Init true zero_mgr = Some (ESIF_OK, m) -> xrun [] (mk_xsys m ∅ [])
  | xrun_snoc tr s ev s' : xrun tr s -> xstep s ev s' -> xrun (tr ++ [ev]) s'.

(** What has become of a transaction since its caller put it in the pool. *)
Inductive fate : Type :=
  | InPool
  | Taken
  | Answered (blob : list Z)
  | Closed
  | Expired
  | Dropped.

Definition next_fate (p : positive) (f : option fate) (ev : xev) : option fate :=
  match ev with
  | XCreate q _ => if decide (q = p) then None else f
  | XAdd q rc => if decide (q = p) then if rc =? ESIF_OK then Some InPool else None else f
  | XTake _ _ r => if decide (r = Some p) then Some Taken else f
  | XRespond q b => if decide (q = p) then Some (Answered b) else f
  | XDisconnect q => if decide (q = p) then Some Closed else f
  | XDrop q => if decide (q = p) then Some Dropped else f
  | XExpire ps => if decide (p ∈ ps) then Some Expired else f
  | _ => f
  end.
Definition fate_of (tr : list xev) (p : positive) : option fate := fold_left (next_fate p) tr None.

Lemma fate_snoc tr ev p : fate_of (tr ++ [ev]) p = next_fate p (fate_of tr p) ev.
Proof. unfold fate_of. by rewrite fold_left_app. Qed.

(** The state a transaction is in while its caller waits, for each fate. *)
Definition fate_ok (t : IrpcTransaction) (pool hold : Prop) (f : fate) : Prop :=
  match f with
  | InPool => pool /\ ~ hold /\ refCount t = 2 /\ sync t = 0 /\ result t = ESIF_OK /\ response t = None
  | Taken => ~ pool /\ hold /\ refCount t = 1 /\ sync t = 0 /\ result t = ESIF_OK /\ response t = None
  | Answered b => ~ pool /\ ~ hold /\ refCount t = 1 /\ sync t = 1 /\ result t = ESIF_OK /\ response t = Some b
  | Closed => ~ pool /\ ~ hold /\ refCount t = 1 /\ sync t = 1 /\ result t = ESIF_E_SESSION_DISCONNECTED
  | Expired => ~ pool /\ ~ hold /\ refCount t = 1 /\ sync t = 1 /\ result t = ESIF_OK /\ response t = None
  | Dropped => ~ pool /\ ~ hold /\ refCount t = 1 /\ sync t = 0
  end.

Definition req_ok (t : IrpcTransaction) (pool hold : Prop) (f : option fate) (ph : rphase) : Prop :=
  match ph with
  | RqNew => ~ pool /\ ~ hold /\ refCount t = 1 /\ sync t = 0 /\ result t = ESIF_OK /\ response t = None
  | RqWaiting => exists f', f = Some f' /\ fate_ok t pool hold f'
  | RqDone _ => ~ pool /\ ~ hold /\ refCount t = 1
  end.

Record xinv (tr : list xev) (s : xsys) : Prop := {
  xi_pool : NoDup (pooled (mgr s));
  xi_held : NoDup (held s);
  xi_dom : forall p, is_Some (heap (mgr s) !! p) <-> is_Some (reqs s !! p);
  xi_ptrs : forall p, p ∈ pooled (mgr s) \/ p ∈ held s -> is_Some (heap (mgr s) !! p);
  xi_req : forall p t ph, heap (mgr s) !! p = Some t -> reqs s !! p = Some ph ->
    req_ok t (p ∈ pooled (mgr s)) (p ∈ held s) (fate_of tr p) ph
}.

Definition is_send_failed (ev : xev) : bool := match ev with XSendFailed _ _ => true | _ => false end.
Definition sends_succeed (tr : list xev) : Prop := Forall (fun ev => is_send_failed ev = false) tr.

(* ------------------------------------------------------------------ *)
(** ** What the operations do *)

Lemma update_some p f s t : heap s !! p = Some t -> update p f s = Some (tt, with_heap (<[p := f t]> (heap s)) s).
Proof. unfold update. by intros ->. Qed.

Lemma update_inv p f s x s' : update p f s = Some (x, s') ->
  exists t, heap s !! p = Some t /\ s' = with_heap (<[p := f t]> (heap s)) s.
Proof. unfold update. destruct (heap s !! p) as [t|]; [|done]. intros [= <- <-]. eauto. Qed.

Definition drop_ref (t : IrpcTransaction) : option IrpcTransaction :=
  if refCount t - 1 =? 0 then None else Some (with_ref (refCount t - 1) t).

Lemma put_ref_some p s t : heap s !! p = Some t ->
  IrpcTransaction_PutRef (Some p) s =
  Some (tt, with_heap (match drop_ref t with Some t' => <[p := t']> (heap s) | None => delete p (heap s) end) s).
Proof.
  intros E. unfold IrpcTransaction_PutRef. rewrite (sbind_some _ _ _ _ _ (update_some p _ s t E)).
  unfold deref, sbind. cbn [heap with_heap]. rewrite lookup_insert_eq. cbn [refCount with_ref]. unfold drop_ref.
  destruct (refCount t - 1 =? 0); [|done].
  cbn [IrpcTransaction_Destroy]. unfold release. cbn [heap with_heap]. rewrite lookup_insert_eq. unfold with_heap. cbn.
  by rewrite delete_insert_eq.
Qed.

Lemma update_here p f t h l r g :
  update p f (mk_tst (<[p := t]> h) l r g) = Some (tt, mk_tst (<[p := f t]> h) l r g).
Proof. unfold update. cbn [heap]. rewrite lookup_insert_eq. unfold with_heap. cbn. by rewrite insert_insert_eq. Qed.

Lemma create_some p handle now s : heap s !! p = None ->
  exists s', (IrpcTransaction_Create (Some p) true now IrpcMsg_ProcRequest ;! update p (with_handle handle)) s = Some (tt, s') /\
    heap s' = <[p := mk_trx handle 1 (u64 (trxIdGenerator s + 1)) now 0 (Some []) None ESIF_OK]> (heap s) /\
    trxPool s' = trxPool s /\ rpcTimeout s' = rpcTimeout s /\
    trxIdGenerator s' = if u64 (trxIdGenerator s + 1) =? TRXID_MAX then TRXID_MIN else u64 (trxIdGenerator s + 1).
Proof.
  intros _. destruct s as [h l r g].
  exists (mk_tst (<[p := mk_trx handle 1 (u64 (g + 1)) now 0 (Some []) None ESIF_OK]> h) l r
            (if u64 (g + 1) =? TRXID_MAX then TRXID_MIN else u64 (g + 1))).
  split; [|done]. unfold IrpcTransaction_Create.
  eapply sbind_intro; [|apply (update_here p (with_handle handle) (mk_trx 0 1 (u64 (g + 1)) now 0 (Some []) None ESIF_OK))].
  eapply sbind_intro; [done|]. eapply sbind_intro; [apply update_here|].
  eapply sbind_intro; [apply update_here|]. cbv zeta. eapply sbind_intro; [apply update_here|]. cbn [negb].
  eapply sbind_intro; [done|]. eapply sbind_intro; [done|]. eapply sbind_intro; [apply update_here|].
  cbn [trxIdGenerator with_gen]. by destruct (_ =? TRXID_MAX).
Qed.

Lemma add_loop_some p l l' : add_loop p l = Some l' ->
  exists l1 l2, omap id l = l1 ++ l2 /\ omap id l' = l1 ++ p :: l2 /\ length l' = length l.
Proof.
  revert l'. induction l as [|[q|] l IH]; intros l'; cbn; [done| |].
  - destruct (add_loop p l) as [l1|]; [|done]. intros [= <-]. destruct (IH l1 eq_refl) as (x & y & E1 & E2 & E3).
    exists (q :: x), y. cbn. rewrite E1, E3. by rewrite <- E2.
  - intros [= <-]. by exists [], (omap id l).
Qed.

Lemma add_loop_none p l : add_loop p l = None -> None ∉ l.
Proof.
  induction l as [|[q|] l IH]; cbn; [by intros _ ?%elem_of_nil| |done].
  destruct (add_loop p l); [done|]. intros _ [?|H]%elem_of_cons; [done|]. by apply IH.
Qed.

Lemma pooled_slots (l : list ptr) n : omap id (l ++ replicate n None) = omap id l.
Proof. rewrite omap_app. replace (omap id (replicate n None)) with (@nil positive); [by rewrite app_nil_r|]. by induction n. Qed.

Lemma add_spec mem p s t : heap s !! p = Some t ->
  exists rc s', IpfTrxMgr_AddTransaction mem (Some p) s = Some (rc, s') /\
    trxIdGenerator s' = trxIdGenerator s /\ rpcTimeout s' = rpcTimeout s /\
    ((rc = ESIF_OK /\ heap s' = <[p := with_ref (refCount t + 1) t]> (heap s) /\
      exists l1 l2, pooled s = l1 ++ l2 /\ pooled s' = l1 ++ p :: l2) \/
     (rc = ESIF_E_MAXIMUM_CAPACITY_REACHED /\ s' = s)).
Proof.
  intros E. unfold IpfTrxMgr_AddTransaction, sbind at 1, sget. cbn [sbind].
  destruct (add_loop p (trxPool s)) as [l'|] eqn:El.
  - cbn [IrpcTransaction_GetRef]. rewrite (sbind_some _ _ _ _ _ (update_some p _ s t E)). eexists _, _. split; [done|].
    split; [done|split; [done|left]]. split; [done|split; [done|]].
    destruct (add_loop_some p _ l' El) as (l1 & l2 & E1 & E2 & _). by exists l1, l2.
  - destruct (_ <=? _)%nat; [|by eexists _, _; split; [done|split; [done|split; [done|right]]]].
    destruct mem; [|by eexists _, _; split; [done|split; [done|split; [done|right]]]].
    cbn [IrpcTransaction_GetRef]. rewrite (sbind_some _ _ _ _ _ (update_some p _ s t E)). eexists _, _. split; [done|].
    split; [done|split; [done|left]]. split; [done|split; [done|]]. exists (pooled s), []. unfold pooled. rewrite app_nil_r.
    split; [done|]. cbn [trxPool with_pool with_heap]. by rewrite omap_app.
Qed.

Lemma wait_some p s t : heap s !! p = Some t ->
  IrpcTransaction_Wait (Some p) s =
  if sync t =? 0 then Some (None, s)
  else Some (Some (if (result t =? ESIF_OK) && (if response t then false else true)
                   then ESIF_E_SESSION_REQUEST_FAILED else result t),
             with_heap (<[p := with_sync (sync t - 1) t]> (heap s)) s).
Proof.
  intros E. unfold IrpcTransaction_Wait, deref, sbind. rewrite E. destruct (sync t =? 0); [done|].
  by rewrite (update_some p _ s t E).
Qed.

Definition trx_matches (handle id : Z) (t : IrpcTransaction) : bool :=
  ((ipfHandle t =? handle) || (handle =? ESIF_INVALID_HANDLE)) && ((trxId t =? id) || (id =? IPFTRX_MATCHANY)).

Lemma get_loop_spec handle id s l : (forall p, Some p ∈ l -> is_Some (heap s !! p)) ->
  exists r l', get_loop handle id l s = Some ((r, l'), s) /\ length l' = length l /\
    match r with
    | Some p => exists l1 l2 t, l = l1 ++ Some p :: l2 /\ l' = l1 ++ None :: l2 /\
        heap s !! p = Some t /\ trx_matches handle id t = true /\
        forall q t', Some q ∈ l1 -> heap s !! q = Some t' -> trx_matches handle id t' = false
    | None => l' = l /\ forall q t, Some q ∈ l -> heap s !! q = Some t -> trx_matches handle id t = false
    end.
Proof.
  induction l as [|[p|] l IH]; intros Hl.
  - exists None, []. split; [done|split; [done|split; [done|by intros q t ?%elem_of_nil]]].
  - destruct (Hl p ltac:(left)) as [t Et]. cbn [get_loop]. unfold deref, sbind at 1. rewrite Et.
    change (_ && _) with (trx_matches handle id t). destruct (trx_matches handle id t) eqn:Em.
    + exists (Some p), (None :: l). split; [done|split; [done|]]. exists [], l, t. split_and!; try done. by intros q t' ?%elem_of_nil.
    + destruct IH as (r & l' & E & Hlen & Hr). { intros q Hq. apply Hl. by right. }
      rewrite (sbind_some _ _ _ _ _ E). exists r, (Some p :: l'). split; [done|split; [cbn; lia|]]. destruct r as [q|].
      * destruct Hr as (l1 & l2 & tq & -> & -> & Hq & Hm & Hb). exists (Some p :: l1), l2, tq. split_and!; try done.
        intros q' t' [[= ->]|Hin]%elem_of_cons Et'; [congruence|by eapply Hb].
      * destruct Hr as [-> Hb]. split; [done|]. intros q' t' [[= ->]|Hin]%elem_of_cons Et'; [congruence|by eapply Hb].
  - destruct IH as (r & l' & E & Hlen & Hr). { intros q Hq. apply Hl. by right. }
    cbn [get_loop]. rewrite (sbind_some _ _ _ _ _ E). exists r, (None :: l'). split; [done|split; [cbn; lia|]]. destruct r as [q|].
    + destruct Hr as (l1 & l2 & tq & -> & -> & Hq & Hm & Hb). exists (None :: l1), l2, tq. split_and!; try done.
      intros q' t' [?|Hin]%elem_of_cons Et'; [done|by eapply Hb].
    + destruct Hr as [-> Hb]. split; [done|]. intros q' t' [?|Hin]%elem_of_cons Et'; [done|by eapply Hb].
Qed.

Lemma elem_of_pooled p s : p ∈ pooled s <-> Some p ∈ trxPool s.
Proof.
  unfold pooled. rewrite list_elem_of_omap. split; [intros (o & Ho & E); by cbn in E; subst|]. intros H. by exists (Some p).
Qed.

(** Taking a transaction releases the pool's reference. *)
Lemma get_spec handle id s : (forall p, p ∈ pooled s -> is_Some (heap s !! p)) ->
  exists r s', IpfTrxMgr_GetTransaction handle id s = Some (r, s') /\
    trxIdGenerator s' = trxIdGenerator s /\ rpcTimeout s' = rpcTimeout s /\ length (trxPool s') = length (trxPool s) /\
    match r with
    | Some p => exists l1 l2 t, pooled s = l1 ++ p :: l2 /\ pooled s' = l1 ++ l2 /\
        heap s !! p = Some t /\ trx_matches handle id t = true /\
        heap s' = match drop_ref t with Some t' => <[p := t']> (heap s) | None => delete p (heap s) end
    | None => pooled s' = pooled s /\ heap s' = heap s /\
        forall q t, q ∈ pooled s -> heap s !! q = Some t -> trx_matches handle id t = false
    end.
Proof.
  intros Hp. destruct (get_loop_spec handle id s (trxPool s)) as (r & l' & E & Hlen & Hr).
  { intros p Hin. by apply Hp, elem_of_pooled. }
  unfold IpfTrxMgr_GetTransaction, sbind at 1, sget. rewrite (sbind_some _ _ _ _ _ E). cbn [fst snd].
  unfold sbind at 1, smodify. destruct r as [p|].
  - destruct Hr as (l1 & l2 & t & El & -> & Et & Hm & _).
    rewrite (sbind_some _ _ _ _ _ (put_ref_some p (with_pool (l1 ++ None :: l2) s) t Et)).
    eexists _, _. split; [done|]. split; [done|split; [done|split; [done|]]]. exists (omap Datatypes.id l1), (omap Datatypes.id l2), t.
    unfold pooled. cbn [trxPool with_heap with_pool heap]. rewrite El, !omap_app. by split_and!.
  - destruct Hr as [-> Hb]. eexists _, _. split; [done|]. split; [done|split; [done|split; [done|]]]. split; [done|split; [done|]].
    intros q t Hq. apply Hb. by apply elem_of_pooled.
Qed.

Definition is_expired (res now seconds : Z) (t : IrpcTransaction) : bool :=
  (seconds =? TRX_EXPIRE_ALL) || (seconds <=? esif_ccb_realtime_diff_sec res (timestamp t) now).
Definition expire_trx (t : IrpcTransaction) : IrpcTransaction :=
  with_ref (refCount t - 1) (with_sync (sync t + 1) (with_msgs None None t)).

(** Which pooled transactions an expiry takes. *)
Definition expires (s : tst) (res now seconds : Z) (p : positive) : bool :=
  match heap s !! p with Some t => is_expired res now seconds t | None => false end.

Lemma expire_one p s t : heap s !! p = Some t -> refCount t = 2 ->
  (update p (with_msgs None None) ;! IrpcTransaction_Signal (Some p) ;! IrpcTransaction_PutRef (Some p)) s =
  Some (tt, with_heap (<[p := expire_trx t]> (heap s)) s).
Proof.
  intros E Hr. destruct s as [h l r g]. cbn [heap] in E. rewrite (sbind_some _ _ _ _ _ (update_some p _ (mk_tst h l r g) t E)).
  unfold with_heap at 1. cbn [heap trxPool rpcTimeout trxIdGenerator IrpcTransaction_Signal].
  rewrite (sbind_some _ _ _ _ _ (update_here p _ _ h l r g)).
  erewrite (put_ref_some p) by (cbn; by rewrite lookup_insert_eq). unfold drop_ref, with_heap. cbn. rewrite Hr.
  change (2 - 1 =? 0) with false. cbn iota. rewrite insert_insert_eq. unfold expire_trx. by rewrite Hr.
Qed.

Lemma expire_loop_spec res now seconds l : forall s,
  NoDup (omap Datatypes.id l) ->
  (forall p, Some p ∈ l -> exists t, heap s !! p = Some t /\ refCount t = 2) ->
  exists s', expire_loop res now seconds l s =
      Some ((fun o => match o with Some p => if expires s res now seconds p then None else Some p | None => None end) <$> l, s') /\
    trxPool s' = trxPool s /\ rpcTimeout s' = rpcTimeout s /\ trxIdGenerator s' = trxIdGenerator s /\
    forall p, heap s' !! p =
      if bool_decide (Some p ∈ l) && expires s res now seconds p then expire_trx <$> heap s !! p else heap s !! p.
Proof.
  induction l as [|[p|] l IH]; intros s Hn Hl.
  - exists s. split; [done|]. split_and!; try done.
  - cbn [omap list_omap Datatypes.id] in Hn. apply NoDup_cons in Hn as [Hp Hn].
    assert (Hpl : Some p ∉ l) by (intros H; apply Hp, list_elem_of_omap; by exists (Some p)).
    destruct (Hl p ltac:(left)) as (t & Et & Hr). cbn [expire_loop]. unfold deref, sbind at 1. rewrite Et.
    change (_ || _) with (is_expired res now seconds t). assert (Ee : expires s res now seconds p = is_expired res now seconds t)
      by (unfold expires; by rewrite Et).
    assert (Hcase : forall s1, (forall q, q <> p -> heap s1 !! q = heap s !! q) ->
      exists s', expire_loop res now seconds l s1 =
          Some ((fun o => match o with Some p => if expires s res now seconds p then None else Some p | None => None end) <$> l, s') /\
        trxPool s' = trxPool s1 /\ rpcTimeout s' = rpcTimeout s1 /\ trxIdGenerator s' = trxIdGenerator s1 /\
        forall q, heap s' !! q = if bool_decide (Some q ∈ l) && expires s res now seconds q then expire_trx <$> heap s1 !! q else heap s1 !! q).
    { intros s1 Hs1. destruct (IH s1 Hn) as (s' & E & H1 & H2 & H3 & H4).
      { intros q Hq. rewrite Hs1 by (intros ->; done). apply Hl. by right. }
      assert (Hex : forall q, Some q ∈ l -> expires s1 res now seconds q = expires s res now seconds q).
      { intros q Hq. unfold expires. by rewrite Hs1 by (intros ->; done). }
      exists s'. split; [rewrite E; do 2 f_equal|].
      - apply list_fmap_ext. intros i o Hi. destruct o as [q|]; [|done]. rewrite Hex; [done|]. by eapply list_elem_of_lookup_2.
      - split_and!; try done. intros q. rewrite H4. destruct (bool_decide_reflect (Some q ∈ l)); [|done]. by rewrite Hex. }
    destruct (is_expired res now seconds t) eqn:Ex.
    + destruct (Hcase (with_heap (<[p := expire_trx t]> (heap s)) s)) as (s' & E & H1 & H2 & H3 & H4).
      { intros q Hq. cbn. by rewrite lookup_insert_ne by congruence. }
      exists s'. split.
      * pose proof (expire_one p s t Et Hr) as E1. unfold sbind in E1 |- *.
        destruct (update p (with_msgs None None) s) as [[? s1]|]; [|done].
        destruct (IrpcTransaction_Signal (Some p) s1) as [[? s2]|]; [|done]. rewrite E1. rewrite E. cbn [fmap list_fmap]. by rewrite Ee.
      * split_and!; try done. intros q. rewrite H4. cbn [heap with_heap]. destruct (decide (q = p)) as [->|Hq].
        -- rewrite lookup_insert_eq, (bool_decide_false _ Hpl), bool_decide_true by left. by rewrite Ee, Et.
        -- rewrite lookup_insert_ne by congruence. rewrite (bool_decide_ext (Some q ∈ Some p :: l) (Some q ∈ l)); [done|].
           rewrite elem_of_cons. split; [by intros [[= ?]|]|by right].
    + destruct (Hcase s ltac:(done)) as (s' & E & H1 & H2 & H3 & H4). exists s'. split.
      * unfold sbind. rewrite E. cbn [fmap list_fmap]. by rewrite Ee.
      * split_and!; try done. intros q. rewrite H4. destruct (decide (q = p)) as [->|Hq].
        -- by rewrite Ee, !andb_false_r.
        -- rewrite (bool_decide_ext (Some q ∈ Some p :: l) (Some q ∈ l)); [done|].
           rewrite elem_of_cons. split; [by intros [[= ?]|]|by right].
  - cbn [omap list_omap Datatypes.id] in Hn. destruct (IH s Hn) as (s' & E & H1 & H2 & H3 & H4).
    { intros q Hq. apply Hl. by right. }
    exists s'. split; [cbn [expire_loop]; by rewrite (sbind_some _ _ _ _ _ E)|]. split_and!; try done. intros q. rewrite H4.
    rewrite (bool_decide_ext (Some q ∈ None :: l) (Some q ∈ l)); [done|]. rewrite elem_of_cons. split; [by intros [?|]|by right].
Qed.

Lemma omap_expired (f : positive -> bool) (l : list ptr) :
  omap Datatypes.id ((fun o => match o with Some p => if f p then None else Some p | None => None end) <$> l) =
  filter (fun p => f p = false) (omap Datatypes.id l).
Proof.
  induction l as [|[p|] l IH]; [done| |exact IH]. rewrite fmap_cons. cbn [omap list_omap Datatypes.id].
  destruct (f p) eqn:E; cbn [omap list_omap Datatypes.id];
    [rewrite filter_cons_False by congruence|rewrite filter_cons_True by done]; by rewrite <- IH.
Qed.

Lemma expire_timeout_spec res now seconds s :
  NoDup (pooled s) -> (forall p, p ∈ pooled s -> exists t, heap s !! p = Some t /\ refCount t = 2) ->
  exists s', IpfTrxMgr_ExpireTimeout res now seconds s = Some (tt, s') /\
    trxIdGenerator s' = trxIdGenerator s /\ rpcTimeout s' = rpcTimeout s /\ length (trxPool s') = length (trxPool s) /\
    let gone := fun p => (seconds <? TRX_EXPIRE_TIMEOUT_NEVER) && expires s res now seconds p in
    pooled s' = filter (fun p => gone p = false) (pooled s) /\
    forall p, heap s' !! p = if bool_decide (p ∈ pooled s) && gone p then expire_trx <$> heap s !! p else heap s !! p.
Proof.
  intros Hn Hp. unfold IpfTrxMgr_ExpireTimeout. destruct (seconds <? TRX_EXPIRE_TIMEOUT_NEVER); cycle 1.
  { exists s. split; [done|]. split_and!; try done. cbn.
    - symmetry. induction (pooled s) as [|x l IH]; [done|]. rewrite filter_cons_True by done. f_equal. apply IH; [by apply NoDup_cons in Hn as [_ ?]|].
      intros p Hin. apply Hp. by right.
    - intros p. by rewrite andb_false_r. }
  destruct (expire_loop_spec res now seconds (trxPool s) s Hn) as (s' & E & H1 & H2 & H3 & H4).
  { intros p Hin. by apply Hp, elem_of_pooled. }
  unfold sbind at 1, sget. rewrite (sbind_some _ _ _ _ _ E). eexists. split; [done|]. cbn. split_and!; try done.
  - by rewrite length_fmap.
  - unfold pooled. cbn. apply omap_expired.
  - intros p. rewrite H4. rewrite (bool_decide_ext (p ∈ pooled s) (Some p ∈ trxPool s)); [done|]. apply elem_of_pooled.
Qed.

Lemma reset_loop_spec now l : forall s, (forall p, Some p ∈ l -> is_Some (heap s !! p)) ->
  exists s', reset_loop now l s = Some (tt, s') /\ trxPool s' = trxPool s /\ rpcTimeout s' = rpcTimeout s /\
    trxIdGenerator s' = trxIdGenerator s /\
    forall p, exists b : bool, heap s' !! p = (fun t => if b then with_time now t else t) <$> heap s !! p.
Proof.
  induction l as [|[p|] l IH]; intros s Hl.
  - exists s. split_and!; try done. intros p. exists false. by rewrite option_fmap_id.
  - destruct (Hl p ltac:(left)) as [t Et]. cbn [reset_loop]. rewrite (sbind_some _ _ _ _ _ (update_some p _ s t Et)).
    destruct (IH (with_heap (<[p := with_time now t]> (heap s)) s)) as (s' & E & H1 & H2 & H3 & H4).
    { intros q Hq. cbn. destruct (decide (q = p)) as [->|]; [rewrite lookup_insert_eq; eauto|].
      rewrite lookup_insert_ne by done. apply Hl. by right. }
    exists s'. split_and!; try done. intros q. destruct (H4 q) as [b E4]. cbn in E4. destruct (decide (q = p)) as [->|].
    + rewrite lookup_insert_eq in E4. exists true. rewrite E4, Et. cbn. by destruct b.
    + rewrite lookup_insert_ne in E4 by done. by exists b.
  - apply IH. intros p Hp. apply Hl. by right.
Qed.

Lemma wake_some p f s t : heap s !! p = Some t ->
  (update p f ;! IrpcTransaction_Signal (Some p)) s =
  Some (tt, with_heap (<[p := with_sync (sync (f t) + 1) (f t)]> (heap s)) s).
Proof.
  intros E. destruct s as [h l r g]. cbn [heap] in E. rewrite (sbind_some _ _ _ _ _ (update_some p f (mk_tst h l r g) t E)).
  unfold with_heap. cbn [heap trxPool rpcTimeout trxIdGenerator IrpcTransaction_Signal]. exact (update_here p (fun t => with_sync (sync t + 1) t) (f t) h l r g).
Qed.

(* ------------------------------------------------------------------ *)
(** ** The invariant of the threads *)

(** An event that concerns one transaction only. *)
Lemma xinv_at p tr s ev s' :
  xinv tr s ->
  (forall q, q <> p -> heap (mgr s') !! q = heap (mgr s) !! q /\ reqs s' !! q = reqs s !! q /\
     (q ∈ pooled (mgr s') <-> q ∈ pooled (mgr s)) /\ (q ∈ held s' <-> q ∈ held s) /\ forall f, next_fate q f ev = f) ->
  NoDup (pooled (mgr s')) -> NoDup (held s') ->
  (is_Some (heap (mgr s') !! p) <-> is_Some (reqs s' !! p)) ->
  (p ∈ pooled (mgr s') \/ p ∈ held s' -> is_Some (heap (mgr s') !! p)) ->
  (forall t ph, heap (mgr s') !! p = Some t -> reqs s' !! p = Some ph ->
     req_ok t (p ∈ pooled (mgr s')) (p ∈ held s') (next_fate p (fate_of tr p) ev) ph) ->
  xinv (tr ++ [ev]) s'.
Proof.
  intros [H1 H2 H3 H4 H5] Ho Hn1 Hn2 Hd Hp Hr. split; try done.
  - intros q. destruct (decide (q = p)) as [->|Hq]; [done|]. destruct (Ho q Hq) as (-> & -> & _). apply H3.
  - intros q. destruct (decide (q = p)) as [->|Hq]; [done|]. destruct (Ho q Hq) as (-> & _ & -> & -> & _). apply H4.
  - intros q t ph. rewrite fate_snoc. destruct (decide (q = p)) as [->|Hq]; [by apply Hr|].
    destruct (Ho q Hq) as (-> & -> & Ep & Eh & ->). intros Ht Hph. specialize (H5 q t ph Ht Hph).
    destruct ph as [| |rc]; cbn in *; [by rewrite Ep, Eh| |by rewrite Ep, Eh].
    destruct H5 as (f & Ef & Hf). exists f. split; [done|]. destruct f; cbn in *; by rewrite Ep, Eh.
Qed.

Lemma unheld_elem q p l : q ∈ unheld p l <-> q ∈ l /\ q <> p.
Proof. unfold unheld. rewrite list_elem_of_filter. tauto. Qed.

Lemma unheld_nodup p l : NoDup l -> NoDup (unheld p l).
Proof. apply NoDup_filter. Qed.

(** Who a taken or pooled transaction belongs to. *)
Lemma pooled_waits tr s p : xinv tr s -> p ∈ pooled (mgr s) -> exists t,
  heap (mgr s) !! p = Some t /\ reqs s !! p = Some RqWaiting /\ fate_of tr p = Some InPool /\
  p ∉ held s /\ refCount t = 2 /\ sync t = 0 /\ result t = ESIF_OK /\ response t = None.
Proof.
  intros [H1 H2 H3 H4 H5] Hp. destruct (H4 p ltac:(by left)) as [t Et].
  destruct (proj1 (H3 p) ltac:(by rewrite Et)) as [ph Eph]. specialize (H5 p t ph Et Eph). exists t.
  destruct ph as [| |rc]; cbn in H5; [tauto| |tauto]. destruct H5 as (f & Ef & Hf). destruct f; cbn in Hf; tauto.
Qed.

Lemma held_waits tr s p : xinv tr s -> p ∈ held s -> exists t,
  heap (mgr s) !! p = Some t /\ reqs s !! p = Some RqWaiting /\ fate_of tr p = Some Taken /\
  p ∉ pooled (mgr s) /\ refCount t = 1 /\ sync t = 0 /\ result t = ESIF_OK /\ response t = None.
Proof.
  intros [H1 H2 H3 H4 H5] Hp. destruct (H4 p ltac:(by right)) as [t Et].
  destruct (proj1 (H3 p) ltac:(by rewrite Et)) as [ph Eph]. specialize (H5 p t ph Et Eph). exists t.
  destruct ph as [| |rc]; cbn in H5; [tauto| |tauto]. destruct H5 as (f & Ef & Hf). destruct f; cbn in Hf; tauto.
Qed.

Lemma inv_start m : IpfTrxMgr_Init true zero_mgr = Some (ESIF_OK, m) -> xinv [] (mk_xsys m ∅ []).
Proof.
  intros [= <-]. match goal with |- xinv _ (mk_xsys ?m _ _) => set (m0 := m) end.
  assert (E : pooled m0 = []) by (vm_compute; reflexivity). split; cbn [mgr held reqs]; rewrite ?E.
  - constructor.
  - constructor.
  - intros p. unfold m0. cbn. by rewrite !lookup_empty.
  - intros p [H|H]; by apply elem_of_nil in H.
  - intros p t ph. by rewrite lookup_empty.
Qed.

Lemma inv_create tr s p handle now m :
  xinv tr s -> heap (mgr s) !! p = None ->
  (IrpcTransaction_Create (Some p) true now IrpcMsg_ProcRequest ;! update p (with_handle handle)) (mgr s) = Some (tt, m) ->
  xinv (tr ++ [XCreate p handle]) (mk_xsys m (<[p := RqNew]> (reqs s)) (held s)).
Proof.
  intros Hi Hp E. pose proof Hi as [H1 H2 H3 H4 H5].
  destruct (create_some p handle now (mgr s) Hp) as (m' & E' & Eh & Ep & _). rewrite E in E'. injection E' as <-.
  assert (Epool : pooled m = pooled (mgr s)) by (unfold pooled; by rewrite Ep).
  assert (Hno : ~ (p ∈ pooled (mgr s) \/ p ∈ held s)) by (intros H; destruct (H4 p H); congruence).
  apply (xinv_at p tr s); cbn [mgr reqs held]; rewrite ?Epool; try done.
  - intros q Hq. rewrite Eh, !lookup_insert_ne by congruence. split_and!; try done. intros f. cbn. by rewrite decide_False by congruence.
  - by rewrite Eh, !lookup_insert_eq.
  - intros t ph. rewrite Eh, !lookup_insert_eq. intros [= <-] [= <-]. cbn. tauto.
Qed.

Lemma inv_add tr s p mem rc m :
  xinv tr s -> reqs s !! p = Some RqNew -> IpfTrxMgr_AddTransaction mem (Some p) (mgr s) = Some (rc, m) ->
  xinv (tr ++ [XAdd p rc]) (mk_xsys m (<[p := if rc =? ESIF_OK then RqWaiting else RqDone rc]> (reqs s)) (held s)).
Proof.
  intros Hi Hp E. pose proof Hi as [H1 H2 H3 H4 H5].
  destruct (proj2 (H3 p) ltac:(by rewrite Hp)) as [t Et]. destruct (H5 p t _ Et Hp) as (Hnp & Hnh & Hr & Hs & Hrs & Hre).
  destruct (add_spec mem p (mgr s) t Et) as (rc' & m' & E' & _ & _ & Hcase). rewrite E in E'. injection E' as <- <-.
  destruct Hcase as [(-> & Eh & l1 & l2 & El & El')|(-> & ->)].
  - apply (xinv_at p tr s); cbn [mgr reqs held]; rewrite ?El'; try done.
    + intros q Hq. rewrite Eh, !lookup_insert_ne, El by congruence. split_and!; try done.
      * rewrite !elem_of_app, elem_of_cons. tauto.
      * intros f. cbn. by rewrite decide_False by congruence.
    + rewrite El in H1, Hnp. apply NoDup_app in H1 as (N1 & N2 & N3). rewrite elem_of_app in Hnp. apply NoDup_app. split; [done|].
      split; [|apply NoDup_cons; tauto]. intros x Hx [->|?]%elem_of_cons; [tauto|by eapply N2].
    + by rewrite Eh, !lookup_insert_eq.
    + rewrite Eh, lookup_insert_eq. eauto.
    + intros t' ph. rewrite Eh, !lookup_insert_eq. intros [= <-] [= <-]. cbn. rewrite decide_True by done.
      exists InPool. split; [done|]. cbn. rewrite Hr. split_and!; try done. rewrite elem_of_app, elem_of_cons. tauto.
  - apply (xinv_at p tr s); cbn [mgr reqs held]; try done.
    + intros q Hq. rewrite !lookup_insert_ne by congruence. split_and!; try done. intros f. cbn. by rewrite decide_False by congruence.
    + by rewrite lookup_insert_eq, Et.
    + intros t' ph Et'. rewrite lookup_insert_eq. intros [= <-]. cbn. rewrite Et in Et'. by simplify_eq.
Qed.

Lemma inv_wait tr s p rc m :
  xinv tr s -> reqs s !! p = Some RqWaiting -> IrpcTransaction_Wait (Some p) (mgr s) = Some (Some rc, m) ->
  xinv (tr ++ [XWait p rc]) (mk_xsys m (<[p := RqDone rc]> (reqs s)) (held s)) /\
  match fate_of tr p with
  | Some (Answered b) => rc = ESIF_OK /\ exists t, heap m !! p = Some t /\ response t = Some b
  | Some Closed => rc = ESIF_E_SESSION_DISCONNECTED
  | Some Expired => rc = ESIF_E_SESSION_REQUEST_FAILED
  | _ => False
  end.
Proof.
  intros Hi Hp E. pose proof Hi as [H1 H2 H3 H4 H5].
  destruct (proj2 (H3 p) ltac:(by rewrite Hp)) as [t Et]. destruct (H5 p t _ Et Hp) as (f & Ef & Hf).
  rewrite (wait_some p (mgr s) t Et) in E. destruct (Z.eqb_spec (sync t) 0) as [|Hs]; [done|]. injection E as <- <-.
  assert (Hwoken : p ∉ pooled (mgr s) /\ p ∉ held s /\ refCount t = 1) by (destruct f; cbn in Hf; tauto).
  split.
  - apply (xinv_at p tr s); cbn [mgr reqs held with_heap heap]; try done.
    + intros q Hq. by rewrite !lookup_insert_ne by congruence.
    + by rewrite !lookup_insert_eq.
    + rewrite lookup_insert_eq. eauto.
    + intros t' ph. rewrite !lookup_insert_eq. intros [= <-] [= <-]. cbn. tauto.
  - rewrite Ef. destruct f; cbn in Hf; try tauto.
    + destruct Hf as (_ & _ & _ & _ & -> & Er). cbn [with_heap heap]. rewrite lookup_insert_eq, Er. split; [done|]. eexists. split; [done|]. done.
    + destruct Hf as (_ & _ & _ & _ & ->). done.
    + destruct Hf as (_ & _ & _ & _ & -> & ->). done.
Qed.

Lemma inv_release tr s p ph m :
  xinv tr s -> reqs s !! p = Some ph -> ph <> RqWaiting -> IrpcTransaction_PutRef (Some p) (mgr s) = Some (tt, m) ->
  xinv (tr ++ [XRelease p]) (mk_xsys m (delete p (reqs s)) (held s)).
Proof.
  intros Hi Hp Hph E. pose proof Hi as [H1 H2 H3 H4 H5].
  destruct (proj2 (H3 p) ltac:(by rewrite Hp)) as [t Et]. specialize (H5 p t _ Et Hp).
  assert (Hno : p ∉ pooled (mgr s) /\ p ∉ held s /\ refCount t = 1) by (destruct ph; cbn in H5; tauto).
  rewrite (put_ref_some p (mgr s) t Et) in E. unfold drop_ref in E. destruct Hno as (Hnp & Hnh & Hr). rewrite Hr in E. injection E as <-.
  apply (xinv_at p tr s); cbn [mgr reqs held with_heap heap]; try done.
  - intros q Hq. by rewrite !lookup_delete_ne by congruence.
  - by rewrite !lookup_delete_eq.
  - by intros [?|?].
  - intros t' ph'. by rewrite !lookup_delete_eq.
Qed.

Lemma inv_take tr s handle id r m :
  xinv tr s -> IpfTrxMgr_GetTransaction handle id (mgr s) = Some (r, m) ->
  xinv (tr ++ [XTake handle id r]) (mk_xsys m (reqs s) (held s ++ option_list r)).
Proof.
  intros Hi E. pose proof Hi as [H1 H2 H3 H4 H5].
  destruct (get_spec handle id (mgr s)) as (r' & m' & E' & _ & _ & _ & Hr); [intros p Hp; apply H4; by left|].
  rewrite E in E'. injection E' as <- <-. destruct r as [p|]; cycle 1.
  - destruct Hr as (Ep & Eh & _). cbn [option_list]. rewrite app_nil_r.
    split; cbn [mgr reqs held]; rewrite ?Ep, ?Eh; try done. intros p t ph Ht Hph. rewrite fate_snoc. cbn.
    destruct (decide (None = Some p)); [done|]. by apply H5.
  - destruct Hr as (l1 & l2 & t & El & El' & Et & _ & Eh). cbn [option_list].
    assert (Hp : p ∈ pooled (mgr s)) by (rewrite El, elem_of_app, elem_of_cons; tauto).
    destruct (pooled_waits tr s p Hi Hp) as (t' & Et' & Hph & _ & Hnh & Hr & Hs & Hrs & Hre). rewrite Et in Et'. injection Et' as <-.
    unfold drop_ref in Eh. rewrite Hr in Eh. change (2 - 1 =? 0) with false in Eh. cbn iota in Eh.
    rewrite El in H1. apply NoDup_app_cons_swap in H1 as (N1 & N2 & N3).
    apply (xinv_at p tr s); cbn [mgr reqs held]; rewrite ?El', ?Eh, ?lookup_insert_eq; try done.
    + intros q Hq. rewrite !lookup_insert_ne by congruence. rewrite El.
      split; [done|split; [done|split; [set_solver|split; [set_solver|]]]]. intros f. cbn. by rewrite decide_False by congruence.
    + apply NoDup_app. split; [done|]. split; [|apply NoDup_singleton]. by intros x Hx ->%list_elem_of_singleton.
    + change (option_list (Some p)) with [p]. intros t'' ph [= <-] Hph'. rewrite Hph in Hph'. injection Hph' as <-. cbn. rewrite decide_True by done. exists Taken. split; [done|].
      cbn. rewrite !elem_of_app, list_elem_of_singleton. tauto.
Qed.

(** The three ways of dealing with a taken transaction. *)
Lemma inv_held tr s p ev m (t' : IrpcTransaction) f :
  xinv tr s -> p ∈ held s -> m = with_heap (<[p := t']> (heap (mgr s))) (mgr s) ->
  (forall q g, q <> p -> next_fate q g ev = g) -> next_fate p (Some Taken) ev = Some f ->
  (fate_ok t' False False f) -> xinv (tr ++ [ev]) (mk_xsys m (reqs s) (unheld p (held s))).
Proof.
  intros Hi Hp -> Hoth Hf Hok. pose proof Hi as [H1 H2 H3 H4 H5].
  destruct (held_waits tr s p Hi Hp) as (t & Et & Hph & Hft & Hnp & _).
  apply (xinv_at p tr s); cbn [mgr reqs held with_heap heap]; rewrite ?lookup_insert_eq; try done.
  - intros q Hq. rewrite !lookup_insert_ne by congruence. rewrite unheld_elem. split_and!; try tauto. intros g. by apply Hoth.
  - by apply unheld_nodup.
  - intros t'' ph [= <-] Hph'. rewrite Hph in Hph'. injection Hph' as <-. cbn. exists f. rewrite Hft. split; [done|].
    change (pooled (with_heap (<[p := t']> (heap (mgr s))) (mgr s))) with (pooled (mgr s)).
    assert (Hu : p ∉ unheld p (held s)) by (rewrite unheld_elem; tauto). destruct f; cbn in Hok |- *; tauto.
Qed.

Lemma inv_expire tr s res now seconds m :
  xinv tr s -> IpfTrxMgr_ExpireTimeout res now seconds (mgr s) = Some (tt, m) ->
  xinv (tr ++ [XExpire (filter (fun p => p ∉ pooled m) (pooled (mgr s)))]) (mk_xsys m (reqs s) (held s)).
Proof.
  intros Hi E. pose proof Hi as [H1 H2 H3 H4 H5].
  destruct (expire_timeout_spec res now seconds (mgr s) H1) as (m' & E' & _ & _ & _ & Hgs).
  { intros p Hp. destruct (pooled_waits tr s p Hi Hp) as (t & Et & _ & _ & _ & Hr & _). by exists t. }
  rewrite E in E'. injection E' as <-.
  revert Hgs. generalize (fun p => (seconds <? TRX_EXPIRE_TIMEOUT_NEVER) && expires (mgr s) res now seconds p).
  intros gone [Hpool Hheap].   assert (Hin : forall p, p ∈ pooled m <-> p ∈ pooled (mgr s) /\ gone p = false)
    by (intros p; rewrite Hpool, list_elem_of_filter; tauto).
  assert (Hsome : forall p, is_Some (heap m !! p) <-> is_Some (heap (mgr s) !! p)).
  { intros p. rewrite Hheap. destruct (_ && _); [by rewrite fmap_is_Some|done]. }
  split; cbn [mgr reqs held]; try done.
  - rewrite Hpool. by apply NoDup_filter.
  - intros p. by rewrite Hsome.
  - intros p Hp. apply Hsome, H4. rewrite Hin in Hp. tauto.
  - intros p t ph Ht Hph. rewrite fate_snoc. cbn [next_fate]. rewrite Hheap in Ht.
    assert (Hgone : p ∈ filter (fun p => p ∉ pooled m) (pooled (mgr s)) <-> p ∈ pooled (mgr s) /\ gone p = true).
    { rewrite list_elem_of_filter, Hin. destruct (gone p); intuition congruence. }
    destruct (bool_decide_reflect (p ∈ pooled (mgr s))) as [Hp|Hp]; cbn [andb] in Ht.
    + destruct (pooled_waits tr s p Hi Hp) as (t0 & Et0 & Hph0 & Hft & Hnh & Hr & Hs & Hrs & Hre).
      rewrite Hph0 in Hph. injection Hph as <-. destruct (gone p) eqn:Eg.
      * rewrite Et0 in Ht. injection Ht as <-. rewrite decide_True by (apply Hgone; tauto). exists Expired. split; [done|].
        cbn. rewrite Hin, Hr, Hs, Eg. split_and!; try done; try tauto. intros [_ ?]. done.
      * rewrite Et0 in Ht. injection Ht as <-. rewrite decide_False by (rewrite Hgone; by intros []). exists InPool. split; [done|].
        cbn. rewrite Hin. tauto.
    + rewrite decide_False by (rewrite Hgone; tauto). assert (Hm : p ∉ pooled m) by (rewrite Hin; tauto).
      specialize (H5 p t ph Ht Hph). destruct ph as [| |rc]; cbn in H5 |- *; [tauto| |tauto].
      destruct H5 as (f & Ef & Hf). exists f. split; [done|]. destruct f; cbn in Hf |- *; tauto.
Qed.

(** Changes of the timestamps and of the timeout. *)
Lemma inv_times tr s m :
  xinv tr s -> trxPool m = trxPool (mgr s) ->
  (forall p, exists (b : bool) now, heap m !! p = (fun t => if b then with_time now t else t) <$> heap (mgr s) !! p) ->
  xinv (tr ++ [XTimeouts]) (mk_xsys m (reqs s) (held s)).
Proof.
  intros [H1 H2 H3 H4 H5] Ep Eh. assert (Epool : pooled m = pooled (mgr s)) by (unfold pooled; by rewrite Ep).
  split; cbn [mgr reqs held]; rewrite ?Epool; try done.
  - intros p. destruct (Eh p) as (b & now & ->). by rewrite fmap_is_Some.
  - intros p Hp. destruct (Eh p) as (b & now & ->). rewrite fmap_is_Some. by apply H4.
  - intros p t ph Ht Hph. rewrite fate_snoc. cbn [next_fate]. destruct (Eh p) as (b & now & Ep'). rewrite Ep' in Ht.
    destruct (heap (mgr s) !! p) as [t0|] eqn:Et; [|done]. injection Ht as <-. specialize (H5 p t0 ph Et Hph).
    destruct b; [|done]. destruct ph as [| |rc]; cbn in *; [tauto| |tauto]. destruct H5 as (f & Ef & Hf). exists f. split; [done|].
    by destruct f.
Qed.

Lemma xstep_inv tr s ev s' : xinv tr s -> is_send_failed ev = false -> xstep s ev s' -> xinv (tr ++ [ev]) s'.
Proof.
  intros Hi Hev Hs. destruct Hs as [p handle now m Hf E|p mem rc m Hp E|p rc Hp|p rc m Hp E|p ph m Hp Hph E
    |handle id r m E|p blob m Hp E|p m Hp E|p Hp|res now seconds m E|now m E|timeout m E].
  - by eapply inv_create.
  - by eapply inv_add.
  - done.
  - by eapply inv_wait.
  - by eapply inv_release.
  - by eapply inv_take.
  - destruct (held_waits tr s p Hi Hp) as (t & Et & _ & _ & _ & Hr & Hsy & Hrs & Hre).
    unfold respond in E. rewrite (wake_some p _ (mgr s) t Et) in E. injection E as <-.
    eapply (inv_held tr s p (XRespond p blob)); [done|done|done| | |].
    + intros q g Hq. cbn. by rewrite decide_False by congruence.
    + cbn. by rewrite decide_True.
    + cbn. rewrite Hsy. tauto.
  - destruct (held_waits tr s p Hi Hp) as (t & Et & _ & _ & _ & Hr & Hsy & Hrs & Hre).
    unfold disconnect in E. rewrite (wake_some p _ (mgr s) t Et) in E. injection E as <-.
    eapply (inv_held tr s p (XDisconnect p)); [done|done|done| | |].
    + intros q g Hq. cbn. by rewrite decide_False by congruence.
    + cbn. by rewrite decide_True.
    + cbn. rewrite Hsy. tauto.
  - destruct (held_waits tr s p Hi Hp) as (t & Et & _ & _ & _ & Hr & Hsy & Hrs & Hre).
    eapply (inv_held tr s p (XDrop p) (mgr s) t); [done|done| | | |].
    + destruct s as [[h l r g] rq hd]. unfold with_heap. cbn in *. by rewrite insert_id.
    + intros q g Hq. cbn. by rewrite decide_False by congruence.
    + cbn. by rewrite decide_True.
    + cbn. tauto.
  - by eapply inv_expire.
  - unfold IpfTrxMgr_ResetTimeouts, sbind, sget in E.
    destruct (reset_loop_spec now (trxPool (mgr s)) (mgr s)) as (m' & E' & Hp & _ & _ & Hh).
    { intros p Hp. apply (xi_ptrs _ _ Hi). left. by apply elem_of_pooled. }
    rewrite E in E'. injection E' as <-. apply inv_times; [done|done|]. intros p. destruct (Hh p) as [b Eb]. by exists b, now.
  - injection E as <-. apply inv_times; [done|done|]. intros p. exists false, 0. cbn. by rewrite option_fmap_id.
Qed.

Lemma xrun_inv tr s : xrun tr s -> sends_succeed tr -> xinv tr s.
Proof.
  induction 1 as [m E|tr s ev s' Hr IH Hs]; intros Hok; [by apply inv_start|].
  apply Forall_app in Hok as [Hok [Hev _]%Forall_cons]. eapply xstep_inv; eauto.
Qed.

(* ------------------------------------------------------------------ *)
(** ** Transaction ids *)

Definition is_create (ev : xev) : bool := match ev with XCreate _ _ => true | _ => false end.
Definition creations (tr : list xev) : Z := Z.of_nat (length (filter (fun ev => is_create ev = true) tr)).

(** What the other steps leave of a transaction. *)
Definition same_id (s s' : tst) : Prop :=
  trxIdGenerator s' = trxIdGenerator s /\
  forall p t', heap s' !! p = Some t' -> exists t, heap s !! p = Some t /\ trxId t' = trxId t /\ ipfHandle t' = ipfHandle t.

Lemma same_id_insert p t t' s : heap s !! p = Some t -> trxId t' = trxId t -> ipfHandle t' = ipfHandle t ->
  same_id s (with_heap (<[p := t']> (heap s)) s).
Proof.
  intros E E1 E2. split; [done|]. intros q u. cbn. destruct (decide (q = p)) as [->|Hq].
  - rewrite lookup_insert_eq. intros [= <-]. by exists t.
  - rewrite lookup_insert_ne by congruence. intros Hu. by exists u.
Qed.

Lemma same_id_heap s s' p t (o : option IrpcTransaction) :
  trxIdGenerator s' = trxIdGenerator s -> heap s !! p = Some t ->
  heap s' = match o with Some t' => <[p := t']> (heap s) | None => delete p (heap s) end ->
  (forall t', o = Some t' -> trxId t' = trxId t /\ ipfHandle t' = ipfHandle t) -> same_id s s'.
Proof.
  intros Eg E Eh Ho. split; [done|]. intros q u. rewrite Eh. destruct o as [t'|].
  - destruct (Ho t' eq_refl). destruct (decide (q = p)) as [->|Hq].
    + rewrite lookup_insert_eq. intros [= <-]. by exists t.
    + rewrite lookup_insert_ne by congruence. intros Hu. by exists u.
  - rewrite lookup_delete_Some. intros [_ Hu]. by exists u.
Qed.

Lemma same_id_refl s : same_id s s.
Proof. split; [done|]. intros p t E. by exists t. Qed.

Lemma xstep_same_id tr s ev s' : xinv tr s -> is_create ev = false -> xstep s ev s' -> same_id (mgr s) (mgr s').
Proof.
  intros Hi Hev Hs. destruct Hs as [p handle now m Hf E|p mem rc m Hp E|p rc Hp|p rc m Hp E|p ph m Hp Hph E
    |handle id r m E|p blob m Hp E|p m Hp E|p Hp|res now seconds m E|now m E|timeout m E]; cbn [mgr].
  - done.
  - destruct (proj2 (xi_dom _ _ Hi p) ltac:(by rewrite Hp)) as [t Et].
    destruct (add_spec mem p (mgr s) t Et) as (rc' & m' & E' & Eg & _ & Hcase). rewrite E in E'. injection E' as <- <-.
    destruct Hcase as [(_ & Eh & _)|[_ ->]]; [|apply same_id_refl].
    apply (same_id_heap _ _ p t (Some (with_ref (refCount t + 1) t))); [done|done|done|by intros t' [= <-]].
  - apply same_id_refl.
  - destruct (proj2 (xi_dom _ _ Hi p) ltac:(by rewrite Hp)) as [t Et]. rewrite (wait_some p _ t Et) in E.
    destruct (sync t =? 0); [done|]. injection E as _ <-. by apply (same_id_insert p t).
  - destruct (proj2 (xi_dom _ _ Hi p) ltac:(by rewrite Hp)) as [t Et]. rewrite (put_ref_some p _ t Et) in E. injection E as <-.
    apply (same_id_heap _ _ p t (drop_ref t)); try done. unfold drop_ref. intros t'. destruct (_ =? 0); [done|]. by intros [= <-].
  - destruct (get_spec handle id (mgr s)) as (r' & m' & E' & Eg & _ & _ & Hr); [intros p Hp; apply (xi_ptrs _ _ Hi); by left|].
    rewrite E in E'. injection E' as <- <-. destruct r as [p|].
    + destruct Hr as (l1 & l2 & t & _ & _ & Et & _ & Eh). apply (same_id_heap _ _ p t (drop_ref t)); try done.
      unfold drop_ref. intros t'. destruct (_ =? 0); [done|]. by intros [= <-].
    + destruct Hr as (_ & Eh & _). split; [done|]. rewrite Eh. intros p t Et. by exists t.
  - destruct (held_waits tr s p Hi Hp) as (t & Et & _). unfold respond in E. rewrite (wake_some p _ (mgr s) t Et) in E.
    injection E as <-. by apply (same_id_insert p t).
  - destruct (held_waits tr s p Hi Hp) as (t & Et & _). unfold disconnect in E. rewrite (wake_some p _ (mgr s) t Et) in E.
    injection E as <-. by apply (same_id_insert p t).
  - apply same_id_refl.
  - destruct (expire_timeout_spec res now seconds (mgr s) (xi_pool _ _ Hi)) as (m' & E' & Eg & _ & _ & _ & Hheap).
    { intros p Hp. destruct (pooled_waits tr s p Hi Hp) as (t & Et & _ & _ & _ & Hr & _). by exists t. }
    rewrite E in E'. injection E' as <-. split; [done|]. intros p t'. rewrite Hheap. destruct (_ && _).
    + intros (t & Et & ->)%fmap_Some. by exists t.
    + intros Et. by exists t'.
  - unfold IpfTrxMgr_ResetTimeouts, sbind, sget in E.
    destruct (reset_loop_spec now (trxPool (mgr s)) (mgr s)) as (m' & E' & _ & _ & Eg & Hh).
    { intros p Hp. apply (xi_ptrs _ _ Hi). left. by apply elem_of_pooled. }
    rewrite E in E'. injection E' as <-. split; [done|]. intros p t'. destruct (Hh p) as [b ->].
    intros (t & Et & ->)%fmap_Some. exists t. by destruct b.
  - injection E as <-. split; [done|]. intros p t Et. by exists t.
Qed.

(** Until the generator turns over every live transaction has an id of its own. *)
Lemma xrun_ids tr s : xrun tr s -> sends_succeed tr -> creations tr < TRXID_MAX - TRXID_MIN ->
  trxIdGenerator (mgr s) = TRXID_MIN + creations tr /\
  (forall p t, heap (mgr s) !! p = Some t -> TRXID_MIN < trxId t <= trxIdGenerator (mgr s)) /\
  (forall p q t u, heap (mgr s) !! p = Some t -> heap (mgr s) !! q = Some u -> trxId t = trxId u -> p = q).
Proof.
  induction 1 as [m E|tr s ev s' Hr IH Hs]; intros Hok Hc.
  { injection E as <-. split; [done|]. cbn. by split; [intros p t|intros p q t u]; rewrite lookup_empty. }
  apply Forall_app in Hok as [Hok [Hev _]%Forall_cons]. pose proof (xrun_inv tr s Hr Hok) as Hi.
  unfold creations in Hc |- *. rewrite filter_app, length_app in Hc |- *.
  destruct (is_create ev) eqn:Ec.
  - rewrite filter_cons_True in Hc |- * by done. cbn [length app] in Hc |- *. change (filter _ []) with (@nil xev) in *. cbn [length] in *.
    destruct (IH Hok) as (Eg & Hin & Hinj); [unfold creations; lia|]. unfold creations in Eg. destruct Hs; try done. cbn [mgr].
    destruct (create_some p handle now (mgr s)) as (m' & E' & Eh & _ & _ & Eg'); [done|].
    match goal with H : sbind _ _ (mgr s) = Some (tt, m) |- _ => rewrite H in E' end. injection E' as <-.
    change TRXID_MAX with 18446744073709486080 in *. change TRXID_MIN with 9223372036854775808 in *.
    assert (Ew : u64 (trxIdGenerator (mgr s) + 1) = trxIdGenerator (mgr s) + 1) by (apply wrap_small; unfold in_range; lia).
    rewrite Ew in *. rewrite (proj2 (Z.eqb_neq _ _)) in Eg' by lia. split; [lia|]. rewrite Eh. split.
    + intros q t. destruct (decide (q = p)) as [->|Hq]; [rewrite lookup_insert_eq; intros [= <-]; cbn; lia|].
      rewrite lookup_insert_ne by congruence. intros Ht. specialize (Hin q t Ht). lia.
    + intros q1 q2 t1 t2. destruct (decide (q1 = p)) as [->|H1], (decide (q2 = p)) as [->|H2];
        rewrite ?lookup_insert_eq, ?lookup_insert_ne by congruence; try done.
      * intros [= <-] Ht. specialize (Hin _ _ Ht). cbn. lia.
      * intros Ht [= <-]. specialize (Hin _ _ Ht). cbn. lia.
      * apply Hinj.
  - rewrite filter_cons_False in Hc |- * by congruence. change (filter _ []) with (@nil xev) in *. cbn [length] in *.
    destruct (IH Hok) as (Eg & Hin & Hinj); [unfold creations; lia|]. unfold creations in Eg.
    destruct (xstep_same_id tr s ev s' Hi Ec Hs) as [Eg' Hh]. split; [lia|]. rewrite Eg'. split.
    + intros p t Ht. destruct (Hh p t Ht) as (t0 & Et0 & -> & _). by apply (Hin p).
    + intros p q t u Ht Hu. destruct (Hh p t Ht) as (t0 & Et0 & -> & _), (Hh q u Hu) as (u0 & Eu0 & -> & _). by apply Hinj.
Qed.

(* ------------------------------------------------------------------ *)
(** ** What the callers can rely on *)

(** What the caller's wait gives, from what became of its transaction. *)
Lemma wait_fate tr s p : xinv tr s -> reqs s !! p = Some RqWaiting ->
  exists t, heap (mgr s) !! p = Some t /\
  match fate_of tr p with
  | Some (Answered b) => response t = Some b /\ exists m, IrpcTransaction_Wait (Some p) (mgr s) = Some (Some ESIF_OK, m)
  | Some Closed => exists m, IrpcTransaction_Wait (Some p) (mgr s) = Some (Some ESIF_E_SESSION_DISCONNECTED, m)
  | Some Expired => exists m, IrpcTransaction_Wait (Some p) (mgr s) = Some (Some ESIF_E_SESSION_REQUEST_FAILED, m)
  | Some _ => IrpcTransaction_Wait (Some p) (mgr s) = Some (None, mgr s)
  | None => False
  end.
Proof.
  intros Hi Hp. destruct (proj2 (xi_dom _ _ Hi p) ltac:(by rewrite Hp)) as [t Et]. exists t. split; [done|].
  destruct (xi_req _ _ Hi p t _ Et Hp) as (f & -> & Hf). rewrite (wait_some p _ t Et).
  destruct f; cbn in Hf; decompose [and] Hf; repeat match goal with H : sync t = _ |- _ => rewrite H; clear H end; cbn; try done;
    repeat match goal with H : result t = _ |- _ => rewrite H; clear H | H : response t = _ |- _ => rewrite H; clear H end; cbn; eauto.
Qed.

Definition no_drops (tr : list xev) : Prop := Forall (fun ev => match ev with XDrop _ => False | _ => True end) tr.

Lemma no_drops_fate tr p : no_drops tr -> fate_of tr p <> Some Dropped.
Proof.
  induction tr as [|ev tr IH] using rev_ind; [done|]. intros [Hd [Hev _]%Forall_cons]%Forall_app. rewrite fate_snoc.
  specialize (IH Hd). destruct ev; cbn; repeat case_decide; repeat case_match; done.
Qed.

(** C20: Transactions are never used after they are destroyed, and never leak.
    As long as the callers' requests can be sent, in every interleaving the live
    transactions are exactly those of the calling threads, and every operation
    of the manager, every answer or closing of a taken transaction, every
    caller's wait and release finds the transactions it touches alive. *)
Theorem trx_no_dangling (tr : list xev) (s : xsys) (Hrun : xrun tr s) (Hsend : sends_succeed tr) :
  (forall p, is_Some (heap (mgr s) !! p) <-> is_Some (reqs s !! p)) /\
  (forall handle id, exists r m, IpfTrxMgr_GetTransaction handle id (mgr s) = Some (r, m)) /\
  (forall res now seconds, exists m, IpfTrxMgr_ExpireTimeout res now seconds (mgr s) = Some (tt, m)) /\
  (forall now, exists m, IpfTrxMgr_ResetTimeouts now (mgr s) = Some (tt, m)) /\
  (forall p, p ∈ held s -> (forall b, exists m, respond p b (mgr s) = Some (tt, m)) /\ exists m, disconnect p (mgr s) = Some (tt, m)) /\
  (forall p, is_Some (reqs s !! p) -> (exists x m, IrpcTransaction_Wait (Some p) (mgr s) = Some (x, m)) /\
     exists m, IrpcTransaction_PutRef (Some p) (mgr s) = Some (tt, m)).
Proof.
  pose proof (xrun_inv tr s Hrun Hsend) as Hi. split_and!.
  - apply (xi_dom _ _ Hi).
  - intros handle id. destruct (get_spec handle id (mgr s)) as (r & m & E & _); [intros p Hp; apply (xi_ptrs _ _ Hi); by left|eauto].
  - intros res now seconds. destruct (expire_timeout_spec res now seconds (mgr s) (xi_pool _ _ Hi)) as (m & E & _); [|eauto].
    intros p Hp. destruct (pooled_waits tr s p Hi Hp) as (t & Et & _ & _ & _ & Hr & _). by exists t.
  - intros now. destruct (reset_loop_spec now (trxPool (mgr s)) (mgr s)) as (m & E & _); [|by exists m].
    intros p Hp. apply (xi_ptrs _ _ Hi). left. by apply elem_of_pooled.
  - intros p Hp. destruct (held_waits tr s p Hi Hp) as (t & Et & _). unfold respond, disconnect.
    split; [intros b|]; rewrite (wake_some p _ (mgr s) t Et); eauto.
  - intros p Hp. destruct (proj2 (xi_dom _ _ Hi p) Hp) as [t Et]. rewrite (wait_some p _ t Et), (put_ref_some p _ t Et).
    destruct (sync t =? 0); eauto.
Qed.

(** C19: Every call gets exactly the outcome of what became of its transaction, as long as
    the callers' requests can be sent (one that cannot leaves a transaction in the pool
    that its caller destroys: [trx_send_failed_dangles]).  A waiting caller goes on waiting
    while its transaction is in the pool or taken, and for ever if the thread that took it
    could not copy the response; its wait ends with success and the response when it was
    answered, with the session-disconnected error when its session was closed, with the
    request-failed error when it expired. *)
Theorem trx_one_outcome (tr : list xev) (s : xsys) (Hrun : xrun tr s) (Hsend : sends_succeed tr)
    (p : positive) (Hwait : reqs s !! p = Some RqWaiting) :
  exists t, heap (mgr s) !! p = Some t /\
  match fate_of tr p with
  | Some (Answered b) => response t = Some b /\ exists m, IrpcTransaction_Wait (Some p) (mgr s) = Some (Some ESIF_OK, m)
  | Some Closed => exists m, IrpcTransaction_Wait (Some p) (mgr s) = Some (Some ESIF_E_SESSION_DISCONNECTED, m)
  | Some Expired => exists m, IrpcTransaction_Wait (Some p) (mgr s) = Some (Some ESIF_E_SESSION_REQUEST_FAILED, m)
  | Some _ => IrpcTransaction_Wait (Some p) (mgr s) = Some (None, mgr s)
  | None => False
  end.
Proof. apply wait_fate; [by apply xrun_inv|done]. Qed.

(** No caller is left waiting.  Unless a receiving thread dropped a
    transaction it had taken, once the taken transactions have been dealt with,
    expiring all transactions makes the wait of every waiting caller return. *)
Theorem trx_all_woken (tr : list xev) (s : xsys) (Hrun : xrun tr s) (Hsend : sends_succeed tr)
    (Hdrop : no_drops tr) (Hheld : held s = []) (res now : Z) :
  exists m, IpfTrxMgr_ExpireAll res now (mgr s) = Some (tt, m) /\
  forall p, reqs s !! p = Some RqWaiting -> exists rc m', IrpcTransaction_Wait (Some p) m = Some (Some rc, m').
Proof.
  pose proof (xrun_inv tr s Hrun Hsend) as Hi.
  destruct (expire_timeout_spec res now TRX_EXPIRE_ALL (mgr s) (xi_pool _ _ Hi)) as (m & E & _ & _ & _ & Hpool & _).
  { intros p Hp. destruct (pooled_waits tr s p Hi Hp) as (t & Et & _ & _ & _ & Hr & _). by exists t. }
  exists m. split; [done|]. intros p Hp. pose proof (inv_expire tr s res now _ m Hi E) as Hi'.
  set (ev := XExpire _) in Hi'. destruct (wait_fate _ _ p Hi' Hp) as (t & Et & Hf).
  destruct (xi_req _ _ Hi' p t _ Et Hp) as (f & Ef & Hok). cbn [mgr held reqs] in *. rewrite Ef in Hf.
  destruct f as [| |b| | |]; try (by destruct Hf as [? ?]; eauto).
  - exfalso. destruct Hok as (Hin & _). rewrite Hpool, list_elem_of_filter in Hin. destruct Hin as [Hg Hin].
    destruct (pooled_waits tr s p Hi Hin) as (t0 & Et0 & _). cbn in Hg. unfold expires in Hg. by rewrite Et0 in Hg.
  - exfalso. destruct Hok as (_ & Hin & _). rewrite Hheld in Hin. by apply elem_of_nil in Hin.
  - exfalso. revert Ef. apply no_drops_fate. apply Forall_app. split; [done|]. by repeat constructor.
Qed.

(** C21: A response reaches the call it answers.  As long as the callers' requests can be
    sent ([trx_send_failed_dangles] is what happens otherwise) and until the id generator
    turns over, asking for the session and the id of a pooled transaction gives that
    transaction, whatever other calls are in the pool; so does asking for the id alone. *)
Theorem trx_response_routed (tr : list xev) (s : xsys) (Hrun : xrun tr s) (Hsend : sends_succeed tr)
    (Hids : creations tr < TRXID_MAX - TRXID_MIN) (p : positive) (t : IrpcTransaction)
    (Hp : p ∈ pooled (mgr s)) (Ht : heap (mgr s) !! p = Some t) (handle : Z)
    (Hh : handle = ipfHandle t \/ handle = ESIF_INVALID_HANDLE) :
  exists m, IpfTrxMgr_GetTransaction handle (trxId t) (mgr s) = Some (Some p, m).
Proof.
  pose proof (xrun_inv tr s Hrun Hsend) as Hi. destruct (xrun_ids tr s Hrun Hsend Hids) as (Eg & Hin & Hinj).
  destruct (get_spec handle (trxId t) (mgr s)) as (r & m & E & _ & _ & _ & Hr).
  { intros q Hq. apply (xi_ptrs _ _ Hi). by left. }
  assert (Hm : trx_matches handle (trxId t) t = true).
  { unfold trx_matches. rewrite (Z.eqb_refl (trxId t)). destruct Hh as [-> | ->]; by rewrite Z.eqb_refl, ?orb_true_r. }
  exists m. destruct r as [q|]; cycle 1.
  { destruct Hr as (_ & _ & Hno). by rewrite (Hno p t Hp Ht) in Hm. }
  destruct Hr as (l1 & l2 & u & _ & _ & Eu & Hmu & _). rewrite E. do 3 f_equal. apply (Hinj q p u t Eu Ht).
  unfold trx_matches in Hmu. apply andb_true_iff in Hmu as [_ Hmu]. apply orb_true_iff in Hmu as [Hmu|Hmu]; [by apply Z.eqb_eq|].
  exfalso. apply Z.eqb_eq in Hmu. specialize (Hin p t Ht).
  change TRXID_MAX with 18446744073709486080 in *. change TRXID_MIN with 9223372036854775808 in *.
  change IPFTRX_MATCHANY with 18446744073709551615 in *. lia.
Qed.

(* ------------------------------------------------------------------ *)
(** ** Closing a session *)

(** The thread in [IpfClient_Close], in its loop over the session's transactions: it is
    about to take the next one, has taken one, or has found no more.  Each taking is a
    critical section of the manager, and what it does with the transaction is outside. *)
Inductive closer : Type := ClNext | ClTaken (p : positive) | ClDone.
Inductive close_step (handle : Z) : closer -> xev -> closer -> Prop :=
  | cl_take p : close_step handle ClNext (XTake handle IPFTRX_MATCHANY (Some p)) (ClTaken p)
  | cl_post p : close_step handle (ClTaken p) (XDisconnect p) ClNext
  | cl_done : close_step handle ClNext (XTake handle IPFTRX_MATCHANY None) ClDone.

(** The events that deal with a transaction that has been taken, and those after which
    something else has become of it. *)
Definition deals_with (p : positive) (ev : xev) : bool :=
  match ev with XRespond q _ | XDisconnect q | XDrop q => bool_decide (q = p) | _ => false end.
Definition touches (p : positive) (ev : xev) : bool :=
  match ev with
  | XCreate q _ | XAdd q _ => bool_decide (q = p)
  | XTake _ _ r => bool_decide (r = Some p)
  | XExpire ps => bool_decide (p ∈ ps)
  | _ => deals_with p ev
  end.

(** A closing thread among the others, from when it begins; its own steps are marked. *)
Inductive close_run (handle : Z) (s0 : xsys) : list (bool * xev) -> closer -> xsys -> Prop :=
  | cr_start : close_run handle s0 [] ClNext s0
  | cr_other l c s ev s' : close_run handle s0 l c s -> xstep s ev s' -> (forall p, c = ClTaken p -> deals_with p ev = false) ->
      close_run handle s0 (l ++ [(false, ev)]) c s'
  | cr_own l c s ev s' c' : close_run handle s0 l c s -> xstep s ev s' -> close_step handle c ev c' ->
      close_run handle s0 (l ++ [(true, ev)]) c' s'.
Definition events (l : list (bool * xev)) : list xev := map snd l.
Definition is_turn (x : bool * xev) : bool := match x with (true, XTake _ _ (Some _)) => true | _ => false end.
Definition is_added (ev : xev) : bool := match ev with XAdd _ rc => rc =? ESIF_OK | _ => false end.
Definition turns (l : list (bool * xev)) : nat := length (filter (fun x => is_turn x = true) l).
Definition additions (l : list xev) : nat := length (filter (fun ev => is_added ev = true) l).

Lemma events_snoc l b ev : events (l ++ [(b, ev)]) = events l ++ [ev].
Proof. unfold events. by rewrite map_app. Qed.
Lemma close_xrun handle tr s0 l c s : xrun tr s0 -> close_run handle s0 l c s -> xrun (tr ++ events l) s.
Proof.
  intros Hr. induction 1 as [|l c s ev s' _ IH Hs _|l c s ev s' c' _ IH Hs _]; [by rewrite app_nil_r|..]; rewrite events_snoc, app_assoc; by eapply xrun_snoc.
Qed.
Lemma touches_fate p f ev : touches p ev = false -> next_fate p f ev = f.
Proof. destruct ev; cbn; intros E; try (apply bool_decide_eq_false in E); by rewrite ?decide_False. Qed.

(** The pool grows with what is added only, and gets smaller with what is taken. *)
Lemma step_pool tr s ev s' : xinv tr s -> xstep s ev s' ->
  (length (pooled (mgr s')) + (match ev with XTake _ _ (Some _) => 1 | _ => 0 end) <= length (pooled (mgr s)) + (if is_added ev then 1 else 0))%nat.
Proof.
  intros Hi Hs. destruct Hs as [p handle now m Hf E|p mem rc m Hp E|p rc Hp|p rc m Hp E|p ph m Hp Hph E
    |handle id r m E|p blob m Hp E|p m Hp E|p Hp|res now seconds m E|now m E|timeout m E]; cbn [mgr is_added]; try lia.
  - destruct (create_some p handle now (mgr s) Hf) as (m' & E' & _ & Ep & _). rewrite E in E'. injection E' as <-. unfold pooled. rewrite Ep. lia.
  - destruct (proj2 (xi_dom _ _ Hi p) ltac:(by rewrite Hp)) as [t Et]. destruct (add_spec mem p (mgr s) t Et) as (rc' & m' & E' & _ & _ & Hc). rewrite E in E'. injection E' as <- <-.
    destruct Hc as [(-> & _ & l1 & l2 & E1 & E2)|[-> ->]]; [rewrite E1, E2, !length_app; cbn; lia|cbn; lia].
  - destruct (proj2 (xi_dom _ _ Hi p) ltac:(by rewrite Hp)) as [t Et]. rewrite (wait_some p _ t Et) in E. destruct (sync t =? 0); [done|]. injection E as _ <-. unfold pooled. cbn. lia.
  - destruct (proj2 (xi_dom _ _ Hi p) ltac:(by rewrite Hp)) as [t Et]. rewrite (put_ref_some p _ t Et) in E. injection E as <-. unfold pooled. cbn. lia.
  - destruct (get_spec handle id (mgr s)) as (r' & m' & E' & _ & _ & _ & Hr); [intros p Hp; apply (xi_ptrs _ _ Hi); by left|]. rewrite E in E'. injection E' as <- <-.
    destruct r as [p|]; [destruct Hr as (l1 & l2 & t & -> & -> & _); rewrite !length_app; cbn; lia|]. destruct Hr as (-> & _). lia.
  - destruct (held_waits tr s p Hi Hp) as (t & Et & _). unfold respond in E. rewrite (wake_some p _ (mgr s) t Et) in E. injection E as <-. unfold pooled. cbn. lia.
  - destruct (held_waits tr s p Hi Hp) as (t & Et & _). unfold disconnect in E. rewrite (wake_some p _ (mgr s) t Et) in E. injection E as <-. unfold pooled. cbn. lia.
  - destruct (expire_timeout_spec res now seconds (mgr s) (xi_pool _ _ Hi)) as (m' & E' & _ & _ & _ & Ep & _).
    { intros p Hp. destruct (pooled_waits tr s p Hi Hp) as (t & Et & _ & _ & _ & Hr & _). by exists t. }
    rewrite E in E'. injection E' as <-. rewrite Ep, !Nat.add_0_r. apply length_filter.
  - unfold IpfTrxMgr_ResetTimeouts, sbind, sget in E. destruct (reset_loop_spec now (trxPool (mgr s)) (mgr s)) as (m' & E' & Ep & _).
    { intros p Hp. apply (xi_ptrs _ _ Hi). left. by apply elem_of_pooled. }
    rewrite E in E'. injection E' as <-. unfold pooled. rewrite Ep. lia.
  - injection E as <-. unfold pooled. cbn. lia.
Qed.
Lemma turns_bound handle tr s0 l c s : xrun tr s0 -> close_run handle s0 l c s -> sends_succeed (tr ++ events l) ->
  (length (pooled (mgr s)) + turns l <= length (pooled (mgr s0)) + additions (events l))%nat.
Proof.
  intros Hr. induction 1 as [|l c s ev s' Hc IH Hs _|l c s ev s' c' Hc IH Hs Hcl]; intros Hsend; [by unfold turns, additions|..]; rewrite events_snoc, app_assoc in Hsend; apply Forall_app in Hsend as [Hsend _]; specialize (IH Hsend);
    pose proof (step_pool _ s ev s' (xrun_inv _ _ (close_xrun handle tr s0 l c s Hr Hc) Hsend) Hs) as Hp; unfold turns, additions in *; rewrite events_snoc, !filter_app, !length_app.
  - rewrite (filter_cons_False _ (false, ev)) by done. change (filter _ []) with (@nil (bool * xev)). cbn [length]. destruct (is_added ev) eqn:Ea; [rewrite filter_cons_True by done|rewrite filter_cons_False by congruence]; rewrite filter_nil; cbn [length]; destruct ev as [| | | | |? ? []| | | | |]; lia.
  - assert (Ea : is_added ev = false) by by destruct Hcl. rewrite Ea in Hp. rewrite (filter_cons_False _ ev) by congruence. rewrite filter_nil. cbn [length].
    destruct Hcl; [rewrite filter_cons_True by done|rewrite filter_cons_False by done..]; rewrite filter_nil; cbn [length] in *; lia.
Qed.

(** A caller that does not stop waiting keeps its transaction. *)
Lemma waiting_kept tr s ev s' p t : xinv tr s -> is_send_failed ev = false -> xstep s ev s' ->
  reqs s !! p = Some RqWaiting -> heap (mgr s) !! p = Some t -> (forall rc, ev <> XWait p rc) ->
  reqs s' !! p = Some RqWaiting /\ exists t', heap (mgr s') !! p = Some t' /\ ipfHandle t' = ipfHandle t.
Proof.
  intros Hi Hev Hs Hp Ht Hw. assert (Hreq : reqs s' !! p = Some RqWaiting).
  { destruct Hs as [q handle now m Hf E|q mem rc m Hq E|q rc Hq|q rc m Hq E|q ph m Hq Hph E| | | | | | |]; cbn [reqs]; try done.
    - assert (q <> p) by congruence. by rewrite lookup_insert_ne.
    - assert (q <> p) by congruence. by rewrite lookup_insert_ne.
    - assert (q <> p) by (intros ->; by destruct (Hw rc)). by rewrite lookup_insert_ne.
    - assert (q <> p) by congruence. by rewrite lookup_delete_ne. }
  split; [done|]. pose proof (xstep_inv tr s ev s' Hi Hev Hs) as Hi'. destruct (proj2 (xi_dom _ _ Hi' p) ltac:(by rewrite Hreq)) as [t' Et']. exists t'. split; [done|].
  destruct (is_create ev) eqn:Ec.
  - destruct Hs; try done. cbn [mgr] in Et'. destruct (create_some p0 handle now (mgr s)) as (m' & E' & Eh & _); [done|].
    match goal with H : sbind _ _ (mgr s) = Some (tt, m) |- _ => rewrite H in E' end. injection E' as <-. assert (p0 <> p) by congruence. rewrite Eh, lookup_insert_ne in Et' by done. congruence.
  - destruct (xstep_same_id tr s ev s' Hi Ec Hs) as [_ Hsame]. destruct (Hsame p t' Et') as (t0 & Et0 & _ & ->). congruence.
Qed.

(** What becomes of a transaction that was in the pool when the closing began and that no
    other thread takes or expires. *)
Definition closing (handle : Z) (tr : list xev) (l : list (bool * xev)) (c : closer) (s : xsys) (p : positive) : Prop :=
  (reqs s !! p = Some RqWaiting /\ (exists t, heap (mgr s) !! p = Some t /\ ipfHandle t = handle) /\ (forall rc, XWait p rc ∉ events l) /\
     (fate_of (tr ++ events l) p = Some InPool \/ fate_of (tr ++ events l) p = Some Taken /\ c = ClTaken p)) \/
  (fate_of (tr ++ events l) p = Some Closed /\ p ∉ pooled (mgr s) /\ forall rc, XWait p rc ∈ events l -> rc = ESIF_E_SESSION_DISCONNECTED).

Lemma pooled_closed tr s p : xinv tr s -> fate_of tr p = Some Closed -> p ∉ pooled (mgr s).
Proof. intros Hi Hf Hp. destruct (pooled_waits tr s p Hi Hp) as (? & _ & _ & ? & _). congruence. Qed.

Lemma closing_step handle tr l c s ev s' b c' p : let tr1 := tr ++ events l in
  xinv tr1 s -> is_send_failed ev = false -> xstep s ev s' -> closing handle tr l c s p ->
  (b = false /\ touches p ev = false /\ c' = c) \/ (b = true /\ close_step handle c ev c') ->
  closing handle tr (l ++ [(b, ev)]) c' s' p.
Proof.
  intros tr1 Hi Hev Hs Hcl Hcase. pose proof (xstep_inv _ _ _ _ Hi Hev Hs) as Hi'.
  assert (Ef : fate_of (tr ++ events (l ++ [(b, ev)])) p = next_fate p (fate_of tr1 p) ev) by (unfold tr1; by rewrite events_snoc, app_assoc, fate_snoc).
  assert (Hin : forall rc, XWait p rc ∈ events (l ++ [(b, ev)]) -> XWait p rc ∈ events l \/ ev = XWait p rc).
  { intros rc. rewrite events_snoc, elem_of_app, list_elem_of_singleton. intros [?|<-]; auto. }
  unfold closing. rewrite Ef. destruct Hcl as [(Hp & (t & Et & Eh) & Hno & Hf)|(Hf & Hnp & Hrc)].
  - assert (Hnw : forall rc, ev <> XWait p rc).
    { intros rc ->. inversion Hs; subst. destruct (wait_fate tr1 s p Hi Hp) as (t0 & _ & Hw). destruct Hf as [Hf|[Hf _]]; unfold tr1 in *; rewrite Hf in Hw; congruence. }
    destruct (waiting_kept tr1 s ev s' p t Hi Hev Hs Hp Et Hnw) as (Hp' & t' & Et' & Eh').
    assert (Hkeep : (exists t, heap (mgr s') !! p = Some t /\ ipfHandle t = handle) /\ forall rc, XWait p rc ∉ events (l ++ [(b, ev)])).
    { split; [exists t'; split; [done|congruence]|]. intros rc Hrc. destruct (Hin rc Hrc) as [H|H]; [by apply (Hno rc)|by apply (Hnw rc)]. }
    destruct Hcase as [(-> & Ht & ->)|(-> & Hcs)]; [left; rewrite (touches_fate p _ _ Ht); tauto|].
    destruct Hcs as [q|q|]; cbn [next_fate].
    + left. destruct (decide (Some q = Some p)) as [[= ->]|Hne]; [destruct Hkeep; by split_and!; [..|right]|].
      destruct Hkeep. split_and!; try done. destruct Hf as [Hf|[Hf Hc]]; [by left|done].
    + destruct (decide (q = p)) as [->|Hne].
      * right. split; [done|]. split; [eapply (pooled_closed (tr1 ++ [XDisconnect p])); [done|]; rewrite fate_snoc; cbn; by rewrite decide_True|]. intros rc Hrc. by destruct Hkeep as [_ H]; destruct (H rc).
      * left. destruct Hkeep. split_and!; try done. destruct Hf as [Hf|[_ [= ->]]]; [by left|done].
    + left. destruct Hkeep. rewrite decide_False by done. split_and!; try done. destruct Hf as [Hf|[_ Hc]]; [by left|done].
  - right. assert (Ef' : next_fate p (fate_of tr1 p) ev = Some Closed).
    { destruct Hcase as [(-> & Ht & ->)|(-> & Hcs)]; [by rewrite (touches_fate p _ _ Ht)|]. destruct Hcs as [q|q|]; cbn [next_fate]; unfold tr1; rewrite Hf.
      - rewrite decide_False; [done|]. intros [= ->]. inversion Hs as [| | | | |? ? ? m1 E1| | | | | |]; subst.
        destruct (get_spec handle IPFTRX_MATCHANY (mgr s)) as (r' & m' & E' & _ & _ & _ & Hr); [intros x Hx; apply (xi_ptrs _ _ Hi); by left|].
        rewrite E1 in E'. injection E' as <- <-. destruct Hr as (l1 & l2 & _ & El & _). apply Hnp. rewrite El. set_solver.
      - by destruct (decide (q = p)).
      - by rewrite decide_False. }
    split; [done|]. split; [eapply (pooled_closed (tr1 ++ [ev])); [done|]; by rewrite fate_snoc|]. intros rc Hw. destruct (Hin rc Hw) as [H| ->]; [by apply Hrc|].
    inversion Hs as [| | |q rc' m Hq E| | | | | | | |]; subst. destruct (wait_fate tr1 s p Hi Hq) as (t0 & _ & Hw0). unfold tr1 in Hw0. rewrite Hf in Hw0. destruct Hw0 as [m' Hw0]. congruence.
Qed.
Lemma closing_run handle tr s0 l c s p t : xrun tr s0 -> close_run handle s0 l c s -> sends_succeed (tr ++ events l) ->
  p ∈ pooled (mgr s0) -> heap (mgr s0) !! p = Some t -> ipfHandle t = handle -> (forall ev, (false, ev) ∈ l -> touches p ev = false) -> closing handle tr l c s p.
Proof.
  intros Hr Hc Hsend Hp Et Eh. revert Hsend. induction Hc as [|l c s ev s' Hc IH Hs _|l c s ev s' c' Hc IH Hs Hcl]; intros Hsend Hno.
  - cbn in Hsend. rewrite app_nil_r in Hsend. destruct (pooled_waits tr s0 p (xrun_inv _ _ Hr Hsend) Hp) as (t0 & _ & Hw & Hf & _). left. cbn. rewrite app_nil_r. split_and!; [done|by exists t|by intros ? ?%elem_of_nil|by left].
  - rewrite events_snoc, app_assoc in Hsend. apply Forall_app in Hsend as [Hsend [Hev _]%Forall_cons].
    apply (closing_step handle tr l c s ev s' false c p); [by apply xrun_inv; [eapply close_xrun|]|done|done|apply IH; [done|]; intros e He; apply Hno, elem_of_app; by left|].
    left. split_and!; try done. apply Hno, elem_of_app. right. left.
  - rewrite events_snoc, app_assoc in Hsend. apply Forall_app in Hsend as [Hsend [Hev _]%Forall_cons].
    apply (closing_step handle tr l c s ev s' true c' p); [by apply xrun_inv; [eapply close_xrun|]|done|done|apply IH; [done|]; intros e He; apply Hno, elem_of_app; by left|]. by right.
Qed.

(** The closing thread has what it has taken. *)
Lemma closer_holds handle tr s0 l c s p : xrun tr s0 -> close_run handle s0 l c s -> sends_succeed (tr ++ events l) -> c = ClTaken p -> p ∈ held s.
Proof.
  intros Hr Hc. revert p. induction Hc as [|l c s ev s' Hc IH Hs Hno|l c s ev s' c' Hc IH Hs Hcl]; intros p Hsend Ec; [done|..].
  - rewrite events_snoc, app_assoc in Hsend. apply Forall_app in Hsend as [Hsend _]. specialize (IH p Hsend Ec). specialize (Hno p Ec). destruct Hs; cbn [held] in *; try done.
    + apply elem_of_app. by left.
    + cbn in Hno. apply bool_decide_eq_false in Hno. apply unheld_elem. split; [done|congruence].
    + cbn in Hno. apply bool_decide_eq_false in Hno. apply unheld_elem. split; [done|congruence].
    + cbn in Hno. apply bool_decide_eq_false in Hno. apply unheld_elem. split; [done|congruence].
  - destruct Hcl as [q|q|]; try done. injection Ec as ->. inversion Hs; subst. cbn [held]. apply elem_of_app. right. left.
Qed.

(** C22: Closing a session ends its calls, with callers, answers, expiries and other
    closings in between and as long as the callers' requests can be sent.  The loop of
    [IpfClient_Close] takes a transaction of the session and wakes its caller, again and
    again until it finds none.  It has at most as many turns as transactions were in the
    pool or are put there meanwhile, and each of its steps can be made; when it ends no
    transaction of the session is in the pool; and every caller whose transaction was in
    the pool for the session when it began, and is not taken or expired by another thread,
    gets the session-disconnected error from its wait.  A call that is put in the pool
    after that, before the session is marked as not connected, is not ended. *)
Theorem trx_close_session (tr : list xev) (s0 : xsys) (handle : Z) (l : list (bool * xev)) (c : closer) (s : xsys)
    (Hrun : xrun tr s0) (Hclose : close_run handle s0 l c s) (Hsend : sends_succeed (tr ++ events l)) :
  (turns l <= length (pooled (mgr s0)) + additions (events l))%nat /\
  (c <> ClDone -> exists ev c' s', xstep s ev s' /\ close_step handle c ev c') /\
  forall s', c = ClNext -> xstep s (XTake handle IPFTRX_MATCHANY None) s' ->
    (forall p t, p ∈ pooled (mgr s') -> heap (mgr s') !! p = Some t -> ipfHandle t <> handle) /\
    forall p t, p ∈ pooled (mgr s0) -> heap (mgr s0) !! p = Some t -> ipfHandle t = handle -> (forall ev, (false, ev) ∈ l -> touches p ev = false) ->
      (forall rc, XWait p rc ∈ events l -> rc = ESIF_E_SESSION_DISCONNECTED) /\
      (reqs s' !! p = Some RqWaiting -> exists m, IrpcTransaction_Wait (Some p) (mgr s') = Some (Some ESIF_E_SESSION_DISCONNECTED, m)).
Proof.
  pose proof (xrun_inv _ _ (close_xrun handle tr s0 l c s Hrun Hclose) Hsend) as Hi.
  destruct (get_spec handle IPFTRX_MATCHANY (mgr s)) as (r & m & E & _ & _ & _ & Hr); [intros x Hx; apply (xi_ptrs _ _ Hi); by left|].
  split; [pose proof (turns_bound handle tr s0 l c s Hrun Hclose Hsend); lia|]. split.
  - intros Hc. destruct c as [|p|]; [|pose proof (closer_holds handle tr s0 l _ s p Hrun Hclose Hsend eq_refl) as Hh|done].
    + destruct r as [p|]; (eexists _, _, _; split; [by eapply (xs_take s handle IPFTRX_MATCHANY)|]); [apply cl_take|apply cl_done].
    + destruct (held_waits _ s p Hi Hh) as (t & Et & _). eexists _, _, _. split; [apply (xs_disconnect s p _ Hh (wake_some p _ (mgr s) t Et))|apply cl_post].
  - intros s' -> Hs. pose proof (xstep_inv _ s (XTake handle IPFTRX_MATCHANY None) s' Hi eq_refl Hs) as Hi'. inversion Hs as [| | | | |? ? ? m' E'| | | | | |]; subst. rewrite E in E'. injection E' as -> ->. destruct Hr as (Ep & Eh & Hnone). cbn [mgr reqs].
    assert (Hgone : forall p t, p ∈ pooled m' -> heap m' !! p = Some t -> ipfHandle t <> handle).
    { intros p t Hp Et Eh'. rewrite Ep in Hp. rewrite Eh in Et. specialize (Hnone p t Hp Et). unfold trx_matches in Hnone. by rewrite Eh', !Z.eqb_refl, orb_true_r in Hnone. }
    split; [exact Hgone|]. intros p t Hp Et Eht Hno. pose proof (closing_run handle tr s0 l _ s p t Hrun Hclose Hsend Hp Et Eht Hno) as Hcl.
    destruct Hcl as [(Hw & (t' & Et' & Eh') & _ & [Hf|[_ ?]])|(Hf & _ & Hrc)]; [|done|].
    + exfalso. destruct (xi_req _ _ Hi p t' _ Et' Hw) as (f & Ef & Hok). rewrite Hf in Ef. injection Ef as <-. destruct Hok as (Hin & _). apply (Hgone p t'); [by rewrite Ep|by rewrite Eh|done].
    + split; [exact Hrc|]. intros Hw. destruct (wait_fate _ _ p Hi' Hw) as (t' & _ & Hwait). rewrite fate_snoc in Hwait. cbn [next_fate] in Hwait. rewrite decide_False in Hwait by done. by rewrite Hf in Hwait.
Qed.

(* ------------------------------------------------------------------ *)
(** ** Two ways of losing a transaction *)

Inductive xsteps (s0 : xsys) : list xev -> xsys -> Prop :=
  | xsteps_refl : xsteps s0 [] s0
  | xsteps_snoc tr s ev s' : xsteps s0 tr s -> xstep s ev s' -> xsteps s0 (tr ++ [ev]) s'.

(** A dropped transaction stays where it is. *)
Lemma dropped_step tr s ev s' p : xinv tr s -> is_send_failed ev = false -> xstep s ev s' ->
  reqs s !! p = Some RqWaiting -> fate_of tr p = Some Dropped ->
  reqs s' !! p = Some RqWaiting /\ fate_of (tr ++ [ev]) p = Some Dropped.
Proof.
  intros Hi Hev Hs Hp Hf. rewrite fate_snoc, Hf.
  destruct (proj2 (xi_dom _ _ Hi p) ltac:(by rewrite Hp)) as [t Et].
  assert (Hpool : p ∉ pooled (mgr s)) by (intros H; destruct (pooled_waits tr s p Hi H) as (? & _ & _ & ? & _); congruence).
  assert (Hheld : p ∉ held s) by (intros H; destruct (held_waits tr s p Hi H) as (? & _ & _ & ? & _); congruence).
  destruct Hs as [q handle now m Hfr E|q mem rc m Hq E|q rc Hq|q rc m Hq E|q ph m Hq Hph E
    |handle id r m E|q blob m Hq E|q m Hq E|q Hq|res now seconds m E|now m E|timeout m E]; cbn [reqs next_fate]; try done.
  - assert (q <> p) by congruence. by rewrite lookup_insert_ne, decide_False by done.
  - assert (q <> p) by congruence. by rewrite lookup_insert_ne, decide_False by done.
  - destruct (inv_wait tr s q rc m Hi Hq E) as [_ Hw]. assert (q <> p) by (intros ->; by rewrite Hf in Hw).
    by rewrite lookup_insert_ne by done.
  - assert (q <> p) by congruence. by rewrite lookup_delete_ne by done.
  - split; [done|]. rewrite decide_False; [done|]. intros ->.
    destruct (get_spec handle id (mgr s)) as (r' & m' & E' & _ & _ & _ & Hr); [intros x Hx; apply (xi_ptrs _ _ Hi); by left|].
    rewrite E in E'. injection E' as <- <-. destruct Hr as (l1 & l2 & _ & El & _). apply Hpool. rewrite El. set_solver.
  - rewrite decide_False by congruence. done.
  - rewrite decide_False by congruence. done.
  - by destruct (decide (q = p)).
  - rewrite decide_False; [done|]. rewrite list_elem_of_filter. tauto.
Qed.

(** A caller whose transaction is dropped waits for ever.  When the thread
    that received the response has taken the transaction and then cannot copy
    the response, it neither posts the semaphore nor puts the transaction back;
    whatever happens afterwards (expiry and closing of the session included)
    the caller's wait does not return. *)
Theorem trx_dropped_waits_forever (tr tr2 : list xev) (s s2 : xsys) (Hrun : xrun tr s) (Hsend : sends_succeed tr)
    (p : positive) (Hwait : reqs s !! p = Some RqWaiting) (Hfate : fate_of tr p = Some Dropped)
    (Hsteps : xsteps s tr2 s2) (Hsend2 : sends_succeed tr2) :
  IrpcTransaction_Wait (Some p) (mgr s2) = Some (None, mgr s2).
Proof.
  assert (H : xrun (tr ++ tr2) s2 /\ reqs s2 !! p = Some RqWaiting /\ fate_of (tr ++ tr2) p = Some Dropped).
  { induction Hsteps as [|tr2 s1 ev s2 Hst IH Hs]; [by rewrite app_nil_r|].
    apply Forall_app in Hsend2 as [Hok [Hev _]%Forall_cons]. destruct (IH Hok) as (Hr & Hp & Hf). rewrite app_assoc.
    split; [by eapply xrun_snoc|]. eapply dropped_step; [|done..]. apply xrun_inv; [done|]. by apply Forall_app. }
  destruct H as (Hr & Hp & Hf). destruct (wait_fate (tr ++ tr2) s2 p) as (t & _ & Hw);
    [apply xrun_inv; [done|by apply Forall_app]|done|]. by rewrite Hf in Hw.
Qed.

Module TrxDemo.
Definition run {X} (m : SM tst X) (s : tst) : tst := match m s with Some (_, s') => s' | None => s end.
Definition m0 : tst := run (IpfTrxMgr_Init true) zero_mgr.
Definition m1 : tst := run (IrpcTransaction_Create (Some 1%positive) true 0 IrpcMsg_ProcRequest ;! update 1%positive (with_handle 7))%dptf m0.
Definition m2 : tst := run (IpfTrxMgr_AddTransaction true (Some 1%positive)) m1.
Definition s2 : xsys := mk_xsys m2 {[1%positive := RqWaiting]} [].
Definition tr2 : list xev := [XCreate 1 7; XAdd 1 0].

(** A transaction is created and put in the pool. *)
Lemma run_trx : xrun tr2 s2.
Proof.
  assert (H1 : xrun [XCreate 1 7] (mk_xsys m1 (<[1%positive := RqNew]> ∅) [])).
  { apply (xrun_snoc [] (mk_xsys m0 ∅ [])); [by constructor|].
    apply (xs_create (mk_xsys m0 ∅ []) 1 7 0 m1); by vm_compute. }
  assert (E : s2 = mk_xsys m2 (<[1%positive := RqWaiting]> (<[1%positive := RqNew]> ∅)) []).
  { unfold s2. by rewrite insert_insert_eq. }
  rewrite E. apply (xrun_snoc [XCreate 1 7] _ (XAdd 1 0) _ H1).
  assert (Ha : IpfTrxMgr_AddTransaction true (Some 1%positive) m1 = Some (0, m2)) by by vm_compute.
  pose proof (xs_add (mk_xsys m1 (<[1%positive := RqNew]> ∅) []) 1 true 0 m2 eq_refl Ha) as Hs.
  change (0 =? ESIF_OK) with true in Hs. exact Hs.
Qed.
Lemma sends2 : sends_succeed tr2.
Proof. by repeat constructor. Qed.

(** It is taken by the receiving thread, which then drops it. *)
Definition m3 : tst := run (IpfTrxMgr_GetTransaction 7 IPFTRX_MATCHANY) m2.
Definition tr4 : list xev := tr2 ++ [XTake 7 IPFTRX_MATCHANY (Some 1%positive)] ++ [XDrop 1].
Definition s4 : xsys := mk_xsys m3 {[1%positive := RqWaiting]} [].
(** The session is closed: its loop takes the transaction and wakes the caller. *)
Definition m5 : tst := run (disconnect 1) m3.
Definition s5 : xsys := mk_xsys m5 {[1%positive := RqWaiting]} [].
Lemma run_close : close_run 7 s2 [(true, XTake 7 IPFTRX_MATCHANY (Some 1%positive)); (true, XDisconnect 1)] ClNext s5.
Proof.
  assert (Eu : unheld 1 [1%positive] = []) by by vm_compute.
  assert (Hin : 1%positive ∈ held (mk_xsys m3 {[1%positive := RqWaiting]} [1%positive])) by left.
  assert (Ed : disconnect 1 m3 = Some (tt, m5)) by by vm_compute.
  pose proof (xs_disconnect (mk_xsys m3 {[1%positive := RqWaiting]} [1%positive]) 1 m5 Hin Ed) as Hd. cbn [reqs held] in Hd. rewrite Eu in Hd.
  eapply (cr_own 7 s2 [(true, XTake 7 IPFTRX_MATCHANY (Some 1%positive))] (ClTaken 1)); [|exact Hd|apply cl_post].
  apply (cr_own 7 s2 [] ClNext s2); [constructor|apply (xs_take s2 7 IPFTRX_MATCHANY (Some 1%positive) m3); by vm_compute|apply cl_take].
Qed.
Lemma run_dropped : xrun tr4 s4.
Proof.
  unfold tr4. rewrite app_assoc.
  apply (xrun_snoc _ (mk_xsys m3 {[1%positive := RqWaiting]} [1%positive]) (XDrop 1)).
  - apply (xrun_snoc tr2 s2 (XTake 7 IPFTRX_MATCHANY (Some 1%positive)) _ run_trx).
    apply (xs_take s2 7 IPFTRX_MATCHANY (Some 1%positive) m3). by vm_compute.
  - assert (Hin : 1%positive ∈ [1%positive]) by left.
    pose proof (xs_drop (mk_xsys m3 {[1%positive := RqWaiting]} [1%positive]) 1 Hin) as Hs.
    cbn [mgr reqs held] in Hs. assert (E : unheld 1 [1%positive] = []) by by vm_compute. rewrite E in Hs. exact Hs.
Qed.
End TrxDemo.

(** A request that could not be sent leaves a dangling transaction.  The
    caller gives up and releases its reference while the transaction is still in
    the pool; taking it then (to close the session, or for a late response)
    releases the last reference, so that the pointer the manager returns is
    freed memory, and both answering and disconnecting it have no outcome. *)
Theorem trx_send_failed_dangles :
  exists tr s, xrun tr s /\ 1%positive ∈ held s /\ heap (mgr s) !! 1%positive = None /\
    disconnect 1 (mgr s) = None /\ forall blob, respond 1 blob (mgr s) = None.
Proof.
  set (ma := TrxDemo.run (IrpcTransaction_PutRef (Some 1%positive)) TrxDemo.m2).
  set (mb := TrxDemo.run (IpfTrxMgr_GetTransaction 7 IPFTRX_MATCHANY) ma).
  set (r1 := <[1%positive := RqDone 1003]> (reqs TrxDemo.s2)).
  exists (((TrxDemo.tr2 ++ [XSendFailed 1 1003]) ++ [XRelease 1]) ++ [XTake 7 IPFTRX_MATCHANY (Some 1%positive)]),
    (mk_xsys mb (delete 1%positive r1) [1%positive]).
  split; [|split; [by left|split; [by vm_compute|split; [by vm_compute|]]]].
  - eapply xrun_snoc; [eapply xrun_snoc; [eapply xrun_snoc; [exact TrxDemo.run_trx|]|]|].
    + apply (xs_send_failed TrxDemo.s2 1 1003). by vm_compute.
    + apply (xs_release (mk_xsys TrxDemo.m2 r1 []) 1 (RqDone 1003) ma); by vm_compute.
    + assert (Hg : IpfTrxMgr_GetTransaction 7 IPFTRX_MATCHANY ma = Some (Some 1%positive, mb)) by by vm_compute.
      pose proof (xs_take (mk_xsys ma (delete 1%positive r1) []) 7 IPFTRX_MATCHANY (Some 1%positive) mb Hg) as Hs. exact Hs.
  - intros blob. assert (E : heap mb !! 1%positive = None) by by vm_compute. unfold respond, update, sbind. cbn [mgr].
    by rewrite E.
Qed.

Lemma trx_no_dangling_witness : exists m, IpfTrxMgr_ExpireTimeout 1 0 0 (mgr TrxDemo.s2) = Some (tt, m).
Proof.
  destruct (trx_no_dangling TrxDemo.tr2 TrxDemo.s2 TrxDemo.run_trx TrxDemo.sends2) as (_ & _ & H & _). exact (H 1 0 0).
Defined.

Lemma trx_one_outcome_witness : IrpcTransaction_Wait (Some 1%positive) (mgr TrxDemo.s2) = Some (None, mgr TrxDemo.s2).
Proof.
  destruct (trx_one_outcome TrxDemo.tr2 TrxDemo.s2 TrxDemo.run_trx TrxDemo.sends2 1%positive eq_refl) as (t & _ & H). exact H.
Defined.

Lemma trx_all_woken_witness : exists m, IpfTrxMgr_ExpireAll 1 0 (mgr TrxDemo.s2) = Some (tt, m) /\
  exists rc m', IrpcTransaction_Wait (Some 1%positive) m = Some (Some rc, m').
Proof.
  destruct (trx_all_woken TrxDemo.tr2 TrxDemo.s2 TrxDemo.run_trx TrxDemo.sends2) with (res := 1) (now := 0) as (m & E & H).
  - by repeat constructor.
  - reflexivity.
  - exists m. split; [exact E|]. by apply H.
Defined.

Lemma trx_response_routed_witness :
  exists m, IpfTrxMgr_GetTransaction 7 (TRXID_MIN + 1) (mgr TrxDemo.s2) = Some (Some 1%positive, m).
Proof.
  assert (Hc : creations TrxDemo.tr2 < TRXID_MAX - TRXID_MIN) by by vm_compute.
  assert (Ht : heap (mgr TrxDemo.s2) !! 1%positive = Some (mk_trx 7 2 (TRXID_MIN + 1) 0 0 (Some []) None 0)) by by vm_compute.
  assert (Hp : 1%positive ∈ pooled (mgr TrxDemo.s2)) by (apply elem_of_pooled; vm_compute; left).
  exact (trx_response_routed TrxDemo.tr2 TrxDemo.s2 TrxDemo.run_trx TrxDemo.sends2 Hc 1%positive _ Hp Ht 7 (or_introl eq_refl)).
Defined.

Lemma trx_close_session_witness : exists s',
  close_run 7 TrxDemo.s2 [(true, XTake 7 IPFTRX_MATCHANY (Some 1%positive)); (true, XDisconnect 1)] ClNext TrxDemo.s5 /\
  xstep TrxDemo.s5 (XTake 7 IPFTRX_MATCHANY None) s' /\ pooled (mgr s') = [] /\
  exists m', IrpcTransaction_Wait (Some 1%positive) (mgr s') = Some (Some ESIF_E_SESSION_DISCONNECTED, m').
Proof.
  assert (Hlast : xstep TrxDemo.s5 (XTake 7 IPFTRX_MATCHANY None) (mk_xsys TrxDemo.m5 {[1%positive := RqWaiting]} [])) by (apply (xs_take TrxDemo.s5 7 IPFTRX_MATCHANY None TrxDemo.m5); by vm_compute).
  eexists. split; [apply TrxDemo.run_close|]. split; [exact Hlast|]. split; [by vm_compute|].
  destruct (trx_close_session TrxDemo.tr2 TrxDemo.s2 7 _ ClNext TrxDemo.s5 TrxDemo.run_trx TrxDemo.run_close) as (_ & _ & H); [by repeat constructor|].
  destruct (H _ eq_refl Hlast) as [_ H1].
  apply (H1 1%positive (mk_trx 7 2 (TRXID_MIN + 1) 0 0 (Some []) None 0)).
  - apply elem_of_pooled. vm_compute. left.
  - by vm_compute.
  - reflexivity.
  - intros ev Hev. repeat (apply elem_of_cons in Hev as [Hev|Hev]; [done|]). by apply elem_of_nil in Hev.
  - reflexivity.
Defined.

Lemma trx_dropped_waits_forever_witness :
  IrpcTransaction_Wait (Some 1%positive) (mgr TrxDemo.s4) = Some (None, mgr TrxDemo.s4).
Proof.
  apply (trx_dropped_waits_forever TrxDemo.tr4 [] TrxDemo.s4 TrxDemo.s4 TrxDemo.run_dropped).
  - by repeat constructor.
  - by vm_compute.
  - by vm_compute.
  - constructor.
  - constructor.
Defined.
