(* ===== verification/DataCache.v ===== *)
(** * The data cache: ESIF/Products/ESIF_LIB/Sources/esif_lib_datacache.c

    A cache is an array of entries kept in alphabetical order of their keys,
    upper and lower case being the same.  It is searched by bisection.  A value
    is "cache data": with a zero [buf_len] its pointer is an offset into a file
    and not a buffer.

    An operation has no outcome ([None]) where the code would dereference NULL
    or leave a buffer or the array.  The outcomes of the allocations are inputs. *)

From S2P Require Import Prelude CString.
From stdpp Require Import list gmap sorting.
Local Open Scope Z_scope.

Definition EOF : Z := -1.
Definition ESIF_SERVICE_CONFIG_NOCACHE : Z := 8.

(** A C string: NULL or its bytes before the terminating zero. *)
Abbreviation cstr := (option (list Z)).

(** [buf_ptr] of cache data. *)
Inductive cptr : Type :=
  | CNull
  | COffset (offset : Z)
  | CBlock (block : list Z).

Record CacheData : Type := mk_cdata { c_type : Z; c_ptr : cptr; c_buf_len : Z; c_data_len : Z }.
Record DataCacheEntry : Type := mk_entry { flags : Z; e_key : cstr; value : CacheData }.
Abbreviation cache := (list DataCacheEntry).

Definition null_data : CacheData := mk_cdata 0 CNull 0 0.

(* ------------------------------------------------------------------ *)
(** ** Comparing keys: [strcasecmp] *)

Fixpoint esif_ccb_stricmp (s1 s2 : list Z) : Z :=
  match s1, s2 with
  | [], [] => 0
  | [], y :: _ => 0 - tolower y
  | x :: _, [] => tolower x
  | x :: s1, y :: s2 => if tolower x =? tolower y then esif_ccb_stricmp s1 s2 else tolower x - tolower y
  end.

Definition stricmp_ptr (s1 s2 : cstr) : option Z :=
  match s1, s2 with Some a, Some b => Some (esif_ccb_stricmp a b) | _, _ => None end.

(* ------------------------------------------------------------------ *)
(** ** Bisection *)

(** The loop of both searches: whether it stopped at an equal key, and [node]
    when it stopped.  [fuel] bounds the number of turns. *)
Fixpoint bisect_loop (fuel : nat) (l : cache) (key : cstr) (start stop node : Z) : option (bool * Z) :=
  match fuel with
  | O => None
  | S n =>
      if start <=? stop then
        if node <? 0 then None else
        match l !! Z.to_nat node with
        | None => None
        | Some e =>
            match stricmp_ptr key (e_key e) with
            | None => None
            | Some comp =>
                if comp =? 0 then Some (true, node)
                else if 0 <? comp then bisect_loop n l key (node + 1) stop (Z.quot (stop - (node + 1)) 2 + (node + 1))
                else bisect_loop n l key start (node - 1) (Z.quot (node - 1 - start) 2 + start)
            end
        end
      else Some (false, node)
  end.

Definition bisect (l : cache) (key : cstr) : option (bool * Z) :=
  let items := Z.of_nat (length l) in
  bisect_loop (S (length l)) l key 0 (items - 1) (Z.quot items 2).

Definition DataCache_Search (l : cache) (key : cstr) : option Z :=
  match bisect l key with
  | Some (true, node) => Some node
  | Some (false, _) => Some EOF
  | None => None
  end.

Definition DataCache_FindInsertionPoint (l : cache) (key : cstr) : option Z := snd <$> bisect l key.

(* ------------------------------------------------------------------ *)
(** ** The operations *)

(** The outcomes of the allocations of an insertion: the clone, its buffer, the
    array, the copy of the key. *)
Record dc_mem : Type := mk_dc_mem { m_clone : bool; m_buf : bool; m_array : bool; m_key : bool }.
Definition all_dc_mem : dc_mem := mk_dc_mem true true true true.

(** The result is NULL ([Some None]) when memory is exhausted. *)
Definition CloneCacheData (mem : dc_mem) (d : CacheData) : option (option CacheData) :=
  if m_clone mem then
    match c_ptr d with
    | CNull => Some (Some d)
    | _ =>
        if c_buf_len d =? 0 then Some (Some d)
        else if m_buf mem then
          match c_ptr d with
          | CBlock b =>
              if c_data_len d <=? Z.of_nat (length b) then
                Some (Some (mk_cdata (c_type d)
                  (CBlock (take (Z.to_nat (c_data_len d)) b ++
                           replicate (Z.to_nat (Z.max (c_buf_len d) (c_data_len d) - c_data_len d)) 0))
                  (c_buf_len d) (c_data_len d)))
              else None
          | _ => None
          end
        else Some None
    end
  else Some None.

Definition DataCache_Create (mem : bool) : option cache := if mem then Some [] else None.

Definition DataCache_GetCount (self : option cache) : Z :=
  match self with Some l => Z.of_nat (length l) | None => 0 end.

(** The index of the entry found. *)
Definition DataCache_GetValue (self : option cache) (key : cstr) : option (option nat) :=
  match self with
  | None => Some None
  | Some l =>
      match DataCache_Search l key with
      | Some index => Some (if index =? EOF then None else Some (Z.to_nat index))
      | None => None
      end
  end.

Definition insert_at (node : nat) (e : DataCacheEntry) (l : cache) : cache := take node l ++ e :: drop node l.

Definition DataCache_InsertValue (mem : dc_mem) (self : option cache) (key : cstr) (valuePtr : option CacheData) (fl : Z) :
    option (Z * option cache) :=
  match self, valuePtr with
  | Some l, Some v =>
      match CloneCacheData mem v with
      | None => None
      | Some None => Some (ESIF_E_NO_MEMORY, self)
      | Some (Some clone) =>
          match DataCache_FindInsertionPoint l key with
          | None => None
          | Some node =>
              if m_array mem then
                let k := if m_key mem then key else None in
                Some (ESIF_OK, Some (insert_at (Z.to_nat node) (mk_entry fl k clone) l))
              else Some (ESIF_E_NO_MEMORY, self)
          end
      end
  | _, _ => Some (ESIF_E_PARAMETER_IS_NULL, self)
  end.

Definition old_flags (l : cache) (node : nat) : Z := match l !! node with Some e => flags e | None => 0 end.

(** [mem] is the outcome of shrinking the array.  When that fails, the array keeps
    its length: its last entry has been cleared (its flags only if the entries
    were moved). *)
Definition DataCache_DeleteValue (mem : bool) (self : option cache) (key : cstr) : option (Z * option cache) :=
  match self with
  | None => Some (ESIF_E_PARAMETER_IS_NULL, self)
  | Some l =>
      match DataCache_Search l key with
      | None => None
      | Some index =>
          if index =? EOF then Some (ESIF_E_NOT_FOUND, self)
          else
            let node := Z.to_nat index in
            let rest := take node l ++ drop (S node) l in
            let last := mk_entry (if Z.of_nat node <? Z.of_nat (length l) - 1 then 0 else old_flags l node) None null_data in
            if (1 <? Z.of_nat (length l)) && negb mem then Some (ESIF_E_NO_MEMORY, Some (rest ++ [last]))
            else Some (ESIF_OK, Some rest)
      end
  end.

(** [EsifData_dtor] frees a buffer that it owns. *)
Definition EsifData_dtor (v : CacheData) : list cptr := if c_buf_len v =? 0 then [] else [c_ptr v].

(** The buffers freed: those of the keys and of the values. *)
Definition DataCache_Destroy (self : option cache) : list cptr :=
  match self with
  | None => []
  | Some l =>
      concat ((fun e => match e_key e with Some k => [CBlock (k ++ [0])] | None => [] end ++ EsifData_dtor (value e)) <$> l)
  end.

Definition is_nocache (e : DataCacheEntry) : bool := negb (Z.land (flags e) ESIF_SERVICE_CONFIG_NOCACHE =? 0).

(** The loop over the entries; [mems] gives each insertion its allocations. *)
Fixpoint clone_loop (mems : nat -> dc_mem) (idx : nat) (l : cache) (clone : cache) : option (Z * cache) :=
  match l with
  | [] => Some (ESIF_OK, clone)
  | e :: l =>
      if is_nocache e then
        match DataCache_InsertValue (mems idx) (Some clone) (e_key e) (Some (value e)) (flags e) with
        | Some (rc, Some clone') => if rc =? ESIF_OK then clone_loop mems (S idx) l clone' else Some (rc, clone')
        | _ => None
        end
      else clone_loop mems (S idx) l clone
  end.

Definition DataCache_CloneOffsets (mem : bool) (mems : nat -> dc_mem) (self : option cache) : option (option cache) :=
  match self with
  | None => Some None
  | Some l =>
      match DataCache_Create mem with
      | None => Some None
      | Some clone =>
          match clone_loop mems 0 l clone with
          | Some (rc, clone) => Some (if rc =? ESIF_OK then Some clone else None)
          | None => None
          end
      end
  end.

Definition with_offset (v : CacheData) (e : DataCacheEntry) : DataCacheEntry :=
  mk_entry (flags e) (e_key e) (mk_cdata (c_type (value e)) (c_ptr v) (c_buf_len v) (c_data_len v)).

(** The cache after the restoring; the entries of the clone that were used are
    wiped there, and the clone is only destroyed afterwards. *)
Fixpoint restore_loop (clone : cache) (l : cache) : option cache :=
  match clone with
  | [] => Some l
  | c :: clone =>
      match DataCache_Search l (e_key c) with
      | None => None
      | Some found =>
          if found =? EOF then restore_loop clone l
          else
            match l !! Z.to_nat found with
            | None => None
            | Some e =>
                if is_nocache e then restore_loop clone (<[Z.to_nat found := with_offset (value c) e]> l)
                else restore_loop clone l
            end
      end
  end.

Definition DataCache_RestoreOffsets (self clone : option cache) : option (Z * option cache) :=
  match self, clone with
  | Some l, Some c =>
      match restore_loop c l with Some l' => Some (ESIF_OK, Some l') | None => None end
  | _, _ => Some (ESIF_E_PARAMETER_IS_NULL, self)
  end.

(* ------------------------------------------------------------------ *)
(** ** The order of the keys *)

Definition is_cstr (s : list Z) : Prop := Forall (fun b => 0 < b < 256) s.

(** Keys that are the same up to case fold to the same string. *)
Definition fold_key (s : list Z) : list Z := tolower <$> s.

Lemma tolower_pos c : 0 < c -> 0 < tolower c.
Proof. unfold tolower. destruct (_ && _); lia. Qed.

Lemma stricmp_sym s1 : forall s2, esif_ccb_stricmp s2 s1 = - esif_ccb_stricmp s1 s2.
Proof.
  induction s1 as [|x s1 IH]; intros [|y s2]; cbn; try lia.
  rewrite (Z.eqb_sym (tolower y)). destruct (tolower x =? tolower y); [apply IH|lia].
Qed.

Lemma stricmp_zero s1 : forall s2, is_cstr s1 -> is_cstr s2 ->
  esif_ccb_stricmp s1 s2 = 0 <-> fold_key s1 = fold_key s2.
Proof.
  induction s1 as [|x s1 IH]; intros [|y s2] H1 H2; [done|..];
    rewrite ?Forall_cons in *; unfold is_cstr in *; rewrite ?Forall_cons in *.
  - pose proof (tolower_pos y ltac:(lia)). cbn. split; [lia|done].
  - pose proof (tolower_pos x ltac:(lia)). cbn. split; [lia|done].
  - cbn. destruct (Z.eqb_spec (tolower x) (tolower y)) as [E|E].
    + rewrite (IH s2) by tauto. rewrite E. unfold fold_key. split; [by intros ->|congruence].
    + split; [lia|congruence].
Qed.

Lemma stricmp_trans s1 : forall s2 s3, is_cstr s1 -> is_cstr s2 -> is_cstr s3 ->
  esif_ccb_stricmp s1 s2 <= 0 -> esif_ccb_stricmp s2 s3 <= 0 ->
  esif_ccb_stricmp s1 s3 <= 0 /\ (esif_ccb_stricmp s1 s2 < 0 \/ esif_ccb_stricmp s2 s3 < 0 -> esif_ccb_stricmp s1 s3 < 0).
Proof.
  induction s1 as [|x s1 IH]; intros [|y s2] [|z s3] H1 H2 H3; unfold is_cstr in *; rewrite ?Forall_cons in *; cbn; try lia;
    try pose proof (tolower_pos x ltac:(lia)); try pose proof (tolower_pos y ltac:(lia)); try pose proof (tolower_pos z ltac:(lia)); try lia.
  destruct (Z.eqb_spec (tolower x) (tolower y)) as [E1|E1], (Z.eqb_spec (tolower y) (tolower z)) as [E2|E2].
  - rewrite (proj2 (Z.eqb_eq (tolower x) (tolower z))) by congruence. apply IH; tauto.
  - rewrite (proj2 (Z.eqb_neq (tolower x) (tolower z))) by congruence. lia.
  - rewrite (proj2 (Z.eqb_neq (tolower x) (tolower z))) by congruence. lia.
  - intros Ha Hb. rewrite (proj2 (Z.eqb_neq (tolower x) (tolower z))) by lia. lia.
Qed.

(** [e1]'s key comes before [e2]'s, or, if not [strict], is the same. *)
Definition before (strict : bool) (e1 e2 : DataCacheEntry) : Prop :=
  match e_key e1, e_key e2 with
  | Some a, Some b => if strict then esif_ccb_stricmp a b < 0 else esif_ccb_stricmp a b <= 0
  | _, _ => False
  end.

Definition key_ok (e : DataCacheEntry) : Prop := exists a, e_key e = Some a /\ is_cstr a.

(** Sorted, with keys all different if [strict]. *)
Record wf_cache (strict : bool) (l : cache) : Prop := {
  wc_keys : Forall key_ok l;
  wc_sorted : StronglySorted (before strict) l
}.

Lemma wf_cache_nil strict : wf_cache strict [].
Proof. split; constructor. Qed.

Lemma wf_cache_weaken strict l : wf_cache strict l -> wf_cache false l.
Proof.
  destruct strict; [|done]. intros [H1 H2]. split; [done|]. clear H1. induction H2 as [|e l Hs IH Hf]; constructor; [done|].
  eapply Forall_impl; [exact Hf|]. intros e'. unfold before. destruct (e_key e), (e_key e'); try done. lia.
Qed.

Lemma sorted_lookup {A} (R : relation A) l i j x y :
  StronglySorted R l -> l !! i = Some x -> l !! j = Some y -> (i < j)%nat -> R x y.
Proof.
  intros Hs. revert i j. induction Hs as [|z l Hs IH Hf]; intros [|i] [|j] Hi Hj Hlt; cbn in *; try done; try lia.
  - injection Hi as <-. rewrite Forall_forall in Hf. apply Hf. by eapply list_elem_of_lookup_2.
  - by apply (IH i j); [..|lia].
Qed.

Lemma cache_lookup strict l i e : wf_cache strict l -> l !! i = Some e -> exists a, e_key e = Some a /\ is_cstr a.
Proof. intros [H _] E. rewrite Forall_forall in H. apply H. by eapply list_elem_of_lookup_2. Qed.

(* ------------------------------------------------------------------ *)
(** ** Bisection finds the place *)

(** How the entry at index [i] compares with the key [k]. *)
Definition cmp_at (l : cache) (k : list Z) (i : nat) (P : Z -> Prop) : Prop :=
  forall e a, l !! i = Some e -> e_key e = Some a -> P (esif_ccb_stricmp a k).

Lemma half_bounds x : 0 <= x -> 0 <= Z.quot x 2 <= x.
Proof.
  intros Hx. rewrite Z.quot_div_nonneg by lia.
  split; [apply Z.div_pos; lia|]. pose proof (Z.mul_div_le x 2). pose proof (Z.div_pos x 2). lia.
Qed.

Lemma bisect_loop_spec l k : wf_cache false l -> is_cstr k -> forall fuel start stop node,
  0 <= start -> stop < Z.of_nat (length l) -> start <= stop + 1 -> stop - start + 1 < Z.of_nat fuel ->
  (start <= stop -> start <= node <= stop) -> (start = stop + 1 -> node = start) ->
  (forall i, Z.of_nat i < start -> cmp_at l k i (fun c => c < 0)) ->
  (forall i, stop < Z.of_nat i -> cmp_at l k i (fun c => 0 < c)) ->
  exists b n, bisect_loop fuel l (Some k) start stop node = Some (b, n) /\ 0 <= n <= Z.of_nat (length l) /\
    if b then exists e a, l !! Z.to_nat n = Some e /\ e_key e = Some a /\ esif_ccb_stricmp a k = 0
    else (forall i, Z.of_nat i < n -> cmp_at l k i (fun c => c < 0)) /\
         (forall i, n <= Z.of_nat i -> cmp_at l k i (fun c => 0 < c)).
Proof.
  intros Hwf Hk. induction fuel as [|fuel IH]; intros start stop node H0 H1 H2 Hf Hn1 Hn2 Hlo Hhi; [lia|].
  cbn [bisect_loop]. destruct (Z.leb_spec start stop) as [Hle|Hgt]; cycle 1.
  { exists false, node. rewrite Hn2 by lia. split; [done|]. split; [lia|]. split; [exact Hlo|]. intros i Hi. apply Hhi. lia. }
  specialize (Hn1 Hle). rewrite (proj2 (Z.ltb_ge node 0)) by lia.
  destruct (lookup_lt_is_Some_2 l (Z.to_nat node)) as [e Ee]; [lia|]. rewrite Ee.
  destruct (cache_lookup false l _ e Hwf Ee) as (a & Ea & Hca). rewrite Ea. cbn [stricmp_ptr].
  pose proof (stricmp_sym k a) as Hsym.
  destruct (Z.eqb_spec (esif_ccb_stricmp k a) 0) as [Ez|Enz].
  { exists true, node. split; [done|]. split; [lia|]. exists e, a. split; [done|split; [done|lia]]. }
  destruct (Z.ltb_spec 0 (esif_ccb_stricmp k a)).
  - pose proof (half_bounds (stop - (node + 1))) as Hq.
    apply IH; [lia|lia|lia|lia| | | |done].
    + lia.
    + intros Hx. replace (stop - (node + 1)) with (-1) by lia. reflexivity.
    + intros i Hi e' a' Ee' Ea'. destruct (decide (i = Z.to_nat node)) as [->|]; [simplify_eq; lia|].
      pose proof (sorted_lookup _ l i (Z.to_nat node) e' e (wc_sorted _ _ Hwf) Ee' Ee ltac:(lia)) as Hb.
      unfold before in Hb. rewrite Ea, Ea' in Hb. destruct (cache_lookup false l _ e' Hwf Ee') as (a2 & Ea2 & Hca2).
      assert (a2 = a') as -> by congruence. apply (stricmp_trans a' a k Hca2 Hca Hk Hb); lia.
  - pose proof (half_bounds (node - 1 - start)) as Hq.
    apply IH; [lia|lia|lia|lia| | |done|].
    + lia.
    + intros Hx. replace (node - 1 - start) with (-1) by lia. reflexivity.
    + intros i Hi e' a' Ee' Ea'. destruct (decide (i = Z.to_nat node)) as [->|]; [simplify_eq; lia|].
      pose proof (sorted_lookup _ l (Z.to_nat node) i e e' (wc_sorted _ _ Hwf) Ee Ee' ltac:(lia)) as Hb.
      unfold before in Hb. rewrite Ea, Ea' in Hb. destruct (cache_lookup false l _ e' Hwf Ee') as (a2 & Ea2 & Hca2).
      assert (a2 = a') as -> by congruence. pose proof (stricmp_sym a' k). pose proof (stricmp_trans k a a' Hk Hca Hca2 ltac:(lia) Hb). lia.
Qed.

Lemma bisect_spec l k : wf_cache false l -> is_cstr k ->
  exists b n, bisect l (Some k) = Some (b, n) /\ 0 <= n <= Z.of_nat (length l) /\
    if b then exists e a, l !! Z.to_nat n = Some e /\ e_key e = Some a /\ esif_ccb_stricmp a k = 0
    else (forall i, Z.of_nat i < n -> cmp_at l k i (fun c => c < 0)) /\
         (forall i, n <= Z.of_nat i -> cmp_at l k i (fun c => 0 < c)).
Proof.
  intros Hwf Hk. unfold bisect. pose proof (half_bounds (Z.of_nat (length l)) ltac:(lia)).
  assert (0 < Z.of_nat (length l) -> Z.quot (Z.of_nat (length l)) 2 < Z.of_nat (length l)) by (intros; apply Z.quot_lt; lia).
  apply bisect_loop_spec; try done; try lia. intros i Hi e a He. apply lookup_lt_Some in He. lia.
Qed.

(* ------------------------------------------------------------------ *)
(** ** The map a cache stands for *)

Definition pair_of (e : DataCacheEntry) : option (list Z * (Z * CacheData)) :=
  match e_key e with Some a => Some (fold_key a, (flags e, value e)) | None => None end.
Definition cache_map (l : cache) : gmap (list Z) (Z * CacheData) := list_to_map (omap pair_of l).

Lemma wf_cache_app strict l1 l2 :
  wf_cache strict (l1 ++ l2) <->
  (forall e1 e2, e1 ∈ l1 -> e2 ∈ l2 -> before strict e1 e2) /\ wf_cache strict l1 /\ wf_cache strict l2.
Proof.
  split.
  - intros [H1 H2]. apply Forall_app in H1 as [H1a H1b]. apply StronglySorted_app in H2 as (H2a & H2b & H2c). by split_and!.
  - intros (H & [H1 H2] & [H3 H4]). split; [by apply Forall_app|]. apply StronglySorted_app. split_and!; [|done|done].
    intros e1 e2 He1 He2. by apply H.
Qed.

Lemma wf_cache_cons strict e l :
  wf_cache strict (e :: l) <-> key_ok e /\ (forall e2, e2 ∈ l -> before strict e e2) /\ wf_cache strict l.
Proof.
  split.
  - intros [[H1 H1']%Forall_cons H2]. inversion H2 as [|? ? Hs Hf]. subst. split; [done|]. split; [|by split].
    by apply Forall_forall.
  - intros (H & H1 & [H2 H3]). split; [by apply Forall_cons|]. constructor; [done|]. by apply Forall_forall.
Qed.

Lemma before_fold e1 e2 a b : before true e1 e2 -> e_key e1 = Some a -> e_key e2 = Some b ->
  is_cstr a -> is_cstr b -> fold_key a <> fold_key b.
Proof. unfold before. intros H E1 E2. rewrite E1, E2 in H. intros Ha Hb E%(stricmp_zero a b Ha Hb). lia. Qed.

Lemma pairs_nodup l : wf_cache true l -> NoDup (omap pair_of l).*1.
Proof.
  induction l as [|e l IH]; [constructor|]. intros ((a & Ea & Ha) & Hb & Hwf)%wf_cache_cons.
  cbn. unfold pair_of at 1. rewrite Ea. cbn. apply NoDup_cons. split; [|by apply IH].
  intros ([f x] & Ef & Hin)%list_elem_of_fmap. cbn in Ef. apply list_elem_of_omap in Hin as (e2 & He2 & Ep).
  unfold pair_of in Ep. destruct (e_key e2) as [b|] eqn:Eb; [|done]. injection Ep as <- _.
  apply list_elem_of_lookup in He2 as Hi2. destruct Hi2 as [i Hi]. destruct (cache_lookup true l i e2 Hwf Hi) as (b' & Eb' & Hcb).
  assert (b' = b) as -> by congruence. by apply (before_fold e e2 a b (Hb e2 He2)).
Qed.

(** Taking one entry out of the array takes it out of the map. *)
Lemma cache_map_middle l1 e l2 a : wf_cache true (l1 ++ e :: l2) -> e_key e = Some a ->
  wf_cache true (l1 ++ l2) /\ cache_map (l1 ++ l2) !! fold_key a = None /\
  cache_map (l1 ++ e :: l2) = <[fold_key a := (flags e, value e)]> (cache_map (l1 ++ l2)).
Proof.
  intros Hwf Ea. pose proof (pairs_nodup _ Hwf) as Hn.
  assert (Hperm : omap pair_of (l1 ++ e :: l2) ≡ₚ (fold_key a, (flags e, value e)) :: omap pair_of (l1 ++ l2)).
  { rewrite !omap_app. cbn. unfold pair_of at 2. rewrite Ea. cbn. symmetry. apply Permutation_middle. }
  assert (Hn2 : NoDup (((fold_key a, (flags e, value e)) :: omap pair_of (l1 ++ l2)).*1)) by (by rewrite <- Hperm).
  split; [|split].
  - apply wf_cache_app in Hwf as (H1 & H2 & H3). apply wf_cache_cons in H3 as (_ & _ & H3). apply wf_cache_app.
    split_and!; [|done|done]. intros e1 e2 He1 He2. apply H1; [done|by right].
  - cbn in Hn2. apply NoDup_cons in Hn2 as [Hni _]. by apply not_elem_of_list_to_map_1.
  - unfold cache_map. rewrite (list_to_map_proper _ _ Hn Hperm). done.
Qed.

Lemma cache_map_lookup l i e a : wf_cache true l -> l !! i = Some e -> e_key e = Some a ->
  cache_map l !! fold_key a = Some (flags e, value e).
Proof.
  intros Hwf Ei Ea. rewrite <- (take_drop_middle l i e Ei) in Hwf |- *.
  destruct (cache_map_middle _ e _ a Hwf Ea) as (_ & _ & ->). by rewrite lookup_insert_eq.
Qed.

Lemma cache_map_absent l k : wf_cache true l -> is_cstr k ->
  (forall i, cmp_at l k i (fun c => c <> 0)) -> cache_map l !! fold_key k = None.
Proof.
  intros Hwf Hk Hno. apply not_elem_of_list_to_map_1. intros ([f x] & Ef & Hin)%list_elem_of_fmap. cbn in Ef.
  apply list_elem_of_omap in Hin as (e & He & Ep). apply list_elem_of_lookup in He as [i Hi].
  destruct (cache_lookup true l i e Hwf Hi) as (a & Ea & Ha). unfold pair_of in Ep. rewrite Ea in Ep. injection Ep as Ep _.
  apply (Hno i e a Hi Ea). apply (stricmp_zero a k Ha Hk). congruence.
Qed.

(** The search in a cache whose keys are all different. *)
Lemma cache_search_spec l k : wf_cache true l -> is_cstr k ->
  exists n, DataCache_Search l (Some k) = Some n /\
  ((n = EOF /\ cache_map l !! fold_key k = None) \/
   (0 <= n /\ exists e a, l !! Z.to_nat n = Some e /\ e_key e = Some a /\ is_cstr a /\ fold_key a = fold_key k)).
Proof.
  intros Hwf Hk. destruct (bisect_spec l k (wf_cache_weaken _ _ Hwf) Hk) as (b & n & E & Hn & Hb).
  unfold DataCache_Search. rewrite E. destruct b.
  - exists n. split; [done|right]. split; [lia|]. destruct Hb as (e & a & Ee & Ea & Hz). exists e, a.
    destruct (cache_lookup true l _ e Hwf Ee) as (a' & Ea' & Ha). assert (a' = a) as -> by congruence.
    split_and!; try done. by apply stricmp_zero.
  - exists EOF. split; [done|left]. split; [done|]. apply cache_map_absent; [done|done|]. intros i e a Ee Ea.
    destruct Hb as [H1 H2]. destruct (Z.lt_ge_cases (Z.of_nat i) n) as [Hlt|Hge].
    + specialize (H1 i Hlt e a Ee Ea). cbv beta in H1. lia.
    + specialize (H2 i Hge e a Ee Ea). cbv beta in H2. lia.
Qed.

(** The search in a sorted cache that has the key. *)
Lemma search_present l k : wf_cache false l -> is_cstr k -> (exists e, e ∈ l /\ e_key e = Some k) ->
  exists i e a, DataCache_GetValue (Some l) (Some k) = Some (Some i) /\ l !! i = Some e /\ e_key e = Some a /\ fold_key a = fold_key k.
Proof.
  intros Hwf Hk (ek & Hin & Eek). destruct (bisect_spec l k Hwf Hk) as (b & n & E & Hn & Hb).
  unfold DataCache_GetValue, DataCache_Search. rewrite E. destruct b.
  - destruct Hb as (e & a & Ee & Ea & Hz). exists (Z.to_nat n), e, a. rewrite (proj2 (Z.eqb_neq n EOF)) by (unfold EOF; lia).
    destruct (cache_lookup false l _ e Hwf Ee) as (a' & Ea' & Ha). assert (a' = a) as -> by congruence.
    split_and!; try done. by apply stricmp_zero.
  - exfalso. apply list_elem_of_lookup in Hin as [i Ei]. destruct Hb as [H1 H2].
    pose proof (proj2 (stricmp_zero k k Hk Hk) eq_refl) as Hz. destruct (Z.lt_ge_cases (Z.of_nat i) n) as [Hlt|Hge].
    + specialize (H1 i Hlt ek k Ei Eek). cbv beta in H1. lia.
    + specialize (H2 i Hge ek k Ei Eek). cbv beta in H2. lia.
Qed.

(** Inserting at the place the bisection finds keeps the array sorted; if the
    key was absent, the keys stay different. *)
Lemma insert_sorted l k e : is_cstr k -> e_key e = Some k ->
  forall strict, wf_cache strict l -> exists n, DataCache_FindInsertionPoint l (Some k) = Some n /\
  0 <= n <= Z.of_nat (length l) /\ wf_cache false (insert_at (Z.to_nat n) e l) /\
  (strict = true -> cache_map l !! fold_key k = None -> wf_cache true (insert_at (Z.to_nat n) e l)).
Proof.
  intros Hk Ek strict Hwf. pose proof (wf_cache_weaken _ _ Hwf) as Hwf0.
  destruct (bisect_spec l k Hwf0 Hk) as (b & n & E & Hn & Hb). unfold DataCache_FindInsertionPoint. rewrite E. exists n.
  split; [done|split; [done|]].
  assert (Hpos : forall i e' a, l !! i = Some e' -> e_key e' = Some a ->
    (Z.of_nat i < n -> esif_ccb_stricmp a k <= 0) /\ (n <= Z.of_nat i -> 0 <= esif_ccb_stricmp a k)).
  { intros i e' a Ei Ea. destruct b; cycle 1.
    { destruct Hb as [H1 H2]. split; intros Hi; [specialize (H1 i Hi e' a Ei Ea); cbv beta in H1|specialize (H2 i Hi e' a Ei Ea); cbv beta in H2]; lia. }
    destruct Hb as (en & an & Een & Ean & Hz). destruct (cache_lookup false l _ _ Hwf0 Ei) as (a' & Ea' & Ha).
    assert (a' = a) as -> by congruence. destruct (cache_lookup false l _ _ Hwf0 Een) as (an' & Ean' & Han).
    assert (an' = an) as -> by congruence. pose proof (stricmp_sym an k) as Hs1. pose proof (stricmp_sym a k) as Hs2. split; intros Hi.
    - pose proof (sorted_lookup _ l i (Z.to_nat n) e' en (wc_sorted _ _ Hwf0) Ei Een ltac:(lia)) as Hbf. unfold before in Hbf.
      rewrite Ea, Ean in Hbf. apply (stricmp_trans a an k Ha Han Hk Hbf). lia.
    - destruct (decide (i = Z.to_nat n)) as [->|]; [simplify_eq; lia|].
      pose proof (sorted_lookup _ l (Z.to_nat n) i en e' (wc_sorted _ _ Hwf0) Een Ei ltac:(lia)) as Hbf. unfold before in Hbf.
      rewrite Ea, Ean in Hbf. pose proof (stricmp_trans k an a Hk Han Ha ltac:(lia) Hbf). lia. }
  assert (Hins : forall st, wf_cache st l -> (forall i e' a, l !! i = Some e' -> e_key e' = Some a -> st = true -> esif_ccb_stricmp a k <> 0) ->
    wf_cache st (insert_at (Z.to_nat n) e l)).
  { intros st Hst Hne. unfold insert_at. pose proof Hst as Hst'. rewrite <- (take_drop (Z.to_nat n) l) in Hst'.
    apply wf_cache_app in Hst' as (H1 & H2 & H3). apply wf_cache_app. split_and!; [|done|].
    - intros e1 e2 He1 [->|He2]%elem_of_cons; [|by apply H1].
      apply list_elem_of_lookup in He1 as [i Hi]. apply lookup_take_Some in Hi as [Hi Hlt].
      destruct (cache_lookup st l i e1 Hst Hi) as (a & Ea & Ha). destruct (Hpos i e1 a Hi Ea) as [Hp _]. specialize (Hp ltac:(lia)).
      specialize (Hne i e1 a Hi Ea). unfold before. rewrite Ea, Ek. destruct st; [specialize (Hne eq_refl); lia|lia].
    - apply wf_cache_cons. split; [by exists k|split; [|done]]. intros e2 He2.
      apply list_elem_of_lookup in He2 as [i Hi]. rewrite lookup_drop in Hi.
      destruct (cache_lookup st l _ e2 Hst Hi) as (a & Ea & Ha). destruct (Hpos _ e2 a Hi Ea) as [_ Hp]. specialize (Hp ltac:(lia)).
      specialize (Hne _ e2 a Hi Ea). pose proof (stricmp_sym a k). unfold before. rewrite Ea, Ek.
      destruct st; [specialize (Hne eq_refl); lia|lia]. }
  split; [by apply Hins|]. intros -> Habs. apply Hins; [done|]. intros i e' a Ei Ea _ Hz.
  destruct (cache_lookup true l i e' Hwf Ei) as (a' & Ea' & Ha). assert (a' = a) as -> by congruence.
  apply stricmp_zero in Hz; [|done|done]. rewrite <- Hz, (cache_map_lookup l i e' a Hwf Ei Ea) in Habs. done.
Qed.

(** C23: The cache is a map from keys, up to case, to values.  On a cache whose
    keys are all different: looking a key up finds exactly the entry the map has
    for it; deleting a key deletes it from the map, with the not-found error
    exactly when it is absent; inserting an absent key inserts a copy of the
    value; the operations keep the array sorted with all keys different, and the
    count is the number of keys.  The bisection always ends. *)
Theorem data_cache_refines_map (l : cache) (k : list Z) (Hwf : wf_cache true l) (Hk : is_cstr k) :
  (exists r, DataCache_GetValue (Some l) (Some k) = Some r /\
     match r with
     | Some i => exists e, l !! i = Some e /\ cache_map l !! fold_key k = Some (flags e, value e)
     | None => cache_map l !! fold_key k = None
     end) /\
  (exists l', DataCache_DeleteValue true (Some l) (Some k) =
       Some (if cache_map l !! fold_key k then ESIF_OK else ESIF_E_NOT_FOUND, Some l') /\
     wf_cache true l' /\ cache_map l' = delete (fold_key k) (cache_map l)) /\
  (forall v c fl, CloneCacheData all_dc_mem v = Some (Some c) -> cache_map l !! fold_key k = None ->
     exists l', DataCache_InsertValue all_dc_mem (Some l) (Some k) (Some v) fl = Some (ESIF_OK, Some l') /\
     wf_cache true l' /\ cache_map l' = <[fold_key k := (fl, c)]> (cache_map l)) /\
  DataCache_GetCount (Some l) = Z.of_nat (size (cache_map l)).
Proof.
  destruct (cache_search_spec l k Hwf Hk) as (n & En & Hn). split_and!.
  - unfold DataCache_GetValue. rewrite En. eexists. split; [done|]. destruct Hn as [[-> Habs]|(Hn & e & a & Ee & Ea & Ha & Ef)]; [done|].
    rewrite (proj2 (Z.eqb_neq n EOF)) by (unfold EOF; lia). exists e. split; [done|]. rewrite <- Ef. by apply (cache_map_lookup l (Z.to_nat n)).
  - unfold DataCache_DeleteValue. rewrite En. destruct Hn as [[-> Habs]|(Hn & e & a & Ee & Ea & Ha & Ef)].
    + rewrite Habs, Z.eqb_refl. exists l. split; [done|split; [done|]]. by rewrite delete_id.
    + rewrite (proj2 (Z.eqb_neq n EOF)) by (unfold EOF; lia). rewrite andb_false_r.
      rewrite <- Ef, (cache_map_lookup l _ e a Hwf Ee Ea). eexists. split; [done|].
      pose proof (take_drop_middle l _ e Ee) as El. pose proof Hwf as Hwf'. rewrite <- El in Hwf'.
      destruct (cache_map_middle _ e _ a Hwf' Ea) as (H1 & H2 & H3). split; [done|]. rewrite El in H3.
      by rewrite H3, delete_insert_id.
  - intros v c fl Hc Habs. unfold DataCache_InsertValue. rewrite Hc.
    destruct (insert_sorted l k (mk_entry fl (Some k) c) Hk eq_refl true Hwf) as (m & Em & _ & _ & Hm).
    rewrite Em. cbn [m_array m_key all_dc_mem]. eexists. split; [done|]. specialize (Hm eq_refl Habs). split; [done|].
    unfold insert_at in *. destruct (cache_map_middle _ _ _ k Hm eq_refl) as (_ & _ & ->). by rewrite take_drop.
  - cbn. unfold cache_map. rewrite map_size_list_to_map by by apply pairs_nodup. f_equal.
    destruct Hwf as [Hks _]. clear -Hks. induction Hks as [|e l (a & Ea & _) Hks IH]; [done|]. cbn. unfold pair_of at 1. rewrite Ea. cbn. by rewrite IH.
Qed.

(* ------------------------------------------------------------------ *)
(** ** Backing offsets up and restoring them *)

Definition nocache_flag (fl : Z) : bool := negb (Z.land fl ESIF_SERVICE_CONFIG_NOCACHE =? 0).

Lemma Forall_filter_sub {A} (P Q : A -> Prop) `{!forall x, Decision (P x)} l : Forall Q l -> Forall Q (filter P l).
Proof. rewrite !Forall_forall. intros HQ x [_ Hx]%list_elem_of_filter. by apply HQ. Qed.

Lemma wf_cache_filter l : wf_cache true l -> wf_cache true (filter (fun e => is_nocache e = true) l).
Proof.
  intros [H1 H2]. split; [by apply Forall_filter_sub|]. clear H1. induction H2 as [|e l Hs IH Hf]; [constructor|].
  destruct (decide (is_nocache e = true)); [rewrite filter_cons_True by done|by rewrite filter_cons_False].
  constructor; [done|]. by apply Forall_filter_sub.
Qed.

Lemma cache_map_cons e l a : wf_cache true (e :: l) -> e_key e = Some a ->
  cache_map l !! fold_key a = None /\ cache_map (e :: l) = <[fold_key a := (flags e, value e)]> (cache_map l).
Proof. intros Hwf Ea. destruct (cache_map_middle [] e l a Hwf Ea) as (_ & H). exact H. Qed.

Lemma cache_map_filter_none l f : wf_cache true l -> cache_map l !! f = None ->
  cache_map (filter (fun e => is_nocache e = true) l) !! f = None.
Proof.
  induction l as [|e l IH]; [done|]. intros Hwf. pose proof Hwf as ((a & Ea & Ha) & _ & Hwf')%wf_cache_cons.
  destruct (cache_map_cons e l a Hwf Ea) as [_ ->]. rewrite lookup_insert_None. intros [Hn Hne].
  destruct (decide (is_nocache e = true)); [rewrite filter_cons_True by done|rewrite filter_cons_False by done; by apply IH].
  assert (Hw : wf_cache true (e :: filter (fun e => is_nocache e = true) l)).
  { pose proof (wf_cache_filter _ Hwf) as H. by rewrite filter_cons_True in H. }
  destruct (cache_map_cons e _ a Hw Ea) as [_ ->]. rewrite lookup_insert_ne by done. by apply IH.
Qed.

Lemma clone_loop_spec l : forall idx clone,
  wf_cache true l -> wf_cache true clone ->
  Forall (fun e => is_nocache e = true -> c_buf_len (value e) = 0) l ->
  (forall f, is_Some (cache_map l !! f) -> cache_map clone !! f = None) ->
  exists c, clone_loop (fun _ => all_dc_mem) idx l clone = Some (ESIF_OK, c) /\ wf_cache true c /\
    cache_map c = cache_map (filter (fun e => is_nocache e = true) l) ∪ cache_map clone.
Proof.
  induction l as [|e l IH]; intros idx clone Hwf Hwc Hoff Hdis.
  { exists clone. split; [done|split; [done|]]. unfold cache_map at 2. cbn. by rewrite (left_id_L ∅ (∪)). }
  pose proof Hwf as ((a & Ea & Ha) & _ & Hwf')%wf_cache_cons. apply Forall_cons in Hoff as [Hoe Hoff].
  destruct (cache_map_cons e l a Hwf Ea) as [Hna Hcm]. cbn [clone_loop].
  assert (Hdis' : forall f, is_Some (cache_map l !! f) -> cache_map clone !! f = None).
  { intros f Hf. apply Hdis. rewrite Hcm. destruct (decide (f = fold_key a)) as [->|]; [rewrite lookup_insert_eq; eauto|by rewrite lookup_insert_ne]. }
  destruct (is_nocache e) eqn:Enc; cycle 1.
  { rewrite filter_cons_False by congruence. by apply IH. }
  rewrite filter_cons_True by done. specialize (Hoe eq_refl). rewrite Ea.
  assert (Habs : cache_map clone !! fold_key a = None) by (apply Hdis; rewrite Hcm, lookup_insert_eq; eauto).
  assert (Ec : CloneCacheData all_dc_mem (value e) = Some (Some (value e))).
  { unfold CloneCacheData. cbn. rewrite Hoe. by destruct (c_ptr (value e)). }
  unfold DataCache_InsertValue. rewrite Ec.
  destruct (insert_sorted clone a (mk_entry (flags e) (Some a) (value e)) Ha eq_refl true Hwc) as (n & En & _ & _ & Hn).
  rewrite En. cbn [m_array m_key all_dc_mem]. change (ESIF_OK =? ESIF_OK) with true. cbn iota.
  specialize (Hn eq_refl Habs). pose proof Hn as Hn'. unfold insert_at in Hn'.
  destruct (cache_map_middle _ _ _ a Hn' eq_refl) as (_ & _ & Hmap). rewrite take_drop in Hmap. cbn [flags value] in Hmap.
  destruct (IH (S idx) _ Hwf' Hn Hoff) as (c & E & Hwc' & Hc).
  { intros f Hf. unfold insert_at. rewrite Hmap. rewrite lookup_insert_ne; [by apply Hdis'|]. intros <-. rewrite Hna in Hf. by destruct Hf. }
  exists c. split; [exact E|split; [done|]]. rewrite Hc. unfold insert_at. rewrite Hmap.
  assert (Hw : wf_cache true (e :: filter (fun e => is_nocache e = true) l)).
  { pose proof (wf_cache_filter _ Hwf) as H. by rewrite filter_cons_True in H. }
  destruct (cache_map_cons e _ a Hw Ea) as [_ ->]. rewrite <- insert_union_r by by apply cache_map_filter_none.
  by rewrite insert_union_l.
Qed.

(** What restoring makes of an entry, given the backup's. *)
Definition restored (x y : option (Z * CacheData)) : option (Z * CacheData) :=
  match x, y with
  | Some (fl, v), Some (_, v0) =>
      if nocache_flag fl then Some (fl, mk_cdata (c_type v) (c_ptr v0) (c_buf_len v0) (c_data_len v0)) else x
  | _, _ => x
  end.

Lemma with_offset_insert l n e v a : wf_cache true l -> l !! n = Some e -> e_key e = Some a ->
  wf_cache true (<[n := with_offset v e]> l) /\
  cache_map (<[n := with_offset v e]> l) = <[fold_key a := (flags e, value (with_offset v e))]> (cache_map l).
Proof.
  intros Hwf En Ea. pose proof (take_drop_middle l n e En) as El. rewrite (insert_take_drop l n (with_offset v e)) by by eapply lookup_lt_Some.
  pose proof Hwf as Hwf'. rewrite <- El in Hwf'. destruct (cache_map_middle _ e _ a Hwf' Ea) as (_ & H2 & H3). rewrite El in H3.
  assert (Hw : wf_cache true (take n l ++ with_offset v e :: drop (S n) l)).
  { apply wf_cache_app in Hwf' as (Ha & Hb & Hc). apply wf_cache_cons in Hc as (Hd & He & Hf). apply wf_cache_app. split_and!; [|done|].
    - intros e1 e2 He1 [->|He2]%elem_of_cons; [exact (Ha e1 e He1 ltac:(left))|]. apply Ha; [done|by right].
    - by apply wf_cache_cons. }
  split; [done|]. destruct (cache_map_middle _ (with_offset v e) _ a Hw Ea) as (_ & _ & ->). rewrite H3. by rewrite insert_insert_eq.
Qed.

Lemma restore_loop_spec clone : forall l, wf_cache true l -> wf_cache true clone ->
  exists l', restore_loop clone l = Some l' /\ wf_cache true l' /\
    forall f, cache_map l' !! f = restored (cache_map l !! f) (cache_map clone !! f).
Proof.
  induction clone as [|c clone IH]; intros l Hwf Hwc.
  { exists l. split; [done|split; [done|]]. intros f. unfold cache_map at 3. cbn. rewrite lookup_empty. by destruct (cache_map l !! f) as [[]|]. }
  pose proof Hwc as ((a & Ea & Ha) & _ & Hwc')%wf_cache_cons. destruct (cache_map_cons c clone a Hwc Ea) as [Hna ->].
  cbn [restore_loop]. rewrite Ea. destruct (cache_search_spec l a Hwf Ha) as (n & -> & Hn).
  destruct Hn as [[-> Habs]|(Hn & e & b & Ee & Eb & Hb & Ef)].
  { rewrite Z.eqb_refl. destruct (IH l Hwf Hwc') as (l' & E & Hw & Hf). exists l'. split; [done|split; [done|]]. intros f. rewrite Hf.
    destruct (decide (f = fold_key a)) as [->|]; [by rewrite Habs|by rewrite lookup_insert_ne by done]. }
  rewrite (proj2 (Z.eqb_neq n EOF)) by (unfold EOF; lia). rewrite Ee.
  pose proof (cache_map_lookup l _ e b Hwf Ee Eb) as Hlk. rewrite Ef in Hlk. destruct (is_nocache e) eqn:Enc.
  - destruct (with_offset_insert l _ e (value c) b Hwf Ee Eb) as [Hw1 Hm1]. destruct (IH _ Hw1 Hwc') as (l' & E & Hw & Hf).
    exists l'. split; [done|split; [done|]]. intros f. rewrite Hf, Hm1, Ef. destruct (decide (f = fold_key a)) as [->|].
    + rewrite !lookup_insert_eq, Hlk, Hna. cbn. unfold nocache_flag. fold (is_nocache e). by rewrite Enc.
    + by rewrite !lookup_insert_ne by done.
  - destruct (IH l Hwf Hwc') as (l' & E & Hw & Hf). exists l'. split; [done|split; [done|]]. intros f. rewrite Hf.
    destruct (decide (f = fold_key a)) as [->|]; [|by rewrite lookup_insert_ne by done].
    rewrite lookup_insert_eq, Hlk, Hna. cbn. unfold nocache_flag. fold (is_nocache e). by rewrite Enc.
Qed.

Lemma cache_map_nocache l f : wf_cache true l ->
  cache_map (filter (fun e => is_nocache e = true) l) !! f =
  match cache_map l !! f with Some (fl, v) => if nocache_flag fl then Some (fl, v) else None | None => None end.
Proof.
  induction l as [|e l IH]; [done|]. intros Hwf. pose proof Hwf as ((a & Ea & Ha) & _ & Hwf')%wf_cache_cons.
  destruct (cache_map_cons e l a Hwf Ea) as [Hna ->]. pose proof (wf_cache_filter _ Hwf) as Hw. specialize (IH Hwf').
  destruct (decide (f = fold_key a)) as [->|Hne].
  - rewrite lookup_insert_eq. unfold nocache_flag. fold (is_nocache e). destruct (is_nocache e) eqn:Enc.
    + rewrite filter_cons_True in Hw |- * by done. destruct (cache_map_cons e _ a Hw Ea) as [_ ->]. by rewrite lookup_insert_eq.
    + rewrite filter_cons_False by congruence. by rewrite IH, Hna.
  - rewrite lookup_insert_ne by done. destruct (is_nocache e) eqn:Enc.
    + rewrite filter_cons_True in Hw |- * by done. destruct (cache_map_cons e _ a Hw Ea) as [_ ->]. by rewrite lookup_insert_ne.
    + rewrite filter_cons_False by congruence. exact IH.
Qed.

(** Backing offsets up and restoring them.  The clone of a cache [l0] whose
    uncached values are offsets holds those values and nothing else.  Restoring
    it later into any cache [l] puts the backed-up pointer and lengths into the
    uncached values that [l] still has, and leaves every other value, and the set
    of keys, as they are. *)
Theorem data_cache_backup_restores (l0 l : cache) (Hwf0 : wf_cache true l0) (Hwf : wf_cache true l)
    (Hoff : Forall (fun e => is_nocache e = true -> c_buf_len (value e) = 0) l0) :
  exists c l', DataCache_CloneOffsets true (fun _ => all_dc_mem) (Some l0) = Some (Some c) /\
    (forall f, cache_map c !! f =
       match cache_map l0 !! f with Some (fl, v) => if nocache_flag fl then Some (fl, v) else None | None => None end) /\
    DataCache_RestoreOffsets (Some l) (Some c) = Some (ESIF_OK, Some l') /\ wf_cache true l' /\
    (forall f, cache_map l' !! f = restored (cache_map l !! f) (cache_map c !! f)).
Proof.
  destruct (clone_loop_spec l0 0 [] Hwf0 (wf_cache_nil true) Hoff (fun _ _ => lookup_empty _)) as (c & E & Hwc & Hc).
  assert (Hc' : forall f, cache_map c !! f = cache_map (filter (fun e => is_nocache e = true) l0) !! f).
  { intros f. rewrite Hc. unfold cache_map at 2. cbn. by rewrite (right_id_L empty union). }
  destruct (restore_loop_spec c l Hwf Hwc) as (l' & E' & Hwl & Hl). exists c, l'. split_and!; [| | |done|done].
  - unfold DataCache_CloneOffsets. cbn [DataCache_Create]. by rewrite E.
  - intros f. rewrite Hc'. by apply cache_map_nocache.
  - unfold DataCache_RestoreOffsets. by rewrite E'.
Qed.

(** Inserting keeps the array sorted whatever the key is, also when it is
    already there: the pair is inserted next to the one with the same key, the
    other pairs stay in their order, and a search for the key still finds a pair
    with that key. *)
Theorem data_cache_insert_sorted (l : cache) (k : list Z) (v c : CacheData) (fl : Z)
    (Hwf : wf_cache false l) (Hk : is_cstr k) (Hc : CloneCacheData all_dc_mem v = Some (Some c)) :
  exists l1 l2, l = l1 ++ l2 /\
    DataCache_InsertValue all_dc_mem (Some l) (Some k) (Some v) fl = Some (ESIF_OK, Some (l1 ++ mk_entry fl (Some k) c :: l2)) /\
    wf_cache false (l1 ++ mk_entry fl (Some k) c :: l2) /\
    exists i e a, DataCache_GetValue (Some (l1 ++ mk_entry fl (Some k) c :: l2)) (Some k) = Some (Some i) /\
      (l1 ++ mk_entry fl (Some k) c :: l2) !! i = Some e /\ e_key e = Some a /\ fold_key a = fold_key k.
Proof.
  destruct (insert_sorted l k (mk_entry fl (Some k) c) Hk eq_refl false Hwf) as (m & Em & _ & Hm & _).
  exists (take (Z.to_nat m) l), (drop (Z.to_nat m) l). split_and!; [by rewrite take_drop| |exact Hm|].
  - unfold DataCache_InsertValue. rewrite Hc, Em. done.
  - apply search_present; [exact Hm|done|]. exists (mk_entry fl (Some k) c). split; [|done]. apply elem_of_app. right. left.
Qed.

(* ------------------------------------------------------------------ *)
(** ** A cache with three keys *)

Module CacheDemo.

Definition plain : CacheData := mk_cdata 8 (CBlock [1; 2; 3; 4]) 4 4.
Definition offset (n : Z) : CacheData := mk_cdata 7 (COffset n) 0 100.
(** The keys [a], [B], [b] and [cd]. *)
Definition k_a : list Z := [97].
Definition k_B : list Z := [66].
Definition k_b : list Z := [98].
Definition k_cd : list Z := [99; 100].

Definition put (k : list Z) (v : CacheData) (fl : Z) (l : option cache) : option cache :=
  match DataCache_InsertValue all_dc_mem l (Some k) (Some v) fl with Some (_, l') => l' | None => None end.

(** Inserted in this order: [cd], [a], [B]. *)
Definition demo : option cache := put k_B (offset 512) 8 (put k_a plain 0 (put k_cd (offset 64) 8 (DataCache_Create true))).
Definition demo_l : cache :=
  [mk_entry 0 (Some k_a) plain; mk_entry 8 (Some k_B) (offset 512); mk_entry 8 (Some k_cd) (offset 64)].
(** The same cache later: [a] is gone, the offset of [B] has been overwritten. *)
Definition later_l : cache := [mk_entry 8 (Some k_b) (mk_cdata 7 CNull 0 0); mk_entry 8 (Some k_cd) (offset 64)].

Lemma demo_is : demo = Some demo_l.
Proof. vm_compute. reflexivity. Qed.

Ltac solve_wf := split;
  [repeat (apply Forall_cons; split; [eexists; split; [reflexivity|repeat constructor]|]); apply Forall_nil; exact I|repeat constructor].

Lemma wf_demo : wf_cache true demo_l.
Proof. solve_wf. Qed.

Lemma wf_later : wf_cache true later_l.
Proof. solve_wf. Qed.

Lemma cstr_b : is_cstr k_b.
Proof. repeat constructor. Qed.

End CacheDemo.
Import CacheDemo.

Lemma data_cache_refines_map_witness :
  DataCache_DeleteValue true (Some demo_l) (Some k_b) = Some (ESIF_OK, Some [mk_entry 0 (Some k_a) plain; mk_entry 8 (Some k_cd) (offset 64)]) /\
  exists l', DataCache_DeleteValue true (Some demo_l) (Some k_b) =
     Some (if cache_map demo_l !! fold_key k_b then ESIF_OK else ESIF_E_NOT_FOUND, Some l') /\
   wf_cache true l' /\ cache_map l' = delete (fold_key k_b) (cache_map demo_l).
Proof. split; [vm_compute; reflexivity|]. exact (proj1 (proj2 (data_cache_refines_map demo_l k_b wf_demo cstr_b))). Defined.

Lemma data_cache_backup_restores_witness :
  (exists c, DataCache_CloneOffsets true (fun _ => all_dc_mem) demo = Some (Some c) /\
     DataCache_RestoreOffsets (Some later_l) (Some c) =
       Some (ESIF_OK, Some [mk_entry 8 (Some k_b) (offset 512); mk_entry 8 (Some k_cd) (offset 64)])) /\
  exists c l', DataCache_CloneOffsets true (fun _ => all_dc_mem) (Some demo_l) = Some (Some c) /\
    (forall f, cache_map c !! f =
       match cache_map demo_l !! f with Some (fl, v) => if nocache_flag fl then Some (fl, v) else None | None => None end) /\
    DataCache_RestoreOffsets (Some later_l) (Some c) = Some (ESIF_OK, Some l') /\ wf_cache true l' /\
    (forall f, cache_map l' !! f = restored (cache_map later_l !! f) (cache_map c !! f)).
Proof.
  split; [eexists; split; [vm_compute; reflexivity|vm_compute; reflexivity]|].
  apply (data_cache_backup_restores demo_l later_l wf_demo wf_later). repeat constructor; done.
Defined.

Lemma data_cache_insert_sorted_witness :
  DataCache_GetCount (put k_b plain 0 (Some demo_l)) = 4 /\
  exists l1 l2, demo_l = l1 ++ l2 /\
    DataCache_InsertValue all_dc_mem (Some demo_l) (Some k_b) (Some (offset 3)) 8 = Some (ESIF_OK, Some (l1 ++ mk_entry 8 (Some k_b) (offset 3) :: l2)) /\
    wf_cache false (l1 ++ mk_entry 8 (Some k_b) (offset 3) :: l2) /\
    exists i e a, DataCache_GetValue (Some (l1 ++ mk_entry 8 (Some k_b) (offset 3) :: l2)) (Some k_b) = Some (Some i) /\
      (l1 ++ mk_entry 8 (Some k_b) (offset 3) :: l2) !! i = Some e /\ e_key e = Some a /\ fold_key a = fold_key k_b.
Proof.
  split; [vm_compute; reflexivity|].
  exact (data_cache_insert_sorted demo_l k_b (offset 3) (offset 3) 8 (wf_cache_weaken _ _ wf_demo) cstr_b eq_refl).
Defined.

(** A deletion whose shrinking of the array fails reports that memory is
    exhausted; but the entry is already gone and the array keeps a cleared entry
    at its end.  The next search past the last key then compares with NULL, and
    one below it still works. *)
Theorem data_cache_delete_no_memory :
  exists l', DataCache_DeleteValue false demo (Some k_a) = Some (ESIF_E_NO_MEMORY, Some l') /\
    DataCache_GetCount (Some l') = 3 /\ last l' = Some (mk_entry 0 None null_data) /\
    DataCache_GetValue (Some l') (Some k_b) = Some (Some 0%nat) /\
    DataCache_GetValue (Some l') (Some [122]) = None.
Proof. eexists. split; [vm_compute; reflexivity|]. vm_compute. auto. Qed.
