(* ===== verification/HandleMgr.v ===== *)
(** * The handle manager: ESIF/Products/ESIF_UF/Sources/esif_uf_handlemgr.c

    A bitmap with one bit per slot, in lines of 64, that grows by a line at a
    time up to 65536 slots.  A handle is a slot and, above it, an instance
    counter that goes up whenever the search for a free slot starts over.

    An operation has no outcome ([None]) where the code would leave the bitmap. *)

From S2P Require Import Prelude.
From stdpp Require Import list gmap sets.
Local Open Scope Z_scope.
Local Open Scope dptf_scope.

Definition ESIF_HNDLMGR_NUM_HANDLE_BITS : Z := 16.
Definition ESIF_HNDLMGR_MAX_HANDLES : Z := Z.shiftl 1 ESIF_HNDLMGR_NUM_HANDLE_BITS.
Definition ESIF_HNDLMGR_MAX_HANDLE_MAP_SIZE : Z := ESIF_HNDLMGR_MAX_HANDLES / 8.
Definition ESIF_HNDLMGR_MIN_HANDLE_LINES : Z := 1.
Definition ESIF_HNDLMGR_HANDLES_PER_LINE : Z := 64.
Definition ESIF_HNDLMGR_LINE_SIZE : Z := ESIF_HNDLMGR_HANDLES_PER_LINE / 8.
Definition ESIF_HNDLMGR_HANDLE_MASK : Z := Z.ldiff (2 ^ 64 - 1) (u64 (Z.shiftl (2 ^ 64 - 1) ESIF_HNDLMGR_NUM_HANDLE_BITS)).

Record EsifHandleMgr : Type := mk_mgr {
  handleMapPtr : list Z;
  handleMapSize : Z;
  numAvailableHandles : Z;
  curLine : Z;
  curPos : Z;
  instanceCounter : Z
}.

Abbreviation HM := (SM EsifHandleMgr).

Definition EsifHandleMgr_IsReservedHandle (handle : Z) : bool :=
  (handle =? ESIF_HANDLE_DEFAULT) || (handle =? ESIF_HANDLE_PRIMARY_PARTICIPANT) ||
  (handle =? ESIF_HANDLE_MATCH_ANY_EVENT) || (handle =? ESIF_INVALID_HANDLE).

(** The two allocations; the second is the map's. *)
Definition EsifHandleMgr_Create (mem_self mem_map : bool) : option EsifHandleMgr :=
  if mem_self && mem_map then
    let size := ESIF_HNDLMGR_MIN_HANDLE_LINES * ESIF_HNDLMGR_LINE_SIZE in
    Some (mk_mgr (replicate (Z.to_nat (size / ESIF_HNDLMGR_LINE_SIZE)) 0) size
      (ESIF_HNDLMGR_MIN_HANDLE_LINES * ESIF_HNDLMGR_HANDLES_PER_LINE) 0 0 0)
  else None.

Definition EsifHandleMgr_AllocateAdditionalHandles (mem : bool) : HM Z :=
  if mem then
    smodify (fun s => mk_mgr (handleMapPtr s ++ [0]) (u64 (handleMapSize s + ESIF_HNDLMGR_LINE_SIZE))
      (u64 (numAvailableHandles s + ESIF_HNDLMGR_HANDLES_PER_LINE)) (curLine s) (curPos s) (instanceCounter s)) ;!
    sret ESIF_OK
  else sret ESIF_E_NO_MEMORY.

(** The handle of a slot. *)
Definition mk_handle (s : EsifHandleMgr) (lineNum pos : Z) : Z :=
  Z.lor (u64 (lineNum * ESIF_HNDLMGR_HANDLES_PER_LINE + pos)) (u64 (Z.shiftl (instanceCounter s) ESIF_HNDLMGR_NUM_HANDLE_BITS)).

(** The inner loop, for [n] positions from [pos]: the handle found. *)
Fixpoint find_pos (n : nat) (lineNum line pos : Z) : HM (option Z) :=
  match n with
  | O => sret None
  | S n =>
      let! s := sget in
      if Z.land line (u64 (Z.shiftl 1 pos)) =? 0 then
        let handle := mk_handle s lineNum pos in
        if EsifHandleMgr_IsReservedHandle handle then find_pos n lineNum line (pos + 1)
        else
          let! old := of_option (handleMapPtr s !! Z.to_nat lineNum) in
          sput (mk_mgr (<[Z.to_nat lineNum := Z.lor old (u64 (Z.shiftl 1 pos))]> (handleMapPtr s)) (handleMapSize s)
            (u64 (numAvailableHandles s - 1)) lineNum pos (instanceCounter s)) ;!
          sret (Some handle)
      else find_pos n lineNum line (pos + 1)
  end.

(** The outer loop, for [n] lines from [lineNum]. *)
Fixpoint find_line (n : nat) (lineNum stopLineNum pos stopPos : Z) : HM (option Z) :=
  match n with
  | O => sret None
  | S n =>
      let! s := sget in
      let! line := of_option (handleMapPtr s !! Z.to_nat lineNum) in
      let lastPos := if lineNum =? stopLineNum then stopPos else ESIF_HNDLMGR_HANDLES_PER_LINE - 1 in
      let! r := find_pos (Z.to_nat (lastPos + 1 - pos)) lineNum line pos in
      match r with
      | Some h => sret (Some h)
      | None => find_line n (lineNum + 1) stopLineNum 0 stopPos
      end
  end.

Definition EsifHandleMgr_FindHandleInRegion (startLineNum stopLineNum startPos stopPos : Z) : HM (Z * option Z) :=
  let! r := find_line (Z.to_nat (stopLineNum + 1 - startLineNum)) startLineNum stopLineNum startPos stopPos in
  sret (match r with Some h => (ESIF_OK, Some h) | None => (ESIF_E_INVALID_HANDLE, None) end).

(** The result code, and the value written to [*handlePtr]. *)
Definition EsifHandleMgr_FindHandle : HM (Z * option Z) :=
  let! s := sget in
  let! r := (if negb (curPos s =? ESIF_HNDLMGR_HANDLES_PER_LINE - 1) ||
                negb (curLine s =? u64 (handleMapSize s / ESIF_HNDLMGR_LINE_SIZE - 1)) then
               EsifHandleMgr_FindHandleInRegion (curLine s) (u64 (handleMapSize s / ESIF_HNDLMGR_LINE_SIZE - 1))
                 (curPos s) (ESIF_HNDLMGR_HANDLES_PER_LINE - 1)
             else sret (ESIF_E_INVALID_HANDLE, None)) in
  if negb (r.1 =? ESIF_OK) then
    smodify (fun s => mk_mgr (handleMapPtr s) (handleMapSize s) (numAvailableHandles s) (curLine s) (curPos s)
      (u64 (instanceCounter s + 1))) ;!
    let! s := sget in
    EsifHandleMgr_FindHandleInRegion 0 (curLine s) 0 (curPos s)
  else sret r.

(** [mem] is the outcome of growing the map. *)
Definition EsifHandleMgr_GetHandle (mem : bool) : HM (Z * Z) :=
  let! s := sget in
  if (numAvailableHandles s =? 0) && (ESIF_HNDLMGR_MAX_HANDLE_MAP_SIZE <=? handleMapSize s) then
    sret (ESIF_E_INVALID_HANDLE, ESIF_INVALID_HANDLE)
  else
    let! rc := (if (numAvailableHandles s <? ESIF_HNDLMGR_HANDLES_PER_LINE) &&
                   (handleMapSize s <? ESIF_HNDLMGR_MAX_HANDLE_MAP_SIZE)
                then EsifHandleMgr_AllocateAdditionalHandles mem else sret ESIF_OK) in
    if rc =? ESIF_OK then
      let! r := EsifHandleMgr_FindHandle in
      sret (r.1, default ESIF_INVALID_HANDLE r.2)
    else sret (rc, ESIF_INVALID_HANDLE).

(** The global manager is NULL before [Init]; [handlePtr] may be NULL.  The result
    has the value written to [*handlePtr], if any. *)
Definition EsifHandleMgr_GetNextHandle (mem has_ptr : bool) (g : option EsifHandleMgr) :
    option (Z * option Z * option EsifHandleMgr) :=
  match g with
  | Some s =>
      if has_ptr then
        match EsifHandleMgr_GetHandle mem s with
        | Some (rc, h, s') => Some (rc, Some h, Some s')
        | None => None
        end
      else Some (ESIF_E_PARAMETER_IS_NULL, None, g)
  | None => Some (ESIF_E_PARAMETER_IS_NULL, None, g)
  end.

Definition EsifHandleMgr_PutHandle (handle : Z) (g : option EsifHandleMgr) : option (Z * option EsifHandleMgr) :=
  if EsifHandleMgr_IsReservedHandle handle then Some (ESIF_E_UNSPECIFIED, g)
  else
    match g with
    | Some s =>
        let handleValue := Z.land handle ESIF_HNDLMGR_HANDLE_MASK in
        let lineNum := handleValue / ESIF_HNDLMGR_HANDLES_PER_LINE in
        let pos := handleValue mod ESIF_HNDLMGR_HANDLES_PER_LINE in
        if lineNum <? handleMapSize s / ESIF_HNDLMGR_LINE_SIZE then
          match handleMapPtr s !! Z.to_nat lineNum with
          | Some line =>
              Some (ESIF_E_UNSPECIFIED,
                Some (mk_mgr (<[Z.to_nat lineNum := Z.ldiff line (u64 (Z.shiftl 1 pos))]> (handleMapPtr s)) (handleMapSize s)
                  (u64 (numAvailableHandles s + 1)) (curLine s) (curPos s) (instanceCounter s)))
          | None => None
          end
        else Some (ESIF_E_UNSPECIFIED, g)
    | None => Some (ESIF_E_UNSPECIFIED, g)
    end.

Definition EsifHandleMgr_Init (mem_self mem_map : bool) (g : option EsifHandleMgr) : Z * option EsifHandleMgr :=
  match g with
  | Some s => (ESIF_OK, Some s)
  | None =>
      match EsifHandleMgr_Create mem_self mem_map with
      | Some s => (ESIF_OK, Some s)
      | None => (ESIF_E_NO_MEMORY, None)
      end
  end.

Definition EsifHandleMgr_Exit (g : option EsifHandleMgr) : option EsifHandleMgr := None.

(* ------------------------------------------------------------------ *)
(** ** Slots, and the reference search *)

Definition used (l : list Z) (k : Z) : bool :=
  match l !! Z.to_nat (k / 64) with Some line => Z.testbit line (k mod 64) | None => true end.

(** The slots of a map. *)
Definition num_slots (s : EsifHandleMgr) : Z := 64 * Z.of_nat (length (handleMapPtr s)).

Definition slot_handle (ic k : Z) : Z := Z.lor k (u64 (Z.shiftl ic 16)).

(** Slot [k] can be given out. *)
Definition available (s : EsifHandleMgr) (k : Z) : bool :=
  negb (used (handleMapPtr s) k) && negb (EsifHandleMgr_IsReservedHandle (slot_handle (instanceCounter s) k)).

(** The first of [n] slots from [k] that can be given out. *)
Fixpoint first_available (s : EsifHandleMgr) (n : nat) (k : Z) : option Z :=
  match n with
  | O => None
  | S n => if available s k then Some k else first_available s n (k + 1)
  end.

Definition set_used (l : list Z) (k : Z) : list Z := alter (fun line => Z.lor line (2 ^ (k mod 64))) (Z.to_nat (k / 64)) l.
Definition set_free (l : list Z) (k : Z) : list Z := alter (fun line => Z.ldiff line (2 ^ (k mod 64))) (Z.to_nat (k / 64)) l.

Definition take_slot (k : Z) (s : EsifHandleMgr) : EsifHandleMgr :=
  mk_mgr (set_used (handleMapPtr s) k) (handleMapSize s) (u64 (numAvailableHandles s - 1)) (k / 64) (k mod 64) (instanceCounter s).

(** What every manager keeps. *)
Record mgr_ok (s : EsifHandleMgr) : Prop := {
  mo_size : handleMapSize s = 8 * Z.of_nat (length (handleMapPtr s));
  mo_lines : (1 <= length (handleMapPtr s) <= 1024)%nat;
  mo_line : 0 <= curLine s < Z.of_nat (length (handleMapPtr s));
  mo_pos : 0 <= curPos s < 64
}.

Lemma slot_div line pos : 0 <= pos < 64 -> (line * 64 + pos) / 64 = line.
Proof. intros. rewrite Z.div_add_l by lia. rewrite Z.div_small by lia. lia. Qed.
Lemma slot_mod line pos : 0 <= pos < 64 -> (line * 64 + pos) mod 64 = pos.
Proof. intros. rewrite Z.add_comm, Z.mod_add by lia. by apply Z.mod_small. Qed.

Lemma first_available_app s n m k :
  first_available s (n + m) k =
  match first_available s n k with Some x => Some x | None => first_available s m (k + Z.of_nat n) end.
Proof.
  revert k. induction n as [|n IH]; intros k; cbn [Nat.add first_available]; [f_equal; lia|].
  destruct (available s k); [done|]. rewrite IH. destruct (first_available s n (k + 1)); [done|]. f_equal. lia.
Qed.

Lemma first_available_some s n k x : first_available s n k = Some x ->
  k <= x < k + Z.of_nat n /\ available s x = true /\ forall y, k <= y < x -> available s y = false.
Proof.
  revert k. induction n as [|n IH]; intros k; cbn [first_available]; [done|].
  destruct (available s k) eqn:E; [intros [= <-]; split; [lia|split; [done|lia]]|].
  intros (H1 & H2 & H3)%IH. split; [lia|split; [done|]]. intros y Hy. destruct (decide (y = k)) as [->|]; [done|]. apply H3. lia.
Qed.

Lemma first_available_none s n k : first_available s n k = None ->
  forall y, k <= y < k + Z.of_nat n -> available s y = false.
Proof.
  revert k. induction n as [|n IH]; intros k; cbn [first_available]; [lia|].
  destruct (available s k) eqn:E; [done|]. intros H y Hy. destruct (decide (y = k)) as [->|]; [done|]. apply (IH (k + 1)); [done|lia].
Qed.

Lemma find_pos_spec s lineNum line : handleMapPtr s !! Z.to_nat lineNum = Some line -> 0 <= lineNum < 1024 ->
  forall n pos, 0 <= pos -> pos + Z.of_nat n <= 64 ->
  find_pos n lineNum line pos s =
  Some match first_available s n (lineNum * 64 + pos) with
       | Some k => (Some (slot_handle (instanceCounter s) k), take_slot k s)
       | None => (None, s)
       end.
Proof.
  intros El Hln. induction n as [|n IH]; intros pos Hp Hn; cbn [find_pos first_available]; [done|].
  run_monad. rewrite pos_bit by lia. unfold available at 1. unfold used.
  rewrite slot_div, slot_mod by lia. rewrite El.
  assert (Eh : mk_handle s lineNum pos = slot_handle (instanceCounter s) (lineNum * 64 + pos)).
  { unfold mk_handle, slot_handle, ESIF_HNDLMGR_HANDLES_PER_LINE. rewrite (wrap_small 64 (lineNum * 64 + pos)); [done|]. unfold in_range. lia. }
  rewrite Eh. replace (lineNum * 64 + pos + 1) with (lineNum * 64 + (pos + 1)) by lia.
  destruct (Z.testbit line pos); cbn [negb andb]; [apply IH; lia|].
  destruct (EsifHandleMgr_IsReservedHandle _); cbn [negb]; [apply IH; lia|]. run_monad.
  unfold take_slot, set_used. rewrite slot_div, slot_mod by lia. unfold sret. do 3 f_equal.
  rewrite Z.shiftl_1_l, wrap_small by (split; [apply Z.pow_nonneg; lia|apply Z.pow_lt_mono_r; lia]).
  apply list_eq. intros i. destruct (decide (i = Z.to_nat lineNum)) as [->|Hne].
  - rewrite list_lookup_insert_eq by (by eapply lookup_lt_Some). by rewrite list_lookup_alter_eq, El.
  - by rewrite list_lookup_insert_ne, list_lookup_alter_ne by done.
Qed.

Lemma find_line_spec s stopLine stopPos : mgr_ok s -> 0 <= stopLine < Z.of_nat (length (handleMapPtr s)) -> 0 <= stopPos < 64 ->
  forall n lineNum pos, Z.of_nat n = stopLine + 1 - lineNum -> 0 <= lineNum <= stopLine + 1 -> 0 <= pos <= 64 ->
  (lineNum = stopLine -> pos <= stopPos + 1) ->
  find_line n lineNum stopLine pos stopPos s =
  Some match first_available s (if (0 <? n)%nat then Z.to_nat (stopLine * 64 + stopPos + 1 - (lineNum * 64 + pos)) else 0) (lineNum * 64 + pos) with
       | Some k => (Some (slot_handle (instanceCounter s) k), take_slot k s)
       | None => (None, s)
       end.
Proof.
  intros Hok Hst Hsp. induction n as [|n IH]; intros lineNum pos Hn Hl Hp Hpl; cbn [find_line]; [done|].
  run_monad. change (0 <? S n)%nat with true. cbn iota. pose proof (mo_lines s Hok).
  destruct (lookup_lt_is_Some_2 (handleMapPtr s) (Z.to_nat lineNum)) as [line El]; [lia|]. rewrite El. run_monad.
  set (lastPos := if lineNum =? stopLine then stopPos else ESIF_HNDLMGR_HANDLES_PER_LINE - 1).
  assert (Hlp : pos - 1 <= lastPos < 64) by (unfold lastPos, ESIF_HNDLMGR_HANDLES_PER_LINE; destruct (Z.eqb_spec lineNum stopLine); [specialize (Hpl e)|]; lia).
  unfold sbind. rewrite (find_pos_spec s lineNum line El) by lia.
  destruct (Z.eqb_spec lineNum stopLine) as [->|Hne].
  - assert (n = O) as -> by lia. replace (Z.to_nat (stopLine * 64 + stopPos + 1 - (stopLine * 64 + pos))) with (Z.to_nat (lastPos + 1 - pos)) by (unfold lastPos; lia).
    destruct (first_available s _ _); reflexivity.
  - replace (Z.to_nat (stopLine * 64 + stopPos + 1 - (lineNum * 64 + pos)))
      with (Z.to_nat (lastPos + 1 - pos) + Z.to_nat (stopLine * 64 + stopPos + 1 - ((lineNum + 1) * 64 + 0)))%nat
      by (unfold lastPos, ESIF_HNDLMGR_HANDLES_PER_LINE in *; lia).
    rewrite first_available_app. destruct (first_available s (Z.to_nat (lastPos + 1 - pos)) _); [done|].
    rewrite (IH (lineNum + 1) 0) by lia. rewrite (proj2 (Nat.ltb_lt 0 n)) by lia.
    replace (lineNum * 64 + pos + Z.of_nat (Z.to_nat (lastPos + 1 - pos))) with ((lineNum + 1) * 64 + 0)
      by (unfold lastPos, ESIF_HNDLMGR_HANDLES_PER_LINE in *; lia). done.
Qed.

(** The two nested loops are one search through the slots. *)
Lemma find_in_region_spec s startLine stopLine startPos stopPos : mgr_ok s ->
  0 <= startLine <= stopLine -> stopLine < Z.of_nat (length (handleMapPtr s)) -> 0 <= startPos < 64 -> 0 <= stopPos < 64 ->
  startLine * 64 + startPos <= stopLine * 64 + stopPos ->
  EsifHandleMgr_FindHandleInRegion startLine stopLine startPos stopPos s =
  Some match first_available s (Z.to_nat (stopLine * 64 + stopPos + 1 - (startLine * 64 + startPos))) (startLine * 64 + startPos) with
       | Some k => ((ESIF_OK, Some (slot_handle (instanceCounter s) k)), take_slot k s)
       | None => ((ESIF_E_INVALID_HANDLE, None), s)
       end.
Proof.
  intros Hok Hl1 Hl2 Hp1 Hp2 Hle. unfold EsifHandleMgr_FindHandleInRegion, sbind.
  rewrite (find_line_spec s stopLine stopPos Hok) by lia.
  rewrite (proj2 (Nat.ltb_lt 0 _)) by lia. by destruct (first_available s _ _).
Qed.

Definition cursor (s : EsifHandleMgr) : Z := curLine s * 64 + curPos s.
Definition next_instance (s : EsifHandleMgr) : EsifHandleMgr :=
  mk_mgr (handleMapPtr s) (handleMapSize s) (numAvailableHandles s) (curLine s) (curPos s) (u64 (instanceCounter s + 1)).

Lemma next_instance_ok s : mgr_ok s -> mgr_ok (next_instance s).
Proof. intros [H1 H2 H3 H4]. by split. Qed.

(** Finding a handle is a search through the slots in a circle.  The loops over
    lines and bits, whose word and bit bounds change with the place where the
    search starts, find exactly what a search through the slots one by one finds:
    the first slot from the cursor on that is free (and whose handle is not
    reserved); failing that, with the next instance number, the first such slot
    up to the cursor. *)
Theorem handle_search_equiv (s : EsifHandleMgr) (Hok : mgr_ok s) :
  EsifHandleMgr_FindHandle s =
  Some match (if cursor s =? num_slots s - 1 then None else first_available s (Z.to_nat (num_slots s - cursor s)) (cursor s)) with
       | Some k => ((ESIF_OK, Some (slot_handle (instanceCounter s) k)), take_slot k s)
       | None =>
           match first_available (next_instance s) (Z.to_nat (cursor s + 1)) 0 with
           | Some k => ((ESIF_OK, Some (slot_handle (u64 (instanceCounter s + 1)) k)), take_slot k (next_instance s))
           | None => ((ESIF_E_INVALID_HANDLE, None), next_instance s)
           end
       end.
Proof.
  pose proof (mo_size s Hok) as Hsz. pose proof (mo_lines s Hok). pose proof (mo_line s Hok). pose proof (mo_pos s Hok).
  assert (Elast : u64 (handleMapSize s / ESIF_HNDLMGR_LINE_SIZE - 1) = Z.of_nat (length (handleMapPtr s)) - 1).
  { rewrite Hsz. change ESIF_HNDLMGR_LINE_SIZE with 8. rewrite Z.mul_comm, Z.div_mul by lia. apply wrap_small. unfold in_range. lia. }
  unfold EsifHandleMgr_FindHandle. run_monad. rewrite Elast. unfold ESIF_HNDLMGR_HANDLES_PER_LINE.
  assert (Ecur : negb (curPos s =? 64 - 1) || negb (curLine s =? Z.of_nat (length (handleMapPtr s)) - 1) = negb (cursor s =? num_slots s - 1)).
  { rewrite <- negb_andb. f_equal. unfold cursor, num_slots. apply eq_true_iff_eq. rewrite andb_true_iff, !Z.eqb_eq. lia. }
  rewrite Ecur. set (second := sbind _ _) at 1.
  assert (Hsecond : forall r s', (r, s') = ((ESIF_E_INVALID_HANDLE, @None Z), s) ->
    EsifHandleMgr_FindHandleInRegion 0 (curLine (next_instance s)) 0 (curPos (next_instance s)) (next_instance s) =
    Some match first_available (next_instance s) (Z.to_nat (cursor s + 1)) 0 with
         | Some k => ((ESIF_OK, Some (slot_handle (u64 (instanceCounter s + 1)) k)), take_slot k (next_instance s))
         | None => ((ESIF_E_INVALID_HANDLE, None), next_instance s)
         end).
  { intros _ _ _. rewrite find_in_region_spec by (cbn; try apply next_instance_ok; try done; lia). cbn [curLine curPos next_instance].
    replace (curLine s * 64 + curPos s + 1 - (0 * 64 + 0)) with (cursor s + 1) by (unfold cursor; lia). reflexivity. }
  subst second. unfold sbind at 1. destruct (Z.eqb_spec (cursor s) (num_slots s - 1)) as [E|E]; cbn [negb].
  - cbn [sret fst]. change (negb (ESIF_E_INVALID_HANDLE =? ESIF_OK)) with true. cbn iota. exact (Hsecond _ _ eq_refl).
  - rewrite find_in_region_spec by (try done; lia).
    replace ((Z.of_nat (length (handleMapPtr s)) - 1) * 64 + (64 - 1) + 1 - (curLine s * 64 + curPos s)) with (num_slots s - cursor s) by (unfold num_slots, cursor; lia).
    fold (cursor s). destruct (first_available s _ (cursor s)) as [k|]; [reflexivity|].
    cbn [fst]. change (negb (ESIF_E_INVALID_HANDLE =? ESIF_OK)) with true. cbn iota. exact (Hsecond _ _ eq_refl).
Qed.

(* ------------------------------------------------------------------ *)
(** ** Handles in use *)

Inductive hev : Type := HGet (mem : bool) | HPut (h : Z).

(** Owners that only give back handles they have: the manager and the handles
    that are in use. *)
Inductive hrun : list hev -> EsifHandleMgr -> gset Z -> Prop :=
  | hr_create s : EsifHandleMgr_Create true true = Some s -> hrun [] s ∅
  | hr_get tr s live mem rc h s' :
      hrun tr s live -> EsifHandleMgr_GetNextHandle mem true (Some s) = Some (rc, Some h, Some s') ->
      hrun (tr ++ [HGet mem]) s' (if rc =? ESIF_OK then {[h]} ∪ live else live)
  | hr_put tr s live h rc s' :
      hrun tr s live -> h ∈ live -> EsifHandleMgr_PutHandle h (Some s) = Some (rc, Some s') ->
      hrun (tr ++ [HPut h]) s' (live ∖ {[h]}).

Definition slot_of (h : Z) : Z := h mod 65536.

Record hinv (n : Z) (s : EsifHandleMgr) (live : gset Z) : Prop := {
  hi_ok : mgr_ok s;
  hi_ic : 0 <= instanceCounter s <= n;
  hi_used : forall k, 0 <= k < num_slots s -> used (handleMapPtr s) k = true <-> exists h, h ∈ live /\ slot_of h = k;
  hi_live : forall h, h ∈ live -> exists ic k, h = slot_handle ic k /\ 0 <= k < num_slots s /\ 0 <= ic <= instanceCounter s /\
    EsifHandleMgr_IsReservedHandle h = false;
  hi_inj : forall h h', h ∈ live -> h' ∈ live -> slot_of h = slot_of h' -> h = h';
  hi_avail : numAvailableHandles s = num_slots s - Z.of_nat (size live);
  hi_start : instanceCounter s = 0 -> (live = ∅ /\ cursor s = 0) \/ 2 <= cursor s
}.

Lemma slot_handle_eq ic k : 0 <= k < 65536 -> 0 <= ic < 2 ^ 48 -> slot_handle ic k = k + ic * 65536.
Proof.
  intros Hk Hic. unfold slot_handle. rewrite wrap_small by (rewrite Z.shiftl_mul_pow2 by lia; unfold in_range; lia).
  assert (Hl : Z.land k (Z.shiftl ic 16) = 0).
  { apply Z.bits_inj'. intros n Hn. rewrite Z.land_spec, Z.bits_0. destruct (Z.lt_ge_cases n 16).
    - rewrite Z.shiftl_spec_low by lia. by rewrite andb_false_r.
    - rewrite (in_range_testbit 16 k n); [done|lia|unfold in_range; lia]. }
  rewrite <- Z.lxor_lor, <- Z.add_nocarry_lxor by done. rewrite Z.shiftl_mul_pow2 by lia. reflexivity.
Qed.

Lemma slot_of_handle ic k : 0 <= k < 65536 -> 0 <= ic < 2 ^ 48 -> slot_of (slot_handle ic k) = k.
Proof. intros. rewrite slot_handle_eq by done. unfold slot_of. rewrite Z.mod_add by lia. apply Z.mod_small. lia. Qed.

Lemma reserved_handle ic k : 0 <= k < 65536 -> 0 <= ic < 2 ^ 47 ->
  EsifHandleMgr_IsReservedHandle (slot_handle ic k) = true <-> ic = 0 /\ k < 2.
Proof.
  intros Hk Hic. rewrite slot_handle_eq by lia. unfold EsifHandleMgr_IsReservedHandle, ESIF_HANDLE_DEFAULT,
    ESIF_HANDLE_PRIMARY_PARTICIPANT, ESIF_HANDLE_MATCH_ANY_EVENT, ESIF_INVALID_HANDLE.
  rewrite !orb_true_iff, !Z.eqb_eq. lia.
Qed.

Lemma used_set l k k' : 0 <= k -> 0 <= k' < 64 * Z.of_nat (length l) ->
  used (set_used l k) k' = (k =? k') || used l k' /\ used (set_free l k) k' = negb (k =? k') && used l k'.
Proof.
  intros Hk Hk'. unfold used, set_used, set_free.
  pose proof (Z.div_mod k 64) as D1. pose proof (Z.div_mod k' 64) as D2. pose proof (Z.mod_pos_bound k 64). pose proof (Z.mod_pos_bound k' 64).
  pose proof (Z.div_pos k 64). pose proof (Z.div_pos k' 64).
  destruct (decide (Z.to_nat (k / 64) = Z.to_nat (k' / 64))) as [E|E].
  - assert (E2 : k / 64 = k' / 64) by lia. rewrite E2, !list_lookup_alter_eq.
    destruct (l !! Z.to_nat (k' / 64)) as [line|] eqn:El.
    + cbn. rewrite Z.lor_spec, Z.ldiff_spec, Z.pow2_bits_eqb by lia.
      assert (Eb : (k mod 64 =? k' mod 64) = (k =? k')) by (apply eq_true_iff_eq; rewrite !Z.eqb_eq; lia).
      rewrite Eb. by destruct (k =? k'), (Z.testbit _ _).
    + exfalso. apply lookup_ge_None in El. pose proof (Z.div_lt_upper_bound k' 64 (Z.of_nat (length l))). lia.
  - rewrite !list_lookup_alter_ne by done. rewrite (proj2 (Z.eqb_neq k k')) by congruence. by destruct (l !! _).
Qed.

Lemma num_slots_bound s : mgr_ok s -> 64 <= num_slots s <= 65536.
Proof. intros Hok. pose proof (mo_lines s Hok). unfold num_slots. lia. Qed.

Lemma cursor_bound s : mgr_ok s -> 0 <= cursor s < num_slots s.
Proof. intros Hok. pose proof (mo_line s Hok). pose proof (mo_pos s Hok). unfold cursor, num_slots. lia. Qed.

Lemma live_slot n s live h : hinv n s live -> n < 2 ^ 47 -> h ∈ live -> 0 <= slot_of h < num_slots s.
Proof.
  intros Hi Hn Hh. destruct (hi_live _ _ _ Hi h Hh) as (ic & k & -> & Hk & Hic & _).
  pose proof (num_slots_bound s (hi_ok _ _ _ Hi)). pose proof (hi_ic _ _ _ Hi). rewrite slot_of_handle by lia. done.
Qed.

Lemma available_spec n s live k : hinv n s live -> n < 2 ^ 47 -> 0 <= k < num_slots s ->
  available s k = true <-> (forall h, h ∈ live -> slot_of h <> k) /\ (instanceCounter s = 0 -> 2 <= k).
Proof.
  intros Hi Hn Hk. pose proof (num_slots_bound s (hi_ok _ _ _ Hi)). pose proof (hi_ic _ _ _ Hi).
  unfold available. rewrite andb_true_iff, !negb_true_iff.
  rewrite <- !not_true_iff_false, (hi_used _ _ _ Hi k Hk), reserved_handle by lia. split.
  - intros [H1 H2]. split; [|lia]. intros h Hh E. apply H1. by exists h.
  - intros [H1 H2]. split; [intros (h & Hh & E); by apply (H1 h)|lia].
Qed.

Lemma take_inv n s live k : hinv n s live -> n < 2 ^ 47 -> 0 <= k < num_slots s -> available s k = true ->
  let h := slot_handle (instanceCounter s) k in
  hinv n (take_slot k s) ({[h]} ∪ live) /\ EsifHandleMgr_IsReservedHandle h = false /\
  forall h', h' ∈ live -> slot_of h' <> slot_of h.
Proof.
  intros Hi Hn Hk Hav h. pose proof (hi_ok _ _ _ Hi) as Hok. pose proof (num_slots_bound s Hok). pose proof (hi_ic _ _ _ Hi) as Hic.
  assert (Eslot : slot_of h = k) by (apply slot_of_handle; lia).
  pose proof Hav as Hav'. apply (available_spec n s live k Hi Hn Hk) in Hav as [Hfree Hstart].
  unfold available in Hav'. apply andb_true_iff in Hav' as [_ Hres%negb_true_iff]. fold h in Hres.
  assert (Hnl : h ∉ live) by (intros Hh; by apply (Hfree h)).
  assert (Elen : length (set_used (handleMapPtr s) k) = length (handleMapPtr s)) by apply length_alter.
  pose proof (mo_lines s Hok). pose proof (Z.mod_pos_bound k 64). pose proof (Z.div_mod k 64). pose proof (Z.div_pos k 64).
  split; [|split; [done|rewrite Eslot; exact Hfree]]. split.
  - destruct Hok as [H1' H2' H3' H4']. split; cbn; rewrite ?Elen; try done; try lia.
    split; [by apply Z.div_pos; lia|]. apply Z.div_lt_upper_bound; [lia|]. unfold num_slots in Hk. lia.
  - done.
  - unfold num_slots. cbn [take_slot handleMapPtr]. rewrite Elen. intros k' Hk'. rewrite (proj1 (used_set (handleMapPtr s) k k' ltac:(lia) Hk')).
    rewrite orb_true_iff, Z.eqb_eq, (hi_used _ _ _ Hi k' Hk'). split.
    + intros [<-|(h' & Hh' & E')]; [exists h; split; [set_solver|done]|exists h'; split; [set_solver|done]].
    + intros (h' & [->%elem_of_singleton|Hh']%elem_of_union & E'); [left; congruence|right; by exists h'].
  - unfold num_slots. cbn [take_slot handleMapPtr instanceCounter]. rewrite Elen.
    intros h' [->%elem_of_singleton|Hh']%elem_of_union; [|by apply (hi_live _ _ _ Hi)].
    exists (instanceCounter s), k. unfold num_slots in Hk. split_and!; try done; lia.
  - intros h1 h2 [->%elem_of_singleton|Hh1]%elem_of_union [->%elem_of_singleton|Hh2]%elem_of_union E; [done| | |by apply (hi_inj _ _ _ Hi)].
    + exfalso. apply (Hfree h2 Hh2). congruence.
    + exfalso. apply (Hfree h1 Hh1). congruence.
  - unfold num_slots. cbn [take_slot handleMapPtr numAvailableHandles]. rewrite Elen, (hi_avail _ _ _ Hi). fold (num_slots s).
    rewrite size_union, size_singleton by set_solver.
    assert (Z.of_nat (size live) < num_slots s).
    { destruct (decide (Z.of_nat (size live) < num_slots s)); [done|]. exfalso.
      assert (Hsub : (k :: (slot_of <$> elements live)) ⊆+ seqZ 0 (num_slots s)).
      { apply NoDup_submseteq.
        - apply NoDup_cons. split; [intros (h' & E & Hh')%list_elem_of_fmap; apply elem_of_elements in Hh'; by apply (Hfree h')|].
          apply NoDup_fmap_2_strong; [|apply NoDup_elements]. intros x y Hx%elem_of_elements Hy%elem_of_elements. by apply (hi_inj _ _ _ Hi).
        - intros x [->|(h' & -> & Hh'%elem_of_elements)%list_elem_of_fmap]%elem_of_cons; apply elem_of_seqZ; [lia|].
          pose proof (live_slot n s live h' Hi Hn Hh'). lia. }
      apply submseteq_length in Hsub. rewrite length_seqZ in Hsub. cbn in Hsub. rewrite length_fmap in Hsub. unfold size, set_size in *. cbn in *. lia. }
    rewrite wrap_small by (unfold in_range; lia). lia.
  - cbn [take_slot instanceCounter]. intros E0. right. unfold cursor. cbn. specialize (Hstart E0). lia.
Qed.

Lemma next_inv n s live : hinv n s live -> n < 2 ^ 47 -> hinv (n + 1) (next_instance s) live /\ instanceCounter (next_instance s) = instanceCounter s + 1.
Proof.
  intros Hi Hn. pose proof (hi_ic _ _ _ Hi).
  assert (E : u64 (instanceCounter s + 1) = instanceCounter s + 1) by (apply wrap_small; unfold in_range; lia).
  split; [|done]. split; cbn [next_instance handleMapPtr instanceCounter numAvailableHandles]; rewrite ?E; try lia.
  - by apply next_instance_ok, (hi_ok _ _ _ Hi).
  - apply (hi_used _ _ _ Hi).
  - intros h Hh. change (num_slots (next_instance s)) with (num_slots s). destruct (hi_live _ _ _ Hi h Hh) as (ic & k & H1 & H2 & H3 & H4). exists ic, k. split_and!; try done; lia.
  - apply (hi_inj _ _ _ Hi).
  - apply (hi_avail _ _ _ Hi).
Qed.

(** As long as not every slot is in use, one is free. *)
Lemma free_slot n s live : hinv n s live -> n < 2 ^ 47 -> Z.of_nat (size live) < num_slots s ->
  exists k, 0 <= k < num_slots s /\ forall h, h ∈ live -> slot_of h <> k.
Proof.
  intros Hi Hn Hsz. destruct (decide (Forall (fun k => k ∈ slot_of <$> elements live) (seqZ 0 (num_slots s)))) as [Hall|Hex].
  - exfalso. assert (Hsub : seqZ 0 (num_slots s) ⊆+ slot_of <$> elements live).
    { apply NoDup_submseteq; [apply NoDup_seqZ|]. intros x Hx. by apply (proj1 (Forall_forall _ _) Hall). }
    apply submseteq_length in Hsub. rewrite length_fmap, length_seqZ in Hsub. unfold size, set_size in Hsz. cbn in Hsz. lia.
  - apply not_Forall_Exists in Hex; [|apply _]. apply Exists_exists in Hex as (k & Hk%elem_of_seqZ & Hnk). exists k. split; [lia|].
    intros h Hh E. apply Hnk, list_elem_of_fmap. exists h. split; [done|by apply elem_of_elements].
Qed.

Lemma find_inv n s live : hinv n s live -> n < 2 ^ 47 - 1 -> Z.of_nat (size live) < num_slots s ->
  exists h s', EsifHandleMgr_FindHandle s = Some ((ESIF_OK, Some h), s') /\ hinv (n + 1) s' ({[h]} ∪ live) /\
    EsifHandleMgr_IsReservedHandle h = false /\ forall h', h' ∈ live -> slot_of h' <> slot_of h.
Proof.
  intros Hi Hn Hsz. pose proof (hi_ok _ _ _ Hi) as Hok. pose proof (cursor_bound s Hok) as Hc. pose proof (hi_ic _ _ _ Hi) as Hic.
  pose proof (num_slots_bound s Hok) as HN.
  destruct (free_slot n s live Hi ltac:(lia) Hsz) as (k & Hk & Hfree). rewrite (handle_search_equiv s Hok).
  destruct (if cursor s =? num_slots s - 1 then None else first_available s (Z.to_nat (num_slots s - cursor s)) (cursor s)) as [k1|] eqn:E1.
  - destruct (cursor s =? num_slots s - 1); [done|]. apply first_available_some in E1 as (Hk1 & Hav & _).
    destruct (take_inv n s live k1 Hi ltac:(lia) ltac:(lia) Hav) as (Hi' & Hres & Hne). eexists _, _. split; [reflexivity|]. split; [|done].
    destruct Hi' as [A B C D E F G]. split; try done. lia.
  - destruct (next_inv n s live Hi ltac:(lia)) as [Hi1 Eic]. fold (instanceCounter (next_instance s)).
    assert (Hin : first_available (next_instance s) (Z.to_nat (cursor s + 1)) 0 <> None).
    { intros Hno. pose proof (first_available_none _ _ _ Hno) as Hno'.
      assert (Havn : forall j, 0 <= j <= cursor s -> (forall h, h ∈ live -> slot_of h <> j) -> False).
      { intros j Hj Hfj. specialize (Hno' j ltac:(lia)).
        rewrite (proj2 (available_spec (n + 1) (next_instance s) live j Hi1 ltac:(lia) ltac:(change (num_slots (next_instance s)) with (num_slots s); lia))) in Hno'; [done|].
        split; [done|]. rewrite Eic. lia. }
      destruct (Z.le_gt_cases k (cursor s)) as [Hle|Hgt]; [apply (Havn k); [lia|done]|].
      rewrite (proj2 (Z.eqb_neq (cursor s) (num_slots s - 1))) in E1 by lia. pose proof (first_available_none _ _ _ E1) as Hno1.
      assert (Hlow : instanceCounter s = 0 /\ k < 2).
      { destruct (decide (instanceCounter s = 0 /\ k < 2)) as [|Hn2]; [done|]. exfalso. specialize (Hno1 k ltac:(lia)).
        rewrite (proj2 (available_spec n s live k Hi ltac:(lia) Hk)) in Hno1; [done|]. split; [done|lia]. }
      destruct (hi_start _ _ _ Hi (proj1 Hlow)) as [[-> Ec]|Hc2]; [|lia]. specialize (Hno1 2 ltac:(lia)).
      rewrite (proj2 (available_spec n s ∅ 2 Hi ltac:(lia) ltac:(lia))) in Hno1; [done|]. split; [set_solver|lia]. }
    destruct (first_available (next_instance s) _ 0) as [k2|] eqn:E2; [|done]. apply first_available_some in E2 as (Hk2 & Hav & _).
    destruct (take_inv (n + 1) (next_instance s) live k2 Hi1 ltac:(lia) ltac:(change (num_slots (next_instance s)) with (num_slots s); lia) Hav) as (Hi' & Hres & Hne).
    eexists _, _. split; [reflexivity|]. done.
Qed.

Lemma live_bound n s live : hinv n s live -> n < 2 ^ 47 -> Z.of_nat (size live) <= num_slots s.
Proof.
  intros Hi Hn. assert (Hsub : (slot_of <$> elements live) ⊆+ seqZ 0 (num_slots s)).
  { apply NoDup_submseteq.
    - apply NoDup_fmap_2_strong; [|apply NoDup_elements]. intros x y Hx%elem_of_elements Hy%elem_of_elements. by apply (hi_inj _ _ _ Hi).
    - intros x (h' & -> & Hh'%elem_of_elements)%list_elem_of_fmap. apply elem_of_seqZ. pose proof (live_slot n s live h' Hi Hn Hh'). lia. }
  apply submseteq_length in Hsub. rewrite length_fmap, length_seqZ in Hsub. pose proof (num_slots_bound s (hi_ok _ _ _ Hi)). unfold size, set_size. cbn. lia.
Qed.

Lemma grow_inv n s live : hinv n s live -> n < 2 ^ 47 -> handleMapSize s < ESIF_HNDLMGR_MAX_HANDLE_MAP_SIZE ->
  exists s', EsifHandleMgr_AllocateAdditionalHandles true s = Some (ESIF_OK, s') /\ hinv n s' live /\ num_slots s' = num_slots s + 64.
Proof.
  intros Hi Hn Hlt. pose proof (hi_ok _ _ _ Hi) as Hok. pose proof Hok as [H1 H2 H3 H4]. rewrite H1 in Hlt. change ESIF_HNDLMGR_MAX_HANDLE_MAP_SIZE with 8192 in Hlt.
  pose proof (live_bound n s live Hi Hn) as Hsz.
  eexists. split; [reflexivity|]. pose proof (hi_avail _ _ _ Hi) as Ha. pose proof (num_slots_bound s Hok) as HN.
  assert (EN : num_slots s + 64 = 64 * Z.of_nat (length (handleMapPtr s ++ [0]))) by (unfold num_slots; rewrite length_app; cbn; lia).
  split; [|unfold num_slots at 1; cbn [handleMapPtr]; by rewrite EN].
  split; unfold num_slots; cbn [handleMapPtr handleMapSize numAvailableHandles curLine curPos instanceCounter]; rewrite <- ?EN.
  - split; cbn; rewrite ?length_app; cbn; try lia. rewrite H1. change ESIF_HNDLMGR_LINE_SIZE with 8. rewrite wrap_small by (unfold in_range; lia). lia.
  - apply (hi_ic _ _ _ Hi).
  - intros k Hk. destruct (Z.lt_ge_cases k (num_slots s)) as [Hlt'|Hge].
    + rewrite <- (hi_used _ _ _ Hi k) by lia. unfold used. rewrite lookup_app_l; [done|].
      assert (k / 64 < Z.of_nat (length (handleMapPtr s))) by (apply Z.div_lt_upper_bound; unfold num_slots in *; lia). pose proof (Z.div_pos k 64). lia.
    + assert (Eu : used (handleMapPtr s ++ [0]) k = false).
      { unfold used. assert (k / 64 = Z.of_nat (length (handleMapPtr s))) as ->.
        { symmetry. apply (Z.div_unique k 64 _ (k - num_slots s)); unfold num_slots in *; lia. }
        rewrite Nat2Z.id, lookup_app_r, Nat.sub_diag by lia. cbn. apply Z.testbit_0_l. }
      rewrite Eu. split; [done|]. intros (h & Hh & E). pose proof (live_slot n s live h Hi Hn Hh). lia.
  - intros h Hh. destruct (hi_live _ _ _ Hi h Hh) as (ic & k & E1 & E2 & E3 & E4). exists ic, k. split_and!; try done; lia.
  - apply (hi_inj _ _ _ Hi).
  - rewrite Ha. change ESIF_HNDLMGR_HANDLES_PER_LINE with 64. rewrite wrap_small by (unfold in_range; lia). lia.
  - apply (hi_start _ _ _ Hi).
Qed.

Lemma put_inv n s live h : hinv n s live -> n < 2 ^ 47 -> h ∈ live ->
  exists s', EsifHandleMgr_PutHandle h (Some s) = Some (ESIF_E_UNSPECIFIED, Some s') /\ hinv n s' (live ∖ {[h]}).
Proof.
  intros Hi Hn Hh. pose proof (hi_ok _ _ _ Hi) as Hok. pose proof Hok as [H1 H2 H3 H4]. pose proof (num_slots_bound s Hok) as HN.
  destruct (hi_live _ _ _ Hi h Hh) as (ic & k & Eh & Hk & Hic & Hres). pose proof (hi_ic _ _ _ Hi) as Hics.
  assert (Eslot : slot_of h = k) by (rewrite Eh; apply slot_of_handle; lia).
  assert (Emask : Z.land h ESIF_HNDLMGR_HANDLE_MASK = k).
  { change ESIF_HNDLMGR_HANDLE_MASK with (Z.ones 16). rewrite Z.land_ones by lia. exact Eslot. }
  unfold EsifHandleMgr_PutHandle. rewrite Hres, Emask, H1. change ESIF_HNDLMGR_LINE_SIZE with 8. change ESIF_HNDLMGR_HANDLES_PER_LINE with 64.
  rewrite (Z.mul_comm 8), Z.div_mul by lia. pose proof (Z.div_pos k 64). pose proof (Z.mod_pos_bound k 64).
  assert (Hkl : k / 64 < Z.of_nat (length (handleMapPtr s))) by (apply Z.div_lt_upper_bound; unfold num_slots in *; lia).
  rewrite (proj2 (Z.ltb_lt _ _) Hkl). destruct (lookup_lt_is_Some_2 (handleMapPtr s) (Z.to_nat (k / 64))) as [line El]; [lia|]. rewrite El.
  eexists. split; [reflexivity|].
  assert (Efree : <[Z.to_nat (k / 64):=Z.ldiff line (u64 (Z.shiftl 1 (k mod 64)))]> (handleMapPtr s) = set_free (handleMapPtr s) k).
  { unfold set_free. rewrite Z.shiftl_1_l, wrap_small by (split; [apply Z.pow_nonneg; lia|apply Z.pow_lt_mono_r; lia]).
    apply list_eq. intros i. destruct (decide (i = Z.to_nat (k / 64))) as [->|Hne].
    - rewrite list_lookup_insert_eq by (by eapply lookup_lt_Some). by rewrite list_lookup_alter_eq, El.
    - by rewrite list_lookup_insert_ne, list_lookup_alter_ne by done. }
  rewrite Efree. assert (Elen : length (set_free (handleMapPtr s) k) = length (handleMapPtr s)) by apply length_alter.
  assert (Hsz : Z.of_nat (size live) = Z.of_nat (size (live ∖ {[h]})) + 1).
  { rewrite size_difference, size_singleton by set_solver. pose proof (size_non_empty_iff live). assert (size live <> 0%nat) by set_solver. lia. }
  split; unfold num_slots, cursor; cbn [handleMapPtr handleMapSize numAvailableHandles curLine curPos instanceCounter]; rewrite ?Elen.
  - split; cbn; rewrite ?Elen; try done; lia.
  - done.
  - intros k' Hk'. rewrite (proj2 (used_set (handleMapPtr s) k k' ltac:(lia) Hk')), andb_true_iff, negb_true_iff, Z.eqb_neq, (hi_used _ _ _ Hi k' Hk').
    split.
    + intros [Hne (h' & Hh' & E')]. exists h'. split; [|done]. apply elem_of_difference. split; [done|]. intros ->%elem_of_singleton. congruence.
    + intros (h' & [Hh' Hne%not_elem_of_singleton]%elem_of_difference & E'). split; [|by exists h'].
      intros Ek. apply Hne. apply (hi_inj _ _ _ Hi); [done|done|congruence].
  - intros h' [Hh' _]%elem_of_difference. by apply (hi_live _ _ _ Hi).
  - intros h1 h2 [Hh1 _]%elem_of_difference [Hh2 _]%elem_of_difference. by apply (hi_inj _ _ _ Hi).
  - pose proof (live_bound n s live Hi Hn). rewrite (hi_avail _ _ _ Hi). rewrite wrap_small; unfold num_slots, in_range in *; lia.
  - intros E0. destruct (hi_start _ _ _ Hi E0) as [[-> _]|]; [set_solver|by right].
Qed.

Lemma create_inv s : EsifHandleMgr_Create true true = Some s -> hinv 0 s ∅.
Proof.
  intros E. vm_compute in E. injection E as <-. split.
  - split; cbn; lia.
  - cbn. lia.
  - intros k Hk. change (num_slots _) with 64 in Hk. split; [|set_solver].
    intros Hu. unfold used in Hu. rewrite Z.div_small in Hu by lia. change (Z.testbit 0 (k mod 64) = true) in Hu. by rewrite Z.testbit_0_l in Hu.
  - set_solver.
  - set_solver.
  - reflexivity.
  - by left.
Qed.

(** Every call of [EsifHandleMgr_GetNextHandle]. *)
Lemma get_inv n s live mem : hinv n s live -> n < 2 ^ 47 - 1 ->
  exists rc h s', EsifHandleMgr_GetNextHandle mem true (Some s) = Some (rc, Some h, Some s') /\
  (rc = ESIF_OK /\ hinv (n + 1) s' ({[h]} ∪ live) /\ EsifHandleMgr_IsReservedHandle h = false /\ (forall h', h' ∈ live -> slot_of h' <> slot_of h) \/
   s' = s /\ h = ESIF_INVALID_HANDLE /\
     (rc = ESIF_E_INVALID_HANDLE /\ Z.of_nat (size live) = ESIF_HNDLMGR_MAX_HANDLES \/
      rc = ESIF_E_NO_MEMORY /\ mem = false /\ num_slots s < ESIF_HNDLMGR_MAX_HANDLES)).
Proof.
  intros Hi Hn. pose proof (hi_ok _ _ _ Hi) as Hok. pose proof (mo_size s Hok) as Hsz. pose proof (mo_lines s Hok) as Hl. pose proof (hi_avail _ _ _ Hi) as Ha.
  pose proof (live_bound n s live Hi ltac:(lia)) as Hb.
  unfold EsifHandleMgr_GetNextHandle, EsifHandleMgr_GetHandle. run_monad. rewrite Hsz.
  change ESIF_HNDLMGR_MAX_HANDLE_MAP_SIZE with 8192. change ESIF_HNDLMGR_HANDLES_PER_LINE with 64. change ESIF_HNDLMGR_MAX_HANDLES with 65536.
  destruct ((numAvailableHandles s =? 0) && (8192 <=? 8 * Z.of_nat (length (handleMapPtr s)))) eqn:E0.
  { bool_to_prop. eexists _, _, _. split; [reflexivity|]. right. split; [done|split; [done|left]]. split; [done|]. unfold num_slots in Ha. lia. }
  apply andb_false_iff in E0. rewrite Z.eqb_neq, Z.leb_gt in E0.
  assert (Hfound : forall s1, hinv n s1 live -> Z.of_nat (size live) < num_slots s1 ->
    exists h s', (let! r := EsifHandleMgr_FindHandle in sret (r.1, default ESIF_INVALID_HANDLE r.2)) s1 = Some ((ESIF_OK, h), s') /\
      hinv (n + 1) s' ({[h]} ∪ live) /\ EsifHandleMgr_IsReservedHandle h = false /\ forall h', h' ∈ live -> slot_of h' <> slot_of h).
  { intros s1 Hi1 Hs1. destruct (find_inv n s1 live Hi1 Hn Hs1) as (h & s' & E & Hh). exists h, s'. split; [|done]. unfold sbind. by rewrite E. }
  destruct ((numAvailableHandles s <? 64) && (8 * Z.of_nat (length (handleMapPtr s)) <? 8192)) eqn:E1.
  - bool_to_prop. destruct mem.
    + destruct (grow_inv n s live Hi ltac:(lia)) as (s1 & Eg & Hi1 & EN); [rewrite Hsz; done|].
      destruct (Hfound s1 Hi1 ltac:(lia)) as (h & s' & E & Hh). exists ESIF_OK, h, s'. split; [|by left]. unfold sbind at 1. rewrite Eg. cbn iota beta. rewrite Z.eqb_refl.
      by rewrite E.
    + eexists _, _, _. split; [reflexivity|]. right. split; [done|split; [done|right]]. split; [done|split; [done|unfold num_slots; lia]].
  - destruct (Hfound s Hi) as (h & s' & E & Hh); [apply andb_false_iff in E1; rewrite !Z.ltb_ge in E1; lia|].
    exists ESIF_OK, h, s'. split; [|by left]. unfold sbind at 1. cbn iota beta. run_monad. rewrite Z.eqb_refl. by rewrite E.
Qed.

Lemma hrun_inv tr s live : hrun tr s live -> Z.of_nat (length tr) < 2 ^ 47 -> hinv (Z.of_nat (length tr)) s live.
Proof.
  induction 1 as [s E|tr s live mem rc h s' Hr IH E|tr s live h rc s' Hr IH Hh E]; [intros _; by apply create_inv|..];
    rewrite length_app; cbn [length]; intros Hlt; specialize (IH ltac:(lia));
    replace (Z.of_nat (length tr + 1)) with (Z.of_nat (length tr) + 1) by lia.
  - destruct (get_inv _ s live mem IH ltac:(lia)) as (rc' & h' & s1 & E' & Hcase). rewrite E in E'. injection E' as <- <- <-.
    destruct Hcase as [(-> & Hi & _)|(-> & _ & Hrc)]; [done|].
    assert (Hne : rc =? ESIF_OK = false) by (destruct Hrc as [[-> _]|[-> _]]; reflexivity). rewrite Hne.
    destruct IH as [A B C D F G I]. split; try done. lia.
  - destruct (put_inv _ s live h IH ltac:(lia) Hh) as (s1 & E' & Hi). rewrite E in E'. injection E' as _ <-.
    destruct Hi as [A B C D F G I]. split; try done. lia.
Qed.

(** C38: Handles in use are never given out again.  As long as owners only give
    back handles that they have (and fewer than 2^47 calls have been made), the
    next call gives a handle that is not reserved and differs from every handle
    in use, even in its slot, so that giving it back frees nobody else's; it
    fails only when all 65536 slots are in use, or when the map could still grow
    and the memory for that is not there.  Giving a handle back never leaves the
    map. *)
Theorem handles_unique (tr : list hev) (s : EsifHandleMgr) (live : gset Z)
    (Hrun : hrun tr s live) (Hlen : Z.of_nat (length tr) < 2 ^ 47 - 1) :
  (forall mem, exists rc h s', EsifHandleMgr_GetNextHandle mem true (Some s) = Some (rc, Some h, Some s') /\
     (rc = ESIF_OK /\ h ∉ live /\ EsifHandleMgr_IsReservedHandle h = false /\ (forall h', h' ∈ live -> slot_of h' <> slot_of h) \/
      rc = ESIF_E_INVALID_HANDLE /\ h = ESIF_INVALID_HANDLE /\ Z.of_nat (size live) = ESIF_HNDLMGR_MAX_HANDLES \/
      rc = ESIF_E_NO_MEMORY /\ h = ESIF_INVALID_HANDLE /\ mem = false /\ num_slots s < ESIF_HNDLMGR_MAX_HANDLES)) /\
  (forall h, h ∈ live -> exists rc s', EsifHandleMgr_PutHandle h (Some s) = Some (rc, Some s')) /\
  numAvailableHandles s = num_slots s - Z.of_nat (size live).
Proof.
  pose proof (hrun_inv tr s live Hrun ltac:(lia)) as Hi. split_and!; [..|exact (hi_avail _ _ _ Hi)].
  - intros mem. destruct (get_inv _ s live mem Hi Hlen) as (rc & h & s' & E & Hcase). exists rc, h, s'. split; [done|].
    destruct Hcase as [(-> & _ & Hres & Hne)|(_ & -> & [(-> & Hsz)|(-> & Hm & Hs)])]; [left|right; left; done|right; right; done].
    split_and!; try done. intros Hh. by apply (Hne h).
  - intros h Hh. destruct (put_inv _ s live h Hi ltac:(lia) Hh) as (s' & E & _). eauto.
Qed.

(* ------------------------------------------------------------------ *)
(** ** Runs on a new manager *)

Module HandleDemo.

Definition h0 : option EsifHandleMgr := EsifHandleMgr_Create true true.
(** [n] calls, and the handles they gave. *)
Fixpoint get_n (n : nat) (g : option EsifHandleMgr) : list Z * option EsifHandleMgr :=
  match n with
  | O => ([], g)
  | S n =>
      match EsifHandleMgr_GetNextHandle true true g with
      | Some (rc, Some h, g') => let r := get_n n g' in (if rc =? ESIF_OK then h :: r.1 else r.1, r.2)
      | _ => ([], None)
      end
  end.
Definition put (h : Z) (g : option EsifHandleMgr) : option EsifHandleMgr :=
  match EsifHandleMgr_PutHandle h g with Some (_, g') => g' | None => None end.
Definition s1 : EsifHandleMgr := default (mk_mgr [] 0 0 0 0 0) (get_n 1 h0).2.
Definition s2 : EsifHandleMgr := default (mk_mgr [] 0 0 0 0 0) (get_n 2 h0).2.

Lemma run_handles : hrun [HGet true; HGet true] s2 {[3; 2]}.
Proof.
  set (s0 := default (mk_mgr [] 0 0 0 0 0) h0).
  pose proof (hr_get [] s0 ∅ true ESIF_OK 2 s1 (hr_create s0 ltac:(reflexivity)) ltac:(vm_compute; reflexivity)) as H1.
  pose proof (hr_get _ s1 _ true ESIF_OK 3 s2 H1 ltac:(vm_compute; reflexivity)) as H2. cbn [app Z.eqb] in H2. change (ESIF_OK =? ESIF_OK) with true in H2. cbn iota in H2.
  replace {[3; 2]} with ({[3]} ∪ ({[2]} ∪ ∅) : gset Z) by set_solver. exact H2.
Qed.

End HandleDemo.

Lemma handle_search_equiv_witness :
  EsifHandleMgr_FindHandle HandleDemo.s2 = Some ((ESIF_OK, Some 4), take_slot 4 HandleDemo.s2) /\
  EsifHandleMgr_FindHandle HandleDemo.s2 =
  Some match (if cursor HandleDemo.s2 =? num_slots HandleDemo.s2 - 1 then None
              else first_available HandleDemo.s2 (Z.to_nat (num_slots HandleDemo.s2 - cursor HandleDemo.s2)) (cursor HandleDemo.s2)) with
       | Some k => ((ESIF_OK, Some (slot_handle (instanceCounter HandleDemo.s2) k)), take_slot k HandleDemo.s2)
       | None =>
           match first_available (next_instance HandleDemo.s2) (Z.to_nat (cursor HandleDemo.s2 + 1)) 0 with
           | Some k => ((ESIF_OK, Some (slot_handle (u64 (instanceCounter HandleDemo.s2 + 1)) k)), take_slot k (next_instance HandleDemo.s2))
           | None => ((ESIF_E_INVALID_HANDLE, None), next_instance HandleDemo.s2)
           end
       end.
Proof. split; [vm_compute; reflexivity|]. apply (handle_search_equiv HandleDemo.s2). split; [reflexivity|vm_compute; lia|split; by vm_compute|split; by vm_compute]. Defined.

Lemma handles_unique_witness :
  (HandleDemo.get_n 3 HandleDemo.h0).1 = [2; 3; 4] /\
  numAvailableHandles HandleDemo.s2 = num_slots HandleDemo.s2 - Z.of_nat (size ({[3; 2]} : gset Z)).
Proof.
  split; [vm_compute; reflexivity|].
  exact (proj2 (proj2 (handles_unique _ HandleDemo.s2 {[3; 2]} HandleDemo.run_handles ltac:(vm_compute; reflexivity)))).
Defined.

(** What the manager does not notice.  A handle given back is given out again at
    once, unchanged; giving it back a second time, when it has a new owner, makes
    it free once more, so that two owners then have the same handle; and each
    such call also raises the count of available handles, so that after enough
    of them the map no longer grows and a call fails with all its slots in use,
    although there is memory and the map is far below its limit. *)
Theorem handle_double_put :
  (HandleDemo.get_n 1 (HandleDemo.put 2 (HandleDemo.get_n 1 HandleDemo.h0).2)).1 = [2] /\
  (HandleDemo.get_n 1 (HandleDemo.put 2 (HandleDemo.get_n 1 (HandleDemo.put 2 (HandleDemo.get_n 1 HandleDemo.h0).2)).2)).1 = [2] /\
  let g := Nat.iter 70 (HandleDemo.put 2) (HandleDemo.get_n 2 HandleDemo.h0).2 in
  exists s rc h g', (HandleDemo.get_n 127 g).2 = Some s /\ num_slots s = 128 /\
    EsifHandleMgr_GetNextHandle true true (Some s) = Some (rc, Some h, g') /\ rc = ESIF_E_INVALID_HANDLE.
Proof. split_and!; [vm_compute; reflexivity..|]. cbn zeta. eexists _, _, _, _. split; [vm_compute; reflexivity|]. split; [reflexivity|]. split; vm_compute; reflexivity. Qed.
