(* ===== verification/HandleApi.v ===== *)
(** * The source of handles that the managers rely on

    [HandleApi] names the call by which a manager gets a handle, and [HandleLaws] is
    its contract: a handle that is given out is new and none of the reserved ones.
    The handle manager of HandleMgr.v satisfies it for its first 2^47 calls. *)

From S2P Require Import Prelude HandleMgr.
From stdpp Require Import gmap.
Local Open Scope Z_scope.

(** The result code, the handle and the new state; [mem] is the outcome of the
    allocation of a larger map. *)
Class HandleApi (H : Type) := { get_next_handle : bool -> H -> option (Z * Z * H) }.

(** [holds n h live]: [live] are the handles given out, and [n] more calls may come. *)
Class HandleLaws (H : Type) {api : HandleApi H} := {
  holds : nat -> H -> gset Z -> Prop;
  holds_weaken : forall n h live, holds (S n) h live -> holds n h live;
  next_handle_law : forall n h live mem, holds (S n) h live -> exists rc v h',
    get_next_handle mem h = Some (rc, v, h') /\
    (rc = ESIF_OK /\ holds n h' ({[v]} ∪ live) /\ v ∉ live /\ EsifHandleMgr_IsReservedHandle v = false \/
     rc <> ESIF_OK /\ holds n h' live)
}.

#[export] Instance handle_mgr_api : HandleApi EsifHandleMgr := {|
  get_next_handle mem s :=
    match EsifHandleMgr_GetNextHandle mem true (Some s) with
    | Some (rc, Some h, Some s') => Some (rc, h, s')
    | _ => None
    end
|}.

Definition mgr_holds (n : nat) (s : EsifHandleMgr) (live : gset Z) : Prop := exists k, hinv k s live /\ k + Z.of_nat n < 2 ^ 47.

Lemma mgr_holds_weaken n s live : mgr_holds (S n) s live -> mgr_holds n s live.
Proof. intros (k & Hk & Hn). exists k. split; [done|lia]. Qed.

Lemma mgr_next_handle n s live mem : mgr_holds (S n) s live -> exists rc v s',
  get_next_handle mem s = Some (rc, v, s') /\
  (rc = ESIF_OK /\ mgr_holds n s' ({[v]} ∪ live) /\ v ∉ live /\ EsifHandleMgr_IsReservedHandle v = false \/
   rc <> ESIF_OK /\ mgr_holds n s' live).
Proof.
  intros (k & Hk & Hn). destruct (get_inv k s live mem Hk ltac:(lia)) as (rc & h & s' & E & Hc). exists rc, h, s'. cbn [get_next_handle handle_mgr_api]. rewrite E. split; [done|].
  destruct Hc as [(-> & Hi & Hr & Hs)|(-> & -> & Hc)].
  - left. split_and!; [done|exists (k + 1); split; [done|lia]| |done]. intros Hin. by apply (Hs h).
  - right. split; [destruct Hc as [[-> _]|[-> _]]; discriminate|]. exists k. split; [done|lia].
Qed.

#[export] Instance handle_mgr_laws : HandleLaws EsifHandleMgr := {| holds := mgr_holds; holds_weaken := mgr_holds_weaken; next_handle_law := mgr_next_handle |}.
