(* ===== verification/Participant.v ===== *)
(** * Participants: esif_uf_participant.c

    A participant is created from the data of the lower framework or of a conjure,
    selects its support package, has up to ten domains and lives as long as there
    are references to it: [EsifUp_DestroyParticipant] waits until the last one has
    been put back.

    Participants are objects on a heap; [None] is the NULL pointer, and a call on an
    object that has been freed has no outcome.  Nor has a wait for an event that
    nobody sets: the model runs one thread.  The support packages are a parameter
    ([dsp_mgr]); calls of other components that give nothing back are recorded in
    [calls].  Of a participant's data the fields that decide something are there;
    [md_rest] stands for those that are only copied. *)

From S2P Require Import Prelude.
From stdpp Require Import list gmap strings.
Local Open Scope Z_scope.
Local Open Scope dptf_scope.

Definition ESIF_FLAG_DPTFZ : Z := 1.
Definition ESIF_FLAG_EXTERN_DPTFZ : Z := 2.
Definition ESIF_FLAG_AUTO_ENUMERATED : Z := 8.
Definition ESIF_PARTICIPANT_ENUM_CONJURE : Z := 3.
Definition ESIF_INSTANCE_LF : Z := 0.
Definition ESIF_INSTANCE_INVALID : Z := 255.
Definition ESIF_DOMAIN_TYPE_NVME : Z := 29.
Definition ESIF_DOMAIN_MAX : Z := 10.
Definition ESIF_E_DSP_ALREADY_LOADED : Z := 1501.

Definition has_flag (flags f : Z) : bool := negb (Z.land flags f =? 0).

(* ------------------------------------------------------------------ *)
(** ** Data *)

(** What a participant is created from; [md_id] is the lower framework's. *)
Inductive eEsifParticipantOrigin : Type := eParticipantOriginLF | eParticipantOriginUF.
#[export] Instance origin_eq_dec : EqDecision eEsifParticipantOrigin.
Proof. solve_decision. Defined.
Record metadata : Type := mk_metadata {
  origin : eEsifParticipantOrigin;
  md_id : Z;
  md_enumerator : Z;
  md_flags : Z;
  md_name : string;
  md_acpi_type : Z;
  md_acpi_device : string;
  md_device_name : string;
  md_device_path : string;
  md_port : Z;
  md_scbl : Z;
  md_rest : Z
}.

Record EsifUpData : Type := mk_EsifUpData {
  fName : string;
  fEnumerator : Z;
  fFlags : Z;
  fAcpiType : Z;
  fAcpiDevice : string;
  fDevicePath : string;
  fPort : Z;
  fScbl : Z;
  fRest : Z
}.

(** Of a domain only [participantId]. *)
Record EsifUp : Type := mk_EsifUp {
  fInstance : Z;
  fLpInstance : Z;
  fLpAlias : Z;
  fDspPtr : option Z;
  fMetadata : EsifUpData;
  fOrigin : eEsifParticipantOrigin;
  domainCount : Z;
  domains : list Z;
  refCount : Z;
  markedForDelete : bool;
  deleteEvent : bool
}.

(** The support packages: which one a participant selects, by what code it is found,
    and what it says about domains and actions. *)
Record dsp_mgr : Type := mk_dsp_mgr {
  EsifDspMgr_SelectDsp : EsifUpData -> option string;
  esif_send_dsp : string -> Z -> Z;
  esif_uf_dm_select_dsp_by_code : string -> option Z;
  get_domain_count : Z -> Z;
  num_fpc_domains : Z -> nat;
  contained_actions : Z -> Z -> bool
}.

(** What other components are asked to do; a participant by its address. *)
Inductive domain_op : Type := DO_StopTempPoll | DO_StopStatePoll | DO_RegisterForTempPoll | DO_RegisterForStatePoll | DO_UnRegisterForTempPoll
  | DO_UnRegisterForStatePoll | DO_Poll | DO_InitTempPoll | DO_DspReadyInit | DO_ReevaluateCaps | DO_UnInit.
Inductive call : Type :=
  | C_SendDsp (dspName : string) (id : Z)
  | C_Domain (up domain : Z) (op : domain_op)
  | C_SetPrimitive (up id : Z) (domain : Z) (value : Z)
  | C_DestroyArbitrationContext (up : Z)
  | C_AppsCreate (up : Z)
  | C_AppsDestroy (up : Z)
  | C_ThermalApiCreate (up : Z)
  | C_ActivityLogging (up : Z)
  | C_SignalEvent (instance event : Z)
  | C_DestroyConjuredLf (name : string)
  | C_CreateLpFromMeta (name : string)
  | C_CreateActionAssociated (action : Z).

Record pst : Type := mk_pst { ups : gmap Z EsifUp; next_up : Z; calls : list call }.
Abbreviation PS := (SM pst).

Definition load (a : Z) : PS EsifUp := fun s => match ups s !! a with Some u => Some (u, s) | None => None end.
Definition store (a : Z) (u : EsifUp) : PS unit := smodify (fun s => mk_pst (<[a := u]> (ups s)) (next_up s) (calls s)).
Definition update (a : Z) (f : EsifUp -> EsifUp) : PS unit := let! u := load a in store a (f u).
Definition emit (c : call) : PS unit := smodify (fun s => mk_pst (ups s) (next_up s) (calls s ++ [c])).
Definition new_up (u : EsifUp) : PS Z := fun s => Some (next_up s, mk_pst (<[next_up s := u]> (ups s)) (next_up s + 1) (calls s)).
Definition free_up (a : Z) : PS unit := let! _ := load a in smodify (fun s => mk_pst (delete a (ups s)) (next_up s) (calls s)).

Definition with_life (rc : Z) (m e : bool) (u : EsifUp) : EsifUp :=
  mk_EsifUp (fInstance u) (fLpInstance u) (fLpAlias u) (fDspPtr u) (fMetadata u) (fOrigin u) (domainCount u) (domains u) rc m e.
Definition with_instance (i : Z) (u : EsifUp) : EsifUp :=
  mk_EsifUp i (fLpInstance u) (fLpAlias u) (fDspPtr u) (fMetadata u) (fOrigin u) (domainCount u) (domains u) (refCount u) (markedForDelete u) (deleteEvent u).
Definition with_lp (i : Z) (o : eEsifParticipantOrigin) (u : EsifUp) : EsifUp :=
  mk_EsifUp (fInstance u) i (fLpAlias u) (fDspPtr u) (fMetadata u) o (domainCount u) (domains u) (refCount u) (markedForDelete u) (deleteEvent u).
Definition with_dsp (d : option Z) (u : EsifUp) : EsifUp :=
  mk_EsifUp (fInstance u) (fLpInstance u) (fLpAlias u) d (fMetadata u) (fOrigin u) (domainCount u) (domains u) (refCount u) (markedForDelete u) (deleteEvent u).
Definition with_domains (n : Z) (l : list Z) (u : EsifUp) : EsifUp :=
  mk_EsifUp (fInstance u) (fLpInstance u) (fLpAlias u) (fDspPtr u) (fMetadata u) (fOrigin u) n l (refCount u) (markedForDelete u) (deleteEvent u).

Definition EsifUp_IsPrimaryParticipant (u : EsifUp) : bool := has_flag (fFlags (fMetadata u)) ESIF_FLAG_DPTFZ.
(** The accessors; each has a value for NULL. *)
Definition EsifUp_GetInstance (self : option Z) : PS Z := match self with Some a => let! u := load a in sret (fInstance u) | None => sret ESIF_INVALID_HANDLE end.
Definition EsifUp_GetLpInstance (self : option Z) : PS Z := match self with Some a => let! u := load a in sret (fLpInstance u) | None => sret ESIF_INSTANCE_INVALID end.
Definition EsifUp_GetName (self : option Z) : PS string := match self with Some a => let! u := load a in sret (fName (fMetadata u)) | None => sret "UNK"%string end.

(* ------------------------------------------------------------------ *)
(** ** References *)

Definition EsifUp_GetRef (self : option Z) : PS Z :=
  match self with
  | None => sret ESIF_E_PARAMETER_IS_NULL
  | Some a =>
      let! u := load a in
      if markedForDelete u then sret ESIF_E_UNSPECIFIED
      else store a (with_life (u32 (refCount u + 1)) (markedForDelete u) (deleteEvent u) u) ;! sret ESIF_OK
  end.

Definition EsifUp_PutRef (self : option Z) : PS unit :=
  match self with
  | None => sret tt
  | Some a =>
      let! u := load a in
      let n := u32 (refCount u - 1) in
      let needRelease := (n =? 0) && markedForDelete u in
      store a (with_life n (markedForDelete u) (deleteEvent u || needRelease) u)
  end.

Definition esif_ccb_event_wait (a : Z) : PS unit := let! u := load a in if deleteEvent u then sret tt else ub.

(** [n] domains are left, the next is [i]. *)
Fixpoint uninit_domains (n : nat) (a i : Z) : PS unit :=
  match n with
  | O => sret tt
  | S n => if ESIF_DOMAIN_MAX <=? i then ub else emit (C_Domain a i DO_UnInit) ;! uninit_domains n a (i + 1)
  end.

Definition EsifUp_DestroyParticipant (self : option Z) : PS unit :=
  match self with
  | None => sret tt
  | Some a =>
      update a (fun u => with_life (refCount u) true (deleteEvent u) u) ;!
      EsifUp_PutRef (Some a) ;!
      let! u := load a in
      uninit_domains (Z.to_nat (domainCount u)) a 0 ;!
      esif_ccb_event_wait a ;!
      emit (C_DestroyArbitrationContext a) ;!
      free_up a
  end.

(* ------------------------------------------------------------------ *)
(** ** Iterating over the domains *)

Record UpDomainIterator : Type := mk_iterator { it_marker : bool; it_handle : Z; it_upPtr : option Z }.

Definition EsifUpDomain_InitIterator (upPtr : option Z) : PS (Z * UpDomainIterator) :=
  match upPtr with
  | None => sret (ESIF_E_PARAMETER_IS_NULL, mk_iterator false 0 None)
  | Some a =>
      let! rc := EsifUp_GetRef (Some a) in
      if rc =? ESIF_OK then sret (ESIF_OK, mk_iterator true 0 (Some a)) else sret (ESIF_E_NO_CREATE, mk_iterator false 0 None)
  end.

(** A domain is its index. *)
Definition EsifUpDomain_GetNextUd (it : UpDomainIterator) : PS (Z * option Z * UpDomainIterator) :=
  if negb (it_marker it) then sret (ESIF_E_INVALID_HANDLE, None, it)
  else
    match it_upPtr it with
    | None => ub
    | Some a =>
        let! u := load a in
        if domainCount u <=? it_handle it then
          EsifUp_PutRef (Some a) ;! sret (ESIF_E_ITERATION_DONE, None, mk_iterator false (it_handle it) (Some a))
        else sret (ESIF_OK, Some (it_handle it), mk_iterator true (it_handle it + 1) (Some a))
    end.

(** The loop that each walk over the domains makes: the result code that ends it. *)
Fixpoint domain_loop (n : nat) (it : UpDomainIterator) (body : Z -> PS unit) : PS Z :=
  match n with
  | O => ub
  | S n =>
      let! r := EsifUpDomain_GetNextUd it in
      if r.1.1 =? ESIF_OK then
        match r.1.2 with
        | None => domain_loop n r.2 body
        | Some d => body d ;! domain_loop n r.2 body
        end
      else sret r.1.1
  end.
(** [domainCount] is a byte. *)
Definition DOMAIN_FUEL : nat := 257.

(** The walk with its end: the reference that the iterator holds is put back if it
    ends early. *)
Definition for_domains (a : Z) (body : Z -> PS unit) : PS Z :=
  let! r := EsifUpDomain_InitIterator (Some a) in
  if r.1 =? ESIF_OK then
    let! rc := domain_loop DOMAIN_FUEL r.2 body in
    (if rc =? ESIF_E_ITERATION_DONE then sret ESIF_OK else EsifUp_PutRef (Some a) ;! sret rc)
  else sret r.1.

Definition EsifUpDomain_SetUpId (a d participantId : Z) : PS unit :=
  let! u := load a in
  if d <? ESIF_DOMAIN_MAX then store a (with_domains (domainCount u) (<[Z.to_nat d := participantId]> (domains u)) u) else ub.

Definition EsifUp_SetInstance (self : option Z) (upInstance : Z) : PS unit :=
  match self with
  | None => sret tt
  | Some a =>
      update a (with_instance upInstance) ;!
      let! _ := for_domains a (fun d => EsifUpDomain_SetUpId a d upInstance) in sret tt
  end.

Definition domain_op_all (ops : list domain_op) (a d : Z) : PS unit :=
  if d <? ESIF_DOMAIN_MAX then fold_left (fun (m : PS unit) op => m ;! emit (C_Domain a d op)) ops (sret tt) else ub.

(** The Linux configuration also stops the polling of the state. *)
Definition EsifUp_SuspendParticipant (self : option Z) : PS Z :=
  match self with
  | None => sret ESIF_E_PARAMETER_IS_NULL
  | Some a => for_domains a (domain_op_all [DO_StopTempPoll; DO_StopStatePoll] a)
  end.
Definition EsifUp_ResumeParticipant (self : option Z) : PS Z :=
  match self with
  | None => sret ESIF_E_PARAMETER_IS_NULL
  | Some a => for_domains a (fun _ => sret tt)
  end.
Definition EsifUp_RegisterParticipantForPolling (self : option Z) : PS unit :=
  match self with None => sret tt | Some a => let! _ := for_domains a (domain_op_all [DO_RegisterForTempPoll; DO_RegisterForStatePoll] a) in sret tt end.
Definition EsifUp_UnRegisterParticipantForPolling (self : option Z) : PS unit :=
  match self with None => sret tt | Some a => let! _ := for_domains a (domain_op_all [DO_UnRegisterForTempPoll; DO_UnRegisterForStatePoll] a) in sret tt end.
Definition EsifUp_PollParticipant (self : option Z) : PS unit :=
  match self with None => sret tt | Some a => let! _ := for_domains a (domain_op_all [DO_Poll] a) in sret tt end.
Definition EsifUp_StopParticipantSlowPoll (self : option Z) : PS Z :=
  match self with
  | None => sret ESIF_E_PARAMETER_IS_NULL
  | Some a => let! rc := for_domains a (domain_op_all [DO_InitTempPoll] a) in sret (if rc =? ESIF_E_NO_CREATE then rc else ESIF_OK)
  end.

(** A loop over the domains without the iterator. *)
Fixpoint domains_from (n : nat) (i : Z) (body : Z -> PS unit) : PS unit :=
  match n with O => sret tt | S n => (if i <? ESIF_DOMAIN_MAX then body i else ub) ;! domains_from n (i + 1) body end.

(* ------------------------------------------------------------------ *)
(** ** Creation *)

Section Dsp.
Context (dm : dsp_mgr).

Definition EsifUp_SelectDsp (a : Z) : PS (option string) := let! u := load a in sret (EsifDspMgr_SelectDsp dm (fMetadata u)).

Definition EsifUp_SelectDspByLpEventData (a : Z) (md : metadata) : PS Z :=
  let! dspName := EsifUp_SelectDsp a in
  match dspName with
  | None => sret ESIF_E_NEED_DSP
  | Some dspName =>
      emit (C_SendDsp dspName (md_id md)) ;!
      let rc := esif_send_dsp dm dspName (md_id md) in
      if negb (rc =? ESIF_OK) && negb (rc =? ESIF_E_DSP_ALREADY_LOADED) then sret rc
      else
        let d := esif_uf_dm_select_dsp_by_code dm dspName in
        update a (with_dsp d) ;! sret (match d with None => ESIF_E_NEED_DSP | Some _ => ESIF_OK end)
  end.

Definition EsifUp_SelectDspByUpInterface (a : Z) (md : metadata) : PS Z :=
  let! dspName := EsifUp_SelectDsp a in
  match dspName with
  | None => sret ESIF_E_NEED_DSP
  | Some dspName =>
      let d := esif_uf_dm_select_dsp_by_code dm dspName in
      update a (with_dsp d) ;! sret (match d with None => ESIF_E_NEED_DSP | Some _ => ESIF_OK end)
  end.

(** [EsifUpDomain_InitDomain] for each domain of the package; the array has room for
    [ESIF_DOMAIN_MAX]. *)
Definition EsifUp_InitDomains (a : Z) : PS Z :=
  let! u := load a in
  match fDspPtr u with
  | None => sret ESIF_E_PARAMETER_IS_NULL
  | Some d =>
      update a (fun u => with_domains (wrap 8 (get_domain_count dm d)) (domains u) u) ;!
      domains_from (num_fpc_domains dm d) 0 (fun i => EsifUpDomain_SetUpId a i ESIF_INVALID_HANDLE) ;!
      sret ESIF_OK
  end.

(** A zeroed object with one reference, the creator's. *)
Definition new_participant (lpInstance lpAlias : Z) (o : eEsifParticipantOrigin) (d : EsifUpData) : EsifUp :=
  mk_EsifUp ESIF_INVALID_HANDLE lpInstance lpAlias None d o 0 (replicate (Z.to_nat ESIF_DOMAIN_MAX) 0) 1 false false.

Definition create_with (mem : bool) (u : EsifUp) (select : Z -> PS Z) : PS (Z * option Z) :=
  if negb mem then sret (ESIF_E_NO_MEMORY, None)
  else
    let! a := new_up u in
    let! rc := select a in
    let! rc := (if rc =? ESIF_OK then EsifUp_InitDomains a else sret rc) in
    if rc =? ESIF_OK then sret (rc, Some a) else EsifUp_DestroyParticipant (Some a) ;! sret (rc, None).

(** A DPTF zone stands for the primary participant of the lower framework. *)
Definition EsifUp_CreateParticipantByLpEventData (mem : bool) (md : metadata) : PS (Z * option Z) :=
  let zone := has_flag (md_flags md) ESIF_FLAG_DPTFZ in
  create_with mem
    (new_participant (if zone then ESIF_INSTANCE_LF else md_id md) (if zone then md_id md else 0) eParticipantOriginLF
       (mk_EsifUpData (md_name md) (md_enumerator md) (md_flags md) (md_acpi_type md) (md_acpi_device md) (md_device_path md) 0 0 (md_rest md)))
    (fun a => EsifUp_SelectDspByLpEventData a md).

(** The device's name is also the ACPI device. *)
Definition EsifUp_CreateParticipantByUpInterface (mem : bool) (md : metadata) : PS (Z * option Z) :=
  create_with mem
    (new_participant ESIF_INSTANCE_INVALID 0 eParticipantOriginUF
       (mk_EsifUpData (md_name md) (md_enumerator md) (md_flags md) (md_acpi_type md) (md_device_name md) (md_device_path md) (md_port md) (md_scbl md) (md_rest md)))
    (fun a => EsifUp_SelectDspByUpInterface a md).

Definition EsifUp_CreateParticipant (mem : bool) (md : metadata) : PS (Z * option Z) :=
  match origin md with
  | eParticipantOriginLF => EsifUp_CreateParticipantByLpEventData mem md
  | eParticipantOriginUF => EsifUp_CreateParticipantByUpInterface mem md
  end.

Definition EsifUp_ReInitializeParticipantByLpEventData (a : Z) (md : metadata) : PS Z :=
  update a (with_lp (md_id md) eParticipantOriginLF) ;! EsifUp_SelectDspByLpEventData a md.
Definition EsifUp_ReInitializeParticipantByUpInterface (a : Z) (md : metadata) : PS Z :=
  update a (with_lp ESIF_INSTANCE_INVALID eParticipantOriginUF) ;! EsifUp_SelectDspByUpInterface a md.
Definition EsifUp_ReInitializeParticipant (self : option Z) (md : metadata) : PS Z :=
  match self with
  | None => sret ESIF_E_PARAMETER_IS_NULL
  | Some a =>
      match origin md with
      | eParticipantOriginLF => EsifUp_ReInitializeParticipantByLpEventData a md
      | eParticipantOriginUF => EsifUp_ReInitializeParticipantByUpInterface a md
      end
  end.

Definition EsifUp_IsActionInDsp (self : option Z) (actionType : Z) : PS bool :=
  match self with
  | None => sret false
  | Some a => let! u := load a in sret (match fDspPtr u with Some d => contained_actions dm d actionType | None => false end)
  end.
End Dsp.

(** Which of two descriptions of a device wins. *)
Definition EsifUp_IsPreferredParticipant (u : EsifUp) (md : metadata) : bool :=
  let autoEnumerated := has_flag (fFlags (fMetadata u)) ESIF_FLAG_AUTO_ENUMERATED in
  let overConjured := negb (has_flag (md_flags md) ESIF_FLAG_AUTO_ENUMERATED) && (fEnumerator (fMetadata u) =? ESIF_PARTICIPANT_ENUM_CONJURE) in
  match origin md with
  | eParticipantOriginLF =>
      if decide (fOrigin u = eParticipantOriginLF) then autoEnumerated || overConjured || has_flag (md_flags md) ESIF_FLAG_EXTERN_DPTFZ
      else true
  | eParticipantOriginUF => autoEnumerated || overConjured
  end.

(** After the support package is there: an auto-enumerated storage device is told
    where it is, and the domains find out what they can do. *)
Definition SET_PORT : Z := 533.
Definition SET_STORAGE_BUS_CONTROLLER_LOCATION : Z := 532.
Definition SET_PARTICIPANT_TYPE : Z := 884.
Definition SET_PARTICIPANT_CAPABILITIES_EVAL : Z := 393.

Definition EsifUp_DspReadyInit (self : option Z) : PS Z :=
  match self with
  | None => sret ESIF_E_PARAMETER_IS_NULL
  | Some a =>
      let! u := load a in
      let md := fMetadata u in
      (if (fAcpiType md =? ESIF_DOMAIN_TYPE_NVME) && has_flag (fFlags md) ESIF_FLAG_AUTO_ENUMERATED then
         emit (C_SetPrimitive a SET_PORT 0 (fPort md)) ;!
         emit (C_SetPrimitive a SET_STORAGE_BUS_CONTROLLER_LOCATION 0 (fScbl md)) ;!
         emit (C_SetPrimitive a SET_PARTICIPANT_TYPE 0 (fAcpiType md))
       else sret tt) ;!
      domains_from (Z.to_nat (domainCount u)) 0 (fun i => emit (C_Domain a i DO_DspReadyInit)) ;!
      sret ESIF_OK
  end.

Definition EsifUp_ReevaluateParticipantCaps (self : option Z) : PS Z :=
  match self with
  | None => sret ESIF_E_PARAMETER_IS_NULL
  | Some a =>
      let! u := load a in
      domains_from (Z.to_nat (domainCount u)) 0 (fun i => emit (C_SetPrimitive a SET_PARTICIPANT_CAPABILITIES_EVAL i 0)) ;!
      sret ESIF_OK
  end.

(* ------------------------------------------------------------------ *)
(** ** What the operations do to the heap *)

(** References may be taken; the domains fit the array. *)
Record healthy (u : EsifUp) : Prop := {
  h_unmarked : markedForDelete u = false;
  h_event : deleteEvent u = false;
  h_ref : 1 <= refCount u < 2 ^ 32 - 1;
  h_count : 0 <= domainCount u <= ESIF_DOMAIN_MAX;
  h_domains : length (domains u) = Z.to_nat ESIF_DOMAIN_MAX
}.

(** The heap of [s] is [m] and the next address [nx]. *)
Definition heap (s : pst) (m : gmap Z EsifUp) (nx : Z) : Prop := ups s = m /\ next_up s = nx.

Definition bump (d : Z) (u : EsifUp) : EsifUp := with_life (refCount u + d) (markedForDelete u) (deleteEvent u) u.

Lemma bump_0 u : bump 0 u = u.
Proof. unfold bump. rewrite Z.add_0_r. by destruct u. Qed.
Lemma bump_bump d d' u : bump d (bump d' u) = bump (d' + d) u.
Proof. unfold bump. destruct u. cbn. by rewrite Z.add_assoc. Qed.

Lemma load_ok s a u : ups s !! a = Some u -> load a s = Some (u, s).
Proof. intros E. unfold load. by rewrite E. Qed.

Lemma get_ref_ok s m nx a u : heap s m nx -> m !! a = Some u -> markedForDelete u = false -> 0 <= refCount u < 2 ^ 32 - 1 ->
  exists s', EsifUp_GetRef (Some a) s = Some (ESIF_OK, s') /\ heap s' (<[a := bump 1 u]> m) nx /\ calls s' = calls s.
Proof.
  intros [Hm Hn] Ea Hu Hr. unfold EsifUp_GetRef. rewrite (sbind_some _ _ _ _ _ (load_ok s a u ltac:(by rewrite Hm))). rewrite Hu.
  eexists. split; [reflexivity|]. split; [|done]. split; [|done]. cbn. rewrite Hm. unfold bump. rewrite wrap_small by (unfold in_range; lia). by rewrite Hu.
Qed.

Lemma put_ref_ok s m nx a u : heap s m nx -> m !! a = Some u -> markedForDelete u = false -> 1 <= refCount u < 2 ^ 32 ->
  exists s', EsifUp_PutRef (Some a) s = Some (tt, s') /\ heap s' (<[a := bump (-1) u]> m) nx /\ calls s' = calls s.
Proof.
  intros [Hm Hn] Ea Hu Hr. unfold EsifUp_PutRef. rewrite (sbind_some _ _ _ _ _ (load_ok s a u ltac:(by rewrite Hm))). rewrite Hu.
  eexists. split; [reflexivity|]. split; [|done]. split; [|done]. cbn. rewrite Hm, andb_false_r, orb_false_r. unfold bump. rewrite wrap_small by (unfold in_range; lia).
  rewrite Hu. done.
Qed.

Lemma uninit_domains_ok n a : forall i s, 0 <= i -> i + Z.of_nat n <= ESIF_DOMAIN_MAX -> exists s', uninit_domains n a i s = Some (tt, s') /\ heap s' (ups s) (next_up s).
Proof.
  induction n as [|n IH]; intros i s Hi Hn; cbn [uninit_domains]; [by eexists|]. rewrite (proj2 (Z.leb_gt _ _)) by lia.
  unfold emit. rewrite smodify_bind. destruct (IH (i + 1) (mk_pst (ups s) (next_up s) (calls s ++ [C_Domain a i DO_UnInit]))) as (s' & E & Hh); [lia..|].
  exists s'. by split.
Qed.

Lemma destroy_ok s m nx a u : heap s m nx -> m !! a = Some u -> refCount u = 1 -> 0 <= domainCount u <= ESIF_DOMAIN_MAX ->
  exists s', EsifUp_DestroyParticipant (Some a) s = Some (tt, s') /\ heap s' (delete a m) nx.
Proof.
  intros [Hm Hn] Ea Hr Hd. unfold EsifUp_DestroyParticipant, update. unfold sbind at 1. rewrite (sbind_some _ _ _ _ _ (load_ok s a u ltac:(by rewrite Hm))).
  cbn [store smodify]. unfold store, smodify. cbv beta iota. unfold sbind at 1. unfold EsifUp_PutRef. rewrite (sbind_some _ _ _ _ _ (load_ok _ a _ (lookup_insert_eq _ _ _))).
  cbn [refCount with_life markedForDelete]. rewrite Hr. change (u32 (1 - 1)) with 0. cbn [Z.eqb andb]. unfold store, smodify. cbv beta iota. cbn [ups next_up calls].
  set (u' := with_life _ _ _ _). unfold sbind at 1. rewrite (load_ok _ a u') by (cbn; by rewrite lookup_insert_eq).
  cbv beta iota. destruct (uninit_domains_ok (Z.to_nat (domainCount u')) a 0 (mk_pst (<[a:=u']> (<[a:=with_life 1 true (deleteEvent u) u]> (ups s))) (next_up s) (calls s)))
    as (s1 & E1 & [H1 H2]); [lia|cbn; lia|]. rewrite (sbind_some _ _ _ _ _ E1). cbn in H1, H2.
  assert (Hl : ups s1 !! a = Some u') by (rewrite H1; apply lookup_insert_eq).
  assert (Hw : esif_ccb_event_wait a s1 = Some (tt, s1)).
  { unfold esif_ccb_event_wait. rewrite (sbind_some _ _ _ _ _ (load_ok s1 a u' Hl)). unfold u'. cbn. by rewrite orb_true_r. }
  rewrite (sbind_some _ _ _ _ _ Hw). unfold emit. rewrite smodify_bind. unfold free_up. rewrite (sbind_some _ _ _ _ _ (load_ok (mk_pst (ups s1) (next_up s1) _) a u' Hl)).
  eexists. split; [reflexivity|]. split; cbn; [|by rewrite H2]. rewrite H1, Hm, insert_insert_eq. by rewrite delete_insert_eq.
Qed.

Section Loop.
Context (a : Z) (m : gmap Z EsifUp) (nx : Z) (body : Z -> PS unit) (R : list Z -> list Z -> Prop).
Hypothesis Hrefl : forall l, R l l.
Hypothesis Htrans : forall l1 l2 l3, R l1 l2 -> R l2 l3 -> R l1 l3.
Hypothesis Hlen : forall l l', R l l' -> length l = length l'.
Hypothesis Hbody : forall d u s, 0 <= d < ESIF_DOMAIN_MAX -> length (domains u) = Z.to_nat ESIF_DOMAIN_MAX -> heap s (<[a := u]> m) nx ->
  exists l s', body d s = Some (tt, s') /\ heap s' (<[a := with_domains (domainCount u) l u]> m) nx /\ R (domains u) l.

Lemma domain_loop_ok n : forall i u s, 0 <= i <= domainCount u -> domainCount u <= ESIF_DOMAIN_MAX -> length (domains u) = Z.to_nat ESIF_DOMAIN_MAX ->
  domainCount u - i < Z.of_nat n -> heap s (<[a := u]> m) nx -> markedForDelete u = false -> 1 <= refCount u < 2 ^ 32 ->
  exists l s', domain_loop n (mk_iterator true i (Some a)) body s = Some (ESIF_E_ITERATION_DONE, s') /\
    heap s' (<[a := bump (-1) (with_domains (domainCount u) l u)]> m) nx /\ R (domains u) l.
Proof.
  induction n as [|n IH]; intros i u s Hi Hd Hl Hn Hh Hu Hr; cbn [domain_loop]; [lia|].
  assert (Hload : load a s = Some (u, s)) by (apply load_ok; rewrite (proj1 Hh); apply lookup_insert_eq).
  unfold EsifUpDomain_GetNextUd. cbn [it_marker it_upPtr it_handle negb]. unfold sbind at 1. rewrite (sbind_some _ _ _ _ _ Hload).
  destruct (Z.leb_spec (domainCount u) i) as [Hle|Hlt].
  - destruct (put_ref_ok s (<[a:=u]> m) nx a u Hh (lookup_insert_eq _ _ _) Hu Hr) as (s' & E & Hh' & _). rewrite (sbind_some _ _ _ _ _ E).
    exists (domains u), s'. split; [reflexivity|]. split; [|by apply Hrefl]. rewrite insert_insert_eq in Hh'. replace (with_domains (domainCount u) (domains u) u) with u; [done|]. by destruct u.
  - unfold sret at 1. cbn [fst snd]. change (ESIF_OK =? ESIF_OK) with true. cbv beta iota.
    destruct (Hbody i u s) as (l & s1 & E & Hh1 & HR1); [lia|done|done|]. rewrite (sbind_some _ _ _ _ _ E).
    destruct (IH (i + 1) (with_domains (domainCount u) l u) s1) as (l' & s' & E' & Hh' & HR'); cbn [domainCount domains with_domains markedForDelete refCount]; try done; [lia|rewrite <- (Hlen _ _ HR1); done|lia|].
    cbn [domainCount domains with_domains] in *.
    exists l', s'. split; [done|]. split; [done|]. by eapply Htrans.
Qed.

(** A whole walk leaves the references as they were. *)
Lemma for_domains_ok u s : heap s m nx -> m !! a = Some u -> healthy u ->
  exists l s', for_domains a body s = Some (ESIF_OK, s') /\ heap s' (<[a := with_domains (domainCount u) l u]> m) nx /\ R (domains u) l.
Proof.
  intros Hh Ha [Hu He Hr Hc Hl]. unfold for_domains, EsifUpDomain_InitIterator.
  destruct (get_ref_ok s m nx a u Hh Ha Hu ltac:(lia)) as (s1 & E1 & Hh1 & _). unfold sbind at 1. rewrite (sbind_some _ _ _ _ _ E1).
  change (ESIF_OK =? ESIF_OK) with true. unfold sret at 1. cbn [fst snd]. change (ESIF_OK =? ESIF_OK) with true. cbv beta iota.
  destruct (domain_loop_ok DOMAIN_FUEL 0 (bump 1 u) s1) as (l & s' & E & Hh' & HR); cbn [bump domainCount domains with_life markedForDelete refCount]; try done; try lia.
  { unfold ESIF_DOMAIN_MAX, DOMAIN_FUEL in *. lia. }
  cbn [bump domainCount domains with_life] in Hh', HR.
  exists l, s'. rewrite (sbind_some _ _ _ _ _ E). split; [reflexivity|]. split; [|done].
  replace (bump (-1) (with_domains (domainCount u) l (bump 1 u))) with (with_domains (domainCount u) l u) in Hh'; [done|].
  unfold bump, with_domains, with_life. destruct u. cbn [fInstance fLpInstance fLpAlias fDspPtr fMetadata fOrigin domainCount domains refCount markedForDelete deleteEvent].
  f_equal. lia.
Qed.
End Loop.

Lemma quiet_walk a m nx body u s : heap s m nx -> m !! a = Some u -> healthy u ->
  (forall d s1 m1, 0 <= d < ESIF_DOMAIN_MAX -> heap s1 m1 nx -> exists s2, body d s1 = Some (tt, s2) /\ heap s2 m1 nx) ->
  exists s', for_domains a body s = Some (ESIF_OK, s') /\ heap s' m nx.
Proof.
  intros Hh Ha Hu Hb. destruct (for_domains_ok a m nx body eq) with (u := u) (s := s) as (l & s' & E & Hh' & HR); try done; try congruence.
  { intros d u1 s1 Hd Hl H1. destruct (Hb d s1 _ Hd H1) as (s2 & E & H2). exists (domains u1), s2. split; [done|]. split; [|done].
    by replace (with_domains (domainCount u1) (domains u1) u1) with u1 by (by destruct u1). }
  exists s'. split; [done|]. rewrite <- HR in Hh'. replace (with_domains (domainCount u) (domains u) u) with u in Hh' by (by destruct u).
  by rewrite insert_id in Hh'.
Qed.

Lemma domain_op_all_ok ops a d s m nx : 0 <= d < ESIF_DOMAIN_MAX -> heap s m nx -> exists s', domain_op_all ops a d s = Some (tt, s') /\ heap s' m nx.
Proof.
  intros Hd. unfold domain_op_all. rewrite (proj2 (Z.ltb_lt _ _)) by lia.
  assert (H : forall (m0 : PS unit), (forall s, heap s m nx -> exists s', m0 s = Some (tt, s') /\ heap s' m nx) ->
    forall s, heap s m nx -> exists s', fold_left (fun (x : PS unit) op => x ;! emit (C_Domain a d op)) ops m0 s = Some (tt, s') /\ heap s' m nx).
  { induction ops as [|op ops IH]; intros m0 Hm0; cbn [fold_left]; [done|]. apply IH. intros s0 H0. destruct (Hm0 s0 H0) as (s1 & E & H1).
    rewrite (sbind_some _ _ _ _ _ E). by eexists. }
  apply H. intros s0 H0. by exists s0.
Qed.

(** The calls that only talk to the domains leave the heap as it is. *)
Lemma suspend_ok s m nx a u : heap s m nx -> m !! a = Some u -> healthy u -> exists s', EsifUp_SuspendParticipant (Some a) s = Some (ESIF_OK, s') /\ heap s' m nx.
Proof.
  intros Hh Ha Hu. unfold EsifUp_SuspendParticipant. refine (quiet_walk a m nx (domain_op_all _ a) u s Hh Ha Hu _). intros d s1 m1 Hd H1. by apply domain_op_all_ok.
Qed.
Lemma resume_ok s m nx a u : heap s m nx -> m !! a = Some u -> healthy u -> exists s', EsifUp_ResumeParticipant (Some a) s = Some (ESIF_OK, s') /\ heap s' m nx.
Proof.
  intros Hh Ha Hu. unfold EsifUp_ResumeParticipant. refine (quiet_walk a m nx (fun _ => sret tt) u s Hh Ha Hu _). intros d s1 m1 Hd H1. by exists s1.
Qed.
Lemma walk_ops_ok ops s m nx a u : heap s m nx -> m !! a = Some u -> healthy u ->
  exists s', (let! _ := for_domains a (domain_op_all ops a) in sret tt) s = Some (tt, s') /\ heap s' m nx.
Proof.
  intros Hh Ha Hu. destruct (quiet_walk a m nx (domain_op_all ops a) u s Hh Ha Hu) as (s' & E & H); [intros d s1 m1 Hd H1; by apply domain_op_all_ok|].
  rewrite (sbind_some _ _ _ _ _ E). by exists s'.
Qed.
Lemma stop_slow_ok s m nx a u : heap s m nx -> m !! a = Some u -> healthy u -> exists s', EsifUp_StopParticipantSlowPoll (Some a) s = Some (ESIF_OK, s') /\ heap s' m nx.
Proof.
  intros Hh Ha Hu. destruct (quiet_walk a m nx (domain_op_all [DO_InitTempPoll] a) u s Hh Ha Hu) as (s' & E & H); [intros d s1 m1 Hd H1; by apply domain_op_all_ok|].
  unfold EsifUp_StopParticipantSlowPoll. rewrite (sbind_some _ _ _ _ _ E). by exists s'.
Qed.

Lemma set_instance_ok s m nx a u i : heap s m nx -> m !! a = Some u -> healthy u ->
  exists u' s', EsifUp_SetInstance (Some a) i s = Some (tt, s') /\ heap s' (<[a := u']> m) nx /\
    (exists l, u' = with_domains (domainCount u) l (with_instance i u) /\ length l = length (domains u)).
Proof.
  intros Hh Ha Hu. unfold EsifUp_SetInstance, update. unfold sbind at 1. rewrite (sbind_some _ _ _ _ _ (load_ok s a u ltac:(by rewrite (proj1 Hh)))).
  unfold store at 1, smodify. cbv beta iota. set (s1 := mk_pst _ _ _).
  assert (H1 : heap s1 (<[a := with_instance i u]> m) nx) by (split; [cbn; by rewrite (proj1 Hh)|apply Hh]).
  destruct (for_domains_ok a (<[a := with_instance i u]> m) nx (fun d => EsifUpDomain_SetUpId a d i) (fun l l' => length l = length l')) with (u := with_instance i u) (s := s1)
    as (l & s' & E & Hh' & Hl); try done; try congruence.
  - intros d v s2 Hd Hlv H2. unfold EsifUpDomain_SetUpId. rewrite (sbind_some _ _ _ _ _ (load_ok s2 a v ltac:(rewrite (proj1 H2); apply lookup_insert_eq))).
    rewrite (proj2 (Z.ltb_lt _ _)) by lia. eexists _, _. split; [reflexivity|]. split; [|by rewrite length_insert]. split; [|apply H2]. cbn. by rewrite (proj1 H2), insert_insert_eq.
  - apply lookup_insert_eq.
  - destruct Hu. by split.
  - eexists _, s'. split; [by rewrite (sbind_some _ _ _ _ _ E)|]. rewrite insert_insert_eq in Hh'. split; [exact Hh'|]. exists l. split; [done|]. by rewrite <- Hl.
Qed.

(** The packages describe at most ten domains. *)
Definition dm_ok (dm : dsp_mgr) : Prop := forall d, wrap 8 (get_domain_count dm d) <= ESIF_DOMAIN_MAX /\ (num_fpc_domains dm d <= Z.to_nat ESIF_DOMAIN_MAX)%nat.

Lemma with_dsp_same u : with_dsp (fDspPtr u) u = u.
Proof. by destruct u. Qed.

Lemma update_ok s m nx a u f : heap s m nx -> m !! a = Some u -> exists s', update a f s = Some (tt, s') /\ heap s' (<[a := f u]> m) nx.
Proof.
  intros [Hm Hn] Ha. unfold update. rewrite (sbind_some _ _ _ _ _ (load_ok s a u ltac:(by rewrite Hm))). eexists. split; [reflexivity|]. split; [cbn; by rewrite Hm|done].
Qed.

(** The package for a device with the data [d]: the one that is chosen is sent to the
    lower framework if the device is known to it ([lf]), which may refuse it; the
    package itself may not be there ([Some None]). *)
Definition picked (dm : dsp_mgr) (lf : bool) (md : metadata) (d : EsifUpData) : option (option Z) :=
  match EsifDspMgr_SelectDsp dm d with
  | None => None
  | Some name =>
      let rc := esif_send_dsp dm name (md_id md) in
      if lf && negb (rc =? ESIF_OK) && negb (rc =? ESIF_E_DSP_ALREADY_LOADED) then None else Some (esif_uf_dm_select_dsp_by_code dm name)
  end.
Definition known_to_lf (md : metadata) : bool := bool_decide (origin md = eParticipantOriginLF).
Definition package (dm : dsp_mgr) (md : metadata) (d : EsifUpData) : option Z := mjoin (picked dm (known_to_lf md) md d).

(** The data of a new participant. *)
Definition description (md : metadata) : EsifUpData :=
  mk_EsifUpData (md_name md) (md_enumerator md) (md_flags md) (md_acpi_type md) (if known_to_lf md then md_acpi_device md else md_device_name md)
    (md_device_path md) (if known_to_lf md then 0 else md_port md) (if known_to_lf md then 0 else md_scbl md) (md_rest md).

Lemma update_dsp_ok dm s m nx a u (dspName : string) : heap s m nx -> m !! a = Some u -> exists rc s',
  (update a (with_dsp (esif_uf_dm_select_dsp_by_code dm dspName)) ;!
     sret (match esif_uf_dm_select_dsp_by_code dm dspName with None => ESIF_E_NEED_DSP | Some _ => ESIF_OK end)) s = Some (rc, s') /\
  heap s' (<[a := with_dsp (esif_uf_dm_select_dsp_by_code dm dspName) u]> m) nx /\ (rc = ESIF_OK <-> is_Some (esif_uf_dm_select_dsp_by_code dm dspName)).
Proof.
  intros Hh Ha. set (d := esif_uf_dm_select_dsp_by_code dm dspName). destruct (update_ok s m nx a u (with_dsp d) Hh Ha) as (s1 & E & H1). rewrite (sbind_some _ _ _ _ _ E).
  eexists _, s1. split; [reflexivity|]. split; [done|]. by destruct d.
Qed.

(** Both ways to select a package leave a participant that differs in it only. *)
Lemma select_ok dm (lf : bool) md s m nx a u : heap s m nx -> m !! a = Some u ->
  exists rc s', (if lf then EsifUp_SelectDspByLpEventData dm a md else EsifUp_SelectDspByUpInterface dm a md) s = Some (rc, s') /\
    heap s' (<[a := with_dsp (default (fDspPtr u) (picked dm lf md (fMetadata u))) u]> m) nx /\
    (rc = ESIF_OK <-> is_Some (mjoin (picked dm lf md (fMetadata u)))).
Proof.
  intros Hh Ha. assert (Hsel : EsifUp_SelectDsp dm a s = Some (EsifDspMgr_SelectDsp dm (fMetadata u), s)).
  { unfold EsifUp_SelectDsp. by rewrite (sbind_some _ _ _ _ _ (load_ok s a u ltac:(by rewrite (proj1 Hh)))). }
  assert (Hsame : forall s', heap s' m nx -> heap s' (<[a := with_dsp (fDspPtr u) u]> m) nx) by (intros s' H; by rewrite with_dsp_same, insert_id).
  assert (Hno : forall rc, rc <> ESIF_OK -> rc = ESIF_OK <-> is_Some (@None Z)) by (intros rc Hrc; split; [done|by intros [? [=]]]). unfold picked.
  destruct lf; [unfold EsifUp_SelectDspByLpEventData|unfold EsifUp_SelectDspByUpInterface]; rewrite (sbind_some _ _ _ _ _ Hsel);
    (destruct (EsifDspMgr_SelectDsp dm (fMetadata u)) as [dspName|]; [|by exists ESIF_E_NEED_DSP, s; split_and!; [done|by apply Hsame|by apply Hno]]).
  - unfold emit. rewrite smodify_bind. set (s1 := mk_pst _ _ _). assert (H1 : heap s1 m nx) by done. cbv zeta. cbn [andb].
    destruct (negb (_ =? ESIF_OK) && negb _) eqn:Erc; [|by apply update_dsp_ok].
    exists (esif_send_dsp dm dspName (md_id md)), s1. split_and!; [done|by apply Hsame|]. apply Hno. intros Hrc. rewrite Hrc in Erc. discriminate Erc.
  - by apply update_dsp_ok.
Qed.

Lemma domains_from_ok body (P : pst -> Prop) n : (forall i s, 0 <= i < ESIF_DOMAIN_MAX -> P s -> exists s', body i s = Some (tt, s') /\ P s') ->
  forall i s, 0 <= i -> i + Z.of_nat n <= ESIF_DOMAIN_MAX -> P s -> exists s', domains_from n i body s = Some (tt, s') /\ P s'.
Proof.
  intros Hb. induction n as [|n IH]; intros i s Hi Hn HP; cbn [domains_from]; [by exists s|]. rewrite (proj2 (Z.ltb_lt _ _)) by lia.
  destruct (Hb i s) as (s1 & E & H1); [lia|done|]. rewrite (sbind_some _ _ _ _ _ E). apply IH; [lia|lia|done].
Qed.

Lemma init_domains_ok dm s m nx a u : dm_ok dm -> heap s m nx -> m !! a = Some u -> length (domains u) = Z.to_nat ESIF_DOMAIN_MAX -> is_Some (fDspPtr u) ->
  exists n l s', EsifUp_InitDomains dm a s = Some (ESIF_OK, s') /\ heap s' (<[a := with_domains n l u]> m) nx /\
    0 <= n <= ESIF_DOMAIN_MAX /\ length l = Z.to_nat ESIF_DOMAIN_MAX.
Proof.
  intros Hdm Hh Ha Hl [d Hd]. destruct (Hdm d) as [Hcount Hnum]. unfold EsifUp_InitDomains. rewrite (sbind_some _ _ _ _ _ (load_ok s a u ltac:(by rewrite (proj1 Hh)))). rewrite Hd.
  set (n := wrap 8 _). destruct (update_ok s m nx a u (fun u => with_domains n (domains u) u) Hh Ha) as (s1 & E1 & H1). rewrite (sbind_some _ _ _ _ _ E1).
  destruct (domains_from_ok (fun i => EsifUpDomain_SetUpId a i ESIF_INVALID_HANDLE)
    (fun s => exists l, heap s (<[a := with_domains n l u]> m) nx /\ length l = Z.to_nat ESIF_DOMAIN_MAX) (num_fpc_domains dm d)) with (i := 0) (s := s1) as (s2 & E2 & l & H2 & Hl2).
  - intros i s0 Hi (l & H0 & Hl0). unfold EsifUpDomain_SetUpId. rewrite (sbind_some _ _ _ _ _ (load_ok s0 a _ ltac:(rewrite (proj1 H0); apply lookup_insert_eq))).
    rewrite (proj2 (Z.ltb_lt _ _)) by lia. eexists. split; [reflexivity|]. eexists. split; [split; [cbn; rewrite (proj1 H0), insert_insert_eq; reflexivity|apply H0]|by rewrite length_insert].
  - done.
  - unfold ESIF_DOMAIN_MAX in *. lia.
  - by exists (domains u).
  - rewrite (sbind_some _ _ _ _ _ E2). exists n, l, s2. split; [done|]. split; [done|]. split; [|done]. split; [|done]. unfold n, wrap. apply Z.mod_pos_bound. lia.
Qed.

(** A participant as its description makes it. *)
Record created (dm : dsp_mgr) (md : metadata) (u : EsifUp) : Prop := {
  cr_healthy : healthy u;
  cr_ref : refCount u = 1;
  cr_data : fMetadata u = description md;
  cr_origin : fOrigin u = origin md;
  cr_dsp : fDspPtr u = package dm md (description md)
}.

Lemma create_with_ok dm lf md s m nx mem u0 : dm_ok dm -> heap s m nx -> m !! nx = None ->
  refCount u0 = 1 -> markedForDelete u0 = false -> deleteEvent u0 = false -> domainCount u0 = 0 -> length (domains u0) = Z.to_nat ESIF_DOMAIN_MAX ->
  exists rc o s', create_with dm mem u0 (fun a => if (lf : bool) then EsifUp_SelectDspByLpEventData dm a md else EsifUp_SelectDspByUpInterface dm a md) s = Some ((rc, o), s') /\
    match o with
    | Some a => rc = ESIF_OK /\ mem = true /\ a = nx /\ exists d n l, picked dm lf md (fMetadata u0) = Some (Some d) /\
        heap s' (<[nx := with_domains n l (with_dsp (Some d) u0)]> m) (nx + 1) /\ 0 <= n <= ESIF_DOMAIN_MAX /\ length l = Z.to_nat ESIF_DOMAIN_MAX
    | None => rc <> ESIF_OK /\ (mem = false \/ mjoin (picked dm lf md (fMetadata u0)) = None) /\ exists nx', nx <= nx' /\ heap s' m nx'
    end.
Proof.
  intros Hdm Hh Hfree Hr Hmk Hev Hc Hl. unfold create_with. destruct mem; cbn [negb]; [|by exists ESIF_E_NO_MEMORY, None, s; split; [|split; [discriminate|split; [left|exists nx; split; [lia|]]]]].
  assert (H0 : exists s0, new_up u0 s = Some (nx, s0) /\ heap s0 (<[nx := u0]> m) (nx + 1)).
  { eexists. unfold new_up. rewrite (proj2 Hh). split; [reflexivity|]. split; [cbn; by rewrite (proj1 Hh)|done]. }
  destruct H0 as (s0 & E0 & H0). rewrite (sbind_some _ _ _ _ _ E0).
  destruct (select_ok dm lf md s0 _ _ nx u0 H0 (lookup_insert_eq _ _ _)) as (rc & s1 & E1 & H1 & Hd). rewrite (sbind_some _ _ _ _ _ E1). rewrite insert_insert_eq in H1.
  destruct (rc =? ESIF_OK) eqn:Erc.
  - apply Z.eqb_eq in Erc as ->. destruct (proj1 Hd eq_refl) as [d' Hpk]. destruct (picked dm lf md (fMetadata u0)) as [[d|]|] eqn:Epk; try done. cbn in Hpk, H1. injection Hpk as <-.
    destruct (init_domains_ok dm s1 _ _ nx (with_dsp (Some d) u0) Hdm H1 (lookup_insert_eq _ _ _) Hl ltac:(by eexists)) as (n & l & s2 & E2 & H2 & Hn & Hl2).
    rewrite (sbind_some _ _ _ _ _ E2). cbn [Z.eqb]. change (ESIF_OK =? ESIF_OK) with true. cbv iota. exists ESIF_OK, (Some nx), s2. do 4 (split; [done|]).
    rewrite insert_insert_eq in H2. by exists d, n, l.
  - unfold sbind at 1, sret at 1. cbv beta iota. rewrite Erc.
    destruct (destroy_ok s1 _ _ nx _ H1 (lookup_insert_eq _ _ _) Hr) as (s2 & E2 & H2); [cbn; rewrite Hc; unfold ESIF_DOMAIN_MAX; lia|].
    rewrite (sbind_some _ _ _ _ _ E2). exists rc, None, s2. split; [done|]. apply Z.eqb_neq in Erc. split; [done|].
    split; [right; destruct (mjoin _) as [d|]; [|done]; exfalso; apply Erc, Hd; by exists d|]. exists (nx + 1). split; [lia|].
    by rewrite delete_insert_eq, delete_id in H2.
Qed.

Lemma create_ok dm mem md s m nx : dm_ok dm -> heap s m nx -> m !! nx = None ->
  exists rc o s', EsifUp_CreateParticipant dm mem md s = Some ((rc, o), s') /\
    match o with
    | Some a => rc = ESIF_OK /\ mem = true /\ is_Some (package dm md (description md)) /\ a = nx /\ exists u, heap s' (<[nx := u]> m) (nx + 1) /\ created dm md u
    | None => rc <> ESIF_OK /\ (mem = false \/ package dm md (description md) = None) /\ exists nx', nx <= nx' /\ heap s' m nx'
    end.
Proof.
  intros Hdm Hh Hfree. assert (Hmk : forall lp alias o d n l dsp, let u := with_domains n l (with_dsp (Some dsp) (new_participant lp alias o d)) in
    0 <= n <= ESIF_DOMAIN_MAX -> length l = Z.to_nat ESIF_DOMAIN_MAX -> healthy u) by (intros; by split; cbn; try lia).
  unfold EsifUp_CreateParticipant, package, description, known_to_lf. destruct (origin md) eqn:Eo; [unfold EsifUp_CreateParticipantByLpEventData|unfold EsifUp_CreateParticipantByUpInterface].
  all: [> set (u0 := new_participant _ _ _ _); destruct (create_with_ok dm true md s m nx mem u0 Hdm Hh Hfree) as (rc & o & s' & E & Ho)
        | set (u0 := new_participant _ _ _ _); destruct (create_with_ok dm false md s m nx mem u0 Hdm Hh Hfree) as (rc & o & s' & E & Ho) ]; try done.
  all: rewrite ?bool_decide_true by done; rewrite ?bool_decide_false by done; cbv iota.
  all: exists rc, o, s'; (split; [done|]); destruct o as [a|]; [|done]; destruct Ho as (-> & -> & -> & d & n & l & Hpk & H' & Hn & Hl).
  all: cbn [u0 new_participant fMetadata] in Hpk; rewrite Hpk; do 2 (split; [done|]); (split; [by eexists|]); (split; [done|]); eexists; (split; [exact H'|]).
  all: split; try done; try (by apply Hmk); unfold package, description, known_to_lf; rewrite ?Eo, ?bool_decide_true by done; rewrite ?bool_decide_false by done; try done; by rewrite Hpk.
Qed.

(** The participant after a description has been given to it again. *)
Definition resumed_as (dm : dsp_mgr) (md : metadata) (u : EsifUp) : EsifUp :=
  with_dsp (default (fDspPtr u) (picked dm (known_to_lf md) md (fMetadata u)))
    (with_lp (if known_to_lf md then md_id md else ESIF_INSTANCE_INVALID) (origin md) u).

Lemma reinit_ok dm md s m nx a u : heap s m nx -> m !! a = Some u -> exists rc s',
  EsifUp_ReInitializeParticipant dm (Some a) md s = Some (rc, s') /\ heap s' (<[a := resumed_as dm md u]> m) nx /\
  (rc = ESIF_OK <-> is_Some (package dm md (fMetadata u))).
Proof.
  intros Hh Ha. unfold EsifUp_ReInitializeParticipant, resumed_as, package, known_to_lf.
  assert (Hgo : forall lf lp, exists rc s', (update a (with_lp lp (origin md)) ;! (if lf : bool then EsifUp_SelectDspByLpEventData dm a md else EsifUp_SelectDspByUpInterface dm a md)) s = Some (rc, s') /\
      heap s' (<[a := with_dsp (default (fDspPtr u) (picked dm lf md (fMetadata u))) (with_lp lp (origin md) u)]> m) nx /\
      (rc = ESIF_OK <-> is_Some (mjoin (picked dm lf md (fMetadata u))))).
  { intros lf lp. destruct (update_ok s m nx a u (with_lp lp (origin md)) Hh Ha) as (s1 & E1 & H1). rewrite (sbind_some _ _ _ _ _ E1).
    destruct (select_ok dm lf md s1 _ nx a _ H1 (lookup_insert_eq _ _ _)) as (rc & s2 & E2 & H2 & Hd). rewrite insert_insert_eq in H2. by exists rc, s2. }
  destruct (origin md) eqn:Eo.
  - rewrite bool_decide_true by done. exact (Hgo true (md_id md)).
  - rewrite bool_decide_false by done. exact (Hgo false ESIF_INSTANCE_INVALID).
Qed.

Lemma dsp_ready_ok s m nx a u : heap s m nx -> m !! a = Some u -> domainCount u <= ESIF_DOMAIN_MAX ->
  exists s', EsifUp_DspReadyInit (Some a) s = Some (ESIF_OK, s') /\ heap s' m nx.
Proof.
  intros Hh Ha Hc. unfold EsifUp_DspReadyInit. rewrite (sbind_some _ _ _ _ _ (load_ok s a u ltac:(by rewrite (proj1 Hh)))).
  assert (H1 : exists s1, (if (fAcpiType (fMetadata u) =? ESIF_DOMAIN_TYPE_NVME) && has_flag (fFlags (fMetadata u)) ESIF_FLAG_AUTO_ENUMERATED then
     emit (C_SetPrimitive a SET_PORT 0 (fPort (fMetadata u))) ;! emit (C_SetPrimitive a SET_STORAGE_BUS_CONTROLLER_LOCATION 0 (fScbl (fMetadata u))) ;!
     emit (C_SetPrimitive a SET_PARTICIPANT_TYPE 0 (fAcpiType (fMetadata u))) else sret tt) s = Some (tt, s1) /\ heap s1 m nx).
  { destruct (_ && _); [|by exists s]. eexists. split; [reflexivity|]. done. }
  destruct H1 as (s1 & E1 & H1). rewrite (sbind_some _ _ _ _ _ E1).
  destruct (domains_from_ok (fun i => emit (C_Domain a i DO_DspReadyInit)) (fun s => heap s m nx) (Z.to_nat (domainCount u))) with (i := 0) (s := s1) as (s2 & E2 & H2);
    [intros i s0 _ H0; by eexists|lia|unfold ESIF_DOMAIN_MAX in *; lia|done|]. rewrite (sbind_some _ _ _ _ _ E2). by exists s2.
Qed.
Lemma reeval_ok s m nx a u : heap s m nx -> m !! a = Some u -> domainCount u <= ESIF_DOMAIN_MAX ->
  exists s', EsifUp_ReevaluateParticipantCaps (Some a) s = Some (ESIF_OK, s') /\ heap s' m nx.
Proof.
  intros Hh Ha Hc. unfold EsifUp_ReevaluateParticipantCaps. rewrite (sbind_some _ _ _ _ _ (load_ok s a u ltac:(by rewrite (proj1 Hh)))).
  destruct (domains_from_ok (fun i => emit (C_SetPrimitive a SET_PARTICIPANT_CAPABILITIES_EVAL i 0)) (fun s => heap s m nx) (Z.to_nat (domainCount u))) with (i := 0) (s := s) as (s2 & E2 & H2);
    [intros i s0 _ H0; by eexists|lia|unfold ESIF_DOMAIN_MAX in *; lia|done|]. rewrite (sbind_some _ _ _ _ _ E2). by exists s2.
Qed.
