(* ===== verification/PartMgr.v ===== *)
(** * The participant manager: esif_uf_pm.c

    A table of 32 entries; entry 0 is for the primary participant.  An entry is
    available, or has a participant that is there ([CREATED], and [LF_REMOVED] after
    the lower framework has been unloaded) or suspended ([REMOVED]).  The manager
    registers participants - a description of a device that is already known
    resumes or replaces the participant it has - suspends, resumes and destroys
    them, finds them by handle, index or name, with a reference for the caller, and
    walks over them.

    Each operation is modelled as a whole; the lock makes the parts that read and
    change the table atomic.  Handles come from a [HandleApi]. *)

From S2P Require Import Prelude HandleMgr HandleApi Participant.
From stdpp Require Import list gmap strings.
Local Open Scope Z_scope.
Local Open Scope dptf_scope.

Definition MAX_PARTICIPANT_ENTRY : Z := 32.
Definition ESIF_PARTICIPANT0_INDEX : Z := 0.
Definition ESIF_EVENT_PARTICIPANT_SUSPEND : Z := 5.
Definition ESIF_EVENT_PARTICIPANT_RESUME : Z := 6.
Definition ESIF_EVENT_PARTICIPANT_CREATE : Z := 18.
Definition ESIF_EVENT_PARTICIPANT_UNREGISTER : Z := 19.
Definition ESIF_EVENT_PARTICIPANT_UNREGISTER_COMPLETE : Z := 84.
Definition ESIF_EVENT_PARTICIPANT_CREATE_COMPLETE : Z := 150.
Definition ESIF_EVENT_LF_UNLOADED : Z := 86.
Definition ESIF_EVENT_ACTION_LOADED : Z := 78.
Definition ESIF_EVENT_ACTION_UNLOADED : Z := 79.
Definition ESIF_EVENT_DISPLAY_OFF : Z := 161.
Definition ESIF_EVENT_DISPLAY_ON : Z := 162.
Definition ESIF_EVENT_DATA_PARTICIPANT_CREATE_HDR_VERSION : Z := 1.

Inductive esif_pm_participant_state : Type := STATE_AVAILABLE | STATE_REMOVED | STATE_LF_REMOVED | STATE_CREATED.
#[export] Instance pm_state_eq_dec : EqDecision esif_pm_participant_state.
Proof. solve_decision. Defined.
(** [fState > REMOVED]. *)
Definition above_removed (st : esif_pm_participant_state) : bool := match st with STATE_LF_REMOVED | STATE_CREATED => true | _ => false end.

Record EsifUpManagerEntry : Type := mk_entry { fState : esif_pm_participant_state; fUpPtr : option Z }.

Section Manager.
Context {H : Type} {api : HandleApi H} (dm : dsp_mgr).

Record pm : Type := mk_pm { fEntryCount : Z; fEntries : list EsifUpManagerEntry; parts : pst; handles : H }.
Abbreviation PM := (SM pm).

Definition on_parts {T} (m : PS T) : PM T :=
  fun s => match m (parts s) with Some (x, p) => Some (x, mk_pm (fEntryCount s) (fEntries s) p (handles s)) | None => None end.
Definition EsifHandleMgr_GetNext (mem : bool) : PM (Z * Z) :=
  fun s => match get_next_handle mem (handles s) with Some (rc, v, h) => Some ((rc, v), mk_pm (fEntryCount s) (fEntries s) (parts s) h) | None => None end.

Definition get_entry (i : Z) : PM EsifUpManagerEntry := fun s => match fEntries s !! Z.to_nat i with Some e => Some (e, s) | None => None end.
Definition set_entry (i : Z) (e : EsifUpManagerEntry) : PM unit := smodify (fun s => mk_pm (fEntryCount s) (<[Z.to_nat i := e]> (fEntries s)) (parts s) (handles s)).
Definition set_state (i : Z) (st : esif_pm_participant_state) : PM unit := let! e := get_entry i in set_entry i (mk_entry st (fUpPtr e)).
(** [UInt8]. *)
Definition add_count (d : Z) : PM unit := smodify (fun s => mk_pm (wrap 8 (fEntryCount s + d)) (fEntries s) (parts s) (handles s)).

(* ------------------------------------------------------------------ *)
(** ** Finding participants *)

Definition EsifUpPm_IsPrimaryParticipantId (id : Z) : bool := (id =? ESIF_HANDLE_DEFAULT) || (id =? ESIF_HANDLE_PRIMARY_PARTICIPANT).

Definition indices : list Z := seqZ 0 MAX_PARTICIPANT_ENTRY.

(** The first index at which the test holds. *)
Fixpoint find_index (l : list Z) (test : Z -> PM bool) : PM (option Z) :=
  match l with
  | [] => sret None
  | i :: l => let! b := test i in if (b : bool) then sret (Some i) else find_index l test
  end.

Definition EsifUpPm_GetAvailableParticipantByIndexLocked (index : Z) : PM (option Z) :=
  if MAX_PARTICIPANT_ENTRY <=? index then sret None
  else
    let! e := get_entry index in
    if above_removed (fState e) then
      match fUpPtr e with
      | None => sret None
      | Some a => let! rc := on_parts (EsifUp_GetRef (Some a)) in sret (if rc =? ESIF_OK then Some a else None)
      end
    else sret None.
Definition EsifUpPm_GetAvailableParticipantByIndex (index : Z) : PM (option Z) := EsifUpPm_GetAvailableParticipantByIndexLocked index.

Definition has_instance (inst i : Z) : PM bool :=
  let! e := get_entry i in
  if above_removed (fState e) then
    match fUpPtr e with
    | None => sret false
    | Some a => let! cur := on_parts (EsifUp_GetInstance (Some a)) in sret (inst =? cur)
    end
  else sret false.
Definition EsifUpPm_GetAvailableParticipantByInstanceLocked (upInstance : Z) : PM (option Z) :=
  let localInstance := if EsifUpPm_IsPrimaryParticipantId upInstance then ESIF_HANDLE_PRIMARY_PARTICIPANT else upInstance in
  let! r := find_index indices (has_instance localInstance) in
  match r with
  | None => sret None
  | Some i =>
      let! e := get_entry i in
      let! rc := on_parts (EsifUp_GetRef (fUpPtr e)) in
      sret (if rc =? ESIF_OK then fUpPtr e else None)
  end.
Definition EsifUpPm_GetAvailableParticipantByInstance (upInstance : Z) : PM (option Z) := EsifUpPm_GetAvailableParticipantByInstanceLocked upInstance.

(** Whatever its state; a free entry has the invalid handle. *)
Definition EsifUpPm_GetEntryByInstanceLocked (upInstance : Z) : PM (option Z) :=
  find_index indices (fun i => let! e := get_entry i in let! cur := on_parts (EsifUp_GetInstance (fUpPtr e)) in sret (upInstance =? cur)).

(** [strcasecmp] in the C locale. *)
Definition tolower (c : Ascii.ascii) : Ascii.ascii :=
  let n := Ascii.N_of_ascii c in if ((65 <=? n) && (n <=? 90))%N then Ascii.ascii_of_N (n + 32) else c.
Fixpoint lower (s : string) : string := match s with String.EmptyString => String.EmptyString | String.String c s => String.String (tolower c) (lower s) end.
Definition stricmp_eq (a b : string) : bool := String.eqb (lower a) (lower b).

(** The available participant at the first index at which [test] holds, with a
    reference; those before it are put back. *)
Fixpoint search (l : list Z) (test : EsifUp -> bool) : PM (option Z) :=
  match l with
  | [] => sret None
  | i :: l =>
      let! r := EsifUpPm_GetAvailableParticipantByIndexLocked i in
      match r with
      | None => search l test
      | Some a =>
          let! u := on_parts (load a) in
          if test u then sret (Some a) else on_parts (EsifUp_PutRef (Some a)) ;! search l test
      end
  end.

Definition EsifUpPm_GetAvailableParticipantByName (participantName : option string) : PM (option Z) :=
  match participantName with
  | None => sret None
  | Some name => search indices (fun u => stricmp_eq name (fName (fMetadata u)))
  end.

Definition does_exist (key : option string) (test : string -> EsifUp -> bool) : PM bool :=
  match key with
  | None => sret false
  | Some k => let! r := search indices (test k) in on_parts (EsifUp_PutRef r) ;! sret (match r with Some _ => true | None => false end)
  end.
Definition EsifUpPm_DoesAvailableParticipantExistByHID (participantHID : option string) : PM bool :=
  does_exist participantHID (fun k u => String.eqb (fAcpiDevice (fMetadata u)) k).
Definition EsifUpPm_DoesAvailableParticipantExistByDevicePath (participantDevicePath : option string) : PM bool :=
  does_exist participantDevicePath (fun k u => stricmp_eq (fDevicePath (fMetadata u)) k).
Definition EsifUpPm_DoesAvailableParticipantExistByName (participantName : option string) : PM bool :=
  does_exist participantName (fun k u => String.eqb (fName (fMetadata u)) k).

(** The entry read after the lock has been released is the one that was found. *)
Definition EsifUpPm_MapLpidToParticipantInstance (lpInstance : Z) (has_ptr : bool) : PM (Z * option Z) :=
  if negb has_ptr then sret (ESIF_E_PARAMETER_IS_NULL, None)
  else
    let! r := find_index indices (fun i =>
      let! e := get_entry i in
      match fUpPtr e with
      | None => sret false
      | Some a => let! u := on_parts (load a) in sret ((fLpInstance u =? lpInstance) || ((0 =? i) && (fLpAlias u =? lpInstance)))
      end) in
    match r with
    | None => sret (ESIF_E_INVALID_HANDLE, None)
    | Some i => let! e := get_entry i in let! inst := on_parts (EsifUp_GetInstance (fUpPtr e)) in sret (ESIF_OK, Some inst)
    end.

Definition EsifUpPm_IsActionUsedByParticipants (type : Z) : PM bool :=
  let! r := find_index indices (fun i =>
    let! e := get_entry i in match fUpPtr e with None => sret false | Some a => on_parts (EsifUp_IsActionInDsp dm (Some a) type) end) in
  sret (match r with Some _ => true | None => false end).

Definition EsifUpPm_ParticipantCount : PM Z := let! s := sget in sret (fEntryCount s).

(* ------------------------------------------------------------------ *)
(** ** The iterator *)

Record UfPmIterator : Type := mk_pmit { marker : bool; index : Z; ref_taken : bool; it_up : option Z }.
Definition EsifUpPm_InitIterator : UfPmIterator := mk_pmit true 0 false None.

Fixpoint next_available (l : list Z) : PM (option (Z * Z)) :=
  match l with
  | [] => sret None
  | i :: l =>
      let! r := EsifUpPm_GetAvailableParticipantByIndex i in
      match r with Some a => sret (Some (i, a)) | None => next_available l end
  end.

Definition EsifUpPm_GetNextUp (it : UfPmIterator) : PM (Z * option Z * UfPmIterator) :=
  if negb (marker it) || (MAX_PARTICIPANT_ENTRY <=? index it) then sret (ESIF_E_INVALID_HANDLE, None, it)
  else
    let! it := (if ref_taken it then on_parts (EsifUp_PutRef (it_up it)) ;! sret (mk_pmit true (wrap 8 (index it + 1)) false None) else sret it) in
    let! r := next_available (seqZ (index it) (MAX_PARTICIPANT_ENTRY - index it)) in
    match r with
    | Some (i, a) => sret (ESIF_OK, Some a, mk_pmit true i true (Some a))
    | None => sret (ESIF_E_ITERATION_DONE, None, it)
    end.

(* ------------------------------------------------------------------ *)
(** ** Registration *)

(** The participant that the description collides with: for a DPTF zone that in
    entry 0, otherwise the first with the same name, or of the same type where auto-enumeration makes
    the two stand for one device. *)
Definition overlaps (md : metadata) (u : EsifUp) : bool :=
  let autoEnumerated := has_flag (md_flags md) ESIF_FLAG_AUTO_ENUMERATED in
  let curAuto := has_flag (fFlags (fMetadata u)) ESIF_FLAG_AUTO_ENUMERATED in
  String.eqb (fName (fMetadata u)) (md_name md) ||
  ((md_acpi_type md =? fAcpiType (fMetadata u)) &&
   (if negb (md_acpi_type md =? ESIF_DOMAIN_TYPE_NVME) then autoEnumerated || curAuto else negb (Bool.eqb autoEnumerated curAuto))).

Definition EsifUpPm_GetOverlappingEntryFromMetadataLocked (md : metadata) : PM (option Z) :=
  if has_flag (md_flags md) ESIF_FLAG_DPTFZ then
    let! e := get_entry ESIF_PARTICIPANT0_INDEX in sret (match fUpPtr e with Some _ => Some ESIF_PARTICIPANT0_INDEX | None => None end)
  else
    find_index indices (fun i =>
      let! e := get_entry i in match fUpPtr e with None => sret false | Some a => let! u := on_parts (load a) in sret (overlaps md u) end).

Definition DoesPartNameMatchMetadata (a : Z) (md : metadata) : PM bool := let! u := on_parts (load a) in sret (String.eqb (fName (fMetadata u)) (md_name md)).

(** The first entry that is available; entry 0 only for the primary participant. *)
Definition free_slot (primary : bool) : PM (option Z) :=
  find_index indices (fun i => let! e := get_entry i in sret (bool_decide (fState e = STATE_AVAILABLE) && (negb (i =? ESIF_PARTICIPANT0_INDEX) || primary))).

(** What the part under the lock leaves behind: the result, the participant and the
    name of a participant that the lower framework is to destroy; [inl] ends the
    call. *)
Abbreviation reg := (Z * option Z * option string + option Z * option string)%type.

Definition resume_existing (i : Z) (e : EsifUpManagerEntry) (a : Z) (md : metadata) : PM reg :=
  let! same := DoesPartNameMatchMetadata a md in
  if negb same then
    let conjured := bool_decide (origin md = eParticipantOriginLF) && (md_enumerator md =? ESIF_PARTICIPANT_ENUM_CONJURE) in
    sret (inl (ESIF_OK, None, if conjured then Some (md_name md) else None))
  else if bool_decide (fState e = STATE_CREATED) then sret (inl (ESIF_OK, None, None))
  else
    let! rc := on_parts (EsifUp_GetRef (Some a)) in
    if negb (rc =? ESIF_OK) then sret (inl (ESIF_E_NO_CREATE, None, None))
    else
      let! rc := on_parts (EsifUp_ReInitializeParticipant dm (Some a) md) in
      if negb (rc =? ESIF_OK) then sret (inl (ESIF_E_NO_CREATE, Some a, None))
      else set_state i STATE_CREATED ;! add_count 1 ;! sret (inr (Some a, None)).

Definition replace_existing (mem : bool) (i : Z) (e : EsifUpManagerEntry) (a : Z) (md : metadata) : PM reg :=
  let! r := on_parts (EsifUp_CreateParticipant dm mem md) in
  match r.2 with
  | None => sret (inl (ESIF_E_NO_CREATE, None, None))
  | Some newUp =>
      let! inst := on_parts (EsifUp_GetInstance (Some a)) in
      on_parts (EsifUp_SetInstance (Some newUp) inst) ;!
      let! rc := on_parts (EsifUp_GetRef (Some newUp)) in
      if negb (rc =? ESIF_OK) then on_parts (EsifUp_DestroyParticipant (Some newUp)) ;! sret (inl (ESIF_E_NO_CREATE, None, None))
      else
        on_parts (EsifUp_SuspendParticipant (Some a)) ;!
        (if bool_decide (fState e = STATE_CREATED) then sret tt else set_state i STATE_CREATED ;! add_count 1) ;!
        set_entry i (mk_entry STATE_CREATED (Some newUp)) ;!
        on_parts (emit (C_AppsDestroy a)) ;!
        let! u := on_parts (load a) in
        let conjured := bool_decide (fOrigin u = eParticipantOriginLF) && (fEnumerator (fMetadata u) =? ESIF_PARTICIPANT_ENUM_CONJURE) in
        on_parts (EsifUp_DestroyParticipant (Some a)) ;!
        sret (inr (Some newUp, if conjured then Some (fName (fMetadata u)) else None))
  end.

Definition discard (a : Z) : PM reg := on_parts (EsifUp_DestroyParticipant (Some a)) ;! sret (inl (ESIF_E_NO_CREATE, None, None)).

Definition register_new (mem mem_h : bool) (md : metadata) : PM reg :=
  let! r := on_parts (EsifUp_CreateParticipant dm mem md) in
  match r.2 with
  | None => sret (inl (ESIF_E_NO_CREATE, None, None))
  | Some a =>
      let! u := on_parts (load a) in
      let! slot := free_slot (EsifUp_IsPrimaryParticipant u) in
      match slot with
      | None => discard a
      | Some i =>
          let! h := (if EsifUp_IsPrimaryParticipant u then sret (ESIF_OK, ESIF_HANDLE_PRIMARY_PARTICIPANT) else EsifHandleMgr_GetNext mem_h) in
          if negb (h.1 =? ESIF_OK) then discard a
          else
            on_parts (EsifUp_SetInstance (Some a) h.2) ;!
            let! rc := on_parts (EsifUp_GetRef (Some a)) in
            if negb (rc =? ESIF_OK) then discard a
            else set_entry i (mk_entry STATE_CREATED (Some a)) ;! add_count 1 ;! sret (inr (Some a, None))
      end
  end.

(** A NULL name is refused without a request. *)
Definition EsifUpPm_DestroyConjuredLfParticipant (name : option string) : PM Z :=
  match name with None => sret ESIF_E_PARAMETER_IS_NULL | Some n => on_parts (emit (C_DestroyConjuredLf n)) ;! sret ESIF_OK end.

(** The result and the handle; [mem] and [mem_h] are the outcomes of the allocations
    of the participant and of the handle map. *)
Definition EsifUpPm_RegisterParticipant (mem mem_h : bool) (md : option metadata) (has_ptr : bool) : PM (Z * Z) :=
  match md with
  | Some md =>
      if negb has_ptr then sret (ESIF_E_PARAMETER_IS_NULL, ESIF_INVALID_HANDLE)
      else
        let! entry := EsifUpPm_GetOverlappingEntryFromMetadataLocked md in
        let! r :=
          match entry with
          | None => register_new mem mem_h md
          | Some i =>
              let! e := get_entry i in
              match fUpPtr e with
              | None => ub
              | Some a =>
                  let! u := on_parts (load a) in
                  if negb (EsifUp_IsPreferredParticipant u md) then resume_existing i e a md else replace_existing mem i e a md
              end
          end in
        match r with
        | inl (rc, upPtr, name) =>
            EsifUpPm_DestroyConjuredLfParticipant name ;! on_parts (EsifUp_PutRef upPtr) ;! sret (rc, ESIF_INVALID_HANDLE)
        | inr (upPtr, name) =>
            let! inst := on_parts (EsifUp_GetInstance upPtr) in
            match upPtr with
            | None => ub
            | Some a =>
                on_parts (EsifUp_DspReadyInit upPtr) ;!
                on_parts (emit (C_AppsCreate a)) ;!
                on_parts (emit (C_ThermalApiCreate a)) ;!
                on_parts (emit (C_ActivityLogging a)) ;!
                on_parts (emit (C_SignalEvent inst ESIF_EVENT_PARTICIPANT_CREATE_COMPLETE)) ;!
                EsifUpPm_DestroyConjuredLfParticipant name ;!
                on_parts (EsifUp_PutRef upPtr) ;!
                sret (ESIF_OK, inst)
            end
        end
  | None => sret (ESIF_E_PARAMETER_IS_NULL, ESIF_INVALID_HANDLE)
  end.

(* ------------------------------------------------------------------ *)
(** ** Suspending, resuming and destroying *)

(** The results of offering a participant to the applications and of taking it from
    them. *)
Context (EsifAppMgr_CreateParticipantInAllApps EsifAppMgr_DestroyParticipantInAllApps : Z -> Z).

Definition EsifUpPm_ResumeParticipant (upInstance : Z) : PM Z :=
  if EsifUpPm_IsPrimaryParticipantId upInstance then sret ESIF_OK
  else
    let! entry := EsifUpPm_GetEntryByInstanceLocked upInstance in
    match entry with
    | None => sret ESIF_E_NOT_FOUND
    | Some i =>
        let! e := get_entry i in
        match fUpPtr e with
        | None => sret ESIF_OK
        | Some a =>
            if bool_decide (fState e = STATE_CREATED) then sret ESIF_OK
            else
              set_state i STATE_CREATED ;! add_count 1 ;!
              let! rc := on_parts (EsifUp_GetRef (Some a)) in
              if negb (rc =? ESIF_OK) then sret rc
              else
                on_parts (EsifUp_ResumeParticipant (Some a)) ;!
                on_parts (emit (C_AppsCreate a)) ;!
                on_parts (EsifUp_PutRef (Some a)) ;!
                sret (EsifAppMgr_CreateParticipantInAllApps a)
        end
    end.

Definition EsifUpPm_SuspendParticipant (upInstance : Z) : PM Z :=
  let! entry := EsifUpPm_GetEntryByInstanceLocked upInstance in
  match entry with
  | None => sret ESIF_E_NOT_FOUND
  | Some i =>
      let! e := get_entry i in
      match fUpPtr e with
      | None => sret ESIF_OK
      | Some a =>
          if negb (above_removed (fState e)) then sret ESIF_OK
          else
            on_parts (EsifUp_SuspendParticipant (Some a)) ;!
            set_state i STATE_REMOVED ;! add_count (-1) ;!
            let! rc := on_parts (EsifUp_GetRef (Some a)) in
            if negb (rc =? ESIF_OK) then sret ESIF_OK
            else
              on_parts (emit (C_AppsDestroy a)) ;!
              on_parts (EsifUp_PutRef (Some a)) ;!
              sret (EsifAppMgr_DestroyParticipantInAllApps a)
      end
  end.

Fixpoint each (l : list Z) (body : Z -> PM unit) : PM unit :=
  match l with [] => sret tt | i :: l => body i ;! each l body end.
Definition others : list Z := seqZ (ESIF_PARTICIPANT0_INDEX + 1) (MAX_PARTICIPANT_ENTRY - 1).

Definition EsifUpPm_ResumeParticipants : PM Z :=
  each others (fun i =>
    let! e := get_entry i in
    let! participantId := on_parts (EsifUp_GetInstance (fUpPtr e)) in
    match fUpPtr e with None => sret tt | Some _ => let! _ := EsifUpPm_ResumeParticipant participantId in sret tt end) ;!
  sret ESIF_OK.

(** The device matches if its name starts with [acpiDevice]; the result is that of
    the last [EsifUp_GetRef]. *)
Fixpoint resume_by_type (l : list Z) (acpiDevice : string) (acpiType rc : Z) : PM Z :=
  match l with
  | [] => sret rc
  | i :: l =>
      let! e := get_entry i in
      let! rc := on_parts (EsifUp_GetRef (fUpPtr e)) in
      let upPtr := if rc =? ESIF_OK then fUpPtr e else None in
      let! participantId := on_parts (EsifUp_GetInstance upPtr) in
      (match upPtr with
       | None => sret tt
       | Some a =>
           let! u := on_parts (load a) in
           if String.prefix acpiDevice (fAcpiDevice (fMetadata u)) && (fAcpiType (fMetadata u) =? acpiType)
           then let! _ := EsifUpPm_ResumeParticipant participantId in sret tt else sret tt
       end) ;!
      on_parts (EsifUp_PutRef upPtr) ;!
      resume_by_type l acpiDevice acpiType rc
  end.
Definition EsifUpPm_ResumeParticipantByType (acpiDevice : string) (acpiType : Z) : PM Z := resume_by_type others acpiDevice acpiType ESIF_OK.

(** The handle is that of the last conjured participant met, also at the entries
    after it. *)
Fixpoint signal_dynamic (l : list Z) (event participantId : Z) : PM unit :=
  match l with
  | [] => sret tt
  | i :: l =>
      let! e := get_entry i in
      let! participantId := (match fUpPtr e with
        | None => sret participantId
        | Some a =>
            let! u := on_parts (load a) in
            sret (if bool_decide (fOrigin u = eParticipantOriginUF) && (fEnumerator (fMetadata u) =? ESIF_PARTICIPANT_ENUM_CONJURE) then fInstance u else participantId)
        end) in
      (if participantId =? ESIF_INVALID_HANDLE then sret tt else on_parts (emit (C_SignalEvent participantId event))) ;!
      signal_dynamic l event participantId
  end.
Definition EsifUpPm_SuspendDynamicUfParticipants : PM unit := signal_dynamic others ESIF_EVENT_PARTICIPANT_SUSPEND ESIF_INVALID_HANDLE.
Definition EsifUpPm_ResumeDynamicUfParticipants : PM unit := signal_dynamic others ESIF_EVENT_PARTICIPANT_RESUME ESIF_INVALID_HANDLE.

Definition EsifUpPm_SuspendLfParticipants : PM unit :=
  each indices (fun i =>
    let! e := get_entry i in
    (match fUpPtr e with
     | None => sret tt
     | Some a =>
         let! u := on_parts (load a) in
         if bool_decide (fOrigin u = eParticipantOriginLF) then on_parts (emit (C_SignalEvent (fInstance u) ESIF_EVENT_PARTICIPANT_SUSPEND)) else sret tt
     end) ;!
    (if i =? ESIF_PARTICIPANT0_INDEX then set_state i STATE_LF_REMOVED else sret tt)).

(** The participants of that name, or all if it is NULL; the name for the lower framework is the caller's. *)
Definition destroy_entry (participantName : option string) (i : Z) : PM bool :=
  let! e := get_entry i in
  match fUpPtr e with
  | None => sret (match participantName with None => true | Some _ => false end)
  | Some a =>
      let! u := on_parts (load a) in
      if match participantName with None => true | Some n => stricmp_eq n (fName (fMetadata u)) end then
        let isConjuredLfParticipant := (fEnumerator (fMetadata u) =? ESIF_PARTICIPANT_ENUM_CONJURE) && negb (fLpInstance u =? ESIF_INSTANCE_INVALID) in
        (if isConjuredLfParticipant then let! _ := EsifUpPm_DestroyConjuredLfParticipant participantName in sret tt else sret tt) ;!
        let! _ := EsifUpPm_SuspendParticipant (fInstance u) in
        on_parts (emit (C_SignalEvent (fInstance u) ESIF_EVENT_PARTICIPANT_UNREGISTER_COMPLETE)) ;!
        let! e := get_entry i in
        set_entry i (mk_entry STATE_AVAILABLE None) ;!
        on_parts (EsifUp_DestroyParticipant (fUpPtr e)) ;!
        sret true
      else sret false
  end.
Fixpoint destroy_loop (l : list Z) (participantName : option string) (rc : Z) : PM Z :=
  match l with
  | [] => sret rc
  | i :: l => let! hit := destroy_entry participantName i in destroy_loop l participantName (if (hit : bool) then ESIF_OK else rc)
  end.
Definition EsifUpPm_DestroyParticipant (participantName : option string) : PM Z := destroy_loop indices participantName ESIF_E_NOT_FOUND.
Definition EsifUpPm_DestroyParticipants : PM Z := EsifUpPm_DestroyParticipant None.

Definition EsifUpPm_DestroyParticipantByInstance (upInstance : Z) : PM Z :=
  let! entry := EsifUpPm_GetEntryByInstanceLocked upInstance in
  match entry with
  | None => sret ESIF_E_NOT_FOUND
  | Some i =>
      let! e := get_entry i in
      let! rc := on_parts (EsifUp_GetRef (fUpPtr e)) in
      if negb (rc =? ESIF_OK) then sret rc
      else
        let! name := on_parts (EsifUp_GetName (fUpPtr e)) in
        on_parts (EsifUp_PutRef (fUpPtr e)) ;!
        EsifUpPm_DestroyParticipant (Some name)
  end.

(* ------------------------------------------------------------------ *)
(** ** Events *)

Definition EsifUpPm_CreateLPfromUFMeta (name : string) : PM Z :=
  let! exists_ := EsifUpPm_DoesAvailableParticipantExistByName (Some name) in
  if (exists_ : bool) then sret ESIF_E_MAXIMUM_CAPACITY_REACHED else on_parts (emit (C_CreateLpFromMeta name)) ;! sret ESIF_OK.

(** [None] is a NULL pointer or data that is too short; the two answers differ. *)
Definition EsifUpPm_ActionChangeHandler (action : Z + Z) (isArrival : bool) : PM Z :=
  match action with
  | inl rc => sret rc
  | inr actionType =>
      (if isArrival then on_parts (emit (C_CreateActionAssociated actionType)) else sret tt) ;!
      each indices (fun i =>
        let! r := EsifUpPm_GetAvailableParticipantByIndex i in
        match r with
        | None => sret tt
        | Some a =>
            let! b := on_parts (EsifUp_IsActionInDsp dm (Some a) actionType) in
            (if (b : bool) then let! _ := on_parts (EsifUp_ReevaluateParticipantCaps (Some a)) in sret tt else sret tt) ;!
            on_parts (EsifUp_PutRef (Some a))
        end) ;!
      sret ESIF_OK
  end.

(** The walk of the slow polling. *)
Fixpoint slow_poll_loop (n : nat) (it : UfPmIterator) (body : Z -> PM unit) (last : option Z) : PM (option Z) :=
  match n with
  | O => ub
  | S n =>
      let! r := EsifUpPm_GetNextUp it in
      if r.1.1 =? ESIF_OK then
        match r.1.2 with
        | None => slow_poll_loop n r.2 body None
        | Some a => body a ;! slow_poll_loop n r.2 body (Some a)
        end
      else sret (if r.1.1 =? ESIF_E_ITERATION_DONE then None else last)
  end.
Definition EsifUpPm_StopAllParticipantsSlowPoll : PM Z :=
  let! upPtr := slow_poll_loop 33 EsifUpPm_InitIterator (fun a => let! _ := on_parts (EsifUp_StopParticipantSlowPoll (Some a)) in sret tt) None in
  on_parts (EsifUp_PutRef upPtr) ;! sret ESIF_OK.

(** Polling from one thread. *)
Definition for_available (body : Z -> PS unit) : PM unit :=
  each indices (fun i =>
    let! r := EsifUpPm_GetAvailableParticipantByIndex i in
    match r with None => sret tt | Some a => on_parts (body a) ;! on_parts (EsifUp_PutRef (Some a)) end).
Definition EsifUfPoll_once : PM unit := for_available (fun a => EsifUp_PollParticipant (Some a)).
Definition EsifUFPollStart : PM unit := for_available (fun a => EsifUp_RegisterParticipantForPolling (Some a)).
Definition EsifUFPollStop : PM unit := for_available (fun a => EsifUp_UnRegisterParticipantForPolling (Some a)).

(** The data of an event; the data of a creation by its header. *)
Inductive create_request : Type := CR_LP (md : metadata) | CR_UP (md : metadata) | CR_UP_W_LP (name : string) | CR_OTHER.
Inductive event_data : Type := ED_NULL | ED_SHORT | ED_CREATE (version : Z) (r : create_request) | ED_ACTION (actionType : Z).

Definition as_origin (o : eEsifParticipantOrigin) (md : metadata) : metadata :=
  mk_metadata o (md_id md) (md_enumerator md) (md_flags md) (md_name md) (md_acpi_type md) (md_acpi_device md) (md_device_name md) (md_device_path md)
    (md_port md) (md_scbl md) (md_rest md).

(** Slow polling in connected standby: [get_period] executes a primitive of a
    participant that reads a time, in milliseconds.  The rate is a [UInt32], the
    period a 64-bit number; the result is not used. *)
Context (get_period : Z -> Z -> Z -> Z * Z).
Definition CONNECTED_STANDBY_POLLING_RATE_DEFAULT : Z := 60000.
Definition GET_PARTICIPANT_SAMPLE_PERIOD : Z := 300.
Definition SET_PARTICIPANT_SAMPLE_BEHAVIOR : Z := 302.
Definition GET_STANDBY_TEMPERATURE_SAMPLE_PERIOD : Z := 505.

Definition slow_poll_domain (slowPollRate a d : Z) : PS unit :=
  let r := get_period a GET_PARTICIPANT_SAMPLE_PERIOD d in
  if negb (r.1 =? ESIF_OK) then sret tt
  else if (r.2 <? slowPollRate) && negb (r.2 =? 0) then emit (C_SetPrimitive a SET_PARTICIPANT_SAMPLE_BEHAVIOR d slowPollRate) else sret tt.

Definition EsifUp_StartParticipantSlowPoll (a : Z) : PM unit :=
  let! ietmPtr := EsifUpPm_GetAvailableParticipantByInstance ESIF_HANDLE_PRIMARY_PARTICIPANT in
  let slowPollRate :=
    match ietmPtr with
    | None => CONNECTED_STANDBY_POLLING_RATE_DEFAULT
    | Some p =>
        let r := get_period p GET_STANDBY_TEMPERATURE_SAMPLE_PERIOD 0 in
        if r.1 =? ESIF_OK then wrap 32 r.2 else CONNECTED_STANDBY_POLLING_RATE_DEFAULT
    end in
  on_parts (EsifUp_PutRef ietmPtr) ;!
  let! _ := on_parts (for_domains a (slow_poll_domain slowPollRate a)) in sret tt.

Definition EsifUpPm_StartAllParticipantsSlowPoll : PM Z :=
  let! upPtr := slow_poll_loop 33 EsifUpPm_InitIterator EsifUp_StartParticipantSlowPoll None in
  on_parts (EsifUp_PutRef upPtr) ;! sret ESIF_OK.

Definition EsifUpPm_EventCallback (mem mem_h : bool) (fpcEvent : option Z) (upInstance : Z) (data : event_data) : PM Z :=
  match fpcEvent with
  | None => sret ESIF_E_PARAMETER_IS_NULL
  | Some ev =>
      if ev =? ESIF_EVENT_PARTICIPANT_CREATE then
        match data with
        | ED_NULL => sret ESIF_E_PARAMETER_IS_NULL
        | ED_CREATE version r =>
            if negb (version =? ESIF_EVENT_DATA_PARTICIPANT_CREATE_HDR_VERSION) then sret ESIF_E_PARAMETER_IS_OUT_OF_BOUNDS
            else
              match r with
              | CR_LP md => let! r := EsifUpPm_RegisterParticipant mem mem_h (Some (as_origin eParticipantOriginLF md)) true in sret r.1
              | CR_UP md => let! r := EsifUpPm_RegisterParticipant mem mem_h (Some (as_origin eParticipantOriginUF md)) true in sret r.1
              | CR_UP_W_LP name => EsifUpPm_CreateLPfromUFMeta name
              | CR_OTHER => sret ESIF_E_NOT_SUPPORTED
              end
        | _ => sret ESIF_E_PARAMETER_IS_OUT_OF_BOUNDS
        end
      else if ev =? ESIF_EVENT_PARTICIPANT_SUSPEND then
        if upInstance =? ESIF_HANDLE_PRIMARY_PARTICIPANT then EsifUpPm_SuspendDynamicUfParticipants ;! sret ESIF_OK else EsifUpPm_SuspendParticipant upInstance
      else if ev =? ESIF_EVENT_PARTICIPANT_RESUME then
        if upInstance =? ESIF_HANDLE_PRIMARY_PARTICIPANT then EsifUpPm_ResumeDynamicUfParticipants ;! sret ESIF_OK else EsifUpPm_ResumeParticipant upInstance
      else if ev =? ESIF_EVENT_PARTICIPANT_UNREGISTER then EsifUpPm_DestroyParticipantByInstance upInstance
      else if ev =? ESIF_EVENT_LF_UNLOADED then EsifUpPm_SuspendLfParticipants ;! sret ESIF_OK
      else if (ev =? ESIF_EVENT_ACTION_LOADED) || (ev =? ESIF_EVENT_ACTION_UNLOADED) then
        let action := match data with ED_NULL => inl ESIF_E_PARAMETER_IS_NULL | ED_ACTION t => inr t | _ => inl ESIF_E_PARAMETER_IS_OUT_OF_BOUNDS end in
        let! _ := EsifUpPm_ActionChangeHandler action (ev =? ESIF_EVENT_ACTION_LOADED) in sret ESIF_OK
      else if ev =? ESIF_EVENT_DISPLAY_OFF then let! _ := EsifUpPm_StartAllParticipantsSlowPoll in sret ESIF_OK
      else if ev =? ESIF_EVENT_DISPLAY_ON then let! _ := EsifUpPm_StopAllParticipantsSlowPoll in sret ESIF_OK
      else sret ESIF_OK
  end.
End Manager.
