(* ===== verification/PartInv.v ===== *)
(** * The table of the participant manager stays well-formed

    [pm_ok] is the invariant of PartMgr.v: which entries have a participant, that
    these are alive and have the references that somebody holds ([out]) and the
    manager's own, that their handles differ, and that nothing else is on the heap.
    Every operation keeps it, and has an outcome. *)

From S2P Require Import Prelude HandleMgr HandleApi Participant PartMgr.
From stdpp Require Import list gmap strings functions.
Local Open Scope Z_scope.
Local Open Scope dptf_scope.

Section Inv.
Context {H : Type} {api : HandleApi H} {laws : HandleLaws H} (dm : dsp_mgr) (Hdm : dm_ok dm).
Abbreviation pm := (PartMgr.pm (H := H)).

Definition with_parts (p : pst) (s : pm) : pm := mk_pm (fEntryCount s) (fEntries s) p (handles s).
Definition counted (l : list EsifUpManagerEntry) : Z := Z.of_nat (length (filter (fun e => above_removed (fState e) = true) l)).
(** The handle that an entry may have. *)
Definition handle_fits (live : gset Z) (i : nat) (inst : Z) : Prop :=
  if decide (i = 0%nat) then inst = ESIF_HANDLE_PRIMARY_PARTICIPANT else inst ∈ live /\ EsifHandleMgr_IsReservedHandle inst = false.

(** [lf]: the lower framework has been unloaded at some time; [n] handles are left. *)
Record pm_ok (lf : bool) (n : nat) (live : gset Z) (out : Z -> Z) (s : pm) : Prop := {
  ok_len : length (fEntries s) = Z.to_nat MAX_PARTICIPANT_ENTRY;
  ok_free : forall i e, fEntries s !! i = Some e -> fState e = STATE_AVAILABLE <-> fUpPtr e = None;
  ok_up : forall i e a, fEntries s !! i = Some e -> fUpPtr e = Some a ->
    exists u, ups (parts s) !! a = Some u /\ healthy u /\ refCount u = 1 + out a /\ handle_fits live i (fInstance u);
  ok_inj : forall i j e e' u u' a a', fEntries s !! i = Some e -> fEntries s !! j = Some e' -> fUpPtr e = Some a -> fUpPtr e' = Some a' ->
    ups (parts s) !! a = Some u -> ups (parts s) !! a' = Some u' -> a = a' \/ fInstance u = fInstance u' -> i = j;
  ok_heap : forall a, is_Some (ups (parts s) !! a) -> a < next_up (parts s) /\ exists i e, fEntries s !! i = Some e /\ fUpPtr e = Some a;
  ok_out : forall a, 0 <= out a /\ (ups (parts s) !! a = None -> out a = 0);
  ok_handles : holds n (handles s) live;
  ok_lf : lf = false -> (forall i e, fEntries s !! i = Some e -> fState e <> STATE_LF_REMOVED) /\ fEntryCount s = counted (fEntries s)
}.

(** Fewer than 2^31 references are out. *)
Definition few (out : Z -> Z) : Prop := forall a, out a < 2 ^ 31.

Lemma on_parts_ok {T} (m : PS T) s x p : m (parts s) = Some (x, p) -> on_parts m s = Some (x, with_parts p s).
Proof. unfold on_parts. by intros ->. Qed.

Lemma heap_refl (p : pst) : heap p (ups p) (next_up p).
Proof. done. Qed.

(** Only the heap counts. *)
Lemma pm_ok_quiet lf n live out s p nx : pm_ok lf n live out s -> heap p (ups (parts s)) nx -> next_up (parts s) <= nx -> pm_ok lf n live out (with_parts p s).
Proof.
  intros [A B C D E F G I] [H1 H2] Hnx. split; cbn; rewrite ?H1, ?H2; try done. intros a Ha. destruct (E a Ha) as [Hlt He]. split; [lia|done].
Qed.

(** A participant changes, but not its handle. *)
Lemma pm_ok_up lf n live out out' s p a u u' : pm_ok lf n live out s -> ups (parts s) !! a = Some u ->
  heap p (<[a := u']> (ups (parts s))) (next_up (parts s)) -> fInstance u' = fInstance u -> healthy u' -> refCount u' = 1 + out' a -> 0 <= out' a ->
  (forall b, b <> a -> out' b = out b) -> pm_ok lf n live out' (with_parts p s).
Proof.
  intros [A B C D E F G I] Ha [H1 H2] Hi Hh Hr H0 Ho. split; cbn; rewrite ?H1, ?H2; try done.
  - intros i e b Hie Hb. destruct (C i e b Hie Hb) as (v & Hv & Hv1 & Hv2 & Hv3). destruct (decide (b = a)) as [->|Hne].
    + rewrite Ha in Hv. injection Hv as <-. exists u'. rewrite lookup_insert_eq. by rewrite Hi.
    + exists v. rewrite lookup_insert_ne by done. split_and!; try done. by rewrite Ho.
  - intros i j e e' v v' b b' Hie Hje Hb Hb' Hv Hv' Heq.
    assert (Hold : forall c w, <[a := u']> (ups (parts s)) !! c = Some w -> exists w0, ups (parts s) !! c = Some w0 /\ fInstance w0 = fInstance w).
    { intros c w Hw. destruct (decide (c = a)) as [->|Hne]; [rewrite lookup_insert_eq in Hw; injection Hw as <-; by exists u|rewrite lookup_insert_ne in Hw by done; by exists w]. }
    destruct (Hold _ _ Hv) as (w & Hw & Hwi). destruct (Hold _ _ Hv') as (w' & Hw' & Hwi'). eapply (D i j e e' w w'); try done. destruct Heq as [->|Heq]; [by left|right; congruence].
  - intros b Hb. apply E. destruct (decide (b = a)) as [->|Hne]; [by exists u|by rewrite lookup_insert_ne in Hb].
  - intros b. destruct (decide (b = a)) as [->|Hne]; [by rewrite lookup_insert_eq|]. rewrite lookup_insert_ne by done. rewrite Ho by done. apply F.
Qed.

Lemma bump_healthy d u : healthy u -> 1 <= refCount u + d < 2 ^ 32 - 1 -> healthy (bump d u).
Proof. intros [A B C D E] Hd. by split. Qed.

(** Taking and giving back a reference. *)
Lemma take_ref lf n live out s a u : pm_ok lf n live out s -> few out -> ups (parts s) !! a = Some u ->
  exists p, EsifUp_GetRef (Some a) (parts s) = Some (ESIF_OK, p) /\ heap p (<[a := bump 1 u]> (ups (parts s))) (next_up (parts s)) /\
    pm_ok lf n live (<[a := out a + 1]> out) (with_parts p s).
Proof.
  intros Hok Hfew Ha. destruct (ok_heap _ _ _ _ _ Hok a ltac:(by eexists)) as (_ & i & e & Hie & Hea).
  destruct (ok_up _ _ _ _ _ Hok i e a Hie Hea) as (u0 & Hu0 & Hh & Hr & _). rewrite Ha in Hu0. injection Hu0 as <-.
  destruct (ok_out _ _ _ _ _ Hok a) as [H0 _]. pose proof (Hfew a) as Hf.
  destruct (get_ref_ok (parts s) _ _ a u (heap_refl _) Ha (h_unmarked u Hh)) as (p & E & Hp & _); [lia|]. exists p. split; [done|]. split; [done|].
  eapply pm_ok_up; [exact Hok|exact Ha|exact Hp|done| | | |].
  - apply bump_healthy; [done|lia].
  - cbn. unfold insert, fn_insert. rewrite decide_True by done. lia.
  - unfold insert, fn_insert. rewrite decide_True by done. lia.
  - intros b Hb. unfold insert, fn_insert. by rewrite decide_False.
Qed.

Lemma give_ref lf n live out s a u : pm_ok lf n live out s -> ups (parts s) !! a = Some u -> 0 < out a ->
  exists p, EsifUp_PutRef (Some a) (parts s) = Some (tt, p) /\ heap p (<[a := bump (-1) u]> (ups (parts s))) (next_up (parts s)) /\
    pm_ok lf n live (<[a := out a - 1]> out) (with_parts p s).
Proof.
  intros Hok Ha Hpos. destruct (ok_heap _ _ _ _ _ Hok a ltac:(by eexists)) as (_ & i & e & Hie & Hea).
  destruct (ok_up _ _ _ _ _ Hok i e a Hie Hea) as (u0 & Hu0 & Hh & Hr & _). rewrite Ha in Hu0. injection Hu0 as <-. pose proof (h_ref u Hh) as Hf.
  destruct (put_ref_ok (parts s) _ _ a u (heap_refl _) Ha (h_unmarked u Hh)) as (p & E & Hp & _); [lia|]. exists p. split; [done|]. split; [done|].
  eapply pm_ok_up; [exact Hok|exact Ha|exact Hp|done| | | |].
  - apply bump_healthy; [done|lia].
  - cbn. unfold insert, fn_insert. rewrite decide_True by done. lia.
  - unfold insert, fn_insert. rewrite decide_True by done. lia.
  - intros b Hb. unfold insert, fn_insert. by rewrite decide_False.
Qed.

(* ------------------------------------------------------------------ *)
(** ** An entry changes *)

Definition one (st : esif_pm_participant_state) : Z := if above_removed st then 1 else 0.

Lemma counted_insert l i e e' : l !! i = Some e -> counted (<[i := e']> l) = counted l + one (fState e') - one (fState e).
Proof.
  intros Hi. rewrite <- (take_drop_middle l i e Hi) at 2. rewrite (insert_take_drop l i e') by (by eapply lookup_lt_Some). unfold counted, one.
  rewrite !list.filter_app, !length_app, !filter_cons. repeat case_decide; destruct (above_removed _), (above_removed _); cbn [length]; try done; lia.
Qed.

Lemma counted_bound l : 0 <= counted l <= Z.of_nat (length l).
Proof. unfold counted. pose proof (length_filter (fun e => above_removed (fState e) = true) l). lia. Qed.

Lemma pm_ok_set lf n n' live live' out out' s i e e' p h cnt : pm_ok lf n live out s -> fEntries s !! i = Some e -> live ⊆ live' -> holds n' h live' ->
  (fState e' = STATE_AVAILABLE <-> fUpPtr e' = None) ->
  (forall b, fUpPtr e <> Some b -> fUpPtr e' <> Some b -> ups p !! b = ups (parts s) !! b /\ out' b = out b) ->
  (forall b, fUpPtr e = Some b -> fUpPtr e' <> Some b -> ups p !! b = None /\ out' b = 0) ->
  (forall b, fUpPtr e' = Some b -> exists u, ups p !! b = Some u /\ healthy u /\ refCount u = 1 + out' b /\ 0 <= out' b /\ b < next_up p /\
     handle_fits live' i (fInstance u) /\
     forall j e2 a2 u2, j <> i -> fEntries s !! j = Some e2 -> fUpPtr e2 = Some a2 -> ups (parts s) !! a2 = Some u2 -> a2 <> b /\ fInstance u2 <> fInstance u) ->
  next_up (parts s) <= next_up p ->
  (lf = false -> fState e' <> STATE_LF_REMOVED /\ cnt = fEntryCount s + one (fState e') - one (fState e)) ->
  pm_ok lf n' live' out' (mk_pm cnt (<[i := e']> (fEntries s)) p h).
Proof.
  intros [A B C D E F G I] Hi Hlive Hh Hst Hother Hgone Hnew Hnx Hcnt. pose proof (lookup_lt_Some _ _ _ Hi) as Hlt.
  (** the participants of the other entries *)
  assert (Hkeep : forall j e2 a2, j <> i -> fEntries s !! j = Some e2 -> fUpPtr e2 = Some a2 ->
    exists u2, ups (parts s) !! a2 = Some u2 /\ ups p !! a2 = Some u2 /\ out' a2 = out a2 /\ fUpPtr e' <> Some a2).
  { intros j e2 a2 Hj He2 Ha2. destruct (C j e2 a2 He2 Ha2) as (u2 & Hu2 & _). exists u2.
    assert (Hne : fUpPtr e <> Some a2) by (intros Hea; by apply Hj; eapply (D j i e2 e u2 u2 a2 a2); try done; left).
    assert (Hne' : fUpPtr e' <> Some a2) by (intros Hea; destruct (Hnew a2 Hea) as (u & _ & _ & _ & _ & _ & _ & Hd); by destruct (Hd j e2 a2 u2 Hj He2 Ha2 Hu2)).
    destruct (Hother a2 Hne Hne') as [-> ->]. done. }
  split; cbn.
  - by rewrite length_insert.
  - intros j e2 Hj. apply list_lookup_insert_Some in Hj as [(<- & <- & _)|[Hne Hj]]; [done|by eapply B].
  - intros j e2 a2 Hj Ha2. apply list_lookup_insert_Some in Hj as [(<- & <- & _)|[Hne Hj]].
    + destruct (Hnew a2 Ha2) as (u & ? & ? & ? & _ & _ & ? & _). by exists u.
    + destruct (C j e2 a2 Hj Ha2) as (u2 & Hu2 & H1 & H2 & H3). destruct (Hkeep j e2 a2) as (w & Hw & Hw' & -> & _); [by apply not_eq_sym|done|done|].
      rewrite Hu2 in Hw. injection Hw as <-. exists u2. split_and!; try done. unfold handle_fits in *. case_decide; [done|]. destruct H3. split; [by apply Hlive|done].
  - intros j k e2 e3 u2 u3 a2 a3 Hj Hk Ha2 Ha3 Hu2 Hu3 Heq.
    apply list_lookup_insert_Some in Hj as [(<- & <- & _)|[Hnj Hj]]; apply list_lookup_insert_Some in Hk as [(<- & <- & _)|[Hnk Hk]]; [done|..].
    + destruct (Hkeep k e3 a3) as (w & Hw & Hw' & _ & _); [by apply not_eq_sym|done|done|]. rewrite Hu3 in Hw'. injection Hw' as <-.
      destruct (Hnew a2 Ha2) as (u & Hu & _ & _ & _ & _ & _ & Hd). rewrite Hu2 in Hu. injection Hu as <-. destruct (Hd k e3 a3 u3 (not_eq_sym Hnk) Hk Ha3 Hw). destruct Heq; congruence.
    + destruct (Hkeep j e2 a2) as (w & Hw & Hw' & _ & _); [by apply not_eq_sym|done|done|]. rewrite Hu2 in Hw'. injection Hw' as <-.
      destruct (Hnew a3 Ha3) as (u & Hu & _ & _ & _ & _ & _ & Hd). rewrite Hu3 in Hu. injection Hu as <-. destruct (Hd j e2 a2 u2 (not_eq_sym Hnj) Hj Ha2 Hw). destruct Heq; congruence.
    + destruct (Hkeep j e2 a2) as (w & Hw & Hw' & _ & _); [by apply not_eq_sym|done|done|]. destruct (Hkeep k e3 a3) as (w' & Hv & Hv' & _ & _); [by apply not_eq_sym|done|done|].
      rewrite Hu2 in Hw'. rewrite Hu3 in Hv'. injection Hw' as <-. injection Hv' as <-. by eapply (D j k e2 e3 u2 u3 a2 a3).
  - intros b Hb. destruct (decide (fUpPtr e' = Some b)) as [He'|He'].
    + destruct (Hnew b He') as (u & _ & _ & _ & _ & Hblt & _). split; [done|]. exists i, e'. by rewrite list_lookup_insert_eq.
    + destruct (decide (fUpPtr e = Some b)) as [He|He]; [destruct (Hgone b He He') as [Hn _]; rewrite Hn in Hb; by destruct Hb|].
      destruct (Hother b He He') as [Hsame _]. rewrite Hsame in Hb. destruct (E b Hb) as (Hblt & j & e2 & Hj & Hjb). split; [lia|].
      exists j, e2. split; [|done]. rewrite list_lookup_insert_ne; [done|]. intros <-. rewrite Hi in Hj. by injection Hj as <-.
  - intros b. destruct (decide (fUpPtr e' = Some b)) as [He'|He'].
    + destruct (Hnew b He') as (u & Hu & _ & _ & H0 & _). split; [done|]. rewrite Hu. done.
    + destruct (decide (fUpPtr e = Some b)) as [He|He]; [destruct (Hgone b He He') as [_ ->]; lia|]. destruct (Hother b He He') as [-> ->]. apply F.
  - done.
  - intros Hlf. destruct (I Hlf) as [I1 I2]. destruct (Hcnt Hlf) as [Hne ->]. split.
    + intros j e2 Hj. apply list_lookup_insert_Some in Hj as [(<- & <- & _)|[_ Hj]]; [done|by eapply I1].
    + rewrite (counted_insert _ _ e) by done. rewrite I2. done.
Qed.

(** Another state for an entry that has a participant. *)
Lemma pm_ok_state lf n live out s i e st cnt : pm_ok lf n live out s -> fEntries s !! i = Some e -> is_Some (fUpPtr e) -> st <> STATE_AVAILABLE ->
  (lf = false -> st <> STATE_LF_REMOVED /\ cnt = fEntryCount s + one st - one (fState e)) ->
  pm_ok lf n live out (mk_pm cnt (<[i := mk_entry st (fUpPtr e)]> (fEntries s)) (parts s) (handles s)).
Proof.
  intros Hok Hi [a Ha] Hst Hcnt. eapply (pm_ok_set lf n n live live out out s i e); try done.
  - apply (ok_handles _ _ _ _ _ Hok).
  - cbn. rewrite Ha. by split.
  - intros b Hb. cbn in Hb. destruct (ok_up _ _ _ _ _ Hok i e b Hi Hb) as (u & Hu & Hh & Hr & Hf). exists u. split_and!; try done.
    + apply (ok_out _ _ _ _ _ Hok).
    + apply (ok_heap _ _ _ _ _ Hok). by eexists.
    + intros j e2 a2 u2 Hj He2 Ha2 Hu2. split; intros Heq; apply Hj; eapply (ok_inj _ _ _ _ _ Hok j i e2 e u2 u a2 b); try done; [by left|by right].
Qed.

(** The count is a byte, and the entries are 32. *)
Lemma count_fits n live out s d : pm_ok false n live out s -> 0 <= counted (fEntries s) + d <= 255 -> wrap 8 (fEntryCount s + d) = fEntryCount s + d.
Proof. intros Hok Hd. destruct (ok_lf _ _ _ _ _ Hok eq_refl) as [_ ->]. apply wrap_small. unfold in_range. lia. Qed.

(* ------------------------------------------------------------------ *)
(** ** What the table holds *)

Definition entry_up (s : pm) (i : Z) : option (Z * EsifUp) :=
  match fEntries s !! Z.to_nat i with
  | Some e => match fUpPtr e with Some a => match ups (parts s) !! a with Some u => Some (a, u) | None => None end | None => None end
  | None => None
  end.
Definition state_at (s : pm) (i : Z) : esif_pm_participant_state := match fEntries s !! Z.to_nat i with Some e => fState e | None => STATE_AVAILABLE end.
(** The participant at [i], if it is not suspended. *)
Definition available (s : pm) (i : Z) : option (Z * EsifUp) := if above_removed (state_at s i) then entry_up s i else None.

Fixpoint first_of (l : list Z) (b : Z -> bool) : option Z := match l with [] => None | i :: l => if b i then Some i else first_of l b end.

Lemma first_of_some l b i : first_of l b = Some i -> i ∈ l /\ b i = true.
Proof.
  induction l as [|j l IH]; [done|]. cbn. destruct (b j) eqn:Eb; [intros [= <-]; split; [left|done]|intros H1; destruct (IH H1); split; [by right|done]].
Qed.
Lemma first_of_none l b : first_of l b = None -> forall i, i ∈ l -> b i = false.
Proof. induction l as [|j l IH]; [intros _ i Hi; by apply elem_of_nil in Hi|]. cbn. destruct (b j) eqn:Eb; [done|]. intros H1 i [->|Hi]%elem_of_cons; [done|by apply IH]. Qed.

Lemma find_index_pure (s : pm) (test : Z -> SM pm bool) b l : (forall i, i ∈ l -> test i s = Some (b i, s)) -> find_index l test s = Some (first_of l b, s).
Proof.
  induction l as [|i l IH]; intros Ht; [done|]. cbn [find_index first_of]. rewrite (sbind_some _ _ _ _ _ (Ht i ltac:(by left))). destruct (b i); [done|]. apply IH. intros j Hj. apply Ht. by right.
Qed.

Lemma in_indices i : i ∈ indices <-> 0 <= i < MAX_PARTICIPANT_ENTRY.
Proof. unfold indices. rewrite elem_of_seqZ. unfold MAX_PARTICIPANT_ENTRY. lia. Qed.

Lemma get_entry_ok lf n live out s i : pm_ok lf n live out s -> 0 <= i < MAX_PARTICIPANT_ENTRY -> exists e, fEntries s !! Z.to_nat i = Some e /\ get_entry i s = Some (e, s).
Proof.
  intros Hok Hi. destruct (lookup_lt_is_Some_2 (fEntries s) (Z.to_nat i)) as [e He]; [rewrite (ok_len _ _ _ _ _ Hok); lia|]. exists e. split; [done|]. unfold get_entry. by rewrite He.
Qed.

Lemma entry_up_ok lf n live out s i e : pm_ok lf n live out s -> fEntries s !! Z.to_nat i = Some e ->
  match fUpPtr e with
  | Some a => exists u, ups (parts s) !! a = Some u /\ entry_up s i = Some (a, u) /\ healthy u /\ refCount u = 1 + out a /\ handle_fits live (Z.to_nat i) (fInstance u)
  | None => entry_up s i = None
  end.
Proof.
  intros Hok He. unfold entry_up. rewrite He. destruct (fUpPtr e) as [a|] eqn:Ea; [|done]. destruct (ok_up _ _ _ _ _ Hok _ e a He Ea) as (u & Hu & Hh & Hr & Hf). exists u. by rewrite Hu.
Qed.

Definition at_heap (s s' : pm) (m : gmap Z EsifUp) : Prop :=
  fEntryCount s' = fEntryCount s /\ fEntries s' = fEntries s /\ handles s' = handles s /\ heap (parts s') m (next_up (parts s)).
Definition same (s s' : pm) : Prop := at_heap s s' (ups (parts s)).

Lemma at_heap_parts s s' m : at_heap s s' m -> s' = with_parts (parts s') s.
Proof. intros (A & B & C & _). destruct s'. cbn in *. unfold with_parts. by subst. Qed.
Lemma same_refl s : same s s.
Proof. done. Qed.
Lemma same_trans s1 s2 s3 : same s1 s2 -> same s2 s3 -> same s1 s3.
Proof. intros (A & B & C & D1 & D2) (E & F & G & I1 & I2). unfold same, at_heap, heap in *. split_and!; congruence. Qed.
Lemma same_ok lf n live out s s' : same s s' -> pm_ok lf n live out s -> pm_ok lf n live out s'.
Proof. intros Hs Hok. rewrite (at_heap_parts _ _ _ Hs). eapply pm_ok_quiet; [done|apply Hs|lia]. Qed.
Lemma same_available s s' i : same s s' -> available s' i = available s i /\ entry_up s' i = entry_up s i.
Proof. intros (A & B & C & D1 & D2). unfold available, state_at, entry_up. by rewrite B, D1. Qed.

Lemma load_parts (s : pm) a u : ups (parts s) !! a = Some u -> on_parts (load a) s = Some (u, s).
Proof. intros Hu. unfold on_parts, load. rewrite Hu. by destruct s. Qed.
Lemma get_instance_parts (s : pm) a u : ups (parts s) !! a = Some u -> on_parts (EsifUp_GetInstance (Some a)) s = Some (fInstance u, s).
Proof. intros Hu. unfold on_parts, EsifUp_GetInstance, load, sbind. rewrite Hu. by destruct s. Qed.

(** Looking one entry up. *)
Lemma by_index_ok lf n live out s i : pm_ok lf n live out s -> few out -> 0 <= i < MAX_PARTICIPANT_ENTRY ->
  exists s', EsifUpPm_GetAvailableParticipantByIndexLocked i s = Some (option_map fst (available s i), s') /\
    match available s i with
    | None => s' = s
    | Some (a, u) => ups (parts s) !! a = Some u /\ at_heap s s' (<[a := bump 1 u]> (ups (parts s))) /\ pm_ok lf n live (<[a := out a + 1]> out) s'
    end.
Proof.
  intros Hok Hfew Hi. unfold EsifUpPm_GetAvailableParticipantByIndexLocked. rewrite (proj2 (Z.leb_gt _ _)) by lia.
  destruct (get_entry_ok _ _ _ _ _ i Hok Hi) as (e & He & Hget). rewrite (sbind_some _ _ _ _ _ Hget). unfold available, state_at. rewrite He.
  pose proof (entry_up_ok _ _ _ _ _ i e Hok He) as Hup. destruct (above_removed (fState e)); [|by exists s].
  destruct (fUpPtr e) as [a|]; [|rewrite Hup; by exists s]. destruct Hup as (u & Hu & Hup & _). rewrite Hup.
  destruct (take_ref _ _ _ _ _ _ _ Hok Hfew Hu) as (p & E & Hp & Hok'). rewrite (sbind_some _ _ _ _ _ (on_parts_ok _ _ _ _ E)).
  exists (with_parts p s). split; [done|]. split; [done|]. by split.
Qed.

(** [EsifUp_PutRef] of a participant that somebody holds. *)
Lemma put_ok lf n live out s a u : pm_ok lf n live out s -> ups (parts s) !! a = Some u -> 0 < out a ->
  exists s', on_parts (EsifUp_PutRef (Some a)) s = Some (tt, s') /\ at_heap s s' (<[a := bump (-1) u]> (ups (parts s))) /\ pm_ok lf n live (<[a := out a - 1]> out) s'.
Proof.
  intros Hok Hu Hpos. destruct (give_ref _ _ _ _ _ _ _ Hok Hu Hpos) as (p & E & Hp & Hok'). exists (with_parts p s). split; [by apply on_parts_ok|]. by split.
Qed.

Lemma put_back (m : gmap Z EsifUp) (a : Z) u : m !! a = Some u -> <[a := bump (-1) (bump 1 u)]> (<[a := bump 1 u]> m) = m.
Proof. intros Ha. rewrite insert_insert_eq, bump_bump. change (1 + -1) with 0. by rewrite bump_0, insert_id. Qed.
Lemma out_back (out : Z -> Z) a b : <[a := (<[a := out a + 1]> out) a - 1]> (<[a := out a + 1]> out) b = out b.
Proof. unfold insert, fn_insert. destruct (decide (a = b)) as [->|]; [rewrite decide_True by done; lia|done]. Qed.
Lemma pm_ok_ext lf n live out out' s : (forall a, out a = out' a) -> pm_ok lf n live out s -> pm_ok lf n live out' s.
Proof.
  intros He [A B C D E F G I]. split; try done.
  - intros i e a Hi Ha. destruct (C i e a Hi Ha) as (u & Hu & Hh & Hr & Hf). exists u. by rewrite <- He.
  - intros a. rewrite <- He. apply F.
Qed.

(* ------------------------------------------------------------------ *)
(** ** The lookups *)

Lemma same_at s s1 s' m : same s s1 -> at_heap s1 s' m -> at_heap s s' m.
Proof. intros (A & B & C & D1 & D2) (E & F & G & I1 & I2). unfold at_heap, heap in *. split_and!; congruence. Qed.
Lemma at_same s s1 s' m : at_heap s s1 m -> same s1 s' -> at_heap s s' m.
Proof. intros (A & B & C & D1 & D2) (E & F & G & I1 & I2). unfold at_heap, heap in *. split_and!; congruence. Qed.
Lemma at_at s s1 s' m m' : at_heap s s1 m -> at_heap s1 s' m' -> at_heap s s' m'.
Proof. intros (A & B & C & D1 & D2) (E & F & G & I1 & I2). unfold at_heap, heap in *. split_and!; congruence. Qed.

(** The result of a lookup that found the participant at index [r], or nothing. *)
Definition looked_up (lf : bool) (n : nat) (live : gset Z) (out : Z -> Z) (s : pm) (r : option Z) (x : option Z) (s' : pm) : Prop :=
  match r with
  | Some i => exists a u, available s i = Some (a, u) /\ ups (parts s) !! a = Some u /\ x = Some a /\ at_heap s s' (<[a := bump 1 u]> (ups (parts s))) /\
      pm_ok lf n live (<[a := out a + 1]> out) s'
  | None => x = None /\ same s s'
  end.

Definition matches (test : EsifUp -> bool) (s : pm) (i : Z) : bool := match available s i with Some (_, u) => test u | None => false end.

Lemma available_at s i a u e : available s i = Some (a, u) -> fEntries s !! Z.to_nat i = Some e -> above_removed (fState e) = true /\ fUpPtr e = Some a /\ ups (parts s) !! a = Some u.
Proof.
  unfold available, state_at, entry_up. intros Hav He. rewrite He in Hav. destruct (above_removed (fState e)); [|done]. destruct (fUpPtr e) as [a'|]; [|done].
  destruct (ups (parts s) !! a') as [u'|] eqn:Eu; [|done]. injection Hav as <- <-. done.
Qed.

Lemma has_instance_pure lf n live out s inst i : pm_ok lf n live out s -> 0 <= i < MAX_PARTICIPANT_ENTRY ->
  has_instance inst i s = Some (matches (fun u => inst =? fInstance u) s i, s).
Proof.
  intros Hok Hi. destruct (get_entry_ok _ _ _ _ _ i Hok Hi) as (e & He & Hget). unfold has_instance. rewrite (sbind_some _ _ _ _ _ Hget). unfold matches, available, state_at. rewrite He.
  pose proof (entry_up_ok _ _ _ _ _ i e Hok He) as Hup. destruct (above_removed (fState e)); [|done]. destruct (fUpPtr e) as [a|]; [|by rewrite Hup].
  destruct Hup as (u & Hu & Hup & _). rewrite Hup. by rewrite (sbind_some _ _ _ _ _ (get_instance_parts s a u Hu)).
Qed.

Lemma by_instance_ok lf n live out s inst : pm_ok lf n live out s -> few out ->
  exists x s', EsifUpPm_GetAvailableParticipantByInstance inst s = Some (x, s') /\
    looked_up lf n live out s (first_of indices (matches (fun u => (if EsifUpPm_IsPrimaryParticipantId inst then ESIF_HANDLE_PRIMARY_PARTICIPANT else inst) =? fInstance u) s)) x s'.
Proof.
  intros Hok Hfew. unfold EsifUpPm_GetAvailableParticipantByInstance, EsifUpPm_GetAvailableParticipantByInstanceLocked. set (local := if EsifUpPm_IsPrimaryParticipantId inst then _ else _).
  rewrite (sbind_some _ _ _ _ _ (find_index_pure s _ (matches (fun u => local =? fInstance u) s) indices
    ltac:(intros i Hi; apply in_indices in Hi; by eapply has_instance_pure))).
  destruct (first_of _ _) as [i|] eqn:Ef; [|by exists None, s]. apply first_of_some in Ef as [Hi Hm]. apply in_indices in Hi.
  destruct (get_entry_ok _ _ _ _ _ i Hok Hi) as (e & He & Hget). rewrite (sbind_some _ _ _ _ _ Hget). unfold matches in Hm. destruct (available s i) as [[a u]|] eqn:Eav; [|done].
  destruct (available_at _ _ _ _ _ Eav He) as (_ & Hea & Hu). rewrite Hea. destruct (take_ref _ _ _ _ _ _ _ Hok Hfew Hu) as (p & E & Hp & Hok').
  rewrite (sbind_some _ _ _ _ _ (on_parts_ok _ _ _ _ E)). exists (Some a), (with_parts p s). split; [done|]. exists a, u. done.
Qed.

Lemma search_ok lf n live out test l : (forall u, test (bump 1 u) = test u) -> forall s, pm_ok lf n live out s -> few out -> (forall i, i ∈ l -> 0 <= i < MAX_PARTICIPANT_ENTRY) ->
  exists x s', search l test s = Some (x, s') /\ looked_up lf n live out s (first_of l (matches test s)) x s'.
Proof.
  intros Htest. induction l as [|i l IH]; intros s Hok Hfew Hl; cbn [search first_of]; [by exists None, s|].
  destruct (by_index_ok _ _ _ _ s i Hok Hfew) as (s1 & E1 & H1); [apply Hl; by left|]. rewrite (sbind_some _ _ _ _ _ E1). unfold matches at 1.
  destruct (available s i) as [[a u]|] eqn:Eav; cbn [option_map fst].
  - destruct H1 as (Hu & Hat & Hok1). assert (Hu1 : ups (parts s1) !! a = Some (bump 1 u)) by (rewrite (proj1 (proj2 (proj2 (proj2 Hat)))); apply lookup_insert_eq).
    rewrite (sbind_some _ _ _ _ _ (load_parts s1 a _ Hu1)). rewrite Htest. destruct (test u).
    + exists (Some a), s1. split; [done|]. by exists a, u.
    + assert (Hpos : 0 < (<[a := out a + 1]> out) a) by (unfold insert, fn_insert; rewrite decide_True by done; pose proof (ok_out _ _ _ _ _ Hok a); lia).
      destruct (put_ok _ _ _ _ s1 a _ Hok1 Hu1 Hpos) as (s2 & E2 & Hat2 & Hok2).
      rewrite (sbind_some _ _ _ _ _ E2). assert (Hsame : same s s2).
      { unfold same. eapply at_at; [exact Hat|]. rewrite (proj1 (proj2 (proj2 (proj2 Hat)))) in Hat2. by rewrite put_back in Hat2. }
      destruct (IH s2) as (x & s' & E & Hx); [by eapply same_ok|done|intros j Hj; apply Hl; by right|]. exists x, s'. split; [done|].
      assert (Hfirst : first_of l (matches test s2) = first_of l (matches test s)).
      { clear -Hsame. induction l as [|j l IH]; [done|]. cbn [first_of]. rewrite IH. unfold matches at 1 3. by rewrite (proj1 (same_available _ _ j Hsame)). }
      rewrite Hfirst in Hx. destruct (first_of l _) as [j|]; cbn in *.
      * destruct Hx as (b & v & Hb & Hv & -> & Hat' & Hok'). rewrite (proj1 (same_available _ _ j Hsame)) in Hb. destruct Hsame as (A & B & C & D1 & D2). rewrite D1 in *.
        exists b, v. split_and!; try done. eapply same_at; [|exact Hat']. done.
      * destruct Hx as [-> Hs]. split; [done|]. by eapply same_trans.
  - subst s1. destruct (IH s Hok Hfew) as (x & s' & E & Hx); [intros j Hj; apply Hl; by right|]. exists x, s'. by split.
Qed.

(* ------------------------------------------------------------------ *)
(** ** Suspending and resuming *)

Definition at_index (s s' : pm) (j : Z) : Prop := state_at s' j = state_at s j /\ entry_up s' j = entry_up s j.
Definition by_handle (inst : Z) (s : pm) (i : Z) : bool := inst =? match entry_up s i with Some (_, u) => fInstance u | None => ESIF_INVALID_HANDLE end.

Lemma entry_by_instance_ok lf n live out s inst : pm_ok lf n live out s ->
  EsifUpPm_GetEntryByInstanceLocked inst s = Some (first_of indices (by_handle inst s), s).
Proof.
  intros Hok. apply find_index_pure. intros i Hi. apply in_indices in Hi. destruct (get_entry_ok _ _ _ _ _ i Hok Hi) as (e & He & Hget). rewrite (sbind_some _ _ _ _ _ Hget).
  unfold by_handle. pose proof (entry_up_ok _ _ _ _ _ i e Hok He) as Hup. destruct (fUpPtr e) as [a|] eqn:Ea.
  - destruct Hup as (u & Hu & -> & _). by rewrite (sbind_some _ _ _ _ _ (get_instance_parts s a u Hu)).
  - rewrite Hup. unfold on_parts, EsifUp_GetInstance, sbind, sret. by destruct s.
Qed.

(** A new state and count of entry [i], and nothing else. *)
Definition with_state (i : Z) (e : EsifUpManagerEntry) (st : esif_pm_participant_state) (d : Z) (s : pm) : pm :=
  mk_pm (wrap 8 (fEntryCount s + d)) (<[Z.to_nat i := mk_entry st (fUpPtr e)]> (fEntries s)) (parts s) (handles s).

Lemma set_state_run (s : pm) i e st d : fEntries s !! Z.to_nat i = Some e -> (set_state i st ;! add_count d) s = Some (tt, with_state i e st d s).
Proof. intros He. unfold set_state, get_entry, set_entry, add_count, smodify, sbind. rewrite He. done. Qed.

Lemma with_state_ok lf n live out s i e st d : pm_ok lf n live out s -> fEntries s !! Z.to_nat i = Some e -> is_Some (fUpPtr e) -> st <> STATE_AVAILABLE ->
  (lf = false -> st <> STATE_LF_REMOVED /\ d = one st - one (fState e)) -> pm_ok lf n live out (with_state i e st d s).
Proof.
  intros Hok He Ha Hst Hd. apply (pm_ok_state lf n live out s (Z.to_nat i) e st); try done. intros ->. destruct (Hd eq_refl) as [H1 ->]. split; [done|].
  rewrite (count_fits n live out) by (try done; pose proof (counted_bound (<[Z.to_nat i := mk_entry st (fUpPtr e)]> (fEntries s))) as Hb;
    rewrite (counted_insert _ _ e), length_insert, (ok_len _ _ _ _ _ Hok) in Hb by done; cbn in Hb; unfold MAX_PARTICIPANT_ENTRY in Hb; lia). lia.
Qed.

Lemma with_state_at s i e st d j : 0 <= i -> 0 <= j -> fEntries s !! Z.to_nat i = Some e ->
  entry_up (with_state i e st d s) j = entry_up s j /\ state_at (with_state i e st d s) j = if decide (j = i) then st else state_at s j.
Proof.
  intros Hi Hj He. unfold entry_up, state_at, with_state. cbn [fEntries parts]. destruct (decide (j = i)) as [->|Hne].
  - rewrite list_lookup_insert_eq by (by eapply lookup_lt_Some). rewrite He. done.
  - rewrite list_lookup_insert_ne by lia. done.
Qed.

Context (EsifAppMgr_CreateParticipantInAllApps EsifAppMgr_DestroyParticipantInAllApps : Z -> Z).

(** The part of both that runs with a reference of its own. *)
Lemma with_ref_ok lf n live out s a u (c : call) (rc : Z) : pm_ok lf n live out s -> few out -> ups (parts s) !! a = Some u ->
  exists s', (let! rc0 := on_parts (EsifUp_GetRef (Some a)) in
     if negb (rc0 =? ESIF_OK) then sret ESIF_OK else on_parts (emit c) ;! on_parts (EsifUp_PutRef (Some a)) ;! sret rc) s = Some (rc, s') /\ same s s'.
Proof.
  intros Hok Hfew Hu. destruct (take_ref _ _ _ _ _ _ _ Hok Hfew Hu) as (p & E & Hp & Hok1). rewrite (sbind_some _ _ _ _ _ (on_parts_ok _ _ _ _ E)).
  change (negb (ESIF_OK =? ESIF_OK)) with false. cbv iota. set (s1 := with_parts p s) in *. set (p2 := mk_pst (ups p) (next_up p) (calls p ++ [c])).
  assert (E2 : on_parts (emit c) s1 = Some (tt, with_parts p2 s1)) by done. rewrite (sbind_some _ _ _ _ _ E2).
  assert (Hok2 : pm_ok lf n live (<[a:=out a + 1]> out) (with_parts p2 s1)) by (eapply (pm_ok_quiet _ _ _ _ _ _ (next_up p)); [exact Hok1|done|done]).
  assert (Hu2 : ups p2 !! a = Some (bump 1 u)) by (cbn; rewrite (proj1 Hp); apply lookup_insert_eq).
  destruct (put_ok _ _ _ _ _ a _ Hok2 Hu2) as (s3 & E3 & (A & B & C & D1 & D2) & _).
  { unfold insert, fn_insert. rewrite decide_True by done. pose proof (ok_out _ _ _ _ _ Hok a). lia. }
  rewrite (sbind_some _ _ _ _ _ E3). exists s3. split; [done|]. split_and!; try done. split; [|rewrite D2; cbn; apply Hp]. rewrite D1. cbn. rewrite (proj1 Hp). by apply put_back.
Qed.

Lemma suspend_participant_ok lf n live out s inst : pm_ok lf n live out s -> few out ->
  exists rc s', EsifUpPm_SuspendParticipant EsifAppMgr_DestroyParticipantInAllApps inst s = Some (rc, s') /\ pm_ok lf n live out s' /\
    ups (parts s') = ups (parts s) /\
    match first_of indices (by_handle inst s) with
    | None => rc = ESIF_E_NOT_FOUND /\ s' = s
    | Some i => forall j, 0 <= j -> entry_up s' j = entry_up s j /\
        state_at s' j = if decide (j = i /\ is_Some (available s i)) then STATE_REMOVED else state_at s j
    end.
Proof.
  intros Hok Hfew. unfold EsifUpPm_SuspendParticipant. rewrite (sbind_some _ _ _ _ _ (entry_by_instance_ok _ _ _ _ s inst Hok)).
  destruct (first_of indices (by_handle inst s)) as [i|] eqn:Ef; [|by exists ESIF_E_NOT_FOUND, s]. apply first_of_some in Ef as [Hi _]. apply in_indices in Hi.
  destruct (get_entry_ok _ _ _ _ _ i Hok Hi) as (e & He & Hget). rewrite (sbind_some _ _ _ _ _ Hget). pose proof (entry_up_ok _ _ _ _ _ i e Hok He) as Hup.
  assert (Hav : available s i = if above_removed (fState e) then entry_up s i else None) by (unfold available, state_at; by rewrite He).
  destruct (fUpPtr e) as [a|] eqn:Ea.
  2: { exists ESIF_OK, s. split_and!; try done. intros j Hj. split; [done|]. rewrite decide_False; [done|]. intros [_ Hs]. rewrite Hav, Hup in Hs. destruct (above_removed _); by destruct Hs. }
  destruct Hup as (u & Hu & Hup & Hh & Hr & Hf). destruct (above_removed (fState e)) eqn:Eab; cbn [negb].
  2: { exists ESIF_OK, s. split_and!; try done. intros j Hj. split; [done|]. rewrite decide_False; [done|]. intros [_ Hs]. rewrite Hav in Hs. by destruct Hs. }
  destruct (suspend_ok (parts s) _ _ a u (heap_refl _) Hu Hh) as (p & E & Hp). rewrite (sbind_some _ _ _ _ _ (on_parts_ok _ _ _ _ E)).
  set (s1 := with_parts p s). assert (Hok1 : pm_ok lf n live out s1) by (eapply pm_ok_quiet; [done|exact Hp|done]).
  assert (He1 : fEntries s1 !! Z.to_nat i = Some e) by done.
  assert (Hrun : forall U (k : SM pm U), (set_state i STATE_REMOVED ;! (add_count (-1) ;! k)) s1 = k (with_state i e STATE_REMOVED (-1) s1)).
  { intros U k. pose proof (set_state_run s1 i e STATE_REMOVED (-1) He1) as Hss. unfold sbind at 1 2. unfold sbind in Hss. destruct (set_state i STATE_REMOVED s1) as [[[] s0]|]; [|done]. by rewrite Hss. }
  rewrite Hrun. set (s2 := with_state i e STATE_REMOVED (-1) s1).
  assert (Hok2 : pm_ok lf n live out s2).
  { apply with_state_ok; rewrite ?Ea; try done. intros ->. split; [done|]. unfold one. by rewrite Eab. }
  destruct (with_ref_ok _ _ _ _ s2 a u (C_AppsDestroy a) (EsifAppMgr_DestroyParticipantInAllApps a) Hok2 Hfew) as (s3 & E3 & H3); [cbn; by rewrite (proj1 Hp)|].
  exists (EsifAppMgr_DestroyParticipantInAllApps a), s3. split; [exact E3|]. split; [by eapply same_ok|]. split.
  - rewrite (proj1 (proj2 (proj2 (proj2 H3)))). cbn. apply Hp.
  - intros j Hj. destruct (same_available _ _ j H3) as [_ ->]. destruct (with_state_at s1 i e STATE_REMOVED (-1) j) as [W1 W2]; [lia|lia|done|]. unfold s2 in *. rewrite W1. split.
    + unfold entry_up. cbn. by rewrite (proj1 Hp).
    + unfold state_at at 1. rewrite (proj1 (proj2 H3)). fold (state_at (with_state i e STATE_REMOVED (-1) s1) j). rewrite W2. rewrite Hav, Hup.
      destruct (decide (j = i)) as [->|Hne]; [rewrite decide_True; [done|by split; [|eexists]]|rewrite decide_False; [done|by intros [? _]]].
Qed.

Lemma resume_participant_ok lf n live out s inst : pm_ok lf n live out s -> few out ->
  exists rc s', EsifUpPm_ResumeParticipant EsifAppMgr_CreateParticipantInAllApps inst s = Some (rc, s') /\ pm_ok lf n live out s' /\ ups (parts s') = ups (parts s) /\
    if EsifUpPm_IsPrimaryParticipantId inst then s' = s
    else
      match first_of indices (by_handle inst s) with
      | None => rc = ESIF_E_NOT_FOUND /\ s' = s
      | Some i => forall j, 0 <= j -> entry_up s' j = entry_up s j /\
          state_at s' j = if decide (j = i /\ is_Some (entry_up s i)) then STATE_CREATED else state_at s j
      end.
Proof.
  intros Hok Hfew. unfold EsifUpPm_ResumeParticipant. destruct (EsifUpPm_IsPrimaryParticipantId inst); [by exists ESIF_OK, s|].
  rewrite (sbind_some _ _ _ _ _ (entry_by_instance_ok _ _ _ _ s inst Hok)).
  destruct (first_of indices (by_handle inst s)) as [i|] eqn:Ef; [|by exists ESIF_E_NOT_FOUND, s]. apply first_of_some in Ef as [Hi _]. apply in_indices in Hi.
  destruct (get_entry_ok _ _ _ _ _ i Hok Hi) as (e & He & Hget). rewrite (sbind_some _ _ _ _ _ Hget). pose proof (entry_up_ok _ _ _ _ _ i e Hok He) as Hup.
  destruct (fUpPtr e) as [a|] eqn:Ea.
  2: { exists ESIF_OK, s. split_and!; try done. intros j Hj. split; [done|]. rewrite decide_False; [done|]. intros [_ Hs]. rewrite Hup in Hs. by destruct Hs. }
  destruct Hup as (u & Hu & Hup & Hh & Hr & Hf). destruct (decide (fState e = STATE_CREATED)) as [Hst|Hst].
  { rewrite bool_decide_eq_true_2 by done. exists ESIF_OK, s. split_and!; try done. intros j Hj. split; [done|]. destruct (decide _) as [[-> _]|]; [|done]. unfold state_at. by rewrite He. }
  rewrite bool_decide_eq_false_2 by done.
  assert (Hrun : forall U (k : SM pm U), (set_state i STATE_CREATED ;! (add_count 1 ;! k)) s = k (with_state i e STATE_CREATED 1 s)).
  { intros U k. pose proof (set_state_run s i e STATE_CREATED 1 He) as Hss. unfold sbind at 1 2. unfold sbind in Hss. destruct (set_state i STATE_CREATED s) as [[[] s0]|]; [|done]. by rewrite Hss. }
  rewrite Hrun. set (s2 := with_state i e STATE_CREATED 1 s).
  assert (Hok2 : pm_ok lf n live out s2).
  { apply with_state_ok; rewrite ?Ea; try done. intros ->. split; [done|]. unfold one. destruct (ok_lf _ _ _ _ _ Hok eq_refl) as [Hnlf _]. specialize (Hnlf _ _ He).
    by destruct (fState e). }
  destruct (take_ref _ _ _ _ s2 a u Hok2 Hfew Hu) as (p & E & Hp & Hok3). rewrite (sbind_some _ _ _ _ _ (on_parts_ok _ _ _ _ E)).
  change (negb (ESIF_OK =? ESIF_OK)) with false. cbv iota. set (s3 := with_parts p s2) in *.
  destruct (resume_ok p _ _ a (bump 1 u) (heap_refl _)) as (p4 & E4 & Hp4).
  { rewrite (proj1 Hp). apply lookup_insert_eq. }
  { apply bump_healthy; [done|]. pose proof (Hfew a). pose proof (ok_out _ _ _ _ _ Hok a). lia. }
  rewrite (sbind_some _ _ _ _ _ (on_parts_ok (EsifUp_ResumeParticipant (Some a)) s3 _ _ E4)). set (p5 := mk_pst (ups p4) (next_up p4) (calls p4 ++ [C_AppsCreate a])).
  assert (E5 : on_parts (emit (C_AppsCreate a)) (with_parts p4 s3) = Some (tt, with_parts p5 s3)) by done. rewrite (sbind_some _ _ _ _ _ E5).
  assert (Hok5 : pm_ok lf n live (<[a:=out a + 1]> out) (with_parts p5 s3)) by (eapply (pm_ok_quiet _ _ _ _ _ _ (next_up p4)); [exact Hok3|split; [apply Hp4|done]|rewrite (proj2 Hp4); done]).
  assert (Hu5 : ups p5 !! a = Some (bump 1 u)) by (cbn; rewrite (proj1 Hp4), (proj1 Hp); apply lookup_insert_eq).
  destruct (put_ok _ _ _ _ _ a _ Hok5 Hu5) as (s6 & E6 & (A & B & C & D1 & D2) & Hok6).
  { unfold insert, fn_insert. rewrite decide_True by done. pose proof (ok_out _ _ _ _ _ Hok a). lia. }
  rewrite (sbind_some _ _ _ _ _ E6). exists (EsifAppMgr_CreateParticipantInAllApps a), s6. split; [done|].
  assert (Hsame : same s2 s6).
  { split_and!; try done. split; [|rewrite D2; cbn; rewrite (proj2 Hp4); apply Hp]. rewrite D1. cbn. rewrite (proj1 Hp4), (proj1 Hp). by apply put_back. }
  split; [by eapply same_ok|]. split; [by rewrite (proj1 (proj2 (proj2 (proj2 Hsame))))|].
  intros j Hj. destruct (same_available _ _ j Hsame) as [_ ->]. destruct (with_state_at s i e STATE_CREATED 1 j) as [W1 W2]; [lia|lia|done|]. unfold s2 in *. rewrite W1. split; [done|].
  unfold state_at at 1. rewrite (proj1 (proj2 Hsame)). fold (state_at (with_state i e STATE_CREATED 1 s) j). rewrite W2. rewrite Hup.
  destruct (decide (j = i)) as [->|Hne]; [rewrite decide_True; [done|by split; [|eexists]]|rewrite decide_False; [done|by intros [? _]]].
Qed.

(* ------------------------------------------------------------------ *)
(** ** Destroying *)

Definition named (participantName : option string) (u : EsifUp) : bool := match participantName with None => true | Some n => stricmp_eq n (fName (fMetadata u)) end.

Lemma destroy_lf_ok (s : pm) name : exists rc s', EsifUpPm_DestroyConjuredLfParticipant name s = Some (rc, s') /\ same s s'.
Proof. destruct name as [nm|]; [|by exists ESIF_E_PARAMETER_IS_NULL, s]. by eexists _, _. Qed.

Lemma emit_ok (s : pm) c : exists s', on_parts (emit c) s = Some (tt, s') /\ same s s'.
Proof. by eexists. Qed.

(** The entry becomes free, its participant goes. *)
Lemma destroy_entry_ok lf n live out s name i : pm_ok lf n live out s -> few out -> 0 <= i < MAX_PARTICIPANT_ENTRY ->
  (forall a u, entry_up s i = Some (a, u) -> named name u = true -> out a = 0) ->
  exists hit s', destroy_entry EsifAppMgr_DestroyParticipantInAllApps name i s = Some (hit, s') /\ pm_ok lf n live out s' /\
    match entry_up s i with
    | Some (a, u) => hit = named name u /\ (forall j, 0 <= j -> if decide (j = i /\ named name u = true) then entry_up s' j = None else at_index s s' j)
    | None => hit = match name with None => true | Some _ => false end /\ s' = s
    end.
Proof.
  intros Hok Hfew Hi Hfree. unfold destroy_entry. destruct (get_entry_ok _ _ _ _ _ i Hok Hi) as (e & He & Hget). rewrite (sbind_some _ _ _ _ _ Hget).
  pose proof (entry_up_ok _ _ _ _ _ i e Hok He) as Hup. destruct (fUpPtr e) as [a|] eqn:Ea.
  2: { rewrite Hup. by eexists _, s. }
  destruct Hup as (u & Hu & Hup & Hh & Hr & Hf). rewrite Hup. rewrite (sbind_some _ _ _ _ _ (load_parts s a u Hu)). fold (named name u).
  destruct (named name u) eqn:En.
  2: { exists false, s. split; [done|]. split; [done|]. split; [done|]. intros j Hj. rewrite decide_False; [by split|by intros [_ ?]]. }
  specialize (Hfree a u Hup En).
  (** the lower framework's participant *)
  match goal with |- exists hit s', ?m s = _ /\ _ => set (mm := m) end.
  assert (H1 : exists s1, same s s1 /\ mm s = (let! _ := EsifUpPm_SuspendParticipant EsifAppMgr_DestroyParticipantInAllApps (fInstance u) in
     on_parts (emit (C_SignalEvent (fInstance u) ESIF_EVENT_PARTICIPANT_UNREGISTER_COMPLETE)) ;! let! e := get_entry i in
     set_entry i (mk_entry STATE_AVAILABLE None) ;! on_parts (EsifUp_DestroyParticipant (fUpPtr e)) ;! sret true) s1).
  { unfold mm. destruct (_ && _).
    - destruct (destroy_lf_ok s name) as (rc & s1 & E & Hs). exists s1. split; [done|]. unfold sbind at 1 2. rewrite E. done.
    - by exists s. }
  destruct H1 as (s1 & Hs1 & ->). pose proof (same_ok _ _ _ _ _ _ Hs1 Hok) as Hok1.
  destruct (suspend_participant_ok _ _ _ _ s1 (fInstance u) Hok1 Hfew) as (rc & s2 & E2 & Hok2 & Hups2 & Heff). rewrite (sbind_some _ _ _ _ _ E2).
  destruct (emit_ok s2 (C_SignalEvent (fInstance u) ESIF_EVENT_PARTICIPANT_UNREGISTER_COMPLETE)) as (s3 & E3 & Hs3). rewrite (sbind_some _ _ _ _ _ E3).
  pose proof (same_ok _ _ _ _ _ _ Hs3 Hok2) as Hok3.
  (** it is this entry that has been suspended *)
  assert (Hups1 : ups (parts s1) = ups (parts s)) by (apply Hs1).
  assert (Hent : forall j, 0 <= j -> entry_up s3 j = entry_up s j /\ (j <> i -> state_at s3 j = state_at s j) /\ (j = i -> above_removed (state_at s3 j) = false)).
  { intros j Hj. destruct (same_available _ _ j Hs3) as [_ ->]. assert (Hst3 : state_at s3 j = state_at s2 j) by (unfold state_at; by rewrite (proj1 (proj2 Hs3))). rewrite Hst3.
    assert (Hst1 : state_at s1 j = state_at s j) by (unfold state_at; by rewrite (proj1 (proj2 Hs1))). destruct (same_available _ _ j Hs1) as [Hav1 Hup1].
    assert (Hfirst : first_of indices (by_handle (fInstance u) s1) = Some i).
    { destruct (first_of indices _) as [k|] eqn:Ek.
      - apply first_of_some in Ek as [Hk Hb]. apply in_indices in Hk. unfold by_handle in Hb. rewrite (proj2 (same_available _ _ k Hs1)) in Hb.
        destruct (entry_up s k) as [[b v]|] eqn:Eb.
        + apply Z.eqb_eq in Hb. destruct (get_entry_ok _ _ _ _ _ k Hok Hk) as (ek & Hek & _). pose proof (entry_up_ok _ _ _ _ _ k ek Hok Hek) as Hupk.
          destruct (fUpPtr ek) as [b'|] eqn:Ebk; [|by rewrite Hupk in Eb]. destruct Hupk as (v' & Hv' & Hupk & _). rewrite Hupk in Eb. injection Eb as -> ->.
          f_equal. apply Z2Nat.inj; [lia|lia|]. by eapply (ok_inj _ _ _ _ _ Hok _ _ ek e v u b a); [..|right].
        + apply Z.eqb_eq in Hb. exfalso. unfold handle_fits in Hf. rewrite Hb in Hf. case_decide; [done|]. destruct Hf as [_ Hf]. by vm_compute in Hf.
      - pose proof (first_of_none _ _ Ek i ltac:(by apply in_indices)) as Hb. unfold by_handle in Hb. rewrite (proj2 (same_available _ _ i Hs1)), Hup in Hb. by rewrite Z.eqb_refl in Hb. }
    rewrite Hfirst in Heff. destruct (Heff j Hj) as [-> ->]. rewrite Hup1, Hst1. split; [done|]. split.
    - intros Hne. rewrite decide_False; [done|by intros [? _]].
    - intros ->. destruct (decide _) as [_|Hno]; [done|]. destruct (above_removed (state_at s i)) eqn:Eab; [|done]. exfalso. apply Hno. split; [done|].
      rewrite Hav1. unfold available. rewrite Eab, Hup. by eexists. }
  destruct (get_entry_ok _ _ _ _ _ i Hok3 Hi) as (e3 & He3 & Hget3). rewrite (sbind_some _ _ _ _ _ Hget3).
  destruct (Hent i ltac:(lia)) as (Hup3 & _ & Hst3). pose proof (entry_up_ok _ _ _ _ _ i e3 Hok3 He3) as Hq. destruct (fUpPtr e3) as [a3|] eqn:Ea3; [|rewrite Hq, Hup in Hup3; done].
  destruct Hq as (u3 & Hu3 & Hq & Hh3 & Hr3 & _). rewrite Hq, Hup in Hup3. injection Hup3 as -> ->.
  unfold set_entry at 1. rewrite smodify_bind. set (s4 := mk_pm _ _ _ _).
  destruct (destroy_ok (parts s4) _ _ a u (heap_refl _) Hu3) as (p & E5 & Hp); [rewrite Hr3, Hfree; lia|apply Hh|].
  rewrite (sbind_some _ _ _ _ _ (on_parts_ok (EsifUp_DestroyParticipant (Some a)) s4 _ _ E5)). exists true, (with_parts p s4). split; [done|]. split.
  - unfold with_parts, s4. cbn. eapply (pm_ok_set lf n n live live out out s3 (Z.to_nat i) e3); try done.
    + apply (ok_handles _ _ _ _ _ Hok3).
    + intros b Hb _. rewrite (proj1 Hp). cbn. rewrite lookup_delete_ne; [done|congruence].
    + intros b Hb _. rewrite Ea3 in Hb. injection Hb as <-. rewrite (proj1 Hp). cbn. by rewrite lookup_delete_eq.
    + rewrite (proj2 Hp). done.
    + intros ->. split; [done|]. unfold one. cbn. specialize (Hst3 eq_refl). unfold state_at in Hst3. rewrite He3 in Hst3. rewrite Hst3. cbn. lia.
  - split; [done|]. intros j Hj. destruct (Hent j Hj) as (Hj1 & Hj2 & _). destruct (decide _) as [[-> _]|Hno].
    + unfold entry_up. cbn. rewrite list_lookup_insert_eq by (by eapply lookup_lt_Some). done.
    + assert (Hne : j <> i) by (intros ->; apply Hno; by split). unfold at_index. rewrite <- (Hj2 Hne), <- Hj1. unfold state_at, entry_up. cbn. rewrite list_lookup_insert_ne by lia. split; [done|].
      destruct (fEntries s3 !! Z.to_nat j) as [ej|] eqn:Eej; [|done]. destruct (fUpPtr ej) as [b|] eqn:Eb; [|done]. rewrite (proj1 Hp). cbn. rewrite lookup_delete_ne; [done|].
      intros <-. destruct (ok_up _ _ _ _ _ Hok3 _ _ _ Eej Eb) as (v & Hv & _). apply Hne. apply Z2Nat.inj; [lia|lia|]. eapply (ok_inj _ _ _ _ _ Hok3 _ _ ej e3 v v a a); try done. by left.
Qed.

Definition hit_by (name : option string) (s : pm) (j : Z) : bool := match entry_up s j with Some (_, u) => named name u | None => false end.

Lemma destroy_loop_ok name l : forall lf n live out s rc, NoDup l -> (forall i, i ∈ l -> 0 <= i < MAX_PARTICIPANT_ENTRY) -> pm_ok lf n live out s -> few out ->
  (forall i a u, i ∈ l -> entry_up s i = Some (a, u) -> named name u = true -> out a = 0) ->
  exists rc' s', destroy_loop EsifAppMgr_DestroyParticipantInAllApps l name rc s = Some (rc', s') /\ pm_ok lf n live out s' /\
    forall j, 0 <= j -> if decide (j ∈ l /\ hit_by name s j = true) then entry_up s' j = None else at_index s s' j.
Proof.
  induction l as [|i l IH]; intros lf n live out s rc Hnd Hl Hok Hfew Hfree; cbn [destroy_loop].
  { exists rc, s. split; [done|]. split; [done|]. intros j Hj. rewrite decide_False; [done|]. intros [Hin _]. by apply elem_of_nil in Hin. }
  apply list.NoDup_cons in Hnd as [Hi Hnd]. destruct (destroy_entry_ok lf n live out s name i Hok Hfew) as (hit & s1 & E & Hok1 & Heff); [apply Hl; by left|intros a u; apply Hfree; by left|].
  rewrite (sbind_some _ _ _ _ _ E).
  assert (H1 : forall j, 0 <= j -> if decide (j = i /\ hit_by name s j = true) then entry_up s1 j = None else at_index s s1 j).
  { intros j Hj. destruct (entry_up s i) as [[a u]|] eqn:Eu.
    - destruct Heff as [_ Heff]. specialize (Heff j Hj). destruct (decide (j = i /\ named name u = true)) as [[-> Hn]|Hno].
      + rewrite decide_True; [done|]. split; [done|]. unfold hit_by. by rewrite Eu.
      + rewrite decide_False; [done|]. unfold hit_by. intros [-> Hn]. rewrite Eu in Hn. by apply Hno.
    - destruct Heff as [_ ->]. rewrite decide_False; [done|]. unfold hit_by. intros [-> Hn]. by rewrite Eu in Hn. }
  assert (Hli : forall j, j ∈ l -> 0 <= j /\ j <> i) by (intros j Hj; split; [apply Hl; by right|by intros ->]).
  destruct (IH lf n live out s1 (if hit then ESIF_OK else rc) Hnd) as (rc' & s' & E' & Hok' & Heff'); try done.
  { intros j Hj. apply Hl. by right. }
  { intros j a u Hj Ha Hn. destruct (Hli j Hj) as [Hj0 Hji]. specialize (H1 j Hj0). rewrite decide_False in H1 by (by intros [? _]). destruct H1 as [_ H1]. rewrite H1 in Ha. eapply Hfree; [by right|done|done]. }
  exists rc', s'. split; [done|]. split; [done|]. intros j Hj. specialize (H1 j Hj). specialize (Heff' j Hj).
  destruct (decide (j = i)) as [->|Hne].
  - rewrite decide_False in Heff' by (by intros [? _]). destruct Heff' as [Hs Hu]. destruct (decide (i = i /\ _)) as [[_ Hx]|Hno].
    + rewrite decide_True by (split; [by left|done]). by rewrite Hu.
    + rewrite decide_False by (intros [_ Hx]; by apply Hno). destruct H1. split; congruence.
  - rewrite decide_False in H1 by (by intros [? _]). destruct H1 as [H1s H1u]. assert (Hhit : hit_by name s1 j = hit_by name s j) by (unfold hit_by; by rewrite H1u). rewrite Hhit in Heff'. destruct (decide (j ∈ l /\ _)) as [[Hjl Hx]|Hno].
    + rewrite decide_True by (split; [by right|done]). done.
    + rewrite decide_False by (intros [[?|Hjl]%elem_of_cons Hx]; [done|by apply Hno]). destruct Heff'. split; congruence.
Qed.

Lemma nodup_indices : NoDup indices.
Proof. apply NoDup_seqZ. Qed.

(** All participants of a name, when nobody has a reference to one of them. *)
Lemma destroy_participant_ok lf n live out s name : pm_ok lf n live out s -> few out ->
  (forall i a u, entry_up s i = Some (a, u) -> named name u = true -> out a = 0) ->
  exists rc s', EsifUpPm_DestroyParticipant EsifAppMgr_DestroyParticipantInAllApps name s = Some (rc, s') /\ pm_ok lf n live out s' /\
    forall j, 0 <= j < MAX_PARTICIPANT_ENTRY -> if decide (hit_by name s j = true) then entry_up s' j = None else at_index s s' j.
Proof.
  intros Hok Hfew Hfree. destruct (destroy_loop_ok name indices lf n live out s ESIF_E_NOT_FOUND nodup_indices) as (rc & s' & E & Hok' & Heff); try done.
  { intros i. by rewrite in_indices. }
  { intros i a u _. by apply Hfree. }
  exists rc, s'. split; [done|]. split; [done|]. intros j Hj. specialize (Heff j ltac:(lia)). destruct (decide (hit_by name s j = true)) as [Hx|Hno].
  - by rewrite decide_True in Heff by (split; [by apply in_indices|done]).
  - by rewrite decide_False in Heff by (intros [_ ?]; by apply Hno).
Qed.

(* ------------------------------------------------------------------ *)
(** ** Registering *)

Definition zone (md : metadata) : bool := has_flag (md_flags md) ESIF_FLAG_DPTFZ.
(** The entry that the description collides with. *)
Definition overlap (md : metadata) (s : pm) : option Z :=
  if zone md then match entry_up s 0 with Some _ => Some 0 | None => None end
  else first_of indices (fun i => match entry_up s i with Some (_, u) => overlaps md u | None => false end).

Lemma overlap_ok lf n live out s md : pm_ok lf n live out s -> EsifUpPm_GetOverlappingEntryFromMetadataLocked md s = Some (overlap md s, s).
Proof.
  intros Hok. unfold EsifUpPm_GetOverlappingEntryFromMetadataLocked, overlap. fold (zone md). destruct (zone md).
  - destruct (get_entry_ok _ _ _ _ _ 0 Hok) as (e & He & Hget); [unfold MAX_PARTICIPANT_ENTRY; lia|]. unfold ESIF_PARTICIPANT0_INDEX. rewrite (sbind_some _ _ _ _ _ Hget).
    pose proof (entry_up_ok _ _ _ _ _ 0 e Hok He) as Hup. destruct (fUpPtr e); [destruct Hup as (u & _ & -> & _)|rewrite Hup]; done.
  - apply find_index_pure. intros i Hi. apply in_indices in Hi. destruct (get_entry_ok _ _ _ _ _ i Hok Hi) as (e & He & Hget). rewrite (sbind_some _ _ _ _ _ Hget).
    pose proof (entry_up_ok _ _ _ _ _ i e Hok He) as Hup. destruct (fUpPtr e) as [a|]; [|by rewrite Hup]. destruct Hup as (u & Hu & -> & _). by rewrite (sbind_some _ _ _ _ _ (load_parts s a u Hu)).
Qed.

Lemma overlap_some lf n live out s md i : pm_ok lf n live out s -> overlap md s = Some i -> 0 <= i < MAX_PARTICIPANT_ENTRY /\ exists a u, entry_up s i = Some (a, u).
Proof.
  intros Hok. unfold overlap. destruct (zone md).
  - destruct (entry_up s 0) as [[a u]|] eqn:Eu; [|done]. intros [= <-]. split; [unfold MAX_PARTICIPANT_ENTRY; lia|]. by exists a, u.
  - intros Hf. apply first_of_some in Hf as [Hi Hb]. apply in_indices in Hi. split; [done|]. destruct (entry_up s i) as [[a u]|]; [by exists a, u|done].
Qed.

Lemma same_index s s' j : same s s' -> at_index s s' j.
Proof. intros Hs. split; [unfold state_at; by rewrite (proj1 (proj2 Hs))|exact (proj2 (same_available _ _ j Hs))]. Qed.

(** The participant that a description makes. *)
Definition described (md : metadata) (u : EsifUp) : Prop :=
  fMetadata u = description md /\ fOrigin u = origin md /\ fDspPtr u = package dm md (description md).
Lemma described_created md u : created dm md u -> described md u.
Proof. intros [A B C D E]. done. Qed.

(** A new participant cannot be made, or there is no entry or no handle for it. *)
Definition not_made (mem : bool) (md : metadata) : Prop := mem = false \/ package dm md (description md) = None.
Definition no_entry (md : metadata) (s : pm) : Prop := forall j, (if zone md then 0 else 1) <= j < MAX_PARTICIPANT_ENTRY -> entry_up s j <> None.
Definition no_handle (mem_h : bool) (md : metadata) (s : pm) : Prop :=
  zone md = false /\ exists rc v h, get_next_handle mem_h (handles s) = Some (rc, v, h) /\ rc <> ESIF_OK.

(** What a registration does, and when; [mem] and [mem_h] are the outcomes of the
    allocations of the participant and of the handle map. *)
Inductive registered (mem mem_h : bool) (md : metadata) (live : gset Z) (s s' : pm) : Z -> Z -> Prop :=
  | reg_known i a u : overlap md s = Some i -> entry_up s i = Some (a, u) -> EsifUp_IsPreferredParticipant u md = false ->
      fName (fMetadata u) <> md_name md \/ state_at s i = STATE_CREATED -> (forall j, at_index s s' j) ->
      registered mem mem_h md live s s' ESIF_OK ESIF_INVALID_HANDLE
  | reg_resumed i a u : overlap md s = Some i -> entry_up s i = Some (a, u) -> EsifUp_IsPreferredParticipant u md = false ->
      fName (fMetadata u) = md_name md -> state_at s i <> STATE_CREATED -> is_Some (package dm md (fMetadata u)) ->
      entry_up s' i = Some (a, resumed_as dm md u) -> state_at s' i = STATE_CREATED ->
      (forall j, 0 <= j -> j <> i -> at_index s s' j) -> registered mem mem_h md live s s' ESIF_OK (fInstance u)
  | reg_not_resumed i a u : overlap md s = Some i -> entry_up s i = Some (a, u) -> EsifUp_IsPreferredParticipant u md = false ->
      fName (fMetadata u) = md_name md -> state_at s i <> STATE_CREATED -> package dm md (fMetadata u) = None ->
      entry_up s' i = Some (a, resumed_as dm md u) -> state_at s' i = state_at s i ->
      (forall j, 0 <= j -> j <> i -> at_index s s' j) -> registered mem mem_h md live s s' ESIF_E_NO_CREATE ESIF_INVALID_HANDLE
  | reg_replaced i a u a' u' : overlap md s = Some i -> entry_up s i = Some (a, u) -> EsifUp_IsPreferredParticipant u md = true -> ~ not_made mem md ->
      entry_up s' i = Some (a', u') -> described md u' -> fInstance u' = fInstance u -> state_at s' i = STATE_CREATED ->
      ups (parts s') !! a = None -> (forall j, 0 <= j -> j <> i -> at_index s s' j) -> registered mem mem_h md live s s' ESIF_OK (fInstance u)
  | reg_not_replaced i a u : overlap md s = Some i -> entry_up s i = Some (a, u) -> EsifUp_IsPreferredParticipant u md = true -> not_made mem md ->
      (forall j, at_index s s' j) -> registered mem mem_h md live s s' ESIF_E_NO_CREATE ESIF_INVALID_HANDLE
  | reg_added i a u : overlap md s = None -> ~ not_made mem md -> ~ no_handle mem_h md s ->
      0 <= i < MAX_PARTICIPANT_ENTRY -> entry_up s i = None -> (i = 0 <-> zone md = true) ->
      (forall j, (if zone md then 0 else 1) <= j < i -> entry_up s j <> None) ->
      entry_up s' i = Some (a, u) -> described md u -> state_at s' i = STATE_CREATED ->
      (if zone md then fInstance u = ESIF_HANDLE_PRIMARY_PARTICIPANT else fInstance u ∉ live /\ EsifHandleMgr_IsReservedHandle (fInstance u) = false) ->
      (forall j, 0 <= j -> j <> i -> at_index s s' j) -> registered mem mem_h md live s s' ESIF_OK (fInstance u)
  | reg_not_added : overlap md s = None -> not_made mem md \/ no_entry md s \/ no_handle mem_h md s ->
      (forall j, at_index s s' j) -> registered mem mem_h md live s s' ESIF_E_NO_CREATE ESIF_INVALID_HANDLE.

Lemma made mem md : mem = true -> is_Some (package dm md (description md)) -> ~ not_made mem md.
Proof. intros -> [d Hd] [|Hn]; congruence. Qed.

(** Only the participant of one entry changed. *)
Lemma others_index lf n live out s s2 i e a u v : pm_ok lf n live out s -> 0 <= i -> fEntries s !! Z.to_nat i = Some e -> fUpPtr e = Some a -> ups (parts s) !! a = Some u ->
  (forall k, k <> Z.to_nat i -> fEntries s2 !! k = fEntries s !! k) -> ups (parts s2) = <[a := v]> (ups (parts s)) -> forall j, 0 <= j -> j <> i -> at_index s s2 j.
Proof.
  intros Hok Hi He Hea Hu Hent Hups j Hj Hne. split; [unfold state_at; rewrite Hent by lia; done|]. unfold entry_up. rewrite Hent by lia.
  destruct (fEntries s !! Z.to_nat j) as [ej|] eqn:Eej; [|done]. destruct (fUpPtr ej) as [b|] eqn:Eb; [|done]. rewrite Hups, lookup_insert_ne; [done|].
  intros <-. apply Hne. apply Z2Nat.inj; [lia|lia|]. eapply (ok_inj _ _ _ _ _ Hok _ _ ej e u u a a); try done. by left.
Qed.

Lemma resumed_back md u : bump (-1) (resumed_as dm md (bump 1 u)) = resumed_as dm md u.
Proof. destruct u. unfold bump, resumed_as, with_dsp, with_lp, with_life. cbn. f_equal. lia. Qed.

(** The part of the call after the lock has been released. *)
Lemma finish_ok lf n live out s a u name : pm_ok lf n live (<[a := out a + 1]> out) s -> ups (parts s) !! a = Some u -> 0 <= out a ->
  exists s', (let! inst := on_parts (EsifUp_GetInstance (Some a)) in
    on_parts (EsifUp_DspReadyInit (Some a)) ;! on_parts (emit (C_AppsCreate a)) ;! on_parts (emit (C_ThermalApiCreate a)) ;! on_parts (emit (C_ActivityLogging a)) ;!
    on_parts (emit (C_SignalEvent inst ESIF_EVENT_PARTICIPANT_CREATE_COMPLETE)) ;! EsifUpPm_DestroyConjuredLfParticipant name ;! on_parts (EsifUp_PutRef (Some a)) ;! sret (ESIF_OK, inst)) s
      = Some ((ESIF_OK, fInstance u), s') /\ at_heap s s' (<[a := bump (-1) u]> (ups (parts s))) /\ pm_ok lf n live out s'.
Proof.
  intros Hok Hu H0. rewrite (sbind_some _ _ _ _ _ (get_instance_parts s a u Hu)). destruct (ok_heap _ _ _ _ _ Hok a ltac:(by eexists)) as (_ & i & e & Hie & Hea).
  destruct (ok_up _ _ _ _ _ Hok i e a Hie Hea) as (u0 & Hu0 & Hh & _). rewrite Hu in Hu0. injection Hu0 as <-.
  destruct (dsp_ready_ok (parts s) _ _ a u (heap_refl _) Hu (proj2 (h_count u Hh))) as (p & E & Hp). rewrite (sbind_some _ _ _ _ _ (on_parts_ok _ _ _ _ E)).
  assert (S1 : same s (with_parts p s)) by done.
  destruct (emit_ok (with_parts p s) (C_AppsCreate a)) as (s1 & E1 & Hs1). rewrite (sbind_some _ _ _ _ _ E1).
  destruct (emit_ok s1 (C_ThermalApiCreate a)) as (s2 & E2 & Hs2). rewrite (sbind_some _ _ _ _ _ E2).
  destruct (emit_ok s2 (C_ActivityLogging a)) as (s3 & E3 & Hs3). rewrite (sbind_some _ _ _ _ _ E3).
  destruct (emit_ok s3 (C_SignalEvent (fInstance u) ESIF_EVENT_PARTICIPANT_CREATE_COMPLETE)) as (s4 & E4 & Hs4). rewrite (sbind_some _ _ _ _ _ E4).
  destruct (destroy_lf_ok s4 name) as (rc & s5 & E5 & Hs5). rewrite (sbind_some _ _ _ _ _ E5).
  assert (Hs : same s s5) by (do 5 (eapply same_trans; [eassumption|]); eassumption). pose proof (same_ok _ _ _ _ _ _ Hs Hok) as Hok5.
  assert (Hu5 : ups (parts s5) !! a = Some u) by (by rewrite (proj1 (proj2 (proj2 (proj2 Hs))))).
  destruct (put_ok _ _ _ _ s5 a u Hok5 Hu5) as (s6 & E6 & Hat & Hok6).
  { unfold insert, fn_insert. rewrite decide_True by done. lia. }
  rewrite (sbind_some _ _ _ _ _ E6). exists s6. split; [done|]. split.
  - rewrite (proj1 (proj2 (proj2 (proj2 Hs)))) in Hat. by eapply same_at.
  - eapply pm_ok_ext; [|exact Hok6]. intros b. apply out_back.
Qed.

Abbreviation reg := (Z * option Z * option string + option Z * option string)%type.
Definition part_post (mem mem_h lf : bool) (n : nat) (live : gset Z) (out : Z -> Z) (md : metadata) (s : pm) (r : reg) (s1 : pm) : Prop :=
  exists live1, live ⊆ live1 /\
  match r with
  | inl (rc, None, _) => pm_ok lf n live1 out s1 /\ forall s2, same s1 s2 -> registered mem mem_h md live s s2 rc ESIF_INVALID_HANDLE
  | inl (rc, Some a, _) => exists u, ups (parts s1) !! a = Some u /\ pm_ok lf n live1 (<[a := out a + 1]> out) s1 /\
      forall s2, at_heap s1 s2 (<[a := bump (-1) u]> (ups (parts s1))) -> registered mem mem_h md live s s2 rc ESIF_INVALID_HANDLE
  | inr (Some a, _) => exists u, ups (parts s1) !! a = Some u /\ pm_ok lf n live1 (<[a := out a + 1]> out) s1 /\
      forall s2, at_heap s1 s2 (<[a := bump (-1) u]> (ups (parts s1))) -> registered mem mem_h md live s s2 ESIF_OK (fInstance u)
  | inr (None, _) => False
  end.

Lemma pm_ok_weaken lf n live out s : pm_ok lf (S n) live out s -> pm_ok lf n live out s.
Proof. intros [A B C D E F G I]. split; try done. by apply holds_weaken. Qed.

Lemma resume_existing_ok mem mem_h lf n live out s md i a u e : pm_ok lf (S n) live out s -> few out -> overlap md s = Some i -> entry_up s i = Some (a, u) ->
  fEntries s !! Z.to_nat i = Some e -> fUpPtr e = Some a -> EsifUp_IsPreferredParticipant u md = false ->
  exists r s1, resume_existing dm i e a md s = Some (r, s1) /\ part_post mem mem_h lf n live out md s r s1.
Proof.
  intros Hok Hfew Hov Hup He Hea Hpref. destruct (overlap_some _ _ _ _ _ _ _ Hok Hov) as [Hi _]. apply pm_ok_weaken in Hok.
  pose proof (entry_up_ok _ _ _ _ _ i e Hok He) as Hq. rewrite Hea in Hq. destruct Hq as (u0 & Hu & Hup0 & Hh & Hr & Hf). rewrite Hup in Hup0. injection Hup0 as <-.
  unfold resume_existing, DoesPartNameMatchMetadata. unfold sbind at 1. rewrite (sbind_some _ _ _ _ _ (load_parts s a u Hu)). unfold sret at 1. cbv beta iota.
  destruct (String.eqb_spec (fName (fMetadata u)) (md_name md)) as [Hname|Hname]; cbn [negb].
  2: { eexists (inl (_, None, _)), s. split; [reflexivity|]. exists live. split; [done|]. split; [done|]. intros s2 Hs2. eapply reg_known; try done; [by left|]. intros j. by apply same_index. }
  destruct (decide (fState e = STATE_CREATED)) as [Hst|Hst].
  { rewrite bool_decide_eq_true_2 by done. eexists (inl (_, None, _)), s. split; [reflexivity|]. exists live. split; [done|]. split; [done|]. intros s2 Hs2.
    eapply reg_known; try done; [right; unfold state_at; by rewrite He|]. intros j. by apply same_index. }
  rewrite bool_decide_eq_false_2 by done. destruct (take_ref _ _ _ _ _ _ _ Hok Hfew Hu) as (p & E & Hp & Hok1). rewrite (sbind_some _ _ _ _ _ (on_parts_ok _ _ _ _ E)).
  change (negb (ESIF_OK =? ESIF_OK)) with false. cbv iota. set (s1 := with_parts p s) in *.
  assert (Hu1 : ups p !! a = Some (bump 1 u)) by (rewrite (proj1 Hp); apply lookup_insert_eq).
  destruct (reinit_ok dm md p _ _ a _ (heap_refl _) Hu1) as (rc & p2 & E2 & Hp2 & Hd). rewrite (sbind_some _ _ _ _ _ (on_parts_ok (EsifUp_ReInitializeParticipant dm (Some a) md) s1 _ _ E2)).
  set (u2 := resumed_as dm md (bump 1 u)) in *. assert (Hpos : 0 <= out a) by apply (ok_out _ _ _ _ _ Hok).
  assert (Hins : (<[a := out a + 1]> out) a = out a + 1) by (unfold insert, fn_insert; by rewrite decide_True).
  pose proof (Hfew a) as Hfa. assert (Hh2 : healthy u2) by (destruct Hh as [A B C D F]; split; cbn; try done; lia).
  assert (Hok2 : pm_ok lf n live (<[a := out a + 1]> out) (with_parts p2 s1)).
  { eapply (pm_ok_up _ _ _ _ _ _ _ a (bump 1 u) u2); [exact Hok1|exact Hu1|split; [apply Hp2|rewrite (proj2 Hp2); done]|done|done| | |done].
    - rewrite Hins. cbn. lia.
    - rewrite Hins. lia. }
  assert (Hu2 : ups p2 !! a = Some u2) by (rewrite (proj1 Hp2); apply lookup_insert_eq).
  destruct (negb (rc =? ESIF_OK)) eqn:Erc.
  - eexists (inl (_, Some a, _)), (with_parts p2 s1). split; [reflexivity|]. exists live. split; [done|]. exists u2. split; [done|]. split; [done|]. intros s2 Hs2.
    destruct Hs2 as (A & B & C & D1 & D2). cbn in A, B, C, D1, D2.
    assert (Heq : ups (parts s2) = <[a := bump (-1) u2]> (ups (parts s))) by (rewrite D1, (proj1 Hp2), insert_insert_eq, (proj1 Hp), insert_insert_eq; done).
    eapply (reg_not_resumed mem mem_h md live s s2 i a u); try done.
    + unfold state_at. by rewrite He.
    + destruct (package dm md (fMetadata u)) as [d|] eqn:Epk; [|done]. exfalso. apply negb_true_iff, Z.eqb_neq in Erc. apply Erc, Hd. by eexists.
    + unfold entry_up. rewrite B, He, Hea, Heq, lookup_insert_eq. unfold u2. by rewrite resumed_back.
    + unfold state_at. by rewrite B.
    + by apply (others_index lf n live out s s2 i e a u (bump (-1) u2) Hok); [lia|..|intros; by rewrite B|].
  - set (s3 := with_parts p2 s1) in *. assert (He3 : fEntries s3 !! Z.to_nat i = Some e) by done.
    assert (Hrun : forall U (k : SM pm U), (set_state i STATE_CREATED ;! (add_count 1 ;! k)) s3 = k (with_state i e STATE_CREATED 1 s3)).
    { intros U k. pose proof (set_state_run s3 i e STATE_CREATED 1 He3) as Hss. unfold sbind at 1 2. unfold sbind in Hss. destruct (set_state i STATE_CREATED s3) as [[[] s0]|]; [|done]. by rewrite Hss. }
    rewrite Hrun. eexists (inr (Some a, _)), _. split; [reflexivity|]. exists live. split; [done|]. exists u2. split; [done|]. split.
    + apply with_state_ok; rewrite ?Hea; try done. intros ->. split; [done|]. unfold one. destruct (ok_lf _ _ _ _ _ Hok eq_refl) as [Hnlf _]. specialize (Hnlf _ _ He). by destruct (fState e).
    + intros s2 (A & B & C & D1 & D2). change (fInstance u2) with (fInstance u). cbn in A, B, C.
      assert (Heq : ups (parts s2) = <[a := bump (-1) u2]> (ups (parts s))).
      { rewrite D1. cbn. rewrite (proj1 Hp2), insert_insert_eq, (proj1 Hp), insert_insert_eq. done. }
      eapply (reg_resumed mem mem_h md live s s2 i a u); try done.
      * unfold state_at. by rewrite He.
      * apply Hd. by apply negb_false_iff, Z.eqb_eq in Erc.
      * unfold entry_up. rewrite B, list_lookup_insert_eq by (by eapply lookup_lt_Some). cbn [fUpPtr]. rewrite Hea, Heq. unfold u2. by rewrite lookup_insert_eq, resumed_back.
      * unfold state_at. rewrite B, list_lookup_insert_eq by (by eapply lookup_lt_Some). done.
      * apply (others_index lf n live out s s2 i e a u (bump (-1) u2) Hok); try done; [lia|]. intros k Hk. by rewrite B, list_lookup_insert_ne by congruence.
Qed.

Lemma at_heap_run {T} (m : PS T) s x p : m (parts s) = Some (x, p) -> heap p (ups p) (next_up p) -> on_parts m s = Some (x, with_parts p s).
Proof. intros E _. by apply on_parts_ok. Qed.

Lemma fresh_address lf n live out s : pm_ok lf n live out s -> ups (parts s) !! next_up (parts s) = None.
Proof. intros Hok. destruct (ups (parts s) !! next_up (parts s)) as [u|] eqn:E; [|done]. destruct (ok_heap _ _ _ _ _ Hok _ ltac:(by eexists)) as [? _]. lia. Qed.

Lemma described_like md u u' : described md u -> fMetadata u' = fMetadata u -> fOrigin u' = fOrigin u -> fDspPtr u' = fDspPtr u -> described md u'.
Proof. unfold described. by intros (A & B & C) -> -> ->. Qed.

Lemma replace_existing_ok mem_h lf n live out s mem md i a u e : pm_ok lf (S n) live out s -> few out -> overlap md s = Some i -> entry_up s i = Some (a, u) ->
  fEntries s !! Z.to_nat i = Some e -> fUpPtr e = Some a -> EsifUp_IsPreferredParticipant u md = true -> out a = 0 ->
  exists r s1, replace_existing dm mem i e a md s = Some (r, s1) /\ part_post mem mem_h lf n live out md s r s1.
Proof.
  intros Hok Hfew Hov Hup He Hea Hpref Hout. destruct (overlap_some _ _ _ _ _ _ _ Hok Hov) as [Hi _]. apply pm_ok_weaken in Hok.
  pose proof (entry_up_ok _ _ _ _ _ i e Hok He) as Hq. rewrite Hea in Hq. destruct Hq as (u0 & Hu & Hup0 & Hh & Hr & Hf). rewrite Hup in Hup0. injection Hup0 as <-.
  pose proof (fresh_address _ _ _ _ _ Hok) as Hfresh. unfold replace_existing.
  destruct (create_ok dm mem md (parts s) _ _ Hdm (heap_refl _) Hfresh) as (rc & o & p1 & E1 & Ho). rewrite (sbind_some _ _ _ _ _ (on_parts_ok _ _ _ _ E1)). cbn [snd].
  destruct o as [nx|].
  2: { destruct Ho as (_ & Hno & nx' & Hnx & Hp1). eexists (inl (_, None, _)), (with_parts p1 s). split; [reflexivity|]. exists live. split; [done|]. split; [by eapply pm_ok_quiet|].
    intros s2 (A & B & C & D1 & D2). apply (reg_not_replaced mem mem_h md live s s2 i a u); try done. intros j. unfold at_index, state_at, entry_up. rewrite B, D1. cbn. by rewrite (proj1 Hp1). }
  destruct Ho as (_ & Hmem & Hpk & -> & u1 & Hp1 & Hcr). set (nx := next_up (parts s)) in *. assert (Hne : a <> nx) by (intros ->; congruence).
  assert (Hu1 : ups p1 !! nx = Some u1) by (rewrite (proj1 Hp1); apply lookup_insert_eq).
  assert (Hua : ups p1 !! a = Some u) by (rewrite (proj1 Hp1), lookup_insert_ne by done; done).
  rewrite (sbind_some _ _ _ _ _ (get_instance_parts (with_parts p1 s) a u Hua)).
  destruct (set_instance_ok p1 _ _ nx u1 (fInstance u) (heap_refl _) Hu1 (cr_healthy _ _ _ Hcr)) as (u2 & p2 & E2 & Hp2 & l & Hu2 & Hl).
  rewrite (sbind_some _ _ _ _ _ (on_parts_ok _ (with_parts p1 s) _ _ E2)). rewrite (proj1 Hp1), (proj2 Hp1), insert_insert_eq in Hp2.
  assert (Hh2 : healthy u2) by (destruct (cr_healthy _ _ _ Hcr) as [A B C D F]; rewrite Hu2; split; cbn; try done; by rewrite Hl).
  assert (Hr2 : refCount u2 = 1) by (rewrite Hu2; cbn; apply (cr_ref _ _ _ Hcr)).
  assert (Hdesc2 : described md u2) by (eapply described_like; [by apply described_created|by rewrite Hu2..]).
  assert (Hi2 : fInstance u2 = fInstance u) by (by rewrite Hu2). clear Hu2 Hl E2 E1 Hu1 Hua.
  destruct (get_ref_ok p2 _ _ nx u2 Hp2 (lookup_insert_eq _ _ _) (h_unmarked _ Hh2)) as (p3 & E3 & Hp3 & _); [lia|]. rewrite insert_insert_eq in Hp3.
  rewrite (sbind_some _ _ _ _ _ (on_parts_ok _ (with_parts p2 _) _ _ E3)). change (negb (ESIF_OK =? ESIF_OK)) with false. cbv iota.
  assert (Hua3 : (<[nx := bump 1 u2]> (ups (parts s))) !! a = Some u) by (by rewrite lookup_insert_ne).
  destruct (suspend_ok p3 _ _ a u Hp3 Hua3 Hh) as (p4 & E4 & Hp4). rewrite (sbind_some _ _ _ _ _ (on_parts_ok _ (with_parts p3 _) _ _ E4)).
  (** the entry *)
  set (s4 := with_parts p4 _). set (cnt := if bool_decide (fState e = STATE_CREATED) then fEntryCount s else wrap 8 (fEntryCount s + 1)).
  set (s5 := mk_pm cnt (<[Z.to_nat i := mk_entry STATE_CREATED (Some nx)]> (fEntries s)) p4 (handles s)).
  assert (Hentry : forall U (k : SM pm U), ((if bool_decide (fState e = STATE_CREATED) then sret tt else set_state i STATE_CREATED ;! add_count 1) ;! (set_entry i (mk_entry STATE_CREATED (Some nx)) ;! k)) s4 = k s5).
  { intros U k. unfold s5, cnt. destruct (bool_decide (fState e = STATE_CREATED)); [done|]. unfold sbind at 1. rewrite (set_state_run s4 i e STATE_CREATED 1 He).
    unfold sbind, set_entry, smodify, with_state, s4, with_parts. cbn. by rewrite list_insert_insert_eq. }
  rewrite Hentry. destruct (emit_ok s5 (C_AppsDestroy a)) as (s6 & E6 & Hs6). rewrite (sbind_some _ _ _ _ _ E6).
  assert (Hups6 : ups (parts s6) = <[nx := bump 1 u2]> (ups (parts s))) by (rewrite (proj1 (proj2 (proj2 (proj2 Hs6)))); apply Hp4).
  assert (Hnx6 : next_up (parts s6) = nx + 1) by (rewrite (proj2 (proj2 (proj2 (proj2 Hs6)))); apply Hp4).
  rewrite (sbind_some _ _ _ _ _ (load_parts s6 a u ltac:(by rewrite Hups6))).
  destruct (destroy_ok (parts s6) _ _ a u (heap_refl _) ltac:(by rewrite Hups6)) as (p7 & E7 & Hp7); [lia|apply Hh|].
  rewrite (sbind_some _ _ _ _ _ (on_parts_ok _ s6 _ _ E7)). rewrite Hups6, Hnx6 in Hp7.
  eexists (inr (Some nx, _)), (with_parts p7 s6). split; [reflexivity|].
  assert (Hs7 : with_parts p7 s6 = mk_pm cnt (<[Z.to_nat i := mk_entry STATE_CREATED (Some nx)]> (fEntries s)) p7 (handles s)).
  { unfold with_parts. rewrite (proj1 Hs6), (proj1 (proj2 Hs6)), (proj1 (proj2 (proj2 Hs6))). done. }
  rewrite Hs7. exists live. split; [done|]. exists (bump 1 u2).
  assert (Hlook : ups p7 !! nx = Some (bump 1 u2)) by (rewrite (proj1 Hp7), lookup_delete_ne by done; apply lookup_insert_eq).
  assert (Hgone : ups p7 !! a = None) by (rewrite (proj1 Hp7); apply lookup_delete_eq).
  assert (Hoth : forall b, b <> a -> b <> nx -> ups p7 !! b = ups (parts s) !! b) by (intros b Hb1 Hb2; by rewrite (proj1 Hp7), lookup_delete_ne, lookup_insert_ne).
  assert (Honx : out nx = 0) by (by apply (ok_out _ _ _ _ _ Hok)).
  split; [exact Hlook|]. split.
  - eapply (pm_ok_set lf n n live live out _ s (Z.to_nat i) e); try done; rewrite ?Hea; cbn.
    + apply (ok_handles _ _ _ _ _ Hok).
    + intros b Hb1 Hb2. split; [apply Hoth; congruence|]. unfold insert, fn_insert. rewrite decide_False by congruence. done.
    + intros b Hb1 Hb2. injection Hb1 as <-. split; [done|]. unfold insert, fn_insert. rewrite decide_False by done. done.
    + intros b Hb. injection Hb as <-. exists (bump 1 u2). split; [done|]. assert (Hins : (<[nx:=out nx + 1]> out) nx = 1) by (unfold insert, fn_insert; rewrite decide_True by done; lia). rewrite Hins. split_and!; try done.
      * apply bump_healthy; [done|lia].
      * cbn. lia.
      * rewrite (proj2 Hp7). lia.
      * cbn. by rewrite Hi2.
      * intros j e2 a2 v Hj He2 Ha2 Hv. split; [intros ->; congruence|]. cbn. rewrite Hi2. intros Heq. apply Hj. eapply (ok_inj _ _ _ _ _ Hok j _ e2 e v u a2 a); try done. by right.
    + rewrite (proj2 Hp7). lia.
    + intros ->. split; [done|]. unfold cnt, one. destruct (ok_lf _ _ _ _ _ Hok eq_refl) as [Hnlf Hcnt]. specialize (Hnlf _ _ He).
      destruct (bool_decide_reflect (fState e = STATE_CREATED)) as [Hst|Hst]; [rewrite Hst; cbn; lia|]. assert (Hfit : wrap 8 (fEntryCount s + 1) = fEntryCount s + 1).
      { eapply count_fits; [exact Hok|]. pose proof (counted_bound (fEntries s)). rewrite (ok_len _ _ _ _ _ Hok) in *. unfold MAX_PARTICIPANT_ENTRY in *. lia. }
      rewrite Hfit. destruct (fState e) eqn:Est; try done; cbn; try lia. 
  - intros s2 (A & B & C & D1 & D2). cbn in A, B, C, D1, D2. change (fInstance (bump 1 u2)) with (fInstance u2). rewrite Hi2.
    assert (Hlt : (Z.to_nat i < length (fEntries s))%nat) by (by eapply lookup_lt_Some).
    eapply (reg_replaced mem mem_h md live s s2 i a u nx (bump (-1) (bump 1 u2))); try done.
    + by apply made.
    + unfold entry_up. rewrite B, list_lookup_insert_eq by done. cbn [fUpPtr]. by rewrite D1, lookup_insert_eq.
    + unfold state_at. by rewrite B, list_lookup_insert_eq.
    + rewrite D1, lookup_insert_ne by done. done.
    + intros j Hj Hjne. split; [unfold state_at; by rewrite B, list_lookup_insert_ne by lia|]. unfold entry_up. rewrite B, list_lookup_insert_ne by lia.
      destruct (fEntries s !! Z.to_nat j) as [ej|] eqn:Eej; [|done]. destruct (fUpPtr ej) as [b|] eqn:Eb; [|done].
      destruct (ok_up _ _ _ _ _ Hok _ _ _ Eej Eb) as (v & Hv & _). assert (Hbnx : b <> nx) by (intros ->; congruence). rewrite D1, lookup_insert_ne by done.
      rewrite Hoth; [done| |done]. intros ->. apply Hjne. apply Z2Nat.inj; [lia|lia|]. eapply (ok_inj _ _ _ _ _ Hok _ _ ej e u u a a); try done. by left.
Qed.

(** Room for a new participant. *)
Definition slot_for (primary : bool) (s : pm) : option Z :=
  first_of indices (fun i => bool_decide (state_at s i = STATE_AVAILABLE) && (negb (i =? ESIF_PARTICIPANT0_INDEX) || primary)).

Lemma free_slot_ok primary s : length (fEntries s) = Z.to_nat MAX_PARTICIPANT_ENTRY -> free_slot primary s = Some (slot_for primary s, s).
Proof.
  intros Hlen. apply find_index_pure. intros i Hi. apply in_indices in Hi. destruct (lookup_lt_is_Some_2 (fEntries s) (Z.to_nat i)) as [e He]; [lia|].
  unfold get_entry, sbind, state_at. by rewrite He.
Qed.

Lemma first_index_least b i : first_of indices b = Some i -> forall j, 0 <= j < i -> b j = false.
Proof.
  assert (Hgen : forall k n, first_of (seqZ k n) b = Some i -> forall j, k <= j < i -> b j = false).
  { intros k n. remember (Z.to_nat n) as m eqn:Em. revert k n Em. induction m as [|m IH]; intros k n Em Hf j Hj.
    - rewrite seqZ_nil in Hf by lia. done.
    - rewrite seqZ_cons in Hf by lia. cbn in Hf. destruct (b k) eqn:Eb; [injection Hf as <-; lia|]. destruct (decide (j = k)) as [->|]; [done|]. apply (IH (Z.succ k) (Z.pred n)); [lia|done|lia]. }
  intros Hf j Hj. by apply (Hgen 0 MAX_PARTICIPANT_ENTRY Hf).
Qed.

Lemma available_free lf n live out s i : pm_ok lf n live out s -> 0 <= i < MAX_PARTICIPANT_ENTRY -> state_at s i = STATE_AVAILABLE <-> entry_up s i = None.
Proof.
  intros Hok Hi. destruct (get_entry_ok _ _ _ _ _ i Hok Hi) as (e & He & _). unfold state_at. rewrite He. rewrite (ok_free _ _ _ _ _ Hok _ _ He).
  pose proof (entry_up_ok _ _ _ _ _ i e Hok He) as Hq. destruct (fUpPtr e); [destruct Hq as (u & _ & -> & _); done|done].
Qed.

(** The handle of a new participant. *)
Lemma new_handle_ok lf n live out s primary mem_h : pm_ok lf (S n) live out s ->
  exists rc v h', (if (primary : bool) then sret (ESIF_OK, ESIF_HANDLE_PRIMARY_PARTICIPANT) else EsifHandleMgr_GetNext mem_h) s =
      Some ((rc, v), mk_pm (fEntryCount s) (fEntries s) (parts s) h') /\
    ((if primary then False else exists rc v h, get_next_handle mem_h (handles s) = Some (rc, v, h) /\ rc <> ESIF_OK) <-> rc <> ESIF_OK) /\
    exists live1, live ⊆ live1 /\ holds n h' live1 /\
      (rc = ESIF_OK -> if primary then v = ESIF_HANDLE_PRIMARY_PARTICIPANT else v ∉ live /\ v ∈ live1 /\ EsifHandleMgr_IsReservedHandle v = false).
Proof.
  intros Hok. pose proof (ok_handles _ _ _ _ _ Hok) as Hh. destruct primary.
  - exists ESIF_OK, ESIF_HANDLE_PRIMARY_PARTICIPANT, (handles s). split; [by destruct s|]. split; [done|]. exists live. split; [done|]. split; [by apply holds_weaken|done].
  - destruct (next_handle_law n _ _ mem_h Hh) as (rc & v & h' & E & Hc). exists rc, v, h'. split; [unfold EsifHandleMgr_GetNext; by rewrite E|].
    split; [rewrite E; split; [by intros (? & ? & ? & [= <- <- <-] & ?)|intros Hne; by exists rc, v, h']|].
    destruct Hc as [(-> & H1 & H2 & H3)|[Hne H1]].
    + exists ({[v]} ∪ live). split; [set_solver|]. split; [done|]. intros _. split_and!; [done|set_solver|done].
    + exists live. done.
Qed.

(** A handle that no entry has yet. *)
Lemma new_handle_fits lf n live live1 out s i v : pm_ok lf n live out s -> live ⊆ live1 -> 0 <= i ->
  (if decide (i = 0) then v = ESIF_HANDLE_PRIMARY_PARTICIPANT else v ∉ live /\ v ∈ live1 /\ EsifHandleMgr_IsReservedHandle v = false) ->
  handle_fits live1 (Z.to_nat i) v /\
  forall j e2 a2 u2, j <> Z.to_nat i -> fEntries s !! j = Some e2 -> fUpPtr e2 = Some a2 -> ups (parts s) !! a2 = Some u2 -> fInstance u2 <> v.
Proof.
  intros Hok Hsub Hi Hv. assert (Hprim : EsifHandleMgr_IsReservedHandle ESIF_HANDLE_PRIMARY_PARTICIPANT = true) by done. split.
  - unfold handle_fits. destruct (decide (i = 0)) as [->|Hne]; [done|]. rewrite decide_False by lia. tauto.
  - intros j e2 a2 u2 Hj He2 Ha2 Hu2. destruct (ok_up _ _ _ _ _ Hok _ _ _ He2 Ha2) as (w & Hw & _ & _ & Hf). rewrite Hu2 in Hw. injection Hw as <-. unfold handle_fits in Hf. intros Heq.
    destruct (decide (i = 0)) as [->|Hne].
    + rewrite decide_False in Hf by done. destruct Hf as [_ Hf]. rewrite Heq, Hv in Hf. congruence.
    + destruct Hv as (Hv1 & Hv2 & Hv3). destruct (decide (j = 0%nat)) as [->|]; [rewrite Heq in Hf; rewrite Hf in Hv3; congruence|]. destruct Hf as [Hf _]. rewrite Heq in Hf. done.
Qed.

Lemma registered_failed mem mem_h lf n live out md s s1 : pm_ok lf n live out s -> overlap md s = None -> not_made mem md \/ no_entry md s \/ no_handle mem_h md s ->
  fEntries s1 = fEntries s -> ups (parts s1) = ups (parts s) -> forall s2, same s1 s2 -> registered mem mem_h md live s s2 ESIF_E_NO_CREATE ESIF_INVALID_HANDLE.
Proof. intros _ Hov Hno H1 H2 s2 (A & B & C & D1 & D2). apply reg_not_added; [done|done|]. intros j. unfold at_index, state_at, entry_up. by rewrite B, D1, H1, H2. Qed.

(** A participant that does not get an entry is destroyed again. *)
Lemma discard_ok mem mem_h lf n live live1 out md s m_s a u : pm_ok lf n live out s -> overlap md s = None ->
  not_made mem md \/ no_entry md s \/ no_handle mem_h md s -> live ⊆ live1 -> fEntryCount m_s = fEntryCount s -> fEntries m_s = fEntries s ->
  holds n (handles m_s) live1 -> heap (parts m_s) (<[a := u]> (ups (parts s))) (a + 1) -> a = next_up (parts s) -> refCount u = 1 -> 0 <= domainCount u <= ESIF_DOMAIN_MAX ->
  exists r s1, discard a m_s = Some (r, s1) /\ part_post mem mem_h lf n live out md s r s1.
Proof.
  intros Hok Hov Hno Hsub Hc He Hh Hp Ha Hr Hd. unfold discard.
  destruct (destroy_ok (parts m_s) _ _ a u Hp (lookup_insert_eq _ _ _) Hr Hd) as (p & E & Hp'). rewrite (sbind_some _ _ _ _ _ (on_parts_ok _ _ _ _ E)).
  eexists (inl (_, None, _)), (with_parts p m_s). split; [reflexivity|]. pose proof (fresh_address _ _ _ _ _ Hok) as Hf. rewrite <- Ha in Hf.
  rewrite delete_insert_eq, delete_id in Hp' by done. exists live1. split; [done|]. split.
  - destruct Hok as [A B C D E' F G I]. split; cbn; rewrite ?Hc, ?He, ?(proj1 Hp'), ?(proj2 Hp'); try done.
    + intros i e b Hi Hb. destruct (C i e b Hi Hb) as (v & ? & ? & ? & Hv). exists v. split_and!; try done. unfold handle_fits in *. case_decide; [done|]. destruct Hv. split; [by apply Hsub|done].
    + intros b Hb. destruct (E' b Hb). split; [lia|done].
  - apply (registered_failed mem mem_h lf n live out); [by split; apply Hok|done|done|done|]. apply Hp'.
Qed.

Lemma register_new_ok lf n live out s mem mem_h md : pm_ok lf (S n) live out s -> few out -> overlap md s = None ->
  exists r s1, register_new dm mem mem_h md s = Some (r, s1) /\ part_post mem mem_h lf n live out md s r s1.
Proof.
  intros HokS Hfew Hov. pose proof (pm_ok_weaken _ _ _ _ _ HokS) as Hok. pose proof (fresh_address _ _ _ _ _ Hok) as Hfresh. unfold register_new.
  destruct (create_ok dm mem md (parts s) _ _ Hdm (heap_refl _) Hfresh) as (rc & o & p1 & E1 & Ho). rewrite (sbind_some _ _ _ _ _ (on_parts_ok _ _ _ _ E1)). cbn [snd].
  destruct o as [nx|].
  2: { destruct Ho as (_ & Hno & nx' & Hnx & Hp1). eexists (inl (_, None, _)), (with_parts p1 s). split; [reflexivity|]. exists live. split; [done|]. split; [by eapply pm_ok_quiet|].
    apply (registered_failed mem mem_h lf n live out); [done|done|by left|done|]. cbn. apply Hp1. }
  destruct Ho as (_ & Hmem & Hpk & -> & u1 & Hp1 & Hcr). set (nx := next_up (parts s)) in *.
  assert (Hu1 : ups p1 !! nx = Some u1) by (rewrite (proj1 Hp1); apply lookup_insert_eq). set (s1 := with_parts p1 s).
  rewrite (sbind_some _ _ _ _ _ (load_parts s1 nx u1 Hu1)). assert (Hprim : EsifUp_IsPrimaryParticipant u1 = zone md) by (unfold EsifUp_IsPrimaryParticipant; by rewrite (cr_data _ _ _ Hcr)). rewrite Hprim.
  pose proof (cr_healthy _ _ _ Hcr) as Hh1. pose proof (cr_ref _ _ _ Hcr) as Hr1. pose proof (h_count _ Hh1) as Hc1.
  rewrite (sbind_some _ _ _ _ _ (free_slot_ok (zone md) s1 (ok_len _ _ _ _ _ Hok))). destruct (slot_for (zone md) s1) as [i|] eqn:Eslot.
  2: { assert (Hfull : no_entry md s).
    { intros j Hj Hnone. pose proof (first_of_none _ _ Eslot j ltac:(apply in_indices; destruct (zone md); lia)) as Hb. cbv beta in Hb.
      apply (available_free _ _ _ _ _ j Hok) in Hnone; [|destruct (zone md); lia]. change (state_at s1 j) with (state_at s j) in Hb. rewrite bool_decide_eq_true_2 in Hb by done.
      unfold ESIF_PARTICIPANT0_INDEX in Hb. destruct (zone md); [by rewrite orb_true_r in Hb|]. by rewrite (proj2 (Z.eqb_neq j 0)) in Hb by lia. }
    eapply (discard_ok mem mem_h lf n live live out md s s1 nx u1); try done; [by right; left|]. apply (ok_handles _ _ _ _ _ Hok). }
  change (slot_for (zone md) s1) with (slot_for (zone md) s) in Eslot. unfold slot_for in Eslot.
  pose proof (first_index_least _ _ Eslot) as Hleast. apply first_of_some in Eslot as [Hi Hslot]. apply in_indices in Hi. apply andb_true_iff in Hslot as [Havail Hzero]. apply bool_decide_eq_true in Havail.
  assert (Hfree : entry_up s i = None) by (by eapply available_free).
  assert (Hiz : i = 0 <-> zone md = true).
  { split; [intros ->; by destruct (zone md)|]. intros Hz. unfold overlap in Hov. rewrite Hz in Hov. destruct (decide (i = 0)) as [|Hne]; [done|exfalso]. specialize (Hleast 0 ltac:(lia)). rewrite Hz, orb_true_r, andb_true_r in Hleast.
    apply bool_decide_eq_false in Hleast. apply Hleast. apply (available_free _ _ _ _ _ 0 Hok); [unfold MAX_PARTICIPANT_ENTRY; lia|]. by destruct (entry_up s 0) as [[]|]. }
  destruct (new_handle_ok lf n live out s (zone md) mem_h HokS) as (rc1 & v & h' & Eh & Hnh & live1 & Hsub & Hholds & Hv).
  assert (Hnoh : no_handle mem_h md s <-> rc1 <> ESIF_OK) by (unfold no_handle; destruct (zone md); [split; [by intros []|by intros Hne; apply Hnh in Hne]|split; [intros []; by apply Hnh|intros Hne; split; [done|by apply Hnh]]]). clear Hnh.
  assert (Eh1 : (if zone md then sret (ESIF_OK, ESIF_HANDLE_PRIMARY_PARTICIPANT) else EsifHandleMgr_GetNext mem_h) s1 = Some ((rc1, v), mk_pm (fEntryCount s1) (fEntries s1) (parts s1) h')).
  { destruct (zone md); [injection Eh as <- <- Es; apply (f_equal (@PartMgr.handles _)) in Es; cbn in Es; by rewrite <- Es|]. unfold EsifHandleMgr_GetNext in *. change (handles s1) with (handles s). destruct (get_next_handle mem_h (handles s)) as [[[? ?] ?]|]; [|done]. by injection Eh as <- <- <-. }
  rewrite (sbind_some _ _ _ _ _ Eh1). cbn [fst snd]. set (s2 := mk_pm (fEntryCount s1) (fEntries s1) (parts s1) h').
  destruct (negb (rc1 =? ESIF_OK)) eqn:Erc; [apply negb_true_iff, Z.eqb_neq in Erc; eapply (discard_ok mem mem_h lf n live live1 out md s s2 nx u1); try done; right; right; by apply Hnoh|]. apply negb_false_iff, Z.eqb_eq in Erc as ->. specialize (Hv eq_refl).
  destruct (set_instance_ok p1 _ _ nx u1 v (heap_refl _) Hu1 Hh1) as (u2 & p2 & E2 & Hp2 & l & Hu2 & Hl).
  rewrite (sbind_some _ _ _ _ _ (on_parts_ok _ s2 _ _ E2)). rewrite (proj1 Hp1), (proj2 Hp1), insert_insert_eq in Hp2.
  assert (Hh2 : healthy u2) by (destruct Hh1 as [A B C D F]; rewrite Hu2; split; cbn; try done; by rewrite Hl).
  assert (Hr2 : refCount u2 = 1) by (by rewrite Hu2).
  assert (Hdesc2 : described md u2) by (eapply described_like; [by apply described_created|by rewrite Hu2..]).
  assert (Hi2 : fInstance u2 = v) by (by rewrite Hu2). clear Hu2 Hl E2.
  destruct (get_ref_ok p2 _ _ nx u2 Hp2 (lookup_insert_eq _ _ _) (h_unmarked _ Hh2)) as (p3 & E3 & Hp3 & _); [lia|]. rewrite insert_insert_eq in Hp3.
  rewrite (sbind_some _ _ _ _ _ (on_parts_ok _ (with_parts p2 _) _ _ E3)). change (negb (ESIF_OK =? ESIF_OK)) with false. cbv iota.
  eexists (inr (Some nx, _)), _. split; [reflexivity|]. exists live1. split; [done|]. exists (bump 1 u2).
  destruct (get_entry_ok _ _ _ _ _ i Hok Hi) as (e & He & _). assert (Hlt : (Z.to_nat i < length (fEntries s))%nat) by (by eapply lookup_lt_Some).
  assert (Hste : fState e = STATE_AVAILABLE) by (unfold state_at in Havail; by rewrite He in Havail).
  assert (Hea : fUpPtr e = None) by (by apply (ok_free _ _ _ _ _ Hok _ _ He)).
  assert (Honx : out nx = 0) by (by apply (ok_out _ _ _ _ _ Hok)).
  assert (Hfits : handle_fits live1 (Z.to_nat i) v /\ forall j e2 a2 w, j <> Z.to_nat i -> fEntries s !! j = Some e2 -> fUpPtr e2 = Some a2 -> ups (parts s) !! a2 = Some w -> fInstance w <> v).
  { apply (new_handle_fits lf n live live1 out); [done|done|lia|]. destruct (decide (i = 0)) as [H0|H0]; destruct (zone md); try done; [by apply Hiz in H0|exfalso; by apply H0, Hiz]. }
  destruct Hfits as [Hfits Hdist]. cbn. split; [rewrite (proj1 Hp3); apply lookup_insert_eq|]. split.
  - eapply (pm_ok_set lf n n live live1 out _ s (Z.to_nat i) e); try done; rewrite ?Hea; cbn.
    + intros b _ Hb. rewrite (proj1 Hp3), lookup_insert_ne by congruence. split; [done|]. unfold insert, fn_insert. by rewrite decide_False by congruence.
    + intros b Hb. done.
    + intros b Hb. injection Hb as <-. exists (bump 1 u2). assert (Hins : (<[nx:=out nx + 1]> out) nx = 1) by (unfold insert, fn_insert; rewrite decide_True by done; lia). rewrite Hins. split_and!.
      * rewrite (proj1 Hp3). apply lookup_insert_eq.
      * apply bump_healthy; [done|lia].
      * cbn. lia.
      * lia.
      * rewrite (proj2 Hp3). lia.
      * cbn. by rewrite Hi2.
      * intros j e2 a2 w Hj He2 Ha2 Hw. split; [intros ->; congruence|]. cbn. rewrite Hi2. by eapply Hdist.
    + rewrite (proj2 Hp3). lia.
    + intros ->. split; [done|]. rewrite Hste. cbn. assert (Hfit : wrap 8 (fEntryCount s + 1) = fEntryCount s + 1); [|rewrite Hfit; lia].
      eapply count_fits; [exact Hok|]. pose proof (counted_bound (fEntries s)). rewrite (ok_len _ _ _ _ _ Hok) in *. unfold MAX_PARTICIPANT_ENTRY in *. lia.
  - intros s3 (A & B & C & D1 & D2). cbn in A, B, C, D1, D2. rewrite (proj1 Hp3) in D1. change (fInstance u2) with (fInstance (bump (-1) (bump 1 u2))).
    eapply (reg_added mem mem_h md live s s3 i nx (bump (-1) (bump 1 u2))); try done.
    + by apply made.
    + intros Hn. by apply Hnoh in Hn.
    + intros j Hj Hnone. specialize (Hleast j ltac:(destruct (zone md); lia)). cbv beta in Hleast. apply (available_free _ _ _ _ _ j Hok) in Hnone; [|destruct (zone md); lia]. rewrite bool_decide_eq_true_2 in Hleast by done.
      destruct (zone md); [by rewrite orb_true_r in Hleast|]. unfold ESIF_PARTICIPANT0_INDEX in Hleast. rewrite (proj2 (Z.eqb_neq j 0)) in Hleast by lia. done.
    + unfold entry_up. rewrite B, list_lookup_insert_eq by done. cbn [fUpPtr]. by rewrite D1, lookup_insert_eq.
    + unfold state_at. by rewrite B, list_lookup_insert_eq.
    + change (fInstance (bump (-1) (bump 1 u2))) with (fInstance u2). rewrite Hi2. destruct (zone md); [done|]. split; apply Hv.
    + intros j Hj Hjne. split; [unfold state_at; by rewrite B, list_lookup_insert_ne by lia|]. unfold entry_up. rewrite B, list_lookup_insert_ne by lia.
      destruct (fEntries s !! Z.to_nat j) as [ej|] eqn:Eej; [|done]. destruct (fUpPtr ej) as [b|] eqn:Eb; [|done].
      destruct (ok_up _ _ _ _ _ Hok _ _ _ Eej Eb) as (w & Hw & _). assert (Hbnx : b <> nx) by (intros ->; congruence). by rewrite D1, !lookup_insert_ne.
Qed.

(** A registration has one of the outcomes, as long as nobody holds a participant
    that it replaces. *)
Lemma register_ok lf n live out s mem mem_h md : pm_ok lf (S n) live out s -> few out ->
  (forall i a u, overlap md s = Some i -> entry_up s i = Some (a, u) -> EsifUp_IsPreferredParticipant u md = true -> out a = 0) ->
  exists rc inst s' live1, EsifUpPm_RegisterParticipant dm mem mem_h (Some md) true s = Some ((rc, inst), s') /\ live ⊆ live1 /\
    pm_ok lf n live1 out s' /\ registered mem mem_h md live s s' rc inst.
Proof.
  intros Hok Hfew Hheld. unfold EsifUpPm_RegisterParticipant. cbn [negb]. rewrite (sbind_some _ _ _ _ _ (overlap_ok _ _ _ _ s md Hok)).
  match goal with |- context [sbind ?m _ s] => assert (Hpart : exists r s1, m s = Some (r, s1) /\ part_post mem mem_h lf n live out md s r s1) end.
  { destruct (overlap md s) as [i|] eqn:Hov; [|by apply register_new_ok]. destruct (overlap_some _ _ _ _ _ _ _ Hok Hov) as (Hi & a & u & Hup).
    destruct (get_entry_ok _ _ _ _ _ i Hok Hi) as (e & He & Hget). rewrite (sbind_some _ _ _ _ _ Hget). pose proof (entry_up_ok _ _ _ _ _ i e Hok He) as Hq.
    destruct (fUpPtr e) as [a'|] eqn:Ea; [|congruence]. destruct Hq as (u' & Hu & Hup' & _). rewrite Hup in Hup'. injection Hup' as <- <-.
    rewrite (sbind_some _ _ _ _ _ (load_parts s a u Hu)). destruct (EsifUp_IsPreferredParticipant u md) eqn:Epref; cbn [negb].
    - eapply replace_existing_ok; try done. by eapply Hheld.
    - by eapply resume_existing_ok. }
  destruct Hpart as (r & s1 & E & live1 & Hsub & Hpost). rewrite (sbind_some _ _ _ _ _ E). assert (H0 : forall a, 0 <= out a) by (intros a; apply (ok_out _ _ _ _ _ Hok)).
  destruct r as [[[rc [a|]] name]|[[a|] name]].
  - destruct Hpost as (u & Hu & Hok1 & Hreg). destruct (destroy_lf_ok s1 name) as (rc' & s2 & E2 & Hs2). rewrite (sbind_some _ _ _ _ _ E2).
    pose proof (same_ok _ _ _ _ _ _ Hs2 Hok1) as Hok2. assert (Hu2 : ups (parts s2) !! a = Some u) by (by rewrite (proj1 (proj2 (proj2 (proj2 Hs2))))).
    destruct (put_ok _ _ _ _ s2 a u Hok2 Hu2) as (s3 & E3 & Hat & Hok3); [unfold insert, fn_insert; rewrite decide_True by done; specialize (H0 a); lia|]. rewrite (sbind_some _ _ _ _ _ E3).
    exists rc, ESIF_INVALID_HANDLE, s3, live1. split; [done|]. split; [done|]. split; [eapply pm_ok_ext; [|exact Hok3]; intros b; apply out_back|]. apply Hreg.
    rewrite (proj1 (proj2 (proj2 (proj2 Hs2)))) in Hat. by eapply same_at.
  - destruct Hpost as (Hok1 & Hreg). destruct (destroy_lf_ok s1 name) as (rc' & s2 & E2 & Hs2). rewrite (sbind_some _ _ _ _ _ E2).
    assert (E3 : on_parts (EsifUp_PutRef None) s2 = Some (tt, s2)) by (by destruct s2). rewrite (sbind_some _ _ _ _ _ E3).
    exists rc, ESIF_INVALID_HANDLE, s2, live1. split; [done|]. split; [done|]. split; [by eapply same_ok|]. by apply Hreg.
  - destruct Hpost as (u & Hu & Hok1 & Hreg). destruct (finish_ok _ _ _ _ s1 a u name Hok1 Hu (H0 a)) as (s2 & E2 & Hat & Hok2).
    rewrite (sbind_some _ _ _ _ _ (get_instance_parts s1 a u Hu)) in E2 |- *. exists ESIF_OK, (fInstance u), s2, live1. split; [exact E2|]. split; [done|]. split; [done|]. by apply Hreg.
  - done.
Qed.
End Inv.
