(* ===== verification/PartOps.v ===== *)
(** * Every event keeps the table of the participant manager

    The operations of PartMgr.v that PartInv.v does not treat: the walks over the
    participants, the unloading of the lower framework, the operations on all
    participants, and the callback that gets the events. *)

From S2P Require Import Prelude HandleMgr HandleApi Participant PartMgr PartInv.
From stdpp Require Import list gmap strings functions.
Local Open Scope Z_scope.
Local Open Scope dptf_scope.

Section Ops.
Context {H : Type} {api : HandleApi H} {laws : HandleLaws H}.
Abbreviation pm := (PartMgr.pm (H := H)).
Abbreviation PM := (SM pm).

(* ------------------------------------------------------------------ *)
(** ** Calm operations: they have an outcome, and only calls come of them *)

Definition calm_at {T} (lf : bool) (n : nat) (live : gset Z) (out : Z -> Z) (m : PM T) (s : pm) : Prop :=
  pm_ok lf n live out s -> exists x s', m s = Some (x, s') /\ same s s'.
Definition calm {T} (m : PM T) : Prop := forall lf n live out s, few out -> calm_at lf n live out m s.
(** The same when the manager itself may hold references. *)
Definition scarce (out : Z -> Z) : Prop := forall a, out a < 2 ^ 30.

Lemma scarce_few out : scarce out -> few out.
Proof. intros Hs a. specialize (Hs a). lia. Qed.
Lemma scarce_take out a : scarce out -> few (<[a := out a + 1]> out).
Proof. intros Hs b. specialize (Hs b). unfold insert, fn_insert. case_decide as Hb; [subst|]; lia. Qed.

Lemma calm_ret {T} (x : T) : calm (sret x).
Proof. intros lf n live out s _ _. by exists x, s. Qed.
Lemma calm_emit c : calm (on_parts (emit c)).
Proof. intros lf n live out s _ _. destruct (emit_ok s c) as (s' & E & Hs). by exists tt, s'. Qed.
Lemma calm_bind_at {T U} lf n live out (m : PM T) (f : T -> PM U) s :
  calm_at lf n live out m s -> (forall x s', same s s' -> calm_at lf n live out (f x) s') -> calm_at lf n live out (sbind m f) s.
Proof.
  intros Hm Hf Hok. destruct (Hm Hok) as (x & s1 & E & Hs). destruct (Hf x s1 Hs (same_ok _ _ _ _ _ _ Hs Hok)) as (y & s2 & E2 & Hs2).
  exists y, s2. rewrite (sbind_some _ _ _ _ _ E). split; [done|]. by eapply same_trans.
Qed.
Lemma calm_bind {T U} (m : PM T) (f : T -> PM U) : calm m -> (forall x, calm (f x)) -> calm (sbind m f).
Proof. intros Hm Hf lf n live out s Hfew. apply calm_bind_at; [by apply Hm|]. intros x s' _. by apply Hf. Qed.
Lemma calm_each l body : (forall i, i ∈ l -> calm (body i)) -> calm (each l body).
Proof.
  induction l as [|i l IH]; intros Hb; cbn [each]; [apply calm_ret|]. apply calm_bind; [apply Hb; by left|]. intros _. apply IH. intros j Hj. apply Hb. by right.
Qed.

(** Looking at the entry [i] and its participant. *)
Lemma calm_entry {T} i (k : EsifUpManagerEntry -> PM T) : 0 <= i < MAX_PARTICIPANT_ENTRY ->
  (forall lf n live out s e, few out -> fEntries s !! Z.to_nat i = Some e -> (forall a, fUpPtr e = Some a -> exists u, ups (parts s) !! a = Some u) -> calm_at lf n live out (k e) s) ->
  calm (let! e := get_entry i in k e).
Proof.
  intros Hi Hk lf n live out s Hfew Hok. destruct (get_entry_ok _ _ _ _ _ i Hok Hi) as (e & He & Hget). rewrite (sbind_some _ _ _ _ _ Hget).
  apply (Hk lf n live out s e Hfew He); [|done]. intros a Ha. destruct (ok_up _ _ _ _ _ Hok _ e a He Ha) as (u & Hu & _). by exists u.
Qed.
Lemma calm_load {T} lf n live out s a u (k : EsifUp -> PM T) : ups (parts s) !! a = Some u -> calm_at lf n live out (k u) s -> calm_at lf n live out (let! u := on_parts (load a) in k u) s.
Proof. intros Hu Hk Hok. rewrite (sbind_some _ _ _ _ _ (load_parts s a u Hu)). by apply Hk. Qed.

(** A walk over the entries, with a call for some. *)
Lemma signal_dynamic_calm l event : forall id, (forall i, i ∈ l -> 0 <= i < MAX_PARTICIPANT_ENTRY) -> calm (signal_dynamic l event id).
Proof.
  induction l as [|i l IH]; intros id Hl; cbn [signal_dynamic]; [apply calm_ret|].
  assert (Htail : forall x, calm ((if x =? ESIF_INVALID_HANDLE then sret tt else on_parts (emit (C_SignalEvent x event))) ;! signal_dynamic l event x)).
  { intros x. apply calm_bind; [destruct (x =? _); [apply calm_ret|apply calm_emit]|]. intros _. apply IH. intros j Hj. apply Hl. by right. }
  apply calm_entry; [apply Hl; by left|]. intros lf n live out s e Hfew He Hup. destruct (fUpPtr e) as [a|] eqn:Ea.
  - destruct (Hup a eq_refl) as [u Hu]. apply calm_bind_at; [|intros x s' _; by apply Htail]. eapply calm_load; [done|]. by apply calm_ret.
  - apply calm_bind_at; [by apply calm_ret|]. intros x s' _. by apply Htail.
Qed.

(** Looking for a participant and letting it go again. *)
Lemma search_calm {T} test (k : option Z -> PM T) : (forall u, test (bump 1 u) = test u) -> (forall r, calm (k r)) ->
  calm (let! r := search indices test in on_parts (EsifUp_PutRef r) ;! k r).
Proof.
  intros Ht Hk lf n live out s Hfew Hok. destruct (search_ok lf n live out test indices Ht s Hok Hfew) as (x & s1 & E & Hx); [intros i; by rewrite in_indices|].
  rewrite (sbind_some _ _ _ _ _ E). destruct (first_of _ _) as [i|]; cbn in Hx.
  - destruct Hx as (a & u & _ & Hu & -> & Hat & Hok1). assert (Hu1 : ups (parts s1) !! a = Some (bump 1 u)) by (rewrite (proj1 (proj2 (proj2 (proj2 Hat)))); apply lookup_insert_eq).
    destruct (put_ok _ _ _ _ s1 a _ Hok1 Hu1) as (s2 & E2 & Hat2 & _).
    { unfold insert, fn_insert. rewrite decide_True by done. pose proof (ok_out _ _ _ _ _ Hok a). lia. }
    rewrite (sbind_some _ _ _ _ _ E2). rewrite (proj1 (proj2 (proj2 (proj2 Hat)))), put_back in Hat2 by done. assert (Hs : same s s2) by (by eapply at_at).
    destruct (Hk (Some a) lf n live out s2 Hfew (same_ok _ _ _ _ _ _ Hs Hok)) as (y & s3 & E3 & Hs3). exists y, s3. split; [done|]. by eapply same_trans.
  - destruct Hx as [-> Hs]. assert (E2 : on_parts (EsifUp_PutRef None) s1 = Some (tt, s1)) by (by destruct s1). rewrite (sbind_some _ _ _ _ _ E2).
    destruct (Hk None lf n live out s1 Hfew (same_ok _ _ _ _ _ _ Hs Hok)) as (y & s3 & E3 & Hs3). exists y, s3. split; [done|]. by eapply same_trans.
Qed.
Lemma does_exist_calm key test : (forall k u, test k (bump 1 u) = test k u) -> calm (does_exist key test).
Proof. intros Ht. unfold does_exist. destruct key as [k|]; [|apply calm_ret]. apply search_calm; [done|]. intros r. apply calm_ret. Qed.
Lemma create_lp_calm name : calm (EsifUpPm_CreateLPfromUFMeta name).
Proof.
  unfold EsifUpPm_CreateLPfromUFMeta. apply calm_bind; [by apply does_exist_calm|]. intros [|]; [apply calm_ret|]. apply calm_bind; [apply calm_emit|]. intros _. apply calm_ret.
Qed.

(* ------------------------------------------------------------------ *)
(** ** Visiting the participants that are available *)

(** What a visit may do: anything that leaves the heap as it is, while somebody
    holds the participant. *)
Definition quiet_visit (k : Z -> PM unit) : Prop := forall lf n live out s a u, scarce out -> pm_ok lf n live (<[a := out a + 1]> out) s -> ups (parts s) !! a = Some u ->
  exists s', k a s = Some (tt, s') /\ same s s'.

Lemma release_ok lf n live out s s1 a u : pm_ok lf n live out s -> ups (parts s) !! a = Some u -> at_heap s s1 (<[a := bump 1 u]> (ups (parts s))) -> pm_ok lf n live (<[a := out a + 1]> out) s1 ->
  exists s2, on_parts (EsifUp_PutRef (Some a)) s1 = Some (tt, s2) /\ same s s2.
Proof.
  intros Hok Hu Hat Hok1. assert (Hu1 : ups (parts s1) !! a = Some (bump 1 u)) by (rewrite (proj1 (proj2 (proj2 (proj2 Hat)))); apply lookup_insert_eq).
  destruct (put_ok _ _ _ _ s1 a _ Hok1 Hu1) as (s2 & E2 & Hat2 & _).
  { unfold insert, fn_insert. rewrite decide_True by done. pose proof (ok_out _ _ _ _ _ Hok a). lia. }
  rewrite (proj1 (proj2 (proj2 (proj2 Hat)))), put_back in Hat2 by done. exists s2. split; [done|]. by eapply at_at.
Qed.

Definition calm2 {T} (m : PM T) : Prop := forall lf n live out s, scarce out -> calm_at lf n live out m s.
Lemma calm_calm2 {T} (m : PM T) : calm m -> calm2 m.
Proof. intros Hm lf n live out s Hs. apply Hm. by apply scarce_few. Qed.

Lemma visit_calm i k : 0 <= i < MAX_PARTICIPANT_ENTRY -> quiet_visit k ->
  calm2 (let! r := EsifUpPm_GetAvailableParticipantByIndex i in match r with None => sret tt | Some a => k a ;! on_parts (EsifUp_PutRef (Some a)) end).
Proof.
  intros Hi Hk lf n live out s Hs Hok. destruct (by_index_ok lf n live out s i Hok (scarce_few _ Hs) Hi) as (s1 & E & H1). unfold EsifUpPm_GetAvailableParticipantByIndex. rewrite (sbind_some _ _ _ _ _ E).
  destruct (available s i) as [[a u]|]; cbn [option_map fst]; [|subst s1; by exists tt, s]. destruct H1 as (Hu & Hat & Hok1).
  assert (Hu1 : ups (parts s1) !! a = Some (bump 1 u)) by (rewrite (proj1 (proj2 (proj2 (proj2 Hat)))); apply lookup_insert_eq).
  destruct (Hk lf n live out s1 a _ Hs Hok1 Hu1) as (s2 & E2 & Hs2). rewrite (sbind_some _ _ _ _ _ E2).
  destruct (release_ok lf n live out s s2 a u Hok Hu (at_same _ _ _ _ Hat Hs2) (same_ok _ _ _ _ _ _ Hs2 Hok1)) as (s3 & E3 & Hs3). exists tt, s3. by split.
Qed.

Lemma calm2_each l body : (forall i, i ∈ l -> calm2 (body i)) -> calm2 (each l body).
Proof.
  induction l as [|i l IH]; intros Hb lf n live out s Hs; cbn [each]; [by apply calm_ret, scarce_few|]. apply calm_bind_at; [apply Hb; [by left|done]|]. intros _ s' _.
  apply IH; [|done]. intros j Hj. apply Hb. by right.
Qed.

(** A visit that talks to the participant's domains. *)
Lemma parts_visit (k : Z -> PS unit) : (forall s m nx a u, heap s m nx -> m !! a = Some u -> healthy u -> exists s', k a s = Some (tt, s') /\ heap s' m nx) -> quiet_visit (fun a => on_parts (k a)).
Proof.
  intros Hk lf n live out s a u _ Hok Hu. destruct (ok_heap _ _ _ _ _ Hok a ltac:(by eexists)) as (_ & i & e & Hie & Hea).
  destruct (ok_up _ _ _ _ _ Hok i e a Hie Hea) as (u0 & Hu0 & Hh & _). rewrite Hu in Hu0. injection Hu0 as <-.
  destruct (Hk (parts s) _ _ a u (heap_refl _) Hu Hh) as (p & E & Hp). exists (with_parts p s). split; [by apply on_parts_ok|done].
Qed.

Lemma for_available_calm k : (forall s m nx a u, heap s m nx -> m !! a = Some u -> healthy u -> exists s', k a s = Some (tt, s') /\ heap s' m nx) -> calm2 (for_available k).
Proof. intros Hk. apply calm2_each. intros i Hi. apply in_indices in Hi. apply (visit_calm i (fun a => on_parts (k a))); [done|]. by apply parts_visit. Qed.

Lemma poll_calm : calm2 EsifUfPoll_once.
Proof. apply for_available_calm. intros s m nx a u Hh Ha Hu. unfold EsifUp_PollParticipant. by eapply walk_ops_ok. Qed.
Lemma poll_start_calm : calm2 EsifUFPollStart.
Proof. apply for_available_calm. intros s m nx a u Hh Ha Hu. unfold EsifUp_RegisterParticipantForPolling. by eapply walk_ops_ok. Qed.
Lemma poll_stop_calm : calm2 EsifUFPollStop.
Proof. apply for_available_calm. intros s m nx a u Hh Ha Hu. unfold EsifUp_UnRegisterParticipantForPolling. by eapply walk_ops_ok. Qed.

Lemma action_change_calm dm action arrival : calm2 (EsifUpPm_ActionChangeHandler dm action arrival).
Proof.
  unfold EsifUpPm_ActionChangeHandler. destruct action as [rc|t]; [by apply calm_calm2, calm_ret|]. intros lf n live out s Hs.
  apply calm_bind_at; [destruct arrival; [by apply calm_emit, scarce_few|by apply calm_ret, scarce_few]|]. intros _ s1 _. apply calm_bind_at; [|intros _ s2 _; by apply calm_ret, scarce_few].
  apply calm2_each; [|done]. intros i Hi. apply in_indices in Hi. clear -Hi. intros lf n live out s Hs.
  set (k := fun a => let! b := on_parts (EsifUp_IsActionInDsp dm (Some a) t) in if (b : bool) then let! _ := on_parts (EsifUp_ReevaluateParticipantCaps (Some a)) in sret tt else sret tt : PM unit).
  assert (Hk : quiet_visit k).
  { clear. intros lf n live out s a u _ Hok Hu. unfold k, EsifUp_IsActionInDsp. destruct (ok_heap _ _ _ _ _ Hok a ltac:(by eexists)) as (_ & i & e & Hie & Hea).
    destruct (ok_up _ _ _ _ _ Hok i e a Hie Hea) as (u0 & Hu0 & Hh & _). rewrite Hu in Hu0. injection Hu0 as <-.
    assert (E : on_parts (let! u := load a in sret (match fDspPtr u with Some d => contained_actions dm d t | None => false end)) s =
      Some (match fDspPtr u with Some d => contained_actions dm d t | None => false end, s)) by (unfold on_parts, load, sbind; rewrite Hu; by destruct s).
    rewrite (sbind_some _ _ _ _ _ E). destruct (match fDspPtr u with Some d => _ | None => _ end); [|by exists s].
    destruct (reeval_ok (parts s) _ _ a u (heap_refl _) Hu (proj2 (h_count u Hh))) as (p & Ep & Hp). rewrite (sbind_some _ _ _ _ _ (on_parts_ok _ _ _ _ Ep)). by exists (with_parts p s). }
  pose proof (visit_calm i k Hi Hk lf n live out s Hs) as Hv. intros Hok. destruct (Hv Hok) as (x & s' & E & Hsame). exists x, s'. split; [|done]. rewrite <- E.
  unfold k, sbind. destruct (EsifUpPm_GetAvailableParticipantByIndex i s) as [[[a|] s1]|]; try done.
  by destruct (on_parts (EsifUp_IsActionInDsp dm (Some a) t) s1) as [[[] ?]|].
Qed.

(* ------------------------------------------------------------------ *)
(** ** The iterator *)

(** Taking and giving back references makes no call. *)
Definition silent {T} (m : PM T) : Prop := forall s x s', m s = Some (x, s') -> calls (parts s') = calls (parts s).

Lemma silent_ret {T} (x : T) : silent (sret x).
Proof. intros s y s' E. by injection E as _ <-. Qed.
Lemma silent_bind {T U} (m : PM T) (f : T -> PM U) : silent m -> (forall x, silent (f x)) -> silent (sbind m f).
Proof. intros Hm Hf s y s' E. apply sbind_inv in E as (x & s1 & E1 & E2). rewrite (Hf _ _ _ _ E2). by eapply Hm. Qed.
Lemma silent_get_ref o : silent (on_parts (EsifUp_GetRef o)).
Proof.
  intros s x s'. unfold on_parts, EsifUp_GetRef, load, store, smodify, sbind, sret. destruct o as [a|]; [|intros [= _ <-]; done].
  destruct (ups (parts s) !! a) as [u|]; [|done]. destruct (markedForDelete u); by intros [= _ <-].
Qed.
Lemma silent_put_ref o : silent (on_parts (EsifUp_PutRef o)).
Proof.
  intros s x s'. unfold on_parts, EsifUp_PutRef, load, store, smodify, sbind, sret. destruct o as [a|]; [|intros [= _ <-]; done].
  destruct (ups (parts s) !! a) as [u|]; [|done]. by intros [= _ <-].
Qed.
Lemma silent_entry i : silent (get_entry i).
Proof. intros s x s'. unfold get_entry. destruct (fEntries s !! _); [|done]. by intros [= _ <-]. Qed.
Lemma silent_by_index i : silent (EsifUpPm_GetAvailableParticipantByIndex i).
Proof.
  unfold EsifUpPm_GetAvailableParticipantByIndex, EsifUpPm_GetAvailableParticipantByIndexLocked. destruct (_ <=? _); [apply silent_ret|]. apply silent_bind; [apply silent_entry|]. intros e.
  destruct (above_removed _); [|apply silent_ret]. destruct (fUpPtr e); [|apply silent_ret]. apply silent_bind; [apply silent_get_ref|]. intros rc. apply silent_ret.
Qed.
Lemma silent_next_available l : silent (next_available l).
Proof. induction l as [|i l IH]; cbn [next_available]; [apply silent_ret|]. apply silent_bind; [apply silent_by_index|]. intros [a|]; [apply silent_ret|done]. Qed.

Definition is_available (s : pm) (i : Z) : bool := match available s i with Some _ => true | None => false end.

Lemma next_available_ok lf n live out s l : pm_ok lf n live out s -> few out -> (forall i, i ∈ l -> 0 <= i < MAX_PARTICIPANT_ENTRY) ->
  match first_of l (is_available s) with
  | Some i => exists a u s', available s i = Some (a, u) /\ next_available l s = Some (Some (i, a), s') /\ ups (parts s) !! a = Some u /\
      at_heap s s' (<[a := bump 1 u]> (ups (parts s))) /\ pm_ok lf n live (<[a := out a + 1]> out) s'
  | None => next_available l s = Some (None, s)
  end.
Proof.
  intros Hok Hfew. induction l as [|i l IH]; intros Hl; cbn [first_of next_available]; [done|].
  destruct (by_index_ok lf n live out s i Hok Hfew (Hl i ltac:(by left))) as (s1 & E & H1). unfold EsifUpPm_GetAvailableParticipantByIndex. rewrite (sbind_some _ _ _ _ _ E). unfold is_available at 1.
  destruct (available s i) as [[a u]|] eqn:Eav; cbn [option_map fst].
  - destruct H1 as (Hu & Hat & Hok1). by exists a, u, s1.
  - subst s1. apply IH. intros j Hj. apply Hl. by right.
Qed.

(** What the iterator gives next, from the index [i]. *)
Definition from (i : Z) : list Z := seqZ i (MAX_PARTICIPANT_ENTRY - i).
Definition advance (i : Z) : PM (Z * option Z * UfPmIterator) :=
  let! r := next_available (from i) in
  sret (match r with Some (j, a) => (ESIF_OK, Some a, mk_pmit true j true (Some a)) | None => (ESIF_E_ITERATION_DONE, None, mk_pmit true i false None) end).

Lemma get_next_fresh i s : 0 <= i < MAX_PARTICIPANT_ENTRY -> EsifUpPm_GetNextUp (mk_pmit true i false None) s = advance i s.
Proof.
  intros Hi. unfold EsifUpPm_GetNextUp, advance, from. cbn [marker index ref_taken it_up negb orb]. rewrite (proj2 (Z.leb_gt _ _)) by lia.
  unfold sbind, sret. cbn [index]. by destruct (next_available _ s) as [[[[]|] ?]|].
Qed.
Lemma get_next_taken i a s s1 : 0 <= i < MAX_PARTICIPANT_ENTRY -> on_parts (EsifUp_PutRef (Some a)) s = Some (tt, s1) ->
  EsifUpPm_GetNextUp (mk_pmit true i true (Some a)) s = advance (i + 1) s1.
Proof.
  intros Hi E. unfold EsifUpPm_GetNextUp, advance, from. cbn [marker index ref_taken it_up negb orb]. rewrite (proj2 (Z.leb_gt _ _)) by lia.
  rewrite wrap_small by (unfold in_range, MAX_PARTICIPANT_ENTRY in *; lia). unfold sbind at 1 2. rewrite E. unfold sbind, sret. cbn [index].
  by destruct (next_available _ s1) as [[[[]|] ?]|].
Qed.

(** The participants that a walk from [i] visits, in this order. *)
Definition visited (s : pm) (i : Z) : list Z := omap (fun j => option_map fst (available s j)) (from i).
Fixpoint visits (R : Z -> list call -> list call -> Prop) (l : list Z) (c c' : list call) : Prop :=
  match l with [] => c' = c | a :: l => exists c1, R a c c1 /\ visits R l c1 c' end.
Definition visitor (R : Z -> list call -> list call -> Prop) (k : Z -> PM unit) : Prop :=
  forall lf n live out s a u, scarce out -> pm_ok lf n live (<[a := out a + 1]> out) s -> ups (parts s) !! a = Some u ->
  exists s', k a s = Some (tt, s') /\ same s s' /\ R a (calls (parts s)) (calls (parts s')).

Lemma same_visited s s' i : same s s' -> visited s' i = visited s i.
Proof. intros Hs. unfold visited. apply list_omap_ext. apply Forall2_same_length_lookup. split; [done|]. intros k x y Hx Hy. rewrite Hx in Hy. injection Hy as ->. by rewrite (proj1 (same_available _ _ y Hs)). Qed.

Lemma from_cons i : i < MAX_PARTICIPANT_ENTRY -> from i = i :: from (i + 1).
Proof. intros Hi. unfold from. rewrite seqZ_cons by lia. unfold Z.succ. f_equal. f_equal. lia. Qed.
Lemma from_end : from MAX_PARTICIPANT_ENTRY = [].
Proof. done. Qed.
Lemma in_from i j : j ∈ from i <-> i <= j < MAX_PARTICIPANT_ENTRY.
Proof. unfold from. rewrite elem_of_seqZ. lia. Qed.

Lemma first_visited s k : forall i, 0 <= i -> (Z.to_nat (MAX_PARTICIPANT_ENTRY - i) <= k)%nat -> i <= MAX_PARTICIPANT_ENTRY ->
  match first_of (from i) (is_available s) with
  | Some j => i <= j < MAX_PARTICIPANT_ENTRY /\ exists a u, available s j = Some (a, u) /\ visited s i = a :: visited s (j + 1)
  | None => visited s i = []
  end.
Proof.
  induction k as [|k IH]; intros i Hi Hk Hle.
  - assert (i = MAX_PARTICIPANT_ENTRY) as -> by lia. unfold visited. by rewrite from_end.
  - destruct (decide (i = MAX_PARTICIPANT_ENTRY)) as [->|Hne]; [unfold visited; by rewrite from_end|]. unfold visited. rewrite from_cons by lia. cbn [first_of omap list_omap]. unfold is_available at 1.
    destruct (available s i) as [[a u]|] eqn:Eav; cbn [option_map fst]; [split; [lia|]; by exists a, u|]. specialize (IH (i + 1) ltac:(lia) ltac:(lia) ltac:(lia)).
    destruct (first_of (from (i + 1)) _) as [j|]; [|done]. destruct IH as [Hj Hv]. split; [lia|done].
Qed.

(** The rest of the loop once the iterator has answered. *)
Definition walk_from (n : nat) (body : Z -> PM unit) (last : option Z) (r : Z * option Z * UfPmIterator) : PM (option Z) :=
  if r.1.1 =? ESIF_OK then
    match r.1.2 with None => slow_poll_loop n r.2 body None | Some a => body a ;! slow_poll_loop n r.2 body (Some a) end
  else sret (if r.1.1 =? ESIF_E_ITERATION_DONE then None else last).

Lemma walk_from_ok R body : visitor R body -> forall n i last lf live live_n out s, 0 <= i <= MAX_PARTICIPANT_ENTRY -> MAX_PARTICIPANT_ENTRY - i <= Z.of_nat n ->
  scarce out -> pm_ok lf live_n live out s ->
  exists s', (let! r := advance i in walk_from n body last r) s = Some (None, s') /\ same s s' /\ visits R (visited s i) (calls (parts s)) (calls (parts s')).
Proof.
  intros Hbody. induction n as [|n IH]; intros i last lf live live_n out s Hi Hn Hs Hok; unfold advance;
    pose proof (next_available_ok lf live_n live out s (from i) Hok (scarce_few _ Hs) ltac:(intros j; rewrite in_from; lia)) as Hnext;
    pose proof (first_visited s (Z.to_nat (MAX_PARTICIPANT_ENTRY - i)) i ltac:(lia) ltac:(lia) ltac:(lia)) as Hfirst; destruct (first_of (from i) (is_available s)) as [j|].
  - exfalso. lia.
  - unfold sbind at 1 2. rewrite Hnext, Hfirst. by exists s.
  - destruct Hnext as (a & u & s1 & Hav & E & Hu & Hat & Hok1). destruct Hfirst as (Hj & a' & u' & Hav' & ->). rewrite Hav in Hav'. injection Hav' as <- <-.
    unfold sbind at 1 2. rewrite E. cbn [sret]. unfold walk_from at 1, sret. cbn [fst snd]. change (ESIF_OK =? ESIF_OK) with true. cbv iota.
    assert (Hu1 : ups (parts s1) !! a = Some (bump 1 u)) by (rewrite (proj1 (proj2 (proj2 (proj2 Hat)))); apply lookup_insert_eq).
    destruct (Hbody lf live_n live out s1 a _ Hs Hok1 Hu1) as (s2 & E2 & Hs2 & HR). rewrite (sbind_some _ _ _ _ _ E2).
    destruct (release_ok lf live_n live out s s2 a u Hok Hu (at_same _ _ _ _ Hat Hs2) (same_ok _ _ _ _ _ _ Hs2 Hok1)) as (s3 & E3 & Hs3).
    destruct (IH (j + 1) (Some a) lf live live_n out s3) as (s' & E' & Hs' & HV); [lia|lia|done|by eapply same_ok|].
    exists s'. split; [|split; [by eapply same_trans|]].
    + cbn [slow_poll_loop]. unfold sbind at 1. rewrite (get_next_taken j a s2 s3) by (done || lia). exact E'.
    + cbn [visits]. rewrite (same_visited s s3) in HV by done. exists (calls (parts s2)). rewrite <- (silent_next_available _ _ _ _ E). split; [done|].
      by rewrite (silent_put_ref _ _ _ _ E3) in HV.
  - unfold sbind at 1 2. rewrite Hnext, Hfirst. by exists s.
Qed.

Lemma loop_start n body s : slow_poll_loop (S n) EsifUpPm_InitIterator body None s = (let! r := advance 0 in walk_from n body None r) s.
Proof. cbn [slow_poll_loop]. unfold sbind at 1, EsifUpPm_InitIterator. by rewrite get_next_fresh by (unfold MAX_PARTICIPANT_ENTRY; lia). Qed.

Lemma slow_poll_loop_ok R body lf n live out s : visitor R body -> scarce out -> pm_ok lf n live out s ->
  exists s', slow_poll_loop 33 EsifUpPm_InitIterator body None s = Some (None, s') /\ same s s' /\ visits R (visited s 0) (calls (parts s)) (calls (parts s')).
Proof.
  intros Hb Hs Hok. destruct (walk_from_ok R body Hb 32 0 None lf live n out s) as (s' & E & Hs' & HV); [unfold MAX_PARTICIPANT_ENTRY; lia|unfold MAX_PARTICIPANT_ENTRY; lia|done|done|].
  exists s'. split; [|done]. rewrite <- E. apply loop_start.
Qed.

Lemma quiet_visitor k : quiet_visit k -> visitor (fun _ _ _ => True) k.
Proof. intros Hk lf n live out s a u Hs Hok Hu. destruct (Hk lf n live out s a u Hs Hok Hu) as (s' & E & Hs'). by exists s'. Qed.

Lemma stop_slow_polls_calm : calm2 EsifUpPm_StopAllParticipantsSlowPoll.
Proof.
  intros lf n live out s Hs Hok. unfold EsifUpPm_StopAllParticipantsSlowPoll.
  set (k := fun a => let! _ := on_parts (EsifUp_StopParticipantSlowPoll (Some a)) in sret tt : PM unit).
  assert (Hk : quiet_visit k).
  { clear. intros lf n live out s a u _ Hok Hu. destruct (ok_heap _ _ _ _ _ Hok a ltac:(by eexists)) as (_ & i & e & Hie & Hea).
    destruct (ok_up _ _ _ _ _ Hok i e a Hie Hea) as (u0 & Hu0 & Hh & _). rewrite Hu in Hu0. injection Hu0 as <-.
    destruct (stop_slow_ok (parts s) _ _ a u (heap_refl _) Hu Hh) as (p & E & Hp). unfold k. rewrite (sbind_some _ _ _ _ _ (on_parts_ok _ _ _ _ E)). by exists (with_parts p s). }
  destruct (slow_poll_loop_ok _ k lf n live out s (quiet_visitor _ Hk) Hs Hok) as (s' & E & Hs' & _). rewrite (sbind_some _ _ _ _ _ E).
  exists ESIF_OK, s'. split; [|done]. unfold sbind, on_parts, EsifUp_PutRef, sret. by destruct s'.
Qed.

(** Starting the slow polling looks at the primary participant as well. *)
Lemma start_slow_poll_visit get_period : quiet_visit (EsifUp_StartParticipantSlowPoll get_period).
Proof.
  intros lf n live out s a u Hs Hok Hu. unfold EsifUp_StartParticipantSlowPoll.
  destruct (by_instance_ok lf n live (<[a := out a + 1]> out) s ESIF_HANDLE_PRIMARY_PARTICIPANT Hok (scarce_take _ _ Hs)) as (x & s1 & E & Hx). rewrite (sbind_some _ _ _ _ _ E).
  set (rate := match x with None => _ | Some _ => _ end).
  assert (H2 : exists s2, on_parts (EsifUp_PutRef x) s1 = Some (tt, s2) /\ same s s2).
  { destruct (first_of _ _) as [i|]; cbn in Hx.
    - destruct Hx as (b & v & _ & Hv & -> & Hat & Hok1). by eapply release_ok.
    - destruct Hx as [-> Hs1]. exists s1. split; [by destruct s1|done]. }
  destruct H2 as (s2 & E2 & Hs2). rewrite (sbind_some _ _ _ _ _ E2). pose proof (same_ok _ _ _ _ _ _ Hs2 Hok) as Hok2.
  assert (Hu2 : ups (parts s2) !! a = Some u) by (by rewrite (proj1 (proj2 (proj2 (proj2 Hs2))))).
  destruct (ok_heap _ _ _ _ _ Hok2 a ltac:(by eexists)) as (_ & i & e & Hie & Hea). destruct (ok_up _ _ _ _ _ Hok2 i e a Hie Hea) as (u0 & Hu0 & Hh & _). rewrite Hu2 in Hu0. injection Hu0 as <-.
  destruct (quiet_walk a _ _ (slow_poll_domain get_period rate a) u (parts s2) (heap_refl _) Hu2 Hh) as (p & Ep & Hp).
  { intros d s3 m1 Hd H3. unfold slow_poll_domain. destruct (negb _); [by exists s3|]. destruct (_ && _); [|by exists s3]. by eexists. }
  rewrite (sbind_some _ _ _ _ _ (on_parts_ok _ _ _ _ Ep)). exists (with_parts p s2). split; [done|]. eapply same_trans; [done|]. done.
Qed.
Lemma start_slow_polls_calm get_period : calm2 (EsifUpPm_StartAllParticipantsSlowPoll get_period).
Proof.
  intros lf n live out s Hs Hok. unfold EsifUpPm_StartAllParticipantsSlowPoll.
  destruct (slow_poll_loop_ok _ _ lf n live out s (quiet_visitor _ (start_slow_poll_visit get_period)) Hs Hok) as (s' & E & Hs' & _). rewrite (sbind_some _ _ _ _ _ E).
  exists ESIF_OK, s'. split; [|done]. unfold sbind, on_parts, EsifUp_PutRef, sret. by destruct s'.
Qed.

(* ------------------------------------------------------------------ *)
(** ** The lower framework goes *)

Lemma indices_split : indices = 0 :: others.
Proof. done. Qed.
Lemma in_others i : i ∈ others <-> 1 <= i < MAX_PARTICIPANT_ENTRY.
Proof. unfold others. rewrite elem_of_seqZ. unfold ESIF_PARTICIPANT0_INDEX, MAX_PARTICIPANT_ENTRY. lia. Qed.

Lemma others_range i : i ∈ others -> 0 <= i < MAX_PARTICIPANT_ENTRY.
Proof. rewrite in_others. lia. Qed.

Definition signal_suspend (i : Z) : PM unit :=
  let! e := get_entry i in
  match fUpPtr e with
  | None => sret tt
  | Some a =>
      let! u := on_parts (load a) in
      if bool_decide (fOrigin u = eParticipantOriginLF) then on_parts (emit (C_SignalEvent (fInstance u) ESIF_EVENT_PARTICIPANT_SUSPEND)) else sret tt
  end.
Lemma signal_suspend_calm i : 0 <= i < MAX_PARTICIPANT_ENTRY -> calm (signal_suspend i).
Proof.
  intros Hi. apply calm_entry; [done|]. intros lf n live out s e Hfew He Hup. destruct (fUpPtr e) as [a|]; [|by apply calm_ret]. destruct (Hup a eq_refl) as [u Hu].
  eapply calm_load; [done|]. destruct (bool_decide _); [by apply calm_emit|by apply calm_ret].
Qed.

Lemma lf_unloaded_ok lf n live out s : pm_ok lf n live out s -> few out -> entry_up s 0 <> None ->
  exists s', EsifUpPm_SuspendLfParticipants s = Some (tt, s') /\ pm_ok true n live out s' /\ ups (parts s') = ups (parts s) /\
    forall j, 0 <= j -> entry_up s' j = entry_up s j /\ state_at s' j = if decide (j = 0) then STATE_LF_REMOVED else state_at s j.
Proof.
  intros Hok Hfew H0. unfold EsifUpPm_SuspendLfParticipants. rewrite indices_split.
  match goal with |- context [each _ ?b] => set (body := b) end. cbn [each].
  assert (Hbody : forall i s, body i s = (signal_suspend i ;! if i =? ESIF_PARTICIPANT0_INDEX then set_state i STATE_LF_REMOVED else sret tt) s).
  { intros i s0. unfold body, signal_suspend, sbind. by destruct (get_entry i s0) as [[e s1]|]. }
  destruct (signal_suspend_calm 0 ltac:(unfold MAX_PARTICIPANT_ENTRY; lia) lf n live out s Hfew Hok) as ([] & s1 & E1 & Hs1). pose proof (same_ok _ _ _ _ _ _ Hs1 Hok) as Hok1.
  destruct (get_entry_ok _ _ _ _ _ 0 Hok1 ltac:(unfold MAX_PARTICIPANT_ENTRY; lia)) as (e & He & Hget).
  assert (Hsome : is_Some (fUpPtr e)).
  { pose proof (entry_up_ok _ _ _ _ _ 0 e Hok1 He) as Hq. destruct (fUpPtr e); [by eexists|]. rewrite (proj2 (same_available _ _ 0 Hs1)) in Hq. done. }
  set (s2 := mk_pm (fEntryCount s1) (<[Z.to_nat 0 := mk_entry STATE_LF_REMOVED (fUpPtr e)]> (fEntries s1)) (parts s1) (handles s1)).
  assert (E2 : body 0 s = Some (tt, s2)).
  { rewrite Hbody, (sbind_some _ _ _ _ _ E1). unfold set_state, sbind. change (0 =? ESIF_PARTICIPANT0_INDEX) with true. cbv iota beta. by rewrite Hget. }
  unfold sbind at 1. rewrite E2.
  assert (Hok2 : pm_ok true n live out s2).
  { apply (pm_ok_state true n live out s1); [|done|done|done|done]. destruct Hok1 as [A B C D F G I J]. by split. }
  assert (Hrest : calm (each others body)).
  { apply calm_each. intros i Hi. apply in_others in Hi. intros lf' n' live' out' s0 Hfew' Hok0.
    destruct (calm_bind _ (fun _ => sret tt) (signal_suspend_calm i ltac:(lia)) (fun _ => calm_ret tt) lf' n' live' out' s0 Hfew' Hok0) as (x & s' & E & Hs'). exists x, s'. split; [|done].
    rewrite Hbody. rewrite (proj2 (Z.eqb_neq i ESIF_PARTICIPANT0_INDEX)) by (unfold ESIF_PARTICIPANT0_INDEX; lia). done. }
  destruct (Hrest true n live out s2 Hfew Hok2) as ([] & s3 & E3 & Hs3). exists s3. split; [done|]. split; [by eapply same_ok|]. split.
  { rewrite (proj1 (proj2 (proj2 (proj2 Hs3)))). apply Hs1. }
  assert (Hlt : (Z.to_nat 0 < length (fEntries s1))%nat) by (by eapply lookup_lt_Some).
  intros j Hj. destruct (same_available _ _ j Hs3) as [_ ->]. rewrite <- (proj2 (same_available _ _ j Hs1)). split.
  - unfold entry_up, s2. cbn [fEntries parts]. destruct (decide (j = 0)) as [->|Hne]; [rewrite list_lookup_insert_eq by done; by rewrite He|by rewrite list_lookup_insert_ne by lia].
  - unfold state_at. rewrite (proj1 (proj2 Hs3)). unfold s2. cbn [fEntries]. destruct (decide (j = 0)) as [->|Hne]; [by rewrite list_lookup_insert_eq|].
    rewrite list_lookup_insert_ne by lia. by rewrite (proj1 (proj2 Hs1)).
Qed.

(* ------------------------------------------------------------------ *)
(** ** Operations on several participants *)

Context (create_in_apps destroy_in_apps : Z -> Z).

Definition kind {T} (m : PM T) : Prop := forall lf n live out s, scarce out -> pm_ok lf n live out s -> exists x s', m s = Some (x, s') /\ pm_ok lf n live out s'.

Lemma calm_kind {T} (m : PM T) : calm2 m -> kind m.
Proof. intros Hm lf n live out s Hs Hok. destruct (Hm lf n live out s Hs Hok) as (x & s' & E & Hs'). exists x, s'. split; [done|]. by eapply same_ok. Qed.
Lemma kind_bind {T U} (m : PM T) (f : T -> PM U) : kind m -> (forall x, kind (f x)) -> kind (sbind m f).
Proof.
  intros Hm Hf lf n live out s Hs Hok. destruct (Hm lf n live out s Hs Hok) as (x & s1 & E & Hok1). destruct (Hf x lf n live out s1 Hs Hok1) as (y & s2 & E2 & Hok2).
  exists y, s2. by rewrite (sbind_some _ _ _ _ _ E).
Qed.
Lemma kind_ret {T} (x : T) : kind (sret x).
Proof. apply calm_kind, calm_calm2, calm_ret. Qed.
Lemma kind_each l body : (forall i, i ∈ l -> kind (body i)) -> kind (each l body).
Proof. induction l as [|i l IH]; intros Hb; cbn [each]; [apply kind_ret|]. apply kind_bind; [apply Hb; by left|]. intros _. apply IH. intros j Hj. apply Hb. by right. Qed.

Lemma suspend_kind inst : kind (EsifUpPm_SuspendParticipant destroy_in_apps inst).
Proof. intros lf n live out s Hs Hok. destruct (suspend_participant_ok destroy_in_apps lf n live out s inst Hok (scarce_few _ Hs)) as (rc & s' & E & Hok' & _). by exists rc, s'. Qed.
Lemma resume_kind inst : kind (EsifUpPm_ResumeParticipant create_in_apps inst).
Proof. intros lf n live out s Hs Hok. destruct (resume_participant_ok create_in_apps lf n live out s inst Hok (scarce_few _ Hs)) as (rc & s' & E & Hok' & _). by exists rc, s'. Qed.

Lemma resume_all_kind : kind (EsifUpPm_ResumeParticipants create_in_apps).
Proof.
  unfold EsifUpPm_ResumeParticipants. apply kind_bind; [|intros _; apply kind_ret]. apply kind_each. intros i Hi. apply in_others in Hi. intros lf n live out s Hs Hok.
  destruct (get_entry_ok _ _ _ _ _ i Hok ltac:(lia)) as (e & He & Hget). rewrite (sbind_some _ _ _ _ _ Hget). pose proof (entry_up_ok _ _ _ _ _ i e Hok He) as Hup.
  destruct (fUpPtr e) as [a|].
  - destruct Hup as (u & Hu & _). rewrite (sbind_some _ _ _ _ _ (get_instance_parts s a u Hu)). by apply (kind_bind _ (fun _ => sret tt) (resume_kind (fInstance u)) (fun _ => kind_ret tt)).
  - assert (E : on_parts (EsifUp_GetInstance None) s = Some (ESIF_INVALID_HANDLE, s)) by (by destruct s). rewrite (sbind_some _ _ _ _ _ E). by exists tt, s.
Qed.

Lemma resume_by_type_kind l dev type : forall rc, (forall i, i ∈ l -> 0 <= i < MAX_PARTICIPANT_ENTRY) -> kind (resume_by_type create_in_apps l dev type rc).
Proof.
  induction l as [|i l IH]; intros rc Hl; cbn [resume_by_type]; [apply kind_ret|]. assert (Hl' : forall j, j ∈ l -> 0 <= j < MAX_PARTICIPANT_ENTRY) by (intros j Hj; apply Hl; by right).
  intros lf n live out s Hs Hok. destruct (get_entry_ok _ _ _ _ _ i Hok (Hl i ltac:(by left))) as (e & He & Hget). rewrite (sbind_some _ _ _ _ _ Hget).
  pose proof (entry_up_ok _ _ _ _ _ i e Hok He) as Hup. destruct (fUpPtr e) as [a|] eqn:Ea.
  - destruct Hup as (u & Hu & _). destruct (take_ref _ _ _ _ s a u Hok (scarce_few _ Hs) Hu) as (p & E & Hp & Hok1). rewrite (sbind_some _ _ _ _ _ (on_parts_ok _ _ _ _ E)).
    change (ESIF_OK =? ESIF_OK) with true. cbv iota zeta. set (s1 := with_parts p s) in *. assert (Hu1 : ups (parts s1) !! a = Some (bump 1 u)) by (cbn; rewrite (proj1 Hp); apply lookup_insert_eq).
    rewrite (sbind_some _ _ _ _ _ (get_instance_parts s1 a _ Hu1)).
    match goal with |- context [sbind ?m _ s1] => assert (Hm : exists s2, m s1 = Some (tt, s2) /\ pm_ok lf n live (<[a := out a + 1]> out) s2 /\ ups (parts s2) = ups (parts s1)) end.
    { rewrite (sbind_some _ _ _ _ _ (load_parts s1 a _ Hu1)). destruct (_ && _); [|by exists s1].
      destruct (resume_participant_ok create_in_apps lf n live _ s1 (fInstance (bump 1 u)) Hok1 (scarce_take _ _ Hs)) as (rc' & s2 & E2 & Hok2 & Hups & _).
      rewrite (sbind_some _ _ _ _ _ E2). by exists s2. }
    destruct Hm as (s2 & E2 & Hok2 & Hups). rewrite (sbind_some _ _ _ _ _ E2). rewrite <- Hups in Hu1. destruct (put_ok _ _ _ _ s2 a _ Hok2 Hu1) as (s3 & E3 & _ & Hok3).
    { unfold insert, fn_insert. rewrite decide_True by done. pose proof (ok_out _ _ _ _ _ Hok a). lia. }
    rewrite (sbind_some _ _ _ _ _ E3). apply (IH ESIF_OK Hl' lf n live out s3 Hs). eapply pm_ok_ext; [|exact Hok3]. intros b. apply out_back.
  - assert (E1 : on_parts (EsifUp_GetRef None) s = Some (ESIF_E_PARAMETER_IS_NULL, s)) by (by destruct s). rewrite (sbind_some _ _ _ _ _ E1).
    assert (E2 : on_parts (EsifUp_GetInstance None) s = Some (ESIF_INVALID_HANDLE, s)) by (by destruct s).
    assert (E3 : on_parts (EsifUp_PutRef None) s = Some (tt, s)) by (by destruct s). destruct (ESIF_E_PARAMETER_IS_NULL =? ESIF_OK); rewrite (sbind_some _ _ _ _ _ E2); unfold sret at 1;
    unfold sbind at 1; rewrite (sbind_some _ _ _ _ _ E3); by apply (IH ESIF_E_PARAMETER_IS_NULL Hl' lf n live out s).
Qed.

(** Nobody has a reference. *)
Definition idle : Z -> Z := fun _ => 0.
Lemma idle_scarce : scarce idle.
Proof. intros a. unfold idle. lia. Qed.

Lemma destroy_by_instance_ok lf n live s inst : pm_ok lf n live idle s ->
  exists rc s', EsifUpPm_DestroyParticipantByInstance destroy_in_apps inst s = Some (rc, s') /\ pm_ok lf n live idle s'.
Proof.
  intros Hok. unfold EsifUpPm_DestroyParticipantByInstance. rewrite (sbind_some _ _ _ _ _ (entry_by_instance_ok _ _ _ _ s inst Hok)).
  destruct (first_of indices (by_handle inst s)) as [i|] eqn:Ef; [|by exists ESIF_E_NOT_FOUND, s]. apply first_of_some in Ef as [Hi _]. apply in_indices in Hi.
  destruct (get_entry_ok _ _ _ _ _ i Hok Hi) as (e & He & Hget). rewrite (sbind_some _ _ _ _ _ Hget). pose proof (entry_up_ok _ _ _ _ _ i e Hok He) as Hup.
  destruct (fUpPtr e) as [a|] eqn:Ea.
  - destruct Hup as (u & Hu & _). destruct (take_ref _ _ _ _ s a u Hok (scarce_few _ idle_scarce) Hu) as (p & E & Hp & Hok1). rewrite (sbind_some _ _ _ _ _ (on_parts_ok _ _ _ _ E)).
    change (negb (ESIF_OK =? ESIF_OK)) with false. cbv iota. set (s1 := with_parts p s) in *. assert (Hu1 : ups (parts s1) !! a = Some (bump 1 u)) by (cbn; rewrite (proj1 Hp); apply lookup_insert_eq).
    assert (E2 : on_parts (EsifUp_GetName (Some a)) s1 = Some (fName (fMetadata (bump 1 u)), s1)) by (unfold on_parts, EsifUp_GetName, load, sbind; rewrite Hu1; by destruct s1).
    rewrite (sbind_some _ _ _ _ _ E2). destruct (release_ok lf n live idle s s1 a u Hok Hu) as (s2 & E3 & Hs2); [done|done|]. rewrite (sbind_some _ _ _ _ _ E3).
    destruct (destroy_participant_ok destroy_in_apps lf n live idle s2 (Some (fName (fMetadata (bump 1 u)))) (same_ok _ _ _ _ _ _ Hs2 Hok) (scarce_few _ idle_scarce)) as (rc & s3 & E4 & Hok3 & _); [done|].
    by exists rc, s3.
  - assert (E1 : on_parts (EsifUp_GetRef None) s = Some (ESIF_E_PARAMETER_IS_NULL, s)) by (by destruct s). rewrite (sbind_some _ _ _ _ _ E1). by exists ESIF_E_PARAMETER_IS_NULL, s.
Qed.

(* ------------------------------------------------------------------ *)
(** ** Events *)

Context (dm : dsp_mgr) (Hdm : dm_ok dm) (get_period : Z -> Z -> Z -> Z * Z).
Definition event (mem mem_h : bool) (ev : option Z) (inst : Z) (data : event_data) : PM Z :=
  EsifUpPm_EventCallback dm create_in_apps destroy_in_apps get_period mem mem_h ev inst data.

Lemma register_keeps lf n live s mem mem_h md : pm_ok lf (S n) live idle s ->
  exists rc inst s' live', EsifUpPm_RegisterParticipant dm mem mem_h (Some md) true s = Some ((rc, inst), s') /\ pm_ok lf n live' idle s'.
Proof.
  intros Hok. destruct (register_ok dm Hdm create_in_apps destroy_in_apps lf n live idle s mem mem_h md Hok (scarce_few _ idle_scarce)) as (rc & inst & s' & live' & E & _ & Hok' & _); [done|]. by exists rc, inst, s', live'.
Qed.

(** Every event has an outcome and keeps the invariant; the unloading of the lower
    framework must find a primary participant. *)
Lemma event_ok lf n live s mem mem_h ev inst data : pm_ok lf (S n) live idle s -> (ev = Some ESIF_EVENT_LF_UNLOADED -> entry_up s 0 <> None) ->
  exists rc s' lf' live', event mem mem_h ev inst data s = Some (rc, s') /\ pm_ok lf' n live' idle s'.
Proof.
  intros HokS Hlf. pose proof (pm_ok_weaken _ _ _ _ _ HokS) as Hok. pose proof idle_scarce as Hs.
  assert (Hkind : forall T (m : PM T), kind m -> forall (f : T -> Z), exists rc s' lf' live', (let! x := m in sret (f x)) s = Some (rc, s') /\ pm_ok lf' n live' idle s').
  { intros T m Hm f. destruct (Hm lf n live idle s Hs Hok) as (x & s' & E & Hok'). rewrite (sbind_some _ _ _ _ _ E). by exists (f x), s', lf, live. }
  assert (Hret : forall rc : Z, exists rc' s' lf' live', sret rc s = Some (rc', s') /\ pm_ok lf' n live' idle s') by (intros rc; by exists rc, s, lf, live).
  assert (Hdyn : forall event, exists rc s' lf' live', (signal_dynamic others event ESIF_INVALID_HANDLE ;! sret ESIF_OK) s = Some (rc, s') /\ pm_ok lf' n live' idle s').
  { intros event0. apply (Hkind unit _ (calm_kind _ (calm_calm2 _ (signal_dynamic_calm others event0 ESIF_INVALID_HANDLE others_range))) (fun _ => ESIF_OK)). }
  unfold event, EsifUpPm_EventCallback. destruct ev as [ev|]; [|by apply Hret].
  destruct (ev =? ESIF_EVENT_PARTICIPANT_CREATE).
  { assert (Hreg : forall md, exists rc s' lf' live', (let! r := EsifUpPm_RegisterParticipant dm mem mem_h (Some md) true in sret r.1) s = Some (rc, s') /\ pm_ok lf' n live' idle s').
    { intros md. destruct (register_keeps lf n live s mem mem_h md HokS) as (rc & i & s' & live' & E & Hok'). rewrite (sbind_some _ _ _ _ _ E). by exists rc, s', lf, live'. }
    destruct data as [| |version r|t]; try by apply Hret. destruct (negb _); [by apply Hret|]. destruct r as [md|md|name|]; [by apply Hreg|by apply Hreg| |by apply Hret].
    destruct (calm_kind _ (calm_calm2 _ (create_lp_calm name)) lf n live idle s Hs Hok) as (rc & s' & E & Hok'). by exists rc, s', lf, live. }
  destruct (ev =? ESIF_EVENT_PARTICIPANT_SUSPEND).
  { destruct (inst =? _); [apply Hdyn|].
    destruct (suspend_kind inst lf n live idle s Hs Hok) as (rc & s' & E & Hok'). by exists rc, s', lf, live. }
  destruct (ev =? ESIF_EVENT_PARTICIPANT_RESUME).
  { destruct (inst =? _); [apply Hdyn|].
    destruct (resume_kind inst lf n live idle s Hs Hok) as (rc & s' & E & Hok'). by exists rc, s', lf, live. }
  destruct (ev =? ESIF_EVENT_PARTICIPANT_UNREGISTER).
  { destruct (destroy_by_instance_ok lf n live s inst Hok) as (rc & s' & E & Hok'). by exists rc, s', lf, live. }
  destruct (Z.eqb_spec ev ESIF_EVENT_LF_UNLOADED) as [->|_].
  { destruct (lf_unloaded_ok lf n live idle s Hok (scarce_few _ Hs) (Hlf eq_refl)) as (s' & E & Hok' & _). rewrite (sbind_some _ _ _ _ _ E). by exists ESIF_OK, s', true, live. }
  destruct (_ || _); [apply (Hkind _ _ (calm_kind _ (action_change_calm dm _ _)) (fun _ => ESIF_OK))|].
  destruct (ev =? ESIF_EVENT_DISPLAY_OFF); [apply (Hkind _ _ (calm_kind _ (start_slow_polls_calm get_period)) (fun _ => ESIF_OK))|].
  destruct (ev =? ESIF_EVENT_DISPLAY_ON); [apply (Hkind _ _ (calm_kind _ stop_slow_polls_calm) (fun _ => ESIF_OK))|by apply Hret].
Qed.
End Ops.
