(* ===== verification/PartLife.v ===== *)
(** * What the participant manager guarantees

    The life of the table from its start, registrations and the lookups that follow
    them, suspension, the walk over all participants, and destruction. *)

From S2P Require Import Prelude HandleMgr HandleApi Participant PartMgr PartInv PartOps.
From stdpp Require Import list gmap strings functions.
Local Open Scope Z_scope.
Local Open Scope dptf_scope.

Section Life.
Context {H : Type} {api : HandleApi H} {laws : HandleLaws H}.
Abbreviation pm := (PartMgr.pm (H := H)).
Context (create_in_apps destroy_in_apps : Z -> Z) (dm : dsp_mgr) (Hdm : dm_ok dm) (get_period : Z -> Z -> Z -> Z * Z).

(** The manager's data are zero before [EsifUpPm_Init], which only registers for
    events. *)
Definition pm_init (h : H) : pm := mk_pm 0 (replicate (Z.to_nat MAX_PARTICIPANT_ENTRY) (mk_entry STATE_AVAILABLE None)) (mk_pst ∅ 1 []) h.

Lemma init_ok n h : holds n h ∅ -> pm_ok false n ∅ idle (pm_init h).
Proof.
  intros Hh. assert (Hrep : forall i e, fEntries (pm_init h) !! i = Some e -> e = mk_entry STATE_AVAILABLE None) by (intros i e He; by apply lookup_replicate in He as [-> _]).
  split; cbn [pm_init fEntryCount parts handles ups next_up].
  - done.
  - intros i e He. by rewrite (Hrep _ _ He).
  - intros i e a He Ha. by rewrite (Hrep _ _ He) in Ha.
  - intros i j e e' u u' a a' He _ Ha. by rewrite (Hrep _ _ He) in Ha.
  - intros a [u Ha]. by rewrite lookup_empty in Ha.
  - intros a. unfold idle. lia.
  - done.
  - intros _. split; [intros i e He; by rewrite (Hrep _ _ He)|done].
Qed.

(** The unloading of the lower framework marks entry 0 as used, whether or not it
    has the primary participant; without one the entry is lost (see
    [lf_unload_loses_entry_0]), and this event is left out. *)
Definition primary_is_there (ev : option Z) (s : pm) : Prop := ev = Some ESIF_EVENT_LF_UNLOADED -> entry_up s 0 <> None.

(** The states that events lead to; [n] more may come.  Nobody keeps a reference
    from one event to the next. *)
Inductive reachable : nat -> pm -> Prop :=
  | reach_init n h : holds n h ∅ -> reachable n (pm_init h)
  | reach_event n s mem mem_h ev inst data rc s' : reachable (S n) s -> primary_is_there ev s ->
      event create_in_apps destroy_in_apps dm get_period mem mem_h ev inst data s = Some (rc, s') -> reachable n s'.

Lemma reachable_ok n s : reachable n s -> exists lf live, pm_ok lf n live idle s.
Proof.
  induction 1 as [n h Hh|n s mem mem_h ev inst data rc s' _ (lf & live & Hok) Hlf E]; [exists false, ∅; by apply init_ok|].
  destruct (event_ok create_in_apps destroy_in_apps dm Hdm get_period lf n live s mem mem_h ev inst data Hok Hlf) as (rc' & s1 & lf' & live' & E' & Hok').
  unfold event in *. rewrite E in E'. injection E' as <- <-. by exists lf', live'.
Qed.

(** What a state with the invariant looks like from outside. *)
Lemma table_shape lf n live s : pm_ok lf n live idle s ->
  length (fEntries s) = Z.to_nat MAX_PARTICIPANT_ENTRY /\
  (forall i, 0 <= i < MAX_PARTICIPANT_ENTRY -> state_at s i = STATE_AVAILABLE <-> entry_up s i = None) /\
  (forall i a u, 0 <= i < MAX_PARTICIPANT_ENTRY -> entry_up s i = Some (a, u) -> refCount u = 1 /\ markedForDelete u = false /\ (i = 0 <-> fInstance u = ESIF_HANDLE_PRIMARY_PARTICIPANT)) /\
  (forall i j a a' u u', 0 <= i < MAX_PARTICIPANT_ENTRY -> 0 <= j < MAX_PARTICIPANT_ENTRY -> entry_up s i = Some (a, u) -> entry_up s j = Some (a', u') -> fInstance u = fInstance u' -> i = j) /\
  (forall a u, ups (parts s) !! a = Some u -> exists i, 0 <= i < MAX_PARTICIPANT_ENTRY /\ entry_up s i = Some (a, u)).
Proof.
  intros Hok. assert (Hent : forall i a u, 0 <= i < MAX_PARTICIPANT_ENTRY -> entry_up s i = Some (a, u) ->
    exists e, fEntries s !! Z.to_nat i = Some e /\ fUpPtr e = Some a /\ ups (parts s) !! a = Some u /\ healthy u /\ refCount u = 1 + idle a /\ handle_fits live (Z.to_nat i) (fInstance u)).
  { intros i a u Hi Hup. destruct (get_entry_ok _ _ _ _ _ i Hok Hi) as (e & He & _). exists e. pose proof (entry_up_ok _ _ _ _ _ i e Hok He) as Hq.
    destruct (fUpPtr e) as [b|]; [|congruence]. destruct Hq as (v & Hv & Hv' & Hh & Hr & Hf). rewrite Hup in Hv'. injection Hv' as <- <-. done. }
  split; [apply Hok|]. split; [intros i Hi; by eapply available_free|]. split; [|split].
  - intros i a u Hi Hup. destruct (Hent i a u Hi Hup) as (e & He & Ha & Hu & Hh & Hr & Hf). split; [unfold idle in Hr; lia|]. split; [apply Hh|]. unfold handle_fits in Hf.
    destruct (decide (Z.to_nat i = 0%nat)) as [Hz|Hz]; [split; [done|lia]|]. destruct Hf as [_ Hf]. split; [lia|]. intros Heq. by rewrite Heq in Hf.
  - intros i j a a' u u' Hi Hj Hup Hup' Heq. destruct (Hent i a u Hi Hup) as (e & He & Ha & Hu & _). destruct (Hent j a' u' Hj Hup') as (e' & He' & Ha' & Hu' & _).
    apply Z2Nat.inj; [lia|lia|]. by eapply (ok_inj _ _ _ _ _ Hok _ _ e e' u u' a a'); [..|right].
  - intros a u Hu. destruct (ok_heap _ _ _ _ _ Hok a ltac:(by eexists)) as (_ & i & e & He & Ha). pose proof (lookup_lt_Some _ _ _ He) as Hlt. rewrite (ok_len _ _ _ _ _ Hok) in Hlt.
    exists (Z.of_nat i). split; [lia|]. unfold entry_up. rewrite Nat2Z.id, He, Ha, Hu. done.
Qed.

(** A participant that is available is what its handle leads to. *)
Lemma found_at lf n live out s i a u : pm_ok lf n live out s -> 0 <= i < MAX_PARTICIPANT_ENTRY -> available s i = Some (a, u) ->
  first_of indices (matches (fun v => fInstance u =? fInstance v) s) = Some i.
Proof.
  intros Hok Hi Hav. destruct (first_of indices _) as [j|] eqn:Ef.
  - apply first_of_some in Ef as [Hj Hm]. apply in_indices in Hj. unfold matches in Hm. destruct (available s j) as [[b v]|] eqn:Eb; [|done]. apply Z.eqb_eq in Hm.
    destruct (get_entry_ok _ _ _ _ _ i Hok Hi) as (e & He & _). destruct (get_entry_ok _ _ _ _ _ j Hok Hj) as (e' & He' & _).
    destruct (available_at _ _ _ _ _ Hav He) as (_ & Ha & Hu). destruct (available_at _ _ _ _ _ Eb He') as (_ & Ha' & Hv). f_equal. apply Z2Nat.inj; [lia|lia|].
    by eapply (ok_inj _ _ _ _ _ Hok _ _ e' e v u b a); [..|right].
  - pose proof (first_of_none _ _ Ef i ltac:(by apply in_indices)) as Hb. unfold matches in Hb. rewrite Hav, Z.eqb_refl in Hb. done.
Qed.

Definition local_instance (inst : Z) : Z := if EsifUpPm_IsPrimaryParticipantId inst then ESIF_HANDLE_PRIMARY_PARTICIPANT else inst.

Lemma handle_local live i u : handle_fits live (Z.to_nat i) (fInstance u) -> local_instance (fInstance u) = fInstance u.
Proof.
  unfold local_instance, EsifUpPm_IsPrimaryParticipantId. intros Hf. destruct (Z.eqb_spec (fInstance u) ESIF_HANDLE_PRIMARY_PARTICIPANT) as [->|Hne]; [by rewrite orb_true_r|].
  rewrite orb_false_r. destruct (Z.eqb_spec (fInstance u) ESIF_HANDLE_DEFAULT) as [He|]; [|done]. exfalso. unfold handle_fits in Hf. rewrite He in Hf. case_decide; [done|]. by destruct Hf as [_ Hf].
Qed.

Lemma lookup_found lf n live out s i a u : pm_ok lf n live out s -> few out -> 0 <= i < MAX_PARTICIPANT_ENTRY -> available s i = Some (a, u) ->
  exists s', EsifUpPm_GetAvailableParticipantByInstance (fInstance u) s = Some (Some a, s') /\ at_heap s s' (<[a := bump 1 u]> (ups (parts s))) /\ pm_ok lf n live (<[a := out a + 1]> out) s'.
Proof.
  intros Hok Hfew Hi Hav. destruct (by_instance_ok lf n live out s (fInstance u) Hok Hfew) as (x & s' & E & Hx). fold (local_instance (fInstance u)) in Hx.
  assert (Hf : handle_fits live (Z.to_nat i) (fInstance u)).
  { destruct (get_entry_ok _ _ _ _ _ i Hok Hi) as (e & He & _). destruct (available_at _ _ _ _ _ Hav He) as (_ & Ha & Hu). destruct (ok_up _ _ _ _ _ Hok _ _ _ He Ha) as (v & Hv & _ & _ & Hf). rewrite Hu in Hv. by injection Hv as <-. }
  rewrite (handle_local live i u Hf), (found_at lf n live out s i a u Hok Hi Hav) in Hx. destruct Hx as (a' & u' & Hav' & Hu & -> & Hat & Hok'). rewrite Hav in Hav'. injection Hav' as <- <-. by exists s'.
Qed.



Lemma state_in_range lf n live out s i : pm_ok lf n live out s -> 0 <= i -> state_at s i <> STATE_AVAILABLE -> i < MAX_PARTICIPANT_ENTRY.
Proof.
  intros Hok Hi. unfold state_at. destruct (fEntries s !! Z.to_nat i) as [e|] eqn:He; [|done]. intros _. apply lookup_lt_Some in He. rewrite (ok_len _ _ _ _ _ Hok) in He. lia.
Qed.

(** The participant that a registration gives a handle of. *)
Lemma registered_found mem mem_h lf n live out md s s' inst : pm_ok lf n live out s -> registered dm mem mem_h md live s s' ESIF_OK inst -> inst <> ESIF_INVALID_HANDLE ->
  exists i a u, 0 <= i < MAX_PARTICIPANT_ENTRY /\ available s' i = Some (a, u) /\ fInstance u = inst /\ fName (fMetadata u) = md_name md.
Proof.
  intros Hok Hreg Hne. assert (Hav : forall i x, state_at s' i = STATE_CREATED -> entry_up s' i = x -> available s' i = x) by (intros i x Hst <-; unfold available; by rewrite Hst).
  assert (Hname : forall u, described dm md u -> fName (fMetadata u) = md_name md) by (by intros u (-> & _)).
  inversion Hreg as [|i a u Hov Hup Hp Hn Hst Hpk Hup' Hst' Hk| |i a u a' u' Hov Hup Hp Hm Hup' Hd Hi Hst' Hg Hk| |i a u Hov Hm Hh Hi Hup Hz Hl Hup' Hd Hst' Hv Hk|]; try done.
  - destruct (overlap_some _ _ _ _ _ _ _ Hok Hov) as [Hr _]. exists i, a, (resumed_as dm md u). split_and!; try done; try lia. by apply Hav.
  - destruct (overlap_some _ _ _ _ _ _ _ Hok Hov) as [Hr _]. exists i, a', u'. split_and!; try lia; [by apply Hav|by apply Hname].
  - exists i, a, u. split_and!; try lia; [by apply Hav|by apply Hname].
Qed.


(** A lookup by a handle answers with the participant that is available and has
    this handle - the default handle stands for the primary participant - and takes
    a reference to it; with none, if there is no such participant, and then nothing
    changes. *)
Theorem lookup_by_handle lf n live out s inst : pm_ok lf n live out s -> few out ->
  exists x s', EsifUpPm_GetAvailableParticipantByInstance inst s = Some (x, s') /\
    (forall a, x = Some a <-> exists i u, 0 <= i < MAX_PARTICIPANT_ENTRY /\ available s i = Some (a, u) /\ fInstance u = local_instance inst) /\
    match x with
    | Some a => exists u, ups (parts s) !! a = Some u /\ ups (parts s') = <[a := bump 1 u]> (ups (parts s)) /\ pm_ok lf n live (<[a := out a + 1]> out) s'
    | None => same s s'
    end.
Proof.
  intros Hok Hfew. destruct (by_instance_ok lf n live out s inst Hok Hfew) as (x & s' & E & Hx). fold (local_instance inst) in Hx. exists x, s'. split; [done|].
  assert (Hfound : forall i a u, 0 <= i < MAX_PARTICIPANT_ENTRY -> available s i = Some (a, u) -> fInstance u = local_instance inst ->
    first_of indices (matches (fun u => local_instance inst =? fInstance u) s) = Some i) by (intros i a u Hi Hav <-; by eapply found_at).
  destruct (first_of indices _) as [i|] eqn:Ef; cbn in Hx.
  - destruct Hx as (a & u & Hav & Hu & -> & Hat & Hok'). apply first_of_some in Ef as [Hi Hm]. apply in_indices in Hi. unfold matches in Hm. rewrite Hav in Hm. apply Z.eqb_eq in Hm. split.
    + intros b. split; [intros [= <-]; by exists i, u|]. intros (j & v & Hj & Hav' & Hv). specialize (Hfound j b v Hj Hav' Hv). injection Hfound as <-. rewrite Hav in Hav'. by injection Hav' as <- _.
    + exists u. split; [done|]. split; [apply Hat|done].
  - destruct Hx as [-> Hs]. split; [|done]. intros a. split; [done|]. intros (j & v & Hj & Hav & Hv). by specialize (Hfound j a v Hj Hav Hv).
Qed.

Lemma from_0 : from 0 = indices.
Proof. unfold from, indices. by rewrite Z.sub_0_r. Qed.

Lemma visits_calls (c : Z -> call) l : forall cs cs', visits (fun a l l' => l' = l ++ [c a]) l cs cs' -> cs' = cs ++ map c l.
Proof.
  induction l as [|a l IH]; intros cs cs'; cbn [visits map]; [intros ->; by rewrite app_nil_r|]. intros (c1 & -> & HV). rewrite (IH _ _ HV). by rewrite <- app_assoc.
Qed.
Lemma visited_0 (s : pm) : visited s 0 = omap (fun i => option_map fst (available s i)) indices.
Proof. unfold visited. by rewrite from_0. Qed.
Lemma emit_visitor (c : Z -> call) : visitor (H := H) (fun a l l' => l' = l ++ [c a]) (fun a => on_parts (emit (c a))).
Proof. intros lf' n' live' out' s0 a u _ _ _. by eexists. Qed.

(** The walk over the participants hands each that is available to its body once, in
    the order of the table, with a reference, and gives every reference back: shown
    with a body that makes a call. *)
Theorem walk_visits_available lf n live out s (c : Z -> call) : pm_ok lf n live out s -> scarce out ->
  exists s', slow_poll_loop 33 EsifUpPm_InitIterator (fun a => on_parts (emit (c a))) None s = Some (None, s') /\
    calls (parts s') = calls (parts s) ++ map c (omap (fun i => option_map fst (available s i)) indices) /\
    fEntries s' = fEntries s /\ ups (parts s') = ups (parts s).
Proof.
  intros Hok Hs. destruct (slow_poll_loop_ok _ _ lf n live out s (emit_visitor c) Hs Hok) as (s' & E & Hsame & HV). exists s'. split; [exact E|].
  split; [|split; apply Hsame]. rewrite <- visited_0. exact (visits_calls c _ _ _ HV).
Qed.

Lemma entry_heap (s : pm) i a u : entry_up s i = Some (a, u) -> ups (parts s) !! a = Some u.
Proof. unfold entry_up. destruct (fEntries s !! _) as [e|]; [|done]. destruct (fUpPtr e) as [b|]; [|done]. destruct (ups (parts s) !! b) eqn:Eb; [|done]. by intros [= <- <-]. Qed.

(** Destroying by name frees the entries whose participant has this name, in any
    case, and no other; NULL stands for every name. *)
Theorem destroy_frees_named lf n live s name : pm_ok lf n live idle s ->
  exists rc s', EsifUpPm_DestroyParticipant destroy_in_apps name s = Some (rc, s') /\ pm_ok lf n live idle s' /\
    forall j, 0 <= j < MAX_PARTICIPANT_ENTRY ->
      match entry_up s j with
      | Some (a, u) =>
          if match name with None => true | Some nm => stricmp_eq nm (fName (fMetadata u)) end then entry_up s' j = None /\ state_at s' j = STATE_AVAILABLE /\ ups (parts s') !! a = None
          else entry_up s' j = Some (a, u) /\ state_at s' j = state_at s j
      | None => entry_up s' j = None
      end.
Proof.
  intros Hok. destruct (destroy_participant_ok destroy_in_apps lf n live idle s name Hok (scarce_few _ idle_scarce)) as (rc & s' & E & Hok' & Hj); [done|]. exists rc, s'. split; [done|]. split; [done|].
  intros j Hr. pose proof Hj as Hall. specialize (Hj j Hr). unfold hit_by in Hj. destruct (entry_up s j) as [[a u]|] eqn:Eup.
  - fold (named name u). destruct (named name u) eqn:En.
    + rewrite decide_True in Hj by done. split; [done|]. split; [by eapply available_free|].
      destruct (ups (parts s') !! a) as [u0|] eqn:Eu; [exfalso|done]. destruct (table_shape _ _ _ _ Hok') as (_ & _ & _ & _ & Hheap). destruct (table_shape _ _ _ _ Hok) as (_ & _ & _ & Hinj & _).
      destruct (Hheap a u0 Eu) as (k & Hk & Hup). specialize (Hall k Hk). destruct (decide (hit_by name s k = true)); [congruence|]. destruct Hall as [_ Hk2]. rewrite Hup in Hk2. symmetry in Hk2.
      assert (u0 = u) as -> by (apply entry_heap in Hk2, Eup; congruence). specialize (Hinj k j a a u u Hk Hr Hk2 Eup eq_refl). subst k. congruence.
    + rewrite decide_False in Hj by done. destruct Hj as [-> ->]. done.
  - rewrite decide_False in Hj by done. by destruct Hj as [_ ->].
Qed.

Lemma by_handle_at lf n live out s i a u : pm_ok lf n live out s -> 0 <= i < MAX_PARTICIPANT_ENTRY -> entry_up s i = Some (a, u) ->
  first_of indices (by_handle (fInstance u) s) = Some i.
Proof.
  intros Hok Hi Hup. assert (Hent : forall k c w, 0 <= k < MAX_PARTICIPANT_ENTRY -> entry_up s k = Some (c, w) ->
    exists e, fEntries s !! Z.to_nat k = Some e /\ fUpPtr e = Some c /\ ups (parts s) !! c = Some w /\ handle_fits live (Z.to_nat k) (fInstance w)).
  { intros k c w Hk Hkup. destruct (get_entry_ok _ _ _ _ _ k Hok Hk) as (e & He & _). exists e. pose proof (entry_up_ok _ _ _ _ _ k e Hok He) as Hq.
    destruct (fUpPtr e) as [b|]; [|congruence]. destruct Hq as (v & Hv & Hv' & _ & _ & Hf). rewrite Hkup in Hv'. by injection Hv' as <- <-. }
  destruct (Hent i a u Hi Hup) as (e & He & Ha & Hu & Hf). destruct (first_of indices _) as [k|] eqn:Ek.
  - apply first_of_some in Ek as [Hk Hb]. apply in_indices in Hk. unfold by_handle in Hb. destruct (entry_up s k) as [[c w]|] eqn:Ew; apply Z.eqb_eq in Hb.
    + destruct (Hent k c w Hk Ew) as (e' & He' & Hc & Hw & _). f_equal. apply Z2Nat.inj; [lia|lia|]. by eapply (ok_inj _ _ _ _ _ Hok _ _ e' e w u c a); [..|right].
    + exfalso. unfold handle_fits in Hf. rewrite Hb in Hf. case_decide; [done|]. by destruct Hf as [_ Hf].
  - pose proof (first_of_none _ _ Ek i ltac:(by apply in_indices)) as Hb. unfold by_handle in Hb. by rewrite Hup, Z.eqb_refl in Hb.
Qed.

(** A participant that is suspended is not found by its handle, and is back as it
    was when it is resumed; both leave the others alone. *)
Theorem suspend_then_resume lf n live out s i a u : pm_ok lf n live out s -> few out -> 0 < i < MAX_PARTICIPANT_ENTRY -> entry_up s i = Some (a, u) -> state_at s i = STATE_CREATED ->
  exists rc1 s1 rc2 s2, EsifUpPm_SuspendParticipant destroy_in_apps (fInstance u) s = Some (rc1, s1) /\
    (exists s1', EsifUpPm_GetAvailableParticipantByInstance (fInstance u) s1 = Some (None, s1')) /\
    (forall j, 0 <= j -> j <> i -> at_index s s1 j) /\
    EsifUpPm_ResumeParticipant create_in_apps (fInstance u) s1 = Some (rc2, s2) /\
    (forall j, 0 <= j -> at_index s s2 j) /\ pm_ok lf n live out s2.
Proof.
  intros Hok Hfew Hi Hup Hst. assert (Hi' : 0 <= i < MAX_PARTICIPANT_ENTRY) by lia.
  destruct (get_entry_ok _ _ _ _ _ i Hok Hi') as (e & He & _). pose proof (entry_up_ok _ _ _ _ _ i e Hok He) as Hq. destruct (fUpPtr e) as [b|]; [|congruence].
  destruct Hq as (v & Hu & Hup' & Hh & Hr & Hf). rewrite Hup in Hup'. injection Hup' as <- <-.
  assert (Hav : available s i = Some (a, u)) by (unfold available; by rewrite Hst).
  destruct (suspend_participant_ok destroy_in_apps lf n live out s (fInstance u) Hok Hfew) as (rc1 & s1 & E1 & Hok1 & Hups1 & H1).
  rewrite (by_handle_at lf n live out s i a u Hok Hi' Hup) in H1. destruct (H1 i ltac:(lia)) as [Hup1 Hst1]. rewrite decide_True in Hst1 by (split; [done|by rewrite Hav]).
  destruct (resume_participant_ok create_in_apps lf n live out s1 (fInstance u) Hok1 Hfew) as (rc2 & s2 & E2 & Hok2 & _ & H2).
  assert (Hnp : EsifUpPm_IsPrimaryParticipantId (fInstance u) = false).
  { unfold handle_fits in Hf. rewrite decide_False in Hf by lia. destruct Hf as [_ Hf]. unfold EsifUpPm_IsPrimaryParticipantId. apply orb_false_iff.
    split; apply Z.eqb_neq; intros Heq; by rewrite Heq in Hf. }
  rewrite Hnp in H2. rewrite Hup in Hup1. rewrite (by_handle_at lf n live out s1 i a u Hok1 Hi' Hup1) in H2.
  exists rc1, s1, rc2, s2. split; [done|]. split.
  { destruct (by_instance_ok lf n live out s1 (fInstance u) Hok1 Hfew) as (x & s1' & E & Hx). exists s1'. rewrite E. destruct (first_of indices _) as [k|] eqn:Ek; cbn in Hx; [exfalso|by destruct Hx as [-> _]].
    apply first_of_some in Ek as [Hk Hm]. apply in_indices in Hk. rewrite Hnp in Hm. unfold matches in Hm. destruct (available s1 k) as [[c w]|] eqn:Ec; [|done]. apply Z.eqb_eq in Hm.
    destruct (H1 k ltac:(lia)) as [Hk1 Hk2]. destruct (decide (k = i)) as [->|Hne]; [unfold available in Ec; by rewrite Hst1 in Ec|].
    assert (Hkup : entry_up s k = Some (c, w)) by (rewrite <- Hk1; unfold available in Ec; by destruct (above_removed _)). apply Hne.
    pose proof (by_handle_at lf n live out s k c w Hok Hk Hkup) as Hb1. pose proof (by_handle_at lf n live out s i a u Hok Hi' Hup) as Hb2. rewrite Hm in Hb2. congruence. }
  split; [intros j Hj Hne; destruct (H1 j Hj) as [A B]; rewrite decide_False in B by (by intros [? _]); by split|]. split; [done|]. split; [|done].
  intros j Hj. destruct (H1 j Hj) as [A B]. destruct (H2 j Hj) as [C D]. split; [|congruence]. rewrite D. destruct (decide (j = i)) as [->|Hne].
  - rewrite decide_True by (split; [done|by rewrite Hup1]). done.
  - rewrite decide_False by (by intros [? _]). rewrite B. by rewrite decide_False by (by intros [? _]).
Qed.
End Life.

(* ------------------------------------------------------------------ *)
(** ** A run *)

Module PartDemo.

(** Every device has the package "any", which knows no action and describes one
    domain. *)
Definition dm : dsp_mgr := mk_dsp_mgr (fun _ => Some "any"%string) (fun _ _ => ESIF_OK) (fun _ => Some 7) (fun _ => 1) (fun _ => 1%nat) (fun _ _ => false).
Definition ok_in_apps : Z -> Z := fun _ => ESIF_OK.
Definition no_period : Z -> Z -> Z -> Z * Z := fun _ _ _ => (ESIF_E_NOT_FOUND, 0).
Definition device (o : eEsifParticipantOrigin) (flags : Z) (name : string) (type : Z) : metadata :=
  mk_metadata o 4 0 flags name type "INT3403" "dev" "path" 0 0 0.
Definition zone0 : metadata := device eParticipantOriginUF ESIF_FLAG_DPTFZ "IETM" 1.
Definition fan : metadata := device eParticipantOriginUF 0 "TFN1" 2.

Definition handles0 : EsifHandleMgr := match HandleDemo.h0 with Some h => h | None => mk_mgr [] 0 0 0 0 0 end.
Abbreviation pm0 := (PartMgr.pm (H := EsifHandleMgr)).
Definition start : pm0 := pm_init handles0.
Definition after {T} (m : SM pm0 T) (s : pm0) : pm0 := match m s with Some (_, s') => s' | None => s end.
Definition register (md : metadata) : SM pm0 (Z * Z) := EsifUpPm_RegisterParticipant dm true true (Some md) true.
Definition created : pm0 := after (register fan) start.
Definition both : pm0 := after (register zone0) created.

Definition event (ev : Z) (inst : Z) (data : event_data) : SM pm0 Z := EsifUpPm_EventCallback dm ok_in_apps ok_in_apps no_period true true (Some ev) inst data.
Definition arrives (md : metadata) : SM pm0 Z := event ESIF_EVENT_PARTICIPANT_CREATE 0 (ED_CREATE ESIF_EVENT_DATA_PARTICIPANT_CREATE_HDR_VERSION (CR_UP md)).

Lemma dm_fits : dm_ok dm.
Proof. intros d. split; [by vm_compute|unfold ESIF_DOMAIN_MAX; cbn; lia]. Qed.
Lemma start_holds : holds 9 handles0 ∅.
Proof. exists 0. split; [by apply create_inv; vm_compute|lia]. Qed.
Lemma start_ok : pm_ok false 9 ∅ idle start.
Proof. apply init_ok, start_holds. Qed.
Lemma created_ok : exists live, pm_ok false 8 live idle created.
Proof.
  destruct (register_keeps ok_in_apps ok_in_apps dm dm_fits false 8 ∅ start true true fan start_ok) as (rc & i & s' & live & E & Hok). exists live. unfold created, after, register. by rewrite E.
Qed.
Lemma both_ok : exists live, pm_ok false 7 live idle both.
Proof.
  destruct created_ok as [live0 H0]. destruct (register_keeps ok_in_apps ok_in_apps dm dm_fits false 7 live0 created true true zone0 H0) as (rc & i & s' & live & E & Hok). exists live. unfold both, after, register. by rewrite E.
Qed.
Lemma fan_at : exists a u, entry_up both 1 = Some (a, u) /\ fName (fMetadata u) = "TFN1"%string.
Proof. eexists _, _. split; vm_compute; reflexivity. Qed.
Lemma zone_at : exists a u, entry_up both 0 = Some (a, u) /\ fName (fMetadata u) = "IETM"%string.
Proof. eexists _, _. split; vm_compute; reflexivity. Qed.
End PartDemo.




Lemma lookup_by_handle_witness : exists live, pm_ok false 8 live idle PartDemo.created /\
  exists x s', EsifUpPm_GetAvailableParticipantByInstance 2 PartDemo.created = Some (x, s') /\ x = Some 1.
Proof.
  destruct PartDemo.created_ok as [live Hok]. exists live. split; [exact Hok|].
  destruct (lookup_by_handle false 8 live idle PartDemo.created 2 Hok (scarce_few _ idle_scarce)) as (x & s' & E & Hx & _). exists x, s'. split; [exact E|]. apply Hx.
  eexists 1, _. split; [unfold MAX_PARTICIPANT_ENTRY; lia|]. split; vm_compute; reflexivity.
Defined.

Lemma walk_visits_available_witness : exists live, pm_ok false 7 live idle PartDemo.both /\
  exists s', slow_poll_loop 33 EsifUpPm_InitIterator (fun a => on_parts (emit (C_AppsCreate a))) None PartDemo.both = Some (None, s') /\
    calls (parts s') = calls (parts PartDemo.both) ++ [C_AppsCreate 2; C_AppsCreate 1].
Proof.
  destruct PartDemo.both_ok as [live Hok]. exists live. split; [exact Hok|].
  destruct (walk_visits_available false 7 live idle PartDemo.both C_AppsCreate Hok idle_scarce) as (s' & E & Hc & _). exists s'. split; [exact E|]. rewrite Hc. f_equal.
Defined.

Lemma destroy_frees_named_witness : exists live, pm_ok false 7 live idle PartDemo.both /\
  exists rc s', EsifUpPm_DestroyParticipant PartDemo.ok_in_apps (Some "tfn1"%string) PartDemo.both = Some (rc, s') /\ entry_up s' 1 = None /\ entry_up s' 0 = entry_up PartDemo.both 0.
Proof.
  destruct PartDemo.both_ok as [live Hok]. exists live. split; [exact Hok|].
  destruct (destroy_frees_named PartDemo.ok_in_apps false 7 live PartDemo.both (Some "tfn1"%string) Hok) as (rc & s' & E & _ & Hj). exists rc, s'. split; [exact E|].
  pose proof (Hj 1 ltac:(unfold MAX_PARTICIPANT_ENTRY; lia)) as H1. pose proof (Hj 0 ltac:(unfold MAX_PARTICIPANT_ENTRY; lia)) as H0.
  destruct PartDemo.fan_at as (a & u & E1 & Hu). destruct PartDemo.zone_at as (b & v & E0 & Hv). rewrite E1, Hu in H1. rewrite E0, Hv in H0.
  rewrite E0. split; [apply H1|apply H0].
Defined.

Lemma suspend_then_resume_witness : exists live a u, pm_ok false 7 live idle PartDemo.both /\ entry_up PartDemo.both 1 = Some (a, u) /\
  exists rc1 s1 rc2 s2, EsifUpPm_SuspendParticipant PartDemo.ok_in_apps (fInstance u) PartDemo.both = Some (rc1, s1) /\
    EsifUpPm_ResumeParticipant PartDemo.ok_in_apps (fInstance u) s1 = Some (rc2, s2) /\ pm_ok false 7 live idle s2.
Proof.
  destruct PartDemo.both_ok as [live Hok]. destruct PartDemo.fan_at as (a & u & E1 & _). exists live, a, u. split; [exact Hok|]. split; [exact E1|].
  destruct (suspend_then_resume PartDemo.ok_in_apps PartDemo.ok_in_apps false 7 live idle PartDemo.both 1 a u Hok (scarce_few _ idle_scarce) ltac:(unfold MAX_PARTICIPANT_ENTRY; lia) E1 ltac:(vm_compute; reflexivity))
    as (rc1 & s1 & rc2 & s2 & A & _ & _ & B & _ & C). exists rc1, s1, rc2, s2. split; [exact A|]. split; [exact B|exact C].
Defined.

(** Without a primary participant, the unloading of the lower framework makes entry 0
    unusable: the primary participant that comes next is put into entry 1, and is
    found by no registration of a zone. *)
Theorem lf_unload_loses_entry_0 :
  let s1 := PartDemo.after (PartDemo.event ESIF_EVENT_LF_UNLOADED 0 ED_NULL) PartDemo.start in
  let s2 := PartDemo.after (PartDemo.register PartDemo.zone0) s1 in
  let s3 := PartDemo.after (PartDemo.register PartDemo.zone0) s2 in
  option_map (fun x => (fName (fMetadata x.2), fInstance x.2)) (entry_up s2 1) = Some ("IETM"%string, ESIF_HANDLE_PRIMARY_PARTICIPANT) /\
  option_map (fun x => (fName (fMetadata x.2), fInstance x.2)) (entry_up s3 2) = Some ("IETM"%string, ESIF_HANDLE_PRIMARY_PARTICIPANT) /\
  entry_up s3 0 = None.
Proof. vm_compute. repeat split. Qed.

(** With one, its entry is counted again when it comes back. *)
Theorem lf_unload_counts_twice :
  let s1 := PartDemo.after (PartDemo.event ESIF_EVENT_LF_UNLOADED 0 ED_NULL) PartDemo.both in
  let s2 := PartDemo.after (PartDemo.register PartDemo.zone0) s1 in
  fEntryCount PartDemo.both = 2 /\ fEntryCount s2 = 3 /\ counted (fEntries s2) = 2.
Proof. vm_compute. repeat split. Qed.

(** The handle of a conjured participant is signalled again at each entry after it. *)
Theorem suspend_dynamic_repeats :
  let conjured := mk_metadata eParticipantOriginUF 4 ESIF_PARTICIPANT_ENUM_CONJURE 0 "CONJ" 5 "INT3403" "dev" "path" 0 0 0 in
  let s1 := PartDemo.after (PartDemo.register conjured) PartDemo.start in
  let s2 := PartDemo.after (PartDemo.event ESIF_EVENT_PARTICIPANT_SUSPEND ESIF_HANDLE_PRIMARY_PARTICIPANT ED_NULL) s1 in
  drop (length (calls (parts s1))) (calls (parts s2)) = replicate 31 (C_SignalEvent 2 ESIF_EVENT_PARTICIPANT_SUSPEND).
Proof. vm_compute. reflexivity. Qed.
