(* ===== verification/EventCache.v ===== *)
(** * The event cache: ESIF/Products/ESIF_UF/Sources/esif_uf_event_cache.c

    For the events of a fixed table the cache keeps the data of the last one,
    so that a client can ask for it.  The event manager updates the cache
    before it calls the observers (EventSignal.v).

    An operation has no outcome ([None]) where the code would copy past the end
    of a block or through NULL.  [mem] is the outcome of an allocation. *)

From S2P Require Import Prelude EsifData.
From stdpp Require Import list gmap.
Local Open Scope Z_scope.

Definition ESIF_EVENT_DISPLAY_ORIENTATION_CHANGED : Z := 26.
Definition ESIF_EVENT_DEVICE_ORIENTATION_CHANGED : Z := 27.
Definition ESIF_EVENT_MOTION_CHANGED : Z := 28.
Definition ESIF_EVENT_DTT_SYSTEM_COOLING_POLICY_CHANGED : Z := 29.
Definition ESIF_EVENT_OS_POWER_SOURCE_CHANGED : Z := 44.
Definition ESIF_EVENT_OS_LID_STATE_CHANGED : Z := 45.
Definition ESIF_EVENT_OS_BATTERY_PERCENT_CHANGED : Z := 46.
Definition ESIF_EVENT_OS_PLATFORM_TYPE_CHANGED : Z := 47.
Definition ESIF_EVENT_OS_DOCK_MODE_CHANGED : Z := 48.
Definition ESIF_EVENT_OS_POWERSCHEME_PERSONALITY_CHANGED : Z := 72.
Definition ESIF_EVENT_OS_MIXED_REALITY_MODE_CHANGED : Z := 97.
Definition ESIF_EVENT_OS_SCREEN_STATE_CHANGED : Z := 99.
Definition ESIF_EVENT_OS_USER_PRESENCE_CHANGED : Z := 100.
Definition ESIF_EVENT_OS_POWER_SLIDER_VALUE_CHANGED : Z := 106.
Definition ESIF_EVENT_OS_GAME_MODE_CHANGED : Z := 109.
Definition ESIF_EVENT_PLATFORM_USER_PRESENCE_CHANGED : Z := 122.
Definition ESIF_EVENT_OS_USER_INTERACTION_CHANGED : Z := 156.
Definition ESIF_EVENT_FOREGROUND_BACKGROUND_RATIO_CHANGED : Z := 158.
Definition ESIF_EVENT_COLLABORATION_CHANGED : Z := 174.

Record EsifEventCacheEntry : Type := mk_centry { eventType : Z; mustRegister : bool; data : EsifData }.
Record EsifEventCacheMgr : Type := mk_cmgr { isStarted : bool; entries : list EsifEventCacheEntry }.

Definition zero_data : EsifData := mk_EsifData 0 None 0 0.

(** The table, with nothing cached. *)
Definition g_CachedEvents : list EsifEventCacheEntry :=
  (fun x => mk_centry x.1 x.2 zero_data) <$>
  [(ESIF_EVENT_OS_POWER_SOURCE_CHANGED, true); (ESIF_EVENT_OS_BATTERY_PERCENT_CHANGED, true);
   (ESIF_EVENT_OS_DOCK_MODE_CHANGED, true); (ESIF_EVENT_OS_GAME_MODE_CHANGED, true);
   (ESIF_EVENT_OS_LID_STATE_CHANGED, true); (ESIF_EVENT_OS_POWER_SLIDER_VALUE_CHANGED, true);
   (ESIF_EVENT_OS_SCREEN_STATE_CHANGED, true); (ESIF_EVENT_DTT_SYSTEM_COOLING_POLICY_CHANGED, true);
   (ESIF_EVENT_OS_PLATFORM_TYPE_CHANGED, true); (ESIF_EVENT_OS_POWERSCHEME_PERSONALITY_CHANGED, true);
   (ESIF_EVENT_OS_MIXED_REALITY_MODE_CHANGED, true); (ESIF_EVENT_FOREGROUND_BACKGROUND_RATIO_CHANGED, true);
   (ESIF_EVENT_COLLABORATION_CHANGED, true); (ESIF_EVENT_OS_USER_PRESENCE_CHANGED, false);
   (ESIF_EVENT_DEVICE_ORIENTATION_CHANGED, false); (ESIF_EVENT_MOTION_CHANGED, false);
   (ESIF_EVENT_DISPLAY_ORIENTATION_CHANGED, false); (ESIF_EVENT_OS_USER_INTERACTION_CHANGED, false);
   (ESIF_EVENT_PLATFORM_USER_PRESENCE_CHANGED, false)].

Definition g_EventCacheMgr : EsifEventCacheMgr := mk_cmgr false g_CachedEvents.

(** [memcpy]: the destination afterwards. *)
Definition memcpy (dst src : option (list Z)) (n : Z) : option (option (list Z)) :=
  if n =? 0 then Some dst
  else
    match dst, src with
    | Some d, Some s =>
        if (n <=? Z.of_nat (length d)) && (n <=? Z.of_nat (length s)) then
          Some (Some (take (Z.to_nat n) s ++ drop (Z.to_nat n) d))
        else None
    | _, _ => None
    end.

Definition zero_block (n : Z) : list Z := replicate (Z.to_nat n) 0.

(** The loops over the table stop at the first entry of the type. *)
Fixpoint find_entry (ty : Z) (l : list EsifEventCacheEntry) : option EsifEventCacheEntry :=
  match l with
  | [] => None
  | e :: l => if eventType e =? ty then Some e else find_entry ty l
  end.

(** The result code and the caller's data afterwards. *)
Definition EsifEventCache_GetValue (g : EsifEventCacheMgr) (ty : Z) (dataPtr : option EsifData) : option (Z * option EsifData) :=
  if negb (isStarted g) then Some (ESIF_E_NOT_SUPPORTED, dataPtr)
  else
    match dataPtr with
    | None => Some (ESIF_E_PARAMETER_IS_NULL, None)
    | Some d =>
        match find_entry ty (entries g) with
        | None => Some (ESIF_E_NOT_FOUND, dataPtr)
        | Some e =>
            match buf_ptr (data e) with
            | None => Some (ESIF_E_NOT_FOUND, dataPtr)
            | Some _ =>
                if buf_len d >=? data_len (data e) then
                  match memcpy (buf_ptr d) (buf_ptr (data e)) (data_len (data e)) with
                  | Some b => Some (ESIF_OK, Some (mk_EsifData (type d) b (buf_len d) (data_len (data e))))
                  | None => None
                  end
                else Some (ESIF_E_NEED_LARGER_BUFFER, Some (mk_EsifData (type d) (buf_ptr d) (buf_len d) (data_len (data e))))
            end
        end
    end.

Definition EsifEventCache_GetValueClone (mem : bool) (g : EsifEventCacheMgr) (ty : Z) (dataPtr : option EsifData) :
    option (Z * option EsifData) :=
  if negb (isStarted g) then Some (ESIF_E_NOT_SUPPORTED, dataPtr)
  else
    match dataPtr with
    | None => Some (ESIF_E_PARAMETER_IS_NULL, None)
    | Some d =>
        match find_entry ty (entries g) with
        | None => Some (ESIF_E_NOT_FOUND, dataPtr)
        | Some e =>
            match buf_ptr (data e) with
            | None => Some (ESIF_E_NOT_FOUND, dataPtr)
            | Some _ =>
                if mem then
                  match memcpy (Some (zero_block (data_len (data e)))) (buf_ptr (data e)) (data_len (data e)) with
                  | Some b => Some (ESIF_OK, Some (mk_EsifData (type (data e)) b (data_len (data e)) (data_len (data e))))
                  | None => None
                  end
                else Some (ESIF_E_NO_MEMORY, Some (mk_EsifData (type d) None (buf_len d) (data_len d)))
            end
        end
    end.

Definition UpdateData_Locked (mem : bool) (e : EsifData) (d : EsifData) : option (Z * EsifData) :=
  let grow := (match buf_ptr e with None => true | Some _ => false end) || (buf_len e <? data_len d) in
  if grow && (data_len d =? 0) then Some (ESIF_E_PARAMETER_IS_OUT_OF_BOUNDS, e)
  else if grow && negb mem then Some (ESIF_E_NO_MEMORY, mk_EsifData (type e) None (buf_len e) (data_len e))
  else
    let e' := if grow then mk_EsifData (type d) (Some (zero_block (data_len d))) (data_len d) (data_len d) else e in
    match memcpy (buf_ptr e') (buf_ptr d) (data_len d) with
    | Some b => Some (ESIF_OK, mk_EsifData (type e') b (buf_len e') (data_len e'))
    | None => None
    end.

Fixpoint update_loop (mem : bool) (ty : Z) (d : EsifData) (l : list EsifEventCacheEntry) : option (list EsifEventCacheEntry) :=
  match l with
  | [] => Some []
  | e :: l =>
      if eventType e =? ty then
        match UpdateData_Locked mem (data e) d with
        | Some (_, x) => Some (mk_centry (eventType e) (mustRegister e) x :: l)
        | None => None
        end
      else cons e <$> update_loop mem ty d l
  end.

(** [fpcEventPtr] is given by its event type. *)
Definition EsifEventCache_EventCallback (mem : bool) (g : EsifEventCacheMgr) (fpcEventPtr : option Z) (eventDataPtr : option EsifData) :
    option (Z * EsifEventCacheMgr) :=
  match fpcEventPtr, eventDataPtr with
  | Some ty, Some d =>
      match update_loop mem ty d (entries g) with
      | Some l => Some (ESIF_OK, mk_cmgr (isStarted g) l)
      | None => None
      end
  | _, _ => Some (ESIF_E_PARAMETER_IS_NULL, g)
  end.

Definition EsifUpPm_IsPrimaryParticipantId (participantId : Z) : bool :=
  (ESIF_HANDLE_DEFAULT =? participantId) || (ESIF_HANDLE_PRIMARY_PARTICIPANT =? participantId).

Definition EsifEventCache_UpdateData (mem : bool) (g : EsifEventCacheMgr) (ty participantId : Z) (eventDataPtr : option EsifData) :
    option (Z * EsifEventCacheMgr) :=
  if EsifUpPm_IsPrimaryParticipantId participantId then EsifEventCache_EventCallback mem g (Some ty) eventDataPtr
  else Some (ESIF_OK, g).

Definition EsifEventCache_IsEventCacheable (g : EsifEventCacheMgr) (ty : Z) : bool :=
  match find_entry ty (entries g) with Some _ => true | None => false end.

(** Starting also registers the cache for the events it returns. *)
Definition EsifEventCache_Start (g : EsifEventCacheMgr) : Z * EsifEventCacheMgr * list Z :=
  (ESIF_OK, mk_cmgr true (entries g), eventType <$> filter (fun e => mustRegister e = true) (entries g)).

(** Stopping unregisters it for the events it returns. *)
Definition EsifEventCache_Stop (g : EsifEventCacheMgr) : EsifEventCacheMgr * list Z :=
  if isStarted g then
    (mk_cmgr (isStarted g)
       ((fun e => mk_centry (eventType e) (mustRegister e)
                    (mk_EsifData (type (data e)) None (buf_len (data e)) (data_len (data e)))) <$> entries g),
     eventType <$> filter (fun e => mustRegister e = true) (entries g))
  else (g, []).

(* ------------------------------------------------------------------ *)
(** ** What the cache holds *)

(** The bytes of an event's data. *)
Definition payload (d : EsifData) : list Z := take (Z.to_nat (data_len d)) (default [] (buf_ptr d)).

(** Data as the event manager hands it over: the bytes are there. *)
Definition payload_ok (d : EsifData) : Prop :=
  0 <= data_len d < 2 ^ 32 /\ data_len d = Z.of_nat (length (payload d)).

(** A longer payload replaces the cached bytes; another one is written over
    their beginning. *)
Definition overlay (old new : list Z) : list Z :=
  if (length old <? length new)%nat then new else new ++ drop (length new) old.

Definition cached_after (old : option (list Z)) (new : list Z) : option (list Z) :=
  match old, new with
  | None, [] => None
  | None, _ => Some new
  | Some o, _ => Some (overlay o new)
  end.

(** An update: the event, the participant it is from, its data. *)
Abbreviation update := (Z * Z * EsifData)%type.

Definition concerns (ty : Z) (u : update) : bool := (u.1.1 =? ty) && EsifUpPm_IsPrimaryParticipantId u.1.2.
Definition value_after (ty : Z) (us : list update) : option (list Z) :=
  foldl (fun acc u => if concerns ty u then cached_after acc (payload u.2) else acc) None us.

Fixpoint run_updates (g : EsifEventCacheMgr) (us : list update) : option EsifEventCacheMgr :=
  match us with
  | [] => Some g
  | u :: us =>
      match EsifEventCache_UpdateData true g u.1.1 u.1.2 (Some u.2) with
      | Some (_, g') => run_updates g' us
      | None => None
      end
  end.

(** An entry that caches [v]. *)
Definition holds (e : EsifData) (v : option (list Z)) : Prop :=
  match v with
  | None => buf_ptr e = None
  | Some b => buf_ptr e = Some b /\ buf_len e = Z.of_nat (length b) /\ data_len e = Z.of_nat (length b) /\ 0 < data_len e < 2 ^ 32
  end.

Lemma memcpy_over b src n : 0 <= n -> n <= Z.of_nat (length b) -> n <= Z.of_nat (length src) ->
  memcpy (Some b) (Some src) n = Some (Some (take (Z.to_nat n) src ++ drop (Z.to_nat n) b)).
Proof.
  intros Hn H1 H2. unfold memcpy. destruct (Z.eqb_spec n 0) as [->|]; [reflexivity|].
  rewrite !(proj2 (Z.leb_le _ _)) by done. reflexivity.
Qed.

Lemma payload_block d : payload_ok d -> 0 < data_len d -> exists b, buf_ptr d = Some b /\ data_len d <= Z.of_nat (length b) /\ payload d = take (Z.to_nat (data_len d)) b.
Proof.
  intros [H1 H2] Hpos. unfold payload in *. destruct (buf_ptr d) as [b|]; cbn in *.
  - exists b. rewrite length_take in H2. split_and!; [done|lia|done].
  - rewrite take_nil in H2. cbn in H2. lia.
Qed.

Lemma update_spec e v d : holds e v -> payload_ok d ->
  exists rc e', UpdateData_Locked true e d = Some (rc, e') /\ holds e' (cached_after v (payload d)).
Proof.
  intros He Hd. pose proof Hd as [Hr Hl]. unfold UpdateData_Locked. rewrite andb_false_r.
  destruct (Z.eqb_spec (data_len d) 0) as [E0|E0].
  - assert (Ep : payload d = []) by (unfold payload; rewrite E0; apply take_0). rewrite Ep, andb_true_r, E0.
    destruct v as [o|]; cbn in He |- *.
    + destruct He as (Eb & El & Ed & Hlt). rewrite Eb. rewrite (proj2 (Z.ltb_ge _ _)) by lia. cbn. rewrite Eb. do 2 eexists. split; [reflexivity|].
      unfold overlay. cbn. rewrite drop_0. done.
    + rewrite He. cbn. do 2 eexists. split; [reflexivity|done].
  - rewrite andb_false_r. destruct (payload_block d Hd ltac:(lia)) as (b & Eb & Hb & Ep).
    set (grow := _ || _). destruct grow eqn:Eg; cbn iota.
    + cbn [buf_ptr]. rewrite Eb, memcpy_over by (unfold zero_block; rewrite ?length_replicate; lia). do 2 eexists. split; [reflexivity|].
      unfold zero_block. rewrite <- Ep, drop_ge, app_nil_r by (rewrite length_replicate; lia).
      assert (Ec : cached_after v (payload d) = Some (payload d)).
      { destruct v as [o|]; cbn in He |- *; [|by destruct (payload d) eqn:E; [cbn in Hl; lia|]].
        destruct He as (Eo & Elo & _). subst grow. rewrite Eo in Eg. cbn in Eg. apply Z.ltb_lt in Eg. unfold overlay.
        rewrite (proj2 (Nat.ltb_lt _ _)) by lia. done. }
      rewrite Ec. cbn. split_and!; try done; lia.
    + subst grow. destruct v as [o|]; cbn in He; [|by rewrite He in Eg]. destruct He as (Eo & Elo & Edo & Hlt). rewrite Eo in Eg |- *.
      cbn in Eg. apply Z.ltb_ge in Eg. rewrite Eb, memcpy_over by lia. do 2 eexists. split; [reflexivity|].
      cbn. unfold overlay. rewrite (proj2 (Nat.ltb_ge _ _)) by lia. rewrite Ep, length_take, Nat.min_l by lia.
      assert (Elen : length (take (Z.to_nat (data_len d)) b ++ drop (Z.to_nat (data_len d)) o) = length o).
      { rewrite length_app, length_take, length_drop. lia. }
      rewrite !Elen. done.
Qed.

(** Every entry caches what the updates of its type have left. *)
Definition cache_inv (us : list update) (g : EsifEventCacheMgr) : Prop :=
  eventType <$> entries g = eventType <$> g_CachedEvents /\
  Forall (fun e => holds (data e) (value_after (eventType e) us)) (entries g).

Lemma table_nodup : NoDup (eventType <$> g_CachedEvents).
Proof. apply (bool_decide_unpack (NoDup _)). vm_compute. exact I. Qed.

Lemma update_loop_spec ty d l us p : payload_ok d -> NoDup (eventType <$> l) -> EsifUpPm_IsPrimaryParticipantId p = true ->
  Forall (fun e => holds (data e) (value_after (eventType e) us)) l ->
  exists l', update_loop true ty d l = Some l' /\ eventType <$> l' = eventType <$> l /\
    Forall (fun e => holds (data e) (value_after (eventType e) (us ++ [(ty, p, d)]))) l'.
Proof.
  intros Hd Hnd Hp Hl. assert (Hv : forall t, value_after t (us ++ [(ty, p, d)]) =
    if ty =? t then cached_after (value_after t us) (payload d) else value_after t us).
  { intros t. unfold value_after. rewrite foldl_app. cbn. unfold concerns. cbn. by rewrite Hp, andb_true_r. }
  induction Hl as [|e l He Hl IH]; [by exists []|]. cbn in Hnd. apply NoDup_cons in Hnd as [Hni Hnd]. cbn [update_loop].
  destruct (Z.eqb_spec (eventType e) ty) as [E|E].
  - destruct (update_spec (data e) _ d He Hd) as (rc & e' & -> & He'). eexists. split; [reflexivity|]. split; [done|]. constructor.
    + cbn. rewrite Hv, <- E, Z.eqb_refl. by rewrite E in He' |- *.
    + rewrite Forall_forall in Hl |- *. intros x Hx. rewrite Hv. rewrite (proj2 (Z.eqb_neq ty (eventType x))); [by apply Hl|].
      intros ->. apply Hni. rewrite E. by apply list_elem_of_fmap_2.
  - destruct (IH Hnd) as (l' & -> & El & Hl'). eexists. split; [reflexivity|]. cbn. rewrite El. split; [done|]. constructor; [|done].
    rewrite Hv. by rewrite (proj2 (Z.eqb_neq ty (eventType e))) by congruence.
Qed.

Lemma run_updates_inv us2 : forall us g, cache_inv us g -> Forall (fun u => payload_ok u.2) us2 ->
  exists g', run_updates g us2 = Some g' /\ cache_inv (us ++ us2) g' /\ isStarted g' = isStarted g.
Proof.
  induction us2 as [|[[ty p] d] us2 IH]; intros us g Hi Hok; [exists g; by rewrite app_nil_r|].
  apply Forall_cons in Hok as [Hd Hok]. cbn [run_updates fst snd] in *. unfold EsifEventCache_UpdateData.
  replace (us ++ (ty, p, d) :: us2) with ((us ++ [(ty, p, d)]) ++ us2) by (by rewrite <- app_assoc).
  destruct (EsifUpPm_IsPrimaryParticipantId p) eqn:Ep.
  - unfold EsifEventCache_EventCallback. destruct Hi as [Ht Hl].
    destruct (update_loop_spec ty d (entries g) us p Hd) as (l' & -> & El & Hl'); [rewrite Ht; apply table_nodup|done|done|].
    destruct (IH (us ++ [(ty, p, d)]) (mk_cmgr (isStarted g) l')) as (g' & E & Hi' & Hs); [split; cbn; [etrans; [exact El|exact Ht]|done]|done|]. by exists g'.
  - destruct (IH (us ++ [(ty, p, d)]) g) as (g' & E & Hi' & Hs); [|done|by exists g']. destruct Hi as [Ht Hl]. split; [done|].
    eapply Forall_impl; [exact Hl|]. intros e He. unfold value_after in *. rewrite foldl_app. cbn. unfold concerns. cbn. by rewrite Ep, andb_false_r.
Qed.

Lemma find_entry_in ty l : ty ∈ eventType <$> l -> exists e, find_entry ty l = Some e /\ e ∈ l /\ eventType e = ty.
Proof.
  induction l as [|e l IH]; cbn; [by intros ?%elem_of_nil|]. intros Hin. destruct (Z.eqb_spec (eventType e) ty).
  - exists e. split; [done|split; [left|done]].
  - apply elem_of_cons in Hin as [->|Hin]; [done|]. destruct (IH Hin) as (e' & H1 & H2 & H3). exists e'. split; [done|split; [by right|done]].
Qed.

(** When all payloads have the same length, the last one is what is left. *)
Lemma value_after_last ty n us : (0 < n)%nat -> Forall (fun u => concerns ty u = true -> length (payload u.2) = n) us ->
  value_after ty us = last ((fun u => payload u.2) <$> filter (fun u => concerns ty u = true) us) /\
  forall v, value_after ty us = Some v -> length v = n.
Proof.
  intros Hn. induction us as [|u us IH] using rev_ind; [done|]. intros [Hus Hu]%Forall_app. apply Forall_cons in Hu as [Hu _].
  destruct (IH Hus) as [E1 E2]. unfold value_after in *. rewrite foldl_app. cbn [foldl]. rewrite filter_app, fmap_app, last_app.
  destruct (concerns ty u) eqn:Ec; cycle 1.
  { rewrite filter_cons_False by congruence. done. }
  rewrite filter_cons_True by done. specialize (Hu eq_refl). cbn [fmap list_fmap last filter list_filter].
  assert (Eq : cached_after (foldl (fun acc u => if concerns ty u then cached_after acc (payload u.2) else acc) None us) (payload u.2) = Some (payload u.2)).
  { destruct (foldl _ None us) as [o|]; cbn.
    - specialize (E2 o eq_refl). unfold overlay. rewrite (proj2 (Nat.ltb_ge _ _)) by lia. rewrite drop_ge, app_nil_r by lia. done.
    - by destruct (payload u.2); [cbn in Hu; lia|]. }
  split; [exact Eq|]. rewrite Eq. by intros v [= <-].
Qed.

(** The cache answers with the last event.  After any sequence of events on
    a started cache, asking for a cached event gives what is left of the
    payloads of this event from the primary participant, in the caller's buffer
    when it fits and with the size needed when it does not, and not-found when
    there was none; and when the event's payloads all have the same length, what
    is left is the last payload. *)
Theorem event_cache_returns_last (us : list update) (ty : Z) (Hty : ty ∈ eventType <$> g_CachedEvents)
    (Hok : Forall (fun u => payload_ok u.2) us) :
  exists g, run_updates (EsifEventCache_Start g_EventCacheMgr).1.2 us = Some g /\
  (forall d block, buf_ptr d = Some block -> buf_len d = Z.of_nat (length block) ->
     EsifEventCache_GetValue g ty (Some d) =
     Some match value_after ty us with
          | None => (ESIF_E_NOT_FOUND, Some d)
          | Some v =>
              if (length v <=? length block)%nat
              then (ESIF_OK, Some (mk_EsifData (type d) (Some (v ++ drop (length v) block)) (buf_len d) (Z.of_nat (length v))))
              else (ESIF_E_NEED_LARGER_BUFFER, Some (mk_EsifData (type d) (Some block) (buf_len d) (Z.of_nat (length v))))
          end) /\
  (forall n, (0 < n)%nat -> Forall (fun u => concerns ty u = true -> length (payload u.2) = n) us ->
     value_after ty us = last ((fun u => payload u.2) <$> filter (fun u => concerns ty u = true) us)).
Proof.
  destruct (run_updates_inv us [] (EsifEventCache_Start g_EventCacheMgr).1.2) as (g & E & [Ht Hl] & Hs); [|done|].
  { split; [done|]. cbn [entries EsifEventCache_Start fst snd g_EventCacheMgr]. apply Forall_fmap, Forall_true. intros []. done. }
  exists g. split; [exact E|]. split; [|intros n Hn Hus; by apply (value_after_last ty n us)]. intros d block Eb El.
  unfold EsifEventCache_GetValue. rewrite Hs. cbn iota. rewrite <- Ht in Hty. destruct (find_entry_in ty (entries g) Hty) as (e & -> & Hin & Ety).
  rewrite Forall_forall in Hl. specialize (Hl e Hin). rewrite Ety in Hl. cbn [app] in Hl.
  destruct (value_after ty us) as [v|]; cbn in Hl; [|by rewrite Hl]. destruct Hl as (Ev & Elv & Edv & Hlt). rewrite Ev, Edv, El.
  destruct (Nat.leb_spec (length v) (length block)).
  - rewrite (proj2 (Z.geb_ge _ _)) by lia. rewrite Eb, memcpy_over by lia. rewrite Nat2Z.id, firstn_all. done.
  - rewrite Z.geb_leb, (proj2 (Z.leb_gt _ _)) by lia. by rewrite Eb.
Qed.

(* ------------------------------------------------------------------ *)
(** ** Events on a started cache *)

Module CacheEvents.

Definition bytes (l : list Z) : EsifData := mk_EsifData 3 (Some l) (Z.of_nat (length l)) (Z.of_nat (length l)).
Definition buffer (n : nat) : EsifData := mk_EsifData 3 (Some (replicate n 0)) (Z.of_nat n) 0.
(** The lid is opened, another participant's event, the lid is closed. *)
Definition lid : list update :=
  [(ESIF_EVENT_OS_LID_STATE_CHANGED, 1, bytes [1; 0; 0; 0]); (ESIF_EVENT_OS_LID_STATE_CHANGED, 7, bytes [9; 9]);
   (ESIF_EVENT_OS_LID_STATE_CHANGED, 0, bytes [0; 0; 0; 0])].

End CacheEvents.
Import CacheEvents.

Lemma event_cache_returns_last_witness :
  value_after ESIF_EVENT_OS_LID_STATE_CHANGED lid = Some [0; 0; 0; 0] /\
  exists g, run_updates (EsifEventCache_Start g_EventCacheMgr).1.2 lid = Some g /\
  (forall d block, buf_ptr d = Some block -> buf_len d = Z.of_nat (length block) ->
     EsifEventCache_GetValue g ESIF_EVENT_OS_LID_STATE_CHANGED (Some d) =
     Some match value_after ESIF_EVENT_OS_LID_STATE_CHANGED lid with
          | None => (ESIF_E_NOT_FOUND, Some d)
          | Some v =>
              if (length v <=? length block)%nat
              then (ESIF_OK, Some (mk_EsifData (type d) (Some (v ++ drop (length v) block)) (buf_len d) (Z.of_nat (length v))))
              else (ESIF_E_NEED_LARGER_BUFFER, Some (mk_EsifData (type d) (Some block) (buf_len d) (Z.of_nat (length v))))
          end) /\
  (forall n, (0 < n)%nat -> Forall (fun u => concerns ESIF_EVENT_OS_LID_STATE_CHANGED u = true -> length (payload u.2) = n) lid ->
     value_after ESIF_EVENT_OS_LID_STATE_CHANGED lid =
     last ((fun u => payload u.2) <$> filter (fun u => concerns ESIF_EVENT_OS_LID_STATE_CHANGED u = true) lid)).
Proof.
  split; [vm_compute; reflexivity|]. apply (event_cache_returns_last lid ESIF_EVENT_OS_LID_STATE_CHANGED).
  - cbn. do 4 right. left.
  - repeat (apply Forall_cons; split; [split; [split; by vm_compute|by vm_compute]|]). by apply Forall_nil.
Defined.

(** A shorter payload does not replace a longer one.  Only when the buffer
    has to grow does the cache take over the length and the type of the new
    data; an event with shorter data leaves the tail of the earlier data in
    place, and the cache answers with the mixture, at the earlier length. *)
Theorem event_cache_mixes_payloads :
  exists g, run_updates (EsifEventCache_Start g_EventCacheMgr).1.2
    [(ESIF_EVENT_MOTION_CHANGED, 1, bytes [1; 2; 3; 4]); (ESIF_EVENT_MOTION_CHANGED, 1, bytes [8; 9])] = Some g /\
    EsifEventCache_GetValue g ESIF_EVENT_MOTION_CHANGED (Some (buffer 8)) =
    Some (ESIF_OK, Some (mk_EsifData 3 (Some [8; 9; 3; 4; 0; 0; 0; 0]) 8 4)).
Proof. eexists. split; vm_compute; reflexivity. Qed.
