(* ===== verification/EventReg.v ===== *)
(** * The event manager's observers: ESIF/Products/ESIF_UF/Sources/esif_uf_eventmgr.c

    Observers of events are entries in 64 lists, by event type modulo 64.  An
    entry counts its registrations; the event thread takes a reference of its
    own while it calls the observer's callback without holding the lock.
    Entries that are no longer wanted are moved to a garbage list and destroyed
    from there.  This file has the operations and what they do when nothing
    interferes; EventRace.v has the interleavings, EventSignal.v the queue.

    Entries live in a heap; an operation has no outcome ([None]) when it uses an
    entry that has been freed.  A list is the list of its nodes, and a node is
    known by its entry (they are allocated and live in lists together); this is
    the contract that LinkList.v proves of the lists.  Each definition is one
    critical section of the list lock, or what runs between two of them. *)

From S2P Require Import Prelude EventCache.
From stdpp Require Import list gmap.
Local Open Scope Z_scope.
Local Open Scope dptf_scope.

Definition NUM_EVENT_LISTS : Z := 64.
Definition EVENT_MGR_MATCH_ANY : Z := ESIF_HANDLE_MATCH_ANY_EVENT.
Definition EVENT_MGR_DOMAIN_D0 : Z := 12356.
Definition EVENT_MGR_DOMAIN_NA : Z := 20033.
Definition EVENT_MGR_MATCH_ANY_DOMAIN : Z := 255.
Definition MAX_ESIF_EVENT_ENUM_VALUE : Z := 188.

Definition ESIF_EVENT_GROUP_POWER : Z := 1.
Definition ESIF_EVENT_GROUP_SENSOR : Z := 2.
Definition ESIF_EVENT_GROUP_CODE : Z := 4.
Definition ESIF_EVENT_GROUP_SYSTEM_METRICS : Z := 5.

(** An event of a device support package; the key is only passed on. *)
Record EsifFpcEvent : Type := mk_fpc { esif_event : Z; esif_group : Z; event_key : list Z }.

(** A callback is known by its address. *)
Record EventMgrEntry : Type := mk_entry {
  participantId : Z;
  isParticipant0Id : bool;
  domainId : Z;
  fpcEvent : EsifFpcEvent;
  callback : Z;
  context : Z;
  refCount : Z;
  isInUse : bool;
  markedForDelete : bool
}.

Record rst : Type := mk_rst {
  heap : gmap positive EventMgrEntry;
  observerLists : list (option (list positive));
  garbageList : option (list positive)
}.
Abbreviation RM := (SM rst).

Definition with_heap (h : gmap positive EventMgrEntry) (s : rst) : rst := mk_rst h (observerLists s) (garbageList s).
Definition with_lists (l : list (option (list positive))) (s : rst) : rst := mk_rst (heap s) l (garbageList s).
Definition with_garbage (l : option (list positive)) (s : rst) : rst := mk_rst (heap s) (observerLists s) l.

Definition with_ref (n : Z) (e : EventMgrEntry) : EventMgrEntry :=
  mk_entry (participantId e) (isParticipant0Id e) (domainId e) (fpcEvent e) (callback e) (context e) n (isInUse e) (markedForDelete e).
Definition with_use (b : bool) (e : EventMgrEntry) : EventMgrEntry :=
  mk_entry (participantId e) (isParticipant0Id e) (domainId e) (fpcEvent e) (callback e) (context e) (refCount e) b (markedForDelete e).
Definition with_mark (b : bool) (e : EventMgrEntry) : EventMgrEntry :=
  mk_entry (participantId e) (isParticipant0Id e) (domainId e) (fpcEvent e) (callback e) (context e) (refCount e) (isInUse e) b.

Definition deref (p : positive) : RM EventMgrEntry :=
  fun s => match heap s !! p with Some e => Some (e, s) | None => None end.
Definition update (p : positive) (f : EventMgrEntry -> EventMgrEntry) : RM unit :=
  fun s => match heap s !! p with Some e => Some (tt, with_heap (<[p := f e]> (heap s)) s) | None => None end.
Definition free_entry (p : positive) : RM unit :=
  fun s => match heap s !! p with Some _ => Some (tt, with_heap (delete p (heap s)) s) | None => None end.

(** The index of an event's list. *)
Definition list_index (ev : Z) : nat := Z.to_nat (u32 ev mod NUM_EVENT_LISTS).
Definition get_list (i : nat) : RM (option (list positive)) :=
  fun s => match observerLists s !! i with Some l => Some (l, s) | None => None end.
Definition set_list (i : nat) (l : list positive) : RM unit := smodify (fun s => with_lists (<[i := Some l]> (observerLists s)) s).

(** [esif_link_list_node_remove]: nothing happens when the node is not there. *)
Fixpoint remove_node (p : positive) (l : list positive) : list positive :=
  match l with
  | [] => []
  | q :: l => if decide (q = p) then l else q :: remove_node p l
  end.

(** The loops that look for an entry. *)
Fixpoint find_node (m : EventMgrEntry -> bool) (l : list positive) : RM ptr :=
  match l with
  | [] => sret None
  | p :: l =>
      let! e := deref p in
      if m e then sret (Some p) else find_node m l
  end.

(* ------------------------------------------------------------------ *)
(** ** The garbage list *)

(** [mem]: the outcome of allocating the node. *)
Definition EsifEventMgr_MoveEntryToGarbage (mem : bool) (p : positive) : RM Z :=
  let! s := sget in
  match garbageList s with
  | None => sret ESIF_E_UNSPECIFIED
  | Some g =>
      if mem then smodify (with_garbage (Some (g ++ [p]))) ;! sret ESIF_OK
      else sret ESIF_E_NO_MEMORY
  end.

(** One turn of the loop that empties the garbage list: the entry taken off the
    list, under the lock. *)
Definition pop_garbage : RM ptr :=
  let! s := sget in
  match garbageList s with
  | Some (p :: g) => smodify (with_garbage (Some g)) ;! sret (Some p)
  | _ => sret None
  end.

(** What follows without the lock: the event is disabled (the entry is returned,
    as it was) and the entry freed. *)
Definition discard (p : positive) : RM EventMgrEntry :=
  let! e := deref p in free_entry p ;! sret e.

(** The whole loop, for a caller that nobody interferes with: the entries that
    were disabled. *)
Fixpoint dump_loop (n : nat) : RM (list EventMgrEntry) :=
  match n with
  | O => sret []
  | S n =>
      let! p := pop_garbage in
      match p with
      | None => sret []
      | Some p => let! e := discard p in let! r := dump_loop n in sret (e :: r)
      end
  end.

Definition EsifEventMgr_DumpGarbage : RM (Z * list EventMgrEntry) :=
  let! s := sget in
  match garbageList s with
  | None => sret (ESIF_E_UNSPECIFIED, [])
  | Some g => let! r := dump_loop (length g) in sret (ESIF_OK, r)
  end.

(* ------------------------------------------------------------------ *)
(** ** Registering *)

(** The answer of whatever enables an event outside the event manager. *)
Definition EsifEventMgr_EnableEvent (os : EventMgrEntry -> Z) (e : EventMgrEntry) : Z :=
  if participantId e =? EVENT_MGR_MATCH_ANY then ESIF_OK
  else
    let g := esif_group (fpcEvent e) in
    if (g =? ESIF_EVENT_GROUP_POWER) || (g =? ESIF_EVENT_GROUP_SYSTEM_METRICS) ||
       (g =? ESIF_EVENT_GROUP_SENSOR) || (g =? ESIF_EVENT_GROUP_CODE)
    then os e else ESIF_OK.

Inductive found : Type := FoundNoList | FoundNone | FoundOne | FoundMarked (p : positive).

Definition same_registration (fpc : EsifFpcEvent) (pid dom cb ctx : Z) (e : EventMgrEntry) : bool :=
  (esif_event (fpcEvent e) =? esif_event fpc) &&
  ((participantId e =? pid) || (isParticipant0Id e && EsifUpPm_IsPrimaryParticipantId pid)) &&
  (domainId e =? dom) && (context e =? ctx) && (callback e =? cb).

(** The first critical section: look for the same registration and count it. *)
Definition add_find (fpc : EsifFpcEvent) (pid dom cb ctx : Z) : RM found :=
  let! l := get_list (list_index (esif_event fpc)) in
  match l with
  | None => sret FoundNoList
  | Some l =>
      let! r := find_node (same_registration fpc pid dom cb ctx) l in
      match r with
      | None => sret FoundNone
      | Some p =>
          let! e := deref p in
          if negb (markedForDelete e) then update p (with_ref (refCount e + 1)) ;! sret FoundOne
          else sret (FoundMarked p)
      end
  end.

Definition new_entry (fpc : EsifFpcEvent) (pid dom cb ctx : Z) : EventMgrEntry :=
  mk_entry pid (EsifUpPm_IsPrimaryParticipantId pid) dom fpc cb ctx 1 false false.

(** The second one: the new entry, allocated at [p], joins the list that was
    found in the first. *)
Definition add_insert (p : positive) (fpc : EsifFpcEvent) : RM unit :=
  let! l := get_list (list_index (esif_event fpc)) in
  match l with
  | None => ub
  | Some l => set_list (list_index (esif_event fpc)) (l ++ [p])
  end.

(** The third one, on the error path; then the entry, if any, is freed. *)
Definition add_undo (i : nat) (node entry : ptr) : RM unit :=
  let! l := get_list i in
  match l, node with
  | Some l, Some p => set_list i (remove_node p l)
  | _, _ => sret tt
  end ;!
  match entry with Some p => free_entry p | None => sret tt end.

(** [mem] is the address of the new entry, [mem_node] the outcome of allocating
    its node. *)
Definition EsifEventMgr_AddEntry (mem : ptr) (mem_node : bool) (os : EventMgrEntry -> Z)
    (fpc : EsifFpcEvent) (pid dom cb ctx : Z) : RM Z :=
  let i := list_index (esif_event fpc) in
  let! r := add_find fpc pid dom cb ctx in
  match r with
  | FoundNoList => add_undo i None None ;! sret ESIF_E_UNSPECIFIED
  | FoundOne => sret ESIF_OK
  | FoundMarked p => add_undo i (Some p) None ;! sret ESIF_E_NO_CREATE
  | FoundNone =>
      match mem with
      | None => add_undo i None None ;! sret ESIF_E_NO_MEMORY
      | Some p =>
          smodify (fun s => with_heap (<[p := new_entry fpc pid dom cb ctx]> (heap s)) s) ;!
          if mem_node then
            add_insert p fpc ;!
            let! e := deref p in
            let rc := EsifEventMgr_EnableEvent os e in
            if rc =? ESIF_OK then sret ESIF_OK else add_undo i (Some p) (Some p) ;! sret rc
          else add_undo i None (Some p) ;! sret ESIF_E_NO_MEMORY
      end
  end.

(** Which events a participant has: the outside's answers. *)
Record pm_api : Type := mk_pm {
  pm_available : Z -> bool;
  pm_event : Z -> Z -> option EsifFpcEvent
}.

(** The event definition for a registration, or the error. *)
Definition lookup_event (pm : pm_api) (not_found : Z) (ev pid cb : Z) : Z + EsifFpcEvent :=
  if cb =? 0 then inl ESIF_E_PARAMETER_IS_NULL
  else if negb (pid =? EVENT_MGR_MATCH_ANY) then
    if pm_available pm pid then
      match pm_event pm pid ev with Some f => inr f | None => inl not_found end
    else inl ESIF_E_PARTICIPANT_NOT_FOUND
  else inr (mk_fpc ev 0 []).

Definition EsifEventMgr_RegisterEventByType (pm : pm_api) (mem : ptr) (mem_node : bool) (os : EventMgrEntry -> Z)
    (ev pid dom cb ctx : Z) : RM Z :=
  match lookup_event pm ESIF_E_EVENT_NOT_FOUND ev pid cb with
  | inl rc => sret rc
  | inr fpc => EsifEventMgr_AddEntry mem mem_node os fpc pid dom cb ctx
  end.

(* ------------------------------------------------------------------ *)
(** ** Unregistering *)

Definition same_observer (fpc : EsifFpcEvent) (pid dom cb ctx : Z) (e : EventMgrEntry) : bool :=
  (esif_event (fpcEvent e) =? esif_event fpc) && (participantId e =? pid) && (domainId e =? dom) &&
  (context e =? ctx) && (callback e =? cb).

(** The critical section; the garbage is emptied afterwards. *)
Definition release_find (mem : bool) (fpc : EsifFpcEvent) (pid dom cb ctx : Z) : RM Z :=
  let i := list_index (esif_event fpc) in
  let! l := get_list i in
  match l with
  | None => sret ESIF_E_UNSPECIFIED
  | Some l =>
      let! r := find_node (same_observer fpc pid dom cb ctx) l in
      match r with
      | None => sret ESIF_OK
      | Some p =>
          let! e := deref p in
          update p (with_ref (refCount e - 1)) ;!
          (if (refCount e - 1 <=? 0) || markedForDelete e then
             EsifEventMgr_MoveEntryToGarbage mem p ;! set_list i (remove_node p l)
           else sret tt) ;!
          sret ESIF_OK
      end
  end.

Definition EsifEventMgr_ReleaseEntry (mem : bool) (fpc : EsifFpcEvent) (pid dom cb ctx : Z) : RM (Z * list EventMgrEntry) :=
  let! rc := release_find mem fpc pid dom cb ctx in
  let! r := EsifEventMgr_DumpGarbage in
  sret (rc, r.2).

Definition EsifEventMgr_UnregisterEventByType (pm : pm_api) (mem : bool) (ev pid dom cb ctx : Z) : RM (Z * list EventMgrEntry) :=
  match lookup_event pm ESIF_E_NOT_FOUND ev pid cb with
  | inl rc => sret (rc, [])
  | inr fpc => EsifEventMgr_ReleaseEntry mem fpc pid dom cb ctx
  end.

Definition of_app (cb ctx : Z) (e : EventMgrEntry) : bool := (callback e =? cb) && (context e =? ctx).

(** The inner loop: the nodes that stay.  [mems] gives each node its outcome. *)
Fixpoint unregister_nodes (mems : positive -> bool) (cb ctx : Z) (l : list positive) : RM (list positive) :=
  match l with
  | [] => sret []
  | p :: l =>
      let! e := deref p in
      if of_app cb ctx e then
        update p (with_mark true) ;!
        if negb (isInUse e) then
          EsifEventMgr_MoveEntryToGarbage (mems p) p ;! unregister_nodes mems cb ctx l
        else let! r := unregister_nodes mems cb ctx l in sret (p :: r)
      else let! r := unregister_nodes mems cb ctx l in sret (p :: r)
  end.

(** The outer loop, for [n] lists from list [i]. *)
Fixpoint unregister_lists (mems : positive -> bool) (cb ctx : Z) (n i : nat) : RM unit :=
  match n with
  | O => sret tt
  | S n =>
      let! l := get_list i in
      match l with
      | None => unregister_lists mems cb ctx n (S i)
      | Some l =>
          let! l' := unregister_nodes mems cb ctx l in
          set_list i l' ;! unregister_lists mems cb ctx n (S i)
      end
  end.

Definition unregister_app_find (mems : positive -> bool) (cb ctx : Z) : RM unit :=
  unregister_lists mems cb ctx (Z.to_nat NUM_EVENT_LISTS) 0.

Definition EsifEventMgr_UnregisterApp (mems : positive -> bool) (cb ctx : Z) : RM (Z * list EventMgrEntry) :=
  if (cb =? 0) || (ctx =? ESIF_HANDLE_DEFAULT) then sret (ESIF_E_PARAMETER_IS_NULL, [])
  else
    unregister_app_find mems cb ctx ;!
    let! r := EsifEventMgr_DumpGarbage in
    sret (ESIF_OK, r.2).

(* ------------------------------------------------------------------ *)
(** ** Sending an event to its observers *)

Definition participant_matches (pid : Z) (e : EventMgrEntry) : bool :=
  (participantId e =? pid) || (participantId e =? EVENT_MGR_MATCH_ANY) ||
  (isParticipant0Id e && EsifUpPm_IsPrimaryParticipantId pid).
Definition domain_matches (dom : Z) (e : EventMgrEntry) : bool :=
  (domainId e =? dom) || (domainId e =? EVENT_MGR_MATCH_ANY_DOMAIN) || (dom =? EVENT_MGR_DOMAIN_NA).

(** The observer is to be called for the event. *)
Definition is_observer (ev pid dom : Z) (e : EventMgrEntry) : bool :=
  (ev =? esif_event (fpcEvent e)) && participant_matches pid e && domain_matches dom e &&
  (0 <? refCount e) && negb (markedForDelete e).

(** Going on under the lock over the remaining nodes [l] up to the next observer,
    which gets a reference of the event thread; its callback is then called
    without the lock. *)
Fixpoint process_scan (ev pid dom : Z) (l : list positive) : RM ptr :=
  match l with
  | [] => sret None
  | p :: l =>
      let! e := deref p in
      if is_observer ev pid dom e then
        update p (fun e => with_use true (with_ref (refCount e + 1) e)) ;! sret (Some p)
      else process_scan ev pid dom l
  end.

(** The nodes that follow [p]; none if it has been removed. *)
Fixpoint nodes_after (p : positive) (l : list positive) : option (list positive) :=
  match l with
  | [] => None
  | q :: l => if decide (q = p) then Some l else nodes_after p l
  end.

(** The first critical section of [EsifEventMgr_ProcessEvent]; [None] when there
    is no list. *)
Definition process_begin (ev pid dom : Z) : RM (option ptr) :=
  let! l := get_list (list_index ev) in
  match l with
  | None => sret None
  | Some l => let! r := process_scan ev pid dom l in sret (Some r)
  end.

(** The critical section after the callback of [p]: the next observer, and
    whether there is garbage to be dumped at the end. *)
Definition process_return (mem : bool) (ev pid dom : Z) (p : positive) : RM (ptr * bool) :=
  let! l := get_list (list_index ev) in
  let! l := of_option l in
  let! rest := of_option (nodes_after p l) in
  let! e := deref p in
  update p (fun e => with_use false (with_ref (refCount e - 1) e)) ;!
  let dead := (refCount e - 1 <=? 0) || markedForDelete e in
  (if dead then EsifEventMgr_MoveEntryToGarbage mem p ;! set_list (list_index ev) (remove_node p l) else sret tt) ;!
  let! r := process_scan ev pid dom rest in
  sret (r, dead).

(** A call of an observer's callback, with the context and the event definition
    that it is given. *)
Abbreviation call := (Z * Z * EsifFpcEvent)%type.
Definition call_of (e : EventMgrEntry) : call := (callback e, context e, fpcEvent e).

(** The loop when the callbacks leave the observers alone: the calls that were
    made.  The list has [n] nodes. *)
Fixpoint process_loop (mem : bool) (ev pid dom : Z) (n : nat) (p : ptr) (dump : bool) : RM (list call * bool) :=
  match p, n with
  | Some p, S n =>
      let! e := deref p in
      let! r := process_return mem ev pid dom p in
      let! k := process_loop mem ev pid dom n r.1 (dump || r.2) in
      sret (call_of e :: k.1, k.2)
  | Some _, O => ub
  | None, _ => sret ([], dump)
  end.

Definition EsifEventMgr_ProcessEvent (mem : bool) (ev pid dom : Z) : RM (Z * list call) :=
  let! l := get_list (list_index ev) in
  match l with
  | None => sret (ESIF_E_UNSPECIFIED, [])
  | Some l =>
      let! p := process_scan ev pid dom l in
      let! r := process_loop mem ev pid dom (length l) p false in
      (if r.2 then let! x := EsifEventMgr_DumpGarbage in sret tt else sret tt) ;!
      sret (ESIF_OK, r.1)
  end.

Definition EsifEventMgr_IsEventRegistered (ev key pid dom : Z) : RM bool :=
  let! l := get_list (list_index ev) in
  match l with
  | None => sret false
  | Some l =>
      let! r := find_node (fun e => (ev =? esif_event (fpcEvent e)) && (context e =? key) && participant_matches pid e &&
                                    domain_matches dom e && (0 <? refCount e)) l in
      sret (match r with Some _ => true | None => false end)
  end.

(* ------------------------------------------------------------------ *)
(** ** Well-formed states *)

Definition list_at (s : rst) (i : nat) : list positive :=
  match observerLists s !! i with Some (Some l) => l | _ => [] end.
Definition listed (s : rst) : list positive := concat (default [] <$> observerLists s).
Definition garbage (s : rst) : list positive := default [] (garbageList s).
(** The registrations of an entry that have not been taken back. *)
Definition owners (own : gmap positive Z) (p : positive) : Z := default 0 (own !! p).

(** [cur] is the entry whose callback the event thread is in, [priv] are the
    entries that have been taken off the garbage list and are being destroyed,
    [own] counts the registrations.  The live entries are those in exactly one
    of the lists or being destroyed; an entry in a list has a reference for
    each registration and one for the event thread if it is in its callback, is
    in use exactly then, and has a registration unless it is. *)
Record entry_ok (cur : ptr) (own : gmap positive Z) (i : nat) (p : positive) (e : EventMgrEntry) : Prop := {
  eo_index : list_index (esif_event (fpcEvent e)) = i;
  eo_use : isInUse e = bool_decide (cur = Some p);
  eo_ref : refCount e = owners own p + (if decide (cur = Some p) then 1 else 0);
  eo_own : 0 <= owners own p;
  eo_free : cur <> Some p -> 1 <= owners own p /\ markedForDelete e = false
}.

Record reg_inv (cur : ptr) (priv : list positive) (own : gmap positive Z) (s : rst) : Prop := {
  ri_len : length (observerLists s) = 64%nat;
  ri_lists : Forall is_Some (observerLists s);
  ri_garbage : is_Some (garbageList s);
  ri_nodup : NoDup (listed s ++ garbage s ++ priv);
  ri_heap : forall p, is_Some (heap s !! p) <-> p ∈ listed s ++ garbage s ++ priv;
  ri_entry : forall i p, p ∈ list_at s i -> exists e, heap s !! p = Some e /\ entry_ok cur own i p e;
  ri_cur : forall p, cur = Some p -> p ∈ listed s
}.

Lemma list_index_bound ev : (list_index ev < 64)%nat.
Proof. unfold list_index, NUM_EVENT_LISTS. pose proof (Z.mod_pos_bound (u32 ev) 64). lia. Qed.

Lemma get_list_spec s i : length (observerLists s) = 64%nat -> Forall is_Some (observerLists s) -> (i < 64)%nat ->
  get_list i s = Some (Some (list_at s i), s) /\ observerLists s !! i = Some (Some (list_at s i)).
Proof.
  intros Hl Ha Hi. destruct (lookup_lt_is_Some_2 (observerLists s) i) as [x E]; [lia|].
  destruct (proj1 (Forall_lookup _ _) Ha i x E) as [l ->]. unfold get_list, list_at. by rewrite E.
Qed.

Lemma inv_get_list cur priv own s i : reg_inv cur priv own s -> (i < 64)%nat -> get_list i s = Some (Some (list_at s i), s).
Proof. intros Hi Hlt. by apply get_list_spec; [apply (ri_len _ _ _ _ Hi)|apply (ri_lists _ _ _ _ Hi)|]. Qed.

Lemma elem_of_concat {A} (x : A) (ls : list (list A)) : x ∈ concat ls <-> exists l, l ∈ ls /\ x ∈ l.
Proof.
  induction ls as [|l ls IH]; cbn.
  - split; [by intros ?%elem_of_nil|intros (l & Hl & _); by apply elem_of_nil in Hl].
  - rewrite elem_of_app, IH. split.
    + intros [Hx|(l' & H1 & H2)]; [exists l; split; [left|done]|exists l'; split; [by right|done]].
    + intros (l' & [->|H1]%elem_of_cons & H2); [by left|right; by exists l'].
Qed.

Lemma filter_id {A} (P : A -> Prop) `{!forall x, Decision (P x)} (l : list A) : (forall x, x ∈ l -> P x) -> filter P l = l.
Proof.
  induction l as [|x l IH]; intros Hall; [done|]. rewrite filter_cons_True by (apply Hall; left). f_equal. apply IH. intros y Hy. apply Hall. by right.
Qed.

Lemma elem_of_listed s p : p ∈ listed s <-> exists i, p ∈ list_at s i.
Proof.
  unfold listed, list_at. rewrite elem_of_concat. split.
  - intros (l & Hl & Hp). apply list_elem_of_fmap in Hl as (x & -> & Hx). apply list_elem_of_lookup in Hx as [i Hi].
    exists i. rewrite Hi. destruct x; [done|by apply elem_of_nil in Hp].
  - intros [i Hp]. destruct (observerLists s !! i) as [[l|]|] eqn:E; [|by apply elem_of_nil in Hp..].
    exists l. split; [|exact Hp]. apply list_elem_of_fmap. exists (Some l). split; [done|]. by eapply list_elem_of_lookup_2.
Qed.

Lemma list_at_index cur priv own s i p : reg_inv cur priv own s -> p ∈ list_at s i -> (i < 64)%nat.
Proof. intros Hi Hp. destruct (ri_entry _ _ _ _ Hi i p Hp) as (e & _ & He). rewrite <- (eo_index _ _ _ _ _ He). apply list_index_bound. Qed.

(** The parts of [listed] around one list. *)
Lemma listed_split s i : length (observerLists s) = 64%nat -> (i < 64)%nat ->
  exists A B, listed s = A ++ list_at s i ++ B /\
  forall l h g, listed (mk_rst h (<[i := Some l]> (observerLists s)) g) = A ++ l ++ B.
Proof.
  intros Hl Hi. destruct (lookup_lt_is_Some_2 (observerLists s) i) as [x E]; [lia|].
  exists (concat (default [] <$> take i (observerLists s))), (concat (default [] <$> drop (S i) (observerLists s))). split.
  - unfold listed. rewrite <- (take_drop_middle _ _ _ E) at 1. rewrite fmap_app, fmap_cons, concat_app. cbn.
    unfold list_at. rewrite E. destruct x; reflexivity.
  - intros l h g. unfold listed. cbn [observerLists]. rewrite insert_take_drop by lia.
    rewrite fmap_app, fmap_cons, concat_app. reflexivity.
Qed.

Lemma list_at_insert s i j l h g : length (observerLists s) = 64%nat -> (i < 64)%nat ->
  list_at (mk_rst h (<[i := Some l]> (observerLists s)) g) j = if decide (j = i) then l else list_at s j.
Proof.
  intros Hl Hi. unfold list_at. cbn [observerLists]. destruct (decide (j = i)) as [->|].
  - by rewrite list_lookup_insert_eq by lia.
  - by rewrite list_lookup_insert_ne by done.
Qed.

Lemma lists_insert s i l : Forall is_Some (observerLists s) -> Forall is_Some (<[i := Some l]> (observerLists s)).
Proof. intros H. by apply Forall_insert. Qed.

Lemma remove_node_spec p l : NoDup l -> remove_node p l = filter (fun q => q <> p) l.
Proof.
  induction l as [|q l IH]; [done|]. intros [Hq Hl]%NoDup_cons. cbn [remove_node].
  destruct (decide (q = p)) as [->|Hne]; [rewrite filter_cons_False by tauto|rewrite filter_cons_True by done; by rewrite IH].
  symmetry. apply filter_id. by intros x Hx ->.
Qed.

(** The first entry of a list that satisfies a test. *)
Fixpoint first_match (h : gmap positive EventMgrEntry) (m : EventMgrEntry -> bool) (l : list positive) : ptr :=
  match l with
  | [] => None
  | p :: l => match h !! p with Some e => if m e then Some p else first_match h m l | None => None end
  end.

Lemma entry_update_some p f s e : heap s !! p = Some e -> update p f s = Some (tt, with_heap (<[p := f e]> (heap s)) s).
Proof. intros E. unfold update. by rewrite E. Qed.
Lemma deref_some p s e : heap s !! p = Some e -> deref p s = Some (e, s).
Proof. intros E. unfold deref. by rewrite E. Qed.
Lemma free_some p s e : heap s !! p = Some e -> free_entry p s = Some (tt, with_heap (delete p (heap s)) s).
Proof. intros E. unfold free_entry. by rewrite E. Qed.

Lemma reg_find_spec m s l : (forall p, p ∈ l -> is_Some (heap s !! p)) -> find_node m l s = Some (first_match (heap s) m l, s).
Proof.
  induction l as [|p l IH]; intros Hl; [done|]. cbn [find_node first_match].
  destruct (Hl p) as [e E]; [left|]. rewrite (sbind_some _ _ _ _ _ (deref_some p s e E)), E. destruct (m e); [reflexivity|]. apply IH. intros q Hq. apply Hl. by right.
Qed.

Lemma first_match_some h m l p : first_match h m l = Some p ->
  exists l1 l2 e, l = l1 ++ p :: l2 /\ h !! p = Some e /\ m e = true /\
    forall q e', q ∈ l1 -> h !! q = Some e' -> m e' = false.
Proof.
  induction l as [|q l IH]; cbn [first_match]; [done|]. destruct (h !! q) as [e|] eqn:E; [|done].
  destruct (m e) eqn:Em.
  - intros [= <-]. exists [], l, e. split_and!; try done. intros q' e' Hq. by apply elem_of_nil in Hq.
  - intros (l1 & l2 & e' & -> & H2 & H3 & H4)%IH. exists (q :: l1), l2, e'. split_and!; try done.
    intros q' e2 [->|Hq]%elem_of_cons E2; [congruence|by apply (H4 q')].
Qed.

Lemma first_match_none h m l : (forall p, p ∈ l -> is_Some (h !! p)) -> first_match h m l = None ->
  forall q e, q ∈ l -> h !! q = Some e -> m e = false.
Proof.
  induction l as [|q l IH]; cbn [first_match]; intros Hl Hn q' e' Hq E; [by apply elem_of_nil in Hq|].
  destruct (Hl q) as [e Eq]; [left|]. rewrite Eq in Hn. destruct (m e) eqn:Em; [done|].
  apply elem_of_cons in Hq as [->|Hq]; [congruence|]. apply (IH) with q'; try done. intros p Hp. apply Hl. by right.
Qed.

Lemma first_match_ext h m m' l : (forall q e, h !! q = Some e -> m e = m' e) -> first_match h m l = first_match h m' l.
Proof.
  intros Hm. induction l as [|q l IH]; [done|]. cbn. destruct (h !! q) as [e|] eqn:E; [|done]. by rewrite (Hm q e E), IH.
Qed.

(** A live entry of a list can be used. *)
Lemma inv_listed cur priv own s i p : reg_inv cur priv own s -> p ∈ list_at s i -> is_Some (heap s !! p).
Proof. intros Hi Hp. destruct (ri_entry _ _ _ _ Hi i p Hp) as (e & -> & _). done. Qed.


Lemma entry_at cur priv own s i p e : reg_inv cur priv own s -> p ∈ list_at s i -> heap s !! p = Some e -> entry_ok cur own i p e.
Proof. intros Hi Hp E. destruct (ri_entry _ _ _ _ Hi i p Hp) as (e' & E' & He). congruence. Qed.

(** One list holds an entry. *)
Lemma list_at_unique cur priv own s i j p : reg_inv cur priv own s -> p ∈ list_at s i -> p ∈ list_at s j -> i = j.
Proof.
  intros Hi H1 H2. destruct (ri_entry _ _ _ _ Hi i p H1) as (e & E & He). pose proof (entry_at _ _ _ _ _ _ e Hi H2 E) as He2.
  rewrite <- (eo_index _ _ _ _ _ He). by rewrite <- (eo_index _ _ _ _ _ He2).
Qed.

Lemma list_at_nodup cur priv own s i : reg_inv cur priv own s -> NoDup (list_at s i).
Proof.
  intros Hi. destruct (decide (i < 64)%nat) as [Hlt|Hge].
  - destruct (listed_split s i (ri_len _ _ _ _ Hi) Hlt) as (A & B & E & _). pose proof (ri_nodup _ _ _ _ Hi) as Hn.
    rewrite E in Hn. apply NoDup_app in Hn as (Hn & _ & _). apply NoDup_app in Hn as (_ & _ & Hn). by apply NoDup_app in Hn as (Hn & _ & _).
  - unfold list_at. rewrite lookup_ge_None_2; [constructor|]. rewrite (ri_len _ _ _ _ Hi). lia.
Qed.

(** Changing an entry of a list, the entry the event thread is in, and the
    registrations. *)
Lemma inv_change cur priv own s i p e' cur' own' : reg_inv cur priv own s -> p ∈ list_at s i ->
  entry_ok cur' own' i p e' ->
  (forall q, q <> p -> (cur' = Some q <-> cur = Some q) /\ owners own' q = owners own q) ->
  reg_inv cur' priv own' (with_heap (<[p := e']> (heap s)) s).
Proof.
  intros Hi Hp He Hoth. destruct Hi as [A B C D E F G].
  assert (Hlp : p ∈ listed s) by (apply elem_of_listed; by exists i).
  split; try done.
  - intros q. cbn. destruct (decide (q = p)) as [->|Hne].
    + rewrite lookup_insert_eq. split; [intros _|by eauto]. apply elem_of_app. by left.
    + rewrite lookup_insert_ne by done. apply E.
  - intros j q Hq. cbn in Hq |- *. destruct (decide (q = p)) as [->|Hne].
    + rewrite lookup_insert_eq. exists e'. split; [done|]. assert (j = i) as ->; [|done].
      destruct (F i p Hp) as (e1 & E1 & H1). destruct (F j p Hq) as (e2 & E2 & H2). rewrite <- (eo_index _ _ _ _ _ H1), <- (eo_index _ _ _ _ _ H2). congruence.
    + rewrite lookup_insert_ne by done. destruct (F j q Hq) as (e1 & E1 & [H1 H2 H3 H4 H5]). exists e1. split; [done|].
      destruct (Hoth q Hne) as [Hc Ho]. split; rewrite ?Ho; try done.
      * rewrite H2. by apply bool_decide_ext.
      * rewrite H3. destruct (decide (cur = Some q)), (decide (cur' = Some q)); tauto.
      * rewrite Hc. exact H5.
  - intros q Hq. destruct (decide (q = p)) as [->|Hne]; [done|]. apply G. by apply Hoth.
Qed.

(** A new entry joins its list. *)
Lemma inv_new cur priv own s p e : reg_inv cur priv own s -> heap s !! p = None ->
  isInUse e = false -> refCount e = 1 -> markedForDelete e = false ->
  let i := list_index (esif_event (fpcEvent e)) in
  reg_inv cur priv (<[p := 1]> own) (mk_rst (<[p := e]> (heap s)) (<[i := Some (list_at s i ++ [p])]> (observerLists s)) (garbageList s)).
Proof.
  intros Hi Hp Hu Hr Hm i. pose proof (list_index_bound (esif_event (fpcEvent e))) as Hlt. fold i in Hlt.
  pose proof (listed_split s i (ri_len _ _ _ _ Hi) Hlt) as (A & B & El & Enew). pose proof Hi as [H1 H2 H3 H4 H5 H6 H7].
  assert (Hnp : p ∉ listed s ++ garbage s ++ priv) by (rewrite <- H5, Hp; by intros []).
  assert (Hperm : listed (mk_rst (<[p := e]> (heap s)) (<[i := Some (list_at s i ++ [p])]> (observerLists s)) (garbageList s)) ++ garbage s ++ priv
    ≡ₚ p :: (listed s ++ garbage s ++ priv)) by (rewrite Enew, El; solve_Permutation).
  assert (Hcur : cur <> Some p).
  { intros Ec. apply Hnp, elem_of_app. left. by apply H7. }
  split; cbn [heap observerLists garbageList]; try done.
  - by rewrite length_insert.
  - by apply lists_insert.
  - unfold garbage at 1. cbn [garbageList]. fold (garbage s). rewrite Hperm. by apply NoDup_cons.
  - intros q. unfold garbage at 1. cbn [garbageList]. fold (garbage s). rewrite Hperm, elem_of_cons, <- H5.
    destruct (decide (q = p)) as [->|Hne]; [rewrite lookup_insert_eq; split; [by left|eauto]|rewrite lookup_insert_ne by done; naive_solver].
  - intros j q. rewrite list_at_insert by done. destruct (decide (j = i)) as [->|Hne].
    + intros [Hq| ->%list_elem_of_singleton]%elem_of_app.
      * assert (q <> p) by (intros ->; apply Hnp, elem_of_app; left; apply elem_of_listed; by exists i).
        rewrite lookup_insert_ne by done. destruct (H6 i q Hq) as (e1 & E1 & [G1 G2 G3 G4 G5]). exists e1. split; [done|].
        assert (Eo : owners (<[p := 1]> own) q = owners own q) by (unfold owners; by rewrite lookup_insert_ne).
        split; rewrite ?Eo; done.
      * rewrite lookup_insert_eq. exists e. split; [done|]. assert (Eo : owners (<[p := 1]> own) p = 1) by (unfold owners; by rewrite lookup_insert_eq).
        split; rewrite ?Eo; [done|by rewrite bool_decide_eq_false_2|rewrite decide_False by done; lia|lia|]. split; [lia|done].
    + intros Hq. assert (q <> p) by (intros ->; apply Hnp, elem_of_app; left; apply elem_of_listed; by exists j).
      rewrite lookup_insert_ne by done. destruct (H6 j q Hq) as (e1 & E1 & [G1 G2 G3 G4 G5]). exists e1. split; [done|].
      assert (Eo : owners (<[p := 1]> own) q = owners own q) by (unfold owners; by rewrite lookup_insert_ne).
      split; rewrite ?Eo; done.
  - intros q Hq. apply H7 in Hq. rewrite El in Hq. rewrite Enew. set_solver.
Qed.

(** An entry leaves its list, for the garbage list or for good. *)
Lemma inv_leave cur priv own s i p h g priv' : reg_inv cur priv own s -> p ∈ list_at s i -> cur <> Some p ->
  (forall q, q <> p -> h !! q = heap s !! q) ->
  (garbage s ++ [p] = g /\ priv' = priv /\ is_Some (h !! p) \/ garbage s = g /\ priv' = priv /\ h !! p = None) ->
  reg_inv cur priv' (delete p own) (mk_rst h (<[i := Some (remove_node p (list_at s i))]> (observerLists s)) (Some g)).
Proof.
  intros Hi Hp Hcur Hh Hg. pose proof (list_at_index _ _ _ _ _ _ Hi Hp) as Hlt.
  pose proof (listed_split s i (ri_len _ _ _ _ Hi) Hlt) as (A & B & El & Enew). pose proof (list_at_nodup _ _ _ _ i Hi) as Hnd.
  rewrite remove_node_spec by done. pose proof Hi as [H1 H2 H3 H4 H5 H6 H7].
  assert (Hperm : listed s ++ garbage s ++ priv ≡ₚ p :: ((A ++ filter (fun q => q <> p) (list_at s i) ++ B) ++ garbage s ++ priv)).
  { rewrite El. apply list_elem_of_split in Hp as (l1 & l2 & E). rewrite E in Hnd |- *. apply NoDup_app_cons_swap in Hnd as (Hn1 & Hn2 & _).
    rewrite filter_app, filter_cons_False by tauto. rewrite !filter_id by (intros x Hx ->; done). solve_Permutation. }
  rewrite Hperm in H4. apply NoDup_cons in H4 as [Hnp H4].
  assert (Hne : forall j q, q ∈ list_at (mk_rst h (<[i := Some (filter (fun q => q <> p) (list_at s i))]> (observerLists s)) (Some g)) j -> q <> p /\ q ∈ list_at s j).
  { intros j q. rewrite list_at_insert by done. destruct (decide (j = i)) as [->|Hne]; [intros [? ?]%list_elem_of_filter; done|].
    intros Hq. split; [|done]. intros ->. apply Hne. by apply (list_at_unique _ _ _ _ _ _ _ Hi Hq). }
  split; cbn [heap observerLists garbageList]; try done.
  - by rewrite length_insert.
  - by apply lists_insert.
  - rewrite Enew. unfold garbage at 1. cbn [garbageList default]. cbn [Datatypes.id]. destruct Hg as [(<- & -> & _)|(<- & -> & _)]; [|exact H4].
    assert (Hp2 : (A ++ filter (fun q => q <> p) (list_at s i) ++ B) ++ (garbage s ++ [p]) ++ priv ≡ₚ
       p :: ((A ++ filter (fun q => q <> p) (list_at s i) ++ B) ++ garbage s ++ priv)) by solve_Permutation.
    rewrite Hp2. by apply NoDup_cons.
  - intros q. rewrite Enew. unfold garbage at 1. cbn [garbageList default Datatypes.id].
    assert (Hq : q <> p -> (is_Some (h !! q) <-> q ∈ (A ++ filter (fun q => q <> p) (list_at s i) ++ B) ++ garbage s ++ priv)).
    { intros Hqp. rewrite (Hh q Hqp), H5, Hperm, elem_of_cons. naive_solver. }
    destruct Hg as [(<- & -> & Hs)|(<- & -> & Hs)]; destruct (decide (q = p)) as [->|Hqp].
    + split; [intros _; rewrite !elem_of_app, list_elem_of_singleton; tauto|done].
    + rewrite (Hq Hqp). rewrite !elem_of_app, list_elem_of_singleton. tauto.
    + rewrite Hs. split; [by intros []|]. done.
    + by apply Hq.
  - intros j q Hq. destruct (Hne j q Hq) as [Hqp Hq']. destruct (H6 j q Hq') as (e1 & E1 & [G1 G2 G3 G4 G5]). exists e1. split; [by rewrite Hh|].
    assert (Eo : owners (delete p own) q = owners own q) by (unfold owners; by rewrite lookup_delete_ne).
    split; rewrite ?Eo; done.
  - intros q Hq. pose proof (H7 q Hq) as Hl. rewrite Enew. rewrite El in Hl. assert (q <> p) by congruence.
    rewrite !elem_of_app in Hl |- *. rewrite list_elem_of_filter. tauto.
Qed.

Lemma inv_pop cur priv own s p g : reg_inv cur priv own s -> garbageList s = Some (p :: g) ->
  reg_inv cur (p :: priv) own (with_garbage (Some g) s).
Proof.
  intros [A B C D E F G] Eg. assert (Hperm : listed s ++ garbage s ++ priv ≡ₚ listed s ++ g ++ p :: priv).
  { unfold garbage. rewrite Eg. cbn. solve_Permutation. }
  split; try done.
  - unfold garbage in Hperm |- *. cbn in Hperm |- *. change (listed (with_garbage (Some g) s)) with (listed s). by rewrite <- Hperm.
  - intros q. unfold garbage in Hperm |- *. cbn in Hperm |- *. change (listed (with_garbage (Some g) s)) with (listed s). by rewrite <- Hperm.
Qed.

Lemma inv_free cur priv1 priv2 own s p : reg_inv cur (priv1 ++ p :: priv2) own s ->
  reg_inv cur (priv1 ++ priv2) own (with_heap (delete p (heap s)) s).
Proof.
  intros [A B C D E F G]. assert (Hperm : listed s ++ garbage s ++ priv1 ++ p :: priv2 ≡ₚ p :: (listed s ++ garbage s ++ priv1 ++ priv2)) by solve_Permutation.
  rewrite Hperm in D. apply NoDup_cons in D as [Hnp D]. split; try done.
  - intros q. cbn. destruct (decide (q = p)) as [->|Hne].
    + rewrite lookup_delete_eq. split; [by intros []|done].
    + rewrite lookup_delete_ne by done. rewrite E, Hperm, elem_of_cons. naive_solver.
  - intros j q Hq. destruct (F j q Hq) as (e & Ee & He). exists e. split; [|done]. cbn. rewrite lookup_delete_ne; [done|].
    intros <-. apply Hnp, elem_of_app. left. apply elem_of_listed. by exists j.
Qed.

(* ------------------------------------------------------------------ *)
(** ** The critical sections keep the states well-formed *)

Section Critical.
Context (cur : ptr) (priv : list positive) (own : gmap positive Z) (s : rst) (Hi : reg_inv cur priv own s).

Lemma find_listed m i : find_node m (list_at s i) s = Some (first_match (heap s) m (list_at s i), s).
Proof. apply reg_find_spec. intros p Hp. exact (inv_listed _ _ _ _ _ _ Hi Hp). Qed.

Lemma listed_first m i p : first_match (heap s) m (list_at s i) = Some p ->
  p ∈ list_at s i /\ exists e, heap s !! p = Some e /\ m e = true /\ entry_ok cur own i p e.
Proof.
  intros Hf. destruct (first_match_some _ _ _ _ Hf) as (l1 & l2 & e & El & Ee & Hm & _).
  assert (Hp : p ∈ list_at s i) by (rewrite El; apply elem_of_app; right; left). split; [done|]. exists e. split_and!; try done.
  by apply (entry_at _ _ _ _ _ _ _ Hi Hp).
Qed.

(** One registration more. *)
Definition count_up (p : positive) (e : EventMgrEntry) : rst := with_heap (<[p := with_ref (refCount e + 1) e]> (heap s)) s.

Lemma inv_count_up i p e : p ∈ list_at s i -> heap s !! p = Some e -> markedForDelete e = false ->
  reg_inv cur priv (<[p := owners own p + 1]> own) (count_up p e).
Proof.
  intros Hp Ee Hm. pose proof (entry_at _ _ _ _ _ _ _ Hi Hp Ee) as [H1 H2 H3 H4 H5].
  assert (Eo : owners (<[p := owners own p + 1]> own) p = owners own p + 1) by (unfold owners; by rewrite lookup_insert_eq).
  apply (inv_change cur priv own s i p _ cur); try done.
  - split; rewrite ?Eo; cbn [with_ref refCount fpcEvent isInUse markedForDelete]; try done; try lia. intros _. split; [lia|done].
  - intros q Hq. split; [done|]. unfold owners. by rewrite lookup_insert_ne.
Qed.

Lemma add_find_spec fpc pid dom cb ctx :
  let i := list_index (esif_event fpc) in
  match first_match (heap s) (same_registration fpc pid dom cb ctx) (list_at s i) with
  | None => add_find fpc pid dom cb ctx s = Some (FoundNone, s)
  | Some p => exists e, heap s !! p = Some e /\ p ∈ list_at s i /\ same_registration fpc pid dom cb ctx e = true /\
      if markedForDelete e then cur = Some p /\ add_find fpc pid dom cb ctx s = Some (FoundMarked p, s)
      else add_find fpc pid dom cb ctx s = Some (FoundOne, count_up p e)
  end.
Proof.
  intros i. pose proof (list_index_bound (esif_event fpc)) as Hlt. fold i in Hlt. unfold add_find. fold i.
  rewrite (sbind_some _ _ _ _ _ (inv_get_list _ _ _ _ _ Hi Hlt)). rewrite (sbind_some _ _ _ _ _ (find_listed _ i)).
  destruct (first_match _ _ _) as [p|] eqn:Ef; [|done]. destruct (listed_first _ _ _ Ef) as (Hp & e & Ee & Hm & He).
  exists e. split; [done|split; [done|split; [done|]]]. rewrite (sbind_some _ _ _ _ _ (deref_some p s e Ee)).
  destruct (markedForDelete e) eqn:Em; cbn [negb].
  - split; [|done]. destruct (decide (cur = Some p)) as [|Hn]; [done|]. destruct (eo_free _ _ _ _ _ He Hn). congruence.
  - by rewrite (sbind_some _ _ _ _ _ (entry_update_some p _ s e Ee)).
Qed.

(** The entry [e], allocated at [p], added to its list. *)
Definition with_new (p : positive) (e : EventMgrEntry) : rst :=
  let i := list_index (esif_event (fpcEvent e)) in
  mk_rst (<[p := e]> (heap s)) (<[i := Some (list_at s i ++ [p])]> (observerLists s)) (garbageList s).

Lemma add_insert_spec p fpc e : fpcEvent e = fpc ->
  add_insert p fpc (with_heap (<[p := e]> (heap s)) s) = Some (tt, with_new p e).
Proof.
  intros <-. pose proof (list_index_bound (esif_event (fpcEvent e))) as Hlt. unfold add_insert.
  assert (Eg : get_list (list_index (esif_event (fpcEvent e))) (with_heap (<[p := e]> (heap s)) s) =
    Some (Some (list_at s (list_index (esif_event (fpcEvent e)))), with_heap (<[p := e]> (heap s)) s)).
  { apply (get_list_spec (with_heap _ s) _); [apply (ri_len _ _ _ _ Hi)|apply (ri_lists _ _ _ _ Hi)|done]. }
  by rewrite (sbind_some _ _ _ _ _ Eg).
Qed.

Lemma move_to_garbage_spec s' p g : garbageList s' = Some g ->
  EsifEventMgr_MoveEntryToGarbage true p s' = Some (ESIF_OK, with_garbage (Some (g ++ [p])) s').
Proof. intros E. unfold EsifEventMgr_MoveEntryToGarbage, sbind, sget. by rewrite E. Qed.

(** The entry [p] out of its list, at the end of the garbage or freed. *)
Definition to_garbage (i : nat) (p : positive) (e : EventMgrEntry) : rst :=
  mk_rst (<[p := e]> (heap s)) (<[i := Some (remove_node p (list_at s i))]> (observerLists s)) (Some (garbage s ++ [p])).
Definition dropped (i : nat) (p : positive) : rst :=
  mk_rst (delete p (heap s)) (<[i := Some (remove_node p (list_at s i))]> (observerLists s)) (Some (garbage s)).

Lemma garbage_some : garbageList s = Some (garbage s).
Proof. unfold garbage. by destruct (ri_garbage _ _ _ _ Hi) as [g ->]. Qed.

Lemma inv_to_garbage i p e : p ∈ list_at s i -> cur <> Some p -> reg_inv cur priv (delete p own) (to_garbage i p e).
Proof.
  intros Hp Hc. apply (inv_leave cur priv own s i p); try done.
  - intros q Hq. by rewrite lookup_insert_ne.
  - left. split_and!; [done|done|]. by rewrite lookup_insert_eq.
Qed.

Lemma inv_dropped i p : p ∈ list_at s i -> cur <> Some p -> reg_inv cur priv (delete p own) (dropped i p).
Proof.
  intros Hp Hc. apply (inv_leave cur priv own s i p); try done.
  - intros q Hq. by rewrite lookup_delete_ne.
  - right. split_and!; [done|done|]. by rewrite lookup_delete_eq.
Qed.

Lemma add_undo_spec i p : p ∈ list_at s i -> add_undo i (Some p) (Some p) s = Some (tt, dropped i p).
Proof.
  intros Hp. pose proof (list_at_index _ _ _ _ _ _ Hi Hp) as Hlt. unfold add_undo.
  rewrite (sbind_some _ _ _ _ _ (inv_get_list _ _ _ _ _ Hi Hlt)). destruct (inv_listed _ _ _ _ _ _ Hi Hp) as [e Ee].
  unfold set_list. run_monad. unfold free_entry, with_lists, with_heap. cbn [heap observerLists garbageList]. rewrite Ee. by rewrite garbage_some.
Qed.

(** One registration less. *)
Definition count_down (p : positive) (e : EventMgrEntry) : rst := with_heap (<[p := with_ref (refCount e - 1) e]> (heap s)) s.

Lemma release_find_spec fpc pid dom cb ctx :
  let i := list_index (esif_event fpc) in
  match first_match (heap s) (same_observer fpc pid dom cb ctx) (list_at s i) with
  | None => release_find true fpc pid dom cb ctx s = Some (ESIF_OK, s)
  | Some p => exists e, heap s !! p = Some e /\ p ∈ list_at s i /\ same_observer fpc pid dom cb ctx e = true /\
      release_find true fpc pid dom cb ctx s =
      Some (ESIF_OK, if (refCount e - 1 <=? 0) || markedForDelete e then to_garbage i p (with_ref (refCount e - 1) e) else count_down p e)
  end.
Proof.
  intros i. pose proof (list_index_bound (esif_event fpc)) as Hlt. fold i in Hlt. unfold release_find. fold i.
  rewrite (sbind_some _ _ _ _ _ (inv_get_list _ _ _ _ _ Hi Hlt)). rewrite (sbind_some _ _ _ _ _ (find_listed _ i)).
  destruct (first_match _ _ _) as [p|] eqn:Ef; [|done]. destruct (listed_first _ _ _ Ef) as (Hp & e & Ee & Hm & He).
  exists e. split; [done|split; [done|split; [done|]]]. rewrite (sbind_some _ _ _ _ _ (deref_some p s e Ee)).
  rewrite (sbind_some _ _ _ _ _ (entry_update_some p _ s e Ee)).
  destruct ((refCount e - 1 <=? 0) || markedForDelete e); [|done].
  unfold sbind at 1. unfold sbind at 1. rewrite (move_to_garbage_spec _ p (garbage s)); [reflexivity|]. apply garbage_some.
Qed.

(** With a registration to take back, and the entry not being deleted, releasing
    keeps the state well-formed. *)
Lemma reg_release_inv i p e : p ∈ list_at s i -> heap s !! p = Some e -> markedForDelete e = false -> 1 <= owners own p ->
  if (refCount e - 1 <=? 0) || markedForDelete e
  then cur <> Some p /\ owners own p = 1 /\ reg_inv cur priv (delete p own) (to_garbage i p (with_ref (refCount e - 1) e))
  else reg_inv cur priv (<[p := owners own p - 1]> own) (count_down p e).
Proof.
  intros Hp Ee Hm Ho. pose proof (entry_at _ _ _ _ _ _ _ Hi Hp Ee) as [H1 H2 H3 H4 H5]. rewrite Hm, orb_false_r.
  destruct (Z.leb_spec (refCount e - 1) 0).
  - assert (Hc : cur <> Some p) by (intros Hc; rewrite decide_True in H3 by done; lia). rewrite decide_False in H3 by done.
    split; [done|split; [lia|]]. by apply inv_to_garbage.
  - assert (Eo : owners (<[p := owners own p - 1]> own) p = owners own p - 1) by (unfold owners; by rewrite lookup_insert_eq).
    apply (inv_change cur priv own s i p _ cur); try done.
    + split; rewrite ?Eo; cbn [with_ref refCount fpcEvent isInUse markedForDelete]; try done; try lia. intros Hc. rewrite decide_False in H3 by done. split; [lia|done].
    + intros q Hq. split; [done|]. unfold owners. by rewrite lookup_insert_ne.
Qed.

End Critical.

(* ------------------------------------------------------------------ *)
(** ** Unregistering an application *)

Section Unregister.
Context (cb ctx : Z).

Definition mark_of_app (e : EventMgrEntry) : EventMgrEntry := if of_app cb ctx e then with_mark true e else e.
(** The entry stays in its list: it is another's, or in use. *)
Definition stays (h : gmap positive EventMgrEntry) (p : positive) : Prop :=
  match h !! p with Some e => of_app cb ctx e = false \/ isInUse e = true | None => True end.
#[local] Instance stays_dec h p : Decision (stays h p).
Proof. unfold stays. destruct (h !! p); apply _. Defined.

Definition marked_in (l : list positive) (h h' : gmap positive EventMgrEntry) : Prop :=
  forall q, h' !! q = if decide (q ∈ l) then mark_of_app <$> h !! q else h !! q.

Lemma stays_ext h h' (l : list positive) : (forall q, q ∈ l -> h' !! q = h !! q) -> filter (stays h') l = filter (stays h) l /\ filter (fun q => ~ stays h' q) l = filter (fun q => ~ stays h q) l.
Proof.
  intros Hq. assert (He : forall q, q ∈ l -> stays h' q <-> stays h q) by (intros q Hl; unfold stays; by rewrite Hq).
  clear Hq. induction l as [|q l IH]; [done|]. destruct IH as [I1 I2]; [intros x Hx; apply He; by right|].
  specialize (He q ltac:(left)). rewrite !filter_cons, I1, I2. destruct (decide (stays h' q)), (decide (stays h q)), (decide (~ stays h' q)), (decide (~ stays h q)); try tauto; done.
Qed.

Lemma unregister_nodes_spec l : forall s g, NoDup l -> (forall p, p ∈ l -> is_Some (heap s !! p)) -> garbageList s = Some g ->
  exists h', unregister_nodes (fun _ => true) cb ctx l s =
    Some (filter (stays (heap s)) l, mk_rst h' (observerLists s) (Some (g ++ filter (fun p => ~ stays (heap s) p) l))) /\ marked_in l (heap s) h'.
Proof.
  induction l as [|p l IH]; intros s g Hnd Hl Hg.
  { exists (heap s). split; [|intros q; by rewrite decide_False by apply not_elem_of_nil]. cbn. rewrite app_nil_r, <- Hg. by destruct s. }
  apply NoDup_cons in Hnd as [Hp Hnd]. destruct (Hl p) as [e Ee]; [left|]. cbn [unregister_nodes].
  rewrite (sbind_some _ _ _ _ _ (deref_some p s e Ee)).
  assert (Hrest : forall s1, (forall q, q ∈ l -> heap s1 !! q = heap s !! q) -> forall q, q ∈ l -> is_Some (heap s1 !! q)).
  { intros s1 H1 q Hq. rewrite H1 by done. apply Hl. by right. }
  assert (Hmark : forall s1 h', heap s1 !! p = Some (mark_of_app e) -> (forall q, q <> p -> heap s1 !! q = heap s !! q) -> marked_in l (heap s1) h' -> marked_in (p :: l) (heap s) h').
  { intros s1 h' H1 H2 H3 q. rewrite H3. destruct (decide (q = p)) as [->|Hne].
    - rewrite decide_False by done. rewrite decide_True by left. rewrite H1, Ee. done.
    - rewrite H2 by done. destruct (decide (q ∈ l)); [rewrite decide_True by (by right); done|].
      rewrite decide_False; [done|]. intros [->|]%elem_of_cons; done. }
  destruct (of_app cb ctx e) eqn:Ea.
  - rewrite (sbind_some _ _ _ _ _ (entry_update_some p _ s e Ee)). set (s1 := with_heap _ s).
    assert (H1 : heap s1 !! p = Some (mark_of_app e)) by (unfold mark_of_app; rewrite Ea; apply lookup_insert_eq).
    assert (H2 : forall q, q <> p -> heap s1 !! q = heap s !! q) by (intros q Hq; by apply lookup_insert_ne).
    assert (H3 : forall q, q ∈ l -> heap s1 !! q = heap s !! q) by (intros q Hq; apply H2; by intros ->).
    destruct (stays_ext (heap s) (heap s1) l H3) as [S1 S2]. destruct (isInUse e) eqn:Eu; cbn [negb].
    + destruct (IH s1 g Hnd (Hrest s1 H3) Hg) as (h' & E & Hm). exists h'. rewrite (sbind_some _ _ _ _ _ E). rewrite S1, S2.
      assert (Hst : stays (heap s) p) by (unfold stays; rewrite Ee; by right).
      rewrite filter_cons_True, filter_cons_False by tauto. split; [done|by apply (Hmark s1)].
    + rewrite (sbind_some _ _ _ _ _ (move_to_garbage_spec s1 p g Hg)). set (s2 := with_garbage _ s1).
      destruct (IH s2 (g ++ [p]) Hnd (Hrest s2 H3) eq_refl) as (h' & E & Hm). exists h'. rewrite E. change (heap s2) with (heap s1). rewrite S1, S2.
      assert (Hst : ~ stays (heap s) p) by (unfold stays; rewrite Ee, Ea, Eu; by intros [|]).
      rewrite filter_cons_False, filter_cons_True by tauto. split; [by rewrite <- app_assoc|by apply (Hmark s2)].
  - destruct (IH s g Hnd) as (h' & E & Hm); [intros q Hq; apply Hl; by right|done|]. exists h'. rewrite (sbind_some _ _ _ _ _ E).
    assert (Hst : stays (heap s) p) by (unfold stays; rewrite Ee; by left). rewrite filter_cons_True, filter_cons_False by tauto.
    split; [done|]. apply (Hmark s); [unfold mark_of_app; by rewrite Ea|done|done].
Qed.

Lemma unregister_lists_spec ls2 : forall ls1 s g, observerLists s = ls1 ++ (Some <$> ls2) -> NoDup (concat ls2) ->
  (forall p, p ∈ concat ls2 -> is_Some (heap s !! p)) -> garbageList s = Some g ->
  exists h', unregister_lists (fun _ => true) cb ctx (length ls2) (length ls1) s =
    Some (tt, mk_rst h' (ls1 ++ ((fun l => Some (filter (stays (heap s)) l)) <$> ls2)) (Some (g ++ filter (fun p => ~ stays (heap s) p) (concat ls2)))) /\
    marked_in (concat ls2) (heap s) h'.
Proof.
  induction ls2 as [|l ls2 IH]; intros ls1 s g Hls Hnd Hl Hg.
  { exists (heap s). split; [|intros q; by rewrite decide_False by apply not_elem_of_nil]. cbn in *. rewrite !app_nil_r in *. rewrite <- Hg, <- Hls. by destruct s. }
  cbn [length unregister_lists concat fmap list_fmap] in *. apply NoDup_app in Hnd as (Hn1 & Hn2 & Hn3).
  assert (Eg : get_list (length ls1) s = Some (Some l, s)) by (unfold get_list; rewrite Hls, list_lookup_middle; done).
  rewrite (sbind_some _ _ _ _ _ Eg).
  destruct (unregister_nodes_spec l s g Hn1) as (h1 & E1 & Hm1); [intros p Hp; apply Hl, elem_of_app; by left|done|].
  rewrite (sbind_some _ _ _ _ _ E1). unfold set_list. unfold sbind at 1. unfold smodify at 1.
  set (s2 := with_lists _ _).
  assert (Hls2 : observerLists s2 = (ls1 ++ [Some (filter (stays (heap s)) l)]) ++ (Some <$> ls2)).
  { cbn. rewrite Hls, insert_app_r_alt, Nat.sub_diag by lia. cbn. by rewrite <- app_assoc. }
  assert (H2 : forall q, q ∈ concat ls2 -> heap s2 !! q = heap s !! q).
  { intros q Hq. change (heap s2) with h1. rewrite Hm1, decide_False; [done|]. intros Hql. by apply (Hn2 q). }
  destruct (IH (ls1 ++ [Some (filter (stays (heap s)) l)]) s2 (g ++ filter (fun p => ~ stays (heap s) p) l) Hls2 Hn3) as (h' & E & Hm); [intros p Hp; rewrite H2 by done; apply Hl, elem_of_app; by right|reflexivity|].
  rewrite length_app, Nat.add_1_r in E. exists h'. rewrite E. destruct (stays_ext (heap s) (heap s2) (concat ls2) H2) as [S1 S2]. rewrite S2.
  split.
  - do 3 f_equal; [|by rewrite filter_app, <- app_assoc].
    rewrite <- app_assoc. cbn. do 2 f_equal. apply list_fmap_ext. intros i x Hx. cbn. f_equal.
    apply stays_ext. intros q Hq. apply H2. apply elem_of_concat. exists x. split; [by eapply list_elem_of_lookup_2|done].
  - intros q. rewrite Hm. destruct (decide (q ∈ concat ls2)) as [Hq|Hq].
    + rewrite decide_True by (apply elem_of_app; by right). by rewrite H2.
    + change (heap s2) with h1. rewrite Hm1. destruct (decide (q ∈ l)); [by rewrite decide_True by (apply elem_of_app; by left)|].
      by rewrite decide_False by (rewrite elem_of_app; tauto).
Qed.
End Unregister.
#[export] Existing Instance stays_dec.

Lemma filter_concat {A} (P : A -> Prop) `{!forall x, Decision (P x)} (ls : list (list A)) : filter P (concat ls) = concat (filter P <$> ls).
Proof. induction ls as [|l ls IH]; [done|]. cbn. by rewrite filter_app, IH. Qed.

Lemma filter_split {A} (P : A -> Prop) `{!forall x, Decision (P x)} (l : list A) : filter P l ++ filter (fun x => ~ P x) l ≡ₚ l.
Proof.
  induction l as [|x l IH]; [done|]. destruct (decide (P x)).
  - rewrite filter_cons_True, filter_cons_False by tauto. cbn. by rewrite IH.
  - rewrite filter_cons_False, filter_cons_True by done. rewrite <- Permutation_middle. by rewrite IH.
Qed.

Lemma all_some {A} (l : list (option A)) d : Forall is_Some l -> l = Some <$> (default d <$> l).
Proof. induction 1 as [|x l [y ->] _ IH]; [done|]. cbn. by rewrite <- IH. Qed.

Lemma unregister_app_spec cur priv own s cb ctx : reg_inv cur priv own s ->
  exists s', unregister_app_find (fun _ => true) cb ctx s = Some (tt, s') /\
    (forall i, list_at s' i = filter (stays cb ctx (heap s)) (list_at s i)) /\
    garbage s' = garbage s ++ filter (fun p => ~ stays cb ctx (heap s) p) (listed s) /\
    marked_in cb ctx (listed s) (heap s) (heap s') /\ reg_inv cur priv own s'.
Proof.
  intros Hi. pose proof Hi as [H1 H2 H3 H4 H5 H6 H7]. set (ls := default [] <$> observerLists s).
  assert (Els : observerLists s = [] ++ (Some <$> ls)) by (cbn; by apply all_some).
  assert (Hls : concat ls = listed s) by done.
  destruct (unregister_lists_spec cb ctx ls [] s (garbage s) Els) as (h' & E & Hm).
  { rewrite Hls. by apply NoDup_app in H4 as (? & _). }
  { intros p Hp. apply H5, elem_of_app. left. by rewrite <- Hls. }
  { by apply (garbage_some _ _ _ _ Hi). }
  assert (Elen : length ls = 64%nat) by (unfold ls; by rewrite length_fmap).
  rewrite Elen in E. rewrite Hls in E, Hm. set (s' := mk_rst h' _ _) in E. exists s'. split; [exact E|].
  assert (Hat : forall i, list_at s' i = filter (stays cb ctx (heap s)) (list_at s i)).
  { intros i. unfold list_at. cbn [s' observerLists app]. rewrite list_lookup_fmap. unfold ls. rewrite list_lookup_fmap.
    destruct (observerLists s !! i) as [[l|]|]; reflexivity. }
  assert (Eg : garbage s' = garbage s ++ filter (fun p => ~ stays cb ctx (heap s) p) (listed s)) by done.
  assert (El : listed s' = filter (stays cb ctx (heap s)) (listed s)).
  { unfold listed at 1. cbn [s' observerLists app]. rewrite <- Hls, filter_concat. f_equal. rewrite <- list_fmap_compose. reflexivity. }
  assert (Hperm : listed s' ++ garbage s' ++ priv ≡ₚ listed s ++ garbage s ++ priv).
  { rewrite El, Eg. rewrite <- (filter_split (stays cb ctx (heap s)) (listed s)) at 3. solve_Permutation. }
  split; [done|split; [done|split; [done|]]]. split.
  - cbn. by rewrite length_fmap.
  - cbn. apply Forall_fmap, Forall_true. eauto.
  - cbn. eauto.
  - by rewrite Hperm.
  - intros q. rewrite Hperm, <- H5. cbn [s' heap]. rewrite Hm. destruct (decide (q ∈ listed s)); [|done]. by rewrite fmap_is_Some.
  - intros i p. rewrite Hat, list_elem_of_filter. intros [Hst Hp]. destruct (H6 i p Hp) as (e & Ee & [G1 G2 G3 G4 G5]).
    cbn [s' heap]. rewrite Hm, decide_True by (apply elem_of_listed; by exists i). rewrite Ee. exists (mark_of_app cb ctx e). split; [done|].
    unfold stays in Hst. rewrite Ee in Hst. unfold mark_of_app. destruct (of_app cb ctx e) eqn:Ea; [|done].
    destruct Hst as [|Hu]; [done|]. rewrite G2 in Hu. apply bool_decide_eq_true in Hu. by split.
  - intros p Hc. rewrite El. apply list_elem_of_filter. split; [|by apply H7]. destruct (proj1 (elem_of_listed _ _) (H7 p Hc)) as [i Hp].
    destruct (H6 i p Hp) as (e & Ee & [G1 G2 G3 G4 G5]). unfold stays. rewrite Ee. right. rewrite G2. by apply bool_decide_eq_true_2.
Qed.

(* ------------------------------------------------------------------ *)
(** ** Calling the observers *)

(** The event thread has a reference to [p] and is in its callback. *)
Definition entered (s : rst) (p : positive) (e : EventMgrEntry) : rst :=
  with_heap (<[p := with_use true (with_ref (refCount e + 1) e)]> (heap s)) s.

Lemma process_scan_spec ev pid dom l : forall s, (forall p, p ∈ l -> is_Some (heap s !! p)) ->
  match first_match (heap s) (is_observer ev pid dom) l with
  | None => process_scan ev pid dom l s = Some (None, s)
  | Some p => exists e, heap s !! p = Some e /\ is_observer ev pid dom e = true /\ process_scan ev pid dom l s = Some (Some p, entered s p e)
  end.
Proof.
  induction l as [|p l IH]; intros s Hl; [done|]. cbn [process_scan first_match]. destruct (Hl p) as [e Ee]; [left|].
  rewrite Ee. rewrite (sbind_some _ _ _ _ _ (deref_some p s e Ee)). destruct (is_observer ev pid dom e) eqn:Eo.
  - exists e. split; [done|split; [done|]]. by rewrite (sbind_some _ _ _ _ _ (entry_update_some p _ s e Ee)).
  - apply IH. intros q Hq. apply Hl. by right.
Qed.

Lemma inv_entered priv own s i p e : reg_inv None priv own s -> p ∈ list_at s i -> heap s !! p = Some e ->
  reg_inv (Some p) priv own (entered s p e).
Proof.
  intros Hi Hp Ee. pose proof (entry_at _ _ _ _ _ _ _ Hi Hp Ee) as [H1 H2 H3 H4 H5]. destruct H5 as [H5 H6]; [done|].
  apply (inv_change None priv own s i p _ (Some p)); try done.
  - split; cbn [with_use with_ref refCount fpcEvent isInUse markedForDelete]; try done; [by rewrite bool_decide_eq_true_2|].
    rewrite decide_False in H3 by done. rewrite decide_True by done. lia.
  - intros q Hq. split; [|done]. split; [intros [= ->]; done|done].
Qed.

(** Back from the callback: the reference is given back. *)
Definition left_entry (e : EventMgrEntry) : EventMgrEntry := with_use false (with_ref (refCount e - 1) e).

Lemma nodes_after_spec p l1 l2 : p ∉ l1 -> nodes_after p (l1 ++ p :: l2) = Some l2.
Proof.
  induction l1 as [|q l1 IH]; cbn [app nodes_after]; intros Hp; [by rewrite decide_True|].
  rewrite not_elem_of_cons in Hp. rewrite decide_False by (intros ->; tauto). apply IH. tauto.
Qed.

Lemma inv_left priv own s i p e : reg_inv (Some p) priv own s -> p ∈ list_at s i -> heap s !! p = Some e ->
  if (refCount e - 1 <=? 0) || markedForDelete e
  then reg_inv None priv (delete p own) (to_garbage s i p (left_entry e))
  else reg_inv None priv own (with_heap (<[p := left_entry e]> (heap s)) s).
Proof.
  intros Hi Hp Ee. pose proof (entry_at _ _ _ _ _ _ _ Hi Hp Ee) as [H1 H2 H3 H4 H5]. rewrite decide_True in H3 by done.
  (* Giving back the reference of an entry with no registration, or marked, is only
     right together with its leaving the list; go through a registered one. *)
  set (e0 := with_mark false (left_entry e)). set (own0 := <[p := 1]> own).
  assert (Eo0 : owners own0 p = 1) by (unfold owners, own0; by rewrite lookup_insert_eq).
  assert (Hi0 : reg_inv None priv own0 (with_heap (<[p := with_ref 1 e0]> (heap s)) s)).
  { apply (inv_change (Some p) priv own s i p _ None); try done.
    - split; rewrite ?Eo0; cbn; try done.
    - intros q Hq. split; [split; [done|by intros [= ->]]|]. unfold owners, own0. by rewrite lookup_insert_ne. }
  destruct ((refCount e - 1 <=? 0) || markedForDelete e) eqn:Ed.
  - set (s0 := with_heap _ _) in Hi0. pose proof (inv_to_garbage None priv own0 s0 Hi0 i p (left_entry e) Hp ltac:(done)) as Hg.
    replace (to_garbage s i p (left_entry e)) with (to_garbage s0 i p (left_entry e)).
    2: { unfold to_garbage. cbn [s0 with_heap heap observerLists garbageList]. rewrite insert_insert_eq. reflexivity. }
    replace (delete p own) with (delete p own0); [done|]. unfold own0. by rewrite delete_insert_eq.
  - apply orb_false_iff in Ed as [Hr%Z.leb_gt Hm].
    apply (inv_change (Some p) priv own s i p _ None); try done.
    + split; cbn [left_entry with_use with_ref refCount fpcEvent isInUse markedForDelete]; try done; [rewrite decide_False by done; lia|].
      intros _. split; [lia|done].
    + intros q Hq. split; [split; [done|by intros [= ->]]|done].
Qed.

(** What the event thread does next. *)
Definition after_left (s : rst) (i : nat) (p : positive) (e : EventMgrEntry) : rst :=
  if (refCount e - 1 <=? 0) || markedForDelete e then to_garbage s i p (left_entry e)
  else with_heap (<[p := left_entry e]> (heap s)) s.

Lemma process_return_spec priv own s ev pid dom p e l1 l2 : reg_inv (Some p) priv own s ->
  list_at s (list_index ev) = l1 ++ p :: l2 -> heap s !! p = Some e ->
  let s1 := after_left s (list_index ev) p e in
  process_return true ev pid dom p s =
  match process_scan ev pid dom l2 s1 with
  | Some (r, s2) => Some ((r, (refCount e - 1 <=? 0) || markedForDelete e), s2)
  | None => None
  end.
Proof.
  intros Hi El Ee s1. pose proof (list_index_bound ev) as Hlt. unfold process_return.
  rewrite (sbind_some _ _ _ _ _ (inv_get_list _ _ _ _ _ Hi Hlt)). cbn [of_option]. unfold sbind at 1. cbn [sret].
  pose proof (list_at_nodup _ _ _ _ (list_index ev) Hi) as Hnd. rewrite El in Hnd. apply NoDup_app_cons_swap in Hnd as (Hn1 & Hn2 & _).
  rewrite El, nodes_after_spec by done. unfold sbind at 1. cbn [of_option sret].
  rewrite (sbind_some _ _ _ _ _ (deref_some p s e Ee)). rewrite (sbind_some _ _ _ _ _ (entry_update_some p _ s e Ee)).
  subst s1. unfold after_left. destruct ((refCount e - 1 <=? 0) || markedForDelete e).
  - unfold sbind at 1. unfold sbind at 1. rewrite (move_to_garbage_spec _ p (garbage s)) by apply (garbage_some _ _ _ _ Hi).
    unfold set_list, smodify. unfold to_garbage, with_garbage, with_heap, with_lists. cbn [heap observerLists garbageList]. rewrite El.
    unfold sbind. cbn [list_at]. destruct (process_scan _ _ _ _ _) as [[r s2]|]; reflexivity.
  - unfold sbind. cbn [sret]. fold (left_entry e). destruct (process_scan _ _ _ _ _) as [[r s2]|]; reflexivity.
Qed.

(* ------------------------------------------------------------------ *)
(** ** Nobody interferes: one event *)

Definition entries_of (s : rst) (l : list positive) : list EventMgrEntry := omap (fun p => heap s !! p) l.
Definition entries_at (s : rst) (i : nat) : list EventMgrEntry := entries_of s (list_at s i).

Lemma entries_of_ext s s' l : (forall q, q ∈ l -> heap s !! q = heap s' !! q) -> entries_of s l = entries_of s' l.
Proof.
  unfold entries_of. induction l as [|q l IH]; intros H; [done|]. cbn. rewrite (H q) by left. rewrite IH; [done|]. intros x Hx. apply H. by right.
Qed.

Lemma left_entered e : isInUse e = false -> left_entry (with_use true (with_ref (refCount e + 1) e)) = e.
Proof. destruct e as [a b c d f g n u m]. cbn. intros ->. unfold left_entry, with_use, with_ref. cbn. f_equal. lia. Qed.

(** The call of [p] done, the event thread is where it would be if it had passed
    [p] by. *)
Lemma process_step_spec own s ev pid dom p e l1 l2 : reg_inv None [] own s ->
  list_at s (list_index ev) = l1 ++ p :: l2 -> heap s !! p = Some e ->
  process_return true ev pid dom p (entered s p e) =
  match process_scan ev pid dom l2 s with Some (r, s2) => Some ((r, false), s2) | None => None end.
Proof.
  intros Hi El Ee. assert (Hp : p ∈ list_at s (list_index ev)) by (rewrite El; apply elem_of_app; right; left).
  pose proof (entry_at _ _ _ _ _ _ _ Hi Hp Ee) as [H1 H2 H3 H4 H5]. destruct H5 as [H5 H6]; [done|]. cbn in H2. rewrite decide_False in H3 by done.
  pose proof (inv_entered [] own s _ p e Hi Hp Ee) as Hi'. set (e' := with_use true (with_ref (refCount e + 1) e)).
  rewrite (process_return_spec [] own (entered s p e) ev pid dom p e' l1 l2 Hi' El) by (apply lookup_insert_eq).
  assert (Ed : (refCount e' - 1 <=? 0) || markedForDelete e' = false).
  { cbn. rewrite H6, orb_false_r. apply Z.leb_gt. lia. }
  unfold after_left. rewrite Ed. cbn [heap entered with_heap]. unfold e'. rewrite left_entered by exact H2. fold e'.
  assert (Es : with_heap (<[p := e]> (<[p := e']> (heap s))) (entered s p e) = s).
  { unfold with_heap, entered. cbn. rewrite insert_insert_eq, insert_id by done. by destruct s. }
  rewrite Es. by destruct (process_scan ev pid dom l2 s) as [[r s2]|].
Qed.

Lemma process_loop_spec own s ev pid dom : reg_inv None [] own s ->
  forall l2 l1 n, list_at s (list_index ev) = l1 ++ l2 -> (length l2 <= n)%nat ->
  exists r s1, process_scan ev pid dom l2 s = Some (r, s1) /\
    process_loop true ev pid dom n r false s1 = Some ((call_of <$> filter (fun e => is_observer ev pid dom e = true) (entries_of s l2), false), s).
Proof.
  intros Hi. assert (Hl : forall l1 l2 p, list_at s (list_index ev) = l1 ++ l2 -> p ∈ l2 -> is_Some (heap s !! p)).
  { intros l1 l2 p El Hp. apply (inv_listed _ _ _ _ (list_index ev) p Hi). rewrite El. apply elem_of_app. by right. }
  intros l2. induction l2 as [|p l2 IH]; intros l1 n El Hn.
  { exists None, s. split; [done|]. by destruct n. }
  destruct (Hl l1 (p :: l2) p El ltac:(left)) as [e Ee]. cbn [process_scan]. rewrite (sbind_some _ _ _ _ _ (deref_some p s e Ee)).
  cbn [length] in Hn. assert (El' : list_at s (list_index ev) = (l1 ++ [p]) ++ l2) by (by rewrite <- app_assoc).
  assert (Een : entries_of s (p :: l2) = e :: entries_of s l2) by (unfold entries_of; cbn; by rewrite Ee). rewrite Een.
  destruct (is_observer ev pid dom e) eqn:Eo.
  - rewrite filter_cons_True by done. rewrite (sbind_some _ _ _ _ _ (entry_update_some p _ s e Ee)). eexists _, _. split; [reflexivity|].
    destruct n as [|n]; [lia|]. cbn [process_loop]. fold (entered s p e).
    assert (Ee' : heap (entered s p e) !! p = Some (with_use true (with_ref (refCount e + 1) e))) by (apply lookup_insert_eq).
    rewrite (sbind_some _ _ _ _ _ (deref_some p _ _ Ee')). destruct (IH (l1 ++ [p]) n El' ltac:(lia)) as (r & s1 & Es & Ek).
    unfold sbind at 1. rewrite (process_step_spec own s ev pid dom p e l1 l2 Hi El Ee), Es. cbn [fst snd orb].
    unfold sbind. rewrite Ek. reflexivity.
  - rewrite filter_cons_False by congruence. by apply (IH (l1 ++ [p]) n El'); lia.
Qed.

Lemma process_event_spec (own : gmap positive Z) (s : rst) (Hi : reg_inv None [] own s) (ev pid dom : Z) :
  EsifEventMgr_ProcessEvent true ev pid dom s =
  Some ((ESIF_OK, call_of <$> filter (fun e => is_observer ev pid dom e = true) (entries_at s (list_index ev))), s).
Proof.
  pose proof (list_index_bound ev) as Hlt. unfold EsifEventMgr_ProcessEvent.
  rewrite (sbind_some _ _ _ _ _ (inv_get_list _ _ _ _ _ Hi Hlt)).
  destruct (process_loop_spec own s ev pid dom Hi (list_at s (list_index ev)) [] (length (list_at s (list_index ev))) eq_refl ltac:(lia)) as (r & s1 & E1 & E2).
  rewrite (sbind_some _ _ _ _ _ E1), (sbind_some _ _ _ _ _ E2). reflexivity.
Qed.

(* ------------------------------------------------------------------ *)
(** ** Nobody interferes: emptying the garbage list *)

Lemma dump_loop_spec own g : forall cur s, reg_inv cur [] own s -> garbageList s = Some g ->
  exists s', dump_loop (length g) s = Some (entries_of s g, s') /\ reg_inv cur [] own s' /\
    observerLists s' = observerLists s /\ garbageList s' = Some [] /\
    forall q, heap s' !! q = if decide (q ∈ g) then None else heap s !! q.
Proof.
  induction g as [|p g IH]; intros cur s Hi Hg.
  { by exists s. }
  cbn [length dump_loop]. assert (Ep : pop_garbage s = Some (Some p, with_garbage (Some g) s)) by (unfold pop_garbage, sbind, sget; rewrite Hg; done).
  rewrite (sbind_some _ _ _ _ _ Ep). pose proof (inv_pop _ _ _ _ p g Hi Hg) as Hi1. set (s1 := with_garbage _ s) in *.
  assert (Hin : p ∈ listed s1 ++ garbage s1 ++ [p]) by (rewrite !elem_of_app, list_elem_of_singleton; tauto).
  destruct (proj2 (ri_heap _ _ _ _ Hi1 p) Hin) as [e Ee].
  assert (Ed : discard p s1 = Some (e, with_heap (delete p (heap s1)) s1)).
  { unfold discard. rewrite (sbind_some _ _ _ _ _ (deref_some p s1 e Ee)). by rewrite (sbind_some _ _ _ _ _ (free_some p s1 e Ee)). }
  rewrite (sbind_some _ _ _ _ _ Ed). pose proof (inv_free _ [] [] _ _ p Hi1) as Hi2. set (s2 := with_heap _ s1) in *.
  destruct (IH cur s2 Hi2 eq_refl) as (s' & E & Hi' & H1 & H2 & H3). exists s'.
  assert (Hng : p ∉ g).
  { pose proof (ri_nodup _ _ _ _ Hi) as Hn. unfold garbage in Hn. rewrite Hg in Hn. cbn in Hn. rewrite app_nil_r in Hn.
    apply NoDup_app in Hn as (_ & _ & Hn). by apply NoDup_cons in Hn as [? _]. }
  split_and!; try done.
  - rewrite (sbind_some _ _ _ _ _ E). unfold sret. do 2 f_equal. unfold entries_of. cbn. change (heap s1) with (heap s) in Ee. rewrite Ee. f_equal.
    apply (entries_of_ext s2 s g). intros q Hq. cbn. rewrite lookup_delete_ne; [done|]. by intros <-.
  - intros q. rewrite H3. destruct (decide (q ∈ g)) as [Hq|Hq]; [by rewrite decide_True by (by right)|]. cbn.
    destruct (decide (q = p)) as [->|Hne]; [rewrite lookup_delete_eq, decide_True by left; done|].
    rewrite lookup_delete_ne by done. rewrite decide_False; [done|]. rewrite not_elem_of_cons. done.
Qed.

Lemma dump_garbage_spec own s : reg_inv None [] own s ->
  exists s', EsifEventMgr_DumpGarbage s = Some ((ESIF_OK, entries_of s (garbage s)), s') /\ reg_inv None [] own s' /\
    observerLists s' = observerLists s /\ garbageList s' = Some [] /\
    forall q, heap s' !! q = if decide (q ∈ garbage s) then None else heap s !! q.
Proof.
  intros Hi. pose proof (garbage_some _ _ _ _ Hi) as Hg. destruct (dump_loop_spec own (garbage s) None s Hi Hg) as (s' & E & H).
  exists s'. split; [|done]. unfold EsifEventMgr_DumpGarbage, sbind, sget. rewrite Hg, E. reflexivity.
Qed.

(* ------------------------------------------------------------------ *)
(** ** The registry that the lists stand for

    Registrations in the order of the first of their kind, each with its count. *)

Record observer : Type := mk_observer { o_ev : Z; o_pid : Z; o_dom : Z; o_cb : Z; o_ctx : Z }.
#[export] Instance observer_eq_dec : EqDecision observer.
Proof. solve_decision. Defined.

Abbreviation registry := (list (observer * Z)).

Definition key_of (e : EventMgrEntry) : observer :=
  mk_observer (esif_event (fpcEvent e)) (participantId e) (domainId e) (callback e) (context e).
Definition rep (e : EventMgrEntry) : observer * Z := (key_of e, refCount e).

Definition bump (k : observer) (d : Z) (x : observer * Z) : observer * Z := if decide (x.1 = k) then (k, x.2 + d) else x.

(** The place of [k] takes a registration as [k']: they are the same but for the
    two handles of the primary participant, 0 and 1, which go for each other. *)
Definition takes (k' k : observer) : Prop :=
  o_ev k = o_ev k' /\ o_dom k = o_dom k' /\ o_cb k = o_cb k' /\ o_ctx k = o_ctx k' /\
  (o_pid k = o_pid k' \/
   EsifUpPm_IsPrimaryParticipantId (o_pid k) = true /\ EsifUpPm_IsPrimaryParticipantId (o_pid k') = true).
#[export] Instance takes_dec k' k : Decision (takes k' k).
Proof. unfold takes. apply _. Defined.

(** The first place that takes the registration counts it; else there is a new one. *)
Definition a_register (k : observer) (rc : Z) (r : registry) : Z * registry :=
  match head (filter (fun x => takes k x.1) r) with
  | Some x => (ESIF_OK, bump x.1 1 <$> r)
  | None => if rc =? ESIF_OK then (ESIF_OK, r ++ [(k, 1)]) else (rc, r)
  end.

(** Only the place of the very same handle gives a registration back.  The
    observers whose event is no longer wanted come with the result. *)
Definition a_unregister (k : observer) (r : registry) : list observer * registry :=
  match list_find (fun x => x.1 = k) r with
  | Some (_, (_, n)) => if n <=? 1 then ([k], filter (fun x => x.1 <> k) r) else ([], bump k (-1) <$> r)
  | None => ([], r)
  end.

Definition a_unregister_app (cb ctx : Z) (r : registry) : list observer * registry :=
  ((filter (fun x => o_cb x.1 = cb /\ o_ctx x.1 = ctx) r).*1, filter (fun x => ~ (o_cb x.1 = cb /\ o_ctx x.1 = ctx)) r).

(** The observers that an event is for. *)
Definition a_wants (ev pid dom : Z) (k : observer) : bool :=
  (ev =? o_ev k) &&
  ((o_pid k =? pid) || (o_pid k =? EVENT_MGR_MATCH_ANY) ||
   (EsifUpPm_IsPrimaryParticipantId (o_pid k) && EsifUpPm_IsPrimaryParticipantId pid)) &&
  ((o_dom k =? dom) || (o_dom k =? EVENT_MGR_MATCH_ANY_DOMAIN) || (dom =? EVENT_MGR_DOMAIN_NA)).

(** The lists hold the registry: each the part for its events, in order. *)
Record holds_registry (r : registry) (s : rst) : Prop := {
  hr_inv : exists own, reg_inv None [] own s;
  hr_garbage : garbage s = [];
  hr_lists : forall i, rep <$> entries_at s i = filter (fun x => list_index (o_ev x.1) = i) r;
  hr_keys : NoDup r.*1;
  hr_entries : forall p e, heap s !! p = Some e -> isParticipant0Id e = EsifUpPm_IsPrimaryParticipantId (participantId e)
}.

Definition fpc_key (fpc : EsifFpcEvent) (pid dom cb ctx : Z) : observer := mk_observer (esif_event fpc) pid dom cb ctx.

Lemma same_observer_key fpc pid dom cb ctx e : same_observer fpc pid dom cb ctx e = true <-> key_of e = fpc_key fpc pid dom cb ctx.
Proof.
  unfold same_observer, key_of, fpc_key. rewrite !andb_true_iff, !Z.eqb_eq. split.
  - intros ((((-> & ->) & ->) & ->) & ->). done.
  - intros [= -> -> -> -> ->]. done.
Qed.

Lemma same_registration_takes fpc pid dom cb ctx e : isParticipant0Id e = EsifUpPm_IsPrimaryParticipantId (participantId e) ->
  same_registration fpc pid dom cb ctx e = true <-> takes (fpc_key fpc pid dom cb ctx) (key_of e).
Proof.
  intros H. unfold same_registration, takes, key_of, fpc_key. cbn. rewrite H, !andb_true_iff, orb_true_iff, andb_true_iff, !Z.eqb_eq. tauto.
Qed.

(** The first entry that matches is the first of the entries that do. *)
Lemma first_match_head (h : gmap positive EventMgrEntry) m l : (forall p, p ∈ l -> is_Some (h !! p)) ->
  head (filter (fun e => m e = true) (omap (fun p => h !! p) l)) = match first_match h m l with Some p => h !! p | None => None end.
Proof.
  induction l as [|p l IH]; intros Hl; [done|]. destruct (Hl p ltac:(left)) as [e Ee]. cbn [omap list_omap first_match]. rewrite Ee.
  destruct (m e) eqn:Em; [by rewrite filter_cons_True|]. rewrite filter_cons_False by congruence. apply IH. intros q Hq. apply Hl. by right.
Qed.

Lemma nodup_filter_keys {A B} (P : A * B -> Prop) `{!forall x, Decision (P x)} (l : list (A * B)) : NoDup l.*1 -> NoDup (filter P l).*1.
Proof.
  induction l as [|x l IH]; [constructor|]. cbn [fmap list_fmap]. intros [Hx Hl]%NoDup_cons. specialize (IH Hl).
  destruct (decide (P x)); [rewrite filter_cons_True by done|by rewrite filter_cons_False].
  cbn [fmap list_fmap]. apply NoDup_cons. split; [|done]. intros (y & E & Hy)%list_elem_of_fmap. apply Hx. rewrite E.
  apply list_elem_of_filter in Hy as [_ Hy]. by apply list_elem_of_fmap_2.
Qed.

Section Holds.
Context (r : registry) (s : rst) (H : holds_registry r s).

Lemma holds_entries_in i p e : p ∈ list_at s i -> heap s !! p = Some e -> rep e ∈ r /\ e ∈ entries_at s i.
Proof.
  intros Hp Ee. assert (Hin : e ∈ entries_at s i) by (apply list_elem_of_omap; by exists p). split; [|done].
  assert (rep e ∈ rep <$> entries_at s i) as Hr by by apply list_elem_of_fmap_2. rewrite (hr_lists _ _ H) in Hr. by apply list_elem_of_filter in Hr as [_ ?].
Qed.

(** A key is in the list of its event, and nowhere twice. *)
Lemma holds_find k : k ∈ r.*1 -> exists p e, p ∈ list_at s (list_index (o_ev k)) /\ heap s !! p = Some e /\ key_of e = k /\
  (forall n, (k, n) ∈ r -> n = refCount e).
Proof.
  intros ([k' n] & -> & Hk)%list_elem_of_fmap. cbn [fst]. assert (Hf : (k', n) ∈ rep <$> entries_at s (list_index (o_ev k'))).
  { rewrite (hr_lists _ _ H). by apply list_elem_of_filter. }
  apply list_elem_of_fmap in Hf as (e & Er & He). apply list_elem_of_omap in He as (p & Hp & Ee). exists p, e.
  injection Er as Ek En. split_and!; try done. intros m Hm. subst n. pose proof (hr_keys _ _ H) as Hn.
  apply list_elem_of_lookup in Hk as [i Hi]. apply list_elem_of_lookup in Hm as [j Hj].
  assert (i = j) as ->. { eapply (NoDup_lookup r.*1); [done|rewrite list_lookup_fmap, Hi; done|rewrite list_lookup_fmap, Hj; done]. }
  congruence.
Qed.

Lemma holds_unique p q e e' : p ∈ listed s -> q ∈ listed s -> heap s !! p = Some e -> heap s !! q = Some e' -> key_of e = key_of e' -> p = q.
Proof.
  intros [i Hp]%elem_of_listed [j Hq]%elem_of_listed Ee Ee' Ek. destruct (hr_inv _ _ H) as [own Hi].
  assert (i = j) as ->.
  { rewrite <- (eo_index _ _ _ _ _ (entry_at _ _ _ _ _ _ _ Hi Hp Ee)), <- (eo_index _ _ _ _ _ (entry_at _ _ _ _ _ _ _ Hi Hq Ee')).
    injection Ek as Ev _. by rewrite Ev. }
  assert (Hnd : NoDup (key_of <$> entries_at s j)).
  { assert (E : key_of <$> entries_at s j = (rep <$> entries_at s j).*1) by (rewrite <- list_fmap_compose; reflexivity).
    rewrite E, (hr_lists _ _ H). apply nodup_filter_keys, (hr_keys _ _ H). }
  unfold entries_at, entries_of in Hnd. apply list_elem_of_lookup in Hp as [a Ha]. apply list_elem_of_lookup in Hq as [b Hb].
  assert (Hl : forall p, p ∈ list_at s j -> is_Some (heap s !! p)) by (intros x; exact (inv_listed _ _ _ _ _ _ Hi)).
  assert (Hmap : forall (l : list positive) a x e, (forall p, p ∈ l -> is_Some (heap s !! p)) -> l !! a = Some x -> heap s !! x = Some e ->
     (key_of <$> omap (fun p => heap s !! p) l) !! a = Some (key_of e)).
  { intros l. induction l as [|y l IH]; intros a' x e0 Hall Hx E0; [done|]. cbn. destruct (Hall y ltac:(left)) as [ey Ey]. rewrite Ey.
    destruct a' as [|a']; cbn in Hx |- *; [congruence|]. apply (IH a' x e0); [intros z Hz; apply Hall; by right|done|done]. }
  assert (a = b) as ->; [|congruence].
  eapply NoDup_lookup; [exact Hnd|by apply (Hmap _ _ _ e Hl Ha)|rewrite Ek; by apply (Hmap _ _ _ e' Hl Hb)].
Qed.

(** What the search for a key finds. *)
Lemma holds_first_match k m : (forall e, e ∈ entries_at s (list_index (o_ev k)) -> m e = true <-> key_of e = k) ->
  match first_match (heap s) m (list_at s (list_index (o_ev k))) with
  | None => k ∉ r.*1
  | Some p => exists e, p ∈ list_at s (list_index (o_ev k)) /\ heap s !! p = Some e /\ key_of e = k /\ (k, refCount e) ∈ r
  end.
Proof.
  intros Hm. destruct (hr_inv _ _ H) as [own Hi].
  assert (Hl : forall p, p ∈ list_at s (list_index (o_ev k)) -> is_Some (heap s !! p)) by (intros x; exact (inv_listed _ _ _ _ _ _ Hi)).
  destruct (first_match _ _ _) as [p|] eqn:Ef.
  - apply first_match_some in Ef as (l1 & l2 & e & El & Ee & Hme & _).
    assert (Hp : p ∈ list_at s (list_index (o_ev k))) by (rewrite El; apply elem_of_app; right; left).
    destruct (holds_entries_in _ p e Hp Ee) as [Hr Hin]. exists e. apply Hm in Hme; [|done]. split_and!; try done. unfold rep in Hr. by rewrite Hme in Hr.
  - intros Hk. destruct (holds_find k Hk) as (p & e & Hp & Ee & Ek & _).
    pose proof (first_match_none _ _ _ Hl Ef p e Hp Ee) as Hf. destruct (holds_entries_in _ p e Hp Ee) as [_ Hin].
    apply Hm in Ek; [congruence|done].
Qed.

(** The place that takes a registration, and its entry. *)
Lemma holds_taker fpc pid dm cb ctx :
  match first_match (heap s) (same_registration fpc pid dm cb ctx) (list_at s (list_index (esif_event fpc))) with
  | None => head (filter (fun x => takes (fpc_key fpc pid dm cb ctx) x.1) r) = None
  | Some p => exists e, p ∈ list_at s (list_index (esif_event fpc)) /\ heap s !! p = Some e /\
      head (filter (fun x => takes (fpc_key fpc pid dm cb ctx) x.1) r) = Some (rep e)
  end.
Proof.
  destruct (hr_inv _ _ H) as [own Hi]. set (k := fpc_key fpc pid dm cb ctx). set (i := list_index (esif_event fpc)).
  assert (Hl : forall p, p ∈ list_at s i -> is_Some (heap s !! p)) by (intros x; exact (inv_listed _ _ _ _ _ _ Hi)).
  assert (E : head (filter (fun x => takes k x.1) r) =
              rep <$> head (filter (fun e => same_registration fpc pid dm cb ctx e = true) (entries_at s i))).
  { assert (E1 : filter (fun x => takes k x.1) r = filter (fun x => takes k x.1) (filter (fun x => list_index (o_ev x.1) = i) r)).
    { rewrite list_filter_filter_l; [done|]. intros x (Ev & _). unfold i. by rewrite Ev. }
    rewrite E1, <- (hr_lists _ _ H i).
    assert (E2 : forall l, (forall e, e ∈ l -> isParticipant0Id e = EsifUpPm_IsPrimaryParticipantId (participantId e)) ->
      head (filter (fun x => takes k x.1) (rep <$> l)) = rep <$> head (filter (fun e => same_registration fpc pid dm cb ctx e = true) l)).
    { intros l. induction l as [|e l IH]; intros He; [done|]. cbn [fmap list_fmap]. rewrite !filter_cons.
      pose proof (same_registration_takes fpc pid dm cb ctx e (He e ltac:(left))) as Hs. fold k in Hs.
      destruct (decide (takes k (rep e).1)), (decide (same_registration fpc pid dm cb ctx e = true)); try done; [tauto|tauto|].
      apply IH. intros e' He'. apply He. by right. }
    apply E2. intros e (p & _ & Ee)%list_elem_of_omap. exact (hr_entries _ _ H p e Ee). }
  rewrite E. unfold entries_at, entries_of. rewrite (first_match_head _ _ _ Hl).
  destruct (first_match _ _ _) as [p|] eqn:Ef; [|done]. destruct (first_match_some _ _ _ _ Ef) as (l1 & l2 & e & El & Ee & _). exists e.
  rewrite Ee. split_and!; try done. rewrite El. apply elem_of_app. right. left.
Qed.

End Holds.

(* ------------------------------------------------------------------ *)
(** ** Registering and unregistering act on the registry *)

Inductive rop : Type :=
  | OpRegister (os : EventMgrEntry -> Z) (fpc : EsifFpcEvent) (pid dom cb ctx : Z)
  | OpUnregister (fpc : EsifFpcEvent) (pid dom cb ctx : Z)
  | OpUnregisterApp (cb ctx : Z).

Definition new_address (s : rst) : positive := fresh (dom (heap s) : gset positive).
Lemma new_address_fresh s : heap s !! new_address s = None.
Proof. apply not_elem_of_dom_1, (is_fresh (dom (heap s) : gset positive)). Qed.

(** The call, with memory, a new entry at a fresh address: the result code and
    the entries whose events were disabled. *)
Definition exec_op (op : rop) (s : rst) : option ((Z * list EventMgrEntry) * rst) :=
  match op with
  | OpRegister os fpc pid dom cb ctx =>
      (let! rc := EsifEventMgr_AddEntry (Some (new_address s)) true os fpc pid dom cb ctx in sret (rc, [])) s
  | OpUnregister fpc pid dom cb ctx => EsifEventMgr_ReleaseEntry true fpc pid dom cb ctx s
  | OpUnregisterApp cb ctx => EsifEventMgr_UnregisterApp (fun _ => true) cb ctx s
  end.

Definition a_exec (op : rop) (r : registry) : (Z * list observer) * registry :=
  match op with
  | OpRegister os fpc pid dom cb ctx =>
      let x := a_register (fpc_key fpc pid dom cb ctx) (EsifEventMgr_EnableEvent os (new_entry fpc pid dom cb ctx)) r in
      ((x.1, []), x.2)
  | OpUnregister fpc pid dom cb ctx =>
      let x := a_unregister (fpc_key fpc pid dom cb ctx) r in ((ESIF_OK, x.1), x.2)
  | OpUnregisterApp cb ctx =>
      if (cb =? 0) || (ctx =? ESIF_HANDLE_DEFAULT) then ((ESIF_E_PARAMETER_IS_NULL, []), r)
      else let x := a_unregister_app cb ctx r in ((ESIF_OK, x.1), x.2)
  end.

Lemma bump_keys k d (r : registry) : (bump k d <$> r).*1 = r.*1.
Proof. rewrite <- list_fmap_compose. apply list_fmap_ext. intros i [k' n] _. cbn. unfold bump. cbn. by destruct (decide (k' = k)) as [->|]. Qed.

Lemma filter_bump k d i (r : registry) : filter (fun x => list_index (o_ev x.1) = i) (bump k d <$> r) = bump k d <$> filter (fun x => list_index (o_ev x.1) = i) r.
Proof.
  induction r as [|[k' n] r IH]; [done|]. cbn [fmap list_fmap].
  assert (E : (bump k d (k', n)).1 = k') by (unfold bump; cbn; by destruct (decide (k' = k)) as [->|]).
  destruct (decide (list_index (o_ev k') = i)).
  - rewrite !filter_cons_True by (rewrite ?E; done). cbn [fmap list_fmap]. by rewrite IH.
  - rewrite !filter_cons_False by (rewrite ?E; done). exact IH.
Qed.

Lemma filter_comm {A} (P Q : A -> Prop) `{!forall x, Decision (P x)} `{!forall x, Decision (Q x)} (l : list A) : filter P (filter Q l) = filter Q (filter P l).
Proof.
  induction l as [|x l IH]; [done|]. rewrite !filter_cons. destruct (decide (P x)) eqn:E1, (decide (Q x)) eqn:E2; rewrite ?filter_cons, ?E1, ?E2, IH; done.
Qed.

Lemma entries_map f s (h' : gmap positive EventMgrEntry) l : (forall p, p ∈ l -> is_Some (heap s !! p)) ->
  (forall q e, q ∈ l -> heap s !! q = Some e -> exists e', h' !! q = Some e' /\ rep e' = f (rep e)) ->
  rep <$> omap (fun p => h' !! p) l = f <$> (rep <$> entries_of s l).
Proof.
  unfold entries_of. induction l as [|p l IH]; intros Hl Hf; [done|]. cbn. destruct (Hl p ltac:(left)) as [e Ee].
  destruct (Hf p e ltac:(left) Ee) as (e' & Ee' & Er). rewrite Ee, Ee'. cbn. rewrite Er. f_equal. apply IH.
  - intros q Hq. apply Hl. by right.
  - intros q e0 Hq. apply Hf. by right.
Qed.

Lemma entries_filter (P : positive -> Prop) `{!forall x, Decision (P x)} (Q : observer * Z -> Prop) `{!forall x, Decision (Q x)} s (h' : gmap positive EventMgrEntry) l :
  (forall p, p ∈ l -> is_Some (heap s !! p)) ->
  (forall q e, q ∈ l -> heap s !! q = Some e -> (P q <-> Q (rep e)) /\ (P q -> h' !! q = Some e)) ->
  rep <$> omap (fun p => h' !! p) (filter P l) = filter Q (rep <$> entries_of s l).
Proof.
  unfold entries_of. induction l as [|p l IH]; intros Hl Hf; [done|]. cbn [omap list_omap fmap]. destruct (Hl p ltac:(left)) as [e Ee].
  destruct (Hf p e ltac:(left) Ee) as [Hpq Hh]. rewrite Ee. cbn [fmap list_fmap].
  specialize (IH (fun q Hq => Hl q (list_elem_of_further _ _ _ Hq)) (fun q e0 Hq => Hf q e0 (list_elem_of_further _ _ _ Hq))).
  destruct (decide (P p)) as [Hp|Hp].
  - rewrite filter_cons_True by done. rewrite (filter_cons_True Q) by tauto. cbn [omap list_omap]. rewrite Hh by done. cbn [fmap list_fmap]. by rewrite IH.
  - rewrite filter_cons_False by done. rewrite (filter_cons_False Q) by tauto. exact IH.
Qed.

Lemma a_unregister_in k n r : NoDup r.*1 -> (k, n) ∈ r ->
  a_unregister k r = if n <=? 1 then ([k], filter (fun x => x.1 <> k) r) else ([], bump k (-1) <$> r).
Proof.
  intros Hn Hk. unfold a_unregister. destruct (list_find (fun x => x.1 = k) r) as [[i [k' m]]|] eqn:Ef.
  - apply list_find_Some in Ef as (Hi & Ek & _). cbn in Ek. subst k'. apply list_elem_of_lookup in Hk as [j Hj].
    assert (i = j) as ->. { eapply (NoDup_lookup r.*1); [done|rewrite list_lookup_fmap, Hi; done|rewrite list_lookup_fmap, Hj; done]. }
    by assert (m = n) as -> by congruence.
  - exfalso. apply list_find_None in Ef. rewrite Forall_forall in Ef. by apply (Ef (k, n) Hk).
Qed.

Lemma a_unregister_out k r : k ∉ r.*1 -> a_unregister k r = ([], r).
Proof.
  intros Hk. unfold a_unregister. destruct (list_find (fun x => x.1 = k) r) as [[i [k' m]]|] eqn:Ef; [|done].
  exfalso. apply list_find_Some in Ef as (Hi & Ek & _). apply Hk. apply list_elem_of_fmap. exists (k', m). split; [done|by eapply list_elem_of_lookup_2].
Qed.

Section Refine.
Context (r : registry) (s : rst) (H : holds_registry r s).

Lemma holds_match fpc pid dom cb ctx m : (forall e, m e = same_observer fpc pid dom cb ctx e) ->
  match first_match (heap s) m (list_at s (list_index (esif_event fpc))) with
  | None => fpc_key fpc pid dom cb ctx ∉ r.*1
  | Some p => exists e, p ∈ list_at s (list_index (esif_event fpc)) /\ heap s !! p = Some e /\
      key_of e = fpc_key fpc pid dom cb ctx /\ (fpc_key fpc pid dom cb ctx, refCount e) ∈ r
  end.
Proof.
  intros Hm. apply (holds_first_match r s H (fpc_key fpc pid dom cb ctx)). intros e _. rewrite Hm. apply same_observer_key.
Qed.

(** The heap and the lists after the registrations of a key were counted anew. *)
Lemma holds_count k d i p e own' : p ∈ list_at s i -> heap s !! p = Some e -> key_of e = k ->
  let s' := with_heap (<[p := with_ref (refCount e + d) e]> (heap s)) s in
  reg_inv None [] own' s' -> holds_registry (bump k d <$> r) s'.
Proof.
  intros Hp Ee Ek s' Hi'. destruct (hr_inv _ _ H) as [own Hi]. split.
  - by exists own'.
  - exact (hr_garbage _ _ H).
  - intros j. rewrite filter_bump, <- (hr_lists _ _ H j). change (list_at s' j) with (list_at s j).
    apply (entries_map (bump k d) s (heap s') (list_at s j)).
    + intros q. exact (inv_listed _ _ _ _ _ _ Hi).
    + intros q e0 Hq E0. cbn. destruct (decide (q = p)) as [->|Hne].
      * rewrite lookup_insert_eq. eexists. split; [done|]. assert (e0 = e) as -> by congruence. unfold bump, rep. cbn. rewrite decide_True by done.
        by rewrite <- Ek.
      * rewrite lookup_insert_ne by done. exists e0. split; [done|]. unfold bump. cbn. rewrite decide_False; [done|]. intros Ek0. apply Hne.
        apply (holds_unique r s H q p e0 e); [apply elem_of_listed; by exists j|apply elem_of_listed; by exists i|done|done|congruence].
  - rewrite bump_keys. exact (hr_keys _ _ H).
  - intros q e0. cbn. destruct (decide (q = p)) as [->|Hne].
    + rewrite lookup_insert_eq. intros [= <-]. exact (hr_entries _ _ H p e Ee).
    + rewrite lookup_insert_ne by done. apply (hr_entries _ _ H).
Qed.

(** Entries left their lists and were destroyed. *)
Lemma holds_removed (P : positive -> Prop) `{!forall x, Decision (P x)} (Q : observer * Z -> Prop) `{!forall x, Decision (Q x)} s' own' :
  reg_inv None [] own' s' -> garbage s' = [] -> (forall i, list_at s' i = filter P (list_at s i)) ->
  (forall q e, q ∈ listed s -> heap s !! q = Some e -> (P q <-> Q (rep e)) /\ (P q -> heap s' !! q = Some e)) ->
  holds_registry (filter Q r) s'.
Proof.
  intros Hi' Hg Hl Hq. destruct (hr_inv _ _ H) as [own Hi]. split.
  - by exists own'.
  - done.
  - intros j. rewrite filter_comm, <- (hr_lists _ _ H j). unfold entries_at at 1, entries_of. rewrite Hl.
    apply entries_filter.
    + intros q. exact (inv_listed _ _ _ _ _ _ Hi).
    + intros q e Hqj. apply Hq, elem_of_listed. by exists j.
  - apply nodup_filter_keys, (hr_keys _ _ H).
  - intros q e Ee. assert (Hin : q ∈ listed s').
    { assert (Hin : q ∈ listed s' ++ garbage s' ++ []) by (rewrite <- (ri_heap _ _ _ _ Hi'); by exists e). rewrite Hg in Hin. by rewrite app_nil_r in Hin. }
    apply elem_of_listed in Hin as [j Hin]. rewrite Hl in Hin. apply list_elem_of_filter in Hin as [Hp Hin].
    destruct (inv_listed _ _ _ _ _ _ Hi Hin) as [e0 E0]. destruct (Hq q e0) as [_ Hh]; [apply elem_of_listed; by exists j|done|].
    rewrite (Hh Hp) in Ee. injection Ee as <-. exact (hr_entries _ _ H q e0 E0).
Qed.

Lemma holds_new p fpc pid dom cb ctx own : heap s !! p = None -> reg_inv None [] own s ->
  fpc_key fpc pid dom cb ctx ∉ r.*1 ->
  holds_registry (r ++ [(fpc_key fpc pid dom cb ctx, 1)]) (with_new s p (new_entry fpc pid dom cb ctx)).
Proof.
  intros Hp Hi Hk. set (e := new_entry fpc pid dom cb ctx). pose proof (list_index_bound (esif_event fpc)) as Hlt.
  pose proof (inv_new None [] own s p e Hi Hp eq_refl eq_refl eq_refl) as Hi'. split.
  - eexists. exact Hi'.
  - exact (hr_garbage _ _ H).
  - intros j. rewrite filter_app. rewrite <- (hr_lists _ _ H j). unfold entries_at, entries_of.
    assert (Hold : forall q, q ∈ list_at s j -> <[p := e]> (heap s) !! q = heap s !! q).
    { intros q Hq. rewrite lookup_insert_ne; [done|]. intros <-. destruct (inv_listed _ _ _ _ _ _ Hi Hq) as [x E]. congruence. }
    assert (Eold : omap (fun q => <[p := e]> (heap s) !! q) (list_at s j) = omap (fun q => heap s !! q) (list_at s j)).
    { exact (entries_of_ext (with_heap (<[p := e]> (heap s)) s) s (list_at s j) Hold). }
    unfold with_new. cbn [heap]. rewrite list_at_insert by (try apply (ri_len _ _ _ _ Hi); done). cbn [e new_entry fpcEvent].
    destruct (decide (j = list_index (esif_event fpc))) as [->|Hne].
    + rewrite omap_app, fmap_app. rewrite Eold. f_equal. cbn [omap list_omap]. rewrite lookup_insert_eq.
      rewrite filter_cons_True by done. reflexivity.
    + rewrite Eold. rewrite filter_cons_False by (cbn; congruence). by rewrite app_nil_r.
  - rewrite fmap_app. cbn. apply NoDup_app. split_and!; [exact (hr_keys _ _ H)|intros x Hx ->%list_elem_of_singleton; done|apply NoDup_singleton].
  - intros q e0. cbn [with_new heap]. destruct (decide (q = p)) as [->|Hne].
    + rewrite lookup_insert_eq. intros [= <-]. done.
    + rewrite lookup_insert_ne by done. apply (hr_entries _ _ H).
Qed.

(** A new entry whose event could not be enabled leaves no trace. *)
Lemma undo_new p e own : heap s !! p = None -> reg_inv None [] own s ->
  dropped (with_new s p e) (list_index (esif_event (fpcEvent e))) p = s.
Proof.
  intros Hp Hi. pose proof (list_index_bound (esif_event (fpcEvent e))) as Hlt. set (i := list_index _) in *. unfold dropped.
  assert (El : list_at (with_new s p e) i = list_at s i ++ [p]).
  { unfold with_new. rewrite list_at_insert by (try apply (ri_len _ _ _ _ Hi); done). fold i. by rewrite decide_True. }
  assert (Hnp : p ∉ list_at s i) by (intros Hin; destruct (inv_listed _ _ _ _ _ _ Hi Hin) as [x E]; congruence).
  assert (Er : remove_node p (list_at s i ++ [p]) = list_at s i).
  { rewrite remove_node_spec.
    - rewrite filter_app, filter_cons_False by tauto. cbn. rewrite app_nil_r. apply filter_id. by intros x Hx ->.
    - apply NoDup_app. split_and!; [by apply (list_at_nodup _ _ _ _ _ Hi)|by intros x Hx ->%list_elem_of_singleton|apply NoDup_singleton]. }
  rewrite El, Er. cbn [with_new heap observerLists]. fold i. rewrite list_insert_insert_eq, delete_insert_id by done.
  destruct (get_list_spec s i (ri_len _ _ _ _ Hi) (ri_lists _ _ _ _ Hi) Hlt) as [_ Eg].
  rewrite list_insert_id by exact Eg. change (garbage (with_new s p e)) with (garbage s).
  rewrite <- (garbage_some _ _ _ _ Hi). by destruct s.
Qed.

Lemma register_refines os fpc pid dom cb ctx :
  let op := OpRegister os fpc pid dom cb ctx in
  exists out s', exec_op op s = Some (out, s') /\ out.1 = (a_exec op r).1.1 /\ key_of <$> out.2 = (a_exec op r).1.2 /\ holds_registry (a_exec op r).2 s'.
Proof.
  intros op. destruct (hr_inv _ _ H) as [own Hi]. pose proof (list_index_bound (esif_event fpc)) as Hlt.
  pose proof (add_find_spec None [] own s Hi fpc pid dom cb ctx) as Hf. cbv zeta in Hf.
  pose proof (holds_taker r s H fpc pid dom cb ctx) as Hm. cbn [exec_op op a_exec].
  unfold EsifEventMgr_AddEntry, a_register. destruct (first_match _ _ _) as [p|].
  - destruct Hf as (e & Ee & Hp & _ & Hf). destruct Hm as (e' & _ & Ee' & Hr). assert (e' = e) as -> by congruence. rewrite Hr.
    destruct (markedForDelete e) eqn:Em; [by destruct Hf as [? _]|]. unfold sbind. rewrite Hf. eexists _, _. split; [reflexivity|]. split; [done|split; [done|]].
    apply (holds_count _ 1 _ p e (<[p := owners own p + 1]> own) Hp Ee eq_refl). by apply (inv_count_up None [] own s Hi _ p e Hp Ee Em).
  - rewrite Hm. assert (Hnk : fpc_key fpc pid dom cb ctx ∉ r.*1).
    { intros (x & Ex & Hx)%list_elem_of_fmap. destruct (filter _ r) as [|y l] eqn:Efl in Hm; [|done].
      apply (not_elem_of_nil x). rewrite <- Efl. apply list_elem_of_filter. split; [|done]. rewrite <- Ex. unfold takes. tauto. }
    set (p := new_address s). pose proof (new_address_fresh s) as Hp. fold p in Hp.
    set (e := new_entry fpc pid dom cb ctx). unfold sbind at 1. rewrite (sbind_some _ _ _ _ _ Hf). unfold sbind at 1. unfold smodify at 1.
    rewrite (sbind_some _ _ _ _ _ (add_insert_spec None [] own s Hi p fpc e eq_refl)).
    assert (Ee : heap (with_new s p e) !! p = Some e) by apply lookup_insert_eq.
    rewrite (sbind_some _ _ _ _ _ (deref_some p _ e Ee)). cbv zeta. destruct (EsifEventMgr_EnableEvent os e =? ESIF_OK) eqn:Er.
    + eexists _, _. split; [reflexivity|]. split; [done|split; [done|]]. by apply (holds_new p fpc pid dom cb ctx own).
    + pose proof (inv_new None [] own s p e Hi Hp eq_refl eq_refl eq_refl) as Hi'.
      assert (Hin : p ∈ list_at (with_new s p e) (list_index (esif_event fpc))).
      { unfold with_new. rewrite list_at_insert by (try apply (ri_len _ _ _ _ Hi); done). cbn [e new_entry fpcEvent]. rewrite decide_True by done.
        apply elem_of_app. right. left. }
      rewrite (sbind_some _ _ _ _ _ (add_undo_spec None [] _ _ Hi' _ p Hin)). eexists _, _. split; [reflexivity|]. split; [done|split; [done|]].
      assert (G : holds_registry r (dropped (with_new s p e) (list_index (esif_event (fpcEvent e))) p)) by (by rewrite (undo_new p e own Hp Hi)).
      exact G.
Qed.

Lemma unregister_refines fpc pid dom cb ctx :
  let op := OpUnregister fpc pid dom cb ctx in
  exists out s', exec_op op s = Some (out, s') /\ out.1 = (a_exec op r).1.1 /\ key_of <$> out.2 = (a_exec op r).1.2 /\ holds_registry (a_exec op r).2 s'.
Proof.
  intros op. destruct (hr_inv _ _ H) as [own Hi]. pose proof (list_index_bound (esif_event fpc)) as Hlt.
  pose proof (release_find_spec None [] own s Hi fpc pid dom cb ctx) as Hf. cbv zeta in Hf.
  pose proof (holds_match fpc pid dom cb ctx _ (fun e => eq_refl)) as Hm. cbn [exec_op op a_exec]. unfold EsifEventMgr_ReleaseEntry.
  set (k := fpc_key fpc pid dom cb ctx) in *. destruct (first_match _ _ _) as [p|].
  - destruct Hf as (e & Ee & Hp & _ & Hf). destruct Hm as (e' & _ & Ee' & Ek & Hr). assert (e' = e) as -> by congruence.
    rewrite (a_unregister_in k (refCount e) r (hr_keys _ _ H) Hr). rewrite (sbind_some _ _ _ _ _ Hf).
    pose proof (entry_at _ _ _ _ _ _ _ Hi Hp Ee) as [_ _ _ _ [Ho Hmk]]; [done|].
    pose proof (reg_release_inv None [] own s Hi _ p e Hp Ee Hmk Ho) as Hi'. rewrite Hmk, orb_false_r in *.
    assert (Ele : (refCount e - 1 <=? 0) = (refCount e <=? 1)) by (apply eq_true_iff_eq; rewrite !Z.leb_le; lia). rewrite Ele in *.
    destruct (refCount e <=? 1).
    + destruct Hi' as (_ & _ & Hi'). set (s1 := to_garbage s _ p _) in *.
      assert (Eg : garbage s1 = [p]) by (unfold s1, to_garbage, garbage at 1; cbn; by rewrite (hr_garbage _ _ H)).
      destruct (dump_garbage_spec _ s1 Hi') as (s2 & Ed & Hi2 & El2 & Eg2 & Eh2). rewrite Eg in Ed, Eh2.
      rewrite (sbind_some _ _ _ _ _ Ed). eexists _, _. split; [reflexivity|]. split; [done|]. split.
      { unfold entries_of. cbn. rewrite lookup_insert_eq. cbn. f_equal. exact Ek. }
      apply (holds_removed (fun q => q <> p) (fun x => x.1 <> k) s2 (delete p own) Hi2).
      * unfold garbage. by rewrite Eg2.
      * intros j. assert (E2 : list_at s2 j = list_at s1 j) by (unfold list_at; by rewrite El2). rewrite E2. unfold s1, to_garbage.
        rewrite list_at_insert by (try apply (ri_len _ _ _ _ Hi); done). destruct (decide (j = list_index (esif_event fpc))) as [->|Hne].
        -- apply remove_node_spec, (list_at_nodup _ _ _ _ _ Hi).
        -- symmetry. apply filter_id. intros q Hq ->. apply Hne. exact (list_at_unique _ _ _ _ _ _ _ Hi Hq Hp).
      * intros q e0 Hq E0. split.
        -- cbn. split; [|intros Hne ->; congruence]. intros Hne Ek0. apply Hne.
           apply (holds_unique r s H q p e0 e); [done|apply elem_of_listed; eauto|done|done|congruence].
        -- intros Hne. rewrite Eh2. rewrite decide_False by by intros ->%list_elem_of_singleton. cbn. by rewrite lookup_insert_ne.
    + set (s1 := count_down s p e) in *. assert (Eg : garbage s1 = []) by exact (hr_garbage _ _ H).
      destruct (dump_garbage_spec _ s1 Hi') as (s2 & Ed & Hi2 & El2 & Eg2 & Eh2). rewrite Eg in Ed, Eh2.
      assert (s2 = s1) as ->.
      { destruct s2 as [h2 l2 g2]. cbn in *. subst. unfold s1, count_down, with_heap. f_equal; [|].
        - apply map_eq. intros q. rewrite Eh2. by rewrite decide_False by apply not_elem_of_nil.
        - rewrite (garbage_some _ _ _ _ Hi). f_equal. symmetry. exact (hr_garbage _ _ H). }
      rewrite (sbind_some _ _ _ _ _ Ed). eexists _, _. split; [reflexivity|]. split; [done|split; [done|]].
      apply (holds_count k (-1) _ p e (<[p := owners own p - 1]> own) Hp Ee Ek). exact Hi'.
  - rewrite (a_unregister_out k r Hm). rewrite (sbind_some _ _ _ _ _ Hf). destruct (dump_garbage_spec _ s Hi) as (s2 & Ed & Hi2 & El2 & Eg2 & Eh2).
    rewrite (hr_garbage _ _ H) in Ed, Eh2. assert (s2 = s) as ->.
    { destruct s2 as [h2 l2 g2], s as [h1 l1 g1]. cbn in *. subst. f_equal.
      - apply map_eq. intros q. rewrite Eh2. by rewrite decide_False by apply not_elem_of_nil.
      - pose proof (garbage_some _ _ _ _ Hi) as Hg. cbn in Hg. rewrite Hg. f_equal. symmetry. exact (hr_garbage _ _ H). }
    rewrite (sbind_some _ _ _ _ _ Ed). eexists _, _. split; [reflexivity|]. done.
Qed.

End Refine.

Section RefineApp.
Context (r : registry) (s : rst) (H : holds_registry r s).

Lemma keys_nodup l : NoDup l -> (forall p, p ∈ l -> p ∈ listed s) -> NoDup (key_of <$> entries_of s l).
Proof.
  destruct (hr_inv _ _ H) as [own Hi]. unfold entries_of.
  induction l as [|p l IH]; intros Hnd Hl; [constructor|]. apply NoDup_cons in Hnd as [Hp Hnd]. cbn.
  destruct (proj1 (elem_of_listed s p) (Hl p ltac:(left))) as [i Hpi]. destruct (inv_listed _ _ _ _ _ _ Hi Hpi) as [e Ee]. rewrite Ee. cbn.
  apply NoDup_cons. split; [|apply IH; [done|intros q Hq; apply Hl; by right]].
  intros (e' & Ek & (q & Hq & Eq)%list_elem_of_omap)%list_elem_of_fmap. apply Hp.
  assert (p = q) as ->; [|done].
  apply (holds_unique r s H p q e e'); [apply Hl; left|apply Hl; by right|done|done|done].
Qed.

(** In a quiet state the entries that stay are those of the others. *)
Lemma stays_key cb ctx q e : q ∈ listed s -> heap s !! q = Some e ->
  stays cb ctx (heap s) q <-> ~ (o_cb (key_of e) = cb /\ o_ctx (key_of e) = ctx).
Proof.
  intros [i Hq]%elem_of_listed Ee. destruct (hr_inv _ _ H) as [own Hi].
  pose proof (eo_use _ _ _ _ _ (entry_at _ _ _ _ _ _ _ Hi Hq Ee)) as Hu. rewrite bool_decide_eq_false_2 in Hu by done.
  unfold stays. rewrite Ee, Hu. unfold of_app. cbn. rewrite andb_false_iff, !Z.eqb_neq.
  destruct (decide (callback e = cb)), (decide (context e = ctx)); intuition congruence.
Qed.

Lemma unregister_app_refines cb ctx :
  let op := OpUnregisterApp cb ctx in
  exists out s', exec_op op s = Some (out, s') /\ out.1 = (a_exec op r).1.1 /\ key_of <$> out.2 ≡ₚ (a_exec op r).1.2 /\ holds_registry (a_exec op r).2 s'.
Proof.
  intros op. destruct (hr_inv _ _ H) as [own Hi]. cbn [exec_op op a_exec]. unfold EsifEventMgr_UnregisterApp.
  destruct ((cb =? 0) || (ctx =? ESIF_HANDLE_DEFAULT)); [by eexists _, _|].
  destruct (unregister_app_spec None [] own s cb ctx Hi) as (s1 & E1 & Hl1 & Hg1 & Hm1 & Hi1). rewrite (sbind_some _ _ _ _ _ E1).
  rewrite (hr_garbage _ _ H) in Hg1. cbn [app] in Hg1.
  destruct (dump_garbage_spec own s1 Hi1) as (s2 & E2 & Hi2 & Hl2 & Hg2 & Hh2). rewrite (sbind_some _ _ _ _ _ E2).
  eexists _, _. split; [reflexivity|]. cbn [fst snd]. split; [done|].
  set (Q := fun x : observer * Z => ~ (o_cb x.1 = cb /\ o_ctx x.1 = ctx)).
  assert (Hkey : forall q e, q ∈ listed s -> heap s !! q = Some e -> exists e', heap s1 !! q = Some e' /\ key_of e' = key_of e).
  { intros q e Hq Ee. rewrite Hm1, decide_True, Ee by done. eexists. split; [done|]. unfold mark_of_app. by destruct (of_app cb ctx e). }
  split.
  - assert (Hnd : NoDup (filter (fun p => ~ stays cb ctx (heap s) p) (listed s))).
    { apply NoDup_filter. pose proof (ri_nodup _ _ _ _ Hi) as Hn. by apply NoDup_app in Hn as (? & _). }
    assert (Ek : key_of <$> entries_of s1 (garbage s1) = key_of <$> entries_of s (garbage s1)).
    { assert (Hin : forall p, p ∈ garbage s1 -> exists e, p ∈ listed s /\ heap s !! p = Some e).
      { rewrite Hg1. intros p (_ & Hp)%list_elem_of_filter. pose proof Hp as [i Hpi]%elem_of_listed.
        destruct (inv_listed _ _ _ _ _ _ Hi Hpi) as [e Ee]. by exists e. }
      unfold entries_of. revert Hin. generalize (garbage s1). intros l. induction l as [|p l IH]; intros Hin; [done|]. cbn.
      destruct (Hin p ltac:(left)) as (e & Hp & Ee). destruct (Hkey p e Hp Ee) as (e' & Ee' & Ek). rewrite Ee, Ee'. cbn. rewrite Ek. f_equal.
      apply IH. intros q Hq. apply Hin. by right. }
    rewrite Ek, Hg1. apply NoDup_Permutation.
    + apply keys_nodup; [done|]. by intros p [_ ?]%list_elem_of_filter.
    + apply nodup_filter_keys, (hr_keys _ _ H).
    + intros k. split.
      * intros (e & -> & (p & (Hst & Hp)%list_elem_of_filter & Ee)%list_elem_of_omap)%list_elem_of_fmap.
        pose proof Hp as [i Hpi]%elem_of_listed. destruct (holds_entries_in r s H i p e Hpi Ee) as [Hr _].
        apply list_elem_of_fmap. exists (rep e). split; [done|]. apply list_elem_of_filter. split; [|done].
        rewrite (stays_key cb ctx p e Hp Ee) in Hst. apply dec_stable. exact Hst.
      * intros ([k' n] & -> & (HQ & Hr)%list_elem_of_filter)%list_elem_of_fmap.
        destruct (holds_find r s H k') as (p & e & Hp & Ee & Ek' & _); [apply list_elem_of_fmap; by exists (k', n)|].
        assert (Hpl : p ∈ listed s) by (apply elem_of_listed; eauto).
        apply list_elem_of_fmap. exists e. split; [done|]. apply list_elem_of_omap. exists p. split; [|done].
        apply list_elem_of_filter. split; [|done]. rewrite (stays_key cb ctx p e Hpl Ee), Ek'. cbn in HQ. tauto.
  - apply (holds_removed r s H (stays cb ctx (heap s)) Q s2 own Hi2).
    + unfold garbage. by rewrite Hg2.
    + intros i. rewrite <- Hl1. unfold list_at. by rewrite Hl2.
    + intros q e Hq Ee. split; [apply (stays_key cb ctx q e Hq Ee)|]. intros Hst. rewrite Hh2, Hg1, decide_False.
      * rewrite Hm1, decide_True, Ee by done. cbn. unfold mark_of_app. apply (stays_key cb ctx q e Hq Ee) in Hst.
        destruct (of_app cb ctx e) eqn:Ea; [|done]. exfalso. apply Hst. apply andb_true_iff in Ea as [?%Z.eqb_eq ?%Z.eqb_eq]. done.
      * rewrite list_elem_of_filter. tauto.
Qed.
End RefineApp.

(* ------------------------------------------------------------------ *)
(** ** Runs *)

Fixpoint exec_ops (ops : list rop) (s : rst) : option (list (Z * list EventMgrEntry) * rst) :=
  match ops with
  | [] => Some ([], s)
  | op :: ops => match exec_op op s with
                 | Some (out, s) => match exec_ops ops s with Some (outs, s) => Some (out :: outs, s) | None => None end
                 | None => None
                 end
  end.

Fixpoint a_exec_ops (ops : list rop) (r : registry) : list (Z * list observer) * registry :=
  match ops with
  | [] => ([], r)
  | op :: ops => let x := a_exec op r in let y := a_exec_ops ops x.2 in (x.1 :: y.1, y.2)
  end.

(** The lists as [EsifEventMgr_Init] creates them. *)
Definition registry_init : rst := mk_rst ∅ (replicate (Z.to_nat NUM_EVENT_LISTS) (Some [])) (Some []).

Lemma list_at_init i : list_at registry_init i = [].
Proof.
  unfold list_at. cbn [registry_init observerLists]. destruct (replicate _ _ !! i) as [x|] eqn:E; [|done].
  by apply lookup_replicate_1 in E as [-> _].
Qed.

Lemma listed_init : listed registry_init = [].
Proof. reflexivity. Qed.

Lemma holds_init : holds_registry [] registry_init.
Proof.
  split; try done.
  - exists ∅. split; try done.
    + by apply Forall_replicate.
    + rewrite listed_init. constructor.
    + intros p. rewrite listed_init. cbn. rewrite lookup_empty. split; [by intros []|]. intros Hp. by apply elem_of_nil in Hp.
    + intros i p Hp. rewrite list_at_init in Hp. by apply elem_of_nil in Hp.
  - intros i. unfold entries_at. by rewrite list_at_init.
  - constructor.
Qed.

(** The result code and, in any order, the observers whose events were disabled. *)
Definition same_outcome (x : Z * list EventMgrEntry) (y : Z * list observer) : Prop := x.1 = y.1 /\ key_of <$> x.2 ≡ₚ y.2.

Lemma exec_refines op r s : holds_registry r s ->
  exists out s', exec_op op s = Some (out, s') /\ same_outcome out (a_exec op r).1 /\ holds_registry (a_exec op r).2 s'.
Proof.
  intros H. destruct op as [os fpc pid dom cb ctx|fpc pid dom cb ctx|cb ctx].
  - destruct (register_refines r s H os fpc pid dom cb ctx) as (out & s' & E & H1 & H2 & H3). exists out, s'. unfold same_outcome. by rewrite H2.
  - destruct (unregister_refines r s H fpc pid dom cb ctx) as (out & s' & E & H1 & H2 & H3). exists out, s'. unfold same_outcome. by rewrite H2.
  - destruct (unregister_app_refines r s H cb ctx) as (out & s' & E & H1 & H2 & H3). by exists out, s'.
Qed.

Lemma exec_ops_refines ops : forall r s, holds_registry r s ->
  exists outs s', exec_ops ops s = Some (outs, s') /\ Forall2 same_outcome outs (a_exec_ops ops r).1 /\ holds_registry (a_exec_ops ops r).2 s'.
Proof.
  induction ops as [|op ops IH]; intros r s H; [exists [], s; split; [done|split; [constructor|exact H]]|].
  destruct (exec_refines op r s H) as (out & s1 & E1 & Ho & H1).
  destruct (IH _ s1 H1) as (outs & s2 & E2 & Hos & H2). exists (out :: outs), s2. cbn [exec_ops a_exec_ops]. rewrite E1, E2.
  split; [done|]. split; [by constructor|done].
Qed.

(** An entry of the registry is called exactly when the registry wants it. *)
Lemma is_observer_wants r s p i e ev pid dom : holds_registry r s -> p ∈ list_at s i -> heap s !! p = Some e ->
  is_observer ev pid dom e = a_wants ev pid dom (key_of e).
Proof.
  intros H Hp Ee. destruct (hr_inv _ _ H) as [own Hi]. destruct (entry_at _ _ _ _ _ _ _ Hi Hp Ee) as [_ _ Hr _ [Ho Hm]]; [done|].
  pose proof (hr_entries _ _ H p e Ee) as H0. rewrite decide_False in Hr by done.
  unfold is_observer, a_wants, participant_matches, domain_matches. rewrite Hm, H0. cbn [key_of o_ev o_pid o_dom negb].
  rewrite (proj2 (Z.ltb_lt 0 (refCount e))) by lia. by rewrite !andb_true_r.
Qed.

Definition callee (c : call) : Z * Z := (c.1.1, c.1.2).

Lemma wants_calls r s ev pid dom l : holds_registry r s -> (forall p, p ∈ l -> p ∈ listed s) ->
  callee <$> (call_of <$> filter (fun e => is_observer ev pid dom e = true) (entries_of s l)) =
  (fun k => (o_cb k, o_ctx k)) <$> filter (fun k => a_wants ev pid dom k = true) (key_of <$> entries_of s l).
Proof.
  intros H. destruct (hr_inv _ _ H) as [own Hi]. unfold entries_of. induction l as [|p l IH]; intros Hl; [done|]. cbn [omap list_omap].
  destruct (proj1 (elem_of_listed s p) (Hl p ltac:(left))) as [i Hpi]. destruct (inv_listed _ _ _ _ _ _ Hi Hpi) as [e Ee]. rewrite Ee.
  cbn [fmap list_fmap]. specialize (IH (fun q Hq => Hl q (list_elem_of_further _ _ _ Hq))). rewrite !filter_cons.
  rewrite (is_observer_wants r s p i e ev pid dom H Hpi Ee). destruct (decide (a_wants ev pid dom (key_of e) = true)); [|exact IH].
  cbn [fmap list_fmap]. f_equal. exact IH.
Qed.

Lemma filter_wants ev pid dom (r : registry) :
  filter (fun k => a_wants ev pid dom k = true) (filter (fun x => list_index (o_ev x.1) = list_index ev) r).*1 =
  filter (fun k => a_wants ev pid dom k = true) r.*1.
Proof.
  induction r as [|[k n] r IH]; [done|]. cbn [fmap list_fmap]. destruct (decide (a_wants ev pid dom k = true)) as [Hw|Hw].
  - assert (Ev : ev = o_ev k) by (unfold a_wants in Hw; rewrite !andb_true_iff, Z.eqb_eq in Hw; tauto).
    rewrite (filter_cons_True (fun x => _ = _)) by (cbn; by rewrite Ev). cbn [fmap list_fmap fst].
    rewrite !filter_cons_True by done. by rewrite IH.
  - rewrite (filter_cons_False _ k) by done. rewrite <- IH. destruct (decide (list_index (o_ev k) = list_index ev)).
    + rewrite (filter_cons_True (fun x => _ = _)) by done. cbn [fmap list_fmap fst]. by rewrite filter_cons_False.
    + by rewrite (filter_cons_False (fun x => _ = _)).
Qed.

Lemma process_refines r s ev pid dom : holds_registry r s ->
  exists calls, EsifEventMgr_ProcessEvent true ev pid dom s = Some ((ESIF_OK, calls), s) /\
    callee <$> calls = (fun k => (o_cb k, o_ctx k)) <$> filter (fun k => a_wants ev pid dom k = true) r.*1.
Proof.
  intros H. destruct (hr_inv _ _ H) as [own Hi]. eexists. split; [exact (process_event_spec own s Hi ev pid dom)|].
  unfold entries_at. rewrite (wants_calls r s ev pid dom _ H) by (intros p Hp; apply elem_of_listed; eauto).
  assert (E : key_of <$> entries_of s (list_at s (list_index ev)) = (rep <$> entries_at s (list_index ev)).*1) by (rewrite <- list_fmap_compose; reflexivity).
  rewrite E, (hr_lists _ _ H), filter_wants. done.
Qed.

(** C28: The event manager is a registry of observers.  For every sequence of
    registrations, unregistrations and unregistrations of whole applications that
    run one after another and find memory, from the state after initialisation:
    no freed entry is used; every call has the result code of the abstract
    registry, in which an observer (event, participant, domain, callback and
    context) has one place, in the order of the first registration, and the
    number of its registrations, and goes with the last of them; the events that
    are disabled are exactly those of the observers that go; and whatever event
    is processed afterwards calls exactly the observers of the registry that want
    it, in the order of registration, and changes nothing.  The two handles of
    the primary participant are as the code has them: a registration by one of
    them is counted in the place of the other, but only the handle that the
    place was made with gives it back. *)
Theorem event_reg_refines (ops : list rop) :
  exists outs s', exec_ops ops registry_init = Some (outs, s') /\
    Forall2 same_outcome outs (a_exec_ops ops []).1 /\
    forall ev pid dom, exists calls, EsifEventMgr_ProcessEvent true ev pid dom s' = Some ((ESIF_OK, calls), s') /\
      callee <$> calls = (fun k => (o_cb k, o_ctx k)) <$> filter (fun k => a_wants ev pid dom k = true) (a_exec_ops ops []).2.*1.
Proof.
  destruct (exec_ops_refines ops [] registry_init holds_init) as (outs & s' & E & Ho & H). exists outs, s'. split_and!; [done|done|].
  intros ev pid dom. by apply process_refines.
Qed.

Module EventRegDemo.
Definition fpc1 : EsifFpcEvent := mk_fpc 10 ESIF_EVENT_GROUP_CODE [].
Definition fpc2 : EsifFpcEvent := mk_fpc 74 ESIF_EVENT_GROUP_CODE [].
Definition ok_os (e : EventMgrEntry) : Z := ESIF_OK.
Definition bad_os (e : EventMgrEntry) : Z := ESIF_E_UNSPECIFIED.
(** Two events of one list; one observer twice; one that cannot be enabled; one
    by both handles of the primary participant, the second of which cannot be
    given back. *)
Definition ops : list rop :=
  [OpRegister ok_os fpc1 5 EVENT_MGR_DOMAIN_D0 100 7;
   OpRegister ok_os fpc2 5 EVENT_MGR_MATCH_ANY_DOMAIN 100 8;
   OpRegister ok_os fpc1 5 EVENT_MGR_DOMAIN_D0 100 7;
   OpRegister bad_os fpc1 6 EVENT_MGR_DOMAIN_D0 101 7;
   OpRegister ok_os fpc1 1 EVENT_MGR_DOMAIN_D0 102 9;
   OpRegister ok_os fpc1 0 EVENT_MGR_DOMAIN_D0 102 9;
   OpUnregister fpc1 0 EVENT_MGR_DOMAIN_D0 102 9;
   OpUnregister fpc1 5 EVENT_MGR_DOMAIN_D0 100 7;
   OpUnregisterApp 100 8].
End EventRegDemo.

Lemma event_reg_refines_witness : 
  (a_exec_ops EventRegDemo.ops []).2 =
    [(mk_observer 10 5 EVENT_MGR_DOMAIN_D0 100 7, 1); (mk_observer 10 1 EVENT_MGR_DOMAIN_D0 102 9, 2)] /\
  exists outs s', exec_ops EventRegDemo.ops registry_init = Some (outs, s') /\ Forall2 same_outcome outs (a_exec_ops EventRegDemo.ops []).1 /\
    forall ev pid dom, exists calls, EsifEventMgr_ProcessEvent true ev pid dom s' = Some ((ESIF_OK, calls), s') /\
      callee <$> calls = (fun k => (o_cb k, o_ctx k)) <$> filter (fun k => a_wants ev pid dom k = true) (a_exec_ops EventRegDemo.ops []).2.*1.
Proof. split; [vm_compute; reflexivity|]. exact (event_reg_refines EventRegDemo.ops). Defined.
