(* ===== verification/Machine.v ===== *)
(** * Threads as a machine of steps

    A component that several threads use is modelled by the steps that its
    threads take, one at a time: a step on a configuration yields the next
    configuration and what can be observed, or has no outcome ([None]) where the
    code's behaviour is undefined.  [allowed] says when a step may be taken: the
    thread is there, and the clients keep the component's rules.  An interleaving
    is a list of steps. *)

From S2P Require Import Prelude.
From stdpp Require Import list.

Section Machine.
Context {C V O : Type} (exec : V -> C -> option (C * list O)) (allowed : V -> C -> Prop).

(** The last configuration and the observations, in order. *)
Fixpoint run_steps (vs : list V) (c : C) : option (C * list O) :=
  match vs with
  | [] => Some (c, [])
  | v :: vs =>
      match exec v c with
      | Some (c, k) => match run_steps vs c with Some (c, k') => Some (c, k ++ k') | None => None end
      | None => None
      end
  end.

Fixpoint follows (vs : list V) (c : C) : Prop :=
  match vs with
  | [] => True
  | v :: vs => allowed v c /\ forall c' k, exec v c = Some (c', k) -> follows vs c'
  end.

Lemma run_steps_app vs ws : forall c, run_steps (vs ++ ws) c =
  match run_steps vs c with
  | Some (c1, k1) => match run_steps ws c1 with Some (c2, k2) => Some (c2, k1 ++ k2) | None => None end
  | None => None
  end.
Proof.
  induction vs as [|v vs IH]; intros c; cbn [app run_steps].
  - by destruct (run_steps ws c) as [[c2 k2]|].
  - destruct (exec v c) as [[c1 k1]|]; [|done]. rewrite IH. destruct (run_steps vs c1) as [[c2 k2]|]; [|done].
    destruct (run_steps ws c2) as [[c3 k3]|]; [|done]. by rewrite app_assoc.
Qed.

Lemma follows_app vs ws : forall c, follows (vs ++ ws) c ->
  follows vs c /\ forall c1 k1, run_steps vs c = Some (c1, k1) -> follows ws c1.
Proof.
  induction vs as [|v vs IH]; intros c; cbn [app follows run_steps].
  - intros Hd. split; [done|]. by intros c1 k1 [= <- <-].
  - intros [Ha Hd]. split; [split; [done|]|].
    + intros c1 k1 E. by apply (IH c1 (Hd c1 k1 E)).
    + intros c2 k2. destruct (exec v c) as [[c1 k1]|] eqn:E; [|done]. destruct (run_steps vs c1) as [[c3 k3]|] eqn:E2; [|done].
      intros [= <- _]. by apply (proj2 (IH c1 (Hd c1 k1 eq_refl)) c3 k3).
Qed.

(** An invariant that every step allowed keeps, and that gives it an outcome. *)
Lemma run_steps_inv (I : C -> Prop) (Hstep : forall v c, I c -> allowed v c -> exists c' k, exec v c = Some (c', k) /\ I c') vs :
  forall c, I c -> follows vs c -> exists c' k, run_steps vs c = Some (c', k) /\ I c'.
Proof.
  induction vs as [|v vs IH]; intros c Hc Hd; [by exists c, []|]. destruct Hd as [Ha Hd]. cbn [run_steps].
  destruct (Hstep v c Hc Ha) as (c1 & k1 & E1 & H1). rewrite E1. destruct (IH c1 H1 (Hd c1 k1 E1)) as (c2 & k2 & E2 & H2). rewrite E2. eauto.
Qed.

(** Something the observations of every step have. *)
Lemma run_steps_obs (I : C -> Prop) (P : O -> Prop) (Q : V -> Prop)
    (Hstep : forall v c c' k, I c -> Q v -> allowed v c -> exec v c = Some (c', k) -> I c' /\ Forall P k) vs :
  forall c c' k, I c -> follows vs c -> Forall Q vs -> run_steps vs c = Some (c', k) -> Forall P k.
Proof.
  induction vs as [|v vs IH]; intros c c' k Hc Hd Hq; cbn [run_steps]; [by intros [= <- <-]; constructor|].
  destruct Hd as [Ha Hd]. apply Forall_cons in Hq as [Hq Hqs]. destruct (exec v c) as [[c1 k1]|] eqn:E1; [|done].
  destruct (run_steps vs c1) as [[c2 k2]|] eqn:E2; [|done]. intros [= <- <-]. destruct (Hstep v c c1 k1 Hc Hq Ha E1) as [Hc1 Hk1].
  apply Forall_app. split; [done|]. exact (IH c1 c2 k2 Hc1 (Hd c1 k1 eq_refl) Hqs E2).
Qed.

(** Checking that a run keeps the rules. *)
Context `{!forall v c, Decision (allowed v c)}.

Fixpoint check (vs : list V) (c : C) : bool :=
  match vs with
  | [] => true
  | v :: vs => bool_decide (allowed v c) && match exec v c with Some (c', _) => check vs c' | None => true end
  end.

Lemma check_sound vs : forall c, check vs c = true -> follows vs c.
Proof.
  induction vs as [|v vs IH]; intros c; [done|]. cbn [check follows]. intros [Ha%bool_decide_eq_true Hc]%andb_true_iff. split; [done|].
  intros c' k E. rewrite E in Hc. by apply IH.
Qed.
End Machine.

(** A run that keeps weaker rules keeps the stronger ones, or there is a first step that
    breaks them. *)
Lemma follows_or {C V O : Type} (exec : V -> C -> option (C * list O)) (weak strong broken : V -> C -> Prop)
    (Hor : forall v c, weak v c -> strong v c \/ broken v c) vs : forall c, follows exec weak vs c ->
  follows exec strong vs c \/ exists vs1 v vs2 c1 k1, vs = vs1 ++ v :: vs2 /\ run_steps exec vs1 c = Some (c1, k1) /\ broken v c1.
Proof.
  induction vs as [|v vs IH]; intros c; [by left|]. intros [Hw Hd]. destruct (Hor v c Hw) as [Hs|Hb]; [|right; by exists [], v, vs, c, []].
  destruct (exec v c) as [[c1 k1]|] eqn:E; [|left; split; [done|congruence]]. destruct (IH c1 (Hd c1 k1 eq_refl)) as [Hf|(vs1 & v' & vs2 & c2 & k2 & -> & E2 & Hb)].
  - left. split; [done|]. intros c' k E'. rewrite E in E'. by injection E' as <- <-.
  - right. exists (v :: vs1), v', vs2, c2, (k1 ++ k2). split; [done|]. cbn [run_steps]. by rewrite E, E2.
Qed.

(** The first occurrence of an element taken out of a list. *)
Definition remove_one {A} `{EqDecision A} (x : A) (l : list A) : list A :=
  match list_find (fun y => y = x) l with Some (i, _) => delete i l | None => l end.

Lemma remove_one_split {A} `{EqDecision A} (x : A) l : x ∈ l -> exists l1 l2, l = l1 ++ x :: l2 /\ remove_one x l = l1 ++ l2.
Proof.
  intros Hx. unfold remove_one. destruct (list_find (fun y => y = x) l) as [[i y]|] eqn:Ef.
  - apply list_find_Some in Ef as (Hi & -> & _). exists (take i l), (drop (S i) l). split; [symmetry; by apply take_drop_middle|].
    by rewrite delete_take_drop.
  - exfalso. apply list_find_None in Ef. rewrite Forall_forall in Ef. by apply (Ef x Hx).
Qed.

Lemma remove_one_nodup {A} `{EqDecision A} (x : A) l : x ∈ l -> NoDup l ->
  NoDup (remove_one x l) /\ forall y, y ∈ remove_one x l <-> y <> x /\ y ∈ l.
Proof.
  intros Hx Hn. destruct (remove_one_split x l Hx) as (l1 & l2 & -> & ->). apply NoDup_app_cons_swap in Hn as (H1 & H2 & Hn). split; [exact Hn|].
  intros y. rewrite !elem_of_app, elem_of_cons. split.
  - intros Hy. split; [intros ->; tauto|tauto].
  - intros [Hne [Hy|[->|Hy]]]; tauto.
Qed.
