(* ===== verification/EventRace.v ===== *)
(** * The observers while the event thread is in a callback: esif_uf_eventmgr.c

    The event thread calls an observer without holding the list lock, and other
    threads register, unregister and empty the garbage list meanwhile.  Here
    each critical section of EventReg.v is a step, taken by whatever thread is
    next; what a thread does between two of its sections is in the state: the
    event thread's callback, the registrations that found nothing yet, the
    entries whose events are being enabled, the entries taken off the garbage
    list to be destroyed.  [None] stands for the use of a freed entry or node. *)

From S2P Require Import Prelude Machine EventCache EventReg.
From stdpp Require Import list gmap.
Local Open Scope Z_scope.
Local Open Scope dptf_scope.

(** The arguments of a registration. *)
Record args : Type := mk_args { a_fpc : EsifFpcEvent; a_pid : Z; a_dom : Z; a_cb : Z; a_ctx : Z }.
#[export] Instance fpc_eq_dec : EqDecision EsifFpcEvent.
Proof. solve_decision. Defined.
#[export] Instance args_eq_dec : EqDecision args.
Proof. solve_decision. Defined.

(** [c_busy] is the event being sent (its type, participant and domain) and the
    entry in whose callback the event thread is; [c_own] counts, for the
    statements only, the registrations that have not been taken back;
    [c_undoing] are the calls that found an entry marked for deletion. *)
Record rcfg : Type := mk_rcfg {
  c_reg : rst;
  c_busy : option ((Z * Z * Z) * positive);
  c_doomed : list positive;
  c_own : gmap positive Z;
  c_pending : list args;
  c_enabling : list positive;
  c_undoing : list (nat * positive)
}.
Definition current (c : rcfg) : ptr := snd <$> c_busy c.

Definition found_registration (c : rcfg) (a : args) : ptr :=
  first_match (heap (c_reg c)) (same_registration (a_fpc a) (a_pid a) (a_dom a) (a_cb a) (a_ctx a))
    (list_at (c_reg c) (list_index (esif_event (a_fpc a)))).
Definition found_observer (c : rcfg) (a : args) : ptr :=
  first_match (heap (c_reg c)) (same_observer (a_fpc a) (a_pid a) (a_dom a) (a_cb a) (a_ctx a))
    (list_at (c_reg c) (list_index (esif_event (a_fpc a)))).

Inductive revt : Type :=
  | VFind (a : args)
  | VInsert (p : positive) (a : args)
  | VEnabled (p : positive)
  | VEnableFailed (p : positive)
  | VUndo (i : nat) (p : positive)
  | VRelease (a : args)
  | VUnregisterApp (cb ctx : Z)
  | VBegin (ev pid dom : Z)
  | VReturn
  | VPop
  | VDiscard (p : positive).

(** The call that the event thread makes on finding an observer. *)
Definition call_at (s : rst) (p : ptr) : list call :=
  match p with Some p => match heap s !! p with Some e => [call_of e] | None => [] end | None => [] end.

Definition set_reg (s : rst) (c : rcfg) : rcfg := mk_rcfg s (c_busy c) (c_doomed c) (c_own c) (c_pending c) (c_enabling c) (c_undoing c).
Definition set_busy (b : option ((Z * Z * Z) * positive)) (c : rcfg) : rcfg := mk_rcfg (c_reg c) b (c_doomed c) (c_own c) (c_pending c) (c_enabling c) (c_undoing c).
Definition set_doomed (l : list positive) (c : rcfg) : rcfg := mk_rcfg (c_reg c) (c_busy c) l (c_own c) (c_pending c) (c_enabling c) (c_undoing c).
Definition set_own (o : gmap positive Z) (c : rcfg) : rcfg := mk_rcfg (c_reg c) (c_busy c) (c_doomed c) o (c_pending c) (c_enabling c) (c_undoing c).
Definition set_pending (l : list args) (c : rcfg) : rcfg := mk_rcfg (c_reg c) (c_busy c) (c_doomed c) (c_own c) l (c_enabling c) (c_undoing c).
Definition set_enabling (l : list positive) (c : rcfg) : rcfg := mk_rcfg (c_reg c) (c_busy c) (c_doomed c) (c_own c) (c_pending c) l (c_undoing c).
Definition set_undoing (l : list (nat * positive)) (c : rcfg) : rcfg := mk_rcfg (c_reg c) (c_busy c) (c_doomed c) (c_own c) (c_pending c) (c_enabling c) l.

Definition do_find (a : args) (c : rcfg) : option rcfg :=
  match add_find (a_fpc a) (a_pid a) (a_dom a) (a_cb a) (a_ctx a) (c_reg c) with
  | Some (FoundNoList, s) => Some (set_reg s c)
  | Some (FoundNone, s) => Some (set_pending (a :: c_pending c) (set_reg s c))
  | Some (FoundOne, s) =>
      Some (set_own (match found_registration c a with Some p => <[p := owners (c_own c) p + 1]> (c_own c) | None => c_own c end) (set_reg s c))
  | Some (FoundMarked p, s) => Some (set_undoing ((list_index (esif_event (a_fpc a)), p) :: c_undoing c) (set_reg s c))
  | None => None
  end.

(** The new entry is initialised, and added to its list. *)
Definition do_insert (p : positive) (a : args) (c : rcfg) : option rcfg :=
  let e := new_entry (a_fpc a) (a_pid a) (a_dom a) (a_cb a) (a_ctx a) in
  match add_insert p (a_fpc a) (with_heap (<[p := e]> (heap (c_reg c))) (c_reg c)) with
  | Some (_, s) =>
      Some (set_enabling (p :: c_enabling c) (set_pending (remove_one a (c_pending c)) (set_own (<[p := 1]> (c_own c)) (set_reg s c))))
  | None => None
  end.

(** Enabling reads the entry; afterwards it is over, or undone. *)
Definition do_enabled (p : positive) (c : rcfg) : option rcfg :=
  match deref p (c_reg c) with Some (_, s) => Some (set_enabling (remove_one p (c_enabling c)) (set_reg s c)) | None => None end.
Definition do_enable_failed (p : positive) (c : rcfg) : option rcfg :=
  match (let! e := deref p in add_undo (list_index (esif_event (fpcEvent e))) (Some p) (Some p)) (c_reg c) with
  | Some (_, s) => Some (set_enabling (remove_one p (c_enabling c)) (set_own (delete p (c_own c)) (set_reg s c)))
  | None => None
  end.

Definition do_undo (i : nat) (p : positive) (c : rcfg) : option rcfg :=
  match add_undo i (Some p) None (c_reg c) with Some (_, s) => Some (set_undoing (remove_one (i, p) (c_undoing c)) (set_reg s c)) | None => None end.

Definition own_released (c : rcfg) (a : args) : gmap positive Z :=
  match found_observer c a with
  | Some p =>
      match heap (c_reg c) !! p with
      | Some e => if (refCount e - 1 <=? 0) || markedForDelete e then delete p (c_own c) else <[p := owners (c_own c) p - 1]> (c_own c)
      | None => c_own c
      end
  | None => c_own c
  end.
Definition do_release (a : args) (c : rcfg) : option rcfg :=
  match release_find true (a_fpc a) (a_pid a) (a_dom a) (a_cb a) (a_ctx a) (c_reg c) with
  | Some (_, s) => Some (set_own (own_released c a) (set_reg s c))
  | None => None
  end.

Definition do_unregister_app (cb ctx : Z) (c : rcfg) : option rcfg :=
  match unregister_app_find (fun _ => true) cb ctx (c_reg c) with Some (_, s) => Some (set_reg s c) | None => None end.

Definition do_begin (ev pid dom : Z) (c : rcfg) : option (rcfg * list call) :=
  match process_begin ev pid dom (c_reg c) with
  | Some (Some r, s) => Some (set_busy (pair (ev, pid, dom) <$> r) (set_reg s c), call_at s r)
  | Some (None, s) => Some (set_reg s c, [])
  | None => None
  end.

Definition do_return (c : rcfg) : option (rcfg * list call) :=
  match c_busy c with
  | Some ((ev, pid, dom), p) =>
      match process_return true ev pid dom p (c_reg c) with
      | Some ((r, dead), s) =>
          Some (set_busy (pair (ev, pid, dom) <$> r) (set_own (if (dead : bool) then delete p (c_own c) else c_own c) (set_reg s c)), call_at s r)
      | None => None
      end
  | None => Some (c, [])
  end.

Definition do_pop (c : rcfg) : option rcfg :=
  match pop_garbage (c_reg c) with
  | Some (Some p, s) => Some (set_doomed (p :: c_doomed c) (set_reg s c))
  | Some (None, s) => Some (set_reg s c)
  | None => None
  end.
Definition do_discard (p : positive) (c : rcfg) : option rcfg :=
  match discard p (c_reg c) with Some (_, s) => Some (set_doomed (remove_one p (c_doomed c)) (set_reg s c)) | None => None end.

(** A step, and the call that the event thread makes in it. *)
Definition exec_race (v : revt) (c : rcfg) : option (rcfg * list call) :=
  let silent := fmap (fun c => (c, [])) in
  match v with
  | VFind a => silent (do_find a c)
  | VInsert p a => silent (do_insert p a c)
  | VEnabled p => silent (do_enabled p c)
  | VEnableFailed p => silent (do_enable_failed p c)
  | VUndo i p => silent (do_undo i p c)
  | VRelease a => silent (do_release a c)
  | VUnregisterApp cb ctx => silent (do_unregister_app cb ctx c)
  | VBegin ev pid dom => do_begin ev pid dom c
  | VReturn => do_return c
  | VPop => silent (do_pop c)
  | VDiscard p => silent (do_discard p c)
  end.

Strategy expand [exec_race].

Abbreviation run_race := (run_steps exec_race).

(** Whether the step is one of a thread's next steps and, where it is a client's, the client
    keeps the rules: an observer that has been unregistered with its application is not
    registered again while the entry is still in the list; a registration is taken back
    once, after it has returned and not after the application has been unregistered; an
    application is not unregistered while one of its registrations is being enabled. *)
Definition client_rules (v : revt) (c : rcfg) : Prop :=
  match v with
  | VFind a => forall p e, found_registration c a = Some p -> heap (c_reg c) !! p = Some e -> markedForDelete e = false
  | VInsert p a => a ∈ c_pending c /\ heap (c_reg c) !! p = None
  | VEnabled p => p ∈ c_enabling c
  | VEnableFailed p => p ∈ c_enabling c
  | VUndo i p => (i, p) ∈ c_undoing c
  | VRelease a => forall p e, found_observer c a = Some p -> heap (c_reg c) !! p = Some e ->
      markedForDelete e = false /\ (if decide (p ∈ c_enabling c) then 1 else 0) < owners (c_own c) p
  | VUnregisterApp cb ctx => forall p e, p ∈ c_enabling c -> heap (c_reg c) !! p = Some e -> of_app cb ctx e = false
  | VBegin _ _ _ => c_busy c = None
  | VReturn => is_Some (c_busy c)
  | VPop => True
  | VDiscard p => p ∈ c_doomed c
  end.
(** No client can see to it that an event that cannot be enabled is found out before the
    event thread calls the new observer: the entry is in the list already. *)
Definition withdrawn_in_callback (v : revt) (c : rcfg) : Prop := exists p, v = VEnableFailed p /\ current c = Some p.
Definition allowed (v : revt) (c : rcfg) : Prop :=
  match v with VEnableFailed p => p ∈ c_enabling c /\ current c <> Some p | _ => client_rules v c end.

Abbreviation disciplined := (follows exec_race allowed).

Definition race_init : rcfg := mk_rcfg registry_init None [] ∅ [] [] [].

(* ------------------------------------------------------------------ *)
(** ** The invariant *)

(** An entry that stays where it is: listed, not marked, with a registration. *)
Definition solid (s : rst) (own : gmap positive Z) (p : positive) : Prop :=
  exists i e, p ∈ list_at s i /\ heap s !! p = Some e /\ markedForDelete e = false /\ 1 <= owners own p.

Record race_inv (c : rcfg) : Prop := {
  ci_reg : reg_inv (current c) (c_doomed c) (c_own c) (c_reg c);
  ci_busy : forall ev pid dom p, c_busy c = Some ((ev, pid, dom), p) -> p ∈ list_at (c_reg c) (list_index ev);
  ci_enabling : forall p, p ∈ c_enabling c -> solid (c_reg c) (c_own c) p;
  ci_nodup : NoDup (c_enabling c);
  ci_undoing : c_undoing c = []
}.

Lemma race_inv_init : race_inv race_init.
Proof.
  destruct holds_init as [[own Hi] _ _ _ _]. split; try done; try by intros.
  - destruct Hi as [H1 H2 H3 H4 H5 H6 H7]. split; try done. intros i p Hp. rewrite list_at_init in Hp. by apply elem_of_nil in Hp.
  - intros p Hp. by apply elem_of_nil in Hp.
  - constructor.
Qed.

Lemma solid_frame s own s' own' p :
  (forall i, p ∈ list_at s i -> p ∈ list_at s' i) ->
  (forall e, heap s !! p = Some e -> markedForDelete e = false -> exists e', heap s' !! p = Some e' /\ markedForDelete e' = false) ->
  (1 <= owners own p -> 1 <= owners own' p) -> solid s own p -> solid s' own' p.
Proof. intros H1 H2 H3 (i & e & Hp & Ee & Hm & Ho). destruct (H2 e Ee Hm) as (e' & Ee' & Hm'). exists i, e'. split_and!; auto. Qed.

Lemma owners_insert own p n q : owners (<[p := n]> own) q = if decide (q = p) then n else owners own q.
Proof. unfold owners. destruct (decide (q = p)) as [->|]; [by rewrite lookup_insert_eq|by rewrite lookup_insert_ne]. Qed.
Lemma owners_delete own p q : q <> p -> owners (delete p own) q = owners own q.
Proof. intros Hq. unfold owners. by rewrite lookup_delete_ne. Qed.

(** An entry updated in place, its mark kept. *)
Lemma solid_update s own own' p e e' q : heap s !! p = Some e -> markedForDelete e' = markedForDelete e ->
  (1 <= owners own q -> 1 <= owners own' q) -> solid s own q -> solid (with_heap (<[p := e']> (heap s)) s) own' q.
Proof.
  intros Ee Hm Ho. apply solid_frame; [done| |done]. intros e0 E0 H0. cbn. destruct (decide (q = p)) as [->|].
  - rewrite lookup_insert_eq. exists e'. split; [done|]. congruence.
  - rewrite lookup_insert_ne by done. by exists e0.
Qed.

Lemma others_stay s i p h g j q : length (observerLists s) = 64%nat -> (i < 64)%nat -> NoDup (list_at s i) -> q <> p -> q ∈ list_at s j ->
  q ∈ list_at (mk_rst h (<[i := Some (remove_node p (list_at s i))]> (observerLists s)) g) j.
Proof.
  intros Hl Hi Hn Hq Hj. rewrite list_at_insert by done. destruct (decide (j = i)) as [->|]; [|done]. rewrite remove_node_spec by done.
  by apply list_elem_of_filter.
Qed.

(** Another entry left its list. *)
Lemma solid_remove s own i p h g q : length (observerLists s) = 64%nat -> (i < 64)%nat -> NoDup (list_at s i) ->
  q <> p -> h !! q = heap s !! q -> solid s own q ->
  solid (mk_rst h (<[i := Some (remove_node p (list_at s i))]> (observerLists s)) g) (delete p own) q.
Proof.
  intros Hl Hi Hn Hq Hh. apply solid_frame.
  - intros j Hj. by apply others_stay.
  - cbn. rewrite Hh. eauto.
  - by rewrite owners_delete.
Qed.

Section Step.
Context (c : rcfg) (Hc : race_inv c).

Lemma cur_listed p : current c = Some p -> exists ev pid dom, c_busy c = Some ((ev, pid, dom), p) /\ p ∈ list_at (c_reg c) (list_index ev).
Proof.
  unfold current. destruct (c_busy c) as [[[[ev pid] dom] q]|] eqn:Eb; [|done]. intros [= ->]. exists ev, pid, dom.
  split; [done|]. by apply (ci_busy _ Hc ev pid dom).
Qed.

Lemma step_find a : allowed (VFind a) c -> exists c', do_find a c = Some c' /\ race_inv c'.
Proof.
  intros Ha. unfold do_find, allowed, client_rules, found_registration in *. destruct Hc as [Hi Hb He Hn Hu].
  pose proof (add_find_spec _ _ _ _ Hi (a_fpc a) (a_pid a) (a_dom a) (a_cb a) (a_ctx a)) as Hf. cbv zeta in Hf.
  destruct (first_match _ _ _) as [p|].
  - destruct Hf as (e & Ee & Hp & _ & Hf). rewrite (Ha p e eq_refl Ee) in Hf. rewrite Hf. eexists. split; [reflexivity|]. split; try done.
    + apply (inv_count_up _ _ _ _ Hi _ p e Hp Ee (Ha p e eq_refl Ee)).
    + intros q Hq. apply (solid_update (c_reg c) (c_own c) _ p e); [done|done| |by apply He].
      cbn. rewrite owners_insert. destruct (decide (q = p)) as [->|]; lia.
  - rewrite Hf. eexists. split; [reflexivity|]. split; done.
Qed.

Lemma step_insert p a : allowed (VInsert p a) c -> exists c', do_insert p a c = Some c' /\ race_inv c'.
Proof.
  intros [_ Hp]. destruct Hc as [Hi Hb He Hn Hu]. unfold do_insert. set (e := new_entry _ _ _ _ _).
  rewrite (add_insert_spec _ _ _ _ Hi p (a_fpc a) e eq_refl). eexists. split; [reflexivity|].
  assert (Hadd : forall j q, q ∈ list_at (c_reg c) j -> q ∈ list_at (with_new (c_reg c) p e) j).
  { intros j q Hq. unfold with_new. rewrite list_at_insert by (try apply (ri_len _ _ _ _ Hi); apply list_index_bound).
    destruct (decide _) as [->|]; [apply elem_of_app; by left|done]. }
  assert (Hpn : forall j, p ∉ list_at (c_reg c) j) by (intros j Hj; destruct (inv_listed _ _ _ _ _ _ Hi Hj) as [x E]; congruence).
  split; try done.
  - exact (inv_new _ _ _ _ p e Hi Hp eq_refl eq_refl eq_refl).
  - intros ev pid dom q Hq. apply Hadd. by apply (Hb ev pid dom).
  - intros q. cbn [c_enabling c_reg c_own set_reg set_own set_pending set_enabling]. intros [->|Hq]%elem_of_cons.
    + exists (list_index (esif_event (a_fpc a))), e. split; [|split; [apply lookup_insert_eq|split; [done|rewrite owners_insert, decide_True; done]]].
      unfold with_new. rewrite list_at_insert by (try apply (ri_len _ _ _ _ Hi); apply list_index_bound). cbn [e new_entry fpcEvent].
      rewrite decide_True by done. apply elem_of_app. right. left.
    + assert (Hqp : q <> p) by (intros ->; destruct (He p Hq) as (i & x & Hl & _); by apply (Hpn i)).
      apply (solid_frame (c_reg c) (c_own c)); [intros j; apply Hadd| | |by apply He].
      * intros x Ex Hx. exists x. split; [|done]. cbn. by rewrite lookup_insert_ne.
      * rewrite owners_insert. by rewrite decide_False.
  - cbn. apply NoDup_cons. split; [|done]. intros Hq. destruct (He p Hq) as (i & x & Hl & _). by apply (Hpn i).
Qed.

Lemma step_enabled p : allowed (VEnabled p) c -> exists c', do_enabled p c = Some c' /\ race_inv c'.
Proof.
  intros Hp. destruct Hc as [Hi Hb He Hn Hu]. cbn in Hp. destruct (He p Hp) as (i & e & _ & Ee & _). unfold do_enabled.
  rewrite (deref_some p _ e Ee). eexists. split; [reflexivity|]. destruct (remove_one_nodup p _ Hp Hn) as [Hn' Hsub].
  split; try done. intros q Hq. apply He. by apply Hsub.
Qed.

Lemma step_enable_failed p : allowed (VEnableFailed p) c -> exists c', do_enable_failed p c = Some c' /\ race_inv c'.
Proof.
  intros [Hp Hcur]. destruct Hc as [Hi Hb He Hn Hu]. cbn in Hp. destruct (He p Hp) as (i & e & Hl & Ee & _). unfold do_enable_failed.
  rewrite (sbind_some _ _ _ _ _ (deref_some p _ e Ee)). pose proof (eo_index _ _ _ _ _ (entry_at _ _ _ _ _ _ _ Hi Hl Ee)) as ->.
  rewrite (add_undo_spec _ _ _ _ Hi i p Hl). eexists. split; [reflexivity|]. destruct (remove_one_nodup p _ Hp Hn) as [Hn' Hsub].
  pose proof (list_at_index _ _ _ _ _ _ Hi Hl) as Hlt. split; try done.
  - by apply (inv_dropped _ _ _ _ Hi i p).
  - intros ev pid dom q Hq. cbn in Hq |- *. pose proof (Hb ev pid dom q Hq) as Hq'.
    apply others_stay; [apply (ri_len _ _ _ _ Hi)|done|apply (list_at_nodup _ _ _ _ _ Hi)| |done]. intros ->. apply Hcur. unfold current. by rewrite Hq.
  - intros q Hq. destruct (proj1 (Hsub q) Hq) as [Hne Hq']. apply solid_remove; [apply (ri_len _ _ _ _ Hi)|done|apply (list_at_nodup _ _ _ _ _ Hi)|done| |by apply He].
    by apply lookup_delete_ne.
Qed.

Lemma step_release a : allowed (VRelease a) c -> exists c', do_release a c = Some c' /\ race_inv c'.
Proof.
  intros Ha. unfold do_release, allowed, client_rules, own_released, found_observer in *. destruct Hc as [Hi Hb He Hn Hu].
  pose proof (release_find_spec _ _ _ _ Hi (a_fpc a) (a_pid a) (a_dom a) (a_cb a) (a_ctx a)) as Hf. cbv zeta in Hf.
  destruct (first_match _ _ _) as [p|].
  - destruct Hf as (e & Ee & Hp & _ & Hf). destruct (Ha p e eq_refl Ee) as [Hm Ho]. rewrite Hf, Ee. eexists. split; [reflexivity|].
    assert (Ho1 : 1 <= owners (c_own c) p) by (destruct (decide (p ∈ c_enabling c)); lia).
    pose proof (reg_release_inv _ _ _ _ Hi _ p e Hp Ee Hm Ho1) as Hi'. set (i := list_index _) in *.
    pose proof (list_at_index _ _ _ _ _ _ Hi Hp) as Hlt.
    destruct ((refCount e - 1 <=? 0) || markedForDelete e).
    + destruct Hi' as (Hcur & Ho2 & Hi'). split; try done.
      * intros ev pid dom q Hq. cbn in Hq |- *. pose proof (Hb ev pid dom q Hq) as Hq'.
        apply others_stay; [apply (ri_len _ _ _ _ Hi)|done|apply (list_at_nodup _ _ _ _ _ Hi)| |done]. intros ->. apply Hcur. unfold current. by rewrite Hq.
      * intros q Hq. cbn in Hq. assert (Hqp : q <> p) by (intros ->; rewrite decide_True in Ho by done; lia).
        apply solid_remove; [apply (ri_len _ _ _ _ Hi)|done|apply (list_at_nodup _ _ _ _ _ Hi)|done| |by apply He]. by apply lookup_insert_ne.
    + split; try done. intros q Hq. apply (solid_update (c_reg c) (c_own c) _ p e); [done|done| |by apply He].
      cbn in Hq |- *. rewrite owners_insert. destruct (decide (q = p)) as [->|]; [rewrite decide_True in Ho by done|]; lia.
  - rewrite Hf. eexists. split; [reflexivity|]. split; done.
Qed.

Lemma step_undo i p : allowed (VUndo i p) c -> exists c', do_undo i p c = Some c' /\ race_inv c'.
Proof. cbn. rewrite (ci_undoing _ Hc). by intros ?%elem_of_nil. Qed.

Lemma step_unregister_app cb ctx : allowed (VUnregisterApp cb ctx) c -> exists c', do_unregister_app cb ctx c = Some c' /\ race_inv c'.
Proof.
  intros Ha. destruct Hc as [Hi Hb He Hn Hu]. unfold do_unregister_app.
  destruct (unregister_app_spec _ _ _ (c_reg c) cb ctx Hi) as (s' & E & Hl & Hg & Hm & Hi'). rewrite E. eexists. split; [reflexivity|].
  split; try done.
  - intros ev pid dom p Hp. cbn in Hp |- *. rewrite Hl. apply list_elem_of_filter. pose proof (Hb ev pid dom p Hp) as Hl'. split; [|done].
    destruct (inv_listed _ _ _ _ _ _ Hi Hl') as [e Ee]. unfold stays. rewrite Ee. right.
    rewrite (eo_use _ _ _ _ _ (entry_at _ _ _ _ _ _ _ Hi Hl' Ee)). apply bool_decide_eq_true_2. unfold current. by rewrite Hp.
  - intros p Hp. cbn in Hp. destruct (He p Hp) as (i & e & Hpi & Ee & Hme & Ho). pose proof (Ha p e Hp Ee) as Happ. exists i, e. split_and!; try done.
    + cbn. rewrite Hl. apply list_elem_of_filter. split; [|done]. unfold stays. rewrite Ee. by left.
    + cbn. rewrite Hm, decide_True by (apply elem_of_listed; eauto). rewrite Ee. cbn. unfold mark_of_app. by rewrite Happ.
Qed.

Lemma step_pop : exists c', do_pop c = Some c' /\ race_inv c'.
Proof.
  destruct Hc as [Hi Hb He Hn Hu]. unfold do_pop, pop_garbage. unfold sbind at 1. cbn [sget].
  destruct (garbageList (c_reg c)) as [[|p g]|] eqn:Eg.
  - eexists. split; [reflexivity|]. by split.
  - eexists. split; [reflexivity|]. split; try done. exact (inv_pop _ _ _ _ p g Hi Eg).
  - eexists. split; [reflexivity|]. by split.
Qed.

Lemma step_discard p : allowed (VDiscard p) c -> exists c', do_discard p c = Some c' /\ race_inv c'.
Proof.
  intros Hp. cbn in Hp. destruct Hc as [Hi Hb He Hn Hu]. destruct (remove_one_split p _ Hp) as (l1 & l2 & El & Er).
  assert (Hin : p ∈ listed (c_reg c) ++ garbage (c_reg c) ++ c_doomed c) by (rewrite !elem_of_app; tauto).
  destruct (proj2 (ri_heap _ _ _ _ Hi p) Hin) as [e Ee]. unfold do_discard, discard. rewrite (sbind_some _ _ _ _ _ (deref_some p _ e Ee)).
  rewrite (sbind_some _ _ _ _ _ (free_some p _ e Ee)). eexists. split; [reflexivity|].
  assert (Hnl : p ∉ listed (c_reg c)).
  { intros Hl. pose proof (ri_nodup _ _ _ _ Hi) as Hnd. apply NoDup_app in Hnd as (_ & Hnd & _). apply (Hnd p Hl), elem_of_app. by right. }
  split; try done.
  - cbn. rewrite Er. rewrite El in Hi. exact (inv_free _ _ _ _ _ _ Hi).
  - intros q Hq. apply (solid_frame (c_reg c) (c_own c)); [done| |done|by apply He]. intros x Ex Hx. exists x. split; [|done]. cbn.
    rewrite lookup_delete_ne; [done|]. intros <-. destruct (He p Hq) as (i & y & Hl & _). apply Hnl, elem_of_listed. by exists i.
Qed.
End Step.

(** The search for the next observer: it enters an entry that is wanted and not
    marked, or changes nothing. *)
Lemma scan_step priv own s ev pid dom l : reg_inv None priv own s -> (forall q, q ∈ l -> q ∈ list_at s (list_index ev)) ->
  exists r s', process_scan ev pid dom l s = Some (r, s') /\ reg_inv r priv own s' /\
    (forall p, r = Some p -> p ∈ list_at s' (list_index ev)) /\ (forall q, solid s own q -> solid s' own q) /\
    (forall i, list_at s' i = list_at s i) /\
    (forall q e', heap s' !! q = Some e' -> exists e, heap s !! q = Some e /\ key_of e' = key_of e /\ markedForDelete e' = markedForDelete e) /\
    (forall p, r = Some p -> exists e, heap s !! p = Some e /\ markedForDelete e = false /\ call_at s' r = [call_of e]) /\
    (r = None -> call_at s' r = []).
Proof.
  intros Hi Hl. pose proof (process_scan_spec ev pid dom l s (fun p Hp => inv_listed _ _ _ _ _ _ Hi (Hl p Hp))) as Hs.
  destruct (first_match _ _ _) as [p|] eqn:Ef.
  - destruct Hs as (e & Ee & Ho & E). exists (Some p), (entered s p e). split; [done|].
    apply first_match_some in Ef as (l1 & l2 & _ & El & _). assert (Hp : p ∈ list_at s (list_index ev)) by (apply Hl; rewrite El; apply elem_of_app; right; left).
    assert (Hm : markedForDelete e = false) by (unfold is_observer in Ho; apply andb_true_iff in Ho as [_ Ho]; by destruct (markedForDelete e)).
    split; [exact (inv_entered priv own s _ p e Hi Hp Ee)|]. split; [by intros q [= <-]|].
    split; [intros q; by apply (solid_update s own own p e)|]. split; [done|]. split.
    + intros q e'. cbn. destruct (decide (q = p)) as [->|]; [rewrite lookup_insert_eq; intros [= <-]; by exists e|rewrite lookup_insert_ne by done; eauto].
    + split; [|done]. intros q [= <-]. exists e. split_and!; try done. unfold call_at, entered. cbn. by rewrite lookup_insert_eq.
  - exists None, s. split_and!; try done. eauto.
Qed.

Lemma step_begin c ev pid dom : race_inv c -> allowed (VBegin ev pid dom) c -> exists c' k, do_begin ev pid dom c = Some (c', k) /\ race_inv c'.
Proof.
  intros [Hi Hb He Hn Hu] Ha. cbn in Ha. assert (Ec : current c = None) by (unfold current; by rewrite Ha). rewrite Ec in Hi.
  unfold do_begin, process_begin. rewrite (sbind_some _ _ _ _ _ (inv_get_list _ _ _ _ _ Hi (list_index_bound ev))).
  destruct (scan_step _ _ _ ev pid dom _ Hi (fun q Hq => Hq)) as (r & s' & E & Hi' & Hr & Hs & _). rewrite (sbind_some _ _ _ _ _ E).
  eexists _, _. split; [reflexivity|]. split; try done.
  - destruct r as [p|]; exact Hi'.
  - intros ev' pid' dom' p. destruct r as [q|]; [|done]. cbn. intros [= <- <- <- <-]. by apply Hr.
  - intros p Hp. by apply Hs, He.
Qed.

Lemma step_return c : race_inv c -> allowed VReturn c -> exists c' k, do_return c = Some (c', k) /\ race_inv c'.
Proof.
  intros Hc [x Ha]. pose proof Hc as [Hi Hb He Hn Hu]. destruct x as [[[ev pid] dom] p]. pose proof (Hb ev pid dom p Ha) as Hp.
  destruct (inv_listed _ _ _ _ _ _ Hi Hp) as [e Ee]. assert (Ec : current c = Some p) by (unfold current; by rewrite Ha). rewrite Ec in Hi.
  pose proof (list_at_nodup _ _ _ _ (list_index ev) Hi) as Hnd. destruct (list_elem_of_split _ _ Hp) as (l1 & l2 & El).
  pose proof (process_return_spec _ _ _ ev pid dom p e l1 l2 Hi El Ee) as Hret. cbv zeta in Hret. unfold do_return. rewrite Ha, Hret.
  pose proof (inv_left _ _ _ _ p e Hi Hp Ee) as Hleft. unfold after_left in *.
  set (dead := (refCount e - 1 <=? 0) || markedForDelete e) in *. set (s1 := if dead then _ else _).
  assert (Hi1 : reg_inv None (c_doomed c) (if dead then delete p (c_own c) else c_own c) s1) by (subst s1; by destruct dead).
  assert (Hl2 : forall q, q ∈ l2 -> q ∈ list_at s1 (list_index ev)).
  { intros q Hq. rewrite El in Hnd. apply NoDup_app_cons_swap in Hnd as (_ & Hn2 & _). assert (q <> p) by by intros ->.
    assert (Hql : q ∈ list_at (c_reg c) (list_index ev)) by (rewrite El; apply elem_of_app; right; by right).
    subst s1. destruct dead; [|done]. apply others_stay; [apply (ri_len _ _ _ _ Hi)|apply list_index_bound|apply (list_at_nodup _ _ _ _ _ Hi)|done|done]. }
  assert (Hs1 : forall q, q ∈ c_enabling c -> solid s1 (if dead then delete p (c_own c) else c_own c) q).
  { intros q Hq. pose proof (He q Hq) as Hsol. destruct (decide (q = p)) as [->|Hne].
    - destruct Hsol as (i & e0 & Hpi & E0 & Hm & Ho). assert (e0 = e) as -> by congruence.
      pose proof (eo_ref _ _ _ _ _ (entry_at _ _ _ _ _ _ _ Hi Hpi Ee)) as Href. rewrite decide_True in Href by done.
      assert (Ed : dead = false) by (unfold dead; rewrite Hm, orb_false_r; apply Z.leb_gt; lia). subst s1. rewrite Ed.
      exists i, (left_entry e). split_and!; [done|apply lookup_insert_eq|done|done].
    - subst s1. destruct dead; [|by apply (solid_update (c_reg c) (c_own c) _ p e)].
      apply solid_remove; [apply (ri_len _ _ _ _ Hi)|apply list_index_bound|apply (list_at_nodup _ _ _ _ _ Hi)|done| |done]. by apply lookup_insert_ne. }
  destruct (scan_step _ _ s1 ev pid dom l2 Hi1 Hl2) as (r & s' & E & Hi' & Hr & Hs & _). rewrite E.
  eexists _, _. split; [reflexivity|]. split; try done.
  - destruct r as [q|]; exact Hi'.
  - intros ev' pid' dom' q. destruct r as [q'|]; [|done]. cbn. intros [= <- <- <- <-]. by apply Hr.
  - intros q Hq. by apply Hs, Hs1.
Qed.

Lemma race_step v c : race_inv c -> allowed v c -> exists c' k, exec_race v c = Some (c', k) /\ race_inv c'.
Proof.
  intros Hc Ha. assert (Hsilent : forall o : option rcfg, (exists c', o = Some c' /\ race_inv c') ->
    exists c' k, ((fun c => (c, [])) <$> o : option (rcfg * list call)) = Some (c', k) /\ race_inv c') by (intros o (c' & -> & Hc'); by exists c', []).
  destruct v; cbn [exec_race]; try apply Hsilent.
  - by apply step_find.
  - by apply step_insert.
  - by apply step_enabled.
  - by apply step_enable_failed.
  - by apply step_undo.
  - by apply step_release.
  - by apply step_unregister_app.
  - by apply step_begin.
  - by apply step_return.
  - by apply step_pop.
  - by apply step_discard.
Qed.

Lemma race_run vs c : race_inv c -> disciplined vs c -> exists c' k, run_race vs c = Some (c', k) /\ race_inv c'.
Proof. apply run_steps_inv, race_step. Qed.

(* ------------------------------------------------------------------ *)
(** ** What the steps leave as it was *)

Definition same_entry (e e' : EventMgrEntry) : Prop :=
  callback e' = callback e /\ context e' = context e /\ (markedForDelete e = true -> markedForDelete e' = true).
Definition old_heap (h h' : gmap positive EventMgrEntry) : Prop :=
  forall q e', h' !! q = Some e' -> exists e, h !! q = Some e /\ same_entry e e'.

(** Every entry was there before, unless it is new. *)
Record old_state (s s' : rst) : Prop := {
  os_lists : forall i q, q ∈ list_at s' i -> q ∈ list_at s i;
  os_heap : old_heap (heap s) (heap s')
}.

Lemma old_state_refl s : old_state s s.
Proof. split; [done|]. intros q e E. by exists e. Qed.

Lemma old_state_trans s1 s2 s3 : old_state s1 s2 -> old_state s2 s3 -> old_state s1 s3.
Proof.
  intros [A1 B1] [A2 B2]. split; [auto|]. intros q e3 E3. destruct (B2 q e3 E3) as (e2 & E2 & X2 & Y2 & Z2). destruct (B1 q e2 E2) as (e1 & E1 & X1 & Y1 & Z1).
  exists e1. split; [done|]. split; [congruence|split; [congruence|auto]].
Qed.

Lemma old_heap_insert (h : gmap positive EventMgrEntry) p e e' : h !! p = Some e -> same_entry e e' -> old_heap h (<[p := e']> h).
Proof.
  intros Ee Hs q x. destruct (decide (q = p)) as [->|]; [rewrite lookup_insert_eq; intros [= <-]; by exists e|rewrite lookup_insert_ne by done].
  intros Ex. by exists x.
Qed.

Lemma old_heap_delete (h : gmap positive EventMgrEntry) p : old_heap h (delete p h).
Proof. intros q x Hx. apply lookup_delete_Some in Hx as [_ Hx]. by exists x. Qed.

Lemma old_update (s : rst) p e e' : heap s !! p = Some e -> same_entry e e' -> old_state s (with_heap (<[p := e']> (heap s)) s).
Proof. intros Ee Hs. split; [done|]. by apply (old_heap_insert _ p e). Qed.

Lemma old_removed (s : rst) i p h g : length (observerLists s) = 64%nat -> (i < 64)%nat -> NoDup (list_at s i) -> old_heap (heap s) h ->
  old_state s (mk_rst h (<[i := Some (remove_node p (list_at s i))]> (observerLists s)) g).
Proof.
  intros Hl Hi Hn Hh. split; [|done]. intros j q. rewrite list_at_insert by done. destruct (decide (j = i)) as [->|]; [|done].
  rewrite remove_node_spec by done. by intros [_ ?]%list_elem_of_filter.
Qed.

Lemma old_left priv own (s : rst) i p e : reg_inv (Some p) priv own s -> p ∈ list_at s i -> heap s !! p = Some e -> old_state s (after_left s i p e).
Proof.
  intros Hi Hp Ee. unfold after_left. destruct (_ || _); [|by apply (old_update s p e)].
  apply old_removed; [apply (ri_len _ _ _ _ Hi)|exact (list_at_index _ _ _ _ _ _ Hi Hp)|apply (list_at_nodup _ _ _ _ _ Hi)|by apply (old_heap_insert _ p e)].
Qed.

(** The application's entries are all marked; none is entered any more. *)
Definition app_gone (cb ctx : Z) (s : rst) : Prop :=
  forall i q e, q ∈ list_at s i -> heap s !! q = Some e -> of_app cb ctx e = true -> markedForDelete e = true.

Lemma app_gone_old cb ctx s s' : old_state s s' -> app_gone cb ctx s -> app_gone cb ctx s'.
Proof.
  intros [Hl Hh] Hg i q e' Hq Ee' Ha. destruct (Hh q e' Ee') as (e & Ee & Hcb & Hctx & Hm). apply Hm. apply (Hg i q e); [by apply Hl|done|].
  unfold of_app in *. by rewrite <- Hcb, <- Hctx.
Qed.

(** The step is not the insertion of an entry of the application. *)
Definition not_new (cb ctx : Z) (v : revt) : bool := match v with VInsert _ a => negb ((a_cb a =? cb) && (a_ctx a =? ctx)) | _ => true end.

Section Gone.
Context (c : rcfg) (Hc : race_inv c) (cb ctx : Z).

Lemma find_old a c' : allowed (VFind a) c -> do_find a c = Some c' -> old_state (c_reg c) (c_reg c').
Proof.
  intros Ha. unfold do_find, allowed, client_rules, found_registration in *. pose proof (ci_reg _ Hc) as Hi.
  pose proof (add_find_spec _ _ _ _ Hi (a_fpc a) (a_pid a) (a_dom a) (a_cb a) (a_ctx a)) as Hf. cbv zeta in Hf.
  destruct (first_match _ _ _) as [p|].
  - destruct Hf as (e & Ee & Hp & _ & Hf). rewrite (Ha p e eq_refl Ee) in Hf. rewrite Hf. intros [= <-]. by apply (old_update _ p e).
  - rewrite Hf. intros [= <-]. apply old_state_refl.
Qed.

Lemma insert_gone p a c' : allowed (VInsert p a) c -> not_new cb ctx (VInsert p a) = true -> do_insert p a c = Some c' ->
  app_gone cb ctx (c_reg c) -> app_gone cb ctx (c_reg c').
Proof.
  intros [_ Hp] Hnew. pose proof (ci_reg _ Hc) as Hi. unfold do_insert. set (e := new_entry _ _ _ _ _).
  rewrite (add_insert_spec _ _ _ _ Hi p (a_fpc a) e eq_refl). intros [= <-] Hg i q x. cbn [c_reg set_enabling set_pending set_own set_reg].
  unfold with_new. rewrite list_at_insert by (try apply (ri_len _ _ _ _ Hi); apply list_index_bound). cbn [heap].
  destruct (decide (q = p)) as [->|Hne].
  - rewrite lookup_insert_eq. intros _ [= <-] Ha. cbn in Hnew. unfold of_app in Ha. cbn in Ha. by rewrite Ha in Hnew.
  - rewrite lookup_insert_ne by done. intros Hq Ex. apply (Hg i q x); [|done].
    destruct (decide _) as [->|]; [|done]. apply elem_of_app in Hq as [Hq|Hq%list_elem_of_singleton]; done.
Qed.

Lemma enable_failed_old p c' : allowed (VEnableFailed p) c -> do_enable_failed p c = Some c' -> old_state (c_reg c) (c_reg c').
Proof.
  intros [Hp _]. pose proof (ci_reg _ Hc) as Hi. destruct (ci_enabling _ Hc p Hp) as (i & e & Hl & Ee & _). unfold do_enable_failed.
  rewrite (sbind_some _ _ _ _ _ (deref_some p _ e Ee)). pose proof (eo_index _ _ _ _ _ (entry_at _ _ _ _ _ _ _ Hi Hl Ee)) as ->.
  rewrite (add_undo_spec _ _ _ _ Hi i p Hl). intros [= <-].
  apply old_removed; [apply (ri_len _ _ _ _ Hi)|exact (list_at_index _ _ _ _ _ _ Hi Hl)|apply (list_at_nodup _ _ _ _ _ Hi)|apply old_heap_delete].
Qed.

Lemma release_old a c' : do_release a c = Some c' -> old_state (c_reg c) (c_reg c').
Proof.
  pose proof (ci_reg _ Hc) as Hi. unfold do_release.
  pose proof (release_find_spec _ _ _ _ Hi (a_fpc a) (a_pid a) (a_dom a) (a_cb a) (a_ctx a)) as Hf. cbv zeta in Hf.
  destruct (first_match _ _ _) as [p|].
  - destruct Hf as (e & Ee & Hp & _ & ->). intros [= <-]. cbn [c_reg set_own set_reg]. destruct (_ || _); [|by apply (old_update _ p e)].
    apply old_removed; [apply (ri_len _ _ _ _ Hi)|exact (list_at_index _ _ _ _ _ _ Hi Hp)|apply (list_at_nodup _ _ _ _ _ Hi)|by apply (old_heap_insert _ p e)].
  - rewrite Hf. intros [= <-]. apply old_state_refl.
Qed.

Lemma unregister_app_old cb' ctx' c' : do_unregister_app cb' ctx' c = Some c' ->
  old_state (c_reg c) (c_reg c') /\ app_gone cb' ctx' (c_reg c').
Proof.
  pose proof (ci_reg _ Hc) as Hi. unfold do_unregister_app.
  destruct (unregister_app_spec _ _ _ (c_reg c) cb' ctx' Hi) as (s' & E & Hl & Hg & Hm & Hi'). rewrite E. intros [= <-]. cbn [c_reg set_reg]. split.
  - split; [intros i q; rewrite Hl; by intros [_ ?]%list_elem_of_filter|]. intros q e'. rewrite Hm. destruct (decide (q ∈ listed _)) as [Hin|Hin].
    + intros (e & Ee & ->)%fmap_Some. exists e. split; [done|]. unfold mark_of_app. by destruct (of_app cb' ctx' e).
    + intros Ee. by exists e'.
  - intros i q e'. rewrite Hl. intros [_ Hq]%list_elem_of_filter. rewrite Hm, decide_True by (apply elem_of_listed; eauto).
    intros (e & Ee & ->)%fmap_Some. unfold mark_of_app. destruct (of_app cb' ctx' e) eqn:Ha; [done|]. intros Ha'. congruence.
Qed.

Lemma pop_old c' : do_pop c = Some c' -> old_state (c_reg c) (c_reg c').
Proof.
  unfold do_pop, pop_garbage. unfold sbind at 1. cbn [sget]. destruct (garbageList (c_reg c)) as [[|p g]|]; intros [= <-]; try apply old_state_refl.
  split; [done|]. intros q e E. by exists e.
Qed.

Lemma discard_old p c' : do_discard p c = Some c' -> old_state (c_reg c) (c_reg c').
Proof.
  unfold do_discard, discard, sbind, deref, free_entry. destruct (heap (c_reg c) !! p) as [e|] eqn:Ee; [|done]. rewrite Ee. intros [= <-].
  split; [done|]. apply old_heap_delete.
Qed.

(** The calls that the event thread makes are not the application's. *)
Definition not_called (k : list call) : Prop := Forall (fun x => callee x <> (cb, ctx)) k.

Lemma scan_gone priv own s ev pid dom l r s' : reg_inv None priv own s -> (forall q, q ∈ l -> q ∈ list_at s (list_index ev)) ->
  process_scan ev pid dom l s = Some (r, s') -> app_gone cb ctx s -> app_gone cb ctx s' /\ not_called (call_at s' r).
Proof.
  intros Hi Hl E Hg. destruct (scan_step _ _ s ev pid dom l Hi Hl) as (r2 & s2 & E2 & _ & Hr & _ & Hls & Hh & Hcall & Hnone).
  rewrite E2 in E. injection E as -> ->. split.
  - intros i q e' Hq Ee' Ha. rewrite Hls in Hq. destruct (Hh q e' Ee') as (e & Ee & Ek & ->). apply (Hg i q e); [done|done|].
    unfold of_app in *. injection Ek as _ _ _ Ecb Ectx. by rewrite <- Ecb, <- Ectx.
  - destruct r as [p|]; [|constructor]. destruct (Hcall p eq_refl) as (e & Ee & Hm & ->). constructor; [|constructor]. intros Hcc.
    injection Hcc as Hcb Hctx. specialize (Hr p eq_refl). rewrite Hls in Hr. rewrite (Hg _ p e Hr Ee) in Hm; [done|].
    unfold of_app. by rewrite Hcb, Hctx, !Z.eqb_refl.
Qed.

Lemma begin_gone ev pid dom c' k : allowed (VBegin ev pid dom) c -> do_begin ev pid dom c = Some (c', k) ->
  app_gone cb ctx (c_reg c) -> app_gone cb ctx (c_reg c') /\ not_called k.
Proof.
  intros Ha. cbn in Ha. pose proof (ci_reg _ Hc) as Hi. assert (Ec : current c = None) by (unfold current; by rewrite Ha). rewrite Ec in Hi.
  unfold do_begin, process_begin. rewrite (sbind_some _ _ _ _ _ (inv_get_list _ _ _ _ _ Hi (list_index_bound ev))). unfold sbind.
  destruct (process_scan _ _ _ _ _) as [[r s']|] eqn:E; [|done]. intros [= <- <-]. cbn [c_reg set_busy set_reg].
  exact (scan_gone _ _ _ ev pid dom _ r s' Hi (fun q Hq => Hq) E).
Qed.

Lemma return_gone c' k : allowed VReturn c -> do_return c = Some (c', k) ->
  app_gone cb ctx (c_reg c) -> app_gone cb ctx (c_reg c') /\ not_called k.
Proof.
  intros [x Ha]. pose proof Hc as [Hi Hb _ _ _]. destruct x as [[[ev pid] dom] p]. pose proof (Hb ev pid dom p Ha) as Hp.
  destruct (inv_listed _ _ _ _ _ _ Hi Hp) as [e Ee]. assert (Ec : current c = Some p) by (unfold current; by rewrite Ha). rewrite Ec in Hi.
  pose proof (list_at_nodup _ _ _ _ (list_index ev) Hi) as Hnd. destruct (list_elem_of_split _ _ Hp) as (l1 & l2 & El).
  pose proof (process_return_spec _ _ _ ev pid dom p e l1 l2 Hi El Ee) as Hret. cbv zeta in Hret. unfold do_return. rewrite Ha, Hret.
  destruct (process_scan _ _ _ _ _) as [[r s']|] eqn:E; [|done]. intros [= <- <-] Hg. cbn [c_reg set_busy set_reg set_own].
  pose proof (app_gone_old cb ctx _ _ (old_left _ _ _ _ p e Hi Hp Ee) Hg) as Hg1. pose proof (inv_left _ _ _ _ p e Hi Hp Ee) as Hleft.
  assert (Hi1 : exists own, reg_inv None (c_doomed c) own (after_left (c_reg c) (list_index ev) p e)) by (unfold after_left; destruct (_ || _); eauto).
  destruct Hi1 as [own1 Hi1]. refine (scan_gone _ _ _ ev pid dom l2 r s' Hi1 _ E Hg1).
  intros q Hq. rewrite El in Hnd. apply NoDup_app_cons_swap in Hnd as (_ & Hn2 & _). assert (q <> p) by by intros ->.
  assert (Hql : q ∈ list_at (c_reg c) (list_index ev)) by (rewrite El; apply elem_of_app; right; by right).
  unfold after_left. destruct (_ || _); [|done]. apply others_stay; [apply (ri_len _ _ _ _ Hi)|apply list_index_bound|apply (list_at_nodup _ _ _ _ _ Hi)|done|done].
Qed.

Lemma gone_step v c' k : allowed v c -> not_new cb ctx v = true -> exec_race v c = Some (c', k) ->
  app_gone cb ctx (c_reg c) -> app_gone cb ctx (c_reg c') /\ not_called k.
Proof.
  intros Ha Hnew E Hg. assert (Hquiet : forall o : option rcfg, ((fun c => (c, [])) <$> o : option (rcfg * list call)) = Some (c', k) ->
    (o = Some c' -> app_gone cb ctx (c_reg c')) -> app_gone cb ctx (c_reg c') /\ not_called k).
  { intros [x|] Hx Ho; [|done]. injection Hx as -> <-. split; [by apply Ho|constructor]. }
  destruct v; cbn [exec_race] in E; try (apply (Hquiet _ E); intros E').
  - exact (app_gone_old _ _ _ _ (find_old a c' Ha E') Hg).
  - exact (insert_gone p a c' Ha Hnew E' Hg).
  - unfold do_enabled, deref in E'. destruct (heap (c_reg c) !! p); [|done]. injection E' as <-. exact Hg.
  - exact (app_gone_old _ _ _ _ (enable_failed_old p c' Ha E') Hg).
  - cbn in Ha. rewrite (ci_undoing _ Hc) in Ha. by apply elem_of_nil in Ha.
  - exact (app_gone_old _ _ _ _ (release_old a c' E') Hg).
  - exact (app_gone_old _ _ _ _ (proj1 (unregister_app_old _ _ c' E')) Hg).
  - by apply (begin_gone ev pid dom).
  - by apply return_gone.
  - exact (app_gone_old _ _ _ _ (pop_old c' E') Hg).
  - exact (app_gone_old _ _ _ _ (discard_old p c' E') Hg).
Qed.
End Gone.

Lemma gone_run cb ctx vs c c' k : race_inv c -> disciplined vs c -> Forall (fun v => not_new cb ctx v = true) vs ->
  run_race vs c = Some (c', k) -> app_gone cb ctx (c_reg c) -> not_called cb ctx k.
Proof.
  intros Hc Hd Hv E Hg. refine (run_steps_obs _ _ (fun c => race_inv c /\ app_gone cb ctx (c_reg c)) _ _ _ vs c c' k (conj Hc Hg) Hd Hv E).
  intros v c1 c2 k1 [Hc1 Hg1] Hv1 Ha E1. destruct (gone_step c1 Hc1 cb ctx v c2 k1 Ha Hv1 E1 Hg1) as [Hg2 Hk]. split; [split; [|done]|done].
  destruct (race_step v c1 Hc1 Ha) as (c3 & k3 & E3 & Hc3). congruence.
Qed.

(** A run that keeps the clients' rules is one in which a new entry is never withdrawn from
    under the event thread, or has a first such step. *)
Definition has_withdrawal (vs : list revt) : Prop :=
  exists vs1 p vs2 c k, vs = vs1 ++ VEnableFailed p :: vs2 /\ run_race vs1 race_init = Some (c, k) /\ current c = Some p.
Lemma rules_disciplined vs : follows exec_race client_rules vs race_init -> disciplined vs race_init \/ has_withdrawal vs.
Proof.
  intros Hf. destruct (follows_or exec_race client_rules allowed withdrawn_in_callback) with (vs := vs) (c := race_init) as [Hd|(vs1 & v & vs2 & c & k & -> & E & p & -> & Hp)]; [|done|by left|right; by exists vs1, p, vs2, c, k].
  intros v c Hw. destruct v as [| | |p| | | | | | |]; try (by left). destruct (decide (current c = Some p)); [right; by exists p|by left].
Qed.


(** C27: An application that has been unregistered is not called any more.  Once the lists
    have been searched for its entries, and unless a registration of the application's is
    inserted afterwards, the event thread makes no call to the application: the callback it
    may be in is the last.  This is so in every interleaving in which the clients keep the
    rules that protect the observers ([client_rules]: no registering of an observer again
    while its old, unregistered entry is in the list, no taking back of a registration
    twice, before it has returned or after its application was unregistered, and no
    unregistering of an application while one of its registrations is being enabled), and
    in which no event fails to be enabled while the event thread is in the callback of the
    observer that asked for it ([has_withdrawal]). *)
Theorem unregistered_never_called (cb ctx : Z) (vs ws : list revt) (Hd : follows exec_race client_rules (vs ++ VUnregisterApp cb ctx :: ws) race_init)
    (Hnew : Forall (fun v => not_new cb ctx v = true) ws) :
  has_withdrawal (vs ++ VUnregisterApp cb ctx :: ws) \/
  exists c k c' k', run_race (vs ++ [VUnregisterApp cb ctx]) race_init = Some (c, k) /\ run_race ws c = Some (c', k') /\ not_called cb ctx k'.
Proof.
  destruct (rules_disciplined _ Hd) as [Hd'|Hw]; [right|by left].
  destruct (follows_app exec_race allowed vs _ race_init Hd') as [Hd1 Hd2]. destruct (race_run vs race_init race_inv_init Hd1) as (c1 & k1 & E1 & Hc1).
  destruct (Hd2 c1 k1 E1) as [Ha Hd3]. destruct (race_step _ c1 Hc1 Ha) as (c2 & k2 & E2 & Hc2).
  destruct (race_run ws c2 Hc2 (Hd3 c2 k2 E2)) as (c3 & k3 & E3 & _). exists c2, (k1 ++ k2 ++ []), c3, k3. rewrite run_steps_app, E1. cbn [run_steps]. rewrite E2.
  split; [done|split; [done|]]. apply (gone_run cb ctx ws c2 c3 k3 Hc2 (Hd3 c2 k2 E2) Hnew E3).
  cbn [exec_race] in E2. apply fmap_Some in E2 as (x & E2 & [= <- _]). by apply (unregister_app_old c1 Hc1 cb ctx c2).
Qed.

(* ------------------------------------------------------------------ *)
(** ** When the rules are broken *)

Lemma nodes_after_none p l : p ∉ l -> nodes_after p l = None.
Proof.
  induction l as [|q l IH]; [done|]. rewrite not_elem_of_cons. intros [Hq Hl]. cbn. rewrite decide_False by done. by apply IH.
Qed.

Lemma return_lost c ev pid dom p l : c_busy c = Some ((ev, pid, dom), p) -> get_list (list_index ev) (c_reg c) = Some (Some l, c_reg c) -> p ∉ l ->
  exec_race VReturn c = None.
Proof.
  intros Hb Hl Hp. cbn [exec_race]. unfold do_return. rewrite Hb. unfold process_return. rewrite (sbind_some _ _ _ _ _ Hl). cbn [of_option].
  unfold sbind at 1. cbn [sret]. by rewrite (nodes_after_none p l Hp).
Qed.

(** The node of the entry that the event thread is in is gone. *)
Lemma return_removed c c' ev pid dom p i h g : race_inv c -> c_busy c = Some ((ev, pid, dom), p) -> p ∈ list_at (c_reg c) i -> c_busy c' = c_busy c ->
  c_reg c' = mk_rst h (<[i := Some (remove_node p (list_at (c_reg c) i))]> (observerLists (c_reg c))) g -> exec_race VReturn c' = None.
Proof.
  intros Hc Hb Hp Hb' Hr. pose proof (ci_reg _ Hc) as Hi. pose proof (ci_busy _ Hc ev pid dom p Hb) as Hp'.
  pose proof (list_at_unique _ _ _ _ _ _ _ Hi Hp Hp') as ->. rewrite Hb in Hb'.
  apply (return_lost c' ev pid dom p (remove_node p (list_at (c_reg c) (list_index ev))) Hb').
  - rewrite Hr. unfold get_list. cbn [observerLists]. by rewrite list_lookup_insert_eq by (rewrite (ri_len _ _ _ _ Hi); apply list_index_bound).
  - rewrite remove_node_spec by apply (list_at_nodup _ _ _ _ _ Hi). by intros [? _]%list_elem_of_filter.
Qed.

(** Registering again too early destroys the list under the event thread.
    While the event thread is in the callback of an observer whose application
    has been unregistered, a new registration of the same observer is refused
    with ESIF_E_NO_CREATE, and its error path removes (and frees) the node of the
    old entry; when the callback returns, the event thread uses the freed node. *)
Theorem reregister_in_callback_fails (c : rcfg) (Hc : race_inv c) (ev pid dom : Z) (p : positive) (e : EventMgrEntry) (a : args)
    (Hb : c_busy c = Some ((ev, pid, dom), p)) (Ee : heap (c_reg c) !! p = Some e) (Hm : markedForDelete e = true)
    (Hf : found_registration c a = Some p) :
  exists c1 c2, exec_race (VFind a) c = Some (c1, []) /\ c_undoing c1 = [(list_index (esif_event (a_fpc a)), p)] /\
    exec_race (VUndo (list_index (esif_event (a_fpc a))) p) c1 = Some (c2, []) /\ exec_race VReturn c2 = None.
Proof.
  pose proof (ci_reg _ Hc) as Hi. pose proof (add_find_spec _ _ _ _ Hi (a_fpc a) (a_pid a) (a_dom a) (a_cb a) (a_ctx a)) as Hs. cbv zeta in Hs.
  unfold found_registration in Hf. rewrite Hf in Hs. destruct Hs as (e' & Ee' & Hp & _ & Hs). assert (e' = e) as -> by congruence.
  rewrite Hm in Hs. destruct Hs as [_ Hs]. set (i := list_index _) in *.
  assert (E1 : do_find a c = Some (set_undoing [(i, p)] c)) by (unfold do_find; rewrite Hs, (ci_undoing _ Hc); by destruct c).
  assert (Hlt : (i < 64)%nat) by apply list_index_bound.
  assert (Eu : add_undo i (Some p) None (c_reg c) = Some (tt, with_lists (<[i := Some (remove_node p (list_at (c_reg c) i))]> (observerLists (c_reg c))) (c_reg c))).
  { unfold add_undo. by rewrite (sbind_some _ _ _ _ _ (inv_get_list _ _ _ _ _ Hi Hlt)). }
  assert (E2 : do_undo i p (set_undoing [(i, p)] c) =
    Some (set_undoing (remove_one (i, p) [(i, p)]) (set_reg (with_lists (<[i := Some (remove_node p (list_at (c_reg c) i))]> (observerLists (c_reg c))) (c_reg c)) (set_undoing [(i, p)] c)))).
  { unfold do_undo. change (c_reg (set_undoing [(i, p)] c)) with (c_reg c). by rewrite Eu. }
  eexists _, _. split; [cbn [exec_race]; by rewrite E1|]. split; [done|]. split; [cbn [exec_race]; by rewrite E2|].
  by apply (return_removed c _ ev pid dom p i (heap (c_reg c)) (garbageList (c_reg c)) Hc Hb Hp).
Qed.

(** An event that cannot be enabled is withdrawn under the event thread.  A
    new entry is in its list before its event is enabled, so that the event
    thread can already be in its callback; if enabling then fails, the entry is
    removed and freed regardless, and when the callback returns the event thread
    uses the freed memory. *)
Theorem enable_failure_in_callback_fails (c : rcfg) (Hc : race_inv c) (ev pid dom : Z) (p : positive)
    (Hb : c_busy c = Some ((ev, pid, dom), p)) (Hp : p ∈ c_enabling c) :
  exists c1, exec_race (VEnableFailed p) c = Some (c1, []) /\ heap (c_reg c1) !! p = None /\ exec_race VReturn c1 = None.
Proof.
  pose proof (ci_reg _ Hc) as Hi. destruct (ci_enabling _ Hc p Hp) as (i & e & Hl & Ee & _).
  pose proof (eo_index _ _ _ _ _ (entry_at _ _ _ _ _ _ _ Hi Hl Ee)) as Ei.
  assert (E1 : do_enable_failed p c = Some (set_enabling (remove_one p (c_enabling c)) (set_own (delete p (c_own c)) (set_reg (dropped (c_reg c) i p) c)))).
  { unfold do_enable_failed. rewrite (sbind_some _ _ _ _ _ (deref_some p _ e Ee)), Ei. by rewrite (add_undo_spec _ _ _ _ Hi i p Hl). }
  eexists. split; [cbn [exec_race]; by rewrite E1|]. split; [apply lookup_delete_eq|].
  by apply (return_removed c _ ev pid dom p i (delete p (heap (c_reg c))) (Some (garbage (c_reg c))) Hc Hb Hl).
Qed.

(* ------------------------------------------------------------------ *)
(** ** Checking the rules on a run *)

#[export] Instance found_dec {A} (o : ptr) (h : gmap positive A) (P : positive -> A -> Prop) `{!forall p e, Decision (P p e)} :
  Decision (forall p e, o = Some p -> h !! p = Some e -> P p e).
Proof.
  destruct o as [p|]; [|left; by intros]. destruct (h !! p) as [e|] eqn:E.
  - destruct (decide (P p e)) as [Hp|Hp]; [left|right].
    + intros q x [= <-] Ex. by assert (x = e) as -> by congruence.
    + intros Hall. by apply Hp, Hall.
  - left. intros q x [= <-] Ex. congruence.
Defined.

#[export] Instance listed_dec {A} (l : list positive) (h : gmap positive A) (P : positive -> A -> Prop) `{!forall p e, Decision (P p e)} :
  Decision (forall p e, p ∈ l -> h !! p = Some e -> P p e).
Proof.
  induction l as [|q l IH]; [left; intros p e Hp; by apply elem_of_nil in Hp|].
  destruct (found_dec (Some q) h P) as [Hq|Hq], IH as [Hl|Hl].
  - left. intros p e [->|Hp]%elem_of_cons; [by apply Hq|by apply Hl].
  - right. intros Hall. apply Hl. intros p e Hp. apply Hall. by right.
  - right. intros Hall. apply Hq. intros p e [= <-]. apply Hall. left.
  - right. intros Hall. apply Hl. intros p e Hp. apply Hall. by right.
Defined.

#[export] Instance allowed_dec v c : Decision (allowed v c).
Proof. destruct v; cbn [allowed client_rules]; apply _. Defined.

Abbreviation keeps_rules := (check exec_race allowed).

Module EventRaceDemo.
Definition a : args := mk_args (mk_fpc 10 ESIF_EVENT_GROUP_CODE []) 5 EVENT_MGR_DOMAIN_D0 100 7.
Definition b : args := mk_args (mk_fpc 10 ESIF_EVENT_GROUP_CODE []) 5 EVENT_MGR_MATCH_ANY_DOMAIN 100 8.
(** Two observers; the event thread is in the callback of the first. *)
Definition up : list revt :=
  [VFind a; VInsert 1 a; VEnabled 1; VFind b; VInsert 2 b; VEnabled 2; VBegin 10 5 EVENT_MGR_DOMAIN_D0].
(** Its application goes, and the other observer too. *)
Definition down : list revt := [VReturn; VPop; VRelease b; VReturn; VDiscard 1; VBegin 10 5 EVENT_MGR_DOMAIN_D0; VPop; VDiscard 2].
Definition run (vs : list revt) : rcfg := match run_race vs race_init with Some (c, _) => c | None => race_init end.
Definition calls (vs : list revt) : list call := match run_race vs race_init with Some (_, k) => k | None => [] end.

Lemma run_inv vs : keeps_rules vs race_init = true -> race_inv (run vs).
Proof.
  intros Hd. destruct (race_run vs race_init race_inv_init (check_sound exec_race allowed _ _ Hd)) as (c & k & E & Hc). unfold run. by rewrite E.
Qed.
End EventRaceDemo.
Import EventRaceDemo.

#[export] Instance client_rules_dec v c : Decision (client_rules v c).
Proof. destruct v; cbn [client_rules]; apply _. Defined.
(** In this run every event is enabled. *)
Lemma down_no_withdrawal : ~ has_withdrawal (up ++ VUnregisterApp 100 7 :: down).
Proof.
  intros (vs1 & p & vs2 & c & k & E & _). assert (Hin : VEnableFailed p ∈ up ++ VUnregisterApp 100 7 :: down) by (rewrite E; apply elem_of_app; right; left).
  unfold up, down in Hin. cbn [app] in Hin. repeat (apply elem_of_cons in Hin as [Hin|Hin]; [done|]). by apply elem_of_nil in Hin.
Qed.

Lemma unregistered_never_called_witness : follows exec_race client_rules (up ++ VUnregisterApp 100 7 :: down) race_init /\
  Forall (fun v => not_new 100 7 v = true) down /\
  exists c k c' k', run_race (up ++ [VUnregisterApp 100 7]) race_init = Some (c, k) /\ run_race down c = Some (c', k') /\ not_called 100 7 k'.
Proof.
  assert (Hd : follows exec_race client_rules (up ++ VUnregisterApp 100 7 :: down) race_init) by (apply (check_sound exec_race client_rules); vm_compute; reflexivity).
  assert (Hn : Forall (fun v => not_new 100 7 v = true) down) by (repeat constructor).
  split; [exact Hd|]. split; [exact Hn|]. destruct (unregistered_never_called 100 7 up down Hd Hn) as [Hw|H]; [by destruct (down_no_withdrawal Hw)|exact H].
Defined.

Lemma reregister_in_callback_fails_witness :
  let c := run (up ++ [VUnregisterApp 100 7]) in
  found_registration c a = Some 1%positive /\
  exists c1 c2, exec_race (VFind a) c = Some (c1, []) /\ c_undoing c1 = [(list_index (esif_event (a_fpc a)), 1%positive)] /\
    exec_race (VUndo (list_index (esif_event (a_fpc a))) 1) c1 = Some (c2, []) /\ exec_race VReturn c2 = None.
Proof.
  intros c. assert (Hf : found_registration c a = Some 1%positive) by (vm_compute; reflexivity). split; [exact Hf|].
  assert (Hc : race_inv c) by (apply run_inv; vm_compute; reflexivity).
  assert (Hb : c_busy c = Some ((10, 5, EVENT_MGR_DOMAIN_D0), 1%positive)) by (vm_compute; reflexivity).
  assert (Ee : heap (c_reg c) !! 1%positive = Some (mk_entry 5 false EVENT_MGR_DOMAIN_D0 (a_fpc a) 100 7 2 true true)) by (vm_compute; reflexivity).
  exact (reregister_in_callback_fails c Hc 10 5 EVENT_MGR_DOMAIN_D0 1 _ a Hb Ee eq_refl Hf).
Defined.

Lemma enable_failure_in_callback_fails_witness :
  let c := run [VFind a; VInsert 1 a; VBegin 10 5 EVENT_MGR_DOMAIN_D0] in
  1%positive ∈ c_enabling c /\
  exists c1, exec_race (VEnableFailed 1) c = Some (c1, []) /\ heap (c_reg c1) !! 1%positive = None /\ exec_race VReturn c1 = None.
Proof.
  intros c. assert (Hp : 1%positive ∈ c_enabling c) by (apply (bool_decide_unpack _); vm_compute; exact I). split; [exact Hp|].
  assert (Hc : race_inv c) by (apply run_inv; vm_compute; reflexivity).
  assert (Hb : c_busy c = Some ((10, 5, EVENT_MGR_DOMAIN_D0), 1%positive)) by (vm_compute; reflexivity).
  exact (enable_failure_in_callback_fails c Hc 10 5 EVENT_MGR_DOMAIN_D0 1 Hb Hp).
Defined.

(** Two threads that register the same observer at the same time both find
    nothing and both insert an entry: the event then calls the observer twice. *)
Theorem simultaneous_registrations_call_twice :
  calls [VFind a; VFind a; VInsert 1 a; VInsert 2 a; VEnabled 1; VEnabled 2; VBegin 10 5 EVENT_MGR_DOMAIN_D0; VReturn; VReturn] =
  [(100, 7, a_fpc a); (100, 7, a_fpc a)].
Proof. vm_compute. reflexivity. Qed.
