(* ===== verification/EventSignal.v ===== *)
(** * Signalling events: ESIF/Products/ESIF_UF/Sources/esif_uf_eventmgr.c

    Any thread signals an event: unless its type is filtered, a copy of its data
    joins a queue.  The event thread takes the events off the queue one by one,
    brings the cache up to date (EventCache.v) and calls the observers
    (EventReg.v).  A synchronous signal waits until its event has been handled or
    a time has passed; the two threads share a context that the one which is last
    to leave frees.

    The queue is the one that Queue.v specifies ([fifo_enqueue],
    [fifo_dequeue]).  Outcomes of allocations are inputs ([mem_...]); an
    operation has no outcome ([None]) when it uses a freed context, leaves an
    array, or copies past the end of a block. *)

From S2P Require Import Prelude Queue EsifData EventCache EventReg Machine.
From stdpp Require Import list gmap.
Local Open Scope Z_scope.
Local Open Scope dptf_scope.

Definition ESIF_UF_EVENT_QUEUE_SIZE : Z := 4294967295.
Definition EVENT_MGR_FILTERED_EVENTS_PER_LINE : Z := 64.
Definition ESIF_EVENT_PARTICIPANT_CREATE : Z := 18.

(** The completion event is set or not. *)
Record sync_context : Type := mk_sync { useComplete : bool; completed : bool }.

Record EsifEventQueueItem : Type := mk_qitem {
  q_participantId : Z;
  q_domainId : Z;
  q_eventType : Z;
  q_eventData : EsifData;
  q_isLfEvent : bool;
  q_useCachedData : bool;
  q_syncContextPtr : ptr
}.

(** What the signalling threads and the event thread share; the queue is NULL
    before initialisation. *)
Record est : Type := mk_est {
  filteredEvents : list Z;
  eventQueuePtr : option (list (option EsifEventQueueItem));
  syncs : gmap positive sync_context
}.
Abbreviation EM := (SM est).

Definition with_filter (l : list Z) (s : est) : est := mk_est l (eventQueuePtr s) (syncs s).
Definition with_queue (q : option (list (option EsifEventQueueItem))) (s : est) : est := mk_est (filteredEvents s) q (syncs s).
Definition with_syncs (m : gmap positive sync_context) (s : est) : est := mk_est (filteredEvents s) (eventQueuePtr s) m.

(* ------------------------------------------------------------------ *)
(** ** Filters: a bit for each event type *)

Definition known_type (ty : Z) : bool := (0 <=? ty) && (ty <=? MAX_ESIF_EVENT_ENUM_VALUE).
Definition filter_line (ty : Z) : nat := Z.to_nat (ty / EVENT_MGR_FILTERED_EVENTS_PER_LINE).
Definition filter_bit (ty : Z) : Z := u64 (Z.shiftl 1 (ty mod EVENT_MGR_FILTERED_EVENTS_PER_LINE)).

Definition change_line (ty : Z) (f : Z -> Z) : EM Z :=
  if known_type ty then
    let! s := sget in
    let! l := of_option (filteredEvents s !! filter_line ty) in
    smodify (with_filter (<[filter_line ty := f l]> (filteredEvents s))) ;! sret ESIF_OK
  else sret ESIF_E_EVENT_NOT_FOUND.

Definition EsifEventMgr_FilterEventType (ty : Z) : EM Z := change_line ty (fun l => Z.lor l (filter_bit ty)).
Definition EsifEventMgr_UnfilterEventType (ty : Z) : EM Z := change_line ty (fun l => Z.ldiff l (filter_bit ty)).
Definition EsifEventMgr_UnfilterAllEventTypes : EM Z :=
  smodify (fun s => with_filter ((fun _ => 0) <$> filteredEvents s) s) ;! sret ESIF_OK.

Definition EsifEventMgr_IsEventFiltered (ty : Z) : EM bool :=
  if known_type ty then
    let! s := sget in
    let! l := of_option (filteredEvents s !! filter_line ty) in
    sret (negb (Z.land l (filter_bit ty) =? 0))
  else sret false.

(* ------------------------------------------------------------------ *)
(** ** The context of a synchronous event *)

Definition sync_new (p : positive) : EM unit := smodify (fun s => with_syncs (<[p := mk_sync false false]> (syncs s)) s).
Definition sync_get (p : positive) : EM sync_context :=
  fun s => match syncs s !! p with Some c => Some (c, s) | None => None end.
Definition sync_put (p : positive) (c : sync_context) : EM unit := smodify (fun s => with_syncs (<[p := c]> (syncs s)) s).
(** [esif_ccb_event_set]. *)
Definition sync_complete (p : positive) : EM unit := let! c := sync_get p in sync_put p (mk_sync (useComplete c) true).

(** The critical section of [DestroySynchronizationContext]: whether the caller is
    the one to free the context. *)
Definition sync_leave (p : positive) : EM bool :=
  let! c := sync_get p in
  if useComplete c then sret true else sync_put p (mk_sync true (completed c)) ;! sret false.
(** What follows without the lock. *)
Definition sync_free (p : positive) : EM unit :=
  let! c := sync_get p in smodify (fun s => with_syncs (delete p (syncs s)) s).

Definition DestroySynchronizationContext (p : ptr) : EM unit :=
  match p with
  | None => sret tt
  | Some p => let! last := sync_leave p in if (last : bool) then sync_free p else sret tt
  end.

(* ------------------------------------------------------------------ *)
(** ** Signalling *)

(** The copy of the event's data: [None] for undefined behaviour, [Some None]
    without memory. *)
Definition copy_data (mem_data : bool) (d : option EsifData) : option (option EsifData) :=
  match d with
  | Some d =>
      if (match buf_ptr d with Some _ => true | None => false end) && (0 <? buf_len d) && (0 <? data_len d) && (data_len d <=? buf_len d) then
        if mem_data then
          match memcpy (Some (zero_block (data_len d))) (buf_ptr d) (data_len d) with
          | Some b => Some (Some (mk_EsifData (type d) b (data_len d) (data_len d)))
          | None => None
          end
        else Some None
      else Some (Some zero_data)
  | None => Some (Some zero_data)
  end.

(** The three allocations: the item, the copy of the data, the queue's node. *)
Record signal_mem : Type := mk_smem { mem_item : bool; mem_data : bool; mem_node : bool }.

Definition enqueue_event (m : signal_mem) (pid dom ty : Z) (d : option EsifData) (isLfEvent isFilteredEvent useCachedData : bool) (sync : ptr) : EM Z :=
  let! filtered := (if isFilteredEvent then EsifEventMgr_IsEventFiltered ty else sret false) in
  if (filtered : bool) then sret ESIF_E_EVENT_FILTERED
  else
    let! s := sget in
    match eventQueuePtr s with
    | None => sret ESIF_E_UNSPECIFIED
    | Some q =>
        if mem_item m then
          let! copy := of_option (copy_data (mem_data m) d) in
          match copy with
          | None => sret ESIF_E_NO_MEMORY
          | Some copy =>
              let r := fifo_enqueue ESIF_UF_EVENT_QUEUE_SIZE (mem_node m) (Some (mk_qitem pid dom ty copy isLfEvent useCachedData sync)) q in
              smodify (with_queue (Some r.2)) ;! sret r.1
          end
        else sret ESIF_E_NO_MEMORY
    end.

(** A synchronous caller is released when nothing has been queued. *)
Definition EsifEventMgr_SignalEvent_Local (m : signal_mem) (pid dom ty : Z) (d : option EsifData) (isLfEvent isFilteredEvent useCachedData : bool) (sync : ptr) : EM Z :=
  let! rc := enqueue_event m pid dom ty d isLfEvent isFilteredEvent useCachedData sync in
  (if negb (rc =? ESIF_OK) then
     match sync with
     | Some p => sync_complete p ;! DestroySynchronizationContext sync
     | None => sret tt
     end
   else sret tt) ;!
  sret rc.

Definition EsifEventMgr_SignalEvent (m : signal_mem) (pid dom ty : Z) (d : option EsifData) : EM Z :=
  EsifEventMgr_SignalEvent_Local m pid dom ty d false true false None.
Definition EsifEventMgr_SignalEventWCacheData (m : signal_mem) (pid dom ty : Z) (d : option EsifData) : EM Z :=
  EsifEventMgr_SignalEvent_Local m pid dom ty d false true true None.
Definition EsifEventMgr_SignalLfEvent (m : signal_mem) (target dom ty : Z) (d : option EsifData) : EM Z :=
  EsifEventMgr_SignalEvent_Local m target dom ty d true true false None.
Definition EsifEventMgr_SignalUnfilteredEvent (m : signal_mem) (pid dom ty : Z) (d : option EsifData) : EM Z :=
  EsifEventMgr_SignalEvent_Local m pid dom ty d false false false None.

(** The first part of [EsifEventMgr_SignalSynchronousEvent], up to the wait; the
    context is allocated at [p]. *)
Definition sync_signal (m : signal_mem) (p : positive) (pid dom ty : Z) (d : option EsifData) : EM Z :=
  sync_new p ;! EsifEventMgr_SignalEvent_Local m pid dom ty d false true false (Some p).

(* ------------------------------------------------------------------ *)
(** ** The event thread *)

(** The participant that the event is for: [lpid] is the participant manager's
    [EsifUpPm_MapLpidToParticipantInstance]. *)
Definition target_of (lpid : Z -> option Z) (it : EsifEventQueueItem) : Z * Z :=
  if q_isLfEvent it then
    match lpid (u8 (q_participantId it)) with
    | Some p => (ESIF_OK, p)
    | None =>
        if q_eventType it =? ESIF_EVENT_PARTICIPANT_CREATE then (ESIF_OK, ESIF_HANDLE_PRIMARY_PARTICIPANT)
        else (ESIF_E_INVALID_HANDLE, q_participantId it)
    end
  else (ESIF_OK, q_participantId it).

(** The data passed on: the cached data if it is asked for and there is some. *)
Definition event_data (mem : bool) (g : EsifEventCacheMgr) (it : EsifEventQueueItem) : option EsifData :=
  if q_useCachedData it then
    match EsifEventCache_GetValueClone mem g (q_eventType it) (Some zero_data) with
    | Some (rc, d) => if rc =? ESIF_OK then d else Some (q_eventData it)
    | None => None
    end
  else Some (q_eventData it).

(** The table that [EsifEventMgr_Init] fills. *)
Definition cacheableEventList (g : EsifEventCacheMgr) : list bool :=
  EsifEventCache_IsEventCacheable g <$> seqZ 0 MAX_ESIF_EVENT_ENUM_VALUE.
Definition EsifEventMgr_IsEventCacheable (table : list bool) (ty : Z) : option bool :=
  if u32 ty <? MAX_ESIF_EVENT_ENUM_VALUE then table !! Z.to_nat (u32 ty) else Some false.

(** A call of an observer: its callback, context and event definition, and the
    participant, domain and data that it is given. *)
Record delivery : Type := mk_delivery { d_call : call; d_pid : Z; d_dom : Z; d_data : EsifData }.

(** [EsifEventMgr_ProcessEvent] as a whole: first the cache, then the observers. *)
Definition process_event (mem : bool) (table : list bool) (pid dom ty : Z) (d : EsifData) (g : EsifEventCacheMgr) (s : rst) :
    option (list delivery * EsifEventCacheMgr * rst) :=
  match EsifEventMgr_IsEventCacheable table ty with
  | None => None
  | Some cacheable =>
      match (if (cacheable : bool) then EsifEventCache_UpdateData mem g ty pid (Some d) else Some (ESIF_OK, g)) with
      | None => None
      | Some (_, g') =>
          match EsifEventMgr_ProcessEvent true ty pid dom s with
          | Some ((_, calls), s') => Some ((fun c => mk_delivery c pid dom d) <$> calls, g', s')
          | None => None
          end
      end
  end.

(** An item from the queue, up to where the synchronous caller is released. *)
Definition handle_item (mem : bool) (lpid : Z -> option Z) (table : list bool) (it : EsifEventQueueItem) (g : EsifEventCacheMgr) (s : rst) :
    option (list delivery * EsifEventCacheMgr * rst) :=
  let t := target_of lpid it in
  if t.1 =? ESIF_OK then
    match event_data mem g it with
    | Some d => process_event mem table t.2 (q_domainId it) (q_eventType it) d g s
    | None => None
    end
  else Some ([], g, s).

(* ------------------------------------------------------------------ *)
(** ** The filters are a set of event types *)

(** The array has a line for every 64 types that are known. *)
Definition filters_init : list Z := replicate (Z.to_nat (MAX_ESIF_EVENT_ENUM_VALUE / EVENT_MGR_FILTERED_EVENTS_PER_LINE + 1)) 0.

Inductive fop : Type := OpFilter (ty : Z) | OpUnfilter (ty : Z) | OpUnfilterAll.
Definition exec_fop (op : fop) : EM Z :=
  match op with
  | OpFilter ty => EsifEventMgr_FilterEventType ty
  | OpUnfilter ty => EsifEventMgr_UnfilterEventType ty
  | OpUnfilterAll => EsifEventMgr_UnfilterAllEventTypes
  end.
Definition a_fop (op : fop) (F : gset Z) : Z * gset Z :=
  match op with
  | OpFilter ty => if known_type ty then (ESIF_OK, {[ty]} ∪ F) else (ESIF_E_EVENT_NOT_FOUND, F)
  | OpUnfilter ty => if known_type ty then (ESIF_OK, F ∖ {[ty]}) else (ESIF_E_EVENT_NOT_FOUND, F)
  | OpUnfilterAll => (ESIF_OK, ∅)
  end.

Fixpoint exec_fops (ops : list fop) : EM (list Z) :=
  match ops with [] => sret [] | op :: ops => let! rc := exec_fop op in let! rcs := exec_fops ops in sret (rc :: rcs) end.
Fixpoint a_fops (ops : list fop) (F : gset Z) : list Z * gset Z :=
  match ops with [] => ([], F) | op :: ops => let x := a_fop op F in let y := a_fops ops x.2 in (x.1 :: y.1, y.2) end.

Record filters_ok (F : gset Z) (l : list Z) : Prop := {
  fo_len : length l = 3%nat;
  fo_range : Forall (in_range 64) l;
  fo_bit : forall ty w, known_type ty = true -> l !! filter_line ty = Some w -> Z.testbit w (ty mod 64) = bool_decide (ty ∈ F);
  fo_known : forall ty, ty ∈ F -> known_type ty = true
}.

Lemma known_bound ty : known_type ty = true -> 0 <= ty <= 188 /\ (filter_line ty < 3)%nat.
Proof.
  unfold known_type, filter_line, MAX_ESIF_EVENT_ENUM_VALUE, EVENT_MGR_FILTERED_EVENTS_PER_LINE. intros [H1%Z.leb_le H2%Z.leb_le]%andb_true_iff.
  split; [lia|]. pose proof (Z.div_lt_upper_bound ty 64 3). pose proof (Z.div_pos ty 64). lia.
Qed.

Lemma line_there F l ty : filters_ok F l -> known_type ty = true -> exists w, l !! filter_line ty = Some w /\ in_range 64 w.
Proof.
  intros H Hk. destruct (known_bound ty Hk) as [_ Hb]. destruct (lookup_lt_is_Some_2 l (filter_line ty)) as [w E]; [rewrite (fo_len _ _ H); exact Hb|].
  exists w. split; [done|]. exact (proj1 (Forall_lookup _ _) (fo_range _ _ H) _ _ E).
Qed.

(** Changing the bit of a type, and nothing else. *)
Lemma change_spec F F' l ty w w' : filters_ok F l -> known_type ty = true -> l !! filter_line ty = Some w -> in_range 64 w' ->
  (forall n, 0 <= n < 64 -> Z.testbit w' n = if n =? ty mod 64 then bool_decide (ty ∈ F') else Z.testbit w n) ->
  (forall x, x <> ty -> x ∈ F' <-> x ∈ F) -> filters_ok F' (<[filter_line ty := w']> l).
Proof.
  intros [H1 H2 H3 H4] Hk Ew Hw Hbit Hoth. pose proof (known_bound ty Hk) as [Hty Hlt]. split.
  - by rewrite length_insert.
  - by apply Forall_insert.
  - intros x v Hx. pose proof (known_bound x Hx) as [Hx1 _]. pose proof (Z.mod_pos_bound x 64 ltac:(lia)) as Hm. destruct (decide (filter_line x = filter_line ty)) as [El|Hne].
    + rewrite El, list_lookup_insert_eq by lia. intros [= <-]. rewrite Hbit by done. destruct (Z.eqb_spec (x mod 64) (ty mod 64)) as [Em|Hm'].
      * assert (x = ty) as ->; [|done]. unfold filter_line, EVENT_MGR_FILTERED_EVENTS_PER_LINE in El. rewrite (Z.div_mod x 64), (Z.div_mod ty 64) by lia.
        apply Z2Nat.inj in El; [lia|apply Z.div_pos; lia|apply Z.div_pos; lia].
      * rewrite (H3 x w Hx) by (by rewrite El). apply bool_decide_ext. symmetry. apply Hoth. by intros ->.
    + rewrite list_lookup_insert_ne by done. intros Ev. rewrite (H3 x v Hx Ev). apply bool_decide_ext. symmetry. apply Hoth. by intros ->.
  - intros x Hx. destruct (decide (x = ty)) as [->|Hne]; [done|]. apply H4. by apply Hoth.
Qed.

Lemma range_of_bits w : 0 <= w -> (forall n, 64 <= n -> Z.testbit w n = false) -> in_range 64 w.
Proof.
  intros Hw Hb. split; [done|]. destruct (Z.eq_dec w 0) as [->|Hz]; [by vm_compute|].
  apply Z.log2_lt_pow2; [lia|]. destruct (Z_lt_ge_dec (Z.log2 w) 64) as [|Hge]; [done|].
  pose proof (Z.bit_log2 w ltac:(lia)) as Hlog. rewrite Hb in Hlog; [done|lia].
Qed.

Lemma change_line_spec F F' ty f s : filters_ok F (filteredEvents s) -> known_type ty = true ->
  (forall w, in_range 64 w -> in_range 64 (f w) /\ forall n, 0 <= n < 64 -> Z.testbit (f w) n = if n =? ty mod 64 then bool_decide (ty ∈ F') else Z.testbit w n) ->
  (forall x, x <> ty -> x ∈ F' <-> x ∈ F) ->
  exists l', change_line ty f s = Some (ESIF_OK, with_filter l' s) /\ filters_ok F' l'.
Proof.
  intros H Hk Hf Hoth. destruct (line_there F _ ty H Hk) as (w & Ew & Hw). destruct (Hf w Hw) as [Hr Hbit].
  exists (<[filter_line ty := f w]> (filteredEvents s)). split; [|by apply (change_spec F F' _ ty w)].
  unfold change_line. rewrite Hk. unfold sbind, sget. rewrite Ew. reflexivity.
Qed.

Lemma fop_spec op F s : filters_ok F (filteredEvents s) ->
  exists l', exec_fop op s = Some ((a_fop op F).1, with_filter l' s) /\ filters_ok (a_fop op F).2 l'.
Proof.
  intros H. assert (Hsame : with_filter (filteredEvents s) s = s) by by destruct s.
  destruct op as [ty|ty|]; cbn [exec_fop a_fop]; unfold EsifEventMgr_FilterEventType, EsifEventMgr_UnfilterEventType.
  - destruct (known_type ty) eqn:Hk; cycle 1.
    { exists (filteredEvents s). rewrite Hsame. split; [unfold change_line; by rewrite Hk|done]. }
    pose proof (Z.mod_pos_bound ty 64 ltac:(lia)) as Hm. apply (change_line_spec F); [done|done| |set_solver].
    intros w Hw. unfold filter_bit, EVENT_MGR_FILTERED_EVENTS_PER_LINE. rewrite bit_mask by done. destruct Hw as [Hw0 Hw]. split.
    + apply range_of_bits; [apply Z.lor_nonneg; split; [lia|apply Z.pow_nonneg; lia]|]. intros n Hn. rewrite Z.lor_spec, Z.pow2_bits_eqb by lia.
      rewrite (in_range_testbit 64 w n) by (try lia; by split). apply Z.eqb_neq. lia.
    + intros n Hn. rewrite Z.lor_spec, Z.pow2_bits_eqb by lia. rewrite Z.eqb_sym. destruct (Z.eqb_spec n (ty mod 64)); [|by rewrite orb_false_r].
      rewrite orb_true_r. symmetry. apply bool_decide_eq_true_2. set_solver.
  - destruct (known_type ty) eqn:Hk; cycle 1.
    { exists (filteredEvents s). rewrite Hsame. split; [unfold change_line; by rewrite Hk|done]. }
    pose proof (Z.mod_pos_bound ty 64 ltac:(lia)) as Hm. apply (change_line_spec F); [done|done| |set_solver].
    intros w Hw. unfold filter_bit, EVENT_MGR_FILTERED_EVENTS_PER_LINE. rewrite bit_mask by done. destruct Hw as [Hw0 Hw]. split.
    + apply range_of_bits; [apply Z.ldiff_nonneg; by left|]. intros n Hn. rewrite Z.ldiff_spec. rewrite (in_range_testbit 64 w n) by (try lia; by split). done.
    + intros n Hn. rewrite Z.ldiff_spec, Z.pow2_bits_eqb by lia. rewrite Z.eqb_sym. destruct (Z.eqb_spec n (ty mod 64)); [|by rewrite andb_true_r].
      rewrite andb_false_r. symmetry. apply bool_decide_eq_false_2. set_solver.
  - exists ((fun _ => 0) <$> filteredEvents s). split; [done|]. destruct H as [H1 H2 H3 H4]. split.
    + by rewrite length_fmap.
    + apply Forall_fmap. eapply Forall_impl; [exact H2|]. intros w _. split; [lia|by vm_compute].
    + intros x v _. rewrite list_lookup_fmap. destruct (filteredEvents s !! filter_line x); [|done]. intros [= <-]. by rewrite Z.bits_0.
    + set_solver.
Qed.

Lemma is_filtered_spec F s ty : filters_ok F (filteredEvents s) -> EsifEventMgr_IsEventFiltered ty s = Some (bool_decide (ty ∈ F), s).
Proof.
  intros H. unfold EsifEventMgr_IsEventFiltered. destruct (known_type ty) eqn:Hk.
  - destruct (line_there F _ ty H Hk) as (w & Ew & Hw). unfold sbind, sget. rewrite Ew. cbn [of_option sret].
    unfold filter_bit, EVENT_MGR_FILTERED_EVENTS_PER_LINE. rewrite pos_bit by (apply Z.mod_pos_bound; lia). rewrite negb_involutive.
    by rewrite (fo_bit _ _ H ty w Hk Ew).
  - rewrite bool_decide_eq_false_2; [done|]. intros Hin. apply (fo_known _ _ H) in Hin. congruence.
Qed.

Lemma fops_spec ops : forall F s, filters_ok F (filteredEvents s) ->
  exists l', exec_fops ops s = Some ((a_fops ops F).1, with_filter l' s) /\ filters_ok (a_fops ops F).2 l'.
Proof.
  induction ops as [|op ops IH]; intros F s H; [exists (filteredEvents s); split; [by destruct s|done]|].
  destruct (fop_spec op F s H) as (l1 & E1 & H1). cbn [exec_fops a_fops fst snd]. rewrite (sbind_some _ _ _ _ _ E1).
  destruct (IH _ (with_filter l1 s) H1) as (l2 & E2 & H2). rewrite (sbind_some _ _ _ _ _ E2). exists l2. split; [by destruct s|done].
Qed.

Lemma filters_init_ok : filters_ok ∅ filters_init.
Proof.
  split; [done|repeat constructor; by vm_compute| |set_solver].
  intros ty w _ E. unfold filters_init in E. apply lookup_replicate in E as [-> _]. by rewrite Z.bits_0.
Qed.

(** The filter is a set of event types.  After any sequence of filtering
    and unfiltering, with any types, from the cleared array: no access leaves the
    array or a 64-bit line; each call answers ESIF_OK exactly for the types that
    are known (0 to 188); a type is filtered exactly when it is in the set that
    the calls describe, types beyond the known ones never; and nothing else of
    the event manager changes. *)
Theorem event_filters_refine (ops : list fop) (q : option (list (option EsifEventQueueItem))) (m : gmap positive sync_context) :
  exists l', exec_fops ops (mk_est filters_init q m) = Some ((a_fops ops ∅).1, mk_est l' q m) /\ Forall (in_range 64) l' /\
    forall ty, EsifEventMgr_IsEventFiltered ty (mk_est l' q m) = Some (bool_decide (ty ∈ (a_fops ops ∅).2), mk_est l' q m).
Proof.
  destruct (fops_spec ops ∅ (mk_est filters_init q m) filters_init_ok) as (l' & E & H). exists l'. split; [exact E|]. split; [apply (fo_range _ _ H)|].
  intros ty. by apply is_filtered_spec.
Qed.

(* ------------------------------------------------------------------ *)
(** ** The threads

    Any number of threads signal; those that signal synchronously wait.  The
    event thread pulls an item, handles it, sets its completion event and leaves
    its context. *)

Inductive tstate : Type :=
  | TIdle
  | TGot (it : EsifEventQueueItem)
  | TDone (it : EsifEventQueueItem)
  | TSet (it : EsifEventQueueItem).

(** [waiting] are the contexts whose callers have not left them, [freeing] those
    that a thread is about to free. *)
Record sys : Type := mk_sys {
  shared : est;
  y_cache : EsifEventCacheMgr;
  y_reg : rst;
  waiting : list positive;
  freeing : list positive;
  y_thread : tstate
}.

(** An event, as its signaller means it. *)
Record event : Type := mk_event { e_pid : Z; e_dom : Z; e_ty : Z; e_payload : list Z; e_lf : bool; e_cached : bool }.

Definition signal_payload (d : option EsifData) : list Z :=
  match d with
  | Some d =>
      match buf_ptr d with
      | Some b => if (0 <? data_len d) && (data_len d <=? buf_len d) then take (Z.to_nat (data_len d)) b else []
      | None => []
      end
  | None => []
  end.

(** A call of an observer, as the observer sees it. *)
Record receipt : Type := mk_receipt { r_callee : Z * Z; r_pid : Z; r_dom : Z; r_payload : list Z }.
Definition receipt_of (d : delivery) : receipt := mk_receipt (callee (d_call d)) (d_pid d) (d_dom d) (payload (d_data d)).

Inductive obs : Type :=
  | OAccepted (e : event)
  | ORejected (rc : Z)
  | OHandled (e : event) (l : list receipt)
  | OLeft (p : positive) (completed : bool).

Definition event_of (it : EsifEventQueueItem) : event :=
  mk_event (q_participantId it) (q_domainId it) (q_eventType it) (payload (q_eventData it)) (q_isLfEvent it) (q_useCachedData it).

Inductive sevt : Type :=
  | SSignal (m : signal_mem) (pid dom ty : Z) (d : option EsifData) (isLfEvent isFilteredEvent useCachedData : bool)
  | SSync (m : signal_mem) (p : positive) (pid dom ty : Z) (d : option EsifData)
  | SLeave (p : positive)
  | SFree (p : positive)
  | SFilter (op : fop)
  | TPull
  | THandle
  | TComplete
  | TLeave.

Definition set_shared (s : est) (c : sys) : sys := mk_sys s (y_cache c) (y_reg c) (waiting c) (freeing c) (y_thread c).
Definition set_waiting (l : list positive) (c : sys) : sys := mk_sys (shared c) (y_cache c) (y_reg c) l (freeing c) (y_thread c).
Definition set_freeing (l : list positive) (c : sys) : sys := mk_sys (shared c) (y_cache c) (y_reg c) (waiting c) l (y_thread c).
Definition set_thread (t : tstate) (c : sys) : sys := mk_sys (shared c) (y_cache c) (y_reg c) (waiting c) (freeing c) t.
Definition set_handled (g : EsifEventCacheMgr) (s : rst) (c : sys) : sys := mk_sys (shared c) g s (waiting c) (freeing c) (y_thread c).

Definition answer (rc : Z) (e : event) : list obs := if rc =? ESIF_OK then [OAccepted e] else [ORejected rc].

(** Leaving a context, for a thread that frees it later if it is the last. *)
Definition leave (p : positive) (c : sys) : option sys :=
  match sync_leave p (shared c) with
  | Some (last, s) => Some (set_freeing (if (last : bool) then p :: freeing c else freeing c) (set_shared s c))
  | None => None
  end.

Section Threads.
Context (lpid : Z -> option Z) (table : list bool).

Definition exec_signal (v : sevt) (c : sys) : option (sys * list obs) :=
  match v with
  | SSignal m pid dom ty d lf filt cached =>
      match EsifEventMgr_SignalEvent_Local m pid dom ty d lf filt cached None (shared c) with
      | Some (rc, s) => Some (set_shared s c, answer rc (mk_event pid dom ty (signal_payload d) lf cached))
      | None => None
      end
  | SSync m p pid dom ty d =>
      match sync_signal m p pid dom ty d (shared c) with
      | Some (rc, s) => Some (set_waiting (p :: waiting c) (set_shared s c), answer rc (mk_event pid dom ty (signal_payload d) false false))
      | None => None
      end
  | SLeave p =>
      match syncs (shared c) !! p, leave p c with
      | Some x, Some c' => Some (set_waiting (remove_one p (waiting c)) c', [OLeft p (completed x)])
      | _, _ => None
      end
  | SFree p =>
      match sync_free p (shared c) with
      | Some (_, s) => Some (set_freeing (remove_one p (freeing c)) (set_shared s c), [])
      | None => None
      end
  | SFilter op => match exec_fop op (shared c) with Some (_, s) => Some (set_shared s c, []) | None => None end
  | TPull =>
      match eventQueuePtr (shared c) with
      | Some q =>
          let r := fifo_dequeue q in
          Some (set_thread (match r.1 with Some it => TGot it | None => TIdle end) (set_shared (with_queue (Some r.2) (shared c)) c), [])
      | None => None
      end
  | THandle =>
      match y_thread c with
      | TGot it =>
          match handle_item true lpid table it (y_cache c) (y_reg c) with
          | Some (l, g, s) => Some (set_thread (TDone it) (set_handled g s c), [OHandled (event_of it) (receipt_of <$> l)])
          | None => None
          end
      | _ => Some (c, [])
      end
  | TComplete =>
      match y_thread c with
      | TDone it =>
          match (match q_syncContextPtr it with Some p => sync_complete p | None => sret tt end) (shared c) with
          | Some (_, s) => Some (set_thread (TSet it) (set_shared s c), [])
          | None => None
          end
      | _ => Some (c, [])
      end
  | TLeave =>
      match y_thread c with
      | TSet it =>
          match (match q_syncContextPtr it with Some p => leave p c | None => Some c end) with
          | Some c' => Some (set_thread TIdle c', [])
          | None => None
          end
      | _ => Some (c, [])
      end
  end.
End Threads.

(** The caller's data has the length that it says, and an event type is a 32-bit
    value. *)
Definition signal_ok (ty : Z) (d : option EsifData) : Prop :=
  0 <= ty < 2 ^ 32 /\
  match d with
  | Some d => 0 <= data_len d < 2 ^ 32 /\ match buf_ptr d with Some b => data_len d <= buf_len d -> data_len d <= Z.of_nat (length b) | None => True end
  | None => True
  end.

(** A wait may end at any time, with or without its event. *)
Definition signal_allowed (v : sevt) (c : sys) : Prop :=
  match v with
  | SSignal _ _ _ ty d _ _ _ => signal_ok ty d
  | SSync _ p _ _ ty d => signal_ok ty d /\ syncs (shared c) !! p = None
  | SLeave p => p ∈ waiting c
  | SFree p => p ∈ freeing c
  | SFilter _ => True
  | TPull => y_thread c = TIdle /\ eventQueuePtr (shared c) <> Some []
  | THandle => match y_thread c with TGot _ => True | _ => False end
  | TComplete => match y_thread c with TDone _ => True | _ => False end
  | TLeave => match y_thread c with TSet _ => True | _ => False end
  end.

Definition cacheable_table : list bool := cacheableEventList g_EventCacheMgr.

(** The event manager and a started cache, initialised, with some observers. *)
Definition sys_init (s : rst) : sys :=
  mk_sys (mk_est filters_init (Some []) ∅) (EsifEventCache_Start g_EventCacheMgr).1.2 s [] [] TIdle.

Abbreviation run_signals lpid := (run_steps (exec_signal lpid cacheable_table)).
Abbreviation signals_follow lpid := (follows (exec_signal lpid cacheable_table) signal_allowed).

(* ------------------------------------------------------------------ *)
(** ** The sequential specification

    The events are handled one after the other; the state is what has been
    handled, as updates of the cache. *)

Definition a_payload (us : list EventCache.update) (e : event) : list Z :=
  if e_cached e && bool_decide (e_ty e ∈ eventType <$> g_CachedEvents) then default (e_payload e) (value_after (e_ty e) us) else e_payload e.

Definition a_target (lpid : Z -> option Z) (e : event) : option Z :=
  if e_lf e then
    match lpid (u8 (e_pid e)) with
    | Some p => Some p
    | None => if e_ty e =? ESIF_EVENT_PARTICIPANT_CREATE then Some ESIF_HANDLE_PRIMARY_PARTICIPANT else None
    end
  else Some (e_pid e).

Definition raw (b : list Z) : EsifData := mk_EsifData 0 (Some b) (Z.of_nat (length b)) (Z.of_nat (length b)).

Definition a_handle (lpid : Z -> option Z) (r : registry) (us : list EventCache.update) (e : event) : list receipt * list EventCache.update :=
  match a_target lpid e with
  | Some pid =>
      ((fun k => mk_receipt (o_cb k, o_ctx k) pid (e_dom e) (a_payload us e)) <$>
         filter (fun k => a_wants (e_ty e) pid (e_dom e) k = true) r.*1,
       us ++ [(e_ty e, pid, raw (a_payload us e))])
  | None => ([], us)
  end.

Fixpoint a_handle_all (lpid : Z -> option Z) (r : registry) (us : list EventCache.update) (es : list event) : list (list receipt) :=
  match es with
  | [] => []
  | e :: es => let x := a_handle lpid r us e in x.1 :: a_handle_all lpid r x.2 es
  end.

Definition accepted (k : list obs) : list event := omap (fun o => match o with OAccepted e => Some e | _ => None end) k.
Definition handled (k : list obs) : list (event * list receipt) := omap (fun o => match o with OHandled e l => Some (e, l) | _ => None end) k.

(** The events accepted and not yet handled. *)
Definition queue_items (s : est) : list EsifEventQueueItem := omap (fun x => x) (default [] (eventQueuePtr s)).
Definition pending_events (c : sys) : list event :=
  (match y_thread c with TGot it => [event_of it] | _ => [] end) ++ (event_of <$> queue_items (shared c)).
(** The contexts that the event thread has not left. *)
Definition pending_syncs (c : sys) : list positive :=
  omap q_syncContextPtr ((match y_thread c with TIdle => [] | TGot it | TDone it | TSet it => [it] end) ++ queue_items (shared c)).

(* ------------------------------------------------------------------ *)
(** ** Signalling *)

Lemma payload_raw b : payload (raw b) = b.
Proof. unfold payload, raw. cbn. by rewrite Nat2Z.id, firstn_all. Qed.

Lemma copy_data_spec mem ty d : signal_ok ty d ->
  exists copy, copy_data mem d = Some copy /\ match copy with Some x => payload x = signal_payload d /\ payload_ok x | None => mem = false end.
Proof.
  assert (Hz : payload zero_data = [] /\ payload_ok zero_data) by (split; [done|split; [by vm_compute|done]]).
  intros [_ Hd]. destruct d as [d|]; [|by exists (Some zero_data)]. destruct Hd as [Hr Hb]. unfold copy_data, signal_payload.
  destruct (buf_ptr d) as [b|]; [|by exists (Some zero_data)]. cbn [andb].
  destruct (Z.ltb_spec 0 (data_len d)) as [Hp|Hp]; [|rewrite andb_false_r; cbn [andb]; by exists (Some zero_data)].
  destruct (Z.leb_spec (data_len d) (buf_len d)) as [Hl|Hl]; [|rewrite !andb_false_r; by exists (Some zero_data)].
  rewrite (proj2 (Z.ltb_lt 0 (buf_len d))) by lia. cbn [andb]. destruct mem; [|by exists None]. specialize (Hb Hl).
  rewrite memcpy_over by (unfold zero_block; rewrite ?length_replicate; lia). eexists. split; [reflexivity|].
  unfold zero_block. rewrite drop_ge, app_nil_r by (rewrite length_replicate; lia).
  assert (Ep : payload (mk_EsifData (type d) (Some (take (Z.to_nat (data_len d)) b)) (data_len d) (data_len d)) = take (Z.to_nat (data_len d)) b).
  { unfold payload. cbn. by rewrite take_take, Nat.min_id. }
  split; [exact Ep|]. split; [exact Hr|]. rewrite Ep. cbn. rewrite length_take. lia.
Qed.

Lemma enqueue_event_spec m pid dom ty d lf filt cached sync s q F : signal_ok ty d -> filters_ok F (filteredEvents s) -> eventQueuePtr s = Some q ->
  exists rc s', enqueue_event m pid dom ty d lf filt cached sync s = Some (rc, s') /\
    ((rc <> ESIF_OK /\ s' = s) \/
     (rc = ESIF_OK /\ (filt && bool_decide (ty ∈ F) = false) /\ exists it, s' = with_queue (Some (q ++ [Some it])) s /\ event_of it = mk_event pid dom ty (signal_payload d) lf cached /\
        q_syncContextPtr it = sync /\ payload_ok (q_eventData it))).
Proof.
  intros Hd Hf Hq. unfold enqueue_event.
  assert (Ef : (if filt then EsifEventMgr_IsEventFiltered ty else sret false) s = Some (filt && bool_decide (ty ∈ F), s)).
  { destruct filt; [by apply is_filtered_spec|done]. }
  rewrite (sbind_some _ _ _ _ _ Ef). destruct (filt && bool_decide (ty ∈ F)); [by eexists _, _; split; [reflexivity|left]|].
  unfold sbind at 1. cbn [sget]. rewrite Hq. destruct (mem_item m); [|by eexists _, _; split; [reflexivity|left]].
  destruct (copy_data_spec (mem_data m) ty d Hd) as (copy & Ec & Hc). rewrite Ec. unfold sbind at 1. cbn [of_option sret].
  destruct copy as [x|]; [|by eexists _, _; split; [reflexivity|left]]. destruct Hc as [Hp Hok]. unfold fifo_enqueue.
  destruct (mem_node m && _).
  - eexists _, _. split; [reflexivity|]. right. split; [done|]. split; [done|]. eexists. split; [reflexivity|]. unfold event_of. cbn. by rewrite Hp.
  - eexists _, _. split; [reflexivity|]. left. split; [done|]. destruct s. cbn in *. by rewrite Hq.
Qed.

(* ------------------------------------------------------------------ *)
(** ** Handling an item *)

Lemma event_of_data it : payload (q_eventData it) = e_payload (event_of it).
Proof. done. Qed.

Lemma types_in_table : Forall (fun ty => 0 <= ty < MAX_ESIF_EVENT_ENUM_VALUE) (eventType <$> g_CachedEvents).
Proof. unfold MAX_ESIF_EVENT_ENUM_VALUE. repeat constructor; by vm_compute. Qed.

Lemma find_entry_none ty l : ty ∉ eventType <$> l -> find_entry ty l = None.
Proof.
  induction l as [|e l IH]; [done|]. cbn. rewrite not_elem_of_cons. intros [Hne Hl]. rewrite (proj2 (Z.eqb_neq _ _)) by congruence. by apply IH.
Qed.

Lemma find_entry_type ty g : eventType <$> entries g = eventType <$> g_CachedEvents ->
  EsifEventCache_IsEventCacheable g ty = bool_decide (ty ∈ eventType <$> g_CachedEvents).
Proof.
  intros Ht. unfold EsifEventCache_IsEventCacheable. destruct (decide (ty ∈ eventType <$> g_CachedEvents)) as [Hin|Hni].
  - rewrite bool_decide_eq_true_2 by done. rewrite <- Ht in Hin. by destruct (find_entry_in ty _ Hin) as (e & -> & _).
  - rewrite bool_decide_eq_false_2 by done. by rewrite find_entry_none by by rewrite Ht.
Qed.

Lemma cacheable_spec ty : 0 <= ty < 2 ^ 32 -> EsifEventMgr_IsEventCacheable cacheable_table ty = Some (bool_decide (ty ∈ eventType <$> g_CachedEvents)).
Proof.
  intros Hty. unfold EsifEventMgr_IsEventCacheable. rewrite wrap_small by done. destruct (Z.ltb_spec ty MAX_ESIF_EVENT_ENUM_VALUE) as [Hlt|Hge].
  - unfold cacheable_table, cacheableEventList. rewrite list_lookup_fmap, lookup_seqZ_lt by (rewrite ?Z2Nat.id; lia). cbn [fmap option_fmap option_map].
    f_equal. rewrite Z2Nat.id by lia. rewrite Z.add_0_l. by apply find_entry_type.
  - f_equal. symmetry. apply bool_decide_eq_false_2. intros Hin. pose proof types_in_table as Ht. rewrite Forall_forall in Ht. specialize (Ht ty Hin). lia.
Qed.

(** What the cache holds depends on the payloads only, and on the cached types. *)
Lemma cache_inv_ext us ty p d d' g : payload d = payload d' -> cache_inv (us ++ [(ty, p, d)]) g -> cache_inv (us ++ [(ty, p, d')]) g.
Proof.
  intros Hp [Ht Hl]. split; [done|]. eapply Forall_impl; [exact Hl|]. intros e. unfold value_after. rewrite !foldl_app. cbn. unfold concerns. cbn. by rewrite Hp.
Qed.

Lemma cache_inv_other us ty p d g : ty ∉ eventType <$> g_CachedEvents -> cache_inv us g -> cache_inv (us ++ [(ty, p, d)]) g.
Proof.
  intros Hni [Ht Hl]. split; [done|]. rewrite Forall_forall in Hl |- *. intros e He. specialize (Hl e He). unfold value_after in *. rewrite foldl_app. cbn.
  unfold concerns. cbn. rewrite (proj2 (Z.eqb_neq _ _)); [done|]. intros ->. apply Hni. rewrite <- Ht. by apply list_elem_of_fmap_2.
Qed.

Lemma value_clone_spec us g ty : cache_inv us g -> isStarted g = true -> ty ∈ eventType <$> g_CachedEvents ->
  match value_after ty us with
  | None => EsifEventCache_GetValueClone true g ty (Some zero_data) = Some (ESIF_E_NOT_FOUND, Some zero_data)
  | Some v => exists d, EsifEventCache_GetValueClone true g ty (Some zero_data) = Some (ESIF_OK, Some d) /\ payload d = v /\ payload_ok d
  end.
Proof.
  intros [Ht Hl] Hs Hin. unfold EsifEventCache_GetValueClone. rewrite Hs. cbn [negb]. rewrite <- Ht in Hin.
  destruct (find_entry_in ty _ Hin) as (e & -> & He & Ety). rewrite Forall_forall in Hl. specialize (Hl e He). rewrite Ety in Hl.
  destruct (value_after ty us) as [v|]; cbn in Hl; [|by rewrite Hl]. destruct Hl as (Ev & _ & Ed & Hlt). rewrite Ev, Ed.
  rewrite memcpy_over by (unfold zero_block; rewrite ?length_replicate; lia). eexists. split; [reflexivity|].
  unfold zero_block. rewrite drop_ge, app_nil_r by (rewrite length_replicate; lia).
  assert (Ep : payload (mk_EsifData (type (data e)) (Some (take (Z.to_nat (Z.of_nat (length v))) v)) (Z.of_nat (length v)) (Z.of_nat (length v))) = v).
  { unfold payload. cbn. by rewrite Nat2Z.id, firstn_all, firstn_all. }
  split; [exact Ep|]. split; [cbn; lia|]. by rewrite Ep.
Qed.

Record item_ok (it : EsifEventQueueItem) : Prop := { io_ty : 0 <= q_eventType it < 2 ^ 32; io_data : payload_ok (q_eventData it) }.

Lemma event_data_spec us g it : cache_inv us g -> isStarted g = true -> item_ok it ->
  exists d, event_data true g it = Some d /\ payload d = a_payload us (event_of it) /\ payload_ok d.
Proof.
  intros Hc Hs [_ Hd]. unfold event_data, a_payload. cbn [event_of e_cached e_ty e_payload]. destruct (q_useCachedData it); cbn [andb]; [|by eexists].
  destruct (decide (q_eventType it ∈ eventType <$> g_CachedEvents)) as [Hin|Hni].
  - rewrite bool_decide_eq_true_2 by done. pose proof (value_clone_spec us g _ Hc Hs Hin) as Hclone. destruct (value_after _ us) as [v|].
    + destruct Hclone as (d & -> & Hp & Hok). cbn. by exists d.
    + rewrite Hclone. cbn. by eexists.
  - rewrite bool_decide_eq_false_2 by done. unfold EsifEventCache_GetValueClone. rewrite Hs. cbn [negb].
    rewrite find_entry_none by by rewrite (proj1 Hc). cbn. by eexists.
Qed.

Lemma update_cache_spec us g ty p d : cache_inv us g -> payload_ok d ->
  exists rc g', EsifEventCache_UpdateData true g ty p (Some d) = Some (rc, g') /\ cache_inv (us ++ [(ty, p, d)]) g' /\ isStarted g' = isStarted g.
Proof.
  intros Hc Hd. destruct (run_updates_inv [(ty, p, d)] us g Hc) as (g' & E & Hi & Hs); [apply Forall_cons; by split|]. cbn [run_updates fst snd] in E.
  destruct (EsifEventCache_UpdateData true g ty p (Some d)) as [[rc g1]|]; [|done]. injection E as ->. by exists rc, g'.
Qed.

Lemma target_spec lpid it :
  target_of lpid it = match a_target lpid (event_of it) with Some p => (ESIF_OK, p) | None => (ESIF_E_INVALID_HANDLE, q_participantId it) end.
Proof.
  unfold a_target, target_of. cbn [event_of e_lf e_pid e_ty]. destruct (q_isLfEvent it); [|done]. destruct (lpid _); [done|].
  by destruct (q_eventType it =? ESIF_EVENT_PARTICIPANT_CREATE).
Qed.

Lemma handle_item_spec lpid r us g s it : cache_inv us g -> isStarted g = true -> holds_registry r s -> item_ok it ->
  exists l g', handle_item true lpid cacheable_table it g s = Some (l, g', s) /\
    receipt_of <$> l = (a_handle lpid r us (event_of it)).1 /\ cache_inv (a_handle lpid r us (event_of it)).2 g' /\ isStarted g' = true.
Proof.
  intros Hc Hs Hr Hit. unfold handle_item, a_handle. rewrite target_spec. destruct (a_target lpid (event_of it)) as [pid|]; [|by eexists [], g].
  cbn [fst snd]. destruct (event_data_spec us g it Hc Hs Hit) as (d & -> & Hp & Hd). unfold process_event.
  rewrite (cacheable_spec _ (io_ty _ Hit)). rewrite Z.eqb_refl.
  assert (Hu : exists rc g', (if bool_decide (q_eventType it ∈ eventType <$> g_CachedEvents) then EsifEventCache_UpdateData true g (q_eventType it) pid (Some d) else Some (ESIF_OK, g)) = Some (rc, g') /\
    cache_inv (us ++ [(q_eventType it, pid, raw (a_payload us (event_of it)))]) g' /\ isStarted g' = true).
  { destruct (decide (q_eventType it ∈ eventType <$> g_CachedEvents)) as [Hin|Hni].
    - rewrite bool_decide_eq_true_2 by done. destruct (update_cache_spec us g (q_eventType it) pid d Hc Hd) as (rc & g' & E & Hc' & Hs').
      exists rc, g'. split; [done|]. split; [|congruence]. apply (cache_inv_ext us _ _ d); [by rewrite payload_raw|done].
    - rewrite bool_decide_eq_false_2 by done. exists ESIF_OK, g. split; [done|]. split; [by apply cache_inv_other|done]. }
  destruct Hu as (rc & g' & -> & Hc' & Hs'). destruct (process_refines r s (q_eventType it) pid (q_domainId it) Hr) as (calls & -> & Hcalls).
  eexists _, g'. split; [reflexivity|]. split; [|done]. rewrite <- list_fmap_compose. cbn [event_of e_ty e_dom fst].
  transitivity ((fun x => mk_receipt x pid (q_domainId it) (a_payload us (event_of it))) <$> (callee <$> calls)).
  - rewrite <- list_fmap_compose. apply list_fmap_ext. intros i x _. unfold compose, receipt_of. cbn. by rewrite Hp.
  - rewrite Hcalls, <- list_fmap_compose. reflexivity.
Qed.

(* ------------------------------------------------------------------ *)
(** ** The contexts of synchronous events

    [W] have a waiting caller, [P] an event that the event thread has not left,
    [Z] are about to be freed. *)

Record sync_inv (m : gmap positive sync_context) (W P Z : list positive) : Prop := {
  si_w : NoDup W;
  si_p : NoDup P;
  si_z : NoDup Z;
  si_sep : forall p, p ∈ Z -> p ∉ W /\ p ∉ P;
  si_live : forall p, is_Some (m !! p) <-> p ∈ W \/ p ∈ P \/ p ∈ Z;
  si_both : forall p x, m !! p = Some x -> p ∈ W -> p ∈ P -> useComplete x = false;
  si_only_w : forall p x, m !! p = Some x -> p ∈ W -> p ∉ P -> useComplete x = true /\ completed x = true;
  si_only_p : forall p x, m !! p = Some x -> p ∉ W -> p ∈ P -> useComplete x = true
}.

Lemma sync_inv_perm m W P P' Z : P ≡ₚ P' -> sync_inv m W P Z -> sync_inv m W P' Z.
Proof.
  intros Hp [A B C D E F G H]. split; [done|by rewrite <- Hp|done| | | | |].
  - intros p. rewrite <- Hp. apply D.
  - intros p. rewrite <- Hp. apply E.
  - intros p x. rewrite <- Hp. apply F.
  - intros p x. rewrite <- Hp. apply G.
  - intros p x. rewrite <- Hp. apply H.
Qed.

(** A new context, whose event was queued or rejected. *)
Lemma sync_inv_queued m W P Z p : sync_inv m W P Z -> m !! p = None -> sync_inv (<[p := mk_sync false false]> m) (p :: W) (p :: P) Z.
Proof.
  intros [A B C D E F G H] Hp. assert (Hn : p ∉ W /\ p ∉ P /\ p ∉ Z).
  { assert (Hf : ~ (p ∈ W \/ p ∈ P \/ p ∈ Z)) by (rewrite <- E, Hp; by intros []). tauto. }
  destruct Hn as (N1 & N2 & N3). split.
  - by apply NoDup_cons.
  - by apply NoDup_cons.
  - done.
  - intros q Hq. rewrite !not_elem_of_cons. destruct (D q Hq). assert (q <> p) by by intros ->. tauto.
  - intros q. rewrite !elem_of_cons. destruct (decide (q = p)) as [->|Hne]; [rewrite lookup_insert_eq; split; eauto|].
    rewrite lookup_insert_ne by done. rewrite E. tauto.
  - intros q x. destruct (decide (q = p)) as [->|Hne]; [rewrite lookup_insert_eq; by intros [= <-]|rewrite lookup_insert_ne by done].
    rewrite !elem_of_cons. intros Ex [|H1] [|H2]; try done. by apply (F q x).
  - intros q x. rewrite not_elem_of_cons, elem_of_cons. intros Ex H1 [Hne H2]. rewrite lookup_insert_ne in Ex by done. apply (G q x); tauto.
  - intros q x. rewrite not_elem_of_cons, elem_of_cons. intros Ex [Hne H1] H2. rewrite lookup_insert_ne in Ex by done. apply (H q x); tauto.
Qed.

Lemma sync_inv_rejected m W P Z p : sync_inv m W P Z -> m !! p = None -> sync_inv (<[p := mk_sync true true]> m) (p :: W) P Z.
Proof.
  intros [A B C D E F G H] Hp. assert (Hn : p ∉ W /\ p ∉ P /\ p ∉ Z).
  { assert (Hf : ~ (p ∈ W \/ p ∈ P \/ p ∈ Z)) by (rewrite <- E, Hp; by intros []). tauto. }
  destruct Hn as (N1 & N2 & N3). split; try done.
  - by apply NoDup_cons.
  - intros q Hq. rewrite !not_elem_of_cons. destruct (D q Hq). assert (q <> p) by by intros ->. tauto.
  - intros q. rewrite !elem_of_cons. destruct (decide (q = p)) as [->|Hne]; [rewrite lookup_insert_eq; split; eauto|].
    rewrite lookup_insert_ne by done. rewrite E. tauto.
  - intros q x. rewrite elem_of_cons. intros Ex H1 H2. assert (Hne : q <> p) by by intros ->. rewrite lookup_insert_ne in Ex by done. apply (F q x); tauto.
  - intros q x. destruct (decide (q = p)) as [->|Hne]; [rewrite lookup_insert_eq; by intros [= <-]|rewrite lookup_insert_ne by done].
    rewrite elem_of_cons. intros Ex [|H1] H2; [done|]. by apply (G q x).
  - intros q x. rewrite not_elem_of_cons. intros Ex [Hne H1] H2. rewrite lookup_insert_ne in Ex by done. by apply (H q x).
Qed.

(** The completion event of a context is set. *)
Lemma sync_inv_complete m W P Z p x : sync_inv m W P Z -> m !! p = Some x -> sync_inv (<[p := mk_sync (useComplete x) true]> m) W P Z.
Proof.
  intros [A B C D E F G H] Ex. split; try done.
  - intros q. destruct (decide (q = p)) as [->|Hne]; [rewrite lookup_insert_eq, <- E, Ex; split; eauto|by rewrite lookup_insert_ne].
  - intros q y. destruct (decide (q = p)) as [->|Hne]; [rewrite lookup_insert_eq; intros [= <-]; exact (F p x Ex)|rewrite lookup_insert_ne by done; apply F].
  - intros q y. destruct (decide (q = p)) as [->|Hne]; [rewrite lookup_insert_eq; intros [= <-] H1 H2; split; [by apply (G p x)|done]|rewrite lookup_insert_ne by done; apply G].
  - intros q y. destruct (decide (q = p)) as [->|Hne]; [rewrite lookup_insert_eq; intros [= <-]; exact (H p x Ex)|rewrite lookup_insert_ne by done; apply H].
Qed.

(** A side leaves: the other is still there, or it is the last. *)
Lemma sync_leave_spec s p x : syncs s !! p = Some x ->
  sync_leave p s = Some (if useComplete x then (true, s) else (false, with_syncs (<[p := mk_sync true (completed x)]> (syncs s)) s)).
Proof. intros Ex. unfold sync_leave, sync_get, sbind. rewrite Ex. by destruct (useComplete x). Qed.

Lemma sync_inv_waiter_left m W W' P Z p x : sync_inv m W P Z -> m !! p = Some x -> p ∈ W -> NoDup W' -> (forall q, q ∈ W' <-> q <> p /\ q ∈ W) ->
  if useComplete x then sync_inv m W' P (p :: Z) else sync_inv (<[p := mk_sync true (completed x)]> m) W' P Z.
Proof.
  intros [A B C D E F G H] Ex Hp Hn HW. assert (Hz : p ∉ Z) by (intros Hz; destruct (D p Hz); tauto).
  destruct (decide (p ∈ P)) as [Hin|Hni].
  - rewrite (F p x Ex Hp Hin). split; try done.
    + intros q Hq. rewrite HW. destruct (D q Hq). tauto.
    + intros q. rewrite HW. destruct (decide (q = p)) as [->|Hne]; [rewrite lookup_insert_eq; split; [tauto|eauto]|]. rewrite lookup_insert_ne, E by done. tauto.
    + intros q y Ey H1 H2. apply HW in H1 as [Hne H1]. rewrite lookup_insert_ne in Ey by done. by apply (F q y).
    + intros q y Ey H1 H2. apply HW in H1 as [Hne H1]. rewrite lookup_insert_ne in Ey by done. by apply (G q y).
    + intros q y. destruct (decide (q = p)) as [->|Hne]; [rewrite lookup_insert_eq; by intros [= <-]|]. rewrite lookup_insert_ne, HW by done.
      intros Ey H1 H2. apply (H q y); tauto.
  - destruct (G p x Ex Hp Hni) as [-> _]. split; try done.
    + by apply NoDup_cons.
    + intros q [->|Hq]%elem_of_cons; [rewrite HW; tauto|]. rewrite HW. destruct (D q Hq). tauto.
    + intros q. rewrite E, HW, elem_of_cons. destruct (decide (q = p)) as [->|Hne]; tauto.
    + intros q y Ey H1 H2. apply HW in H1 as [Hne H1]. by apply (F q y).
    + intros q y Ey H1 H2. apply HW in H1 as [Hne H1]. by apply (G q y).
    + intros q y Ey H1 H2. rewrite HW in H1. apply (H q y Ey); [|done]. intros H3. apply H1. split; [by intros ->|done].
Qed.

Lemma sync_inv_thread_left m W P Z p x : sync_inv m W (p :: P) Z -> m !! p = Some x -> completed x = true ->
  if useComplete x then sync_inv m W P (p :: Z) else sync_inv (<[p := mk_sync true (completed x)]> m) W P Z.
Proof.
  intros [A B C D E F G H] Ex Hcomp. apply NoDup_cons in B as [Hnp B]. assert (Hz : p ∉ Z) by (intros Hz; destruct (D p Hz) as [_ Hz']; apply Hz'; left).
  assert (D' : forall q, q ∈ Z -> q ∉ W /\ q ∉ P) by (intros q Hq; destruct (D q Hq) as [D1 D2]; rewrite not_elem_of_cons in D2; tauto).
  destruct (decide (p ∈ W)) as [Hin|Hni].
  - rewrite (F p x Ex Hin ltac:(left)). split; try done.
    + intros q. destruct (decide (q = p)) as [->|Hne]; [rewrite lookup_insert_eq; split; [tauto|eauto]|]. rewrite lookup_insert_ne, E, elem_of_cons by done. tauto.
    + intros q y Ey H1 H2. assert (Hne : q <> p) by by intros ->. rewrite lookup_insert_ne in Ey by done. apply (F q y); [done|done|by right].
    + intros q y. destruct (decide (q = p)) as [->|Hne]; [rewrite lookup_insert_eq; by intros [= <-]|]. rewrite lookup_insert_ne by done.
      intros Ey H1 H2. apply (G q y Ey H1). rewrite not_elem_of_cons. tauto.
    + intros q y Ey H1 H2. assert (Hne : q <> p) by by intros ->. rewrite lookup_insert_ne in Ey by done. apply (H q y); [done|done|by right].
  - rewrite (H p x Ex Hni ltac:(left)). split; try done.
    + by apply NoDup_cons.
    + intros q [->|Hq]%elem_of_cons; [tauto|by apply D'].
    + intros q. rewrite E, !elem_of_cons. tauto.
    + intros q y Ey H1 H2. apply (F q y); [done|done|by right].
    + intros q y Ey H1 H2. apply (G q y Ey H1). rewrite not_elem_of_cons. split; [by intros ->|done].
    + intros q y Ey H1 H2. apply (H q y); [done|done|by right].
Qed.

Lemma sync_inv_freed m W P Z Z' p : sync_inv m W P Z -> p ∈ Z -> NoDup Z' -> (forall q, q ∈ Z' <-> q <> p /\ q ∈ Z) -> sync_inv (delete p m) W P Z'.
Proof.
  intros [A B C D E F G H] Hp Hn HZ. destruct (D p Hp) as [Hw Hpp]. split; try done.
  - intros q Hq. apply HZ in Hq as [_ Hq]. by apply D.
  - intros q. rewrite HZ. destruct (decide (q = p)) as [->|Hne]; [rewrite lookup_delete_eq; split; [by intros []|tauto]|]. rewrite lookup_delete_ne, E by done. tauto.
  - intros q x [_ Ex]%lookup_delete_Some. by apply F.
  - intros q x [_ Ex]%lookup_delete_Some. by apply G.
  - intros q x [_ Ex]%lookup_delete_Some. by apply H.
Qed.

(* ------------------------------------------------------------------ *)
(** ** The steps *)

Lemma omap_somes {A} (l : list A) : omap (fun x => x) (Some <$> l) = l.
Proof. induction l as [|x l IH]; [done|]. cbn. by rewrite IH. Qed.

Fixpoint a_state (lpid : Z -> option Z) (r : registry) (us : list EventCache.update) (es : list event) : list EventCache.update :=
  match es with [] => us | e :: es => a_state lpid r (a_handle lpid r us e).2 es end.

Lemma a_handle_app lpid r es1 : forall us es2, a_handle_all lpid r us (es1 ++ es2) = a_handle_all lpid r us es1 ++ a_handle_all lpid r (a_state lpid r us es1) es2.
Proof. induction es1 as [|e es1 IH]; intros us es2; [done|]. cbn. by rewrite IH. Qed.
Lemma a_state_app lpid r es1 : forall us es2, a_state lpid r us (es1 ++ es2) = a_state lpid r (a_state lpid r us es1) es2.
Proof. induction es1 as [|e es1 IH]; intros us es2; [done|]. cbn. by rewrite IH. Qed.

Section Run.
Context (lpid : Z -> option Z) (r : registry).

Record sys_inv (us : list EventCache.update) (c : sys) : Prop := {
  yi_filter : exists F, filters_ok F (filteredEvents (shared c));
  yi_queue : exists its, eventQueuePtr (shared c) = Some (Some <$> its) /\ Forall item_ok its;
  yi_thread : match y_thread c with TIdle => True | TGot it | TDone it | TSet it => item_ok it end;
  yi_cache : cache_inv us (y_cache c) /\ isStarted (y_cache c) = true;
  yi_reg : holds_registry r (y_reg c);
  yi_sync : sync_inv (syncs (shared c)) (waiting c) (pending_syncs c) (freeing c);
  yi_set : forall it p, y_thread c = TSet it -> q_syncContextPtr it = Some p -> exists x, syncs (shared c) !! p = Some x /\ completed x = true
}.

(** What a run has accepted and handled, between two states. *)
Record follows_order (us : list EventCache.update) (c : sys) (k : list obs) (us' : list EventCache.update) (c' : sys) : Prop := {
  fo_order : pending_events c ++ accepted k = (handled k).*1 ++ pending_events c';
  fo_receipts : (handled k).*2 = a_handle_all lpid r us (handled k).*1;
  fo_state : us' = a_state lpid r us (handled k).*1
}.

Lemma queue_its s its : eventQueuePtr s = Some (Some <$> its) -> queue_items s = its.
Proof. intros E. unfold queue_items. rewrite E. apply omap_somes. Qed.

(** A step that leaves the queue and the thread's item alone. *)
Lemma quiet_order us c c' k : eventQueuePtr (shared c') = eventQueuePtr (shared c) ->
  (match y_thread c' with TGot it => Some it | _ => None end) = (match y_thread c with TGot it => Some it | _ => None end) ->
  accepted k = [] -> handled k = [] -> follows_order us c k us c'.
Proof.
  intros Hq Ht Ha Hh. split; rewrite ?Ha, ?Hh; cbn [fmap list_fmap a_handle_all a_state app]; try done. rewrite app_nil_r. unfold pending_events, queue_items. rewrite Hq.
  destruct (y_thread c'), (y_thread c); try done; try congruence.
Qed.

Context (us : list EventCache.update) (c : sys) (Hc : sys_inv us c).

Notation step_ok v := (exists c' k us', exec_signal lpid cacheable_table v c = Some (c', k) /\ sys_inv us' c' /\ follows_order us c k us' c').

(** An item joins the queue. *)
Lemma joined_order its it c' e : eventQueuePtr (shared c) = Some (Some <$> its) -> eventQueuePtr (shared c') = Some (Some <$> (its ++ [it])) ->
  y_thread c' = y_thread c -> event_of it = e -> follows_order us c [OAccepted e] us c'.
Proof.
  intros Hq Hq' Ht <-. split; try done. unfold pending_events. rewrite (queue_its (shared c) its Hq), (queue_its (shared c') (its ++ [it]) Hq'), Ht. cbn.
  by rewrite fmap_app, app_assoc.
Qed.

Lemma pending_syncs_joined its it c' : eventQueuePtr (shared c) = Some (Some <$> its) -> eventQueuePtr (shared c') = Some (Some <$> (its ++ [it])) ->
  y_thread c' = y_thread c -> pending_syncs c' = pending_syncs c ++ (match q_syncContextPtr it with Some p => [p] | None => [] end).
Proof.
  intros Hq Hq' Ht. unfold pending_syncs. rewrite (queue_its (shared c) its Hq), (queue_its (shared c') (its ++ [it]) Hq'), Ht.
  rewrite !omap_app, app_assoc. cbn. by destruct (q_syncContextPtr it).
Qed.

Lemma step_signal m pid dom ty d lf filt cached : signal_allowed (SSignal m pid dom ty d lf filt cached) c -> step_ok (SSignal m pid dom ty d lf filt cached).
Proof.
  intros Hd. destruct Hc as [[F HF] [its [Hq Hits]] Ht Hg Hr Hs Hset]. cbn [exec_signal]. unfold EsifEventMgr_SignalEvent_Local.
  destruct (enqueue_event_spec m pid dom ty d lf filt cached None (shared c) (Some <$> its) F Hd HF Hq) as (rc & s' & E & Hcase).
  rewrite (sbind_some _ _ _ _ _ E). assert (Hrest : ((if negb (rc =? ESIF_OK) then sret tt else sret tt) ;! sret rc) s' = Some (rc, s')) by (by destruct (rc =? ESIF_OK)).
  rewrite Hrest. exists (set_shared s' c), (answer rc (mk_event pid dom ty (signal_payload d) lf cached)), us. split; [done|]. unfold answer.
  destruct Hcase as [[Hrc ->]|[-> (_ & it & -> & He & Hsync & Hok)]].
  - rewrite (proj2 (Z.eqb_neq _ _) Hrc). split; [by split; [exists F|exists its|..]|by apply quiet_order].
  - cbn [Z.eqb]. assert (Hq' : eventQueuePtr (with_queue (Some ((Some <$> its) ++ [Some it])) (shared c)) = Some (Some <$> (its ++ [it]))) by (cbn; by rewrite fmap_app).
    split; [|by apply (joined_order its it)]. split; try done.
    + by exists F.
    + exists (its ++ [it]). split; [done|]. apply Forall_app. split; [done|]. apply Forall_singleton. split; [|done].
      destruct Hd as [Hty _]. injection He as _ _ -> _ _ _. done.
    + erewrite (pending_syncs_joined its it) by done. rewrite Hsync, app_nil_r. exact Hs.
Qed.

Lemma step_sync m p pid dom ty d : signal_allowed (SSync m p pid dom ty d) c -> step_ok (SSync m p pid dom ty d).
Proof.
  intros [Hd Hp]. destruct Hc as [[F HF] [its [Hq Hits]] Ht Hg Hr Hs Hset]. cbn [exec_signal]. unfold sync_signal, sync_new.
  unfold sbind at 1. unfold smodify at 1. set (s0 := with_syncs (<[p := mk_sync false false]> (syncs (shared c))) (shared c)). unfold EsifEventMgr_SignalEvent_Local.
  destruct (enqueue_event_spec m pid dom ty d false true false (Some p) s0 (Some <$> its) F Hd HF Hq) as (rc & s' & E & Hcase).
  rewrite (sbind_some _ _ _ _ _ E). destruct Hcase as [[Hrc ->]|[-> (_ & it & -> & He & Hsync & Hok)]].
  - assert (E2 : (sync_complete p ;! DestroySynchronizationContext (Some p)) s0 = Some (tt, with_syncs (<[p := mk_sync true true]> (syncs (shared c))) (shared c))).
    { unfold sync_complete, DestroySynchronizationContext, sync_leave, sync_get, sync_put, sbind, smodify, s0. cbn [with_syncs syncs]. rewrite lookup_insert_eq. cbn.
      rewrite !lookup_insert_eq. cbn. rewrite !insert_insert_eq. reflexivity. }
    rewrite (proj2 (Z.eqb_neq _ _) Hrc). cbn [negb]. rewrite (sbind_some _ _ _ _ _ E2). cbn [sret]. eexists _, _, us. split; [reflexivity|].
    unfold answer. rewrite (proj2 (Z.eqb_neq _ _) Hrc). split; [|by apply quiet_order]. split; try done.
    + by exists F.
    + by exists its.
    + exact (sync_inv_rejected _ _ _ _ p Hs Hp).
    + intros it q H1 H2. destruct (Hset it q H1 H2) as (x & Ex & Hx). exists x. split; [|done]. cbn. rewrite lookup_insert_ne; [done|]. intros <-. congruence.
  - cbn [Z.eqb negb]. unfold sbind at 1. cbn [sret]. eexists _, _, us. split; [reflexivity|].
    assert (Hq' : eventQueuePtr (with_queue (Some ((Some <$> its) ++ [Some it])) s0) = Some (Some <$> (its ++ [it]))) by (cbn; by rewrite fmap_app).
    split; [|by apply (joined_order its it)]. split; try done.
    + by exists F.
    + exists (its ++ [it]). split; [done|]. apply Forall_app. split; [done|]. apply Forall_singleton. split; [|done].
      destruct Hd as [Hty _]. injection He as _ _ -> _ _ _. done.
    + erewrite (pending_syncs_joined its it) by done. rewrite Hsync. cbn [shared syncs set_shared set_waiting waiting freeing with_queue s0 with_syncs].
      apply (sync_inv_perm _ _ (p :: pending_syncs c)); [solve_Permutation|]. by apply sync_inv_queued.
    + intros it' q H1 H2. destruct (Hset it' q H1 H2) as (x & Ex & Hx). exists x. split; [|done]. cbn. rewrite lookup_insert_ne; [done|]. intros <-. congruence.
Qed.

Lemma step_leave p : signal_allowed (SLeave p) c -> step_ok (SLeave p).
Proof.
  intros Hp. cbn in Hp. destruct Hc as [HF HQ Ht Hg Hr Hs Hset]. cbn [exec_signal]. unfold leave.
  destruct (proj2 (si_live _ _ _ _ Hs p)) as [x Ex]; [by left|]. rewrite Ex, (sync_leave_spec _ p x Ex).
  destruct (remove_one_nodup p _ Hp (si_w _ _ _ _ Hs)) as [Hn HW]. pose proof (sync_inv_waiter_left _ _ _ _ _ p x Hs Ex Hp Hn HW) as Hs'.
  destruct (useComplete x).
  - eexists _, _, us. split; [reflexivity|]. split; [by split|by apply quiet_order].
  - eexists _, _, us. split; [reflexivity|]. split; [|by apply quiet_order]. split; try done.
    intros it q H1 H2. destruct (Hset it q H1 H2) as (y & Ey & Hy). cbn. destruct (decide (q = p)) as [->|Hne].
    + rewrite lookup_insert_eq. eexists. split; [reflexivity|]. cbn. congruence.
    + rewrite lookup_insert_ne by done. by exists y.
Qed.

Lemma step_free p : signal_allowed (SFree p) c -> step_ok (SFree p).
Proof.
  intros Hp. cbn in Hp. destruct Hc as [HF HQ Ht Hg Hr Hs Hset]. cbn [exec_signal]. unfold sync_free, sync_get.
  destruct (proj2 (si_live _ _ _ _ Hs p)) as [x Ex]; [tauto|]. unfold sbind. rewrite Ex. unfold smodify. eexists _, _, us. split; [reflexivity|].
  destruct (remove_one_nodup p _ Hp (si_z _ _ _ _ Hs)) as [Hn HZ]. split; [|by apply quiet_order]. split; try done.
  - exact (sync_inv_freed _ _ _ _ _ p Hs Hp Hn HZ).
  - intros it q H1 H2. destruct (Hset it q H1 H2) as (y & Ey & Hy). exists y. split; [|done]. cbn. rewrite lookup_delete_ne; [done|]. intros ->.
    destruct (si_sep _ _ _ _ Hs q Hp) as [_ Hnp]. apply Hnp. cbn in H1. unfold pending_syncs. rewrite H1. cbn. rewrite H2. left.
Qed.

Lemma step_filter op : step_ok (SFilter op).
Proof.
  destruct Hc as [[F HF] HQ Ht Hg Hr Hs Hset]. cbn [exec_signal]. destruct (fop_spec op F (shared c) HF) as (l' & E & Hl). rewrite E.
  eexists _, _, us. split; [reflexivity|]. split; [|by apply quiet_order]. split; try done. by eexists.
Qed.

Lemma step_pull : signal_allowed TPull c -> step_ok TPull.
Proof.
  intros [Hidle Hne]. destruct Hc as [HF [its [Hq Hits]] Ht Hg Hr Hs Hset]. cbn [exec_signal]. rewrite Hq in Hne |- *. destruct its as [|it its]; [done|].
  cbn [fmap list_fmap fifo_dequeue fst snd tail]. eexists _, _, us. split; [reflexivity|]. apply Forall_cons in Hits as [Hit Hits].
  assert (Hq' : eventQueuePtr (with_queue (Some (Some <$> its)) (shared c)) = Some (Some <$> its)) by done.
  assert (Hp : pending_syncs (set_thread (TGot it) (set_shared (with_queue (Some (Some <$> its)) (shared c)) c)) = pending_syncs c).
  { unfold pending_syncs. rewrite (queue_its (shared c) (it :: its) Hq), Hidle. cbn [y_thread set_thread shared set_shared].
    by rewrite (queue_its _ its Hq'). }
  split; [split; try done|split; try done].
  - by exists its.
  - rewrite Hp. exact Hs.
  - cbn [accepted handled omap list_omap fmap list_fmap app]. rewrite app_nil_r. unfold pending_events. rewrite (queue_its (shared c) (it :: its) Hq), Hidle.
    cbn [y_thread set_thread shared set_shared]. by rewrite (queue_its _ its Hq').
Qed.

Lemma step_handle : signal_allowed THandle c -> step_ok THandle.
Proof.
  intros Ha. cbn in Ha. destruct Hc as [HF HQ Ht [Hg Hstart] Hr Hs Hset]. cbn [exec_signal]. destruct (y_thread c) as [|it|it|it] eqn:Et; try done.
  destruct (handle_item_spec lpid r us (y_cache c) (y_reg c) it Hg Hstart Hr Ht) as (l & g' & E & Hl & Hg' & Hs'). rewrite E.
  eexists _, _, _. split; [reflexivity|]. split; [split; try done|split].
  - unfold pending_syncs in *. cbn [y_thread set_thread set_handled shared]. rewrite Et in Hs. exact Hs.
  - cbn. unfold pending_events. rewrite Et. cbn. by rewrite app_nil_r.
  - cbn. by rewrite Hl.
  - done.
Qed.

Lemma step_complete : signal_allowed TComplete c -> step_ok TComplete.
Proof.
  intros Ha. cbn in Ha. destruct Hc as [HF HQ Ht Hg Hr Hs Hset]. cbn [exec_signal]. destruct (y_thread c) as [|it|it|it] eqn:Et; try done.
  assert (Hps : pending_syncs c = omap q_syncContextPtr (it :: queue_items (shared c))) by (unfold pending_syncs; by rewrite Et).
  destruct (q_syncContextPtr it) as [p|] eqn:Ep.
  - destruct (proj2 (si_live _ _ _ _ Hs p)) as [x Ex]; [right; left; rewrite Hps; cbn; rewrite Ep; left|].
    unfold sync_complete, sync_get, sync_put, sbind, smodify. rewrite Ex. eexists _, _, us. split; [reflexivity|].
    split; [split; try done|apply quiet_order; try done; cbn; by rewrite Et].
    + pose proof (sync_inv_complete _ _ _ _ p x Hs Ex) as Hs'. rewrite Hps in Hs'. exact Hs'.
    + cbn. intros it' q [= <-] Hq. assert (q = p) as -> by congruence. rewrite lookup_insert_eq. eexists. split; [reflexivity|done].
  - eexists _, _, us. split; [reflexivity|]. split; [split; try done|apply quiet_order; try done; cbn; by rewrite Et].
    + rewrite Hps in Hs. exact Hs.
    + cbn. intros it' q [= <-] Hq. congruence.
Qed.

Lemma step_thread_leave : signal_allowed TLeave c -> step_ok TLeave.
Proof.
  intros Ha. cbn in Ha. destruct Hc as [HF HQ Ht Hg Hr Hs Hset]. cbn [exec_signal]. destruct (y_thread c) as [|it|it|it] eqn:Et; try done.
  assert (Hps : pending_syncs c = omap q_syncContextPtr (it :: queue_items (shared c))) by (unfold pending_syncs; by rewrite Et).
  destruct (q_syncContextPtr it) as [p|] eqn:Ep.
  - destruct (Hset it p eq_refl Ep) as (x & Ex & Hx). unfold leave. rewrite (sync_leave_spec _ p x Ex).
    rewrite Hps in Hs. cbn [omap list_omap] in Hs. rewrite Ep in Hs. pose proof (sync_inv_thread_left _ _ _ _ p x Hs Ex Hx) as Hs'.
    destruct (useComplete x); (eexists _, _, us; split; [reflexivity|]; split; [by split|apply quiet_order; try done; cbn; by rewrite Et]).
  - eexists _, _, us. split; [reflexivity|]. split; [split; try done|apply quiet_order; try done; cbn; by rewrite Et].
    rewrite Hps in Hs. cbn [omap list_omap] in Hs. rewrite Ep in Hs. exact Hs.
Qed.

Lemma signal_step v : signal_allowed v c -> step_ok v.
Proof.
  destruct v; intros Ha.
  - by apply step_signal.
  - by apply step_sync.
  - by apply step_leave.
  - by apply step_free.
  - apply step_filter.
  - by apply step_pull.
  - by apply step_handle.
  - by apply step_complete.
  - by apply step_thread_leave.
Qed.
End Run.

Lemma accepted_app k1 k2 : accepted (k1 ++ k2) = accepted k1 ++ accepted k2.
Proof. apply omap_app. Qed.
Lemma handled_app k1 k2 : handled (k1 ++ k2) = handled k1 ++ handled k2.
Proof. apply omap_app. Qed.

Lemma order_trans lpid r us1 c1 k1 us2 c2 k2 us3 c3 : follows_order lpid r us1 c1 k1 us2 c2 -> follows_order lpid r us2 c2 k2 us3 c3 ->
  follows_order lpid r us1 c1 (k1 ++ k2) us3 c3.
Proof.
  intros [A1 B1 C1] [A2 B2 C2]. split; rewrite ?accepted_app, ?handled_app, ?fmap_app.
  - rewrite app_assoc, A1, <- app_assoc, A2. by rewrite app_assoc.
  - rewrite a_handle_app, B1, B2, C1. done.
  - rewrite a_state_app. by rewrite <- C1.
Qed.

Lemma signal_run lpid r vs : forall us c, sys_inv r us c -> signals_follow lpid vs c ->
  exists c' k us', run_signals lpid vs c = Some (c', k) /\ sys_inv r us' c' /\ follows_order lpid r us c k us' c'.
Proof.
  induction vs as [|v vs IH]; intros us c Hc Hd.
  - exists c, [], us. split; [done|]. split; [done|]. by apply quiet_order.
  - destruct Hd as [Ha Hd]. destruct (signal_step lpid r us c Hc v Ha) as (c1 & k1 & us1 & E1 & Hc1 & Ho1).
    destruct (IH us1 c1 Hc1 (Hd c1 k1 E1)) as (c2 & k2 & us2 & E2 & Hc2 & Ho2). exists c2, (k1 ++ k2), us2. cbn [run_steps]. rewrite E1, E2.
    split; [done|]. split; [done|]. by apply (order_trans lpid r us c k1 us1 c1).
Qed.

Lemma sys_init_inv r s : holds_registry r s -> sys_inv r [] (sys_init s).
Proof.
  intros Hr. split; try done.
  - exists ∅. apply filters_init_ok.
  - by exists [].
  - split; [|done]. split; [done|]. cbn [y_cache sys_init entries EsifEventCache_Start fst snd g_EventCacheMgr]. apply Forall_fmap, Forall_true. intros []. done.
  - split; try apply NoDup_nil_2; try (intros p x Hx; cbn in Hx; rewrite lookup_empty in Hx; done).
    + intros p Hp. by apply elem_of_nil in Hp.
    + intros p. cbn. rewrite lookup_empty, !elem_of_nil. split; [by intros []|tauto].
Qed.

(** C25: Events are handled once each, in the order in which they were signalled,
    with the data they had then.  However the signalling threads, the waits of
    the synchronous ones, the changes of the filter and the event thread
    interleave: the events accepted are those handled, in order, followed by
    those that are still pending; and the observers' callbacks are called as if
    the events were handled one after the other: for each event the observers
    registered for it, in the order of registration, with the participant the
    event is for and the payload it was signalled with (or, where the signaller
    asks for it and the cache has it, what the cache holds of the events handled
    before). *)
Theorem signals_handled_in_order (lpid : Z -> option Z) (r : registry) (s : rst) (Hr : holds_registry r s) (vs : list sevt)
    (Hd : signals_follow lpid vs (sys_init s)) :
  exists c k, run_signals lpid vs (sys_init s) = Some (c, k) /\
    accepted k = (handled k).*1 ++ pending_events c /\
    (handled k).*2 = a_handle_all lpid r [] (handled k).*1.
Proof.
  destruct (signal_run lpid r vs [] (sys_init s) (sys_init_inv r s Hr) Hd) as (c & k & us & E & _ & [H1 H2 _]). exists c, k. by split_and!.
Qed.

(* ------------------------------------------------------------------ *)
(** ** The event thread gets through its queue *)

(** The event thread's steps from a state to the end of the current item. *)
Definition finish (t : tstate) : list sevt :=
  match t with TIdle => [] | TGot _ => [THandle; TComplete; TLeave] | TDone _ => [TComplete; TLeave] | TSet _ => [TLeave] end.
(** And until [n] more have been handled. *)
Fixpoint drain (n : nat) : list sevt := match n with O => [] | S n => TPull :: finish (TGot (mk_qitem 0 0 0 zero_data false false None)) ++ drain n end.

Lemma sync_complete_queue p s s' x : sync_complete p s = Some (x, s') -> eventQueuePtr s' = eventQueuePtr s.
Proof. unfold sync_complete, sync_get, sync_put, sbind, smodify. destruct (syncs s !! p); [|done]. by intros [= <- <-]. Qed.
Lemma leave_queue p c c' : leave p c = Some c' -> eventQueuePtr (shared c') = eventQueuePtr (shared c).
Proof.
  unfold leave, sync_leave, sync_get, sync_put, sbind, smodify. destruct (syncs (shared c) !! p) as [x|]; [|done]. destruct (useComplete x); by intros [= <-].
Qed.

(** From [c] the steps can be taken, and lead to a state with [P]. *)
Definition leads (lpid : Z -> option Z) (vs : list sevt) (c : sys) (P : sys -> Prop) : Prop :=
  signals_follow lpid vs c /\ forall c' k, run_signals lpid vs c = Some (c', k) -> P c'.

Lemma leads_cons lpid r us c v vs P : sys_inv r us c -> signal_allowed v c ->
  (forall c2 k2 us2, exec_signal lpid cacheable_table v c = Some (c2, k2) -> sys_inv r us2 c2 -> leads lpid vs c2 P) -> leads lpid (v :: vs) c P.
Proof.
  intros Hc Ha Hv. destruct (signal_step lpid r us c Hc v Ha) as (c2 & k2 & us2 & E2 & H2 & _). destruct (Hv c2 k2 us2 E2 H2) as [L1 L2]. split.
  - split; [exact Ha|]. intros c3 k3 E3. assert (c3 = c2) as -> by congruence. exact L1.
  - intros c' k. cbn [run_steps]. rewrite E2. destruct (run_signals lpid vs c2) as [[c3 k3]|]; [|done]. intros [= <- _]. by apply (L2 c3 k3).
Qed.

Lemma leads_app lpid r us c vs ws P Q : sys_inv r us c -> leads lpid vs c P ->
  (forall c2 us2, sys_inv r us2 c2 -> P c2 -> leads lpid ws c2 Q) -> leads lpid (vs ++ ws) c Q.
Proof.
  revert us c. induction vs as [|v vs IH]; intros us c Hc [L1 L2] Hw; cbn [app].
  - apply (Hw c us Hc). by apply (L2 c []).
  - destruct L1 as [Ha L1]. apply (leads_cons lpid r us c v (vs ++ ws) Q Hc Ha). intros c2 k2 us2 E2 H2. apply (IH us2 c2 H2); [|done]. split; [by apply (L1 c2 k2)|].
    intros c3 k3 E3. apply (L2 c3 (k2 ++ k3)). cbn [run_steps]. by rewrite E2, E3.
Qed.

Definition idle_with (its : list EsifEventQueueItem) (c : sys) : Prop := y_thread c = TIdle /\ queue_items (shared c) = its.

Lemma finish_set lpid r us c it : sys_inv r us c -> y_thread c = TSet it -> leads lpid [TLeave] c (idle_with (queue_items (shared c))).
Proof.
  intros Hc Et. apply (leads_cons lpid r us); [done|by cbn; rewrite Et|]. intros c2 k2 us2 E2 _. cbn [exec_signal] in E2. rewrite Et in E2.
  split; [done|]. intros c' k [= <- _]. destruct (q_syncContextPtr it) as [p|]; [destruct (leave p c) as [c3|] eqn:El; [|done]|]; injection E2 as <- _; (split; [done|]); [|done].
  unfold queue_items. cbn. by rewrite (leave_queue _ _ _ El).
Qed.

Lemma finish_done lpid r us c it : sys_inv r us c -> y_thread c = TDone it -> leads lpid [TComplete; TLeave] c (idle_with (queue_items (shared c))).
Proof.
  intros Hc Et. apply (leads_cons lpid r us); [done|by cbn; rewrite Et|]. intros c2 k2 us2 E2 H2. cbn [exec_signal] in E2. rewrite Et in E2.
  assert (Hc2 : y_thread c2 = TSet it /\ queue_items (shared c2) = queue_items (shared c)).
  { destruct (q_syncContextPtr it) as [p|].
    - destruct (sync_complete p (shared c)) as [[x s']|] eqn:Es; [|done]. injection E2 as <- _. split; [done|]. unfold queue_items. cbn. by rewrite (sync_complete_queue _ _ _ _ Es).
    - cbn in E2. by injection E2 as <- _. }
  destruct Hc2 as [Et2 <-]. by apply (finish_set lpid r us2 c2 it).
Qed.

Lemma finish_spec lpid r us c : sys_inv r us c -> leads lpid (finish (y_thread c)) c (idle_with (queue_items (shared c))).
Proof.
  intros Hc. destruct (y_thread c) as [|it|it|it] eqn:Et; cbn [finish].
  - split; [done|]. intros c' k [= <- _]. done.
  - apply (leads_cons lpid r us); [done|by cbn; rewrite Et|]. intros c2 k2 us2 E2 H2. cbn [exec_signal] in E2. rewrite Et in E2.
    destruct (handle_item _ _ _ _ _ _) as [[[l g] s']|]; [|done]. injection E2 as <- _. exact (finish_done lpid r us2 (set_thread (TDone it) (set_handled g s' c)) it H2 eq_refl).
  - by apply (finish_done lpid r us c it).
  - by apply (finish_set lpid r us c it).
Qed.

Lemma drain_spec lpid r its : forall us c, sys_inv r us c -> idle_with its c -> leads lpid (drain (length its)) c (idle_with []).
Proof.
  induction its as [|it its IH]; intros us c Hc [Et Eq]; cbn [length drain]; [split; [done|]; intros c' k [= <- _]; done|].
  destruct (yi_queue _ _ _ Hc) as (its' & Hq & _). rewrite (queue_its _ _ Hq) in Eq. subst its'.
  apply (leads_cons lpid r us); [done|split; [done|by rewrite Hq]|]. intros c2 k2 us2 E2 H2. cbn [exec_signal] in E2. rewrite Hq in E2. injection E2 as <- _.
  match type of H2 with sys_inv _ _ ?x => set (c3 := x) in * end.
  assert (Eq3 : queue_items (shared c3) = its) by (apply queue_its; reflexivity).
  apply (leads_app lpid r us2 c3 _ _ (idle_with (queue_items (shared c3))) _ H2).
  - exact (finish_spec lpid r us2 c3 H2).
  - intros c4 us4 H4 H4i. rewrite Eq3 in H4i. by apply (IH us4).
Qed.

(** C26: The context of a synchronous event outlives its users and no longer.
    In every interleaving no freed context is used; the contexts that exist are
    exactly those with a caller that has not left, an event that the event
    thread has not left, or a thread that is about to free them, each freed once;
    and the event thread, left alone, gets through its queue in three or four
    steps for each event, after which every caller that still waits has been
    released. *)
Theorem sync_events_released (lpid : Z -> option Z) (r : registry) (s : rst) (Hr : holds_registry r s) (vs : list sevt)
    (Hd : signals_follow lpid vs (sys_init s)) :
  exists c k, run_signals lpid vs (sys_init s) = Some (c, k) /\
    (forall p, is_Some (syncs (shared c) !! p) <-> p ∈ waiting c \/ p ∈ pending_syncs c \/ p ∈ freeing c) /\
    NoDup (waiting c) /\ NoDup (pending_syncs c) /\ NoDup (freeing c) /\ (forall p, p ∈ freeing c -> p ∉ waiting c /\ p ∉ pending_syncs c) /\
    (let ws := finish (y_thread c) ++ drain (length (queue_items (shared c))) in
     signals_follow lpid ws c /\ exists c' k', run_signals lpid ws c = Some (c', k') /\ pending_events c' = [] /\
       forall p x, p ∈ waiting c' -> syncs (shared c') !! p = Some x -> completed x = true).
Proof.
  destruct (signal_run lpid r vs [] (sys_init s) (sys_init_inv r s Hr) Hd) as (c & k & us & E & Hc & _). exists c, k. split; [done|].
  destruct (yi_sync _ _ _ Hc) as [A B C D F _ _ _]. split_and!; try done.
  assert (L : leads lpid (finish (y_thread c) ++ drain (length (queue_items (shared c)))) c (idle_with [])).
  { apply (leads_app lpid r us c _ _ (idle_with (queue_items (shared c))) _ Hc (finish_spec lpid r us c Hc)).
    intros c2 us2 H2 Hi. by apply (drain_spec lpid r (queue_items (shared c)) us2). }
  split; [apply L|]. destruct (signal_run lpid r _ us c Hc (proj1 L)) as (c' & k' & us2 & E2 & H2 & _). exists c', k'. split; [done|].
  destruct (proj2 L c' k' E2) as [Et Eq]. split; [unfold pending_events; by rewrite Et, Eq|].
  intros p x Hp Ex. apply (si_only_w _ _ _ _ (yi_sync _ _ _ H2) p x Ex Hp). unfold pending_syncs. rewrite Et, Eq. cbn. by intros ?%elem_of_nil.
Qed.

(* ------------------------------------------------------------------ *)
(** ** A run *)

#[export] Instance signal_allowed_dec v c : Decision (signal_allowed v c).
Proof.
  destruct v as [m pid dom ty d ? ? ?|m p pid dom ty d| | | | | | |]; cbn [signal_allowed].
  - unfold signal_ok. destruct d as [d|]; [destruct (buf_ptr d)|]; apply _.
  - unfold signal_ok. destruct d as [d|]; [destruct (buf_ptr d)|]; apply _.
  - apply _.
  - apply _.
  - apply _.
  - destruct (y_thread c); [|right; by intros [? _]..]. destruct (eventQueuePtr (shared c)) as [[|x q]|]; [right; by intros [_ ?]|left; done|left; done].
  - destruct (y_thread c); apply _.
  - destruct (y_thread c); apply _.
  - destruct (y_thread c); apply _.
Defined.

Module SignalDemo.
Definition mem : signal_mem := mk_smem true true true.
Definition data (l : list Z) : option EsifData := Some (mk_EsifData 3 (Some l) (Z.of_nat (length l)) (Z.of_nat (length l))).
Definition no_lp (i : Z) : option Z := None.
(** Two observers of the lid, registered with the event manager's own operations. *)
Definition fpc : EsifFpcEvent := mk_fpc ESIF_EVENT_OS_LID_STATE_CHANGED ESIF_EVENT_GROUP_CODE [].
Definition regs : list rop :=
  [OpRegister (fun _ => ESIF_OK) fpc 1 EVENT_MGR_DOMAIN_D0 100 7; OpRegister (fun _ => ESIF_OK) fpc 1 EVENT_MGR_MATCH_ANY_DOMAIN 100 8].
Definition reg : registry := (a_exec_ops regs []).2.
Definition st : rst := match exec_ops regs registry_init with Some (_, s) => s | None => registry_init end.

Lemma st_holds : holds_registry reg st.
Proof.
  destruct (exec_ops_refines regs [] registry_init) as (outs & s' & E & _ & H); [apply holds_init|].
  unfold st. rewrite E. exact H.
Qed.

(** A synchronous event, one of a filtered type, one that asks for the cached
    data; the synchronous caller gives up waiting while its event is handled. *)
Definition evs : list sevt :=
  [SSync mem 1 1 EVENT_MGR_DOMAIN_D0 ESIF_EVENT_OS_LID_STATE_CHANGED (data [1; 0; 0; 0]);
   SFilter (OpFilter 50);
   SSignal mem 1 EVENT_MGR_DOMAIN_D0 50 (data [9]) false true false;
   TPull; THandle;
   SSignal mem 1 EVENT_MGR_DOMAIN_D0 ESIF_EVENT_OS_LID_STATE_CHANGED None false true true;
   SLeave 1; TComplete; TLeave; SFree 1; TPull; THandle].
Definition result : option (sys * list obs) := run_signals no_lp evs (sys_init st).
Definition receipts : list (list receipt) := match result with Some (_, k) => (handled k).*2 | None => [] end.
End SignalDemo.
Import SignalDemo.

Lemma signals_handled_in_order_witness : holds_registry reg st /\ signals_follow no_lp evs (sys_init st) /\
  receipts =
    [[mk_receipt (100, 7) 1 EVENT_MGR_DOMAIN_D0 [1; 0; 0; 0]; mk_receipt (100, 8) 1 EVENT_MGR_DOMAIN_D0 [1; 0; 0; 0]];
     [mk_receipt (100, 7) 1 EVENT_MGR_DOMAIN_D0 [1; 0; 0; 0]; mk_receipt (100, 8) 1 EVENT_MGR_DOMAIN_D0 [1; 0; 0; 0]]] /\
  exists c k, run_signals no_lp evs (sys_init st) = Some (c, k) /\
    accepted k = (handled k).*1 ++ pending_events c /\ (handled k).*2 = a_handle_all no_lp reg [] (handled k).*1.
Proof.
  assert (Hd : signals_follow no_lp evs (sys_init st)) by (apply (check_sound (exec_signal no_lp cacheable_table) signal_allowed); vm_compute; reflexivity).
  split; [exact st_holds|]. split; [exact Hd|]. split; [vm_compute; reflexivity|]. exact (signals_handled_in_order no_lp reg st st_holds evs Hd).
Defined.

Lemma sync_events_released_witness : holds_registry reg st /\ signals_follow no_lp evs (sys_init st) /\
  exists c k, run_signals no_lp evs (sys_init st) = Some (c, k) /\
    (forall p, is_Some (syncs (shared c) !! p) <-> p ∈ waiting c \/ p ∈ pending_syncs c \/ p ∈ freeing c) /\
    NoDup (waiting c) /\ NoDup (pending_syncs c) /\ NoDup (freeing c) /\ (forall p, p ∈ freeing c -> p ∉ waiting c /\ p ∉ pending_syncs c) /\
    (let ws := finish (y_thread c) ++ drain (length (queue_items (shared c))) in
     signals_follow no_lp ws c /\ exists c' k', run_signals no_lp ws c = Some (c', k') /\ pending_events c' = [] /\
       forall p x, p ∈ waiting c' -> syncs (shared c') !! p = Some x -> completed x = true).
Proof.
  assert (Hd : signals_follow no_lp evs (sys_init st)) by (apply (check_sound (exec_signal no_lp cacheable_table) signal_allowed); vm_compute; reflexivity).
  split; [exact st_holds|]. split; [exact Hd|]. exact (sync_events_released no_lp reg st st_holds evs Hd).
Defined.
