(* ===== verification/EventAdmin.v ===== *)
(** * The event manager's other services: esif_uf_eventmgr.c

    The iterator over the registered observers; the unregistration of
    applications that is put off while the system is in a low power state; and
    events that arrive as a packet. *)

From S2P Require Import Prelude EsifData EventCache EventReg Machine EventSignal.
From stdpp Require Import list gmap.
Local Open Scope Z_scope.
Local Open Scope dptf_scope.

(* ------------------------------------------------------------------ *)
(** ** The iterator *)

(** The marker is the character constant 'UFEM'. *)
Definition EVENT_MGR_ITERATOR_MARKER : Z := 1430668621.

Record UfEventIterator : Type := mk_iter { i_marker : Z; i_eventType : Z; i_index : nat }.
Record EventMgr_IteratorData : Type := mk_idata { d_eventType : Z; d_participantId : Z; d_domainId : Z; d_callback : Z; d_context : Z }.

Definition EsifEventMgr_InitIterator (iterPtr : option UfEventIterator) : Z * option UfEventIterator :=
  match iterPtr with
  | Some _ => (ESIF_OK, Some (mk_iter EVENT_MGR_ITERATOR_MARKER 0 0))
  | None => (ESIF_E_PARAMETER_IS_NULL, None)
  end.

(** From the node with number [i] on, the first of the event type, and the number
    after it. *)
Fixpoint next_of_type (ty : Z) (i : nat) (l : list positive) : RM (option (EventMgrEntry * nat)) :=
  match l with
  | [] => sret None
  | p :: l =>
      let! e := deref p in
      if ty =? esif_event (fpcEvent e) then sret (Some (e, S i)) else next_of_type ty (S i) l
  end.

Definition entry_data (ty : Z) (e : EventMgrEntry) : EventMgr_IteratorData :=
  mk_idata ty (participantId e) (domainId e) (callback e) (context e).

(** The loop over the event types, [n] of them from [ty]; the result has the data
    and the iterator afterwards.  The iterator's type changes only when an entry
    is returned. *)
Fixpoint next_event_loop (n : nat) (ty : Z) (it : UfEventIterator) : RM (Z * option EventMgr_IteratorData * UfEventIterator) :=
  match n with
  | O => sret (ESIF_E_ITERATION_DONE, None, it)
  | S n =>
      let! l := get_list (list_index ty) in
      match l with
      | None => sret (ESIF_E_UNSPECIFIED, None, it)
      | Some l =>
          let! r := next_of_type ty (i_index it) (drop (i_index it) l) in
          match r with
          | Some (e, i) => sret (ESIF_OK, Some (entry_data ty e), mk_iter (i_marker it) ty i)
          | None => next_event_loop n (ty + 1) (mk_iter (i_marker it) (i_eventType it) 0)
          end
      end
  end.

Definition EsifEventMgr_GetNextEvent (iterPtr : option UfEventIterator) (has_data : bool) :
    RM (Z * option EventMgr_IteratorData * option UfEventIterator) :=
  match iterPtr with
  | Some it =>
      if has_data then
        if negb (i_marker it =? EVENT_MGR_ITERATOR_MARKER) then sret (ESIF_E_NOT_INITIALIZED, None, iterPtr)
        else
          let! r := next_event_loop (Z.to_nat (MAX_ESIF_EVENT_ENUM_VALUE + 1 - i_eventType it)) (i_eventType it) it in
          sret (r.1.1, r.1.2, Some r.2)
      else sret (ESIF_E_PARAMETER_IS_NULL, None, iterPtr)
  | None => sret (ESIF_E_PARAMETER_IS_NULL, None, None)
  end.

(** A client's loop: the data of [n] calls at most, up to the first that fails,
    and its result code. *)
Fixpoint iterate (n : nat) (it : option UfEventIterator) : RM (list EventMgr_IteratorData * Z) :=
  match n with
  | O => sret ([], ESIF_OK)
  | S n =>
      let! r := EsifEventMgr_GetNextEvent it true in
      match r.1 with
      | (rc, Some d) => if rc =? ESIF_OK then let! k := iterate n r.2 in sret (d :: k.1, k.2) else sret ([], rc)
      | (rc, None) => sret ([], rc)
      end
  end.

(** The entries of a type in its list. *)
Definition of_type (s : rst) (ty : Z) (l : list positive) : list EventMgr_IteratorData :=
  entry_data ty <$> filter (fun e => esif_event (fpcEvent e) = ty) (entries_of s l).
(** What is left to visit, from a node of a type's list, with [n] types. *)
Fixpoint to_visit (s : rst) (n : nat) (ty : Z) (i : nat) : list EventMgr_IteratorData :=
  match n with
  | O => []
  | S n => of_type s ty (drop i (list_at s (list_index ty))) ++ to_visit s n (ty + 1) 0
  end.

Section Iterator.
Context (cur : ptr) (priv : list positive) (own : gmap positive Z) (s : rst) (Hi : reg_inv cur priv own s).

Lemma next_of_type_spec ty l : forall i, (forall p, p ∈ l -> is_Some (heap s !! p)) ->
  match of_type s ty l with
  | [] => next_of_type ty i l s = Some (None, s)
  | d :: rest => exists e j, next_of_type ty i l s = Some (Some (e, i + S j)%nat, s) /\ entry_data ty e = d /\ rest = of_type s ty (drop (S j) l)
  end.
Proof.
  unfold of_type, entries_of. induction l as [|p l IH]; intros i Hl; [done|]. cbn [omap list_omap next_of_type].
  destruct (Hl p ltac:(left)) as [e Ee]. rewrite Ee. rewrite (sbind_some _ _ _ _ _ (deref_some p s e Ee)).
  destruct (Z.eqb_spec ty (esif_event (fpcEvent e))) as [E|E].
  - rewrite filter_cons_True by done. cbn [fmap list_fmap]. exists e, 0%nat. rewrite Nat.add_1_r. done.
  - rewrite filter_cons_False by congruence. specialize (IH (S i) (fun q Hq => Hl q (list_elem_of_further _ _ _ Hq))).
    destruct (entry_data ty <$> _) as [|d rest]; [exact IH|]. destruct IH as (e' & j & E1 & E2 & E3). exists e', (S j).
    split; [rewrite E1; do 4 f_equal; lia|]. done.
Qed.

Lemma next_event_spec n : forall ty i m t0,
  match to_visit s n ty i with
  | [] => exists it', next_event_loop n ty (mk_iter m t0 i) s = Some ((ESIF_E_ITERATION_DONE, None, it'), s)
  | d :: rest => exists k j, next_event_loop n ty (mk_iter m t0 i) s = Some ((ESIF_OK, Some d, mk_iter m (ty + Z.of_nat k) j), s) /\ (k < n)%nat /\
      rest = to_visit s (n - k) (ty + Z.of_nat k) j
  end.
Proof.
  induction n as [|n IH]; intros ty i m t0; [by exists (mk_iter m t0 i)|]. cbn [to_visit next_event_loop i_index].
  rewrite (sbind_some _ _ _ _ _ (inv_get_list _ _ _ _ _ Hi (list_index_bound ty))).
  set (l := list_at s (list_index ty)). assert (Hl : forall p, p ∈ drop i l -> is_Some (heap s !! p)).
  { intros p Hp. apply (inv_listed _ _ _ _ (list_index ty) p Hi). unfold l in Hp. rewrite <- (take_drop i (list_at s _)). apply elem_of_app. by right. }
  pose proof (next_of_type_spec ty (drop i l) i Hl) as Hn. destruct (of_type s ty (drop i l)) as [|d rest]; cbn [app].
  - rewrite (sbind_some _ _ _ _ _ Hn). cbn [i_marker i_eventType]. specialize (IH (ty + 1) 0%nat m t0). destruct (to_visit s n (ty + 1) 0) as [|d rest]; [exact IH|].
    destruct IH as (k & j & E1 & E2 & E3). exists (S k), j. replace (ty + Z.of_nat (S k)) with (ty + 1 + Z.of_nat k) by lia.
    split; [done|]. split; [lia|]. by replace (S n - S k)%nat with (n - k)%nat by lia.
  - destruct Hn as (e & j & E1 & E2 & E3). rewrite (sbind_some _ _ _ _ _ E1). exists 0%nat, (i + S j)%nat. rewrite Z.add_0_r, E2.
    split; [done|]. split; [lia|]. rewrite Nat.sub_0_r. cbn [to_visit]. fold l. rewrite E3, drop_drop. done.
Qed.

Lemma iterate_spec k : forall n ty i, n = Z.to_nat (MAX_ESIF_EVENT_ENUM_VALUE + 1 - ty) -> (length (to_visit s n ty i) < k)%nat ->
  iterate k (Some (mk_iter EVENT_MGR_ITERATOR_MARKER ty i)) s = Some ((to_visit s n ty i, ESIF_E_ITERATION_DONE), s).
Proof.
  induction k as [|k IH]; intros n ty i Hn Hk; [lia|]. cbn [iterate]. unfold EsifEventMgr_GetNextEvent. rewrite Z.eqb_refl. cbn [negb i_eventType].
  rewrite <- Hn. pose proof (next_event_spec n ty i EVENT_MGR_ITERATOR_MARKER ty) as Hs. destruct (to_visit s n ty i) as [|d rest] eqn:Ev.
  - destruct Hs as [it' E]. rewrite (sbind_some _ _ _ _ _ (eq_trans (sbind_some _ _ _ _ _ E) eq_refl)). done.
  - destruct Hs as (m & j & E & Hm & Hrest). rewrite (sbind_some _ _ _ _ _ (eq_trans (sbind_some _ _ _ _ _ E) eq_refl)). cbn [fst snd]. rewrite Z.eqb_refl.
    assert (Hn' : (n - m)%nat = Z.to_nat (MAX_ESIF_EVENT_ENUM_VALUE + 1 - (ty + Z.of_nat m))) by lia.
    cbn [length] in Hk. rewrite (sbind_some _ _ _ _ _ (IH (n - m)%nat (ty + Z.of_nat m) j Hn' ltac:(rewrite <- Hrest; lia))). cbn [fst snd]. by rewrite <- Hrest.
Qed.
End Iterator.

(** The registered observers of the known types, by type. *)
Definition all_observers (s : rst) : list EventMgr_IteratorData :=
  ty ← seqZ 0 (MAX_ESIF_EVENT_ENUM_VALUE + 1); of_type s ty (list_at s (list_index ty)).

Lemma to_visit_all s n : forall ty, to_visit s n ty 0 = ty ← seqZ ty (Z.of_nat n); of_type s ty (list_at s (list_index ty)).
Proof.
  induction n as [|n IH]; intros ty; [done|]. cbn [to_visit]. rewrite IH, drop_0. rewrite Nat2Z.inj_succ. rewrite (seqZ_cons ty (Z.succ (Z.of_nat n))) by lia. cbn [mbind list_bind].
  f_equal. by rewrite Z.pred_succ, <- Z.add_1_r.
Qed.

(** The iterator visits every observer of a known event type once, by type
    and in the order of registration, and then says that it is done: a client
    that asks until the first failure sees them all, in one call each and one
    more, whatever the state of the lists; the observers are left as they were. *)
Theorem iterator_visits_all (cur : ptr) (priv : list positive) (own : gmap positive Z) (s : rst) (Hi : reg_inv cur priv own s)
    (it : UfEventIterator) (n : nat) (Hn : (length (all_observers s) < n)%nat) :
  iterate n (EsifEventMgr_InitIterator (Some it)).2 s = Some ((all_observers s, ESIF_E_ITERATION_DONE), s).
Proof.
  assert (E : to_visit s (Z.to_nat (MAX_ESIF_EVENT_ENUM_VALUE + 1)) 0 0 = all_observers s).
  { rewrite to_visit_all. unfold all_observers. by rewrite Z2Nat.id by (by vm_compute). }
  rewrite <- E in Hn |- *. by apply (iterate_spec cur priv own s Hi n _ 0 0).
Qed.

Lemma iterator_visits_all_witness : exists own, reg_inv None [] own SignalDemo.st /\ (length (all_observers SignalDemo.st) < 3)%nat /\
  iterate 3 (EsifEventMgr_InitIterator (Some (mk_iter 0 7 9))).2 SignalDemo.st =
    Some (([mk_idata ESIF_EVENT_OS_LID_STATE_CHANGED 1 EVENT_MGR_DOMAIN_D0 100 7; mk_idata ESIF_EVENT_OS_LID_STATE_CHANGED 1 EVENT_MGR_MATCH_ANY_DOMAIN 100 8],
      ESIF_E_ITERATION_DONE), SignalDemo.st).
Proof.
  destruct (hr_inv _ _ SignalDemo.st_holds) as [own Hi]. exists own. split; [exact Hi|].
  assert (E : all_observers SignalDemo.st = [mk_idata ESIF_EVENT_OS_LID_STATE_CHANGED 1 EVENT_MGR_DOMAIN_D0 100 7; mk_idata ESIF_EVENT_OS_LID_STATE_CHANGED 1 EVENT_MGR_MATCH_ANY_DOMAIN 100 8]) by (vm_compute; reflexivity).
  split; [rewrite E; cbn; lia|]. rewrite <- E. apply (iterator_visits_all None [] own SignalDemo.st Hi). rewrite E. cbn. lia.
Defined.

(* ------------------------------------------------------------------ *)
(** ** Applications that leave while the system sleeps

    While the display is off or the system is in a low power state, the
    observers of an application that leaves stay registered, so that the sensors
    stay on; they are unregistered when the system comes back. *)

Definition ESIF_EVENT_DISPLAY_OFF : Z := 161.
Definition ESIF_EVENT_DISPLAY_ON : Z := 162.
Definition ESIF_EVENT_WINDOWS_LOW_POWER_MODE_ENTRY : Z := 170.
Definition ESIF_EVENT_WINDOWS_LOW_POWER_MODE_EXIT : Z := 171.

(** The observers, and the applications (callback and context) that have left. *)
Record dst : Type := mk_dst {
  d_reg : rst;
  appUnregisterList : option (list (Z * Z));
  delayedAppUnregistrationEnabled : bool;
  delayAppUnregistration : bool
}.
Abbreviation DM := (SM dst).
Definition with_reg (s : rst) (d : dst) : dst := mk_dst s (appUnregisterList d) (delayedAppUnregistrationEnabled d) (delayAppUnregistration d).
Definition with_removed (l : option (list (Z * Z))) (d : dst) : dst := mk_dst (d_reg d) l (delayedAppUnregistrationEnabled d) (delayAppUnregistration d).
Definition with_delay (b : bool) (d : dst) : dst := mk_dst (d_reg d) (appUnregisterList d) (delayedAppUnregistrationEnabled d) b.

(** A call on the observers. *)
Definition on_reg {T} (m : RM T) : DM T :=
  fun d => match m (d_reg d) with Some (x, s) => Some (x, with_reg s d) | None => None end.

Definition EsifEventMgr_DelayAppUnregistration (mem mem_node : bool) (cb ctx : Z) : DM Z :=
  if (cb =? 0) || (ctx =? ESIF_HANDLE_DEFAULT) then sret ESIF_E_PARAMETER_IS_NULL
  else
    let! d := sget in
    match appUnregisterList d with
    | None => sret ESIF_E_NOT_INITIALIZED
    | Some l =>
        if mem then (if mem_node then smodify (with_removed (Some (l ++ [(cb, ctx)]))) else sret tt) ;! sret ESIF_OK
        else sret ESIF_E_PARAMETER_IS_NULL
    end.

(** The second result are the entries whose events were disabled. *)
Definition EsifEventMgr_UnregisterAllForApp (mem mem_node : bool) (cb ctx : Z) : DM (Z * list EventMgrEntry) :=
  if (cb =? 0) || (ctx =? ESIF_HANDLE_DEFAULT) then sret (ESIF_E_PARAMETER_IS_NULL, [])
  else
    let! d := sget in
    if delayedAppUnregistrationEnabled d && delayAppUnregistration d then
      EsifEventMgr_DelayAppUnregistration mem mem_node cb ctx ;! sret (ESIF_OK, [])
    else
      let! r := on_reg (EsifEventMgr_UnregisterApp (fun _ => true) cb ctx) in
      sret (ESIF_OK, r.2).

(** The loop, until the list is empty, in [n] rounds at most. *)
Fixpoint removed_loop (n : nat) : DM (list EventMgrEntry) :=
  let! d := sget in
  match appUnregisterList d with
  | Some ((cb, ctx) :: l) =>
      match n with
      | O => ub
      | S n =>
          smodify (with_removed (Some l)) ;!
          let! r := on_reg (EsifEventMgr_UnregisterApp (fun _ => true) cb ctx) in
          let! k := removed_loop n in
          sret (r.2 ++ k)
      end
  | _ => sret []
  end.

Definition EsifEventMgr_UnregisterRemovedApps : DM (Z * list EventMgrEntry) :=
  let! d := sget in
  match appUnregisterList d with
  | None => sret (ESIF_E_NOT_INITIALIZED, [])
  | Some l => let! r := removed_loop (length l) in sret (ESIF_OK, r)
  end.

Definition EsifEventMgr_EventCallback (pid : Z) (fpc : option EsifFpcEvent) : DM (Z * list EventMgrEntry) :=
  match fpc with
  | None => sret (ESIF_E_PARAMETER_IS_NULL, [])
  | Some f =>
      if negb (EsifUpPm_IsPrimaryParticipantId pid) then sret (ESIF_OK, [])
      else
        let ev := esif_event f in
        if (ev =? ESIF_EVENT_DISPLAY_ON) || (ev =? ESIF_EVENT_WINDOWS_LOW_POWER_MODE_EXIT) then
          smodify (with_delay false) ;!
          let! r := EsifEventMgr_UnregisterRemovedApps in
          sret (ESIF_OK, r.2)
        else if (ev =? ESIF_EVENT_DISPLAY_OFF) || (ev =? ESIF_EVENT_WINDOWS_LOW_POWER_MODE_ENTRY) then
          smodify (with_delay true) ;! sret (ESIF_OK, [])
        else sret (ESIF_E_NOT_SUPPORTED, [])
  end.

(** *** The calls, with memory, and what they mean for the registry *)

Inductive dop : Type :=
  | DReg (op : rop)
  | DLeave (cb ctx : Z)
  | DSystem (pid : Z) (fpc : option EsifFpcEvent).

Definition exec_dop (op : dop) : DM (Z * list EventMgrEntry) :=
  match op with
  | DReg op => on_reg (exec_op op)
  | DLeave cb ctx => EsifEventMgr_UnregisterAllForApp true true cb ctx
  | DSystem pid fpc => EsifEventMgr_EventCallback pid fpc
  end.

(** The registry, the applications that have left, and whether the system sleeps. *)
Record asleep : Type := mk_asleep { a_reg : registry; a_left : list (Z * Z); a_sleeps : bool }.

Fixpoint a_unregister_apps (l : list (Z * Z)) (r : registry) : list observer * registry :=
  match l with
  | [] => ([], r)
  | (cb, ctx) :: l => let x := a_unregister_app cb ctx r in let y := a_unregister_apps l x.2 in (x.1 ++ y.1, y.2)
  end.

Definition wakes (ev : Z) : bool := (ev =? ESIF_EVENT_DISPLAY_ON) || (ev =? ESIF_EVENT_WINDOWS_LOW_POWER_MODE_EXIT).
Definition falls_asleep (ev : Z) : bool := (ev =? ESIF_EVENT_DISPLAY_OFF) || (ev =? ESIF_EVENT_WINDOWS_LOW_POWER_MODE_ENTRY).

Definition a_exec_dop (op : dop) (a : asleep) : (Z * list observer) * asleep :=
  match op with
  | DReg op => let x := a_exec op (a_reg a) in (x.1, mk_asleep x.2 (a_left a) (a_sleeps a))
  | DLeave cb ctx =>
      if (cb =? 0) || (ctx =? ESIF_HANDLE_DEFAULT) then ((ESIF_E_PARAMETER_IS_NULL, []), a)
      else if a_sleeps a then ((ESIF_OK, []), mk_asleep (a_reg a) (a_left a ++ [(cb, ctx)]) true)
      else let x := a_unregister_app cb ctx (a_reg a) in ((ESIF_OK, x.1), mk_asleep x.2 (a_left a) false)
  | DSystem pid None => ((ESIF_E_PARAMETER_IS_NULL, []), a)
  | DSystem pid (Some f) =>
      if negb (EsifUpPm_IsPrimaryParticipantId pid) then ((ESIF_OK, []), a)
      else if wakes (esif_event f) then
        let x := a_unregister_apps (a_left a) (a_reg a) in ((ESIF_OK, x.1), mk_asleep x.2 [] false)
      else if falls_asleep (esif_event f) then ((ESIF_OK, []), mk_asleep (a_reg a) (a_left a) true)
      else ((ESIF_E_NOT_SUPPORTED, []), a)
  end.

Fixpoint exec_dops (ops : list dop) : DM (list (Z * list EventMgrEntry)) :=
  match ops with [] => sret [] | op :: ops => let! x := exec_dop op in let! k := exec_dops ops in sret (x :: k) end.
Fixpoint a_exec_dops (ops : list dop) (a : asleep) : list (Z * list observer) * asleep :=
  match ops with [] => ([], a) | op :: ops => let x := a_exec_dop op a in let y := a_exec_dops ops x.2 in (x.1 :: y.1, y.2) end.

Record holds_asleep (a : asleep) (d : dst) : Prop := {
  ha_reg : holds_registry (a_reg a) (d_reg d);
  ha_left : appUnregisterList d = Some (a_left a);
  ha_enabled : delayedAppUnregistrationEnabled d = true;
  ha_sleeps : delayAppUnregistration d = a_sleeps a;
  ha_named : Forall (fun x => (x.1 =? 0) || (x.2 =? ESIF_HANDLE_DEFAULT) = false) (a_left a)
}.

Abbreviation unnamed x := ((x.1 =? 0) || (x.2 =? ESIF_HANDLE_DEFAULT)).

Lemma app_refines r s cb ctx : unnamed (cb, ctx) = false -> holds_registry r s ->
  exists out s', EsifEventMgr_UnregisterApp (fun _ => true) cb ctx s = Some ((ESIF_OK, out), s') /\
    key_of <$> out ≡ₚ (a_unregister_app cb ctx r).1 /\ holds_registry (a_unregister_app cb ctx r).2 s'.
Proof.
  cbn [fst snd]. intros Hn H. destruct (exec_refines (OpUnregisterApp cb ctx) r s H) as ([rc out] & s' & E & [Hrc Hout] & H').
  cbn [exec_op a_exec] in E, Hrc, Hout, H'. rewrite Hn in Hrc, Hout, H'. cbn [fst snd] in *. subst rc. eauto.
Qed.

Lemma removed_loop_spec l en dl : forall r s, Forall (fun x => unnamed x = false) l -> holds_registry r s ->
  exists out s', removed_loop (length l) (mk_dst s (Some l) en dl) = Some (out, mk_dst s' (Some []) en dl) /\
    key_of <$> out ≡ₚ (a_unregister_apps l r).1 /\ holds_registry (a_unregister_apps l r).2 s'.
Proof.
  induction l as [|[cb ctx] l IH]; intros r s Hl H; [by exists [], s|]. apply Forall_cons in Hl as [Hn Hl].
  destruct (app_refines r s cb ctx Hn H) as (out1 & s1 & E1 & P1 & H1). destruct (IH _ s1 Hl H1) as (out2 & s2 & E2 & P2 & H2).
  exists (out1 ++ out2), s2. cbn [length removed_loop a_unregister_apps]. split.
  - unfold sbind at 1, sget. cbn [appUnregisterList]. unfold sbind at 1, smodify, with_removed. cbn [d_reg delayedAppUnregistrationEnabled delayAppUnregistration].
    unfold sbind at 1, on_reg. cbn [d_reg]. rewrite E1. unfold with_reg. cbn [appUnregisterList delayedAppUnregistrationEnabled delayAppUnregistration snd].
    unfold sbind. rewrite E2. done.
  - cbn [fst snd]. rewrite fmap_app. by rewrite P1, P2.
Qed.

Lemma dop_refines op a d : holds_asleep a d ->
  exists out d', exec_dop op d = Some (out, d') /\ same_outcome out (a_exec_dop op a).1 /\ holds_asleep (a_exec_dop op a).2 d'.
Proof.
  intros [Hr Hl He Hs Hn]. destruct d as [s ol en dl], a as [r l sl]. cbn in Hr, Hl, He, Hs, Hn. subst ol en dl.
  destruct op as [op|cb ctx|pid [f|]]; cbn [exec_dop a_exec_dop].
  - destruct (exec_refines op r s Hr) as (out & s' & E & Ho & H'). unfold on_reg. cbn [d_reg]. rewrite E. eexists _, _. split; [done|]. by split.
  - unfold EsifEventMgr_UnregisterAllForApp. destruct ((cb =? 0) || (ctx =? ESIF_HANDLE_DEFAULT)) eqn:Ez; [by eexists _, _|].
    unfold sbind at 1, sget. cbn [delayedAppUnregistrationEnabled delayAppUnregistration andb]. destruct sl.
    + unfold EsifEventMgr_DelayAppUnregistration. rewrite Ez. eexists _, _. split; [reflexivity|]. split; [done|]. split; cbn; try done.
      apply Forall_app. split; [done|]. by apply Forall_singleton.
    + destruct (app_refines r s cb ctx Ez Hr) as (out & s' & E & Ho & H'). unfold sbind, on_reg. cbn [d_reg a_reg]. rewrite E. eexists _, _. split; [done|]. by split.
  - unfold EsifEventMgr_EventCallback. destruct (EsifUpPm_IsPrimaryParticipantId pid); cbn [negb]; [|by eexists _, _].
    fold (wakes (esif_event f)) (falls_asleep (esif_event f)). destruct (wakes (esif_event f)); [|destruct (falls_asleep (esif_event f)); by eexists _, _].
    destruct (removed_loop_spec l true false r s Hn Hr) as (out & s' & E & Ho & H'). exists (ESIF_OK, out), (mk_dst s' (Some []) true false).
    split; [|by split; [split|split]]. unfold sbind at 1, smodify, with_delay. cbn [d_reg appUnregisterList delayedAppUnregistrationEnabled]. unfold EsifEventMgr_UnregisterRemovedApps.
    unfold sbind, sget. cbn [appUnregisterList]. rewrite E. done.
  - by eexists _, _.
Qed.

Lemma dops_refine ops : forall a d, holds_asleep a d ->
  exists outs d', exec_dops ops d = Some (outs, d') /\ Forall2 same_outcome outs (a_exec_dops ops a).1 /\ holds_asleep (a_exec_dops ops a).2 d'.
Proof.
  induction ops as [|op ops IH]; intros a d H; [by exists [], d; split; [|split; [constructor|]]|].
  destruct (dop_refines op a d H) as (out & d1 & E1 & P1 & H1). destruct (IH _ d1 H1) as (outs & d2 & E2 & P2 & H2).
  exists (out :: outs), d2. cbn [exec_dops a_exec_dops]. unfold sbind. rewrite E1, E2. split; [done|]. split; [by constructor|done].
Qed.

(** *** An application that has left *)

Definition has_app (cb ctx : Z) (r : registry) : Prop := exists x, x ∈ r /\ o_cb x.1 = cb /\ o_ctx x.1 = ctx.
(** Its observers are gone, or it is on the list of those to unregister. *)
Definition leaving (cb ctx : Z) (a : asleep) : Prop := ~ has_app cb ctx (a_reg a) \/ (cb, ctx) ∈ a_left a.
(** It does not come back. *)
Definition not_back (cb ctx : Z) (op : dop) : Prop :=
  match op with DReg (OpRegister _ _ _ _ cb' ctx') => ~ (cb' = cb /\ ctx' = ctx) | _ => True end.

Lemma without_app (P : observer * Z -> Prop) `{!forall x, Decision (P x)} cb ctx (r : registry) : ~ has_app cb ctx r -> ~ has_app cb ctx (filter P r).
Proof. intros Hno (x & [_ Hx]%list_elem_of_filter & Hk). apply Hno. by exists x. Qed.

Lemma bump_app k d cb ctx (r : registry) : has_app cb ctx (bump k d <$> r) -> has_app cb ctx r.
Proof.
  intros (x & (y & -> & Hy)%list_elem_of_fmap & Hk). exists y. split; [done|]. unfold bump in Hk. by destruct (decide (y.1 = k)) as [->|].
Qed.

Lemma a_exec_app op cb ctx r : not_back cb ctx (DReg op) -> ~ has_app cb ctx r -> ~ has_app cb ctx (a_exec op r).2.
Proof.
  intros Hb H. destruct op as [os fpc pid dm cb' ctx'|fpc pid dm cb' ctx'|cb' ctx']; cbn [a_exec snd not_back] in *.
  - unfold a_register. destruct (head _); cbn [snd]; [intros Hk; apply H; by eapply bump_app|].
    destruct (_ =? _); cbn [snd]; [|done]. intros (x & [Hx|Hx]%elem_of_app & Hk); [apply H; by exists x|].
    apply list_elem_of_singleton in Hx as ->. apply Hb. exact Hk.
  - unfold a_unregister. destruct (list_find _ r) as [[i [k' n]]|]; cbn [snd]; [|done].
    destruct (n <=? 1); cbn [snd]; [by apply without_app|]. intros Hk. apply H. by eapply bump_app.
  - destruct (_ || _); cbn [snd a_unregister_app]; [done|by apply without_app].
Qed.

Lemma apps_without l cb ctx : forall r, (cb, ctx) ∈ l \/ ~ has_app cb ctx r -> ~ has_app cb ctx (a_unregister_apps l r).2.
Proof.
  induction l as [|[c x] l IH]; intros r Hl; [destruct Hl as [Hl|Hl]; [by apply elem_of_nil in Hl|done]|]. cbn [a_unregister_apps snd].
  apply IH. destruct Hl as [[[= -> ->]|Hl]%elem_of_cons|Hl]; [right|by left|right].
  - intros (y & [Hy _]%list_elem_of_filter & Hk). by apply Hy.
  - by apply without_app.
Qed.

Lemma leaving_dop op cb ctx a : not_back cb ctx op -> leaving cb ctx a -> leaving cb ctx (a_exec_dop op a).2.
Proof.
  intros Hb H. unfold leaving in *. destruct op as [op|cb' ctx'|pid [f|]]; cbn [a_exec_dop] in *.
  - cbn [snd a_reg a_left]. destruct H as [H|H]; [left; by apply a_exec_app|by right].
  - destruct (_ || _); [done|]. destruct (a_sleeps a); cbn [snd a_reg a_left a_unregister_app]; [rewrite elem_of_app; tauto|].
    destruct H as [H|H]; [left; by apply without_app|by right].
  - destruct (negb _); [done|]. destruct (wakes _); cbn [snd a_reg a_left]; [left; apply apps_without; tauto|]. by destruct (falls_asleep _).
  - done.
Qed.

Lemma leaving_dops ops cb ctx : forall a, Forall (not_back cb ctx) ops -> leaving cb ctx a -> leaving cb ctx (a_exec_dops ops a).2.
Proof.
  induction ops as [|op ops IH]; intros a Hb H; [done|]. apply Forall_cons in Hb as [Ho Hb]. cbn [a_exec_dops snd]. apply IH; [done|]. by apply leaving_dop.
Qed.

Lemma leaves_app cb ctx a : unnamed (cb, ctx) = false -> leaving cb ctx (a_exec_dop (DLeave cb ctx) a).2.
Proof.
  cbn [fst snd]. intros Hn. unfold leaving. cbn [a_exec_dop]. rewrite Hn. destruct (a_sleeps a); cbn [snd a_reg a_left a_unregister_app].
  - right. apply elem_of_app. right. by left.
  - left. intros (y & [Hy _]%list_elem_of_filter & Hk). by apply Hy.
Qed.

Lemma a_exec_dops_app ops1 ops2 : forall a, (a_exec_dops (ops1 ++ ops2) a).2 = (a_exec_dops ops2 (a_exec_dops ops1 a).2).2.
Proof. induction ops1 as [|op ops1 IH]; intros a; [done|]. cbn [app a_exec_dops snd]. apply IH. Qed.

(** After [EsifEventMgr_Init]. *)
Definition dst_init : dst := mk_dst registry_init (Some []) true false.
Definition asleep_init : asleep := mk_asleep [] [] false.
Lemma holds_asleep_init : holds_asleep asleep_init dst_init.
Proof. split; try done. exact holds_init. Qed.

(** The observers of an application that leaves are unregistered at once or,
    while the system sleeps, when it wakes up; every call acts on the registry as
    specified and has the result specified.  Whatever is called before an
    application leaves and after it, when the system has woken up no entry of
    the application is left in memory, unless it has registered again, and no
    application is left to unregister. *)
Theorem left_apps_unregistered (ops1 ops2 : list dop) (cb ctx pid : Z) (f : EsifFpcEvent)
    (Hnamed : unnamed (cb, ctx) = false) (Hback : Forall (not_back cb ctx) ops2)
    (Hpid : EsifUpPm_IsPrimaryParticipantId pid = true) (Hwake : wakes (esif_event f) = true) :
  let ops := ops1 ++ DLeave cb ctx :: ops2 ++ [DSystem pid (Some f)] in
  exists outs d, exec_dops ops dst_init = Some (outs, d) /\
    Forall2 same_outcome outs (a_exec_dops ops asleep_init).1 /\ holds_asleep (a_exec_dops ops asleep_init).2 d /\
    appUnregisterList d = Some [] /\ delayAppUnregistration d = false /\
    forall p e, heap (d_reg d) !! p = Some e -> of_app cb ctx e = false.
Proof.
  intros ops.
  destruct (dops_refine ops _ _ holds_asleep_init) as (outs & d & E & Ho & H). exists outs, d.
  set (a := (a_exec_dops (DLeave cb ctx :: ops2) (a_exec_dops ops1 asleep_init).2).2).
  assert (Ea : (a_exec_dops ops asleep_init).2 = mk_asleep (a_unregister_apps (a_left a) (a_reg a)).2 [] false).
  { unfold ops. replace (ops1 ++ DLeave cb ctx :: ops2 ++ [DSystem pid (Some f)]) with (ops1 ++ (DLeave cb ctx :: ops2) ++ [DSystem pid (Some f)]) by done.
    rewrite !a_exec_dops_app. fold a. cbn [a_exec_dops a_exec_dop snd]. by rewrite Hpid, Hwake. }
  split; [done|]. split; [done|]. split; [done|]. rewrite Ea in H. destruct H as [Hr Hl _ Hs _]. cbn [a_reg a_left a_sleeps] in Hr, Hl, Hs.
  split; [done|]. split; [done|]. intros p e Ee. destruct (of_app cb ctx e) eqn:Eo; [|done]. exfalso.
  assert (Hnone : ~ has_app cb ctx (a_unregister_apps (a_left a) (a_reg a)).2).
  { apply apps_without. assert (Hlv : leaving cb ctx a); [|unfold leaving in Hlv; tauto]. unfold a. cbn [a_exec_dops snd].
    apply leaving_dops; [done|]. by apply leaves_app. }
  apply Hnone. destruct (hr_inv _ _ Hr) as [own Hi]. pose proof (proj1 (ri_heap _ _ _ _ Hi p) (mk_is_Some _ _ Ee)) as Hp.
  rewrite (hr_garbage _ _ Hr), app_nil_r in Hp.
  apply elem_of_listed in Hp as [i Hp]. destruct (holds_entries_in _ _ Hr i p e Hp Ee) as [Hin _]. exists (rep e). split; [done|].
  apply andb_true_iff in Eo as [?%Z.eqb_eq ?%Z.eqb_eq]. done.
Qed.

Module SleepDemo.
Definition fpc (ev : Z) : EsifFpcEvent := mk_fpc ev ESIF_EVENT_GROUP_CODE [].
Definition ok (e : EventMgrEntry) : Z := ESIF_OK.
Definition before : list dop :=
  [DReg (OpRegister ok (fpc 10) 5 EVENT_MGR_DOMAIN_D0 100 7); DReg (OpRegister ok (fpc 74) 5 EVENT_MGR_DOMAIN_D0 100 7);
   DReg (OpRegister ok (fpc 10) 5 EVENT_MGR_DOMAIN_D0 100 8); DSystem 1 (Some (fpc ESIF_EVENT_DISPLAY_OFF))].
Definition after : list dop := [DReg (OpUnregister (fpc 10) 5 EVENT_MGR_DOMAIN_D0 100 8); DLeave 100 9].
Definition run : list dop := before ++ DLeave 100 7 :: after ++ [DSystem 1 (Some (fpc ESIF_EVENT_WINDOWS_LOW_POWER_MODE_EXIT))].
End SleepDemo.

Lemma left_apps_unregistered_witness :
  (a_exec_dops SleepDemo.run asleep_init).1 =
    [(ESIF_OK, []); (ESIF_OK, []); (ESIF_OK, []); (ESIF_OK, []); (ESIF_OK, []); (ESIF_OK, [mk_observer 10 5 EVENT_MGR_DOMAIN_D0 100 8]); (ESIF_OK, []);
     (ESIF_OK, [mk_observer 10 5 EVENT_MGR_DOMAIN_D0 100 7; mk_observer 74 5 EVENT_MGR_DOMAIN_D0 100 7])] /\
  exists outs d, exec_dops SleepDemo.run dst_init = Some (outs, d) /\
    Forall2 same_outcome outs (a_exec_dops SleepDemo.run asleep_init).1 /\ holds_asleep (a_exec_dops SleepDemo.run asleep_init).2 d /\
    appUnregisterList d = Some [] /\ delayAppUnregistration d = false /\
    forall p e, heap (d_reg d) !! p = Some e -> of_app 100 7 e = false.
Proof.
  split; [vm_compute; reflexivity|].
  assert (Hback : Forall (not_back 100 7) SleepDemo.after) by (repeat constructor).
  exact (left_apps_unregistered SleepDemo.before SleepDemo.after 100 7 1 (SleepDemo.fpc ESIF_EVENT_WINDOWS_LOW_POWER_MODE_EXIT) eq_refl Hback eq_refl eq_refl).
Defined.

(* ------------------------------------------------------------------ *)
(** ** Events that arrive as a packet

    A packet is a header of 22 bytes, the fields of [EsifEventParams] without
    gaps and little-endian, and the data. *)

Definition EsifEventParams_size : Z := 22.
Record EsifEventParams : Type := mk_params { p_participantId : Z; p_domainId : Z; p_eventType : Z; p_dataType : Z; p_dataLen : Z }.

(** Reading the fields; [None] beyond the end of the block. *)
Definition read_params (b : list Z) : option EsifEventParams :=
  match le_value 8 b, le_value 2 (drop 8 b), le_value 4 (drop 10 b), le_value 4 (drop 14 b), le_value 4 (drop 18 b) with
  | Some pid, Some dm, Some ty, Some dt, Some len => Some (mk_params pid dm ty dt len)
  | _, _, _, _, _ => None
  end.

(** [block] is the memory at [eventParamsPtr], [dataLen] what the caller says of
    its size. *)
Definition HandlePackagedEvent (m : signal_mem) (block : option (list Z)) (dataLen : Z) : EM Z :=
  match block with
  | None => sret ESIF_E_PARAMETER_IS_NULL
  | Some b =>
      if dataLen <? EsifEventParams_size then sret ESIF_E_UNSPECIFIED
      else
        let! h := of_option (read_params b) in
        if dataLen <? EsifEventParams_size + p_dataLen h then sret ESIF_E_UNSPECIFIED
        else
          EsifEventMgr_SignalEvent m (p_participantId h) (p_domainId h) (p_eventType h)
            (Some (mk_EsifData (p_dataType h) (Some (drop 22 b)) (p_dataLen h) (p_dataLen h))) ;!
          sret ESIF_OK
  end.

(** The packet of an event. *)
Definition packet (pid dm ty dt : Z) (data : list Z) : list Z :=
  le_bytes 8 pid ++ le_bytes 2 dm ++ le_bytes 4 ty ++ le_bytes 4 dt ++ le_bytes 4 (Z.of_nat (length data)) ++ data.

Lemma read_packet pid dm ty dt data rest : 0 <= pid < 2 ^ 64 -> 0 <= dm < 2 ^ 16 -> 0 <= ty < 2 ^ 32 -> 0 <= dt < 2 ^ 32 -> Z.of_nat (length data) < 2 ^ 32 ->
  read_params (packet pid dm ty dt data ++ rest) = Some (mk_params pid dm ty dt (Z.of_nat (length data))) /\
  drop 22 (packet pid dm ty dt data ++ rest) = data ++ rest.
Proof.
  intros H1 H2 H3 H4 H5. unfold packet. rewrite <- !app_assoc. unfold read_params.
  assert (Hd : forall n v l k, (n <= k)%nat -> drop k (le_bytes n v ++ l) = drop (k - n) l).
  { intros n v l k Hk. rewrite drop_app, (drop_ge (le_bytes n v)) by (rewrite le_bytes_length; lia). by rewrite le_bytes_length. }
  rewrite !(Hd 8%nat pid) by lia. cbn [Nat.sub]. rewrite drop_0, !(Hd 2%nat dm) by lia. cbn [Nat.sub]. rewrite drop_0, !(Hd 4%nat ty) by lia. cbn [Nat.sub].
  rewrite drop_0, !(Hd 4%nat dt) by lia. cbn [Nat.sub]. rewrite drop_0, !(Hd 4%nat (Z.of_nat _)) by lia. cbn [Nat.sub]. rewrite drop_0.
  rewrite !le_roundtrip by (cbn; lia). done.
Qed.

Lemma copy_data_take mem dt data rest :
  copy_data mem (Some (mk_EsifData dt (Some (data ++ rest)) (Z.of_nat (length data)) (Z.of_nat (length data)))) =
  copy_data mem (Some (mk_EsifData dt (Some data) (Z.of_nat (length data)) (Z.of_nat (length data)))).
Proof.
  unfold copy_data. cbn [buf_ptr buf_len data_len type]. destruct (_ && _ && _ && _); [|done]. destruct mem; [|done].
  rewrite !memcpy_over by (unfold zero_block; rewrite ?length_replicate, ?length_app; lia). by rewrite Nat2Z.id, take_app_length, firstn_all.
Qed.

Lemma signal_take m pid dm ty dt data rest s :
  EsifEventMgr_SignalEvent m pid dm ty (Some (mk_EsifData dt (Some (data ++ rest)) (Z.of_nat (length data)) (Z.of_nat (length data)))) s =
  EsifEventMgr_SignalEvent m pid dm ty (Some (mk_EsifData dt (Some data) (Z.of_nat (length data)) (Z.of_nat (length data)))) s.
Proof. unfold EsifEventMgr_SignalEvent, EsifEventMgr_SignalEvent_Local, enqueue_event. by rewrite copy_data_take. Qed.

Lemma packet_length pid dm ty dt data : length (packet pid dm ty dt data) = (22 + length data)%nat.
Proof. unfold packet. rewrite !length_app, !le_bytes_length. lia. Qed.

(** Reading the header needs its 22 bytes only. *)
Lemma read_params_take b k : (22 <= k)%nat -> read_params (take k b) = read_params b.
Proof. intros Hk. unfold read_params. rewrite !skipn_firstn_comm, !le_value_take by lia. done. Qed.

(** A packet that holds an event has the effect of signalling that event:
    its participant, domain, type and data come out as they went in, whatever
    follows the packet in memory, and the result is ESIF_OK.  A packet that has
    been cut short, in its header or in its data, is refused; it changes nothing,
    and nothing past its end is read. *)
Theorem packaged_event_roundtrip (m : signal_mem) (s : est) (pid dm ty dt : Z) (data rest : list Z) (len : Z)
    (Hpid : in_range 64 pid) (Hdm : in_range 16 dm) (Hty : in_range 32 ty) (Hdt : in_range 32 dt) (Hdata : in_range 32 (Z.of_nat (length data))) :
  let b := packet pid dm ty dt data in
  HandlePackagedEvent m (if len <? Z.of_nat (length b) then Some (take (Z.to_nat len) b) else Some (b ++ rest)) len s =
  if len <? Z.of_nat (length b) then Some (ESIF_E_UNSPECIFIED, s)
  else (EsifEventMgr_SignalEvent m pid dm ty (Some (mk_EsifData dt (Some data) (Z.of_nat (length data)) (Z.of_nat (length data)))) ;! sret ESIF_OK) s.
Proof.
  intros b. unfold in_range in *. destruct (read_packet pid dm ty dt data [] Hpid Hdm Hty Hdt (proj2 Hdata)) as [Er0 _]. rewrite app_nil_r in Er0.
  destruct (read_packet pid dm ty dt data rest Hpid Hdm Hty Hdt (proj2 Hdata)) as [Er Ed]. fold b in Er0, Er, Ed.
  assert (Hl : length b = (22 + length data)%nat) by apply packet_length. unfold HandlePackagedEvent, EsifEventParams_size.
  destruct (Z.ltb_spec len (Z.of_nat (length b))) as [Hlen|Hlen].
  - destruct (Z.ltb_spec len 22) as [H22|H22]; [done|]. rewrite read_params_take, Er0 by lia. unfold of_option, sbind, sret. cbn [p_dataLen].
    by rewrite (proj2 (Z.ltb_lt _ _)) by lia.
  - rewrite (proj2 (Z.ltb_ge _ _)) by lia. rewrite Er. unfold of_option, sbind, sret. cbn [p_dataLen p_participantId p_domainId p_eventType p_dataType].
    rewrite (proj2 (Z.ltb_ge _ _)) by lia. by rewrite Ed, signal_take.
Qed.

Module PacketDemo.
Definition q : est := mk_est filters_init (Some []) ∅.
Definition ok : signal_mem := mk_smem true true true.
End PacketDemo.

Lemma packaged_event_roundtrip_witness :
  in_range 64 5 /\ in_range 16 EVENT_MGR_DOMAIN_D0 /\ in_range 32 10 /\ in_range 32 3 /\ in_range 32 4 /\
  HandlePackagedEvent PacketDemo.ok (Some (packet 5 EVENT_MGR_DOMAIN_D0 10 3 [1; 2; 3; 4] ++ [9; 9])) 28 PacketDemo.q =
    Some (ESIF_OK, with_queue (Some [Some (mk_qitem 5 EVENT_MGR_DOMAIN_D0 10 (mk_EsifData 3 (Some [1; 2; 3; 4]) 4 4) false false None)]) PacketDemo.q) /\
  HandlePackagedEvent PacketDemo.ok (Some (take 25 (packet 5 EVENT_MGR_DOMAIN_D0 10 3 [1; 2; 3; 4]))) 25 PacketDemo.q = Some (ESIF_E_UNSPECIFIED, PacketDemo.q).
Proof.
  assert (H1 : in_range 64 5) by (unfold in_range, EVENT_MGR_DOMAIN_D0; lia). assert (H2 : in_range 16 EVENT_MGR_DOMAIN_D0) by (unfold in_range, EVENT_MGR_DOMAIN_D0; lia).
  assert (H3 : in_range 32 10) by (unfold in_range, EVENT_MGR_DOMAIN_D0; lia). assert (H4 : in_range 32 3) by (unfold in_range, EVENT_MGR_DOMAIN_D0; lia).
  assert (H5 : in_range 32 4) by (unfold in_range, EVENT_MGR_DOMAIN_D0; lia). 
  split; [exact H1|]. split; [exact H2|]. split; [exact H3|]. split; [exact H4|]. split; [exact H5|]. split; [|vm_compute; reflexivity].
  etransitivity; [exact (packaged_event_roundtrip PacketDemo.ok PacketDemo.q 5 EVENT_MGR_DOMAIN_D0 10 3 [1; 2; 3; 4] [9; 9] 28 H1 H2 H3 H4 H5)|vm_compute; reflexivity].
Defined.
