(* ===== verification/EventSoc.v ===== *)
(** * The processor's events: esif_uf_eventmgr.c

    Three events are raised by interrupts of the processor, which cost power: one
    interrupt for the workload type, one for the power floor and the PCIe throttle
    request.  Each is enabled while some observer wants an event of it, by a
    counter of the observers' entries ([esif_register_code_event] and
    [esif_unregister_code_event], which EventReg.v's [EsifEventMgr_EnableEvent]
    and the disabling of an entry come down to for events of the group CODE).

    The participants, their primitives and the operating system's part are an
    environment [soc_env], which may differ from call to call. *)

From S2P Require Import Prelude EventReg Machine.
From stdpp Require Import list.
Local Open Scope Z_scope.
Local Open Scope dptf_scope.

Definition ESIF_EVENT_SOC_WORKLOADTYPE_CHANGED : Z := 183.
Definition ESIF_EVENT_SOC_POWER_FLOOR_CHANGED : Z := 184.
Definition ESIF_EVENT_PCIE_THROTTLE_REQUESTED : Z := 185.
Definition SET_SOC_PREDICTION_CHANGE_INT_ENABLE : Z := 972.
Definition SET_SOC_POWER_FLOOR_INT_ENABLE : Z := 971.
Definition GET_HW_SOC_WORKLOAD : Z := 919.
Definition GET_SOC_POWER_FLOOR_STATE : Z := 917.
Definition GET_PCIE_THROTTLING_OPTION : Z := 918.
Definition ESIF_INTR_STATE_DISABLE : Z := 0.
Definition ESIF_INTR_STATE_ENABLE : Z := 1.

(** The two interrupts, each with its counter. *)
Inductive intr : Type := IWorkload | IPowerFloor.
#[export] Instance intr_eq_dec : EqDecision intr.
Proof. solve_decision. Defined.

(** Executing the primitive that enables or disables an interrupt, and signalling
    an event for its current state, read by another primitive. *)
Inductive soc_action : Type :=
  | ASetInterrupt (pid id value rc : Z)
  | AInitialEvent (pid id event state : Z).

Record soc : Type := mk_soc {
  socWorkloadtypeChangedRefCount : Z;
  socPowerFloorRefCount : Z;
  actions : list soc_action
}.
Abbreviation CM := (SM soc).

(** Whether a participant is available; the result of setting by a primitive; the
    value that reading by one leaves in the buffer; the operating system. *)
Record soc_env : Type := mk_env {
  available : Z -> bool;
  execute_set : Z -> Z -> Z -> Z;
  execute_get : Z -> Z -> Z;
  esif_enable_code_event : Z -> Z;
  esif_disable_code_event : Z -> Z
}.

Definition count (i : intr) (s : soc) : Z :=
  match i with IWorkload => socWorkloadtypeChangedRefCount s | IPowerFloor => socPowerFloorRefCount s end.
Definition with_count (i : intr) (n : Z) (s : soc) : soc :=
  match i with
  | IWorkload => mk_soc n (socPowerFloorRefCount s) (actions s)
  | IPowerFloor => mk_soc (socWorkloadtypeChangedRefCount s) n (actions s)
  end.
Definition with_act (a : soc_action) (s : soc) : soc :=
  mk_soc (socWorkloadtypeChangedRefCount s) (socPowerFloorRefCount s) (actions s ++ [a]).
Definition act (a : soc_action) : CM unit := smodify (with_act a).

Definition intr_id (i : intr) : Z :=
  match i with IWorkload => SET_SOC_PREDICTION_CHANGE_INT_ENABLE | IPowerFloor => SET_SOC_POWER_FLOOR_INT_ENABLE end.
Definition state_id (i : intr) (ev : Z) : Z :=
  match i with
  | IWorkload => GET_HW_SOC_WORKLOAD
  | IPowerFloor => if ev =? ESIF_EVENT_SOC_POWER_FLOOR_CHANGED then GET_SOC_POWER_FLOOR_STATE else GET_PCIE_THROTTLING_OPTION
  end.

(** Setting the interrupt, with its result. *)
Definition set_interrupt (v : soc_env) (i : intr) (pid value : Z) : CM Z :=
  let rc := execute_set v pid (intr_id i) value in act (ASetInterrupt pid (intr_id i) value rc) ;! sret rc.

(** [esif_register_event_soc_workload] and [esif_register_event_soc_power_floor]. *)
Definition register_event_soc (v : soc_env) (i : intr) (e : EventMgrEntry) : CM Z :=
  let pid := participantId e in
  let ev := esif_event (fpcEvent e) in
  smodify (fun s => with_count i (u32 (count i s + 1)) s) ;!
  if available v pid then
    let! s := sget in
    let! rc := (if count i s =? 1 then
        let! rc := set_interrupt v i pid ESIF_INTR_STATE_ENABLE in
        (if negb (rc =? ESIF_OK) then smodify (fun s => with_count i (u32 (count i s - 1)) s) else sret tt) ;!
        sret rc
      else sret ESIF_OK) in
    (if rc =? ESIF_OK then act (AInitialEvent pid (state_id i ev) ev (execute_get v pid (state_id i ev))) else sret tt) ;!
    sret rc
  else sret ESIF_E_NOT_FOUND.

Definition unregister_event_soc (v : soc_env) (i : intr) (e : EventMgrEntry) : CM Z :=
  let pid := participantId e in
  smodify (fun s => if negb (count i s =? 0) then with_count i (u32 (count i s - 1)) s else s) ;!
  let! s := sget in
  if count i s =? 0 then
    if available v pid then set_interrupt v i pid ESIF_INTR_STATE_DISABLE else sret ESIF_E_NOT_FOUND
  else sret ESIF_OK.

(** The interrupt of an event, if it has one. *)
Definition intr_of (ev : Z) : option intr :=
  if ev =? ESIF_EVENT_SOC_WORKLOADTYPE_CHANGED then Some IWorkload
  else if (ev =? ESIF_EVENT_SOC_POWER_FLOOR_CHANGED) || (ev =? ESIF_EVENT_PCIE_THROTTLE_REQUESTED) then Some IPowerFloor
  else None.

Definition esif_register_code_event (v : soc_env) (e : EventMgrEntry) : CM Z :=
  match intr_of (esif_event (fpcEvent e)) with
  | Some i => register_event_soc v i e
  | None => sret (esif_enable_code_event v (esif_event (fpcEvent e)))
  end.
Definition esif_unregister_code_event (v : soc_env) (e : EventMgrEntry) : CM Z :=
  match intr_of (esif_event (fpcEvent e)) with
  | Some i => unregister_event_soc v i e
  | None => sret (esif_disable_code_event v (esif_event (fpcEvent e)))
  end.

(* ------------------------------------------------------------------ *)
(** ** The interrupts follow the observers *)

(** Whether an interrupt is enabled after what has been done. *)
Definition interrupt_after (i : intr) (b : bool) (a : soc_action) : bool :=
  match a with
  | ASetInterrupt _ id value rc => if (id =? intr_id i) && (rc =? ESIF_OK) then value =? ESIF_INTR_STATE_ENABLE else b
  | AInitialEvent _ _ _ _ => b
  end.
Definition interrupt (i : intr) (l : list soc_action) : bool := foldl (interrupt_after i) false l.

(** Entries are enabled and, when their last registration has been taken back,
    disabled; [users] counts those of an interrupt that are enabled. *)
Inductive sop : Type := SEnable (v : soc_env) (e : EventMgrEntry) | SDisable (v : soc_env) (e : EventMgrEntry).
Record cfg : Type := mk_cfg { soc_of : soc; users : intr -> Z }.

Definition add_user (i : option intr) (d : Z) (u : intr -> Z) : intr -> Z :=
  fun j => if decide (i = Some j) then u j + d else u j.

Definition exec_sop (op : sop) (c : cfg) : option (cfg * list Z) :=
  match op with
  | SEnable v e =>
      match esif_register_code_event v e (soc_of c) with
      | Some (rc, s) => Some (mk_cfg s (if rc =? ESIF_OK then add_user (intr_of (esif_event (fpcEvent e))) 1 (users c) else users c), [rc])
      | None => None
      end
  | SDisable v e =>
      match esif_unregister_code_event v e (soc_of c) with
      | Some (rc, s) => Some (mk_cfg s (add_user (intr_of (esif_event (fpcEvent e))) (-1) (users c)), [rc])
      | None => None
      end
  end.

(** The participant is there; only an entry that is enabled is disabled, and the
    primitive for that works.  The counter has 32 bits. *)
Definition sop_allowed (op : sop) (c : cfg) : Prop :=
  match op with
  | SEnable v e => forall i, intr_of (esif_event (fpcEvent e)) = Some i -> available v (participantId e) = true /\ users c i + 1 < 2 ^ 32
  | SDisable v e => forall i, intr_of (esif_event (fpcEvent e)) = Some i -> 1 <= users c i /\
      available v (participantId e) = true /\ execute_set v (participantId e) (intr_id i) ESIF_INTR_STATE_DISABLE = ESIF_OK
  end.

Definition soc_init : cfg := mk_cfg (mk_soc 0 0 []) (fun _ => 0).

Record soc_inv (c : cfg) : Prop := {
  si_count : forall i, count i (soc_of c) = users c i;
  si_range : forall i, 0 <= users c i < 2 ^ 32;
  si_intr : forall i, interrupt i (actions (soc_of c)) = (0 <? users c i)
}.

Lemma interrupt_snoc i l a : interrupt i (l ++ [a]) = interrupt_after i (interrupt i l) a.
Proof. unfold interrupt. by rewrite foldl_app. Qed.

Lemma intr_id_eqb i j : (intr_id i =? intr_id j) = bool_decide (i = j).
Proof. by destruct i, j. Qed.

Lemma count_with i j n s : count j (with_count i n s) = if decide (i = j) then n else count j s.
Proof. by destruct i, j. Qed.

Lemma with_count_twice i m n s : with_count i n (with_count i m s) = with_count i n s.
Proof. by destruct i. Qed.

Lemma with_count_actions i n s : actions (with_count i n s) = actions s.
Proof. by destruct i. Qed.

Lemma count_act j a s : count j (with_act a s) = count j s.
Proof. by destruct j. Qed.

Lemma after_initial j l pid id ev x : interrupt j (l ++ [AInitialEvent pid id ev x]) = interrupt j l.
Proof. by rewrite interrupt_snoc. Qed.
Lemma after_set j l i pid value rc : interrupt j (l ++ [ASetInterrupt pid (intr_id i) value rc]) =
  if decide (i = j) then if rc =? ESIF_OK then value =? ESIF_INTR_STATE_ENABLE else interrupt j l else interrupt j l.
Proof.
  rewrite interrupt_snoc. cbn [interrupt_after]. rewrite intr_id_eqb.
  by destruct (decide (i = j)) as [->|Hne]; [rewrite bool_decide_eq_true_2|rewrite bool_decide_eq_false_2].
Qed.
Lemma actions_act a s : actions (with_act a s) = actions s ++ [a].
Proof. done. Qed.

#[local] Hint Rewrite count_with with_count_actions count_act actions_act after_initial after_set : soc.

(** The counters are in range, and tell which interrupts are enabled. *)
Definition tracks (s : soc) : Prop := forall i, 0 <= count i s < 2 ^ 32 /\ interrupt i (actions s) = (0 <? count i s).

Lemma register_event_spec v i e s : tracks s -> count i s + 1 < 2 ^ 32 -> available v (participantId e) = true ->
  exists rc s', register_event_soc v i e s = Some (rc, s') /\ tracks s' /\
    forall j, count j s' = count j s + (if decide (i = j) then (if rc =? ESIF_OK then 1 else 0) else 0).
Proof.
  intros H Hc Ha. destruct (H i) as [Hr Hi]. unfold register_event_soc, set_interrupt, act. cbn [sbind smodify]. unfold sbind, smodify, sget, sret. rewrite Ha.
  rewrite wrap_small by (unfold in_range; lia). autorewrite with soc. rewrite decide_True by done. cbv zeta.
  destruct (Z.eqb_spec (count i s + 1) 1) as [E0|E0].
  - assert (Hz : count i s = 0) by lia. destruct (Z.eqb_spec (execute_set v (participantId e) (intr_id i) ESIF_INTR_STATE_ENABLE) ESIF_OK) as [Erc|Erc]; cbn [negb].
    + rewrite Erc. eexists _, _. split; [reflexivity|]. split; intros j; [destruct (H j) as [Hrj Hij]|]; autorewrite with soc.
      * destruct (decide (i = j)) as [<-|]; [rewrite Z.eqb_refl; rewrite Hz; split; [lia|done]|done].
      * destruct (decide (i = j)) as [<-|]; cbn; lia.
    + rewrite (proj2 (Z.eqb_neq _ _) Erc). eexists _, _. split; [reflexivity|]. split; intros j; [destruct (H j) as [Hrj Hij]|]; autorewrite with soc.
      * rewrite (proj2 (Z.eqb_neq _ _) Erc). destruct (decide (i = j)) as [<-|]; [|done]. rewrite decide_True, Hi, Hz by done. by vm_compute.
      * destruct (decide (i = j)) as [<-|]; [|lia]. rewrite decide_True, Hz by done. rewrite ?(proj2 (Z.eqb_neq _ _) Erc). by vm_compute.
  - eexists _, _. split; [reflexivity|]. split; intros j; [destruct (H j) as [Hrj Hij]|]; autorewrite with soc.
    + destruct (decide (i = j)) as [<-|]; [|done]. split; [lia|]. rewrite Hi. rewrite (proj2 (Z.ltb_lt _ _)) by lia. symmetry. apply Z.ltb_lt. lia.
    + destruct (decide (i = j)) as [<-|]; cbn; lia.
Qed.

Lemma unregister_event_spec v i e s : tracks s -> 1 <= count i s -> available v (participantId e) = true ->
  execute_set v (participantId e) (intr_id i) ESIF_INTR_STATE_DISABLE = ESIF_OK ->
  exists s', unregister_event_soc v i e s = Some (ESIF_OK, s') /\ tracks s' /\
    forall j, count j s' = count j s + (if decide (i = j) then -1 else 0).
Proof.
  intros H Hc Ha Hx. destruct (H i) as [Hr Hi]. unfold unregister_event_soc, set_interrupt, act. unfold sbind, smodify, sget, sret. cbv zeta.
  rewrite (proj2 (Z.eqb_neq (count i s) 0)) by lia. cbn [negb]. rewrite wrap_small by (unfold in_range; lia). autorewrite with soc. rewrite decide_True by done.
  destruct (Z.eqb_spec (count i s - 1) 0) as [E0|E0].
  - rewrite Ha, Hx. eexists. split; [reflexivity|]. split; intros j; [destruct (H j) as [Hrj Hij]|]; autorewrite with soc.
    + destruct (decide (i = j)) as [<-|]; [|done]. rewrite E0. split; [lia|done].
    + destruct (decide (i = j)) as [<-|]; lia.
  - eexists. split; [reflexivity|]. split; intros j; [destruct (H j) as [Hrj Hij]|]; autorewrite with soc.
    + destruct (decide (i = j)) as [<-|]; [|done]. split; [lia|]. rewrite Hi. rewrite (proj2 (Z.ltb_lt _ _)) by lia. symmetry. apply Z.ltb_lt. lia.
    + destruct (decide (i = j)) as [<-|]; lia.
Qed.

Lemma soc_step op c : soc_inv c -> sop_allowed op c -> exists c' k, exec_sop op c = Some (c', k) /\ soc_inv c'.
Proof.
  intros [H1 H2 H3] Ha. assert (Ht : tracks (soc_of c)) by (intros i; rewrite H1, H3; done).
  destruct op as [v e|v e]; cbn [exec_sop sop_allowed] in *; unfold esif_register_code_event, esif_unregister_code_event.
  - destruct (intr_of (esif_event (fpcEvent e))) as [i|]; cycle 1.
    { eexists _, _. split; [reflexivity|]. destruct (_ =? ESIF_OK); by split. }
    destruct (Ha i eq_refl) as [Hav Hlt]. destruct (register_event_spec v i e (soc_of c) Ht ltac:(by rewrite H1) Hav) as (rc & s' & E & Ht' & Hcnt).
    rewrite E. eexists _, _. split; [reflexivity|]. assert (Hu : forall j, count j s' = (if rc =? ESIF_OK then add_user (Some i) 1 (users c) else users c) j).
    { intros j. rewrite Hcnt, H1. unfold add_user. destruct (rc =? ESIF_OK), (decide (i = j)) as [<-|Hne]; try lia; [by rewrite decide_True|rewrite decide_False by congruence; lia]. }
    split; intros j; cbn [soc_of users]; rewrite <- ?Hu; [done|apply Ht'|apply Ht'].
  - destruct (intr_of (esif_event (fpcEvent e))) as [i|]; cycle 1.
    { eexists _, _. split; [reflexivity|]. by split. }
    destruct (Ha i eq_refl) as (Hge & Hav & Hx). destruct (unregister_event_spec v i e (soc_of c) Ht ltac:(by rewrite H1) Hav Hx) as (s' & E & Ht' & Hcnt).
    rewrite E. eexists _, _. split; [reflexivity|]. assert (Hu : forall j, count j s' = add_user (Some i) (-1) (users c) j).
    { intros j. rewrite Hcnt, H1. unfold add_user. destruct (decide (i = j)) as [<-|Hne]; [by rewrite decide_True|rewrite decide_False by congruence; lia]. }
    split; intros j; cbn [soc_of users]; rewrite <- ?Hu; [done|apply Ht'|apply Ht'].
Qed.

Lemma soc_inv_init : soc_inv soc_init.
Proof. split; intros i; [by destruct i|by destruct i|done]. Qed.

#[export] Instance sop_allowed_dec op c : Decision (sop_allowed op c).
Proof.
  destruct op as [v e|v e]; cbn [sop_allowed]; (destruct (intr_of (esif_event (fpcEvent e))) as [i|]; [|left; by intros i]).
  - destruct (decide (available v (participantId e) = true /\ users c i + 1 < 2 ^ 32)) as [Hd|Hd]; [left; by intros j [= <-]|right; intros Hn; by apply Hd, Hn].
  - destruct (decide (1 <= users c i /\ available v (participantId e) = true /\ execute_set v (participantId e) (intr_id i) ESIF_INTR_STATE_DISABLE = ESIF_OK)) as [Hd|Hd];
      [left; by intros j [= <-]|right; intros Hn; by apply Hd, Hn].
Defined.

(** Each interrupt of the processor is enabled exactly while an observer of
    one of its events is registered: whatever is registered and unregistered in
    whatever order, and also when enabling an interrupt fails (the registration
    is then refused), the counter is the number of the observers accepted, and
    the interrupt is on if and only if there is one. *)
Theorem soc_interrupts_follow_observers (ops : list sop) (Hd : follows exec_sop sop_allowed ops soc_init) :
  exists c k, run_steps exec_sop ops soc_init = Some (c, k) /\
    forall i, count i (soc_of c) = users c i /\ interrupt i (actions (soc_of c)) = (0 <? users c i).
Proof.
  destruct (run_steps_inv exec_sop sop_allowed soc_inv (fun v c Hc => soc_step v c Hc) ops soc_init soc_inv_init Hd) as (c & k & E & H).
  exists c, k. split; [exact E|]. intros i. split; apply H.
Qed.

Module SocDemo.
(** An environment where everything works, and one where enabling fails. *)
Definition good : soc_env := mk_env (fun _ => true) (fun _ _ _ => ESIF_OK) (fun _ _ => 2) (fun _ => ESIF_OK) (fun _ => ESIF_OK).
Definition bad : soc_env := mk_env (fun _ => true) (fun _ _ v => if v =? ESIF_INTR_STATE_ENABLE then ESIF_E_UNSPECIFIED else ESIF_OK) (fun _ _ => 2) (fun _ => ESIF_OK) (fun _ => ESIF_OK).
Definition away : soc_env := mk_env (fun _ => false) (fun _ _ _ => ESIF_OK) (fun _ _ => 2) (fun _ => ESIF_OK) (fun _ => ESIF_OK).
Definition entry (ev ctx : Z) : EventMgrEntry := new_entry (mk_fpc ev ESIF_EVENT_GROUP_CODE []) 3 EVENT_MGR_DOMAIN_D0 100 ctx.
Definition ops : list sop :=
  [SEnable good (entry ESIF_EVENT_SOC_POWER_FLOOR_CHANGED 7); SEnable good (entry ESIF_EVENT_PCIE_THROTTLE_REQUESTED 8); SEnable bad (entry ESIF_EVENT_SOC_WORKLOADTYPE_CHANGED 7);
   SDisable good (entry ESIF_EVENT_SOC_POWER_FLOOR_CHANGED 7); SEnable good (entry ESIF_EVENT_SOC_WORKLOADTYPE_CHANGED 9); SDisable good (entry ESIF_EVENT_SOC_WORKLOADTYPE_CHANGED 9)].
End SocDemo.

Lemma soc_interrupts_follow_observers_witness :
  follows exec_sop sop_allowed SocDemo.ops soc_init /\
  (exists c, run_steps exec_sop SocDemo.ops soc_init = Some (c, [ESIF_OK; ESIF_OK; ESIF_E_UNSPECIFIED; ESIF_OK; ESIF_OK; ESIF_OK]) /\
     interrupt IPowerFloor (actions (soc_of c)) = true /\ interrupt IWorkload (actions (soc_of c)) = false) /\
  exists c k, run_steps exec_sop SocDemo.ops soc_init = Some (c, k) /\
    forall i, count i (soc_of c) = users c i /\ interrupt i (actions (soc_of c)) = (0 <? users c i).
Proof.
  assert (Hd : follows exec_sop sop_allowed SocDemo.ops soc_init) by (apply check_sound with (H := sop_allowed_dec); vm_compute; reflexivity).
  split; [exact Hd|]. split; [eexists; split; [vm_compute; reflexivity|split; reflexivity]|]. exact (soc_interrupts_follow_observers SocDemo.ops Hd).
Defined.

(** The participant may have gone when an observer is added.  The registration is
    refused but stays counted: the next one, which succeeds, does not enable the
    interrupt, and no later one does. *)
Theorem missing_participant_counts (v : soc_env) (i : intr) (e : EventMgrEntry) (s : soc) (Hz : count i s = 0)
    (Haway : available v (participantId e) = false) (v' : soc_env) (e' : EventMgrEntry) (Hthere : available v' (participantId e') = true) :
  exists s1 s2, register_event_soc v i e s = Some (ESIF_E_NOT_FOUND, s1) /\
    register_event_soc v' i e' s1 = Some (ESIF_OK, s2) /\ count i s2 = 2 /\ interrupt i (actions s2) = interrupt i (actions s).
Proof.
  exists (with_count i 1 s), (with_act (AInitialEvent (participantId e') (state_id i (esif_event (fpcEvent e'))) (esif_event (fpcEvent e'))
    (execute_get v' (participantId e') (state_id i (esif_event (fpcEvent e'))))) (with_count i 2 (with_count i 1 s))).
  unfold register_event_soc, sbind, smodify, sget, sret. rewrite Haway, Hthere. autorewrite with soc. rewrite !(decide_True (P := i = i)) by done. rewrite Hz.
  split; [done|]. split; [done|]. done.
Qed.
