(* ===== verification/Domain.v ===== *)
(** * Domains: ESIF/Products/ESIF_UF/Sources/esif_uf_domain.c

    A participant consists of domains.  A domain has capabilities, a temperature
    that is compared with two thresholds, and a performance state; the last two
    are polled where the device does not report changes itself.  This file has the
    state and the detection of the capabilities; DomainTemp.v has the temperature
    and the polling.

    The support package says what a domain can do, and what the device does not
    answer is taken back, once, when the package is ready
    ([EsifUpDomain_DspReadyInit]).  Primitives are executed by an environment
    [denv]; what they bring about in the domain themselves (the sample period, by
    the delegated actions) are calls of their own. *)

From S2P Require Import Prelude Xform.
From stdpp Require Import list.
Local Open Scope Z_scope.
Local Open Scope dptf_scope.

(** ** Numbers *)

Definition GET_AC_PEAK_POWER : Z := 447.
Definition GET_BATTERY_INFORMATION : Z := 224.
Definition GET_BATTERY_STATUS : Z := 223.
Definition GET_CHARGER_TYPE : Z := 297.
Definition GET_CORE_ACTIVITY_COUNTER : Z := 442.
Definition GET_DC_PEAK_POWER : Z := 451.
Definition GET_DISPLAY_BRIGHTNESS : Z := 356.
Definition GET_DISPLAY_BRIGHTNESS_LEVELS : Z := 158.
Definition GET_DISPLAY_DEPTH_LIMIT : Z := 160.
Definition GET_FAN_CAPABILITIES : Z := 495.
Definition GET_FAN_INFORMATION : Z := 84.
Definition GET_FAN_PERFORMANCE_STATES : Z := 85.
Definition GET_FAN_STATUS : Z := 86.
Definition GET_HW_SOC_WORKLOAD : Z := 919.
Definition GET_PARTICIPANT_PERF_PRESENT_CAPABILITY : Z := 176.
Definition GET_PARTICIPANT_RESIDENCY_UTILIZATION : Z := 443.
Definition GET_PARTICIPANT_SAMPLE_PERIOD : Z := 300.
Definition GET_PERF_SUPPORT_STATES : Z := 137.
Definition GET_PLATFORM_BATTERY_STEADY_STATE : Z := 294.
Definition GET_PLATFORM_MAX_BATTERY_POWER : Z := 291.
Definition GET_PLATFORM_POWER_LIMIT_ENABLE : Z := 332.
Definition GET_PLATFORM_POWER_SOURCE : Z := 295.
Definition GET_POWER_SAMPLE_PERIOD : Z := 278.
Definition GET_PROC_HWP_ENABLE : Z := 325.
Definition GET_PROC_HWP_SUPPORT_CHECK : Z := 311.
Definition GET_PROC_PERF_SUPPORT_STATES : Z := 95.
Definition GET_PROC_TSC : Z := 312.
Definition GET_RAPL_ENERGY : Z := 128.
Definition GET_RAPL_ENERGY_COUNTER_INFO : Z := 774.
Definition GET_RAPL_POWER : Z := 35.
Definition GET_RAPL_POWER_CONTROL_CAPABILITIES : Z := 75.
Definition GET_RFPROFILE_CENTER_FREQUENCY : Z := 245.
Definition GET_RFPROFILE_MAX_FREQUENCY : Z := 497.
Definition GET_RFPROFILE_MIN_FREQUENCY : Z := 498.
Definition GET_RF_ACTIVE_CHANNELS : Z := 897.
Definition GET_SOCWLC_SOURCE : Z := 941.
Definition GET_TCC_OFFSET : Z := 477.
Definition GET_TEMPERATURE : Z := 14.
Definition GET_TEMPERATURE_THRESHOLD_HYSTERESIS : Z := 15.
Definition SET_PARTICIPANT_SAMPLE_BEHAVIOR : Z := 302.
Definition SET_POWER_SAMPLE_BEHAVIOR : Z := 384.
Definition SET_TEMPERATURE_THRESHOLDS_SUR : Z := 299.

Definition ESIF_CAPABILITY_TYPE_ACTIVE_CONTROL : Z := 0.
Definition ESIF_CAPABILITY_TYPE_DISPLAY_CONTROL : Z := 2.
Definition ESIF_CAPABILITY_TYPE_PERF_CONTROL : Z := 4.
Definition ESIF_CAPABILITY_TYPE_POWER_CONTROL : Z := 5.
Definition ESIF_CAPABILITY_TYPE_POWER_STATUS : Z := 6.
Definition ESIF_CAPABILITY_TYPE_TEMP_STATUS : Z := 7.
Definition ESIF_CAPABILITY_TYPE_PEAK_POWER_CONTROL : Z := 9.
Definition ESIF_CAPABILITY_TYPE_PROCESSOR_CONTROL : Z := 10.
Definition ESIF_CAPABILITY_TYPE_PLAT_POWER_STATUS : Z := 11.
Definition ESIF_CAPABILITY_TYPE_TEMP_THRESHOLD : Z := 12.
Definition ESIF_CAPABILITY_TYPE_RFPROFILE_STATUS : Z := 13.
Definition ESIF_CAPABILITY_TYPE_RFPROFILE_CONTROL : Z := 14.
Definition ESIF_CAPABILITY_TYPE_ENERGY_CONTROL : Z := 15.
Definition ESIF_CAPABILITY_TYPE_ACTIVITY_STATUS : Z := 17.
Definition ESIF_CAPABILITY_TYPE_PSYS_CONTROL : Z := 18.
Definition ESIF_CAPABILITY_TYPE_BATTERY_STATUS : Z := 19.
Definition ESIF_CAPABILITY_TYPE_WORKLOAD_CLASSIFICATION : Z := 20.
Definition MAX_CAPABILITY_MASK : nat := 32.
Definition ESIF_I_AGAIN : Z := 102.
Definition ESIF_I_NO_LEGACY_SUPPORT : Z := 105.
Definition ESIF_E_STOP_POLL : Z := 1006.
Definition ESIF_DOMAIN_TEMP_INVALID : Z := 4294967295.
Definition ESIF_DOMAIN_STATE_INVALID : Z := 4294967295.
Definition ESIF_DOMAIN_HYST_DEF : Z := 0.
Definition ESIF_SOCWC_SOURCE_HARDWARE : Z := 1.
Definition PERF_STATE_POLL_PERIOD : Z := 3000.
Definition ESIF_EVENT_TEMP_THRESHOLD_CROSSED : Z := 16.
Definition ESIF_EVENT_PERF_CAPABILITY_CHANGED : Z := 11.

(* ------------------------------------------------------------------ *)
(** ** The state of a domain *)

Inductive EsifDomainPollTypeId : Type := ESIF_POLL_NONE | ESIF_POLL_UNSUPPORTED | ESIF_POLL_DOMAIN | ESIF_POLL_ECONO.
#[export] Instance poll_type_eq_dec : EqDecision EsifDomainPollTypeId.
Proof. solve_decision. Defined.

Record EsifDomainCapability : Type := mk_caps { capability_flags : Z; number_of_capability_flags : Z; capability_mask : list Z }.

(** A polled quantity: the period, who polls, whether the timer object exists, and
    whether it is set (the time in ms). *)
Record poll : Type := mk_poll { pollPeriod : Z; pollType : EsifDomainPollTypeId; pollInitialized : bool; pollTimer : option Z }.

Record temperature : Type := mk_temp {
  virtTemp : Z;
  tempAux0 : Z;
  tempAux1 : Z;
  tempAux0WHyst : Z;
  tempHysteresis : Z;
  tempNotifySent : bool;
  tempLastTempValid : bool;
  tempInvalidValueDetected : bool
}.

(** What a domain does: it executes a SET primitive (its number, instance and
    value), or signals an event. *)
Inductive daction : Type := DSet (id instance value : Z) | DEvent (ty : Z).

Record EsifUpDomain : Type := mk_domain {
  capability_for_domain : EsifDomainCapability;
  temp : temperature;
  tempPoll : poll;
  lastState : Z;
  statePoll : poll;
  did : list daction
}.
Abbreviation DM := (SM EsifUpDomain).

Definition with_caps (c : EsifDomainCapability) (d : EsifUpDomain) : EsifUpDomain := mk_domain c (temp d) (tempPoll d) (lastState d) (statePoll d) (did d).
Definition with_temp (t : temperature) (d : EsifUpDomain) : EsifUpDomain := mk_domain (capability_for_domain d) t (tempPoll d) (lastState d) (statePoll d) (did d).
Definition with_temp_poll (p : poll) (d : EsifUpDomain) : EsifUpDomain := mk_domain (capability_for_domain d) (temp d) p (lastState d) (statePoll d) (did d).
Definition with_last_state (x : Z) (d : EsifUpDomain) : EsifUpDomain := mk_domain (capability_for_domain d) (temp d) (tempPoll d) x (statePoll d) (did d).
Definition with_state_poll (p : poll) (d : EsifUpDomain) : EsifUpDomain := mk_domain (capability_for_domain d) (temp d) (tempPoll d) (lastState d) p (did d).
Definition with_did (a : daction) (d : EsifUpDomain) : EsifUpDomain := mk_domain (capability_for_domain d) (temp d) (tempPoll d) (lastState d) (statePoll d) (did d ++ [a]).

Definition with_type (ty : EsifDomainPollTypeId) (p : poll) : poll := mk_poll (pollPeriod p) ty (pollInitialized p) (pollTimer p).
Definition with_period (ms : Z) (p : poll) : poll := mk_poll ms (pollType p) (pollInitialized p) (pollTimer p).
Definition with_timer (i : bool) (t : option Z) (p : poll) : poll := mk_poll (pollPeriod p) (pollType p) i t.

Definition mod_temp (f : temperature -> temperature) : DM unit := smodify (fun d => with_temp (f (temp d)) d).
Definition mod_temp_poll (f : poll -> poll) : DM unit := smodify (fun d => with_temp_poll (f (tempPoll d)) d).
Definition mod_state_poll (f : poll -> poll) : DM unit := smodify (fun d => with_state_poll (f (statePoll d)) d).

Definition with_aux0 (a h : Z) (t : temperature) : temperature :=
  mk_temp (virtTemp t) a (tempAux1 t) h (tempHysteresis t) (tempNotifySent t) (tempLastTempValid t) (tempInvalidValueDetected t).
Definition with_aux1 (a : Z) (t : temperature) : temperature :=
  mk_temp (virtTemp t) (tempAux0 t) a (tempAux0WHyst t) (tempHysteresis t) (tempNotifySent t) (tempLastTempValid t) (tempInvalidValueDetected t).
Definition with_hysteresis (h : Z) (t : temperature) : temperature :=
  mk_temp (virtTemp t) (tempAux0 t) (tempAux1 t) (tempAux0WHyst t) h (tempNotifySent t) (tempLastTempValid t) (tempInvalidValueDetected t).

(** The answers of the world: of a GET primitive of the domain (number and
    instance; the result code and the value that is left in the buffer), of a SET
    primitive, of GET_AUTO_ENUM_LIST on the primary participant, and of creating
    and setting a timer. *)
Record denv : Type := mk_denv {
  dget : Z -> Z -> Z * Z;
  dset : Z -> Z -> Z -> Z;
  auto_enum_list : Z;
  timer_init : Z;
  timer_set : Z
}.

(* ------------------------------------------------------------------ *)
(** ** The timers *)

(** [esif_ccb_timer_set_msec], which refuses a time of 0 (TimerApi.v). *)
Definition set_timer (v : denv) (mod_poll : (poll -> poll) -> DM unit) (ms : Z) : DM Z :=
  if ms =? 0 then sret ESIF_E_REQUEST_DATA_OUT_OF_BOUNDS
  else (if timer_set v =? ESIF_OK then mod_poll (fun p => with_timer (pollInitialized p) (Some ms) p) else sret tt) ;! sret (timer_set v).

Definition EsifUpDomain_StartTempPollPriv (v : denv) : DM Z :=
  let! d := sget in
  if negb (bool_decide (pollType (tempPoll d) = ESIF_POLL_NONE)) then sret ESIF_OK
  else if negb (timer_init v =? ESIF_OK) then sret (timer_init v)
  else
    mod_temp_poll (fun p => with_type ESIF_POLL_DOMAIN (with_timer true None p)) ;!
    set_timer v mod_temp_poll (pollPeriod (tempPoll d)).

Definition EsifUpDomain_StartStatePollPriv (v : denv) : DM Z :=
  let! d := sget in
  let p := statePoll d in
  if negb (bool_decide (pollType p = ESIF_POLL_NONE)) && negb (bool_decide (pollType p = ESIF_POLL_DOMAIN)) then sret ESIF_OK
  else if pollPeriod p =? 0 then sret ESIF_OK
  else if negb (pollInitialized p) then
    if negb (timer_init v =? ESIF_OK) then sret (timer_init v)
    else
      mod_state_poll (fun p => with_type ESIF_POLL_DOMAIN (with_timer true None p)) ;!
      set_timer v mod_state_poll (pollPeriod p)
  else set_timer v mod_state_poll (pollPeriod p).

Definition EsifUpDomain_SetStatePollPeriod (v : denv) (sampleTime : Z) : DM Z :=
  if sampleTime =? 0 then sret ESIF_E_PARAMETER_IS_OUT_OF_BOUNDS
  else mod_state_poll (with_period sampleTime) ;! EsifUpDomain_StartStatePollPriv v.

(* ------------------------------------------------------------------ *)
(** ** The capabilities *)

Definition EsifUpDomain_DisableCap (cap : Z) : DM unit :=
  smodify (fun d =>
    let c := capability_for_domain d in
    if negb (Z.land (capability_flags c) (u32 (Z.shiftl 1 cap)) =? 0) then
      with_caps (mk_caps (Z.ldiff (capability_flags c) (u32 (Z.shiftl 1 cap))) (u8 (number_of_capability_flags c - 1))
        (<[Z.to_nat cap := 0]> (capability_mask c))) d
    else d).

Fixpoint count_flags (flags : Z) (l : list Z) (n : Z) : Z :=
  match l with
  | [] => n
  | i :: l => count_flags flags l (if negb (Z.land flags (u32 (Z.shiftl 1 i)) =? 0) then u8 (n + 1) else n)
  end.
Definition EsifUpDomain_EnableCaps (capabilityFlags : Z) (capabilityMask : option (list Z)) : DM Z :=
  match capabilityMask with
  | None => sret ESIF_E_PARAMETER_IS_NULL
  | Some m =>
      smodify (with_caps (mk_caps capabilityFlags (count_flags capabilityFlags (seqZ 0 (Z.of_nat MAX_CAPABILITY_MASK)) 0) (take 32 m))) ;!
      sret ESIF_OK
  end.

(** The result code and the value in the buffer, 0 if the primitive is not
    executed. *)
Definition EsifUpDomain_CapDetect (v : denv) (cap id instance : Z) : DM (Z * Z) :=
  let! d := sget in
  if Z.land (capability_flags (capability_for_domain d)) (u32 (Z.shiftl 1 cap)) =? 0 then sret (ESIF_E_NOT_SUPPORTED, 0)
  else sret (dget v id instance).

Definition acceptable (rc : Z) : bool := (rc =? ESIF_OK) || (rc =? ESIF_I_AGAIN) || (rc =? ESIF_E_NEED_LARGER_BUFFER).

(** The patterns of the detection functions.  One primitive has to be accepted by
    [ok]; or, of several, the first that is ends the search; or all have to
    succeed.  Otherwise the capability is disabled. *)
Definition detect_one (v : denv) (ok : Z -> bool) (cap id instance : Z) : DM Z :=
  let! r := EsifUpDomain_CapDetect v cap id instance in
  if ok r.1 then sret r.1 else EsifUpDomain_DisableCap cap ;! sret ESIF_E_NOT_SUPPORTED.
Fixpoint detect_any (v : denv) (ok : Z -> bool) (cap : Z) (ids : list Z) : DM Z :=
  match ids with
  | [] => EsifUpDomain_DisableCap cap ;! sret ESIF_E_NOT_SUPPORTED
  | id :: ids => let! r := EsifUpDomain_CapDetect v cap id 255 in if ok r.1 then sret r.1 else detect_any v ok cap ids
  end.
Fixpoint detect_all (v : denv) (cap : Z) (ids : list Z) : DM Z :=
  match ids with
  | [] => sret ESIF_OK
  | id :: ids =>
      let! r := EsifUpDomain_CapDetect v cap id 255 in
      if r.1 =? ESIF_OK then detect_all v cap ids else EsifUpDomain_DisableCap cap ;! sret ESIF_E_NOT_SUPPORTED
  end.
Definition succeeded (rc : Z) : bool := rc =? ESIF_OK.

Definition EsifUpDomain_TempDetectInit (v : denv) : DM Z :=
  mod_temp_poll (with_type ESIF_POLL_NONE) ;!
  let! r := EsifUpDomain_CapDetect v ESIF_CAPABILITY_TYPE_TEMP_STATUS GET_TEMPERATURE 255 in
  if negb (acceptable r.1) then
    mod_temp_poll (with_type ESIF_POLL_UNSUPPORTED) ;!
    EsifUpDomain_DisableCap ESIF_CAPABILITY_TYPE_TEMP_STATUS ;!
    EsifUpDomain_DisableCap ESIF_CAPABILITY_TYPE_TEMP_THRESHOLD ;!
    sret ESIF_E_NOT_SUPPORTED
  else
    let h := dget v GET_TEMPERATURE_THRESHOLD_HYSTERESIS 255 in
    mod_temp (with_hysteresis h.2) ;!
    if negb (h.1 =? ESIF_OK) then mod_temp (with_hysteresis (esif_temp_rel_to_abs ESIF_DOMAIN_HYST_DEF)) ;! sret ESIF_OK
    else
      mod_temp (fun t => with_aux1 ESIF_DOMAIN_TEMP_INVALID (with_aux0 ESIF_DOMAIN_TEMP_INVALID (tempAux0WHyst t) t)) ;!
      sret ESIF_OK.

Definition EsifUpDomain_PowerStatusDetectInit (v : denv) : DM Z := detect_one v acceptable ESIF_CAPABILITY_TYPE_POWER_STATUS GET_RAPL_POWER 255.
Definition EsifUpDomain_PowerControlDetectInit (v : denv) : DM Z :=
  detect_one v acceptable ESIF_CAPABILITY_TYPE_POWER_CONTROL GET_RAPL_POWER_CONTROL_CAPABILITIES 255.
Definition EsifUpDomain_PsysDetectInit (v : denv) : DM Z := detect_one v acceptable ESIF_CAPABILITY_TYPE_PSYS_CONTROL GET_PLATFORM_POWER_LIMIT_ENABLE 0.

Definition EsifUpDomain_IsHwpSupported (v : denv) : bool :=
  let r := dget v GET_PROC_HWP_SUPPORT_CHECK 255 in (r.1 =? ESIF_OK) && negb (r.2 =? 0).
Definition EsifUpDomain_IsHwpEnabled (v : denv) : bool :=
  let r := dget v GET_PROC_HWP_ENABLE 255 in (r.1 =? ESIF_OK) && negb (r.2 =? 0).
Definition EsifUpDomain_IsHwpCapable (v : denv) : bool := EsifUpDomain_IsHwpSupported v && EsifUpDomain_IsHwpEnabled v.
Definition EsifUpDomain_ProcPerfDetect (v : denv) : DM Z :=
  let! r := EsifUpDomain_CapDetect v ESIF_CAPABILITY_TYPE_PERF_CONTROL GET_PROC_PERF_SUPPORT_STATES 255 in sret r.1.
Definition EsifUpDomain_PerfDetectInit (v : denv) : DM Z :=
  let! r := EsifUpDomain_CapDetect v ESIF_CAPABILITY_TYPE_PERF_CONTROL GET_PERF_SUPPORT_STATES 255 in
  if negb (acceptable r.1) then
    let! rc := EsifUpDomain_ProcPerfDetect v in
    let rc := if (rc =? ESIF_OK) && EsifUpDomain_IsHwpCapable v then ESIF_E_NOT_SUPPORTED else rc in
    if negb (acceptable rc) then EsifUpDomain_DisableCap ESIF_CAPABILITY_TYPE_PERF_CONTROL ;! sret ESIF_E_NOT_SUPPORTED else sret rc
  else sret r.1.

Definition EsifUpDomain_ActiveControlDetectInit (v : denv) : DM Z :=
  detect_any v succeeded ESIF_CAPABILITY_TYPE_ACTIVE_CONTROL [GET_FAN_INFORMATION; GET_FAN_CAPABILITIES; GET_FAN_STATUS; GET_FAN_PERFORMANCE_STATES].
Definition EsifUpDomain_DisplayControlDetectInit (v : denv) : DM Z :=
  detect_any v succeeded ESIF_CAPABILITY_TYPE_DISPLAY_CONTROL [GET_DISPLAY_BRIGHTNESS; GET_DISPLAY_BRIGHTNESS_LEVELS; GET_DISPLAY_DEPTH_LIMIT].
Definition EsifUpDomain_PeakPowerControlDetectInit (v : denv) : DM Z :=
  detect_all v ESIF_CAPABILITY_TYPE_PEAK_POWER_CONTROL [GET_AC_PEAK_POWER; GET_DC_PEAK_POWER].
Definition EsifUpDomain_ProcessorControlDetectInit (v : denv) : DM Z := detect_one v succeeded ESIF_CAPABILITY_TYPE_PROCESSOR_CONTROL GET_TCC_OFFSET 255.
Definition EsifUpDomain_PlatformPowerStatusDetectInit (v : denv) : DM Z :=
  detect_one v succeeded ESIF_CAPABILITY_TYPE_PLAT_POWER_STATUS GET_PLATFORM_POWER_SOURCE 255.
Definition EsifUpDomain_RfProfileStatusDetectInit (v : denv) : DM Z :=
  let! r := EsifUpDomain_CapDetect v ESIF_CAPABILITY_TYPE_RFPROFILE_STATUS GET_RFPROFILE_CENTER_FREQUENCY 255 in
  if r.1 =? ESIF_OK then sret r.1
  else
    let! r := EsifUpDomain_CapDetect v ESIF_CAPABILITY_TYPE_RFPROFILE_STATUS GET_RF_ACTIVE_CHANNELS 255 in
    if r.1 =? ESIF_OK then sret r.1
    else if auto_enum_list v =? ESIF_I_NO_LEGACY_SUPPORT then sret (auto_enum_list v)
    else EsifUpDomain_DisableCap ESIF_CAPABILITY_TYPE_RFPROFILE_STATUS ;! sret ESIF_E_NOT_SUPPORTED.
Definition EsifUpDomain_RfProfileControlDetectInit (v : denv) : DM Z :=
  detect_all v ESIF_CAPABILITY_TYPE_RFPROFILE_CONTROL [GET_RFPROFILE_CENTER_FREQUENCY; GET_RFPROFILE_MIN_FREQUENCY; GET_RFPROFILE_MAX_FREQUENCY].
Definition EsifUpDomain_EnergyControlDetectInit (v : denv) : DM Z :=
  detect_any v succeeded ESIF_CAPABILITY_TYPE_ENERGY_CONTROL [GET_RAPL_ENERGY; GET_RAPL_ENERGY_COUNTER_INFO].
Definition EsifUpDomain_ActivityStatusDetectInit (v : denv) : DM Z :=
  detect_any v succeeded ESIF_CAPABILITY_TYPE_ACTIVITY_STATUS [GET_PARTICIPANT_RESIDENCY_UTILIZATION; GET_CORE_ACTIVITY_COUNTER; GET_PROC_TSC].
Definition EsifUpDomain_BatteryStatusDetectInit (v : denv) : DM Z :=
  detect_any v acceptable ESIF_CAPABILITY_TYPE_BATTERY_STATUS
    [GET_PLATFORM_MAX_BATTERY_POWER; GET_PLATFORM_BATTERY_STEADY_STATE; GET_CHARGER_TYPE; GET_BATTERY_STATUS; GET_BATTERY_INFORMATION].
Definition EsifUpDomain_WorkloadClassificationDetectInit (v : denv) : DM Z :=
  let! r := EsifUpDomain_CapDetect v ESIF_CAPABILITY_TYPE_WORKLOAD_CLASSIFICATION GET_SOCWLC_SOURCE 255 in
  if (r.1 =? ESIF_OK) && (r.2 =? ESIF_SOCWC_SOURCE_HARDWARE) then
    detect_one v succeeded ESIF_CAPABILITY_TYPE_WORKLOAD_CLASSIFICATION GET_HW_SOC_WORKLOAD 255
  else sret r.1.

(** The buffer of [GET_PARTICIPANT_PERF_PRESENT_CAPABILITY] is initialised with the
    invalid state; the environment answers that if it leaves it. *)
Definition EsifUpDomain_StateDetectInit (v : denv) : DM Z :=
  smodify (with_last_state ESIF_DOMAIN_STATE_INVALID) ;!
  let! r := EsifUpDomain_CapDetect v ESIF_CAPABILITY_TYPE_PERF_CONTROL GET_PARTICIPANT_PERF_PRESENT_CAPABILITY 255 in
  if negb (acceptable r.1) then mod_state_poll (with_type ESIF_POLL_UNSUPPORTED) ;! sret ESIF_E_NOT_SUPPORTED
  else
    EsifUpDomain_SetStatePollPeriod v PERF_STATE_POLL_PERIOD ;!
    smodify (with_last_state r.2) ;!
    sret r.1.

(** [EsifUpDomain_InitTempPoll] and [EsifUpDomain_InitPowerPoll]. *)
Definition init_poll (v : denv) (get_id set_id : Z) : DM Z :=
  let p := dget v get_id 255 in
  if p.1 =? ESIF_OK then smodify (with_did (DSet set_id 255 p.2)) ;! sret (dset v set_id 255 p.2) else sret p.1.
Definition EsifUpDomain_InitTempPoll (v : denv) : DM Z := init_poll v GET_PARTICIPANT_SAMPLE_PERIOD SET_PARTICIPANT_SAMPLE_BEHAVIOR.
Definition EsifUpDomain_InitPowerPoll (v : denv) : DM Z := init_poll v GET_POWER_SAMPLE_PERIOD SET_POWER_SAMPLE_BEHAVIOR.

(** The steps of the detection, each with what the result of the one before must
    be for it to be taken. *)
Definition after_soft (rc : Z) : bool := (rc =? ESIF_E_NOT_SUPPORTED) || acceptable rc.
Definition after_hard (rc : Z) : bool := (rc =? ESIF_OK) || (rc =? ESIF_E_NOT_SUPPORTED).
Fixpoint detect_steps (l : list ((Z -> bool) * DM Z)) (rc : Z) : DM Z :=
  match l with
  | [] => sret rc
  | (may, step) :: l => let! rc := (if may rc then step else sret rc) in detect_steps l rc
  end.

Definition EsifUpDomain_DspReadyInit (v : denv) : DM Z :=
  EsifUpDomain_InitTempPoll v ;!
  EsifUpDomain_InitPowerPoll v ;!
  let! rc := EsifUpDomain_TempDetectInit v in
  let! rc := detect_steps
    [(after_soft, EsifUpDomain_PowerStatusDetectInit v); (after_soft, EsifUpDomain_PowerControlDetectInit v);
     (after_soft, EsifUpDomain_PsysDetectInit v); (after_soft, EsifUpDomain_PerfDetectInit v);
     (after_soft, EsifUpDomain_BatteryStatusDetectInit v); (after_hard, EsifUpDomain_ActiveControlDetectInit v);
     (after_hard, EsifUpDomain_DisplayControlDetectInit v); (after_hard, EsifUpDomain_PeakPowerControlDetectInit v);
     (after_hard, EsifUpDomain_ProcessorControlDetectInit v); (after_hard, EsifUpDomain_PlatformPowerStatusDetectInit v);
     (after_hard, EsifUpDomain_RfProfileStatusDetectInit v); (after_hard, EsifUpDomain_RfProfileControlDetectInit v);
     (after_hard, EsifUpDomain_EnergyControlDetectInit v); (after_hard, EsifUpDomain_ActivityStatusDetectInit v);
     (after_hard, EsifUpDomain_WorkloadClassificationDetectInit v); (after_soft, EsifUpDomain_StateDetectInit v)] rc in
  sret (if after_soft rc then ESIF_OK else rc).

(* ------------------------------------------------------------------ *)
(** ** The capabilities that are left are those that the device answers *)

Definition has_cap (c : EsifDomainCapability) (i : Z) : bool := Z.testbit (capability_flags c) i.

(** Which of the capabilities with a detection the device has, by what it answers;
    [c] is what the support package says. *)
Definition answers (v : denv) (c : EsifDomainCapability) (cap : Z) : bool :=
  let rc id := (dget v id 255).1 in
  let ok id := rc id =? ESIF_OK in
  if cap =? ESIF_CAPABILITY_TYPE_TEMP_STATUS then acceptable (rc GET_TEMPERATURE)
  else if cap =? ESIF_CAPABILITY_TYPE_TEMP_THRESHOLD then has_cap c ESIF_CAPABILITY_TYPE_TEMP_STATUS && acceptable (rc GET_TEMPERATURE)
  else if cap =? ESIF_CAPABILITY_TYPE_POWER_STATUS then acceptable (rc GET_RAPL_POWER)
  else if cap =? ESIF_CAPABILITY_TYPE_POWER_CONTROL then acceptable (rc GET_RAPL_POWER_CONTROL_CAPABILITIES)
  else if cap =? ESIF_CAPABILITY_TYPE_PSYS_CONTROL then acceptable (dget v GET_PLATFORM_POWER_LIMIT_ENABLE 0).1
  else if cap =? ESIF_CAPABILITY_TYPE_PERF_CONTROL then
    acceptable (rc GET_PERF_SUPPORT_STATES) || (acceptable (rc GET_PROC_PERF_SUPPORT_STATES) && negb (ok GET_PROC_PERF_SUPPORT_STATES && EsifUpDomain_IsHwpCapable v))
  else if cap =? ESIF_CAPABILITY_TYPE_BATTERY_STATUS then
    existsb (fun id => acceptable (rc id)) [GET_PLATFORM_MAX_BATTERY_POWER; GET_PLATFORM_BATTERY_STEADY_STATE; GET_CHARGER_TYPE; GET_BATTERY_STATUS; GET_BATTERY_INFORMATION]
  else if cap =? ESIF_CAPABILITY_TYPE_ACTIVE_CONTROL then existsb ok [GET_FAN_INFORMATION; GET_FAN_CAPABILITIES; GET_FAN_STATUS; GET_FAN_PERFORMANCE_STATES]
  else if cap =? ESIF_CAPABILITY_TYPE_DISPLAY_CONTROL then existsb ok [GET_DISPLAY_BRIGHTNESS; GET_DISPLAY_BRIGHTNESS_LEVELS; GET_DISPLAY_DEPTH_LIMIT]
  else if cap =? ESIF_CAPABILITY_TYPE_PEAK_POWER_CONTROL then forallb ok [GET_AC_PEAK_POWER; GET_DC_PEAK_POWER]
  else if cap =? ESIF_CAPABILITY_TYPE_PROCESSOR_CONTROL then ok GET_TCC_OFFSET
  else if cap =? ESIF_CAPABILITY_TYPE_PLAT_POWER_STATUS then ok GET_PLATFORM_POWER_SOURCE
  else if cap =? ESIF_CAPABILITY_TYPE_RFPROFILE_STATUS then ok GET_RFPROFILE_CENTER_FREQUENCY || ok GET_RF_ACTIVE_CHANNELS
  else if cap =? ESIF_CAPABILITY_TYPE_RFPROFILE_CONTROL then
    forallb ok [GET_RFPROFILE_CENTER_FREQUENCY; GET_RFPROFILE_MIN_FREQUENCY; GET_RFPROFILE_MAX_FREQUENCY]
  else if cap =? ESIF_CAPABILITY_TYPE_ENERGY_CONTROL then existsb ok [GET_RAPL_ENERGY; GET_RAPL_ENERGY_COUNTER_INFO]
  else if cap =? ESIF_CAPABILITY_TYPE_ACTIVITY_STATUS then existsb ok [GET_PARTICIPANT_RESIDENCY_UTILIZATION; GET_CORE_ACTIVITY_COUNTER; GET_PROC_TSC]
  else if cap =? ESIF_CAPABILITY_TYPE_WORKLOAD_CLASSIFICATION then
    negb (ok GET_SOCWLC_SOURCE && ((dget v GET_SOCWLC_SOURCE 255).2 =? ESIF_SOCWC_SOURCE_HARDWARE)) || ok GET_HW_SOC_WORKLOAD
  else true.

Definition flag_count (flags : Z) : Z := Z.of_nat (length (filter (fun i => Z.testbit flags i = true) (seqZ 0 32))).

(** The counter counts the flags. *)
Record caps_ok (c : EsifDomainCapability) : Prop := {
  co_flags : in_range 32 (capability_flags c);
  co_count : number_of_capability_flags c = flag_count (capability_flags c);
  co_mask : length (capability_mask c) = 32%nat
}.

Lemma flag_mask cap : 0 <= cap < 32 -> u32 (Z.shiftl 1 cap) = 2 ^ cap.
Proof. intros Hc. rewrite Z.shiftl_1_l. apply wrap_small. split; [apply Z.pow_nonneg; lia|apply Z.pow_lt_mono_r; lia]. Qed.

Lemma flag_test flags cap : 0 <= cap < 32 -> (Z.land flags (u32 (Z.shiftl 1 cap)) =? 0) = negb (Z.testbit flags cap).
Proof.
  intros Hc. rewrite flag_mask by done. rewrite <- (bit_mask cap) by lia. apply pos_bit. lia.
Qed.

Lemma cleared flags cap i : 0 <= cap -> 0 <= i -> Z.testbit (Z.ldiff flags (2 ^ cap)) i = Z.testbit flags i && negb (i =? cap).
Proof. intros Hc Hi. rewrite Z.ldiff_spec, Z.pow2_bits_eqb by lia. by rewrite Z.eqb_sym. Qed.

Lemma filter_same (P Q : Z -> Prop) `{!forall y, Decision (P y)} `{!forall y, Decision (Q y)} (l : list Z) :
  (forall y, y ∈ l -> P y <-> Q y) -> filter P l = filter Q l.
Proof.
  induction l as [|y l IH]; intros Heq; [done|]. pose proof (Heq y ltac:(left)) as Hy. specialize (IH (fun z Hz => Heq z (list_elem_of_further _ _ _ Hz))).
  destruct (decide (P y)); [rewrite !filter_cons_True by tauto; by rewrite IH|rewrite !filter_cons_False by tauto; done].
Qed.

Lemma filter_length_remove (x : Z) (P Q : Z -> Prop) `{!forall y, Decision (P y)} `{!forall y, Decision (Q y)} (l : list Z) :
  NoDup l -> x ∈ l -> P x -> (forall y, Q y <-> P y /\ y <> x) -> length (filter P l) = S (length (filter Q l)).
Proof.
  intros Hn Hx HP HQ. induction l as [|y l IH]; [by apply elem_of_nil in Hx|]. apply NoDup_cons in Hn as [Hy Hn].
  destruct (decide (y = x)) as [->|Hne].
  - rewrite filter_cons_True by done. rewrite (filter_cons_False Q) by (rewrite HQ; tauto). cbn [length]. f_equal. f_equal.
    apply filter_same. intros z Hz. rewrite HQ. split; [|tauto]. intros HPz. split; [done|]. by intros ->.
  - apply elem_of_cons in Hx as [->|Hx]; [done|]. destruct (decide (P y)) as [HPy|HPy].
    + rewrite (filter_cons_True P), (filter_cons_True Q) by (rewrite ?HQ; tauto). cbn [length]. f_equal. by apply IH.
    + rewrite (filter_cons_False P), (filter_cons_False Q) by (rewrite ?HQ; tauto). by apply IH.
Qed.

(** What disabling a capability makes of the capabilities. *)
Definition without (cap : Z) (c : EsifDomainCapability) : EsifDomainCapability :=
  if has_cap c cap then
    mk_caps (Z.ldiff (capability_flags c) (2 ^ cap)) (flag_count (Z.ldiff (capability_flags c) (2 ^ cap))) (<[Z.to_nat cap := 0]> (capability_mask c))
  else c.

Lemma flags_pos c : caps_ok c -> 0 <= capability_flags c.
Proof. intros [[? ?] _ _]. done. Qed.

Lemma without_ok cap c : 0 <= cap < 32 -> caps_ok c -> caps_ok (without cap c).
Proof.
  intros Hc H. unfold without. destruct (has_cap c cap); [|done]. destruct H as [Hf Hn Hm]. split; cbn; [|done|by rewrite length_insert].
  destruct Hf as [H0 H1]. split; [apply Z.ldiff_nonneg; by left|]. apply Z.bounded_iff_bits_nonneg; [lia|by apply Z.ldiff_nonneg; left|]. intros l Hl.
  rewrite cleared by lia. by rewrite (proj1 (Z.bounded_iff_bits_nonneg 32 _ ltac:(lia) H0) H1 l Hl).
Qed.

Lemma has_without cap c i : 0 <= cap -> 0 <= i -> has_cap (without cap c) i = has_cap c i && negb (i =? cap).
Proof.
  intros Hc Hi. unfold without, has_cap. destruct (Z.testbit (capability_flags c) cap) eqn:E; cbn [capability_flags]; [by apply cleared|].
  destruct (Z.eqb_spec i cap) as [->|]; [by rewrite E|by rewrite andb_true_r].
Qed.

Lemma disable_cap_spec cap d : 0 <= cap < 32 -> caps_ok (capability_for_domain d) ->
  EsifUpDomain_DisableCap cap d = Some (tt, with_caps (without cap (capability_for_domain d)) d).
Proof.
  intros Hc [Hf Hn Hm]. unfold EsifUpDomain_DisableCap, smodify, without, has_cap. rewrite flag_test, flag_mask by done. rewrite negb_involutive.
  destruct (Z.testbit (capability_flags (capability_for_domain d)) cap) eqn:E; [|by destruct d]. do 3 f_equal. f_equal. rewrite Hn.
  assert (Hl : flag_count (capability_flags (capability_for_domain d)) = flag_count (Z.ldiff (capability_flags (capability_for_domain d)) (2 ^ cap)) + 1).
  { unfold flag_count. rewrite (filter_length_remove cap _ (fun i => Z.testbit (Z.ldiff (capability_flags (capability_for_domain d)) (2 ^ cap)) i = true)); [lia|..].
    - apply NoDup_seqZ.
    - apply elem_of_seqZ. lia.
    - done.
    - intros y. destruct (Z_lt_ge_dec y 0) as [Hy|Hy]; [rewrite !Z.testbit_neg_r by lia; intuition congruence|].
      rewrite cleared by lia. rewrite andb_true_iff, negb_true_iff, Z.eqb_neq. done. }
  rewrite Hl, Z.add_simpl_r. apply wrap_small. unfold in_range, flag_count. split; [lia|].
  assert (length (filter (fun i => Z.testbit (Z.ldiff (capability_flags (capability_for_domain d)) (2 ^ cap)) i = true) (seqZ 0 32)) <= length (seqZ 0 32))%nat by apply length_filter.
  rewrite length_seqZ in *. lia.
Qed.

(** What one detection makes of the capabilities. *)
Definition settle (v : denv) (c : EsifDomainCapability) (cap : option Z) : EsifDomainCapability :=
  match cap with
  | Some cap => if answers v c cap then c else without cap c
  | None => c
  end.
(** A step settles [cap] with a result in [rcs]. *)
Definition detects (v : denv) (cap : option Z) (rcs : Z -> bool) (step : DM Z) : Prop :=
  forall d, caps_ok (capability_for_domain d) ->
    exists rc d', step d = Some (rc, d') /\ rcs rc = true /\ capability_for_domain d' = settle v (capability_for_domain d) cap.
Fixpoint chained (v : denv) (prev : Z -> bool) (l : list ((Z -> bool) * DM Z)) (caps : list (option Z)) : Prop :=
  match l, caps with
  | [], [] => forall rc, prev rc = true -> after_soft rc = true
  | (may, step) :: l, cap :: caps =>
      (forall rc, prev rc = true -> may rc = true) /\ exists rcs, detects v cap rcs step /\ chained v rcs l caps
  | _, _ => False
  end.
Definition cap_range (cap : option Z) : Prop := match cap with Some cap => 0 <= cap < 32 | None => True end.

Lemma settle_ok v c cap : cap_range cap -> caps_ok c -> caps_ok (settle v c cap).
Proof. intros Hc Hok. unfold settle. destruct cap as [cap|]; [|done]. destruct (answers v c cap); [done|by apply without_ok]. Qed.

Lemma detect_steps_spec v caps : Forall cap_range caps -> forall l prev rc d,
  chained v prev l caps -> prev rc = true -> caps_ok (capability_for_domain d) ->
  exists rc' d', detect_steps l rc d = Some (rc', d') /\ after_soft rc' = true /\
    caps_ok (capability_for_domain d') /\ capability_for_domain d' = foldl (settle v) (capability_for_domain d) caps.
Proof.
  induction 1 as [|cap caps Hcap Hcaps IH]; intros [|[may step] l] prev rc d Hch Hrc Hok; try done.
  { exists rc, d. cbn in Hch |- *. eauto. }
  destruct Hch as (Hmay & rcs & Hdet & Hch). destruct (Hdet d Hok) as (rc1 & d1 & Hs & Hrc1 & Hd1).
  destruct (IH l rcs rc1 d1 Hch Hrc1 ltac:(rewrite Hd1; by apply settle_ok)) as (rc' & d' & Hr & Hrc' & Hok' & Hd').
  exists rc', d'. cbn [detect_steps]. rewrite (Hmay rc Hrc), (sbind_some _ _ _ _ _ Hs). rewrite Hd1 in Hd'. eauto.
Qed.

Lemma with_caps_id d : with_caps (capability_for_domain d) d = d.
Proof. by destruct d. Qed.

(** A capability that the domain does not have is not asked for. *)
Lemma cap_detect_spec v cap id inst d : 0 <= cap < 32 ->
  EsifUpDomain_CapDetect v cap id inst d = Some (if has_cap (capability_for_domain d) cap then dget v id inst else (ESIF_E_NOT_SUPPORTED, 0), d).
Proof.
  intros Hc. unfold EsifUpDomain_CapDetect, sbind, sget, sret. rewrite flag_test by done. unfold has_cap.
  by destruct (Z.testbit (capability_flags (capability_for_domain d)) cap).
Qed.

Lemma without_absent cap c : has_cap c cap = false -> without cap c = c.
Proof. unfold without. by intros ->. Qed.

(** The result of a detection pattern that finds [b]: the capability is kept with a
    result of the accepted kind, or disabled. *)
Definition found (cap : Z) (rcs : Z -> bool) (b : bool) (step : DM Z) (d : EsifUpDomain) : Prop :=
  exists rc, rcs rc = true /\ step d = Some (rc, if b then d else with_caps (without cap (capability_for_domain d)) d).

Lemma found_disabled cap (rcs : Z -> bool) d b : 0 <= cap < 32 -> caps_ok (capability_for_domain d) -> rcs ESIF_E_NOT_SUPPORTED = true ->
  b = false \/ has_cap (capability_for_domain d) cap = false ->
  found cap rcs b (EsifUpDomain_DisableCap cap ;! sret ESIF_E_NOT_SUPPORTED) d.
Proof.
  intros Hc Hok Hns Hb. exists ESIF_E_NOT_SUPPORTED. split; [done|]. rewrite (sbind_some _ _ _ _ _ (disable_cap_spec _ _ Hc Hok)). unfold sret.
  destruct b; [|done]. destruct Hb as [?|Hb]; [done|]. by rewrite without_absent, with_caps_id.
Qed.

Lemma detect_any_spec v (ok rcs : Z -> bool) cap ids d : 0 <= cap < 32 -> caps_ok (capability_for_domain d) ->
  rcs ESIF_E_NOT_SUPPORTED = true -> ok ESIF_E_NOT_SUPPORTED = false ->
  (forall id, id ∈ ids -> ok (dget v id 255).1 = true -> rcs (dget v id 255).1 = true) ->
  found cap rcs (existsb (fun id => ok (dget v id 255).1) ids) (detect_any v ok cap ids) d.
Proof.
  intros Hc Hok Hns Hno. induction ids as [|id ids IH]; intros Hr; cbn [existsb detect_any].
  { apply found_disabled; auto. }
  specialize (IH (fun id' Hid => Hr id' (list_elem_of_further _ _ _ Hid))).
  unfold found. rewrite (sbind_some _ _ _ _ _ (cap_detect_spec _ _ _ _ _ Hc)).
  destruct (has_cap (capability_for_domain d) cap) eqn:Eh; cbn [fst]; [|rewrite Hno].
  - destruct (ok (dget v id 255).1) eqn:Eo; cbn [orb]; [|exact IH]. exists (dget v id 255).1. split; [|done]. apply Hr; [left|done].
  - destruct IH as (rc & Hrc & He). exists rc. split; [done|]. rewrite He. f_equal. f_equal.
    rewrite without_absent, with_caps_id by done. by destruct (existsb _ ids), (ok (dget v id 255).1).
Qed.

Lemma detect_all_spec v cap ids d : 0 <= cap < 32 -> caps_ok (capability_for_domain d) -> ids <> [] ->
  found cap after_hard (forallb (fun id => (dget v id 255).1 =? ESIF_OK) ids) (detect_all v cap ids) d.
Proof.
  intros Hc Hok Hne. destruct (has_cap (capability_for_domain d) cap) eqn:Eh.
  - clear Hne. induction ids as [|id ids IH]; cbn [forallb detect_all]; [by exists ESIF_OK|].
    unfold found. rewrite (sbind_some _ _ _ _ _ (cap_detect_spec _ _ _ _ _ Hc)), Eh.
    destruct ((dget v id 255).1 =? ESIF_OK); cbn [andb]; [exact IH|]. apply (found_disabled cap after_hard d false); auto.
  - destruct ids as [|id ids]; [done|]. unfold found. cbn [detect_all]. rewrite (sbind_some _ _ _ _ _ (cap_detect_spec _ _ _ _ _ Hc)), Eh.
    apply found_disabled; auto.
Qed.

Lemma detect_one_spec v (ok rcs : Z -> bool) cap id inst d : 0 <= cap < 32 -> caps_ok (capability_for_domain d) ->
  rcs ESIF_E_NOT_SUPPORTED = true -> ok ESIF_E_NOT_SUPPORTED = false -> (forall rc, ok rc = true -> rcs rc = true) ->
  found cap rcs (ok (dget v id inst).1) (detect_one v ok cap id inst) d.
Proof.
  intros Hc Hok Hns Hno Hr. unfold found, detect_one. rewrite (sbind_some _ _ _ _ _ (cap_detect_spec _ _ _ _ _ Hc)).
  destruct (has_cap (capability_for_domain d) cap) eqn:Eh; cbn [fst]; [|rewrite Hno; apply found_disabled; auto].
  destruct (ok (dget v id inst).1) eqn:Eo; [|apply (found_disabled cap rcs d false); auto]. exists (dget v id inst).1. eauto.
Qed.

(** A pattern that finds what [answers] says is a step of the chain. *)
Lemma found_detects v cap (rcs : Z -> bool) (b : bool) step :
  (forall d, caps_ok (capability_for_domain d) -> found cap rcs b step d) -> (forall c, answers v c cap = b) -> detects v (Some cap) rcs step.
Proof.
  intros Hf Hb d Hok. destruct (Hf d Hok) as (rc & Hrc & He). exists rc, (if b then d else with_caps (without cap (capability_for_domain d)) d).
  split; [done|]. split; [done|]. cbn. rewrite Hb. by destruct b.
Qed.

Lemma answers_status v c : answers v c ESIF_CAPABILITY_TYPE_TEMP_STATUS = acceptable (dget v GET_TEMPERATURE 255).1.
Proof. done. Qed.
Lemma answers_threshold v c :
  answers v c ESIF_CAPABILITY_TYPE_TEMP_THRESHOLD = has_cap c ESIF_CAPABILITY_TYPE_TEMP_STATUS && acceptable (dget v GET_TEMPERATURE 255).1.
Proof. done. Qed.

(** The two capabilities for temperatures, of which the second depends on the
    first. *)
Lemma temp_detect_spec v d : caps_ok (capability_for_domain d) ->
  exists rc d', EsifUpDomain_TempDetectInit v d = Some (rc, d') /\ after_soft rc = true /\
    capability_for_domain d' =
      foldl (settle v) (capability_for_domain d) [Some ESIF_CAPABILITY_TYPE_TEMP_STATUS; Some ESIF_CAPABILITY_TYPE_TEMP_THRESHOLD].
Proof.
  intros Hok. unfold EsifUpDomain_TempDetectInit, mod_temp_poll, mod_temp. rewrite smodify_bind. set (d1 := with_temp_poll _ d).
  assert (Hd1 : capability_for_domain d1 = capability_for_domain d) by done. rewrite <- Hd1 in *. clearbody d1. clear d Hd1.
  rewrite (sbind_some _ _ _ _ _ (cap_detect_spec v ESIF_CAPABILITY_TYPE_TEMP_STATUS GET_TEMPERATURE 255 d1 ltac:(done))).
  cbn [foldl settle]. rewrite answers_status, answers_threshold.
  assert (Hdis : forall d2, capability_for_domain d2 = capability_for_domain d1 ->
    exists d', (EsifUpDomain_DisableCap ESIF_CAPABILITY_TYPE_TEMP_STATUS ;! EsifUpDomain_DisableCap ESIF_CAPABILITY_TYPE_TEMP_THRESHOLD ;!
      sret ESIF_E_NOT_SUPPORTED) d2 = Some (ESIF_E_NOT_SUPPORTED, d') /\
      capability_for_domain d' = without ESIF_CAPABILITY_TYPE_TEMP_THRESHOLD (without ESIF_CAPABILITY_TYPE_TEMP_STATUS (capability_for_domain d1))).
  { intros d2 H2. rewrite <- H2 in *. rewrite (sbind_some _ _ _ _ _ (disable_cap_spec ESIF_CAPABILITY_TYPE_TEMP_STATUS _ ltac:(done) Hok)).
    rewrite (sbind_some _ _ _ _ _ (disable_cap_spec ESIF_CAPABILITY_TYPE_TEMP_THRESHOLD (with_caps (without ESIF_CAPABILITY_TYPE_TEMP_STATUS (capability_for_domain d2)) d2)
      ltac:(done) (without_ok ESIF_CAPABILITY_TYPE_TEMP_STATUS _ ltac:(done) Hok))).
    eexists. split; [done|]. done. }
  assert (Hno : acceptable (if has_cap (capability_for_domain d1) ESIF_CAPABILITY_TYPE_TEMP_STATUS then dget v GET_TEMPERATURE 255
      else (ESIF_E_NOT_SUPPORTED, 0)).1 = has_cap (capability_for_domain d1) ESIF_CAPABILITY_TYPE_TEMP_STATUS && acceptable (dget v GET_TEMPERATURE 255).1)
    by (by destruct (has_cap (capability_for_domain d1) ESIF_CAPABILITY_TYPE_TEMP_STATUS)).
  rewrite Hno. destruct (has_cap (capability_for_domain d1) ESIF_CAPABILITY_TYPE_TEMP_STATUS && acceptable (dget v GET_TEMPERATURE 255).1) eqn:Eb; cbn [negb].
  - apply andb_true_iff in Eb as [Eh Ea]. rewrite Ea, Eh. rewrite smodify_bind. cbn [andb].
    destruct (negb _); rewrite smodify_bind; eexists _, _; (split; [done|]); by split.
  - rewrite smodify_bind. destruct (Hdis (with_temp_poll (with_type ESIF_POLL_UNSUPPORTED (tempPoll d1)) d1) eq_refl) as (d' & -> & Hd').
    eexists _, _. split; [done|]. split; [done|]. rewrite Hd'. destruct (acceptable (dget v GET_TEMPERATURE 255).1) eqn:Ea; [|by rewrite andb_false_r].
    rewrite andb_true_r in *. rewrite Eb. by rewrite (without_absent ESIF_CAPABILITY_TYPE_TEMP_STATUS).
Qed.

Lemma perf_detect_spec v d : caps_ok (capability_for_domain d) ->
  found ESIF_CAPABILITY_TYPE_PERF_CONTROL after_soft
    (acceptable (dget v GET_PERF_SUPPORT_STATES 255).1 ||
     (acceptable (dget v GET_PROC_PERF_SUPPORT_STATES 255).1 && negb (((dget v GET_PROC_PERF_SUPPORT_STATES 255).1 =? ESIF_OK) && EsifUpDomain_IsHwpCapable v)))
    (EsifUpDomain_PerfDetectInit v) d.
Proof.
  intros Hok. assert (Hd : forall b, b = false \/ has_cap (capability_for_domain d) ESIF_CAPABILITY_TYPE_PERF_CONTROL = false ->
    found ESIF_CAPABILITY_TYPE_PERF_CONTROL after_soft b (EsifUpDomain_DisableCap ESIF_CAPABILITY_TYPE_PERF_CONTROL ;! sret ESIF_E_NOT_SUPPORTED) d)
    by (intros; by apply found_disabled).
  pose proof (fun id => cap_detect_spec v ESIF_CAPABILITY_TYPE_PERF_CONTROL id 255 d ltac:(done)) as Hc. unfold found in *.
  unfold EsifUpDomain_PerfDetectInit. rewrite (sbind_some _ _ _ _ _ (Hc _)).
  assert (Hp : EsifUpDomain_ProcPerfDetect v d = Some ((if has_cap (capability_for_domain d) ESIF_CAPABILITY_TYPE_PERF_CONTROL
    then dget v GET_PROC_PERF_SUPPORT_STATES 255 else (ESIF_E_NOT_SUPPORTED, 0)).1, d)) by (unfold EsifUpDomain_ProcPerfDetect; by rewrite (sbind_some _ _ _ _ _ (Hc _))).
  destruct (has_cap (capability_for_domain d) ESIF_CAPABILITY_TYPE_PERF_CONTROL); cbn [fst] in *.
  - destruct (acceptable (dget v GET_PERF_SUPPORT_STATES 255).1) eqn:E1; cbn [negb orb].
    { eexists. split; [|done]. unfold after_soft. by rewrite E1, orb_true_r. }
    rewrite (sbind_some _ _ _ _ _ Hp). destruct ((dget v GET_PROC_PERF_SUPPORT_STATES 255).1 =? ESIF_OK) eqn:E2; cbn [andb].
    + destruct (EsifUpDomain_IsHwpCapable v); cbn [negb]; [rewrite andb_false_r; apply (Hd false); by left|].
      assert (E3 : acceptable (dget v GET_PROC_PERF_SUPPORT_STATES 255).1 = true) by (unfold acceptable; by rewrite E2). rewrite E3. cbn [negb andb].
      eexists. split; [|done]. unfold after_soft. by rewrite E3, orb_true_r.
    + rewrite andb_true_r. destruct (acceptable (dget v GET_PROC_PERF_SUPPORT_STATES 255).1) eqn:E3; cbn [negb]; [|apply (Hd false); by left].
      eexists. split; [|done]. unfold after_soft. by rewrite E3, orb_true_r.
  - change (negb (acceptable ESIF_E_NOT_SUPPORTED)) with true. cbn iota. rewrite (sbind_some _ _ _ _ _ Hp).
    change ((ESIF_E_NOT_SUPPORTED =? ESIF_OK) && EsifUpDomain_IsHwpCapable v) with false. cbn -[found EsifUpDomain_DisableCap sbind]. apply Hd. by right.
Qed.

(** What must hold of the device for the chain to reach its end: no battery
    primitive is answered with a provisional result, the enumeration does not
    report that legacy support is gone, and the workload source is answered or not
    supported. *)
Definition battery_ids : list Z := [GET_PLATFORM_MAX_BATTERY_POWER; GET_PLATFORM_BATTERY_STEADY_STATE; GET_CHARGER_TYPE; GET_BATTERY_STATUS; GET_BATTERY_INFORMATION].
Record no_early_end (v : denv) : Prop := {
  ne_battery : forall id, id ∈ battery_ids -> acceptable (dget v id 255).1 = true -> (dget v id 255).1 = ESIF_OK;
  ne_rf : auto_enum_list v <> ESIF_I_NO_LEGACY_SUPPORT;
  ne_workload : after_hard (dget v GET_SOCWLC_SOURCE 255).1 = true
}.

Lemma rf_status_spec v d : no_early_end v -> caps_ok (capability_for_domain d) ->
  found ESIF_CAPABILITY_TYPE_RFPROFILE_STATUS after_hard
    (((dget v GET_RFPROFILE_CENTER_FREQUENCY 255).1 =? ESIF_OK) || ((dget v GET_RF_ACTIVE_CHANNELS 255).1 =? ESIF_OK))
    (EsifUpDomain_RfProfileStatusDetectInit v) d.
Proof.
  intros [_ Hrf _] Hok. apply Z.eqb_neq in Hrf. unfold EsifUpDomain_RfProfileStatusDetectInit. rewrite Hrf.
  pose proof (detect_any_spec v succeeded after_hard ESIF_CAPABILITY_TYPE_RFPROFILE_STATUS [GET_RFPROFILE_CENTER_FREQUENCY; GET_RF_ACTIVE_CHANNELS] d
    ltac:(done) Hok eq_refl eq_refl) as Hs. cbn [existsb detect_any] in Hs. rewrite orb_false_r in Hs. apply Hs.
  intros id _ Hid. unfold succeeded in Hid. unfold after_hard. by rewrite Hid.
Qed.

Lemma workload_spec v d : no_early_end v -> caps_ok (capability_for_domain d) ->
  found ESIF_CAPABILITY_TYPE_WORKLOAD_CLASSIFICATION after_hard
    (negb (((dget v GET_SOCWLC_SOURCE 255).1 =? ESIF_OK) && ((dget v GET_SOCWLC_SOURCE 255).2 =? ESIF_SOCWC_SOURCE_HARDWARE))
     || ((dget v GET_HW_SOC_WORKLOAD 255).1 =? ESIF_OK))
    (EsifUpDomain_WorkloadClassificationDetectInit v) d.
Proof.
  intros [_ _ Hwl] Hok. unfold EsifUpDomain_WorkloadClassificationDetectInit. unfold found.
  rewrite (sbind_some _ _ _ _ _ (cap_detect_spec v ESIF_CAPABILITY_TYPE_WORKLOAD_CLASSIFICATION GET_SOCWLC_SOURCE 255 d ltac:(done))).
  destruct (has_cap (capability_for_domain d) ESIF_CAPABILITY_TYPE_WORKLOAD_CLASSIFICATION) eqn:Eh; cbn [fst snd].
  - destruct (((dget v GET_SOCWLC_SOURCE 255).1 =? ESIF_OK) && ((dget v GET_SOCWLC_SOURCE 255).2 =? ESIF_SOCWC_SOURCE_HARDWARE)); cbn [negb orb]; [|by eauto].
    apply (detect_one_spec v succeeded after_hard); try done. intros rc Hrc. unfold succeeded in Hrc. unfold after_hard. by rewrite Hrc.
  - change (ESIF_E_NOT_SUPPORTED =? ESIF_OK) with false. cbn [andb]. exists ESIF_E_NOT_SUPPORTED. split; [done|].
    rewrite without_absent, with_caps_id by done. by destruct (_ || _).
Qed.

Lemma state_detect_spec v : detects v None after_soft (EsifUpDomain_StateDetectInit v).
Proof.
  intros d Hok. unfold EsifUpDomain_StateDetectInit. rewrite smodify_bind. set (d1 := with_last_state _ d).
  rewrite (sbind_some _ _ _ _ _ (cap_detect_spec v ESIF_CAPABILITY_TYPE_PERF_CONTROL GET_PARTICIPANT_PERF_PRESENT_CAPABILITY 255 d1 ltac:(done))).
  destruct (if has_cap (capability_for_domain d1) _ then _ else _) as [rc x]; cbn [fst snd]. destruct (acceptable rc) eqn:E; cbn [negb].
  - assert (Hp : exists rc' d', EsifUpDomain_SetStatePollPeriod v PERF_STATE_POLL_PERIOD d1 = Some (rc', d') /\ capability_for_domain d' = capability_for_domain d1).
    { unfold EsifUpDomain_SetStatePollPeriod, EsifUpDomain_StartStatePollPriv, set_timer, mod_state_poll. cbn -[d1].
      repeat (case_match; cbn -[d1]; try (eexists _, _; split; reflexivity)). }
    destruct Hp as (rc' & d' & Hp & Hd'). rewrite (sbind_some _ _ _ _ _ Hp), smodify_bind. eexists _, _. split; [done|].
    split; [unfold after_soft; by rewrite E, orb_true_r|done].
  - eexists _, _. split; [done|]. by split.
Qed.

Definition chain_caps : list Z :=
  [ESIF_CAPABILITY_TYPE_POWER_STATUS; ESIF_CAPABILITY_TYPE_POWER_CONTROL; ESIF_CAPABILITY_TYPE_PSYS_CONTROL; ESIF_CAPABILITY_TYPE_PERF_CONTROL;
   ESIF_CAPABILITY_TYPE_BATTERY_STATUS; ESIF_CAPABILITY_TYPE_ACTIVE_CONTROL; ESIF_CAPABILITY_TYPE_DISPLAY_CONTROL; ESIF_CAPABILITY_TYPE_PEAK_POWER_CONTROL;
   ESIF_CAPABILITY_TYPE_PROCESSOR_CONTROL; ESIF_CAPABILITY_TYPE_PLAT_POWER_STATUS; ESIF_CAPABILITY_TYPE_RFPROFILE_STATUS;
   ESIF_CAPABILITY_TYPE_RFPROFILE_CONTROL; ESIF_CAPABILITY_TYPE_ENERGY_CONTROL; ESIF_CAPABILITY_TYPE_ACTIVITY_STATUS; ESIF_CAPABILITY_TYPE_WORKLOAD_CLASSIFICATION].

Lemma soft_accepts rc : acceptable rc = true -> after_soft rc = true.
Proof. intros H. unfold after_soft. by rewrite H, orb_true_r. Qed.
Lemma hard_succeeds rc : succeeded rc = true -> after_hard rc = true.
Proof. unfold succeeded, after_hard. by intros ->. Qed.
Lemma hard_is_soft rc : after_hard rc = true -> after_soft rc = true.
Proof. unfold after_hard, after_soft, acceptable. destruct (rc =? ESIF_OK), (rc =? ESIF_E_NOT_SUPPORTED); done. Qed.

(** The detections by number of the pattern, as steps. *)
Ltac by_pattern rcs spec := exists rcs; split; [eapply found_detects; [intros ? ?; apply spec; solve [done|auto]|intros ?; reflexivity]|].
Lemma chain_ok v : no_early_end v ->
  chained v after_soft
    [(after_soft, EsifUpDomain_PowerStatusDetectInit v); (after_soft, EsifUpDomain_PowerControlDetectInit v);
     (after_soft, EsifUpDomain_PsysDetectInit v); (after_soft, EsifUpDomain_PerfDetectInit v);
     (after_soft, EsifUpDomain_BatteryStatusDetectInit v); (after_hard, EsifUpDomain_ActiveControlDetectInit v);
     (after_hard, EsifUpDomain_DisplayControlDetectInit v); (after_hard, EsifUpDomain_PeakPowerControlDetectInit v);
     (after_hard, EsifUpDomain_ProcessorControlDetectInit v); (after_hard, EsifUpDomain_PlatformPowerStatusDetectInit v);
     (after_hard, EsifUpDomain_RfProfileStatusDetectInit v); (after_hard, EsifUpDomain_RfProfileControlDetectInit v);
     (after_hard, EsifUpDomain_EnergyControlDetectInit v); (after_hard, EsifUpDomain_ActivityStatusDetectInit v);
     (after_hard, EsifUpDomain_WorkloadClassificationDetectInit v); (after_soft, EsifUpDomain_StateDetectInit v)]
    (map Some chain_caps ++ [None]).
Proof.
  intros Hne. cbn [map app chain_caps chained]. pose proof soft_accepts. pose proof hard_succeeds.
  split; [done|]. by_pattern after_soft (detect_one_spec v acceptable after_soft).
  split; [done|]. by_pattern after_soft (detect_one_spec v acceptable after_soft).
  split; [done|]. by_pattern after_soft (detect_one_spec v acceptable after_soft).
  split; [done|]. by_pattern after_soft perf_detect_spec.
  split; [done|]. exists after_hard. split.
  { apply (found_detects v _ _ (existsb (fun id => acceptable (dget v id 255).1) battery_ids)); [|done]. intros d Hok.
    apply (detect_any_spec v acceptable after_hard); try done. intros id Hid Ha. by rewrite (ne_battery v Hne id Hid Ha). }
  split; [done|]. by_pattern after_hard (detect_any_spec v succeeded after_hard).
  split; [done|]. by_pattern after_hard (detect_any_spec v succeeded after_hard).
  split; [done|]. by_pattern after_hard detect_all_spec.
  split; [done|]. by_pattern after_hard (detect_one_spec v succeeded after_hard).
  split; [done|]. by_pattern after_hard (detect_one_spec v succeeded after_hard).
  split; [done|]. by_pattern after_hard rf_status_spec.
  split; [done|]. by_pattern after_hard detect_all_spec.
  split; [done|]. by_pattern after_hard (detect_any_spec v succeeded after_hard).
  split; [done|]. by_pattern after_hard (detect_any_spec v succeeded after_hard).
  split; [done|]. by_pattern after_hard workload_spec.
  split; [by apply hard_is_soft|]. exists after_soft. split; [apply state_detect_spec|done].
Qed.

(** Only the capability for thresholds depends on another one. *)
Lemma answers_caps v c c' cap : cap <> ESIF_CAPABILITY_TYPE_TEMP_THRESHOLD -> answers v c cap = answers v c' cap.
Proof. intros Hne. unfold answers. apply Z.eqb_neq in Hne. by rewrite Hne. Qed.

Lemma has_settle v c cap i : 0 <= cap -> 0 <= i -> has_cap (settle v c (Some cap)) i = has_cap c i && (negb (i =? cap) || answers v c cap).
Proof.
  intros Hc Hi. cbn. destruct (answers v c cap); [by rewrite orb_true_r, andb_true_r|]. rewrite has_without by done. by rewrite orb_false_r.
Qed.

Lemma has_settle_all v l i : 0 <= i -> forall c, Forall (fun cap => 0 <= cap /\ cap <> ESIF_CAPABILITY_TYPE_TEMP_THRESHOLD) l ->
  has_cap (foldl (settle v) c (map Some l)) i = has_cap c i && (negb (existsb (Z.eqb i) l) || answers v c i).
Proof.
  intros Hi. induction l as [|cap l IH]; intros c Hl; cbn [map foldl existsb]; [by rewrite andb_true_r|]. apply Forall_cons in Hl as [[Hc Hne] Hl].
  rewrite IH, has_settle by done. destruct (Z.eqb_spec i cap) as [->|Hic]; cbn [negb orb].
  - rewrite (answers_caps v (settle v c (Some cap)) c) by done. by destruct (has_cap c cap), (answers v c cap), (existsb (Z.eqb cap) l).
  - rewrite andb_true_r. destruct (existsb (Z.eqb i) l) eqn:E; cbn [negb]; [|done]. rewrite !orb_false_l. f_equal. apply answers_caps.
    apply existsb_exists in E as (x & Hx & Hix). apply Z.eqb_eq in Hix as ->. rewrite Forall_forall in Hl. by apply Hl, list_elem_of_In.
Qed.

(** What no step asks for is taken to be answered. *)
Lemma answers_rest v c i : 0 <= i < 32 -> existsb (Z.eqb i) (ESIF_CAPABILITY_TYPE_TEMP_STATUS :: ESIF_CAPABILITY_TYPE_TEMP_THRESHOLD :: chain_caps) = false ->
  answers v c i = true.
Proof.
  intros Hi. cbn [existsb chain_caps]. rewrite !orb_false_iff. intros H. unfold answers.
  repeat match goal with H : _ /\ _ |- _ => destruct H as [? H] end.
  repeat match goal with H : (i =? _) = false |- _ => rewrite H; clear H end. done.
Qed.

(** When the support package of a participant is ready, and the device does not
    cut the detection short (no provisional answer of a battery primitive, legacy
    enumeration there, workload source answered or unsupported), the capabilities of a
    domain become exactly those that the package declares and the device answers:
    whatever the order of the steps, each of the 32 is kept if and only if it was
    there and its primitives are answered, a capability without a detection is kept,
    the number of capabilities stays the number of flags, and the result is
    success. *)
Theorem domain_caps_detected v d :
  caps_ok (capability_for_domain d) -> no_early_end v ->
  exists d', EsifUpDomain_DspReadyInit v d = Some (ESIF_OK, d') /\ caps_ok (capability_for_domain d') /\
    forall i, 0 <= i < 32 -> has_cap (capability_for_domain d') i = has_cap (capability_for_domain d) i && answers v (capability_for_domain d) i.
Proof.
  intros Hok Hne. unfold EsifUpDomain_DspReadyInit.
  assert (Hpoll : forall g s d, exists rc d', init_poll v g s d = Some (rc, d') /\ capability_for_domain d' = capability_for_domain d).
  { intros g s d0. unfold init_poll. destruct ((dget v g 255).1 =? ESIF_OK); eexists _, _; split; done. }
  destruct (Hpoll GET_PARTICIPANT_SAMPLE_PERIOD SET_PARTICIPANT_SAMPLE_BEHAVIOR d) as (r1 & d1 & E1 & H1).
  destruct (Hpoll GET_POWER_SAMPLE_PERIOD SET_POWER_SAMPLE_BEHAVIOR d1) as (r2 & d2 & E2 & H2). rewrite H1 in H2.
  rewrite (sbind_some _ _ _ _ _ E1), (sbind_some _ _ _ _ _ E2). rewrite <- H2 in *. clear d d1 r1 r2 E1 E2 H1 H2 Hpoll.
  destruct (temp_detect_spec v d2 Hok) as (rc & d & E & Hrc & Hd). rewrite (sbind_some _ _ _ _ _ E). clear E.
  assert (Hok' : caps_ok (capability_for_domain d)) by (rewrite Hd; cbn [foldl]; by repeat apply settle_ok).
  destruct (detect_steps_spec v (map Some chain_caps ++ [None]) ltac:(by repeat constructor) _ _ rc d (chain_ok v Hne) Hrc Hok')
    as (rc' & d' & E & Hrc' & Hok'' & Hd').
  rewrite (sbind_some _ _ _ _ _ E), Hrc'. exists d'. split; [done|]. split; [done|]. intros i Hi.
  rewrite Hd', foldl_app. cbn [foldl settle]. rewrite has_settle_all; [|lia|by repeat constructor].
  rewrite Hd. cbn [foldl]. rewrite !has_settle by (done || lia). rewrite answers_status, answers_threshold, has_settle, answers_status by done.
  change (ESIF_CAPABILITY_TYPE_TEMP_STATUS =? ESIF_CAPABILITY_TYPE_TEMP_STATUS) with true. cbn [negb orb].
  set (c := capability_for_domain d2). destruct (Z.eqb_spec i ESIF_CAPABILITY_TYPE_TEMP_STATUS) as [->|H7]; [|destruct (Z.eqb_spec i ESIF_CAPABILITY_TYPE_TEMP_THRESHOLD) as [->|H12]].
  - rewrite answers_status. cbn. by rewrite ?andb_true_r.
  - change (existsb _ chain_caps) with false. cbn [negb orb]. rewrite !andb_true_r, answers_threshold.
    by destruct (has_cap c ESIF_CAPABILITY_TYPE_TEMP_THRESHOLD), (has_cap c ESIF_CAPABILITY_TYPE_TEMP_STATUS), (acceptable (dget v GET_TEMPERATURE 255).1).
  - cbn [negb orb]. rewrite !andb_true_r. rewrite (answers_caps v _ c) by done. destruct (existsb (Z.eqb i) chain_caps) eqn:Ex; [done|].
    cbn [negb orb]. rewrite (answers_rest v c i Hi); [done|]. cbn [existsb]. apply Z.eqb_neq in H7, H12. by rewrite H7, H12.
Qed.

(** ** Examples *)

Module DomainDemo.
(** A device with a temperature, a fan and a display; the primitives in [ids] are
    answered with [rc], the others of the device as listed. *)
Definition dev (ids : list Z) (rc : Z) (auto_enum : Z) : denv :=
  mk_denv (fun id _ =>
      if bool_decide (id ∈ ids) then (rc, 0)
      else if bool_decide (id ∈ [GET_TEMPERATURE; GET_TEMPERATURE_THRESHOLD_HYSTERESIS; GET_FAN_STATUS; GET_DISPLAY_DEPTH_LIMIT; GET_RF_ACTIVE_CHANNELS]) then (ESIF_OK, 20)
      else (ESIF_E_NOT_SUPPORTED, 0))
    (fun _ _ _ => ESIF_OK) auto_enum ESIF_OK ESIF_OK.
Definition blank : EsifUpDomain :=
  mk_domain (mk_caps (2 ^ 32 - 1) 32 (replicate 32 1)) (mk_temp 0 0 0 0 0 false false false) (mk_poll 0 ESIF_POLL_NONE false None) 0
    (mk_poll 0 ESIF_POLL_NONE false None) [].
Definition caps_after (v : denv) : option (Z * list Z) :=
  match EsifUpDomain_DspReadyInit v blank with
  | Some (rc, d) => Some (rc, filter (fun i => has_cap (capability_for_domain d) i = true) (seqZ 0 21))
  | None => None
  end.
End DomainDemo.

Lemma domain_caps_detected_witness :
  exists d', EsifUpDomain_DspReadyInit (DomainDemo.dev [] ESIF_OK ESIF_OK) DomainDemo.blank = Some (ESIF_OK, d') /\
    caps_ok (capability_for_domain d') /\
    forall i, 0 <= i < 32 -> has_cap (capability_for_domain d') i =
      has_cap (capability_for_domain DomainDemo.blank) i && answers (DomainDemo.dev [] ESIF_OK ESIF_OK) (capability_for_domain DomainDemo.blank) i.
Proof.
  assert (Hok : caps_ok (capability_for_domain DomainDemo.blank)) by (by split).
  assert (Hne : no_early_end (DomainDemo.dev [] ESIF_OK ESIF_OK)).
  { split; [|done|done]. intros id Hid. unfold battery_ids in Hid.
    repeat (apply elem_of_cons in Hid as [->|Hid]; [vm_compute; discriminate|]). by apply elem_of_nil in Hid. }
  exact (domain_caps_detected _ _ Hok Hne).
Defined.

(** The device keeps what it answers (and 1, 3, 8 and 16, which have no
    detection; 20, whose workload source is not hardware). *)
Example caps_kept : DomainDemo.caps_after (DomainDemo.dev [] ESIF_OK ESIF_OK) = Some (ESIF_OK, [0; 1; 2; 3; 7; 8; 12; 13; 16; 20]).
Proof. vm_compute. reflexivity. Qed.

(** A provisional answer of a battery primitive makes the detection skip what
    follows: the capabilities it would have disabled stay, though the device
    answers none of their primitives. *)
Theorem battery_again_keeps_unanswered :
  DomainDemo.caps_after (DomainDemo.dev [GET_BATTERY_STATUS] ESIF_I_AGAIN ESIF_OK) = Some (ESIF_OK, [0; 1; 2; 3; 7; 8; 9; 10; 11; 12; 13; 14; 15; 16; 17; 19; 20]) /\
  answers (DomainDemo.dev [GET_BATTERY_STATUS] ESIF_I_AGAIN ESIF_OK) (capability_for_domain DomainDemo.blank) ESIF_CAPABILITY_TYPE_PROCESSOR_CONTROL = false.
Proof. split; vm_compute; reflexivity. Qed.

(** Where the enumeration answers that legacy support is gone, which is not a
    failure, the detection ends with that code as its result, and with the
    capabilities of what follows in place. *)
Theorem rf_no_legacy_ends_detection :
  DomainDemo.caps_after (DomainDemo.dev [GET_RF_ACTIVE_CHANNELS] ESIF_E_NOT_SUPPORTED ESIF_I_NO_LEGACY_SUPPORT)
    = Some (ESIF_I_NO_LEGACY_SUPPORT, [0; 1; 2; 3; 7; 8; 12; 13; 14; 15; 16; 17; 20]).
Proof. vm_compute. reflexivity. Qed.
