(* ===== verification/DomainTemp.v ===== *)
(** * Temperatures and polling of a domain: esif_uf_domain.c and the delegated
    actions of esif_uf_action_delegate.c

    A client sets two trip points, AUX0 below and AUX1 above the temperature.  A
    reading at or beyond one of them makes the domain signal
    [ESIF_EVENT_TEMP_THRESHOLD_CROSSED], once, until a reading is back between them
    or a trip point is changed.  The lower one has a hysteresis.  Readings are
    taken by a timer of the domain ([EsifUpDomain_PollTemp]) or by a common slow
    poll ([EsifUpDomain_Poll]).

    A call is atomic; the environment [denv] (Domain.v) of a call says what the
    device answers during it. *)

From S2P Require Import Prelude Xform Domain.
From stdpp Require Import list.
Local Open Scope Z_scope.
Local Open Scope dptf_scope.

Definition ESIF_DOMAIN_TEMP_AUX0_DEF : Z := 5.
Definition ESIF_DOMAIN_TEMP_INVALID_VALUE : Z := 255.
Definition ESIF_DOMAIN_TEMP_INVALID_POLL_PERIOD : Z := 5000.
Definition ESIF_SDK_MAX_AUX_TRIP : Z := 199.
Definition ESIF_SDK_MIN_AUX_TRIP : Z := -136.
Definition ESIF_DOMAIN_AUX0 : Z := 0.
Definition ESIF_DOMAIN_AUX1 : Z := 1.

(* ------------------------------------------------------------------ *)
(** ** The trip points *)

(** [esif_convert_temp(ESIF_TEMP_C, NORMALIZE_TEMP_TYPE, ..)] of a constant, cast
    to an [esif_temp_t]. *)
Definition normal_of_c (c : Z) : Z :=
  match esif_convert_temp ESIF_TEMP_C NORMALIZE_TEMP_TYPE (Some (u32 c)) with Some (_, Some t) => t | _ => u32 c end.

Definition EsifUpDomain_CalcAux0WHyst (tempHysteresis aux0 : Z) : Z :=
  let oneDegreeRel := esif_temp_abs_to_rel (normal_of_c 1) in
  let aux0 := if aux0 =? ESIF_DOMAIN_TEMP_INVALID then normal_of_c ESIF_DOMAIN_TEMP_AUX0_DEF else aux0 in
  let hystRel := esif_temp_abs_to_rel tempHysteresis in
  if hystRel <? u32 (aux0 - oneDegreeRel) then u32 (aux0 - hystRel - oneDegreeRel) else normal_of_c ESIF_SDK_MIN_AUX_TRIP.

(** [temp] of [EsifUpDomain_SetTempThreshWLock] after the clamping. *)
Definition clamp_threshold (threshold def : Z) : Z :=
  let tempMin := normal_of_c ESIF_SDK_MIN_AUX_TRIP in
  let tempMax := normal_of_c ESIF_SDK_MAX_AUX_TRIP in
  if threshold =? ESIF_DOMAIN_TEMP_INVALID then def
  else if tempMax <? threshold then tempMax
  else if threshold <? tempMin then tempMin
  else threshold.

Definition exec_set (v : denv) (id instance x : Z) : DM Z := smodify (with_did (DSet id instance x)) ;! sret (dset v id instance x).

Definition EsifUpDomain_SetTempThreshWLock (v : denv) (auxId threshold : Z) : DM Z :=
  let! d := sget in
  if auxId =? ESIF_DOMAIN_AUX0 then
    let t := clamp_threshold threshold (normal_of_c ESIF_DOMAIN_TEMP_AUX0_DEF) in
    let aux0 := if threshold =? ESIF_DOMAIN_TEMP_INVALID then ESIF_DOMAIN_TEMP_INVALID else t in
    let h := EsifUpDomain_CalcAux0WHyst (tempHysteresis (temp d)) aux0 in
    mod_temp (with_aux0 aux0 h) ;!
    if pollPeriod (tempPoll d) =? 0 then exec_set v SET_TEMPERATURE_THRESHOLDS_SUR auxId h else sret ESIF_OK
  else if auxId =? ESIF_DOMAIN_AUX1 then
    let t := clamp_threshold threshold (normal_of_c ESIF_SDK_MAX_AUX_TRIP) in
    mod_temp (with_aux1 (if threshold =? ESIF_DOMAIN_TEMP_INVALID then ESIF_DOMAIN_TEMP_INVALID else t)) ;!
    if pollPeriod (tempPoll d) =? 0 then exec_set v SET_TEMPERATURE_THRESHOLDS_SUR auxId t else sret ESIF_OK
  else sret ESIF_E_UNSPECIFIED.

Definition with_notify (b : bool) (t : temperature) : temperature :=
  mk_temp (virtTemp t) (tempAux0 t) (tempAux1 t) (tempAux0WHyst t) (tempHysteresis t) b (tempLastTempValid t) (tempInvalidValueDetected t).
Definition with_valid (b : bool) (t : temperature) : temperature :=
  mk_temp (virtTemp t) (tempAux0 t) (tempAux1 t) (tempAux0WHyst t) (tempHysteresis t) (tempNotifySent t) b (tempInvalidValueDetected t).
Definition with_invalid_value (b : bool) (t : temperature) : temperature :=
  mk_temp (virtTemp t) (tempAux0 t) (tempAux1 t) (tempAux0WHyst t) (tempHysteresis t) (tempNotifySent t) (tempLastTempValid t) b.
Definition with_virtual (x : Z) (t : temperature) : temperature :=
  mk_temp x (tempAux0 t) (tempAux1 t) (tempAux0WHyst t) (tempHysteresis t) (tempNotifySent t) (tempLastTempValid t) (tempInvalidValueDetected t).

Definition EsifUpDomain_SetTempThresh (v : denv) (threshId threshold : Z) : DM Z :=
  let! d := sget in
  if Z.land (capability_flags (capability_for_domain d)) (u32 (Z.shiftl 1 ESIF_CAPABILITY_TYPE_TEMP_THRESHOLD)) =? 0 then sret ESIF_E_NOT_SUPPORTED
  else
    let! rc := EsifUpDomain_SetTempThreshWLock v threshId threshold in
    if negb (rc =? ESIF_OK) then sret rc
    else
      mod_temp (with_notify false) ;!
      if negb (pollPeriod (tempPoll d) =? 0) then
        if pollInitialized (tempPoll d) then mod_temp_poll (with_type ESIF_POLL_DOMAIN) ;! set_timer v mod_temp_poll (pollPeriod (tempPoll d))
        else EsifUpDomain_StartTempPollPriv v
      else sret rc.

Definition EsifUpDomain_SetTempHysteresis (tempHysteresis : Z) : DM Z :=
  mod_temp (fun t => with_aux0 (tempAux0 t) (EsifUpDomain_CalcAux0WHyst tempHysteresis (tempAux0 t)) (with_hysteresis tempHysteresis t)) ;!
  sret ESIF_OK.

(* ------------------------------------------------------------------ *)
(** ** Readings *)

Definition EsifUpDomain_TempIsInThresholds (t : temperature) (x : Z) : bool :=
  ((tempAux0 t =? ESIF_DOMAIN_TEMP_INVALID) || (tempAux0 t <=? x)) && ((tempAux1 t =? ESIF_DOMAIN_TEMP_INVALID) || (x <? tempAux1 t)).
Definition EsifUpDomain_IsTempOutOfThresholds (t : temperature) (x : Z) : bool :=
  negb (x =? ESIF_DOMAIN_TEMP_INVALID) &&
  ((negb (tempAux0 t =? ESIF_DOMAIN_TEMP_INVALID) && (x <=? tempAux0WHyst t)) ||
   (negb (tempAux1 t =? ESIF_DOMAIN_TEMP_INVALID) && (tempAux1 t <=? x))).
Definition EsifUpDomain_AnyTempThresholdValid (t : temperature) : bool :=
  negb (tempAux0 t =? ESIF_DOMAIN_TEMP_INVALID) || negb (tempAux1 t =? ESIF_DOMAIN_TEMP_INVALID).

Definition signal (ty : Z) : DM unit := smodify (with_did (DEvent ty)).

Definition EsifUpDomain_CheckTemp (v : denv) : DM Z :=
  let r := dget v GET_TEMPERATURE 255 in
  if negb (r.1 =? ESIF_OK) then
    (if r.1 =? ESIF_E_STOP_POLL then mod_temp_poll (with_type ESIF_POLL_UNSUPPORTED) else sret tt) ;!
    let! d := sget in
    (if tempLastTempValid (temp d) then signal ESIF_EVENT_TEMP_THRESHOLD_CROSSED else sret tt) ;!
    mod_temp (with_valid false) ;!
    sret r.1
  else
    mod_temp (with_valid true) ;!
    mod_temp (with_invalid_value (normal_of_c ESIF_DOMAIN_TEMP_INVALID_VALUE =? r.2)) ;!
    let! d := sget in
    (if tempNotifySent (temp d) && EsifUpDomain_TempIsInThresholds (temp d) r.2 then mod_temp (with_notify false) else sret tt) ;!
    let! d := sget in
    (if EsifUpDomain_IsTempOutOfThresholds (temp d) r.2 && negb (tempNotifySent (temp d)) && negb (tempInvalidValueDetected (temp d)) then
       mod_temp (with_notify true) ;! signal ESIF_EVENT_TEMP_THRESHOLD_CROSSED
     else sret tt) ;!
    sret r.1.

Definition EsifUpDomain_CheckState (v : denv) : DM Z :=
  let r := dget v GET_PARTICIPANT_PERF_PRESENT_CAPABILITY 255 in
  if negb (r.1 =? ESIF_OK) then sret r.1
  else
    let! d := sget in
    (if negb (lastState d =? r.2) && negb (r.2 =? ESIF_DOMAIN_STATE_INVALID) then
       signal ESIF_EVENT_PERF_CAPABILITY_CHANGED ;! smodify (with_last_state r.2)
     else sret tt) ;!
    sret r.1.

Definition EsifUpDomain_SetVirtualTemperature (x : Z) : DM unit :=
  mod_temp (with_virtual x) ;!
  let! d := sget in
  if EsifUpDomain_IsTempOutOfThresholds (temp d) x then signal ESIF_EVENT_TEMP_THRESHOLD_CROSSED else sret tt.

(* ------------------------------------------------------------------ *)
(** ** Polling *)

(** The callbacks of the timers; the timer is not set any more when they begin.
    [available] says whether the participant of the domain is. *)
Definition EsifUpDomain_PollTemp (v : denv) (available : bool) : DM unit :=
  mod_temp_poll (fun p => with_timer (pollInitialized p) None p) ;!
  if negb available then sret tt
  else
    EsifUpDomain_CheckTemp v ;!
    let! d := sget in
    if negb (bool_decide (pollType (tempPoll d) = ESIF_POLL_DOMAIN)) then sret tt
    else if negb (pollPeriod (tempPoll d) =? 0) && EsifUpDomain_AnyTempThresholdValid (temp d) then
      (if pollInitialized (tempPoll d) then
         set_timer v mod_temp_poll
           (if tempInvalidValueDetected (temp d) && (pollPeriod (tempPoll d) <? ESIF_DOMAIN_TEMP_INVALID_POLL_PERIOD)
            then ESIF_DOMAIN_TEMP_INVALID_POLL_PERIOD else pollPeriod (tempPoll d))
       else EsifUpDomain_StartTempPollPriv v) ;! sret tt
    else sret tt.

Definition EsifUpDomain_PollState (v : denv) (available : bool) : DM unit :=
  mod_state_poll (fun p => with_timer (pollInitialized p) None p) ;!
  if negb available then sret tt
  else
    EsifUpDomain_CheckState v ;!
    let! d := sget in
    if negb (bool_decide (pollType (statePoll d) = ESIF_POLL_DOMAIN)) then sret tt else EsifUpDomain_StartStatePollPriv v ;! sret tt.

(** The slow poll. *)
Definition EsifUpDomain_Poll (v : denv) : DM Z :=
  let! d := sget in
  let! rc := (if bool_decide (pollType (tempPoll d) = ESIF_POLL_ECONO) then EsifUpDomain_CheckTemp v else sret ESIF_OK) in
  let! d := sget in
  if bool_decide (pollType (statePoll d) = ESIF_POLL_ECONO) then EsifUpDomain_CheckState v else sret rc.

Definition EsifUpDomain_RegisterForTempPoll (ty : EsifDomainPollTypeId) : DM unit :=
  mod_temp_poll (fun p => if bool_decide (pollType p = ESIF_POLL_UNSUPPORTED) then p else with_type ty p).
Definition EsifUpDomain_UnRegisterForTempPoll : DM unit := mod_temp_poll (with_type ESIF_POLL_NONE).
Definition EsifUpDomain_RegisterForStatePoll (ty : EsifDomainPollTypeId) : DM unit :=
  mod_state_poll (fun p => if bool_decide (pollType p = ESIF_POLL_UNSUPPORTED) then p else with_type ty p).
Definition EsifUpDomain_UnRegisterForStatePoll : DM unit := mod_state_poll (with_type ESIF_POLL_NONE).

Definition EsifUpDomain_StopTempPoll : DM unit := mod_temp_poll (fun p => with_type ESIF_POLL_NONE (with_timer false None p)).
Definition EsifUpDomain_StopStatePoll : DM unit := mod_state_poll (fun p => with_type ESIF_POLL_NONE (with_timer false None p)).

Definition EsifUpDomain_SetTempPollPeriod (v : denv) (sampleTime : Z) : DM Z :=
  mod_temp_poll (with_period sampleTime) ;!
  let! d := sget in
  if 0 <? sampleTime then
    if pollInitialized (tempPoll d) then set_timer v mod_temp_poll (pollPeriod (tempPoll d)) else EsifUpDomain_StartTempPollPriv v
  else sret ESIF_OK.

(* ------------------------------------------------------------------ *)
(** ** The delegated actions on a domain *)

Definition EsifSetActionDelegateSphb (buf : option Z) : DM Z :=
  match buf with None => sret ESIF_E_PARAMETER_IS_NULL | Some h => EsifUpDomain_SetTempHysteresis h end.

(** After the domain, the device gets the value of the request. *)
Definition set_aux (v : denv) (auxId : Z) (buf : option Z) : DM Z :=
  match buf with
  | None => sret ESIF_E_PARAMETER_IS_NULL
  | Some t =>
      EsifUpDomain_SetTempThresh v auxId t ;!
      let! rc := exec_set v SET_TEMPERATURE_THRESHOLDS_SUR auxId t in
      let! d := sget in
      sret (if (rc =? ESIF_E_PRIMITIVE_NOT_FOUND_IN_DSP) || (0 <? pollPeriod (tempPoll d)) then ESIF_OK else rc)
  end.
Definition EsifSetActionDelegatePat0 (v : denv) (buf : option Z) : DM Z := set_aux v ESIF_DOMAIN_AUX0 buf.
Definition EsifSetActionDelegatePat1 (v : denv) (buf : option Z) : DM Z := set_aux v ESIF_DOMAIN_AUX1 buf.
Definition EsifSetActionDelegateSampleBehavior (v : denv) (buf : option Z) : DM Z :=
  match buf with None => sret ESIF_E_PARAMETER_IS_NULL | Some p => EsifUpDomain_SetTempPollPeriod v p ;! sret ESIF_OK end.
Definition EsifSetActionDelegateVirtualTemperature (buf : option Z) : DM Z :=
  match buf with None => sret ESIF_E_PARAMETER_IS_NULL | Some x => EsifUpDomain_SetVirtualTemperature x ;! sret ESIF_OK end.

(** The index of a domain in its participant: 'D' and a digit, in two bytes. *)
Definition EsifDomainIdToIndex (domain : Z) : Z * option Z :=
  if negb (Z.land domain 255 =? 68) then (ESIF_E_PARAMETER_IS_OUT_OF_BOUNDS, None)
  else
    let indexVal := u8 (Z.shiftr domain 8) in
    if (indexVal <? 48) || (57 <? indexVal) then (ESIF_E_PARAMETER_IS_OUT_OF_BOUNDS, None)
    else (ESIF_OK, Some (Z.land indexVal 15)).

(* ------------------------------------------------------------------ *)
(** ** What the readings of a polled domain signal *)

(** The trip points in force, in tenths of a degree; the hysteresis as a
    difference. *)
Record thresholds : Type := mk_thr { lo : option Z; hi : option Z; hyst : Z }.
(** What a reading was, or that a trip point was changed. *)
Inductive mark : Type := M_in | M_out | M_edge | M_between | M_failed | M_reset.
#[export] Instance mark_eq_dec : EqDecision mark.
Proof. solve_decision. Defined.

Definition clip (t : Z) : option Z := if t =? ESIF_DOMAIN_TEMP_INVALID then None else Some (Z.min 4722 (Z.max 1372 t)).
Definition inside (a : thresholds) (t : Z) : bool :=
  match lo a with Some l => l <=? t | None => true end && match hi a with Some h => t <? h | None => true end.
(** Where the lower trip point [l] is crossed: below it by the hysteresis and a
    degree, or at the lowest temperature if that is below zero kelvin. *)
Definition crossing (a : thresholds) (l : Z) : Z := if hyst a <? l - 10 then l - hyst a - 10 else 1372.
Definition outside (a : thresholds) (t : Z) : bool :=
  negb (t =? ESIF_DOMAIN_TEMP_INVALID) &&
  (match lo a with Some l => t <=? crossing a l | None => false end || match hi a with Some h => h <=? t | None => false end).
(** 255 C, which devices report for "no reading", is neither.  Only the lowest
    temperature, -136 C, can be both (see [edge_rare]). *)
Definition zone (a : thresholds) (r : Z * Z) : mark :=
  if negb (r.1 =? ESIF_OK) then M_failed
  else if inside a r.2 then (if outside a r.2 && negb (r.2 =? 5282) then M_edge else M_in)
  else if r.2 =? 5282 then M_between
  else if outside a r.2 then M_out else M_between.

Lemma edge_rare a r : (forall l, lo a = Some l -> 1372 <= l) -> 0 <= hyst a -> zone a r = M_edge ->
  r.2 = 1372 /\ lo a = Some 1372 /\ 1362 <= hyst a.
Proof.
  intros Hl Hh. unfold zone. destruct (negb _); [done|]. destruct (inside a r.2) eqn:Hi; [|destruct (r.2 =? 5282), (outside a r.2); done].
  destruct (outside a r.2) eqn:Ho; [|done]. intros _. unfold inside, outside, crossing in *. destruct (lo a) as [l|].
  - specialize (Hl l eq_refl). destruct (hi a) as [h|]; destruct (Z.ltb_spec (hyst a) (l - 10)); (split; [lia|split; [f_equal; lia|lia]]).
  - destruct (hi a) as [h|]; lia.
Qed.

Definition clears (m : mark) : Prop := m = M_in \/ m = M_edge \/ m = M_reset.
Definition crosses (m : mark) : Prop := m = M_out \/ m = M_edge.
(** A reading [m] after [marks] is due to be signalled: it is the first beyond a
    trip point since a reading between them or a change of one; or it is the first
    that fails after one that did not. *)
Definition due (marks : list mark) (m : mark) : Prop :=
  m = M_edge \/
  (m = M_out /\ forall i y, marks !! i = Some y -> crosses y -> exists j x, (i < j)%nat /\ marks !! j = Some x /\ clears x) \/
  (m = M_failed /\ exists i x, marks !! i = Some x /\ x <> M_failed /\ x <> M_reset /\ forall j y, (i < j)%nat -> marks !! j = Some y -> y = M_reset).

Inductive tinput : Type := TRead (v : denv) | TLow (v : denv) (t : Z) | THigh (v : denv) (t : Z) | THyst (h : Z) | TVirtual (x : Z).
Definition t_step (i : tinput) : DM unit :=
  match i with
  | TRead v => EsifUpDomain_CheckTemp v ;! sret tt
  | TLow v t => EsifUpDomain_SetTempThresh v ESIF_DOMAIN_AUX0 t ;! sret tt
  | THigh v t => EsifUpDomain_SetTempThresh v ESIF_DOMAIN_AUX1 t ;! sret tt
  | THyst h => EsifUpDomain_SetTempHysteresis h ;! sret tt
  | TVirtual x => EsifUpDomain_SetVirtualTemperature x
  end.
Fixpoint t_run (l : list tinput) : DM unit := match l with [] => sret tt | i :: l => t_step i ;! t_run l end.

Definition flag (b : bool) (m : mark) : bool := match m with M_out | M_edge => true | M_in | M_reset => false | _ => b end.
Definition pending (marks : list mark) : bool := foldl flag false marks.
Definition ok_flag (b : bool) (m : mark) : bool := match m with M_reset => b | M_failed => false | _ => true end.
Definition last_ok (marks : list mark) : bool := foldl ok_flag false marks.

Lemma pending_snoc marks m : pending (marks ++ [m]) = flag (pending marks) m.
Proof. unfold pending. by rewrite foldl_app. Qed.
Lemma last_ok_snoc marks m : last_ok (marks ++ [m]) = ok_flag (last_ok marks) m.
Proof. unfold last_ok. by rewrite foldl_app. Qed.

Lemma lookup_snoc_cases (marks : list mark) (m : mark) i x :
  (marks ++ [m]) !! i = Some x <-> marks !! i = Some x \/ (i = length marks /\ x = m).
Proof.
  rewrite lookup_app. destruct (marks !! i) as [y|] eqn:E.
  - apply lookup_lt_Some in E. split; [tauto|]. intros [H|[-> _]]; [done|lia].
  - apply lookup_ge_None in E. rewrite list_lookup_singleton_Some. split; intros H; [right; destruct H; split; [lia|done]|].
    destruct H as [H|[-> ->]]; [done|]. split; [lia|done].
Qed.

Lemma pending_spec marks :
  pending marks = false <-> forall i y, marks !! i = Some y -> crosses y -> exists j x, (i < j)%nat /\ marks !! j = Some x /\ clears x.
Proof.
  induction marks as [|m marks IH] using rev_ind; [split; [intros _ i y Hi; by rewrite lookup_nil in Hi|done]|]. rewrite pending_snoc.
  assert (Hc : clears m -> ~ crosses m -> forall i y, (marks ++ [m]) !! i = Some y -> crosses y ->
    exists j x, (i < j)%nat /\ (marks ++ [m]) !! j = Some x /\ clears x).
  { intros Hm Hn i y Hi Hy. exists (length marks), m. split; [|split; [apply lookup_snoc_cases; by right|done]].
    apply lookup_snoc_cases in Hi as [Hi|[_ ->]]; [by apply lookup_lt_Some in Hi|done]. }
  assert (Hx : crosses m -> ~ forall i y, (marks ++ [m]) !! i = Some y -> crosses y -> exists j x, (i < j)%nat /\ (marks ++ [m]) !! j = Some x /\ clears x).
  { intros Hm H. destruct (H (length marks) m) as (j & x & Hj & Hx & _); [apply lookup_snoc_cases; by right|done|].
    apply lookup_snoc_cases in Hx as [Hx|[-> _]]; [apply lookup_lt_Some in Hx; lia|lia]. }
  assert (Hk : ~ crosses m -> ~ clears m -> (forall i y, marks !! i = Some y -> crosses y -> exists j x, (i < j)%nat /\ marks !! j = Some x /\ clears x) <->
    forall i y, (marks ++ [m]) !! i = Some y -> crosses y -> exists j x, (i < j)%nat /\ (marks ++ [m]) !! j = Some x /\ clears x).
  { intros Hm1 Hm2. setoid_rewrite lookup_snoc_cases. split; intros H i y Hi Hy.
    - destruct Hi as [Hi|[_ ->]]; [|done]. destruct (H i y Hi Hy) as (j & x & ? & ? & ?). eauto 6.
    - destruct (H i y (or_introl Hi) Hy) as (j & x & ? & [?|[-> ->]] & ?); [eauto|done]. }
  unfold crosses, clears in Hc, Hx, Hk. destruct m; cbn [flag]; rewrite ?IH; first [apply Hk; intuition congruence|split; [intros ?; apply Hc; intuition congruence|done]
    |split; [done|intros H; destruct Hx; [tauto|exact H]]].
Qed.

Lemma last_ok_spec marks :
  last_ok marks = true <-> exists i x, marks !! i = Some x /\ x <> M_failed /\ x <> M_reset /\ forall j y, (i < j)%nat -> marks !! j = Some y -> y = M_reset.
Proof.
  induction marks as [|m marks IH] using rev_ind; [split; [done|intros (i & x & Hi & _); by rewrite lookup_nil in Hi]|]. rewrite last_ok_snoc.
  assert (Hr : m = M_reset \/ last_ok (marks ++ [m]) = bool_decide (m <> M_failed)) by (rewrite last_ok_snoc; destruct m; auto).
  setoid_rewrite lookup_snoc_cases. destruct (decide (m = M_reset)) as [->|Hm]; cbn [ok_flag].
  - rewrite IH. split.
    + intros (i & x & Hi & H1 & H2 & H3). exists i, x. split; [by left|]. do 2 (split; [done|]). intros j y Hj [Hy|[_ ->]]; [by apply (H3 j)|done].
    + intros (i & x & [Hi|[_ ->]] & H1 & H2 & H3); [|done]. exists i, x. do 3 (split; [done|]). intros j y Hj Hy. apply (H3 j); auto.
  - destruct Hr as [?|Hr]; [done|]. rewrite last_ok_snoc in Hr. rewrite Hr, bool_decide_eq_true. split.
    + intros Hf. exists (length marks), m. split; [by right|]. do 2 (split; [done|]). intros j y Hj [Hy|[-> _]]; [apply lookup_lt_Some in Hy; lia|lia].
    + intros (i & x & [Hi|[_ ->]] & H1 & H2 & H3); [|done]. intros ->. by destruct (H3 (length marks) M_failed) as []; [by apply lookup_lt_Some in Hi|by right|].
Qed.

Definition dueb (marks : list mark) (m : mark) : bool :=
  match m with M_edge => true | M_out => negb (pending marks) | M_failed => last_ok marks | _ => false end.
Lemma due_spec marks m : due marks m <-> dueb marks m = true.
Proof. unfold due. rewrite <- pending_spec, <- last_ok_spec. destruct m; cbn; rewrite ?negb_true_iff; intuition congruence. Qed.
#[export] Instance due_dec marks m : Decision (due marks m).
Proof. refine (cast_if (decide (dueb marks m = true))); by rewrite due_spec. Defined.

(** The specification: the trip points and the marks after the inputs, and the
    actions of the domain. *)
Definition a_step (a : thresholds) (marks : list mark) (i : tinput) : thresholds * list mark * list daction :=
  match i with
  | TRead v =>
      let m := zone a (dget v GET_TEMPERATURE 255) in
      (a, marks ++ [m], if decide (due marks m) then [DEvent ESIF_EVENT_TEMP_THRESHOLD_CROSSED] else [])
  | TLow _ t => (mk_thr (clip t) (hi a) (hyst a), marks ++ [M_reset], [])
  | THigh _ t => (mk_thr (lo a) (clip t) (hyst a), marks ++ [M_reset], [])
  | THyst h => (mk_thr (lo a) (hi a) (esif_temp_abs_to_rel h), marks, [])
  | TVirtual x => (a, marks, if outside a x then [DEvent ESIF_EVENT_TEMP_THRESHOLD_CROSSED] else [])
  end.
Fixpoint a_run (a : thresholds) (marks : list mark) (l : list tinput) : thresholds * list mark * list daction :=
  match l with
  | [] => (a, marks, [])
  | i :: l => let r := a_step a marks i in let r' := a_run r.1.1 r.1.2 l in (r'.1, r.2 ++ r'.2)
  end.

Definition unset (o : option Z) : Z := default ESIF_DOMAIN_TEMP_INVALID o.
Definition trip_ok (o : option Z) : Prop := match o with Some t => 1372 <= t <= 4722 | None => True end.

(** The domain at a point of a run: it is polled ([tempPollPeriod] is not 0) and has
    the capability, and its fields are the trip points and what the marks say. *)
Record at_point (a : thresholds) (marks : list mark) (d : EsifUpDomain) : Prop := {
  ap_lo : tempAux0 (temp d) = unset (lo a) /\ trip_ok (lo a);
  ap_hi : tempAux1 (temp d) = unset (hi a) /\ trip_ok (hi a);
  ap_hyst : esif_temp_abs_to_rel (tempHysteresis (temp d)) = hyst a;
  ap_low : forall l, lo a = Some l -> tempAux0WHyst (temp d) = crossing a l;
  ap_notify : tempNotifySent (temp d) = pending marks;
  ap_valid : tempLastTempValid (temp d) = last_ok marks;
  ap_polled : pollPeriod (tempPoll d) <> 0;
  ap_cap : has_cap (capability_for_domain d) ESIF_CAPABILITY_TYPE_TEMP_THRESHOLD = true
}.

Lemma calc_spec h a aux0 : 1372 <= aux0 <= 4722 -> hyst a = esif_temp_abs_to_rel h ->
  EsifUpDomain_CalcAux0WHyst h aux0 = crossing a aux0.
Proof.
  intros Ha Hy. unfold crossing. rewrite Hy. unfold EsifUpDomain_CalcAux0WHyst. change (esif_temp_abs_to_rel (normal_of_c 1)) with 10.
  change (normal_of_c ESIF_DOMAIN_TEMP_AUX0_DEF) with 2782. change (normal_of_c ESIF_SDK_MIN_AUX_TRIP) with 1372. unfold ESIF_DOMAIN_TEMP_INVALID.
  assert (Hh : 0 <= esif_temp_abs_to_rel h).
  { unfold esif_temp_abs_to_rel. cbv zeta. pose proof (Z.mod_pos_bound (h - NORMALIZE_TEMP_ADJUSTMENT) (2 ^ 32) ltac:(lia)) as Hm.
    destruct (s32 _ <? 0); [lia|]. unfold u32, wrap. lia. }
  replace (aux0 =? 4294967295) with false by lia. cbv zeta. rewrite (wrap_small 32 (aux0 - 10)) by (unfold in_range; lia).
  destruct (Z.ltb_spec (esif_temp_abs_to_rel h) (aux0 - 10)); [|done]. by rewrite wrap_small by (unfold in_range; lia).
Qed.

(** The value that a client asks for is clipped. *)
Lemma clamp_spec t def : (if t =? ESIF_DOMAIN_TEMP_INVALID then ESIF_DOMAIN_TEMP_INVALID else clamp_threshold t def) = unset (clip t) /\ trip_ok (clip t).
Proof.
  unfold clip, clamp_threshold. change (normal_of_c ESIF_SDK_MIN_AUX_TRIP) with 1372. change (normal_of_c ESIF_SDK_MAX_AUX_TRIP) with 4722.
  destruct (t =? ESIF_DOMAIN_TEMP_INVALID); [done|]. cbn. destruct (Z.ltb_spec 4722 t); [lia|]. destruct (Z.ltb_spec t 1372); lia.
Qed.

Lemma unset_some o : trip_ok o -> (unset o =? ESIF_DOMAIN_TEMP_INVALID) = bool_decide (o = None).
Proof. unfold unset, default, ESIF_DOMAIN_TEMP_INVALID. destruct o as [t|]; [|done]. cbn. intros. lia. Qed.

Lemma inside_spec a marks d x : at_point a marks d -> EsifUpDomain_TempIsInThresholds (temp d) x = inside a x.
Proof.
  intros [[Hl Hl'] [Hh Hh'] _ _ _ _ _ _]. unfold EsifUpDomain_TempIsInThresholds, inside. rewrite Hl, Hh, !unset_some by done.
  by destruct (lo a), (hi a).
Qed.
Lemma outside_spec a marks d x : at_point a marks d -> EsifUpDomain_IsTempOutOfThresholds (temp d) x = outside a x.
Proof.
  intros [[Hl Hl'] [Hh Hh'] _ Hw _ _ _ _]. unfold EsifUpDomain_IsTempOutOfThresholds, outside. rewrite Hl, Hh, !unset_some by done.
  destruct (lo a) as [l|]; [rewrite (Hw l eq_refl)|]; by destruct (hi a).
Qed.

(** Setting the timer of the temperature. *)
Lemma set_temp_timer v ms d :
  set_timer v mod_temp_poll ms d =
    Some (if ms =? 0 then ESIF_E_REQUEST_DATA_OUT_OF_BOUNDS else timer_set v,
      if negb (ms =? 0) && (timer_set v =? ESIF_OK) then with_temp_poll (with_timer (pollInitialized (tempPoll d)) (Some ms) (tempPoll d)) d else d).
Proof. unfold set_timer. destruct (ms =? 0); [done|]. by destruct (timer_set v =? ESIF_OK) eqn:E; unfold sbind; cbn -[Z.eqb]. Qed.
Lemma start_temp_poll v d :
  exists rc p, EsifUpDomain_StartTempPollPriv v d = Some (rc, with_temp_poll p d) /\ pollPeriod p = pollPeriod (tempPoll d) /\
    (timer_init v = ESIF_OK -> timer_set v = ESIF_OK -> pollPeriod (tempPoll d) <> 0 -> pollType (tempPoll d) = ESIF_POLL_NONE ->
     pollInitialized p = true /\ pollTimer p = Some (pollPeriod (tempPoll d))) /\
    (pollType (tempPoll d) <> ESIF_POLL_NONE -> p = tempPoll d) /\
    (pollType p = ESIF_POLL_DOMAIN -> pollType (tempPoll d) <> ESIF_POLL_DOMAIN -> pollType (tempPoll d) = ESIF_POLL_NONE /\ pollInitialized p = true).
Proof.
  assert (Hid : with_temp_poll (tempPoll d) d = d) by (by destruct d). unfold EsifUpDomain_StartTempPollPriv, sbind at 1, sget at 1.
  case_bool_decide as Hty; cbn [negb]; [|exists ESIF_OK, (tempPoll d); rewrite Hid; repeat split; done].
  destruct (timer_init v =? ESIF_OK) eqn:Ei; cbn [negb];
    [|exists (timer_init v), (tempPoll d); rewrite Hid; repeat split; try done; intros; apply Z.eqb_neq in Ei; done].
  unfold mod_temp_poll at 1. rewrite smodify_bind, set_temp_timer. cbn [tempPoll pollInitialized with_temp_poll].
  eexists _, (if negb (pollPeriod (tempPoll d) =? 0) && (timer_set v =? ESIF_OK)
    then with_timer true (Some (pollPeriod (tempPoll d))) (with_type ESIF_POLL_DOMAIN (with_timer true None (tempPoll d)))
    else with_type ESIF_POLL_DOMAIN (with_timer true None (tempPoll d))). split; [f_equal; f_equal; by case_match|].
  destruct (Z.eqb_spec (pollPeriod (tempPoll d)) 0), (Z.eqb_spec (timer_set v) ESIF_OK); repeat split; done.
Qed.

(** A threshold is set on a polled domain. *)
Lemma set_thresh_spec v id t a marks d : at_point a marks d -> id = ESIF_DOMAIN_AUX0 \/ id = ESIF_DOMAIN_AUX1 ->
  exists rc d', EsifUpDomain_SetTempThresh v id t d = Some (rc, d') /\ did d' = did d /\
    at_point (if decide (id = ESIF_DOMAIN_AUX0) then mk_thr (clip t) (hi a) (hyst a) else mk_thr (lo a) (clip t) (hyst a)) (marks ++ [M_reset]) d'.
Proof.
  intros [[Hl Hl'] [Hh Hh'] Hy Hw Hn Hv Hp Hc] Hid. unfold EsifUpDomain_SetTempThresh. unfold sbind at 1, sget at 1.
  rewrite flag_test by done. unfold has_cap in Hc. rewrite Hc. cbn [negb].
  destruct (clamp_spec t 0) as [_ Htrip].
  set (aux := if decide (id = ESIF_DOMAIN_AUX0)
    then with_aux0 (unset (clip t)) (EsifUpDomain_CalcAux0WHyst (tempHysteresis (temp d)) (unset (clip t))) else with_aux1 (unset (clip t))).
  assert (Hlock : EsifUpDomain_SetTempThreshWLock v id t d = Some (ESIF_OK, with_temp (aux (temp d)) d)).
  { unfold EsifUpDomain_SetTempThreshWLock, sbind, sget, mod_temp, smodify. replace (pollPeriod (tempPoll d) =? 0) with false by lia.
    destruct Hid as [-> | ->]; cbn -[clamp_threshold normal_of_c unset]; by rewrite (proj1 (clamp_spec t _)). }
  rewrite (sbind_some _ _ _ _ _ Hlock). change (negb (ESIF_OK =? ESIF_OK)) with false. cbn iota.
  replace (pollPeriod (tempPoll d) =? 0) with false by lia. cbn [negb].
  assert (Harm : forall d1, pollPeriod (tempPoll d1) <> 0 ->
    exists rc p, (if pollInitialized (tempPoll d) then mod_temp_poll (with_type ESIF_POLL_DOMAIN) ;! set_timer v mod_temp_poll (pollPeriod (tempPoll d))
      else EsifUpDomain_StartTempPollPriv v) d1 = Some (rc, with_temp_poll p d1) /\ pollPeriod p <> 0).
  { intros d1 Hp1. destruct (pollInitialized (tempPoll d)).
    - unfold mod_temp_poll at 1. rewrite smodify_bind, set_temp_timer.
      destruct (negb (pollPeriod (tempPoll d) =? 0) && (timer_set v =? ESIF_OK)); eexists _, _; (split; [reflexivity|done]).
    - destruct (start_temp_poll v d1) as (rc & p & He & Hp' & _). exists rc, p. split; [done|congruence]. }
  unfold mod_temp at 1. rewrite smodify_bind. destruct (Harm (with_temp (with_notify false (temp (with_temp (aux (temp d)) d))) (with_temp (aux (temp d)) d)))
    as (rc & p & -> & Hp'); [done|]. eexists rc, _. split; [done|]. split; [done|].
  subst aux. split; cbn; rewrite ?pending_snoc, ?last_ok_snoc; try done.
  - by destruct Hid as [-> | ->]; cbn.
  - by destruct Hid as [-> | ->]; cbn.
  - by destruct Hid as [-> | ->]; cbn.
  - destruct (decide (id = ESIF_DOMAIN_AUX0)); cbn -[unset clip EsifUpDomain_CalcAux0WHyst]; [|done]. intros l Hcl. rewrite Hcl in Htrip |- *. cbn [unset default].
    by apply calc_spec.
  - by destruct Hid as [-> | ->]; cbn.
Qed.

(** A reading that succeeds, in one step. *)
Lemma check_temp_ok v d : (dget v GET_TEMPERATURE 255).1 = ESIF_OK ->
  let x := (dget v GET_TEMPERATURE 255).2 in
  let n := tempNotifySent (temp d) && negb (EsifUpDomain_TempIsInThresholds (temp d) x) in
  let fires := EsifUpDomain_IsTempOutOfThresholds (temp d) x && negb n && negb (x =? 5282) in
  exists d', EsifUpDomain_CheckTemp v d = Some (ESIF_OK, d') /\
    temp d' = with_notify (n || fires) (with_invalid_value (x =? 5282) (with_valid true (temp d))) /\
    did d' = did d ++ (if fires then [DEvent ESIF_EVENT_TEMP_THRESHOLD_CROSSED] else []) /\
    tempPoll d' = tempPoll d /\ capability_for_domain d' = capability_for_domain d.
Proof.
  intros Hok x n fires. unfold EsifUpDomain_CheckTemp. rewrite Hok. fold x. change (negb (ESIF_OK =? ESIF_OK)) with false. cbn iota.
  unfold mod_temp. rewrite !smodify_bind. change (normal_of_c ESIF_DOMAIN_TEMP_INVALID_VALUE) with 5282. rewrite (Z.eqb_sym 5282).
  set (d1 := with_temp (with_invalid_value _ _) _). unfold sbind at 1, sget at 1.
  change (tempNotifySent (temp d1)) with (tempNotifySent (temp d)).
  change (EsifUpDomain_TempIsInThresholds (temp d1) x) with (EsifUpDomain_TempIsInThresholds (temp d) x).
  set (d2 := if tempNotifySent (temp d) && EsifUpDomain_TempIsInThresholds (temp d) x then with_temp (with_notify false (temp d1)) d1 else d1).
  assert (H2 : (if tempNotifySent (temp d) && EsifUpDomain_TempIsInThresholds (temp d) x then smodify (fun d => with_temp (with_notify false (temp d)) d) else sret tt) d1
    = Some (tt, d2)) by (subst d2; by destruct (tempNotifySent (temp d) && EsifUpDomain_TempIsInThresholds (temp d) x)).
  rewrite (sbind_some _ _ _ _ _ H2). clear H2. unfold sbind at 1, sget at 1.
  assert (E2 : tempNotifySent (temp d2) = n) by (subst d2 n; destruct (tempNotifySent (temp d)) eqn:En, (EsifUpDomain_TempIsInThresholds (temp d) x); first [exact En|done]).
  assert (O2 : EsifUpDomain_IsTempOutOfThresholds (temp d2) x = EsifUpDomain_IsTempOutOfThresholds (temp d) x) by (subst d2; by destruct (tempNotifySent (temp d) && EsifUpDomain_TempIsInThresholds (temp d) x)).
  assert (V2 : tempInvalidValueDetected (temp d2) = (x =? 5282)) by (subst d2; by destruct (tempNotifySent (temp d) && EsifUpDomain_TempIsInThresholds (temp d) x)).
  assert (F2 : temp d2 = with_notify n (with_invalid_value (x =? 5282) (with_valid true (temp d))) /\ did d2 = did d /\ tempPoll d2 = tempPoll d /\
    capability_for_domain d2 = capability_for_domain d).
  { subst d2 n. by destruct (tempNotifySent (temp d)) eqn:En, (EsifUpDomain_TempIsInThresholds (temp d) x); cbn; unfold with_notify; cbn; rewrite <- ?En. }
  destruct F2 as (F2 & D2 & P2 & C2). rewrite E2, O2, V2. fold fires. destruct fires.
  - unfold signal. rewrite orb_true_r. eexists. split; [reflexivity|]. cbn. by rewrite F2, D2.
  - rewrite orb_false_r. exists d2. split; [done|]. by rewrite app_nil_r.
Qed.

(** One that fails. *)
Lemma check_temp_fails v d : (dget v GET_TEMPERATURE 255).1 <> ESIF_OK ->
  exists d', EsifUpDomain_CheckTemp v d = Some ((dget v GET_TEMPERATURE 255).1, d') /\
    temp d' = with_valid false (temp d) /\
    did d' = did d ++ (if tempLastTempValid (temp d) then [DEvent ESIF_EVENT_TEMP_THRESHOLD_CROSSED] else []) /\
    (tempPoll d' = tempPoll d \/ tempPoll d' = with_type ESIF_POLL_UNSUPPORTED (tempPoll d)) /\
    capability_for_domain d' = capability_for_domain d.
Proof.
  intros Hne. apply Z.eqb_neq in Hne. unfold EsifUpDomain_CheckTemp. rewrite Hne. cbn [negb].
  destruct ((dget v GET_TEMPERATURE 255).1 =? ESIF_E_STOP_POLL); destruct (tempLastTempValid (temp d)) eqn:El;
    (eexists; split; [cbn; rewrite ?El; reflexivity|]); cbn; rewrite ?app_nil_r; auto.
Qed.

(** A reading of a domain at a point of a run. *)
Lemma check_temp_spec v a marks d : at_point a marks d ->
  exists d', EsifUpDomain_CheckTemp v d = Some ((dget v GET_TEMPERATURE 255).1, d') /\
    did d' = did d ++ (a_step a marks (TRead v)).2 /\ at_point a (marks ++ [zone a (dget v GET_TEMPERATURE 255)]) d'.
Proof.
  intros Hat. unfold a_step, zone. cbn [snd]. rewrite (decide_ext (due marks _) (dueb marks _ = true)) by apply due_spec.
  destruct (Z.eqb_spec (dget v GET_TEMPERATURE 255).1 ESIF_OK) as [Hok|Hne]; cbn [negb].
  - destruct (check_temp_ok v d Hok) as (d' & He & Ht & Hd & Hp & Hc). set (x := (dget v GET_TEMPERATURE 255).2) in *.
    rewrite (inside_spec a marks d x Hat), (outside_spec a marks d x Hat), (ap_notify _ _ _ Hat) in *.
    exists d'. rewrite Hok. split; [done|].
    set (m := if inside a x then (if outside a x && negb (x =? 5282) then M_edge else M_in) else if x =? 5282 then M_between else if outside a x then M_out else M_between).
    assert (Hm : outside a x && negb (pending marks && negb (inside a x)) && negb (x =? 5282) = dueb marks m /\
      pending marks && negb (inside a x) || dueb marks m = flag (pending marks) m /\ ok_flag (last_ok marks) m = true).
    { subst m. unfold dueb, flag. destruct (inside a x), (x =? 5282), (outside a x), (pending marks); done. }
    destruct Hm as (Hm1 & Hm2 & Hm3). rewrite Hm1 in *. rewrite Hm2 in Ht. split; [rewrite Hd; by destruct (dueb marks m)|].
    destruct Hat as [Hl Hh Hy Hw Hn Hv Hpl Hcp]. split; rewrite ?Ht, ?Hp, ?Hc, ?pending_snoc, ?last_ok_snoc; done.
  - destruct (check_temp_fails v d Hne) as (d' & He & Ht & Hd & Hp & Hc). exists d'. split; [done|]. cbn [dueb].
    split; [rewrite Hd, (ap_valid _ _ _ Hat); by destruct (last_ok marks)|].
    destruct Hat as [Hl Hh Hy Hw Hn Hv Hpl Hcp]. split; rewrite ?Ht, ?Hc, ?pending_snoc, ?last_ok_snoc; try done. by destruct Hp as [-> | ->].
Qed.

Lemma set_hyst_spec h a marks d : at_point a marks d ->
  exists d', EsifUpDomain_SetTempHysteresis h d = Some (ESIF_OK, d') /\ did d' = did d /\ at_point (mk_thr (lo a) (hi a) (esif_temp_abs_to_rel h)) marks d'.
Proof.
  intros [[Hl Hl'] Hh Hy Hw Hn Hv Hp Hc]. unfold EsifUpDomain_SetTempHysteresis, mod_temp. rewrite smodify_bind. eexists. split; [done|]. split; [done|].
  split; cbn -[EsifUpDomain_CalcAux0WHyst]; try done. intros l Hlo. rewrite Hl, Hlo in *. cbn in Hl' |- *. by apply calc_spec.
Qed.

Lemma virtual_spec x a marks d : at_point a marks d ->
  exists d', EsifUpDomain_SetVirtualTemperature x d = Some (tt, d') /\
    did d' = did d ++ (if outside a x then [DEvent ESIF_EVENT_TEMP_THRESHOLD_CROSSED] else []) /\ at_point a marks d'.
Proof.
  intros Hat. unfold EsifUpDomain_SetVirtualTemperature, mod_temp. rewrite smodify_bind. unfold sbind at 1, sget at 1.
  assert (Hat1 : at_point a marks (with_temp (with_virtual x (temp d)) d)) by (by destruct Hat as [Hl Hh Hy Hw Hn Hv Hp Hc]; split).
  rewrite (outside_spec a marks _ x Hat1). destruct (outside a x).
  - eexists. split; [reflexivity|]. split; [done|]. by destruct Hat as [Hl Hh Hy Hw Hn Hv Hp Hc]; split.
  - eexists. split; [reflexivity|]. split; [|done]. cbn. by rewrite app_nil_r.
Qed.

Lemma t_step_spec i a marks d : at_point a marks d ->
  exists d', t_step i d = Some (tt, d') /\ did d' = did d ++ (a_step a marks i).2 /\ at_point (a_step a marks i).1.1 (a_step a marks i).1.2 d'.
Proof.
  intros Hat. destruct i as [v|v t|v t|h|x]; cbn [t_step].
  - destruct (check_temp_spec v a marks d Hat) as (d' & He & Hd & Hat'). rewrite (sbind_some _ _ _ _ _ He). eauto.
  - destruct (set_thresh_spec v ESIF_DOMAIN_AUX0 t a marks d Hat (or_introl eq_refl)) as (rc & d' & He & Hd & Hat'). rewrite (sbind_some _ _ _ _ _ He).
    exists d'. split; [done|]. cbn. by rewrite app_nil_r.
  - destruct (set_thresh_spec v ESIF_DOMAIN_AUX1 t a marks d Hat (or_intror eq_refl)) as (rc & d' & He & Hd & Hat'). rewrite (sbind_some _ _ _ _ _ He).
    exists d'. split; [done|]. cbn. by rewrite app_nil_r.
  - destruct (set_hyst_spec h a marks d Hat) as (d' & He & Hd & Hat'). rewrite (sbind_some _ _ _ _ _ He). exists d'. split; [done|]. cbn [a_step fst snd]. by rewrite app_nil_r.
  - exact (virtual_spec x a marks d Hat).
Qed.


(* ------------------------------------------------------------------ *)
(** ** Polling does not stop *)

(** The timer of a domain that polls is set as long as there is a trip point to
    watch, unless the polling has [lapsed]; [c] says whether the domain can have
    trip points. *)
Record polling (c lapsed : bool) (d : EsifUpDomain) : Prop := {
  po_init : pollType (tempPoll d) = ESIF_POLL_DOMAIN -> pollInitialized (tempPoll d) = true;
  po_timer : lapsed = false -> pollType (tempPoll d) = ESIF_POLL_DOMAIN -> pollPeriod (tempPoll d) <> 0 ->
    EsifUpDomain_AnyTempThresholdValid (temp d) = true -> pollTimer (tempPoll d) <> None;
  po_period : 0 <= pollPeriod (tempPoll d);
  po_cap : has_cap (capability_for_domain d) ESIF_CAPABILITY_TYPE_TEMP_THRESHOLD = c
}.

(** What happens to a domain: calls of clients, of the slow poll's registration, and
    its timer, whose callback finds the participant available or not. *)
Inductive pinput : Type :=
  | PTimer (v : denv) (available : bool) | PThresh (v : denv) (id t : Z) | PHyst (h : Z) | PPeriod (v : denv) (ms : Z) | PVirtual (x : Z)
  | PRegister | PUnRegister | PSlow (v : denv) | PStop.
Definition p_step (i : pinput) : DM unit :=
  match i with
  | PTimer v available => EsifUpDomain_PollTemp v available
  | PThresh v id t => EsifUpDomain_SetTempThresh v id t ;! sret tt
  | PHyst h => EsifUpDomain_SetTempHysteresis h ;! sret tt
  | PPeriod v ms => EsifUpDomain_SetTempPollPeriod v ms ;! sret tt
  | PVirtual x => EsifUpDomain_SetVirtualTemperature x
  | PRegister => EsifUpDomain_RegisterForTempPoll ESIF_POLL_ECONO
  | PUnRegister => EsifUpDomain_UnRegisterForTempPoll
  | PSlow v => EsifUpDomain_Poll v ;! sret tt
  | PStop => EsifUpDomain_StopTempPoll
  end.
Fixpoint p_run (l : list pinput) : DM unit := match l with [] => sret tt | i :: l => p_step i ;! p_run l end.
(** The timers work, and a period is an unsigned number. *)
Definition timers_work (i : pinput) : Prop :=
  match i with
  | PTimer v _ | PThresh v _ _ | PSlow v => timer_init v = ESIF_OK /\ timer_set v = ESIF_OK
  | PPeriod v ms => timer_init v = ESIF_OK /\ timer_set v = ESIF_OK /\ 0 <= ms
  | _ => True
  end.

(** A callback that finds no participant ends the polling.  It is taken up again
    when the polling period is set, or a trip point where the domain [c]an have
    them. *)
Definition resumes (c : bool) (i : pinput) : bool :=
  match i with
  | PPeriod _ _ => true
  | PThresh _ id _ => c && ((id =? ESIF_DOMAIN_AUX0) || (id =? ESIF_DOMAIN_AUX1))
  | _ => false
  end.
Definition lapsed (c : bool) (l : list pinput) : Prop :=
  exists l1 v l2, l = l1 ++ PTimer v false :: l2 /\ Forall (fun i => resumes c i = false) l2.
Definition lapse (c b : bool) (i : pinput) : bool :=
  match i with PTimer _ false => true | _ => if resumes c i then false else b end.
Lemma lapsed_spec c l : foldl (lapse c) false l = true <-> lapsed c l.
Proof.
  induction l as [|i l IH] using rev_ind; [split; [done|by intros ([|] & ? & ? & ? & _)]|]. rewrite foldl_app. cbn [foldl]. split.
  - intros H. assert (Hi : (exists v, i = PTimer v false) \/ resumes c i = false /\ foldl (lapse c) false l = true).
    { destruct i as [v [|]| | | | | | | |]; cbn [lapse] in H; eauto; right; (destruct (resumes c _) eqn:E; [done|by split]). }
    destruct Hi as [[v ->]|[Hr Hf]]; [exists l, v, []; by split|]. apply IH in Hf as (l1 & v & l2 & -> & Hl). exists l1, v, (l2 ++ [i]).
    rewrite <- app_assoc. split; [done|]. apply Forall_app. by split; [|apply Forall_singleton].
  - intros (l1 & v & l2 & El & Hl). destruct l2 as [|j l2 _] using rev_ind.
    + apply app_inj_tail in El as [-> ->]. done.
    + rewrite app_comm_cons, app_assoc in El. apply app_inj_tail in El as [-> ->]. apply Forall_app in Hl as [Hl Hj]. pose proof (Forall_inv Hj) as Hj1. cbv beta in Hj1.
      assert (Hf : foldl (lapse c) false (l1 ++ PTimer v false :: l2) = true) by (apply IH; by exists l1, v, l2).
      cbn [foldl]. rewrite Hf. destruct j as [w [|]| | | | | | | |]; cbn [lapse]; by rewrite ?Hj1.
Qed.

Section Polling.
Context (c : bool).

(** Setting the timer keeps it. *)
Lemma keeps_set v ms b d : timer_set v = ESIF_OK -> ms <> 0 -> polling c b d -> exists d', set_timer v mod_temp_poll ms d = Some (ESIF_OK, d') /\ polling c false d'.
Proof.
  intros Hs Hms [Hi _ Hp Hc]. rewrite set_temp_timer, Hs. replace (ms =? 0) with false by lia. cbn. eexists. split; [done|]. by split.
Qed.
Lemma keeps_start v b d : timer_init v = ESIF_OK -> timer_set v = ESIF_OK -> pollPeriod (tempPoll d) <> 0 -> polling c b d ->
  pollType (tempPoll d) <> ESIF_POLL_DOMAIN -> exists rc d', EsifUpDomain_StartTempPollPriv v d = Some (rc, d') /\ polling c false d'.
Proof.
  intros Hi Hs Hne [_ _ Hp Hc] Hty. destruct (start_temp_poll v d) as (rc & p & He & Hpp & Hnone & Hsame & Hdom). exists rc, (with_temp_poll p d). split; [done|].
  split; cbn; [intros Hd; by apply Hdom|intros _ Hd _ _|by rewrite Hpp|done]. destruct (Hdom Hd Hty) as [Hn _]. destruct (Hnone Hi Hs Hne Hn) as [_ Ht]. by rewrite Ht.
Qed.

Lemma check_temp_poll v d :
  exists rc d', EsifUpDomain_CheckTemp v d = Some (rc, d') /\ tempAux0 (temp d') = tempAux0 (temp d) /\ tempAux1 (temp d') = tempAux1 (temp d) /\
    (tempPoll d' = tempPoll d \/ tempPoll d' = with_type ESIF_POLL_UNSUPPORTED (tempPoll d)) /\ capability_for_domain d' = capability_for_domain d.
Proof.
  destruct (Z.eq_dec (dget v GET_TEMPERATURE 255).1 ESIF_OK) as [Hok|Hne].
  - destruct (check_temp_ok v d Hok) as (d' & He & Ht & _ & Hp & Hc). exists ESIF_OK, d'. rewrite Ht. cbn. auto 7.
  - destruct (check_temp_fails v d Hne) as (d' & He & Ht & _ & Hp & Hc). eexists _, d'. rewrite Ht. cbn. split; [exact He|auto].
Qed.

Lemma keeps_check v b d : polling c b d -> exists rc d', EsifUpDomain_CheckTemp v d = Some (rc, d') /\ polling c b d'.
Proof.
  intros [Hi Ht Hp Hc]. destruct (check_temp_poll v d) as (rc & d' & He & H0 & H1 & Hpoll & Hcap). exists rc, d'. split; [done|].
  assert (Hany : EsifUpDomain_AnyTempThresholdValid (temp d') = EsifUpDomain_AnyTempThresholdValid (temp d)) by (unfold EsifUpDomain_AnyTempThresholdValid; by rewrite H0, H1).
  destruct Hpoll as [Hq|Hq]; split; rewrite ?Hany, ?Hcap, ?Hq; done.
Qed.

Lemma check_state_frame v d : exists rc d', EsifUpDomain_CheckState v d = Some (rc, d') /\ temp d' = temp d /\ tempPoll d' = tempPoll d /\
  capability_for_domain d' = capability_for_domain d.
Proof.
  unfold EsifUpDomain_CheckState. destruct (negb _); [by eexists _, d|]. unfold sbind at 1, sget at 1.
  destruct (negb (lastState d =? _) && _); by eexists _, _.
Qed.

Lemma keeps_frame b d d' : polling c b d -> temp d' = temp d -> tempPoll d' = tempPoll d -> capability_for_domain d' = capability_for_domain d -> polling c b d'.
Proof. intros [Hi Ht Hp Hc] H1 H2 H3. split; by rewrite ?H1, ?H2, ?H3. Qed.

Lemma keeps_thresh v id t b d : timer_init v = ESIF_OK -> timer_set v = ESIF_OK -> polling c b d ->
  exists rc d', EsifUpDomain_SetTempThresh v id t d = Some (rc, d') /\ polling c (lapse c b (PThresh v id t)) d'.
Proof.
  intros Hi Hs Hk. unfold EsifUpDomain_SetTempThresh. unfold sbind at 1, sget at 1. rewrite flag_test by done.
  pose proof (po_cap _ _ _ Hk) as Hcap. unfold has_cap in Hcap. rewrite Hcap. unfold lapse, resumes.
  destruct c eqn:Ec; cbn [negb andb]; [|by eexists _, d].
  assert (Hl : exists rc t1 l1, EsifUpDomain_SetTempThreshWLock v id t d = Some (rc, mk_domain (capability_for_domain d) t1 (tempPoll d) (lastState d) (statePoll d) l1) /\
    if (id =? ESIF_DOMAIN_AUX0) || (id =? ESIF_DOMAIN_AUX1) then pollPeriod (tempPoll d) <> 0 -> rc = ESIF_OK else rc <> ESIF_OK /\ t1 = temp d).
  { unfold EsifUpDomain_SetTempThreshWLock, exec_set, mod_temp. unfold sbind at 1, sget at 1.
    destruct (id =? ESIF_DOMAIN_AUX0); [|destruct (id =? ESIF_DOMAIN_AUX1); [|exists ESIF_E_UNSPECIFIED, (temp d), (did d); by destruct d]];
      rewrite smodify_bind; (destruct (Z.eqb_spec (pollPeriod (tempPoll d)) 0); eexists _, _, _; (split; [reflexivity|cbn; intros; done])). }
  destruct Hl as (rc & t1 & l1 & Hl & Hrc). rewrite (sbind_some _ _ _ _ _ Hl). clear Hl. destruct Hk as [Hki Hkt Hkp Hkc].
  destruct ((id =? ESIF_DOMAIN_AUX0) || (id =? ESIF_DOMAIN_AUX1)).
  - destruct (Z.eqb_spec rc ESIF_OK) as [->|Hne]; cbn [negb].
    + unfold mod_temp. rewrite smodify_bind. destruct (Z.eqb_spec (pollPeriod (tempPoll d)) 0) as [H0|H0]; cbn [negb]; [eexists _, _; split; [done|]; by split|].
      destruct (pollInitialized (tempPoll d)) eqn:Ei.
      * unfold mod_temp_poll at 1. rewrite smodify_bind. match goal with |- exists rc d', set_timer _ _ _ ?s = _ /\ _ =>
          destruct (keeps_set v (pollPeriod (tempPoll d)) true s Hs H0) as (d' & -> & Hd') end; [split; rewrite ?Ec; cbn; by intros|]. rewrite Ec in Hd'. eauto.
      * match goal with |- exists rc d', _ ?s = _ /\ _ => destruct (keeps_start v true s Hi Hs H0) as (rc & d' & He & Hd') end;
          [split; rewrite ?Ec; cbn; try done; intros Hty; by specialize (Hki Hty)| |rewrite Ec in Hd'; eauto]. cbn. intros Hty. specialize (Hki Hty). congruence.
    + eexists _, _. split; [done|]. split; cbn; try done. intros _ _ Hp. by specialize (Hrc Hp).
  - destruct Hrc as [Hne ->]. destruct (Z.eqb_spec rc ESIF_OK) as [|_]; [done|]. eexists _, _. split; [done|]. by split.
Qed.

Lemma keeps_timer v a b d : timer_init v = ESIF_OK /\ timer_set v = ESIF_OK -> polling c b d ->
  exists d', EsifUpDomain_PollTemp v a d = Some (tt, d') /\ polling c (lapse c b (PTimer v a)) d'.
Proof.
  intros [Hi Hs] [Hki Hkt Hkp Hkc]. unfold EsifUpDomain_PollTemp. unfold mod_temp_poll at 1. rewrite smodify_bind.
  set (d1 := with_temp_poll _ d). destruct a; cbn [negb lapse resumes]; [|exists d1; by split].
  destruct (check_temp_poll v d1) as (rc & d2 & He & H0 & H1 & Hp & Hcap). rewrite (sbind_some _ _ _ _ _ He).
  assert (Hk2 : polling c true d2) by (split; [by destruct Hp as [-> | ->]|done|by destruct Hp as [-> | ->]|by rewrite Hcap]).
  unfold sbind at 1, sget at 1. case_bool_decide as Hty; cbn [negb]; [|exists d2; split; [done|]; by destruct Hk2 as [K1 _ K3 K4]; split].
  pose proof (po_init _ _ _ Hk2 Hty) as Hin. rewrite Hin.
  destruct (negb (pollPeriod (tempPoll d2) =? 0) && EsifUpDomain_AnyTempThresholdValid (temp d2)) eqn:Ea.
  - apply andb_true_iff in Ea as [Ep Ea].
    match goal with |- context [set_timer v mod_temp_poll ?ms] => destruct (keeps_set v ms true d2 Hs) as (d3 & He3 & Hk3);
      [destruct (_ && _); unfold ESIF_DOMAIN_TEMP_INVALID_POLL_PERIOD; lia|done|] end.
    rewrite (sbind_some _ _ _ _ _ He3). exists d3. split; [done|]. by destruct Hk3 as [K1 K2 K3 K4]; split; auto.
  - exists d2. split; [done|]. destruct Hk2 as [K1 _ K3 K4]. split; try done. intros _ _ Hne Hany. rewrite Hany in Ea. apply andb_false_iff in Ea as [Ea|Ea]; [|done]. lia.
Qed.

Lemma keeps_period v ms b d : timer_init v = ESIF_OK /\ timer_set v = ESIF_OK /\ 0 <= ms -> polling c b d ->
  exists d', (EsifUpDomain_SetTempPollPeriod v ms ;! sret tt) d = Some (tt, d') /\ polling c false d'.
Proof.
  intros (Hi & Hs & Hms) [Hki Hkt Hkp Hkc]. set (d1 := with_temp_poll (with_period ms (tempPoll d)) d).
  assert (H1 : polling c true d1) by (by split).
  assert (Hr : exists rc d', EsifUpDomain_SetTempPollPeriod v ms d = Some (rc, d') /\ polling c false d').
  { unfold EsifUpDomain_SetTempPollPeriod. unfold mod_temp_poll at 1. rewrite smodify_bind. fold d1. unfold sbind at 1, sget at 1.
    destruct (Z.ltb_spec 0 ms); [|exists ESIF_OK, d1; split; [done|]; split; cbn; [done| |done|done]; intros; lia].
    destruct (pollInitialized (tempPoll d1)) eqn:Ei.
    - destruct (keeps_set v (pollPeriod (tempPoll d1)) true d1 Hs) as (d' & He & Hk); [cbn; lia|done|]. by exists ESIF_OK, d'.
    - apply (keeps_start v true); try done; cbn; [lia|]. intros Hty. cbn in Ei. specialize (Hki Hty). congruence. }
  destruct Hr as (rc & d' & He & Hk). rewrite (sbind_some _ _ _ _ _ He). by exists d'.
Qed.

Lemma keeps_slow v b d : polling c b d -> exists d', (EsifUpDomain_Poll v ;! sret tt) d = Some (tt, d') /\ polling c b d'.
Proof.
  intros Hk. assert (H1 : exists rc d1, (if bool_decide (pollType (tempPoll d) = ESIF_POLL_ECONO) then EsifUpDomain_CheckTemp v else sret ESIF_OK) d = Some (rc, d1) /\
    polling c b d1) by (case_bool_decide; [by apply keeps_check|by exists ESIF_OK, d]).
  destruct H1 as (rc & d1 & He & Hk1). assert (H2 : exists rc d2, EsifUpDomain_Poll v d = Some (rc, d2) /\ polling c b d2).
  { unfold EsifUpDomain_Poll. unfold sbind at 1, sget at 1. rewrite (sbind_some _ _ _ _ _ He). unfold sbind at 1, sget at 1.
    destruct (bool_decide (pollType (statePoll d1) = ESIF_POLL_ECONO)); [|by exists rc, d1]. destruct (check_state_frame v d1) as (rc2 & d2 & -> & Ht & Hp & Hcap).
    exists rc2, d2. split; [done|]. by apply (keeps_frame b d1). }
  destruct H2 as (rc2 & d2 & He2 & Hk2). rewrite (sbind_some _ _ _ _ _ He2). by exists d2.
Qed.

Lemma keeps_step i b d : timers_work i -> polling c b d -> exists d', p_step i d = Some (tt, d') /\ polling c (lapse c b i) d'.
Proof.
  intros Hi Hk. destruct i as [v a|v id t|h|v ms|x| | |v|]; cbn [p_step timers_work] in *.
  - by apply keeps_timer.
  - destruct Hi as [Hi Hs]. destruct (keeps_thresh v id t b d Hi Hs Hk) as (rc & d1 & He & Hk1). rewrite (sbind_some _ _ _ _ _ He). by exists d1.
  - destruct Hk as [Hki Hkt Hkp Hkc]. eexists. split; [done|]. by split.
  - exact (keeps_period v ms b d Hi Hk).
  - unfold EsifUpDomain_SetVirtualTemperature, mod_temp. rewrite smodify_bind. destruct Hk as [Hki Hkt Hkp Hkc].
    unfold sbind, sget, signal. destruct (EsifUpDomain_IsTempOutOfThresholds _ x); (eexists; split; [done|]); by split.
  - eexists. split; [done|]. cbv beta. destruct (decide (pollType (tempPoll d) = ESIF_POLL_UNSUPPORTED)) as [Hty|Hty];
      [rewrite bool_decide_true by done|rewrite bool_decide_false by done]; [by apply (keeps_frame b d)|]. destruct Hk as [Hki Hkt Hkp Hkc]. by split.
  - eexists. split; [done|]. destruct Hk as [Hki Hkt Hkp Hkc]. by split.
  - by apply keeps_slow.
  - eexists. split; [done|]. destruct Hk as [Hki Hkt Hkp Hkc]. by split.
Qed.

Lemma keeps_run l : forall b d, polling c b d -> Forall timers_work l -> exists d', p_run l d = Some (tt, d') /\ polling c (foldl (lapse c) b l) d'.
Proof.
  induction l as [|i l IH]; intros b d Hk Hl; cbn [p_run foldl]; [by exists d|]. apply Forall_cons in Hl as [Hi Hl].
  destruct (keeps_step i b d Hi Hk) as (d1 & He & Hk1). rewrite (sbind_some _ _ _ _ _ He). by apply IH.
Qed.
End Polling.

(** C30: However the calls of clients, the callbacks of the timer and the
    registrations of the slow poll follow each other, as long as timers can be
    created and set: a domain that polls its own temperature (with a period, with a
    trip point set) always has its timer set.  The polling neither dies with a
    callback that takes a reading, whatever the device answers, nor is it forgotten
    when a period or a trip point appears again.  It lapses only with a callback
    that finds the participant of the domain not available, and then only until the
    next polling period or trip point that is set. *)
Theorem polling_goes_on (c : bool) (l : list pinput) (d : EsifUpDomain) :
  polling c false d -> Forall timers_work l ->
  exists d', p_run l d = Some (tt, d') /\ (~ lapsed c l -> polling c false d') /\
    forall v, exists d'', p_step (PTimer v false) d' = Some (tt, d'') /\ pollTimer (tempPoll d'') = None.
Proof.
  intros Hk Hl. destruct (keeps_run c l false d Hk Hl) as (d' & He & Hk'). exists d'. split; [done|]. split; [|intros v; eexists; by split].
  rewrite <- lapsed_spec. by destruct (foldl _ _ _).
Qed.

(* ------------------------------------------------------------------ *)
(** ** Where a run begins *)

(** The detection leaves a domain without trip points, if the device tells its
    hysteresis. *)
Lemma detect_starts v d :
  has_cap (capability_for_domain d) ESIF_CAPABILITY_TYPE_TEMP_STATUS = true -> has_cap (capability_for_domain d) ESIF_CAPABILITY_TYPE_TEMP_THRESHOLD = true ->
  acceptable (dget v GET_TEMPERATURE 255).1 = true -> (dget v GET_TEMPERATURE_THRESHOLD_HYSTERESIS 255).1 = ESIF_OK ->
  tempNotifySent (temp d) = false -> tempLastTempValid (temp d) = false -> pollPeriod (tempPoll d) <> 0 ->
  exists d', EsifUpDomain_TempDetectInit v d = Some (ESIF_OK, d') /\ did d' = did d /\
    at_point (mk_thr None None (esif_temp_abs_to_rel (dget v GET_TEMPERATURE_THRESHOLD_HYSTERESIS 255).2)) [] d'.
Proof.
  intros Hc Hct Ha Hh Hn Hv Hp. unfold EsifUpDomain_TempDetectInit. unfold mod_temp_poll at 1. rewrite smodify_bind.
  rewrite (sbind_some _ _ _ _ _ (cap_detect_spec v ESIF_CAPABILITY_TYPE_TEMP_STATUS GET_TEMPERATURE 255 (with_temp_poll _ d) ltac:(done))).
  cbn [capability_for_domain with_temp_poll]. rewrite Hc, Ha. cbn [negb]. unfold mod_temp. rewrite smodify_bind, Hh. change (negb (ESIF_OK =? ESIF_OK)) with false. cbn iota.
  rewrite smodify_bind. eexists. split; [done|]. split; [done|]. by split.
Qed.

Module TempDemo.
(** A device with a hysteresis of two degrees, at [t] tenths of a degree. *)
Definition at_temp (t : Z) : denv :=
  mk_denv (fun id _ => if id =? GET_TEMPERATURE then (ESIF_OK, t) else if id =? GET_TEMPERATURE_THRESHOLD_HYSTERESIS then (ESIF_OK, 2752) else (ESIF_E_NOT_SUPPORTED, 0))
    (fun _ _ _ => ESIF_OK) ESIF_OK ESIF_OK ESIF_OK.
Definition no_temp : denv := mk_denv (fun id _ => if id =? GET_TEMPERATURE then (ESIF_E_UNSPECIFIED, 0) else (ESIF_E_NOT_SUPPORTED, 0)) (fun _ _ _ => ESIF_OK) ESIF_OK ESIF_OK ESIF_OK.
Definition polled : EsifUpDomain :=
  mk_domain (mk_caps (2 ^ 32 - 1) 32 (replicate 32 1)) (mk_temp 0 4294967295 4294967295 0 2752 false false false)
    (mk_poll 1000 ESIF_POLL_NONE false None) 0 (mk_poll 0 ESIF_POLL_NONE false None) [].
(** Trip points 50 C and 90 C; readings 60, 48 (within hysteresis), 47, 46, 55, 95,
    96, none, none, 95; a virtual temperature of 96.8 and one of 56.8; a hysteresis
    of 146.8 degrees and the lowest trip point, twice read. *)
Definition inputs : list tinput :=
  [TLow (at_temp 0) 3232; THigh (at_temp 0) 3632; TRead (at_temp 3332); TRead (at_temp 3212); TRead (at_temp 3202); TRead (at_temp 3192);
   TRead (at_temp 3282); TRead (at_temp 3682); TRead (at_temp 3692); TRead no_temp; TRead no_temp; TRead (at_temp 3682); TVirtual 3700; TVirtual 3300; THyst 4200; TLow (at_temp 0) 0; TRead (at_temp 1372);
   TRead (at_temp 1372)].
Definition calls : list pinput :=
  [PPeriod (at_temp 0) 1000; PThresh (at_temp 0) 1 3632; PTimer (at_temp 3332) true; PRegister; PTimer (at_temp 3332) true; PUnRegister;
   PThresh (at_temp 0) 0 3232; PTimer (at_temp 3332) false; PPeriod (at_temp 0) 2000; PTimer (at_temp 5282) true].
End TempDemo.


Lemma polling_goes_on_witness : ~ lapsed true TempDemo.calls /\
  exists d', p_run TempDemo.calls TempDemo.polled = Some (tt, d') /\ (~ lapsed true TempDemo.calls -> polling true false d') /\
    forall v, exists d'', p_step (PTimer v false) d' = Some (tt, d'') /\ pollTimer (tempPoll d'') = None.
Proof.
  split; [rewrite <- lapsed_spec; by vm_compute|].
  assert (Hk : polling true false TempDemo.polled) by (split; done).
  assert (Hw : Forall timers_work TempDemo.calls) by (repeat constructor; done).
  exact (polling_goes_on true TempDemo.calls TempDemo.polled Hk Hw).
Defined.

(** Two crossings, a failure, a virtual temperature and the two readings at the
    lowest trip point. *)
Example demo_events : (a_run (mk_thr None None 20) [] TempDemo.inputs).2 = replicate 6 (DEvent ESIF_EVENT_TEMP_THRESHOLD_CROSSED).
Proof. vm_compute. reflexivity. Qed.
(** At 255 C the timer waits longer. *)
Example demo_timer : match p_run TempDemo.calls TempDemo.polled with Some (_, d) => pollTimer (tempPoll d) | None => None end = Some ESIF_DOMAIN_TEMP_INVALID_POLL_PERIOD.
Proof. vm_compute. reflexivity. Qed.

(** Where the device does not tell its hysteresis, the detection returns before it
    marks the trip points as not set, and they are left at 0, as the memory of the
    domain was: the first reading is beyond them and is signalled, though no client
    has asked for anything. *)
Theorem unset_trip_points_signal :
  match (EsifUpDomain_TempDetectInit (DomainDemo.dev [GET_TEMPERATURE_THRESHOLD_HYSTERESIS] ESIF_E_NOT_SUPPORTED ESIF_OK) ;! EsifUpDomain_CheckTemp (TempDemo.at_temp 2982)) DomainDemo.blank with
  | Some (rc, d) => rc = ESIF_OK /\ did d = [DEvent ESIF_EVENT_TEMP_THRESHOLD_CROSSED]
  | None => False
  end.
Proof. vm_compute. auto. Qed.

(** Where the framework does not poll, the domain gives the device the trip point
    less the hysteresis; the delegated action then gives it the request as it came,
    which undoes that. *)
Theorem aux0_request_overrides_hysteresis :
  match EsifSetActionDelegatePat0 (TempDemo.at_temp 3332) (Some 3232)
      (with_temp_poll (with_period 0 (tempPoll TempDemo.polled)) TempDemo.polled) with
  | Some (rc, d) => rc = ESIF_OK /\
      did d = [DSet SET_TEMPERATURE_THRESHOLDS_SUR ESIF_DOMAIN_AUX0 3202; DSet SET_TEMPERATURE_THRESHOLDS_SUR ESIF_DOMAIN_AUX0 3232]
  | None => False
  end.
Proof. vm_compute. auto. Qed.
